(* ===== verification/_CoqProject ===== *)
-Q . S2P
Prelude.v
CString.v
InfraHash.v
InfraSha256.v
InfraSha1.v
InfraMd5.v
InfraState.v
Hal.v
InfraTimer.v
InfraNet.v
InfraString.v
InfraCompat.v
Json.v
InfraCjson.v
InfraCjsonSafe.v
InfraCjsonSpec.v
InfraJson.v
InfraJsonSpec.v
Eff.v
InfraHttpc.v
HttpSpec.v
DmManager.v
OtaLib.v
IotxOta.v
DmOta.v
OtaSafety.v
OtaUpdate.v
OtaLive.v
OtaDeliver.v
OtaSpec.v
Dynreg.v
DynregSpec.v
DmStore.v
DmQueue.v
DmLogic.v
DmSpec.v
DmSafety.v
DmManagerSpec.v
DevSign.v
CoapPacket.v
CoapMessage.v
CoapClient.v
CoapReliable.v
MqttPacket.v
MqttConnect.v
MqttPublish.v
MqttSubscribe.v
MqttTopic.v
MqttState.v
MqttSend.v
MqttRecv.v
MqttSession.v
MqttLogic.v
MqttSendSafe.v
MqttSubSafe.v
MqttRecvSafe.v
MqttSessionSafe.v
MqttApi.v
MqttLife.v
MqttSim.v
MqttSafety.v
MqttWire.v
MqttFrame.v
MqttDeliver.v
MqttRepub.v
MqttFront.v
DevReset.v
MqttFrontSpec.v
MqttFrontSafe.v
Cm.v
CmSafe.v
