(* ===== verification/Prelude.v ===== *)
(** * The IoT client SDK in Rocq

    A model of the core of the SDK under [src/eng], in the configuration of
    [infra/infra_config.h] (heap allocation, TLS, dynamic MQTT buffers, no asynchronous
    protocol stack), with the theorems that make it correct.

    ** The program

    The SDK connects a device to the cloud.  [mqtt] is an MQTT 3.1.1 client: it writes and
    reads packets ([MQTT*.c]) and keeps the session, the subscriptions and the
    publications that wait for their acknowledgement ([iotx_mqtt_client.c]).  [coap] is the
    other transport: messages ([CoAPPacket]) and a client that retransmits
    ([client]).  [dev_sign] computes the credentials of the connection from the device
    identity, with the hash functions of [infra].  [dev_model] is the layer of the
    application on top: a table of devices, a queue of messages for the application and a
    cache of the requests that wait for their response.  The rest of [infra] gives strings,
    timers, JSON, the network connection, an HTTP client, and the global settings.  [ota]
    fetches a new firmware over HTTP when a message announces one, and the device model
    stores and installs it.  [dynamic_register] asks the cloud for the secret of a new
    device, over HTTP.  The application opens one MQTT session for the device and uses it
    through [mqtt/mqtt_api.c].  Everything that touches the hardware goes through the
    [HAL_*] functions of [wrappers].

    ** The files

    - [Prelude]: machine integers, bounded output buffers with the hint database [writes],
      record update, list lemmas, hexadecimal texts for the specifications.  [CString]: NUL-terminated strings in arrays: reading,
      formatting with [sprintf], searching with [strstr], numbers with [atoi].
    - [InfraState]: status codes ([infra_state.h]).  [Hal]: the platform, a class of
      functions on a platform state [E] ([wrappers.h]) and the classes of its documented
      laws: [HalClock], [HalRead], [HalWrite], [HalProgress], [HalMemory], [HalDatagrams],
      [HalStream] (a connection carries the bytes it is given), [HalOnline] (and is made);
      [HalStack], what an array holds that the code does not initialise.
    - [InfraHash], [InfraSha256], [InfraSha1], [InfraMd5]: the hash functions and HMACs.
      The code the three share is modelled once, over a compression function; the
      standards are written from their formulas, and proved equal.
    - [InfraTimer], [InfraNet], [InfraString], [InfraCompat]: [infra_timer.c],
      [infra_net.c], [infra_string.c], [IOT_Ioctl] of [infra_compat.c].
    - [Json]: JSON values and their texts.  [InfraCjson]: the parser and its lookups
      ([infra_cjson.c]); [InfraCjsonSafe]: they stay inside the text, whatever it is;
      [InfraCjsonSpec]: they find what the value has.  [InfraJson]: the scanner
      ([infra_json_parser.c]); [InfraJsonSpec]: the members it finds.
    - [Eff]: the monad of the functions that use the platform, with its rules.
      [InfraHttpc]: the HTTP client ([infra_httpc.c]); [HttpSpec]: what a transfer delivers.
    - [OtaLib], [IotxOta]: the update of the firmware or the configuration ([ota_lib.c],
      [ota_fetch.c]; [iotx_ota.c], [ota_mqtt.c]).  [DmOta]: updates in the device model
      ([dm_ota.c], [dm_fota.c], [dm_cota.c], [dm_opt.c], and the storage of the firmware of
      [HAL_OS_mbed.cpp], over a bootloader that is the class [Ucp]).  [OtaSafety],
      [OtaUpdate]: what every step keeps, whatever the network does; [OtaLive],
      [OtaDeliver]: the steps run on a platform that works; [OtaSpec]: what an update
      promises, and a device to run it on.
    - [Dynreg]: the registration of a device ([dynreg.c]); [DynregSpec]: the request and
      the secret it stores.
    - [DmStore]: the heap and the mutexes of the device model.  [DmQueue]: the queue, the
      cache and the dispatching loop ([dm_ipc.c], [dm_message_cache.c], parts of
      [dm_message.c] and [dm_api.c]); [DmLogic], [DmSpec], [DmSafety]: its rules, the
      bounded queue and the cache it implements, and the theorems.  [DmManager]: the table of
      devices ([dm_manager.c]); [DmManagerSpec]: the map it implements.
    - [DevSign]: [dev_sign_mqtt.c].
    - [CoapPacket], [CoapMessage]: the wire format, and messages built and read through the
      interface ([CoAPPacket/*.c]).  [CoapClient]: requests and responses
      ([Cloud_CoAPMessage.c], [Cloud_CoAPNetwork.c]).  [CoapReliable]: what they promise.
    - [MqttPacket], [MqttConnect], [MqttPublish], [MqttSubscribe]: packets
      ([MQTTPacket.c], [MQTTConnectClient.c], [MQTT*Publish.c], [MQTT*subscribeClient.c]).
      [MqttTopic]: topic checks and matching.
    - [MqttState], [MqttSend], [MqttRecv], [MqttSession]: [iotx_mqtt_client.c]; the data and
      the monad, the sending half, the receiving half, the session and the interface
      [wrapper_mqtt_*].
    - [MqttLogic]: weakest preconditions of that monad and the invariant of the client;
      [MqttSendSafe], [MqttSubSafe], [MqttRecvSafe], [MqttSessionSafe], [MqttApi],
      [MqttLife]: every function keeps it.  [MqttSim]: a platform and two applications to
      run examples on.  [MqttSafety]: what follows for the application.
    - [MqttWire], [MqttFrame], [MqttDeliver], [MqttRepub]: what goes over the network, one
      packet at a time, what is delivered, what is sent again.
    - [MqttFront]: the interface of the application and the report of the firmware version
      ([mqtt_api.c], [infra_report.c]); [DevReset]: the report of a reset ([dev_reset.c]);
      [MqttFrontSpec]: the parameters of a session, [MqttFrontSafe]: the client through
      every sequence of calls.
    - [Cm]: the connectivity manager of the device model and its client ([iotx_cm.c],
      [iotx_cm_mqtt.c], [dm_client_adapter.c]); [CmSafe]: descriptors, connection and client
      through every sequence of calls.

    ** How the model follows the code

    A C integer is a [Z], with conversions written out where the code converts; bytes are
    [Z] between 0 and 255 ([char] is unsigned, as on Arm).  A function that only computes is a function; one that writes through a
    pointer returns the new memory; [None] (or the fault of the client's monad) is a read or
    a write outside an object, so that a theorem that a function returns [Some] is a
    theorem of memory safety.  The functions of the MQTT client are state transformers on
    the client, its globals, the allocated blocks, the mutexes held and the platform; the
    application's callbacks are a class ([App], [CoapApp]) of functions on the same state,
    because they may call back into the client.  Mutexes are modelled for one thread:
    which are held, and in which order they were taken.

    A loop whose end depends on the platform takes fuel, and running out of it is a
    result of its own.  Loops over data use the length of the data, which is enough by
    construction; for the loops over the clock ([read_packet_returns]) it is proved that
    the fuel is enough on a platform whose clock advances or whose reads make progress.
    The nested calls of the JSON parser take 1001 of fuel, one more than the nesting that
    the code allows; the loops of the HTTP client take one more than the bytes that fit their
    buffers, each turn filling at least one.  The loops of an update take the turns they
    are given; [fota_delivers] says how many are enough.

    ** What the theorems show

    Packets (MQTT and CoAP): the serialiser stores exactly the bytes of the protocol or
    refuses the buffer; the parser reads them back; any received bytes are parsed without
    leaving the buffer, with the exceptions that are theorems too
    ([MQTTDeserialize_publish_overrun], [coap_full_datagram_overread]).
    MQTT client: over every sequence of interface calls, on every platform, no double
    free, no leak, no mutex left held ([api_safe]); publishing sends the packet and
    registers it, a PUBACK removes it, a received publication runs exactly the matching
    handlers; reading takes exactly one packet from the stream.
    CoAP client: a request is retransmitted on schedule, dropped after its last attempt, and
    its response goes to its handler once; no datagram leads out of the buffers.
    Hashes: equal to FIPS 180-4, RFC 1321, RFC 2104 for any division into pieces.
    Identity: the credentials are the documented strings and their HMAC.
    JSON: the parser reads nothing outside any text and finds what a path of names and
    indices leads to in the value that the text denotes.
    HTTP: the pieces a transfer hands over are the body of the response, in order and
    complete.
    Updates: a firmware whose installation is reported as a success has the MD5 and at
    least the length that were announced, whatever the server and the network do; one that
    is served arrives, byte for byte; one that fails its check is committed all the same,
    which is a theorem about the code as it is.
    Registration: one signed POST, and the secret of a well-formed answer is stored.
    Application interface: over every sequence of constructions, requests, reports and
    destructions the one client stays consistent and is not used when it is gone
    ([front_safe]); a session has the credentials of the identity, except that with
    dynamic registration on the password of a device that registered before is computed
    with the empty key ([construct_credentials]).
    Connectivity manager: as long as no connection is opened while one is open, the table of
    descriptors leads to the connection, the connection to its parameters and to the client
    of the device, and nothing is used after it is freed ([cm_safe]).
    Device model: queue, cache and dispatching are a bounded queue and a cache with
    time-outs measured by the readings of the clock, without a leak; a time-out does not
    lower the count of the cache, which so fills up; the table of devices is a map without
    equal names.

    ** Not modelled

    AES ([infra_aes.c]) and the TLS, HTTP/2 and platform libraries under [wrappers] are
    third-party code: parameters, or outside.  Logging and event reports change no state of the
    modelled parts.  Not modelled: the gateway and the messages of the thing model in
    [dev_model], its connections over CoAP, the authentication of the CoAP client
    ([iotx_coap_api.c]) and of HTTP publishing ([iotx_http_api.c]), the CoAP server and
    HTTP/2 streams.  Registration over MQTT, the pre-authentication of [mqtt_api.c], the
    asynchronous network stack and firmware updates over CoAP are not in the active
    configuration. *)

From Stdlib Require Export ZArith Lia Ascii String.
From stdpp Require Export base tactics list numbers option strings.
#[global] Open Scope Z_scope.

(** ** Machine integers

    A C integer is a [Z]; a conversion to an unsigned type of width [w] is the
    remainder modulo [2^w], written out at each place the code converts. *)

Definition u8 (z : Z) : Z := z mod 256.
Definition u16 (z : Z) : Z := z mod 65536.
Definition u32 (z : Z) : Z := z mod 4294967296.

(** Conversion to a two's complement 32-bit [int]. *)
Definition i32 (z : Z) : Z :=
  let r := z mod 4294967296 in if r <? 2147483648 then r else r - 4294967296.

(** Conversion to a two's complement 8-bit [signed char]. *)
Definition s8 (z : Z) : Z :=
  let r := z mod 256 in if r <? 128 then r else r - 256.

(** Linear arithmetic with division, remainder and their truncating forms. *)
Ltac dlia := Z.to_euclidean_division_equations; lia.

Definition is_byte (z : Z) : Prop := 0 <= z < 256.

(** A list of object bytes. *)
Definition bytes_ok (l : list Z) : Prop := Forall is_byte l.

Lemma bytes_ok_check l :
  forallb (fun b => (0 <=? b) && (b <? 256)) l = true -> bytes_ok l.
Proof.
  intros H. apply Forall_forall. intros x Hx. rewrite forallb_forall in H.
  specialize (H x (proj1 (list_elem_of_In _ _) Hx)). unfold is_byte. lia.
Qed.

Lemma u8_range z : is_byte (u8 z).
Proof. unfold is_byte, u8; dlia. Qed.

Lemma u8_small z : is_byte z -> u8 z = z.
Proof. unfold is_byte, u8; intros; apply Z.mod_small; lia. Qed.

Lemma u16_small z : 0 <= z < 65536 -> u16 z = z.
Proof. intros; apply Z.mod_small; lia. Qed.

Lemma u32_small z : 0 <= z < 4294967296 -> u32 z = z.
Proof. intros; apply Z.mod_small; lia. Qed.

Lemma u16_range z : 0 <= u16 z < 65536.
Proof. unfold u16; dlia. Qed.

Lemma u32_range z : 0 <= u32 z < 4294967296.
Proof. unfold u32; dlia. Qed.

Lemma i32_small z : -2147483648 <= z < 2147483648 -> i32 z = z.
Proof.
  intros; unfold i32; destruct (Z.ltb_spec (z mod 4294967296) 2147483648); dlia.
Qed.

Create HintDb cint.
#[export] Hint Resolve u8_range u16_range u32_range : cint.

(** ** Literal strings as bytes *)

Definition byte_of_ascii (a : ascii) : Z := Z.of_N (N_of_ascii a).

(** The bytes of a string literal, without its terminating NUL. *)
Fixpoint lit (s : string) : list Z :=
  match s with
  | EmptyString => []
  | String a s' => byte_of_ascii a :: lit s'
  end.

(** What a C string argument may be: bytes, none of them NUL (the list stops
    before the terminator). *)
Definition cstr_ok (s : list Z) : Prop := Forall (fun b => 0 < b < 256) s.

Lemma cstr_ok_bytes s : cstr_ok s -> bytes_ok s.
Proof. unfold cstr_ok, bytes_ok, is_byte. intros H. eapply Forall_impl; [exact H|]. simpl; lia. Qed.

Lemma cstr_ok_check l : forallb (fun b => (0 <? b) && (b <? 256)) l = true -> cstr_ok l.
Proof.
  intros H. apply Forall_forall. intros x Hx. rewrite forallb_forall in H.
  specialize (H x (proj1 (list_elem_of_In _ _) Hx)). simpl. lia.
Qed.

#[export] Hint Resolve cstr_ok_bytes : cint.

(** ** Bounded output buffers

    A buffer being written is its whole memory and the offset of the write
    pointer from its start.  A store past the end of the memory is undefined
    behaviour: [None]. *)

Record wbuf := WBuf { wb_mem : list Z; wb_pos : nat }.

Definition put (b : Z) (w : wbuf) : option wbuf :=
  if decide (wb_pos w < List.length (wb_mem w))%nat
  then Some (WBuf (<[wb_pos w := u8 b]> (wb_mem w)) (S (wb_pos w)))
  else None.

Fixpoint puts (bs : list Z) (w : wbuf) : option wbuf :=
  match bs with
  | [] => Some w
  | b :: bs' => w' ← put b w; puts bs' w'
  end.

(** [memcpy(ptr, src, len)] followed by [ptr += len]: [src] is the object the
    source pointer points into, from the pointer on; a negative [len] becomes a
    huge [size_t], and reading past the object is undefined. *)
Definition cpy (src : list Z) (len : Z) (w : wbuf) : option wbuf :=
  if (len <? 0) || (Z.of_nat (List.length src) <? len) then None
  else puts (take (Z.to_nat len) src) w.

(** The effect of a successful run of writes. *)
Definition blit (bs : list Z) (w : wbuf) : wbuf :=
  WBuf (take (wb_pos w) (wb_mem w) ++ bs
          ++ drop (wb_pos w + List.length bs) (wb_mem w))
       (wb_pos w + List.length bs).

Lemma puts_app bs1 bs2 w : puts (bs1 ++ bs2) w = puts bs1 w ≫= puts bs2.
Proof.
  revert w; induction bs1 as [|b bs1 IH]; intros w; simpl; [done|].
  destruct (put b w); simpl; auto.
Qed.

Lemma put_puts b w : put b w = puts [b] w.
Proof. simpl. by destruct (put b w). Qed.

Lemma cpy_all src w : cpy src (Z.of_nat (List.length src)) w = puts src w.
Proof.
  unfold cpy. rewrite (proj2 (Z.ltb_ge _ _)) by lia.
  rewrite (proj2 (Z.ltb_ge _ _)) by lia. simpl.
  by rewrite Nat2Z.id, firstn_all.
Qed.

Lemma blit_length bs w :
  (wb_pos w + List.length bs <= List.length (wb_mem w))%nat ->
  List.length (wb_mem (blit bs w)) = List.length (wb_mem w).
Proof. intros. simpl. rewrite !length_app, length_take, length_drop. lia. Qed.

(** The writes succeed exactly when they fit, and then change only their bytes. *)
Lemma puts_spec bs w :
  bytes_ok bs ->
  puts bs w =
    if decide (wb_pos w + List.length bs <= List.length (wb_mem w))%nat
    then Some (blit bs w)
    else if decide (bs = []) then Some w else None.
Proof.
  revert w; induction bs as [|b bs IH]; intros [m p] Hok; simpl.
  - destruct (decide (p + 0 <= _)%nat); [|done].
    unfold blit; simpl. by rewrite Nat.add_0_r, take_drop.
  - apply Forall_cons in Hok as [Hb Hok]. unfold put; simpl.
    destruct (decide (p < List.length m)%nat) as [Hp|Hp]; simpl; last first.
    { rewrite !decide_False by first [lia|discriminate]. done. }
    rewrite IH by done. simpl. rewrite length_insert.
    destruct (decide (S p + List.length bs <= List.length m)%nat) as [Hl|Hl].
    + rewrite !decide_True by lia. unfold blit; simpl.
      rewrite (u8_small b) by done.
      assert (<[p:=b]> m = take p m ++ b :: drop (S p) m) as Hi
        by (by apply insert_take_drop).
      assert (List.length (take p m) = p) as Ht by (rewrite length_take; lia).
      rewrite Hi, take_app, drop_app, Ht.
      rewrite (take_ge (take p m)), (drop_ge (take p m)) by lia.
      replace (S p - p)%nat with 1%nat by lia.
      replace (S (p + List.length bs) - p)%nat with (S (List.length bs)) by lia.
      replace (p + S (List.length bs))%nat with (S (p + List.length bs)) by lia.
      cbn [drop take app]. rewrite drop_drop, <-app_assoc. by rewrite take_0.
    + destruct bs as [|b' bs]; [simpl in Hl; lia|].
      rewrite !decide_False by (simpl in *; first [lia|discriminate]). done.
Qed.

Lemma puts_fits bs w :
  bytes_ok bs ->
  (wb_pos w + List.length bs <= List.length (wb_mem w))%nat ->
  puts bs w = Some (blit bs w).
Proof. intros Hok Hl. rewrite puts_spec by done. by rewrite decide_True. Qed.

(** Writing from the start of a buffer. *)
Lemma puts_start bs m :
  bytes_ok bs -> (List.length bs <= List.length m)%nat ->
  puts bs (WBuf m 0) = Some (WBuf (bs ++ drop (List.length bs) m) (List.length bs)).
Proof. intros. by rewrite puts_fits. Qed.

(** Copying to the start of a buffer. *)
Lemma cpy_start src len m :
  0 <= len <= Z.of_nat (List.length src) -> len <= Z.of_nat (List.length m) ->
  bytes_ok (take (Z.to_nat len) src) ->
  cpy src len (WBuf m 0)
  = Some (WBuf (take (Z.to_nat len) src ++ drop (Z.to_nat len) m) (Z.to_nat len)).
Proof.
  intros Hl Hm Hb. unfold cpy. rewrite (proj2 (Z.ltb_ge len 0)), (proj2 (Z.ltb_ge _ len)) by lia.
  cbn [orb]. rewrite puts_start by (first [done|rewrite length_take; lia]).
  rewrite length_take, Nat.min_l by lia. done.
Qed.

(** Every write keeps the size of the memory and never moves backwards. *)
Lemma puts_mem_length bs w w' :
  puts bs w = Some w' ->
  List.length (wb_mem w') = List.length (wb_mem w)
  /\ wb_pos w' = (wb_pos w + List.length bs)%nat.
Proof.
  revert w; induction bs as [|b bs IH]; intros w; simpl.
  - intros [= <-]. lia.
  - unfold put. destruct (decide _); simpl; [|done].
    intros [H1 H2]%IH. simpl in *. rewrite length_insert in H1. lia.
Qed.

(** *** Writers

    [writes f bs]: the writing code [f] behaves as storing the bytes [bs] one
    after the other, wherever the write pointer stands, faulting exactly when
    they do not fit.  The lemmas of the hint database [writes] compose these
    facts along the code, so the bytes of a packet are found by proof search. *)
Definition writes (f : wbuf -> option wbuf) (bs : list Z) : Prop :=
  forall w, f w = puts bs w.

Lemma writes_nil : writes (fun w => Some w) [].
Proof. done. Qed.

Lemma writes_bind f g bs1 bs2 :
  writes f bs1 -> writes g bs2 ->
  writes (fun w => w' ← f w; g w') (bs1 ++ bs2).
Proof.
  intros Hf Hg w. rewrite Hf, puts_app.
  destruct (puts bs1 w); simpl; [apply Hg | done].
Qed.

Lemma writes_if (b : bool) f g bs1 bs2 :
  writes f bs1 -> writes g bs2 ->
  writes (fun w => if b then f w else g w) (if b then bs1 else bs2).
Proof. by destruct b. Qed.

Lemma writes_put b : writes (put b) [b].
Proof. intros w. apply put_puts. Qed.

Lemma writes_eq f bs1 bs2 : writes f bs1 -> bs1 = bs2 -> writes f bs2.
Proof. by intros ? <-. Qed.

(** A writer started at the beginning of a buffer that is large enough. *)
Lemma writes_start f bs m :
  writes f bs -> bytes_ok bs -> (List.length bs <= List.length m)%nat ->
  f (WBuf m 0) = Some (WBuf (bs ++ drop (List.length bs) m) (List.length bs)).
Proof. intros Hf ??. rewrite Hf. by apply puts_start. Qed.

Create HintDb writes.
#[export] Hint Resolve writes_nil writes_bind writes_if writes_put : writes.

(** ** Small generic lemmas *)

Lemma lookup_drop_cons {A} (l : list A) (i : nat) (x : A) :
  l !! i = Some x -> drop i l = x :: drop (S i) l.
Proof. apply drop_S. Qed.

Lemma drop_cons_lookup {A} (l r : list A) (i : nat) (x : A) :
  drop i l = x :: r -> l !! i = Some x /\ drop (S i) l = r.
Proof.
  intros H. split.
  - rewrite <-(Nat.add_0_r i), <-lookup_drop, H. done.
  - replace (S i) with (i + 1)%nat by lia. rewrite <-drop_drop, H. done.
Qed.

Lemma lookup_app_add {A} (l k : list A) (i : nat) :
  (l ++ k) !! (List.length l + i)%nat = k !! i.
Proof. rewrite lookup_app_r by lia. f_equal. lia. Qed.

Lemma drop_app_add {A} (l k : list A) (i : nat) :
  drop (List.length l + i) (l ++ k) = drop i k.
Proof. by rewrite <-drop_drop, drop_app_length. Qed.

Lemma bytes_ok_app l1 l2 : bytes_ok (l1 ++ l2) <-> bytes_ok l1 /\ bytes_ok l2.
Proof. apply Forall_app. Qed.

Lemma bytes_ok_take n l : bytes_ok l -> bytes_ok (take n l).
Proof. apply Forall_take. Qed.

Lemma bytes_ok_drop n l : bytes_ok l -> bytes_ok (drop n l).
Proof. apply Forall_drop. Qed.

#[export] Hint Resolve bytes_ok_take bytes_ok_drop : cint.

(** A boolean property of a bounded range of integers is checked by computing
    it at each point: byte-level identities are proved this way. *)
Definition upto (n : nat) : list Z := Z.of_nat <$> seq 0 n.

Lemma upto_check (P : Z -> bool) (n : nat) :
  forallb P (upto n) = true -> forall z, 0 <= z < Z.of_nat n -> P z = true.
Proof.
  intros H z Hz. rewrite forallb_forall in H. apply H.
  apply list_elem_of_In, list_elem_of_fmap. exists (Z.to_nat z).
  split; [lia|]. apply elem_of_seq. lia.
Qed.

(** A disjoint [lor] is a sum. *)
Lemma lor_shiftl a b n : 0 <= n -> 0 <= b < 2 ^ n -> Z.lor (Z.shiftl a n) b = a * 2 ^ n + b.
Proof.
  intros Hn Hb. rewrite Z.shiftl_mul_pow2 by done.
  pose proof (Z.add_lor_land b (a * 2 ^ n)) as Hs. rewrite Z.lor_comm.
  assert (Z.land b (a * 2 ^ n) = 0) as Hl; [|lia].
  apply Z.bits_inj'. intros i Hi. rewrite Z.land_spec, Z.bits_0.
  destruct (Z.lt_ge_cases i n) as [Hin|Hin].
  - rewrite Z.mul_pow2_bits_low by lia. apply andb_false_r.
  - destruct (Z.eq_dec b 0) as [->|Hn0]; [by rewrite Z.testbit_0_l|].
    rewrite (Z.bits_above_log2 b i); [done|lia|].
    apply Z.lt_le_trans with n; [|done]. apply Z.log2_lt_pow2; lia.
Qed.

Lemma lor_128 d : 0 <= d < 128 -> Z.lor d 128 = d + 128.
Proof.
  intros. apply Z.eqb_eq.
  apply (upto_check (fun d => Z.lor d 128 =? d + 128) 128); [reflexivity|lia].
Qed.

Lemma land_127 c : is_byte c -> Z.land c 127 = c mod 128.
Proof. intros. change 127 with (Z.ones 7). by rewrite Z.land_ones. Qed.

Lemma land_128 c : is_byte c -> (Z.land c 128 =? 0) = (c <? 128).
Proof.
  intros. apply eqb_true_iff.
  apply (upto_check (fun c => Bool.eqb (Z.land c 128 =? 0) (c <? 128)) 256);
    [reflexivity|exact H].
Qed.

(** ** Tactics *)

(** Case analysis on the first boolean comparison of integers in sight. *)
Ltac zcase :=
  match goal with
  | |- context [Z.ltb ?a ?b] => destruct (Z.ltb_spec a b)
  | |- context [Z.leb ?a ?b] => destruct (Z.leb_spec a b)
  | |- context [Z.eqb ?a ?b] => destruct (Z.eqb_spec a b)
  | |- context [Z.gtb ?a ?b] => rewrite (Z.gtb_ltb a b)
  | |- context [Z.geb ?a ?b] => rewrite (Z.geb_leb a b)
  end.

Ltac zcases := repeat (zcase; try lia).

(** ** Record update

    [r <| f := v |>] is the record [r] with field [f] set to [v].  A record type
    declares its [Eta] expansion once; the setter of a field is then found by
    abstracting that field in the expansion. *)

Class Eta (R : Type) := eta_of : R -> R.
Class Setter {R T : Type} (proj : R -> T) := upd : (T -> T) -> R -> R.
Arguments upd {R T} proj {_} f r.

Ltac find_setter proj :=
  match type of proj with
  | ?R -> ?T =>
      let e := constr:(_ : Eta R) in
      let body := eval hnf in e in
      let abs := eval pattern proj in body in
      match abs with
      | ?F _ =>
          let res := eval cbv beta in
            (fun (f : T -> T) (r : R) => F (fun x => f (proj x)) r) in
          exact res
      end
  end.

#[export] Hint Extern 1 (@Setter _ _ ?proj) => find_setter proj : typeclass_instances.

Notation "r <| f := v |>" := (upd f (fun _ => v) r)
  (at level 1, left associativity, format "r  <| f  :=  v |>").
Notation "r <| f ::= g |>" := (upd f g r)
  (at level 1, left associativity, format "r  <| f  ::=  g |>").

Lemma list_insert_mid {A} (p q : list A) (x y : A) :
  <[List.length p := x]> (p ++ y :: q) = p ++ x :: q.
Proof. rewrite insert_app_r_alt by lia. by rewrite Nat.sub_diag. Qed.

Lemma Forall_filter_keep {A} (P Q : A -> Prop) `{!forall x, Decision (Q x)} (l : list A) :
  Forall P l -> Forall P (filter Q l).
Proof. rewrite !Forall_forall. intros HP x [_ Hx]%list_elem_of_filter. by apply HP. Qed.

(** An update that keeps a projection keeps the list of projections. *)
Lemma fmap_keep {A B} (g : A -> B) (f : A -> A) (l : list A) :
  (forall x, g (f x) = g x) -> g <$> (f <$> l) = g <$> l.
Proof. intros H. rewrite <-list_fmap_compose. apply list_fmap_ext. intros; apply H. Qed.

Lemma filter_all {A} (P : A -> Prop) `{!forall x, Decision (P x)} (l : list A) :
  Forall P l -> filter P l = l.
Proof.
  induction 1 as [|x l Hx _ IH]; [done|]. rewrite filter_cons_True by done. by rewrite IH.
Qed.

(** ** Hexadecimal texts

    What the encoders of the code are specified by: two digits for a byte, the high one
    first. *)

Definition lower_digits : list Z := lit "0123456789abcdef".
Definition upper_digits : list Z := lit "0123456789ABCDEF".

Definition hexadecimal (digits bs : list Z) : list Z :=
  (fun d => default 0 (digits !! Z.to_nat d)) <$> (bs ≫= fun b => [b / 16; b mod 16]).

Lemma hexadecimal_cons digits b bs : hexadecimal digits (b :: bs) = hexadecimal digits [b] ++ hexadecimal digits bs.
Proof. done. Qed.

(** An encoder that writes a byte after the other is checked at every byte. *)
Lemma hexadecimal_encoder (f : list Z -> list Z) digits bs :
  f [] = [] -> (forall b l, f (b :: l) = f [b] ++ f l) ->
  forallb (fun b => bool_decide (f [b] = hexadecimal digits [b])) (upto 256) = true ->
  bytes_ok bs -> f bs = hexadecimal digits bs.
Proof.
  intros H0 Hc Hall. induction 1 as [|b bs Hb _ IH]; [done|].
  rewrite Hc, hexadecimal_cons, IH. f_equal.
  pose proof (upto_check (fun b => bool_decide (f [b] = hexadecimal digits [b])) 256 Hall b Hb) as H.
  by apply bool_decide_eq_true in H.
Qed.
