(* ===== verification/CString.v ===== *)
(** * CString: NUL-terminated strings in character arrays

    The idiom [memcpy(a + strlen(a), s, strlen(s))], with which the device identity and
    the connection parameters are assembled: it appends to the string in the array [a],
    which stays terminated only as long as a zero byte is left behind it; the functions of
    [string.h] with which strings are read; and decimal numbers as [printf] formats them.
    [None] is a read or a write outside the array. *)

From S2P Require Import Prelude.

(** [strlen] of the array from its start: the index of the first NUL. *)
Fixpoint arr_strlen (a : list Z) : option nat :=
  match a with
  | [] => None
  | c :: a' => if c =? 0 then Some O else S <$> arr_strlen a'
  end.

(** The string in the array. *)
Definition arr_str (a : list Z) : option (list Z) := n ← arr_strlen a; Some (take n a).

(** [memcpy(a + strlen(a), s, strlen(s))] for a terminated string [s] elsewhere. *)
Definition arr_append (a s : list Z) : option (list Z) :=
  n ← arr_strlen a; w ← puts s (WBuf a n); Some (wb_mem w).

(** [memcpy(a, s, strlen(s))] *)
Definition arr_copy (a s : list Z) : option (list Z) := w ← puts s (WBuf a 0); Some (wb_mem w).

(** [memset(a, 0, n)] of an array of [n] bytes. *)
Definition zeros (n : nat) : list Z := replicate n 0.

(** The array of [n] bytes that holds the string [s] and zeros. *)
Definition strbuf (n : nat) (s : list Z) : list Z := s ++ zeros (n - List.length s).

Lemma strbuf_length n s : (List.length s <= n)%nat -> List.length (strbuf n s) = n.
Proof. intros. unfold strbuf, zeros. rewrite length_app, length_replicate. lia. Qed.

Lemma strbuf_nil n : strbuf n [] = zeros n.
Proof. unfold strbuf. cbn. by rewrite Nat.sub_0_r. Qed.

Lemma cstr_ok_app s t : cstr_ok (s ++ t) <-> cstr_ok s /\ cstr_ok t.
Proof. apply Forall_app. Qed.

Lemma arr_strlen_app s r : cstr_ok s -> arr_strlen (s ++ 0 :: r) = Some (List.length s).
Proof.
  induction 1 as [|c s Hc Hs IH]; [done|]. cbn [app arr_strlen].
  rewrite (proj2 (Z.eqb_neq c 0)) by lia. by rewrite IH.
Qed.

(** The string is found exactly when a terminator is left. *)
Lemma arr_strlen_strbuf n s :
  cstr_ok s -> (List.length s <= n)%nat ->
  arr_strlen (strbuf n s) = if decide (List.length s < n)%nat then Some (List.length s) else None.
Proof.
  intros Hs Hn. unfold strbuf, zeros. destruct (decide (List.length s < n)%nat) as [Hl|Hl].
  - replace (n - List.length s)%nat with (S (n - List.length s - 1)) by lia.
    cbn [replicate]. by apply arr_strlen_app.
  - replace (n - List.length s)%nat with 0%nat by lia. rewrite app_nil_r. clear Hn Hl.
    induction Hs as [|c s Hc Hs IH]; [done|]. cbn [arr_strlen].
    rewrite (proj2 (Z.eqb_neq c 0)) by lia. by rewrite IH.
Qed.

Lemma puts_strbuf n s t :
  bytes_ok t -> (List.length s + List.length t <= n)%nat ->
  puts t (WBuf (strbuf n s) (List.length s))
  = Some (WBuf (strbuf n (s ++ t)) (List.length s + List.length t)).
Proof.
  intros Ht Hl. rewrite puts_fits; [|done|cbn; rewrite strbuf_length; lia].
  unfold blit, strbuf, zeros. cbn [wb_pos wb_mem]. do 2 f_equal.
  rewrite take_app_length, drop_app_add, drop_replicate, length_app, <-app_assoc.
  do 3 f_equal. lia.
Qed.

(** Appending to a terminated string. *)
Lemma arr_append_strbuf n s t :
  cstr_ok s -> bytes_ok t -> (List.length s < n)%nat -> (List.length s + List.length t <= n)%nat ->
  arr_append (strbuf n s) t = Some (strbuf n (s ++ t)).
Proof.
  intros Hs Ht Hl Hn. unfold arr_append. rewrite arr_strlen_strbuf by (done || lia).
  rewrite decide_True by done. cbn [mbind option_bind]. by rewrite puts_strbuf.
Qed.

(** Appending to a string that fills its array: the terminator is looked for past it. *)
Lemma arr_append_full s t : cstr_ok s -> arr_append s t = None.
Proof.
  intros Hs. unfold arr_append.
  replace s with (strbuf (List.length s) s)
    by (unfold strbuf, zeros; by rewrite Nat.sub_diag, app_nil_r).
  rewrite arr_strlen_strbuf, decide_False by (done || lia). done.
Qed.

Lemma arr_copy_zeros n t :
  bytes_ok t -> (List.length t <= n)%nat -> arr_copy (zeros n) t = Some (strbuf n t).
Proof.
  intros Ht Hl. unfold arr_copy. rewrite <-strbuf_nil. change 0%nat with (List.length (@nil Z)).
  by rewrite puts_strbuf.
Qed.

Lemma arr_str_strbuf n s : cstr_ok s -> (List.length s < n)%nat -> arr_str (strbuf n s) = Some s.
Proof.
  intros Hs Hl. unfold arr_str. rewrite arr_strlen_strbuf, decide_True by (done || lia).
  cbn [mbind option_bind]. unfold strbuf. by rewrite take_app_length.
Qed.

(** A string literal. *)
Lemma lit_cstr s : forallb (fun b => (0 <? b) && (b <? 256)) (lit s) = true -> cstr_ok (lit s).
Proof. apply cstr_ok_check. Qed.

(** ** Reading strings

    The functions of [string.h] that the readers use, on the rest of an object from a
    pointer on.  [strchr] gives the distance to the character found. *)
Fixpoint strchr (a : list Z) (c : Z) : option (option nat) :=
  match a with
  | [] => None
  | x :: a' =>
      if x =? c then Some (Some O)
      else if x =? 0 then Some None
      else r ← strchr a' c; Some (option_map S r)
  end.

(** The distance to the first occurrence of [s] in [h]. *)
Fixpoint find_sub (h s : list Z) : option nat :=
  if bool_decide (take (List.length s) h = s) then Some O
  else match h with
       | [] => None
       | _ :: h' => option_map S (find_sub h' s)
       end.

(** [strstr] of the string at the start of [a]. *)
Definition strstr (a s : list Z) : option (option nat) := h ← arr_str a; Some (find_sub h s).

(** [strncmp(a, s, strlen(s)) == 0] for a string literal [s]. *)
Fixpoint strn_eq (a s : list Z) {struct s} : option bool :=
  match s with
  | [] => Some true
  | c :: s' => match a with
               | [] => None
               | x :: a' => if x =? c then strn_eq a' s' else Some false
               end
  end.

(** [memcmp(a, b, n) == 0] *)
Definition mem_eq (a b : list Z) (n : Z) : option bool :=
  if (n <? 0) || (Z.of_nat (List.length a) <? n) || (Z.of_nat (List.length b) <? n) then None
  else Some (bool_decide (take (Z.to_nat n) a = take (Z.to_nat n) b)).

(** [atoi]: white space, a sign, and decimal digits; a number outside [int] is undefined. *)
Fixpoint atoi_digits (a : list Z) (acc : Z) : option Z :=
  match a with
  | [] => None
  | c :: a' => if (48 <=? c) && (c <=? 57) then atoi_digits a' (acc * 10 + (c - 48)) else Some acc
  end.

Fixpoint atoi_space (a : list Z) : option (list Z) :=
  match a with
  | [] => None
  | c :: a' => if (c =? 32) || ((9 <=? c) && (c <=? 13)) then atoi_space a' else Some a
  end.

Definition atoi (a : list Z) : option Z :=
  a ← atoi_space a;
  n ← match a with
      | 45 :: a' => n ← atoi_digits a' 0; Some (- n)
      | 43 :: a' => atoi_digits a' 0
      | _ => atoi_digits a 0
      end;
  if (-2147483648 <=? n) && (n <? 2147483648) then Some n else None.

Lemma strn_eq_app s r : strn_eq (s ++ r) s = Some true.
Proof. induction s as [|c s IH]; [done|]. cbn [app strn_eq]. by rewrite Z.eqb_refl. Qed.

Lemma strchr_found s c r :
  Forall (fun x => x <> c /\ x <> 0) s -> strchr (s ++ c :: r) c = Some (Some (List.length s)).
Proof.
  induction 1 as [|x s [Hc H0] _ IH]; cbn [app strchr].
  - by rewrite Z.eqb_refl.
  - rewrite (proj2 (Z.eqb_neq x c) Hc), (proj2 (Z.eqb_neq x 0) H0), IH. done.
Qed.

Lemma strchr_absent s c r :
  c <> 0 -> Forall (fun x => x <> c /\ x <> 0) s -> strchr (s ++ 0 :: r) c = Some None.
Proof.
  intros Hc0. induction 1 as [|x s [Hc H0] _ IH]; cbn [app strchr].
  - by rewrite (proj2 (Z.eqb_neq 0 c) ltac:(lia)).
  - rewrite (proj2 (Z.eqb_neq x c) Hc), (proj2 (Z.eqb_neq x 0) H0), IH. done.
Qed.

(** ** Formatting *)

Fixpoint dec_digits (fuel : nat) (n : Z) : list Z :=
  match fuel with
  | O => []
  | S f => if n <? 10 then [48 + n] else dec_digits f (n / 10) ++ [48 + n mod 10]
  end.

(** [%d] of an [int], [%u] of an [unsigned int]. *)
Definition fmt_d (n : Z) : list Z :=
  if n <? 0 then 45 :: dec_digits 20 (- n) else dec_digits 20 n.

(** The arguments of [printf]: a string for [%s], an [int] for [%d], and for [%.*s] a
    precision with the rest of an object from a pointer on. *)
Inductive parg := PS (s : list Z) | PD (n : Z) | PN (n : Z) (p : list Z).

(** What [%.*s] prints: at most the precision, up to a NUL. *)
Fixpoint prec (n : nat) (p : list Z) : option (list Z) :=
  match n with
  | O => Some []
  | S n' =>
      match p with
      | [] => None
      | c :: p' => if c =? 0 then Some [] else r ← prec n' p'; Some (c :: r)
      end
  end.

(** The text of a format with the directives [%s], [%d] and [%.*s]; a negative precision
    is none.  Other directives, and missing arguments, are not defined. *)
Fixpoint sprintf (fmt : list Z) (args : list parg) : option (list Z) :=
  match fmt with
  | [] => Some []
  | c :: f =>
      if negb (c =? 37) then r ← sprintf f args; Some (c :: r)
      else
        match f with
        | d :: f1 =>
            if d =? 115 then
              match args with PS s :: a => r ← sprintf f1 a; Some (s ++ r) | _ => None end
            else if d =? 100 then
              match args with PD n :: a => r ← sprintf f1 a; Some (fmt_d n ++ r) | _ => None end
            else if d =? 46 then
              match f1 with
              | x :: y :: f2 =>
                  if (x =? 42) && (y =? 115) then
                    match args with
                    | PN n p :: a =>
                        s ← (if n <? 0 then arr_str p else prec (Z.to_nat n) p);
                        r ← sprintf f2 a; Some (s ++ r)
                    | _ => None
                    end
                  else None
              | _ => None
              end
            else None
        | [] => None
        end
  end.

(** What [snprintf] stores of a text in a buffer of a size that is not zero, without the
    NUL. *)
Definition snprintf_text (size : Z) (text : list Z) : list Z := take (Z.to_nat (size - 1)) text.

Lemma dec_digits_length k fuel n :
  0 <= n < 10 ^ Z.of_nat k -> (0 < k)%nat -> (List.length (dec_digits fuel n) <= k)%nat.
Proof.
  revert fuel n. induction k as [|k IH]; intros fuel n Hn Hk; [lia|].
  destruct fuel as [|fuel]; cbn [dec_digits]; [cbn; lia|].
  destruct (Z.ltb_spec n 10) as [Hl|Hl]; [cbn; lia|]. rewrite length_app. cbn [List.length].
  destruct k as [|k]; [change (10 ^ Z.of_nat 1) with 10 in Hn; lia|].
  specialize (IH fuel (n / 10)). rewrite (Nat2Z.inj_succ (S k)), Z.pow_succ_r in Hn by lia.
  assert (0 <= n / 10 < 10 ^ Z.of_nat (S k)) as Hd.
  { split; [apply Z.div_pos; lia|apply Z.div_lt_upper_bound; lia]. }
  specialize (IH Hd ltac:(lia)). lia.
Qed.

(** An [int] takes at most eleven characters. *)
Lemma fmt_d_length n : -2147483648 <= n < 2147483648 -> (List.length (fmt_d n) <= 11)%nat.
Proof.
  intros Hn. unfold fmt_d. assert (10 ^ Z.of_nat 10 = 10000000000) as H10 by done.
  destruct (Z.ltb_spec n 0); cbn [List.length].
  - pose proof (dec_digits_length 10 20 (- n) ltac:(lia) ltac:(lia)). lia.
  - pose proof (dec_digits_length 10 20 n ltac:(lia) ltac:(lia)). lia.
Qed.

Lemma prec_all s r : Forall (fun c => c <> 0) s -> prec (List.length s) (s ++ r) = Some s.
Proof.
  induction 1 as [|c s Hc _ IH]; [done|]. cbn [List.length app prec].
  rewrite (proj2 (Z.eqb_neq c 0)) by done. by rewrite IH.
Qed.

(** A literal part of a format. *)
Lemma sprintf_lit s fmt args :
  forallb (fun c => negb (c =? 37)) s = true ->
  sprintf (s ++ fmt) args = r ← sprintf fmt args; Some (s ++ r).
Proof.
  induction s as [|c s IH]; intros H.
  - cbn [app]. by destruct (sprintf fmt args).
  - cbn [forallb] in H. apply andb_true_iff in H as [Hc Hs]. cbn [app sprintf]. rewrite Hc, (IH Hs).
    by destruct (sprintf fmt args).
Qed.

(** ** Searching *)

(** Whether a format has the directives for a list of strings ([true]) and integers, and no
    other. *)
Fixpoint fmt_ok (fmt : list Z) (kinds : list bool) : bool :=
  match fmt with
  | [] => true
  | c :: f =>
      if negb (c =? 37) then fmt_ok f kinds
      else
        match f, kinds with
        | d :: f1, k :: kinds => (if k : bool then d =? 115 else d =? 100) && fmt_ok f1 kinds
        | _, _ => false
        end
  end.

Definition parg_kind (a : parg) : option bool :=
  match a with PS _ => Some true | PD _ => Some false | PN _ _ => None end.

Lemma sprintf_some fmt args kinds :
  parg_kind <$> args = Some <$> kinds -> fmt_ok fmt kinds = true -> exists text, sprintf fmt args = Some text.
Proof.
  assert (forall k fmt, (List.length fmt <= k)%nat -> forall args kinds,
    parg_kind <$> args = Some <$> kinds -> fmt_ok fmt kinds = true -> exists text, sprintf fmt args = Some text) as H;
    [|by apply (H (List.length fmt))].
  clear. induction k as [|k IH]; intros [|c f] Hl args kinds Ha Hf; cbn [List.length] in Hl; try lia; try by eexists.
  cbn [sprintf fmt_ok] in *. destruct (negb (c =? 37)).
  { destruct (IH f ltac:(lia) args kinds Ha Hf) as [t ->]. by eexists. }
  destruct f as [|d f1]; [done|]. destruct kinds as [|b kinds]; [done|]. destruct args as [|a args]; [done|].
  cbn [List.length] in Hl. injection Ha as Ha1 Ha2. apply andb_true_iff in Hf as [Hd Hf].
  destruct (IH f1 ltac:(lia) args kinds Ha2 Hf) as [t Ht].
  destruct a as [s|n|n p], b; try discriminate; apply Z.eqb_eq in Hd as ->; cbn [Z.eqb Pos.eqb]; rewrite Ht; by eexists.
Qed.

Lemma find_sub_eq h s :
  find_sub h s = if bool_decide (take (List.length s) h = s) then Some O
                 else match h with [] => None | _ :: h' => option_map S (find_sub h' s) end.
Proof. by destruct h. Qed.

Lemma find_sub_spec h s k : find_sub h s = Some k -> take (List.length s) (drop k h) = s.
Proof.
  revert k. induction h as [|c h IH]; intros k; rewrite find_sub_eq; case_bool_decide as Hd.
  - intros [= <-]. exact Hd.
  - done.
  - intros [= <-]. exact Hd.
  - destruct (find_sub h s) as [j|]; [|done]. intros [= <-]. by apply IH.
Qed.

Lemma find_sub_bound h s k : find_sub h s = Some k -> (List.length s <= List.length h - k)%nat.
Proof. intros H%find_sub_spec. rewrite <-H at 1. rewrite length_take, length_drop. lia. Qed.

Lemma find_sub_app h s r k : find_sub h s = Some k -> find_sub (h ++ r) s = Some k.
Proof.
  revert k. induction h as [|c h IH]; intros k H; pose proof (find_sub_bound _ _ _ H) as Hb;
    rewrite find_sub_eq in H |- *; case_bool_decide as Hd.
  - destruct s; [|done]. by rewrite bool_decide_eq_true_2 by done.
  - done.
  - injection H as <-. rewrite take_app_le by (cbn in *; lia). by rewrite bool_decide_eq_true_2.
  - destruct (find_sub h s) as [j|] eqn:Hj; [|done]. injection H as <-.
    destruct (decide (List.length s <= List.length (c :: h))%nat) as [Hl|Hl]; [|cbn in *; lia].
    rewrite take_app_le by done. rewrite bool_decide_eq_false_2 by done. cbn [app]. by rewrite (IH j).
Qed.

(** A prefix that is too short for the first occurrence has none. *)
Lemma find_sub_take h s k n :
  find_sub h s = Some k -> (n < k + List.length s)%nat -> find_sub (take n h) s = None.
Proof.
  intros H Hn. destruct (find_sub (take n h) s) as [j|] eqn:Hj; [|done].
  pose proof (find_sub_bound _ _ _ Hj) as Hb. pose proof (find_sub_app _ _ (drop n h) _ Hj) as Ha.
  rewrite take_drop, H in Ha. injection Ha as <-. rewrite length_take in Hb. destruct s; cbn in *; [|lia].
  rewrite find_sub_eq in H. cbn [List.length take] in H. rewrite bool_decide_eq_true_2 in H by done.
  injection H as <-. lia.
Qed.

Lemma arr_str_prefix p q : cstr_ok p -> 0 ∈ q -> exists t, arr_str (p ++ q) = Some (p ++ t).
Proof.
  intros Hp Hq. assert (exists t, arr_str q = Some t) as [t Ht].
  { induction q as [|c q IH]; [by apply not_elem_of_nil in Hq|]. unfold arr_str. cbn [arr_strlen].
    destruct (Z.eqb_spec c 0) as [->|Hc]; [by exists []|].
    apply elem_of_cons in Hq as [?|Hq]; [done|]. destruct (IH Hq) as [t Ht]. unfold arr_str in Ht.
    destruct (arr_strlen q); [|done]. by eexists. }
  exists t. induction Hp as [|c p Hc Hp IH]; [done|]. unfold arr_str in IH |- *. cbn [app arr_strlen].
  rewrite (proj2 (Z.eqb_neq c 0)) by lia. destruct (arr_strlen (p ++ q)); [|done].
  cbn [mbind option_bind fmap option_fmap option_map] in IH |- *. injection IH as IH. cbn [take]. by rewrite IH.
Qed.

Lemma strstr_prefix p q s k : cstr_ok p -> 0 ∈ q -> find_sub p s = Some k -> strstr (p ++ q) s = Some (Some k).
Proof.
  intros Hp Hq Hk. destruct (arr_str_prefix p q Hp Hq) as [t Ht]. unfold strstr. rewrite Ht.
  cbn [mbind option_bind]. by rewrite (find_sub_app _ _ _ _ Hk).
Qed.

Lemma strstr_absent p q s : cstr_ok p -> find_sub p s = None -> strstr (p ++ 0 :: q) s = Some None.
Proof.
  intros Hp Hk. unfold strstr, arr_str. rewrite arr_strlen_app by done. cbn [mbind option_bind].
  by rewrite take_app_length, Hk.
Qed.

(** ** Reading numbers *)

Lemma atoi_digits_stop d r acc :
  Forall (fun c => 48 <= c <= 57) d -> (forall c r', r = c :: r' -> ~ 48 <= c <= 57) -> r <> [] ->
  atoi_digits (d ++ r) acc = Some (fold_left (fun a c => a * 10 + (c - 48)) d acc).
Proof.
  intros Hd Hr Hne. revert acc. induction Hd as [|c d Hc Hd IH]; intros acc; cbn [app atoi_digits fold_left].
  - destruct r as [|c r]; [done|]. specialize (Hr c r eq_refl). cbn [atoi_digits].
    destruct (Z.leb_spec 48 c), (Z.leb_spec c 57); cbn [andb fold_left]; (done || lia).
  - rewrite (proj2 (Z.leb_le 48 c)), (proj2 (Z.leb_le c 57)) by lia. cbn [andb]. apply IH.
Qed.

Lemma dec_digits_value fuel n :
  0 <= n < 10 ^ Z.of_nat fuel ->
  Forall (fun c => 48 <= c <= 57) (dec_digits fuel n)
  /\ fold_left (fun a c => a * 10 + (c - 48)) (dec_digits fuel n) 0 = n
  /\ (fuel <> O -> dec_digits fuel n <> []).
Proof.
  revert n. induction fuel as [|f IH]; intros n Hn; cbn [dec_digits].
  - change (10 ^ Z.of_nat 0) with 1 in Hn. split; [constructor|]. cbn. split; [lia|done].
  - rewrite Nat2Z.inj_succ, Z.pow_succ_r in Hn by lia. destruct (Z.ltb_spec n 10) as [Hl|Hl].
    + split; [repeat constructor; lia|]. cbn. split; [lia|done].
    + assert (0 <= n / 10 < 10 ^ Z.of_nat f) as Hd.
      { split; [apply Z.div_pos; lia|apply Z.div_lt_upper_bound; lia]. }
      destruct (IH _ Hd) as (H1 & H2 & _). split; [|split].
      * apply Forall_app. split; [done|]. repeat constructor; dlia.
      * rewrite fold_left_app, H2. cbn [fold_left]. dlia.
      * intros _ Heq. by apply app_eq_nil in Heq as [_ ?].
Qed.

(** [atoi] of what [%d] prints, before something that is no digit. *)
Lemma atoi_dec n r :
  0 <= n < 2147483648 -> (forall c r', r = c :: r' -> ~ 48 <= c <= 57) -> r <> [] ->
  atoi (dec_digits 20 n ++ r) = Some n.
Proof.
  intros Hn Hr Hne. destruct (dec_digits_value 20 n) as (Hd & Hv & Hnn).
  { assert (2147483648 < 10 ^ Z.of_nat 20) by reflexivity. lia. }
  specialize (Hnn ltac:(done)). unfold atoi. destruct (dec_digits 20 n) as [|c d] eqn:E; [done|].
  rewrite <-E in *. clear Hnn. assert (48 <= c <= 57) as Hc by (rewrite E in Hd; by inversion Hd).
  assert (atoi_space (dec_digits 20 n ++ r) = Some (dec_digits 20 n ++ r)) as ->.
  { rewrite E. cbn [app atoi_space]. rewrite (proj2 (Z.eqb_neq c 32)), (proj2 (Z.leb_gt c 13)) by lia.
    by rewrite andb_false_r. }
  cbn [mbind option_bind].
  assert (match dec_digits 20 n ++ r with
          | 45 :: a' => n0 ← atoi_digits a' 0; Some (- n0)
          | 43 :: a' => atoi_digits a' 0
          | _ => atoi_digits (dec_digits 20 n ++ r) 0 end = atoi_digits (dec_digits 20 n ++ r) 0) as ->.
  { rewrite E. cbn [app].
    assert (c = 48 \/ c = 49 \/ c = 50 \/ c = 51 \/ c = 52 \/ c = 53 \/ c = 54 \/ c = 55 \/ c = 56 \/ c = 57)
      as Hcase by lia.
    by destruct_or!; subst c. }
  rewrite atoi_digits_stop, Hv by done. cbn [mbind option_bind].
  by rewrite (proj2 (Z.leb_le _ n)), (proj2 (Z.ltb_lt n _)) by lia.
Qed.
