(* ===== verification/InfraHash.v ===== *)
(** * InfraHash: the common part of the hash functions

    [eng/infra/infra_sha256.c], [infra_sha1.c] and [infra_md5.c] are the same code
    around three compression functions: a context that counts the bytes, a buffer
    for the part of a block that is not full yet, and padding at the end.  This file
    models that code once, for any compression function, and proves that it computes
    the iterated hash of the standards (FIPS 180-4, RFC 1321) of all the bytes it was
    given, however they were cut into pieces; and the HMAC around it (RFC 2104). *)

From Stdlib Require Import ZifyNat.
From S2P Require Import Prelude.

(** ** 32-bit words *)

Definition word (z : Z) : Prop := 0 <= z < 4294967296.

Lemma u32_word z : word (u32 z).
Proof. apply u32_range. Qed.

Lemma word_shiftr z n : 0 <= n -> word z -> word (Z.shiftr z n).
Proof.
  unfold word. intros Hn Hz. rewrite Z.shiftr_div_pow2 by done.
  pose proof (Z.pow_pos_nonneg 2 n ltac:(lia) Hn).
  split; [apply Z.div_pos; lia|]. apply Z.le_lt_trans with z; [|lia].
  apply Z.div_le_upper_bound; nia.
Qed.

(** A word is a number without bits from the 32nd on. *)
Lemma word_bits z : 0 <= z -> (forall i, 32 <= i -> Z.testbit z i = false) -> word z.
Proof.
  intros Hz Hb. split; [done|]. destruct (Z.eq_dec z 0) as [->|Hn]; [done|].
  apply Z.log2_lt_pow2 with (b := 32); [lia|].
  destruct (Z.lt_ge_cases (Z.log2 z) 32) as [|Hl]; [done|].
  specialize (Hb _ Hl). rewrite Z.bit_log2 in Hb by lia. done.
Qed.

Lemma word_high z i : word z -> 32 <= i -> Z.testbit z i = false.
Proof.
  intros [H0 H1] Hi. destruct (Z.eq_dec z 0) as [->|Hn]; [apply Z.testbit_0_l|].
  apply Z.bits_above_log2; [done|].
  apply Z.lt_le_trans with 32; [|done]. apply Z.log2_lt_pow2; lia.
Qed.

Lemma word_land x y : word x -> word (Z.land x y).
Proof.
  intros Hx. apply word_bits.
  - apply Z.land_nonneg. left. apply Hx.
  - intros i Hi. by rewrite Z.land_spec, (word_high x).
Qed.

Lemma word_lor x y : word x -> word y -> word (Z.lor x y).
Proof.
  intros Hx Hy. apply word_bits.
  - apply Z.lor_nonneg. split; [apply Hx|apply Hy].
  - intros i Hi. by rewrite Z.lor_spec, (word_high x), (word_high y).
Qed.

Lemma word_lxor x y : word x -> word y -> word (Z.lxor x y).
Proof.
  intros Hx Hy. apply word_bits.
  - apply Z.lxor_nonneg. split; intros; [apply Hy|apply Hx].
  - intros i Hi. by rewrite Z.lxor_spec, (word_high x), (word_high y).
Qed.

(** The mask of a word. *)
Lemma land_mask x : word x -> Z.land x 0xFFFFFFFF = x.
Proof.
  intros Hx. change 0xFFFFFFFF with (Z.ones 32). rewrite Z.land_ones by lia.
  by apply Z.mod_small.
Qed.

Create HintDb words.
#[export] Hint Resolve u32_word word_shiftr word_land word_lor word_lxor : words.
#[export] Hint Extern 1 (0 <= _) => lia : words.

(** Words as bytes: [GET_UINT32_BE], [PUT_UINT32_BE] and the little-endian macros of
    [infra_md5.c]. *)
Definition GET_UINT32_BE (b : list Z) (i : nat) : option Z :=
  b0 ← b !! i; b1 ← b !! (i + 1)%nat; b2 ← b !! (i + 2)%nat; b3 ← b !! (i + 3)%nat;
  Some (Z.lor (Z.lor (Z.lor (u32 (Z.shiftl b0 24)) (u32 (Z.shiftl b1 16)))
                     (u32 (Z.shiftl b2 8))) b3).

Definition GET_UINT32_LE (b : list Z) (i : nat) : option Z :=
  b0 ← b !! i; b1 ← b !! (i + 1)%nat; b2 ← b !! (i + 2)%nat; b3 ← b !! (i + 3)%nat;
  Some (Z.lor (Z.lor (Z.lor b0 (u32 (Z.shiftl b1 8))) (u32 (Z.shiftl b2 16)))
              (u32 (Z.shiftl b3 24))).

(** The four bytes stored. *)
Definition PUT_UINT32_BE (n : Z) : list Z :=
  [u8 (Z.shiftr n 24); u8 (Z.shiftr n 16); u8 (Z.shiftr n 8); u8 n].

Definition PUT_UINT32_LE (n : Z) : list Z :=
  [u8 (Z.land n 0xFF); u8 (Z.land (Z.shiftr n 8) 0xFF);
   u8 (Z.land (Z.shiftr n 16) 0xFF); u8 (Z.land (Z.shiftr n 24) 0xFF)].

(** Their arithmetic meaning. *)
Definition be_word (b : list Z) : Z := foldl (fun n x => 256 * n + x) 0 b.
Definition le_word (b : list Z) : Z := foldr (fun x n => x + 256 * n) 0 b.

Fixpoint be_bytes (n : nat) (z : Z) : list Z :=
  match n with O => [] | S n' => be_bytes n' (z / 256) ++ [z mod 256] end.

Fixpoint le_bytes (n : nat) (z : Z) : list Z :=
  match n with O => [] | S n' => z mod 256 :: le_bytes n' (z / 256) end.

Lemma lookup_four (b : list Z) (i : nat) :
  (i + 4 <= List.length b)%nat -> bytes_ok (take 4 (drop i b)) ->
  exists b0 b1 b2 b3,
    b !! i = Some b0 /\ b !! (i + 1)%nat = Some b1 /\ b !! (i + 2)%nat = Some b2
    /\ b !! (i + 3)%nat = Some b3 /\ take 4 (drop i b) = [b0; b1; b2; b3]
    /\ is_byte b0 /\ is_byte b1 /\ is_byte b2 /\ is_byte b3.
Proof.
  intros Hl Hb.
  assert (List.length (take 4 (drop i b)) = 4%nat) as Ht
    by (rewrite length_take, length_drop; lia).
  destruct (drop i b) as [|b0 [|b1 [|b2 [|b3 l]]]] eqn:Hd; try (cbn in Ht; lia).
  assert (forall k, (k < 4)%nat -> b !! (i + k)%nat = (b0 :: b1 :: b2 :: b3 :: l) !! k) as Hk
    by (intros; by rewrite <-lookup_drop, Hd).
  exists b0, b1, b2, b3. rewrite <-(Nat.add_0_r i) at 1.
  rewrite !Hk by lia. cbn in Hb. unfold bytes_ok in Hb. rewrite !Forall_cons in Hb.
  destruct Hb as (? & ? & ? & ? & _). done.
Qed.

Lemma GET_UINT32_BE_word b i :
  (i + 4 <= List.length b)%nat -> bytes_ok (take 4 (drop i b)) ->
  GET_UINT32_BE b i = Some (be_word (take 4 (drop i b))).
Proof.
  intros Hl Hb. destruct (lookup_four b i Hl Hb) as
    (b0 & b1 & b2 & b3 & H0 & H1 & H2 & H3 & -> & ? & ? & ? & ?).
  unfold GET_UINT32_BE. rewrite H0, H1, H2, H3. cbn. f_equal. unfold is_byte in *.
  unfold u32. rewrite !(Z.mod_small (Z.shiftl _ _)) by (rewrite Z.shiftl_mul_pow2; lia).
  rewrite <-!Z.lor_assoc, (lor_shiftl b2 b3 8) by lia.
  rewrite (lor_shiftl b1 _ 16), (lor_shiftl b0 _ 24); lia.
Qed.

Lemma GET_UINT32_LE_word b i :
  (i + 4 <= List.length b)%nat -> bytes_ok (take 4 (drop i b)) ->
  GET_UINT32_LE b i = Some (le_word (take 4 (drop i b))).
Proof.
  intros Hl Hb. destruct (lookup_four b i Hl Hb) as
    (b0 & b1 & b2 & b3 & H0 & H1 & H2 & H3 & -> & ? & ? & ? & ?).
  unfold GET_UINT32_LE. rewrite H0, H1, H2, H3. cbn. f_equal. unfold is_byte in *.
  unfold u32. rewrite !(Z.mod_small (Z.shiftl _ _)) by (rewrite Z.shiftl_mul_pow2; lia).
  rewrite (Z.lor_comm b0), (lor_shiftl b1 b0 8) by lia.
  rewrite (Z.lor_comm (b1 * _ + _)), (lor_shiftl b2 _ 16) by lia.
  rewrite (Z.lor_comm (b2 * _ + _)), (lor_shiftl b3 _ 24); lia.
Qed.

Lemma PUT_UINT32_BE_bytes n : PUT_UINT32_BE n = be_bytes 4 n.
Proof.
  unfold PUT_UINT32_BE, u8. cbn [be_bytes app]. rewrite !Z.shiftr_div_pow2 by lia.
  by rewrite !Z.div_div by lia.
Qed.

Lemma PUT_UINT32_LE_bytes n : PUT_UINT32_LE n = le_bytes 4 n.
Proof.
  unfold PUT_UINT32_LE, u8. cbn [le_bytes]. change 0xFF with (Z.ones 8).
  rewrite !Z.land_ones, !Z.shiftr_div_pow2 by lia. change (2 ^ 8) with 256.
  by rewrite !Z.mod_mod, !Z.div_div by lia.
Qed.

Lemma be_bytes_length n z : List.length (be_bytes n z) = n.
Proof. revert z; induction n; intros; cbn; [done|]. rewrite length_app, IHn. cbn. lia. Qed.

Lemma le_bytes_length n z : List.length (le_bytes n z) = n.
Proof. revert z; induction n; intros; cbn; by rewrite ?IHn. Qed.

Lemma be_bytes_ok n z : bytes_ok (be_bytes n z).
Proof.
  revert z; induction n; intros; cbn; [constructor|]. apply bytes_ok_app. split; [done|].
  constructor; [apply u8_range|constructor].
Qed.

Lemma le_bytes_ok n z : bytes_ok (le_bytes n z).
Proof.
  revert z; induction n as [|n IH]; intros; cbn; [constructor|].
  constructor; [apply u8_range|apply IH].
Qed.

Lemma le_bytes_add a b z : le_bytes (a + b) z = le_bytes a z ++ le_bytes b (z / 256 ^ Z.of_nat a).
Proof.
  revert z; induction a as [|a IH]; intros z; cbn [le_bytes app Nat.add].
  - by rewrite Z.div_1_r.
  - rewrite IH. do 2 f_equal. rewrite Z.div_div by lia.
    rewrite Nat2Z.inj_succ, Z.pow_succ_r by lia. done.
Qed.

Lemma be_bytes_add a b z : be_bytes (a + b) z = be_bytes a (z / 256 ^ Z.of_nat b) ++ be_bytes b z.
Proof.
  revert a z; induction b as [|b IH]; intros a z.
  - by rewrite Nat.add_0_r, Z.div_1_r, app_nil_r.
  - rewrite Nat.add_succ_r. cbn [be_bytes]. rewrite IH, <-app_assoc. do 2 f_equal.
    rewrite Z.div_div by lia. rewrite Nat2Z.inj_succ, Z.pow_succ_r by lia. done.
Qed.

Lemma be_bytes_u32 z : be_bytes 4 (u32 z) = be_bytes 4 z.
Proof.
  rewrite <-!PUT_UINT32_BE_bytes. unfold PUT_UINT32_BE, u8, u32.
  rewrite !Z.shiftr_div_pow2 by lia.
  f_equal; [|f_equal; [|f_equal; [|f_equal]]]; dlia.
Qed.

Lemma le_bytes_u32 z : le_bytes 4 (u32 z) = le_bytes 4 z.
Proof.
  rewrite <-!PUT_UINT32_LE_bytes. unfold PUT_UINT32_LE, u8, u32. change 0xFF with (Z.ones 8).
  rewrite !Z.land_ones, !Z.shiftr_div_pow2 by lia.
  f_equal; [|f_equal; [|f_equal; [|f_equal]]]; dlia.
Qed.

(** The words of a block. *)
Definition be_words (block : list Z) : list Z :=
  (fun i => be_word (take 4 (drop (4 * i) block))) <$> seq 0 16.

Definition le_words (block : list Z) : list Z :=
  (fun i => le_word (take 4 (drop (4 * i) block))) <$> seq 0 16.

Lemma be_word_word b : bytes_ok b -> (List.length b <= 4)%nat -> word (be_word b).
Proof.
  intros Hb Hl. unfold be_word.
  assert (forall l n, bytes_ok l -> 0 <= n -> 0 <= foldl (fun n x => 256 * n + x) n l
            < (n + 1) * 256 ^ Z.of_nat (List.length l)) as H.
  { induction l as [|x l IH]; intros n Hok Hn; [cbn; lia|].
    apply Forall_cons in Hok as [Hx Hok]. unfold is_byte in Hx. cbn [foldl List.length].
    specialize (IH (256 * n + x) Hok ltac:(lia)).
    rewrite Nat2Z.inj_succ, Z.pow_succ_r by lia.
    pose proof (Z.pow_pos_nonneg 256 (Z.of_nat (List.length l)) ltac:(lia) ltac:(lia)).
    split; [lia|]. nia. }
  specialize (H b 0 Hb ltac:(lia)).
  pose proof (Z.pow_le_mono_r 256 (Z.of_nat (List.length b)) 4 ltac:(lia) ltac:(lia)).
  unfold word. change 4294967296 with (256 ^ 4). lia.
Qed.

Lemma le_word_be b : le_word b = be_word (rev b).
Proof.
  unfold be_word. induction b as [|x b IH]; [done|]. cbn [rev]. rewrite foldl_app, <-IH.
  change (x + 256 * le_word b = 256 * le_word b + x). lia.
Qed.

Lemma le_word_word b : bytes_ok b -> (List.length b <= 4)%nat -> word (le_word b).
Proof.
  intros Hb Hl. rewrite le_word_be. apply be_word_word; [|by rewrite length_rev].
  by apply Forall_rev.
Qed.

Lemma be_words_length block : List.length (be_words block) = 16%nat.
Proof. done. Qed.

Lemma block_word block i :
  bytes_ok block -> bytes_ok (take 4 (drop (4 * i) block))
  /\ (List.length (take 4 (drop (4 * i) block)) <= 4)%nat.
Proof. intros Hb. split; [by apply bytes_ok_take, bytes_ok_drop|]. rewrite length_take. lia. Qed.

Lemma be_words_word block : bytes_ok block -> Forall word (be_words block).
Proof.
  intros Hb. apply Forall_fmap, Forall_forall. intros i _.
  by apply be_word_word; apply block_word.
Qed.

Lemma le_words_word block : bytes_ok block -> Forall word (le_words block).
Proof.
  intros Hb. apply Forall_fmap, Forall_forall. intros i _.
  by apply le_word_word; apply block_word.
Qed.

(** They are what the macros read. *)
Lemma be_words_get data i :
  (64 <= List.length data)%nat -> bytes_ok (take 64 data) -> (i < 16)%nat ->
  GET_UINT32_BE data (4 * i) = be_words (take 64 data) !! i.
Proof.
  intros Hl Hb Hi. unfold be_words. rewrite list_lookup_fmap, lookup_seq_lt by done.
  assert (take 4 (drop (4 * i) (take 64 data)) = take 4 (drop (4 * i) data)) as E
    by (rewrite !take_drop_commute, take_take; do 2 f_equal; lia).
  cbn [fmap option_fmap option_map]. rewrite Nat.add_0_l, E.
  apply GET_UINT32_BE_word; [lia|]. rewrite <-E. by apply block_word.
Qed.

Lemma le_words_get data i :
  (64 <= List.length data)%nat -> bytes_ok (take 64 data) -> (i < 16)%nat ->
  GET_UINT32_LE data (4 * i) = le_words (take 64 data) !! i.
Proof.
  intros Hl Hb Hi. unfold le_words. rewrite list_lookup_fmap, lookup_seq_lt by done.
  assert (take 4 (drop (4 * i) (take 64 data)) = take 4 (drop (4 * i) data)) as E
    by (rewrite !take_drop_commute, take_take; do 2 f_equal; lia).
  cbn [fmap option_fmap option_map]. rewrite Nat.add_0_l, E.
  apply GET_UINT32_LE_word; [lia|]. rewrite <-E. by apply block_word.
Qed.

(** *** Message schedules

    A word computed from the sixteen before it, [n] times. *)
Section Schedule.

Context (next : (nat -> Z) -> Z).

Fixpoint schedule (n : nat) (W : list Z) : list Z :=
  match n with
  | O => W
  | S n' => schedule n' (W ++ [next (fun k => default 0 (W !! (List.length W - k)%nat))])
  end.

Lemma schedule_length n W : List.length (schedule n W) = (n + List.length W)%nat.
Proof.
  revert W; induction n as [|n IH]; intros W; [done|]. cbn [schedule].
  rewrite IH, length_app. cbn. lia.
Qed.

Lemma schedule_prefix n W i :
  (i < List.length W)%nat -> schedule n W !! i = W !! i.
Proof.
  revert W; induction n as [|n IH]; intros W Hi; [done|]. cbn [schedule].
  rewrite IH by (rewrite length_app; lia). by rewrite lookup_app_l.
Qed.

Hypothesis next_word : forall f, word (next f).
Hypothesis next_ext :
  forall f g, (forall k, (1 <= k <= 16)%nat -> f k = g k) -> next f = next g.

Lemma schedule_word n W : Forall word W -> Forall word (schedule n W).
Proof.
  revert W; induction n as [|n IH]; intros W HW; [done|]. cbn [schedule].
  apply IH, Forall_app. by rewrite Forall_singleton.
Qed.

Lemma schedule_lookup n W i :
  (16 <= List.length W <= i)%nat -> (i < List.length W + n)%nat ->
  schedule n W !! i = Some (next (fun k => default 0 (schedule n W !! (i - k)%nat))).
Proof.
  revert W; induction n as [|n IH]; intros W Hl Hi; [lia|].
  destruct (decide (i = List.length W)) as [->|Hne].
  - cbn [schedule]. rewrite schedule_prefix by (rewrite length_app; cbn; lia).
    rewrite lookup_app_r, Nat.sub_diag by lia. cbn [lookup list_lookup]. f_equal.
    apply next_ext. intros k Hk. rewrite schedule_prefix by (rewrite length_app; cbn; lia).
    by rewrite lookup_app_l by lia.
  - cbn [schedule]. apply IH; rewrite length_app; cbn; lia.
Qed.

End Schedule.


(** *** Rotations *)

(** [(x >> n) | (x << (32 - n))] rotates to the right. *)
Lemma rotate_right x n :
  word x -> 0 < n < 32 ->
  Z.lor (Z.shiftr x n) (u32 (Z.shiftl x (32 - n)))
  = x / 2 ^ n + (x * 2 ^ (32 - n)) mod 4294967296.
Proof.
  intros Hx Hn. unfold u32. rewrite Z.shiftl_mul_pow2, Z.shiftr_div_pow2 by lia.
  assert (4294967296 = 2 ^ n * 2 ^ (32 - n)) as E
    by (rewrite <-Z.pow_add_r by lia; by replace (n + (32 - n)) with 32 by lia).
  pose proof (Z.pow_pos_nonneg 2 n ltac:(lia) ltac:(lia)).
  pose proof (Z.pow_pos_nonneg 2 (32 - n) ltac:(lia) ltac:(lia)).
  rewrite E, Z.mul_mod_distr_r, <-Z.shiftl_mul_pow2, Z.lor_comm by lia.
  rewrite lor_shiftl; [|lia|].
  - rewrite Z.shiftl_mul_pow2 by lia. lia.
  - unfold word in Hx. split; [apply Z.div_pos; lia|]. apply Z.div_lt_upper_bound; lia.
Qed.

(** [(x << n) | (x >> (32 - n))] rotates to the left. *)
Lemma rotate_left x n :
  word x -> 0 < n < 32 ->
  Z.lor (u32 (Z.shiftl x n)) (Z.shiftr x (32 - n))
  = (x * 2 ^ n) mod 4294967296 + x / 2 ^ (32 - n).
Proof.
  intros Hx Hn. rewrite Z.lor_comm. pose proof (rotate_right x (32 - n) Hx ltac:(lia)) as H.
  replace (32 - (32 - n)) with n in H by lia. rewrite H. lia.
Qed.

(** The complement of a word. *)
Lemma complement_word x : word x -> 4294967295 - x = Z.ldiff (Z.ones 32) x.
Proof.
  intros Hx. change 4294967295 with (Z.ones 32). apply Z.sub_nocarry_ldiff.
  apply Z.bits_inj'. intros i Hi. rewrite Z.ldiff_spec, Z.bits_0.
  destruct (Z.lt_ge_cases i 32) as [Hl|Hl].
  - rewrite Z.ones_spec_low by lia. by rewrite andb_false_r.
  - by rewrite word_high.
Qed.

(** Equalities of bitwise expressions on words, bit by bit. *)
Ltac wordwise :=
  apply Z.bits_inj'; intros ?i ?Hi;
  rewrite ?Z.lor_spec, ?Z.land_spec, ?Z.lxor_spec, ?Z.ldiff_spec, ?Z.lor_spec, ?Z.land_spec,
    ?Z.lxor_spec, ?Z.ldiff_spec by done;
  match goal with i : Z |- _ => destruct (Z.lt_ge_cases i 32) end;
  [rewrite ?Z.ones_spec_low by lia|rewrite ?Z.ones_spec_high, ?word_high by first [lia|done]];
  repeat match goal with |- context [Z.testbit ?x ?j] => destruct (Z.testbit x j) end; done.

(** One step of a fold, as an equation: rewriting with it leaves the tables of constants
    alone. *)
Lemma foldl_cons {A B} (f : A -> B -> A) (l : list B) (x : B) (a : A) :
  foldl f a (x :: l) = foldl f (f a x) l.
Proof. done. Qed.

(** ** The context and its operations *)

Record hash_context := HashContext
  { h_total0 : Z;          (** [total[2]] *)
    h_total1 : Z;
    h_state : list Z;
    h_buffer : list Z }.   (** 64 bytes *)

#[export] Instance eta_hash_context : Eta hash_context := fun c =>
  HashContext (h_total0 c) (h_total1 c) (h_state c) (h_buffer c).

(** [memset(ctx, 0, sizeof *ctx)], for a state of [n] words. *)
Definition hash_zero (n : nat) : hash_context :=
  HashContext 0 0 (replicate n 0) (replicate 64 0).

(** The padding table. *)
Definition hash_padding : list Z := 0x80 :: replicate 63 0.

Section Operations.

(** [process state data]: the new state; [data] is the object from the pointer on. *)
Context (process : list Z -> list Z -> option (list Z)).

Definition process_data (data : list Z) (ctx : hash_context) : option hash_context :=
  state ← process (h_state ctx) data; Some (ctx <| h_state := state |>).

(** [memcpy(ctx->buffer + left, input, n)] *)
Definition buffer_copy (left : Z) (input : list Z) (n : Z) (ctx : hash_context)
    : option hash_context :=
  w ← cpy input n (WBuf (h_buffer ctx) (Z.to_nat left));
  Some (ctx <| h_buffer := wb_mem w |>).

(** [while (ilen >= 64) { ... }] *)
Fixpoint update_loop (fuel : nat) (ctx : hash_context) (input : list Z) (ilen : Z)
    : option (hash_context * list Z * Z) :=
  match fuel with
  | O => None
  | S fuel' =>
      if 64 <=? ilen then
        ctx ← process_data input ctx;
        update_loop fuel' ctx (drop 64 input) (ilen - 64)
      else Some (ctx, input, ilen)
  end.

Definition hash_update (ctx : hash_context) (input : list Z) (ilen : Z)
    : option hash_context :=
  if ilen =? 0 then Some ctx
  else
    let left := Z.land (h_total0 ctx) 0x3F in
    let fill := 64 - left in
    let total0 := Z.land (u32 (h_total0 ctx + ilen)) 0xFFFFFFFF in
    let total1 := if total0 <? ilen then u32 (h_total1 ctx + 1) else h_total1 ctx in
    let ctx := ctx <| h_total0 := total0 |> <| h_total1 := total1 |> in
    '(ctx, input, ilen, left) ←
      (if negb (left =? 0) && (fill <=? ilen) then
         ctx ← buffer_copy left input fill ctx;
         ctx ← process_data (h_buffer ctx) ctx;
         Some (ctx, drop (Z.to_nat fill) input, ilen - fill, 0)
       else Some (ctx, input, ilen, left));
    '(ctx, input, ilen) ← update_loop (S (Z.to_nat (ilen / 64))) ctx input ilen;
    if 0 <? ilen then buffer_copy left input ilen ctx else Some ctx.

(** The part of the [finish] functions up to the output: the bit count is stored by
    [msglen], which takes [high] and [low]. *)
Definition hash_pad (msglen : Z -> Z -> list Z) (ctx : hash_context) : option hash_context :=
  let high := Z.lor (Z.shiftr (h_total0 ctx) 29) (u32 (Z.shiftl (h_total1 ctx) 3)) in
  let low := u32 (Z.shiftl (h_total0 ctx) 3) in
  let msglen := msglen high low in
  let last := Z.land (h_total0 ctx) 0x3F in
  let padn := if last <? 56 then 56 - last else 120 - last in
  ctx ← hash_update ctx hash_padding padn;
  hash_update ctx msglen 8.

End Operations.

(** The two byte orders of the count. *)
Definition msglen_be (high low : Z) : list Z := PUT_UINT32_BE high ++ PUT_UINT32_BE low.
Definition msglen_le (high low : Z) : list Z := PUT_UINT32_LE low ++ PUT_UINT32_LE high.

(** ** The iterated hash of the standards *)

(** Blocks of 64 bytes, one after the other. *)
Fixpoint chain (compress : list Z -> list Z -> list Z) (n : nat) (state m : list Z)
    : list Z :=
  match n with
  | O => state
  | S n' => chain compress n' (compress state (take 64 m)) (drop 64 m)
  end.

Definition mlen (m : list Z) : Z := Z.of_nat (List.length m).

(** The message followed by the bit 1, zeros up to 8 bytes before the end of a
    block, and the length in bits on 64 bits. *)
Definition padded (count : nat -> Z -> list Z) (m : list Z) : list Z :=
  m ++ 0x80 :: replicate (Z.to_nat ((55 - mlen m) mod 64)) 0 ++ count 8%nat (8 * mlen m).

Definition iterated (compress : list Z -> list Z -> list Z) (iv : list Z)
    (count : nat -> Z -> list Z) (m : list Z) : list Z :=
  let p := padded count m in chain compress (List.length p / 64) iv p.

(** ** The operations compute the iterated hash *)

(** What a compression function in C promises: it reads one block and computes what
    the standard says, on the states it keeps. *)
Class Compression (process : list Z -> list Z -> option (list Z))
    (compress : list Z -> list Z -> list Z) := {
  st_ok : list Z -> Prop;
  compress_ok st b : st_ok st -> st_ok (compress st b);
  process_ok st data :
    st_ok st -> (64 <= List.length data)%nat -> bytes_ok (take 64 data) ->
    process st data = Some (compress st (take 64 data)) }.

Lemma buffer_copy_ok left input n ctx :
  List.length (h_buffer ctx) = 64%nat -> 0 <= left -> 0 <= n -> left + n <= 64 ->
  n <= mlen input -> bytes_ok (take (Z.to_nat n) input) ->
  buffer_copy left input n ctx =
    Some (ctx <| h_buffer := take (Z.to_nat left) (h_buffer ctx) ++ take (Z.to_nat n) input
                             ++ drop (Z.to_nat (left + n)) (h_buffer ctx) |>).
Proof.
  intros Hb Hl Hn Hs Hi Hok. unfold buffer_copy, cpy, mlen in *.
  rewrite (proj2 (Z.ltb_ge n 0)), (proj2 (Z.ltb_ge _ n)) by lia. cbn [orb].
  assert (List.length (take (Z.to_nat n) input) = Z.to_nat n) as Ht
    by (rewrite length_take; lia).
  rewrite puts_fits; [|done|cbn; rewrite Ht; lia]. cbn. rewrite Ht.
  by replace (Z.to_nat left + Z.to_nat n)%nat with (Z.to_nat (left + n)) by lia.
Qed.

#[local] Arguments Nat.div : simpl never.
#[local] Arguments Nat.modulo : simpl never.
#[local] Arguments Z.div : simpl never.
#[local] Arguments Z.modulo : simpl never.
#[local] Arguments Nat.mul : simpl never.

(** Also with the division of [nat]. *)
Ltac ndlia := zify; dlia.

Section Iterated.

Context {process compress} `{Hcomp : !Compression process compress}.

Lemma chain_ok n st m : st_ok st -> st_ok (chain compress n st m).
Proof. revert st m; induction n; intros; cbn; auto using compress_ok. Qed.

Lemma chain_add a b st m :
  chain compress (a + b) st m =
    chain compress b (chain compress a st m) (drop (64 * a) m).
Proof.
  revert st m; induction a as [|a IH]; intros; [by cbn; rewrite drop_0|].
  cbn [chain Nat.add]. rewrite IH, drop_drop. do 2 f_equal. lia.
Qed.

Lemma chain_app n st m x :
  (64 * n <= List.length m)%nat -> chain compress n st (m ++ x) = chain compress n st m.
Proof.
  revert st m; induction n as [|n IH]; intros st m Hl; [done|]. cbn [chain].
  rewrite take_app_le, drop_app_le by lia. apply IH. rewrite length_drop. lia.
Qed.

(** The loop consumes the whole blocks. *)
Lemma update_loop_ok fuel ctx input ilen :
  st_ok (h_state ctx) -> 0 <= ilen <= mlen input -> ilen < 64 * Z.of_nat fuel ->
  bytes_ok (take (Z.to_nat ilen) input) ->
  update_loop process fuel ctx input ilen =
    Some (ctx <| h_state := chain compress (Z.to_nat ilen / 64) (h_state ctx)
                              (take (Z.to_nat ilen) input) |>,
          drop (64 * (Z.to_nat ilen / 64)) input, ilen mod 64).
Proof.
  unfold mlen. revert ctx input ilen; induction fuel as [|fuel IH];
    intros ctx input ilen Hst Hi Hf Hok; [lia|]. cbn [update_loop].
  destruct (Z.leb_spec 64 ilen) as [Hle|Hlt].
  - assert (64 <= Z.to_nat ilen)%nat as Hn by lia.
    assert (take 64 input = take 64 (take (Z.to_nat ilen) input)) as Ht
      by (rewrite take_take; f_equal; lia).
    unfold process_data.
    rewrite process_ok; [|done|lia|rewrite Ht; by apply bytes_ok_take]. cbn.
    assert (drop 64 (take (Z.to_nat ilen) input)
            = take (Z.to_nat (ilen - 64)) (drop 64 input)) as Hd.
    { rewrite take_drop_commute. do 2 f_equal. lia. }
    rewrite IH; cycle 1.
    { by apply compress_ok. } { rewrite length_drop. lia. } { lia. }
    { rewrite <-Hd. by apply bytes_ok_drop. }
    cbn. apply f_equal, f_equal2; [apply f_equal2|]; [unfold upd; cbn; f_equal| |].
    + assert (Z.to_nat ilen / 64 = S (Z.to_nat (ilen - 64) / 64))%nat as ->.
      { replace (Z.to_nat ilen) with (Z.to_nat (ilen - 64) + 1 * 64)%nat by lia.
        rewrite Nat.div_add by lia. lia. }
      cbn [chain]. by rewrite <-Ht, Hd.
    + rewrite drop_drop. f_equal.
      replace (Z.to_nat ilen) with (Z.to_nat (ilen - 64) + 1 * 64)%nat by lia.
      rewrite Nat.div_add by lia. lia.
    + replace ilen with (ilen - 64 + 1 * 64) at 2 by lia. by rewrite Z.mod_add.
  - rewrite Nat.div_small, Z.mod_small by lia. cbn. rewrite drop_0. by destruct ctx.
Qed.

(** The context that has been given the bytes [m]. *)
Record represents (iv : list Z) (ctx : hash_context) (m : list Z) : Prop := {
  rp_total : h_total0 ctx + 4294967296 * h_total1 ctx = mlen m;
  rp_word0 : word (h_total0 ctx);
  rp_word1 : word (h_total1 ctx);
  rp_state : h_state ctx = chain compress (List.length m / 64) iv m;
  rp_size : List.length (h_buffer ctx) = 64%nat;
  rp_buffer : take (List.length m mod 64) (h_buffer ctx)
              = drop (64 * (List.length m / 64)) m }.

Lemma represents_nil iv b :
  List.length b = 64%nat -> represents iv (HashContext 0 0 iv b) [].
Proof. intros. split; cbn; done. Qed.

(** The last copy of [hash_update]: [t] is in the buffer, [x] follows. *)
Lemma last_copy left (t input : list Z) n ctx :
  mlen t = left -> take (Z.to_nat left) (h_buffer ctx) = t -> List.length (h_buffer ctx) = 64%nat ->
  0 <= n -> left + n <= 64 -> n <= mlen input -> bytes_ok (take (Z.to_nat n) input) ->
  exists b,
    (if 0 <? n then buffer_copy left input n ctx else Some ctx)
    = Some (ctx <| h_buffer := b |>)
    /\ List.length b = 64%nat
    /\ take (Z.to_nat (left + n)) b = t ++ take (Z.to_nat n) input.
Proof.
  unfold mlen. intros Ht Hb Hl Hn Hs Hi Hok. destruct (Z.ltb_spec 0 n) as [Hp|Hp].
  - rewrite buffer_copy_ok by (unfold mlen in *; first [done|lia]).
    eexists. split; [done|].
    assert (List.length (take (Z.to_nat n) input) = Z.to_nat n) as Hn'
      by (rewrite length_take; lia).
    split.
    + rewrite !length_app, !length_take, length_drop. lia.
    + rewrite Hb, app_assoc. replace (Z.to_nat (left + n)) with (List.length (t ++ take (Z.to_nat n) input))
        by (rewrite length_app; lia). apply take_app_length.
  - assert (n = 0) as -> by lia. exists (h_buffer ctx). rewrite Z.add_0_r. cbn.
    rewrite app_nil_r. split; [by destruct ctx|done].
Qed.

(** [total], as a number on 64 bits. *)
Lemma total_add t0 t1 n :
  word t0 -> word t1 -> word n -> t0 + 4294967296 * t1 + n < 18446744073709551616 ->
  let total0 := Z.land (u32 (t0 + n)) 0xFFFFFFFF in
  let total1 := if total0 <? n then u32 (t1 + 1) else t1 in
  total0 + 4294967296 * total1 = t0 + 4294967296 * t1 + n /\ word total0 /\ word total1.
Proof.
  unfold word. intros H0 H1 Hn Hs. cbn zeta. rewrite land_mask by apply u32_word.
  unfold u32. destruct (Z.ltb_spec ((t0 + n) mod 4294967296) n); dlia.
Qed.

(** What a context has to hold when the bytes [x] follow [m]. *)
Lemma represents_app iv ctx m x :
  h_total0 ctx + 4294967296 * h_total1 ctx = mlen m + mlen x ->
  word (h_total0 ctx) -> word (h_total1 ctx) ->
  let t := drop (64 * (List.length m / 64)) m in
  let k := ((List.length t + List.length x) / 64)%nat in
  h_state ctx = chain compress k (chain compress (List.length m / 64) iv m) (t ++ x) ->
  List.length (h_buffer ctx) = 64%nat ->
  take ((List.length t + List.length x) mod 64) (h_buffer ctx) = drop (64 * k) (t ++ x) ->
  represents iv ctx (m ++ x).
Proof.
  intros Htot H0 H1 t k Hst Hb Ht.
  assert (64 * (List.length m / 64) <= List.length m)%nat as Hq
    by (apply Nat.Div0.mul_div_le).
  assert (List.length (m ++ x)
          = List.length t + List.length x + List.length m / 64 * 64)%nat as Hl.
  { unfold t. rewrite length_app, length_drop. lia. }
  assert (List.length (m ++ x) / 64 = List.length m / 64 + k)%nat as Hd.
  { rewrite Hl, Nat.div_add by lia. fold k. lia. }
  assert (List.length (m ++ x) mod 64 = (List.length t + List.length x) mod 64)%nat as Hm.
  { rewrite Hl. by rewrite Nat.Div0.mod_add. }
  split; [|done|done| |done|].
  - unfold mlen in *. rewrite length_app. lia.
  - rewrite Hd, chain_add, chain_app by done. rewrite drop_app_le by done. done.
  - rewrite Hm, Hd, Ht, Nat.mul_add_distr_l, <-drop_drop, (drop_app_le m) by done. done.
Qed.

(** The part of [hash_update] after the first block is completed. *)
Definition update_rest (ctx : hash_context) (input : list Z) (ilen left : Z)
    : option hash_context :=
  '(ctx, input, ilen) ← update_loop process (S (Z.to_nat (ilen / 64))) ctx input ilen;
  if 0 <? ilen then buffer_copy left input ilen ctx else Some ctx.

(** With [t] in the buffer and no block completed by it, the rest of the input is
    hashed by blocks and its end is kept. *)
Lemma update_rest_ok ctx (t input : list Z) ilen left :
  st_ok (h_state ctx) -> List.length (h_buffer ctx) = 64%nat ->
  mlen t = left -> take (Z.to_nat left) (h_buffer ctx) = t ->
  0 <= ilen <= mlen input -> bytes_ok (take (Z.to_nat ilen) input) ->
  left = 0 \/ left + ilen < 64 ->
  let x := take (Z.to_nat ilen) input in
  let k := ((List.length t + List.length x) / 64)%nat in
  exists b,
    update_rest ctx input ilen left
    = Some (ctx <| h_state := chain compress k (h_state ctx) (t ++ x) |> <| h_buffer := b |>)
    /\ List.length b = 64%nat
    /\ take ((List.length t + List.length x) mod 64) b = drop (64 * k) (t ++ x).
Proof.
  intros Hst Hb Ht Htk Hi Hok Hc x k.
  assert (List.length x = Z.to_nat ilen) as Hx
    by (unfold x, mlen in *; rewrite length_take; lia).
  unfold update_rest. rewrite update_loop_ok by (first [done|ndlia]).
  cbn [mbind option_bind].
  set (c1 := ctx <| h_state := _ |>).
  destruct Hc as [H0|Hlt].
  - assert (t = []) as Et by (destruct t; [done|unfold mlen in *; cbn in *; lia]).
    clear Htk. subst t. destruct (last_copy left [] (drop (64 * (Z.to_nat ilen / 64)) input) (ilen mod 64) c1)
      as (b & Hu & Hbl & Hbt); [done|by rewrite H0|done|ndlia|ndlia| | |].
    { unfold mlen. rewrite length_drop. unfold mlen in Hi. ndlia. }
    { replace (Z.to_nat (ilen mod 64)) with (Z.to_nat ilen - 64 * (Z.to_nat ilen / 64))%nat by ndlia.
      rewrite <-skipn_firstn_comm. by apply bytes_ok_drop. }
    exists b. unfold k. cbn [app List.length Nat.add] in *. rewrite Hx.
    split; [|split; [done|]].
    + rewrite Hu. done.
    + rewrite H0, Z.add_0_l in Hbt.
      replace (Z.to_nat ilen mod 64)%nat with (Z.to_nat (ilen mod 64)) by ndlia.
      rewrite Hbt. unfold x. rewrite skipn_firstn_comm. f_equal. ndlia.
  - assert (k = 0)%nat as Ek by (unfold k, mlen in *; apply Nat.div_small; lia).
    assert (Z.to_nat ilen / 64 = 0)%nat as Ei by (unfold mlen in *; apply Nat.div_small; lia).
    unfold c1 in *. rewrite Ei in *. rewrite Z.mod_small by (unfold mlen in *; lia).
    rewrite Nat.mul_0_r, drop_0. rewrite Ek, Nat.mul_0_r, drop_0.
    destruct (last_copy left t input ilen ctx) as (b & Hu & Hbl & Hbt);
      [done|done|done|lia|lia|lia|done|].
    exists b. split; [|split; [done|]].
    + cbn [chain]. by destruct ctx.
    + rewrite Hx. fold x in Hbt. rewrite <-Hbt. f_equal. unfold mlen in *. rewrite Nat.mod_small by lia. lia.
Qed.

(** The code of [hash_update] after the counters. *)
Definition update_body (ctx : hash_context) (input : list Z) (ilen left : Z)
    : option hash_context :=
  '(ctx, input, ilen, left) ←
    (if negb (left =? 0) && (64 - left <=? ilen) then
       ctx ← buffer_copy left input (64 - left) ctx;
       ctx ← process_data process (h_buffer ctx) ctx;
       Some (ctx, drop (Z.to_nat (64 - left)) input, ilen - (64 - left), 0)
     else Some (ctx, input, ilen, left));
  update_rest ctx input ilen left.

(** The first block: what is in the buffer and the start of the input. *)
Lemma first_block ctx (t input : list Z) ilen left :
  st_ok (h_state ctx) -> List.length (h_buffer ctx) = 64%nat ->
  mlen t = left -> take (Z.to_nat left) (h_buffer ctx) = t -> bytes_ok t ->
  64 - left <= ilen -> left < 64 ->
  ilen <= mlen input -> bytes_ok (take (Z.to_nat ilen) input) ->
  let n := Z.to_nat (64 - left) in
  exists b,
    (ctx ← buffer_copy left input (64 - left) ctx;
     ctx ← process_data process (h_buffer ctx) ctx;
     Some (ctx, drop n input, ilen - (64 - left), 0))
    = Some (ctx <| h_state := compress (h_state ctx) (t ++ take n input) |>
                <| h_buffer := b |>, drop n input, ilen - (64 - left), 0)
    /\ List.length b = 64%nat.
Proof.
  intros Hst Hsz Ht Htk Htok Hf Hlt Hi Hok n. unfold mlen in *.
  assert (take n input = take n (take (Z.to_nat ilen) input)) as Hn
    by (rewrite take_take; f_equal; lia).
  assert (bytes_ok (take n input)) as Hnok by (rewrite Hn; by apply bytes_ok_take).
  rewrite buffer_copy_ok by (unfold mlen in *; first [done|lia]). fold n.
  rewrite Htk, (drop_ge _ (Z.to_nat (left + _))), app_nil_r by lia.
  assert (List.length (t ++ take n input) = 64%nat) as Hb
    by (rewrite length_app, length_take; lia).
  cbn [mbind option_bind]. unfold process_data.
  rewrite process_ok; [|done|cbn; lia|].
  - cbn. rewrite take_ge by lia. exists (t ++ take n input). by destruct ctx.
  - cbn. rewrite take_ge by lia. by apply bytes_ok_app.
Qed.

(** Whatever its length, the input is hashed after the buffer. *)
Lemma update_body_ok ctx (t input : list Z) ilen left :
  st_ok (h_state ctx) -> List.length (h_buffer ctx) = 64%nat ->
  mlen t = left -> take (Z.to_nat left) (h_buffer ctx) = t -> bytes_ok t -> left < 64 ->
  0 <= ilen <= mlen input -> bytes_ok (take (Z.to_nat ilen) input) ->
  let x := take (Z.to_nat ilen) input in
  let k := ((List.length t + List.length x) / 64)%nat in
  exists b,
    update_body ctx input ilen left
    = Some (ctx <| h_state := chain compress k (h_state ctx) (t ++ x) |> <| h_buffer := b |>)
    /\ List.length b = 64%nat
    /\ take ((List.length t + List.length x) mod 64) b = drop (64 * k) (t ++ x).
Proof.
  intros Hst Hsz Ht Htk Htok Hlt Hi Hok x k. unfold update_body.
  destruct (negb (left =? 0) && (64 - left <=? ilen)) eqn:Hb; last first.
  { cbn [mbind option_bind]. apply update_rest_ok; try done.
    unfold mlen in *. destruct (Z.eqb_spec left 0), (Z.leb_spec (64 - left) ilen); try done; lia. }
  apply andb_true_iff in Hb as [Hl0 Hfill].
  apply negb_true_iff, Z.eqb_neq in Hl0. apply Z.leb_le in Hfill.
  destruct (first_block ctx t input ilen left) as (b1 & -> & Hb1); try (done || lia).
  cbn [mbind option_bind]. set (n := Z.to_nat (64 - left)). set (c2 := _ <| h_buffer := b1 |>).
  assert (drop n x = take (Z.to_nat (ilen - (64 - left))) (drop n input)) as Hd.
  { unfold x. rewrite take_drop_commute. do 2 f_equal. unfold mlen in *. lia. }
  assert (take n x = take n input) as Hn.
  { unfold x. rewrite take_take. f_equal. unfold mlen in *. lia. }
  assert (List.length x = Z.to_nat ilen) as Hx
    by (unfold x, mlen in *; rewrite length_take; lia).
  destruct (update_rest_ok c2 [] (drop n input) (ilen - (64 - left)) 0)
    as (b & Hu & Hbl & Hbt); try done.
  { by apply compress_ok. } { unfold mlen in *. rewrite length_drop. lia. }
  { rewrite <-Hd. by apply bytes_ok_drop. } { by left. }
  rewrite <-Hd in Hu, Hbt. cbn [app List.length Nat.add] in Hu, Hbt.
  assert (List.length t + List.length x = List.length (drop n x) + 1 * 64)%nat as El
    by (rewrite length_drop, Hx; unfold mlen in *; lia).
  assert (List.length (t ++ take n x) = 64%nat) as E64
    by (rewrite length_app, length_take, Hx; unfold mlen in *; lia).
  exists b. rewrite Hu. unfold k. rewrite El, Nat.div_add, Nat.Div0.mod_add, Nat.add_1_r by lia.
  assert (t ++ x = (t ++ take n x) ++ drop n x) as Etx by (by rewrite <-app_assoc, take_drop).
  split; [|split; [done|]].
  - rewrite Etx. cbn [chain]. rewrite take_app_length', drop_app_length' by done.
    rewrite Hn. by destruct ctx.
  - rewrite Hbt, Etx, Nat.mul_succ_r, Nat.add_comm, <-drop_drop.
    by rewrite drop_app_length' by done.
Qed.

(** One call adds its input to the message. *)
Lemma hash_update_ok iv ctx m input ilen :
  st_ok iv -> represents iv ctx m -> bytes_ok m ->
  0 <= ilen < 4294967296 -> ilen <= mlen input -> bytes_ok (take (Z.to_nat ilen) input) ->
  mlen m + ilen < 18446744073709551616 ->
  exists ctx',
    hash_update process ctx input ilen = Some ctx'
    /\ represents iv ctx' (m ++ take (Z.to_nat ilen) input).
Proof.
  intros Hiv [Htot H0 H1 Hst Hsz Hbuf] Hm Hi Hin Hok Hmax. unfold hash_update.
  destruct (Z.eqb_spec ilen 0) as [->|Hnz].
  { exists ctx. split; [done|]. cbn. rewrite app_nil_r. by split. }
  assert (Z.land (h_total0 ctx) 0x3F = Z.of_nat (List.length m mod 64)) as ->.
  { change 0x3F with (Z.ones 6). rewrite Z.land_ones by lia. change (2 ^ 6) with 64.
    unfold mlen, word in *. ndlia. }
  destruct (total_add (h_total0 ctx) (h_total1 ctx) ilen) as (Ha & Hw0 & Hw1);
    [done|done|done|lia|]. cbn zeta in Ha, Hw0, Hw1 |- *.
  set (c := ctx <| h_total0 := _ |> <| h_total1 := _ |>).
  destruct (update_body_ok c (drop (64 * (List.length m / 64)) m) input ilen
              (Z.of_nat (List.length m mod 64))) as (b & Hu & Hbl & Hbt).
  { cbn. rewrite Hst. by apply chain_ok. } { done. }
  { unfold mlen. rewrite length_drop. ndlia. } { by rewrite Nat2Z.id. }
  { by apply bytes_ok_drop. } { ndlia. } { lia. } { done. }
  unfold update_body, update_rest in Hu. rewrite Hu. eexists. split; [done|].
  apply represents_app; cbn; try done.
  - rewrite Ha. unfold mlen in *. rewrite length_take. lia.
  - by rewrite Hst.
Qed.

(** The bit count as two words. *)
Lemma bit_count t0 t1 :
  word t0 -> word t1 -> t0 + 4294967296 * t1 < 2305843009213693952 ->
  let bits := 8 * (t0 + 4294967296 * t1) in
  Z.lor (Z.shiftr t0 29) (u32 (Z.shiftl t1 3)) = u32 (bits / 4294967296)
  /\ u32 (Z.shiftl t0 3) = u32 bits.
Proof.
  intros H0 H1 Hs bits. unfold word in *.
  assert (u32 (Z.shiftl t1 3) = Z.shiftl t1 3) as ->
    by (apply u32_small; rewrite Z.shiftl_mul_pow2; lia).
  rewrite Z.lor_comm, lor_shiftl; [|lia|rewrite Z.shiftr_div_pow2 by lia; dlia].
  rewrite Z.shiftr_div_pow2, Z.shiftl_mul_pow2 by lia. unfold bits, u32.
  change (2 ^ 29) with 536870912. change (2 ^ 3) with 8. split; dlia.
Qed.

(** The byte orders in which the count is stored. *)
Class ByteOrder (msglen : Z -> Z -> list Z) (count : nat -> Z -> list Z) := {
  msglen_count z : msglen (u32 (z / 4294967296)) (u32 z) = count 8%nat z;
  count_length n z : List.length (count n z) = n;
  count_ok n z : bytes_ok (count n z) }.

Lemma hash_padding_ok n : bytes_ok (take n hash_padding).
Proof. apply bytes_ok_take. by apply bytes_ok_check. Qed.

(** The end of a message: after padding, the whole message has been hashed. *)
Lemma hash_pad_ok `{!ByteOrder msglen count} iv ctx m :
  st_ok iv -> represents iv ctx m -> bytes_ok m -> mlen m < 2305843009213693952 ->
  exists ctx',
    hash_pad process msglen ctx = Some ctx'
    /\ h_state ctx' = iterated compress iv count m
    /\ (64 | mlen (padded count m)).
Proof.
  intros Hiv Hr Hm Hmax. unfold hash_pad.
  pose proof (rp_total _ _ _ Hr) as Htot.
  pose proof (rp_word0 _ _ _ Hr) as H0. pose proof (rp_word1 _ _ _ Hr) as H1.
  destruct (bit_count (h_total0 ctx) (h_total1 ctx)) as [-> ->]; [done|done|lia|].
  rewrite Htot, msglen_count.
  assert (Z.land (h_total0 ctx) 0x3F = mlen m mod 64) as ->.
  { change 0x3F with (Z.ones 6). rewrite Z.land_ones by lia. change (2 ^ 6) with 64. dlia. }
  assert ((if mlen m mod 64 <? 56 then 56 - mlen m mod 64 else 120 - mlen m mod 64)
          = 1 + (55 - mlen m) mod 64) as ->.
  { destruct (Z.ltb_spec (mlen m mod 64) 56); dlia. }
  set (z := (55 - mlen m) mod 64). assert (0 <= z < 64) as Hz by (unfold z; dlia).
  assert (take (Z.to_nat (1 + z)) hash_padding = 0x80 :: replicate (Z.to_nat z) 0) as Hp.
  { replace (Z.to_nat (1 + z)) with (S (Z.to_nat z)) by lia. unfold hash_padding.
    cbn [take]. rewrite take_replicate. do 2 f_equal. lia. }
  destruct (hash_update_ok iv ctx m hash_padding (1 + z)) as (c1 & -> & Hr1);
    [done|done|done|lia|change (mlen hash_padding) with 64; lia|apply hash_padding_ok|lia|].
  rewrite Hp in Hr1. cbn [mbind option_bind].
  destruct (hash_update_ok iv c1 (m ++ 0x80 :: replicate (Z.to_nat z) 0) (count 8%nat (8 * mlen m)) 8)
    as (c2 & -> & Hr2); [done|done| |lia| | | |].
  { apply bytes_ok_app. split; [done|]. rewrite <-Hp. apply hash_padding_ok. }
  { unfold mlen. rewrite count_length. lia. } { by apply bytes_ok_take, (count_ok (msglen := msglen)). }
  { unfold mlen in *. rewrite length_app. cbn. rewrite length_replicate. lia. }
  rewrite take_ge, <-app_assoc in Hr2 by (rewrite count_length; lia). cbn [app] in Hr2.
  exists c2. split; [done|]. split.
  - rewrite (rp_state _ _ _ Hr2). done.
  - exists (mlen m / 64 + (if mlen m mod 64 <? 56 then 1 else 2)).
    unfold padded, mlen in *. rewrite length_app. cbn [List.length].
    rewrite length_app, length_replicate, count_length. fold z.
    destruct (Z.ltb_spec (Z.of_nat (List.length m) mod 64) 56); unfold z in *; dlia.
Qed.

End Iterated.

#[export] Instance byte_order_be : ByteOrder msglen_be be_bytes.
Proof.
  split; [|apply be_bytes_length|apply be_bytes_ok].
  intros z. unfold msglen_be. rewrite !PUT_UINT32_BE_bytes, !be_bytes_u32.
  by rewrite (be_bytes_add 4 4).
Qed.

#[export] Instance byte_order_le : ByteOrder msglen_le le_bytes.
Proof.
  split; [|apply le_bytes_length|apply le_bytes_ok].
  intros z. unfold msglen_le. rewrite !PUT_UINT32_LE_bytes, !le_bytes_u32.
  by rewrite (le_bytes_add 4 4).
Qed.

(** ** The interface of a hash function, and what is built on it *)

(** The operations of the three files on their contexts. *)
Class HashOps (C : Type) := {
  hash_init : C;                                       (** [memset] to 0 *)
  hash_starts : C -> C;
  hash_feed : C -> list Z -> Z -> option C;            (** [update] *)
  hash_finish : C -> option (C * list Z) }.            (** the bytes of [output] *)

(** What they promise: [given c m], the context has been given the bytes [m];
    [digest] is the hash function of the standard. *)
Class HashSpec C `{HashOps C} (digest : list Z -> list Z) (size : Z) := {
  given : C -> list Z -> Prop;
  given_bytes c m : given c m -> bytes_ok m;
  starts_given c : c = hash_init -> given (hash_starts c) [];
  feed_given c m input ilen :
    given c m -> 0 <= ilen < 4294967296 -> ilen <= mlen input ->
    bytes_ok (take (Z.to_nat ilen) input) -> mlen m + ilen < 18446744073709551616 ->
    exists c', hash_feed c input ilen = Some c' /\ given c' (m ++ take (Z.to_nat ilen) input);
  finish_given c m :
    given c m -> mlen m < 2305843009213693952 ->
    exists c', hash_finish c = Some (c', digest m);
  digest_size m : mlen (digest m) = size;
  digest_bytes m : bytes_ok (digest m);
  size_small : 0 <= size <= 64 }.

Section Users.

Context {C} `{HashOps C}.

(** The one-shot functions; [free] only erases the local context. *)
Definition hash_once (input : list Z) (ilen : Z) : option (list Z) :=
  c ← hash_feed (hash_starts hash_init) input ilen;
  '(_, output) ← hash_finish c;
  Some output.

(** One pass of the HMAC: a pad, then data. *)
Definition hash_pass (pad data : list Z) (len : Z) : option (list Z) :=
  c ← hash_feed (hash_starts hash_init) pad 64;
  c ← hash_feed c data len;
  '(_, output) ← hash_finish c;
  Some output.

(** The key in a zeroed pad, each byte combined with [x]. *)
Definition key_pad (x : Z) (key : list Z) (key_len : Z) : option (list Z) :=
  w ← cpy key key_len (WBuf (replicate 64 0) 0);
  Some ((fun b => u8 (Z.lxor b x)) <$> wb_mem w).

(** [utils_hmac_*] after the checks of the pointers; an [int] length is converted to
    [uint32_t] by the calls.  [Some None]: it returned without an output. *)
Definition hmac (size : Z) (msg : list Z) (msg_len : Z) (key : list Z) (key_len : Z)
    : option (option (list Z)) :=
  if 64 <? key_len then Some None
  else
    k_ipad ← key_pad 0x36 key key_len;
    k_opad ← key_pad 0x5c key key_len;
    out ← hash_pass k_ipad msg (u32 msg_len);
    out ← hash_pass k_opad out size;
    Some (Some out).

(** RFC 2104, for a key that fits in a block. *)
Definition hmac_spec (digest : list Z -> list Z) (key m : list Z) : list Z :=
  let k := key ++ replicate (64 - List.length key) 0 in
  digest ((Z.lxor 0x5c <$> k) ++ digest ((Z.lxor 0x36 <$> k) ++ m)).

(** A message given in pieces, one [update] for each. *)
Fixpoint feed_all (c : C) (pieces : list (list Z)) : option C :=
  match pieces with
  | [] => Some c
  | p :: pieces' => c ← hash_feed c p (mlen p); feed_all c pieces'
  end.

Definition hash_pieces (pieces : list (list Z)) : option (list Z) :=
  c ← feed_all (hash_starts hash_init) pieces;
  '(_, output) ← hash_finish c;
  Some output.

Context {digest size} `{!HashSpec C digest size}.

Lemma feed_all_ok c m pieces :
  given c m -> Forall (fun p => bytes_ok p /\ mlen p < 4294967296) pieces ->
  mlen m + mlen (concat pieces) < 18446744073709551616 ->
  exists c', feed_all c pieces = Some c' /\ given c' (m ++ concat pieces).
Proof.
  intros Hc Hp. revert c m Hc. induction Hp as [|p pieces [Hok Hl] _ IH]; intros c m Hc Hs.
  - exists c. cbn. by rewrite app_nil_r.
  - cbn [feed_all concat] in *. unfold mlen in Hs. rewrite length_app in Hs.
    assert (take (Z.to_nat (mlen p)) p = p) as Ht by (apply take_ge; unfold mlen; lia).
    destruct (feed_given c m p (mlen p)) as (c1 & -> & Hc1);
      [done|unfold mlen in *; lia|done|by rewrite Ht|unfold mlen; lia|].
    rewrite Ht in Hc1. cbn [mbind option_bind]. rewrite app_assoc. apply IH; [done|].
    unfold mlen. rewrite length_app. lia.
Qed.

Lemma hash_pieces_ok pieces :
  Forall (fun p => bytes_ok p /\ mlen p < 4294967296) pieces ->
  mlen (concat pieces) < 2305843009213693952 ->
  hash_pieces pieces = Some (digest (concat pieces)).
Proof.
  intros Hp Hs. unfold hash_pieces.
  destruct (feed_all_ok (hash_starts hash_init) [] pieces) as (c & -> & Hc);
    [by apply starts_given|done|change (mlen []) with 0; lia|].
  cbn [mbind option_bind app] in *. by destruct (finish_given c _ Hc Hs) as (c' & ->).
Qed.

Lemma hash_once_ok input ilen :
  0 <= ilen < 4294967296 -> ilen <= mlen input -> bytes_ok (take (Z.to_nat ilen) input) ->
  hash_once input ilen = Some (digest (take (Z.to_nat ilen) input)).
Proof.
  intros Hi Hl Hok. unfold hash_once.
  destruct (feed_given (hash_starts hash_init) [] input ilen) as (c & -> & Hc);
    [by apply starts_given|done|done|done|change (mlen []) with 0; lia|].
  cbn [mbind option_bind app] in *.
  destruct (finish_given c _ Hc) as (c' & ->); [|done].
  unfold mlen. rewrite length_take. lia.
Qed.

Lemma hash_pass_ok pad data len :
  mlen pad = 64 -> bytes_ok pad -> 0 <= len < 4294967296 -> len <= mlen data ->
  bytes_ok (take (Z.to_nat len) data) ->
  hash_pass pad data len = Some (digest (pad ++ take (Z.to_nat len) data)).
Proof.
  intros Hp Hpok Hl Hd Hok. unfold hash_pass, mlen in *.
  assert (take (Z.to_nat 64) pad = pad) as Ht by (apply take_ge; lia).
  destruct (feed_given (hash_starts hash_init) [] pad 64) as (c & -> & Hc);
    [by apply starts_given|lia|unfold mlen; lia|by rewrite Ht|change (mlen []) with 0; lia|].
  cbn [mbind option_bind app] in *. rewrite Ht in Hc.
  destruct (feed_given c pad data len) as (c' & -> & Hc');
    [done|done|done|done|unfold mlen; lia|].
  cbn [mbind option_bind]. destruct (finish_given c' _ Hc') as (c'' & ->); [|done].
  unfold mlen. rewrite length_app, length_take. lia.
Qed.

Lemma lxor_byte x y : is_byte x -> is_byte y -> is_byte (Z.lxor x y).
Proof.
  unfold is_byte. intros Hx Hy. assert (0 <= Z.lxor x y) as Hn
    by (apply Z.lxor_nonneg; lia). split; [done|].
  destruct (Z.eq_dec (Z.lxor x y) 0) as [->|Hz]; [done|].
  apply Z.log2_lt_pow2 with (b := 8); [lia|].
  pose proof (Z.log2_lxor x y ltac:(lia) ltac:(lia)) as Hl.
  assert (forall z, 0 <= z < 256 -> Z.log2 z < 8) as Hb.
  { intros z Hz'. destruct (Z.eq_dec z 0) as [->|]; [done|]. apply Z.log2_lt_pow2; lia. }
  pose proof (Hb x Hx). pose proof (Hb y Hy). lia.
Qed.

Lemma key_pad_ok x key key_len :
  is_byte x -> 0 <= key_len <= 64 -> key_len <= mlen key -> bytes_ok (take (Z.to_nat key_len) key) ->
  let k := take (Z.to_nat key_len) key in
  key_pad x key key_len
  = Some (Z.lxor x <$> k ++ replicate (64 - List.length k) 0)
  /\ bytes_ok (Z.lxor x <$> k ++ replicate (64 - List.length k) 0).
Proof.
  intros Hx Hl Hk Hok k. unfold mlen in *.
  assert (List.length k = Z.to_nat key_len) as Hkl by (unfold k; rewrite length_take; lia).
  assert (bytes_ok (k ++ replicate (64 - List.length k) 0)) as Hb.
  { apply bytes_ok_app. split; [done|]. by apply Forall_replicate. }
  split.
  - unfold key_pad, cpy. rewrite (proj2 (Z.ltb_ge key_len 0)), (proj2 (Z.ltb_ge _ key_len)) by lia.
    cbn [orb]. fold k. rewrite puts_start by (first [done|rewrite length_replicate; lia]).
    cbn [mbind option_bind wb_mem]. rewrite drop_replicate. f_equal.
    apply list_fmap_ext. intros i b Hi.
    assert (is_byte b) as Hbb by (eapply Forall_lookup_1; [exact Hb|exact Hi]).
    rewrite Z.lxor_comm. by apply u8_small, lxor_byte.
  - apply Forall_fmap. eapply Forall_impl; [exact Hb|]. intros b Hbb. by apply lxor_byte.
Qed.

Lemma hmac_ok msg msg_len key key_len :
  0 <= key_len <= 64 -> key_len <= mlen key -> bytes_ok (take (Z.to_nat key_len) key) ->
  0 <= msg_len < 4294967296 -> msg_len <= mlen msg -> bytes_ok (take (Z.to_nat msg_len) msg) ->
  hmac size msg msg_len key key_len
  = Some (Some (hmac_spec digest (take (Z.to_nat key_len) key) (take (Z.to_nat msg_len) msg))).
Proof.
  intros Hk Hkl Hkok Hm Hml Hmok. unfold hmac. rewrite (proj2 (Z.ltb_ge 64 _)) by lia.
  destruct (key_pad_ok 0x36 key key_len) as [-> Hi]; [done|done|done|done|].
  destruct (key_pad_ok 0x5c key key_len) as [-> Ho]; [done|done|done|done|].
  cbn [mbind option_bind]. rewrite u32_small by lia.
  pose proof size_small as Hs.
  assert (List.length (take (Z.to_nat key_len) key) = Z.to_nat key_len) as Hl
    by (unfold mlen in *; rewrite length_take; lia).
  assert (forall x, mlen (Z.lxor x <$> take (Z.to_nat key_len) key
            ++ replicate (64 - List.length (take (Z.to_nat key_len) key)) 0) = 64) as Hp.
  { intros x. unfold mlen. rewrite length_fmap, length_app, length_replicate. lia. }
  rewrite hash_pass_ok by done. cbn [mbind option_bind].
  set (inner := digest (_ ++ take (Z.to_nat msg_len) msg)).
  assert (take (Z.to_nat size) inner = inner) as Ht.
  { apply take_ge. pose proof (digest_size (digest := digest) ((Z.lxor 0x36 <$> take (Z.to_nat key_len) key
      ++ replicate (64 - List.length (take (Z.to_nat key_len) key)) 0) ++ take (Z.to_nat msg_len) msg)).
    fold inner in H0. unfold mlen in H0. lia. }
  rewrite hash_pass_ok; [|done|done|lia|unfold inner; rewrite digest_size; lia|].
  - rewrite Ht. done.
  - rewrite Ht. apply digest_bytes.
Qed.

End Users.

(** ** The contexts of SHA-1 and MD5

    They are [hash_context]s without more; their [starts] and [finish] functions differ
    in the initial state, the byte order and the number of words. *)

Section Plain.

Context (process : list Z -> list Z -> option (list Z)).
Context (msglen : Z -> Z -> list Z) (put : Z -> list Z) (iv : list Z).

Definition plain_starts (ctx : hash_context) : hash_context :=
  ctx <| h_total0 := 0 |> <| h_total1 := 0 |> <| h_state := iv |>.

(** The words of the state are stored one after the other. *)
Definition plain_finish (ctx : hash_context) : option (hash_context * list Z) :=
  ctx ← hash_pad process msglen ctx;
  Some (ctx, concat (put <$> h_state ctx)).

Definition plain_ops : HashOps hash_context := {|
  hash_init := hash_zero (List.length iv);
  hash_starts := plain_starts;
  hash_feed := hash_update process;
  hash_finish := plain_finish |}.

Context {compress count} `{!Compression process compress} `{!ByteOrder msglen count}.

Lemma plain_spec :
  st_ok iv -> (List.length iv <= 16)%nat ->
  (forall st, st_ok st -> List.length st = List.length iv) ->
  (forall z, put z = count 4%nat z) ->
  @HashSpec hash_context plain_ops
    (fun m => concat (count 4%nat <$> iterated compress iv count m))
    (4 * mlen iv).
Proof.
  intros Hiv Hn Hlen Hput.
  assert (forall l : list Z, mlen (concat (count 4%nat <$> l)) = 4 * mlen l) as Hc.
  { intros l. unfold mlen. induction l as [|x l IH]; [done|].
    cbn [fmap list_fmap concat List.length]. rewrite length_app, count_length.
    fold (fmap (M := list) (count 4%nat) l). lia. }
  unshelve refine {| given c m := bytes_ok m /\ represents (compress := compress) iv c m |}.
  - by intros c m (? & _).
  - intros c ->. split; [constructor|]. by apply represents_nil.
  - intros c m input ilen (Hm & Hr) Hi Hl Hok Hs.
    destruct (hash_update_ok iv c m input ilen) as (c' & Hu & Hc'); try done.
    exists c'. split; [done|]. split; [by apply bytes_ok_app|done].
  - intros c m (Hm & Hr) Hs. cbn [hash_finish plain_ops]. unfold plain_finish.
    destruct (hash_pad_ok (msglen := msglen) iv c m) as (c' & -> & Hh & _); try done.
    cbn [mbind option_bind]. rewrite Hh. exists c'. do 2 f_equal.
    by rewrite (list_fmap_ext put (count 4%nat)).
  - intros m. rewrite Hc. f_equal. unfold mlen. f_equal. apply Hlen. by apply chain_ok.
  - intros m. generalize (iterated compress iv count m). intros l.
    induction l as [|x l IH]; [constructor|]. cbn [fmap list_fmap concat]. apply bytes_ok_app.
    split; [apply (count_ok (msglen := msglen))|done].
  - unfold mlen. lia.
Qed.

End Plain.
