(* ===== verification/InfraSha256.v ===== *)
(** * InfraSha256: SHA-256

    [eng/infra/infra_sha256.c], compiled with [INFRA_SHA256_SMALLER]: the context,
    the compression function with its message schedule computed inside the rounds,
    the one-shot function and the HMAC; proved equal to the function of FIPS 180-4
    and to the HMAC of RFC 2104 over it. *)

From S2P Require Import Prelude.
From S2P Require Import InfraHash.

(** ** The context *)

Record iot_sha256_context := Sha256Context
  { sha256_hash : hash_context;     (** [total], [state], [buffer] *)
    is224 : Z }.

#[export] Instance eta_sha256 : Eta iot_sha256_context := fun c =>
  Sha256Context (sha256_hash c) (is224 c).

Definition utils_sha256_init : iot_sha256_context := Sha256Context (hash_zero 8) 0.

(** [utils_sha256_zeroize] writes zeros over the whole context. *)
Definition utils_sha256_free (ctx : iot_sha256_context) : iot_sha256_context :=
  Sha256Context (hash_zero 8) 0.

Definition sha256_iv : list Z :=
  [0x6A09E667; 0xBB67AE85; 0x3C6EF372; 0xA54FF53A;
   0x510E527F; 0x9B05688C; 0x1F83D9AB; 0x5BE0CD19].

Definition utils_sha256_starts (ctx : iot_sha256_context) : iot_sha256_context :=
  let is224 := 0 in
  let h := (sha256_hash ctx) <| h_total0 := 0 |> <| h_total1 := 0 |> in
  let h := if is224 =? 0 then h <| h_state := sha256_iv |> else h in
  Sha256Context h is224.

(** ** The compression function *)

Definition K : list Z :=
  [0x428A2F98; 0x71374491; 0xB5C0FBCF; 0xE9B5DBA5;
   0x3956C25B; 0x59F111F1; 0x923F82A4; 0xAB1C5ED5;
   0xD807AA98; 0x12835B01; 0x243185BE; 0x550C7DC3;
   0x72BE5D74; 0x80DEB1FE; 0x9BDC06A7; 0xC19BF174;
   0xE49B69C1; 0xEFBE4786; 0x0FC19DC6; 0x240CA1CC;
   0x2DE92C6F; 0x4A7484AA; 0x5CB0A9DC; 0x76F988DA;
   0x983E5152; 0xA831C66D; 0xB00327C8; 0xBF597FC7;
   0xC6E00BF3; 0xD5A79147; 0x06CA6351; 0x14292967;
   0x27B70A85; 0x2E1B2138; 0x4D2C6DFC; 0x53380D13;
   0x650A7354; 0x766A0ABB; 0x81C2C92E; 0x92722C85;
   0xA2BFE8A1; 0xA81A664B; 0xC24B8B70; 0xC76C51A3;
   0xD192E819; 0xD6990624; 0xF40E3585; 0x106AA070;
   0x19A4C116; 0x1E376C08; 0x2748774C; 0x34B0BCB5;
   0x391C0CB3; 0x4ED8AA4A; 0x5B9CCA4F; 0x682E6FF3;
   0x748F82EE; 0x78A5636F; 0x84C87814; 0x8CC70208;
   0x90BEFFFA; 0xA4506CEB; 0xBEF9A3F7; 0xC67178F2].

(** The macros, on [uint32_t] operands. *)
Definition SHR (x n : Z) : Z := Z.shiftr (Z.land x 0xFFFFFFFF) n.
Definition ROTR (x n : Z) : Z := Z.lor (SHR x n) (u32 (Z.shiftl x (32 - n))).
Definition S0 (x : Z) : Z := Z.lxor (Z.lxor (ROTR x 7) (ROTR x 18)) (SHR x 3).
Definition S1 (x : Z) : Z := Z.lxor (Z.lxor (ROTR x 17) (ROTR x 19)) (SHR x 10).
Definition S2 (x : Z) : Z := Z.lxor (Z.lxor (ROTR x 2) (ROTR x 13)) (ROTR x 22).
Definition S3 (x : Z) : Z := Z.lxor (Z.lxor (ROTR x 6) (ROTR x 11)) (ROTR x 25).
Definition F0 (x y z : Z) : Z := Z.lor (Z.land x y) (Z.land z (Z.lor x y)).
Definition F1 (x y z : Z) : Z := Z.lxor z (Z.land x (Z.lxor y z)).

(** [R(t)]: the new [W[t]]. *)
Definition R (W : list Z) (t : nat) : option Z :=
  w2 ← W !! (t - 2)%nat; w7 ← W !! (t - 7)%nat;
  w15 ← W !! (t - 15)%nat; w16 ← W !! (t - 16)%nat;
  Some (u32 (S1 w2 + w7 + S0 w15 + w16)).

(** [P]: the new [d] and [h]. *)
Definition P (a b c d e f g h x K : Z) : Z * Z :=
  let temp1 := u32 (h + S3 e + F1 e f g + K + x) in
  let temp2 := u32 (S2 a + F0 a b c) in
  (u32 (d + temp1), u32 (temp1 + temp2)).

(** The body of the [for] loop at [i].  [W] holds the elements written so far. *)
Definition sha256_round (data : list Z) (i : nat) (W A : list Z)
    : option (list Z * list Z) :=
  w ← (if decide (i < 16)%nat then GET_UINT32_BE data (4 * i) else R W i);
  let W := W ++ [w] in
  k ← K !! i;
  match A with
  | [a; b; c; d; e; f; g; h] =>
      let '(d, h) := P a b c d e f g h w k in
      Some (W, [h; a; b; c; d; e; f; g])
  | _ => None
  end.

Fixpoint sha256_rounds (n : nat) (data : list Z) (i : nat) (W A : list Z)
    : option (list Z) :=
  match n with
  | O => Some A
  | S n' =>
      '(W, A) ← sha256_round data i W A;
      sha256_rounds n' data (S i) W A
  end.

(** [utils_sha256_process], on [ctx->state]. *)
Definition utils_sha256_process (state data : list Z) : option (list Z) :=
  A ← sha256_rounds 64 data 0 [] state;
  Some (zip_with (fun s a => u32 (s + a)) state A).

(** ** The functions *)

Definition utils_sha256_update (ctx : iot_sha256_context) (input : list Z) (ilen : Z)
    : option iot_sha256_context :=
  h ← hash_update utils_sha256_process (sha256_hash ctx) input ilen;
  Some (ctx <| sha256_hash := h |>).

Definition utils_sha256_finish (ctx : iot_sha256_context)
    : option (iot_sha256_context * list Z) :=
  h ← hash_pad utils_sha256_process msglen_be (sha256_hash ctx);
  match h_state h with
  | [s0; s1; s2; s3; s4; s5; s6; s7] =>
      Some (ctx <| sha256_hash := h |>,
            PUT_UINT32_BE s0 ++ PUT_UINT32_BE s1 ++ PUT_UINT32_BE s2 ++ PUT_UINT32_BE s3
            ++ PUT_UINT32_BE s4 ++ PUT_UINT32_BE s5 ++ PUT_UINT32_BE s6
            ++ (if is224 ctx =? 0 then PUT_UINT32_BE s7 else []))
  | _ => None
  end.

#[export] Instance sha256_ops : HashOps iot_sha256_context := {
  hash_init := utils_sha256_init;
  hash_starts := utils_sha256_starts;
  hash_feed := utils_sha256_update;
  hash_finish := utils_sha256_finish }.

Definition utils_sha256 (input : list Z) (ilen : Z) : option (list Z) :=
  hash_once input ilen.

(** [None] as a pointer is [NULL]; the result is what is stored at [output]. *)
Definition utils_hmac_sha256 (msg : option (list Z)) (msg_len : Z)
    (key : option (list Z)) (key_len : Z) (output : bool) : option (option (list Z)) :=
  match msg, key, output with
  | Some msg, Some key, true => hmac 32 msg msg_len key key_len
  | _, _, _ => Some None
  end.

(** ** FIPS 180-4 *)

Module Fips.

(** The circular rotation, by arithmetic. *)
Definition rotr (n x : Z) : Z := x / 2 ^ n + (x * 2 ^ (32 - n)) mod 4294967296.
Definition shr (n x : Z) : Z := x / 2 ^ n.
Definition not (x : Z) : Z := 4294967295 - x.

Definition Ch (x y z : Z) : Z := Z.lxor (Z.land x y) (Z.land (not x) z).
Definition Maj (x y z : Z) : Z :=
  Z.lxor (Z.lxor (Z.land x y) (Z.land x z)) (Z.land y z).
Definition Sigma0 (x : Z) : Z := Z.lxor (Z.lxor (rotr 2 x) (rotr 13 x)) (rotr 22 x).
Definition Sigma1 (x : Z) : Z := Z.lxor (Z.lxor (rotr 6 x) (rotr 11 x)) (rotr 25 x).
Definition sigma0 (x : Z) : Z := Z.lxor (Z.lxor (rotr 7 x) (rotr 18 x)) (shr 3 x).
Definition sigma1 (x : Z) : Z := Z.lxor (Z.lxor (rotr 17 x) (rotr 19 x)) (shr 10 x).

(** The message schedule of section 6.2.2, a word from the earlier ones. *)
Definition next (at_ : nat -> Z) : Z :=
  u32 (sigma1 (at_ 2%nat) + at_ 7%nat + sigma0 (at_ 15%nat) + at_ 16%nat).

Definition round (A : list Z) (KW : Z * Z) : list Z :=
  match A with
  | [a; b; c; d; e; f; g; h] =>
      let T1 := h + Sigma1 e + Ch e f g + KW.1 + KW.2 in
      let T2 := Sigma0 a + Maj a b c in
      [u32 (T1 + T2); a; b; c; u32 (d + T1); e; f; g]
  | _ => A
  end.

Definition compress (H block : list Z) : list Z :=
  zip_with (fun s a => u32 (a + s)) H (foldl round H (zip K (schedule next 48 (be_words block)))).

(** SHA-256 of a message. *)
Definition sha256 (m : list Z) : list Z :=
  concat (be_bytes 4 <$> iterated compress sha256_iv be_bytes m).

End Fips.

(** ** The macros compute the functions of the standard *)

Section Macros.

Import Fips.

Lemma SHR_shr x n : word x -> 0 <= n -> SHR x n = shr n x.
Proof. intros Hx Hn. unfold SHR, shr. by rewrite land_mask, Z.shiftr_div_pow2. Qed.

Lemma ROTR_rotr x n : word x -> 0 < n < 32 -> ROTR x n = rotr n x.
Proof. intros Hx Hn. unfold ROTR, SHR. rewrite land_mask by done. by apply rotate_right. Qed.

Lemma S0_sigma0 x : word x -> S0 x = sigma0 x.
Proof. intros. unfold S0. by rewrite !ROTR_rotr, SHR_shr. Qed.
Lemma S1_sigma1 x : word x -> S1 x = sigma1 x.
Proof. intros. unfold S1. by rewrite !ROTR_rotr, SHR_shr. Qed.
Lemma S2_Sigma0 x : word x -> S2 x = Sigma0 x.
Proof. intros. unfold S2. by rewrite !ROTR_rotr. Qed.
Lemma S3_Sigma1 x : word x -> S3 x = Sigma1 x.
Proof. intros. unfold S3. by rewrite !ROTR_rotr. Qed.

Lemma F0_Maj x y z : word x -> word y -> word z -> F0 x y z = Maj x y z.
Proof. intros. unfold F0, Maj. wordwise. Qed.

Lemma F1_Ch x y z : word x -> word y -> word z -> F1 x y z = Ch x y z.
Proof. intros. unfold F1, Ch, not. rewrite complement_word by done. wordwise. Qed.

End Macros.

(** ** The rounds *)

(** The states of the hash: eight words. *)
Definition sha256_state (A : list Z) : Prop := List.length A = 8%nat /\ Forall word A.

Lemma eight A :
  sha256_state A ->
  exists a b c d e f g h, A = [a; b; c; d; e; f; g; h]
    /\ word a /\ word b /\ word c /\ word d /\ word e /\ word f /\ word g /\ word h.
Proof.
  intros [Hl Hw].
  destruct A as [|a [|b [|c [|d [|e [|f [|g [|h [|]]]]]]]]]; try discriminate Hl.
  rewrite !Forall_cons in Hw. destruct Hw as (? & ? & ? & ? & ? & ? & ? & ? & _).
  by exists a, b, c, d, e, f, g, h.
Qed.

Lemma round_state A kw : sha256_state A -> sha256_state (Fips.round A kw).
Proof.
  intros (a & b & c & d & e & f & g & h & -> & ? & ? & ? & ? & ? & ? & ? & ?)%eight.
  split; [done|]. cbn [Fips.round]. rewrite !Forall_cons, Forall_nil.
  split_and!; first [done|apply u32_word].
Qed.

(** One round of the code is one round of the standard. *)
Lemma P_round a b c d e f g h x k :
  word a -> word b -> word c -> word e -> word f -> word g ->
  let '(d', h') := P a b c d e f g h x k in
  [h'; a; b; c; d'; e; f; g] = Fips.round [a; b; c; d; e; f; g; h] (k, x).
Proof.
  intros. unfold P, Fips.round. rewrite S3_Sigma1, F1_Ch, S2_Sigma0, F0_Maj by done.
  cbn [fst snd]. unfold u32.
  rewrite (Z.add_mod_idemp_r d) by lia. rewrite <-Z.add_mod by lia. done.
Qed.

Section Rounds.

Context (data : list Z).
Hypothesis Hlen : (64 <= List.length data)%nat.
Hypothesis Hdata : bytes_ok (take 64 data).

Let block : list Z := take 64 data.
Let W : list Z := schedule Fips.next 48 (be_words block).

Lemma W_word : Forall word W.
Proof.
  apply schedule_word.
  - intros f. unfold Fips.next. apply u32_word.
  - by apply be_words_word.
Qed.

Lemma W_word_at i : word (default 0 (W !! i)).
Proof.
  destruct (W !! i) as [w|] eqn:Hw; cbn.
  - eapply Forall_lookup_1; [exact W_word|exact Hw].
  - unfold word. clear. lia.
Qed.

(** The word of round [i], computed in the round, is that of the schedule. *)
Lemma round_word i :
  (i < 64)%nat ->
  (if decide (i < 16)%nat then GET_UINT32_BE data (4 * i) else R (take i W) i) = W !! i.
Proof.
  intros Hi. destruct (decide (i < 16)%nat) as [H16|H16].
  - unfold W. rewrite schedule_prefix by done. by apply be_words_get.
  - unfold R. rewrite !lookup_take_lt by lia.
    assert (forall k, (1 <= k <= 16)%nat -> W !! (i - k)%nat = Some (default 0 (W !! (i - k)%nat)))
      as Hat.
    { intros k Hk. destruct (lookup_lt_is_Some_2 W (i - k)%nat) as [w ->]; [|done].
      unfold W. rewrite schedule_length, be_words_length. lia. }
    rewrite (Hat 2%nat), (Hat 7%nat), (Hat 15%nat), (Hat 16%nat) by lia. cbn [mbind option_bind].
    rewrite S1_sigma1, S0_sigma0 by apply W_word_at.
    assert (W !! i = Some (Fips.next (fun k => default 0 (W !! (i - k)%nat)))) as ->;
      [|unfold Fips.next; reflexivity].
    apply schedule_lookup; [|rewrite be_words_length; lia..].
    intros f g Hfg. unfold Fips.next. by rewrite !Hfg by lia.
Qed.

Lemma sha256_rounds_ok n i A :
  (i + n = 64)%nat -> sha256_state A ->
  sha256_rounds n data i (take i W) A = Some (foldl Fips.round A (drop i (zip K W))).
Proof.
  revert i A; induction n as [|n IH]; intros i A Hi HA.
  - rewrite drop_ge; [done|]. rewrite length_zip_with.
    change (List.length K) with 64%nat. lia.
  - assert (exists k, K !! i = Some k) as [k Hk]
      by (apply lookup_lt_is_Some_2; change (List.length K) with 64%nat; lia).
    assert (exists w, W !! i = Some w) as [w Hw].
    { apply lookup_lt_is_Some_2. unfold W. rewrite schedule_length, be_words_length. lia. }
    cbn [sha256_rounds]. unfold sha256_round at 1. rewrite round_word, Hw by lia.
    cbn [mbind option_bind]. rewrite Hk.
    destruct (eight A HA) as (a & b & c & d & e & f & g & h & -> & ? & ? & ? & ? & ? & ? & ? & ?).
    pose proof (P_round a b c d e f g h w k) as HP.
    cbn [mbind option_bind]. destruct (P a b c d e f g h w k) as [d' h']. cbn beta iota in HP |- *.
    rewrite HP by done. cbn [mbind option_bind]. rewrite <-take_S_r by done. rewrite IH; [|lia|by apply round_state].
    rewrite (drop_S (zip K W) (k, w) i) by (by rewrite lookup_zip_with, Hk, Hw).
    by rewrite foldl_cons.
Qed.

End Rounds.

Lemma rounds_state A l : sha256_state A -> sha256_state (foldl Fips.round A l).
Proof. revert A; induction l; intros; cbn; auto using round_state. Qed.

Lemma sha256_sum_state A B :
  List.length A = 8%nat -> List.length B = 8%nat ->
  sha256_state (zip_with (fun s a => u32 (a + s)) A B).
Proof.
  intros HA HB. split; [rewrite length_zip_with; lia|].
  apply Forall_lookup_2. intros i x Hx. apply lookup_zip_with_Some in Hx as (? & ? & -> & _).
  apply u32_word.
Qed.

#[export] Instance sha256_compression : Compression utils_sha256_process Fips.compress.
Proof.
  refine {| st_ok := sha256_state |}.
  - intros st b [Hl Hw]. unfold Fips.compress.
    apply sha256_sum_state; [done|]. by apply rounds_state.
  - intros st data Hst Hl Hd. unfold utils_sha256_process.
    pose proof (sha256_rounds_ok data Hl Hd 64 0 st eq_refl Hst) as H.
    rewrite take_0, drop_0 in H. rewrite H. cbn [mbind option_bind]. unfold Fips.compress.
    f_equal. generalize (foldl Fips.round st (zip K (schedule Fips.next 48 (be_words (take 64 data))))).
    intros l. revert l. clear. induction st as [|s st IH]; intros [|a l]; try done.
    cbn [zip_with]. by rewrite IH, Z.add_comm.
Defined.

(** ** The interface *)

Lemma sha256_iv_state : sha256_state sha256_iv.
Proof.
  split; [done|]. apply Forall_forall. intros x Hx. unfold word.
  apply list_elem_of_In in Hx. cbn in Hx. intuition lia.
Qed.

Lemma iterated_sha256_state m :
  sha256_state (iterated Fips.compress sha256_iv be_bytes m).
Proof. exact (chain_ok (Hcomp := sha256_compression) _ _ _ sha256_iv_state). Qed.

#[export] Instance sha256_spec : HashSpec iot_sha256_context Fips.sha256 32.
Proof.
  refine {| given c m := bytes_ok m /\ is224 c = 0 /\ represents (compress := Fips.compress) sha256_iv (sha256_hash c) m |}.
  - by intros c m (? & _).
  - intros c ->. split; [constructor|]. split; [done|]. by apply represents_nil.
  - intros c m input ilen (Hm & H224 & Hr) Hi Hl Hok Hs.
    destruct (hash_update_ok sha256_iv (sha256_hash c) m input ilen) as (h & Hu & Hh);
      [apply sha256_iv_state|done|done|done|done|done|done|].
    exists (c <| sha256_hash := h |>). cbn [hash_feed sha256_ops]. unfold utils_sha256_update.
    rewrite Hu. split; [done|]. split; [|done]. by apply bytes_ok_app.
  - intros c m (Hm & H224 & Hr) Hs. cbn [hash_finish sha256_ops]. unfold utils_sha256_finish.
    destruct (hash_pad_ok (msglen := msglen_be) sha256_iv (sha256_hash c) m)
      as (h & -> & Hh & _); [apply sha256_iv_state|done|done|done|].
    cbn [mbind option_bind]. unfold Fips.sha256. rewrite <-Hh.
    pose proof (iterated_sha256_state m) as Hst. rewrite <-Hh in Hst.
    destruct (eight _ Hst) as (a & b & d & e & f & g & i & j & -> & _).
    eexists. rewrite H224. cbn [Z.eqb fmap list_fmap concat].
    by rewrite !PUT_UINT32_BE_bytes, app_nil_r.
  - intros m. unfold Fips.sha256.
    destruct (eight _ (iterated_sha256_state m)) as (a & b & d & e & f & g & i & j & -> & _).
    done.
  - intros m. unfold Fips.sha256.
    destruct (eight _ (iterated_sha256_state m)) as (a & b & d & e & f & g & i & j & -> & _).
    cbn [fmap list_fmap concat]. rewrite !bytes_ok_app. split_and!; try apply be_bytes_ok.
    constructor.
  - lia.
Defined.

(** ** Theorems *)

(** C26. [utils_sha256_update] and [utils_sha256_finish] compute the SHA-256 of FIPS
    180-4 of the concatenation of all the pieces they were given, whatever the number and
    the lengths of the pieces (each below 2^32 bytes, in total below the 2^61 bytes
    of the standard): the buffering, the 64-bit byte count carried over two words,
    the padding and the compression with its macros are all correct. *)
Theorem sha256_pieces pieces :
  Forall (fun p => bytes_ok p /\ mlen p < 4294967296) pieces ->
  mlen (concat pieces) < 2305843009213693952 ->
  hash_pieces (C := iot_sha256_context) pieces = Some (Fips.sha256 (concat pieces)).
Proof. apply hash_pieces_ok. Qed.

Lemma sha256_pieces_witness :
  hash_pieces (C := iot_sha256_context) [lit "ab"; []; lit "c"]
  = Some (Fips.sha256 (lit "abc")).
Proof.
  apply (sha256_pieces [lit "ab"; []; lit "c"]); [|done].
  rewrite !Forall_cons, Forall_nil. split_and!; try done; by apply bytes_ok_check.
Defined.

(** [utils_hmac_sha256] computes the HMAC of RFC 2104 over SHA-256 for every key
    of at most 64 bytes and every message. *)
Theorem utils_hmac_sha256_rfc2104 msg msg_len key key_len :
  0 <= key_len <= 64 -> key_len <= mlen key -> bytes_ok (take (Z.to_nat key_len) key) ->
  0 <= msg_len < 4294967296 -> msg_len <= mlen msg -> bytes_ok (take (Z.to_nat msg_len) msg) ->
  utils_hmac_sha256 (Some msg) msg_len (Some key) key_len true
  = Some (Some (hmac_spec Fips.sha256 (take (Z.to_nat key_len) key)
                  (take (Z.to_nat msg_len) msg))).
Proof. apply hmac_ok. Qed.

Lemma utils_hmac_sha256_rfc2104_witness :
  utils_hmac_sha256 (Some (lit "what do ya want for nothing?")) 28 (Some (lit "Jefe")) 4 true
  = Some (Some (hmac_spec Fips.sha256 (lit "Jefe") (lit "what do ya want for nothing?"))).
Proof.
  apply (utils_hmac_sha256_rfc2104 (lit "what do ya want for nothing?") 28 (lit "Jefe") 4);
    try done; by apply bytes_ok_check.
Defined.

(** The same value computed: test case 2 of RFC 4231. *)
Example hmac_sha256_rfc4231 :
  utils_hmac_sha256 (Some (lit "what do ya want for nothing?")) 28 (Some (lit "Jefe")) 4 true
  = Some (Some (be_bytes 32
      0x5BDCC146BF60754E6A042426089575C75A003F089D2739839DEC58B964EC3843)).
Proof. vm_compute. reflexivity. Qed.

(** The one-shot function. *)
Lemma utils_sha256_fips input ilen :
  0 <= ilen < 4294967296 -> ilen <= mlen input -> bytes_ok (take (Z.to_nat ilen) input) ->
  utils_sha256 input ilen = Some (Fips.sha256 (take (Z.to_nat ilen) input)).
Proof. apply hash_once_ok. Qed.
