(* ===== verification/InfraSha1.v ===== *)
(** * InfraSha1: SHA-1

    [eng/infra/infra_sha1.c]: the compression function with its circular schedule of
    sixteen words and its unrolled rounds, which rename the registers instead of moving
    them; the hash function and the two HMACs; proved equal to FIPS 180-4 and to
    RFC 2104 over it. *)

From S2P Require Import Prelude.
From S2P Require Import InfraHash.

Definition sha1_iv : list Z :=
  [0x67452301; 0xEFCDAB89; 0x98BADCFE; 0x10325476; 0xC3D2E1F0].

(** ** The compression function *)

Definition S (x n : Z) : Z :=
  Z.lor (u32 (Z.shiftl x n)) (Z.shiftr (Z.land x 0xFFFFFFFF) (32 - n)).

(** [R(t)]: the word and the array with it. *)
Definition R (W : list Z) (t : nat) : option (Z * list Z) :=
  w3 ← W !! Nat.land (t - 3) 0x0F; w8 ← W !! Nat.land (t - 8) 0x0F;
  w14 ← W !! Nat.land (t - 14) 0x0F; w16 ← W !! Nat.land t 0x0F;
  let temp := Z.lxor (Z.lxor (Z.lxor w3 w8) w14) w16 in
  let v := S temp 1 in
  Some (v, <[Nat.land t 0x0F := v]> W).

(** [P]: the new [e] and [b]; [F] and [K] are the macros in force. *)
Definition P (F : Z -> Z -> Z -> Z) (K : Z) (a b c d e x : Z) : Z * Z :=
  (u32 (e + S a 5 + F b c d + K + x), S b 30).

Definition F1 (x y z : Z) : Z := Z.lxor z (Z.land x (Z.lxor y z)).
Definition F2 (x y z : Z) : Z := Z.lxor (Z.lxor x y) z.
Definition F3 (x y z : Z) : Z := Z.lor (Z.land x y) (Z.land z (Z.lor x y)).

(** The last argument of the calls of [P]: [W[0]] to [W[15]], then [R(16)], .... *)
Definition fetch (W : list Z) (t : nat) : option (Z * list Z) :=
  if decide (t < 16)%nat then w ← W !! t; Some (w, W) else R W t.

(** The array and the variables [A] to [E]. *)
Definition regs : Type := list Z * (Z * Z * Z * Z * Z).

(** Five calls of [P] in a row, from step [t]; the next five take the variables in the
    same order again. *)
Definition five (F : Z -> Z -> Z -> Z) (K : Z) (t : nat) (s : regs) : option regs :=
  let '(W, (A, B, C, D, E)) := s in
  '(x, W) ← fetch W t;
  let '(E, B) := P F K A B C D E x in
  '(x, W) ← fetch W (t + 1);
  let '(D, A) := P F K E A B C D x in
  '(x, W) ← fetch W (t + 2);
  let '(C, E) := P F K D E A B C x in
  '(x, W) ← fetch W (t + 3);
  let '(B, D) := P F K C D E A B x in
  '(x, W) ← fetch W (t + 4);
  let '(A, C) := P F K B C D E A x in
  Some (W, (A, B, C, D, E)).

(** The twenty steps under one definition of [F] and [K]. *)
Definition twenty (F : Z -> Z -> Z -> Z) (K : Z) (t : nat) (s : regs) : option regs :=
  s ← five F K t s; s ← five F K (t + 5) s;
  s ← five F K (t + 10) s; five F K (t + 15) s.

Definition sha1_rounds (s : regs) : option regs :=
  s ← twenty F1 0x5A827999 0 s;
  s ← twenty F2 0x6ED9EBA1 20 s;
  s ← twenty F3 0x8F1BBCDC 40 s;
  twenty F2 0xCA62C1D6 60 s.

Fixpoint sha1_load (n : nat) (data : list Z) (i : nat) : option (list Z) :=
  match n with
  | O => Some []
  | Datatypes.S n' =>
      w ← GET_UINT32_BE data (4 * i); W ← sha1_load n' data (Datatypes.S i); Some (w :: W)
  end.

Definition utils_sha1_process (state data : list Z) : option (list Z) :=
  W ← sha1_load 16 data 0;
  match state with
  | [A0; B0; C0; D0; E0] =>
      '(_, (A, B, C, D, E)) ← sha1_rounds (W, (A0, B0, C0, D0, E0));
      Some [u32 (A0 + A); u32 (B0 + B); u32 (C0 + C); u32 (D0 + D); u32 (E0 + E)]
  | _ => None
  end.

(** ** The functions *)

Definition utils_sha1_init : hash_context := hash_zero 5.
Definition utils_sha1_free (ctx : hash_context) : hash_context := hash_zero 5.
Definition utils_sha1_clone (dst src : hash_context) : hash_context := src.
Definition utils_sha1_starts : hash_context -> hash_context := plain_starts sha1_iv.
Definition utils_sha1_update : hash_context -> list Z -> Z -> option hash_context :=
  hash_update utils_sha1_process.
Definition utils_sha1_finish : hash_context -> option (hash_context * list Z) :=
  plain_finish utils_sha1_process msglen_be PUT_UINT32_BE.

Definition sha1_ops : HashOps hash_context := {|
  hash_init := utils_sha1_init;
  hash_starts := utils_sha1_starts;
  hash_feed := utils_sha1_update;
  hash_finish := utils_sha1_finish |}.

Definition utils_sha1 (input : list Z) (ilen : Z) : option (list Z) :=
  hash_once (H := sha1_ops) input ilen.

(** Two hexadecimal characters per byte. *)
Definition utils_hb2hex (hb : Z) : Z :=
  let hb := Z.land hb 0xF in s8 (if hb <? 10 then 48 + hb else hb - 10 + 97).

Definition hex_digest (out : list Z) : list Z :=
  concat ((fun b => [utils_hb2hex (Z.shiftr b 4); utils_hb2hex b]) <$> out).

(** [None] as a pointer is [NULL]; the result is what is stored at [digest]. *)
Definition utils_hmac_sha1_hex (msg : option (list Z)) (msg_len : Z) (digest : bool)
    (key : option (list Z)) (key_len : Z) : option (option (list Z)) :=
  match msg, key, digest with
  | Some msg, Some key, true => hmac (H := sha1_ops) 20 msg msg_len key key_len
  | _, _, _ => Some None
  end.

Definition utils_hmac_sha1 (msg : option (list Z)) (msg_len : Z) (digest : bool)
    (key : option (list Z)) (key_len : Z) : option (option (list Z)) :=
  match msg, key, digest with
  | Some msg, Some key, true =>
      out ← hmac (H := sha1_ops) 20 msg msg_len key key_len;
      Some (option_map hex_digest out)
  | _, _, _ => Some None
  end.

(** ** FIPS 180-4 *)

Module Fips.

Definition rotl (n x : Z) : Z := (x * 2 ^ n) mod 4294967296 + x / 2 ^ (32 - n).

Definition Ch (x y z : Z) : Z := Z.lxor (Z.land x y) (Z.land (4294967295 - x) z).
Definition Parity (x y z : Z) : Z := Z.lxor (Z.lxor x y) z.
Definition Maj (x y z : Z) : Z :=
  Z.lxor (Z.lxor (Z.land x y) (Z.land x z)) (Z.land y z).

Definition f (t : nat) : Z -> Z -> Z -> Z :=
  if decide (t < 20)%nat then Ch else if decide (t < 40)%nat then Parity
  else if decide (t < 60)%nat then Maj else Parity.

Definition K (t : nat) : Z :=
  if decide (t < 20)%nat then 0x5A827999 else if decide (t < 40)%nat then 0x6ED9EBA1
  else if decide (t < 60)%nat then 0x8F1BBCDC else 0xCA62C1D6.

Definition next (at_ : nat -> Z) : Z :=
  rotl 1 (Z.lxor (Z.lxor (Z.lxor (at_ 3%nat) (at_ 8%nat)) (at_ 14%nat)) (at_ 16%nat)).

(** Step [t] on the working variables. *)
Definition step (W : list Z) (s : Z * Z * Z * Z * Z) (t : nat) : Z * Z * Z * Z * Z :=
  let '(a, b, c, d, e) := s in
  let T := u32 (rotl 5 a + f t b c d + e + K t + default 0 (W !! t)) in
  (T, a, rotl 30 b, c, d).

(** The intermediate hash value. *)
Definition add (s : Z * Z * Z * Z * Z) (H : Z * Z * Z * Z * Z) : list Z :=
  let '(a, b, c, d, e) := s in
  let '(h0, h1, h2, h3, h4) := H in
  [u32 (a + h0); u32 (b + h1); u32 (c + h2); u32 (d + h3); u32 (e + h4)].

Definition compress (H block : list Z) : list Z :=
  match H with
  | [h0; h1; h2; h3; h4] =>
      let H := (h0, h1, h2, h3, h4) in
      add (foldl (step (schedule next 64 (be_words block))) H (seq 0 80)) H
  | _ => H
  end.

Definition sha1 (m : list Z) : list Z :=
  concat (be_bytes 4 <$> iterated compress sha1_iv be_bytes m).

End Fips.

Example utils_sha1_abc :
  utils_sha1 (lit "abc") 3 = Some (be_bytes 20 0xA9993E364706816ABA3E25717850C26C9CD0D89D)
  /\ Fips.sha1 (lit "abc") = be_bytes 20 0xA9993E364706816ABA3E25717850C26C9CD0D89D.
Proof. split; vm_compute; reflexivity. Qed.

(** ** The macros compute the functions of the standard *)

Lemma sha1_S_rotl x n : word x -> 0 < n < 32 -> S x n = Fips.rotl n x.
Proof. intros. unfold S. rewrite land_mask by done. by apply rotate_left. Qed.

Lemma S_word x n : word x -> 0 < n < 32 -> word (S x n).
Proof.
  intros. unfold S. apply word_lor; [apply u32_word|].
  apply word_shiftr; [lia|]. by apply word_land.
Qed.

Lemma sha1_F1_Ch x y z : word x -> word y -> word z -> F1 x y z = Fips.Ch x y z.
Proof. intros. unfold F1, Fips.Ch. rewrite complement_word by done. wordwise. Qed.

Lemma F3_Maj x y z : word x -> word y -> word z -> F3 x y z = Fips.Maj x y z.
Proof. intros. unfold F3, Fips.Maj. wordwise. Qed.

(** [F] and [K] are those of the steps [t] to [t + n - 1]. *)
Definition in_force (F : Z -> Z -> Z -> Z) (k : Z) (t n : nat) : Prop :=
  forall i, (t <= i < t + n)%nat ->
    k = Fips.K i /\ forall x y z, word x -> word y -> word z -> F x y z = Fips.f i x y z.

Lemma in_force_F1 : in_force F1 0x5A827999 0 20.
Proof.
  intros i Hi. unfold Fips.K, Fips.f. rewrite !(decide_True (P := (i < 20)%nat)) by lia.
  split; [done|]. apply sha1_F1_Ch.
Qed.

Lemma in_force_F2 : in_force F2 0x6ED9EBA1 20 20.
Proof.
  intros i Hi. unfold Fips.K, Fips.f. rewrite !(decide_False (P := (i < 20)%nat)) by lia.
  by rewrite !(decide_True (P := (i < 40)%nat)) by lia.
Qed.

Lemma in_force_F3 : in_force F3 0x8F1BBCDC 40 20.
Proof.
  intros i Hi. unfold Fips.K, Fips.f. rewrite !(decide_False (P := (i < 20)%nat)) by lia.
  rewrite !(decide_False (P := (i < 40)%nat)), !(decide_True (P := (i < 60)%nat)) by lia.
  split; [done|]. apply F3_Maj.
Qed.

Lemma in_force_F4 : in_force F2 0xCA62C1D6 60 20.
Proof.
  intros i Hi. unfold Fips.K, Fips.f. rewrite !(decide_False (P := (i < 20)%nat)) by lia.
  by rewrite !(decide_False (P := (i < 40)%nat)), !(decide_False (P := (i < 60)%nat)) by lia.
Qed.

Lemma in_force_part F k t n t' n' :
  in_force F k t n -> (t <= t')%nat -> (t' + n' <= t + n)%nat -> in_force F k t' n'.
Proof. intros H ?? i Hi. apply H. lia. Qed.

(** ** The circular schedule *)

Section Steps.

Context (V : list Z).                       (** the schedule of the standard *)
Hypothesis V_length : List.length V = 80%nat.
Hypothesis V_word : forall i, word (default 0 (V !! i)).
Hypothesis V_next : forall i, (16 <= i < 80)%nat ->
  V !! i = Some (Fips.next (fun k => default 0 (V !! (i - k)%nat))).

(** Before step [t] the array holds the last sixteen words. *)
Definition circular (t : nat) (W : list Z) : Prop :=
  List.length W = 16%nat
  /\ forall k, (Nat.max t 16 - 16 <= k < Nat.max t 16)%nat -> W !! (k mod 16)%nat = V !! k.

Lemma land_15 n : Nat.land n 0x0F = (n mod 16)%nat.
Proof. apply (Nat.land_ones n 4). Qed.

Lemma mod_lag (t : nat) : (16 <= t)%nat -> ((t - 16) mod 16 = t mod 16)%nat.
Proof. intros. replace t with (t - 16 + 1 * 16)%nat at 2 by lia. by rewrite Nat.Div0.mod_add. Qed.

Lemma V_at i : (i < 80)%nat -> V !! i = Some (default 0 (V !! i)).
Proof. intros Hi. destruct (lookup_lt_is_Some_2 V i) as [v ->]; [lia|done]. Qed.

Lemma fetch_ok t W :
  circular t W -> (t < 80)%nat ->
  exists W', fetch W t = Some (default 0 (V !! t), W') /\ circular (Datatypes.S t) W'.
Proof.
  intros [Hl HW] Ht. unfold fetch. destruct (decide (t < 16)%nat) as [H16|H16].
  - exists W. rewrite <-(Nat.mod_small t 16) at 1 by lia.
    rewrite HW, V_at by lia. cbn [mbind option_bind]. split; [done|]. split; [done|].
    intros k Hk. apply HW. lia.
  - unfold R. rewrite !land_15.
    rewrite (HW (t - 3)%nat), (HW (t - 8)%nat), (HW (t - 14)%nat) by lia.
    rewrite <-(mod_lag t), (HW (t - 16)%nat) by lia.
    rewrite (V_at (t - 3)), (V_at (t - 8)), (V_at (t - 14)), (V_at (t - 16)) by lia.
    cbn [mbind option_bind]. rewrite sha1_S_rotl by (first [lia|repeat apply word_lxor; apply V_word]).
    rewrite (V_next t) by lia. cbn [default]. eexists. split; [done|].
    split; [by rewrite length_insert|]. intros k Hk.
    destruct (decide (k = t)) as [->|Hne].
    + rewrite mod_lag by lia. rewrite list_lookup_insert_eq; [|rewrite Hl; by apply Nat.mod_upper_bound].
      by rewrite (V_next t) by lia.
    + rewrite list_lookup_insert_ne; [apply HW; lia|].
      intros E. rewrite mod_lag in E by lia. 
      pose proof (Nat.div_mod_eq t 16). pose proof (Nat.div_mod_eq k 16). lia.
Qed.

Definition words5 (s : Z * Z * Z * Z * Z) : Prop :=
  let '(a, b, c, d, e) := s in word a /\ word b /\ word c /\ word d /\ word e.

(** One call of [P] is one step: two variables change, and the five change places. *)
Lemma sha1_call_ok F k t n W a b c d e :
  in_force F k t n -> (0 < n)%nat -> (t < 80)%nat -> circular t W -> words5 (a, b, c, d, e) ->
  exists x W' e' b',
    fetch W t = Some (x, W') /\ P F k a b c d e x = (e', b')
    /\ circular (Datatypes.S t) W' /\ words5 (e', a, b', c, d)
    /\ Fips.step V (a, b, c, d, e) t = (e', a, b', c, d).
Proof.
  intros HF Hn Ht HW (Ha & Hb & Hc & Hd & He).
  destruct (fetch_ok t W HW Ht) as (W' & Hf & HW').
  destruct (HF t ltac:(lia)) as [-> HFt].
  eexists _, W', _, _. split; [done|]. split; [done|]. split; [done|]. split.
  - split_and!; try done; [apply u32_word|]. by apply S_word.
  - unfold Fips.step. rewrite HFt, !sha1_S_rotl by done. do 5 f_equal. lia.
Qed.

Lemma five_ok F k t W s :
  in_force F k t 5 -> (t + 5 <= 80)%nat -> circular t W -> words5 s ->
  exists W',
    five F k t (W, s) = Some (W', foldl (Fips.step V) s (seq t 5))
    /\ circular (t + 5) W' /\ words5 (foldl (Fips.step V) s (seq t 5)).
Proof.
  intros HF Ht HW Hs. destruct s as [[[[a b] c] d] e]. cbn [seq five].
  rewrite !foldl_cons.
  destruct (sha1_call_ok F k t 5 W a b c d e) as (x1 & W1 & e1 & b1 & -> & E1 & HW1 & Hs1 & ->);
    [done|lia|lia|done|done|]. cbn [mbind option_bind]. rewrite E1.
  replace (t + 1)%nat with (Datatypes.S t) by lia.
  destruct (sha1_call_ok F k (Datatypes.S t) 4 W1 e1 a b1 c d)
    as (x2 & W2 & d2 & a2 & -> & E2 & HW2 & Hs2 & ->);
    [by eapply in_force_part; [exact HF|lia|lia]|lia|lia|done|done|].
  cbn [mbind option_bind]. rewrite E2.
  replace (t + 2)%nat with (Datatypes.S (Datatypes.S t)) by lia.
  destruct (sha1_call_ok F k (Datatypes.S (Datatypes.S t)) 3 W2 d2 e1 a2 b1 c)
    as (x3 & W3 & c3 & e3 & -> & E3 & HW3 & Hs3 & ->);
    [by eapply in_force_part; [exact HF|lia|lia]|lia|lia|done|done|].
  cbn [mbind option_bind]. rewrite E3.
  replace (t + 3)%nat with (3 + t)%nat by lia.
  destruct (sha1_call_ok F k (3 + t) 2 W3 c3 d2 e3 a2 b1)
    as (x4 & W4 & b4 & d4 & -> & E4 & HW4 & Hs4 & E4');
    [by eapply in_force_part; [exact HF|lia|lia]|lia|lia|done|done|].
  cbn [mbind option_bind]. rewrite E4. cbn [Nat.add] in E4'. rewrite E4'.
  replace (t + 4)%nat with (4 + t)%nat by lia.
  destruct (sha1_call_ok F k (4 + t) 1 W4 b4 c3 d4 e3 a2)
    as (x5 & W5 & a5 & c5 & -> & E5 & HW5 & Hs5 & E5');
    [by eapply in_force_part; [exact HF|lia|lia]|lia|lia|done|done|].
  cbn [mbind option_bind]. rewrite E5. cbn [Nat.add] in E5'. rewrite E5'.
  exists W5. replace (t + 5)%nat with (5 + t)%nat by lia. done.
Qed.

Lemma twenty_ok F k t W s :
  in_force F k t 20 -> (t + 20 <= 80)%nat -> circular t W -> words5 s ->
  exists W',
    twenty F k t (W, s) = Some (W', foldl (Fips.step V) s (seq t 20))
    /\ circular (t + 20) W' /\ words5 (foldl (Fips.step V) s (seq t 20)).
Proof.
  intros HF Ht HW Hs. unfold twenty.
  destruct (five_ok F k t W s) as (W1 & -> & HW1 & Hs1);
    [by eapply in_force_part; [exact HF|lia|lia]|lia|done|done|]. cbn [mbind option_bind].
  destruct (five_ok F k (t + 5) W1 _ ltac:(by eapply in_force_part; [exact HF|lia|lia])
              ltac:(lia) HW1 Hs1) as (W2 & -> & HW2 & Hs2). cbn [mbind option_bind].
  rewrite <-foldl_app, <-seq_app in *.
  replace (t + 5 + 5)%nat with (t + 10)%nat in * by lia.
  destruct (five_ok F k (t + 10) W2 _ ltac:(by eapply in_force_part; [exact HF|lia|lia])
              ltac:(lia) HW2 Hs2) as (W3 & -> & HW3 & Hs3). cbn [mbind option_bind].
  rewrite <-foldl_app, <-seq_app in *.
  replace (t + 10 + 5)%nat with (t + 15)%nat in * by lia.
  destruct (five_ok F k (t + 15) W3 _ ltac:(by eapply in_force_part; [exact HF|lia|lia])
              ltac:(lia) HW3 Hs3) as (W4 & -> & HW4 & Hs4).
  rewrite <-foldl_app, <-seq_app in *.
  replace (t + 15 + 5)%nat with (t + 20)%nat in * by lia.
  exists W4. split; [reflexivity|]. split; [exact HW4|exact Hs4].
Qed.

(** The eighty steps. *)
Lemma sha1_rounds_ok W s :
  circular 0 W -> words5 s ->
  exists W', sha1_rounds (W, s) = Some (W', foldl (Fips.step V) s (seq 0 80)).
Proof.
  intros HW Hs. unfold sha1_rounds.
  destruct (twenty_ok _ _ _ W s in_force_F1 ltac:(lia) HW Hs) as (W1 & -> & HW1 & Hs1).
  cbn [mbind option_bind].
  destruct (twenty_ok _ _ _ _ _ in_force_F2 ltac:(lia) HW1 Hs1) as (W2 & -> & HW2 & Hs2).
  cbn [mbind option_bind].
  destruct (twenty_ok _ _ _ _ _ in_force_F3 ltac:(lia) HW2 Hs2) as (W3 & -> & HW3 & Hs3).
  cbn [mbind option_bind].
  destruct (twenty_ok _ _ _ _ _ in_force_F4 ltac:(lia) HW3 Hs3) as (W4 & -> & _ & _).
  exists W4. by rewrite <-!foldl_app.
Qed.

End Steps.

(** ** The compression function *)

Definition sha1_state (l : list Z) : Prop := List.length l = 5%nat /\ Forall word l.

Lemma five_words l :
  sha1_state l -> exists a b c d e, l = [a; b; c; d; e] /\ words5 (a, b, c, d, e).
Proof.
  intros [Hl Hw]. destruct l as [|a [|b [|c [|d [|e [|]]]]]]; try discriminate Hl.
  rewrite !Forall_cons in Hw. destruct Hw as (? & ? & ? & ? & ? & _).
  by exists a, b, c, d, e.
Qed.

Lemma sha1_load_ok data n i :
  (64 <= List.length data)%nat -> bytes_ok (take 64 data) -> (i + n = 16)%nat ->
  sha1_load n data i = Some (drop i (be_words (take 64 data))).
Proof.
  intros Hl Hb. revert i; induction n as [|n IH]; intros i Hi.
  - by rewrite drop_ge by (rewrite be_words_length; lia).
  - cbn [sha1_load]. rewrite be_words_get by (done || lia).
    destruct (be_words (take 64 data) !! i) as [w|] eqn:Hw.
    + cbn [mbind option_bind]. rewrite IH by lia. cbn [mbind option_bind].
      by rewrite (drop_S _ w i Hw).
    + apply lookup_ge_None in Hw. rewrite be_words_length in Hw. lia.
Qed.

(** The schedule of the standard has the properties the rounds rely on. *)
Section Schedule1.

Context (block : list Z) (Hblock : bytes_ok block).

Lemma sha1_schedule_length :
  List.length (schedule Fips.next 64 (be_words block)) = 80%nat.
Proof. by rewrite schedule_length, be_words_length. Qed.

Lemma rotl_word x n : word x -> 0 < n < 32 -> word (Fips.rotl n x).
Proof. intros. rewrite <-sha1_S_rotl by done. by apply S_word. Qed.

Lemma word_default l i : Forall word l -> word (default 0 (l !! i)).
Proof.
  intros Hl. destruct (l !! i) as [x|] eqn:Hx; cbn.
  - eapply Forall_lookup_1; [exact Hl|exact Hx].
  - unfold word. lia.
Qed.

Lemma next_word l n :
  Forall word l -> word (Fips.next (fun k => default 0 (l !! (n - k)%nat))).
Proof. intros Hl. apply rotl_word; [|lia]. repeat apply word_lxor; by apply word_default. Qed.

Lemma sha1_schedule_word : Forall word (schedule Fips.next 64 (be_words block)).
Proof.
  assert (forall n W, Forall word W -> Forall word (schedule Fips.next n W)) as H.
  { induction n as [|n IH]; intros W HW; [done|]. cbn [schedule].
    apply IH, Forall_app. rewrite Forall_singleton. split; [done|]. by apply next_word. }
  apply H. by apply be_words_word.
Qed.

Lemma sha1_schedule_next i :
  (16 <= i < 80)%nat ->
  schedule Fips.next 64 (be_words block) !! i
  = Some (Fips.next (fun k => default 0 (schedule Fips.next 64 (be_words block) !! (i - k)%nat))).
Proof.
  intros Hi. apply schedule_lookup; [|rewrite be_words_length; lia..].
  intros f g Hfg. unfold Fips.next. by rewrite !Hfg by lia.
Qed.

(** It starts with the words of the block. *)
Lemma circular_start : circular (schedule Fips.next 64 (be_words block)) 0 (be_words block).
Proof.
  split; [done|]. intros k Hk. rewrite Nat.mod_small, schedule_prefix; [done| |]; cbn in *; lia.
Qed.

End Schedule1.

Lemma sha1_add_state s H : sha1_state (Fips.add s H).
Proof.
  destruct s as [[[[a b] c] d] e], H as [[[[h0 h1] h2] h3] h4]. split; [done|].
  cbn [Fips.add]. rewrite !Forall_cons, Forall_nil. split_and!; first [done|apply u32_word].
Qed.

Lemma compress_five h0 h1 h2 h3 h4 block :
  Fips.compress [h0; h1; h2; h3; h4] block
  = Fips.add (foldl (Fips.step (schedule Fips.next 64 (be_words block)))
                (h0, h1, h2, h3, h4) (seq 0 80)) (h0, h1, h2, h3, h4).
Proof. reflexivity. Qed.

Lemma process_five h0 h1 h2 h3 h4 data W W' s :
  sha1_load 16 data 0 = Some W -> sha1_rounds (W, (h0, h1, h2, h3, h4)) = Some (W', s) ->
  utils_sha1_process [h0; h1; h2; h3; h4] data = Some (Fips.add s (h0, h1, h2, h3, h4)).
Proof.
  intros HW Hs. unfold utils_sha1_process. rewrite HW. cbn [mbind option_bind].
  rewrite Hs. destruct s as [[[[a b] c] d] e]. cbn [mbind option_bind Fips.add].
  by rewrite (Z.add_comm a), (Z.add_comm b), (Z.add_comm c), (Z.add_comm d), (Z.add_comm e).
Qed.

Lemma utils_sha1_process_ok st data :
  sha1_state st -> (64 <= List.length data)%nat -> bytes_ok (take 64 data) ->
  utils_sha1_process st data = Some (Fips.compress st (take 64 data)).
Proof.
  intros (h0 & h1 & h2 & h3 & h4 & -> & Hw)%five_words Hl Hb.
  destruct (sha1_rounds_ok (schedule Fips.next 64 (be_words (take 64 data)))
              (sha1_schedule_length _)
              (fun i => word_default _ i (sha1_schedule_word _ Hb))
              (sha1_schedule_next _) (be_words (take 64 data)) (h0, h1, h2, h3, h4))
    as (W' & HR); [apply circular_start|exact Hw|].
  rewrite compress_five. eapply process_five; [|exact HR].
  by rewrite sha1_load_ok, drop_0.
Qed.

#[export] Instance sha1_compression : Compression utils_sha1_process Fips.compress.
Proof.
  refine {| st_ok := sha1_state; process_ok := utils_sha1_process_ok |}.
  intros st b (h0 & h1 & h2 & h3 & h4 & -> & _)%five_words.
  rewrite compress_five. apply sha1_add_state.
Defined.

(** ** The interface and the theorems *)

Lemma sha1_iv_state : sha1_state sha1_iv.
Proof.
  split; [done|]. unfold sha1_iv. rewrite !Forall_cons, Forall_nil.
  unfold word. split_and!; done.
Qed.

Lemma sha1_spec : HashSpec (H := sha1_ops) hash_context Fips.sha1 20.
Proof.
  apply (plain_spec utils_sha1_process msglen_be PUT_UINT32_BE sha1_iv
           (compress := Fips.compress) (count := be_bytes)).
  - apply sha1_iv_state.
  - cbn. lia.
  - by intros st [Hl _].
  - apply PUT_UINT32_BE_bytes.
Qed.

(** However the input of SHA-1 is cut into pieces, [utils_sha1_update] on each and
    [utils_sha1_finish] give the SHA-1 of FIPS 180-4 of their concatenation: the circular
    schedule of sixteen words and the 80 unrolled steps with renamed registers compute
    the 80-word schedule and the shifting registers of the standard. *)
Theorem sha1_pieces pieces :
  Forall (fun p => bytes_ok p /\ mlen p < 4294967296) pieces ->
  mlen (concat pieces) < 2305843009213693952 ->
  hash_pieces (H := sha1_ops) pieces = Some (Fips.sha1 (concat pieces)).
Proof. apply (hash_pieces_ok (HashSpec0 := sha1_spec)). Qed.

Lemma sha1_pieces_witness :
  hash_pieces (H := sha1_ops) [lit "a"; lit "bc"] = Some (Fips.sha1 (lit "abc")).
Proof.
  apply (sha1_pieces [lit "a"; lit "bc"]); [|done].
  rewrite !Forall_cons, Forall_nil. split_and!; try done; by apply bytes_ok_check.
Defined.

(** The characters of [hex_digest] are the lower-case hexadecimal digits. *)
Lemma utils_hb2hex_digit b :
  is_byte b ->
  utils_hb2hex b = default 0 (lit "0123456789abcdef" !! Z.to_nat (b mod 16)).
Proof.
  intros Hb. apply Z.eqb_eq.
  apply (upto_check (fun b => utils_hb2hex b
    =? default 0 (lit "0123456789abcdef" !! Z.to_nat (b mod 16))) 256); [reflexivity|done].
Qed.

Lemma utils_hmac_sha1_ok msg msg_len key key_len :
  0 <= key_len <= 64 -> key_len <= mlen key -> bytes_ok (take (Z.to_nat key_len) key) ->
  0 <= msg_len < 4294967296 -> msg_len <= mlen msg -> bytes_ok (take (Z.to_nat msg_len) msg) ->
  let d := hmac_spec Fips.sha1 (take (Z.to_nat key_len) key) (take (Z.to_nat msg_len) msg) in
  utils_hmac_sha1_hex (Some msg) msg_len true (Some key) key_len = Some (Some d)
  /\ utils_hmac_sha1 (Some msg) msg_len true (Some key) key_len = Some (Some (hex_digest d)).
Proof.
  intros Hk Hkl Hkok Hm Hml Hmok d. unfold utils_hmac_sha1_hex, utils_hmac_sha1.
  by rewrite (hmac_ok (HashSpec0 := sha1_spec)) by done.
Qed.

(** [utils_hmac_sha1_hex] computes the HMAC of RFC 2104 over SHA-1 and [utils_hmac_sha1]
    its text in hexadecimal, for every key of at most 64 bytes; with a longer key, or a
    null pointer, both return without writing the digest and without an error, where the
    RFC hashes the key first. *)
Theorem utils_hmac_sha1_rfc2104 msg msg_len key key_len :
  key_len <= mlen key -> bytes_ok key -> 0 <= key_len ->
  0 <= msg_len <= mlen msg -> msg_len < 4294967296 -> bytes_ok msg ->
  let d := hmac_spec Fips.sha1 (take (Z.to_nat key_len) key) (take (Z.to_nat msg_len) msg) in
  utils_hmac_sha1_hex (Some msg) msg_len true (Some key) key_len
  = Some (if key_len <=? 64 then Some d else None)
  /\ utils_hmac_sha1 (Some msg) msg_len true (Some key) key_len
     = Some (if key_len <=? 64 then Some (hex_digest d) else None).
Proof.
  intros Hkl Hkok Hk Hm Hml Hmok d. destruct (Z.leb_spec key_len 64) as [Hle|Hgt].
  - apply utils_hmac_sha1_ok; [lia|done|by apply bytes_ok_take|lia|lia|by apply bytes_ok_take].
  - unfold utils_hmac_sha1_hex, utils_hmac_sha1, hmac. by rewrite (proj2 (Z.ltb_lt 64 key_len)) by lia.
Qed.

Lemma utils_hmac_sha1_rfc2104_witness :
  utils_hmac_sha1 (Some (lit "what do ya want for nothing?")) 28 true (Some (lit "Jefe")) 4
  = Some (Some (hex_digest
      (hmac_spec Fips.sha1 (lit "Jefe") (lit "what do ya want for nothing?")))).
Proof.
  apply (utils_hmac_sha1_rfc2104 (lit "what do ya want for nothing?") 28 (lit "Jefe") 4);
    try done; by apply bytes_ok_check.
Defined.

Example hmac_sha1_rfc2202 :
  utils_hmac_sha1 (Some (lit "what do ya want for nothing?")) 28 true (Some (lit "Jefe")) 4
  = Some (Some (lit "effcdf6ae5eb2fa2d27416d5f184df9c259a7c79")).
Proof. vm_compute. reflexivity. Qed.
