(* ===== verification/InfraMd5.v ===== *)
(** * InfraMd5: MD5

    [eng/infra/infra_md5.c]: the compression function with its 64 unrolled calls, the
    hash function and the HMAC; proved equal to RFC 1321, where the message words and the
    rotations of the steps are given by formulas, and to RFC 2104 over it. *)

From S2P Require Import Prelude.
From S2P Require Import InfraHash.

Definition md5_iv : list Z := [0x67452301; 0xEFCDAB89; 0x98BADCFE; 0x10325476].

(** ** The compression function *)

Definition S (x n : Z) : Z :=
  Z.lor (u32 (Z.shiftl x n)) (Z.shiftr (Z.land x 0xFFFFFFFF) (32 - n)).

(** [P]: the new [a]; [F] is the macro in force. *)
Definition P (F : Z -> Z -> Z -> Z) (X : list Z) (a b c d : Z) (k : nat) (s t : Z)
    : option Z :=
  x ← X !! k;
  let a := u32 (a + (F b c d + x + t)) in
  Some (u32 (S a s + b)).

(** The four definitions of [F]; [~z] is on 32 bits. *)
Definition F1 (x y z : Z) : Z := Z.lxor z (Z.land x (Z.lxor y z)).
Definition F2 (x y z : Z) : Z := Z.lxor y (Z.land z (Z.lxor x y)).
Definition F3 (x y z : Z) : Z := Z.lxor (Z.lxor x y) z.
Definition F4 (x y z : Z) : Z := Z.lxor y (Z.lor x (u32 (Z.lnot z))).

(** The last three arguments of the calls, under each definition of [F]. *)
Definition calls1 : list (nat * Z * Z) :=
  [(0%nat, 7, 0xD76AA478); (1%nat, 12, 0xE8C7B756);
   (2%nat, 17, 0x242070DB); (3%nat, 22, 0xC1BDCEEE);
   (4%nat, 7, 0xF57C0FAF); (5%nat, 12, 0x4787C62A);
   (6%nat, 17, 0xA8304613); (7%nat, 22, 0xFD469501);
   (8%nat, 7, 0x698098D8); (9%nat, 12, 0x8B44F7AF);
   (10%nat, 17, 0xFFFF5BB1); (11%nat, 22, 0x895CD7BE);
   (12%nat, 7, 0x6B901122); (13%nat, 12, 0xFD987193);
   (14%nat, 17, 0xA679438E); (15%nat, 22, 0x49B40821)].
Definition calls2 : list (nat * Z * Z) :=
  [(1%nat, 5, 0xF61E2562); (6%nat, 9, 0xC040B340);
   (11%nat, 14, 0x265E5A51); (0%nat, 20, 0xE9B6C7AA);
   (5%nat, 5, 0xD62F105D); (10%nat, 9, 0x02441453);
   (15%nat, 14, 0xD8A1E681); (4%nat, 20, 0xE7D3FBC8);
   (9%nat, 5, 0x21E1CDE6); (14%nat, 9, 0xC33707D6);
   (3%nat, 14, 0xF4D50D87); (8%nat, 20, 0x455A14ED);
   (13%nat, 5, 0xA9E3E905); (2%nat, 9, 0xFCEFA3F8);
   (7%nat, 14, 0x676F02D9); (12%nat, 20, 0x8D2A4C8A)].
Definition calls3 : list (nat * Z * Z) :=
  [(5%nat, 4, 0xFFFA3942); (8%nat, 11, 0x8771F681);
   (11%nat, 16, 0x6D9D6122); (14%nat, 23, 0xFDE5380C);
   (1%nat, 4, 0xA4BEEA44); (4%nat, 11, 0x4BDECFA9);
   (7%nat, 16, 0xF6BB4B60); (10%nat, 23, 0xBEBFBC70);
   (13%nat, 4, 0x289B7EC6); (0%nat, 11, 0xEAA127FA);
   (3%nat, 16, 0xD4EF3085); (6%nat, 23, 0x04881D05);
   (9%nat, 4, 0xD9D4D039); (12%nat, 11, 0xE6DB99E5);
   (15%nat, 16, 0x1FA27CF8); (2%nat, 23, 0xC4AC5665)].
Definition calls4 : list (nat * Z * Z) :=
  [(0%nat, 6, 0xF4292244); (7%nat, 10, 0x432AFF97);
   (14%nat, 15, 0xAB9423A7); (5%nat, 21, 0xFC93A039);
   (12%nat, 6, 0x655B59C3); (3%nat, 10, 0x8F0CCC92);
   (10%nat, 15, 0xFFEFF47D); (1%nat, 21, 0x85845DD1);
   (8%nat, 6, 0x6FA87E4F); (15%nat, 10, 0xFE2CE6E0);
   (6%nat, 15, 0xA3014314); (13%nat, 21, 0x4E0811A1);
   (4%nat, 6, 0xF7537E82); (11%nat, 10, 0xBD3AF235);
   (2%nat, 15, 0x2AD7D2BB); (9%nat, 21, 0xEB86D391)].

(** The calls, four by four: the variables come round again after four. *)
Fixpoint calls (F : Z -> Z -> Z -> Z) (X : list Z) (l : list (nat * Z * Z))
    (v : Z * Z * Z * Z) : option (Z * Z * Z * Z) :=
  let '(A, B, C, D) := v in
  match l with
  | (k0, s0, t0) :: (k1, s1, t1) :: (k2, s2, t2) :: (k3, s3, t3) :: l' =>
      A ← P F X A B C D k0 s0 t0;
      D ← P F X D A B C k1 s1 t1;
      C ← P F X C D A B k2 s2 t2;
      B ← P F X B C D A k3 s3 t3;
      calls F X l' (A, B, C, D)
  | _ => Some v
  end.

Fixpoint md5_load (n : nat) (data : list Z) (i : nat) : option (list Z) :=
  match n with
  | O => Some []
  | Datatypes.S n' =>
      w ← GET_UINT32_LE data (4 * i); X ← md5_load n' data (Datatypes.S i); Some (w :: X)
  end.

Definition md5_rounds (X : list Z) (v : Z * Z * Z * Z) : option (Z * Z * Z * Z) :=
  v ← calls F1 X calls1 v;
  v ← calls F2 X calls2 v;
  v ← calls F3 X calls3 v;
  calls F4 X calls4 v.

Definition utils_md5_process (state data : list Z) : option (list Z) :=
  X ← md5_load 16 data 0;
  match state with
  | [A0; B0; C0; D0] =>
      '(A, B, C, D) ← md5_rounds X (A0, B0, C0, D0);
      Some [u32 (A0 + A); u32 (B0 + B); u32 (C0 + C); u32 (D0 + D)]
  | _ => None
  end.

(** ** The functions *)

Definition utils_md5_init : hash_context := hash_zero 4.
Definition utils_md5_free (ctx : hash_context) : hash_context := hash_zero 4.
Definition utils_md5_clone (dst src : hash_context) : hash_context := src.
Definition utils_md5_starts : hash_context -> hash_context := plain_starts md5_iv.
Definition utils_md5_update : hash_context -> list Z -> Z -> option hash_context :=
  hash_update utils_md5_process.
Definition utils_md5_finish : hash_context -> option (hash_context * list Z) :=
  plain_finish utils_md5_process msglen_le PUT_UINT32_LE.

Definition md5_ops : HashOps hash_context := {|
  hash_init := utils_md5_init;
  hash_starts := utils_md5_starts;
  hash_feed := utils_md5_update;
  hash_finish := utils_md5_finish |}.

Definition utils_md5 (input : list Z) (ilen : Z) : option (list Z) :=
  hash_once (H := md5_ops) input ilen.

Definition utils_hb2hex (hb : Z) : Z :=
  let hb := Z.land hb 0xF in s8 (if hb <? 10 then 48 + hb else hb - 10 + 97).

Definition utils_hmac_md5 (msg : option (list Z)) (msg_len : Z) (digest : bool)
    (key : option (list Z)) (key_len : Z) : option (option (list Z)) :=
  match msg, key, digest with
  | Some msg, Some key, true =>
      out ← hmac (H := md5_ops) 16 msg msg_len key key_len;
      Some (option_map (fun out =>
        concat ((fun b => [utils_hb2hex (Z.shiftr b 4); utils_hb2hex b]) <$> out)) out)
  | _, _, _ => Some None
  end.

(** ** RFC 1321 *)

Module Rfc.

Definition rotl (n x : Z) : Z := (x * 2 ^ n) mod 4294967296 + x / 2 ^ (32 - n).
Definition not (x : Z) : Z := 4294967295 - x.

Definition F (x y z : Z) : Z := Z.lor (Z.land x y) (Z.land (not x) z).
Definition G (x y z : Z) : Z := Z.lor (Z.land x z) (Z.land y (not z)).
Definition H (x y z : Z) : Z := Z.lxor (Z.lxor x y) z.
Definition I (x y z : Z) : Z := Z.lxor y (Z.lor x (not z)).

(** The table of section 3.4. *)
Definition T : list Z :=
  [0xD76AA478; 0xE8C7B756; 0x242070DB; 0xC1BDCEEE;
   0xF57C0FAF; 0x4787C62A; 0xA8304613; 0xFD469501;
   0x698098D8; 0x8B44F7AF; 0xFFFF5BB1; 0x895CD7BE;
   0x6B901122; 0xFD987193; 0xA679438E; 0x49B40821;
   0xF61E2562; 0xC040B340; 0x265E5A51; 0xE9B6C7AA;
   0xD62F105D; 0x02441453; 0xD8A1E681; 0xE7D3FBC8;
   0x21E1CDE6; 0xC33707D6; 0xF4D50D87; 0x455A14ED;
   0xA9E3E905; 0xFCEFA3F8; 0x676F02D9; 0x8D2A4C8A;
   0xFFFA3942; 0x8771F681; 0x6D9D6122; 0xFDE5380C;
   0xA4BEEA44; 0x4BDECFA9; 0xF6BB4B60; 0xBEBFBC70;
   0x289B7EC6; 0xEAA127FA; 0xD4EF3085; 0x04881D05;
   0xD9D4D039; 0xE6DB99E5; 0x1FA27CF8; 0xC4AC5665;
   0xF4292244; 0x432AFF97; 0xAB9423A7; 0xFC93A039;
   0x655B59C3; 0x8F0CCC92; 0xFFEFF47D; 0x85845DD1;
   0x6FA87E4F; 0xFE2CE6E0; 0xA3014314; 0x4E0811A1;
   0xF7537E82; 0xBD3AF235; 0x2AD7D2BB; 0xEB86D391].

(** The function, the word of the block, the rotation and the constant of a step. *)
Definition aux (i : nat) : Z -> Z -> Z -> Z :=
  match (i / 16)%nat with 0%nat => F | 1%nat => G | 2%nat => H | _ => I end.

Definition k (i : nat) : nat :=
  match (i / 16)%nat with
  | 0%nat => i | 1%nat => (5 * i + 1) mod 16 | 2%nat => (3 * i + 5) mod 16 | _ => (7 * i) mod 16
  end%nat.

Definition s (i : nat) : Z :=
  default 0 (match (i / 16)%nat with
             | 0%nat => [7; 12; 17; 22] | 1%nat => [5; 9; 14; 20]
             | 2%nat => [4; 11; 16; 23] | _ => [6; 10; 15; 21]
             end !! (i mod 4)%nat).

Definition step (X : list Z) (v : Z * Z * Z * Z) (i : nat) : Z * Z * Z * Z :=
  let '(a, b, c, d) := v in
  (d, u32 (b + rotl (s i) (u32 (a + aux i b c d + default 0 (X !! k i) + default 0 (T !! i)))), b, c).

Definition add (v h : Z * Z * Z * Z) : list Z :=
  let '(a, b, c, d) := v in
  let '(h0, h1, h2, h3) := h in
  [u32 (a + h0); u32 (b + h1); u32 (c + h2); u32 (d + h3)].

Definition compress (state block : list Z) : list Z :=
  match state with
  | [a; b; c; d] =>
      let h := (a, b, c, d) in
      add (foldl (step (le_words block)) h (seq 0 64)) h
  | _ => state
  end.

Definition md5 (m : list Z) : list Z :=
  concat (le_bytes 4 <$> iterated compress md5_iv le_bytes m).

End Rfc.

Example utils_md5_abc :
  utils_md5 (lit "abc") 3 = Some (be_bytes 16 0x900150983CD24FB0D6963F7D28E17F72)
  /\ Rfc.md5 (lit "abc") = be_bytes 16 0x900150983CD24FB0D6963F7D28E17F72.
Proof. split; vm_compute; reflexivity. Qed.

(** ** The macros and the tables *)

Lemma md5_S_rotl x n : word x -> 0 < n < 32 -> S x n = Rfc.rotl n x.
Proof. intros. unfold S. rewrite land_mask by done. by apply rotate_left. Qed.

Lemma not_word z : word z -> u32 (Z.lnot z) = Rfc.not z.
Proof. intros Hz. unfold u32, word, Rfc.not, Z.lnot in *. dlia. Qed.

Lemma F1_F x y z : word x -> word y -> word z -> F1 x y z = Rfc.F x y z.
Proof. intros. unfold F1, Rfc.F, Rfc.not. rewrite complement_word by done. wordwise. Qed.

Lemma F2_G x y z : word x -> word y -> word z -> F2 x y z = Rfc.G x y z.
Proof. intros. unfold F2, Rfc.G, Rfc.not. rewrite complement_word by done. wordwise. Qed.

Lemma F4_I x y z : word x -> word y -> word z -> F4 x y z = Rfc.I x y z.
Proof. intros. unfold F4. by rewrite not_word. Qed.

(** The arguments of step [i] by the formulas of the standard. *)
Definition args (i : nat) : nat * Z * Z := (Rfc.k i, Rfc.s i, default 0 (Rfc.T !! i)).

Lemma calls1_args : calls1 = args <$> seq 0 16. Proof. reflexivity. Qed.
Lemma calls2_args : calls2 = args <$> seq 16 16. Proof. reflexivity. Qed.
Lemma calls3_args : calls3 = args <$> seq 32 16. Proof. reflexivity. Qed.
Lemma calls4_args : calls4 = args <$> seq 48 16. Proof. reflexivity. Qed.

Lemma args_range i : (i < 64)%nat -> (Rfc.k i < 16)%nat /\ 0 < Rfc.s i < 32.
Proof.
  intros Hi.
  assert (forallb (fun i => (Rfc.k i <? 16)%nat && (0 <? Rfc.s i) && (Rfc.s i <? 32)) (seq 0 64)
          = true) as H by reflexivity.
  rewrite forallb_forall in H.
  specialize (H i ltac:(apply in_seq; lia)). apply andb_true_iff in H as [[Hk Hs]%andb_true_iff Hs'].
  apply Nat.ltb_lt in Hk. lia.
Qed.

Definition in_force (F : Z -> Z -> Z -> Z) (t n : nat) : Prop :=
  forall i, (t <= i < t + n)%nat ->
    forall x y z, word x -> word y -> word z -> F x y z = Rfc.aux i x y z.

Lemma aux_at q i : (16 * q <= i < 16 * q + 16)%nat -> (i / 16 = q)%nat.
Proof.
  intros Hi. symmetry. apply (Nat.div_unique i 16 q (i - 16 * q)); lia.
Qed.

Lemma in_force_all :
  in_force F1 0 16 /\ in_force F2 16 16 /\ in_force F3 32 16 /\ in_force F4 48 16.
Proof.
  split_and!; intros i Hi x y z ???; unfold Rfc.aux.
  - rewrite (aux_at 0) by lia. by apply F1_F.
  - rewrite (aux_at 1) by lia. by apply F2_G.
  - by rewrite (aux_at 2) by lia.
  - rewrite (aux_at 3) by lia. by apply F4_I.
Qed.

(** ** The steps *)

Definition words4 (v : Z * Z * Z * Z) : Prop :=
  let '(a, b, c, d) := v in word a /\ word b /\ word c /\ word d.

Section Steps.

Context (X : list Z) (HX : List.length X = 16%nat).

Lemma md5_call_ok F i n a b c d :
  in_force F i n -> (0 < n)%nat -> (i < 64)%nat -> words4 (a, b, c, d) ->
  exists a',
    P F X a b c d (Rfc.k i) (Rfc.s i) (default 0 (Rfc.T !! i)) = Some a'
    /\ Rfc.step X (a, b, c, d) i = (d, a', b, c) /\ words4 (d, a', b, c).
Proof.
  intros HF Hn Hi (Ha & Hb & Hc & Hd). destruct (args_range i Hi) as [Hk Hs].
  unfold P, Rfc.step.
  destruct (lookup_lt_is_Some_2 X (Rfc.k i)) as [x ->]; [lia|]. cbn [mbind option_bind default].
  rewrite (HF i) by (done || lia).
  eexists. split; [done|]. split; [|split_and!; first [done|apply u32_word]].
  rewrite md5_S_rotl by (done || apply u32_word). unfold default.
  rewrite (Z.add_comm (Rfc.rotl _ _) b), !Z.add_assoc. reflexivity.
Qed.

(** [n] times four calls. *)
Lemma calls_ok F n i v :
  in_force F i (4 * n) -> (i + 4 * n <= 64)%nat -> words4 v ->
  calls F X (args <$> seq i (4 * n)) v = Some (foldl (Rfc.step X) v (seq i (4 * n)))
  /\ words4 (foldl (Rfc.step X) v (seq i (4 * n))).
Proof.
  revert i v; induction n as [|n IH]; intros i v HF Hi Hv; [by destruct v as [[[? ?] ?] ?]|].
  replace (4 * Datatypes.S n)%nat with (Datatypes.S (Datatypes.S (Datatypes.S (Datatypes.S (4 * n)))))
    in * by lia.
  destruct v as [[[a b] c] d]. cbn [seq fmap list_fmap]. unfold args at 1 2 3 4.
  cbn [calls]. rewrite !foldl_cons.
  destruct (md5_call_ok F i (4 * n + 4) a b c d) as (a' & -> & -> & H1);
    [intros j Hj; apply HF; lia|lia|lia|done|].
  cbn [mbind option_bind].
  destruct (md5_call_ok F (Datatypes.S i) (4 * n + 3) d a' b c) as (d' & -> & -> & H2);
    [intros j Hj; apply HF; lia|lia|lia|done|].
  cbn [mbind option_bind].
  destruct (md5_call_ok F (Datatypes.S (Datatypes.S i)) (4 * n + 2) c d' a' b) as (c' & -> & -> & H3);
    [intros j Hj; apply HF; lia|lia|lia|done|].
  cbn [mbind option_bind].
  destruct (md5_call_ok F (Datatypes.S (Datatypes.S (Datatypes.S i))) (4 * n + 1) b c' d' a')
    as (b' & -> & -> & H4); [intros j Hj; apply HF; lia|lia|lia|done|].
  cbn [mbind option_bind].
  apply IH; [intros j Hj; apply HF; lia|lia|done].
Qed.

Lemma md5_rounds_ok v :
  words4 v -> md5_rounds X v = Some (foldl (Rfc.step X) v (seq 0 64)).
Proof.
  intros Hv. unfold md5_rounds. destruct in_force_all as (HF1 & HF2 & HF3 & HF4).
  rewrite calls1_args, calls2_args, calls3_args, calls4_args.
  destruct (calls_ok F1 4 0 v HF1 ltac:(lia) Hv) as [E1 H1].
  destruct (calls_ok F2 4 16 _ HF2 ltac:(lia) H1) as [E2 H2].
  destruct (calls_ok F3 4 32 _ HF3 ltac:(lia) H2) as [E3 H3].
  destruct (calls_ok F4 4 48 _ HF4 ltac:(lia) H3) as [E4 H4].
  change (4 * 4)%nat with 16%nat in *. rewrite E1. cbn [mbind option_bind].
  rewrite E2. cbn [mbind option_bind]. rewrite E3. cbn [mbind option_bind]. rewrite E4.
  by rewrite <-!foldl_app.
Qed.

End Steps.

(** ** The compression function *)

Definition md5_state (l : list Z) : Prop := List.length l = 4%nat /\ Forall word l.

Lemma four_words l :
  md5_state l -> exists a b c d, l = [a; b; c; d] /\ words4 (a, b, c, d).
Proof.
  intros [Hl Hw]. destruct l as [|a [|b [|c [|d [|]]]]]; try discriminate Hl.
  rewrite !Forall_cons in Hw. destruct Hw as (? & ? & ? & ? & _).
  by exists a, b, c, d.
Qed.

Lemma md5_load_ok data n i :
  (64 <= List.length data)%nat -> bytes_ok (take 64 data) -> (i + n = 16)%nat ->
  md5_load n data i = Some (drop i (le_words (take 64 data))).
Proof.
  intros Hl Hb. revert i; induction n as [|n IH]; intros i Hi.
  - by rewrite drop_ge by (cbn; lia).
  - cbn [md5_load]. rewrite le_words_get by (done || lia).
    destruct (le_words (take 64 data) !! i) as [w|] eqn:Hw.
    + cbn [mbind option_bind]. rewrite IH by lia. cbn [mbind option_bind].
      by rewrite (drop_S _ w i Hw).
    + apply lookup_ge_None in Hw. change (List.length (le_words _)) with 16%nat in Hw. lia.
Qed.

Lemma md5_add_state v h : md5_state (Rfc.add v h).
Proof.
  destruct v as [[[a b] c] d], h as [[[h0 h1] h2] h3]. split; [done|].
  cbn [Rfc.add]. rewrite !Forall_cons, Forall_nil. split_and!; first [done|apply u32_word].
Qed.

Lemma compress_four a b c d block :
  Rfc.compress [a; b; c; d] block
  = Rfc.add (foldl (Rfc.step (le_words block)) (a, b, c, d) (seq 0 64)) (a, b, c, d).
Proof. reflexivity. Qed.

Lemma process_four a b c d data X v :
  md5_load 16 data 0 = Some X -> md5_rounds X (a, b, c, d) = Some v ->
  utils_md5_process [a; b; c; d] data = Some (Rfc.add v (a, b, c, d)).
Proof.
  intros HX Hv. unfold utils_md5_process. rewrite HX. cbn [mbind option_bind].
  rewrite Hv. destruct v as [[[a' b'] c'] d']. cbn [mbind option_bind Rfc.add].
  by rewrite (Z.add_comm a), (Z.add_comm b), (Z.add_comm c), (Z.add_comm d).
Qed.

Lemma utils_md5_process_ok st data :
  md5_state st -> (64 <= List.length data)%nat -> bytes_ok (take 64 data) ->
  utils_md5_process st data = Some (Rfc.compress st (take 64 data)).
Proof.
  intros (a & b & c & d & -> & Hw)%four_words Hl Hb. rewrite compress_four.
  apply (process_four _ _ _ _ _ (le_words (take 64 data))).
  - by rewrite md5_load_ok, drop_0.
  - by apply md5_rounds_ok.
Qed.

#[export] Instance md5_compression : Compression utils_md5_process Rfc.compress.
Proof.
  refine {| st_ok := md5_state; process_ok := utils_md5_process_ok |}.
  intros st block (a & b & c & d & -> & _)%four_words. rewrite compress_four. apply md5_add_state.
Defined.

(** ** The interface and the theorems *)

Lemma md5_iv_state : md5_state md5_iv.
Proof.
  split; [done|]. unfold md5_iv. rewrite !Forall_cons, Forall_nil.
  unfold word. split_and!; done.
Qed.

Lemma md5_spec : HashSpec (H := md5_ops) hash_context Rfc.md5 16.
Proof.
  apply (plain_spec utils_md5_process msglen_le PUT_UINT32_LE md5_iv
           (compress := Rfc.compress) (count := le_bytes)).
  - apply md5_iv_state.
  - cbn. lia.
  - by intros st [Hl _].
  - apply PUT_UINT32_LE_bytes.
Qed.

(** However the input of MD5 is cut into pieces, [utils_md5_update] on each and
    [utils_md5_finish] give the MD5 of RFC 1321 of their concatenation: little-endian
    words and bit count, and 64 unrolled calls whose word, rotation and constant are those
    of the formulas of the RFC. *)
Theorem md5_pieces pieces :
  Forall (fun p => bytes_ok p /\ mlen p < 4294967296) pieces ->
  mlen (concat pieces) < 2305843009213693952 ->
  hash_pieces (H := md5_ops) pieces = Some (Rfc.md5 (concat pieces)).
Proof. apply (hash_pieces_ok (HashSpec0 := md5_spec)). Qed.

Lemma md5_pieces_witness :
  hash_pieces (H := md5_ops) [lit "a"; lit "bc"] = Some (Rfc.md5 (lit "abc")).
Proof.
  apply (md5_pieces [lit "a"; lit "bc"]); [|done].
  rewrite !Forall_cons, Forall_nil. split_and!; try done; by apply bytes_ok_check.
Defined.

Lemma utils_hmac_md5_ok msg msg_len key key_len :
  0 <= key_len <= 64 -> key_len <= mlen key -> bytes_ok (take (Z.to_nat key_len) key) ->
  0 <= msg_len < 4294967296 -> msg_len <= mlen msg -> bytes_ok (take (Z.to_nat msg_len) msg) ->
  utils_hmac_md5 (Some msg) msg_len true (Some key) key_len
  = Some (Some (concat ((fun b => [utils_hb2hex (Z.shiftr b 4); utils_hb2hex b]) <$>
      hmac_spec Rfc.md5 (take (Z.to_nat key_len) key) (take (Z.to_nat msg_len) msg)))).
Proof.
  intros Hk Hkl Hkok Hm Hml Hmok. unfold utils_hmac_md5.
  by rewrite (hmac_ok (HashSpec0 := md5_spec)) by done.
Qed.

Example hmac_md5_rfc2202 :
  utils_hmac_md5 (Some (lit "what do ya want for nothing?")) 28 true (Some (lit "Jefe")) 4
  = Some (Some (lit "750c783e6ab0b503eaa86e310a5db738")).
Proof. vm_compute. reflexivity. Qed.
