(* ===== verification/InfraState.v ===== *)
(** * InfraState: the status codes

    [eng/infra/infra_state.h] and the return codes of [eng/infra/infra_defs.h]
    that the modelled code returns. *)

From S2P Require Import Prelude.

Definition STATE_SUCCESS : Z := 0.
Definition STATE_USER_INPUT_NULL_POINTER : Z := -257.
Definition STATE_USER_INPUT_PK : Z := -259.
Definition STATE_USER_INPUT_PS : Z := -260.
Definition STATE_USER_INPUT_DN : Z := -261.
Definition STATE_USER_INPUT_DS : Z := -262.
Definition STATE_USER_INPUT_MQTT_DOMAIN : Z := -264.
Definition STATE_USER_INPUT_INVALID : Z := -275.
Definition STATE_USER_INPUT_DEVID : Z := -272.
Definition STATE_USER_INPUT_HTTP_PORT : Z := -265.
Definition STATE_USER_INPUT_HTTP_TIMEOUT : Z := -266.
Definition STATE_USER_INPUT_HTTP_POST_DATA : Z := -268.
Definition STATE_USER_INPUT_HTTP_URL : Z := -269.
Definition STATE_USER_INPUT_HTTP_PATH : Z := -270.
Definition STATE_HTTP_DYNREG_FAIL_RESP : Z := -1537.
Definition STATE_HTTP_DYNREG_INVALID_DS : Z := -1538.
Definition STATE_HTTP_RESP_MISSING_CONTENT_LEN : Z := -1541.
Definition ERROR_HTTP_UNRESOLVED_DNS : Z := -6.
Definition STATE_SYS_DEPEND_MALLOC : Z := -513.
Definition STATE_SYS_DEPEND_MUTEX_CREATE : Z := -517.
Definition STATE_SYS_DEPEND_SNPRINTF : Z := -526.
Definition STATE_SYS_DEPEND_FIRMWAIRE_WIRTE : Z := -527.
Definition STATE_SYS_DEPEND_NWK_CLOSE : Z := -520.
Definition STATE_SYS_DEPEND_NWK_TIMEOUT : Z := -521.
Definition STATE_SYS_DEPEND_NWK_INVALID_HANDLE : Z := -522.
Definition STATE_SYS_DEPEND_NWK_READ_ERROR : Z := -523.
Definition STATE_MQTT_CONNACK_VERSION_UNACCEPT : Z := -769.
Definition STATE_MQTT_CONNACK_IDENT_REJECT : Z := -770.
Definition STATE_MQTT_CONNACK_SERVICE_NA : Z := -771.
Definition STATE_MQTT_CONNACK_NOT_AUTHORIZED : Z := -772.
Definition STATE_MQTT_CONNACK_BAD_USERDATA : Z := -773.
Definition STATE_MQTT_WAIT_RECONN_TIMER : Z := -774.
Definition STATE_MQTT_SIGN_HOSTNAME_BUF_SHORT : Z := -775.
Definition STATE_MQTT_SIGN_USERNAME_BUF_SHORT : Z := -776.
Definition STATE_MQTT_SIGN_CLIENTID_BUF_SHORT : Z := -777.
Definition STATE_MQTT_SIGN_SOURCE_BUF_SHORT : Z := -778.
Definition STATE_MQTT_WRAPPER_INIT_FAIL : Z := -779.
Definition STATE_MQTT_SERIALIZE_CONN_ERROR : Z := -780.
Definition STATE_MQTT_SERIALIZE_PUBACK_ERROR : Z := -781.
Definition STATE_MQTT_SERIALIZE_PINGREQ_ERROR : Z := -782.
Definition STATE_MQTT_SERIALIZE_SUB_ERROR : Z := -783.
Definition STATE_MQTT_SERIALIZE_UNSUB_ERROR : Z := -784.
Definition STATE_MQTT_SERIALIZE_PUB_ERROR : Z := -785.
Definition STATE_MQTT_DESERIALIZE_CONNACK_ERROR : Z := -786.
Definition STATE_MQTT_DESERIALIZE_SUBACK_ERROR : Z := -787.
Definition STATE_MQTT_DESERIALIZE_PUB_ERROR : Z := -788.
Definition STATE_MQTT_DESERIALIZE_UNSUBACK_ERROR : Z := -789.
Definition STATE_MQTT_PACKET_READ_ERROR : Z := -790.
Definition STATE_MQTT_CONNACK_UNKNOWN_ERROR : Z := -791.
Definition STATE_MQTT_RX_BUFFER_TOO_SHORT : Z := -792.
Definition STATE_MQTT_TX_BUFFER_TOO_SHORT : Z := -793.
Definition STATE_MQTT_TOPIC_BUF_TOO_SHORT : Z := -794.
Definition STATE_MQTT_CONN_RETRY_EXCEED_MAX : Z := -795.
Definition STATE_MQTT_QOS1_REPUB_EXCEED_MAX : Z := -796.
Definition STATE_MQTT_PUB_QOS_INVALID : Z := -797.
Definition STATE_MQTT_IN_OFFLINE_STATUS : Z := -798.
Definition STATE_MQTT_RECV_UNKNOWN_PACKET : Z := -799.
Definition STATE_MQTT_UNEXP_TOPIC_FORMAT : Z := -802.
Definition STATE_MQTT_SYNC_SUB_TIMEOUT : Z := -803.
Definition STATE_MQTT_ASYNC_STACK_CONN_IN_PROG : Z := -804.
Definition STATE_MQTT_ASYNC_STACK_NOT_SUPPORT : Z := -805.
Definition STATE_MQTT_CONN_USER_INFO : Z := -807.
Definition STATE_MQTT_SUB_INFO : Z := -808.
Definition STATE_MQTT_PUB_INFO : Z := -809.
Definition STATE_DEV_MODEL_DEVICE_ALREADY_EXIST : Z := -2309.
Definition STATE_DEV_MODEL_DEVICE_NOT_FOUND : Z := -2310.
Definition STATE_DEV_MODEL_SUBD_NOT_DELETEABLE : Z := -2311.
Definition STATE_DEV_MODEL_INTERNAL_ERROR : Z := -2313.
Definition STATE_DEV_MODEL_INTERNAL_MQTT_DUP_INIT : Z := -2314.
Definition STATE_DEV_MODEL_INTERNAL_MQTT_NOT_INIT_YET : Z := -2315.
Definition STATE_DEV_MODEL_CM_OPEN_FAILED : Z := -2316.
Definition STATE_DEV_MODEL_CM_FD_NOT_FOUND : Z := -2317.
Definition STATE_DEV_MODEL_CM_FD_ERROR : Z := -2318.
Definition STATE_DEV_MODEL_MQTT_CONNECT_FAILED : Z := -2319.
Definition STATE_DEV_MODEL_RECV_UNEXP_MQTT_PUB : Z := -2320.
Definition STATE_DEV_MODEL_WRONG_JSON_FORMAT : Z := -2321.
Definition STATE_DEV_MODEL_GET_JSON_ITEM_FAILED : Z := -2322.
Definition STATE_DEV_MODEL_OTA_NOT_INITED : Z := -2325.
Definition STATE_DEV_MODEL_OTA_INIT_FAILED : Z := -2326.
Definition STATE_DEV_MODEL_OTA_STILL_IN_PROGRESS : Z := -2327.
Definition STATE_DEV_MODEL_OTA_IMAGE_CHECK_FAILED : Z := -2328.
Definition STATE_DEV_MODEL_OTA_TYPE_ERROR : Z := -2329.
Definition STATE_DEV_MODEL_OTA_FETCH_FAILED : Z := -2330.
Definition STATE_DEV_MODEL_INVALID_DM_OPTION : Z := -2338.
Definition STATE_DEV_MODEL_URL_SPLIT_FAILED : Z := -2339.
Definition STATE_DEV_MODEL_ALINK_MSG_PARSE_FAILED : Z := -2340.
Definition STATE_DEV_MODEL_RX_CLOUD_MESSAGE : Z := -2343.
Definition STATE_DEV_MODEL_TX_CLOUD_MESSAGE : Z := -2344.
Definition STATE_DEV_MODEL_MSGQ_OPERATION : Z := -2348.
Definition STATE_DEV_MODEL_MSGQ_FULL : Z := -2349.
Definition STATE_DEV_MODEL_MSGQ_EMPTY : Z := -2350.
Definition STATE_DEV_MODEL_CTX_LIST_INSERT : Z := -2351.
Definition STATE_DEV_MODEL_CTX_LIST_REMOVE : Z := -2352.
Definition STATE_DEV_MODEL_CTX_LIST_FADEOUT : Z := -2353.
Definition STATE_DEV_MODEL_CTX_LIST_FULL : Z := -2354.
Definition STATE_DEV_MODEL_CTX_LIST_EMPTY : Z := -2355.

Definition SUCCESS_RETURN : Z := 0.
Definition FAIL_RETURN : Z := -1.
Definition NULL_VALUE_ERROR : Z := -2.
Definition ERROR_CERT_VERIFY_FAIL : Z := -309.
Definition ERROR_CERTIFICATE_EXPIRED : Z := -1015.
Definition MQTT_PUBLISH_PACKET_ERROR : Z := -21.
Definition MQTT_PUBLISH_ACK_PACKET_ERROR : Z := -19.
