(* ===== verification/Hal.v ===== *)
(** * Hal: the hardware abstraction layer

    The platform functions of [eng/wrappers/wrappers.h] that the modelled code
    calls.  A platform is a state [E] and these functions on it; the development
    is proved for every platform, and the laws some theorems need are the
    documented behaviour of the functions, stated as separate classes.

    A [const char *] argument is [None] for NULL and its bytes otherwise.  A read
    returns the code and the bytes it stored at the start of the caller's buffer;
    a write is given the bytes from its pointer on, up to the length passed. *)

From S2P Require Import Prelude.

Class Hal (E : Type) := {
  HAL_UptimeMs : E -> Z * E;
  HAL_SleepMs : Z -> E -> E;
  (** Whether an allocation of the size succeeds. *)
  HAL_Malloc : Z -> E -> bool * E;
  HAL_MutexCreate : E -> bool * E;
  HAL_SSL_Establish : option (list Z) -> Z -> option (list Z) -> Z -> E -> Z * E;
  HAL_SSL_Destroy : Z -> E -> E;
  HAL_SSL_Read : Z -> Z -> Z -> E -> Z * list Z * E;
  HAL_SSL_Write : Z -> list Z -> Z -> E -> Z * E;
  (** What an uninitialised [unsigned short] local holds. *)
  HAL_indeterminate : E -> Z
}.

(** The clock of the platform: a counter of milliseconds that reading returns,
    that reading does not move and that no call sets back. *)
Class HalClock (E : Type) `{!Hal E} := {
  hal_now : E -> Z;
  hal_uptime_now e : fst (HAL_UptimeMs e) = hal_now e;
  hal_uptime_mono e : hal_now e <= hal_now (snd (HAL_UptimeMs e))
}.

(** A read stores no more bytes than it was asked for. *)
Class HalRead (E : Type) `{!Hal E} := {
  hal_read_bytes h len timeout e rc bs e' :
    HAL_SSL_Read h len timeout e = (rc, bs, e') ->
    bytes_ok bs /\ (0 <= len -> Z.of_nat (List.length bs) <= len);
  (** and a positive code is their number. *)
  hal_read_count h len timeout e rc bs e' :
    HAL_SSL_Read h len timeout e = (rc, bs, e') ->
    0 < rc -> rc = Z.of_nat (List.length bs)
}.

(** A write accepts at most the bytes it was given. *)
Class HalWrite (E : Type) `{!Hal E} := {
  hal_write_count h bs timeout e rc e' :
    HAL_SSL_Write h bs timeout e = (rc, e') ->
    rc <= Z.of_nat (List.length bs)
}.

(** A write that is given bytes accepts some of them or fails: the platform waits
    for the peer instead of returning with nothing done. *)
Class HalProgress (E : Type) `{!Hal E} := {
  hal_write_progress h bs timeout e :
    bs <> [] -> fst (HAL_SSL_Write h bs timeout e) <> 0
}.

(** A platform whose allocations succeed. *)
Class HalMemory (E : Type) `{!Hal E} := {
  hal_malloc_ok n e : fst (HAL_Malloc n e) = true
}.

(** Datagrams.  [HAL_UDP_write] is given the bytes from its pointer on, [None] for NULL. *)
Class HalUdp (E : Type) := {
  HAL_UDP_create : list Z -> Z -> E -> Z * E;
  HAL_UDP_write : Z -> option (list Z) -> Z -> E -> Z * E;
  HAL_UDP_readTimeout : Z -> Z -> Z -> E -> Z * list Z * E;
  HAL_UDP_close_without_connect : Z -> E -> E
}.

(** The datagrams sent, and those that have arrived and are not read: a write sends its
    bytes, or returns -1 and sends nothing; a read takes the first one that arrived, cut
    to the size of the buffer, and returns its size, or nothing and a code that is not
    positive; nothing else moves them. *)
Class HalDatagrams (E : Type) `{!Hal E} `{!HalUdp E} := {
  udp_sent : E -> list (list Z);
  udp_in : E -> list (list Z);
  udp_in_bytes e : Forall (fun d => bytes_ok d /\ d <> []) (udp_in e);
  udp_malloc n e : let e' := snd (HAL_Malloc n e) in udp_sent e' = udp_sent e /\ udp_in e' = udp_in e;
  udp_write h bs n e rc e' :
    HAL_UDP_write h bs n e = (rc, e') ->
    udp_in e' = udp_in e
    /\ udp_sent e' = (if rc =? -1 then udp_sent e else udp_sent e ++ from_option (fun b => [b]) [] bs);
  udp_read h n timeout e :
    0 < n ->
    match udp_in e with
    | [] => exists rc e', HAL_UDP_readTimeout h n timeout e = (rc, [], e') /\ rc <= 0
              /\ udp_in e' = [] /\ udp_sent e' = udp_sent e
    | d :: ds => exists e', let bs := take (Z.to_nat n) d in
              HAL_UDP_readTimeout h n timeout e = (Z.of_nat (List.length bs), bs, e')
              /\ udp_in e' = ds /\ udp_sent e' = udp_sent e
    end
}.

(** A connection with a peer: the bytes the network accepted and those the peer sent that
    nobody has read.  A write appends what it accepts; a read takes what it was asked for,
    or all there is; nothing else moves them. *)
Class HalStream (E : Type) `{!Hal E} := {
  out_of : E -> list Z;
  in_of : E -> list Z;
  stream_uptime e : let e' := snd (HAL_UptimeMs e) in out_of e' = out_of e /\ in_of e' = in_of e;
  stream_malloc n e : let e' := snd (HAL_Malloc n e) in out_of e' = out_of e /\ in_of e' = in_of e;
  stream_establish host port crt n e :
    let e' := snd (HAL_SSL_Establish host port crt n e) in out_of e' = out_of e /\ in_of e' = in_of e;
  stream_write h bs t e :
    let '(rc, e') := HAL_SSL_Write h bs t e in
    out_of e' = out_of e ++ take (Z.to_nat rc) bs /\ in_of e' = in_of e;
  stream_read h len t e :
    0 <= len ->
    let bs := take (Z.to_nat len) (in_of e) in
    exists e', HAL_SSL_Read h len t e = (Z.of_nat (List.length bs), bs, e')
      /\ out_of e' = out_of e /\ in_of e' = drop (Z.to_nat len) (in_of e)
}.

(** A network that connects and accepts all it is given. *)
Class HalOnline (E : Type) `{!Hal E} := {
  online_establish host port crt n e : 0 < fst (HAL_SSL_Establish host port crt n e);
  online_write h bs t e : fst (HAL_SSL_Write h bs t e) = Z.of_nat (List.length bs)
}.

(** What the bytes of an uninitialised array of the size hold. *)
Class HalStack (E : Type) := {
  HAL_stack : nat -> E -> list Z;
  stack_length n e : List.length (HAL_stack n e) = n
}.

(** A platform with further state [G] beside it, that no platform function touches. *)
Definition beside {E G A} (f : E -> A * E) (w : E * G) : A * (E * G) :=
  let '(e, g) := w in let '(a, e) := f e in (a, (e, g)).

Definition beside_act {E G} (f : E -> E) (w : E * G) : E * G := (f (fst w), snd w).

#[global] Instance hal_beside {E G} `{!Hal E} : Hal (E * G) := {
  HAL_UptimeMs := beside HAL_UptimeMs;
  HAL_SleepMs n := beside_act (HAL_SleepMs n);
  HAL_Malloc n := beside (HAL_Malloc n);
  HAL_MutexCreate := beside HAL_MutexCreate;
  HAL_SSL_Establish host port crt len := beside (HAL_SSL_Establish host port crt len);
  HAL_SSL_Destroy h := beside_act (HAL_SSL_Destroy h);
  HAL_SSL_Read h len t := beside (fun e => HAL_SSL_Read h len t e);
  HAL_SSL_Write h bs t := beside (HAL_SSL_Write h bs t);
  HAL_indeterminate w := HAL_indeterminate (fst w)
}.

#[global] Instance stack_beside {E G} `{!HalStack E} : HalStack (E * G) := {
  HAL_stack n w := HAL_stack n (fst w);
  stack_length n w := stack_length n (fst w)
}.
