(* ===== verification/InfraTimer.v ===== *)
(** * InfraTimer: timers

    [eng/infra/infra_timer.c].  A timer is the 32-bit millisecond at which it
    ends; the uptime counter wraps around.  A timer pointer is [None] for NULL
    in the functions that read a timer; a function that writes a NULL timer does
    nothing, and the ones below give the value written to any other. *)

From S2P Require Import Prelude.
From S2P Require Import Hal.

Record iotx_time_t := MkTime { time : Z }.

Definition UINT32_MAX : Z := 4294967295.

Section Timer.
Context {E : Type} `{!Hal E}.

Definition iotx_time_start (e : E) : iotx_time_t * E :=
  let '(now, e) := HAL_UptimeMs e in (MkTime (u32 now), e).

Definition utils_time_spend (start : option iotx_time_t) (e : E) : Z * E :=
  match start with
  | None => (0, e)
  | Some start =>
      let '(now, e) := HAL_UptimeMs e in
      let now := u32 now in
      (u32 (now - time start), e)
  end.

Definition utils_time_is_expired (timer : option iotx_time_t) (e : E) : Z * E :=
  match timer with
  | None => (1, e)
  | Some timer =>
      let '(cur_time, e) := HAL_UptimeMs e in
      let cur_time := u32 cur_time in
      if u32 (cur_time - time timer) <? UINT32_MAX / 2 then (1, e) else (0, e)
  end.

Definition iotx_time_left (timer_end : option iotx_time_t) (e : E) : Z * E :=
  match timer_end with
  | None => (0, e)
  | Some t =>
      let '(expired, e) := utils_time_is_expired (Some t) e in
      if negb (expired =? 0) then (0, e)
      else
        let '(now, e) := HAL_UptimeMs e in
        let now := u32 now in
        (u32 (time t - now), e)
  end.

Definition iotx_time_init : iotx_time_t := MkTime 0.

Definition utils_time_countdown_ms (millisecond : Z) (e : E) : iotx_time_t * E :=
  let '(now, e) := HAL_UptimeMs e in (MkTime (u32 (now + millisecond)), e).

Definition utils_time_get_ms (e : E) : Z * E :=
  let '(now, e) := HAL_UptimeMs e in (u32 now, e).

(** ** Lemmas *)

Lemma expired_bool t (e : E) :
  fst (utils_time_is_expired t e) = 0 \/ fst (utils_time_is_expired t e) = 1.
Proof.
  unfold utils_time_is_expired. destruct t; [|auto].
  destruct (HAL_UptimeMs e). destruct (_ <? _); auto.
Qed.

Context `{!HalClock E}.

Lemma countdown_time ms (e : E) :
  time (fst (utils_time_countdown_ms ms e)) = u32 (hal_now e + ms).
Proof.
  unfold utils_time_countdown_ms. pose proof (hal_uptime_now e) as H.
  destruct (HAL_UptimeMs e). simpl in *. by rewrite H.
Qed.

Lemma expired_now t (e : E) :
  fst (utils_time_is_expired (Some t) e) =
    if u32 (hal_now e - time t) <? 2147483647 then 1 else 0.
Proof.
  unfold utils_time_is_expired. pose proof (hal_uptime_now e) as H.
  destruct (HAL_UptimeMs e) as [now e']. simpl in H. subst now.
  replace (u32 (u32 (hal_now e) - time t)) with (u32 (hal_now e - time t))
    by (unfold u32; rewrite Zminus_mod_idemp_l; done).
  change (UINT32_MAX / 2) with 2147483647. by destruct (_ <? _).
Qed.

(** ** Properties *)

Lemma expired_after (ms : Z) (e0 e1 : E) :
  0 <= ms <= 2147483648 ->
  hal_now e0 <= hal_now e1 < hal_now e0 + ms + 2147483647 ->
  fst (utils_time_is_expired (Some (fst (utils_time_countdown_ms ms e0))) e1) =
    if ms <=? hal_now e1 - hal_now e0 then 1 else 0.
Proof.
  intros Hms Hnow. rewrite expired_now, countdown_time.
  unfold u32. rewrite Zminus_mod_idemp_r.
  destruct (Z.leb_spec ms (hal_now e1 - hal_now e0)).
  - rewrite Z.mod_small by lia. by rewrite (proj2 (Z.ltb_lt _ _)) by lia.
  - rewrite (proj2 (Z.ltb_ge _ _)); [done|]. dlia.
Qed.

(** C40. Expiry is correct across the wrap-around of the 32-bit uptime: a timer
    armed for [ms] milliseconds ([ms] up to 2^31) is reported expired exactly
    when at least [ms] milliseconds have passed, as long as it is polled before
    another 2^31-1 milliseconds go by. *)
Theorem timer_expiry (ms : Z) (e0 e1 : E) :
  0 <= ms <= 2147483648 ->
  hal_now e0 <= hal_now e1 < hal_now e0 + ms + 2147483647 ->
  fst (utils_time_is_expired (Some (fst (utils_time_countdown_ms ms e0))) e1) =
    if ms <=? hal_now e1 - hal_now e0 then 1 else 0.
Proof. apply expired_after. Qed.

(** The time left and the time spent: while the timer has not expired at
    either of its two readings of the clock, [iotx_time_left] returns the
    milliseconds that remain at the second, and [utils_time_spend] returns the
    milliseconds since [iotx_time_start], both across the wrap-around.  But when
    the clock passes the end of the timer between the two readings,
    [iotx_time_left] returns the difference wrapped to 32 bits, a remaining time
    of about 49 days. *)
Theorem timer_left (ms : Z) (e0 e1 : E) :
  0 <= ms <= 2147483648 -> hal_now e0 <= hal_now e1 < hal_now e0 + ms ->
  let timer := fst (utils_time_countdown_ms ms e0) in
  let e2 := snd (utils_time_is_expired (Some timer) e1) in
  let late := hal_now e2 - (hal_now e0 + ms) in
  hal_now e1 <= hal_now e2 ->
  hal_now e2 < hal_now e0 + ms + 4294967296 ->
  fst (iotx_time_left (Some timer) e1)
    = (if late <=? 0 then - late else 4294967296 - late)
  /\ (hal_now e1 - hal_now e0 < 4294967296 ->
      fst (utils_time_spend (Some (fst (iotx_time_start e0))) e1)
        = hal_now e1 - hal_now e0).
Proof.
  intros Hms Hnow timer e2 late H12 H2. split.
  - pose proof (expired_after ms e0 e1 Hms ltac:(lia)) as Hx. fold timer in Hx.
    rewrite (proj2 (Z.leb_gt _ _)) in Hx by lia.
    unfold iotx_time_left. unfold e2 in *.
    destruct (utils_time_is_expired (Some timer) e1) as [x e2'] eqn:Ee.
    cbn [fst snd] in *. subst x. cbn [Z.eqb negb].
    pose proof (hal_uptime_now e2') as Hn. destruct (HAL_UptimeMs e2') as [now e3].
    cbn [fst] in *. subst now. unfold timer. rewrite countdown_time.
    unfold u32. rewrite <-Zminus_mod. unfold late.
    destruct (Z.leb_spec (hal_now e2' - (hal_now e0 + ms)) 0); dlia.
  - intros Hs. unfold utils_time_spend, iotx_time_start.
    pose proof (hal_uptime_now e0) as Hn0. destruct (HAL_UptimeMs e0) as [n0 e0'].
    pose proof (hal_uptime_now e1) as Hn1. destruct (HAL_UptimeMs e1) as [n1 e1'].
    cbn [fst time] in *. subst n0 n1. unfold u32. rewrite <-Zminus_mod.
    apply Z.mod_small. lia.
Qed.
End Timer.

(** *** A concrete clock: each reading takes the number of milliseconds that the
    state's second component says. *)

#[global] Instance clock_hal : Hal (Z * Z) := {|
  HAL_UptimeMs e := (fst e, (fst e + Z.max 0 (snd e), snd e));
  HAL_SleepMs ms e := (fst e + Z.max 0 ms, snd e);
  HAL_Malloc _ e := (true, e);
  HAL_MutexCreate e := (true, e);
  HAL_SSL_Establish _ _ _ _ e := (0, e);
  HAL_SSL_Destroy _ e := e;
  HAL_SSL_Read _ _ _ e := (0, [], e);
  HAL_SSL_Write _ _ _ e := (0, e);
  HAL_indeterminate _ := 0
|}.

#[global, refine] Instance clock_laws : HalClock (Z * Z) := {| hal_now e := fst e |}.
Proof. all: intros [now step]; simpl; lia. Defined.

Lemma timer_expiry_witness :
  fst (utils_time_is_expired
         (Some (fst (utils_time_countdown_ms 1000 (4294967000, 0)))) (4294968000, 0)) = 1.
Proof.
  exact (timer_expiry 1000 (4294967000, 0) (4294968000, 0) ltac:(lia)
           ltac:(split; vm_compute; congruence)).
Defined.

Lemma timer_left_witness :
  fst (iotx_time_left (Some (fst (utils_time_countdown_ms 10 (100, 0)))) (105, 7))
    = 4294967294
  /\ (105 - 100 < 4294967296 ->
      fst (utils_time_spend (Some (fst (iotx_time_start (100, 0)))) (105, 7)) = 105 - 100).
Proof.
  exact (timer_left 10 (100, 0) (105, 7) ltac:(lia) ltac:(split; vm_compute; congruence)
           ltac:(vm_compute; discriminate) ltac:(vm_compute; reflexivity)).
Defined.
