(* ===== verification/InfraNet.v ===== *)
(** * InfraNet: the network interface

    [eng/infra/infra_net.c], as configured with [SUPPORT_TLS]: the connection
    handle of a TLS session.  The function pointers of [utils_network_t] hold,
    from [iotx_net_init] on, the four functions of this file, and a call through
    one of them is a call of that function; the pointer to the structure itself
    is never NULL at such a call. *)

From S2P Require Import Prelude.
From S2P Require Import InfraState.
From S2P Require Import Hal.

Record utils_network_t := {
  pHostAddress : option (list Z);
  port : Z;
  ca_crt_len : Z;
  ca_crt : option (list Z);
  handle : Z
}.

#[global] Instance eta_utils_network : Eta utils_network_t := fun n =>
  {| pHostAddress := pHostAddress n; port := port n; ca_crt_len := ca_crt_len n;
     ca_crt := ca_crt n; handle := handle n |}.

(** The structure after [memset]. *)
Definition utils_network_zero : utils_network_t :=
  {| pHostAddress := None; port := 0; ca_crt_len := 0; ca_crt := None; handle := 0 |}.

Section Net.
Context {E : Type} `{!Hal E}.

Definition read_ssl (n : utils_network_t) (len timeout_ms : Z) (e : E) : Z * list Z * E :=
  HAL_SSL_Read (handle n) len timeout_ms e.

Definition write_ssl (n : utils_network_t) (buffer : list Z) (timeout_ms : Z) (e : E)
    : Z * E :=
  HAL_SSL_Write (handle n) buffer timeout_ms e.

Definition disconnect_ssl (n : utils_network_t) (e : E) : Z * utils_network_t * E :=
  let e := HAL_SSL_Destroy (handle n) e in
  (STATE_SUCCESS, n <| handle := 0 |>, e).

Definition connect_ssl (n : utils_network_t) (e : E) : Z * utils_network_t * E :=
  let '(h, e) :=
    HAL_SSL_Establish (pHostAddress n) (port n) (ca_crt n) (ca_crt_len n + 1) e in
  let n := n <| handle := h |> in
  if negb (h =? 0) then (STATE_SUCCESS, n, e)
  else (STATE_SYS_DEPEND_NWK_INVALID_HANDLE, n, e).

Definition utils_net_read (n : utils_network_t) (len timeout_ms : Z) (e : E)
    : Z * list Z * E :=
  read_ssl n len timeout_ms e.

Definition utils_net_write (n : utils_network_t) (buffer : list Z) (timeout_ms : Z)
    (e : E) : Z * E :=
  write_ssl n buffer timeout_ms e.

Definition iotx_net_disconnect (n : utils_network_t) (e : E) : Z * utils_network_t * E :=
  disconnect_ssl n e.

Definition iotx_net_connect (n : utils_network_t) (e : E) : Z * utils_network_t * E :=
  connect_ssl n e.
End Net.

(** [strlen] is stored in a [uint16_t]. *)
Definition iotx_net_init (n : utils_network_t) (host : option (list Z)) (p : Z)
    (crt : option (list Z)) : Z * utils_network_t :=
  match host with
  | None => (STATE_USER_INPUT_INVALID, n)
  | Some _ =>
      let n := n <| pHostAddress := host |> <| port := p |> <| ca_crt := crt |> in
      let n := n <| ca_crt_len := match crt with
                                  | None => 0
                                  | Some c => u16 (Z.of_nat (List.length c))
                                  end |> in
      (STATE_SUCCESS, n <| handle := 0 |>)
  end.
