(* ===== verification/InfraString.v ===== *)
(** * InfraString: strings and numbers as text

    [eng/infra/infra_string.c].  A [char] is an unsigned byte (the Arm targets of
    Mbed OS); an output buffer is the list of the bytes stored in it from its
    start; a C string argument is its bytes before the NUL, unless the code also
    writes into it, when it is the whole array. *)

From S2P Require Import Prelude.

(** ** Hexadecimal *)

Definition infra_hex2char (hex : Z) : Z :=
  let hex := Z.land hex 15 in
  s8 (if hex <? 10 then 48 + hex else hex - 10 + 97).

(** The character at an index of a string literal. *)
Definition char_at (s : string) (i : Z) : Z := default 0 (lit s !! Z.to_nat i).

(** The loop stores two characters per byte. *)
Fixpoint infra_hex2str (input : list Z) : list Z :=
  match input with
  | [] => []
  | b :: input' =>
      char_at "0123456789ABCDEF" (Z.land (Z.shiftr b 4) 15)
      :: char_at "0123456789ABCDEF" (Z.land b 15)
      :: infra_hex2str input'
  end.

Fixpoint LITE_hexbuf_convert (digest : list Z) (uppercase : Z) : list Z :=
  match digest with
  | [] => []
  | a :: digest' =>
      let zEncode := if negb (uppercase =? 0)
                     then "0123456789ABCDEF"%string else "0123456789abcdef"%string in
      char_at zEncode (Z.land (Z.shiftr a 4) 15)
      :: char_at zEncode (Z.land a 15)
      :: LITE_hexbuf_convert digest' uppercase
  end.

Definition _hexval_of_char (hex : Z) : Z :=
  if (48 <=? hex) && (hex <=? 57) then u8 (hex - 48)
  else if (97 <=? hex) && (hex <=? 102) then u8 (hex - 97 + 10)
  else if (65 <=? hex) && (hex <=? 70) then u8 (hex - 65 + 10)
  else 0.

(** The [while] loop from index [i] on: the bytes it stores. *)
Fixpoint hexstr_loop (fuel : nat) (input : list Z) (input_len output_len i : Z)
    : option (list Z) :=
  match fuel with
  | O => None
  | S fuel' =>
      if (i <? Z.quot input_len 2) && (i <? output_len) then
        ch0 ← input !! Z.to_nat (2 * i);
        ch1 ← input !! Z.to_nat (2 * i + 1);
        rest ← hexstr_loop fuel' input input_len output_len (i + 1);
        Some (u8 (Z.lor (Z.shiftl (_hexval_of_char ch0) 4) (_hexval_of_char ch1)) :: rest)
      else Some []
  end.

Definition LITE_hexstr_convert (input : list Z) (input_len output_len : Z)
    : option (list Z) :=
  if negb (Z.rem input_len 2 =? 0) then Some []
  else hexstr_loop (S (Z.to_nat input_len)) input input_len output_len 0.

(** ** Decimal *)

(** The first loop of [infra_int2str] fills [tmp] with the digits, the least
    significant first; [tmp] has ten elements. *)
Fixpoint int2str_digits (fuel : nat) (input : Z) : option (list Z) :=
  match fuel with
  | O => None
  | S fuel' =>
      let d := u8 (input mod 10 + 48) in
      let input := input / 10 in
      if 0 <? input then rest ← int2str_digits fuel' input; Some (d :: rest)
      else Some [d]
  end.

(** The second loop, [output[--i] = tmp[j++]] down to [i = 0]. *)
Fixpoint int2str_reverse (i j : nat) (tmp output : list Z) : option (list Z) :=
  match i with
  | O => Some output
  | S i' =>
      d ← tmp !! j;
      if decide (i' < List.length output)%nat
      then int2str_reverse i' (S j) tmp (<[i' := d]> output)
      else None
  end.

Definition infra_int2str (input : Z) (output : list Z) : option (list Z) :=
  tmp ← int2str_digits 10 input;
  int2str_reverse (List.length tmp) 0 tmp output.

(** [temp = temp * 10 + input[index] - '0'] in [uint32_t]. *)
Fixpoint str2uint_loop (input : list Z) (n : nat) (index : nat) (temp : Z)
    : option (option Z) :=
  match n with
  | O => Some (Some temp)
  | S n' =>
      c ← input !! index;
      if (c <? 48) || (57 <? c) then Some None
      else str2uint_loop input n' (S index) (u32 (temp * 10 + c - 48))
  end.

(** The return code and, when it is 0, the output. *)
Definition utils_str2uint (input : list Z) (input_len : Z) : option (Z * option Z) :=
  r ← str2uint_loop input (Z.to_nat input_len) 0 0;
  match r with
  | Some v => Some (0, Some v)
  | None => Some (-1, None)
  end.

Fixpoint skip_spaces (input : list Z) : list Z :=
  match input with
  | c :: input' => if c =? 32 then skip_spaces input' else input
  | [] => []
  end.

(** [None] when the [int] overflows. *)
Fixpoint str2int_digits (input : list Z) (temp : Z) : option Z :=
  match input with
  | [] => Some temp
  | c :: input' =>
      if (c <? 48) || (57 <? c) then Some temp
      else
        let temp := temp * 10 + (c - 48) in
        if 2147483647 <? temp then None else str2int_digits input' temp
  end.

Definition infra_str2int (input : list Z) : option Z :=
  let input := skip_spaces input in
  let '(sign, input) :=
    match input with
    | c :: input' => if c =? 43 then (0, input')
                     else if c =? 45 then (-1, input') else (0, input)
    | [] => (0, input)
    end in
  temp ← str2int_digits input 0;
  Some (if sign =? -1 then - temp else temp).

(** ** Tokens *)

(** The two static pointers of [infra_strtok], as offsets into the array it was
    last started on, and that array. *)
Record strtok_t := Strtok { st_array : list Z; st_pos : option nat; st_target : option nat }.

Definition strtok_init : strtok_t := Strtok [] None None.

(** [strlen] of the string at an offset: [None] when no NUL follows. *)
Fixpoint strlen (s : list Z) : option nat :=
  match s with
  | [] => None
  | c :: s' => if c =? 0 then Some O else n ← strlen s'; Some (S n)
  end.

(** [memset(p, 0, n)] at an offset. *)
Fixpoint clear_at (s : list Z) (p n : nat) : list Z :=
  match n with
  | O => s
  | S n' => clear_at (<[p := 0]> s) (S p) n'
  end.

(** The [while] loop; the result is the array, [pos] and the token returned. *)
Fixpoint strtok_loop (fuel : nat) (a delim : list Z) (pos target : nat) (only_delim : bool)
    : option (list Z * nat * nat * option nat) :=
  match fuel with
  | O => None
  | S fuel' =>
      let dl := List.length delim in
      n ← strlen (drop pos a);
      if (n <? dl)%nat then Some (a, pos, target, Some target)
      else if negb (bool_decide (take dl (drop pos a) = delim)) then
        strtok_loop fuel' a delim (S pos) target false
      else if (n =? dl)%nat then
        let a := clear_at a pos dl in
        if only_delim then Some (a, pos, target, None) else Some (a, pos, target, Some target)
      else if (target =? pos)%nat then
        strtok_loop fuel' a delim (pos + dl) (pos + dl) only_delim
      else
        let a := clear_at a pos dl in
        Some (a, (pos + dl)%nat, target, Some target)
  end.

(** [str] is the array to start on, or NULL to go on with the last one. *)
Definition infra_strtok (str : option (list Z)) (delim : list Z) (st : strtok_t)
    : option (option nat * strtok_t) :=
  let st := match str with
            | None => st
            | Some s => Strtok s (Some O) (st_target st)
            end in
  match st_pos st with
  | None => Some (None, st)
  | Some pos =>
      n ← strlen (drop pos (st_array st));
      if (n <=? List.length delim)%nat then Some (None, st)
      else
        '(a, pos, target, tok) ←
          strtok_loop (S (List.length (st_array st))) (st_array st) delim pos pos true;
        Some (tok, Strtok a (Some pos) (Some target))
  end.

(** ** The value of a JSON member *)

(** The inner [for]: the index of the first [','], ['}'] or [']'] from [idx] on. *)
Fixpoint json_value_end (n : nat) (input : list Z) (idx : nat) : option (option nat) :=
  match n with
  | O => Some None
  | S n' =>
      c ← input !! idx;
      if (c =? 44) || (c =? 125) || (c =? 93) then Some (Some idx)
      else json_value_end n' input (S idx)
  end.

(** The outer [for] from [idx] on, [n] iterations before [input_len]. *)
Fixpoint json_value_loop (n : nat) (input : list Z) (input_len : Z) (key : list Z)
    (idx : nat) : option (option (nat * Z)) :=
  match n with
  | O => Some None
  | S n' =>
      let key_len := Z.of_nat (List.length key) in
      if input_len <=? Z.of_nat idx + key_len then Some None
      else if (List.length input <? idx + List.length key)%nat then None
      else if bool_decide (take (List.length key) (drop idx input) = key) then
        let idx := (idx + List.length key)%nat in
        if input_len <=? Z.of_nat idx + 4 then Some None
        else
          c ← input !! S idx;
          if negb (c =? 58) then Some None
          else
            let value := (idx + 2)%nat in
            e ← json_value_end (Z.to_nat (input_len - Z.of_nat value)) input value;
            match e with
            | Some e => Some (Some (value, Z.of_nat e - Z.of_nat value))
            | None => Some None
            end
      else json_value_loop n' input input_len key (S idx)
  end.

(** The return code and, when it is 0, the offset and length of the value; [None]
    is a read outside [input]. *)
Definition infra_json_value (input : list Z) (input_len : Z) (key : list Z)
    : option (Z * option (nat * Z)) :=
  r ← json_value_loop (Z.to_nat input_len) input input_len key 0;
  match r with
  | Some v => Some (0, Some v)
  | None => Some (-1, None)
  end.

(** ** Lemmas *)

Lemma hex_digits_inv (uppercase b : Z) :
  is_byte b ->
  let z := if negb (uppercase =? 0)
           then "0123456789ABCDEF"%string else "0123456789abcdef"%string in
  u8 (Z.lor (Z.shiftl (_hexval_of_char (char_at z (Z.land (Z.shiftr b 4) 15))) 4)
            (_hexval_of_char (char_at z (Z.land b 15)))) = b.
Proof.
  intros Hb z. apply Z.eqb_eq. unfold z. destruct (negb (uppercase =? 0)).
  - apply (upto_check (fun b => u8 (Z.lor (Z.shiftl (_hexval_of_char
      (char_at "0123456789ABCDEF" (Z.land (Z.shiftr b 4) 15))) 4)
      (_hexval_of_char (char_at "0123456789ABCDEF" (Z.land b 15)))) =? b) 256);
      [vm_compute; reflexivity|exact Hb].
  - apply (upto_check (fun b => u8 (Z.lor (Z.shiftl (_hexval_of_char
      (char_at "0123456789abcdef" (Z.land (Z.shiftr b 4) 15))) 4)
      (_hexval_of_char (char_at "0123456789abcdef" (Z.land b 15)))) =? b) 256);
      [vm_compute; reflexivity|exact Hb].
Qed.

Lemma hexbuf_length bs uppercase :
  List.length (LITE_hexbuf_convert bs uppercase) = (2 * List.length bs)%nat.
Proof. induction bs; simpl; lia. Qed.

Lemma hexstr_loop_inv fuel pre bs uppercase len i :
  bytes_ok bs -> (List.length bs < fuel)%nat ->
  List.length pre = (2 * i)%nat ->
  len = Z.of_nat (2 * i + 2 * List.length bs) ->
  hexstr_loop fuel (pre ++ LITE_hexbuf_convert bs uppercase) len
    (Z.of_nat (i + List.length bs)) (Z.of_nat i) = Some bs.
Proof.
  revert pre bs i; induction fuel as [|fuel IH]; intros pre bs i Hok Hf Hp ->; [lia|].
  cbn [hexstr_loop]. rewrite Z.quot_div_nonneg by lia.
  replace (Z.of_nat (2 * i + 2 * List.length bs) / 2)
    with (Z.of_nat (i + List.length bs)) by dlia.
  destruct bs as [|b bs].
  - cbn [List.length]. rewrite (proj2 (Z.ltb_ge _ _)) by lia. done.
  - apply Forall_cons in Hok as [Hb Hok]. cbn [List.length LITE_hexbuf_convert].
    rewrite (proj2 (Z.ltb_lt _ _)) by lia. cbn [andb].
    set (c0 := char_at _ (Z.land (Z.shiftr b 4) 15)). set (c1 := char_at _ (Z.land b 15)).
    replace (Z.to_nat (2 * Z.of_nat i + 1)) with (List.length pre + 1)%nat by lia.
    replace (Z.to_nat (2 * Z.of_nat i)) with (List.length pre + 0)%nat by lia.
    rewrite !lookup_app_add. cbn [lookup list_lookup mbind option_bind].
    replace (pre ++ c0 :: c1 :: LITE_hexbuf_convert bs uppercase)
      with ((pre ++ [c0; c1]) ++ LITE_hexbuf_convert bs uppercase)
      by (by rewrite <-app_assoc).
    replace (Z.of_nat (i + S (List.length bs))) with (Z.of_nat (S i + List.length bs)) by lia.
    replace (Z.of_nat i + 1) with (Z.of_nat (S i)) by lia.
    rewrite IH; [|done|cbn [List.length] in *; lia|rewrite length_app; cbn [List.length]; lia
               |cbn [List.length]; lia].
    cbn [mbind option_bind]. do 2 f_equal. exact (hex_digits_inv uppercase b Hb).
Qed.

(** Hexadecimal round trip: [LITE_hexstr_convert] reads back every byte string
    that [LITE_hexbuf_convert] writes, in either case, and [infra_hex2str] is its
    upper-case form. *)
Theorem hex_roundtrip (bs : list Z) (uppercase : Z) :
  bytes_ok bs ->
  LITE_hexstr_convert (LITE_hexbuf_convert bs uppercase)
    (Z.of_nat (2 * List.length bs)) (Z.of_nat (List.length bs)) = Some bs
  /\ infra_hex2str bs = LITE_hexbuf_convert bs 1.
Proof.
  intros Hok. split.
  - unfold LITE_hexstr_convert. rewrite Z.rem_mod_nonneg by lia.
    rewrite (proj2 (Z.eqb_eq _ _)) by dlia. cbn [negb].
    apply (hexstr_loop_inv _ [] bs uppercase _ 0); [done|lia|done|lia].
  - clear Hok. induction bs; simpl; congruence.
Qed.

Lemma hex_roundtrip_witness :
  LITE_hexstr_convert (lit "00aff3") 6 3 = Some [0; 175; 243]
  /\ infra_hex2str [0; 175; 243] = lit "00AFF3".
Proof. exact (hex_roundtrip [0; 175; 243] 0 ltac:(by apply bytes_ok_check)). Defined.

(** *** Decimal *)

(** The number that digits denote, the least significant first. *)
Fixpoint digits_value (ds : list Z) : Z :=
  match ds with
  | [] => 0
  | d :: ds' => (d - 48) + 10 * digits_value ds'
  end.

Lemma int2str_digits_spec fuel n :
  (0 < fuel)%nat -> 0 <= n < 10 ^ Z.of_nat fuel ->
  exists ds, int2str_digits fuel n = Some ds
    /\ (1 <= List.length ds <= fuel)%nat
    /\ Forall (fun d => 48 <= d <= 57) ds /\ digits_value ds = n.
Proof.
  revert n; induction fuel as [|fuel IH]; intros n Hf Hn; [lia|].
  rewrite Nat2Z.inj_succ, Z.pow_succ_r in Hn by lia. cbn [int2str_digits].
  rewrite u8_small by (unfold is_byte; dlia).
  destruct (Z.ltb_spec 0 (n / 10)).
  - destruct fuel as [|fuel]; [simpl in Hn; dlia|].
    destruct (IH (n / 10)) as (ds & -> & Hl & Hd & Hv); [lia|dlia|].
    cbn [mbind option_bind]. eexists. split; [done|].
    split; [simpl; lia|]. split; [constructor; [dlia|done]|]. simpl. rewrite Hv. dlia.
  - eexists. split; [done|]. split; [simpl; lia|].
    split; [repeat constructor; dlia|]. simpl. dlia.
Qed.

Lemma int2str_reverse_spec i j (tmp output : list Z) :
  (i + j = List.length tmp)%nat -> (i <= List.length output)%nat ->
  int2str_reverse i j tmp output = Some (rev (drop j tmp) ++ drop i output).
Proof.
  revert j output; induction i as [|i IH]; intros j output Hij Ho; cbn [int2str_reverse].
  - rewrite drop_ge by lia. done.
  - destruct (lookup_lt_is_Some_2 tmp j) as [d Hd]; [lia|].
    rewrite Hd. cbn [mbind option_bind]. rewrite decide_True by lia.
    rewrite IH by (rewrite ?length_insert; lia).
    rewrite (lookup_drop_cons tmp j d Hd). cbn [rev]. rewrite <-app_assoc. f_equal. f_equal.
    rewrite insert_take_drop by lia. rewrite drop_app_ge by (rewrite length_take; lia).
    rewrite length_take. replace (i - i `min` List.length output)%nat with 0%nat by lia.
    done.
Qed.

Lemma str2uint_loop_spec l pre post t :
  Forall (fun d => 48 <= d <= 57) l ->
  str2uint_loop (pre ++ l ++ post) (List.length l) (List.length pre) t =
    Some (Some (fold_left (fun t c => u32 (t * 10 + c - 48)) l t)).
Proof.
  revert pre t; induction l as [|c l IH]; intros pre t Hl; [done|].
  apply Forall_cons in Hl as [Hc Hl]. cbn [List.length str2uint_loop app].
  rewrite list_lookup_middle by done. cbn [mbind option_bind].
  rewrite (proj2 (Z.ltb_ge _ _)), (proj2 (Z.ltb_ge _ _)) by lia. cbn [orb fold_left].
  replace (pre ++ c :: l ++ post) with ((pre ++ [c]) ++ l ++ post) by (by rewrite <-app_assoc).
  replace (S (List.length pre)) with (List.length (pre ++ [c])) by (rewrite length_app; simpl; lia).
  by apply IH.
Qed.

Lemma fold_digits ds :
  fold_left (fun t c => u32 (t * 10 + c - 48)) (rev ds) 0 = u32 (digits_value ds).
Proof.
  induction ds as [|d ds IH]; [done|]. cbn [rev digits_value].
  rewrite fold_left_app, IH. cbn [fold_left]. unfold u32. dlia.
Qed.

(** Decimal round trip: for every [uint32_t], [infra_int2str] stores one to
    ten digits at the start of its ten-byte buffer, leaves the rest alone, and
    [utils_str2uint] reads the same number back from them. *)
Theorem decimal_roundtrip (n : Z) (output : list Z) :
  0 <= n < 4294967296 -> List.length output = 10%nat ->
  exists k output', infra_int2str n output = Some output' /\ (1 <= k <= 10)%nat
    /\ List.length output' = 10%nat /\ drop k output' = drop k output
    /\ utils_str2uint output' (Z.of_nat k) = Some (0, Some n).
Proof.
  intros Hn Ho. destruct (int2str_digits_spec 10 n) as (ds & Hds & Hl & Hd & Hv); [lia|lia|].
  exists (List.length ds), (rev ds ++ drop (List.length ds) output).
  unfold infra_int2str. rewrite Hds. cbn [mbind option_bind].
  rewrite int2str_reverse_spec by lia. rewrite drop_0.
  split; [done|]. split; [lia|].
  split; [rewrite length_app, length_rev, length_drop; lia|].
  split; [by rewrite drop_app_ge, length_rev, Nat.sub_diag by (rewrite length_rev; lia)|].
  unfold utils_str2uint. rewrite Nat2Z.id.
  pose proof (str2uint_loop_spec (rev ds) [] (drop (List.length ds) output) 0) as E.
  rewrite length_rev in E. cbn [app List.length] in E.
  rewrite E by (by apply Forall_rev). cbn [mbind option_bind].
  rewrite fold_digits, Hv, u32_small by done. done.
Qed.

Lemma decimal_roundtrip_witness :
  exists k output', infra_int2str 4294967295 (repeat 0 10) = Some output' /\ (1 <= k <= 10)%nat
    /\ List.length output' = 10%nat /\ drop k output' = drop k (repeat 0 10)
    /\ utils_str2uint output' (Z.of_nat k) = Some (0, Some 4294967295).
Proof. exact (decimal_roundtrip 4294967295 (repeat 0 10) ltac:(lia) eq_refl). Defined.
