(* ===== verification/InfraCompat.v ===== *)
(** * InfraCompat: the SDK's global settings

    [eng/infra/infra_compat.c], [IOT_Ioctl]: the device identity, the region and
    the other settings kept in [g_sdk_impl_ctx].  The options that call into the
    device model ([iotx_dm_set_opt], [iot_linkkit_subdev_query_id],
    [iotx_dm_subscribe_user_topic]) are outside this file. *)

From S2P Require Import Prelude.
From S2P Require Import InfraState.

(** ** Data *)

(** [sdk_impl_ctx_t]: a character array is its bytes before the first NUL. *)
Record sdk_impl_ctx_t := {
  domain_type : Z;
  cloud_custom_domain : list Z;
  http_custom_domain : list Z;
  dynamic_register : Z;
  mqtt_customzie_info : list Z;
  mqtt_port_num : Z;
  product_key : list Z;
  product_secret : list Z;
  device_name : list Z;
  device_secret : list Z
}.

#[global] Instance eta_sdk_impl_ctx : Eta sdk_impl_ctx_t := fun c =>
  {| domain_type := domain_type c; cloud_custom_domain := cloud_custom_domain c;
     http_custom_domain := http_custom_domain c; dynamic_register := dynamic_register c;
     mqtt_customzie_info := mqtt_customzie_info c; mqtt_port_num := mqtt_port_num c;
     product_key := product_key c; product_secret := product_secret c;
     device_name := device_name c; device_secret := device_secret c |}.

Definition sdk_impl_ctx_zero : sdk_impl_ctx_t :=
  {| domain_type := 0; cloud_custom_domain := []; http_custom_domain := [];
     dynamic_register := 0; mqtt_customzie_info := []; mqtt_port_num := 0;
     product_key := []; product_secret := []; device_name := []; device_secret := [] |}.

Definition IOTX_PRODUCT_KEY_LEN : Z := 20.
Definition IOTX_DEVICE_NAME_LEN : Z := 32.
Definition IOTX_DEVICE_SECRET_LEN : Z := 64.
Definition IOTX_PRODUCT_SECRET_LEN : Z := 64.
Definition IOTX_DOMAIN_MAX_LEN : Z := 64.
Definition IOTX_CUSTOMIZE_INFO_LEN : Z := 80.
Definition IOTX_CLOUD_REGION_CUSTOM : Z := 5.
Definition IOTX_HTTP_REGION_CUSTOM : Z := 5.

(** [iotx_ioctl_option_t], with the options modelled. *)
Inductive iotx_ioctl_option_t :=
  | IOTX_IOCTL_SET_REGION
  | IOTX_IOCTL_GET_REGION
  | IOTX_IOCTL_SET_MQTT_DOMAIN
  | IOTX_IOCTL_SET_HTTP_DOMAIN
  | IOTX_IOCTL_SET_DYNAMIC_REGISTER
  | IOTX_IOCTL_GET_DYNAMIC_REGISTER
  | IOTX_IOCTL_SET_CUSTOMIZE_INFO
  | IOTX_IOCTL_SET_MQTT_PORT
  | IOTX_IOCTL_SET_PRODUCT_KEY
  | IOTX_IOCTL_GET_PRODUCT_KEY
  | IOTX_IOCTL_SET_PRODUCT_SECRET
  | IOTX_IOCTL_GET_PRODUCT_SECRET
  | IOTX_IOCTL_SET_DEVICE_NAME
  | IOTX_IOCTL_GET_DEVICE_NAME
  | IOTX_IOCTL_SET_DEVICE_SECRET
  | IOTX_IOCTL_GET_DEVICE_SECRET.

(** What [data] points to: an integer, a C string, or a buffer to be written. *)
Inductive ioctl_data :=
  | DataInt (n : Z)
  | DataStr (s : list Z)
  | DataBuf (buf : list Z).

(** ** Operations *)

(** [memcpy(data, src, strlen(src))], without a terminator. *)
Definition ioctl_get (src : list Z) (data : ioctl_data) : option ioctl_data :=
  match data with
  | DataBuf buf =>
      if (List.length buf <? List.length src)%nat then None
      else Some (DataBuf (src ++ drop (List.length src) buf))
  | _ => None
  end.

(** [None] is a [data] of another type than the option expects, or too small a
    buffer. *)
Definition IOT_Ioctl (opt : iotx_ioctl_option_t) (data : option ioctl_data)
    (ctx : sdk_impl_ctx_t) : option (Z * sdk_impl_ctx_t * option ioctl_data) :=
  match data with
  | None => Some (FAIL_RETURN, ctx, None)
  | Some d =>
      let set_str (bound : Z) (f : list Z -> sdk_impl_ctx_t) :=
        match d with
        | DataStr s => if Z.of_nat (List.length s) <=? bound
                       then Some (SUCCESS_RETURN, f s, data)
                       else Some (FAIL_RETURN, ctx, data)
        | _ => None
        end in
      let set_int (f : Z -> sdk_impl_ctx_t) :=
        match d with
        | DataInt n => Some (SUCCESS_RETURN, f n, data)
        | _ => None
        end in
      let get_str (s : list Z) := d ← ioctl_get s d; Some (SUCCESS_RETURN, ctx, Some d) in
      let get_int (n : Z) := Some (SUCCESS_RETURN, ctx, Some (DataInt n)) in
      match opt with
      | IOTX_IOCTL_SET_REGION => set_int (fun n => ctx <| domain_type := n |>)
      | IOTX_IOCTL_GET_REGION => get_int (domain_type ctx)
      | IOTX_IOCTL_SET_MQTT_DOMAIN =>
          let ctx := ctx <| domain_type := IOTX_CLOUD_REGION_CUSTOM |> in
          match d with
          | DataStr s => if IOTX_DOMAIN_MAX_LEN <? Z.of_nat (List.length s)
                         then Some (FAIL_RETURN, ctx, data)
                         else Some (SUCCESS_RETURN, ctx <| cloud_custom_domain := s |>, data)
          | _ => None
          end
      | IOTX_IOCTL_SET_HTTP_DOMAIN =>
          let ctx := ctx <| domain_type := IOTX_HTTP_REGION_CUSTOM |> in
          match d with
          | DataStr s => if IOTX_DOMAIN_MAX_LEN <? Z.of_nat (List.length s)
                         then Some (FAIL_RETURN, ctx, data)
                         else Some (SUCCESS_RETURN, ctx <| http_custom_domain := s |>, data)
          | _ => None
          end
      | IOTX_IOCTL_SET_DYNAMIC_REGISTER =>
          set_int (fun n => ctx <| dynamic_register := n |>)
      | IOTX_IOCTL_GET_DYNAMIC_REGISTER => get_int (dynamic_register ctx)
      | IOTX_IOCTL_SET_CUSTOMIZE_INFO =>
          set_str IOTX_CUSTOMIZE_INFO_LEN (fun s => ctx <| mqtt_customzie_info := s |>)
      | IOTX_IOCTL_SET_MQTT_PORT => set_int (fun n => ctx <| mqtt_port_num := u16 n |>)
      | IOTX_IOCTL_SET_PRODUCT_KEY =>
          set_str IOTX_PRODUCT_KEY_LEN (fun s => ctx <| product_key := s |>)
      | IOTX_IOCTL_GET_PRODUCT_KEY => get_str (product_key ctx)
      | IOTX_IOCTL_SET_PRODUCT_SECRET =>
          set_str IOTX_PRODUCT_SECRET_LEN (fun s => ctx <| product_secret := s |>)
      | IOTX_IOCTL_GET_PRODUCT_SECRET => get_str (product_secret ctx)
      | IOTX_IOCTL_SET_DEVICE_NAME =>
          set_str IOTX_DEVICE_NAME_LEN (fun s => ctx <| device_name := s |>)
      | IOTX_IOCTL_GET_DEVICE_NAME => get_str (device_name ctx)
      | IOTX_IOCTL_SET_DEVICE_SECRET =>
          set_str IOTX_DEVICE_SECRET_LEN (fun s => ctx <| device_secret := s |>)
      | IOTX_IOCTL_GET_DEVICE_SECRET => get_str (device_secret ctx)
      end
  end.

(** ** The identity settings *)

(** The bound of each identity string. *)
Record sdk_ctx_ok (ctx : sdk_impl_ctx_t) : Prop := {
  so_product_key : Z.of_nat (List.length (product_key ctx)) <= IOTX_PRODUCT_KEY_LEN;
  so_product_secret : Z.of_nat (List.length (product_secret ctx)) <= IOTX_PRODUCT_SECRET_LEN;
  so_device_name : Z.of_nat (List.length (device_name ctx)) <= IOTX_DEVICE_NAME_LEN;
  so_device_secret : Z.of_nat (List.length (device_secret ctx)) <= IOTX_DEVICE_SECRET_LEN;
  so_cloud_domain : Z.of_nat (List.length (cloud_custom_domain ctx)) <= IOTX_DOMAIN_MAX_LEN;
  so_http_domain : Z.of_nat (List.length (http_custom_domain ctx)) <= IOTX_DOMAIN_MAX_LEN;
  so_customize : Z.of_nat (List.length (mqtt_customzie_info ctx)) <= IOTX_CUSTOMIZE_INFO_LEN
}.

Lemma IOT_Ioctl_keeps (opt : iotx_ioctl_option_t) (data : option ioctl_data)
    (ctx ctx' : sdk_impl_ctx_t) (rc : Z) (data' : option ioctl_data) :
  sdk_ctx_ok ctx -> IOT_Ioctl opt data ctx = Some (rc, ctx', data') ->
  sdk_ctx_ok ctx' /\ (rc = SUCCESS_RETURN \/ rc = FAIL_RETURN).
Proof.
  intros [] H. unfold IOT_Ioctl in H.
  destruct data as [d|]; [|simplify_eq; split; [done|by right]].
  destruct opt; destruct d; try discriminate;
    repeat (match type of H with
            | context [Z.leb ?a ?b] => destruct (Z.leb_spec a b)
            | context [Z.ltb ?a ?b] => destruct (Z.ltb_spec a b)
            | context [ioctl_get ?a ?b] => destruct (ioctl_get a b)
            end; cbn [mbind option_bind] in H);
    simplify_eq; (split; [by split|auto]).
Qed.

(** The settings that a session is opened with are C strings, too, when what is set is. *)
Record settings_ok (ctx : sdk_impl_ctx_t) : Prop := {
  se_bounds : sdk_ctx_ok ctx;
  se_product_key : cstr_ok (product_key ctx);
  se_device_name : cstr_ok (device_name ctx);
  se_customize : cstr_ok (mqtt_customzie_info ctx)
}.

Definition data_cstr (opt : iotx_ioctl_option_t) (data : option ioctl_data) : Prop :=
  match opt, data with
  | (IOTX_IOCTL_SET_PRODUCT_KEY | IOTX_IOCTL_SET_DEVICE_NAME | IOTX_IOCTL_SET_CUSTOMIZE_INFO), Some (DataStr s) =>
      cstr_ok s
  | _, _ => True
  end.

Lemma IOT_Ioctl_settings opt data ctx ctx' rc data' :
  settings_ok ctx -> data_cstr opt data -> IOT_Ioctl opt data ctx = Some (rc, ctx', data') -> settings_ok ctx'.
Proof.
  intros [Hb Hp Hd Hc] Hs H. split; [by destruct (IOT_Ioctl_keeps _ _ _ _ _ _ Hb H)|..];
    (destruct data as [d|]; [|cbn in H; by simplify_eq]); unfold IOT_Ioctl in H; destruct opt; destruct d; try discriminate;
    repeat (match type of H with
            | context [Z.leb ?a ?b] => destruct (Z.leb a b)
            | context [Z.ltb ?a ?b] => destruct (Z.ltb a b)
            | context [ioctl_get ?a ?b] => destruct (ioctl_get a b)
            end; cbn [mbind option_bind] in H);
    by simplify_eq.
Qed.

Lemma settings_zero : settings_ok sdk_impl_ctx_zero.
Proof. split; [split; vm_compute; discriminate|constructor..]. Qed.

(** Setting a string is defined whatever the string. *)
Lemma IOT_Ioctl_set_str opt s ctx :
  opt ∈ [IOTX_IOCTL_SET_PRODUCT_KEY; IOTX_IOCTL_SET_DEVICE_NAME] ->
  is_Some (IOT_Ioctl opt (Some (DataStr s)) ctx).
Proof.
  rewrite !elem_of_cons. intros [-> | [-> | []%not_elem_of_nil]]; cbn [IOT_Ioctl];
    destruct (_ <=? _); by eexists.
Qed.

(** No setting overflows its array: every option keeps each stored string
    within its bound, a string that is too long being refused. *)
Theorem IOT_Ioctl_bounds (opt : iotx_ioctl_option_t) (data : option ioctl_data)
    (ctx ctx' : sdk_impl_ctx_t) (rc : Z) (data' : option ioctl_data) :
  sdk_ctx_ok ctx -> IOT_Ioctl opt data ctx = Some (rc, ctx', data') ->
  sdk_ctx_ok ctx' /\ (rc = SUCCESS_RETURN \/ rc = FAIL_RETURN).
Proof.
  apply IOT_Ioctl_keeps.
Qed.

Lemma IOT_Ioctl_bounds_witness :
  let ctx := sdk_impl_ctx_zero <| product_key := lit "a1" |> in
  sdk_ctx_ok ctx /\ (SUCCESS_RETURN = SUCCESS_RETURN \/ SUCCESS_RETURN = FAIL_RETURN).
Proof.
  exact (IOT_Ioctl_bounds IOTX_IOCTL_SET_PRODUCT_KEY (Some (DataStr (lit "a1")))
    sdk_impl_ctx_zero _ SUCCESS_RETURN (Some (DataStr (lit "a1")))
    ltac:(split; vm_compute; discriminate) eq_refl).
Defined.
