(* ===== verification/Json.v ===== *)
(** * Json: JSON texts

    The reference for the two JSON readers of the SDK ([InfraCjson], [InfraJson]): JSON
    values, the texts that render a value, with white space anywhere the grammar (RFC 8259)
    allows it, and the lookup of a member.  A string is kept as it is written between its
    quotes, escapes included, and a number as its text, because that is what the readers
    return. *)

From S2P Require Import Prelude.

Inductive json :=
  | JNull
  | JTrue
  | JFalse
  | JNumber (text : list Z)
  | JString (body : list Z)
  | JArray (elems : list json)
  | JObject (members : list (list Z * json)).

(** ** Tokens *)

Definition is_ws (c : Z) : Prop := c = 9 \/ c = 10 \/ c = 13 \/ c = 32.
Definition ws (s : list Z) : Prop := Forall is_ws s.

Definition is_digit (c : Z) : bool := (48 <=? c) && (c <=? 57).
Definition digits (s : list Z) : Prop := s <> [] /\ Forall (fun c => is_digit c = true) s.

Inductive fraction : list Z -> Prop :=
  | fraction_none : fraction []
  | fraction_some d : digits d -> fraction (46 :: d).

Inductive exponent : list Z -> Prop :=
  | exponent_none : exponent []
  | exponent_some e sg d :
      e = 101 \/ e = 69 -> sg = [] \/ sg = [43] \/ sg = [45] -> digits d ->
      exponent (e :: sg ++ d).

(** Leading zeros are allowed. *)
Inductive number_text : list Z -> Prop :=
  | number_parts sg i f e :
      sg = [] \/ sg = [45] -> digits i -> fraction f -> exponent e ->
      number_text (sg ++ i ++ f ++ e).

(** What stands between the quotes of a string: a quote or a backslash only after a
    backslash. *)
Inductive string_body : list Z -> Prop :=
  | body_nil : string_body []
  | body_char c s : 0 < c < 256 -> c <> 34 -> c <> 92 -> string_body s -> string_body (c :: s)
  | body_escape c s : 0 < c < 256 -> string_body s -> string_body (92 :: c :: s).

(** ** Texts *)

Definition quoted (s : list Z) : list Z := 34 :: s ++ [34].

(** [renders j t]: the text [t] is the value [j].  [renders_elems l t]: [t] is what may
    stand between the brackets of an array of [l]; [renders_members] likewise for an
    object. *)
Inductive renders : json -> list Z -> Prop :=
  | renders_null : renders JNull (lit "null")
  | renders_true : renders JTrue (lit "true")
  | renders_false : renders JFalse (lit "false")
  | renders_number t : number_text t -> renders (JNumber t) t
  | renders_string s : string_body s -> renders (JString s) (quoted s)
  | renders_array_nil w : ws w -> renders (JArray []) (91 :: w ++ [93])
  | renders_array l t : renders_elems l t -> renders (JArray l) (91 :: t ++ [93])
  | renders_object_nil w : ws w -> renders (JObject []) (123 :: w ++ [125])
  | renders_object l t : renders_members l t -> renders (JObject l) (123 :: t ++ [125])
with renders_elems : list json -> list Z -> Prop :=
  | elems_one j t w1 w2 :
      renders j t -> ws w1 -> ws w2 -> renders_elems [j] (w1 ++ t ++ w2)
  | elems_cons j t w1 w2 l t' :
      renders j t -> ws w1 -> ws w2 -> renders_elems l t' ->
      renders_elems (j :: l) (w1 ++ t ++ w2 ++ 44 :: t')
with renders_members : list (list Z * json) -> list Z -> Prop :=
  | members_one k j t w1 w2 w3 w4 :
      string_body k -> renders j t -> ws w1 -> ws w2 -> ws w3 -> ws w4 ->
      renders_members [(k, j)] (w1 ++ quoted k ++ w2 ++ 58 :: w3 ++ t ++ w4)
  | members_cons k j t w1 w2 w3 w4 l t' :
      string_body k -> renders j t -> ws w1 -> ws w2 -> ws w3 -> ws w4 ->
      renders_members l t' ->
      renders_members ((k, j) :: l)
        (w1 ++ quoted k ++ w2 ++ 58 :: w3 ++ t ++ w4 ++ 44 :: t').

Scheme renders_ind' := Minimality for renders Sort Prop
  with renders_elems_ind' := Minimality for renders_elems Sort Prop
  with renders_members_ind' := Minimality for renders_members Sort Prop.
Combined Scheme renders_mutind from renders_ind', renders_elems_ind', renders_members_ind'.

(** ** Lookup *)

(** The first member of the name. *)
Fixpoint member (k : list Z) (l : list (list Z * json)) : option json :=
  match l with
  | [] => None
  | (k', j) :: l' => if decide (k = k') then Some j else member k l'
  end.

(** ** Nesting *)

(** How many arrays and objects enclose each other in the value. *)
Fixpoint json_depth (j : json) : Z :=
  match j with
  | JArray l => 1 + foldr Z.max 0 (map json_depth l)
  | JObject l => 1 + foldr Z.max 0 (map (fun m => json_depth (snd m)) l)
  | _ => 0
  end.

(** A check of a property of the characters of every number and string. *)
Fixpoint json_forall (Pn Ps : list Z -> bool) (j : json) : bool :=
  match j with
  | JNumber t => Pn t
  | JString s => Ps s
  | JArray l => forallb (json_forall Pn Ps) l
  | JObject l => forallb (fun m => Ps (fst m) && json_forall Pn Ps (snd m)) l
  | _ => true
  end.

(** ** Facts about texts *)

(** What a reader returns of the text: a string without its quotes. *)
Definition value_text (j : json) (t : list Z) : list Z :=
  match j with JString s => s | _ => t end.
Definition value_rest (j : json) (r : list Z) : list Z :=
  match j with JString _ => 34 :: r | _ => r end.

Lemma ws_cases s : ws s -> s = [] \/ exists c s', s = c :: s' /\ is_ws c /\ ws s'.
Proof. destruct 1; eauto 7. Qed.

Lemma is_digit_spec c : is_digit c = true <-> 48 <= c <= 57.
Proof. unfold is_digit. lia. Qed.

Lemma lookup_middle {A} (pre : list A) t post i :
  (i < List.length t)%nat -> (pre ++ t ++ post) !! (List.length pre + i)%nat = t !! i.
Proof. intros. rewrite lookup_app_r by lia. rewrite lookup_app_l by lia. f_equal. lia. Qed.

Definition number_char (c : Z) : Prop :=
  48 <= c <= 57 \/ c = 43 \/ c = 45 \/ c = 46 \/ c = 69 \/ c = 101.

Lemma digits_chars d : digits d -> Forall number_char d.
Proof.
  intros [_ Hd]. eapply Forall_impl; [exact Hd|]. intros c Hc%is_digit_spec. by left.
Qed.

Lemma number_text_chars t : number_text t -> Forall number_char t.
Proof.
  destruct 1 as [sg i f e Hsg Hi Hf He]. rewrite !Forall_app. unfold number_char.
  split; [|split; [by apply digits_chars|split]].
  - destruct Hsg as [->| ->]; [done|]. constructor; [lia|constructor].
  - destruct Hf; [done|]. constructor; [lia|by apply digits_chars].
  - destruct He as [|c sg' d Hc Hsg' Hd]; [done|]. constructor; [lia|].
    apply Forall_app. split; [|by apply digits_chars].
    destruct Hsg' as [->|[->| ->]]; [done|..]; (constructor; [lia|constructor]).
Qed.

(** The first character tells the kind of the value. *)
Lemma number_first t : number_text t -> exists c t', t = c :: t' /\ (c = 45 \/ 48 <= c <= 57).
Proof.
  destruct 1 as [sg i f e Hsg [Hne Hi] _ _]. destruct i as [|d i]; [done|].
  apply Forall_cons in Hi as [Hd _]. apply is_digit_spec in Hd.
  destruct Hsg as [->| ->]; cbn; eauto.
Qed.

Lemma renders_first j t : renders j t -> exists c t', t = c :: t' /\ (32 < c /\ c <> 93).
Proof.
  destruct 1 as [| | |n Hn|s Hs|w Hw|l m Hm|w Hw|l m Hm]; [| | |
    destruct (number_first n Hn) as (c & t' & -> & Hc); exists c, t'; split; [done|lia]
    | | | | |]; (eexists _, _; split; [reflexivity|done]).
Qed.

Lemma json_depth_nonneg j : 0 <= json_depth j.
Proof.
  destruct j; cbn [json_depth]; try lia.
  - generalize (map json_depth elems). intros l. induction l; cbn; lia.
  - generalize (map (fun m : list Z * json => json_depth m.2) members). intros l. induction l; cbn; lia.
Qed.

(** More characters than elements. *)
Lemma elems_length l t : renders_elems l t -> (List.length l <= List.length t)%nat.
Proof.
  induction 1 as [j t w1 w2 Hj _ _|j t w1 w2 l t' Hj _ _ _ IH];
    destruct (renders_first j t Hj) as (c & u & -> & _); rewrite !length_app in *; cbn [List.length] in *; lia.
Qed.

Lemma members_length l t : renders_members l t -> (List.length l <= List.length t)%nat.
Proof.
  induction 1 as [|k j t w1 w2 w3 w4 l t' _ _ _ _ _ _ _ IH];
    unfold quoted; rewrite !length_app in *; cbn [List.length] in *; rewrite !length_app in *;
    cbn [List.length] in *; rewrite ?length_app in *; cbn [List.length] in *; lia.
Qed.

(** A text has no NUL. *)
Definition nonzero (s : list Z) : Prop := Forall (fun c => c <> 0) s.

Lemma nonzero_app s t : nonzero (s ++ t) <-> nonzero s /\ nonzero t.
Proof. apply Forall_app. Qed.

Lemma nonzero_cons c t : nonzero (c :: t) <-> c <> 0 /\ nonzero t.
Proof. unfold nonzero; by rewrite Forall_cons. Qed.

Lemma ws_nonzero w : ws w -> nonzero w.
Proof. intros H. eapply Forall_impl; [exact H|]. unfold is_ws. intros. lia. Qed.

Lemma body_nonzero s : string_body s -> nonzero s.
Proof.
  induction 1 as [|c s Hc _ _ _ IH|c s Hc _ IH]; [constructor|..]; rewrite ?nonzero_cons;
    repeat split; (lia || done).
Qed.

Lemma number_nonzero t : number_text t -> nonzero t.
Proof.
  intros Ht. eapply Forall_impl; [by apply number_text_chars|]. unfold number_char. intros. lia.
Qed.

Lemma lit_nonzero s : forallb (fun c => negb (c =? 0)) (lit s) = true -> nonzero (lit s).
Proof.
  intros H. apply Forall_forall. intros c Hc. rewrite forallb_forall in H.
  specialize (H c (proj1 (list_elem_of_In _ _) Hc)). lia.
Qed.

Lemma renders_nonzero :
  (forall j t, renders j t -> nonzero t)
  /\ (forall l t, renders_elems l t -> nonzero t)
  /\ (forall l t, renders_members l t -> nonzero t).
Proof.
  apply renders_mutind; intros; unfold quoted;
    repeat (rewrite ?nonzero_app, ?nonzero_cons); repeat split;
    try done; try (by apply ws_nonzero); try (by apply body_nonzero); try (by apply number_nonzero);
    try (by apply lit_nonzero); try constructor.
Qed.

(** A JSON text written with apostrophes for its quotes. *)
Definition json_lit (s : string) : list Z := (fun c => if c =? 39 then 34 else c) <$> lit s.
