(* ===== verification/InfraCjson.v ===== *)
(** * InfraCjson: the JSON reader of the device model

    [eng/infra/infra_cjson.c], the reading half: it parses without building a tree; an item
    is a pointer to the text of a value, its length and kind, and a lookup parses the text
    again.  A pointer is the rest of its object from there on; [None] is a read outside
    the object.  A [double] is a [spec_float] of binary64, rounded as [strtod] rounds. *)

From S2P Require Import Prelude.
From S2P Require Import CString.
From S2P Require Import Json.
From Stdlib Require Import Floats.SpecFloat.

(** ** Data *)

Definition cJSON_Invalid : Z := 0.
Definition cJSON_False : Z := 1.
Definition cJSON_True : Z := 2.
Definition cJSON_NULL : Z := 4.
Definition cJSON_Number : Z := 8.
Definition cJSON_String : Z := 16.
Definition cJSON_Array : Z := 32.
Definition cJSON_Object : Z := 64.
Definition LITE_CJSON_NESTING_LIMIT : Z := 1000.
Definition INT_MAX : Z := 2147483647.
Definition INT_MIN : Z := -2147483648.

Record lite_cjson_t := {
  it_type : Z;
  it_value : option (list Z);
  it_value_length : Z;
  it_size : Z;
  it_value_double : spec_float;
  it_value_int : Z
}.

#[global] Instance eta_lite_cjson : Eta lite_cjson_t := fun i =>
  {| it_type := it_type i; it_value := it_value i; it_value_length := it_value_length i;
     it_size := it_size i; it_value_double := it_value_double i; it_value_int := it_value_int i |}.

(** An item after [memset]. *)
Definition item_zero : lite_cjson_t :=
  {| it_type := 0; it_value := None; it_value_length := 0; it_size := 0;
     it_value_double := S754_zero false; it_value_int := 0 |}.

Record parse_buffer := {
  pb_content : list Z;
  pb_length : Z;
  pb_offset : Z;
  pb_depth : Z
}.

#[global] Instance eta_parse_buffer : Eta parse_buffer := fun b =>
  {| pb_content := pb_content b; pb_length := pb_length b; pb_offset := pb_offset b;
     pb_depth := pb_depth b |}.

Definition can_read (b : parse_buffer) (size : Z) : bool := pb_offset b + size <=? pb_length b.
Definition can_access_at_index (b : parse_buffer) (i : Z) : bool := pb_offset b + i <? pb_length b.
Definition cannot_access_at_index (b : parse_buffer) (i : Z) : bool :=
  negb (can_access_at_index b i).

(** The pointer into the content at an offset. *)
Definition content_at (b : parse_buffer) (off : Z) : option (list Z) :=
  if (0 <=? off) && (off <=? Z.of_nat (List.length (pb_content b)))
  then Some (drop (Z.to_nat off) (pb_content b)) else None.
Definition buffer_at_offset (b : parse_buffer) : option (list Z) := content_at b (pb_offset b).

(** [buffer_at_offset(b)[i]] *)
Definition buffer_char (b : parse_buffer) (i : Z) : option Z := p ← buffer_at_offset b; p !! Z.to_nat i.

(** [can_access_at_index(b, 0) && buffer_at_offset(b)[0] == c] *)
Definition next_is (b : parse_buffer) (c : Z) : option bool :=
  if can_access_at_index b 0 then x ← buffer_char b 0; Some (x =? c) else Some false.

(** ** White space *)

Fixpoint skip_loop (p : list Z) (offset length : Z) : option Z :=
  if offset <? length then
    match p with
    | [] => None
    | c :: p' => if c <=? 32 then skip_loop p' (offset + 1) length else Some offset
    end
  else Some offset.

(** It stops one before the end of the text when nothing else is left. *)
Definition buffer_skip_whitespace (b : parse_buffer) : option parse_buffer :=
  p ← buffer_at_offset b;
  o ← skip_loop p (pb_offset b) (pb_length b);
  Some (b <| pb_offset := if o =? pb_length b then o - 1 else o |>).

Definition skip_utf8_bom (b : parse_buffer) : option parse_buffer :=
  if can_access_at_index b 4 then
    p ← buffer_at_offset b;
    e ← strn_eq p [239; 187; 191];
    Some (if e : bool then b <| pb_offset ::= fun o => o + 3 |> else b)
  else Some b.

(** ** Numbers *)

Fixpoint span_digits (s : list Z) : list Z * list Z :=
  match s with
  | c :: s' => if is_digit c then let '(d, r) := span_digits s' in (c :: d, r) else ([], s)
  | [] => ([], [])
  end.

Definition dec_value (ds : list Z) : Z := fold_left (fun a c => a * 10 + (c - 48)) ds 0.

Definition span_sign (s : list Z) : bool * list Z :=
  match s with
  | 45 :: s' => (true, s')
  | 43 :: s' => (false, s')
  | _ => (false, s)
  end.

(** The decimal [m * 10^e], rounded to the nearest double, ties to even. *)
Definition dec_double (neg : bool) (m e : Z) : spec_float :=
  if m =? 0 then S754_zero neg
  else if 0 <=? e then
    binary_normalize 53 1024 ((if neg then -1 else 1) * (m * 10 ^ e)) 0 neg
  else
    let '(q, e', l) := SFdiv_core_binary 53 1024 m 0 (10 ^ (- e)) 0 in
    binary_round_aux 53 1024 neg q e' l.

(** [strtod] of a string of the characters [0-9+-eE.]: the number and how many characters
    it takes; none when there is no number. *)
Definition strtod (s : list Z) : spec_float * nat :=
  let '(neg, s1) := span_sign s in
  let '(i, s2) := span_digits s1 in
  let '(f, s3) := match s2 with 46 :: s' => span_digits s' | _ => ([], s2) end in
  match i ++ f with
  | [] => (S754_zero false, O)
  | ds =>
      let '(e, s4) :=
        match s3 with
        | c :: s' =>
            if (c =? 101) || (c =? 69) then
              let '(eneg, s'') := span_sign s' in
              let '(d, r) := span_digits s'' in
              match d with
              | [] => (0, s3)
              | _ => (if eneg then - dec_value d else dec_value d, r)
              end
            else (0, s3)
        | [] => (0, s3)
        end in
      (dec_double neg (dec_value ds) (e - Z.of_nat (List.length f)),
       (List.length s - List.length s4)%nat)
  end.

(** The conversion of a double to [int], towards zero; it is in range where it is used. *)
Definition double_to_int (d : spec_float) : Z :=
  match d with
  | S754_finite s m e =>
      let a := if 0 <=? e then Z.pos m * 2 ^ e else Z.pos m / 2 ^ (- e) in
      if s then - a else a
  | _ => 0
  end.

Definition double_of_int (n : Z) : spec_float := binary_normalize 53 1024 n 0 false.

Definition is_number_char (c : Z) : bool :=
  is_digit c || (c =? 43) || (c =? 45) || (c =? 101) || (c =? 69) || (c =? 46).

(** The loop that copies a number into [number_c_string]: the characters copied. *)
Fixpoint copy_number (n : nat) (b : parse_buffer) (i : Z) : option (list Z) :=
  match n with
  | O => Some []
  | S n' =>
      if can_access_at_index b i then
        c ← buffer_char b i;
        if is_number_char c then r ← copy_number n' b (i + 1); Some (c :: r) else Some []
      else Some []
  end.

Definition parse_number (item : lite_cjson_t) (b : parse_buffer)
    : option (Z * lite_cjson_t * parse_buffer) :=
  s ← copy_number 63 b 0;
  let '(number, n) := strtod s in
  if (n =? 0)%nat then Some (-1, item, b)
  else
    p ← buffer_at_offset b;
    let item := item <| it_type := cJSON_Number |> <| it_value := Some p |>
                     <| it_value_length := Z.of_nat n |> <| it_value_double := number |> in
    let item := item <| it_value_int :=
      if SFleb (double_of_int INT_MAX) number then INT_MAX
      else if SFleb number (double_of_int INT_MIN) then INT_MIN
      else double_to_int number |> in
    Some (0, item, b <| pb_offset ::= fun o => o + Z.of_nat n |>).

(** ** Strings *)

(** The loop of [parse_string]: the offset of the closing quote, or nothing when the text
    ends before it. *)
Fixpoint string_end (p : list Z) (input_end length : Z) : option (option Z) :=
  if input_end <? length then
    match p with
    | [] => None
    | c :: p' =>
        if c =? 34 then Some (Some input_end)
        else if c =? 92 then
          if length <=? input_end + 1 then Some None
          else match p' with
               | [] => if input_end + 2 <? length then None else Some None
               | _ :: p'' => string_end p'' (input_end + 2) length
               end
        else string_end p' (input_end + 1) length
    end
  else Some None.

Definition parse_string (item : lite_cjson_t) (b : parse_buffer)
    : option (Z * lite_cjson_t * parse_buffer) :=
  c ← buffer_char b 0;
  let start := pb_offset b + 1 in
  let fail := Some (-1, item, b <| pb_offset := start |>) in
  if negb (c =? 34) then fail
  else
    p ← content_at b start;
    e ← string_end p start (pb_length b);
    match e with
    | None => fail
    | Some e =>
        Some (0, item <| it_type := cJSON_String |> <| it_value := Some p |>
                      <| it_value_length := e - start |>,
              b <| pb_offset := e + 1 |>)
    end.

(** ** Arrays and objects *)

(** What [parse_value] does with an item and the buffer: code, item, buffer. *)
Definition parser : Type := lite_cjson_t -> parse_buffer -> option (Z * lite_cjson_t * parse_buffer).

(** The body of the loop over the elements of an array: step over the bracket or the
    comma, parse one value. *)
Definition array_element (parse_value : parser) (b : parse_buffer)
    : option (Z * lite_cjson_t * parse_buffer) :=
  b ← buffer_skip_whitespace (b <| pb_offset ::= fun o => o + 1 |>);
  r ← parse_value item_zero b;
  let '(rc, cur, b) := r in
  if negb (rc =? 0) then Some (-1, cur, b)
  else b ← buffer_skip_whitespace b; Some (0, cur, b).

(** The body of the loop over the members of an object: the name, a colon, the value. *)
Definition object_member (parse_value : parser) (b : parse_buffer)
    : option (Z * lite_cjson_t * lite_cjson_t * parse_buffer) :=
  b ← buffer_skip_whitespace (b <| pb_offset ::= fun o => o + 1 |>);
  r ← parse_string item_zero b;
  let '(rc, key, b) := r in
  if negb (rc =? 0) then Some (-1, key, item_zero, b)
  else
    b ← buffer_skip_whitespace b;
    colon ← next_is b 58;
    if negb colon then Some (-1, key, item_zero, b)
    else
      b ← buffer_skip_whitespace (b <| pb_offset ::= fun o => o + 1 |>);
      r ← parse_value item_zero b;
      let '(rc, value, b) := r in
      if negb (rc =? 0) then Some (-1, key, value, b)
      else b ← buffer_skip_whitespace b; Some (0, key, value, b).

(** The loop of [parse_array]: code, number of elements, buffer. *)
Fixpoint array_loop (parse_value : parser) (n : nat) (size : Z) (b : parse_buffer)
    : option (Z * Z * parse_buffer) :=
  match n with
  | O => None
  | S n' =>
      r ← array_element parse_value b;
      let '(rc, _, b) := r in
      if negb (rc =? 0) then Some (-1, size, b)
      else
        comma ← next_is b 44;
        if comma : bool then array_loop parse_value n' (size + 1) b else Some (0, size + 1, b)
  end.

Fixpoint object_loop (parse_value : parser) (n : nat) (size : Z) (b : parse_buffer)
    : option (Z * Z * parse_buffer) :=
  match n with
  | O => None
  | S n' =>
      r ← object_member parse_value b;
      let '(rc, _, _, b) := r in
      if negb (rc =? 0) then Some (-1, size, b)
      else
        comma ← next_is b 44;
        if comma : bool then object_loop parse_value n' (size + 1) b else Some (0, size + 1, b)
  end.

(** Enough iterations for a text of this length: each takes a character at least. *)
Definition loop_fuel (b : parse_buffer) : nat := S (Z.to_nat (pb_length b)).

(** The label [success] of [parse_array] and [parse_object]. *)
Definition parse_success (type start_pos : Z) (item : lite_cjson_t) (b : parse_buffer)
    : option (Z * lite_cjson_t * parse_buffer) :=
  let b := b <| pb_depth ::= fun d => d - 1 |> in
  p ← content_at b start_pos;
  let item := item <| it_type := type |> <| it_value := Some p |>
                   <| it_value_length := pb_offset b - start_pos + 1 |> in
  Some (0, item, b <| pb_offset ::= fun o => o + 1 |>).

Definition parse_array (parse_value : parser) : parser := fun item b =>
  let start_pos := pb_offset b in
  let item := item <| it_size := 0 |> in
  if LITE_CJSON_NESTING_LIMIT <=? pb_depth b then Some (-1, item, b)
  else
    let b := b <| pb_depth ::= fun d => d + 1 |> in
    c ← buffer_char b 0;
    if negb (c =? 91) then Some (-1, item, b)
    else
      b ← buffer_skip_whitespace (b <| pb_offset ::= fun o => o + 1 |>);
      empty ← next_is b 93;
      if empty : bool then parse_success cJSON_Array start_pos item b
      else if cannot_access_at_index b 0
      then Some (-1, item, b <| pb_offset ::= fun o => o - 1 |>)
      else
        r ← array_loop parse_value (loop_fuel b) 0 (b <| pb_offset ::= fun o => o - 1 |>);
        let '(rc, size, b) := r in
        let item := item <| it_size := size |> in
        if negb (rc =? 0) then Some (-1, item, b)
        else
          close ← next_is b 93;
          if negb close then Some (-1, item, b)
          else parse_success cJSON_Array start_pos item b.

Definition parse_object (parse_value : parser) : parser := fun item b =>
  let start_pos := pb_offset b in
  let item := item <| it_size := 0 |> in
  if LITE_CJSON_NESTING_LIMIT <=? pb_depth b then Some (-1, item, b)
  else
    let b := b <| pb_depth ::= fun d => d + 1 |> in
    brace ← next_is b 123;
    if negb brace then Some (-1, item, b)
    else
      b ← buffer_skip_whitespace (b <| pb_offset ::= fun o => o + 1 |>);
      empty ← next_is b 125;
      if empty : bool then parse_success cJSON_Object start_pos item b
      else if cannot_access_at_index b 0
      then Some (-1, item, b <| pb_offset ::= fun o => o - 1 |>)
      else
        r ← object_loop parse_value (loop_fuel b) 0 (b <| pb_offset ::= fun o => o - 1 |>);
        let '(rc, size, b) := r in
        let item := item <| it_size := size |> in
        if negb (rc =? 0) then Some (-1, item, b)
        else
          close ← next_is b 125;
          if negb close then Some (-1, item, b)
          else parse_success cJSON_Object start_pos item b.

(** ** Values *)

(** [can_read(b, n) && strncmp(buffer_at_offset(b), s, n) == 0] *)
Definition literal_is (b : parse_buffer) (s : string) : option bool :=
  if can_read b (Z.of_nat (List.length (lit s))) then p ← buffer_at_offset b; strn_eq p (lit s)
  else Some false.

Definition parse_literal (type n : Z) (item : lite_cjson_t) (b : parse_buffer)
    : option (Z * lite_cjson_t * parse_buffer) :=
  p ← buffer_at_offset b;
  Some (0, item <| it_type := type |> <| it_value := Some p |> <| it_value_length := n |>,
        b <| pb_offset ::= fun o => o + n |>).

(** The fuel bounds the nesting, which the limit bounds. *)
Fixpoint parse_value (fuel : nat) (lite : lite_cjson_t) (b : parse_buffer)
    : option (Z * lite_cjson_t * parse_buffer) :=
  match fuel with
  | O => None
  | S fuel' =>
      is_null ← literal_is b "null";
      if is_null : bool then parse_literal cJSON_NULL 4 lite b
      else
      is_false ← literal_is b "false";
      if is_false : bool then parse_literal cJSON_False 5 lite b
      else
      is_true ← literal_is b "true";
      if is_true : bool then parse_literal cJSON_True 4 lite b
      else if negb (can_access_at_index b 0) then Some (-1, lite, b)
      else
        c ← buffer_char b 0;
        if c =? 34 then parse_string lite b
        else if (c =? 45) || ((48 <=? c) && (c <=? 57)) then parse_number lite b
        else if c =? 91 then parse_array (parse_value fuel') lite b
        else if c =? 123 then parse_object (parse_value fuel') lite b
        else Some (-1, lite, b)
  end.

Definition nesting_fuel : nat := 1001.

Definition buffer_start (src : list Z) (len : Z) : parse_buffer :=
  {| pb_content := src; pb_length := len; pb_offset := 0; pb_depth := 0 |}.

Definition lite_cjson_parse (src : option (list Z)) (src_len : Z) (lite : lite_cjson_t)
    : option (Z * lite_cjson_t) :=
  match src with
  | None => Some (-1, lite)
  | Some src =>
      if src_len <=? 0 then Some (-1, lite)
      else
        b ← skip_utf8_bom (buffer_start src src_len);
        b ← buffer_skip_whitespace b;
        r ← parse_value nesting_fuel lite b;
        let '(rc, lite, _) := r in
        if negb (rc =? 0) then
          Some (-1, lite <| it_type := cJSON_Invalid |> <| it_value := None |>
                         <| it_value_length := 0 |>)
        else Some (0, lite)
  end.

Definition lite_cjson_is_type (type : Z) (lite : option lite_cjson_t) : Z :=
  match lite with
  | None => -1
  | Some i => if Z.land (it_type i) 255 =? type then 1 else 0
  end.

Definition lite_cjson_is_number : option lite_cjson_t -> Z := lite_cjson_is_type cJSON_Number.
Definition lite_cjson_is_string : option lite_cjson_t -> Z := lite_cjson_is_type cJSON_String.
Definition lite_cjson_is_array : option lite_cjson_t -> Z := lite_cjson_is_type cJSON_Array.
Definition lite_cjson_is_object : option lite_cjson_t -> Z := lite_cjson_is_type cJSON_Object.

(** ** Lookup

    A lookup gives the item it stores, or [Some None] when it returns -1 and stores
    nothing. *)

(** The start of the three lookups: past the bracket, back on the character before the
    first element; nothing when the text is not that of a non-empty array or object. *)
Definition lookup_start (opening closing : Z) (b : parse_buffer) : option (option parse_buffer) :=
  o ← next_is b opening;
  if negb o then Some None
  else
    b ← buffer_skip_whitespace (b <| pb_offset ::= fun o => o + 1 |>);
    empty ← next_is b closing;
    if empty : bool then Some None
    else if cannot_access_at_index b 0 then Some None
    else Some (Some (b <| pb_offset ::= fun o => o - 1 |>)).

Definition item_buffer (value : list Z) (i : lite_cjson_t) : parse_buffer :=
  buffer_start value (it_value_length i).

Fixpoint array_item_loop (n : nat) (iter_index index : Z) (b : parse_buffer)
    : option (option lite_cjson_t) :=
  match n with
  | O => None
  | S n' =>
      r ← array_element (parse_value nesting_fuel) b;
      let '(rc, cur, b) := r in
      if negb (rc =? 0) then Some None
      else if iter_index =? index then Some (Some cur)
      else
        comma ← next_is b 44;
        if comma : bool then array_item_loop n' (iter_index + 1) index b else Some None
  end.

Definition lite_cjson_array_item (lite : lite_cjson_t) (index : Z) : option (option lite_cjson_t) :=
  match it_value lite with
  | None => Some None
  | Some value =>
      if negb (it_type lite =? cJSON_Array) || (index <? 0) || (it_size lite <=? index) then Some None
      else
        let b := item_buffer value lite in
        c ← buffer_char b 0;
        if negb (c =? 91) then Some None
        else
          s ← lookup_start 91 93 b;
          match s with
          | None => Some None
          | Some b => array_item_loop (loop_fuel b) 0 index b
          end
  end.

Fixpoint object_item_loop (n : nat) (key : list Z) (key_len : Z) (b : parse_buffer)
    : option (option lite_cjson_t) :=
  match n with
  | O => None
  | S n' =>
      r ← object_member (parse_value nesting_fuel) b;
      let '(rc, cur_key, cur_value, b) := r in
      if negb (rc =? 0) then Some None
      else
        same ← (if it_value_length cur_key =? key_len
                then v ← it_value cur_key; mem_eq v key key_len else Some false);
        if same : bool then Some (Some cur_value)
        else
          comma ← next_is b 44;
          if comma : bool then object_item_loop n' key key_len b else Some None
  end.

(** [key] is the rest of its object from the pointer on. *)
Definition _lite_cjson_object_item (lite : lite_cjson_t) (key : list Z) (key_len : Z)
    : option (option lite_cjson_t) :=
  match it_value lite with
  | None => Some None
  | Some value =>
      if negb (it_type lite =? cJSON_Object) || (it_size lite =? 0) || (key_len <=? 0) then Some None
      else
        s ← lookup_start 123 125 (item_buffer value lite);
        match s with
        | None => Some None
        | Some b => object_item_loop (loop_fuel b) key key_len b
        end
  end.

Fixpoint by_index_loop (n : nat) (item_index index : Z) (b : parse_buffer)
    : option (option (lite_cjson_t * lite_cjson_t)) :=
  match n with
  | O => None
  | S n' =>
      r ← object_member (parse_value nesting_fuel) b;
      let '(rc, cur_key, cur_value, b) := r in
      if negb (rc =? 0) then Some None
      else if item_index =? index then Some (Some (cur_key, cur_value))
      else
        comma ← next_is b 44;
        if comma : bool then by_index_loop n' (item_index + 1) index b else Some None
  end.

Definition lite_cjson_object_item_by_index (lite : lite_cjson_t) (index : Z)
    : option (option (lite_cjson_t * lite_cjson_t)) :=
  match it_value lite with
  | None => Some None
  | Some value =>
      if negb (it_type lite =? cJSON_Object) || (it_size lite =? 0) || (index <? 0)
         || (it_size lite <=? index) then Some None
      else
        s ← lookup_start 123 125 (item_buffer value lite);
        match s with
        | None => Some None
        | Some b => by_index_loop (loop_fuel b) 0 index b
        end
  end.

(** ** Paths *)

(** The loop of [_lite_cjson_key_array_index] over [key[index]], [index < key_len]: the
    places of the first brackets; nothing when it returns -1. *)
Fixpoint bracket_loop (n : nat) (key : list Z) (index : nat) (deep : Z) (pre suf : option nat)
    : option (option (option nat * option nat)) :=
  match n with
  | O => Some (Some (pre, suf))
  | S n' =>
      c ← key !! index;
      if c =? 91 then
        if negb (deep =? 0) then Some None
        else bracket_loop n' key (S index) (deep + 1)
               (match pre with None => Some index | _ => pre end) suf
      else if c =? 93 then
        if negb (deep =? 1) then Some None
        else
          p ← match index with O => None | S i => key !! i end;
          if p =? 91 then Some None
          else bracket_loop n' key (S index) (deep - 1) pre
                 (match suf with None => Some index | _ => suf end)
      else bracket_loop n' key (S index) deep pre suf
  end.

(** The length of the name, the length of the whole key and the index, for a key
    [name[index]]. *)
Definition _lite_cjson_key_array_index (key : list Z) (key_len : Z) : option (option (Z * Z * Z)) :=
  r ← bracket_loop (Z.to_nat key_len) key 0 0 None None;
  match r with
  | Some (Some pre, Some suf) =>
      if negb (Z.of_nat suf + 1 =? key_len) then Some None
      else if 10 <? Z.of_nat suf - Z.of_nat pre - 1 then Some None
      else
        let digits := take (suf - pre - 1) (drop (S pre) key) in
        array_index ← atoi (strbuf 11 digits);
        Some (Some (Z.of_nat pre, Z.of_nat suf + 1, array_index))
  | _ => Some None
  end.

(** One key of the path, of [key_iter_len] characters at the place [iter]: the item it
    leads to, and how far [key_iter] moves when it names an element of an array. *)
Definition path_step (iter : lite_cjson_t) (key : list Z) (key_iter_len : Z)
    : option (option (lite_cjson_t * option Z)) :=
  a ← _lite_cjson_key_array_index key key_iter_len;
  match a with
  | Some (partial_key_len, array_key_len, array_index) =>
      r ← _lite_cjson_object_item iter key partial_key_len;
      match r with
      | None => Some None
      | Some prev =>
          if negb (it_type prev =? cJSON_Array) then Some None
          else
            r ← lite_cjson_array_item prev array_index;
            Some (next ← r; Some (next, Some (array_key_len + 1)))
      end
  | None =>
      r ← _lite_cjson_object_item iter key key_iter_len;
      Some (prev ← r; Some (prev, None))
  end.

(** The loop of [lite_cjson_object_item]; [off] is [key_iter - key]. *)
Fixpoint path_loop (n : nat) (iter : lite_cjson_t) (key : list Z) (key_len off : Z)
    : option (option lite_cjson_t) :=
  match n with
  | O => None
  | S n' =>
      let key_iter := drop (Z.to_nat off) key in
      delim ← strchr key_iter 46;
      let key_iter_len := match delim with Some d => Z.of_nat d | None => key_len - off end in
      r ← path_step iter key_iter key_iter_len;
      match r with
      | None => Some None
      | Some (iter, moved) =>
          match delim with
          | None => Some (Some iter)
          | Some d =>
              let off := match moved with Some m => off + m | None => off + Z.of_nat d + 1 end in
              path_loop n' iter key key_len off
          end
      end
  end.

Definition lite_cjson_object_item (lite : lite_cjson_t) (key : option (list Z)) (key_len : Z)
    : option (option lite_cjson_t) :=
  match it_value lite, key with
  | Some _, Some key =>
      if negb (it_type lite =? cJSON_Object) || (it_size lite =? 0) || (key_len <=? 0) then Some None
      else path_loop (S (List.length key)) lite key key_len 0
  | _, _ => Some None
  end.

(** ** Examples *)

Definition parse_text (s : string) : option (Z * lite_cjson_t) :=
  lite_cjson_parse (Some (json_lit s)) (Z.of_nat (List.length (json_lit s))) item_zero.

Definition parse_summary (s : string) : option (Z * Z * Z * Z) :=
  r ← parse_text s; let '(rc, i) := r in Some (rc, it_type i, it_value_length i, it_size i).

(** The text and the integer that a path leads to. *)
Definition path_summary (s path : string) : option (option (list Z * Z)) :=
  r ← parse_text s;
  x ← lite_cjson_object_item (snd r) (Some (lit path ++ [0])) (Z.of_nat (List.length (lit path)));
  Some (i ← x; v ← it_value i; Some (take (Z.to_nat (it_value_length i)) v, it_value_int i)).

Example parse_object_example :
  parse_summary "{'id' : '123', 'v': [1, -2.5e3, true] }" = Some (0, cJSON_Object, 39, 2).
Proof. vm_compute. reflexivity. Qed.

Example path_example :
  path_summary "{'id' : '123', 'v': {'a':[1, -2.5e3, true]} }" "v.a[1]" = Some (Some (lit "-2.5e3", -2500)).
Proof. vm_compute. reflexivity. Qed.

Example int_saturates :
  path_summary "{'a':[2147483648, -2147483649, 0.1e1]}" "a[0]" = Some (Some (lit "2147483648", INT_MAX))
  /\ path_summary "{'a':[2147483648, -2147483649, 0.1e1]}" "a[1]" = Some (Some (lit "-2147483649", INT_MIN))
  /\ path_summary "{'a':[2147483648, -2147483649, 0.1e1]}" "a[2]" = Some (Some (lit "0.1e1", 1)).
Proof. vm_compute. repeat split. Qed.

(** A text that ends inside a nested array or object is taken as complete: the closing
    bracket of the last inner value is used again for those around it. *)
Example truncated_accepted :
  parse_summary "[[1]" = Some (0, cJSON_Array, 4, 1)
  /\ parse_summary "{'params':{'value':{'x':1}" = Some (0, cJSON_Object, 26, 1).
Proof. vm_compute. split; reflexivity. Qed.
