(* ===== verification/InfraCjsonSafe.v ===== *)
(** * InfraCjsonSafe: the JSON reader stays inside the text

    Whatever the bytes of the text are, [lite_cjson_parse] returns, reads only the text,
    and an item that it returns lies inside the text; so do the lookups on such an item. *)

From S2P Require Import Prelude.
From S2P Require Import CString.
From S2P Require Import Json.
From S2P Require Import InfraCjson.

(** The buffer with another offset. *)
Definition setoff (b : parse_buffer) (o : Z) : parse_buffer :=
  {| pb_content := pb_content b; pb_length := pb_length b; pb_offset := o; pb_depth := pb_depth b |}.

Lemma setoff_eq b o : b <| pb_offset := o |> = setoff b o.
Proof. reflexivity. Qed.

Lemma moveoff_eq b f : b <| pb_offset ::= f |> = setoff b (f (pb_offset b)).
Proof. reflexivity. Qed.

Lemma setoff_setoff b o o' : setoff (setoff b o) o' = setoff b o'.
Proof. reflexivity. Qed.

(** A text inside its object, and an offset in it. *)
Definition buf_ok (b : parse_buffer) : Prop :=
  0 <= pb_offset b <= pb_length b /\ pb_length b <= Z.of_nat (List.length (pb_content b))
  /\ 0 < pb_length b.

(** The same text. *)
Definition same_text (b b' : parse_buffer) : Prop :=
  pb_content b' = pb_content b /\ pb_length b' = pb_length b.

Lemma same_text_refl b : same_text b b.
Proof. done. Qed.

Lemma same_text_trans b1 b2 b3 : same_text b1 b2 -> same_text b2 b3 -> same_text b1 b3.
Proof. unfold same_text. intros [-> ->] [-> ->]. done. Qed.

Lemma buf_ok_same b b' :
  buf_ok b -> same_text b b' -> 0 <= pb_offset b' <= pb_length b -> buf_ok b'.
Proof. unfold buf_ok, same_text. intros ? [-> ->]. tauto. Qed.

(** The character of the text at a place. *)
Definition char_of (b : parse_buffer) (o : Z) : option Z := pb_content b !! Z.to_nat o.

Lemma char_of_same b b' o : same_text b b' -> char_of b' o = char_of b o.
Proof. unfold char_of. by intros [-> _]. Qed.

Lemma char_of_some b o : buf_ok b -> 0 <= o < pb_length b -> is_Some (char_of b o).
Proof. unfold buf_ok, char_of. intros. apply lookup_lt_is_Some. lia. Qed.

Lemma content_at_ok b o : buf_ok b -> 0 <= o <= pb_length b -> content_at b o = Some (drop (Z.to_nat o) (pb_content b)).
Proof.
  unfold buf_ok, content_at. intros. rewrite (proj2 (Z.leb_le 0 o)), (proj2 (Z.leb_le o _)) by lia. done.
Qed.

Lemma buffer_at_ok b : buf_ok b -> buffer_at_offset b = Some (drop (Z.to_nat (pb_offset b)) (pb_content b)).
Proof. intros Hb. apply content_at_ok; [done|apply Hb]. Qed.

Lemma buffer_char_ok b i : buf_ok b -> 0 <= i -> buffer_char b i = char_of b (pb_offset b + i).
Proof.
  intros Hb Hi. unfold buffer_char, char_of. rewrite buffer_at_ok by done.
  cbn [mbind option_bind]. rewrite lookup_drop. f_equal. destruct Hb. lia.
Qed.

Lemma next_is_ok b c :
  buf_ok b ->
  next_is b c = Some (bool_decide (pb_offset b < pb_length b /\ char_of b (pb_offset b) = Some c)).
Proof.
  intros Hb. unfold next_is, can_access_at_index. rewrite Z.add_0_r.
  destruct (Z.ltb_spec (pb_offset b) (pb_length b)) as [Hl|Hl].
  - rewrite buffer_char_ok by (done || lia). rewrite Z.add_0_r.
    destruct (char_of_some b (pb_offset b)) as [x Hx]; [done|destruct Hb; lia|]. rewrite Hx.
    cbn [mbind option_bind]. f_equal. apply eq_true_iff_eq. rewrite bool_decide_eq_true, Z.eqb_eq.
    split; [by intros ->|by intros [_ [=]]].
  - f_equal. symmetry. apply bool_decide_eq_false_2. lia.
Qed.

Lemma skip_loop_ok p o len :
  o <= len -> len - o <= Z.of_nat (List.length p) ->
  exists o', skip_loop p o len = Some o' /\ o <= o' <= len.
Proof.
  revert o. induction p as [|c p IH]; intros o Ho Hp; cbn [skip_loop].
  - cbn [List.length] in Hp. rewrite (proj2 (Z.ltb_ge o len)) by lia. exists o. split; [done|lia].
  - destruct (Z.ltb_spec o len); [|exists o; split; [done|lia]].
    destruct (c <=? 32); [|exists o; split; [done|lia]].
    destruct (IH (o + 1)) as (o' & -> & ?); [lia|cbn [List.length] in Hp; lia|].
    exists o'. split; [done|lia].
Qed.

(** After the white space there is always a character, if need be the one before the end. *)
Lemma skip_whitespace_ok b :
  buf_ok b ->
  exists o, buffer_skip_whitespace b = Some (setoff b o) /\ 0 <= o < pb_length b
    /\ (pb_offset b <= o \/ o = pb_offset b - 1 /\ pb_offset b = pb_length b).
Proof.
  intros Hb. unfold buffer_skip_whitespace. rewrite buffer_at_ok by done. cbn [mbind option_bind].
  destruct (skip_loop_ok (drop (Z.to_nat (pb_offset b)) (pb_content b)) (pb_offset b) (pb_length b))
    as (o & -> & Ho).
  { apply Hb. }
  { rewrite length_drop. unfold buf_ok in Hb. lia. }
  cbn [mbind option_bind]. rewrite setoff_eq. unfold buf_ok in Hb.
  destruct (Z.eqb_spec o (pb_length b)); eexists; (split; [done|lia]).
Qed.

Lemma setoff_same b o : same_text b (setoff b o).
Proof. done. Qed.

Lemma setoff_ok b o : buf_ok b -> 0 <= o <= pb_length b -> buf_ok (setoff b o).
Proof. intros Hb Ho. apply (buf_ok_same b); done. Qed.

(** ** What a parser promises *)

(** The item lies inside the text. *)
Definition item_inside (b : parse_buffer) (i : lite_cjson_t) : Prop :=
  exists k, it_value i = Some (drop (Z.to_nat k) (pb_content b))
    /\ 0 <= k /\ 0 <= it_value_length i /\ k + it_value_length i <= pb_length b
    /\ (it_type i <> cJSON_String -> 0 < it_value_length i).

Lemma item_inside_same b b' i : same_text b b' -> item_inside b' i -> item_inside b i.
Proof. unfold item_inside. by intros [-> ->]. Qed.

(** After success the offset is behind the value, and the last character of the value is
    no comma. *)
Definition parsed (b : parse_buffer) (rc : Z) (i : lite_cjson_t) (b' : parse_buffer) : Prop :=
  same_text b b' /\ 0 <= pb_offset b' <= pb_length b
  /\ (rc = 0 -> pb_offset b < pb_offset b' /\ pb_depth b' = pb_depth b
                /\ char_of b (pb_offset b' - 1) <> Some 44 /\ item_inside b i).

Definition parses (p : parser) (b : parse_buffer) : Prop :=
  forall item, exists rc i b', p item b = Some (rc, i, b') /\ parsed b rc i b'.

(** ** Tokens *)

Lemma string_end_ok p o len :
  0 <= o <= len -> len - o <= Z.of_nat (List.length p) ->
  exists r, string_end p o len = Some r /\
    match r with
    | Some e => o <= e < len /\ p !! Z.to_nat (e - o) = Some 34
    | None => True
    end.
Proof.
  remember (List.length p) as n eqn:Hn. revert p o Hn.
  induction (lt_wf n) as [n _ IH]. intros p o -> Ho Hp.
  destruct p as [|c p]; cbn [string_end].
  - cbn [List.length] in Hp. rewrite (proj2 (Z.ltb_ge o len)) by lia. by exists None.
  - destruct (Z.ltb_spec o len); [|by exists None].
    destruct (Z.eqb_spec c 34) as [->|Hc].
    { exists (Some o). rewrite Z.sub_diag. repeat split; lia. }
    cbn [List.length] in IH, Hp. destruct (Z.eqb_spec c 92) as [->|Hb].
    + destruct (Z.leb_spec len (o + 1)); [by exists None|]. destruct p as [|d p].
      { cbn [List.length] in Hp. lia. }
      cbn [List.length] in IH, Hp.
      destruct (decide (o + 2 <= len)) as [H2|H2].
      * destruct (IH (List.length p) ltac:(lia) p (o + 2) eq_refl) as (r & -> & Hr); [lia|lia|].
        exists r. split; [done|]. destruct r as [e|]; [|done]. destruct Hr as [? Hr]. split; [lia|].
        replace (Z.to_nat (e - o)) with (S (S (Z.to_nat (e - (o + 2))))) by lia. done.
      * lia.
    + destruct (IH (List.length p) ltac:(lia) p (o + 1) eq_refl) as (r & -> & Hr); [lia|lia|].
      exists r. split; [done|]. destruct r as [e|]; [|done]. destruct Hr as [? Hr]. split; [lia|].
      replace (Z.to_nat (e - o)) with (S (Z.to_nat (e - (o + 1)))) by lia. done.
Qed.

Lemma parse_string_ok b : buf_ok b -> pb_offset b < pb_length b -> parses parse_string b.
Proof.
  intros Hb Hl item. unfold parse_string. rewrite buffer_char_ok by (done || lia).
  destruct (char_of_some b (pb_offset b + 0)) as [x Hx]; [done|destruct Hb; lia|]. rewrite Hx.
  cbn [mbind option_bind]. rewrite setoff_eq. unfold parsed.
  assert (Hfail : exists rc i b', Some (-1, item, setoff b (pb_offset b + 1)) = Some (rc, i, b')
     /\ same_text b b' /\ 0 <= pb_offset b' <= pb_length b
     /\ (rc = 0 -> pb_offset b < pb_offset b' /\ pb_depth b' = pb_depth b
                /\ char_of b (pb_offset b' - 1) <> Some 44 /\ item_inside b i)).
  { do 3 eexists. split; [done|]. cbn. destruct Hb. repeat split; (done || lia). }
  destruct (negb (x =? 34)); [exact Hfail|].
  rewrite content_at_ok by (done || (destruct Hb; lia)). cbn [mbind option_bind].
  destruct (string_end_ok (drop (Z.to_nat (pb_offset b + 1)) (pb_content b)) (pb_offset b + 1) (pb_length b))
    as (r & -> & Hr).
  { destruct Hb; lia. }
  { rewrite length_drop. unfold buf_ok in Hb. lia. }
  cbn [mbind option_bind]. destruct r as [e|]; [|exact Hfail]. destruct Hr as [He Hq].
  do 3 eexists. split; [done|]. cbn. destruct Hb. split; [done|]. split; [lia|]. intros _.
  split; [lia|]. split; [done|]. split.
  - replace (e + 1 - 1) with e by lia. unfold char_of. rewrite lookup_drop in Hq.
    replace (Z.to_nat (pb_offset b + 1) + Z.to_nat (e - (pb_offset b + 1)))%nat with (Z.to_nat e) in Hq by lia.
    by rewrite Hq.
  - exists (pb_offset b + 1). cbn. split; [done|]. repeat split; (lia || done).
Qed.

(** What is copied is a prefix of the text, all of characters that numbers have. *)
Lemma copy_number_ok n b i :
  buf_ok b -> 0 <= i -> pb_offset b + i <= pb_length b ->
  exists s, copy_number n b i = Some s /\ (List.length s <= n)%nat
    /\ pb_offset b + i + Z.of_nat (List.length s) <= pb_length b
    /\ Forall (fun c => is_number_char c = true) s
    /\ forall j c, s !! j = Some c -> char_of b (pb_offset b + i + Z.of_nat j) = Some c.
Proof.
  intros Hb. revert i. induction n as [|n IH]; intros i Hi Hl; cbn [copy_number].
  { exists []. cbn. repeat split; (lia || done || by constructor). }
  unfold can_access_at_index. destruct (Z.ltb_spec (pb_offset b + i) (pb_length b)) as [Hc|Hc].
  2: { exists []. cbn. repeat split; (lia || done || by constructor). }
  rewrite buffer_char_ok by (done || lia).
  destruct (char_of_some b (pb_offset b + i)) as [x Hx]; [done|destruct Hb; lia|]. rewrite Hx.
  cbn [mbind option_bind]. destruct (is_number_char x) eqn:Hn.
  2: { exists []. cbn. repeat split; (lia || done || by constructor). }
  destruct (IH (i + 1)) as (s & -> & H1 & H2 & H3 & H4); [lia|lia|]. cbn [mbind option_bind].
  exists (x :: s). cbn [List.length]. split; [done|]. split; [lia|]. split; [lia|].
  split; [by constructor|]. intros [|j] c; cbn [lookup list_lookup].
  - intros [= ->]. by rewrite Z.add_0_r.
  - intros Hj. rewrite <-(H4 j c Hj). f_equal. lia.
Qed.

Lemma strtod_length s : (snd (strtod s) <= List.length s)%nat.
Proof.
  unfold strtod. destruct (span_sign s) as [neg s1]. destruct (span_digits s1) as [i s2].
  destruct (match s2 with 46 :: s' => _ | _ => _ end) as [f s3]. destruct (i ++ f); [cbn; lia|].
  destruct (match s3 with [] => _ | _ => _ end) as [e s4]. cbn. lia.
Qed.

Lemma number_char_comma : is_number_char 44 = false.
Proof. reflexivity. Qed.

Lemma parse_number_ok b : buf_ok b -> pb_offset b < pb_length b -> parses parse_number b.
Proof.
  intros Hb Hl item. unfold parse_number.
  destruct (copy_number_ok 63 b 0) as (s & -> & _ & H2 & H3 & H4); [done|lia|destruct Hb; lia|].
  cbn [mbind option_bind]. pose proof (strtod_length s) as Hn. destruct (strtod s) as [d n]. cbn [snd] in Hn.
  destruct (Nat.eqb_spec n 0) as [->|Hn0].
  { do 3 eexists. split; [done|]. unfold parsed. destruct Hb. repeat split; (lia || done). }
  rewrite buffer_at_ok by done. cbn [mbind option_bind]. rewrite moveoff_eq.
  do 3 eexists. split; [done|]. unfold parsed. cbn. destruct Hb. split; [done|]. split; [lia|]. intros _.
  split; [lia|]. split; [done|]. split.
  - destruct (lookup_lt_is_Some_2 s (n - 1)) as [c Hc]; [lia|].
    replace (pb_offset b + Z.of_nat n - 1) with (pb_offset b + 0 + Z.of_nat (n - 1)) by lia.
    rewrite (H4 _ _ Hc). intros [= ->].
    apply (Forall_lookup_1 _ _ _ _ H3) in Hc. by rewrite number_char_comma in Hc.
  - exists (pb_offset b). cbn. split; [done|]. lia.
Qed.

Lemma literal_is_ok b s :
  buf_ok b -> exists r, literal_is b s = Some r /\
    (r = true -> pb_offset b + Z.of_nat (List.length (lit s)) <= pb_length b
       /\ forall j c, lit s !! j = Some c -> char_of b (pb_offset b + Z.of_nat j) = Some c).
Proof.
  intros Hb. unfold literal_is, can_read.
  destruct (Z.leb_spec (pb_offset b + Z.of_nat (List.length (lit s))) (pb_length b)) as [Hl|]; [|by exists false].
  rewrite buffer_at_ok by done. cbn [mbind option_bind].
  assert (forall a t, (List.length t <= List.length a)%nat -> exists r, strn_eq a t = Some r
            /\ (r = true -> forall j c, t !! j = Some c -> a !! j = Some c)) as Hs.
  { intros a t. revert a. induction t as [|c t IH]; intros a Ha; cbn [strn_eq]; [by exists true|].
    destruct a as [|x a]; cbn [List.length] in Ha; [lia|].
    destruct (Z.eqb_spec x c) as [->|]; [|by exists false].
    destruct (IH a) as (r & -> & Hr); [lia|]. exists r. split; [done|]. intros Ht [|j]; cbn; auto. }
  destruct (Hs (drop (Z.to_nat (pb_offset b)) (pb_content b)) (lit s)) as (r & -> & Hr).
  { rewrite length_drop. unfold buf_ok in Hb. lia. }
  exists r. split; [done|]. intros Ht. split; [done|]. intros j c Hj. apply (Hr Ht) in Hj.
  rewrite lookup_drop in Hj. unfold char_of. rewrite <-Hj. f_equal. destruct Hb. lia.
Qed.

Lemma parse_literal_ok b s type n item :
  buf_ok b -> literal_is b s = Some true -> n = Z.of_nat (List.length (lit s)) -> 0 < n ->
  last (lit s) <> Some 44 ->
  exists rc i b', parse_literal type n item b = Some (rc, i, b') /\ parsed b rc i b'.
Proof.
  intros Hb Hs -> Hn Hlast. destruct (literal_is_ok b s Hb) as (r & Hr & Hin).
  rewrite Hs in Hr. injection Hr as <-. destruct (Hin eq_refl) as [Hl Hc]. unfold parse_literal.
  rewrite buffer_at_ok by done. cbn [mbind option_bind]. rewrite moveoff_eq.
  do 3 eexists. split; [done|]. unfold parsed. cbn [same_text pb_offset setoff pb_depth]. destruct Hb.
  split; [done|]. split; [lia|]. intros _. split; [lia|]. split; [done|]. split.
  - replace (pb_offset b + Z.of_nat (List.length (lit s)) - 1)
      with (pb_offset b + Z.of_nat (List.length (lit s) - 1)) by lia.
    rewrite last_lookup in Hlast. replace (Nat.pred (List.length (lit s))) with (List.length (lit s) - 1)%nat in Hlast by lia.
    destruct (lookup_lt_is_Some_2 (lit s) (List.length (lit s) - 1)) as [c Hx]; [lia|].
    rewrite (Hc _ _ Hx). by rewrite Hx in Hlast.
  - exists (pb_offset b). unfold upd. cbn [it_value it_value_length]. split; [done|]. repeat split; lia.
Qed.

(** ** Loops *)

(** After one element: the next character is there, and if it is a comma it is a new one. *)
Definition stepped (b : parse_buffer) (rc : Z) (i : lite_cjson_t) (b' : parse_buffer) : Prop :=
  same_text b b' /\ 0 <= pb_offset b' <= pb_length b
  /\ (rc = 0 -> pb_offset b' < pb_length b /\ pb_depth b' = pb_depth b /\ item_inside b i
        /\ (pb_offset b < pb_offset b'
            \/ pb_offset b <= pb_offset b' /\ char_of b (pb_offset b') <> Some 44)).

Section Loops.
Context (p : parser) (d : Z).
Hypothesis Hp : forall b, buf_ok b -> pb_offset b < pb_length b -> pb_depth b = d -> parses p b.

Lemma value_step b :
  buf_ok b -> pb_offset b < pb_length b -> pb_depth b = d ->
  exists rc i b', p item_zero b = Some (rc, i, b') /\
    (rc <> 0 /\ same_text b b' /\ 0 <= pb_offset b' <= pb_length b
     \/ rc = 0 /\ exists b'', buffer_skip_whitespace b' = Some b'' /\ stepped b 0 i b'').
Proof.
  intros Hb Hl Hd. destruct (Hp b Hb Hl Hd item_zero) as (rc & i & b' & Hr & Hs & Ho & Hok).
  exists rc, i, b'. split; [done|]. destruct (decide (rc = 0)) as [->|]; [right|by left].
  split; [done|]. destruct (Hok eq_refl) as (H1 & H2 & H3 & H4).
  assert (buf_ok b') as Hb' by (by apply (buf_ok_same b)).
  destruct (skip_whitespace_ok b' Hb') as (o & -> & Ho' & Hor). destruct Hs as [Hsc Hsl].
  eexists. split; [done|]. unfold stepped. cbn. rewrite Hsl in *. split; [done|]. split; [lia|].
  intros _. split; [lia|]. split; [done|]. split; [done|].
  destruct Hor as [|[-> _]]; [left; lia|].
  destruct (decide (pb_offset b < pb_offset b' - 1)); [by left|right; split; [lia|done]].
Qed.

Lemma elem_start b :
  buf_ok (setoff b (pb_offset b + 1)) ->
  (forall o, 0 <= o <= pb_length b -> buf_ok (setoff b o)) /\ -1 <= pb_offset b < pb_length b.
Proof. unfold buf_ok. cbn. intros. split; [intros|]; lia. Qed.

Lemma array_element_ok b :
  buf_ok (setoff b (pb_offset b + 1)) -> pb_depth b = d ->
  exists rc i b', array_element p b = Some (rc, i, b') /\ stepped b rc i b'
    /\ (rc = 0 -> pb_offset b + 1 < pb_length b -> pb_offset b < pb_offset b').
Proof.
  intros Hb' Hd. pose proof (elem_start b Hb') as (Hb & Hl). unfold array_element. rewrite moveoff_eq.
  destruct (skip_whitespace_ok (setoff b (pb_offset b + 1))) as (o & -> & Ho & Hor).
  { done. }
  cbn [mbind option_bind]. rewrite setoff_setoff. cbn [setoff pb_length pb_offset] in Ho, Hor.
  destruct (value_step (setoff b o)) as (rc & i & b' & -> & Hv); [apply Hb; lia|cbn; lia|done|].
  cbn [mbind option_bind]. destruct Hv as [(Hrc & Hs & Hob)|(-> & b'' & Hsk & Hst)].
  - rewrite (proj2 (Z.eqb_neq rc 0)) by done. cbn [negb]. do 3 eexists. split; [done|].
    unfold stepped. cbn in Hob. split; [|done]. split; [done|]. split; [lia|done].
  - cbn [Z.eqb negb]. rewrite Hsk. cbn [mbind option_bind]. do 3 eexists. split; [done|].
    destruct Hst as (Hs & Hob & Hok). cbn in Hob. destruct (Hok eq_refl) as (H1 & H2 & H3 & H4).
    cbn in H1, H2, H4. unfold stepped. split; [|lia]. split; [done|]. split; [lia|].
    intros _. split; [lia|]. split; [done|]. split; [done|].
    destruct H4 as [|[? ?]]; [left; lia|right; split; [lia|done]].
Qed.

Lemma object_member_ok b :
  buf_ok (setoff b (pb_offset b + 1)) -> pb_depth b = d ->
  exists rc k i b', object_member p b = Some (rc, k, i, b') /\ stepped b rc i b'
    /\ (rc = 0 -> item_inside b k)
    /\ (rc = 0 -> pb_offset b + 1 < pb_length b -> pb_offset b < pb_offset b').
Proof.
  intros Hb' Hd. pose proof (elem_start b Hb') as (Hb & Hl). unfold object_member. rewrite moveoff_eq.
  destruct (skip_whitespace_ok (setoff b (pb_offset b + 1))) as (o & -> & Ho & Hor).
  { done. }
  cbn [mbind option_bind]. rewrite setoff_setoff. cbn [setoff pb_length pb_offset] in Ho, Hor.
  destruct (parse_string_ok (setoff b o) (Hb o ltac:(lia)) ltac:(cbn; lia) item_zero)
    as (rc & k & b1 & -> & Hs1 & Ho1 & Hok1).
  cbn [mbind option_bind]. cbn in Ho1.
  destruct (Z.eqb_spec rc 0) as [->|Hrc]; cbn [negb]; last first.
  { do 4 eexists. split; [done|]. split; [|by split]. unfold stepped. split; [done|]. split; [lia|done]. }
  destruct (Hok1 eq_refl) as (H1 & H2 & H3 & H4). cbn in H1, H2.
  assert (buf_ok b1) as Hb1 by (apply (buf_ok_same (setoff b o)); [apply Hb; lia|done|cbn; lia]).
  assert (pb_length b1 = pb_length b) as Hlen1 by apply Hs1.
  destruct (skip_whitespace_ok b1 Hb1) as (o2 & -> & Ho2 & Hor2). cbn [mbind option_bind].
  assert (buf_ok (setoff b1 o2)) as Hb2 by (apply setoff_ok; [done|lia]).
  rewrite next_is_ok by done. cbn [mbind option_bind].
  destruct (negb (bool_decide _)).
  { do 4 eexists. split; [done|]. split; [|by split]. unfold stepped. cbn. split; [done|]. split; [lia|done]. }
  rewrite moveoff_eq, setoff_setoff. cbn [setoff pb_offset].
  destruct (skip_whitespace_ok (setoff b1 (o2 + 1))) as (o3 & -> & Ho3 & Hor3).
  { apply setoff_ok; [done|lia]. }
  cbn [mbind option_bind]. rewrite setoff_setoff. cbn [setoff pb_length pb_offset] in Ho3, Hor3.
  destruct (value_step (setoff b1 o3)) as (rc & i & b' & -> & Hv).
  { apply setoff_ok; [done|lia]. } { cbn; lia. } { cbn. by rewrite H2. }
  cbn [mbind option_bind].
  assert (same_text b b1) as Hsb by done.
  destruct Hv as [(Hrc & Hs & Hob)|(-> & b'' & Hsk & Hst)].
  - rewrite (proj2 (Z.eqb_neq rc 0)) by done. cbn [negb]. do 4 eexists. split; [done|]. split; [|by split].
    unfold stepped. cbn in Hob. split; [by apply (same_text_trans _ b1)|]. split; [lia|done].
  - cbn [Z.eqb negb]. rewrite Hsk. cbn [mbind option_bind]. do 4 eexists. split; [done|].
    destruct Hst as (Hs & Hob & Hok). cbn in Hob. destruct (Hok eq_refl) as (H5 & H6 & H7 & H8).
    cbn in H5, H6, H8. split; [|split; [done|lia]]. unfold stepped.
    split; [by apply (same_text_trans _ b1)|]. split; [lia|]. intros _. split; [lia|]. split; [congruence|]. split; [by apply (item_inside_same b b1)|].
    destruct H8 as [H8|[? H8]]; [left; lia|right]. rewrite <-(char_of_same b b1) by done. split; [lia|done].
Qed.

(** The loops end: each round takes a comma further on. *)
Lemma array_loop_ok n size b :
  buf_ok (setoff b (pb_offset b + 1)) -> pb_depth b = d -> pb_length b - pb_offset b <= Z.of_nat n ->
  exists rc size' b', array_loop p n size b = Some (rc, size', b')
    /\ same_text b b' /\ 0 <= pb_offset b' <= pb_length b /\ (rc = 0 -> pb_depth b' = pb_depth b /\ pb_offset b <= pb_offset b'
          /\ (pb_offset b + 1 < pb_length b -> pb_offset b < pb_offset b')).
Proof.
  revert size b. induction n as [|n IH]; intros size b Hb Hd Hn; pose proof (elem_start b Hb) as [Hbo Hl]; [lia|].
  cbn [array_loop]. destruct (array_element_ok b Hb Hd) as (rc & i & b' & -> & (Hs & Ho & Hok) & Hst).
  cbn [mbind option_bind]. destruct (Z.eqb_spec rc 0) as [->|Hrc]; cbn [negb].
  2: { do 3 eexists. split; [done|]. done. }
  assert (buf_ok b') as Hb' by (by apply (buf_ok_same _ b' Hb)). rewrite next_is_ok by done.
  cbn [mbind option_bind]. destruct (Hok eq_refl) as (H1 & H2 & H3 & H4).
  assert (pb_length b' = pb_length b) as Hlen by apply Hs.
  case_bool_decide as Hc.
  - destruct (IH (size + 1) b') as (rc & s' & b'' & -> & Hs' & Ho' & Hd').
    { apply setoff_ok; [done|lia]. } { congruence. }
    { destruct Hc as [_ Hc]. rewrite (char_of_same b b') in Hc by done. destruct H4 as [|[? H4]]; [lia|by destruct H4]. }
    do 3 eexists. split; [done|]. split; [by apply (same_text_trans _ b')|]. split; [lia|].
    intros Hrc. destruct (Hd' Hrc) as (Hd1 & Hd2 & _). rewrite Hd1. split; [done|].
    specialize (Hst eq_refl). split; [|lia]. destruct H4 as [|[? _]]; lia.
  - do 3 eexists. split; [done|]. split; [done|]. split; [lia|]. intros _. specialize (Hst eq_refl).
    split; [done|]. split; [|lia]. destruct H4 as [|[? _]]; lia.
Qed.

Lemma object_loop_ok n size b :
  buf_ok (setoff b (pb_offset b + 1)) -> pb_depth b = d -> pb_length b - pb_offset b <= Z.of_nat n ->
  exists rc size' b', object_loop p n size b = Some (rc, size', b')
    /\ same_text b b' /\ 0 <= pb_offset b' <= pb_length b /\ (rc = 0 -> pb_depth b' = pb_depth b /\ pb_offset b <= pb_offset b'
          /\ (pb_offset b + 1 < pb_length b -> pb_offset b < pb_offset b')).
Proof.
  revert size b. induction n as [|n IH]; intros size b Hb Hd Hn; pose proof (elem_start b Hb) as [Hbo Hl]; [lia|].
  cbn [object_loop]. destruct (object_member_ok b Hb Hd) as (rc & k & i & b' & -> & (Hs & Ho & Hok) & _ & Hst).
  cbn [mbind option_bind]. destruct (Z.eqb_spec rc 0) as [->|Hrc]; cbn [negb].
  2: { do 3 eexists. split; [done|]. done. }
  assert (buf_ok b') as Hb' by (by apply (buf_ok_same _ b' Hb)). rewrite next_is_ok by done.
  cbn [mbind option_bind]. destruct (Hok eq_refl) as (H1 & H2 & H3 & H4).
  assert (pb_length b' = pb_length b) as Hlen by apply Hs.
  case_bool_decide as Hc.
  - destruct (IH (size + 1) b') as (rc & s' & b'' & -> & Hs' & Ho' & Hd').
    { apply setoff_ok; [done|lia]. } { congruence. }
    { destruct Hc as [_ Hc]. rewrite (char_of_same b b') in Hc by done. destruct H4 as [|[? H4]]; [lia|by destruct H4]. }
    do 3 eexists. split; [done|]. split; [by apply (same_text_trans _ b')|]. split; [lia|].
    intros Hrc. destruct (Hd' Hrc) as (Hd1 & Hd2 & _). rewrite Hd1. split; [done|].
    specialize (Hst eq_refl). split; [|lia]. destruct H4 as [|[? _]]; lia.
  - do 3 eexists. split; [done|]. split; [done|]. split; [lia|]. intros _. specialize (Hst eq_refl).
    split; [done|]. split; [|lia]. destruct H4 as [|[? _]]; lia.
Qed.
End Loops.

(** ** Arrays, objects and values *)

Lemma parse_success_ok b0 type start item b c :
  buf_ok b0 -> same_text b0 b -> start = pb_offset b0 -> pb_depth b = pb_depth b0 + 1 ->
  start <= pb_offset b < pb_length b0 -> char_of b0 (pb_offset b) = Some c -> c <> 44 ->
  exists rc i b', parse_success type start item b = Some (rc, i, b') /\ parsed b0 rc i b'.
Proof.
  intros Hb0 Hs -> Hd Ho Hc Hn. unfold parse_success.
  assert (buf_ok b) as Hb by (apply (buf_ok_same b0); [done|done|destruct Hb0; lia]).
  change (b <| pb_depth ::= fun d => d - 1 |>)
    with {| pb_content := pb_content b; pb_length := pb_length b; pb_offset := pb_offset b;
            pb_depth := pb_depth b - 1 |}.
  rewrite content_at_ok; [|exact Hb|]; cbn [pb_length].
  2: { destruct Hb0, Hs as [_ ->]. lia. }
  cbn [mbind option_bind pb_content pb_offset]. do 3 eexists. split; [done|].
  unfold parsed. rewrite moveoff_eq. unfold same_text. cbn. destruct Hs as [Hsc Hsl].
  split; [done|]. destruct Hb0. split; [lia|]. intros _. split; [lia|]. split; [lia|]. split.
  - replace (pb_offset b + 1 - 1) with (pb_offset b) by lia. rewrite Hc. congruence.
  - exists (pb_offset b0). cbn. rewrite Hsc. split; [done|]. lia.
Qed.

Section Nested.
Context (p : parser) (b : parse_buffer).
Hypothesis Hb : buf_ok b.
Hypothesis Hl : pb_offset b < pb_length b.
Hypothesis Hp : pb_depth b < LITE_CJSON_NESTING_LIMIT ->
  forall b', buf_ok b' -> pb_offset b' < pb_length b' -> pb_depth b' = pb_depth b + 1 -> parses p b'.

Lemma parsed_fail b' i : same_text b b' -> 0 <= pb_offset b' <= pb_length b -> parsed b (-1) i b'.
Proof. done. Qed.

Lemma parse_array_ok : parses (parse_array p) b.
Proof.
  intros item. unfold parse_array. destruct (Z.leb_spec LITE_CJSON_NESTING_LIMIT (pb_depth b)) as [|Hd].
  { do 3 eexists. split; [done|]. apply parsed_fail; [done|destruct Hb; lia]. }
  specialize (Hp Hd).
  set (b1 := {| pb_content := pb_content b; pb_length := pb_length b; pb_offset := pb_offset b;
                pb_depth := pb_depth b + 1 |}).
  change (b <| pb_depth ::= fun d => d + 1 |>) with b1.
  assert (buf_ok b1) as Hb1 by exact Hb. rewrite buffer_char_ok by (done || lia).
  destruct (char_of_some b1 (pb_offset b1 + 0)) as [x Hx]; [done|cbn; destruct Hb; lia|]. rewrite Hx.
  cbn [mbind option_bind]. destruct (Z.eqb_spec x 91) as [->|]; cbn [negb].
  2: { do 3 eexists. split; [done|]. apply parsed_fail; [done|destruct Hb; cbn; lia]. }
  rewrite moveoff_eq. assert (0 <= pb_offset b) as H0 by apply Hb.
  destruct (skip_whitespace_ok (setoff b1 (pb_offset b1 + 1))) as (o & -> & Ho & Hor).
  { apply setoff_ok; [done|cbn; lia]. }
  cbn [mbind option_bind]. rewrite setoff_setoff. cbn in Ho, Hor.
  assert (buf_ok (setoff b1 o)) as Hb2 by (apply setoff_ok; [done|cbn; lia]).
  rewrite next_is_ok by done. cbn [mbind option_bind]. case_bool_decide as Hc.
  { destruct Hc as [_ Hc]. cbn in Hc. apply (parse_success_ok b) with 93; try done; cbn; lia. }
  unfold cannot_access_at_index, can_access_at_index. cbn [setoff pb_offset pb_length b1].
  rewrite Z.add_0_r, (proj2 (Z.ltb_lt o (pb_length b))) by lia. cbn [negb]. rewrite moveoff_eq, setoff_setoff.
  cbn [setoff pb_offset].
  destruct (array_loop_ok p (pb_depth b + 1) Hp (loop_fuel (setoff b1 o)) 0 (setoff b1 (o - 1)))
    as (rc & size & b' & -> & Hs & Hob & Hdep).
  { cbn. rewrite setoff_setoff. apply setoff_ok; [done|cbn; lia]. } { done. } { unfold loop_fuel. cbn. lia. }
  cbn [mbind option_bind]. cbn in Hob, Hdep.
  destruct (Z.eqb_spec rc 0) as [->|]; cbn [negb].
  2: { do 3 eexists. split; [done|]. apply parsed_fail; [done|lia]. }
  assert (buf_ok b') as Hb' by (by apply (buf_ok_same b)).
  rewrite next_is_ok by done. cbn [mbind option_bind]. case_bool_decide as Hcc; cbn [negb].
  2: { do 3 eexists. split; [done|]. apply parsed_fail; [done|lia]. }
  destruct Hcc as [Hcl Hcc]. rewrite (char_of_same b b') in Hcc by done.
  destruct (Hdep eq_refl) as (Hd' & Ho1 & Ho2). assert (pb_length b' = pb_length b) by apply Hs.
  apply (parse_success_ok b) with 93; try done. lia.
Qed.

Lemma parse_object_ok : parses (parse_object p) b.
Proof.
  intros item. unfold parse_object. destruct (Z.leb_spec LITE_CJSON_NESTING_LIMIT (pb_depth b)) as [|Hd].
  { do 3 eexists. split; [done|]. apply parsed_fail; [done|destruct Hb; lia]. }
  specialize (Hp Hd).
  set (b1 := {| pb_content := pb_content b; pb_length := pb_length b; pb_offset := pb_offset b;
                pb_depth := pb_depth b + 1 |}).
  change (b <| pb_depth ::= fun d => d + 1 |>) with b1.
  assert (buf_ok b1) as Hb1 by exact Hb. rewrite next_is_ok by done. cbn [mbind option_bind].
  case_bool_decide as Hc0; cbn [negb].
  2: { do 3 eexists. split; [done|]. apply parsed_fail; [done|destruct Hb; cbn; lia]. }
  rewrite moveoff_eq. assert (0 <= pb_offset b) as H0 by apply Hb.
  destruct (skip_whitespace_ok (setoff b1 (pb_offset b1 + 1))) as (o & -> & Ho & Hor).
  { apply setoff_ok; [done|cbn; lia]. }
  cbn [mbind option_bind]. rewrite setoff_setoff. cbn in Ho, Hor.
  assert (buf_ok (setoff b1 o)) as Hb2 by (apply setoff_ok; [done|cbn; lia]).
  rewrite next_is_ok by done. cbn [mbind option_bind]. case_bool_decide as Hc.
  { destruct Hc as [_ Hc]. cbn in Hc. apply (parse_success_ok b) with 125; try done; cbn; lia. }
  unfold cannot_access_at_index, can_access_at_index. cbn [setoff pb_offset pb_length b1].
  rewrite Z.add_0_r, (proj2 (Z.ltb_lt o (pb_length b))) by lia. cbn [negb]. rewrite moveoff_eq, setoff_setoff.
  cbn [setoff pb_offset].
  destruct (object_loop_ok p (pb_depth b + 1) Hp (loop_fuel (setoff b1 o)) 0 (setoff b1 (o - 1)))
    as (rc & size & b' & -> & Hs & Hob & Hdep).
  { cbn. rewrite setoff_setoff. apply setoff_ok; [done|cbn; lia]. } { done. } { unfold loop_fuel. cbn. lia. }
  cbn [mbind option_bind]. cbn in Hob, Hdep.
  destruct (Z.eqb_spec rc 0) as [->|]; cbn [negb].
  2: { do 3 eexists. split; [done|]. apply parsed_fail; [done|lia]. }
  assert (buf_ok b') as Hb' by (by apply (buf_ok_same b)).
  rewrite next_is_ok by done. cbn [mbind option_bind]. case_bool_decide as Hcc; cbn [negb].
  2: { do 3 eexists. split; [done|]. apply parsed_fail; [done|lia]. }
  destruct Hcc as [Hcl Hcc]. rewrite (char_of_same b b') in Hcc by done.
  destruct (Hdep eq_refl) as (Hd' & Ho1 & Ho2). assert (pb_length b' = pb_length b) by apply Hs.
  apply (parse_success_ok b) with 125; try done. lia.
Qed.
End Nested.

(** A text starts with the value, and the nesting has not used up the fuel. *)
Lemma parse_value_ok fuel b :
  buf_ok b -> pb_offset b < pb_length b -> LITE_CJSON_NESTING_LIMIT < Z.of_nat fuel + pb_depth b ->
  pb_depth b <= LITE_CJSON_NESTING_LIMIT ->
  parses (parse_value fuel) b.
Proof.
  revert b. induction fuel as [|fuel IH]; intros b Hb Hl Hf Hd; [lia|].
  intros item. cbn [parse_value].
  destruct (literal_is_ok b "null" Hb) as ([] & E1 & _); rewrite E1; cbn [mbind option_bind];
    [by apply (parse_literal_ok b "null")|].
  destruct (literal_is_ok b "false" Hb) as ([] & E2 & _); rewrite E2; cbn [mbind option_bind];
    [by apply (parse_literal_ok b "false")|].
  destruct (literal_is_ok b "true" Hb) as ([] & E3 & _); rewrite E3; cbn [mbind option_bind];
    [by apply (parse_literal_ok b "true")|].
  unfold can_access_at_index. rewrite Z.add_0_r, (proj2 (Z.ltb_lt (pb_offset b) _)) by done. cbn [negb].
  rewrite buffer_char_ok by (done || lia).
  destruct (char_of_some b (pb_offset b + 0)) as [c ->]; [done|destruct Hb; lia|]. cbn [mbind option_bind].
  destruct (c =? 34); [by apply parse_string_ok|].
  destruct (_ || _); [by apply parse_number_ok|].
  destruct (c =? 91).
  { apply parse_array_ok; try done. intros. apply IH; try done; lia. }
  destruct (c =? 123).
  { apply parse_object_ok; try done. intros. apply IH; try done; lia. }
  do 3 eexists. split; [done|]. apply parsed_fail; [done|destruct Hb; lia].
Qed.

(** ** The text as a whole *)

Lemma skip_utf8_bom_ok b :
  buf_ok b -> exists o, skip_utf8_bom b = Some (setoff b o) /\ pb_offset b <= o <= pb_length b.
Proof.
  intros Hb. unfold skip_utf8_bom, can_access_at_index.
  destruct (Z.ltb_spec (pb_offset b + 4) (pb_length b)).
  2: { exists (pb_offset b). split; [by destruct b|destruct Hb; lia]. }
  rewrite buffer_at_ok by done. cbn [mbind option_bind].
  assert (exists r, strn_eq (drop (Z.to_nat (pb_offset b)) (pb_content b)) [239; 187; 191] = Some r) as [r ->].
  { assert (5 <= List.length (drop (Z.to_nat (pb_offset b)) (pb_content b)))%nat as Hlen
      by (rewrite length_drop; unfold buf_ok in Hb; lia).
    destruct (drop _ _) as [|x1 [|x2 [|x3 l]]]; cbn [List.length] in Hlen; try lia. cbn [strn_eq].
    destruct (x1 =? 239), (x2 =? 187), (x3 =? 191); eauto. }
  cbn [mbind option_bind]. destruct r.
  - rewrite moveoff_eq. eexists. split; [done|lia].
  - exists (pb_offset b). split; [by destruct b|lia].
Qed.

Lemma nesting_fuel_enough : LITE_CJSON_NESTING_LIMIT < Z.of_nat nesting_fuel.
Proof. reflexivity. Qed.

(** Every text is parsed, without a read outside it; an accepted value lies in the text. *)
Lemma lite_cjson_parse_ok src len lite :
  0 < len <= Z.of_nat (List.length src) ->
  exists rc i, lite_cjson_parse (Some src) len lite = Some (rc, i)
    /\ (rc = 0 /\ item_inside (buffer_start src len) i
        \/ rc = -1 /\ it_type i = cJSON_Invalid /\ it_value i = None).
Proof.
  intros Hlen. assert (buf_ok (buffer_start src len)) as Hb by (unfold buf_ok; cbn; lia).
  unfold lite_cjson_parse. pose proof nesting_fuel_enough as Hfuel. revert Hfuel.
  generalize nesting_fuel. intros fuel Hfuel. rewrite (proj2 (Z.leb_gt len 0)) by lia.
  destruct (skip_utf8_bom_ok _ Hb) as (o & -> & Ho). cbn in Ho. cbn [mbind option_bind].
  destruct (skip_whitespace_ok (setoff (buffer_start src len) o)) as (o' & -> & Ho' & _).
  { apply setoff_ok; [done|cbn; lia]. }
  cbn in Ho'. cbn [mbind option_bind]. rewrite setoff_setoff.
  destruct (parse_value_ok fuel (setoff (buffer_start src len) o')) with lite
    as (rc & i & b' & -> & Hs & Hob & Hok).
  { apply setoff_ok; [done|cbn; lia]. } { cbn; lia. } { cbn; lia. } { done. }
  cbn [mbind option_bind]. destruct (Z.eqb_spec rc 0) as [->|]; cbn [negb].
  - do 2 eexists. split; [done|]. left. split; [done|]. apply (Hok eq_refl).
  - do 2 eexists. split; [done|]. right. done.
Qed.

(** ** Lookups *)

Section Lookups.
Context (lite : lite_cjson_t) (value : list Z).
Hypothesis Hv : it_value lite = Some value.
Hypothesis Hlen : 0 < it_value_length lite <= Z.of_nat (List.length value).

(** An item found in another one. *)
Definition item_within (i : lite_cjson_t) : Prop := item_inside (item_buffer value lite) i.

Lemma item_buffer_ok : buf_ok (item_buffer value lite).
Proof. unfold buf_ok. cbn. lia. Qed.

Lemma value_parses b :
  buf_ok b -> pb_offset b < pb_length b -> pb_depth b = 0 -> parses (parse_value nesting_fuel) b.
Proof.
  intros. pose proof nesting_fuel_enough as Hfuel. apply parse_value_ok; try done; [lia|].
  replace (pb_depth b) with 0 by done. done.
Qed.

Lemma lookup_start_ok opening closing :
  exists r, lookup_start opening closing (item_buffer value lite) = Some r /\
    forall b, r = Some b -> same_text (item_buffer value lite) b /\ pb_depth b = 0
      /\ -1 <= pb_offset b < pb_length b.
Proof.
  pose proof item_buffer_ok as Hb. unfold lookup_start. rewrite next_is_ok by done. cbn [mbind option_bind].
  destruct (negb _); [by exists None|]. rewrite moveoff_eq.
  destruct (skip_whitespace_ok (setoff (item_buffer value lite) (pb_offset (item_buffer value lite) + 1)))
    as (o & -> & Ho & Hor).
  { apply setoff_ok; [done|cbn; lia]. }
  cbn [mbind option_bind]. rewrite setoff_setoff. cbn in Ho, Hor.
  rewrite next_is_ok by (apply setoff_ok; [done|cbn; lia]). cbn [mbind option_bind].
  destruct (bool_decide _); [by exists None|].
  destruct (cannot_access_at_index _ _); [by exists None|]. eexists. split; [done|].
  intros b [= <-]. cbn. repeat split; lia.
Qed.

Lemma loop_start b :
  same_text (item_buffer value lite) b -> -1 <= pb_offset b < pb_length b ->
  buf_ok (setoff b (pb_offset b + 1)) /\ pb_length b - pb_offset b <= Z.of_nat (loop_fuel b).
Proof.
  intros [Hc Hl] Ho. unfold loop_fuel, buf_ok. cbn [setoff pb_offset pb_length pb_content].
  rewrite Hc. rewrite Hl in *. cbn [item_buffer buffer_start pb_content pb_length] in *. lia.
Qed.

Lemma array_item_loop_ok n k index b :
  same_text (item_buffer value lite) b -> pb_depth b = 0 ->
  buf_ok (setoff b (pb_offset b + 1)) -> pb_length b - pb_offset b <= Z.of_nat n ->
  exists r, array_item_loop n k index b = Some r /\ forall i, r = Some i -> item_within i.
Proof.
  revert k b. induction n as [|n IH]; intros k b Hs Hd Hb Hn.
  { destruct (elem_start b Hb). lia. }
  cbn [array_item_loop].
  destruct (array_element_ok (parse_value nesting_fuel) 0 value_parses b Hb Hd)
    as (rc & i & b' & -> & (Hs' & Ho & Hok) & _).
  cbn [mbind option_bind]. destruct (Z.eqb_spec rc 0) as [->|]; cbn [negb]; [|by exists None].
  destruct (Hok eq_refl) as (H1 & H2 & H3 & H4).
  destruct (k =? index).
  { exists (Some i). split; [done|]. intros i' [= <-]. by apply (item_inside_same _ b). }
  assert (buf_ok b') as Hb' by (by apply (buf_ok_same _ b' Hb)).
  assert (pb_length b' = pb_length b) as Hl' by apply Hs'.
  rewrite next_is_ok by done. cbn [mbind option_bind]. case_bool_decide as Hc; [|by exists None].
  apply IH; [by apply (same_text_trans _ b)|congruence|apply setoff_ok; [done|lia]|].
  destruct Hc as [_ Hc]. rewrite (char_of_same b b') in Hc by done. destruct H4 as [|[_ []]]; [lia|done].
Qed.

Lemma object_item_loop_ok n key key_len b :
  0 < key_len <= Z.of_nat (List.length key) ->
  same_text (item_buffer value lite) b -> pb_depth b = 0 ->
  buf_ok (setoff b (pb_offset b + 1)) -> pb_length b - pb_offset b <= Z.of_nat n ->
  exists r, object_item_loop n key key_len b = Some r /\ forall i, r = Some i -> item_within i.
Proof.
  intros Hkey. revert b. induction n as [|n IH]; intros b Hs Hd Hb Hn.
  { destruct (elem_start b Hb). lia. }
  cbn [object_item_loop].
  destruct (object_member_ok (parse_value nesting_fuel) 0 value_parses b Hb Hd)
    as (rc & kk & i & b' & -> & (Hs' & Ho & Hok) & Hk & _).
  cbn [mbind option_bind]. destruct (Z.eqb_spec rc 0) as [->|]; cbn [negb]; [|by exists None].
  destruct (Hok eq_refl) as (H1 & H2 & H3 & H4).
  assert (exists same, (if it_value_length kk =? key_len
      then v ← it_value kk; mem_eq v key key_len else Some false) = Some same) as [same ->].
  { destruct (Z.eqb_spec (it_value_length kk) key_len) as [Hkl|]; [|by exists false].
    destruct (Hk eq_refl) as (o & -> & Ho0 & _ & Hin & _). cbn [mbind option_bind]. unfold mem_eq.
    rewrite length_drop. unfold buf_ok in Hb. cbn in Hb.
    rewrite (proj2 (Z.ltb_ge key_len 0)), (proj2 (Z.ltb_ge _ key_len)), (proj2 (Z.ltb_ge (Z.of_nat (List.length key)) key_len)) by lia.
    cbn [orb]. eauto. }
  cbn [mbind option_bind]. destruct same.
  { exists (Some i). split; [done|]. intros i' [= <-]. by apply (item_inside_same _ b). }
  assert (buf_ok b') as Hb' by (by apply (buf_ok_same _ b' Hb)).
  assert (pb_length b' = pb_length b) as Hl' by apply Hs'.
  rewrite next_is_ok by done. cbn [mbind option_bind]. case_bool_decide as Hc; [|by exists None].
  apply IH; [by apply (same_text_trans _ b)|congruence|apply setoff_ok; [done|lia]|].
  destruct Hc as [_ Hc]. rewrite (char_of_same b b') in Hc by done. destruct H4 as [|[_ []]]; [lia|done].
Qed.

Lemma array_item_ok index :
  exists r, lite_cjson_array_item lite index = Some r /\ forall i, r = Some i -> item_within i.
Proof.
  unfold lite_cjson_array_item. rewrite Hv. destruct (_ || _); [by exists None|].
  rewrite buffer_char_ok by (apply item_buffer_ok || lia).
  destruct (char_of_some (item_buffer value lite) (pb_offset (item_buffer value lite) + 0)) as [c ->];
    [apply item_buffer_ok|cbn; lia|]. cbn [mbind option_bind].
  destruct (negb _); [by exists None|]. destruct (lookup_start_ok 91 93) as (r & -> & Hr).
  cbn [mbind option_bind]. destruct r as [b|]; [|by exists None]. destruct (Hr b eq_refl) as (H1 & H2 & H3).
  destruct (loop_start b H1 H3). by apply array_item_loop_ok.
Qed.

Lemma object_item_ok key key_len :
  key_len <= Z.of_nat (List.length key) ->
  exists r, _lite_cjson_object_item lite key key_len = Some r /\ forall i, r = Some i -> item_within i.
Proof.
  intros Hk. unfold _lite_cjson_object_item. rewrite Hv.
  destruct (Z.leb_spec key_len 0); [rewrite orb_true_r; by exists None|].
  destruct (_ || _); [by exists None|].
  destruct (lookup_start_ok 123 125) as (r & -> & Hr).
  cbn [mbind option_bind]. destruct r as [b|]; [|by exists None]. destruct (Hr b eq_refl) as (H1 & H2 & H3).
  destruct (loop_start b H1 H3). apply object_item_loop_ok; done.
Qed.

Lemma by_index_loop_ok n k index b :
  same_text (item_buffer value lite) b -> pb_depth b = 0 ->
  buf_ok (setoff b (pb_offset b + 1)) -> pb_length b - pb_offset b <= Z.of_nat n ->
  exists r, by_index_loop n k index b = Some r
    /\ forall i j, r = Some (i, j) -> item_within i /\ item_within j.
Proof.
  revert k b. induction n as [|n IH]; intros k b Hs Hd Hb Hn.
  { destruct (elem_start b Hb). lia. }
  cbn [by_index_loop].
  destruct (object_member_ok (parse_value nesting_fuel) 0 value_parses b Hb Hd)
    as (rc & kk & i & b' & -> & (Hs' & Ho & Hok) & Hk & _).
  cbn [mbind option_bind]. destruct (Z.eqb_spec rc 0) as [->|]; cbn [negb]; [|by exists None].
  destruct (Hok eq_refl) as (H1 & H2 & H3 & H4).
  destruct (k =? index).
  { eexists. split; [done|]. intros i' j' [= <- <-].
    split; apply (item_inside_same _ b); [done|by apply Hk|done|done]. }
  assert (buf_ok b') as Hb' by (by apply (buf_ok_same _ b' Hb)).
  assert (pb_length b' = pb_length b) as Hl' by apply Hs'.
  rewrite next_is_ok by done. cbn [mbind option_bind]. case_bool_decide as Hc; [|by exists None].
  apply IH; [by apply (same_text_trans _ b)|congruence|apply setoff_ok; [done|lia]|].
  destruct Hc as [_ Hc]. rewrite (char_of_same b b') in Hc by done. destruct H4 as [|[_ []]]; [lia|done].
Qed.

Lemma by_index_ok index :
  exists r, lite_cjson_object_item_by_index lite index = Some r
    /\ forall i j, r = Some (i, j) -> item_within i /\ item_within j.
Proof.
  unfold lite_cjson_object_item_by_index. rewrite Hv. destruct (_ || _); [by exists None|].
  destruct (lookup_start_ok 123 125) as (r & -> & Hr).
  cbn [mbind option_bind]. destruct r as [b|]; [|by exists None]. destruct (Hr b eq_refl) as (H1 & H2 & H3).
  destruct (loop_start b H1 H3). apply by_index_loop_ok; done.
Qed.
End Lookups.

(** ** Every item *)

(** The items that an application gets from a text: the parsed one and those that lookups
    on such items give. *)
Inductive item_of (src : list Z) (len : Z) : lite_cjson_t -> Prop :=
  | item_parsed lite i : lite_cjson_parse (Some src) len lite = Some (0, i) -> item_of src len i
  | item_element i index j :
      item_of src len i -> lite_cjson_array_item i index = Some (Some j) -> item_of src len j
  | item_member i key n j :
      item_of src len i -> n <= Z.of_nat (List.length key) ->
      _lite_cjson_object_item i key n = Some (Some j) -> item_of src len j
  | item_key i index k j :
      item_of src len i -> lite_cjson_object_item_by_index i index = Some (Some (k, j)) ->
      item_of src len k
  | item_value i index k j :
      item_of src len i -> lite_cjson_object_item_by_index i index = Some (Some (k, j)) ->
      item_of src len j.

(** A lookup on an item inside the text returns, with an item inside the text. *)
Lemma lookups_inside src len i :
  len <= Z.of_nat (List.length src) -> item_inside (buffer_start src len) i ->
  (forall index, exists r, lite_cjson_array_item i index = Some r
     /\ forall j, r = Some j -> item_inside (buffer_start src len) j)
  /\ (forall key n, n <= Z.of_nat (List.length key) -> exists r, _lite_cjson_object_item i key n = Some r
     /\ forall j, r = Some j -> item_inside (buffer_start src len) j)
  /\ (forall index, exists r, lite_cjson_object_item_by_index i index = Some r
     /\ forall k j, r = Some (k, j) ->
          item_inside (buffer_start src len) k /\ item_inside (buffer_start src len) j).
Proof.
  intros Hlen (o & Hv & Ho & Hl0 & Hl & Hp). cbn [buffer_start pb_content pb_length] in Hv, Hl.
  assert (forall j, item_within i (drop (Z.to_nat o) src) j -> item_inside (buffer_start src len) j) as Hin.
  { intros j (o' & Hv' & Ho' & Hl0' & Hl' & Hp'). exists (o + o').
    cbn [item_buffer buffer_start pb_content pb_length] in *. rewrite Hv', drop_drop, <-Z2Nat.inj_add by lia.
    repeat split; try lia. }
  destruct (decide (it_type i = cJSON_String)) as [Hs|Hs].
  - unfold lite_cjson_array_item, _lite_cjson_object_item, lite_cjson_object_item_by_index. rewrite Hv, Hs.
    cbn [negb orb Z.eqb cJSON_String cJSON_Array cJSON_Object Pos.eqb].
    split; [|split]; intros; by exists None.
  - assert (0 < it_value_length i <= Z.of_nat (List.length (drop (Z.to_nat o) src))) as Hlv.
    { specialize (Hp Hs). rewrite length_drop. lia. }
    split; [|split].
    + intros index. destruct (array_item_ok i _ Hv Hlv index) as (r & -> & Hr). eauto.
    + intros key n Hn. destruct (object_item_ok i _ Hv Hlv key n Hn) as (r & -> & Hr). eauto.
    + intros index. destruct (by_index_ok i _ Hv Hlv index) as (r & -> & Hr).
      exists r. split; [done|]. intros k j Hkj. destruct (Hr k j Hkj). eauto.
Qed.

Lemma item_of_inside src len i :
  0 < len <= Z.of_nat (List.length src) -> item_of src len i -> item_inside (buffer_start src len) i.
Proof.
  intros Hlen. induction 1 as [lite i Hi|i index j _ IH Hj|i key n j _ IH Hn Hj|i index k j _ IH Hj|i index k j _ IH Hj].
  - destruct (lite_cjson_parse_ok src len lite Hlen) as (rc & i' & Hp & H). rewrite Hi in Hp.
    injection Hp as <- <-. destruct H as [[_ H]|[? _]]; done.
  - destruct (lookups_inside src len i ltac:(lia) IH) as (H & _ & _). destruct (H index) as (r & Hr & Hin).
    rewrite Hj in Hr. injection Hr as <-. by apply Hin.
  - destruct (lookups_inside src len i ltac:(lia) IH) as (_ & H & _). destruct (H key n Hn) as (r & Hr & Hin).
    rewrite Hj in Hr. injection Hr as <-. by apply Hin.
  - destruct (lookups_inside src len i ltac:(lia) IH) as (_ & _ & H). destruct (H index) as (r & Hr & Hin).
    rewrite Hj in Hr. injection Hr as <-. exact (proj1 (Hin k j eq_refl)).
  - destruct (lookups_inside src len i ltac:(lia) IH) as (_ & _ & H). destruct (H index) as (r & Hr & Hin).
    rewrite Hj in Hr. injection Hr as <-. exact (proj2 (Hin k j eq_refl)).
Qed.

(** C19. Whatever the bytes are, parsing returns, reading only the [len] bytes of the text: with
    an item, or with -1 and the item cleared.  Every item that the application obtains from
    the text, by parsing it and by any number of lookups, is a value of the length it says
    inside the text, and every further lookup on it returns. *)
Theorem cjson_inside (src : list Z) (len : Z) (lite : lite_cjson_t) :
  0 < len <= Z.of_nat (List.length src) ->
  (exists rc i, lite_cjson_parse (Some src) len lite = Some (rc, i)
     /\ (rc = 0 \/ rc = -1 /\ it_type i = cJSON_Invalid /\ it_value i = None))
  /\ forall i, item_of src len i ->
       (exists k, it_value i = Some (drop (Z.to_nat k) src)
          /\ 0 <= k /\ 0 <= it_value_length i /\ k + it_value_length i <= len)
       /\ (forall index, is_Some (lite_cjson_array_item i index))
       /\ (forall key n, n <= Z.of_nat (List.length key) -> is_Some (_lite_cjson_object_item i key n))
       /\ (forall index, is_Some (lite_cjson_object_item_by_index i index)).
Proof.
  intros Hlen. split.
  - destruct (lite_cjson_parse_ok src len lite Hlen) as (rc & i & H & Hr). exists rc, i. split; [done|].
    destruct Hr as [[? _]|?]; auto.
  - intros i Hi. apply item_of_inside in Hi; [|done].
    destruct (lookups_inside src len i ltac:(lia) Hi) as (H1 & H2 & H3). split.
    { destruct Hi as (k & H4 & H5 & H6 & H7 & _). exists k. done. }
    split; [|split]; intros.
    + destruct (H1 index) as (r & -> & _). done.
    + destruct (H2 key n) as (r & -> & _); done.
    + destruct (H3 index) as (r & -> & _). done.
Qed.

Lemma cjson_inside_witness :
  let src := json_lit "{'a':[1,{'b':tru" in
  0 < 16 <= Z.of_nat (List.length src)
  /\ exists rc i, lite_cjson_parse (Some src) 16 item_zero = Some (rc, i)
     /\ (rc = 0 \/ rc = -1 /\ it_type i = cJSON_Invalid /\ it_value i = None).
Proof.
  intros src. assert (0 < 16 <= Z.of_nat (List.length src)) as H by (split; vm_compute; done).
  split; [exact H|]. exact (proj1 (cjson_inside src 16 item_zero H)).
Defined.

(** An array that the text opens and does not continue is parsed again from its own bracket,
    at the next level of nesting, until the limit of 1000 levels: one level less is not
    enough for a text of one character. *)
Example open_array_nests :
  parse_value 1000 item_zero (buffer_start (lit "[") 1) = None
  /\ lite_cjson_parse (Some (lit "[")) 1 item_zero = Some (-1, item_zero).
Proof. vm_compute. split; reflexivity. Qed.
