(* ===== verification/InfraCjsonSpec.v ===== *)
(** * InfraCjsonSpec: the JSON reader reads JSON

    Every text that renders a JSON value is parsed, and a lookup by a path of names and
    indices finds what the path leads to in the value. *)

From S2P Require Import Prelude.
From S2P Require Import CString.
From S2P Require Import Json.
From S2P Require Import InfraCjson.
From S2P Require Import InfraCjsonSafe.
From Stdlib Require Import Floats.SpecFloat.

(** ** Items that stand for a value *)

Definition json_type (j : json) : Z :=
  match j with
  | JNull => cJSON_NULL
  | JTrue => cJSON_True
  | JFalse => cJSON_False
  | JNumber _ => cJSON_Number
  | JString _ => cJSON_String
  | JArray _ => cJSON_Array
  | JObject _ => cJSON_Object
  end.

Definition json_size (j : json) (other : Z) : Z :=
  match j with
  | JArray l => Z.of_nat (List.length l)
  | JObject l => Z.of_nat (List.length l)
  | _ => other
  end.

(** A double cut down to an [int]. *)
Definition saturated_int (d : spec_float) : Z :=
  if SFleb (double_of_int INT_MAX) d then INT_MAX
  else if SFleb d (double_of_int INT_MIN) then INT_MIN
  else double_to_int d.

(** The item that parsing [t ++ r] gives, for a text [t] of the value; [other] is what the
    size of the item was before. *)
Definition item_is (j : json) (t r : list Z) (other : Z) (i : lite_cjson_t) : Prop :=
  it_type i = json_type j
  /\ it_value i = Some (value_text j t ++ value_rest j r)
  /\ it_value_length i = Z.of_nat (List.length (value_text j t))
  /\ it_size i = json_size j other
  /\ forall s, j = JNumber s ->
       it_value_double i = fst (strtod s) /\ it_value_int i = saturated_int (fst (strtod s)).

(** The reader copies at most 63 characters of a number. *)
Definition numbers_short : json -> Prop :=
  fun j => json_forall (fun t => bool_decide (List.length t <= 63)%nat) (fun _ => true) j = true.

(** ** Positions in a text *)

Definition at_text (b : parse_buffer) (rest : list Z) : Prop :=
  buf_ok b /\ drop (Z.to_nat (pb_offset b)) (pb_content b) = rest.

Lemma at_char b rest i : at_text b rest -> 0 <= i -> char_of b (pb_offset b + i) = rest !! Z.to_nat i.
Proof.
  intros [Hb <-] Hi. unfold char_of. rewrite lookup_drop. f_equal. destruct Hb. lia.
Qed.

Lemma at_first b c r : at_text b (c :: r) -> char_of b (pb_offset b) = Some c.
Proof. intros H. rewrite <-(Z.add_0_r (pb_offset b)). by rewrite (at_char _ _ _ H). Qed.

Lemma at_move b t r n :
  at_text b (t ++ r) -> n = Z.of_nat (List.length t) -> pb_offset b + n <= pb_length b ->
  at_text (setoff b (pb_offset b + n)) r.
Proof.
  intros [Hb Hd] -> Hl. split; [apply setoff_ok; [done|destruct Hb; lia]|]. cbn.
  rewrite Z2Nat.inj_add, Nat2Z.id by (destruct Hb; lia). rewrite <-drop_drop, Hd. apply drop_app_length.
Qed.

Lemma at_skip b w c r :
  at_text b (w ++ c :: r) -> ws w -> 32 < c -> pb_offset b + Z.of_nat (List.length w) < pb_length b ->
  buffer_skip_whitespace b = Some (setoff b (pb_offset b + Z.of_nat (List.length w))).
Proof.
  intros [Hb Hd] Hw Hc Hl. unfold buffer_skip_whitespace. rewrite buffer_at_ok by done.
  cbn [mbind option_bind]. rewrite Hd. clear Hd.
  assert (forall o, o + Z.of_nat (List.length w) < pb_length b ->
    skip_loop (w ++ c :: r) o (pb_length b) = Some (o + Z.of_nat (List.length w))) as Hs.
  { clear Hl. induction Hw as [|x w Hx Hw IH]; intros o Ho; cbn [app skip_loop].
    - cbn [List.length] in *. rewrite (proj2 (Z.ltb_lt o (pb_length b))) by lia.
      rewrite (proj2 (Z.leb_gt c 32)) by lia. f_equal. lia.
    - cbn [List.length] in *. rewrite (proj2 (Z.ltb_lt o (pb_length b))) by lia.
      rewrite (proj2 (Z.leb_le x 32)) by (unfold is_ws in Hx; lia). rewrite IH by lia. f_equal. lia. }
  rewrite Hs by done. cbn [mbind option_bind].
  rewrite (proj2 (Z.eqb_neq (pb_offset b + Z.of_nat (List.length w)) (pb_length b))) by lia. done.
Qed.

Lemma at_next b c r x :
  at_text b (c :: r) -> pb_offset b < pb_length b -> next_is b x = Some (c =? x).
Proof.
  intros H Hl. rewrite next_is_ok by apply H. f_equal. rewrite (at_first b c r H).
  apply eq_true_iff_eq. rewrite bool_decide_eq_true, Z.eqb_eq. split; [by intros [_ [= ->]]|by intros ->].
Qed.

(** ** Tokens *)

Lemma string_end_text s p r o len :
  string_body s -> p = s ++ 34 :: r -> o + Z.of_nat (List.length s) < len ->
  string_end p o len = Some (Some (o + Z.of_nat (List.length s))).
Proof.
  intros Hs. revert p o. induction Hs as [|c s Hc H1 H2 Hs IH|c s Hc Hs IH]; intros p o -> Hl;
    cbn [app string_end]; cbn [List.length] in *; rewrite (proj2 (Z.ltb_lt o len)) by lia.
  - cbn [Z.eqb Pos.eqb]. do 2 f_equal. lia.
  - rewrite (proj2 (Z.eqb_neq c 34)), (proj2 (Z.eqb_neq c 92)) by done.
    rewrite (IH (s ++ 34 :: r)) by (done || lia). do 2 f_equal. lia.
  - cbn [Z.eqb Pos.eqb]. rewrite (proj2 (Z.leb_gt len (o + 1))) by lia.
    rewrite (IH (s ++ 34 :: r)) by (done || lia). do 2 f_equal. lia.
Qed.

Lemma parse_string_text b s r item :
  string_body s -> at_text b (quoted s ++ r) ->
  pb_offset b + Z.of_nat (List.length (quoted s)) <= pb_length b ->
  exists i, parse_string item b = Some (0, i, setoff b (pb_offset b + Z.of_nat (List.length (quoted s))))
    /\ item_is (JString s) (quoted s) r (it_size item) i.
Proof.
  intros Hs Ht Hl. assert (buf_ok b) as Hb by apply Ht. unfold parse_string.
  rewrite buffer_char_ok by (done || lia). rewrite (at_char b _ 0 Ht) by lia. cbn [quoted app].
  change ((34 :: (s ++ [34]) ++ r) !! Z.to_nat 0) with (Some 34).
  cbn [mbind option_bind Z.eqb Pos.eqb negb]. unfold quoted in *. cbn [app List.length] in *. rewrite length_app in *.
  cbn [List.length] in *.
  rewrite content_at_ok by (done || (destruct Hb; lia)). cbn [mbind option_bind].
  assert (at_text (setoff b (pb_offset b + 1)) (s ++ 34 :: r)) as Ht1.
  { apply (at_move b [34]); [|done|lia]. cbn [app]. by rewrite <-app_assoc in Ht. }
  destruct Ht1 as [_ Hd]. cbn in Hd. rewrite Hd.
  rewrite (string_end_text s _ r (pb_offset b + 1) (pb_length b)) by (done || lia). cbn [mbind option_bind].
  rewrite setoff_eq.
  replace (pb_offset b + 1 + Z.of_nat (List.length s) + 1)
    with (pb_offset b + Z.of_nat (S (List.length s + 1))) by lia.
  eexists. split; [done|]. unfold item_is. cbn.
  repeat split; (lia || done).
Qed.

Lemma literal_first b c r s x s' :
  at_text b (c :: r) -> lit s = x :: s' -> c <> x -> literal_is b s = Some false.
Proof.
  intros [Hb Hd] Hs Hn. unfold literal_is. destruct (can_read _ _); [|done].
  rewrite buffer_at_ok by done. cbn [mbind option_bind]. rewrite Hd, Hs. cbn [strn_eq].
  by rewrite (proj2 (Z.eqb_neq c x)).
Qed.

Lemma literal_text b s r :
  at_text b (lit s ++ r) -> pb_offset b + Z.of_nat (List.length (lit s)) <= pb_length b ->
  literal_is b s = Some true.
Proof.
  intros [Hb Hd] Hl. unfold literal_is, can_read. rewrite (proj2 (Z.leb_le _ _)) by done.
  rewrite buffer_at_ok by done. cbn [mbind option_bind]. rewrite Hd. apply strn_eq_app.
Qed.

(** ** Numbers *)

Lemma span_digits_app d r :
  Forall (fun c => is_digit c = true) d ->
  match r with c :: _ => is_digit c = false | [] => True end ->
  span_digits (d ++ r) = (d, r).
Proof.
  intros Hd Hr. induction Hd as [|c d Hc Hd IH]; cbn [app span_digits].
  - destruct r as [|c r]; [done|]. cbn [span_digits]. by rewrite Hr.
  - by rewrite Hc, IH.
Qed.

Lemma span_sign_digit d r :
  digits d -> span_sign (d ++ r) = (false, d ++ r).
Proof.
  intros [Hn Hd]. destruct d as [|c d]; [done|]. apply Forall_cons in Hd as [Hc _].
  apply is_digit_spec in Hc. cbn [app]. unfold span_sign.
  destruct c as [|c|c]; try lia.
  do 6 (destruct c as [c|c|]; try lia; try done).
Qed.

Lemma exponent_head e : exponent e -> match e with c :: _ => is_digit c = false /\ c <> 46 | [] => True end.
Proof. destruct 1 as [|? ? ? [-> | ->]]; done. Qed.

(** The exponent part of [strtod]: all of it is taken. *)
Lemma strtod_exponent e :
  exponent e ->
  snd (match e with
       | c :: s' =>
           if (c =? 101) || (c =? 69) then
             let '(eneg, s'') := span_sign s' in
             let '(d, r) := span_digits s'' in
             match d with
             | [] => (0, e)
             | _ => (if eneg then - dec_value d else dec_value d, r)
             end
           else (0, e)
       | [] => (0, e)
       end) = [].
Proof.
  destruct 1 as [|c sg d Hc Hsg Hd]; [done|].
  assert ((c =? 101) || (c =? 69) = true) as -> by lia.
  assert (exists neg, span_sign (sg ++ d) = (neg, d)) as [neg ->].
  { destruct Hsg as [->|[->| ->]]; cbn [app].
    - exists false. rewrite <-(app_nil_r d) at 1. rewrite span_sign_digit by done. by rewrite app_nil_r.
    - by exists false. - by exists true. }
  rewrite <-(app_nil_r d) at 1. rewrite span_digits_app by (done || apply Hd).
  destruct d; [by destruct Hd|done].
Qed.

Lemma strtod_number t : number_text t -> snd (strtod t) = List.length t.
Proof.
  intros Ht. assert (exists neg s1 i f e, span_sign t = (neg, s1) /\ s1 = i ++ f ++ e
     /\ digits i /\ fraction f /\ exponent e /\ t <> []) as (neg & s1 & i & f & e & Hs & -> & Hi & Hf & He & Hne).
  { destruct Ht as [sg i f e Hsg Hi Hf He]. destruct Hsg as [->| ->]; cbn [app].
    - exists false, (i ++ f ++ e), i, f, e. rewrite span_sign_digit by done. destruct i; [by destruct Hi|done].
    - exists true, (i ++ f ++ e), i, f, e. done. }
  unfold strtod. rewrite Hs. pose proof (exponent_head e He) as Hh.
  rewrite span_digits_app; [|apply Hi|].
  2: { destruct Hf as [|d Hd]; cbn [app]; [|done]. destruct e; [done|by destruct Hh]. }
  pose proof (strtod_exponent e He) as Hx.
  assert (exists ff, (match f ++ e with 46 :: s' => span_digits s' | _ => ([], f ++ e) end) = (ff, e)) as [ff ->].
  { destruct Hf as [|d Hd]; cbn [app].
    - exists []. destruct e as [|c e]; [done|]. destruct Hh as [_ Hh].
      destruct c as [|c|c]; try done. do 6 (destruct c as [c|c|]; try done).
    - exists d. rewrite span_digits_app; [done|apply Hd|]. destruct e; [done|by destruct Hh]. }
  destruct i as [|c i]; [by destruct Hi|]. cbn [app].
  destruct (match e with [] => _ | _ => _ end) as [ex s4]. cbn [snd] in Hx |- *. subst s4. cbn. lia.
Qed.

Lemma number_chars t : number_text t -> Forall (fun c => is_number_char c = true) t.
Proof.
  intros Ht. eapply Forall_impl; [by apply number_text_chars|]. unfold number_char, is_number_char, is_digit.
  intros c Hc. lia.
Qed.

Lemma copy_number_text b rest t r n i :
  at_text b rest -> 0 <= i -> drop (Z.to_nat i) rest = t ++ r ->
  Forall (fun c => is_number_char c = true) t -> (List.length t <= n)%nat ->
  pb_offset b + i + Z.of_nat (List.length t) <= pb_length b ->
  List.length t = n \/ pb_offset b + i + Z.of_nat (List.length t) = pb_length b
    \/ (exists c r', r = c :: r' /\ is_number_char c = false) ->
  copy_number n b i = Some t.
Proof.
  intros Hb. assert (buf_ok b) as Hok by apply Hb.
  revert n i. induction t as [|c t IH]; intros n i Hi Hd Ht Hn Hl Hend.
  - destruct n as [|n]; [done|]. cbn [copy_number]. cbn [List.length app] in *.
    destruct (can_access_at_index b i) eqn:Hc; [|done]. unfold can_access_at_index in Hc.
    destruct Hend as [|[|(c & r' & -> & Hcn)]]; [lia|lia|].
    rewrite buffer_char_ok, (at_char b rest) by done.
    rewrite <-(Nat.add_0_r (Z.to_nat i)), <-lookup_drop, Hd. cbn [lookup list_lookup mbind option_bind].
    by rewrite Hcn.
  - destruct n as [|n]; [cbn [List.length] in Hn; lia|]. cbn [copy_number]. cbn [List.length app] in *.
    unfold can_access_at_index. rewrite (proj2 (Z.ltb_lt _ _)) by lia.
    rewrite buffer_char_ok, (at_char b rest) by done.
    rewrite <-(Nat.add_0_r (Z.to_nat i)), <-lookup_drop, Hd. cbn [lookup list_lookup mbind option_bind].
    apply Forall_cons in Ht as [Hc Ht]. rewrite Hc. rewrite (IH n (i + 1)); [done|lia| |done|lia|lia|].
    + replace (Z.to_nat (i + 1)) with (Z.to_nat i + 1)%nat by lia. rewrite <-drop_drop, Hd. done.
    + destruct Hend as [|[|Hend]]; [left; lia|right; left; lia|by right; right].
Qed.

(** What follows a value does not continue a number. *)
Definition value_end (b : parse_buffer) (t r : list Z) : Prop :=
  pb_offset b + Z.of_nat (List.length t) = pb_length b
  \/ exists c r', r = c :: r' /\ is_number_char c = false.

Lemma parse_number_text b t r item :
  number_text t -> (List.length t <= 63)%nat -> at_text b (t ++ r) ->
  pb_offset b + Z.of_nat (List.length t) <= pb_length b -> value_end b t r ->
  exists i, parse_number item b = Some (0, i, setoff b (pb_offset b + Z.of_nat (List.length t)))
    /\ item_is (JNumber t) t r (it_size item) i.
Proof.
  intros Ht Hlen Hb Hl Hend. unfold parse_number.
  rewrite (copy_number_text b (t ++ r) t r 63 0); try done.
  2: { by apply number_chars. } 2: { lia. }
  2: { right. destruct Hend; [left; lia|by right]. }
  cbn [mbind option_bind]. pose proof (strtod_number t Ht) as Hs. pose proof (surjective_pairing (strtod t)) as Hp.
  rewrite Hs in Hp. rewrite Hp. destruct t as [|c t]; [by destruct (number_first _ Ht) as (? & ? & ? & _)|].
  cbn [List.length Nat.eqb]. rewrite buffer_at_ok by apply Hb. cbn [mbind option_bind].
  destruct Hb as [Hb Hd]. rewrite Hd. rewrite moveoff_eq. eexists. split; [done|].
  unfold item_is. cbn [value_text value_rest json_type json_size].
  split; [done|]. split; [done|]. split; [done|]. split; [done|].
  intros s [= <-]. split; [done|]. reflexivity.
Qed.

(** ** Values *)

Lemma at_skip_text b w t r :
  at_text b (w ++ t ++ r) -> ws w -> (exists c t', t = c :: t' /\ (32 < c /\ c <> 93)) ->
  pb_offset b + Z.of_nat (List.length w) < pb_length b ->
  buffer_skip_whitespace b = Some (setoff b (pb_offset b + Z.of_nat (List.length w))).
Proof. intros Ht Hw (c & t' & -> & Hc & _) Hl. by apply (at_skip b w c (t' ++ r)). Qed.

Lemma ws_value_end b t w c r :
  ws w -> is_number_char c = false -> value_end b t (w ++ c :: r).
Proof.
  intros Hw Hc. right. destruct (ws_cases w Hw) as [->|(x & w' & -> & Hx & _)]; cbn [app]; [eauto|].
  eexists _, _. split; [done|]. unfold is_ws in Hx. by destruct Hx as [->|[->|[->| ->]]].
Qed.

(** [parse_value] on a text of the value, at any place and depth where there is room. *)
Definition value_parsed (j : json) (t : list Z) : Prop :=
  forall fuel b item r,
    at_text b (t ++ r) -> pb_offset b + Z.of_nat (List.length t) <= pb_length b ->
    numbers_short j -> pb_depth b + json_depth j <= LITE_CJSON_NESTING_LIMIT ->
    LITE_CJSON_NESTING_LIMIT < Z.of_nat fuel + pb_depth b -> value_end b t r ->
    exists i, parse_value fuel item b = Some (0, i, setoff b (pb_offset b + Z.of_nat (List.length t)))
      /\ item_is j t r (it_size item) i.

Lemma at_text_app b w t r :
  at_text b (w ++ t ++ r) -> pb_offset b + Z.of_nat (List.length w) <= pb_length b ->
  at_text (setoff b (pb_offset b + Z.of_nat (List.length w))) (t ++ r).
Proof. intros Ht Hl. by apply (at_move b w). Qed.

(** Arithmetic on offsets. *)
Ltac room := cbn [setoff pb_offset pb_length pb_depth]; lia.

Lemma array_element_text fuel b w1 j t w2 c r :
  value_parsed j t -> renders j t -> ws w1 -> ws w2 -> 32 < c -> is_number_char c = false ->
  at_text (setoff b (pb_offset b + 1)) ((w1 ++ t ++ w2) ++ c :: r) ->
  pb_offset b + 1 + Z.of_nat (List.length (w1 ++ t ++ w2)) < pb_length b ->
  numbers_short j -> pb_depth b + json_depth j <= LITE_CJSON_NESTING_LIMIT ->
  LITE_CJSON_NESTING_LIMIT < Z.of_nat fuel + pb_depth b ->
  exists i, array_element (parse_value fuel) b
      = Some (0, i, setoff b (pb_offset b + 1 + Z.of_nat (List.length (w1 ++ t ++ w2))))
    /\ item_is j t (w2 ++ c :: r) 0 i.
Proof.
  intros Hv Hj Hw1 Hw2 Hc Hcn Ht Hl Hs Hd Hf. rewrite <-!app_assoc in Ht. rewrite !length_app in *.
  unfold array_element. rewrite moveoff_eq.
  rewrite (at_skip_text _ w1 t (w2 ++ c :: r)); [|done|done|by apply (renders_first j)|room].
  cbn [mbind option_bind]. rewrite setoff_setoff. cbn [setoff pb_offset].
  apply at_text_app in Ht; [|room]. rewrite setoff_setoff in Ht. cbn [setoff pb_offset] in Ht.
  destruct (Hv fuel _ item_zero _ Ht) as (i & -> & Hi); [room|done|done|done|by apply ws_value_end|].
  cbn [mbind option_bind Z.eqb negb]. apply at_text_app in Ht; [|room].
  rewrite setoff_setoff in Ht |- *. cbn [setoff pb_offset] in Ht |- *.
  rewrite (at_skip _ w2 c r) by (done || (room)). cbn [mbind option_bind].
  rewrite setoff_setoff. cbn [setoff pb_offset]. exists i. split; [|exact Hi]. do 3 f_equal. lia.
Qed.

Lemma object_member_text fuel b w1 k w2 w3 j t w4 c r :
  value_parsed j t -> renders j t -> string_body k -> ws w1 -> ws w2 -> ws w3 -> ws w4 ->
  32 < c -> is_number_char c = false ->
  let m := w1 ++ quoted k ++ w2 ++ 58 :: w3 ++ t ++ w4 in
  at_text (setoff b (pb_offset b + 1)) (m ++ c :: r) ->
  pb_offset b + 1 + Z.of_nat (List.length m) < pb_length b ->
  numbers_short j -> pb_depth b + json_depth j <= LITE_CJSON_NESTING_LIMIT ->
  LITE_CJSON_NESTING_LIMIT < Z.of_nat fuel + pb_depth b ->
  exists kk i, object_member (parse_value fuel) b
      = Some (0, kk, i, setoff b (pb_offset b + 1 + Z.of_nat (List.length m)))
    /\ item_is (JString k) (quoted k) (w2 ++ 58 :: w3 ++ t ++ w4 ++ c :: r) 0 kk
    /\ item_is j t (w4 ++ c :: r) 0 i.
Proof.
  intros Hv Hj Hk Hw1 Hw2 Hw3 Hw4 Hc Hcn m Ht Hl Hs Hd Hf. subst m.
  rewrite <-!app_assoc in Ht. cbn [app] in Ht. rewrite <-!app_assoc in Ht.
  rewrite !length_app in *. cbn [List.length] in *. rewrite !length_app in *.
  unfold object_member. rewrite moveoff_eq.
  rewrite (at_skip_text _ w1 (quoted k) (w2 ++ 58 :: w3 ++ t ++ w4 ++ c :: r));
    [|done|done|by eexists _, _|room].
  cbn [mbind option_bind]. rewrite setoff_setoff. cbn [setoff pb_offset].
  apply at_text_app in Ht; [|room]. rewrite setoff_setoff in Ht. cbn [setoff pb_offset] in Ht.
  destruct (parse_string_text _ k _ item_zero Hk Ht) as (kk & -> & Hkk); [room|].
  cbn [mbind option_bind Z.eqb negb]. apply at_text_app in Ht; [|room].
  rewrite setoff_setoff in Ht |- *. cbn [setoff pb_offset] in Ht |- *.
  rewrite (at_skip _ w2 58 (w3 ++ t ++ w4 ++ c :: r)) by (done || (room)). cbn [mbind option_bind].
  rewrite setoff_setoff. cbn [setoff pb_offset].
  apply (at_text_app _ w2 (58 :: _)) in Ht; [|room]. rewrite setoff_setoff in Ht. cbn [setoff pb_offset] in Ht.
  rewrite (at_next _ 58 (w3 ++ t ++ w4 ++ c :: r)) by (done || (room)).
  cbn [mbind option_bind Z.eqb Pos.eqb negb]. rewrite moveoff_eq, setoff_setoff. cbn [setoff pb_offset].
  apply (at_move _ [58] _ 1) in Ht; [|done|room]. rewrite setoff_setoff in Ht. cbn [setoff pb_offset] in Ht.
  rewrite (at_skip_text _ w3 t (w4 ++ c :: r)); [|done|done|by apply (renders_first j)|room].
  cbn [mbind option_bind]. rewrite setoff_setoff. cbn [setoff pb_offset].
  apply at_text_app in Ht; [|room]. rewrite setoff_setoff in Ht. cbn [setoff pb_offset] in Ht.
  destruct (Hv fuel _ item_zero _ Ht) as (i & -> & Hi); [room|done|done|done|by apply ws_value_end|].
  cbn [mbind option_bind Z.eqb negb]. apply at_text_app in Ht; [|room].
  rewrite setoff_setoff in Ht |- *. cbn [setoff pb_offset] in Ht |- *.
  rewrite (at_skip _ w4 c r) by (done || (room)). cbn [mbind option_bind].
  rewrite setoff_setoff. cbn [setoff pb_offset]. exists kk, i. split; [|split; [exact Hkk|exact Hi]].
  do 3 f_equal. lia.
Qed.

(** ** Arrays and objects *)

Lemma short_array_cons j l : numbers_short (JArray (j :: l)) <-> numbers_short j /\ numbers_short (JArray l).
Proof. unfold numbers_short. cbn [json_forall forallb]. apply andb_true_iff. Qed.

Lemma short_object_cons k j l :
  numbers_short (JObject ((k, j) :: l)) <-> numbers_short j /\ numbers_short (JObject l).
Proof. unfold numbers_short. cbn [json_forall forallb fst snd]. rewrite andb_true_l. apply andb_true_iff. Qed.

Lemma depth_array_cons j l : json_depth (JArray (j :: l)) = Z.max (1 + json_depth j) (json_depth (JArray l)).
Proof. cbn [json_depth map foldr]. lia. Qed.

Lemma depth_object_cons k j l :
  json_depth (JObject ((k, j) :: l)) = Z.max (1 + json_depth j) (json_depth (JObject l)).
Proof. cbn [json_depth map foldr snd]. lia. Qed.

Definition elems_parsed (l : list json) (t : list Z) : Prop :=
  forall fuel n size b r,
    at_text (setoff b (pb_offset b + 1)) (t ++ 93 :: r) ->
    pb_offset b + 1 + Z.of_nat (List.length t) < pb_length b ->
    numbers_short (JArray l) -> pb_depth b + json_depth (JArray l) <= LITE_CJSON_NESTING_LIMIT + 1 ->
    LITE_CJSON_NESTING_LIMIT < Z.of_nat fuel + pb_depth b -> (List.length l <= n)%nat ->
    array_loop (parse_value fuel) n size b
    = Some (0, size + Z.of_nat (List.length l), setoff b (pb_offset b + 1 + Z.of_nat (List.length t))).

Definition members_parsed (l : list (list Z * json)) (t : list Z) : Prop :=
  forall fuel n size b r,
    at_text (setoff b (pb_offset b + 1)) (t ++ 125 :: r) ->
    pb_offset b + 1 + Z.of_nat (List.length t) < pb_length b ->
    numbers_short (JObject l) -> pb_depth b + json_depth (JObject l) <= LITE_CJSON_NESTING_LIMIT + 1 ->
    LITE_CJSON_NESTING_LIMIT < Z.of_nat fuel + pb_depth b -> (List.length l <= n)%nat ->
    object_loop (parse_value fuel) n size b
    = Some (0, size + Z.of_nat (List.length l), setoff b (pb_offset b + 1 + Z.of_nat (List.length t))).

(** Past the element, on the separator: what [next_is] sees and where the next one starts. *)
Lemma after_element b m c r :
  at_text (setoff b (pb_offset b + 1)) (m ++ c :: r) ->
  pb_offset b + 1 + Z.of_nat (List.length m) < pb_length b ->
  let b' := setoff b (pb_offset b + 1 + Z.of_nat (List.length m)) in
  at_text b' (c :: r) /\ (forall x, next_is b' x = Some (c =? x))
  /\ at_text (setoff b' (pb_offset b' + 1)) r.
Proof.
  intros Ht Hl b'. assert (at_text b' (c :: r)) as Hb'.
  { apply (at_move _ m (c :: r) _ Ht eq_refl). room. }
  split; [done|]. split.
  - intros x. by apply (at_next _ c r).
  - apply (at_move _ [c] r 1 Hb'); [done|]. subst b'. room.
Qed.

Lemma elems_one_parsed j t w1 w2 :
  renders j t -> value_parsed j t -> ws w1 -> ws w2 -> elems_parsed [j] (w1 ++ t ++ w2).
Proof.
  intros Hj Hv Hw1 Hw2 fuel n size b r Ht Hl Hs Hd Hf Hn.
  destruct n as [|n]; [cbn in Hn; lia|]. cbn [array_loop].
  rewrite short_array_cons in Hs. destruct Hs as [Hs _]. rewrite depth_array_cons in Hd.
  destruct (array_element_text fuel b w1 j t w2 93 r) as (i & -> & _); try done; [lia|].
  cbn [mbind option_bind Z.eqb negb]. destruct (after_element _ _ _ _ Ht Hl) as (_ & Hx & _).
  rewrite Hx. done.
Qed.

Lemma elems_cons_parsed j t w1 w2 l t' :
  renders j t -> value_parsed j t -> ws w1 -> ws w2 -> elems_parsed l t' ->
  elems_parsed (j :: l) (w1 ++ t ++ w2 ++ 44 :: t').
Proof.
  intros Hj Hv Hw1 Hw2 IH fuel n size b r Ht Hl Hs Hd Hf Hn.
  destruct n as [|n]; [cbn in Hn; lia|]. cbn [array_loop].
  rewrite short_array_cons in Hs. destruct Hs as [Hs Hs']. rewrite depth_array_cons in Hd.
  replace (w1 ++ t ++ w2 ++ 44 :: t') with ((w1 ++ t ++ w2) ++ 44 :: t') in * by (by rewrite <-!app_assoc).
  rewrite length_app in *. cbn [List.length] in *. rewrite <-app_assoc in Ht. cbn [app] in Ht.
  destruct (array_element_text fuel b w1 j t w2 44 (t' ++ 93 :: r)) as (i & -> & _); try done; [lia|lia|].
  cbn [mbind option_bind Z.eqb negb]. destruct (after_element _ _ _ _ Ht) as (_ & Hx & Hb'); [lia|].
  rewrite Hx. cbn [mbind option_bind Z.eqb Pos.eqb].
  rewrite (IH fuel n (size + 1) _ r Hb'); [|room|done|room|room|lia].
  rewrite setoff_setoff. cbn [setoff pb_offset]. do 3 f_equal; lia.
Qed.

Lemma members_one_parsed k j t w1 w2 w3 w4 :
  string_body k -> renders j t -> value_parsed j t -> ws w1 -> ws w2 -> ws w3 -> ws w4 ->
  members_parsed [(k, j)] (w1 ++ quoted k ++ w2 ++ 58 :: w3 ++ t ++ w4).
Proof.
  intros Hk Hj Hv Hw1 Hw2 Hw3 Hw4 fuel n size b r Ht Hl Hs Hd Hf Hn.
  destruct n as [|n]; [cbn in Hn; lia|]. cbn [object_loop].
  rewrite short_object_cons in Hs. destruct Hs as [Hs _]. rewrite depth_object_cons in Hd.
  destruct (object_member_text fuel b w1 k w2 w3 j t w4 125 r) as (kk & i & -> & _); try done; [lia|].
  cbn [mbind option_bind Z.eqb negb]. destruct (after_element _ _ _ _ Ht Hl) as (_ & Hx & _).
  rewrite Hx. done.
Qed.

Lemma members_cons_parsed k j t w1 w2 w3 w4 l t' :
  string_body k -> renders j t -> value_parsed j t -> ws w1 -> ws w2 -> ws w3 -> ws w4 ->
  members_parsed l t' ->
  members_parsed ((k, j) :: l) (w1 ++ quoted k ++ w2 ++ 58 :: w3 ++ t ++ w4 ++ 44 :: t').
Proof.
  intros Hk Hj Hv Hw1 Hw2 Hw3 Hw4 IH fuel n size b r Ht Hl Hs Hd Hf Hn.
  destruct n as [|n]; [cbn in Hn; lia|]. cbn [object_loop].
  rewrite short_object_cons in Hs. destruct Hs as [Hs Hs']. rewrite depth_object_cons in Hd.
  set (m := w1 ++ quoted k ++ w2 ++ 58 :: w3 ++ t ++ w4).
  replace (w1 ++ quoted k ++ w2 ++ 58 :: w3 ++ t ++ w4 ++ 44 :: t') with (m ++ 44 :: t') in *
    by (subst m; rewrite <-!app_assoc; cbn [app]; by rewrite <-!app_assoc).
  rewrite length_app in *. cbn [List.length] in *. rewrite <-app_assoc in Ht. cbn [app] in Ht.
  destruct (object_member_text fuel b w1 k w2 w3 j t w4 44 (t' ++ 125 :: r)) as (kk & i & -> & _); try done.
  { fold m. lia. } { lia. }
  fold m. cbn [mbind option_bind Z.eqb negb]. destruct (after_element _ _ _ _ Ht) as (_ & Hx & Hb'); [lia|].
  rewrite Hx. cbn [mbind option_bind Z.eqb Pos.eqb].
  rewrite (IH fuel n (size + 1) _ r Hb'); [|room|done|room|room|lia].
  rewrite setoff_setoff. cbn [setoff pb_offset]. do 3 f_equal; lia.
Qed.

(** The white space in front is gone when the loop starts. *)
Definition trimmed (Q : list Z -> Prop) (t : list Z) : Prop := forall w u, t = w ++ u -> ws w -> Q u.

Lemma trim_split w1 c x w u :
  w1 ++ c :: x = w ++ u -> ws w1 -> ws w -> 32 < c ->
  exists w', w1 = w ++ w' /\ ws w' /\ u = w' ++ c :: x.
Proof.
  intros H Hw1 Hw Hc. revert w1 H Hw1. induction Hw as [|y w Hy Hw IH]; intros w1 H Hw1; cbn [app] in H.
  - by exists w1.
  - destruct w1 as [|y' w1]; cbn [app] in H.
    + injection H as -> _. unfold is_ws in Hy. lia.
    + injection H as -> H. apply Forall_cons in Hw1 as [_ Hw1].
      destruct (IH w1 H Hw1) as (w' & -> & Hw' & ->). by exists w'.
Qed.

Lemma trimmed_intro (Q : list Z -> Prop) w1 t1 x :
  (exists c t', t1 = c :: t' /\ (32 < c /\ c <> 93)) -> ws w1 ->
  (forall w', ws w' -> Q (w' ++ t1 ++ x)) -> trimmed Q (w1 ++ t1 ++ x).
Proof.
  intros (c & t' & -> & Hc & _) Hw1 HQ w u H Hw. cbn [app] in H.
  destruct (trim_split _ _ _ _ _ H Hw1 Hw Hc) as (w' & -> & Hw' & ->). by apply HQ.
Qed.

Lemma quoted_first k : exists c t', quoted k = c :: t' /\ (32 < c /\ c <> 93).
Proof. by eexists _, _. Qed.

Lemma elems_start l t :
  renders_elems l t -> exists w c u, t = w ++ c :: u /\ ws w /\ 32 < c /\ c <> 93.
Proof.
  destruct 1 as [j t w1 w2 Hj Hw1 _|j t w1 w2 l t' Hj Hw1 _ _];
    destruct (renders_first j t Hj) as (c & u & -> & Hc); cbn [app]; eauto 10.
Qed.

Lemma members_start l t :
  renders_members l t -> exists w u, t = w ++ 34 :: u /\ ws w.
Proof. destruct 1; unfold quoted; cbn [app]; eauto. Qed.

(** How [parse_value] gets to the kind of a value that starts with a bracket or brace. *)
Lemma parse_value_bracket fuel b item c r :
  at_text b (c :: r) -> pb_offset b < pb_length b -> c = 91 \/ c = 123 ->
  parse_value (S fuel) item b
  = (if c =? 91 then parse_array (parse_value fuel) item b else parse_object (parse_value fuel) item b).
Proof.
  intros Hb Hl Hc. cbn [parse_value].
  rewrite (literal_first b c r "null" 110 _ Hb eq_refl) by lia. cbn [mbind option_bind].
  rewrite (literal_first b c r "false" 102 _ Hb eq_refl) by lia. cbn [mbind option_bind].
  rewrite (literal_first b c r "true" 116 _ Hb eq_refl) by lia. cbn [mbind option_bind].
  unfold can_access_at_index. rewrite Z.add_0_r, (proj2 (Z.ltb_lt _ _)) by done. cbn [negb].
  rewrite buffer_char_ok by (lia || apply Hb). rewrite (at_char b _ 0 Hb) by done.
  change ((c :: r) !! Z.to_nat 0) with (Some c). cbn [mbind option_bind].
  by destruct Hc as [-> | ->].
Qed.

Lemma parse_success_text type b0 b item t r :
  at_text b0 (t ++ r) -> pb_offset b0 + Z.of_nat (List.length t) <= pb_length b0 -> t <> [] ->
  b = {| pb_content := pb_content b0; pb_length := pb_length b0;
         pb_offset := pb_offset b0 + Z.of_nat (List.length t) - 1; pb_depth := pb_depth b0 + 1 |} ->
  exists i, parse_success type (pb_offset b0) item b
      = Some (0, i, setoff b0 (pb_offset b0 + Z.of_nat (List.length t)))
    /\ i = {| it_type := type; it_value := Some (t ++ r);
              it_value_length := Z.of_nat (List.length t); it_size := it_size item;
              it_value_double := it_value_double item; it_value_int := it_value_int item |}.
Proof.
  intros [Hb Hd] Hl Hne ->. unfold parse_success.
  destruct b0 as [content len off depth]. cbn [pb_content pb_length pb_offset pb_depth] in *.
  set (b1 := _ <| pb_depth ::= _ |>).
  assert (b1 = {| pb_content := content; pb_length := len; pb_offset := off + Z.of_nat (List.length t) - 1;
                  pb_depth := depth |}) as ->.
  { subst b1. unfold upd. cbn. f_equal. lia. }
  rewrite content_at_ok.
  2: { unfold buf_ok in *. cbn in *. destruct t; [done|]. cbn [List.length] in *. lia. }
  2: { unfold buf_ok in Hb. cbn in *. lia. }
  cbn [mbind option_bind pb_content pb_offset]. rewrite Hd. eexists. split.
  - rewrite moveoff_eq. unfold setoff. cbn [pb_content pb_length pb_offset pb_depth]. do 3 f_equal. lia.
  - destruct item. unfold upd. cbn. f_equal. lia.
Qed.

(** The buffer one level further in. *)
Definition deeper (b : parse_buffer) : parse_buffer :=
  {| pb_content := pb_content b; pb_length := pb_length b; pb_offset := pb_offset b;
     pb_depth := pb_depth b + 1 |}.

Lemma deeper_text b t : at_text b t -> at_text (deeper b) t.
Proof. done. Qed.

Lemma array_nil_parsed w : ws w -> value_parsed (JArray []) (91 :: w ++ [93]).
Proof.
  intros Hw fuel b item r Hb Hl _ Hd Hf _. destruct fuel as [|fuel]; [cbn in *; lia|].
  pose proof Hl as Hl'. cbn [app List.length] in Hl. rewrite length_app in Hl. cbn [List.length] in Hl.
  pose proof Hb as Hb'. cbn [app] in Hb.
  rewrite (parse_value_bracket fuel b item 91 _ Hb) by (lia || by left). cbn [Z.eqb Pos.eqb].
  unfold parse_array. cbn [json_depth map foldr] in Hd.
  rewrite (proj2 (Z.leb_gt _ (pb_depth b))) by (unfold LITE_CJSON_NESTING_LIMIT in *; lia).
  change (b <| pb_depth ::= fun d => d + 1 |>) with (deeper b).
  apply deeper_text in Hb. rewrite buffer_char_ok by (lia || apply Hb). rewrite (at_char _ _ 0 Hb) by done.
  change ((91 :: (w ++ [93]) ++ r) !! Z.to_nat 0) with (Some 91). cbn [mbind option_bind Z.eqb Pos.eqb negb].
  rewrite moveoff_eq. apply (at_move _ [91] _ 1) in Hb; [|done|cbn [deeper pb_offset pb_length]; lia].
  rewrite <-app_assoc in Hb. cbn [app] in Hb.
  rewrite (at_skip _ w 93 r Hb) by (done || (cbn; lia)). cbn [mbind option_bind].
  apply (fun H => at_move _ w _ _ H eq_refl) in Hb; [|cbn; lia]. rewrite (at_next _ 93 r _ Hb) by (cbn; lia).
  cbn [mbind option_bind Z.eqb Pos.eqb]. change (pb_offset b) with (pb_offset b).
  destruct (parse_success_text cJSON_Array b
    (setoff (setoff (deeper b) (pb_offset (deeper b) + 1))
       (pb_offset (setoff (deeper b) (pb_offset (deeper b) + 1)) + Z.of_nat (List.length w)))
    (item <| it_size := 0 |>) _ r Hb' Hl') as (i & Hi & ->); [done| |].
  { unfold setoff, deeper. cbn [pb_content pb_length pb_offset pb_depth List.length app].
    rewrite length_app. cbn [List.length]. f_equal. lia. }
  rewrite Hi. eexists. split; [done|]. unfold item_is. cbn [value_text value_rest json_type json_size].
  repeat split; done.
Qed.

Lemma object_nil_parsed w : ws w -> value_parsed (JObject []) (123 :: w ++ [125]).
Proof.
  intros Hw fuel b item r Hb Hl _ Hd Hf _. destruct fuel as [|fuel]; [cbn in *; lia|].
  pose proof Hl as Hl'. cbn [app List.length] in Hl. rewrite length_app in Hl. cbn [List.length] in Hl.
  pose proof Hb as Hb'. cbn [app] in Hb.
  rewrite (parse_value_bracket fuel b item 123 _ Hb) by (lia || by right). cbn [Z.eqb Pos.eqb].
  unfold parse_object. cbn [json_depth map foldr] in Hd.
  rewrite (proj2 (Z.leb_gt _ (pb_depth b))) by (unfold LITE_CJSON_NESTING_LIMIT in *; lia).
  change (b <| pb_depth ::= fun d => d + 1 |>) with (deeper b).
  apply deeper_text in Hb. rewrite (at_next _ 123 _ _ Hb) by (cbn; lia).
  cbn [mbind option_bind Z.eqb Pos.eqb negb].
  rewrite moveoff_eq. apply (at_move _ [123] _ 1) in Hb; [|done|cbn [deeper pb_offset pb_length]; lia].
  rewrite <-app_assoc in Hb. cbn [app] in Hb.
  rewrite (at_skip _ w 125 r Hb) by (done || (cbn; lia)). cbn [mbind option_bind].
  apply (fun H => at_move _ w _ _ H eq_refl) in Hb; [|cbn; lia]. rewrite (at_next _ 125 r _ Hb) by (cbn; lia).
  cbn [mbind option_bind Z.eqb Pos.eqb].
  destruct (parse_success_text cJSON_Object b
    (setoff (setoff (deeper b) (pb_offset (deeper b) + 1))
       (pb_offset (setoff (deeper b) (pb_offset (deeper b) + 1)) + Z.of_nat (List.length w)))
    (item <| it_size := 0 |>) _ r Hb' Hl') as (i & Hi & ->); [done| |].
  { unfold setoff, deeper. cbn [pb_content pb_length pb_offset pb_depth List.length app].
    rewrite length_app. cbn [List.length]. f_equal. lia. }
  rewrite Hi. eexists. split; [done|]. unfold item_is. cbn [value_text value_rest json_type json_size].
  repeat split; done.
Qed.

Lemma array_parsed l t :
  renders_elems l t -> trimmed (elems_parsed l) t -> value_parsed (JArray l) (91 :: t ++ [93]).
Proof.
  intros He Htr fuel b item r Hb Hl Hs Hd Hf _.
  pose proof (elems_length l t He) as Hlen.
  destruct (elems_start l t He) as (w & c & u & -> & Hw & Hc & Hc93).
  specialize (Htr w (c :: u) eq_refl Hw).
  destruct fuel as [|fuel]; [pose proof (json_depth_nonneg (JArray l)); lia|].
  pose proof Hl as Hl'. cbn [app List.length] in Hl. rewrite !length_app in Hl. cbn [List.length] in Hl.
  pose proof Hb as Hb'. cbn [app] in Hb.
  rewrite (parse_value_bracket fuel b item 91 _ Hb) by (lia || by left). cbn [Z.eqb Pos.eqb].
  unfold parse_array.
  assert (1 <= json_depth (JArray l)) as Hd1.
  { destruct l as [|j l]; [cbn; lia|]. rewrite depth_array_cons. pose proof (json_depth_nonneg j). lia. }
  rewrite (proj2 (Z.leb_gt _ (pb_depth b))) by lia.
  change (b <| pb_depth ::= fun d => d + 1 |>) with (deeper b).
  apply deeper_text in Hb. rewrite buffer_char_ok by (lia || apply Hb). rewrite (at_char _ _ 0 Hb) by done.
  match goal with |- context [(91 :: ?x) !! Z.to_nat 0] => change ((91 :: x) !! Z.to_nat 0) with (Some 91) end.
  cbn [mbind option_bind Z.eqb Pos.eqb negb].
  rewrite moveoff_eq. apply (at_move _ [91] _ 1) in Hb; [|done|cbn [deeper pb_offset pb_length]; lia].
  rewrite <-!app_assoc in Hb. cbn [app] in Hb.
  rewrite (at_skip _ w c _ Hb) by (done || (cbn; lia)). cbn [mbind option_bind].
  assert (Hb2 := at_move _ w _ _ Hb eq_refl ltac:(cbn; lia)).
  rewrite (at_next _ c _ _ Hb2) by (cbn; lia).
  cbn [mbind option_bind]. rewrite (proj2 (Z.eqb_neq c 93)) by done.
  unfold cannot_access_at_index, can_access_at_index. cbn [setoff deeper pb_offset pb_length].
  rewrite Z.add_0_r, (proj2 (Z.ltb_lt _ (pb_length b))) by lia. cbn [negb]. rewrite moveoff_eq.
  rewrite !setoff_setoff. cbn [setoff pb_offset deeper].
  cbn [deeper setoff pb_offset] in Hb2. rewrite setoff_setoff in Hb2. rewrite length_app in Hlen.
  rewrite (Htr fuel _ 0 (setoff (deeper b) (pb_offset b + 1 + Z.of_nat (List.length w) - 1)) r);
    try (cbn [setoff deeper pb_offset pb_length pb_depth List.length]; lia); [| |done|].
  2: { rewrite setoff_setoff. cbn [setoff pb_offset].
       replace (pb_offset b + 1 + Z.of_nat (List.length w) - 1 + 1)
         with (pb_offset b + 1 + Z.of_nat (List.length w)) by lia. exact Hb2. }
  2: { unfold loop_fuel. cbn [setoff deeper pb_length]. cbn [List.length] in Hlen.
       destruct Hb' as [[? _] _]. lia. }
  cbn [mbind option_bind Z.eqb negb].
  assert (Hb3 := at_move _ (c :: u) _ _ Hb2 eq_refl ltac:(cbn [setoff deeper pb_offset pb_length List.length]; lia)).
  cbn [setoff deeper pb_offset] in Hb3. rewrite setoff_setoff in Hb3 |- *. cbn [setoff deeper pb_offset].
  replace (pb_offset b + 1 + Z.of_nat (List.length w) - 1 + 1)
    with (pb_offset b + 1 + Z.of_nat (List.length w)) by lia.
  rewrite (at_next _ 93 r _ Hb3) by (cbn [setoff deeper pb_offset pb_length List.length]; lia).
  cbn [mbind option_bind Z.eqb Pos.eqb negb].
  destruct (parse_success_text cJSON_Array b
    (setoff (deeper b) (pb_offset b + 1 + Z.of_nat (List.length w) + Z.of_nat (List.length (c :: u))))
    (item <| it_size := 0 |> <| it_size := 0 + Z.of_nat (List.length l) |>) _ r Hb' Hl') as (i & Hi & ->); [done| |].
  { unfold setoff, deeper. cbn [pb_content pb_length pb_offset pb_depth List.length app].
    rewrite !length_app. cbn [List.length]. f_equal. lia. }
  rewrite Hi. eexists. split; [done|]. unfold item_is. cbn [value_text value_rest json_type json_size].
  repeat split; done.
Qed.

Lemma object_parsed l t :
  renders_members l t -> trimmed (members_parsed l) t -> value_parsed (JObject l) (123 :: t ++ [125]).
Proof.
  intros He Htr fuel b item r Hb Hl Hs Hd Hf _.
  pose proof (members_length l t He) as Hlen.
  destruct (members_start l t He) as (w & u & -> & Hw).
  set (c := 34) in *. assert (32 < c) as Hc by done. assert (c <> 125) as Hc125 by done.
  specialize (Htr w (c :: u) eq_refl Hw).
  destruct fuel as [|fuel]; [pose proof (json_depth_nonneg (JObject l)); lia|].
  pose proof Hl as Hl'. cbn [app List.length] in Hl. rewrite !length_app in Hl. cbn [List.length] in Hl.
  pose proof Hb as Hb'. cbn [app] in Hb.
  rewrite (parse_value_bracket fuel b item 123 _ Hb) by (lia || by right). cbn [Z.eqb Pos.eqb].
  unfold parse_object.
  assert (1 <= json_depth (JObject l)) as Hd1.
  { destruct l as [|[k j] l]; [cbn; lia|]. rewrite depth_object_cons. pose proof (json_depth_nonneg j). lia. }
  rewrite (proj2 (Z.leb_gt _ (pb_depth b))) by lia.
  change (b <| pb_depth ::= fun d => d + 1 |>) with (deeper b).
  apply deeper_text in Hb. rewrite (at_next _ 123 _ _ Hb) by (cbn; lia).
  cbn [mbind option_bind Z.eqb Pos.eqb negb].
  rewrite moveoff_eq. apply (at_move _ [123] _ 1) in Hb; [|done|cbn [deeper pb_offset pb_length]; lia].
  rewrite <-!app_assoc in Hb. cbn [app] in Hb.
  rewrite (at_skip _ w c _ Hb) by (done || (cbn; lia)). cbn [mbind option_bind].
  assert (Hb2 := at_move _ w _ _ Hb eq_refl ltac:(cbn; lia)).
  rewrite (at_next _ c _ _ Hb2) by (cbn; lia).
  cbn [mbind option_bind]. rewrite (proj2 (Z.eqb_neq c 125)) by done.
  unfold cannot_access_at_index, can_access_at_index. cbn [setoff deeper pb_offset pb_length].
  rewrite Z.add_0_r, (proj2 (Z.ltb_lt _ (pb_length b))) by lia. cbn [negb]. rewrite moveoff_eq.
  rewrite !setoff_setoff. cbn [setoff pb_offset deeper].
  cbn [deeper setoff pb_offset] in Hb2. rewrite setoff_setoff in Hb2. rewrite length_app in Hlen.
  rewrite (Htr fuel _ 0 (setoff (deeper b) (pb_offset b + 1 + Z.of_nat (List.length w) - 1)) r);
    try (cbn [setoff deeper pb_offset pb_length pb_depth List.length]; lia); [| |done|].
  2: { rewrite setoff_setoff. cbn [setoff pb_offset].
       replace (pb_offset b + 1 + Z.of_nat (List.length w) - 1 + 1)
         with (pb_offset b + 1 + Z.of_nat (List.length w)) by lia. exact Hb2. }
  2: { unfold loop_fuel. cbn [setoff deeper pb_length]. cbn [List.length] in Hlen.
       destruct Hb' as [[? _] _]. lia. }
  cbn [mbind option_bind Z.eqb negb].
  assert (Hb3 := at_move _ (c :: u) _ _ Hb2 eq_refl ltac:(cbn [setoff deeper pb_offset pb_length List.length]; lia)).
  cbn [setoff deeper pb_offset] in Hb3. rewrite setoff_setoff in Hb3 |- *. cbn [setoff deeper pb_offset].
  replace (pb_offset b + 1 + Z.of_nat (List.length w) - 1 + 1)
    with (pb_offset b + 1 + Z.of_nat (List.length w)) by lia.
  rewrite (at_next _ 125 r _ Hb3) by (cbn [setoff deeper pb_offset pb_length List.length]; lia).
  cbn [mbind option_bind Z.eqb Pos.eqb negb].
  destruct (parse_success_text cJSON_Object b
    (setoff (deeper b) (pb_offset b + 1 + Z.of_nat (List.length w) + Z.of_nat (List.length (c :: u))))
    (item <| it_size := 0 |> <| it_size := 0 + Z.of_nat (List.length l) |>) _ r Hb' Hl') as (i & Hi & ->); [done| |].
  { unfold setoff, deeper. cbn [pb_content pb_length pb_offset pb_depth List.length app].
    rewrite !length_app. cbn [List.length]. f_equal. lia. }
  rewrite Hi. eexists. split; [done|]. unfold item_is. cbn [value_text value_rest json_type json_size].
  repeat split; done.
Qed.

Lemma literal_parsed j s type :
  j = JNull /\ s = "null"%string /\ type = cJSON_NULL
    \/ j = JTrue /\ s = "true"%string /\ type = cJSON_True
    \/ j = JFalse /\ s = "false"%string /\ type = cJSON_False ->
  value_parsed j (lit s).
Proof.
  intros H fuel b item r Hb Hl _ Hd Hf _.
  destruct fuel as [|fuel]; [pose proof (json_depth_nonneg j); lia|]. cbn [parse_value].
  assert (forall type n, n = Z.of_nat (List.length (lit s)) -> type = json_type j -> value_text j (lit s) = lit s ->
    value_rest j r = r -> (forall o, json_size j o = o) -> (forall t, j <> JNumber t) ->
    exists i, parse_literal type n item b = Some (0, i, setoff b (pb_offset b + Z.of_nat (List.length (lit s))))
      /\ item_is j (lit s) r (it_size item) i) as Hlit.
  { intros ty n -> -> Ht Hr Hz Hn. unfold parse_literal. destruct Hb as [Hb Hd']. rewrite buffer_at_ok by done.
    cbn [mbind option_bind]. rewrite Hd', moveoff_eq. eexists. split; [done|]. unfold item_is.
    rewrite Ht, Hr, Hz. unfold upd. cbn [it_type it_value it_value_length it_size].
    repeat split; try done; intros; exfalso; by eapply Hn. }
  destruct H as [(-> & -> & ->)|[(-> & -> & ->)|(-> & -> & ->)]].
  - rewrite (literal_text b "null" r) by done. by apply Hlit.
  - rewrite (literal_first b 116 _ "null" 110 _ Hb eq_refl) by lia. cbn [mbind option_bind].
    rewrite (literal_first b 116 _ "false" 102 _ Hb eq_refl) by lia. cbn [mbind option_bind].
    rewrite (literal_text b "true" r) by done. by apply Hlit.
  - rewrite (literal_first b 102 _ "null" 110 _ Hb eq_refl) by lia. cbn [mbind option_bind].
    rewrite (literal_text b "false" r) by done. by apply Hlit.
Qed.

(** Past the three literals: a text whose first character starts none of them. *)
Lemma parse_value_other fuel b item c r :
  at_text b (c :: r) -> pb_offset b < pb_length b -> c = 34 \/ c = 45 \/ 48 <= c <= 57 ->
  parse_value (S fuel) item b = (if c =? 34 then parse_string item b else parse_number item b).
Proof.
  intros Hb Hl Hc. cbn [parse_value].
  rewrite (literal_first b c r "null" 110 _ Hb eq_refl) by lia. cbn [mbind option_bind].
  rewrite (literal_first b c r "false" 102 _ Hb eq_refl) by lia. cbn [mbind option_bind].
  rewrite (literal_first b c r "true" 116 _ Hb eq_refl) by lia. cbn [mbind option_bind].
  unfold can_access_at_index. rewrite Z.add_0_r, (proj2 (Z.ltb_lt _ _)) by done. cbn [negb].
  rewrite buffer_char_ok by (lia || apply Hb). rewrite (at_char b _ 0 Hb) by done.
  change ((c :: r) !! Z.to_nat 0) with (Some c). cbn [mbind option_bind].
  destruct (Z.eqb_spec c 34); [done|].
  assert ((c =? 45) || ((48 <=? c) && (c <=? 57)) = true) as -> by lia. done.
Qed.

Lemma string_value_parsed s : string_body s -> value_parsed (JString s) (quoted s).
Proof.
  intros Hs fuel b item r Hb Hl _ Hd Hf _. destruct fuel as [|fuel]; [cbn in *; lia|].
  rewrite (parse_value_other fuel b item 34 _ Hb) by (first [by left|unfold quoted in Hl; cbn [List.length] in Hl; lia]).
  cbn [Z.eqb Pos.eqb]. by apply parse_string_text.
Qed.

Lemma number_value_parsed t : number_text t -> value_parsed (JNumber t) t.
Proof.
  intros Ht fuel b item r Hb Hl Hs Hd Hf Hend. destruct fuel as [|fuel]; [cbn in *; lia|].
  unfold numbers_short in Hs. cbn [json_forall] in Hs. apply bool_decide_eq_true in Hs.
  destruct (number_first t Ht) as (c & t' & E & Hc).
  rewrite (parse_value_other fuel b item c (t' ++ r)); [|by rewrite E in Hb| |lia].
  2: { rewrite E in Hl. cbn [List.length] in Hl. lia. }
  rewrite (proj2 (Z.eqb_neq c 34)) by lia. by apply parse_number_text.
Qed.

(** Every text of a value is parsed, wherever it stands. *)
Lemma all_parsed :
  (forall j t, renders j t -> value_parsed j t)
  /\ (forall l t, renders_elems l t -> trimmed (elems_parsed l) t)
  /\ (forall l t, renders_members l t -> trimmed (members_parsed l) t).
Proof.
  apply renders_mutind.
  - apply (literal_parsed JNull "null" cJSON_NULL). by left.
  - apply (literal_parsed JTrue "true" cJSON_True). by right; left.
  - apply (literal_parsed JFalse "false" cJSON_False). by right; right.
  - apply number_value_parsed.
  - apply string_value_parsed.
  - apply array_nil_parsed.
  - apply array_parsed.
  - apply object_nil_parsed.
  - apply object_parsed.
  - intros j t w1 w2 Hj Hv Hw1 Hw2.
    apply trimmed_intro; [by apply (renders_first j)|done|]. intros. by apply elems_one_parsed.
  - intros j t w1 w2 l t' Hj Hv Hw1 Hw2 He IH.
    apply trimmed_intro; [by apply (renders_first j)|done|]. intros. apply elems_cons_parsed; try done.
    exact (IH [] t' eq_refl (List.Forall_nil _)).
  - intros k j t w1 w2 w3 w4 Hk Hj Hv Hw1 Hw2 Hw3 Hw4.
    apply trimmed_intro; [apply quoted_first|done|]. intros. by apply members_one_parsed.
  - intros k j t w1 w2 w3 w4 l t' Hk Hj Hv Hw1 Hw2 Hw3 Hw4 He IH.
    apply trimmed_intro; [apply quoted_first|done|]. intros. apply members_cons_parsed; try done.
    exact (IH [] t' eq_refl (List.Forall_nil _)).
Qed.

Lemma renders_parsed j t : renders j t -> value_parsed j t.
Proof. apply all_parsed. Qed.

(** ** Lookups *)

(** The item stands for the value. *)
Definition describes (j : json) (i : lite_cjson_t) : Prop :=
  exists t r other, renders j t /\ numbers_short j /\ json_depth j <= LITE_CJSON_NESTING_LIMIT
    /\ item_is j t r other i.

(** The result of a lookup that leads to [o]. *)
Definition finds (o : option json) (res : option (option lite_cjson_t)) : Prop :=
  match o with
  | Some j => exists i, res = Some (Some i) /\ describes j i
  | None => res = Some None
  end.

(** What the loops of the lookups need of their buffer. *)
Definition at_elements (b : parse_buffer) (t : list Z) (c : Z) (r : list Z) : Prop :=
  at_text (setoff b (pb_offset b + 1)) (t ++ c :: r)
  /\ pb_offset b + 1 + Z.of_nat (List.length t) < pb_length b /\ pb_depth b = 0.

Definition elems_found (l : list json) (t : list Z) : Prop :=
  forall n k index b r,
    at_elements b t 93 r -> numbers_short (JArray l) ->
    json_depth (JArray l) <= LITE_CJSON_NESTING_LIMIT -> (List.length l <= n)%nat -> k <= index ->
    finds (l !! Z.to_nat (index - k)) (array_item_loop n k index b).

Definition members_found (l : list (list Z * json)) (t : list Z) : Prop :=
  forall n k rest b r,
    at_elements b t 125 r -> numbers_short (JObject l) ->
    json_depth (JObject l) <= LITE_CJSON_NESTING_LIMIT -> (List.length l <= n)%nat ->
    finds (member k l) (object_item_loop n (k ++ rest) (Z.of_nat (List.length k)) b).

Lemma member_test k' t r i k rest :
  item_is (JString k') t r 0 i ->
  (if it_value_length i =? Z.of_nat (List.length k)
   then v ← it_value i; mem_eq v (k ++ rest) (Z.of_nat (List.length k)) else Some false)
  = Some (bool_decide (k = k')).
Proof.
  intros (_ & -> & -> & _). cbn [value_text value_rest].
  destruct (Z.eqb_spec (Z.of_nat (List.length k')) (Z.of_nat (List.length k))) as [Hl|Hl].
  - cbn [mbind option_bind]. unfold mem_eq. rewrite !length_app.
    rewrite (proj2 (Z.ltb_ge (Z.of_nat (List.length k)) 0)) by lia.
    rewrite (proj2 (Z.ltb_ge _ (Z.of_nat (List.length k)))) by lia.
    rewrite (proj2 (Z.ltb_ge _ (Z.of_nat (List.length k)))) by lia. cbn [orb]. f_equal.
    rewrite Nat2Z.id, take_app_length.
    replace (List.length k) with (List.length k') by lia. rewrite take_app_length.
    apply bool_decide_ext. split; by intros ->.
  - f_equal. symmetry. apply bool_decide_eq_false_2. intros ->. lia.
Qed.

Lemma fuel_top b : pb_depth b = 0 -> LITE_CJSON_NESTING_LIMIT < Z.of_nat nesting_fuel + pb_depth b.
Proof. intros ->. pose proof nesting_fuel_enough. lia. Qed.

Lemma elems_one_found j t w1 w2 :
  renders j t -> ws w1 -> ws w2 -> elems_found [j] (w1 ++ t ++ w2).
Proof.
  intros Hj Hw1 Hw2 n k index b r (Ht & Hl & Hd0) Hs Hd Hn Hk.
  destruct n as [|n]; [cbn in Hn; lia|]. cbn [array_item_loop].
  rewrite short_array_cons in Hs. destruct Hs as [Hs _]. rewrite depth_array_cons in Hd.
  pose proof (fuel_top b Hd0) as Hfuel. revert Hfuel. generalize nesting_fuel. intros fuel Hfuel.
  destruct (array_element_text fuel b w1 j t w2 93 r) as (i & -> & Hi); try done;
    [by apply renders_parsed|lia|].
  cbn [mbind option_bind Z.eqb negb]. destruct (Z.eqb_spec k index) as [->|Hne].
  - rewrite Z.sub_diag. cbn. exists i. split; [done|]. do 3 eexists. split; [done|]. split; [done|].
    split; [lia|done].
  - destruct (after_element _ _ _ _ Ht Hl) as (_ & Hx & _). rewrite Hx. cbn [mbind option_bind Z.eqb Pos.eqb].
    rewrite lookup_ge_None_2; [done|]. cbn [List.length]. lia.
Qed.

Lemma elems_cons_found j t w1 w2 l t' :
  renders j t -> ws w1 -> ws w2 -> elems_found l t' ->
  elems_found (j :: l) (w1 ++ t ++ w2 ++ 44 :: t').
Proof.
  intros Hj Hw1 Hw2 IH n k index b r (Ht & Hl & Hd0) Hs Hd Hn Hk.
  destruct n as [|n]; [cbn in Hn; lia|]. cbn [array_item_loop].
  rewrite short_array_cons in Hs. destruct Hs as [Hs Hs']. rewrite depth_array_cons in Hd.
  replace (w1 ++ t ++ w2 ++ 44 :: t') with ((w1 ++ t ++ w2) ++ 44 :: t') in * by (by rewrite <-!app_assoc).
  rewrite length_app in *. cbn [List.length] in *. rewrite <-app_assoc in Ht. cbn [app] in Ht.
  assert (exists i, array_element (parse_value nesting_fuel) b
    = Some (0, i, setoff b (pb_offset b + 1 + Z.of_nat (List.length (w1 ++ t ++ w2))))
    /\ item_is j t (w2 ++ 44 :: t' ++ 93 :: r) 0 i) as (i & -> & Hi).
  { pose proof (fuel_top b Hd0) as Hfuel. revert Hfuel. generalize nesting_fuel. intros fuel Hfuel.
    apply array_element_text; try done; [by apply renders_parsed|lia|lia]. }
  cbn [mbind option_bind Z.eqb negb]. destruct (Z.eqb_spec k index) as [->|Hne].
  - rewrite Z.sub_diag. cbn. exists i. split; [done|]. do 3 eexists. split; [done|]. split; [done|].
    split; [lia|done].
  - destruct (after_element _ _ _ _ Ht) as (_ & Hx & Hb'); [lia|]. rewrite Hx.
    cbn [mbind option_bind Z.eqb Pos.eqb].
    replace (Z.to_nat (index - k)) with (S (Z.to_nat (index - (k + 1)))) by lia. cbn [lookup list_lookup].
    apply (IH n (k + 1) index _ r); [|done|lia|lia|lia]. split; [exact Hb'|]. split; [room|done].
Qed.

Lemma members_one_found k j t w1 w2 w3 w4 :
  string_body k -> renders j t -> ws w1 -> ws w2 -> ws w3 -> ws w4 ->
  members_found [(k, j)] (w1 ++ quoted k ++ w2 ++ 58 :: w3 ++ t ++ w4).
Proof.
  intros Hk Hj Hw1 Hw2 Hw3 Hw4 n key rest b r (Ht & Hl & Hd0) Hs Hd Hn.
  destruct n as [|n]; [cbn in Hn; lia|]. cbn [object_item_loop].
  rewrite short_object_cons in Hs. destruct Hs as [Hs _]. rewrite depth_object_cons in Hd.
  pose proof (fuel_top b Hd0) as Hfuel. revert Hfuel. generalize nesting_fuel. intros fuel Hfuel.
  destruct (object_member_text fuel b w1 k w2 w3 j t w4 125 r) as (kk & i & -> & Hkk & Hi); try done;
    [by apply renders_parsed|lia|].
  cbn [mbind option_bind Z.eqb negb]. rewrite (member_test k _ _ _ key rest Hkk). cbn [mbind option_bind member].
  case_bool_decide as Hkey.
  - rewrite decide_True by done. exists i. split; [done|]. do 3 eexists. split; [done|]. split; [done|].
    split; [lia|done].
  - rewrite decide_False by done. destruct (after_element _ _ _ _ Ht Hl) as (_ & Hx & _). by rewrite Hx.
Qed.

Lemma members_cons_found k j t w1 w2 w3 w4 l t' :
  string_body k -> renders j t -> ws w1 -> ws w2 -> ws w3 -> ws w4 -> members_found l t' ->
  members_found ((k, j) :: l) (w1 ++ quoted k ++ w2 ++ 58 :: w3 ++ t ++ w4 ++ 44 :: t').
Proof.
  intros Hk Hj Hw1 Hw2 Hw3 Hw4 IH n key rest b r (Ht & Hl & Hd0) Hs Hd Hn.
  destruct n as [|n]; [cbn in Hn; lia|]. cbn [object_item_loop].
  rewrite short_object_cons in Hs. destruct Hs as [Hs Hs']. rewrite depth_object_cons in Hd.
  set (m := w1 ++ quoted k ++ w2 ++ 58 :: w3 ++ t ++ w4).
  replace (w1 ++ quoted k ++ w2 ++ 58 :: w3 ++ t ++ w4 ++ 44 :: t') with (m ++ 44 :: t') in *
    by (subst m; rewrite <-!app_assoc; cbn [app]; by rewrite <-!app_assoc).
  rewrite length_app in *. cbn [List.length] in *. rewrite <-app_assoc in Ht. cbn [app] in Ht.
  assert (exists kk i, object_member (parse_value nesting_fuel) b
    = Some (0, kk, i, setoff b (pb_offset b + 1 + Z.of_nat (List.length m)))
    /\ item_is (JString k) (quoted k) (w2 ++ 58 :: w3 ++ t ++ w4 ++ 44 :: t' ++ 125 :: r) 0 kk
    /\ item_is j t (w4 ++ 44 :: t' ++ 125 :: r) 0 i) as (kk & i & -> & Hkk & Hi).
  { pose proof (fuel_top b Hd0) as Hfuel. revert Hfuel. generalize nesting_fuel. intros fuel Hfuel.
    apply object_member_text; try done; [by apply renders_parsed|fold m; lia|lia]. }
  cbn [mbind option_bind Z.eqb negb]. rewrite (member_test k _ _ _ key rest Hkk). cbn [mbind option_bind member].
  case_bool_decide as Hkey.
  - rewrite decide_True by done. exists i. split; [done|]. do 3 eexists. split; [done|]. split; [done|].
    split; [lia|done].
  - rewrite decide_False by done. destruct (after_element _ _ _ _ Ht) as (_ & Hx & Hb'); [lia|]. rewrite Hx.
    cbn [mbind option_bind Z.eqb Pos.eqb].
    apply (IH n key rest _ r); [|done|lia|lia]. split; [exact Hb'|]. split; [room|done].
Qed.

Lemma elems_all_found l t : renders_elems l t -> trimmed (elems_found l) t.
Proof.
  induction 1 as [j t w1 w2 Hj Hw1 Hw2|j t w1 w2 l t' Hj Hw1 Hw2 He IH];
    (apply trimmed_intro; [by apply (renders_first j)|done|]; intros).
  - by apply elems_one_found.
  - apply elems_cons_found; try done. exact (IH [] t' eq_refl (List.Forall_nil _)).
Qed.

Lemma members_all_found l t : renders_members l t -> trimmed (members_found l) t.
Proof.
  induction 1 as [k j t w1 w2 w3 w4 Hk Hj Hw1 Hw2 Hw3 Hw4|k j t w1 w2 w3 w4 l t' Hk Hj Hw1 Hw2 Hw3 Hw4 He IH];
    (apply trimmed_intro; [apply quoted_first|done|]; intros).
  - by apply members_one_found.
  - apply members_cons_found; try done. exact (IH [] t' eq_refl (List.Forall_nil _)).
Qed.

Lemma lookup_start_text i w c u r o cl :
  let t := o :: (w ++ c :: u) ++ [cl] in
  it_value_length i = Z.of_nat (List.length t) -> ws w -> 32 < c -> c <> cl ->
  exists b, lookup_start o cl (item_buffer (t ++ r) i) = Some (Some b)
    /\ at_elements b (c :: u) cl r /\ pb_length b = Z.of_nat (List.length t).
Proof.
  intros t Hlen Hw Hc Hcl. unfold lookup_start. set (b := item_buffer (t ++ r) i).
  assert (pb_length b = Z.of_nat (List.length t)) as Hl by done.
  assert (at_text b (t ++ r)) as Hb.
  { split; [|done]. subst t. unfold buf_ok, b, item_buffer, buffer_start. cbn [pb_offset pb_length pb_content].
    rewrite Hlen, length_app. cbn [List.length]. lia. }
  subst t. cbn [app List.length] in *. rewrite !length_app in *. cbn [List.length] in *.
  rewrite (at_next b o _ o Hb) by (cbn [b item_buffer buffer_start pb_offset]; lia).
  rewrite Z.eqb_refl. cbn [mbind option_bind negb]. rewrite moveoff_eq.
  apply (at_move _ [o] _ 1) in Hb; [|done|cbn [b item_buffer buffer_start pb_offset]; lia].
  rewrite <-!app_assoc in Hb. cbn [app] in Hb.
  rewrite (at_skip _ w c _ Hb) by (done || (cbn [b item_buffer buffer_start setoff pb_offset pb_length] in *; lia)).
  cbn [mbind option_bind].
  apply (fun H => at_move _ w _ _ H eq_refl) in Hb;
    [|cbn [b item_buffer buffer_start setoff pb_offset pb_length] in *; lia].
  rewrite (at_next _ c _ cl Hb) by (cbn [b item_buffer buffer_start setoff pb_offset pb_length] in *; lia).
  cbn [mbind option_bind]. rewrite (proj2 (Z.eqb_neq c cl)) by done.
  unfold cannot_access_at_index, can_access_at_index. rewrite Z.add_0_r.
  rewrite (proj2 (Z.ltb_lt _ _)) by (cbn [b item_buffer buffer_start setoff pb_offset pb_length] in *; lia).
  cbn [negb]. rewrite moveoff_eq, !setoff_setoff. eexists. split; [done|].
  split; [|cbn [setoff pb_length]; lia]. unfold at_elements. rewrite !setoff_setoff in *. cbn [setoff pb_offset pb_length pb_depth] in *.
  split; [|split; [|done]].
  - replace (pb_offset b + 1 + Z.of_nat (List.length w) - 1 + 1)
      with (pb_offset b + 1 + Z.of_nat (List.length w)) by lia. exact Hb.
  - cbn [b item_buffer buffer_start pb_offset pb_length List.length] in *. lia.
Qed.

Lemma describes_fields j i :
  describes j i ->
  it_type i = json_type j /\ (exists v, it_value i = Some v)
  /\ match j with JArray _ | JObject _ => it_size i = json_size j 0 | _ => True end.
Proof.
  intros (t & r & other & _ & _ & _ & H1 & H2 & _ & H3 & _). split; [done|]. split; [eauto|]. by destruct j.
Qed.

Lemma array_item_finds l i index :
  describes (JArray l) i -> 0 <= index ->
  finds (l !! Z.to_nat index) (lite_cjson_array_item i index).
Proof.
  intros Hi Hix. destruct Hi as (t & r & other & Ht & Hs & Hd & Hty & Hv & Hlen & Hsz & _).
  cbn [value_text value_rest json_type json_size] in *. unfold lite_cjson_array_item. rewrite Hv, Hty, Hsz.
  cbn [Z.eqb Pos.eqb cJSON_Array negb orb]. rewrite (proj2 (Z.ltb_ge index 0)) by lia. cbn [orb].
  destruct (Z.leb_spec (Z.of_nat (List.length l)) index) as [Hge|Hlt].
  { rewrite lookup_ge_None_2 by lia. done. }
  inversion Ht as [| | | | |w Hw|l' m Hm| |]; subst; [cbn in Hlt; lia|].
  pose proof (elems_length _ _ Hm) as Hll. pose proof (elems_all_found _ _ Hm) as Hf.
  destruct (elems_start _ _ Hm) as (w & c & u & -> & Hw & Hc & Hc93).
  destruct (lookup_start_text i w c u r 91 93 Hlen Hw Hc Hc93) as (b & Hst & Hb & Hbl).
  assert (buffer_char (item_buffer ((91 :: (w ++ c :: u) ++ [93]) ++ r) i) 0 = Some 91) as ->.
  { unfold buffer_char, buffer_at_offset, content_at, item_buffer, buffer_start. cbn [pb_offset pb_content].
    rewrite (proj2 (Z.leb_le 0 0)), (proj2 (Z.leb_le 0 (Z.of_nat _))) by lia. done. }
  cbn [mbind option_bind Z.eqb Pos.eqb negb]. rewrite Hst. cbn [mbind option_bind].
  replace (Z.to_nat index) with (Z.to_nat (index - 0)) by lia.
  apply (Hf w (c :: u) eq_refl Hw _ 0 index b r Hb Hs Hd); [|lia].
  unfold loop_fuel. rewrite Hbl, Nat2Z.id. rewrite !length_app in *. cbn [List.length] in *. rewrite !length_app. cbn [List.length]. lia.
Qed.

Definition object_member_of (j : json) (k : list Z) : option json :=
  match j with JObject l => member k l | _ => None end.

Lemma object_item_finds j i k rest :
  describes j i -> k <> [] ->
  finds (object_member_of j k) (_lite_cjson_object_item i (k ++ rest) (Z.of_nat (List.length k))).
Proof.
  intros Hi Hk. destruct Hi as (t & r & other & Ht & Hs & Hd & Hty & Hv & Hlen & Hsz & _).
  unfold _lite_cjson_object_item. rewrite Hv, Hty.
  destruct j as [| | | | |l|l]; try done.
  cbn [value_text value_rest json_type json_size object_member_of] in *. rewrite Hsz.
  cbn [Z.eqb Pos.eqb cJSON_Object negb orb].
  destruct (decide (l = [])) as [->|Hl]; [done|].
  rewrite (proj2 (Z.eqb_neq (Z.of_nat (List.length l)) 0)) by (destruct l; [done|cbn [List.length]; lia]).
  rewrite (proj2 (Z.leb_gt (Z.of_nat (List.length k)) 0)) by (destruct k; [done|cbn [List.length]; lia]).
  cbn [orb].
  inversion Ht as [| | | | | | |w Hw|l' m Hm]; subst; [done|].
  pose proof (members_length _ _ Hm) as Hll. pose proof (members_all_found _ _ Hm) as Hf.
  destruct (members_start _ _ Hm) as (w & u & -> & Hw).
  destruct (lookup_start_text i w 34 u r 123 125 Hlen Hw ltac:(lia) ltac:(lia)) as (b & -> & Hb & Hbl).
  cbn [mbind option_bind].
  apply (Hf w (34 :: u) eq_refl Hw _ k rest b r Hb Hs Hd).
  unfold loop_fuel. rewrite Hbl, Nat2Z.id. rewrite !length_app in *. cbn [List.length] in *. rewrite !length_app. cbn [List.length]. lia.
Qed.

(** ** Paths *)

(** A step of a path: a name, and the decimal digits of an index if there is one. *)
Definition step : Type := list Z * option (list Z).

Definition step_text (s : step) : list Z :=
  match snd s with None => fst s | Some d => fst s ++ 91 :: d ++ [93] end.

Fixpoint path_text (p : list step) : list Z :=
  match p with
  | [] => []
  | [s] => step_text s
  | s :: p' => step_text s ++ 46 :: path_text p'
  end.

Definition name_char (c : Z) : Prop := 0 < c < 256 /\ c <> 46 /\ c <> 91 /\ c <> 93.

Definition step_ok (s : step) : Prop :=
  fst s <> [] /\ Forall name_char (fst s)
  /\ match snd s with
     | None => True
     | Some d => digits d /\ (List.length d <= 10)%nat /\ dec_value d <= INT_MAX
     end.

(** Where a step leads in a value, and where a path leads. *)
Definition json_step (j : json) (s : step) : option json :=
  m ← object_member_of j (fst s);
  match snd s with
  | None => Some m
  | Some d => match m with JArray l => l !! Z.to_nat (dec_value d) | _ => None end
  end.

Fixpoint json_path (j : json) (p : list step) : option json :=
  match p with
  | [] => Some j
  | s :: p' => m ← json_step j s; json_path m p'
  end.

Lemma atoi_digits_app d acc c r :
  Forall (fun c => is_digit c = true) d -> is_digit c = false ->
  atoi_digits (d ++ c :: r) acc = Some (fold_left (fun a c => a * 10 + (c - 48)) d acc).
Proof.
  intros Hd Hc. revert acc. induction Hd as [|x d Hx Hd IH]; intros acc; cbn [app atoi_digits fold_left].
  - unfold is_digit in Hc. by rewrite Hc.
  - unfold is_digit in Hx. by rewrite Hx.
Qed.

Lemma dec_fold_nonneg d a :
  Forall (fun c => is_digit c = true) d -> 0 <= a ->
  0 <= fold_left (fun a c => a * 10 + (c - 48)) d a.
Proof.
  intros Hd. revert a. induction Hd as [|c d Hc _ IH]; intros a Ha; cbn [fold_left]; [done|].
  apply IH. apply is_digit_spec in Hc. lia.
Qed.

Lemma dec_value_nonneg d : Forall (fun c => is_digit c = true) d -> 0 <= dec_value d.
Proof. intros. by apply dec_fold_nonneg. Qed.

Lemma not_sign {A} c (X Y W : A) :
  48 <= c <= 57 -> match c with 45 => X | 43 => Y | _ => W end = W.
Proof. intros Hc. destruct c as [|c|c]; try lia. do 6 (destruct c as [c|c|]; try lia; try done). Qed.

Lemma atoi_strbuf d :
  digits d -> (List.length d <= 10)%nat -> dec_value d <= INT_MAX -> atoi (strbuf 11 d) = Some (dec_value d).
Proof.
  intros [Hne Hd] Hl Hv. pose proof (dec_value_nonneg d Hd) as H0. unfold INT_MAX in Hv.
  assert (strbuf 11 d = d ++ 0 :: zeros (10 - List.length d)) as ->.
  { unfold strbuf, zeros. by replace (11 - List.length d)%nat with (S (10 - List.length d)) by lia. }
  unfold atoi. destruct d as [|c d]; [done|]. cbn [app atoi_space].
  pose proof (proj1 (is_digit_spec c) (proj1 (proj1 (Forall_cons _ _ _) Hd))) as Hc.
  assert ((c =? 32) || ((9 <=? c) && (c <=? 13)) = false) as -> by lia. cbn [mbind option_bind].
  rewrite (not_sign c) by done. change (c :: d ++ 0 :: zeros (10 - List.length (c :: d)))
    with ((c :: d) ++ 0 :: zeros (10 - List.length (c :: d))).
  rewrite atoi_digits_app by done. cbn [mbind option_bind].
  change (fold_left (fun a c0 => a * 10 + (c0 - 48)) (c :: d) 0) with (dec_value (c :: d)).
  assert ((-2147483648 <=? dec_value (c :: d)) && (dec_value (c :: d) <? 2147483648) = true) as -> by lia.
  done.
Qed.

(** Characters that are no brackets. *)
Lemma bracket_loop_plain s n key index deep pre suf :
  Forall (fun c => c <> 91 /\ c <> 93) s -> (exists r, drop index key = s ++ r) ->
  bracket_loop (List.length s + n) key index deep pre suf
  = bracket_loop n key (index + List.length s) deep pre suf.
Proof.
  intros Hs. revert index. induction Hs as [|c s [H1 H2] Hs IH]; intros index [r Hr].
  - by rewrite Nat.add_0_r.
  - cbn [List.length Nat.add bracket_loop]. destruct (drop_cons_lookup _ _ _ _ Hr) as [-> Hr'].
    cbn [mbind option_bind]. rewrite (proj2 (Z.eqb_neq c 91)), (proj2 (Z.eqb_neq c 93)) by done.
    rewrite IH by eauto. f_equal. lia.
Qed.

Lemma key_plain s r :
  Forall (fun c => c <> 91 /\ c <> 93) s ->
  _lite_cjson_key_array_index (s ++ r) (Z.of_nat (List.length s)) = Some None.
Proof.
  intros Hs. unfold _lite_cjson_key_array_index. rewrite Nat2Z.id.
  replace (List.length s) with (List.length s + 0)%nat by lia.
  rewrite bracket_loop_plain by (done || (exists r; done)). done.
Qed.

Lemma last_digit d : digits d -> exists c, last d = Some c /\ c <> 91.
Proof.
  intros [Hne Hd]. destruct (last d) as [c|] eqn:E; [|by apply last_None in E].
  exists c. split; [done|]. intros ->.
  apply last_Some_elem_of in E. apply (proj1 (Forall_forall _ _) Hd) in E. done.
Qed.

Lemma key_indexed k d r :
  Forall (fun c => c <> 91 /\ c <> 93) k -> digits d -> (List.length d <= 10)%nat ->
  dec_value d <= INT_MAX ->
  let s := k ++ 91 :: d ++ [93] in
  _lite_cjson_key_array_index (s ++ r) (Z.of_nat (List.length s))
  = Some (Some (Z.of_nat (List.length k), Z.of_nat (List.length s), dec_value d)).
Proof.
  intros Hk Hd Hl Hv s. unfold _lite_cjson_key_array_index. rewrite Nat2Z.id.
  assert (List.length s = List.length k + S (List.length d + 1))%nat as Hs.
  { subst s. rewrite length_app. cbn [List.length]. rewrite length_app. cbn [List.length]. lia. }
  set (key := s ++ r). assert (key = k ++ 91 :: d ++ 93 :: r) as Hkey.
  { subst key s. rewrite <-app_assoc. cbn [app]. by rewrite <-app_assoc. }
  assert (bracket_loop (List.length s) key 0 0 None None
    = Some (Some (Some (List.length k), Some (List.length k + 1 + List.length d)%nat))) as ->.
  { rewrite Hs, bracket_loop_plain by (done || (exists (91 :: d ++ 93 :: r); done)).
    cbn [bracket_loop Nat.add]. rewrite Hkey at 1.
    replace (List.length k) with (List.length k + 0)%nat at 1 by lia. rewrite lookup_app_add.
    cbn [lookup list_lookup mbind option_bind Z.eqb Pos.eqb negb].
    rewrite bracket_loop_plain; [| |exists (93 :: r); rewrite Hkey].
    2: { eapply Forall_impl; [apply Hd|]. intros c Hc%is_digit_spec. lia. }
    2: { replace (S (List.length k)) with (List.length k + 1)%nat by lia. by rewrite drop_app_add. }
    cbn [bracket_loop]. rewrite Hkey.
    replace (S (List.length k) + List.length d)%nat with (List.length k + (1 + List.length d))%nat by lia.
    assert ((k ++ 91 :: d ++ 93 :: r) !! (List.length k + (1 + List.length d))%nat = Some 93) as ->.
    { rewrite lookup_app_add.
      change ((91 :: d ++ 93 :: r) !! (1 + List.length d)%nat) with ((d ++ 93 :: r) !! List.length d).
      by rewrite list_lookup_middle. }
    cbn [mbind option_bind Z.eqb Pos.eqb negb Z.add Pos.add Nat.add].
    destruct (last_digit d Hd) as (c & Hc & Hc91). rewrite last_lookup in Hc.
    assert ((match (List.length k + S (List.length d))%nat with
             | O => None | S i => (k ++ 91 :: d ++ 93 :: r) !! i end) = Some c) as ->.
    { destruct d as [|x d]; [by destruct Hd|]. cbn [List.length] in *.
      replace (List.length k + S (S (List.length d)))%nat with (S (List.length k + S (List.length d)))%nat by lia.
      rewrite lookup_app_add.
      change ((91 :: (x :: d) ++ 93 :: r) !! S (List.length d)) with (((x :: d) ++ 93 :: r) !! List.length d).
      rewrite lookup_app_l by (cbn [List.length]; lia). exact Hc. }
    cbn [mbind option_bind]. rewrite (proj2 (Z.eqb_neq c 91)) by done. cbn [bracket_loop].
    do 4 f_equal. lia. }
  cbn [mbind option_bind].
  rewrite (proj2 (Z.eqb_eq (Z.of_nat (List.length k + 1 + List.length d) + 1) (Z.of_nat (List.length s)))) by lia.
  cbn [negb]. rewrite (proj2 (Z.ltb_ge 10 _)) by lia.
  replace (List.length k + 1 + List.length d - List.length k - 1)%nat with (List.length d) by lia.
  assert (take (List.length d) (drop (S (List.length k)) key) = d) as ->.
  { rewrite Hkey. replace (S (List.length k)) with (List.length k + 1)%nat by lia.
    rewrite drop_app_add. cbn [drop]. apply take_app_length. }
  rewrite atoi_strbuf by done. cbn [mbind option_bind]. do 4 f_equal. lia.
Qed.

Lemma name_no_bracket k : Forall name_char k -> Forall (fun c => c <> 91 /\ c <> 93) k.
Proof. intros H. eapply Forall_impl; [exact H|]. unfold name_char. tauto. Qed.

(** The characters of a step are no dots and no NULs. *)
Lemma step_chars s : step_ok s -> Forall (fun c => c <> 46 /\ c <> 0) (step_text s).
Proof.
  intros (_ & Hk & Hd). assert (Forall (fun c => c <> 46 /\ c <> 0) (fst s)) as Hk'.
  { eapply Forall_impl; [exact Hk|]. unfold name_char. intros. lia. }
  unfold step_text. destruct (snd s) as [d|]; [|done]. apply Forall_app. split; [done|].
  constructor; [done|]. apply Forall_app. split; [|by repeat constructor].
  destruct Hd as [[_ Hd] _]. eapply Forall_impl; [exact Hd|]. intros c Hc%is_digit_spec. lia.
Qed.

Lemma path_step_finds j i s r :
  describes j i -> step_ok s ->
  match json_step j s with
  | Some j' => exists i', path_step i (step_text s ++ r) (Z.of_nat (List.length (step_text s)))
        = Some (Some (i', _ ← snd s; Some (Z.of_nat (List.length (step_text s)) + 1)))
      /\ describes j' i'
  | None => path_step i (step_text s ++ r) (Z.of_nat (List.length (step_text s))) = Some None
  end.
Proof.
  intros Hi (Hne & Hk & Hd). unfold json_step, path_step, step_text. destruct s as [k [d|]]; cbn [fst snd] in *.
  - destruct Hd as (Hd & Hdl & Hdv). rewrite (key_indexed k d r) by (done || by apply name_no_bracket).
    cbn [mbind option_bind]. rewrite <-app_assoc. cbn [app].
    pose proof (object_item_finds j i k (91 :: (d ++ [93]) ++ r) Hi Hne) as Hf.
    destruct (object_member_of j k) as [m|]; cbn [finds] in Hf.
    + destruct Hf as (x & -> & Hx). cbn [mbind option_bind].
      destruct (describes_fields m x Hx) as (-> & _).
      destruct m as [| | | | |l|]; try done. cbn [json_type Z.eqb Pos.eqb cJSON_Array negb].
      pose proof (array_item_finds l x (dec_value d) Hx) as Ha.
      specialize (Ha (dec_value_nonneg d (proj2 Hd))).
      destruct (l !! Z.to_nat (dec_value d)) as [j'|]; cbn [finds] in Ha.
      * destruct Ha as (y & -> & Hy). cbn [mbind option_bind]. eauto.
      * rewrite Ha. done.
    + rewrite Hf. done.
  - rewrite key_plain by (by apply name_no_bracket). cbn [mbind option_bind].
    pose proof (object_item_finds j i k r Hi Hne) as Hf.
    destruct (object_member_of j k) as [m|]; cbn [finds mbind option_bind] in Hf |- *.
    + destruct Hf as (x & -> & Hx). cbn [mbind option_bind]. eauto.
    + rewrite Hf. done.
Qed.

Lemma path_loop_finds p n j i key key_len off rest :
  describes j i -> Forall step_ok p -> p <> [] -> (List.length p <= n)%nat -> 0 <= off ->
  drop (Z.to_nat off) key = path_text p ++ 0 :: rest ->
  key_len - off = Z.of_nat (List.length (path_text p)) ->
  finds (json_path j p) (path_loop n i key key_len off).
Proof.
  intros Hi Hp. revert n j i off Hi. induction Hp as [|s p Hs Hp IH]; intros n j i off Hi Hne Hn Ho Hd Hlen; [done|].
  destruct n as [|n]; [cbn in Hn; lia|]. cbn [path_loop json_path]. rewrite Hd.
  destruct p as [|s' p].
  - cbn [path_text] in *. rewrite strchr_absent by (done || by apply step_chars). cbn [mbind option_bind].
    rewrite Hlen. pose proof (path_step_finds j i s (0 :: rest) Hi Hs) as Hst.
    destruct (json_step j s) as [m|]; cbn [mbind option_bind json_path finds].
    + destruct Hst as (x & -> & Hx). cbn [mbind option_bind]. eauto.
    + by rewrite Hst.
  - change (path_text (s :: s' :: p)) with (step_text s ++ 46 :: path_text (s' :: p)) in *.
    rewrite <-app_assoc in Hd |- *. cbn [app] in Hd |- *.
    rewrite strchr_found by (by apply step_chars). cbn [mbind option_bind].
    pose proof (path_step_finds j i s (46 :: path_text (s' :: p) ++ 0 :: rest) Hi Hs) as Hst.
    destruct (json_step j s) as [m|]; cbn [mbind option_bind].
    2: { rewrite Hst. done. }
    destruct Hst as (x & -> & Hx). cbn [mbind option_bind].
    assert ((match (_ ← snd s; Some (Z.of_nat (List.length (step_text s)) + 1)) with
             | Some m0 => off + m0 | None => off + Z.of_nat (List.length (step_text s)) + 1 end)
            = off + Z.of_nat (List.length (step_text s)) + 1) as ->.
    { destruct (snd s); cbn [mbind option_bind]; lia. }
    apply (IH n m x); [done|done|cbn [List.length] in *; lia|lia| |].
    + replace (Z.to_nat (off + Z.of_nat (List.length (step_text s)) + 1))
        with (Z.to_nat off + (List.length (step_text s) + 1))%nat by lia.
      rewrite <-drop_drop, Hd, drop_app_add. done.
    + rewrite length_app in Hlen. cbn [List.length] in Hlen. lia.
Qed.

Lemma step_text_nonempty s : step_ok s -> (0 < List.length (step_text s))%nat.
Proof.
  intros (Hne & _). unfold step_text. destruct s as [[|c k] [d|]]; cbn [fst snd] in *; try done; cbn [List.length app]; lia.
Qed.

Lemma path_text_length p : Forall step_ok p -> (List.length p <= List.length (path_text p))%nat.
Proof.
  induction 1 as [|s p Hs Hp IH]; [done|]. apply step_text_nonempty in Hs.
  destruct p as [|s' p]; [cbn [path_text List.length]; lia|].
  change (path_text (s :: s' :: p)) with (step_text s ++ 46 :: path_text (s' :: p)).
  rewrite length_app. cbn [List.length] in *. lia.
Qed.

(** ** The text as a whole *)

Lemma renders_not_bom j t r w :
  renders j t -> ws w -> exists c u, w ++ t ++ r = c :: u /\ c <> 239.
Proof.
  intros Hj Hw. destruct (ws_cases w Hw) as [->|(c & w' & -> & Hc & _)]; cbn [app].
  - destruct Hj as [| | |n Hn|s Hs|w' Hw'|l m Hm|w' Hw'|l m Hm]; try (by eexists _, _).
    destruct (number_first n Hn) as (c & n' & -> & Hc). eexists _, _. split; [done|lia].
  - eexists _, _. split; [done|]. unfold is_ws in Hc. lia.
Qed.

Lemma skip_bom_text b bom rest :
  at_text b (bom ++ rest) -> pb_offset b + Z.of_nat (List.length bom) <= pb_length b ->
  bom = [] /\ (exists c u, rest = c :: u /\ c <> 239)
    \/ bom = [239; 187; 191] /\ pb_offset b + 4 < pb_length b ->
  skip_utf8_bom b = Some (setoff b (pb_offset b + Z.of_nat (List.length bom))).
Proof.
  intros [Hb Hd] Hl Hbom. unfold skip_utf8_bom, can_access_at_index.
  destruct Hbom as [(-> & c & u & -> & Hc)|(-> & H4)]; cbn [List.length].
  - assert (setoff b (pb_offset b + Z.of_nat 0) = b) as ->.
    { destruct b. unfold setoff. cbn. f_equal. lia. }
    destruct (Z.ltb_spec (pb_offset b + 4) (pb_length b)); [|done]. rewrite buffer_at_ok by done.
    cbn [mbind option_bind]. rewrite Hd. cbn [app strn_eq]. by rewrite (proj2 (Z.eqb_neq c 239)).
  - rewrite (proj2 (Z.ltb_lt _ _)) by done. rewrite buffer_at_ok by done. cbn [mbind option_bind].
    rewrite Hd. rewrite strn_eq_app. done.
Qed.

(** The item of a value gives its kind, its text (without the quotes of a string), its size
    and, for a number, the nearest double and that double cut to an [int]. *)
Lemma describes_text j i :
  describes j i ->
  exists t r, renders j t /\ it_type i = json_type j
    /\ it_value i = Some (value_text j t ++ r)
    /\ it_value_length i = Z.of_nat (List.length (value_text j t))
    /\ match j with
       | JArray _ | JObject _ => it_size i = json_size j 0
       | JNumber s => it_value_double i = fst (strtod s) /\ it_value_int i = saturated_int (fst (strtod s))
       | _ => True
       end.
Proof.
  intros (t & r & other & Ht & _ & _ & H1 & H2 & H3 & H4 & H5). exists t, (value_rest j r).
  repeat (split; [done|]). destruct j; try done. by apply H5.
Qed.

Lemma parse_text_describes bom w j t r len lite :
  renders j t -> numbers_short j -> json_depth j <= LITE_CJSON_NESTING_LIMIT -> ws w ->
  bom = [] \/ bom = [239; 187; 191] /\ 4 < len ->
  let n := Z.of_nat (List.length (bom ++ w ++ t)) in
  n <= len <= Z.of_nat (List.length (bom ++ w ++ t ++ r)) ->
  n = len \/ (exists c r', r = c :: r' /\ is_number_char c = false) ->
  exists i, lite_cjson_parse (Some (bom ++ w ++ t ++ r)) len lite = Some (0, i) /\ describes j i.
Proof.
  intros Hj Hs Hd Hw Hbom n Hlen Hend.
  assert (0 < List.length t)%nat as Ht0.
  { destruct (renders_first j t Hj) as (c & t' & -> & _). cbn [List.length]. lia. }
  subst n. rewrite !length_app in *. unfold lite_cjson_parse.
  pose proof nesting_fuel_enough as Hfuel. revert Hfuel. generalize nesting_fuel. intros fuel Hfuel.
  rewrite (proj2 (Z.leb_gt len 0)) by lia.
  set (b := buffer_start (bom ++ w ++ t ++ r) len).
  assert (at_text b (bom ++ w ++ t ++ r)) as Hb.
  { split; [|done]. unfold buf_ok, b, buffer_start. cbn [pb_offset pb_length pb_content].
    rewrite !length_app. lia. }
  rewrite (skip_bom_text b bom (w ++ t ++ r) Hb).
  2: { cbn [b buffer_start pb_offset pb_length]. lia. }
  2: { destruct Hbom as [->|[-> ?]]; [left; split; [done|by apply (renders_not_bom j)]|by right]. }
  cbn [mbind option_bind].
  apply (fun H => at_move _ bom _ _ H eq_refl) in Hb; [|cbn [b buffer_start pb_offset pb_length]; lia].
  rewrite (at_skip_text _ w t r Hb Hw (renders_first j t Hj))
    by (cbn [b buffer_start setoff pb_offset pb_length]; lia).
  cbn [mbind option_bind]. apply at_text_app in Hb; [|cbn [b buffer_start setoff pb_offset pb_length]; lia].
  rewrite setoff_setoff in Hb |- *. cbn [setoff pb_offset] in Hb |- *.
  destruct (renders_parsed j t Hj fuel _ lite r Hb) as (i & -> & Hi).
  { cbn [b buffer_start setoff pb_offset pb_length]. lia. } { done. }
  { cbn [b buffer_start setoff pb_depth]. lia. } { cbn [b buffer_start setoff pb_depth]. lia. }
  { destruct Hend as [Hend|Hend]; [left|right; done]. cbn [b buffer_start setoff pb_offset pb_length]. lia. }
  cbn [mbind option_bind Z.eqb negb]. exists i. split; [done|]. exists t, r, (it_size lite). done.
Qed.

Lemma object_item_path j i p rest :
  describes j i -> Forall step_ok p -> p <> [] ->
  finds (json_path j p)
    (lite_cjson_object_item i (Some (path_text p ++ 0 :: rest)) (Z.of_nat (List.length (path_text p)))).
Proof.
  intros Hi Hp Hne. destruct (describes_fields j i Hi) as (Hty & (v & Hv) & Hsz).
  unfold lite_cjson_object_item. rewrite Hv, Hty.
  pose proof (path_text_length p Hp) as Hlen.
  assert (0 < Z.of_nat (List.length (path_text p))) as Hpos.
  { destruct p; [done|]. cbn [List.length] in Hlen. lia. }
  rewrite (proj2 (Z.leb_gt _ 0)) by done.
  destruct j as [| | | | | |l]; cbn [json_type Z.eqb Pos.eqb cJSON_Object negb orb json_size] in *;
    try (destruct p; done).
  rewrite Hsz. destruct l as [|m l]; [by destruct p|].
  rewrite (proj2 (Z.eqb_neq _ 0)) by (cbn [List.length]; lia). cbn [orb].
  apply path_loop_finds with (rest := rest); try done; [|lia].
  rewrite length_app. cbn [List.length]. lia.
Qed.

(** C17. For every JSON value, of numbers of at most 63 characters and nested at most 1000 deep, and
    every text of it, after white space and possibly a byte order mark, and whatever follows
    the value: the text is parsed, to an item of the kind, the text and the size of the
    value; and for every path of names and array indices, the lookup finds an item of what
    the path leads to in the value, or nothing when it leads nowhere. *)
Theorem cjson_reads (bom w : list Z) (j : json) (t r : list Z) (len : Z) (lite : lite_cjson_t) :
  renders j t -> numbers_short j -> json_depth j <= LITE_CJSON_NESTING_LIMIT -> ws w ->
  bom = [] \/ bom = [239; 187; 191] /\ 4 < len ->
  let n := Z.of_nat (List.length (bom ++ w ++ t)) in
  n <= len <= Z.of_nat (List.length (bom ++ w ++ t ++ r)) ->
  n = len \/ (exists c r', r = c :: r' /\ is_number_char c = false) ->
  exists i, lite_cjson_parse (Some (bom ++ w ++ t ++ r)) len lite = Some (0, i) /\ describes j i
    /\ forall p rest, Forall step_ok p -> p <> [] ->
         finds (json_path j p)
           (lite_cjson_object_item i (Some (path_text p ++ 0 :: rest))
              (Z.of_nat (List.length (path_text p)))).
Proof.
  intros Hj Hs Hd Hw Hbom n Hlen Hend.
  destruct (parse_text_describes bom w j t r len lite Hj Hs Hd Hw Hbom Hlen Hend) as (i & Hi & Hdes).
  exists i. split; [done|]. split; [done|]. intros. by apply object_item_path.
Qed.

Definition example_json : json := JObject [(lit "a", JArray [JNumber (lit "10"); JTrue])].

Lemma example_renders : renders example_json (json_lit "{'a': [10 ,true]}").
Proof.
  assert (renders (JArray [JNumber (lit "10"); JTrue]) (91 :: ([] ++ lit "10" ++ [32] ++ 44 :: [] ++ lit "true" ++ []) ++ [93])) as Ha.
  { apply renders_array. apply elems_cons; [|constructor|by repeat constructor; right; right; right|].
    - constructor. apply (number_parts [] (lit "10") [] []); [by left| |constructor|constructor].
      split; [done|]. by repeat constructor.
    - apply elems_one; constructor. }
  apply (renders_object _ ([] ++ quoted (lit "a") ++ [] ++ 58 :: [32] ++ json_lit "[10 ,true]" ++ [])).
  apply (members_one (lit "a") _ _ [] [] [32] []).
  - apply body_char; [done..|constructor].
  - exact Ha.
  - constructor.
  - constructor.
  - constructor; [by right; right; right|constructor].
  - constructor.
Qed.

Lemma cjson_reads_witness :
  exists i, lite_cjson_parse (Some (json_lit "{'a': [10 ,true]}")) 17 item_zero = Some (0, i)
    /\ exists x, lite_cjson_object_item i (Some (lit "a[0]" ++ [0])) 4 = Some (Some x)
         /\ describes (JNumber (lit "10")) x.
Proof.
  destruct (cjson_reads [] [] example_json (json_lit "{'a': [10 ,true]}") [] 17 item_zero)
    as (i & Hi & _ & Hp).
  - exact example_renders.
  - reflexivity.
  - vm_compute. discriminate.
  - constructor.
  - left. reflexivity.
  - vm_compute. split; discriminate.
  - left. reflexivity.
  - exists i. split; [exact Hi|].
    apply (Hp [(lit "a", Some (lit "0"))] []); [|discriminate].
    constructor; [|constructor]. split; [discriminate|]. split.
    + constructor; [|constructor]. repeat split; discriminate.
    + split; [split; [discriminate|by constructor]|]. split; [vm_compute; lia|vm_compute; discriminate].
Defined.
