(* ===== verification/InfraJson.v ===== *)
(** * InfraJson: the JSON scanner

    [eng/infra/infra_json_parser.c], which the firmware update and the CoAP and HTTP
    clients use: it walks over the members of an object with [strchr] and counts
    brackets.  [mem] is the object that holds the text, a pointer is the index of the byte
    it points to, and NULL is [None]; the result [None] of a function is a read outside
    the object.  [WITH_JSON_KEYS_OF] is not set. *)

From S2P Require Import Prelude.
From S2P Require Import CString.
From S2P Require Import Hal.
From S2P Require Import Json.

Definition JNONE : Z := -1.
Definition JSTRING : Z := 0.
Definition JOBJECT : Z := 1.
Definition JARRAY : Z := 2.
Definition JNUMBER : Z := 3.
Definition JBOOLEAN : Z := 4.

Definition JSON_PARSE_OK : Z := 1.
Definition JSON_PARSE_FINISH : Z := 2.
Definition JSON_RESULT_ERR : Z := -1.
Definition JSON_RESULT_OK : Z := 0.

(** The rest of the object from a pointer on. *)
Definition from (mem : list Z) (pos : Z) : list Z := drop (Z.to_nat pos) mem.

(** [strchr] from a pointer: a pointer. *)
Definition strchr_at (mem : list Z) (pos c : Z) : option (option Z) :=
  r ← strchr (from mem pos) c; Some (n ← r; Some (pos + Z.of_nat n)).

Fixpoint get_object_loop (p : list Z) (ch str str_end : Z) : option (option Z) :=
  match p with
  | [] => None
  | c :: p' =>
      if (c =? 0) || negb (str <? str_end) then Some None
      else if c =? 32 then get_object_loop p' ch (str + 1) str_end
      else Some (if c =? ch then Some str else None)
  end.

Definition json_get_object (mem : list Z) (type : Z) (str str_end : Z) : option (option Z) :=
  get_object_loop (from mem str) (if type =? JOBJECT then 123 else 91) str str_end.

(** What [json_get_next_object] stores through its pointers. *)
Record json_kv := { kv_key : option Z; kv_klen : Z; kv_val : option Z; kv_vlen : Z; kv_type : Z }.

(** The first loop: kind and start of the value, and where the second loop starts. *)
Fixpoint find_value (p : list Z) (pos str_end : Z) : option (option (Z * Z * Z)) :=
  match p with
  | [] => None
  | c :: p' =>
      if (c =? 0) || negb (pos <? str_end) then Some None
      else if c =? 34 then Some (Some (JSTRING, pos + 1, pos + 1))
      else if c =? 123 then Some (Some (JOBJECT, pos, pos + 1))
      else if c =? 91 then Some (Some (JARRAY, pos, pos + 1))
      else if (c =? 45) || ((48 <=? c) && (c <=? 57)) then Some (Some (JNUMBER, pos, pos + 1))
      else if (c =? 116) || (c =? 84) || (c =? 102) || (c =? 70) then Some (Some (JBOOLEAN, pos, pos))
      else find_value p' (pos + 1) str_end
  end.

(** The test of the second loop for [true] and [false]. *)
Definition boolean_len (v : list Z) : option (option Z) :=
  len ← arr_strlen v;
  c ← v !! 0%nat;
  e1 ← strn_eq v (lit "true"); e2 ← strn_eq v (lit "TRUE");
  if ((c =? 116) || (c =? 84)) && (4 <=? Z.of_nat len) && (e1 || e2) then Some (Some 4)
  else
    e3 ← strn_eq v (lit "false"); e4 ← strn_eq v (lit "FALSE");
    if ((c =? 102) || (c =? 70)) && (5 <=? Z.of_nat len) && (e3 || e4) then Some (Some 5)
    else Some None.

Definition number_goes_on (c : Z) : bool :=
  negb (((c <? 48) || (57 <? c)) && negb (c =? 46) && negb (c =? 43) && negb (c =? 45)
        && negb (c =? 101) && negb (c =? 69)).

(** [JsonMark] *)
Definition mark_open (type : Z) : Z := if type =? JOBJECT then 123 else 91.
Definition mark_close (type : Z) : Z := if type =? JOBJECT then 125 else 93.

(** The second loop: the length of the value that starts at [v], 0 when its end is not
    found. *)
Fixpoint value_len (p v : list Z) (type start pos str_end mark str : Z) : option Z :=
  match p with
  | [] => None
  | c :: p' =>
      if (c =? 0) || negb (pos <? str_end) then Some 0
      else if type =? JBOOLEAN then
        b ← boolean_len v;
        match b with
        | Some n => Some n
        | None => value_len p' v type start (pos + 1) str_end mark str
        end
      else if type =? JNUMBER then
        if number_goes_on c then value_len p' v type start (pos + 1) str_end mark str
        else Some (pos - start)
      else if type =? JSTRING then
        if c =? 34 then Some (pos - start)
        else value_len p' v type start (pos + 1) str_end mark str
      else if c =? mark_close type then
        if str =? 0 then
          if mark =? 0 then Some (pos - start + 1)
          else value_len p' v type start (pos + 1) str_end (mark - 1) str
        else value_len p' v type start (pos + 1) str_end mark str
      else if c =? mark_open type then
        value_len p' v type start (pos + 1) str_end (if str =? 0 then mark + 1 else mark) str
      else if c =? 34 then
        value_len p' v type start (pos + 1) str_end mark (if negb (str =? 0) then 0 else 1)
      else value_len p' v type start (pos + 1) str_end mark str
  end.

(** The value from the pointer [pos] on, which may be NULL: kind, start, length. *)
Definition scan_value (mem : list Z) (pos : option Z) (str_end : Z) : option (Z * option Z * Z) :=
  match pos with
  | None => Some (JNONE, None, 0)
  | Some pos =>
      f ← find_value (from mem pos) pos str_end;
      match f with
      | None => Some (JNONE, None, 0)
      | Some (type, start, pos) =>
          len ← value_len (from mem pos) (from mem start) type start pos str_end 0 0;
          Some (type, Some start, len)
      end
  end.

(** The label [do_exit]; the key pointer is NULL for an array. *)
Definition next_exit (type : Z) (kv : json_kv) : option (option Z * json_kv) :=
  if type =? JOBJECT
  then Some (None, {| kv_key := None; kv_klen := 0; kv_val := None; kv_vlen := 0; kv_type := kv_type kv |})
  else None.

(** From the value on, with the key found before it. *)
Definition next_value (mem : list Z) (type : Z) (name : option (Z * Z)) (pos : option Z) (str_end : Z)
    (kv : json_kv) : option (option Z * json_kv) :=
  s ← scan_value mem pos str_end;
  let '(vtype, val, vlen) := s in
  if match name with Some (p, n) => str_end <? p + n | None => false end then next_exit type kv
  else if match val with Some v => str_end <? v + vlen | None => false end then next_exit type kv
  else
    let kv := {| kv_key := match name with Some (p, _) => Some p | None => kv_key kv end;
                 kv_klen := match name with Some (_, n) => n | None => kv_klen kv end;
                 kv_val := val; kv_vlen := vlen; kv_type := vtype |} in
    Some (v ← val; Some (if vtype =? JSTRING then v + vlen + 1 else v + vlen), kv).

Definition json_get_next_object (mem : list Z) (type : Z) (str str_end : Z) (kv : json_kv)
    : option (option Z * json_kv) :=
  if type =? JOBJECT then
    q ← strchr_at mem str 34;
    match q with
    | None => next_exit type kv
    | Some q =>
        let name := q + 1 in
        q ← strchr_at mem name 34;
        match q with
        | None => next_exit type kv
        | Some q =>
            colon ← strchr_at mem q 58;
            next_value mem type (Some (name, q - name)) colon str_end kv
        end
    end
  else next_value mem type None (Some str) str_end kv.

(** ** Walks over the members *)

(** The members' names and values as the callback gets them. *)
Definition json_parse_cb (D : Type) : Type := Z -> Z -> Z -> Z -> Z -> D -> option (Z * D).

Section Walk.
Context {D : Type} (mem : list Z) (pfnCB : json_parse_cb D) (str_end : Z).

(** [json_object_for_each_kv] with the body of [json_parse_name_value]: the result code
    and the data of the callback. *)
Fixpoint parse_loop (n : nat) (pos : option Z) (kv : json_kv) (ret : Z) (data : D) : option (Z * D) :=
  match n, pos with
  | O, _ => None
  | _, None => Some (ret, data)
  | S n', Some p =>
      c ← mem !! Z.to_nat p;
      if c =? 0 then Some (ret, data)
      else
        x ← json_get_next_object mem JOBJECT p str_end kv;
        let '(pos, kv) := x in
        match pos with
        | None => Some (ret, data)
        | Some _ =>
            match kv_key kv, kv_val kv with
            | Some key, Some val =>
                if negb (kv_klen kv =? 0) && negb (kv_vlen kv =? 0) then
                  y ← pfnCB key (kv_klen kv) val (kv_vlen kv) (kv_type kv) data;
                  let '(r, data) := y in
                  if r =? JSON_PARSE_FINISH then Some (JSON_RESULT_OK, data)
                  else parse_loop n' pos kv JSON_RESULT_OK data
                else parse_loop n' pos kv ret data
            | _, _ => parse_loop n' pos kv ret data
            end
        end
  end.
End Walk.

Definition kv_zero : json_kv :=
  {| kv_key := None; kv_klen := 0; kv_val := None; kv_vlen := 0; kv_type := 0 |}.

(** Every round but the last steps over a quote at least. *)
Definition json_parse_name_value {D} (mem : list Z) (p_cJsonStr iStrLen : Z) (pfnCB : json_parse_cb D)
    (p_CBData : D) : option (Z * D) :=
  if iStrLen =? 0 then Some (JSON_RESULT_ERR, p_CBData)
  else
    pos ← json_get_object mem JOBJECT p_cJsonStr (p_cJsonStr + iStrLen);
    parse_loop mem pfnCB (p_cJsonStr + iStrLen) (S (S (List.length mem))) pos kv_zero JSON_RESULT_ERR p_CBData.

Record JSON_NV := { nLen : Z; vLen : Z; vType : Z; pN : list Z; pV : option Z }.

(** [strncmp(a, b, n) == 0] *)
Fixpoint strncmp_eq (a b : list Z) (n : nat) {struct n} : option bool :=
  match n with
  | O => Some true
  | S n' =>
      match a, b with
      | x :: a', y :: b' =>
          if x =? y then if x =? 0 then Some true else strncmp_eq a' b' n' else Some false
      | _, _ => None
      end
  end.

Definition json_get_value_by_name_cb (mem : list Z) : json_parse_cb JSON_NV :=
  fun p_cName iNameLen p_cValue iValueLen iValueType nv =>
    same ← (if iNameLen =? nLen nv then strncmp_eq (from mem p_cName) (pN nv) (Z.to_nat (nLen nv))
            else Some false);
    Some (if same : bool
          then (JSON_PARSE_FINISH, {| nLen := nLen nv; vLen := iValueLen; vType := iValueType;
                                      pN := pN nv; pV := Some p_cValue |})
          else (JSON_PARSE_OK, nv)).

(** The value, and what is stored through [p_iValueLen] and [p_iValueType]: nothing when
    no member was walked over. *)
Definition json_get_value_by_name_len (mem : list Z) (p_cJsonStr iStrLen : Z) (p_cName : list Z)
    (p_cNameLen : Z) : option (option Z * option (Z * Z)) :=
  let nv := {| nLen := p_cNameLen; vLen := 0; vType := 0; pN := p_cName; pV := None |} in
  r ← json_parse_name_value mem p_cJsonStr iStrLen (json_get_value_by_name_cb mem) nv;
  let '(rc, nv) := r in
  Some (pV nv, if rc =? JSON_RESULT_OK then Some (vLen nv, vType nv) else None).

(** [p_cName] is a terminated string. *)
Definition json_get_value_by_name (mem : list Z) (p_cJsonStr iStrLen : Z) (p_cName : list Z)
    : option (option Z * option (Z * Z)) :=
  n ← arr_strlen p_cName;
  json_get_value_by_name_len mem p_cJsonStr iStrLen p_cName (Z.of_nat n).

(** ** Paths *)

(** The loop of [LITE_json_value_of] over the names of the path: where the value starts
    and its length. *)
Fixpoint value_of_loop (n : nat) (mem : list Z) (key_iter : list Z) (src_iter src_iter_len value_len : Z)
    : option (option (Z * Z)) :=
  match n with
  | O => None
  | S n' =>
      delim ← strchr key_iter 46;
      key_len ← match delim with Some d => Some (Z.of_nat d) | None => Z.of_nat <$> arr_strlen key_iter end;
      r ← json_get_value_by_name_len mem src_iter src_iter_len key_iter key_len;
      let '(value, out) := r in
      let value_len := match out with Some (l, _) => l | None => value_len end in
      match value with
      | None => Some None
      | Some value =>
          match delim with
          | Some d => value_of_loop n' mem (drop (S d) key_iter) value value_len value_len
          | None => Some (Some (value, value_len))
          end
      end
  end.

Section ValueOf.
Context {E : Type} `{!Hal E}.

(** The copy is what [HAL_Snprintf(ret, value_len + 1, "%s", value)] stores, without its
    NUL. *)
Definition LITE_json_value_of (key : list Z) (mem : list Z) (src : Z) (e : E)
    : option (option (list Z) * E) :=
  len ← arr_strlen (from mem src);
  v ← value_of_loop (S (List.length key)) mem key src (Z.of_nat len) (-1);
  match v with
  | None => Some (None, e)
  | Some (value, value_len) =>
      let '(ok, e) := HAL_Malloc (value_len + 1) e in
      if ok : bool then
        n ← arr_strlen (from mem value);
        Some (Some (take (Nat.min n (Z.to_nat value_len)) (from mem value)), e)
      else Some (None, e)
  end.
End ValueOf.

(** ** Examples *)

(** The text of a member. *)
Definition by_name (s name : string) : option (option (list Z)) :=
  let mem := json_lit s ++ [0; 0] in
  r ← json_get_value_by_name mem 0 (Z.of_nat (List.length (json_lit s))) (lit name ++ [0]);
  Some (v ← fst r; l ← snd r; Some (take (Z.to_nat (fst l)) (from mem v))).

Example by_name_example :
  by_name "{'version' : 'v1', 'size': 10 , 'ext':{'a':[1,{'b':'}'}]}, 'x':true}" "ext"
  = Some (Some (json_lit "{'a':[1,{'b':'}'}]}"))
  /\ by_name "{'version' : 'v1', 'size': 10 , 'ext':{'a':1}, 'x':true}" "size" = Some (Some (lit "10"))
  /\ by_name "{'version' : 'v1', 'size': 10 , 'ext':{'a':1}, 'x':true}" "a" = Some None.
Proof. vm_compute. repeat split. Qed.

(** A null takes the name after it for its value; an empty string is not found. *)
Example by_name_null :
  by_name "{'md5':null,'url':'u'}" "md5" = Some (Some (lit "url"))
  /\ by_name "{'md5':'','url':'u'}" "md5" = Some None.
Proof. vm_compute. split; reflexivity. Qed.

(** A string that is not closed at the end of the text: the walk goes on behind the NUL. *)
Example by_name_overread :
  json_get_value_by_name (json_lit "{'a':'" ++ [0]) 0 6 (lit "b" ++ [0]) = None.
Proof. vm_compute. reflexivity. Qed.
