(* ===== verification/InfraJsonSpec.v ===== *)
(** * InfraJsonSpec: the JSON scanner finds members

    On a text that renders an object, without quotes inside its strings and without null
    members, the scanner finds a member by its name: the first of the name that is not the
    empty string. *)

From S2P Require Import Prelude.
From S2P Require Import CString.
From S2P Require Import Hal.
From S2P Require Import Json.
From S2P Require Import InfraJson.

Definition no_quote (s : list Z) : bool := forallb (fun c => negb (c =? 34)) s.

(** No quote in a string or a name, even after a backslash, and no null among the members
    of an object. *)
Fixpoint scannable (j : json) : bool :=
  match j with
  | JString s => no_quote s
  | JArray l => forallb scannable l
  | JObject l =>
      forallb (fun m => no_quote (fst m) && match snd m with JNull => false | _ => true end
                        && scannable (snd m)) l
  | _ => true
  end.

(** The first member of a name. *)
Definition first_member (k : list Z) (l : list (list Z * json)) : option json :=
  snd <$> List.find (fun m => bool_decide (k = fst m)) l.

(** A member of no name, or whose value is the empty string, is passed over. *)
Definition visible (m : list Z * json) : bool :=
  match m with ([], _) | (_, JString []) => false | _ => true end.

(** The member that a name finds. *)
Fixpoint scan_member (k : list Z) (l : list (list Z * json)) : option json :=
  match l with
  | [] => None
  | (k', j) :: l' =>
      if bool_decide (k = k') && match k', j with [], _ => false | _, JString [] => false | _, _ => true end
      then Some j else scan_member k l'
  end.

Lemma scan_member_first k l : scan_member k l = first_member k (List.filter visible l).
Proof.
  unfold first_member. induction l as [|[k' j] l IH]; [done|]. cbn [scan_member List.filter].
  replace (match k', j with [], _ => false | _, JString [] => false | _, _ => true end) with (visible (k', j))
    by (destruct k', j as [| | | |[]| |]; done).
  destruct (visible (k', j)); [|by rewrite andb_false_r].
  rewrite andb_true_r. cbn [List.find fst]. by case_bool_decide.
Qed.

Definition json_kind (j : json) : Z :=
  match j with
  | JNull => JNONE
  | JTrue | JFalse => JBOOLEAN
  | JNumber _ => JNUMBER
  | JString _ => JSTRING
  | JArray _ => JARRAY
  | JObject _ => JOBJECT
  end.

(** ** Pointers *)

Lemma from_add mem pos t r n :
  from mem pos = t ++ r -> 0 <= pos -> n = Z.of_nat (List.length t) -> from mem (pos + n) = r.
Proof.
  unfold from. intros H Hp ->. rewrite Z2Nat.inj_add, Nat2Z.id by lia.
  rewrite <-drop_drop, H. apply drop_app_length.
Qed.

Lemma strchr_at_found mem pos s c r :
  from mem pos = s ++ c :: r -> Forall (fun x => x <> c /\ x <> 0) s ->
  strchr_at mem pos c = Some (Some (pos + Z.of_nat (List.length s))).
Proof. intros H Hs. unfold strchr_at. rewrite H, strchr_found by done. done. Qed.

(** With a NUL behind, a search ends; what it finds is not before a part without the
    character, and the NUL is still behind. *)
Lemma strchr_at_total mem pos s r c :
  from mem pos = s ++ r -> 0 <= pos -> 0 ∈ r -> c <> 0 -> Forall (fun x => x <> c /\ x <> 0) s ->
  exists q, strchr_at mem pos c = Some q
    /\ forall p, q = Some p -> pos + Z.of_nat (List.length s) <= p /\ exists r', from mem p = c :: r' /\ 0 ∈ r'.
Proof.
  intros H Hp Hr Hc Hs.
  assert (forall a, 0 ∈ a -> exists n, strchr a c = Some n /\
    forall m, n = Some m -> exists a', drop m a = c :: a' /\ 0 ∈ a') as Ha.
  { induction a as [|x a IH]; intros Hin; [by apply elem_of_nil in Hin|]. cbn [strchr].
    destruct (Z.eqb_spec x c) as [->|Hxc].
    { exists (Some O). split; [done|]. intros m [= <-]. exists a. split; [done|].
      apply elem_of_cons in Hin as [|]; [done|done]. }
    destruct (Z.eqb_spec x 0) as [->|Hx0]; [by exists None|].
    apply elem_of_cons in Hin as [?|Hin]; [done|]. destruct (IH Hin) as (n & -> & Hn).
    cbn [mbind option_bind]. eexists. split; [done|]. intros m Hm.
    destruct n as [n|]; [|done]. injection Hm as <-. exact (Hn n eq_refl). }
  assert (forall s, Forall (fun x => x <> c /\ x <> 0) s -> strchr (s ++ r) c
    = n ← strchr r c; Some (option_map (Nat.add (List.length s)) n)) as Hsr.
  { induction 1 as [|x s' [H1 H2] _ IH]; cbn [app strchr List.length].
    - destruct (strchr r c) as [[n|]|]; done.
    - rewrite (proj2 (Z.eqb_neq x c) H1), (proj2 (Z.eqb_neq x 0) H2), IH.
      by destruct (strchr r c) as [[n|]|]. }
  destruct (Ha r Hr) as (n & Hn & Hdr). unfold strchr_at. rewrite H, Hsr by done. rewrite Hn.
  cbn [mbind option_bind]. eexists. split; [done|]. destruct n as [n|]; [|done].
  cbn [option_map option_bind]. intros p [= <-]. split; [lia|].
  destruct (Hdr n eq_refl) as (r' & Hr' & H0). exists r'. split; [|done].
  replace (pos + Z.of_nat (List.length s + n)) with ((pos + Z.of_nat (List.length s)) + Z.of_nat n) by lia.
  apply from_add with (n := Z.of_nat (List.length s)) in H; [|done|done].
  unfold from in *. rewrite Z2Nat.inj_add, Nat2Z.id by lia. by rewrite <-drop_drop, H.
Qed.

(** ** The end of a value *)

Section ValueLen.
Context (v : list Z) (type start str_end : Z).

Lemma number_len s c r pos :
  type = JNUMBER -> Forall (fun c => number_goes_on c = true /\ c <> 0) s ->
  number_goes_on c = false -> c <> 0 ->
  pos + Z.of_nat (List.length s) < str_end ->
  value_len (s ++ c :: r) v type start pos str_end 0 0 = Some (pos + Z.of_nat (List.length s) - start).
Proof.
  intros -> Hs Hc Hc0. revert pos. induction Hs as [|x s [Hx Hx0] Hs IH]; intros pos Hl; cbn [app value_len].
  - cbn [List.length] in *. rewrite (proj2 (Z.eqb_neq c 0) Hc0), (proj2 (Z.ltb_lt pos str_end)) by lia.
    cbn [orb negb Z.eqb JBOOLEAN JNUMBER Pos.eqb]. rewrite Hc. f_equal. lia.
  - cbn [List.length] in *. rewrite (proj2 (Z.eqb_neq x 0) Hx0), (proj2 (Z.ltb_lt pos str_end)) by lia.
    cbn [orb negb Z.eqb JBOOLEAN JNUMBER Pos.eqb]. rewrite Hx, IH by lia. f_equal. lia.
Qed.

Lemma string_len s r pos :
  type = JSTRING -> Forall (fun c => c <> 34 /\ c <> 0) s ->
  pos + Z.of_nat (List.length s) < str_end ->
  value_len (s ++ 34 :: r) v type start pos str_end 0 0 = Some (pos + Z.of_nat (List.length s) - start).
Proof.
  intros ->. intros Hs. revert pos. induction Hs as [|x s [Hx Hx0] Hs IH]; intros pos Hl; cbn [app value_len].
  - cbn [List.length] in *. rewrite (proj2 (Z.ltb_lt pos str_end)) by lia.
    cbn [orb negb Z.eqb JBOOLEAN JNUMBER JSTRING Pos.eqb]. f_equal. lia.
  - cbn [List.length] in *. rewrite (proj2 (Z.eqb_neq x 0) Hx0), (proj2 (Z.ltb_lt pos str_end)) by lia.
    cbn [orb negb Z.eqb JBOOLEAN JNUMBER JSTRING Pos.eqb]. rewrite (proj2 (Z.eqb_neq x 34) Hx), IH by lia.
    f_equal. lia.
Qed.

Lemma boolean_len_ok (b : bool) r pos :
  type = JBOOLEAN -> 0 ∈ r -> v = lit (if b then "true" else "false") ++ r -> pos < str_end ->
  value_len v v type start pos str_end 0 0 = Some (if b then 4 else 5).
Proof.
  intros -> Hr Hv Hl.
  assert (forall a, 0 ∈ a -> exists n, arr_strlen a = Some n) as Ha.
  { induction a as [|x a IH]; intros Hin; [by apply elem_of_nil in Hin|]. cbn [arr_strlen].
    destruct (Z.eqb_spec x 0); [eauto|]. apply elem_of_cons in Hin as [|Hin]; [done|].
    destruct (IH Hin) as (m & ->). cbn. eauto. }
  destruct (Ha r Hr) as (n & Hn).
  assert (boolean_len v = Some (Some (if b then 4 else 5))) as Hb.
  { unfold boolean_len. rewrite Hv. destruct b.
    - change (lit "true" ++ r) with (116 :: 114 :: 117 :: 101 :: r).
      cbn [arr_strlen Z.eqb]. rewrite Hn. cbn [fmap option_fmap option_map mbind option_bind].
      change (strn_eq (116 :: 114 :: 117 :: 101 :: r) (lit "true")) with (Some true).
      change (strn_eq (116 :: 114 :: 117 :: 101 :: r) (lit "TRUE")) with (Some false).
      change ((116 :: 114 :: 117 :: 101 :: r) !! 0%nat) with (Some 116). cbn [mbind option_bind].
      rewrite (proj2 (Z.leb_le 4 _)) by lia. done.
    - change (lit "false" ++ r) with (102 :: 97 :: 108 :: 115 :: 101 :: r).
      cbn [arr_strlen Z.eqb]. rewrite Hn. cbn [fmap option_fmap option_map mbind option_bind].
      change (strn_eq (102 :: 97 :: 108 :: 115 :: 101 :: r) (lit "true")) with (Some false).
      change (strn_eq (102 :: 97 :: 108 :: 115 :: 101 :: r) (lit "TRUE")) with (Some false).
      change (strn_eq (102 :: 97 :: 108 :: 115 :: 101 :: r) (lit "false")) with (Some true).
      change (strn_eq (102 :: 97 :: 108 :: 115 :: 101 :: r) (lit "FALSE")) with (Some false).
      change ((102 :: 97 :: 108 :: 115 :: 101 :: r) !! 0%nat) with (Some 102). cbn [mbind option_bind].
      rewrite (proj2 (Z.leb_le 5 _)) by lia. done. }
  destruct v as [|c v'] eqn:E; [by destruct b|]. cbn [value_len]. rewrite (proj2 (Z.ltb_lt pos str_end)) by lia.
  assert ((c =? 0) = false) as -> by (destruct b; cbn in Hv; by injection Hv as -> _).
  cbn [orb negb Z.eqb JBOOLEAN Pos.eqb]. rewrite Hb. done.
Qed.

(** *** Brackets *)

Hypothesis Htype : type = JOBJECT \/ type = JARRAY.

Definition other_char (c : Z) : Prop :=
  c <> 0 /\ c <> mark_close type /\ c <> mark_open type /\ c <> 34.

Lemma mark_chars : mark_close type <> 34 /\ mark_open type <> 34 /\ mark_close type <> 0
  /\ mark_open type <> 0 /\ mark_close type <> mark_open type.
Proof. by destruct Htype as [-> | ->]. Qed.

Lemma step_in c r pos m str :
  c <> 0 -> pos < str_end ->
  value_len (c :: r) v type start pos str_end m str
  = if c =? mark_close type then
      if str =? 0 then
        if m =? 0 then Some (pos - start + 1) else value_len r v type start (pos + 1) str_end (m - 1) str
      else value_len r v type start (pos + 1) str_end m str
    else if c =? mark_open type then
      value_len r v type start (pos + 1) str_end (if str =? 0 then m + 1 else m) str
    else if c =? 34 then
      value_len r v type start (pos + 1) str_end m (if negb (str =? 0) then 0 else 1)
    else value_len r v type start (pos + 1) str_end m str.
Proof.
  intros Hc Hl. cbn [value_len]. rewrite (proj2 (Z.eqb_neq c 0) Hc), (proj2 (Z.ltb_lt pos str_end) Hl).
  cbn [orb negb]. by destruct Htype as [-> | ->].
Qed.

Lemma skip_chars s r pos m str :
  Forall other_char s -> pos + Z.of_nat (List.length s) <= str_end ->
  value_len (s ++ r) v type start pos str_end m str
  = value_len r v type start (pos + Z.of_nat (List.length s)) str_end m str.
Proof.
  intros Hs. revert pos. induction Hs as [|c s (H1 & H2 & H3 & H4) Hs IH]; intros pos Hl.
  - by rewrite Z.add_0_r.
  - cbn [List.length app] in *. rewrite step_in by (done || lia).
    rewrite (proj2 (Z.eqb_neq c _) H2), (proj2 (Z.eqb_neq c _) H3), (proj2 (Z.eqb_neq c _) H4).
    rewrite IH by lia. f_equal. lia.
Qed.

Lemma skip_quoted s r pos m :
  Forall (fun c => c <> 34 /\ c <> 0) s -> pos + Z.of_nat (List.length (quoted s)) <= str_end ->
  value_len (quoted s ++ r) v type start pos str_end m 0
  = value_len r v type start (pos + Z.of_nat (List.length (quoted s))) str_end m 0.
Proof.
  intros Hs Hl. unfold quoted in *. cbn [app List.length] in *. rewrite length_app in *. cbn [List.length] in *.
  destruct mark_chars as (Hc & Ho & _ & _).
  rewrite step_in by (done || lia). rewrite (proj2 (Z.eqb_neq 34 _)) by congruence.
  rewrite (proj2 (Z.eqb_neq 34 _)) by congruence. cbn [Z.eqb Pos.eqb negb].
  assert (forall pos, pos + Z.of_nat (List.length s) < str_end ->
    value_len ((s ++ [34]) ++ r) v type start pos str_end m 1
    = value_len r v type start (pos + Z.of_nat (List.length s) + 1) str_end m 0) as H.
  { clear Hl. induction Hs as [|c s [H1 H2] Hs IH]; intros p Hl; cbn [app List.length] in *.
    - rewrite step_in by (done || lia). rewrite (proj2 (Z.eqb_neq 34 _)) by congruence.
      rewrite (proj2 (Z.eqb_neq 34 _)) by congruence. cbn [Z.eqb Pos.eqb negb]. f_equal. lia.
    - rewrite step_in by (done || lia). cbn [Z.eqb]. rewrite (proj2 (Z.eqb_neq c 34) H1).
      assert (forall (b1 b2 : bool) (x : option Z), (if b1 then x else if b2 then x else x) = x) as Hb
        by (by intros [] []).
      rewrite Hb, IH by lia. f_equal. lia. }
  rewrite H by lia. f_equal. lia.
Qed.

Lemma ws_other s : ws s -> Forall other_char s.
Proof.
  intros Hs. eapply Forall_impl; [exact Hs|]. intros c Hc. unfold other_char, is_ws in *.
  destruct Htype as [-> | ->]; cbn; lia.
Qed.

Lemma number_other t : number_text t -> Forall other_char t.
Proof.
  intros Ht. eapply Forall_impl; [by apply number_text_chars|]. unfold number_char, other_char.
  intros c Hc. destruct Htype as [-> | ->]; cbn; lia.
Qed.

Lemma body_no_quote s : string_body s -> no_quote s = true -> Forall (fun c => c <> 34 /\ c <> 0) s.
Proof.
  unfold no_quote. induction 1 as [|c s Hc _ _ _ IH|c s Hc _ IH]; cbn [forallb]; intros H; [done|..].
  - apply andb_true_iff in H as [H1 H]. constructor; [lia|by apply IH].
  - apply andb_true_iff in H as [_ H]. apply andb_true_iff in H as [H1 H].
    constructor; [done|]. constructor; [lia|by apply IH].
Qed.

(** A text over which the count of brackets comes out the same. *)
Definition passes (t : list Z) : Prop :=
  forall r pos m, 0 <= m -> pos + Z.of_nat (List.length t) <= str_end ->
    value_len (t ++ r) v type start pos str_end m 0
    = value_len r v type start (pos + Z.of_nat (List.length t)) str_end m 0.

Lemma passes_other s : Forall other_char s -> passes s.
Proof. intros Hs r pos m _ Hl. by apply skip_chars. Qed.

Lemma passes_app s t : passes s -> passes t -> passes (s ++ t).
Proof.
  intros Hs Ht r pos m Hm Hl. rewrite length_app in *. rewrite <-app_assoc.
  rewrite Hs, Ht by lia. f_equal. lia.
Qed.

Lemma passes_cons c t : other_char c -> passes t -> passes (c :: t).
Proof. intros Hc Ht. apply (passes_app [c]); [apply passes_other; by constructor|done]. Qed.

Lemma passes_quoted s : Forall (fun c => c <> 34 /\ c <> 0) s -> passes (quoted s).
Proof. intros Hs r pos m _ Hl. by apply skip_quoted. Qed.

Lemma passes_wrap o c t :
  o = 123 /\ c = 125 \/ o = 91 /\ c = 93 -> passes t -> passes (o :: t ++ [c]).
Proof.
  intros Hoc Ht. destruct (decide (o = mark_open type)) as [Ho|Ho].
  - assert (c = mark_close type) as Hc.
    { destruct Htype as [E|E]; rewrite E in Ho |- *; cbn in *; lia. }
    intros r pos m Hm Hl. cbn [app List.length] in *. rewrite length_app in *. cbn [List.length] in *.
    destruct mark_chars as (H1 & H2 & H3 & H4 & H5).
    rewrite step_in by (lia || congruence). rewrite (proj2 (Z.eqb_neq o _)) by congruence.
    rewrite (proj2 (Z.eqb_eq o _) Ho). cbn [Z.eqb]. rewrite <-app_assoc, Ht by lia. cbn [app].
    rewrite step_in by (lia || congruence). rewrite (proj2 (Z.eqb_eq c _) Hc). cbn [Z.eqb].
    rewrite (proj2 (Z.eqb_neq (m + 1) 0)) by lia.
    replace (m + 1 - 1) with m by lia. f_equal. lia.
  - assert (other_char o /\ other_char c) as [H1 H2].
    { unfold other_char. destruct Htype as [E|E]; rewrite E in Ho |- *; cbn in *; lia. }
    apply passes_cons; [done|]. apply passes_app; [done|]. apply passes_other. by constructor.
Qed.

Lemma lit_other l : forallb (fun c => (97 <=? c) && (c <=? 122)) l = true -> Forall other_char l.
Proof.
  intros H. apply Forall_forall. intros c Hc. rewrite forallb_forall in H.
  specialize (H c (proj1 (list_elem_of_In _ _) Hc)). unfold other_char.
  destruct Htype as [-> | ->]; cbn; lia.
Qed.

Lemma comma_other : other_char 44.
Proof. unfold other_char. destruct Htype as [-> | ->]; done. Qed.
Lemma colon_other : other_char 58.
Proof. unfold other_char. destruct Htype as [-> | ->]; done. Qed.

Lemma renders_passes :
  (forall j t, renders j t -> scannable j = true -> passes t)
  /\ (forall l t, renders_elems l t -> scannable (JArray l) = true -> passes t)
  /\ (forall l t, renders_members l t -> scannable (JObject l) = true -> passes t).
Proof.
  apply renders_mutind; cbn [scannable forallb fst snd].
  - intros _. by apply passes_other, lit_other.
  - intros _. by apply passes_other, lit_other.
  - intros _. by apply passes_other, lit_other.
  - intros t Ht _. by apply passes_other, number_other.
  - intros s Hs Hq. by apply passes_quoted, body_no_quote.
  - intros w Hw _. apply passes_wrap; [lia|]. by apply passes_other, ws_other.
  - intros l t _ IH Hs. apply passes_wrap; [lia|by apply IH].
  - intros w Hw _. apply passes_wrap; [lia|]. by apply passes_other, ws_other.
  - intros l t _ IH Hs. apply passes_wrap; [lia|by apply IH].
  - intros j t w1 w2 _ IH Hw1 Hw2 [Hs _]%andb_true_iff.
    apply passes_app; [by apply passes_other, ws_other|]. apply passes_app; [by apply IH|].
    by apply passes_other, ws_other.
  - intros j t w1 w2 l t' _ IH Hw1 Hw2 _ IH' [Hs Hs']%andb_true_iff.
    apply passes_app; [by apply passes_other, ws_other|]. apply passes_app; [by apply IH|].
    apply passes_app; [by apply passes_other, ws_other|]. apply passes_cons; [apply comma_other|by apply IH'].
  - intros k j t w1 w2 w3 w4 Hk _ IH Hw1 Hw2 Hw3 Hw4 [Hs _]%andb_true_iff.
    apply andb_true_iff in Hs as [Hs Hj]. apply andb_true_iff in Hs as [Hq _].
    apply passes_app; [by apply passes_other, ws_other|].
    apply passes_app; [by apply passes_quoted, body_no_quote|].
    apply passes_app; [by apply passes_other, ws_other|]. apply passes_cons; [apply colon_other|].
    apply passes_app; [by apply passes_other, ws_other|]. apply passes_app; [by apply IH|].
    by apply passes_other, ws_other.
  - intros k j t w1 w2 w3 w4 l t' Hk _ IH Hw1 Hw2 Hw3 Hw4 _ IH' [Hs Hs']%andb_true_iff.
    apply andb_true_iff in Hs as [Hs Hj]. apply andb_true_iff in Hs as [Hq _].
    apply passes_app; [by apply passes_other, ws_other|].
    apply passes_app; [by apply passes_quoted, body_no_quote|].
    apply passes_app; [by apply passes_other, ws_other|]. apply passes_cons; [apply colon_other|].
    apply passes_app; [by apply passes_other, ws_other|]. apply passes_app; [by apply IH|].
    apply passes_app; [by apply passes_other, ws_other|]. apply passes_cons; [apply comma_other|by apply IH'].
Qed.

(** From behind the opening bracket of an array or object to its end. *)
Lemma bracket_len t r pos c :
  passes t -> c = mark_close type -> pos + Z.of_nat (List.length t) < str_end ->
  value_len (t ++ c :: r) v type start pos str_end 0 0 = Some (pos + Z.of_nat (List.length t) - start + 1).
Proof.
  intros Ht -> Hl. rewrite Ht by lia. destruct mark_chars as (_ & _ & H & _).
  rewrite step_in by (done || lia). rewrite Z.eqb_refl. done.
Qed.
End ValueLen.

(** ** The value of a member *)

(** What follows the value in an object. *)
Definition value_ends (r : list Z) : Prop :=
  exists c r', r = c :: r' /\ number_goes_on c = false /\ c <> 0.

Lemma ws_value_ends w c r : ws w -> c = 44 \/ c = 125 -> value_ends (w ++ c :: r).
Proof.
  intros Hw Hc. destruct (ws_cases w Hw) as [->|(x & w' & -> & Hx & _)]; cbn [app].
  - exists c, r. split; [done|]. by destruct Hc as [-> | ->].
  - eexists _, _. split; [done|]. unfold is_ws in Hx. by destruct Hx as [->|[->|[->| ->]]].
Qed.

Lemma find_value_skip s r pos str_end :
  Forall (fun c => c = 58 \/ is_ws c) s -> pos + Z.of_nat (List.length s) < str_end ->
  find_value (s ++ r) pos str_end = find_value r (pos + Z.of_nat (List.length s)) str_end.
Proof.
  intros Hs. revert pos. induction Hs as [|c s Hc Hs IH]; intros pos Hl.
  - by rewrite Z.add_0_r.
  - cbn [List.length app find_value] in *. rewrite (proj2 (Z.ltb_lt pos str_end)) by lia.
    unfold is_ws in Hc.
    assert ((c =? 0) = false /\ (c =? 34) = false /\ (c =? 123) = false /\ (c =? 91) = false
      /\ (c =? 45) || ((48 <=? c) && (c <=? 57)) = false
      /\ (c =? 116) || (c =? 84) || (c =? 102) || (c =? 70) = false)
      as (-> & -> & -> & -> & -> & ->).
    { destruct Hc as [->|[->|[->|[->| ->]]]]; done. }
    cbn [orb negb]. rewrite IH by lia. f_equal. lia.
Qed.

Definition value_start (j : json) (pos : Z) : Z := match j with JString _ => pos + 1 | _ => pos end.

Lemma scan_value_text mem pos s j t r str_end :
  from mem pos = s ++ t ++ r -> 0 <= pos -> Forall (fun c => c = 58 \/ is_ws c) s ->
  renders j t -> scannable j = true -> j <> JNull -> value_ends r -> 0 ∈ r ->
  pos + Z.of_nat (List.length s) + Z.of_nat (List.length t) < str_end ->
  scan_value mem (Some pos) str_end
  = Some (json_kind j, Some (value_start j (pos + Z.of_nat (List.length s))),
          Z.of_nat (List.length (value_text j t))).
Proof.
  intros Hm Hpos Hs Hj Hsc Hnn Hr H0 Hl. unfold scan_value. rewrite Hm.
  rewrite find_value_skip by (done || lia).
  apply from_add with (n := Z.of_nat (List.length s)) in Hm; [|done|done].
  set (p := pos + Z.of_nat (List.length s)) in *.
  assert (forall c u, t = c :: u -> from mem (p + 1) = u ++ r) as Hnext.
  { intros c u ->. apply (from_add mem p [c]); [done|lia|done]. }
  assert (p < str_end) as Hp.
  { destruct (renders_first j t Hj) as (c & u & -> & _). cbn [List.length] in Hl. lia. }
  destruct Hj as [| | |n Hn|b Hb|w Hw|l m Hmm|w Hw|l m Hmm]; cbn [json_kind value_start value_text];
    cbn [scannable] in Hsc.
  - done.
  - change (lit "true" ++ r) with (116 :: 114 :: 117 :: 101 :: r) in *. cbn [find_value].
    rewrite (proj2 (Z.ltb_lt p str_end) Hp). cbn [orb negb andb Z.eqb Z.leb Pos.eqb Z.compare Pos.compare Pos.compare_cont mbind option_bind].
    rewrite Hm. change (116 :: 114 :: 117 :: 101 :: r) with (lit (if true then "true" else "false") ++ r).
    rewrite (boolean_len_ok _ _ _ _ true r) by done. done.
  - change (lit "false" ++ r) with (102 :: 97 :: 108 :: 115 :: 101 :: r) in *. cbn [find_value].
    rewrite (proj2 (Z.ltb_lt p str_end) Hp). cbn [orb negb andb Z.eqb Z.leb Pos.eqb Z.compare Pos.compare Pos.compare_cont mbind option_bind].
    rewrite Hm. change (102 :: 97 :: 108 :: 115 :: 101 :: r) with (lit (if false then "true" else "false") ++ r).
    rewrite (boolean_len_ok _ _ _ _ false r) by done. done.
  - pose proof (number_text_chars n Hn) as Hc. destruct (number_first n Hn) as (c & u & -> & Hcu).
    apply Forall_cons in Hc as [_ Hc]. cbn [app find_value]. rewrite (proj2 (Z.ltb_lt p str_end) Hp).
    assert ((c =? 0) = false /\ (c =? 34) = false /\ (c =? 123) = false /\ (c =? 91) = false
      /\ (c =? 45) || ((48 <=? c) && (c <=? 57)) = true) as (-> & -> & -> & -> & ->) by lia.
    cbn [orb negb mbind option_bind]. rewrite (Hnext c u eq_refl).
    destruct Hr as (x & r' & -> & Hx & Hx0). cbn [List.length] in *.
    rewrite number_len; [|done| |done|done|lia].
    + cbn [mbind option_bind]. do 2 f_equal. lia.
    + eapply Forall_impl; [exact Hc|]. unfold number_char, number_goes_on. intros y Hy. lia.
  - unfold quoted in *. cbn [app find_value]. rewrite (proj2 (Z.ltb_lt p str_end) Hp).
    cbn [orb negb Z.eqb Pos.eqb mbind option_bind]. rewrite (Hnext 34 (b ++ [34]) eq_refl), <-app_assoc. cbn [app].
    cbn [List.length] in Hl. rewrite length_app in Hl. cbn [List.length] in Hl.
    rewrite string_len; [|done|by apply body_no_quote|lia]. cbn [mbind option_bind]. do 2 f_equal. lia.
  - cbn [app find_value]. rewrite (proj2 (Z.ltb_lt p str_end) Hp).
    cbn [orb negb Z.eqb Pos.eqb mbind option_bind]. rewrite (Hnext 91 (w ++ [93]) eq_refl), <-app_assoc. cbn [app].
    cbn [List.length] in *. rewrite length_app in *. cbn [List.length] in *.
    rewrite bracket_len; [|by right| |done|lia].
    + cbn [mbind option_bind]. do 2 f_equal. lia.
    + apply passes_other; [by right|]. apply ws_other; [by right|done].
  - cbn [app find_value]. rewrite (proj2 (Z.ltb_lt p str_end) Hp).
    cbn [orb negb Z.eqb Pos.eqb mbind option_bind]. rewrite (Hnext 91 (m ++ [93]) eq_refl), <-app_assoc. cbn [app].
    cbn [List.length] in *. rewrite length_app in *. cbn [List.length] in *.
    rewrite bracket_len; [|by right| |done|lia].
    + cbn [mbind option_bind]. do 2 f_equal. lia.
    + destruct (renders_passes (from mem p) JARRAY p str_end) as (_ & H & _); [by right|]. by apply (H l).
  - cbn [app find_value]. rewrite (proj2 (Z.ltb_lt p str_end) Hp).
    cbn [orb negb Z.eqb Pos.eqb mbind option_bind]. rewrite (Hnext 123 (w ++ [125]) eq_refl), <-app_assoc. cbn [app].
    cbn [List.length] in *. rewrite length_app in *. cbn [List.length] in *.
    rewrite bracket_len; [|by left| |done|lia].
    + cbn [mbind option_bind]. do 2 f_equal. lia.
    + apply passes_other; [by left|]. apply ws_other; [by left|done].
  - cbn [app find_value]. rewrite (proj2 (Z.ltb_lt p str_end) Hp).
    cbn [orb negb Z.eqb Pos.eqb mbind option_bind]. rewrite (Hnext 123 (m ++ [125]) eq_refl), <-app_assoc. cbn [app].
    cbn [List.length] in *. rewrite length_app in *. cbn [List.length] in *.
    rewrite bracket_len; [|by left| |done|lia].
    + cbn [mbind option_bind]. do 2 f_equal. lia.
    + destruct (renders_passes (from mem p) JOBJECT p str_end) as (_ & _ & H); [by left|]. by apply (H l).
Qed.

(** ** Members *)

Definition no_mark (c : Z) : Prop := c <> 34 /\ c <> 0.

Lemma ws_no_mark w : ws w -> Forall no_mark w.
Proof. intros H. eapply Forall_impl; [exact H|]. unfold is_ws, no_mark. intros. lia. Qed.

Lemma value_text_nonempty j t : renders j t -> value_text j t = [] <-> j = JString [].
Proof.
  intros Hj. split.
  - intros H. destruct j; cbn [value_text] in H;
      try (destruct (renders_first _ _ Hj) as (c & u & -> & _); done). by subst.
  - by intros ->.
Qed.

Lemma next_member mem pos junk k w2 w3 j t r str_end kv :
  let m := junk ++ quoted k ++ w2 ++ 58 :: w3 ++ t in
  from mem pos = m ++ r -> 0 <= pos -> Forall no_mark junk -> Forall no_mark k ->
  ws w2 -> ws w3 -> renders j t -> scannable j = true -> j <> JNull -> value_ends r -> 0 ∈ r ->
  pos + Z.of_nat (List.length m) < str_end ->
  exists key v, json_get_next_object mem JOBJECT pos str_end kv
      = Some (Some (pos + Z.of_nat (List.length m)),
              {| kv_key := Some key; kv_klen := Z.of_nat (List.length k); kv_val := Some v;
                 kv_vlen := Z.of_nat (List.length (value_text j t)); kv_type := json_kind j |})
    /\ 0 <= key /\ 0 <= v
    /\ (exists r', from mem key = k ++ 34 :: r')
    /\ from mem v = value_text j t ++ value_rest j r.
Proof.
  intros m Hm Hpos Hjk Hk Hw2 Hw3 Hj Hsc Hnn Hr H0 Hl. subst m.
  unfold quoted in *. repeat (rewrite <-?app_assoc in Hm; cbn [app] in Hm).
  repeat (rewrite ?length_app in *; cbn [List.length] in * ).
  assert (from mem (pos + Z.of_nat (List.length junk)) = 34 :: k ++ 34 :: w2 ++ 58 :: w3 ++ t ++ r) as Hq
    by (apply (from_add mem pos junk); [rewrite Hm, <-?app_assoc; done|done|done]).
  set (q := pos + Z.of_nat (List.length junk)) in *.
  assert (from mem (q + 1) = k ++ 34 :: w2 ++ 58 :: w3 ++ t ++ r) as Hkey
    by (apply (from_add mem q [34]); [done|lia|done]).
  assert (from mem (q + 1 + Z.of_nat (List.length k)) = 34 :: w2 ++ 58 :: w3 ++ t ++ r) as Hq2
    by (apply (from_add mem (q + 1) k); [done|lia|done]).
  set (q2 := q + 1 + Z.of_nat (List.length k)) in *.
  unfold json_get_next_object. cbn [Z.eqb JOBJECT Pos.eqb].
  rewrite (strchr_at_found mem pos junk 34 (k ++ 34 :: w2 ++ 58 :: w3 ++ t ++ r)) by (by rewrite ?Hm, <-?app_assoc).
  cbn [mbind option_bind]. fold q.
  rewrite (strchr_at_found mem (q + 1) k 34 (w2 ++ 58 :: w3 ++ t ++ r)) by done.
  cbn [mbind option_bind]. fold q2.
  rewrite (strchr_at_found mem q2 (34 :: w2) 58 (w3 ++ t ++ r)); [|done|].
  2: { constructor; [done|]. eapply Forall_impl; [exact Hw2|]. unfold is_ws. intros. lia. }
  cbn [mbind option_bind List.length]. set (c := q2 + Z.of_nat (S (List.length w2))).
  assert (from mem c = 58 :: w3 ++ t ++ r) as Hc by (apply (from_add mem q2 (34 :: w2)); [done|lia|done]).
  unfold next_value.
  rewrite (scan_value_text mem c (58 :: w3) j t r str_end); try done; [|lia| |cbn [List.length]; lia].
  2: { constructor; [by left|]. eapply Forall_impl; [exact Hw3|]. intros; by right. }
  cbn [mbind option_bind]. set (vs := value_start j (c + Z.of_nat (List.length (58 :: w3)))).
  assert (from mem (c + Z.of_nat (List.length (58 :: w3))) = t ++ r) as Ht
    by (apply (from_add mem c (58 :: w3)); [done|lia|done]).
  cbn [List.length] in *.
  assert (vs + Z.of_nat (List.length (value_text j t)) + (if json_kind j =? JSTRING then 1 else 0)
    = c + Z.of_nat (S (List.length w3)) + Z.of_nat (List.length t)) as Hve.
  { subst vs. destruct j; cbn [value_start value_text json_kind]; try (cbn [Z.eqb JSTRING JNONE JBOOLEAN JNUMBER JARRAY JOBJECT Pos.eqb]; lia).
    inversion Hj as [| | | |s' Hs' Es Et| | | |]; subst. unfold quoted.
    cbn [Z.eqb JSTRING List.length]. rewrite length_app. cbn [List.length]. lia. }
  rewrite (proj2 (Z.ltb_ge str_end (q + 1 + (q2 - (q + 1))))) by lia.
  rewrite (proj2 (Z.ltb_ge str_end (vs + Z.of_nat (List.length (value_text j t)))))
    by (destruct (json_kind j =? JSTRING); lia).
  cbn [option_bind]. exists (q + 1), vs.
  split.
  - do 3 f_equal.
    + destruct (json_kind j =? JSTRING); lia.
    + f_equal. lia.
  - split; [lia|]. split; [subst vs; destruct j; cbn [value_start]; lia|]. split; [by eexists|].
    subst vs. destruct j; try exact Ht. cbn [value_start value_text value_rest].
    inversion Hj as [| | | |s' Hs' Es Et| | | |]; subst. unfold quoted in Ht.
    apply (from_add mem _ [34]); [|lia|done]. rewrite Ht. cbn [app]. by rewrite <-app_assoc.
Qed.

(** Behind the last member the walk ends, whatever follows the object up to a NUL. *)
Lemma next_end mem pos s r str_end kv :
  from mem pos = s ++ r -> 0 <= pos -> Forall no_mark s -> 0 ∈ r ->
  pos + Z.of_nat (List.length s) = str_end ->
  exists kv', json_get_next_object mem JOBJECT pos str_end kv = Some (None, kv').
Proof.
  intros Hm Hpos Hs H0 Hend. unfold json_get_next_object. cbn [Z.eqb JOBJECT Pos.eqb].
  destruct (strchr_at_total mem pos s r 34) as (q & -> & Hq); [done|done|done|done|exact Hs|].
  cbn [mbind option_bind]. unfold next_exit. cbn [Z.eqb JOBJECT Pos.eqb].
  destruct q as [q|]; [|eauto]. destruct (Hq q eq_refl) as (Hq1 & r1 & Hr1 & H01).
  assert (from mem (q + 1) = r1) as Hf1 by (apply (from_add mem q [34]); [done|lia|done]).
  destruct (strchr_at_total mem (q + 1) [] r1 34) as (q' & -> & Hq'); [done|lia|done|done|constructor|].
  cbn [mbind option_bind]. destruct q' as [q'|]; [|eauto].
  destruct (Hq' q' eq_refl) as (Hq2 & r2 & Hr2 & H02). cbn [List.length] in Hq2.
  destruct (strchr_at_total mem q' [34] r2 58) as (c & -> & Hc); [done|lia|done|done|by repeat constructor|].
  cbn [mbind option_bind]. unfold next_value.
  assert (exists x, scan_value mem c str_end = Some x) as [[[vt vv] vl] ->].
  { unfold scan_value. destruct c as [c|]; [|eauto]. destruct (Hc c eq_refl) as (Hc1 & r3 & Hr3 & _).
    rewrite Hr3. cbn [find_value]. cbn [List.length] in Hc1. rewrite (proj2 (Z.ltb_ge c str_end)) by lia.
    cbn [orb negb mbind option_bind Z.eqb]. eauto. }
  cbn [mbind option_bind]. rewrite (proj2 (Z.ltb_lt str_end (q + 1 + (q' - (q + 1))))) by lia.
  unfold next_exit. cbn [Z.eqb JOBJECT Pos.eqb]. eauto.
Qed.

(** Comparing names. *)
Lemma strncmp_names k k' r r' :
  Forall no_mark k -> List.length k' = List.length k ->
  strncmp_eq (k' ++ r') (k ++ r) (List.length k) = Some (bool_decide (k = k')).
Proof.
  intros Hk. revert k'. induction Hk as [|c k [_ Hc] Hk IH]; intros [|c' k'] Hl; cbn [List.length] in Hl; try lia.
  - done.
  - cbn [app List.length strncmp_eq]. destruct (Z.eqb_spec c' c) as [->|Hn].
    + rewrite (proj2 (Z.eqb_neq c 0)) by done. rewrite IH by lia. f_equal.
      apply bool_decide_ext. split; [by intros ->|by intros [= ->]].
    + f_equal. symmetry. apply bool_decide_eq_false_2. congruence.
Qed.

(** A value of the text stands at the pointer, and a NUL comes later. *)
Definition stands (mem : list Z) (j : json) (pos len kind : Z) : Prop :=
  exists t r, renders j t /\ scannable j = true /\ 0 <= pos
    /\ from mem pos = value_text j t ++ r /\ 0 ∈ r
    /\ len = Z.of_nat (List.length (value_text j t)) /\ kind = json_kind j.

Section Lookup.
Context (mem k krest : list Z).
Hypothesis Hk : Forall no_mark k.

Definition nv_start : JSON_NV :=
  {| nLen := Z.of_nat (List.length k); vLen := 0; vType := 0; pN := k ++ krest; pV := None |}.

(** What the walk ends with when the name leads to [o]. *)
Definition walk_ends (o : option json) (res : option (Z * JSON_NV)) : Prop :=
  match o with
  | Some j => exists nv p, res = Some (JSON_RESULT_OK, nv) /\ pV nv = Some p
                /\ stands mem j p (vLen nv) (vType nv)
  | None => exists rc, res = Some (rc, nv_start)
  end.

Lemma walk_end n pos s r str_end kv ret :
  from mem pos = s ++ r -> 0 <= pos -> Forall no_mark s -> 0 ∈ r -> s <> [] ->
  pos + Z.of_nat (List.length s) = str_end -> (0 < n)%nat ->
  walk_ends None (parse_loop mem (json_get_value_by_name_cb mem) str_end n (Some pos) kv ret nv_start).
Proof.
  intros Hm Hpos Hs H0 Hne Hend Hn. destruct n as [|n]; [lia|]. cbn [parse_loop].
  destruct s as [|c s]; [done|]. destruct (proj1 (Forall_cons _ _ _) Hs) as [[_ Hc] _].
  assert (mem !! Z.to_nat pos = Some c) as ->.
  { rewrite <-(Nat.add_0_r (Z.to_nat pos)), <-lookup_drop. unfold from in Hm. by rewrite Hm. }
  cbn [mbind option_bind]. rewrite (proj2 (Z.eqb_neq c 0)) by done.
  destruct (next_end mem pos (c :: s) r str_end kv) as (kv' & ->); try done.
  cbn [mbind option_bind]. by exists ret.
Qed.

(** One member: found, or the walk goes on behind it. *)
Lemma walk_step n pos junk k' w2 w3 j t r str_end kv ret :
  let m := junk ++ quoted k' ++ w2 ++ 58 :: w3 ++ t in
  from mem pos = m ++ r -> 0 <= pos -> Forall no_mark junk -> junk <> [] -> Forall no_mark k' ->
  ws w2 -> ws w3 -> renders j t -> scannable j = true -> j <> JNull -> value_ends r -> 0 ∈ r ->
  pos + Z.of_nat (List.length m) < str_end ->
  let res := parse_loop mem (json_get_value_by_name_cb mem) str_end (S n) (Some pos) kv ret nv_start in
  (scan_member k [(k', j)] = Some j /\ walk_ends (Some j) res)
  \/ (scan_member k [(k', j)] = None
      /\ exists kv' ret', res = parse_loop mem (json_get_value_by_name_cb mem) str_end n
                                  (Some (pos + Z.of_nat (List.length m))) kv' ret' nv_start).
Proof.
  intros m Hm Hpos Hjunk Hne Hk' Hw2 Hw3 Hj Hsc Hnn Hr H0 Hl res. subst res. cbn [parse_loop].
  destruct (next_member mem pos junk k' w2 w3 j t r str_end kv) as (key & v & Hnext & Hkey0 & Hv0 & (r' & Hkey) & Hv);
    try done.
  assert (exists c, mem !! Z.to_nat pos = Some c /\ c <> 0) as (c & -> & Hc).
  { destruct junk as [|c junk]; [done|]. exists c. destruct (proj1 (Forall_cons _ _ _) Hjunk) as [[_ Hc] _].
    split; [|done]. rewrite <-(Nat.add_0_r (Z.to_nat pos)), <-lookup_drop. unfold from in Hm. by rewrite Hm. }
  cbn [mbind option_bind]. rewrite (proj2 (Z.eqb_neq c 0)) by done. rewrite Hnext. cbn [mbind option_bind].
  cbn [kv_key kv_val kv_klen kv_vlen kv_type]. fold m. pose proof (value_text_nonempty j t Hj) as Hempty.
  cbn [scan_member].
  destruct (decide (k' = [])) as [->|Hk0].
  { right. split; [by rewrite andb_false_r|]. cbn [List.length Z.eqb negb andb]. eauto. }
  destruct (decide (value_text j t = [])) as [Hv0'|Hv0'].
  { right. rewrite Hv0'. apply Hempty in Hv0'. subst j. split; [by destruct k'; rewrite andb_false_r|].
    cbn [List.length Z.eqb negb]. rewrite andb_false_r. eauto. }
  rewrite (proj2 (Z.eqb_neq (Z.of_nat (List.length k')) 0)) by (destruct k'; [done|cbn [List.length]; lia]).
  rewrite (proj2 (Z.eqb_neq (Z.of_nat (List.length (value_text j t))) 0))
    by (destruct (value_text j t); [done|cbn [List.length]; lia]).
  cbn [negb andb].
  assert ((bool_decide (k = k') && match k', j with [], _ => false | _, JString [] => false | _, _ => true end)
    = bool_decide (k = k')) as ->.
  { destruct k'; [done|]. destruct j as [| | | |[|]| |]; rewrite ?andb_true_r; done. }
  assert (json_get_value_by_name_cb mem key (Z.of_nat (List.length k')) v
            (Z.of_nat (List.length (value_text j t))) (json_kind j) nv_start
    = Some (if bool_decide (k = k')
            then (JSON_PARSE_FINISH,
                  {| nLen := nLen nv_start; vLen := Z.of_nat (List.length (value_text j t));
                     vType := json_kind j; pN := pN nv_start; pV := Some v |})
            else (JSON_PARSE_OK, nv_start))) as ->.
  { unfold json_get_value_by_name_cb. cbn [nv_start nLen pN].
    destruct (decide (List.length k' = List.length k)) as [Hlen|Hlen].
    - rewrite Hlen, Z.eqb_refl, Nat2Z.id, Hkey, strncmp_names by done. cbn [mbind option_bind].
      by case_bool_decide.
    - rewrite (proj2 (Z.eqb_neq _ _)) by lia. cbn [mbind option_bind].
      rewrite bool_decide_eq_false_2 by congruence. done. }
  cbn [mbind option_bind].
  case_bool_decide as Hkk; cbn [mbind option_bind Z.eqb JSON_PARSE_FINISH JSON_PARSE_OK Pos.eqb].
  - left. split; [done|]. eexists _, v. split; [done|]. split; [done|]. cbn [vLen vType].
    exists t, (value_rest j r). split; [done|]. split; [done|]. split; [done|]. split; [exact Hv|].
    split; [|done]. destruct j; try done. apply elem_of_cons. by right.
  - right. split; [done|]. eauto.
Qed.

Lemma scan_member_cons k' j l :
  scan_member k ((k', j) :: l) = match scan_member k [(k', j)] with Some x => Some x | None => scan_member k l end.
Proof. cbn [scan_member]. by destruct (_ && _). Qed.

Lemma scannable_cons k' j l :
  scannable (JObject ((k', j) :: l)) = true ->
  no_quote k' = true /\ j <> JNull /\ scannable j = true /\ scannable (JObject l) = true.
Proof.
  cbn [scannable forallb fst snd]. intros [H Hl]%andb_true_iff. apply andb_true_iff in H as [H Hj].
  apply andb_true_iff in H as [Hq Hn]. repeat split; try done. by intros ->.
Qed.

Lemma members_walk l t :
  renders_members l t ->
  forall n pos junk r str_end kv ret,
    from mem pos = junk ++ t ++ 125 :: r -> 0 <= pos -> Forall no_mark junk -> junk <> [] ->
    0 ∈ r -> scannable (JObject l) = true ->
    pos + Z.of_nat (List.length junk) + Z.of_nat (List.length t) + 1 = str_end ->
    (List.length l < n)%nat ->
    walk_ends (scan_member k l) (parse_loop mem (json_get_value_by_name_cb mem) str_end n (Some pos) kv ret nv_start).
Proof.
  induction 1 as [k' j t w1 w2 w3 w4 Hk' Hj Hw1 Hw2 Hw3 Hw4|k' j t w1 w2 w3 w4 l t' Hk' Hj Hw1 Hw2 Hw3 Hw4 Hl IH];
    intros n pos junk r str_end kv ret Hm Hpos Hjunk Hne H0 Hsc Hend Hn;
    (destruct n as [|n]; [lia|]); cbn [List.length] in Hn;
    destruct (scannable_cons _ _ _ Hsc) as (Hq & Hnn & Hscj & Hscl);
    pose proof (body_no_quote k' Hk' Hq) as Hkm;
    repeat (rewrite ?length_app in Hend; cbn [List.length] in Hend);
    set (m := (junk ++ w1) ++ quoted k' ++ w2 ++ 58 :: w3 ++ t).
  - assert (from mem pos = m ++ (w4 ++ 125 :: r)) as Hm'.
    { rewrite Hm. subst m. unfold quoted. repeat (rewrite <-?app_assoc; cbn [app]). done. }
    assert (pos + Z.of_nat (List.length m) + Z.of_nat (List.length w4) + 1 = str_end) as Hend'.
    { subst m. repeat (rewrite ?length_app; cbn [List.length]). lia. }
    destruct (walk_step n pos (junk ++ w1) k' w2 w3 j t (w4 ++ 125 :: r) str_end kv ret)
      as [[-> Hw]|[-> (kv' & ret' & ->)]]; try done; [| | | |fold m; lia|].
    { apply Forall_app. split; [done|by apply ws_no_mark]. }
    { by destruct junk. }
    { apply ws_value_ends; [done|by right]. }
    { apply elem_of_app. right. apply elem_of_cons. by right. }
    fold m. apply (walk_end n _ (w4 ++ [125]) r); [|lia| |done|by destruct w4| |lia].
    + rewrite <-app_assoc. by apply (from_add mem pos m).
    + apply Forall_app. split; [by apply ws_no_mark|by repeat constructor].
    + rewrite length_app. cbn [List.length]. lia.
  - assert (from mem pos = m ++ (w4 ++ 44 :: t' ++ 125 :: r)) as Hm'.
    { rewrite Hm. subst m. unfold quoted. repeat (rewrite <-?app_assoc; cbn [app]). done. }
    assert (pos + Z.of_nat (List.length m) + Z.of_nat (List.length w4) + 2 + Z.of_nat (List.length t') = str_end) as Hend'.
    { subst m. repeat (rewrite ?length_app; cbn [List.length]). lia. }
    rewrite scan_member_cons.
    destruct (walk_step n pos (junk ++ w1) k' w2 w3 j t (w4 ++ 44 :: t' ++ 125 :: r) str_end kv ret)
      as [[-> Hw]|[-> (kv' & ret' & ->)]]; try done; [| | | |fold m; lia|].
    { apply Forall_app. split; [done|by apply ws_no_mark]. }
    { by destruct junk. }
    { apply ws_value_ends; [done|by left]. }
    { apply elem_of_app. right. apply elem_of_cons. right. apply elem_of_app. right. apply elem_of_cons. by right. }
    fold m. apply (IH n _ (w4 ++ [44]) r); [|lia| |by destruct w4|done|done| |lia].
    + rewrite <-app_assoc. by apply (from_add mem pos m).
    + apply Forall_app. split; [by apply ws_no_mark|by repeat constructor].
    + rewrite length_app. cbn [List.length]. lia.
Qed.
End Lookup.

(** ** Lookup in an object *)

Lemma get_object_spaces mem pos n t r str_end :
  from mem pos = replicate n 32 ++ (123 :: t) ++ r -> 0 <= pos -> pos + Z.of_nat n < str_end ->
  json_get_object mem JOBJECT pos str_end = Some (Some (pos + Z.of_nat n)).
Proof.
  intros Hm Hpos Hl. unfold json_get_object. rewrite Hm. cbn [Z.eqb JOBJECT Pos.eqb app]. clear Hm.
  revert pos Hpos Hl. induction n as [|n IH]; intros pos Hpos Hl; cbn [replicate app get_object_loop].
  - rewrite (proj2 (Z.ltb_lt pos str_end)) by lia. cbn [orb negb Z.eqb Pos.eqb]. do 2 f_equal. lia.
  - rewrite (proj2 (Z.ltb_lt pos str_end)) by lia. cbn [orb negb Z.eqb Pos.eqb].
    rewrite IH by lia. do 2 f_equal. lia.
Qed.

Lemma from_length mem pos t : from mem pos = t -> (List.length t <= List.length mem)%nat.
Proof. unfold from. intros <-. rewrite length_drop. lia. Qed.

Lemma by_name_len mem pos n l t r k krest :
  from mem pos = replicate n 32 ++ t ++ r -> 0 <= pos ->
  renders (JObject l) t -> scannable (JObject l) = true -> 0 ∈ r -> Forall no_mark k ->
  match scan_member k l with
  | Some j => exists p len kind,
      json_get_value_by_name_len mem pos (Z.of_nat (n + List.length t)) (k ++ krest) (Z.of_nat (List.length k))
      = Some (Some p, Some (len, kind)) /\ stands mem j p len kind
  | None => exists out,
      json_get_value_by_name_len mem pos (Z.of_nat (n + List.length t)) (k ++ krest) (Z.of_nat (List.length k))
      = Some (None, out)
  end.
Proof.
  intros Hm Hpos Ht Hsc H0 Hk. pose proof (from_length _ _ _ Hm) as Hfl.
  unfold json_get_value_by_name_len, json_parse_name_value. fold (nv_start k krest).
  assert (exists u, t = 123 :: u /\ (1 <= List.length u)%nat) as (u & Htu & Hu1).
  { inversion Ht; subst; eexists; (split; [done|]); rewrite length_app; cbn [List.length]; lia. }
  rewrite (proj2 (Z.eqb_neq (Z.of_nat (n + List.length t)) 0)) by (rewrite Htu; cbn [List.length]; lia).
  rewrite Htu in Hm. rewrite (get_object_spaces mem pos n u r) by (done || (rewrite Htu; cbn [List.length]; lia)).
  cbn [mbind option_bind].
  apply (from_add mem pos (replicate n 32) _ (Z.of_nat n)) in Hm; [|done|by rewrite length_replicate].
  set (ret := parse_loop _ _ _ _ _ _ _ _).
  assert (walk_ends mem k krest (scan_member k l) ret) as Hw.
  { subst ret. set (n' := S (S (List.length mem))). inversion Ht as [| | | | | | |w Hw Hl Et|l' m Hmm Hl Et]; rewrite Htu in Et; injection Et as <-.
    - subst l. subst t. rewrite length_app in *. cbn [List.length scan_member] in *.
      apply (walk_end mem k krest n' _ (123 :: w ++ [125]) r); [exact Hm|lia| |done|done| |lia].
      + constructor; [done|]. apply Forall_app. split; [by apply ws_no_mark|by repeat constructor].
      + cbn [List.length]. rewrite length_app. cbn [List.length]. lia.
    - subst l'. subst t. cbn [List.length] in *. rewrite length_app in *. cbn [List.length] in *.
      apply (members_walk mem k krest Hk l m Hmm n' _ [123] r); try done.
      + rewrite Hm. cbn [app]. by rewrite <-app_assoc.
      + lia.
      + by repeat constructor.
      + cbn [List.length]. lia.
      + pose proof (members_length l m Hmm). subst n'. rewrite !length_app in Hfl. cbn [List.length] in Hfl.
        rewrite length_app in Hfl. lia. }
  destruct (scan_member k l) as [j|]; cbn [walk_ends] in Hw.
  - destruct Hw as (nv & p & -> & Hp & Hst). cbn [mbind option_bind Z.eqb JSON_RESULT_OK]. rewrite Hp. eauto.
  - destruct Hw as (rc & ->). cbn [mbind option_bind]. eauto.
Qed.

Lemma names_strlen k krest : Forall no_mark k -> arr_strlen (k ++ 0 :: krest) = Some (List.length k).
Proof.
  induction 1 as [|c k [_ Hc] _ IH]; [done|]. cbn [app arr_strlen].
  rewrite (proj2 (Z.eqb_neq c 0)) by done. by rewrite IH.
Qed.

(** C28. For an object whose strings have no quotes inside and whose members are not null, at any
    place of a buffer that has a NUL somewhere behind the text: [json_get_value_by_name]
    returns a pointer to the value of the member of the name, with its length and kind, and
    NULL when there is none; the member is the first of the name.  Members without a name
    and members whose value is the empty string do not count: they are passed over, and
    NULL is returned although such a member of the name is there.  Spaces may stand before
    the object. *)
Theorem json_member_found (mem : list Z) (pos : Z) (n : nat) (l : list (list Z * json)) (t r k krest : list Z) :
  from mem pos = replicate n 32 ++ t ++ r -> 0 <= pos ->
  renders (JObject l) t -> scannable (JObject l) = true -> 0 ∈ r -> Forall no_mark k ->
  match first_member k (List.filter visible l) with
  | Some j => exists p len kind,
      json_get_value_by_name mem pos (Z.of_nat (n + List.length t)) (k ++ 0 :: krest)
      = Some (Some p, Some (len, kind)) /\ stands mem j p len kind
  | None => exists out,
      json_get_value_by_name mem pos (Z.of_nat (n + List.length t)) (k ++ 0 :: krest) = Some (None, out)
  end.
Proof.
  intros Hm Hpos Ht Hsc H0 Hk. unfold json_get_value_by_name. rewrite names_strlen by done.
  cbn [mbind option_bind]. rewrite <-scan_member_first. by apply (by_name_len mem pos n l t r).
Qed.

Lemma json_member_found_witness :
  let t := json_lit "{'a': [10 ,true]}" in
  0 ∈ [0] /\ exists p len kind,
    json_get_value_by_name (t ++ [0]) 0 (Z.of_nat (List.length t)) (lit "a" ++ [0]) = Some (Some p, Some (len, kind))
    /\ stands (t ++ [0]) (JArray [JNumber (lit "10"); JTrue]) p len kind.
Proof.
  intros t. assert (0 ∈ [0]) as H0 by constructor.
  split; [exact H0|].
  assert (Forall no_mark (lit "a")) as Hk by (constructor; [split; discriminate|constructor]).
  assert (renders (JObject [(lit "a", JArray [JNumber (lit "10"); JTrue])]) t) as Ht.
  { assert (renders (JArray [JNumber (lit "10"); JTrue]) (91 :: ([] ++ lit "10" ++ [32] ++ 44 :: [] ++ lit "true" ++ []) ++ [93])) as Ha.
    { apply renders_array. apply elems_cons; [|constructor|by repeat constructor; right; right; right|].
      - constructor. apply (number_parts [] (lit "10") [] []); [by left| |constructor|constructor].
        split; [done|]. by repeat constructor.
      - apply elems_one; constructor. }
    apply (renders_object _ ([] ++ quoted (lit "a") ++ [] ++ 58 :: [32] ++ json_lit "[10 ,true]" ++ [])).
    apply (members_one (lit "a") _ _ [] [] [32] []); [apply body_char; [done..|constructor]|exact Ha|..];
      try constructor; [by right; right; right|constructor]. }
  exact (json_member_found (t ++ [0]) 0 0 _ t [0] (lit "a") [] eq_refl (Z.le_refl 0) Ht eq_refl H0 Hk).
Defined.

(** ** Paths of names *)

Fixpoint join_names (p : list (list Z)) : list Z :=
  match p with
  | [] => []
  | [k] => k
  | k :: p' => k ++ 46 :: join_names p'
  end.

Definition path_name (k : list Z) : Prop := Forall (fun c => no_mark c /\ c <> 46) k.

Fixpoint scan_path (j : json) (p : list (list Z)) : option json :=
  match p with
  | [] => Some j
  | k :: p' => match j with JObject l => m ← scan_member k l; scan_path m p' | _ => None end
  end.

Lemma path_name_plain k : path_name k -> Forall no_mark k.
Proof. intros H. eapply Forall_impl; [exact H|]. by intros c [Hc _]. Qed.

Lemma path_name_dot k : path_name k -> Forall (fun x => x <> 46 /\ x <> 0) k.
Proof. intros H. eapply Forall_impl; [exact H|]. by intros c [[_ H0] Hc]. Qed.

Lemma value_of_loop_path p n mem l t r pos sp j rest vl :
  from mem pos = replicate sp 32 ++ t ++ r -> 0 <= pos ->
  renders (JObject l) t -> scannable (JObject l) = true -> 0 ∈ r ->
  Forall path_name p -> p <> [] -> (List.length p <= n)%nat ->
  scan_path (JObject l) p = Some j ->
  exists v len, value_of_loop n mem (join_names p ++ 0 :: rest) pos (Z.of_nat (sp + List.length t)) vl
      = Some (Some (v, len))
    /\ stands mem j v len (json_kind j).
Proof.
  intros Hm Hpos Ht Hsc H0 Hp. revert n l t r pos sp vl Hm Hpos Ht Hsc H0.
  induction Hp as [|k p Hk Hp IH]; intros n l t r pos sp vl Hm Hpos Ht Hsc H0 Hne Hn Hj; [done|].
  destruct n as [|n]; [cbn [List.length] in Hn; lia|]. cbn [value_of_loop].
  cbn [scan_path] in Hj. destruct (scan_member k l) as [m|] eqn:Hmem; [|done]. cbn [mbind option_bind] in Hj.
  destruct p as [|k2 p].
  - cbn [join_names]. rewrite strchr_absent by (done || by apply path_name_dot). cbn [mbind option_bind].
    rewrite names_strlen by (by apply path_name_plain). cbn [fmap option_fmap option_map mbind option_bind].
    pose proof (by_name_len mem pos sp l t r k (0 :: rest) Hm Hpos Ht Hsc H0 (path_name_plain _ Hk)) as Hb.
    rewrite Hmem in Hb. destruct Hb as (v & len & kind & -> & Hst). cbn [mbind option_bind].
    cbn [scan_path] in Hj. injection Hj as ->. exists v, len. split; [done|].
    assert (kind = json_kind j) as <- by (by destruct Hst as (? & ? & _ & _ & _ & _ & _ & _ & Hkd)). done.
  - change (join_names (k :: k2 :: p)) with (k ++ 46 :: join_names (k2 :: p)).
    rewrite <-app_assoc. cbn [app].
    rewrite strchr_found by (by apply path_name_dot). cbn [mbind option_bind].
    pose proof (by_name_len mem pos sp l t r k (46 :: join_names (k2 :: p) ++ 0 :: rest) Hm Hpos Ht Hsc H0 (path_name_plain _ Hk)) as Hb.
    rewrite Hmem in Hb. destruct Hb as (v & len & kind & -> & Hst). cbn [mbind option_bind].
    destruct m as [| | | | | |l']; try done.
    destruct Hst as (t' & r' & Ht' & Hsc' & Hv & Hf & H0' & -> & _). cbn [value_text] in *.
    replace (drop (S (List.length k)) (k ++ 46 :: join_names (k2 :: p) ++ 0 :: rest))
      with (join_names (k2 :: p) ++ 0 :: rest)
      by (replace (S (List.length k)) with (List.length k + 1)%nat by lia; by rewrite drop_app_add).
    apply (IH n l' t' r' v 0%nat); try done. cbn [List.length] in *. lia.
Qed.

Lemma nonzero_strlen t r : nonzero t -> arr_strlen (t ++ 0 :: r) = Some (List.length t).
Proof.
  induction 1 as [|c t Hc _ IH]; [done|]. cbn [app arr_strlen].
  rewrite (proj2 (Z.eqb_neq c 0)) by done. by rewrite IH.
Qed.

Lemma nonzero_strlen_ge t r : nonzero t -> 0 ∈ r -> exists n, arr_strlen (t ++ r) = Some n /\ (List.length t <= n)%nat.
Proof.
  intros Ht H0. induction Ht as [|c t Hc _ IH]; cbn [app arr_strlen List.length].
  - induction r as [|c r IH]; [by apply elem_of_nil in H0|]. cbn [arr_strlen].
    destruct (Z.eqb_spec c 0); [eauto with lia|]. apply elem_of_cons in H0 as [|H0]; [done|].
    destruct (IH H0) as (n1 & -> & _). cbn. eexists. split; [done|lia].
  - rewrite (proj2 (Z.eqb_neq c 0)) by done. destruct IH as (m & -> & Hm). cbn. eexists. split; [done|lia].
Qed.

Lemma join_length p : Forall path_name p -> (List.length p <= S (List.length (join_names p)))%nat.
Proof.
  induction 1 as [|k p _ _ IH]; [cbn; lia|]. destruct p as [|k2 p]; [cbn [List.length]; lia|].
  change (join_names (k :: k2 :: p)) with (k ++ 46 :: join_names (k2 :: p)).
  rewrite length_app. cbn [List.length] in *. lia.
Qed.

Section ValueOfSpec.
Context {E : Type} `{!Hal E} `{!HalMemory E}.

(** When the path of names leads to a value in the object, [LITE_json_value_of] returns a
    copy of exactly its text, for a string without the quotes. *)
Theorem LITE_json_value_of_path (mem : list Z) (pos : Z) (sp : nat) (l : list (list Z * json))
    (t r rest : list Z) (p : list (list Z)) (j : json) (e : E) :
  from mem pos = replicate sp 32 ++ t ++ 0 :: r -> 0 <= pos ->
  renders (JObject l) t -> scannable (JObject l) = true ->
  Forall path_name p -> p <> [] -> scan_path (JObject l) p = Some j ->
  exists tj e', renders j tj
    /\ LITE_json_value_of (join_names p ++ 0 :: rest) mem pos e = Some (Some (value_text j tj), e').
Proof.
  intros Hm Hpos Ht Hsc Hp Hne Hj. unfold LITE_json_value_of.
  assert (arr_strlen (from mem pos) = Some (sp + List.length t)%nat) as ->.
  { rewrite Hm, app_assoc, nonzero_strlen.
    - by rewrite length_app, length_replicate.
    - apply nonzero_app. split; [by apply Forall_replicate|by apply (proj1 renders_nonzero) with (JObject l)]. }
  cbn [mbind option_bind].
  destruct (value_of_loop_path p (S (List.length (join_names p ++ 0 :: rest))) mem l t (0 :: r) pos sp j rest (-1))
    as (v & len & -> & Hst); try done.
  { apply elem_of_cons. by left. }
  { pose proof (join_length p Hp). rewrite length_app. lia. }
  cbn [mbind option_bind]. destruct (HAL_Malloc (len + 1) e) as [ok e'] eqn:Hok.
  pose proof (hal_malloc_ok (len + 1) e) as H. rewrite Hok in H. cbn [fst] in H. subst ok.
  destruct Hst as (tj & rj & Htj & _ & _ & Hf & H0 & -> & _). exists tj, e'. split; [done|].
  assert (nonzero (value_text j tj)) as Hnz.
  { pose proof (proj1 renders_nonzero _ _ Htj) as Hz. destruct j; try done.
    inversion Htj as [| | | |s' Hs' Es Et| | | |]; subst. by apply body_nonzero. }
  destruct (nonzero_strlen_ge _ _ Hnz H0) as (n & Hn & Hge). rewrite Hf, Hn. cbn [mbind option_bind].
  rewrite Nat2Z.id, Nat.min_r by done. by rewrite take_app_length.
Qed.
End ValueOfSpec.
