(* ===== verification/Eff.v ===== *)
(** * Eff: computations on a platform

    The functions of the HTTP client and of the parts built on it: a platform state is
    passed along, and [None] is undefined behaviour - a read or a write outside an object,
    a NULL pointer that is followed - or a loop that used up its fuel.  [runs m P e] says
    that [m] returns from [e], with a result and a platform that satisfy [P]. *)

From S2P Require Import Prelude.
From S2P Require Import Hal.

Definition eff (E A : Type) : Type := E -> option (A * E).

#[global] Instance eff_ret E : MRet (eff E) := fun A a e => Some (a, e).
#[global] Instance eff_bind E : MBind (eff E) := fun A B f m e =>
  match m e with
  | Some (a, e) => f a e
  | None => None
  end.

Definition eff_fail {E A} : eff E A := fun _ => None.

(** A computation on values that may be undefined. *)
Definition eff_lift {E A} (o : option A) : eff E A := fun e =>
  match o with Some a => Some (a, e) | None => None end.

(** A platform call. *)
Definition eff_plat {E A} (f : E -> A * E) : eff E A := fun e => Some (f e).

Definition eff_act {E} (f : E -> E) : eff E unit := fun e => Some (tt, f e).

(** [HAL_Malloc]: whether the block was given. *)
Definition eff_malloc {E} `{!Hal E} (n : Z) : eff E bool := eff_plat (HAL_Malloc n).

(** [buf[i]], [memmove(buf, buf + k, n)], and the bytes [src] stored from [buf + off] on. *)
Definition buf_at {E} (buf : list Z) (i : Z) : eff E Z :=
  eff_lift (if i <? 0 then None else buf !! Z.to_nat i).

Definition buf_set {E} (buf : list Z) (i c : Z) : eff E (list Z) :=
  eff_lift (if (i <? 0) || (Z.of_nat (List.length buf) <=? i) then None else Some (<[Z.to_nat i := c]> buf)).

Definition buf_move {E} (buf : list Z) (k n : Z) : eff E (list Z) :=
  eff_lift (if (k <? 0) || (n <? 0) || (Z.of_nat (List.length buf) <? k + n) then None
            else Some (take (Z.to_nat n) (drop (Z.to_nat k) buf) ++ drop (Z.to_nat n) buf)).

Definition buf_store {E} (buf : list Z) (off : Z) (src : list Z) : eff E (list Z) :=
  eff_lift (if (off <? 0) || (Z.of_nat (List.length buf) <? off + Z.of_nat (List.length src)) then None
            else Some (take (Z.to_nat off) buf ++ src ++ drop (Z.to_nat off + List.length src) buf)).

(** [memcpy(buf + off, src, n)] *)
Definition buf_cpy {E} (buf : list Z) (off : Z) (src : list Z) (n : Z) : eff E (list Z) :=
  if (n <? 0) || (Z.of_nat (List.length src) <? n) then eff_fail
  else buf_store buf off (take (Z.to_nat n) src).

(** The rest of an object from an offset on. *)
Definition buf_from {E} (buf : list Z) (off : Z) : eff E (list Z) :=
  eff_lift (if (off <? 0) || (Z.of_nat (List.length buf) <? off) then None else Some (drop (Z.to_nat off) buf)).

(** The [n] bytes from an offset on. *)
Definition buf_sub {E} (buf : list Z) (off n : Z) : eff E (list Z) :=
  eff_lift (if (off <? 0) || (n <? 0) || (Z.of_nat (List.length buf) <? off + n) then None
            else Some (take (Z.to_nat n) (drop (Z.to_nat off) buf))).

(** ** Reasoning *)

Section Runs.
Context {E : Type}.

Definition runs {A} (m : eff E A) (P : A -> E -> Prop) (e : E) : Prop :=
  match m e with
  | Some (a, e) => P a e
  | None => False
  end.

Lemma runs_ret {A} (a : A) (P : A -> E -> Prop) e : P a e -> runs (mret a) P e.
Proof. done. Qed.

Lemma runs_bind {A B} (m : eff E A) (k : A -> eff E B) P e :
  runs m (fun a e1 => runs (k a) P e1) e -> runs (m ≫= k) P e.
Proof. unfold runs, mbind, eff_bind. by destruct (m e) as [[a e1]|]. Qed.

Lemma runs_bind' {A B} (m : eff E A) (k : A -> eff E B) Q P e :
  runs m Q e -> (forall a e1, Q a e1 -> runs (k a) P e1) -> runs (m ≫= k) P e.
Proof.
  intros Hm Hk. apply runs_bind. unfold runs in Hm |- * at 1.
  destruct (m e) as [[a e1]|]; [by apply Hk|done].
Qed.

Lemma runs_mono {A} (m : eff E A) (P Q : A -> E -> Prop) e :
  runs m P e -> (forall a e1, P a e1 -> Q a e1) -> runs m Q e.
Proof. unfold runs. destruct (m e) as [[a e1]|]; [by auto|done]. Qed.

Lemma runs_lift {A} (o : option A) (P : A -> E -> Prop) e a : o = Some a -> P a e -> runs (eff_lift o) P e.
Proof. by intros ->. Qed.

Lemma runs_plat {A} (f : E -> A * E) (P : A -> E -> Prop) e :
  P (fst (f e)) (snd (f e)) -> runs (eff_plat f) P e.
Proof. unfold runs, eff_plat. by destruct (f e). Qed.

Lemma runs_act (f : E -> E) (P : unit -> E -> Prop) e : P tt (f e) -> runs (eff_act f) P e.
Proof. done. Qed.

Lemma runs_run {A} (m : eff E A) P e : runs m P e -> exists a e1, m e = Some (a, e1) /\ P a e1.
Proof. unfold runs. destruct (m e) as [[a e1]|]; [eauto|done]. Qed.

Lemma buf_set_ok (buf : list Z) i c :
  0 <= i < Z.of_nat (List.length buf) ->
  (if (i <? 0) || (Z.of_nat (List.length buf) <=? i) then None else Some (<[Z.to_nat i := c]> buf))
  = Some (<[Z.to_nat i := c]> buf).
Proof. intros H. rewrite (proj2 (Z.ltb_ge i 0)), (proj2 (Z.leb_gt _ i)) by lia. done. Qed.

Lemma runs_set (buf : list Z) i c (P : list Z -> E -> Prop) e :
  0 <= i < Z.of_nat (List.length buf) -> P (<[Z.to_nat i := c]> buf) e -> runs (buf_set buf i c) P e.
Proof. intros H HP. unfold buf_set. rewrite buf_set_ok by done. exact HP. Qed.

Lemma runs_move (buf : list Z) k n (P : list Z -> E -> Prop) e :
  0 <= k -> 0 <= n -> k + n <= Z.of_nat (List.length buf) ->
  P (take (Z.to_nat n) (drop (Z.to_nat k) buf) ++ drop (Z.to_nat n) buf) e -> runs (buf_move buf k n) P e.
Proof.
  intros Hk Hn Hl HP. unfold buf_move.
  rewrite (proj2 (Z.ltb_ge k 0)), (proj2 (Z.ltb_ge n 0)), (proj2 (Z.ltb_ge _ _)) by lia. exact HP.
Qed.

Lemma runs_store (buf : list Z) off src (P : list Z -> E -> Prop) e :
  0 <= off -> off + Z.of_nat (List.length src) <= Z.of_nat (List.length buf) ->
  P (take (Z.to_nat off) buf ++ src ++ drop (Z.to_nat off + List.length src) buf) e ->
  runs (buf_store buf off src) P e.
Proof.
  intros Ho Hl HP. unfold buf_store.
  rewrite (proj2 (Z.ltb_ge off 0)), (proj2 (Z.ltb_ge _ _)) by lia. exact HP.
Qed.

Lemma runs_cpy (buf : list Z) off src n (P : list Z -> E -> Prop) e :
  0 <= off -> 0 <= n <= Z.of_nat (List.length src) -> off + n <= Z.of_nat (List.length buf) ->
  P (take (Z.to_nat off) buf ++ take (Z.to_nat n) src ++ drop (Z.to_nat off + Z.to_nat n) buf) e ->
  runs (buf_cpy buf off src n) P e.
Proof.
  intros Ho Hn Hl HP. unfold buf_cpy. rewrite (proj2 (Z.ltb_ge n 0)), (proj2 (Z.ltb_ge _ n)) by lia.
  assert (List.length (take (Z.to_nat n) src) = Z.to_nat n) as Ht by (rewrite length_take; lia).
  apply runs_store; rewrite ?Ht; [lia|lia|exact HP].
Qed.

Lemma runs_from (buf : list Z) off (P : list Z -> E -> Prop) e :
  0 <= off <= Z.of_nat (List.length buf) -> P (drop (Z.to_nat off) buf) e -> runs (buf_from buf off) P e.
Proof.
  intros Ho HP. unfold buf_from. rewrite (proj2 (Z.ltb_ge off 0)), (proj2 (Z.ltb_ge _ off)) by lia. exact HP.
Qed.
End Runs.

(** ** Partial correctness

    [ensures m P e]: whatever [m] returns from [e] satisfies [P].  [keeps R m]: a preorder
    on platform states relates the state before to the state behind. *)

Section Ensures.
Context {E : Type}.

Definition ensures {A} (m : eff E A) (P : A -> E -> Prop) (e : E) : Prop :=
  forall a e', m e = Some (a, e') -> P a e'.

Lemma ensures_ret {A} (a : A) (P : A -> E -> Prop) e : P a e -> ensures (mret a) P e.
Proof. by intros HP a' e' [= <- <-]. Qed.

Lemma ensures_fail {A} (P : A -> E -> Prop) e : ensures eff_fail P e.
Proof. intros a e' [=]. Qed.

Lemma ensures_bind {A B} (m : eff E A) (k : A -> eff E B) P e :
  ensures m (fun a e1 => ensures (k a) P e1) e -> ensures (m ≫= k) P e.
Proof.
  intros H b e'. unfold mbind, eff_bind. destruct (m e) as [[a e1]|] eqn:Hm; [|done]. by apply H.
Qed.

Lemma runs_ensures {A} (m : eff E A) (P Q : A -> E -> Prop) e :
  runs m P e -> ensures m Q e -> runs m (fun a e1 => P a e1 /\ Q a e1) e.
Proof. unfold runs, ensures. destruct (m e) as [[a e1]|]; [|done]. intros HP HQ. split; [done|]. by apply HQ. Qed.

Lemma ensures_mono {A} (m : eff E A) (P Q : A -> E -> Prop) e :
  ensures m P e -> (forall a e1, P a e1 -> Q a e1) -> ensures m Q e.
Proof. intros H HQ a e' Hm. by apply HQ, H. Qed.

Lemma ensures_and {A} (m : eff E A) (P Q : A -> E -> Prop) e :
  ensures m P e -> ensures m Q e -> ensures m (fun a e1 => P a e1 /\ Q a e1) e.
Proof. intros HP HQ a e' Hm. split; [by apply HP|by apply HQ]. Qed.

Lemma ensures_bind' {A B} (m : eff E A) (k : A -> eff E B) Q P e :
  ensures m Q e -> (forall a e1, Q a e1 -> ensures (k a) P e1) -> ensures (m ≫= k) P e.
Proof. intros Hm Hk. apply ensures_bind. eapply ensures_mono; [done|]. exact Hk. Qed.

Lemma ensures_true {A} (m : eff E A) e : ensures m (fun _ _ => True) e.
Proof. done. Qed.

Lemma ensures_skip {A B} (m : eff E A) (k : A -> eff E B) P e :
  (forall a e1, ensures (k a) P e1) -> ensures (m ≫= k) P e.
Proof. intros Hk. eapply ensures_bind'; [apply ensures_true|]. intros a e1 _. apply Hk. Qed.

Lemma ensures_run {A} (m : eff E A) (P : A -> E -> Prop) e a e1 : m e = Some (a, e1) -> P a e1 -> ensures m P e.
Proof. intros Hm HP a' e'. rewrite Hm. by intros [= <- <-]. Qed.

Lemma ensures_lift {A} (o : option A) (P : A -> E -> Prop) e :
  (forall a, o = Some a -> P a e) -> ensures (eff_lift o) P e.
Proof. intros H a e'. unfold eff_lift. destruct o as [x|]; [|done]. intros [= <- <-]. by apply H. Qed.

Lemma ensures_plat {A} (f : E -> A * E) (P : A -> E -> Prop) e :
  P (fst (f e)) (snd (f e)) -> ensures (eff_plat f) P e.
Proof. intros H a e'. unfold eff_plat. destruct (f e). by intros [= <- <-]. Qed.

Lemma ensures_act (f : E -> E) (P : unit -> E -> Prop) e : P tt (f e) -> ensures (eff_act f) P e.
Proof. intros H a e'. unfold eff_act. by intros [= <- <-]. Qed.

Context (R : E -> E -> Prop) `{!PreOrder R}.

Definition keeps {A} (m : eff E A) : Prop := forall e, ensures m (fun _ e' => R e e') e.

Lemma keeps_ret {A} (a : A) : keeps (mret a).
Proof. intros e. by apply ensures_ret. Qed.

Lemma keeps_fail {A} : keeps (eff_fail (A := A)).
Proof. intros e. apply ensures_fail. Qed.

Lemma keeps_lift {A} (o : option A) : keeps (eff_lift o).
Proof. intros e. by apply ensures_lift. Qed.

Lemma keeps_bind {A B} (m : eff E A) (k : A -> eff E B) :
  keeps m -> (forall a, keeps (k a)) -> keeps (m ≫= k).
Proof.
  intros Hm Hk e. eapply ensures_bind'; [apply Hm|]. intros a e1 H1.
  eapply ensures_mono; [apply Hk|]. intros b e2 H2. by transitivity e1.
Qed.

Lemma keeps_plat {A} (f : E -> A * E) : (forall e, R e (snd (f e))) -> keeps (eff_plat f).
Proof. intros H e. apply ensures_plat, H. Qed.

Lemma keeps_act (f : E -> E) : (forall e, R e (f e)) -> keeps (eff_act f).
Proof. intros H e. apply ensures_act, H. Qed.
End Ensures.

Create HintDb keeps discriminated.

(** Goes through a function by its binds and its cases; what is called is found in [keeps]. *)
Ltac keeps :=
  repeat first
    [ match goal with |- keeps ?R (_ ≫= _) => apply (keeps_bind R); [|intros ?] end
    | match goal with |- keeps ?R (mret _) => apply (keeps_ret R) end
    | apply keeps_fail
    | match goal with |- keeps ?R (eff_lift _) => apply (keeps_lift R) end
    | solve [eauto 2 with keeps]
    | match goal with
      | |- keeps _ (match ?x with _ => _ end) => destruct x
      | |- keeps _ (let _ := _ in _) => cbv zeta
      end ].
