(* ===== verification/InfraHttpc.v ===== *)
(** * InfraHttpc: the HTTP client

    [eng/infra/infra_httpc.c]: a request is sent over a connection of [InfraNet], the head
    of the response is read into a buffer of 1024 bytes until its empty line, and the body
    is handed over in pieces of the size of the caller's buffer.  The [wrapper_http_*]
    functions keep the options of a transfer in a handle.

    A string that a pointer leads to is its content, [None] for NULL; the context of the
    receive callback is kept in the handle, where the caller reads it back. *)

From S2P Require Import Prelude.
From S2P Require Import CString.
From S2P Require Import Hal.
From S2P Require Import InfraState.
From S2P Require Import InfraTimer.
From S2P Require Import InfraNet.
From S2P Require Import Eff.

Definition HTTPCLIENT_READ_BUF_SIZE : Z := 1024.
Definition HTTPCLIENT_RAED_HEAD_SIZE : Z := 32.
Definition HTTPCLIENT_SEND_BUF_SIZE : Z := 1024.
Definition HTTPCLIENT_MAX_URL_LEN : nat := 256.
Definition HTTP_RETRIEVE_MORE_DATA : Z := 1.
Definition HTTPCLIENT_CHUNK_SIZE : Z := 1024.
Definition MIN_TIMEOUT : Z := 100.
Definition MAX_RETRY_COUNT : Z := 600.
Definition HTTPCLIENT_GET : Z := 0.
Definition HTTPCLIENT_POST : Z := 1.
Definition HTTPCLIENT_PUT : Z := 2.
Definition HTTPCLIENT_DELETE : Z := 3.
Definition HTTPCLIENT_HEAD : Z := 4.
Definition IOTX_HTTP_GET : Z := 0.
Definition IOTX_HTTP_POST : Z := 1.
Definition sizeof_http_handle : Z := 128.

Definition CRLF : list Z := [13; 10].

Record httpclient_t := HttpClient {
  net : utils_network_t;
  response_code : Z;
  hc_header : option (list Z)
}.

#[global] Instance eta_httpclient : Eta httpclient_t := fun c =>
  HttpClient (net c) (response_code c) (hc_header c).

Record httpclient_data_t := HttpData {
  is_more : bool;
  is_chunked : bool;
  retrieve_len : Z;
  response_content_len : Z;
  response_received_len : Z;
  post_buf_len : Z;
  response_buf_len : Z;
  post_content_type : option (list Z);
  post_buf : option (list Z);
  response_buf : list Z
}.

#[global] Instance eta_httpclient_data : Eta httpclient_data_t := fun d =>
  HttpData (is_more d) (is_chunked d) (retrieve_len d) (response_content_len d)
    (response_received_len d) (post_buf_len d) (response_buf_len d) (post_content_type d)
    (post_buf d) (response_buf d).

Definition http_client_zero : httpclient_t := HttpClient utils_network_zero 0 None.
Definition http_data_zero : httpclient_data_t := HttpData false false 0 0 0 0 0 None None [].

(** ** The URL *)

(** The host and the path of a URL, in the two arrays of [HTTPCLIENT_MAX_URL_LEN] zeros of
    the caller: their strings.  A fragment before the path makes the path's length wrap. *)
Definition _utils_parse_url (url : list Z) : option (Z * (list Z * list Z)) :=
  match find_sub url (lit "://") with
  | None => Some (STATE_USER_INPUT_HTTP_URL, ([], []))
  | Some p =>
      let host_ptr := drop (p + 3) url in
      match find_sub host_ptr (lit "/") with
      | None => Some (STATE_USER_INPUT_HTTP_PATH, ([], []))
      | Some host_len =>
          let path_ptr := drop host_len host_ptr in
          let path_len := match find_sub host_ptr (lit "#") with
                          | Some f => u32 (Z.of_nat f - Z.of_nat host_len)
                          | None => Z.of_nat (List.length path_ptr)
                          end in
          if (HTTPCLIENT_MAX_URL_LEN <=? host_len)%nat || (Z.of_nat HTTPCLIENT_MAX_URL_LEN <=? path_len)
          then None
          else Some (STATE_SUCCESS, (take host_len host_ptr, take (Z.to_nat path_len) path_ptr))
      end
  end.

Section Http.
Context {E : Type} `{!Hal E}.

Definition net_write (client : httpclient_t) (buf : list Z) : eff E Z :=
  eff_plat (utils_net_write (net client) buf 5000).

(** ** The request *)

(** The loop of [_utils_fill_tx_buffer]: the code, the buffer and the index behind what is
    stored.  A full buffer is sent, but the index is not reset. *)
Fixpoint fill_tx_loop (n : nat) (client : httpclient_t) (send_buf : list Z) (idx : Z) (buf : list Z)
    (len : Z) : eff E (Z * list Z * Z) :=
  match n with
  | O => eff_fail
  | S n' =>
      let room := HTTPCLIENT_SEND_BUF_SIZE - idx in
      let cp_len := if len <=? room then len else room in
      send_buf ← buf_cpy send_buf idx buf cp_len;
      let idx := idx + cp_len in
      let len := len - cp_len in
      if idx =? HTTPCLIENT_SEND_BUF_SIZE then
        ret ← net_write client send_buf;
        if negb (ret =? 0) then mret (ret, send_buf, idx)
        else if len =? 0 then mret (STATE_SUCCESS, send_buf, idx)
        else fill_tx_loop n' client send_buf idx buf len
      else if len =? 0 then mret (STATE_SUCCESS, send_buf, idx)
      else fill_tx_loop n' client send_buf idx buf len
  end.

(** The second turn finds the buffer full, and only a platform that accepts nothing and
    reports no error makes a third. *)
Definition tx_fuel : nat := 1000.

(** The code, the send buffer and [*send_idx]. *)
Definition _utils_fill_tx_buffer (client : httpclient_t) (send_buf : list Z) (send_idx : Z) (buf : list Z)
    (len : Z) : eff E (Z * list Z * Z) :=
  let len := if len =? 0 then Z.of_nat (List.length buf) else len in
  '(ret, send_buf, idx) ← fill_tx_loop tx_fuel client send_buf send_idx buf len;
  if negb (ret =? STATE_SUCCESS) then mret (ret, send_buf, send_idx)
  else mret (STATE_SUCCESS, send_buf, idx).

Definition method_name (method : Z) : list Z :=
  if method =? HTTPCLIENT_GET then lit "GET"
  else if method =? HTTPCLIENT_POST then lit "POST"
  else if method =? HTTPCLIENT_PUT then lit "PUT"
  else if method =? HTTPCLIENT_DELETE then lit "DELETE"
  else if method =? HTTPCLIENT_HEAD then lit "HEAD"
  else [].

(** [HAL_Snprintf(buf, sizeof(buf), ...)] followed by [_utils_fill_tx_buffer]. *)
Definition fill_format (client : httpclient_t) (send_buf : list Z) (len : Z) (fmt : list Z)
    (args : list parg) : eff E (Z * list Z * Z) :=
  text ← eff_lift (sprintf fmt args);
  let buf := snprintf_text HTTPCLIENT_SEND_BUF_SIZE text in
  _utils_fill_tx_buffer client send_buf len buf (Z.of_nat (List.length buf)).

Definition _http_send_header (client : httpclient_t) (host path : list Z) (method : Z)
    (client_data : httpclient_data_t) : eff E Z :=
  let send_buf := zeros (Z.to_nat HTTPCLIENT_SEND_BUF_SIZE) in
  '(ret, send_buf, len) ← fill_format client send_buf 0
      (lit "%s %s HTTP/1.1" ++ CRLF ++ lit "Host: %s" ++ CRLF) [PS (method_name method); PS path; PS host];
  if negb (ret =? 0) then mret STATE_SYS_DEPEND_NWK_CLOSE
  else
    '(send_buf, len) ← match hc_header client with
      | Some h => '(_, send_buf, len) ←
                    _utils_fill_tx_buffer client send_buf len h (Z.of_nat (List.length h));
                  mret (send_buf, len)
      | None => mret (send_buf, len)
      end;
    '(send_buf, len) ← match post_buf client_data with
      | Some _ =>
          '(_, send_buf, len) ← fill_format client send_buf len (lit "Content-Length: %d" ++ CRLF)
              [PD (post_buf_len client_data)];
          match post_content_type client_data with
          | Some t => '(_, send_buf, len) ← fill_format client send_buf len (lit "Content-Type: %s" ++ CRLF) [PS t];
                      mret (send_buf, len)
          | None => mret (send_buf, len)
          end
      | None => mret (send_buf, len)
      end;
    '(_, send_buf, len) ← _utils_fill_tx_buffer client send_buf len CRLF 0;
    ret ← net_write client (take (Z.to_nat len) send_buf);
    if ret <=? 0 then mret STATE_SYS_DEPEND_NWK_CLOSE else mret STATE_SUCCESS.

Definition _http_send_userdata (client : httpclient_t) (client_data : httpclient_data_t) : eff E Z :=
  match post_buf client_data with
  | Some b =>
      if negb (post_buf_len client_data =? 0) then
        data ← eff_lift (if (post_buf_len client_data <? 0)
                            || (Z.of_nat (List.length b) <? post_buf_len client_data) then None
                         else Some (take (Z.to_nat (post_buf_len client_data)) b));
        ret ← net_write client data;
        if ret <=? 0 then mret STATE_SYS_DEPEND_NWK_CLOSE else mret STATE_SUCCESS
      else mret STATE_SUCCESS
  | None => mret STATE_SUCCESS
  end.

(** ** The response *)

(** [_http_recv(client, buf + off, max_len, &read_len, timeout_ms)]: the code, the buffer and
    [read_len]. *)
Definition _http_recv (client : httpclient_t) (buf : list Z) (off max_len timeout_ms : Z)
    : eff E (Z * list Z * Z) :=
  timer ← eff_plat (utils_time_countdown_ms timeout_ms);
  left ← eff_plat (iotx_time_left (Some timer));
  '(ret, bs) ← eff_plat (fun e => utils_net_read (net client) max_len left e);
  buf ← buf_store buf off bs;
  if 0 <? ret then mret (STATE_SUCCESS, buf, ret)
  else if ret =? 0 then mret (STATE_SYS_DEPEND_NWK_TIMEOUT, buf, 0)
  else mret (STATE_SYS_DEPEND_NWK_CLOSE, buf, 0).

(** The code, the timer and the two counters. *)
Definition _utils_check_deadloop (len : Z) (timer : iotx_time_t) (ret dead_loop_count extend_count : Z)
    : eff E (Z * iotx_time_t * Z * Z) :=
  left ← eff_plat (iotx_time_left (Some timer));
  '(timer, extend_count) ←
    (if left <? MIN_TIMEOUT then
       timer ← eff_plat (utils_time_countdown_ms MIN_TIMEOUT);
       mret (timer, u32 (extend_count + 1))
     else mret (timer, extend_count));
  '(quit, dead_loop_count) ←
    (if len =? 0 then
       left ← eff_plat (iotx_time_left (Some timer));
       if (left =? 0) && (ret <? STATE_SUCCESS) then
         let n := u32 (dead_loop_count + 1) in mret (MAX_RETRY_COUNT <? n, n)
       else mret (false, 0)
     else mret (false, 0));
  if quit : bool then mret (STATE_SYS_DEPEND_NWK_CLOSE, timer, dead_loop_count, extend_count)
  else if (len =? 0) && (2 * MAX_RETRY_COUNT <? extend_count) && (ret <? STATE_SUCCESS)
  then mret (STATE_SYS_DEPEND_NWK_CLOSE, timer, dead_loop_count, extend_count)
  else mret (STATE_SUCCESS, timer, dead_loop_count, extend_count).

(** The code, [*recv_count] and the data. *)
Definition _utils_fill_rx_buf (recv_count len : Z) (client_data : httpclient_data_t) (data : list Z)
    : eff E (Z * Z * httpclient_data_t) :=
  let count := recv_count in
  let room := response_buf_len client_data - 1 in
  if count + len <? room then
    b ← buf_cpy (response_buf client_data) count data len;
    let count := count + len in
    b ← buf_set b count 0;
    mret (STATE_SUCCESS, count,
          client_data <| response_buf := b |> <| retrieve_len ::= fun n => n - len |>)
  else
    b ← buf_cpy (response_buf client_data) count data (room - count);
    b ← buf_set b room 0;
    mret (HTTP_RETRIEVE_MORE_DATA, recv_count,
          client_data <| response_buf := b |> <| retrieve_len ::= fun n => n - (room - count) |>).

(** The inner loop of [_http_get_response_body]; the outer one is left after it. *)
Fixpoint body_loop (n : nat) (client : httpclient_t) (data : list Z) (received written : Z)
    (timer : iotx_time_t) (dead_loop_count extend_count : Z) (client_data : httpclient_data_t)
    : eff E (Z * httpclient_data_t) :=
  match n with
  | O => eff_fail
  | S n' =>
      let len := Z.min received (retrieve_len client_data) in
      '(res, written, client_data) ← _utils_fill_rx_buf written len client_data data;
      if res =? HTTP_RETRIEVE_MORE_DATA then mret (HTTP_RETRIEVE_MORE_DATA, client_data)
      else if retrieve_len client_data =? 0 then mret (STATE_SUCCESS, client_data <| is_more := false |>)
      else
        let max_len := Z.min (HTTPCLIENT_CHUNK_SIZE - 1) (response_buf_len client_data - 1 - written) in
        let max_len := Z.min max_len (retrieve_len client_data) in
        left ← eff_plat (iotx_time_left (Some timer));
        '(ret, data, received) ← _http_recv client data 0 max_len left;
        if negb (ret =? STATE_SUCCESS) then mret (ret, client_data)
        else
          '(ret, timer, dead_loop_count, extend_count) ←
            _utils_check_deadloop received timer ret dead_loop_count extend_count;
          if negb (ret =? STATE_SUCCESS) then mret (ret, client_data)
          else body_loop n' client data received written timer dead_loop_count extend_count client_data
  end.

(** Every turn but the last writes to the response buffer. *)
Definition body_fuel (client_data : httpclient_data_t) : nat := S (S (Z.to_nat (response_buf_len client_data))).

Definition _http_get_response_body (client : httpclient_t) (data : list Z) (received timeout_ms : Z)
    (client_data : httpclient_data_t) : eff E (Z * httpclient_data_t) :=
  timer ← eff_plat (utils_time_countdown_ms timeout_ms);
  let client_data := client_data <| is_more := true |> in
  if (response_content_len client_data =? -1) && negb (is_chunked client_data)
  then mret (STATE_SYS_DEPEND_NWK_CLOSE, client_data)
  else body_loop (body_fuel client_data) client data received 0 timer 0 0 client_data.

(** The loop that reads until the empty line: the code, the buffer, the length and the place
    of the empty line. *)
Fixpoint head_loop (n : nat) (client : httpclient_t) (data : list Z) (len : Z) (timer : iotx_time_t)
    : eff E (Z * list Z * Z * Z) :=
  match n with
  | O => eff_fail
  | S n' =>
      p ← eff_lift (strstr data (CRLF ++ CRLF));
      match p with
      | Some ptr_body_end => mret (STATE_SUCCESS, data, len, Z.of_nat ptr_body_end)
      | None =>
          left ← eff_plat (iotx_time_left (Some timer));
          '(ret, data, new_trf_len) ← _http_recv client data len HTTPCLIENT_RAED_HEAD_SIZE left;
          if negb (ret =? STATE_SUCCESS) then mret (ret, data, len, 0)
          else
            let len := len + new_trf_len in
            data ← buf_set data len 0;
            head_loop n' client data len timer
      end
  end.

(** Every turn reads a byte into the buffer. *)
Definition head_fuel : nat := S (Z.to_nat HTTPCLIENT_READ_BUF_SIZE).

Definition _http_parse_response_header (client : httpclient_t) (data : list Z) (len timeout_ms : Z)
    (client_data : httpclient_data_t) : eff E (Z * httpclient_t * httpclient_data_t) :=
  timer ← eff_plat (utils_time_countdown_ms timeout_ms);
  let client_data := client_data <| response_content_len := -1 |> in
  crlf_ptr ← eff_lift (strstr data CRLF);
  match crlf_ptr with
  | None => mret (ERROR_HTTP_UNRESOLVED_DNS, client, client_data)
  | Some p =>
      let crlf_pos := Z.of_nat p in
      data ← buf_set data crlf_pos 0;
      number ← buf_from data 9;
      code ← eff_lift (atoi number);
      let client := client <| response_code := code |> in
      data ← buf_move data (crlf_pos + 2) (len - (crlf_pos + 2) + 1);
      let len := len - (crlf_pos + 2) in
      let client_data := client_data <| is_chunked := false |> in
      '(ret, data, len, ptr_body_end) ← head_loop head_fuel client data len timer;
      if negb (ret =? STATE_SUCCESS) then mret (ret, client, client_data)
      else
        tmp_ptr ← eff_lift (strstr data (lit "Content-Length"));
        match tmp_ptr with
        | None => mret (STATE_HTTP_RESP_MISSING_CONTENT_LEN, client, client_data)
        | Some t =>
            number ← buf_from data (Z.of_nat t + Z.of_nat (List.length (lit "Content-Length: ")));
            n ← eff_lift (atoi number);
            let client_data := client_data <| response_content_len := n |> <| retrieve_len := n |> in
            let len := len - (ptr_body_end + 4) in
            data ← buf_move data (ptr_body_end + 4) (len + 1);
            let client_data := client_data <| response_received_len ::= fun r => r + len |> in
            left ← eff_plat (iotx_time_left (Some timer));
            '(ret, client_data) ← _http_get_response_body client data len left client_data;
            mret (ret, client, client_data)
        end
  end.

(** ** The connection *)

(** The loop of [httpclient_connect]: the tries that are left. *)
Fixpoint connect_loop (n : nat) (client : httpclient_t) : eff E httpclient_t :=
  match n with
  | O => mret client
  | S n' =>
      let client := client <| net ::= fun c => c <| handle := 0 |> |> in
      '(rc, c) ← eff_plat (iotx_net_connect (net client));
      let client := client <| net := c |> in
      if negb (rc =? 0) then
        '(_, c) ← eff_plat (iotx_net_disconnect (net client));
        eff_act (HAL_SleepMs 1000);;
        connect_loop n' (client <| net := c |>)
      else mret client
  end.

Definition httpclient_connect (client : httpclient_t) : eff E (Z * httpclient_t) :=
  client ← connect_loop 3 client;
  mret (STATE_SUCCESS, client).

Definition _http_send_request (client : httpclient_t) (host path : list Z) (method : Z)
    (client_data : httpclient_data_t) : eff E Z :=
  if handle (net client) =? 0 then mret STATE_SYS_DEPEND_NWK_CLOSE
  else
    ret ← _http_send_header client host path method client_data;
    if negb (ret =? 0) then mret ret
    else if (method =? HTTPCLIENT_POST) || (method =? HTTPCLIENT_PUT)
    then _http_send_userdata client client_data
    else mret ret.

Definition httpclient_recv_response (client : httpclient_t) (timeout_ms : Z) (client_data : httpclient_data_t)
    : eff E (Z * httpclient_t * httpclient_data_t) :=
  let buf := zeros (Z.to_nat HTTPCLIENT_READ_BUF_SIZE) in
  timer ← eff_plat (utils_time_countdown_ms timeout_ms);
  if handle (net client) =? 0 then mret (STATE_SYS_DEPEND_NWK_CLOSE, client, client_data)
  else if is_more client_data then
    b ← buf_set (response_buf client_data) 0 0;
    left ← eff_plat (iotx_time_left (Some timer));
    '(ret, client_data) ← _http_get_response_body client buf 0 left (client_data <| response_buf := b |>);
    mret (ret, client, client_data)
  else
    let client_data := client_data <| is_more := true |> in
    left ← eff_plat (iotx_time_left (Some timer));
    '(ret, buf, reclen) ← _http_recv client buf 0 HTTPCLIENT_RAED_HEAD_SIZE left;
    if negb (ret =? STATE_SUCCESS) then mret (ret, client, client_data)
    else
      buf ← buf_set buf reclen 0;
      if negb (reclen =? 0) then
        left ← eff_plat (iotx_time_left (Some timer));
        _http_parse_response_header client buf reclen left client_data
      else mret (ret, client, client_data).

Definition httpclient_close (client : httpclient_t) : eff E httpclient_t :=
  client ← (if 0 <? handle (net client) then
              '(_, c) ← eff_plat (iotx_net_disconnect (net client)); mret (client <| net := c |>)
            else mret client);
  mret (client <| net ::= fun c => c <| handle := 0 |> |>).

Definition _http_send (client : httpclient_t) (url : list Z) (port : Z) (ca_crt : option (list Z))
    (method : Z) (client_data : httpclient_data_t) : eff E (Z * httpclient_t) :=
  '(ret, (host, path)) ← eff_lift (_utils_parse_url url);
  if negb (ret =? STATE_SUCCESS) then mret (ret, client)
  else if handle (net client) =? 0 then
    let '(ret, c) := iotx_net_init (net client) (Some host) port ca_crt in
    let client := client <| net := c |> in
    if negb (ret =? 0) then mret (ret, client)
    else
      '(ret, client) ← httpclient_connect client;
      if negb (ret =? 0) then client ← httpclient_close client; mret (ret, client)
      else
        ret ← _http_send_request client host path method client_data;
        if negb (ret =? STATE_SUCCESS) then mret (ret, client) else mret (STATE_SUCCESS, client)
  else mret (STATE_SUCCESS, client).

(** [response_buf] is not NULL. *)
Definition httpclient_common (client : httpclient_t) (url : list Z) (port : Z) (ca_crt : option (list Z))
    (method timeout_ms : Z) (client_data : httpclient_data_t)
    : eff E (Z * httpclient_t * httpclient_data_t) :=
  '(ret, client) ← _http_send client url port ca_crt method client_data;
  if negb (ret =? STATE_SUCCESS) then client ← httpclient_close client; mret (ret, client, client_data)
  else
    timer ← eff_plat (utils_time_countdown_ms timeout_ms);
    '(ret, client, client_data) ←
      (if negb (response_buf_len client_data =? 0) then
         left ← eff_plat (iotx_time_left (Some timer));
         httpclient_recv_response client left client_data
       else mret (STATE_SUCCESS, client, client_data));
    if ret <? STATE_SUCCESS then client ← httpclient_close client; mret (ret, client, client_data)
    else
      client ← (if negb (is_more client_data) then httpclient_close client else mret client);
      mret (0, client, client_data).

Definition iotx_post (client : httpclient_t) (url : list Z) (port : Z) (ca_crt : option (list Z))
    (client_data : httpclient_data_t) : eff E (Z * httpclient_t) :=
  _http_send client url port ca_crt HTTPCLIENT_POST client_data.
End Http.

(** ** Transfers *)

(** [wrapper_http_handle_t], for a callback whose context is a [C]: it is given the bytes
    received, their number and the length of the body, and its result is not looked at. *)
Record wrapper_http_handle_t (C : Type) := HttpHandle {
  hh_client : httpclient_t;
  http_client_data : httpclient_data_t;
  receive_maxlen : Z;
  already_received : Z;
  hh_url : option (list Z);
  hh_port : Z;
  hh_method : Z;
  hh_header : option (list Z);
  hh_cert : option (list Z);
  hh_timeout : Z;
  recv_cb : option (list Z -> Z -> Z -> C -> option C);
  recv_ctx : option C
}.
Arguments HttpHandle {C}.
Arguments hh_client {C}.
Arguments http_client_data {C}.
Arguments receive_maxlen {C}.
Arguments already_received {C}.
Arguments hh_url {C}.
Arguments hh_port {C}.
Arguments hh_method {C}.
Arguments hh_header {C}.
Arguments hh_cert {C}.
Arguments hh_timeout {C}.
Arguments recv_cb {C}.
Arguments recv_ctx {C}.

#[global] Instance eta_http_handle C : Eta (wrapper_http_handle_t C) := fun h =>
  HttpHandle (hh_client h) (http_client_data h) (receive_maxlen h) (already_received h) (hh_url h)
    (hh_port h) (hh_method h) (hh_header h) (hh_cert h) (hh_timeout h) (recv_cb h) (recv_ctx h).

(** [iotx_http_option_t], each with what [data] points to; a string option with NULL is
    refused like every other. *)
Inductive http_option (C : Type) :=
  | IOTX_HTTPOPT_URL (data : list Z)
  | IOTX_HTTPOPT_PORT (data : Z)
  | IOTX_HTTPOPT_METHOD (data : Z)
  | IOTX_HTTPOPT_HEADER (data : list Z)
  | IOTX_HTTPOPT_CERT (data : list Z)
  | IOTX_HTTPOPT_TIMEOUT (data : Z)
  | IOTX_HTTPOPT_RECVCALLBACK (data : list Z -> Z -> Z -> C -> option C)
  | IOTX_HTTPOPT_RECVMAXLEN (data : Z)
  | IOTX_HTTPOPT_RECVCONTEXT (data : C).
Arguments IOTX_HTTPOPT_URL {C}.
Arguments IOTX_HTTPOPT_PORT {C}.
Arguments IOTX_HTTPOPT_METHOD {C}.
Arguments IOTX_HTTPOPT_HEADER {C}.
Arguments IOTX_HTTPOPT_CERT {C}.
Arguments IOTX_HTTPOPT_TIMEOUT {C}.
Arguments IOTX_HTTPOPT_RECVCALLBACK {C}.
Arguments IOTX_HTTPOPT_RECVMAXLEN {C}.
Arguments IOTX_HTTPOPT_RECVCONTEXT {C}.

Section Transfer.
Context {E : Type} `{!Hal E} {C : Type}.

Definition http_handle_zero : wrapper_http_handle_t C :=
  HttpHandle http_client_zero http_data_zero 0 0 None 0 0 None None 0 None None.

(** What [*ptr] becomes: the copy, or NULL. *)
Definition _replase_str (data : list Z) : eff E (option (list Z)) :=
  ok ← eff_malloc (Z.of_nat (List.length data) + 1);
  mret (if ok : bool then Some data else None).

Definition wrapper_http_init : eff E (option (wrapper_http_handle_t C)) :=
  ok ← eff_malloc sizeof_http_handle;
  mret (if ok : bool then Some http_handle_zero else None).

(** [None] is a [data] that is NULL. *)
Definition wrapper_http_setopt (h : wrapper_http_handle_t C) (opt : option (http_option C))
    : eff E (Z * wrapper_http_handle_t C) :=
  match opt with
  | None => mret (STATE_USER_INPUT_INVALID, h)
  | Some (IOTX_HTTPOPT_URL s) => p ← _replase_str s; mret (STATE_SUCCESS, h <| hh_url := p |>)
  | Some (IOTX_HTTPOPT_PORT n) =>
      if n <? 0 then mret (STATE_USER_INPUT_HTTP_PORT, h) else mret (STATE_SUCCESS, h <| hh_port := n |>)
  | Some (IOTX_HTTPOPT_METHOD n) => mret (STATE_SUCCESS, h <| hh_method := n |>)
  | Some (IOTX_HTTPOPT_HEADER s) => p ← _replase_str s; mret (STATE_SUCCESS, h <| hh_header := p |>)
  | Some (IOTX_HTTPOPT_CERT s) => mret (STATE_SUCCESS, h <| hh_cert := Some s |>)
  | Some (IOTX_HTTPOPT_TIMEOUT n) =>
      if n <? 0 then mret (STATE_USER_INPUT_HTTP_TIMEOUT, h) else mret (STATE_SUCCESS, h <| hh_timeout := n |>)
  | Some (IOTX_HTTPOPT_RECVCALLBACK f) => mret (STATE_SUCCESS, h <| recv_cb := Some f |>)
  | Some (IOTX_HTTPOPT_RECVMAXLEN n) => mret (STATE_SUCCESS, h <| receive_maxlen := n |>)
  | Some (IOTX_HTTPOPT_RECVCONTEXT c) => mret (STATE_SUCCESS, h <| recv_ctx := Some c |>)
  end.

(** A URL that is NULL is followed by [_utils_parse_url].  The pointers to the payload and to
    the data posted stay in the handle; nothing follows them before they are set again. *)
Definition wrapper_http_perform (h : wrapper_http_handle_t C) (data : option (list Z)) (length : Z)
    : eff E (Z * wrapper_http_handle_t C) :=
  if (hh_method h =? IOTX_HTTP_POST) && (match data with None => true | _ => false end || (length <=? 0))
  then mret (STATE_USER_INPUT_HTTP_POST_DATA, h)
  else if receive_maxlen h <=? 0 then mret (STATE_USER_INPUT_INVALID, h)
  else
    ok ← eff_malloc (receive_maxlen h);
    if negb ok then mret (STATE_SYS_DEPEND_MALLOC, h)
    else
      let client := (hh_client h) <| hc_header := hh_header h |> in
      let d := (http_client_data h) <| post_buf := data |> <| post_buf_len := length |>
                 <| response_buf := zeros (Z.to_nat (receive_maxlen h)) |>
                 <| response_buf_len := receive_maxlen h |> in
      url ← eff_lift (hh_url h);
      '(res, client) ← _http_send client url (hh_port h) (hh_cert h) (hh_method h) d;
      let h := h <| hh_client := client |> <| http_client_data := d |> in
      if res <? STATE_SUCCESS then mret (res, h)
      else
        timer ← eff_plat (utils_time_countdown_ms (hh_timeout h));
        left ← eff_plat (iotx_time_left (Some timer));
        '(res, client, d) ← httpclient_recv_response client left d;
        let h := h <| hh_client := client |> <| http_client_data := d |> in
        if res <? STATE_SUCCESS then mret (res, h)
        else
          let received := response_content_len d - retrieve_len d in
          let received_this_time := received - already_received h in
          let h := h <| already_received := received |> in
          match recv_cb h with
          | Some cb =>
              c ← eff_lift (recv_ctx h);
              c ← eff_lift (cb (response_buf d) received_this_time (response_content_len d) c);
              mret (received_this_time, h <| recv_ctx := Some c |>)
          | None => mret (received_this_time, h)
          end.

(** Of a handle that is not NULL. *)
Definition wrapper_http_deinit (h : wrapper_http_handle_t C) : eff E unit :=
  httpclient_close (hh_client h);; mret tt.
End Transfer.
