(* ===== verification/HttpSpec.v ===== *)
(** * HttpSpec: what a transfer delivers

    On a platform that connects and keeps account of its bytes ([HalStream], [HalOnline],
    [HalMemory]), a transfer sends its request once, and the pieces it hands over are the
    body of the response, in order and complete. *)

From S2P Require Import Prelude.
From S2P Require Import CString.
From S2P Require Import Hal.
From S2P Require Import InfraState.
From S2P Require Import InfraTimer.
From S2P Require Import InfraNet.
From S2P Require Import Eff.
From S2P Require Import InfraHttpc.

(** ** The response *)

(** [s] is the status line, [r] the rest of the head with the empty line, for a body of [n]
    bytes: the first 32 bytes hold the status line, and the rest fits the buffer together
    with what is read behind it. *)
Record head_ok (s r : list Z) (n : Z) : Prop := {
  ho_status : cstr_ok s;
  ho_line : find_sub (s ++ CRLF) CRLF = Some (List.length s);
  ho_short : (9 <= List.length s <= 30)%nat;
  ho_code : exists c, forall t, atoi (drop 9 s ++ 0 :: t) = Some c;
  ho_rest : cstr_ok r;
  ho_size : (List.length r <= 992)%nat;
  ho_end : find_sub r (CRLF ++ CRLF) = Some (List.length r - 4)%nat;
  ho_n : 0 <= n < 2147483648;
  ho_length : exists pre post, r = pre ++ lit "Content-Length: " ++ dec_digits 20 n ++ CRLF ++ post
                /\ find_sub r (lit "Content-Length") = Some (List.length pre)
}.

Section Transfer.
Context {E : Type} `{!Hal E, !HalStream E, !HalOnline E, !HalMemory E}.

Definition same (e e' : E) : Prop := out_of e' = out_of e /\ in_of e' = in_of e.

Lemma same_refl e : same e e.
Proof. done. Qed.

Lemma same_trans e1 e2 e3 : same e1 e2 -> same e2 e3 -> same e1 e3.
Proof. intros [? ?] [? ?]. split; congruence. Qed.

(** ** Timers do not touch the connection *)

Lemma runs_countdown ms (P : iotx_time_t -> E -> Prop) e :
  (forall t e', same e e' -> P t e') -> runs (eff_plat (utils_time_countdown_ms ms)) P e.
Proof.
  intros H. apply runs_plat. unfold utils_time_countdown_ms. pose proof (stream_uptime e) as Hs.
  destruct (HAL_UptimeMs e) as [now e']. by apply H.
Qed.

Lemma time_left_same t (e : E) : same e (snd (iotx_time_left (Some t) e)).
Proof.
  unfold iotx_time_left, utils_time_is_expired. pose proof (stream_uptime e) as H1.
  destruct (HAL_UptimeMs e) as [n1 e1]. cbn [snd] in H1. destruct (_ <? _); [done|]. cbn [Z.eqb negb].
  pose proof (stream_uptime e1) as H2. destruct (HAL_UptimeMs e1) as [n2 e2]. by eapply same_trans.
Qed.

Lemma runs_left t (P : Z -> E -> Prop) e :
  (forall n e', same e e' -> P n e') -> runs (eff_plat (iotx_time_left (Some t))) P e.
Proof. intros H. apply runs_plat. apply H, time_left_same. Qed.

Lemma runs_malloc n (P : bool -> E -> Prop) e :
  (forall e', same e e' -> P true e') -> runs (eff_malloc n) P e.
Proof.
  intros H. apply runs_plat. pose proof (stream_malloc n e) as Hs. pose proof (hal_malloc_ok n e) as Hm.
  destruct (HAL_Malloc n e) as [ok e']. cbn [fst snd] in *. subst ok. by apply H.
Qed.

Lemma check_deadloop_ok len t d x (e : E) :
  runs (_utils_check_deadloop len t STATE_SUCCESS d x)
    (fun '(ret, _, _, _) e' => ret = STATE_SUCCESS /\ same e e') e.
Proof.
  unfold _utils_check_deadloop. apply runs_bind, runs_left. intros l e1 H1. apply runs_bind.
  apply (runs_mono _ (fun _ e2 => same e e2)).
  { destruct (l <? MIN_TIMEOUT); [|by apply runs_ret]. apply runs_bind, runs_countdown. intros t' e2 H2.
    apply runs_ret. by eapply same_trans. }
  intros [t' x'] e2 H2. apply runs_bind. apply (runs_mono _ (fun '(q, _) e3 => q = false /\ same e e3)).
  { destruct (len =? 0); [|by apply runs_ret]. apply runs_bind, runs_left. intros l' e3 H3.
    change (STATE_SUCCESS <? STATE_SUCCESS) with false. rewrite andb_false_r. apply runs_ret.
    split; [done|]. by eapply same_trans. }
  intros [q d'] e3 [-> H3]. change (STATE_SUCCESS <? STATE_SUCCESS) with false. rewrite andb_false_r.
  by apply runs_ret.
Qed.

(** ** Reading *)

(** A read into a buffer that has room for what was asked. *)
Lemma recv_ok client buf off n t (P : Z * list Z * Z -> E -> Prop) e :
  0 <= off -> 0 < n -> off + n <= Z.of_nat (List.length buf) -> in_of e <> [] ->
  (forall e', let bs := take (Z.to_nat n) (in_of e) in
     out_of e' = out_of e -> in_of e' = drop (Z.to_nat n) (in_of e) ->
     P (STATE_SUCCESS, take (Z.to_nat off) buf ++ bs ++ drop (Z.to_nat off + List.length bs) buf,
        Z.of_nat (List.length bs)) e') ->
  runs (_http_recv client buf off n t) P e.
Proof.
  intros Ho Hn Hl Hin HP. unfold _http_recv. apply runs_bind, runs_countdown. intros tm e1 H1.
  apply runs_bind, runs_left. intros l e2 H2. destruct (same_trans _ _ _ H1 H2) as [H3 H4].
  apply runs_bind, runs_plat. unfold utils_net_read, read_ssl.
  destruct (stream_read (handle (net client)) n l e2) as (e3 & -> & Ho3 & Hi3); [lia|].
  cbn [fst snd]. rewrite H4 in *. rewrite H3 in Ho3.
  assert (0 < List.length (take (Z.to_nat n) (in_of e)) <= Z.to_nat n)%nat as Hb.
  { rewrite length_take. destruct (in_of e); [done|]. cbn [List.length]. lia. }
  apply runs_bind, runs_store; [lia|lia|]. rewrite (proj2 (Z.ltb_lt 0 _)) by lia. apply runs_ret. by apply HP.
Qed.

(** ** The body *)

(** The response buffer of [d] starts with [W]. *)
Definition holds_first (d : httpclient_data_t) (W : list Z) : Prop :=
  Z.of_nat (List.length (response_buf d)) = response_buf_len d
  /\ exists rest, response_buf d = W ++ rest.

(** What reading does to the data: the buffer and the counts. *)
Definition received_more (d d' : httpclient_data_t) (W : list Z) (left : Z) (more : bool) : Prop :=
  exists b, d' = d <| response_buf := b |> <| retrieve_len := left |> <| is_more := more |>
    /\ holds_first d' W.

Lemma fill_rx_ok (d : httpclient_data_t) W x rest (e : E) (P : Z * Z * httpclient_data_t -> E -> Prop) :
  holds_first d W -> (0 < response_buf_len d) ->
  let cap := response_buf_len d - 1 - Z.of_nat (List.length W) in
  Z.of_nat (List.length x) <= cap ->
  (forall b, holds_first (d <| response_buf := b |>) (W ++ x) ->
     P (if Z.of_nat (List.length x) <? cap then STATE_SUCCESS else HTTP_RETRIEVE_MORE_DATA,
        (if Z.of_nat (List.length x) <? cap then Z.of_nat (List.length (W ++ x)) else Z.of_nat (List.length W)),
        d <| response_buf := b |> <| retrieve_len ::= fun n => n - Z.of_nat (List.length x) |>) e) ->
  runs (_utils_fill_rx_buf (Z.of_nat (List.length W)) (Z.of_nat (List.length x)) d (x ++ rest)) P e.
Proof.
  intros [Hl [q Hq]] Hp cap Hx HP. subst cap. unfold _utils_fill_rx_buf.
  pose proof (length_app W x) as Hwx. assert (List.length q = List.length (response_buf d) - List.length W)%nat as Hlq
    by (rewrite Hq, length_app; lia).
  assert (forall i, Z.of_nat (List.length W) + Z.of_nat (List.length x) <= i < response_buf_len d ->
    holds_first (d <| response_buf := <[Z.to_nat i := 0]> (W ++ x ++ drop (List.length x) q) |>) (W ++ x)) as Hset.
  { intros i Hi. split.
    - change (Z.of_nat (List.length (<[Z.to_nat i:=0]> (W ++ x ++ drop (List.length x) q))) = response_buf_len d).
      rewrite length_insert, !length_app, length_drop. lia.
    - change (exists t, <[Z.to_nat i:=0]> (W ++ x ++ drop (List.length x) q) = (W ++ x) ++ t).
      rewrite app_assoc, insert_app_r_alt by lia. eauto. }
  assert (forall (e1 : E) n k (Q : list Z -> E -> Prop), n = Z.of_nat (List.length x) -> k = Z.of_nat (List.length W) ->
    Q (W ++ x ++ drop (List.length x) q) e1 -> runs (buf_cpy (response_buf d) k (x ++ rest) n) Q e1) as Hcpy.
  { intros e1 n k Q -> -> HQ. apply runs_cpy; rewrite ?length_app; [lia|lia|lia|].
    rewrite !Nat2Z.id, Hq, take_app_length, take_app_length, <-drop_drop, drop_app_length. exact HQ. }
  destruct (Z.ltb_spec (Z.of_nat (List.length x)) (response_buf_len d - 1 - Z.of_nat (List.length W))) as [Hlt|Hge].
  - rewrite (proj2 (Z.ltb_lt _ _)) by lia. apply runs_bind, Hcpy; [done|done|].
    apply runs_bind, runs_set; [rewrite !length_app, length_drop; lia|]. apply runs_ret.
    replace (Z.of_nat (List.length W) + Z.of_nat (List.length x)) with (Z.of_nat (List.length (W ++ x))) by lia.
    apply HP, Hset. lia.
  - rewrite (proj2 (Z.ltb_ge _ _)) by lia. apply runs_bind, Hcpy; [lia|done|].
    apply runs_bind, runs_set; [rewrite !length_app, length_drop; lia|]. apply runs_ret.
    replace (response_buf_len d - 1 - Z.of_nat (List.length W)) with (Z.of_nat (List.length x)) by lia.
    apply HP, Hset. lia.
Qed.

Lemma body_loop_ok n : forall client x y rest W tm dl xc (d : httpclient_data_t) (e : E),
  List.length (x ++ rest) = 1024%nat -> in_of e = y ->
  holds_first d W -> 0 < response_buf_len d ->
  let cap := response_buf_len d - 1 - Z.of_nat (List.length W) in
  Z.of_nat (List.length x) <= cap -> retrieve_len d = Z.of_nat (List.length (x ++ y)) ->
  (if bool_decide (x = []) then 1 else 0) + cap < Z.of_nat n ->
  runs (body_loop n client (x ++ rest) (Z.of_nat (List.length x)) (Z.of_nat (List.length W)) tm dl xc d)
    (fun '(res, d') e' =>
       let whole := Z.of_nat (List.length (x ++ y)) <? cap in
       let D := take (Z.to_nat cap) (x ++ y) in
       res = (if whole then STATE_SUCCESS else HTTP_RETRIEVE_MORE_DATA)
       /\ received_more d d' (W ++ D) (Z.of_nat (List.length (x ++ y)) - Z.of_nat (List.length D))
            (if whole then false else is_more d)
       /\ out_of e' = out_of e /\ in_of e' = drop (Z.to_nat cap) (x ++ y)) e.
Proof.
  induction n as [|n IH]; intros client x y rest W tm dl xc d e Hr Hy Hd Hp cap Hx Hret Hf;
    [destruct (bool_decide _); subst cap; lia|].
  pose proof (length_app x y) as Hxy. cbn [body_loop].
  rewrite Hret, Z.min_l by lia. apply runs_bind, fill_rx_ok; [done|done|done|]. intros b Hb. fold cap.
  change (is_more (d <| response_buf := b |>)) with (is_more d) in *.
  set (d1 := d <| response_buf := b |> <| retrieve_len ::= fun n => n - Z.of_nat (List.length x) |>).
  assert (retrieve_len d1 = Z.of_nat (List.length y)) as Hr1
    by (change (retrieve_len d1) with (retrieve_len d - Z.of_nat (List.length x)); lia).
  destruct (Z.ltb_spec (Z.of_nat (List.length x)) cap) as [Hlt|Hge]; last first.
  { change (HTTP_RETRIEVE_MORE_DATA =? HTTP_RETRIEVE_MORE_DATA) with true. cbn iota. apply runs_ret.
    cbn zeta beta iota. rewrite (proj2 (Z.ltb_ge _ cap)) by lia.
    assert (Z.to_nat cap = List.length x) as -> by lia. rewrite take_app_length, drop_app_length.
    split; [done|]. split; [|done]. exists b. split; [|exact Hb].
    unfold d1. replace (Z.of_nat (List.length (x ++ y)) - Z.of_nat (List.length x)) with (retrieve_len d1) by (rewrite Hr1; lia).
    unfold d1. by destruct d. }
  change (STATE_SUCCESS =? HTTP_RETRIEVE_MORE_DATA) with false. cbn iota. rewrite Hr1.
  destruct (Z.eqb_spec (Z.of_nat (List.length y)) 0) as [Hy0|Hy0].
  { apply runs_ret. cbn zeta beta iota. rewrite (proj2 (Z.ltb_lt _ cap)) by lia.
    assert (y = []) as -> by (destruct y; [done|cbn in Hy0; lia]). rewrite app_nil_r in *.
    rewrite take_ge, drop_ge by lia. split; [done|]. split; [|by rewrite Hy]. exists b. split; [|exact Hb].
    unfold d1. replace (Z.of_nat (List.length x) - Z.of_nat (List.length x)) with (retrieve_len d1) by (rewrite Hr1; cbn [List.length]; lia).
    unfold d1. by destruct d. }
  assert (y <> []) as Hyn by (intros ->; done).
  change (response_buf_len d1) with (response_buf_len d).
  set (max := Z.min (Z.min (HTTPCLIENT_CHUNK_SIZE - 1) (response_buf_len d - 1 - Z.of_nat (List.length (W ++ x))))
                (Z.of_nat (List.length y))).
  assert (0 < max /\ max <= 1023 /\ max <= Z.of_nat (List.length y) /\ max <= cap - Z.of_nat (List.length x)) as (Hm1 & Hm2 & Hm3 & Hm4).
  { unfold max, HTTPCLIENT_CHUNK_SIZE. rewrite length_app. subst cap. lia. }
  apply runs_bind, runs_left. intros l e1 [Ho1 Hi1]. apply runs_bind, recv_ok; [lia|lia|lia|by rewrite Hi1, Hy|].
  rewrite Hi1, Hy. intros e2 bs Ho2 Hi2.
  assert (Z.of_nat (List.length bs) = max) as Hbs by (subst bs; rewrite length_take; lia).
  change (negb (STATE_SUCCESS =? STATE_SUCCESS)) with false. cbn iota. apply runs_bind.
  eapply runs_mono; [apply check_deadloop_ok|]. intros [[[ret tm'] dl'] xc'] e3 [-> [Ho3 Hi3]].
  change (negb (STATE_SUCCESS =? STATE_SUCCESS)) with false. cbn iota.
  change (Z.to_nat 0) with 0%nat. rewrite take_0. cbn [app Nat.add].
  assert (bs ++ drop (Z.to_nat max) y = y) as Hy' by (subst bs; apply take_drop).
  eapply runs_mono; [apply (IH client bs (drop (Z.to_nat max) y) _ (W ++ x) tm' dl' xc' d1 e3)|].
  - rewrite length_app, length_drop. lia.
  - by rewrite Hi3.
  - exact Hb.
  - done.
  - change (response_buf_len d1) with (response_buf_len d). rewrite length_app. lia.
  - by rewrite Hr1, Hy'.
  - change (response_buf_len d1) with (response_buf_len d). rewrite bool_decide_eq_false_2 by (intros ->; cbn in Hbs; lia).
    rewrite length_app. subst cap. destruct (bool_decide (x = [])) eqn:Hxe; [lia|].
    apply bool_decide_eq_false in Hxe. destruct x; [done|]. cbn [List.length] in *. lia.
  - intros [res d'] e4. rewrite Hy'. change (response_buf_len d1) with (response_buf_len d).
    change (is_more d1) with (is_more d).
    replace (response_buf_len d - 1 - Z.of_nat (List.length (W ++ x))) with (cap - Z.of_nat (List.length x))
      by (rewrite length_app; lia).
    assert ((Z.of_nat (List.length y) <? cap - Z.of_nat (List.length x)) = (Z.of_nat (List.length (x ++ y)) <? cap)) as ->.
    { destruct (Z.ltb_spec (Z.of_nat (List.length (x ++ y))) cap);
        [rewrite (proj2 (Z.ltb_lt _ _)) by lia|rewrite (proj2 (Z.ltb_ge _ _)) by lia]; done. }
    assert (take (Z.to_nat cap) (x ++ y) = x ++ take (Z.to_nat (cap - Z.of_nat (List.length x))) y) as ->.
    { rewrite take_app, (take_ge x) by lia. do 2 f_equal. lia. }
    assert (drop (Z.to_nat cap) (x ++ y) = drop (Z.to_nat (cap - Z.of_nat (List.length x))) y) as ->.
    { rewrite drop_app, (drop_ge x) by lia. cbn [app]. f_equal. lia. }
    intros (-> & (b' & -> & Hb') & Ho4 & Hi4). split; [done|]. split; [|split; [congruence|done]].
    exists b'. rewrite <-app_assoc in Hb'. split.
    + set (T := take (Z.to_nat (cap - Z.of_nat (List.length x))) y). pose proof (length_app x T) as HxT.
      replace (Z.of_nat (List.length (x ++ y)) - Z.of_nat (List.length (x ++ T)))
        with (Z.of_nat (List.length y) - Z.of_nat (List.length T)) by lia.
      unfold d1. by destruct d.
    + exact Hb'.
Qed.

(** The whole function, on a buffer that holds the bytes [x] read already. *)
Lemma response_body_ok client x y rest tmo W (d : httpclient_data_t) (e : E) :
  List.length (x ++ rest) = 1024%nat -> in_of e = y -> holds_first d [] -> 0 < response_buf_len d ->
  let cap := response_buf_len d - 1 in
  Z.of_nat (List.length x) <= cap -> retrieve_len d = Z.of_nat (List.length (x ++ y)) ->
  response_content_len d <> -1 -> W = take (Z.to_nat cap) (x ++ y) ->
  runs (_http_get_response_body client (x ++ rest) (Z.of_nat (List.length x)) tmo d)
    (fun '(res, d') e' =>
       let whole := Z.of_nat (List.length (x ++ y)) <? cap in
       res = (if whole then STATE_SUCCESS else HTTP_RETRIEVE_MORE_DATA)
       /\ received_more d d' W (Z.of_nat (List.length (x ++ y)) - Z.of_nat (List.length W)) (negb whole)
       /\ out_of e' = out_of e /\ in_of e' = drop (Z.to_nat cap) (x ++ y)) e.
Proof.
  intros Hr Hy Hd Hp cap Hx Hret Hc ->. unfold _http_get_response_body.
  apply runs_bind, runs_countdown. intros tm e1 [Ho1 Hi1].
  change (response_content_len (d <| is_more := true |>)) with (response_content_len d).
  rewrite (proj2 (Z.eqb_neq _ _) Hc). cbn [andb]. set (d1 := d <| is_more := true |>).
  change (body_fuel d1) with (S (S (Z.to_nat (response_buf_len d)))).
  change 0 with (Z.of_nat (List.length (@nil Z))) at 1.
  eapply runs_mono; [apply (body_loop_ok _ client x y rest [] tm 0 0 d1 e1)|].
  - done.
  - by rewrite Hi1.
  - exact Hd.
  - exact Hp.
  - change (response_buf_len d1) with (response_buf_len d). cbn [List.length]. lia.
  - exact Hret.
  - change (response_buf_len d1) with (response_buf_len d). cbn [List.length].
    destruct (bool_decide _); lia.
  - intros [res d']. change (response_buf_len d1) with (response_buf_len d). cbn [List.length app].
    rewrite Z.sub_0_r. fold cap. intros e' (-> & (b & -> & Hb) & Ho & Hi).
    split; [done|]. split; [|split; [congruence|done]]. exists b. split; [|exact Hb].
    unfold d1. change (is_more (d <| is_more := true |>)) with true. destruct d. by destruct (_ <? _).
Qed.

(** ** The head *)

Lemma zero_in (p q : list Z) : 0 ∈ p ++ 0 :: q.
Proof. apply elem_of_app. right. constructor. Qed.

Lemma take_more (l k : nat) (L : list Z) :
  let bs := take k (drop l L) in
  take l L ++ bs = take (l + List.length bs) L /\ drop (l + List.length bs) L = drop k (drop l L).
Proof.
  intros bs. subst bs. rewrite take_take_drop, length_take, length_drop, drop_drop.
  destruct (decide (k <= List.length L - l)%nat) as [Hk|Hk].
  - by rewrite Nat.min_l.
  - rewrite Nat.min_r by lia. rewrite !take_ge, !drop_ge by lia. done.
Qed.

Lemma head_loop_ok n : forall client r body l junk tm (e : E),
  cstr_ok r -> (List.length r <= 992)%nat -> find_sub r (CRLF ++ CRLF) = Some (List.length r - 4)%nat ->
  (l <= List.length r + 31)%nat -> (l <= List.length (r ++ body))%nat -> (List.length r - l < n)%nat ->
  List.length (take l (r ++ body) ++ 0 :: junk) = 1024%nat -> in_of e = drop l (r ++ body) ->
  runs (head_loop n client (take l (r ++ body) ++ 0 :: junk) (Z.of_nat l) tm)
    (fun '(res, data, len, p) e' =>
       res = STATE_SUCCESS /\ p = Z.of_nat (List.length r) - 4 /\ out_of e' = out_of e
       /\ exists x y junk, body = x ++ y /\ (List.length x <= 31)%nat /\ data = r ++ x ++ 0 :: junk
            /\ len = Z.of_nat (List.length r + List.length x) /\ List.length data = 1024%nat /\ in_of e' = y) e.
Proof.
  induction n as [|n IH]; intros client r body l junk tm e Hr Hrl Hend Hl Hlb Hn Hlen Hin; [lia|].
  pose proof (find_sub_bound _ _ _ Hend) as Hb. change (List.length (CRLF ++ CRLF)) with 4%nat in Hb.
  cbn [head_loop]. apply runs_bind. destruct (decide (List.length r <= l)%nat) as [Hge|Hlt].
  - assert (take l (r ++ body) = r ++ take (l - List.length r) body) as Ht by (rewrite take_app, take_ge by lia; done).
    assert (drop l (r ++ body) = drop (l - List.length r) body) as Hd by (rewrite drop_app, drop_ge by lia; done).
    rewrite Ht in Hlen |- *. rewrite Hd in Hin. rewrite <-app_assoc in Hlen |- *.
    eapply runs_lift; [apply strstr_prefix; [done|apply zero_in|done]|]. apply runs_ret.
    split; [done|]. split; [lia|]. split; [done|]. rewrite length_app in Hlb.
    exists (take (l - List.length r) body), (drop (l - List.length r) body), junk.
    rewrite length_take. split; [by rewrite take_drop|]. split; [lia|]. split; [done|]. split; [lia|]. done.
  - assert (take l (r ++ body) = take l r) as Ht by (by rewrite take_app_le by lia).
    rewrite Ht in Hlen |- *. assert (List.length (take l r) = l) as Htl by (rewrite length_take; lia).
    eapply runs_lift.
    { apply strstr_absent; [by apply Forall_take|]. apply (find_sub_take _ _ _ l Hend).
      change (List.length (CRLF ++ CRLF)) with 4%nat. lia. }
    apply runs_bind, runs_left. intros tl e1 [Ho1 Hi1]. apply runs_bind, recv_ok; [lia|unfold HTTPCLIENT_RAED_HEAD_SIZE; lia| | |].
    + rewrite Hlen. unfold HTTPCLIENT_RAED_HEAD_SIZE. lia.
    + rewrite Hi1, Hin. intros H0. apply (f_equal (@List.length Z)) in H0. rewrite length_drop, length_app in H0.
      cbn [List.length] in H0. lia.
    + rewrite Hi1, Hin. change (Z.to_nat HTTPCLIENT_RAED_HEAD_SIZE) with 32%nat. intros e2 bs Ho2 Hi2.
      assert (1 <= List.length bs <= 32 /\ l + List.length bs <= List.length (r ++ body))%nat as [Hbs Hbb]
        by (subst bs; rewrite length_take, length_drop, length_app in *; lia).
      change (negb (STATE_SUCCESS =? STATE_SUCCESS)) with false. cbn iota. rewrite Nat2Z.id.
      rewrite take_app_le, take_ge by lia.
      destruct (take_more l 32 (r ++ body)) as [Hnew Hrest]. fold bs in Hnew, Hrest. rewrite Ht in Hnew.
      assert (List.length (take (l + List.length bs) (r ++ body)) = l + List.length bs)%nat as Hk
        by (rewrite length_take; lia).
      rewrite app_assoc, Hnew. apply runs_bind, runs_set.
      { rewrite length_app, Hk, length_drop, Hlen. lia. }
      replace (Z.to_nat (Z.of_nat l + Z.of_nat (List.length bs))) with (l + List.length bs)%nat by lia.
      set (q := drop (l + List.length bs) (take l r ++ 0 :: junk)).
      assert (List.length q = 1024 - (l + List.length bs))%nat as Hq by (subst q; rewrite length_drop; lia).
      destruct q as [|c q]; [cbn in Hq; lia|].
      replace (<[(l + List.length bs)%nat := 0]> (take (l + List.length bs) (r ++ body) ++ c :: q))
        with (take (l + List.length bs) (r ++ body) ++ 0 :: q)
        by (rewrite <-Hk at 2; by rewrite list_insert_mid).
      replace (Z.of_nat l + Z.of_nat (List.length bs)) with (Z.of_nat (l + List.length bs)) by lia.
      eapply runs_mono; [apply (IH client r body (l + List.length bs)%nat q tm e2)|].
      * done.
      * done.
      * done.
      * lia.
      * lia.
      * lia.
      * rewrite length_app, Hk. cbn [List.length] in *. lia.
      * by rewrite Hi2, Hrest.
      * intros [[[res data] len] p] e3 (-> & -> & Ho3 & Hx). split; [done|]. split; [done|].
        split; [congruence|done].
Qed.

Lemma find_length_value (r pre post : list Z) n junk :
  0 <= n < 2147483648 -> r = pre ++ lit "Content-Length: " ++ dec_digits 20 n ++ CRLF ++ post ->
  atoi (drop (List.length pre + 16) (r ++ junk)) = Some n.
Proof.
  intros Hn ->. rewrite <-app_assoc, drop_app_add. rewrite <-!app_assoc.
  change 16%nat with (List.length (lit "Content-Length: ")). rewrite drop_app_length.
  apply atoi_dec; [done| |done]. intros c r' [= <- _]. lia.
Qed.

(** Reading a response whose first bytes are in [data]. *)
Lemma parse_head_ok client s r body l junk tmo (d : httpclient_data_t) (e : E) :
  head_ok s r (Z.of_nat (List.length body)) ->
  let whole := s ++ CRLF ++ r ++ body in
  (List.length s + 2 <= l <= 32)%nat -> (l <= List.length whole)%nat ->
  List.length (take l whole ++ 0 :: junk) = 1024%nat -> in_of e = drop l whole ->
  holds_first d [] -> 34 <= response_buf_len d ->
  runs (_http_parse_response_header client (take l whole ++ 0 :: junk) (Z.of_nat l) tmo d)
    (fun '(res, client', d') e' =>
       let n := Z.of_nat (List.length body) in
       let D := take (Z.to_nat (response_buf_len d - 1)) body in
       0 <= res /\ net client' = net client
       /\ holds_first d' D /\ response_buf_len d' = response_buf_len d
       /\ response_content_len d' = n /\ retrieve_len d' = n - Z.of_nat (List.length D)
       /\ is_more d' = negb (n <? response_buf_len d - 1)
       /\ out_of e' = out_of e /\ in_of e' = drop (Z.to_nat (response_buf_len d - 1)) body) e.
Proof.
  intros [Hs Hline Hshort [c Hc] Hr Hrl Hend Hn (pre & post & Hpre & Hcl)] whole Hl Hlw Hlen Hin Hd Hbl.
  pose proof (find_sub_bound _ _ _ Hend) as Hb. change (List.length (CRLF ++ CRLF)) with 4%nat in Hb.
  assert (List.length whole = List.length s + 2 + List.length (r ++ body))%nat as Hww
    by (unfold whole; rewrite !length_app; change (List.length CRLF) with 2%nat; lia).
  unfold _http_parse_response_header. apply runs_bind, runs_countdown. intros tm e1 [Ho1 Hi1].
  (* the status line *)
  assert (take l whole = s ++ CRLF ++ take (l - List.length s - 2) (r ++ body)) as Ht.
  { unfold whole. rewrite take_app, take_ge by lia. f_equal. rewrite take_app, take_ge by (cbn; lia).
    by change (List.length CRLF) with 2%nat. }
  set (l1 := (l - List.length s - 2)%nat) in *. rewrite Ht in Hlen |- *. rewrite <-!app_assoc in Hlen |- *.
  apply runs_bind. eapply runs_lift.
  { rewrite app_assoc. apply strstr_prefix; [|apply zero_in|exact Hline]. apply cstr_ok_app. split; [done|].
    apply cstr_ok_check. reflexivity. }
  set (rest := take l1 (r ++ body) ++ 0 :: junk) in *.
  apply runs_bind, runs_set; [rewrite Hlen; lia|]. rewrite Nat2Z.id.
  assert (<[List.length s := 0]> (s ++ CRLF ++ rest) = s ++ 0 :: 10 :: rest) as -> by (apply list_insert_mid).
  assert (List.length (s ++ 0 :: 10 :: rest) = 1024%nat) as Hlen1
    by (rewrite <-Hlen, !length_app; done).
  apply runs_bind, runs_from; [rewrite Hlen1; lia|]. change (Z.to_nat 9) with 9%nat.
  rewrite drop_app_le by lia. apply runs_bind. eapply runs_lift; [apply Hc|].
  apply runs_bind, runs_move; [lia|unfold rest in *; lia| |].
  { rewrite Hlen1. lia. }
  replace (Z.to_nat (Z.of_nat (List.length s) + 2)) with (List.length s + 2)%nat by lia.
  replace (Z.to_nat (Z.of_nat l - (Z.of_nat (List.length s) + 2) + 1)) with (l1 + 1)%nat by (unfold l1; lia).
  rewrite drop_app_add. cbn [drop]. rewrite drop_0.
  assert (List.length (take l1 (r ++ body)) = l1) as Htl by (rewrite length_take; unfold l1; lia).
  assert (take (l1 + 1) rest = take l1 (r ++ body) ++ [0]) as ->.
  { unfold rest. rewrite <-Htl at 1. by rewrite take_app_add. }
  set (junk1 := drop (l1 + 1) (s ++ 0 :: 10 :: rest)).
  rewrite <-app_assoc. cbn [app].
  assert (List.length (take l1 (r ++ body) ++ 0 :: junk1) = 1024%nat) as Hlen2.
  { rewrite length_app, Htl. cbn [List.length]. unfold junk1. rewrite length_drop, Hlen1. unfold l1. lia. }
  replace (Z.of_nat l - (Z.of_nat (List.length s) + 2)) with (Z.of_nat l1) by (unfold l1; lia).
  apply runs_bind. eapply runs_mono; [apply (head_loop_ok head_fuel _ r body l1 junk1 tm e1)|].
  - done.
  - done.
  - done.
  - unfold l1. lia.
  - unfold l1. lia.
  - change head_fuel with 1025%nat. lia.
  - exact Hlen2.
  - rewrite Hi1, Hin. unfold whole, l1. rewrite drop_app, drop_ge by lia. cbn [app].
    rewrite drop_app, drop_ge by (cbn; lia). cbn [app]. done.
  - intros [[[res data] len] p] e2 (-> & -> & Ho2 & x & y & junk2 & -> & Hx & -> & -> & Hlen3 & Hi2).
    change (negb (STATE_SUCCESS =? STATE_SUCCESS)) with false. cbn iota.
    apply runs_bind. eapply runs_lift; [apply strstr_prefix; [done|apply zero_in|exact Hcl]|].
    assert (List.length pre + 16 <= List.length r)%nat as Hprel
      by (rewrite Hpre, !length_app; change (List.length (lit "Content-Length: ")) with 16%nat; lia).
    apply runs_bind, runs_from.
    { rewrite Hlen3. change (List.length (lit "Content-Length: ")) with 16%nat. lia. }
    replace (Z.to_nat (Z.of_nat (List.length pre) + Z.of_nat (List.length (lit "Content-Length: "))))
      with (List.length pre + 16)%nat by (change (List.length (lit "Content-Length: ")) with 16%nat; lia).
    apply runs_bind. eapply runs_lift; [by apply (find_length_value _ pre post)|].
    replace (Z.of_nat (List.length r) - 4 + 4) with (Z.of_nat (List.length r)) by lia.
    replace (Z.of_nat (List.length r + List.length x) - Z.of_nat (List.length r)) with (Z.of_nat (List.length x)) by lia.
    rewrite length_app in Hlen3. rewrite length_app in Hlen3. cbn [List.length] in Hlen3.
    apply runs_bind, runs_move; [lia|lia|rewrite !length_app; cbn [List.length]; lia|].
    rewrite Nat2Z.id, drop_app_length.
    assert (take (Z.to_nat (Z.of_nat (List.length x) + 1)) (x ++ 0 :: junk2) = x ++ [0]) as ->.
    { replace (Z.to_nat (Z.of_nat (List.length x) + 1)) with (List.length x + 1)%nat by lia. by rewrite take_app_add. }
    rewrite <-app_assoc. apply runs_bind, runs_left. intros tl e3 [Ho3 Hi3].
    apply runs_bind. set (d2 := upd response_received_len _ _).
    eapply runs_mono; [eapply (response_body_ok _ x y _ _ _ d2 e3)|].
    + rewrite !length_app, length_drop, !length_app. cbn [List.length]. lia.
    + congruence.
    + exact Hd.
    + change (response_buf_len d2) with (response_buf_len d). lia.
    + change (response_buf_len d2) with (response_buf_len d). lia.
    + reflexivity.
    + change (response_content_len d2) with (Z.of_nat (List.length (x ++ y))). lia.
    + reflexivity.
    + change (response_buf_len d2) with (response_buf_len d). intros [res d'] e4 (-> & (b & -> & Hb') & Ho4 & Hi4).
      apply runs_ret. split; [by destruct (_ <? _)|]. split; [done|]. split; [exact Hb'|]. split; [done|].
      split; [done|]. split; [done|]. split; [done|]. split; [congruence|done].
Qed.

(** ** The request *)

(** The text of the head that [_http_send_header] sends. *)
Definition request_head (method : Z) (host path : list Z) (header : option (list Z)) (post : option Z)
    (content_type : option (list Z)) : list Z :=
  method_name method ++ lit " " ++ path ++ lit " HTTP/1.1" ++ CRLF ++ lit "Host: " ++ host ++ CRLF
  ++ default [] header
  ++ match post with
     | Some n => lit "Content-Length: " ++ fmt_d n ++ CRLF
                 ++ match content_type with Some t => lit "Content-Type: " ++ t ++ CRLF | None => [] end
     | None => []
     end
  ++ CRLF.

Definition filled (send_buf P : list Z) : Prop :=
  List.length send_buf = 1024%nat /\ exists rest, send_buf = P ++ rest.

Lemma fill_tx_ok client send_buf P b n (e : E) (Q : Z * list Z * Z -> E -> Prop) :
  filled send_buf P -> (List.length P + List.length b < 1024)%nat ->
  (n = Z.of_nat (List.length b) \/ n = 0) ->
  (forall sb, filled sb (P ++ b) -> Q (STATE_SUCCESS, sb, Z.of_nat (List.length (P ++ b))) e) ->
  runs (_utils_fill_tx_buffer client send_buf (Z.of_nat (List.length P)) b n) Q e.
Proof.
  intros [Hl [rest ->]] Hlt Hn HQ. unfold _utils_fill_tx_buffer.
  assert ((if n =? 0 then Z.of_nat (List.length b) else n) = Z.of_nat (List.length b)) as ->
    by (destruct Hn as [->| ->]; [by destruct (_ =? 0)|done]).
  assert (exists k, tx_fuel = S k) as [k ->] by (by exists 999%nat). cbn [fill_tx_loop]. unfold HTTPCLIENT_SEND_BUF_SIZE.
  rewrite (proj2 (Z.leb_le _ _)) by lia. apply runs_bind, runs_bind, runs_cpy; [lia|lia|rewrite Hl; lia|].
  rewrite !Nat2Z.id, take_app_length, firstn_all.
  rewrite (proj2 (Z.eqb_neq _ 1024)) by lia. rewrite Z.sub_diag. change (0 =? 0) with true. cbn iota.
  apply runs_ret. change (negb (STATE_SUCCESS =? STATE_SUCCESS)) with false. cbn iota. apply runs_ret.
  replace (Z.of_nat (List.length P) + Z.of_nat (List.length b)) with (Z.of_nat (List.length (P ++ b)))
    by (rewrite length_app; lia).
  apply HQ. split; [|rewrite app_assoc; eauto].
  rewrite drop_app_add, !length_app, length_drop. rewrite length_app in Hl. lia.
Qed.

Lemma fill_format_ok client send_buf P fmt args text (e : E) (Q : Z * list Z * Z -> E -> Prop) :
  filled send_buf P -> sprintf fmt args = Some text -> (List.length P + List.length text < 1024)%nat ->
  (forall sb, filled sb (P ++ text) -> Q (STATE_SUCCESS, sb, Z.of_nat (List.length (P ++ text))) e) ->
  runs (fill_format client send_buf (Z.of_nat (List.length P)) fmt args) Q e.
Proof.
  intros Hf Hs Hl HQ. unfold fill_format. apply runs_bind. eapply runs_lift; [exact Hs|].
  unfold snprintf_text. rewrite take_ge by (change (Z.to_nat (HTTPCLIENT_SEND_BUF_SIZE - 1)) with 1023%nat; lia).
  apply fill_tx_ok; [done|done|by left|exact HQ].
Qed.

(** Sending bytes that are not none. *)
Lemma write_ok client bs (e : E) (Q : Z -> E -> Prop) :
  bs <> [] ->
  (forall e', out_of e' = out_of e ++ bs -> in_of e' = in_of e -> Q (Z.of_nat (List.length bs)) e') ->
  runs (net_write client bs) Q e.
Proof.
  intros Hbs HQ. apply runs_plat. unfold utils_net_write, write_ssl.
  pose proof (stream_write (handle (net client)) bs 5000 e) as Hs.
  pose proof (online_write (handle (net client)) bs 5000 e) as Ho.
  destruct (HAL_SSL_Write (handle (net client)) bs 5000 e) as [rc e']. cbn [fst snd] in *. subst rc.
  rewrite Nat2Z.id, firstn_all in Hs. destruct Hs. by apply HQ.
Qed.

Lemma send_header_ok client host path method (d : httpclient_data_t) (e : E) (Q : Z -> E -> Prop) :
  let text := request_head method host path (hc_header client)
                (match post_buf d with Some _ => Some (post_buf_len d) | None => None end)
                (match post_buf d with Some _ => post_content_type d | None => None end) in
  (List.length text < 1024)%nat ->
  (forall e', out_of e' = out_of e ++ text -> in_of e' = in_of e -> Q STATE_SUCCESS e') ->
  runs (_http_send_header client host path method d) Q e.
Proof.
  intros text Hl HQ. unfold _http_send_header.
  assert (filled (zeros 1024) []) as H0 by (split; [apply length_replicate|by exists (zeros 1024)]).
  set (first := method_name method ++ lit " " ++ path ++ lit " HTTP/1.1" ++ CRLF ++ lit "Host: " ++ host ++ CRLF).
  assert (sprintf (lit "%s %s HTTP/1.1" ++ CRLF ++ lit "Host: %s" ++ CRLF) [PS (method_name method); PS path; PS host]
          = Some first) as Hfirst by (unfold first; rewrite !app_assoc; by rewrite <-!app_assoc).
  set (hdr := default [] (hc_header client)).
  set (cl := match post_buf d with
             | Some _ => lit "Content-Length: " ++ fmt_d (post_buf_len d) ++ CRLF
                         ++ match post_content_type d with Some t => lit "Content-Type: " ++ t ++ CRLF | None => [] end
             | None => [] end).
  assert (text = ((first ++ hdr) ++ cl) ++ CRLF) as Htext.
  { unfold text, request_head, first, hdr, cl. rewrite <-!app_assoc. by destruct (post_buf d). }
  assert (List.length first + List.length hdr + List.length cl + 2 < 1024)%nat as Hsum
    by (rewrite Htext, !length_app in Hl; change (List.length CRLF) with 2%nat in Hl; lia).
  apply runs_bind. change 0 with (Z.of_nat (List.length (@nil Z))).
  eapply fill_format_ok; [exact H0|exact Hfirst|cbn [List.length]; lia|]. cbn [app List.length Z.of_nat].
  intros sb1 H1. change (negb (STATE_SUCCESS =? 0)) with false. cbn iota. apply runs_bind.
  apply (runs_mono _ (fun '(sb, len) e' => e' = e /\ filled sb (first ++ hdr)
                        /\ len = Z.of_nat (List.length (first ++ hdr)))).
  { unfold hdr. destruct (hc_header client) as [h|]; cbn [default]; [|rewrite app_nil_r; by apply runs_ret].
    apply runs_bind, fill_tx_ok; [done|cbn in Hsum; lia|by left|]. intros sb2 H2. by apply runs_ret. }
  intros [sb2 len2] e2 (-> & H2 & ->). apply runs_bind.
  apply (runs_mono _ (fun '(sb, len) e' => e' = e /\ filled sb ((first ++ hdr) ++ cl)
                        /\ len = Z.of_nat (List.length ((first ++ hdr) ++ cl)))).
  { clear - Hsum H2 HalStream0. clearbody first hdr. unfold cl in *. clear cl.
    revert Hsum. destruct (post_buf d) as [b|]; intros Hsum; [|rewrite app_nil_r; by apply runs_ret].
    apply runs_bind. revert Hsum. set (ct := match post_content_type d with Some t => _ | None => _ end).
    intros Hsum. rewrite !length_app in Hsum.
    assert (sprintf (lit "Content-Length: %d" ++ CRLF) [PD (post_buf_len d)]
            = Some (lit "Content-Length: " ++ fmt_d (post_buf_len d) ++ CRLF)) as Ht by reflexivity.
    eapply fill_format_ok; [done|exact Ht|rewrite !length_app; lia|].
    intros sb3 H3. destruct (post_content_type d) as [t|]; subst ct.
    - apply runs_bind. rewrite !length_app in Hsum.
      assert (sprintf (lit "Content-Type: %s" ++ CRLF) [PS t] = Some (lit "Content-Type: " ++ t ++ CRLF)) as Ht4
        by reflexivity.
      eapply fill_format_ok; [done|exact Ht4|rewrite !length_app; lia|].
      intros sb4 H4. apply runs_ret. rewrite <-!app_assoc in H4. rewrite <-!app_assoc. done.
    - apply runs_ret. rewrite app_nil_r. done. }
  intros [sb3 len3] e3 (-> & H3 & ->). apply runs_bind, fill_tx_ok.
  { done. }
  { rewrite !length_app. change (List.length CRLF) with 2%nat. lia. }
  { by right. }
  intros sb4 [Hl4 [rest4 H4]]. rewrite <-Htext in *. rewrite Nat2Z.id, H4, take_app_length.
  apply runs_bind, write_ok; [rewrite Htext; by destruct (((first ++ hdr) ++ cl))|].
  intros e4 Ho Hi. rewrite (proj2 (Z.leb_gt _ 0)).
  - apply runs_ret. by apply HQ.
  - rewrite Htext, length_app. change (List.length CRLF) with 2%nat. lia.
Qed.

(** ** A transfer *)

Lemma connect_ok client (e : E) (Q : Z * httpclient_t -> E -> Prop) :
  (forall client' e', 0 < handle (net client') -> hc_header client' = hc_header client -> same e e' ->
     Q (STATE_SUCCESS, client') e') ->
  runs (httpclient_connect client) Q e.
Proof.
  intros HQ. unfold httpclient_connect. cbn [connect_loop]. apply runs_bind, runs_bind, runs_plat.
  unfold iotx_net_connect, connect_ssl.
  set (c := net _). pose proof (stream_establish (pHostAddress c) (InfraNet.port c) (ca_crt c) (ca_crt_len c + 1) e) as Hs.
  pose proof (online_establish (pHostAddress c) (InfraNet.port c) (ca_crt c) (ca_crt_len c + 1) e) as Ho.
  destruct (HAL_SSL_Establish _ _ _ _ e) as [hd e']. cbn [fst snd] in Ho, Hs. cbn [fst snd].
  rewrite (proj2 (Z.eqb_neq hd 0)) by lia. cbn [negb fst snd].
  change (negb (STATE_SUCCESS =? 0)) with false. cbn iota. apply runs_ret, runs_ret. by apply HQ.
Qed.

(** A request: a GET, or a POST with [data] behind the head. *)
Definition request_text (host path : list Z) (header data : option (list Z)) : list Z :=
  match data with
  | None => request_head HTTPCLIENT_GET host path header None None
  | Some b => request_head HTTPCLIENT_POST host path header (Some (Z.of_nat (List.length b))) None ++ b
  end.

Definition request_method (data : option (list Z)) : Z :=
  match data with None => HTTPCLIENT_GET | Some _ => HTTPCLIENT_POST end.

Definition head_short (host path : list Z) (header data : option (list Z)) : Prop :=
  (List.length (request_text host path header data) < 1024 + List.length (default [] data))%nat /\ data <> Some [].

(** The data of a request are set. *)
Definition posts (d : httpclient_data_t) (data : option (list Z)) : Prop :=
  post_buf d = data /\ (data = None \/ post_content_type d = None) /\ post_buf_len d = Z.of_nat (List.length (default [] data)).

Lemma send_userdata_ok client (d : httpclient_data_t) b (e : E) (Q : Z -> E -> Prop) :
  posts d (Some b) -> b <> [] ->
  (forall e', out_of e' = out_of e ++ b -> in_of e' = in_of e -> Q STATE_SUCCESS e') ->
  runs (_http_send_userdata client d) Q e.
Proof.
  intros (Hb & _ & Hl) Hne HQ. assert (0 < List.length b)%nat as Hpos by (destruct b; [done|cbn; lia]).
  unfold _http_send_userdata. change (default [] (Some b)) with b in Hl. rewrite Hb, Hl.
  rewrite (proj2 (Z.eqb_neq (Z.of_nat (List.length b)) 0)) by lia. cbn [negb].
  apply runs_bind. eapply (runs_lift _ _ _ b).
  - rewrite (proj2 (Z.ltb_ge (Z.of_nat (List.length b)) 0)) by lia. rewrite Z.ltb_irrefl. cbn [orb]. by rewrite Nat2Z.id, firstn_all.
  - apply runs_bind, write_ok; [done|]. intros e' Ho Hi. rewrite (proj2 (Z.leb_gt (Z.of_nat (List.length b)) 0)) by lia. apply runs_ret. by apply HQ.
Qed.

Lemma send_request_ok client url port crt host path (d : httpclient_data_t) data (e : E) (Q : Z * httpclient_t -> E -> Prop) :
  _utils_parse_url url = Some (STATE_SUCCESS, (host, path)) -> handle (net client) = 0 -> posts d data ->
  head_short host path (hc_header client) data ->
  (forall client' e', 0 < handle (net client') ->
     out_of e' = out_of e ++ request_text host path (hc_header client) data -> in_of e' = in_of e ->
     Q (STATE_SUCCESS, client') e') ->
  runs (_http_send client url port crt (request_method data) d) Q e.
Proof.
  intros Hu Hh Hposts [Hl Hne] HQ. pose proof Hposts as (Hpost & Hct & Hlen).
  unfold _http_send. apply runs_bind. eapply runs_lift; [exact Hu|].
  change (negb (STATE_SUCCESS =? STATE_SUCCESS)) with false. cbn iota. rewrite Hh. change (0 =? 0) with true.
  cbn iota. unfold iotx_net_init. change (negb (STATE_SUCCESS =? 0)) with false. cbn iota.
  apply runs_bind, connect_ok. intros cl e1 Hcl Hhd [Ho1 Hi1]. change (negb (STATE_SUCCESS =? 0)) with false.
  cbn iota. unfold _http_send_request. rewrite (proj2 (Z.eqb_neq _ _)) by lia. apply runs_bind, runs_bind.
  set (text := request_head (request_method data) host path (hc_header client)
                 (match data with Some _ => Some (post_buf_len d) | None => None end) None).
  assert (request_text host path (hc_header client) data = text ++ default [] data) as Htext.
  { unfold request_text, text. rewrite Hlen. destruct data as [b|]; cbn [default request_method]; [done|by rewrite app_nil_r]. }
  assert (request_head (request_method data) host path (hc_header cl)
    (match post_buf d with Some _ => Some (post_buf_len d) | None => None end)
    (match post_buf d with Some _ => post_content_type d | None => None end) = text) as Heq.
  { rewrite Hhd, Hpost. unfold text. destruct Hct as [-> | ->]; [done|by destruct data]. }
  apply send_header_ok; rewrite Heq.
  { rewrite Htext, length_app in Hl. lia. }
  intros e2 Ho2 Hi2. change (negb (STATE_SUCCESS =? 0)) with false. cbn iota.
  change (negb (STATE_SUCCESS =? STATE_SUCCESS)) with false.
  clear Hl Heq. clearbody text. destruct data as [b|]; cbn [request_method default] in *.
  - change ((HTTPCLIENT_POST =? HTTPCLIENT_POST) || (HTTPCLIENT_POST =? HTTPCLIENT_PUT)) with true. cbn iota.
    apply send_userdata_ok with b; [done|congruence|]. intros e3 Ho3 Hi3.
    change (negb (STATE_SUCCESS =? STATE_SUCCESS)) with false. cbn iota. apply runs_ret.
    apply HQ; [done| |congruence]. by rewrite Htext, Ho3, Ho2, Ho1, app_assoc.
  - change ((HTTPCLIENT_GET =? HTTPCLIENT_POST) || (HTTPCLIENT_GET =? HTTPCLIENT_PUT)) with false. cbn iota.
    apply runs_ret. change (negb (STATE_SUCCESS =? STATE_SUCCESS)) with false. cbn iota. apply runs_ret.
    apply HQ; [done| |congruence]. by rewrite Htext, app_nil_r, Ho2, Ho1.
Qed.

Context {C : Type}.
Implicit Types h : wrapper_http_handle_t C.

(** The options of a handle, for a transfer of the URL. *)
Record options h (host path : list Z) (N : Z) (cb : list Z -> Z -> Z -> C -> option C) (c : C) : Prop := {
  op_url : exists url, hh_url h = Some url /\ _utils_parse_url url = Some (STATE_SUCCESS, (host, path));
  op_method : hh_method h = IOTX_HTTP_GET;
  op_maxlen : receive_maxlen h = N;
  op_cb : recv_cb h = Some cb;
  op_ctx : recv_ctx h = Some c
}.

(** [d] of the [n] bytes of the body have been handed over. *)
Record in_transfer h (n d : Z) (more : bool) : Prop := {
  it_handle : 0 < handle (net (hh_client h));
  it_length : response_content_len (http_client_data h) = n;
  it_left : retrieve_len (http_client_data h) = n - d;
  it_done : already_received h = d;
  it_more : is_more (http_client_data h) = more;
  it_range : 0 <= d <= n
}.

(** The callback, given a buffer that starts with the piece [D]. *)
Definition takes (cb : list Z -> Z -> Z -> C -> option C) (N n : Z) (D : list Z) (c c' : C) : Prop :=
  forall b, (exists rest, b = D ++ rest) -> Z.of_nat (List.length b) = N ->
    cb b (Z.of_nat (List.length D)) n c = Some c'.

Lemma zeros_first (d : httpclient_data_t) N :
  0 <= N -> holds_first (d <| response_buf := zeros (Z.to_nat N) |> <| response_buf_len := N |>) [].
Proof.
  intros HN. split; [|by exists (zeros (Z.to_nat N))].
  change (Z.of_nat (List.length (zeros (Z.to_nat N))) = N). unfold zeros. rewrite length_replicate. lia.
Qed.

(** What a transfer does not change. *)
Definition same_options h h' : Prop :=
  hh_url h' = hh_url h /\ hh_method h' = hh_method h /\ receive_maxlen h' = receive_maxlen h /\ recv_cb h' = recv_cb h.

(** The first piece: the request is sent and the head read. *)
Lemma perform_request h host path data cb c c' s r body (e : E) :
  (exists url, hh_url h = Some url /\ _utils_parse_url url = Some (STATE_SUCCESS, (host, path))) ->
  hh_method h = request_method data -> data = None \/ post_content_type (http_client_data h) = None ->
  recv_cb h = Some cb -> recv_ctx h = Some c -> handle (net (hh_client h)) = 0 -> is_more (http_client_data h) = false ->
  already_received h = 0 -> 34 <= receive_maxlen h ->
  head_ok s r (Z.of_nat (List.length body)) -> in_of e = s ++ CRLF ++ r ++ body ->
  head_short host path (hh_header h) data ->
  let text := request_text host path (hh_header h) data in
  let cap := receive_maxlen h - 1 in let D := take (Z.to_nat cap) body in
  takes cb (receive_maxlen h) (Z.of_nat (List.length body)) D c c' ->
  runs (wrapper_http_perform h data (Z.of_nat (List.length (default [] data))))
    (fun '(ret, h') e' =>
       ret = Z.of_nat (List.length D) /\ same_options h h' /\ recv_ctx h' = Some c'
       /\ in_transfer h' (Z.of_nat (List.length body)) (Z.of_nat (List.length D))
            (negb (Z.of_nat (List.length body) <? cap))
       /\ out_of e' = out_of e ++ text /\ in_of e' = drop (Z.to_nat cap) body) e.
Proof.
  intros (url & Hu & Hparse) Hm Hct Hcb Hctx Hh Hmore Ha HN Hhead Hin Hshort text cap D Htakes.
  unfold wrapper_http_perform.
  assert ((hh_method h =? IOTX_HTTP_POST) && (match data with None => true | _ => false end
    || (Z.of_nat (List.length (default [] data)) <=? 0)) = false) as ->.
  { rewrite Hm. destruct Hshort as [_ Hne]. destruct data as [[|x b]|]; [done|by cbn|done]. }
  rewrite (proj2 (Z.leb_gt _ 0)) by lia. apply runs_bind, runs_malloc. intros e1 [Ho1 Hi1]. cbn [negb].
  apply runs_bind. eapply runs_lift; [exact Hu|]. set (d0 := upd response_buf_len _ _).
  apply runs_bind. rewrite Hm.
  eapply (send_request_ok _ url _ _ host path d0 data); [done|exact Hh|by split|exact Hshort|].
  intros cl e2 Hcl Ho2 Hi2. change (STATE_SUCCESS <? STATE_SUCCESS) with false. cbn iota.
  apply runs_bind, runs_countdown. intros tm e3 [Ho3 Hi3]. apply runs_bind, runs_left. intros l e4 [Ho4 Hi4].
  unfold httpclient_recv_response. apply runs_bind, runs_bind, runs_countdown. intros tm' e5 [Ho5 Hi5].
  rewrite (proj2 (Z.eqb_neq _ _)) by lia. change (is_more d0) with (is_more (http_client_data h)). rewrite Hmore.
  apply runs_bind, runs_left. intros l' e6 [Ho6 Hi6].
  assert (in_of e6 = s ++ CRLF ++ r ++ body) as Hin6 by congruence.
  assert (out_of e6 = out_of e ++ text) as Hout6 by (by rewrite Ho6, Ho5, Ho4, Ho3, Ho2, Ho1). clear Ho1 Hi1 Ho2 Hi2 Ho3 Hi3 Ho4 Hi4 Ho5 Hi5 Ho6 Hi6.
  pose proof (ho_short _ _ _ Hhead) as Hs. pose proof (find_sub_bound _ _ _ (ho_end _ _ _ Hhead)) as Hrb.
  change (List.length (CRLF ++ CRLF)) with 4%nat in Hrb. set (whole := s ++ CRLF ++ r ++ body) in *.
  assert (List.length whole = List.length s + 2 + List.length r + List.length body)%nat as Hwl
    by (unfold whole; rewrite !length_app; change (List.length CRLF) with 2%nat; lia).
  apply runs_bind, recv_ok; [lia|done|by vm_compute|rewrite Hin6; intros Hw; rewrite Hw in Hwl; cbn in Hwl; lia|].
  rewrite Hin6. change (Z.to_nat HTTPCLIENT_RAED_HEAD_SIZE) with 32%nat. change (Z.to_nat HTTPCLIENT_READ_BUF_SIZE) with 1024%nat.
  intros e7 bs Ho7 Hi7. change (negb (STATE_SUCCESS =? STATE_SUCCESS)) with false. cbn iota.
  change (Z.to_nat 0) with 0%nat. rewrite take_0. cbn [app Nat.add].
  assert (List.length bs = Nat.min 32 (List.length whole)) as Hbl by (subst bs; apply length_take).
  unfold zeros. rewrite drop_replicate. apply runs_bind, runs_set; [rewrite length_app, length_replicate; lia|].
  rewrite Nat2Z.id. assert (1024 - List.length bs = S (1023 - List.length bs))%nat as -> by lia. cbn [replicate].
  rewrite list_insert_mid. rewrite (proj2 (Z.eqb_neq _ 0)) by lia. cbn [negb].
  apply runs_bind, runs_left. intros l'' e8 [Ho8 Hi8].
  assert (bs = take (List.length bs) whole) as Hbs.
  { rewrite Hbl. destruct (decide (32 <= List.length whole)%nat); [by rewrite Nat.min_l|].
    rewrite Nat.min_r, firstn_all by lia. apply take_ge. lia. }
  rewrite Hbs at 1. set (d1 := d0 <| is_more := true |>).
  eapply runs_mono; [eapply (parse_head_ok _ s r body (List.length bs) _ _ d1 e8)|].
  - exact Hhead.
  - lia.
  - fold whole. lia.
  - fold whole. rewrite <-Hbs, length_app. cbn [List.length]. rewrite length_replicate. lia.
  - fold whole. rewrite Hi8, Hi7. destruct (decide (32 <= List.length whole)%nat).
    + by rewrite Hbl, Nat.min_l.
    + by rewrite !drop_ge by lia.
  - exact (zeros_first (http_client_data h) (receive_maxlen h) ltac:(lia)).
  - exact HN.
  - change (response_buf_len d1) with (receive_maxlen h). fold cap. fold D.
    intros [[res cl'] d'] e9 (Hres & Hnet & [Hbuf [rest Hrest]] & Hbl' & Hcl' & Hret & Hmr & Ho9 & Hi9).
    assert ((res <? STATE_SUCCESS) = false) as -> by (apply Z.ltb_ge; exact Hres).
    rewrite Hbl' in Hbuf. match goal with |- context [recv_cb ?x] => change (recv_cb x) with (recv_cb h) end. rewrite Hcb. apply runs_bind.
    eapply runs_lift; [exact Hctx|]. apply runs_bind. match goal with |- context [already_received ?x] => change (already_received x) with (already_received h) end.
    rewrite Ha, Hcl', Hret. replace (Z.of_nat (List.length body) - (Z.of_nat (List.length body) - Z.of_nat (List.length D)) - 0)
      with (Z.of_nat (List.length D)) by lia.
    eapply runs_lift; [apply Htakes; [by exists rest|done]|]. apply runs_ret. split; [done|].
    assert (List.length D <= List.length body)%nat as HDl by (unfold D; rewrite length_take; lia).
    split; [done|]. split; [done|]. split; [|split; [by rewrite Ho9, Ho8, Ho7|done]].
    split; try done.
    + change (0 < handle (net cl')). by rewrite Hnet.
    + change (Z.of_nat (List.length body) - (Z.of_nat (List.length body) - Z.of_nat (List.length D)) = Z.of_nat (List.length D)).
      lia.
    + lia.
Qed.

(** The first piece of a transfer that was not begun. *)
Lemma perform_first h host path N cb c c' s r body (e : E) :
  options h host path N cb c -> handle (net (hh_client h)) = 0 -> is_more (http_client_data h) = false ->
  already_received h = 0 -> 34 <= receive_maxlen h ->
  head_ok s r (Z.of_nat (List.length body)) -> in_of e = s ++ CRLF ++ r ++ body ->
  let text := request_head HTTPCLIENT_GET host path (hh_header h) None None in
  (List.length text < 1024)%nat ->
  let cap := receive_maxlen h - 1 in let D := take (Z.to_nat cap) body in
  takes cb (receive_maxlen h) (Z.of_nat (List.length body)) D c c' ->
  runs (wrapper_http_perform h None 0)
    (fun '(ret, h') e' =>
       ret = Z.of_nat (List.length D) /\ options h' host path N cb c'
       /\ in_transfer h' (Z.of_nat (List.length body)) (Z.of_nat (List.length D))
            (negb (Z.of_nat (List.length body) <? cap))
       /\ out_of e' = out_of e ++ text /\ in_of e' = drop (Z.to_nat cap) body) e.
Proof.
  intros [Hu Hm Hmax Hcb Hctx] Hh Hmore Ha HN Hhead Hin text Htext cap D Htakes.
  eapply runs_mono; [apply (perform_request h host path None cb c c' s r body e); first [by left|done|idtac]|].
  intros [ret h'] e' (-> & (S1 & S2 & S3 & S4) & Hc' & Ht & Ho & Hi). split; [done|].
  split; [|done]. split; try congruence. by rewrite S1.
Qed.

(** Every further piece. *)
Lemma perform_next h host path N cb c c' n body (e : E) :
  options h host path N cb c -> in_transfer h n (n - Z.of_nat (List.length body)) true ->
  2 <= receive_maxlen h -> in_of e = body ->
  let cap := receive_maxlen h - 1 in let D := take (Z.to_nat cap) body in
  takes cb (receive_maxlen h) n D c c' ->
  runs (wrapper_http_perform h None 0)
    (fun '(ret, h') e' =>
       ret = Z.of_nat (List.length D) /\ options h' host path N cb c'
       /\ in_transfer h' n (n - Z.of_nat (List.length (drop (Z.to_nat cap) body)))
            (negb (Z.of_nat (List.length body) <? cap))
       /\ out_of e' = out_of e /\ in_of e' = drop (Z.to_nat cap) body) e.
Proof.
  intros [(url & Hu & Hparse) Hm Hmax Hcb Hctx] [Hh Hlen Hleft Hdone Hmore Hrange] HN Hin cap D Htakes.
  unfold wrapper_http_perform. rewrite Hm. change (IOTX_HTTP_GET =? IOTX_HTTP_POST) with false. cbn [andb].
  rewrite (proj2 (Z.leb_gt _ 0)) by lia. apply runs_bind, runs_malloc. intros e1 [Ho1 Hi1]. cbn [negb].
  apply runs_bind. eapply runs_lift; [exact Hu|]. set (d0 := upd response_buf_len _ _).
  apply runs_bind. unfold _http_send. apply runs_bind. eapply runs_lift; [exact Hparse|].
  cbn iota. change (negb (STATE_SUCCESS =? STATE_SUCCESS)) with false. cbn iota.
  set (cl := upd hc_header _ _). change (net cl) with (net (hh_client h)).
  rewrite (proj2 (Z.eqb_neq _ 0)) by lia. apply runs_ret. change (STATE_SUCCESS <? STATE_SUCCESS) with false. cbn iota.
  apply runs_bind, runs_countdown. intros tm e2 [Ho2 Hi2]. apply runs_bind, runs_left. intros l e3 [Ho3 Hi3].
  unfold httpclient_recv_response. apply runs_bind, runs_bind, runs_countdown. intros tm' e4 [Ho4 Hi4].
  change (net cl) with (net (hh_client h)). rewrite (proj2 (Z.eqb_neq _ 0)) by lia.
  change (is_more d0) with (is_more (http_client_data h)). rewrite Hmore.
  change (response_buf d0) with (zeros (Z.to_nat (receive_maxlen h))).
  apply runs_bind, runs_set; [unfold zeros; rewrite length_replicate; lia|].
  apply runs_bind, runs_left. intros l' e5 [Ho5 Hi5].
  assert (in_of e5 = body) as Hin5 by congruence. assert (out_of e5 = out_of e) as Ho by congruence.
  clear Ho1 Hi1 Ho2 Hi2 Ho3 Hi3 Ho4 Hi4 Ho5 Hi5.
  set (d1 := upd response_buf _ d0). apply runs_bind.
  change (zeros (Z.to_nat HTTPCLIENT_READ_BUF_SIZE)) with ([] ++ zeros (Z.to_nat HTTPCLIENT_READ_BUF_SIZE)).
  change 0 with (Z.of_nat (List.length (@nil Z))) at 1.
  eapply runs_mono; [eapply (response_body_ok cl [] body _ l' D d1 e5)|].
  - by vm_compute.
  - exact Hin5.
  - split; [|by eexists]. change (Z.of_nat (List.length (<[Z.to_nat 0 := 0]> (zeros (Z.to_nat (receive_maxlen h)))))
                             = receive_maxlen h).
    rewrite length_insert. unfold zeros. rewrite length_replicate. lia.
  - change (0 < receive_maxlen h). lia.
  - change (0 <= receive_maxlen h - 1). lia.
  - change (retrieve_len (http_client_data h) = Z.of_nat (List.length body)). lia.
  - change (response_content_len (http_client_data h) <> -1). lia.
  - reflexivity.
  - change (response_buf_len d1) with (receive_maxlen h). fold cap. cbn [app].
    intros [res d'] e6 (-> & (b & -> & [Hbuf [rest Hrest]]) & Ho6 & Hi6). apply runs_ret.
    assert (((if Z.of_nat (List.length body) <? cap then STATE_SUCCESS else HTTP_RETRIEVE_MORE_DATA) <? STATE_SUCCESS) = false)
      as -> by (by destruct (_ <? cap)).
    match goal with |- context [recv_cb ?x] => change (recv_cb x) with (recv_cb h) end. rewrite Hcb.
    apply runs_bind. eapply runs_lift; [exact Hctx|]. apply runs_bind.
    match goal with |- context [already_received ?x] => change (already_received x) with (already_received h) end.
    set (d2 := upd is_more _ _) in *.
    change (response_content_len d2) with (response_content_len (http_client_data h)). rewrite Hlen, Hdone.
    change (retrieve_len d2) with (Z.of_nat (List.length body) - Z.of_nat (List.length D)).
    assert (List.length body = List.length D + List.length (drop (Z.to_nat cap) body))%nat as Hsplit
      by (rewrite <-length_app; unfold D; by rewrite take_drop).
    replace (n - (Z.of_nat (List.length body) - Z.of_nat (List.length D)) - (n - Z.of_nat (List.length body)))
      with (Z.of_nat (List.length D)) by lia.
    eapply runs_lift; [apply Htakes; [by exists rest|exact Hbuf]|]. apply runs_ret.
    split; [done|]. split; [split; try done; by exists url|]. split; [|split; [by rewrite Ho6|done]].
    split; try done.
    + change (Z.of_nat (List.length body) - Z.of_nat (List.length D)
              = n - (n - Z.of_nat (List.length (drop (Z.to_nat cap) body)))). lia.
    + change (n - (Z.of_nat (List.length body) - Z.of_nat (List.length D))
              = n - Z.of_nat (List.length (drop (Z.to_nat cap) body))). lia.
    + lia.
Qed.
End Transfer.

(** ** Whole transfers *)

Section Download.
Context {E : Type} `{!Hal E, !HalStream E, !HalOnline E, !HalMemory E}.

(** A callback that keeps the pieces. *)
Definition collect (ptr : list Z) (length total : Z) (acc : list (list Z)) : option (list (list Z)) :=
  if (length <? 0) || (Z.of_nat (List.length ptr) <? length) then None
  else Some (acc ++ [take (Z.to_nat length) ptr]).

Fixpoint performs (k : nat) (h : wrapper_http_handle_t (list (list Z)))
    : eff E (list Z * wrapper_http_handle_t (list (list Z))) :=
  match k with
  | O => mret ([], h)
  | S k' =>
      '(ret, h) ← wrapper_http_perform h None 0;
      '(rets, h) ← performs k' h;
      mret (ret :: rets, h)
  end.

(** A GET of a URL in [k] pieces of a buffer of [N] bytes: what [wrapper_http_perform]
    returned, and what the callback was given. *)
Definition transfer (url : list Z) (port : Z) (header : list Z) (N : Z) (k : nat)
    : eff E (list Z * list (list Z)) :=
  h ← wrapper_http_init;
  h ← eff_lift h;
  '(_, h) ← wrapper_http_setopt h (Some (IOTX_HTTPOPT_URL url));
  '(_, h) ← wrapper_http_setopt h (Some (IOTX_HTTPOPT_PORT port));
  '(_, h) ← wrapper_http_setopt h (Some (IOTX_HTTPOPT_METHOD IOTX_HTTP_GET));
  '(_, h) ← wrapper_http_setopt h (Some (IOTX_HTTPOPT_HEADER header));
  '(_, h) ← wrapper_http_setopt h (Some (IOTX_HTTPOPT_RECVCALLBACK collect));
  '(_, h) ← wrapper_http_setopt h (Some (IOTX_HTTPOPT_RECVMAXLEN N));
  '(_, h) ← wrapper_http_setopt h (Some (IOTX_HTTPOPT_RECVCONTEXT []));
  '(rets, h) ← performs k h;
  pieces ← eff_lift (recv_ctx h);
  mret (rets, pieces).

Lemma collect_takes N n D acc : takes collect N n D acc (acc ++ [D]).
Proof.
  intros b [rest ->] _. unfold collect. rewrite (proj2 (Z.ltb_ge _ 0)), (proj2 (Z.ltb_ge _ _))
    by (rewrite ?length_app; lia). cbn [orb]. by rewrite Nat2Z.id, take_app_length.
Qed.

(** The pieces of [k] buffers. *)
Fixpoint pieces (cap : nat) (k : nat) (body : list Z) : list (list Z) :=
  match k with
  | O => []
  | S k' => take cap body :: pieces cap k' (drop cap body)
  end.

Lemma pieces_concat cap k body : concat (pieces cap k body) = take (k * cap) body.
Proof.
  revert body. induction k as [|k IH]; intros body; [done|]. cbn [pieces concat]. rewrite IH.
  rewrite take_take_drop. done.
Qed.

Lemma pieces_short cap k body : Forall (fun p => (List.length p <= cap)%nat) (pieces cap k body).
Proof. revert body. induction k; intros body; constructor; [rewrite length_take; lia|done]. Qed.

Lemma performs_ok k : forall h host path acc n body N (e : E),
  options h host path N collect acc -> in_transfer h n (n - Z.of_nat (List.length body)) true -> 2 <= N -> in_of e = body ->
  (Z.of_nat (k - 1) * (N - 1) <= Z.of_nat (List.length body)) ->
  runs (performs k h)
    (fun '(rets, h') e' =>
       rets = (fun p => Z.of_nat (List.length p)) <$> pieces (Z.to_nat (N - 1)) k body
       /\ recv_ctx h' = Some (acc ++ pieces (Z.to_nat (N - 1)) k body) /\ out_of e' = out_of e) e.
Proof.
  induction k as [|k IH]; intros h host path acc n body N e Ho Ht HN2 Hin Hk.
  - apply runs_ret. cbn [pieces]. rewrite app_nil_r. split; [done|]. split; [apply Ho|done].
  - pose proof (op_maxlen _ _ _ _ _ _ Ho) as HN.
    cbn [performs pieces]. apply runs_bind. eapply runs_mono.
    { eapply (perform_next h host path N collect acc _ n body e); [done|done|lia|done|apply collect_takes]. }
    intros [ret h1] e1 (-> & Ho1 & Ht1 & Hout1 & Hin1). rewrite HN in *.
    destruct k as [|k].
    { cbn [performs pieces]. apply runs_bind, runs_ret, runs_ret. split; [done|]. split; [apply Ho1|done]. }
    rewrite (proj2 (Z.ltb_ge _ _)) in Ht1 by nia. cbn [negb] in Ht1. apply runs_bind.
    eapply runs_mono.
    { apply (IH h1 host path _ n (drop (Z.to_nat (N - 1)) body) N e1 Ho1 Ht1); [lia|done|].
      rewrite length_drop. nia. }
    intros [rets h2] e2 (-> & Hc & Hout2). apply runs_ret. split; [done|]. split; [|congruence].
    by rewrite Hc, <-app_assoc.
Qed.

(** C21. A GET of a URL in [k] pieces of a buffer of at least 34 bytes: on a network that
    connects and takes what it is given, with memory, and a server whose response has a
    [head_ok] head and a body, the request is sent once, the status line, headers and empty
    line are consumed however they fall into the reads, every [wrapper_http_perform]
    returns the number of bytes that it hands to the callback, less than the buffer, and
    the bytes handed over are, in order, those of the body: the whole body when [k] buffers
    hold it. *)
Theorem http_transfer (url : list Z) (port : Z) (header host path s r body : list Z) (N : Z) (k : nat) (e : E) :
  _utils_parse_url url = Some (STATE_SUCCESS, (host, path)) -> 0 <= port ->
  let request := request_head HTTPCLIENT_GET host path (Some header) None None in
  (List.length request < 1024)%nat ->
  head_ok s r (Z.of_nat (List.length body)) -> in_of e = s ++ CRLF ++ r ++ body ->
  34 <= N -> (0 < k)%nat -> Z.of_nat (k - 1) * (N - 1) <= Z.of_nat (List.length body) ->
  exists rets ps e', transfer url port header N k e = Some (rets, ps, e')
    /\ rets = (fun p => Z.of_nat (List.length p)) <$> ps
    /\ concat ps = take (k * Z.to_nat (N - 1)) body
    /\ Forall (fun p => Z.of_nat (List.length p) < N) ps
    /\ (Z.of_nat (List.length body) <= Z.of_nat k * (N - 1) -> concat ps = body)
    /\ out_of e' = out_of e ++ request.
Proof.
  intros Hurl Hport request Hreq Hhead Hin HN Hk Hkn.
  assert (runs (transfer url port header N k) (fun '(rets, ps) e' =>
    ps = pieces (Z.to_nat (N - 1)) k body /\ rets = (fun p => Z.of_nat (List.length p)) <$> ps
    /\ out_of e' = out_of e ++ request) e) as Hrun.
  { unfold transfer. apply runs_bind. unfold wrapper_http_init. apply runs_bind, runs_malloc.
    intros e1 [Ho1 Hi1]. apply runs_ret. apply runs_bind. eapply runs_lift; [reflexivity|].
    cbn [wrapper_http_setopt]. apply runs_bind. unfold _replase_str at 1.
    apply runs_bind, runs_bind, runs_malloc. intros e2 [Ho2 Hi2]. apply runs_ret, runs_ret.
    apply runs_bind. rewrite (proj2 (Z.ltb_ge port 0)) by done. apply runs_ret. apply runs_bind, runs_ret.
    apply runs_bind. unfold _replase_str. apply runs_bind, runs_bind, runs_malloc. intros e3 [Ho3 Hi3].
    apply runs_ret, runs_ret. apply runs_bind, runs_ret. apply runs_bind, runs_ret. apply runs_bind, runs_ret.
    match goal with |- runs (performs k ?x ≫= _) _ _ => set (h := x) end.
    assert (options h host path N collect []) as Hopt by (split; try done; by exists url).
    assert (in_of e3 = s ++ CRLF ++ r ++ body) as Hin3 by congruence.
    assert (out_of e3 = out_of e) as Hout3 by congruence.
    destruct k as [|k]; [lia|]. cbn [performs]. apply runs_bind, runs_bind.
    eapply runs_mono.
    { eapply (perform_first h host path N collect [] _ s r body e3 Hopt); [done|done|done|exact HN|done|done|exact Hreq|].
      apply collect_takes. }
    change (receive_maxlen h) with N. change (hh_header h) with (Some header).
    intros [ret h1] e4 (-> & Hopt1 & Ht1 & Ho4 & Hi4). apply runs_bind.
    destruct k as [|k].
    { cbn [performs]. do 2 apply runs_ret. apply runs_bind. eapply runs_lift; [apply Hopt1|]. apply runs_ret.
      split; [done|]. split; [done|]. by rewrite Ho4, Hout3. }
    rewrite (proj2 (Z.ltb_ge _ _)) in Ht1 by nia. cbn [negb] in Ht1.
    eapply runs_mono.
    { eapply (performs_ok (S k) h1 host path _ _ (drop (Z.to_nat (N - 1)) body) N e4 Hopt1).
      - assert (List.length body = List.length (take (Z.to_nat (N - 1)) body)
                                   + List.length (drop (Z.to_nat (N - 1)) body))%nat as Hs
          by (by rewrite <-length_app, take_drop).
        replace (Z.of_nat (List.length (take (Z.to_nat (N - 1)) body))) with
          (Z.of_nat (List.length body) - Z.of_nat (List.length (drop (Z.to_nat (N - 1)) body))) in Ht1 by lia.
        exact Ht1.
      - lia.
      - done.
      - rewrite length_drop. nia. }
    intros [rets h2] e5 (-> & Hc & Ho5). apply runs_ret. apply runs_bind. eapply runs_lift; [exact Hc|].
    apply runs_ret. split; [done|]. split; [done|]. by rewrite Ho5, Ho4, Hout3. }
  destruct (runs_run _ _ _ Hrun) as ([rets ps] & e' & He & -> & -> & Hout).
  eexists _, _, e'. split; [exact He|]. split; [done|]. split; [apply pieces_concat|].
  split; [eapply Forall_impl; [apply pieces_short|cbn; lia]|]. split; [|done].
  intros Hall. rewrite pieces_concat. apply take_ge. nia.
Qed.
End Download.

(** ** A platform *)

Module HttpSim.

(** What the network accepted and what the peer has sent; the clock stands still. *)
Record sim := Sim { sent : list Z; coming : list Z }.

#[global] Instance sim_hal : Hal sim := {|
  HAL_UptimeMs e := (0, e);
  HAL_SleepMs _ e := e;
  HAL_Malloc _ e := (true, e);
  HAL_MutexCreate e := (true, e);
  HAL_SSL_Establish _ _ _ _ e := (1, e);
  HAL_SSL_Destroy _ e := e;
  HAL_SSL_Read _ len _ e :=
    let bs := take (Z.to_nat len) (coming e) in
    (Z.of_nat (List.length bs), bs, Sim (sent e) (drop (Z.to_nat len) (coming e)));
  HAL_SSL_Write _ bs _ e := (Z.of_nat (List.length bs), Sim (sent e ++ bs) (coming e));
  HAL_indeterminate _ := 0
|}.

#[global, refine] Instance sim_stream : HalStream sim := {| out_of := sent; in_of := coming |}.
Proof.
  all: try done.
  - intros h bs t e. cbn. by rewrite Nat2Z.id, firstn_all.
  - intros h len t e Hl bs. by eexists.
Defined.

#[global] Instance sim_online : HalOnline sim.
Proof. by split. Qed.

#[global] Instance sim_memory : HalMemory sim.
Proof. by split. Qed.

Definition url : list Z := lit "https://fw.example.com:443/a.bin#x".
Definition host : list Z := lit "fw.example.com:443".
Definition path : list Z := lit "/a.bin".
Definition header : list Z := lit "Accept: */*" ++ CRLF.
Definition status_line : list Z := lit "HTTP/1.1 200 OK".
Definition headers : list Z :=
  lit "Server: x" ++ CRLF ++ lit "Content-Length: " ++ dec_digits 20 100 ++ CRLF ++ lit "Connection: close" ++ CRLF ++ CRLF.
Definition body : list Z := (fun i => Z.of_nat i) <$> seq 0 100.
Definition world (response : list Z) : sim := Sim [] response.
Definition response : list Z := status_line ++ CRLF ++ headers ++ body.

Lemma response_head : head_ok status_line headers (Z.of_nat (List.length body)).
Proof.
  split.
  - by apply cstr_ok_check.
  - reflexivity.
  - split; apply Nat.leb_le; reflexivity.
  - exists 200. reflexivity.
  - by apply cstr_ok_check.
  - apply Nat.leb_le. reflexivity.
  - reflexivity.
  - split; [discriminate|reflexivity].
  - exists (lit "Server: x" ++ CRLF), (lit "Connection: close" ++ CRLF ++ CRLF). split; reflexivity.
Qed.

Definition run (response : list Z) (N : Z) (k : nat) : option (list Z * list (list Z)) :=
  fst <$> transfer url 443 header N k (world response).

Example three_pieces : run response 40 3 = Some ([39; 39; 22], [take 39 body; take 39 (drop 39 body); drop 78 body]).
Proof. vm_compute. reflexivity. Qed.

(** A piece more when the buffers are just full: nothing. *)
Example full_buffers : fst <$> run response 51 3 = Some [50; 50; 0].
Proof. vm_compute. reflexivity. Qed.

(** A head of more than 1024 bytes is stored outside the buffer. *)
Example long_head :
  run (status_line ++ CRLF ++ lit "X: " ++ replicate 1100 65 ++ CRLF ++ CRLF) 40 1 = None.
Proof. vm_compute. reflexivity. Qed.

(** A length below zero is copied as a huge one. *)
Example negative_length :
  run (status_line ++ CRLF ++ lit "Content-Length: -5" ++ CRLF ++ CRLF ++ lit "12345678901234567890") 40 1 = None.
Proof. vm_compute. reflexivity. Qed.

(** The code of the response is not looked at: an error page is handed over as the file. *)
Example error_page :
  run (lit "HTTP/1.1 404 Not Found" ++ CRLF ++ lit "Content-Length: 4" ++ CRLF ++ CRLF ++ lit "none") 40 1
  = Some ([4], [lit "none"]).
Proof. vm_compute. reflexivity. Qed.

(** A status line that does not end in the first 32 bytes is an unresolved name. *)
Example long_status :
  fst <$> run (lit "HTTP/1.1 416 Requested Range Not Satisfiable" ++ CRLF ++ lit "Content-Length: 0" ++ CRLF ++ CRLF) 40 1
  = Some [ERROR_HTTP_UNRESOLVED_DNS].
Proof. vm_compute. reflexivity. Qed.

(** A long URL does not fit the arrays of [_http_send]. *)
Example long_url : _utils_parse_url (lit "http://h/" ++ replicate 256 65) = None.
Proof. vm_compute. reflexivity. Qed.
End HttpSim.

Lemma http_transfer_witness :
  head_ok HttpSim.status_line HttpSim.headers (Z.of_nat (List.length HttpSim.body))
  /\ exists rets ps e', transfer HttpSim.url 443 HttpSim.header 40 3 (HttpSim.world HttpSim.response) = Some (rets, ps, e')
    /\ rets = (fun p => Z.of_nat (List.length p)) <$> ps
    /\ concat ps = take (3 * Z.to_nat (40 - 1)) HttpSim.body
    /\ Forall (fun p => Z.of_nat (List.length p) < 40) ps
    /\ (Z.of_nat (List.length HttpSim.body) <= Z.of_nat 3 * (40 - 1) -> concat ps = HttpSim.body)
    /\ out_of e' = out_of (HttpSim.world HttpSim.response)
         ++ request_head HTTPCLIENT_GET HttpSim.host HttpSim.path (Some HttpSim.header) None None.
Proof.
  split; [exact HttpSim.response_head|].
  refine (http_transfer HttpSim.url 443 HttpSim.header HttpSim.host HttpSim.path HttpSim.status_line HttpSim.headers
    HttpSim.body 40 3 (HttpSim.world HttpSim.response) _ _ _ HttpSim.response_head _ _ _ _).
  - reflexivity.
  - discriminate.
  - apply Nat.leb_le. reflexivity.
  - reflexivity.
  - discriminate.
  - apply Nat.leb_le. reflexivity.
  - discriminate.
Defined.
