(* ===== verification/DmManager.v ===== *)
(** * DmManager: the table of devices of the device model

    [eng/dev_model/dm_manager.c]: the devices, the local one and those that were created,
    found by their number and by product key and device name.  A character array of a
    node is its string, a pointer to a node the node; a function that stores through an
    output pointer returns what it stores, [None] when it stores nothing.  The functions
    that assemble requests of sub-devices belong to the gateway, which is not configured.  The mutex of
    the context is taken by [dm_mgr_deinit] only. *)

From S2P Require Import Prelude.
From S2P Require Import CString.
From S2P Require Import Hal.
From S2P Require Import InfraState.
From S2P Require Import InfraCompat.

Definition IOTX_DM_LOCAL_NODE_DEVID : Z := 0.
Definition IOTX_DM_DEVICE_TYPE : Z := 1.
Definition IOTX_DM_DEV_AVAIL_ENABLE : Z := 0.
Definition IOTX_DM_DEV_AVAIL_DISABLE : Z := 1.
Definition IOTX_DM_DEV_STATUS_UNAUTHORIZED : Z := 0.
Definition IOTX_DM_DEV_STATUS_AUTHORIZED : Z := 1.
Definition sizeof_dev_node : Z := 208.

Record dm_mgr_dev_node_t := DevNode {
  dn_devid : Z;
  dev_type : Z;
  dn_product_key : list Z;
  dn_product_secret : list Z;
  dn_device_name : list Z;
  dn_device_secret : list Z;
  status : Z;
  dev_status : Z
}.

#[global] Instance eta_dev_node : Eta dm_mgr_dev_node_t := fun n =>
  DevNode (dn_devid n) (dev_type n) (dn_product_key n) (dn_product_secret n) (dn_device_name n)
    (dn_device_secret n) (status n) (dev_status n).

Record dm_mgr_ctx := MgrCtx { mgr_mutex : bool; global_devid : Z; dev_list : list dm_mgr_dev_node_t }.

#[global] Instance eta_mgr_ctx : Eta dm_mgr_ctx := fun c => MgrCtx (mgr_mutex c) (global_devid c) (dev_list c).

Definition mgr_zero : dm_mgr_ctx := MgrCtx false 0 [].

(** [strlen(a) == strlen(b) && memcmp(a, b, strlen(b)) == 0] *)
Definition str_same (a b : list Z) : bool :=
  (List.length a =? List.length b)%nat && bool_decide (take (List.length b) a = b).

(** [strlen(s) >= n + 1] *)
Definition too_long (s : list Z) (n : Z) : bool := n + 1 <=? Z.of_nat (List.length s).

(** The number, and the counter after it. *)
Definition _dm_mgr_next_devid (c : dm_mgr_ctx) : Z * dm_mgr_ctx :=
  (global_devid c, c <| global_devid ::= fun n => n + 1 |>).

Definition is_devid (devid : Z) (n : dm_mgr_dev_node_t) : bool := dn_devid n =? devid.

Definition is_pkdn (pk dn : list Z) (n : dm_mgr_dev_node_t) : bool :=
  str_same (dn_product_key n) pk && str_same (dn_device_name n) dn.

Definition _dm_mgr_search_dev_by_devid (devid : Z) (c : dm_mgr_ctx) : Z * option dm_mgr_dev_node_t :=
  match List.find (is_devid devid) (dev_list c) with
  | Some n => (SUCCESS_RETURN, Some n)
  | None => (STATE_DEV_MODEL_DEVICE_NOT_FOUND, None)
  end.

Definition _dm_mgr_search_dev_by_pkdn (pk dn : list Z) (c : dm_mgr_ctx) : Z * option dm_mgr_dev_node_t :=
  match List.find (is_pkdn pk dn) (dev_list c) with
  | Some n => (SUCCESS_RETURN, Some n)
  | None => (STATE_DEV_MODEL_DEVICE_NOT_FOUND, None)
  end.

(** A store through the pointer to the first node of the number. *)
Fixpoint set_node (devid : Z) (f : dm_mgr_dev_node_t -> dm_mgr_dev_node_t)
    (l : list dm_mgr_dev_node_t) : list dm_mgr_dev_node_t :=
  match l with
  | [] => []
  | n :: l' => if is_devid devid n then f n :: l' else n :: set_node devid f l'
  end.

(** [list_del] of the first node of the number. *)
Fixpoint del_node (devid : Z) (l : list dm_mgr_dev_node_t) : list dm_mgr_dev_node_t :=
  match l with
  | [] => []
  | n :: l' => if is_devid devid n then l' else n :: del_node devid l'
  end.

Section Manager.
Context {E : Type} `{!Hal E}.

Definition _dm_mgr_insert_dev (devid type : Z) (pk dn : list Z) (c : dm_mgr_ctx) (e : E)
    : Z * dm_mgr_ctx * E :=
  if too_long pk IOTX_PRODUCT_KEY_LEN then (STATE_USER_INPUT_PK, c, e)
  else if too_long dn IOTX_DEVICE_NAME_LEN then (STATE_USER_INPUT_DN, c, e)
  else if fst (_dm_mgr_search_dev_by_devid devid c) =? SUCCESS_RETURN
  then (STATE_DEV_MODEL_DEVICE_ALREADY_EXIST, c, e)
  else
    let '(ok, e) := HAL_Malloc sizeof_dev_node e in
    if negb ok then (STATE_SYS_DEPEND_MALLOC, c, e)
    else
      let node := DevNode devid type pk [] dn [] 0 0 in
      (SUCCESS_RETURN, c <| dev_list ::= fun l => l ++ [node] |>, e).

Definition _dm_mgr_destroy_devlist (c : dm_mgr_ctx) : dm_mgr_ctx := c <| dev_list := [] |>.

(** The product key and the device name come from the settings. *)
Definition dm_mgr_init (g : sdk_impl_ctx_t) (c : dm_mgr_ctx) (e : E) : option (Z * dm_mgr_ctx * E) :=
  let '(ok, e) := HAL_MutexCreate e in
  if negb ok then Some (STATE_SYS_DEPEND_MUTEX_CREATE, mgr_zero, e)
  else
    let c := MgrCtx true (IOTX_DM_LOCAL_NODE_DEVID + 1) [] in
    r ← IOT_Ioctl IOTX_IOCTL_GET_PRODUCT_KEY
          (Some (DataBuf (zeros (Z.to_nat (IOTX_PRODUCT_KEY_LEN + 1))))) g;
    pk ← match r with (_, _, Some (DataBuf b)) => arr_str b | _ => None end;
    r ← IOT_Ioctl IOTX_IOCTL_GET_DEVICE_NAME
          (Some (DataBuf (zeros (Z.to_nat (IOTX_DEVICE_NAME_LEN + 1))))) g;
    dn ← match r with (_, _, Some (DataBuf b)) => arr_str b | _ => None end;
    let '(res, c, e) := _dm_mgr_insert_dev IOTX_DM_LOCAL_NODE_DEVID IOTX_DM_DEVICE_TYPE pk dn c e in
    if negb (res =? SUCCESS_RETURN) then Some (res, mgr_zero, e) else Some (SUCCESS_RETURN, c, e).

(** The lock and unlock of the mutex around the removal, and its destruction, are not steps
    of the model, in which one thread runs; the pointer to the destroyed mutex stays in the
    context, as here [mgr_mutex] stays what it was. *)
Definition dm_mgr_deinit (c : dm_mgr_ctx) : Z * dm_mgr_ctx := (SUCCESS_RETURN, _dm_mgr_destroy_devlist c).

Definition dm_mgr_device_query (pk dn : list Z) (c : dm_mgr_ctx) : Z * option Z :=
  let '(res, node) := _dm_mgr_search_dev_by_pkdn pk dn c in
  match node with
  | Some n => (SUCCESS_RETURN, Some (dn_devid n))
  | None => (STATE_DEV_MODEL_DEVICE_NOT_FOUND, None)
  end.

Definition dm_mgr_device_create (type : Z) (pk ps dn ds : option (list Z)) (c : dm_mgr_ctx) (e : E)
    : Z * option Z * dm_mgr_ctx * E :=
  match pk, ps, dn with
  | Some pk, Some ps, Some dn =>
      if too_long pk IOTX_PRODUCT_KEY_LEN || too_long ps IOTX_PRODUCT_SECRET_LEN
         || too_long dn IOTX_DEVICE_NAME_LEN
      then (STATE_USER_INPUT_INVALID, None, c, e)
      else if match ds with Some s => too_long s IOTX_DEVICE_SECRET_LEN | None => false end
      then (STATE_USER_INPUT_INVALID, None, c, e)
      else
        match snd (_dm_mgr_search_dev_by_pkdn pk dn c) with
        | Some n => (STATE_DEV_MODEL_DEVICE_ALREADY_EXIST, Some (dn_devid n), c, e)
        | None =>
            let '(ok, e) := HAL_Malloc sizeof_dev_node e in
            if negb ok then (STATE_SYS_DEPEND_MALLOC, None, c, e)
            else
              let '(devid, c) := _dm_mgr_next_devid c in
              let node := DevNode devid type pk ps dn (default [] ds) 0 IOTX_DM_DEV_STATUS_AUTHORIZED in
              (SUCCESS_RETURN, Some devid, c <| dev_list ::= fun l => l ++ [node] |>, e)
        end
  | _, _, _ => (STATE_USER_INPUT_INVALID, None, c, e)
  end.
End Manager.

Definition dm_mgr_device_destroy (devid : Z) (c : dm_mgr_ctx) : Z * dm_mgr_ctx :=
  if devid <? 0 then (STATE_USER_INPUT_DEVID, c)
  else
    match _dm_mgr_search_dev_by_devid devid c with
    | (_, Some n) =>
        if dn_devid n =? IOTX_DM_LOCAL_NODE_DEVID then (STATE_DEV_MODEL_SUBD_NOT_DELETEABLE, c)
        else (SUCCESS_RETURN, c <| dev_list ::= del_node devid |>)
    | (res, None) => (res, c)
    end.

Definition dm_mgr_device_number (c : dm_mgr_ctx) : Z := Z.of_nat (List.length (dev_list c)).

Definition dm_mgr_get_devid_by_index (index : Z) (c : dm_mgr_ctx) : Z * option Z :=
  if index <? 0 then (STATE_USER_INPUT_INVALID, None)
  else
    match dev_list c !! Z.to_nat index with
    | Some n => (SUCCESS_RETURN, Some (dn_devid n))
    | None => (STATE_DEV_MODEL_DEVICE_NOT_FOUND, None)
    end.

(** The loop of [dm_mgr_get_next_devid]: [found] is whether [search_node] is set; it is the
    node before whenever it is of the number. *)
Fixpoint next_devid_loop (l : list dm_mgr_dev_node_t) (search_node : option dm_mgr_dev_node_t) (devid : Z)
    : option Z :=
  match l with
  | [] => None
  | next_node :: l' =>
      if match search_node with Some n => dn_devid n =? devid | None => false end
      then Some (dn_devid next_node)
      else next_devid_loop l' (if dn_devid next_node =? devid then Some next_node else search_node) devid
  end.

Definition dm_mgr_get_next_devid (devid : Z) (c : dm_mgr_ctx) : Z * option Z :=
  if devid <? 0 then (STATE_USER_INPUT_INVALID, None)
  else
    match next_devid_loop (dev_list c) None devid with
    | Some n => (SUCCESS_RETURN, Some n)
    | None => (STATE_DEV_MODEL_DEVICE_NOT_FOUND, None)
    end.

(** The three output arrays; their bytes behind the strings stay. *)
Definition dm_mgr_search_device_by_devid (devid : Z) (pk dn ds : list Z) (c : dm_mgr_ctx)
    : option (Z * (list Z * list Z * list Z)) :=
  match _dm_mgr_search_dev_by_devid devid c with
  | (_, Some n) =>
      pk ← arr_copy pk (dn_product_key n);
      dn ← arr_copy dn (dn_device_name n);
      ds ← arr_copy ds (dn_device_secret n);
      Some (SUCCESS_RETURN, (pk, dn, ds))
  | (res, None) => Some (res, (pk, dn, ds))
  end.

Definition dm_mgr_search_device_by_pkdn (pk dn : option (list Z)) (c : dm_mgr_ctx) : Z * option Z :=
  match pk, dn with
  | Some pk, Some dn =>
      match _dm_mgr_search_dev_by_pkdn pk dn c with
      | (_, Some n) => (SUCCESS_RETURN, Some (dn_devid n))
      | (res, None) => (res, None)
      end
  | _, _ => (STATE_USER_INPUT_INVALID, None)
  end.

Definition dm_mgr_search_device_node_by_devid (devid : Z) (c : dm_mgr_ctx) : Z * option dm_mgr_dev_node_t :=
  match _dm_mgr_search_dev_by_devid devid c with
  | (_, Some n) => (SUCCESS_RETURN, Some n)
  | (_, None) => (STATE_DEV_MODEL_DEVICE_NOT_FOUND, None)
  end.

(** The functions that read a field of a device. *)
Definition get_field (f : dm_mgr_dev_node_t -> Z) (devid : Z) (c : dm_mgr_ctx) : Z * option Z :=
  if devid <? 0 then (STATE_USER_INPUT_INVALID, None)
  else
    match _dm_mgr_search_dev_by_devid devid c with
    | (_, Some n) => (SUCCESS_RETURN, Some (f n))
    | (res, None) => (res, None)
    end.

Definition dm_mgr_get_dev_type : Z -> dm_mgr_ctx -> Z * option Z := get_field dev_type.
Definition dm_mgr_get_dev_status : Z -> dm_mgr_ctx -> Z * option Z := get_field dev_status.

(** The functions that write a field of a device. *)
Definition set_field (f : dm_mgr_dev_node_t -> dm_mgr_dev_node_t) (devid : Z) (c : dm_mgr_ctx)
    : Z * dm_mgr_ctx :=
  if devid <? 0 then (STATE_USER_INPUT_INVALID, c)
  else
    match _dm_mgr_search_dev_by_devid devid c with
    | (_, Some _) => (SUCCESS_RETURN, c <| dev_list ::= set_node devid f |>)
    | (res, None) => (res, c)
    end.

Definition dm_mgr_set_dev_enable : Z -> dm_mgr_ctx -> Z * dm_mgr_ctx :=
  set_field (fun n => n <| status := IOTX_DM_DEV_AVAIL_ENABLE |>).
Definition dm_mgr_set_dev_disable : Z -> dm_mgr_ctx -> Z * dm_mgr_ctx :=
  set_field (fun n => n <| status := IOTX_DM_DEV_AVAIL_DISABLE |>).
Definition dm_mgr_set_dev_status (devid st : Z) : dm_mgr_ctx -> Z * dm_mgr_ctx :=
  set_field (fun n => n <| dev_status := st |>) devid.

Definition dm_mgr_set_device_secret (devid : Z) (ds : option (list Z)) (c : dm_mgr_ctx) : Z * dm_mgr_ctx :=
  match ds with
  | Some s => if too_long s IOTX_DEVICE_SECRET_LEN then (STATE_USER_INPUT_INVALID, c)
              else set_field (fun n => n <| dn_device_secret := s |>) devid c
  | None => (STATE_USER_INPUT_INVALID, c)
  end.

Definition dm_mgr_get_dev_avail (pk dn : option (list Z)) (c : dm_mgr_ctx) : Z * option Z :=
  match pk, dn with
  | Some pk, Some dn =>
      if too_long pk IOTX_PRODUCT_KEY_LEN || too_long dn IOTX_DEVICE_NAME_LEN
      then (STATE_USER_INPUT_INVALID, None)
      else
        match _dm_mgr_search_dev_by_pkdn pk dn c with
        | (_, Some n) => (SUCCESS_RETURN, Some (status n))
        | (res, None) => (res, None)
        end
  | _, _ => (STATE_USER_INPUT_INVALID, None)
  end.
