(* ===== verification/OtaLib.v ===== *)
(** * OtaLib: tools of the firmware update

    [eng/ota/ota_lib.c]: the parameters of an update in the message that announces it, the
    digests, and the messages to the cloud.  [eng/ota/ota_fetch.c]: the download, one
    transfer of [InfraHttpc] whose callback stores the pieces in the buffer of the caller.

    A string in a block of its own is its content without the NUL.  A JSON text is the
    object that it lies in, the offset where it starts and its length. *)

From S2P Require Import Prelude.
From S2P Require Import CString.
From S2P Require Import InfraHash.
From S2P Require Import InfraSha256.
From S2P Require Import InfraMd5.
From S2P Require Import Hal.
From S2P Require Import InfraState.
From S2P Require Import InfraString.
From S2P Require Import Json.
From S2P Require Import InfraJson.
From S2P Require Import Eff.
From S2P Require Import InfraHttpc.

Definition IOT_OTAE_GENERAL : Z := -1.
Definition IOT_OTAE_INVALID_PARAM : Z := -2.
Definition IOT_OTAE_INVALID_STATE : Z := -3.
Definition IOT_OTAE_STR_TOO_LONG : Z := -4.
Definition IOT_OTAE_FETCH_FAILED : Z := -5.
Definition IOT_OTAE_NOMEM : Z := -6.
Definition IOT_OTAE_OSC_FAILED : Z := -7.
Definition IOT_OTAE_NONE : Z := 0.

Definition sizeof_iot_md5_context : Z := 88.
Definition sizeof_iot_sha256_context : Z := 108.
Definition sizeof_otahttp_Struct : Z := 12.

(** ** Parameters *)

(** The place and the length of a value; a place without a length is not read. *)
Definition otalib_JsonValueOf (json : list Z) (pos json_len : Z) (key : list Z) : option (option (Z * Z)) :=
  r ← json_get_value_by_name json pos json_len (key ++ [0]);
  match r with
  | (None, _) => Some None
  | (Some val, Some (length, _)) => Some (Some (val, u32 length))
  | (Some _, None) => None
  end.

Section Params.
Context {E : Type} `{!Hal E}.

(** The code and [dest]. *)
Definition otalib_GetFirmwareFixlenPara (json_doc : list Z) (pos json_doc_len : Z) (key dest : list Z)
    (dest_len : Z) : eff E (Z * list Z) :=
  v ← eff_lift (otalib_JsonValueOf json_doc pos json_doc_len key);
  match v with
  | None => mret (-1, dest)
  | Some (pvalue, val_len) =>
      if dest_len <? val_len then mret (-1, dest)
      else
        value ← buf_sub json_doc pvalue val_len;
        dest ← buf_store dest 0 value;
        mret (0, dest)
  end.

(** The code and what [*dest] becomes; the old block is not freed. *)
Definition otalib_GetFirmwareVarlenPara (json_doc : list Z) (pos json_doc_len : Z) (key : list Z)
    (dest : option (list Z)) : eff E (Z * option (list Z)) :=
  v ← eff_lift (otalib_JsonValueOf json_doc pos json_doc_len key);
  match v with
  | None => mret (-1, dest)
  | Some (pvalue, val_len) =>
      ok ← eff_malloc (u32 (val_len + 1));
      if negb ok then mret (-1, None)
      else
        value ← buf_sub json_doc pvalue val_len;
        text ← eff_lift (arr_str (value ++ [0]));
        mret (0, Some text)
  end.

(** The decimal number in an array of [OTA_FILESIZE_STR_LEN + 1] bytes, [NUL] put at its end. *)
Definition file_size_value (file_size_str : list Z) : eff E Z :=
  file_size_str ← buf_set file_size_str 16 0;
  n ← eff_lift (atoi file_size_str);
  mret (u32 n).

(** [*url], [*version], [md5], [*file_size]. *)
Definition fota_params : Type := option (list Z) * option (list Z) * list Z * Z.

Definition otalib_GetParams (json_doc : list Z) (pos json_len : Z) (params : fota_params)
    : eff E (Z * fota_params) :=
  let '(url, version, md5, file_size) := params in
  '(ret, version) ← otalib_GetFirmwareVarlenPara json_doc pos json_len (lit "version") version;
  if negb (ret =? 0) then mret (-1, (url, version, md5, file_size))
  else
    '(ret, url) ← otalib_GetFirmwareVarlenPara json_doc pos json_len (lit "url") url;
    if negb (ret =? 0) then mret (-1, (url, version, md5, file_size))
    else
      '(ret, md5) ← otalib_GetFirmwareFixlenPara json_doc pos json_len (lit "md5") md5 32;
      if negb (ret =? 0) then mret (-1, (url, version, md5, file_size))
      else
        '(ret, file_size_str) ← otalib_GetFirmwareFixlenPara json_doc pos json_len (lit "size") (zeros 17) 16;
        if negb (ret =? 0) then mret (-1, (url, version, md5, file_size))
        else
          file_size ← file_size_value file_size_str;
          mret (0, (url, version, md5, file_size)).

(** [*configId], [*configSize], [*sign], [*signMethod], [*url], [*getType]. *)
Definition cota_params : Type :=
  option (list Z) * Z * option (list Z) * option (list Z) * option (list Z) * option (list Z).

Definition otalib_GetConfigParams `{!HalStack E} (json_doc : list Z) (pos json_len : Z)
    (params : cota_params) : eff E (Z * cota_params) :=
  let '(configId, configSize, sign, signMethod, url, getType) := params in
  file_size_str ← eff_plat (fun e => (HAL_stack 17 e, e));
  '(ret, configId) ← otalib_GetFirmwareVarlenPara json_doc pos json_len (lit "configId") configId;
  if negb (ret =? 0) then mret (-1, (configId, configSize, sign, signMethod, url, getType))
  else
    '(ret, file_size_str) ← otalib_GetFirmwareFixlenPara json_doc pos json_len (lit "configSize") file_size_str 16;
    if negb (ret =? 0) then mret (-1, (configId, configSize, sign, signMethod, url, getType))
    else
      configSize ← file_size_value file_size_str;
      '(ret, sign) ← otalib_GetFirmwareVarlenPara json_doc pos json_len (lit "sign") sign;
      if negb (ret =? 0) then mret (-1, (configId, configSize, sign, signMethod, url, getType))
      else
        '(ret, signMethod) ← otalib_GetFirmwareVarlenPara json_doc pos json_len (lit "signMethod") signMethod;
        if negb (ret =? 0) then mret (-1, (configId, configSize, sign, signMethod, url, getType))
        else
          '(ret, url) ← otalib_GetFirmwareVarlenPara json_doc pos json_len (lit "url") url;
          if negb (ret =? 0) then mret (-1, (configId, configSize, sign, signMethod, url, getType))
          else
            '(ret, getType) ← otalib_GetFirmwareVarlenPara json_doc pos json_len (lit "getType") getType;
            if negb (ret =? 0) then mret (-1, (configId, configSize, sign, signMethod, url, getType))
            else mret (0, (configId, configSize, sign, signMethod, url, getType)).

(** ** Digests *)

Definition otalib_MD5Init : eff E (option hash_context) :=
  ok ← eff_malloc sizeof_iot_md5_context;
  mret (if ok : bool then Some (utils_md5_starts utils_md5_init) else None).

Definition otalib_MD5Update (md5 : option hash_context) (buf : list Z) (buf_len : Z) : eff E hash_context :=
  ctx ← eff_lift md5;
  eff_lift (utils_md5_update ctx buf buf_len).

(** Two hexadecimal digits for every byte. *)
Definition hex_text (buf_out : list Z) : list Z :=
  flat_map (fun b => [infra_hex2char (Z.shiftr b 4); infra_hex2char b]) buf_out.

(** The context and [output_str]. *)
Definition otalib_MD5Finalize (md5 : option hash_context) : eff E (hash_context * list Z) :=
  ctx ← eff_lift md5;
  '(ctx, buf_out) ← eff_lift (utils_md5_finish ctx);
  mret (ctx, hex_text buf_out ++ [0]).

Definition otalib_Sha256Init : eff E (option iot_sha256_context) :=
  ok ← eff_malloc sizeof_iot_sha256_context;
  mret (if ok : bool then Some (utils_sha256_starts utils_sha256_init) else None).

Definition otalib_Sha256Update (sha256 : option iot_sha256_context) (buf : list Z) (buf_len : Z)
    : eff E iot_sha256_context :=
  ctx ← eff_lift sha256;
  eff_lift (utils_sha256_update ctx buf buf_len).

Definition otalib_Sha256Finalize (sha256 : option iot_sha256_context)
    : eff E (iot_sha256_context * list Z) :=
  ctx ← eff_lift sha256;
  '(ctx, buf_out) ← eff_lift (utils_sha256_finish ctx);
  mret (ctx, hex_text buf_out ++ [0]).
End Params.

(** ** Messages *)

(** The code and the string left in [buf]; [HAL_Snprintf] does not fail. *)
Definition otalib_GenInfoMsg (buf_len id : Z) (version : list Z) : option (Z * list Z) :=
  text ← sprintf (json_lit "{'id':%d,'params':{'version':'%s'}}") [PD (i32 id); PS version];
  Some (0, snprintf_text buf_len text).

Definition otalib_GenReportMsg (buf_len id progress : Z) (msg_detail : option (list Z))
    : option (Z * list Z) :=
  text ← match msg_detail with
         | None => sprintf (json_lit "{'id':%d,'params':{'step':'%d','desc':''}}") [PD (i32 id); PD progress]
         | Some m => sprintf (json_lit "{'id':%d,'params':{'step':'%d','desc':'%s'}}")
                       [PD (i32 id); PD progress; PS m]
         end;
  Some (if buf_len <=? Z.of_nat (List.length text) then IOT_OTAE_STR_TOO_LONG else 0,
        snprintf_text buf_len text).

(** ** The download *)

Definition OFC_HTTP_HEADER_MAXLEN : Z := 128.

Record ota_http_response_t := OtaResponse {
  payload : list Z;
  alread_download : Z;
  payload_len : Z
}.

#[global] Instance eta_ota_response : Eta ota_http_response_t := fun r =>
  OtaResponse (payload r) (alread_download r) (payload_len r).

Record otahttp_Struct_t := OtaHttp {
  http_handle : wrapper_http_handle_t ota_http_response_t;
  fetch_size : Z
}.

#[global] Instance eta_otahttp : Eta otahttp_Struct_t := fun h => OtaHttp (http_handle h) (fetch_size h).

Section Fetch.
Context {E : Type} `{!Hal E}.

(** [iotx_ca_crt] *)
Variable ca_crt : option (list Z).

Definition header_fmt : list Z :=
  lit "Accept: text/html,application/xhtml+xml,application/xml;q=0.9,*/*;q=0.8" ++ CRLF
  ++ lit "Range: bytes=%d-" ++ CRLF.

(** [protocol_end], [pub_key] and [port]; NULL is returned for another protocol. *)
Definition ofc_protocol (url : list Z) : option (nat * option (list Z) * Z) :=
  match find_sub url (lit "://") with
  | Some protocol_len =>
      let protocol := take protocol_len url in
      if bool_decide (protocol = lit "http") then Some (protocol_len, None, 80)
      else if bool_decide (protocol = lit "https") then Some (protocol_len, ca_crt, 443)
      else None
  | None => Some (O, None, 80)
  end.

(** A port in the URL replaces the port of the protocol. *)
Definition ofc_port (tail : list Z) (port : Z) : Z :=
  match find_sub tail (lit ":") with
  | Some port_start =>
      match find_sub (drop (port_start + 1) tail) (lit "/") with
      | Some _ => default port (infra_str2int (drop (port_start + 1) tail))
      | None => port
      end
  | None => port
  end.

Definition ofc_Init (url : option (list Z)) (offset : Z) : eff E (option otahttp_Struct_t) :=
  url ← eff_lift url;
  match ofc_protocol url with
  | None => mret None
  | Some (protocol_end, pub_key, port) =>
      tail ← buf_from url (Z.of_nat protocol_end + 1);
      let port := ofc_port tail port in
      header ← eff_lift (sprintf header_fmt [PD offset]);
      let header := snprintf_text OFC_HTTP_HEADER_MAXLEN header in
      ok ← eff_malloc sizeof_otahttp_Struct;
      if negb ok then mret None
      else
        h ← wrapper_http_init;
        match h with
        | None => mret None
        | Some h =>
            '(_, h) ← wrapper_http_setopt h (Some (IOTX_HTTPOPT_URL url));
            '(_, h) ← wrapper_http_setopt h (Some (IOTX_HTTPOPT_PORT port));
            '(_, h) ← wrapper_http_setopt h (Some (IOTX_HTTPOPT_METHOD IOTX_HTTP_GET));
            '(_, h) ← wrapper_http_setopt h (Some (IOTX_HTTPOPT_HEADER header));
            '(_, h) ← wrapper_http_setopt h (IOTX_HTTPOPT_CERT <$> pub_key);
            mret (Some (OtaHttp h 0))
        end
  end.

(** [memcpy(response->payload + response->alread_download, ptr, length)] *)
Definition store_piece (payload : list Z) (off : Z) (ptr : list Z) (length : Z) : option (list Z) :=
  if (length <? 0) || (Z.of_nat (List.length ptr) <? length) || (off <? 0)
     || (Z.of_nat (List.length payload) <? off + length) then None
  else Some (take (Z.to_nat off) payload ++ take (Z.to_nat length) ptr
             ++ drop (Z.to_nat off + Z.to_nat length) payload).

Definition _ota_fetch_callback (ptr : list Z) (length total_length : Z) (response : ota_http_response_t)
    : option ota_http_response_t :=
  if payload_len response <? alread_download response + length then Some response
  else
    p ← store_piece (payload response) (alread_download response) ptr length;
    Some (response <| payload := p |> <| alread_download ::= fun n => n + length |>).

(** The code, the handle and [buf]. *)
Definition ofc_Fetch (h_odc : otahttp_Struct_t) (buf : list Z) (buf_len timeout_s : Z)
    : eff E (Z * otahttp_Struct_t * list Z) :=
  buf ← buf_store buf 0 (zeros (Z.to_nat buf_len));
  let response := OtaResponse buf 0 (i32 buf_len) in
  let h := http_handle h_odc in
  '(_, h) ← wrapper_http_setopt h (Some (IOTX_HTTPOPT_TIMEOUT (i32 (timeout_s * 1000))));
  '(_, h) ← wrapper_http_setopt h (Some (IOTX_HTTPOPT_RECVCALLBACK _ota_fetch_callback));
  '(_, h) ← wrapper_http_setopt h (Some (IOTX_HTTPOPT_RECVMAXLEN (i32 buf_len)));
  '(_, h) ← wrapper_http_setopt h (Some (IOTX_HTTPOPT_RECVCONTEXT response));
  '(current_fetch_size, h) ← wrapper_http_perform h None 0;
  let h_odc := h_odc <| http_handle := h |> in
  response ← eff_lift (recv_ctx h);
  if current_fetch_size <? 0 then mret (current_fetch_size, h_odc, payload response)
  else mret (current_fetch_size, h_odc <| fetch_size ::= fun n => n + current_fetch_size |>, payload response).

(** Of a handle that is not NULL. *)
Definition ofc_Deinit (h_odc : otahttp_Struct_t) : eff E unit := wrapper_http_deinit (http_handle h_odc).
End Fetch.
