(* ===== verification/IotxOta.v ===== *)
(** * IotxOta: the firmware update

    [eng/ota/iotx_ota.c] and [eng/ota/ota_mqtt.c], the signal channel of the active
    configuration.  A message on one of four topics announces a firmware or a
    configuration; the application fetches it piece by piece, each of which goes into the
    digests, and has the digest compared with the one announced.

    The functions take a handle that is not NULL; NULL is refused with
    [IOT_OTAE_INVALID_PARAM] (or NULL, 0 or -1) before anything else. *)

From S2P Require Import Prelude.
From S2P Require Import CString.
From S2P Require Import InfraHash.
From S2P Require Import InfraSha256.
From S2P Require Import InfraMd5.
From S2P Require Import Hal.
From S2P Require Import InfraState.
From S2P Require Import Json.
From S2P Require Import Eff.
From S2P Require Import InfraHttpc.
From S2P Require Import OtaLib.

Definition IOT_OTAS_UNINITED : Z := 0.
Definition IOT_OTAS_INITED : Z := 1.
Definition IOT_OTAS_PUSHED : Z := 2.
Definition IOT_OTAS_FETCHING : Z := 3.
Definition IOT_OTAS_FETCHED : Z := 4.
Definition IOT_OTAT_NONE : Z := 0.
Definition IOT_OTAT_COTA : Z := 1.
Definition IOT_OTAT_FOTA : Z := 2.
Definition IOT_OTAP_BURN_FAILED : Z := -4.
Definition IOT_OTAP_CHECK_FALIED : Z := -3.
Definition IOT_OTAP_FETCH_FAILED : Z := -2.
Definition IOT_OTAP_GENERAL_FAILED : Z := -1.
Definition IOT_OTAP_FETCH_PERCENTAGE_MIN : Z := 0.
Definition IOT_OTAP_FETCH_PERCENTAGE_MAX : Z := 100.
Definition IOTX_OTA_TOPIC_TYPE_DEVICE_REQUEST : Z := 1.
Definition IOTX_OTA_TOPIC_TYPE_DEVICE_UPGRATE : Z := 2.
Definition IOTX_OTA_TOPIC_TYPE_CONFIG_GET : Z := 3.
Definition IOTX_OTA_TOPIC_TYPE_CONFIG_PUSH : Z := 4.
Definition OTA_MQTT_TOPIC_LEN : Z := 128.
Definition OTA_VERSION_STR_LEN_MIN : Z := 1.
Definition OTA_VERSION_STR_LEN_MAX : Z := 32.
Definition MSG_INFORM_LEN : Z := 128.
Definition MSG_REQUEST_LEN : Z := 128.
Definition MSG_REPORT_LEN : Z := 256.
Definition sizeof_otamqtt_Struct : Z := 532.
Definition sizeof_OTA_Struct : Z := 136.

(** ** The signal channel *)

(** The MQTT interface: client, topic, QoS and payload; a subscription registers
    [otamqtt_UpgrageCb] with the channel. *)
Class OtaSignal (E : Type) := {
  IOT_MQTT_Publish : Z -> list Z -> Z -> list Z -> E -> Z * E;
  IOT_MQTT_Subscribe : Z -> list Z -> Z -> E -> Z * E
}.

(** [cb] is [ota_callback] when it is set, and [context] the handle that holds the channel. *)
Record otamqtt_Struct_t := OtaMqtt {
  mqtt : Z;
  osc_product_key : list Z;
  osc_device_name : list Z;
  topic_upgrade : list Z;
  topic_request : list Z;
  topic_config_get : list Z;
  topic_config_push : list Z;
  osc_cb : bool
}.

#[global] Instance eta_otamqtt : Eta otamqtt_Struct_t := fun o =>
  OtaMqtt (mqtt o) (osc_product_key o) (osc_device_name o) (topic_upgrade o) (topic_request o)
    (topic_config_get o) (topic_config_push o) (osc_cb o).

(** The code and the topic. *)
Definition otamqtt_GenTopicName (buf_len : Z) (ota_topic_type product_key device_name : list Z)
    : option (Z * list Z) :=
  text ← sprintf (lit "/ota/device/%s/%s/%s") [PS ota_topic_type; PS product_key; PS device_name];
  Some (if buf_len <=? Z.of_nat (List.length text) then -1 else 0, snprintf_text buf_len text).

Section Signal.
Context {E : Type} `{!Hal E, !OtaSignal E}.

Definition otamqtt_Publish (handle : otamqtt_Struct_t) (topic_type : list Z) (qos : Z) (msg : list Z)
    : eff E Z :=
  let qos := if qos =? 0 then 0 else 1 in
  '(ret, topic_name) ← eff_lift (otamqtt_GenTopicName OTA_MQTT_TOPIC_LEN topic_type
                                   (osc_product_key handle) (osc_device_name handle));
  if ret <? 0 then mret (-1)
  else
    ret ← eff_plat (IOT_MQTT_Publish (mqtt handle) topic_name qos msg);
    mret (if ret <? 0 then IOT_OTAE_OSC_FAILED else 0).

Definition otamqtt_publish_full_topic (handle : otamqtt_Struct_t) (topic_name : list Z) (qos : Z)
    (msg : list Z) : eff E Z :=
  ret ← eff_plat (IOT_MQTT_Publish (mqtt handle) topic_name qos msg);
  mret (if ret <? 0 then IOT_OTAE_OSC_FAILED else 0).

(** A topic of [thing/config], cut to the array. *)
Definition config_topic (fmt product_key device_name : list Z) : option (list Z) :=
  text ← sprintf fmt [PS product_key; PS device_name];
  Some (snprintf_text OTA_MQTT_TOPIC_LEN text).

Definition osc_Init (product_key device_name : list Z) (ch_signal : Z) : eff E (option otamqtt_Struct_t) :=
  ok ← eff_malloc sizeof_otamqtt_Struct;
  if negb ok then mret None
  else
    '(ret, request) ← eff_lift (otamqtt_GenTopicName OTA_MQTT_TOPIC_LEN (lit "request") product_key device_name);
    if ret <? 0 then mret None
    else
      ret ← eff_plat (IOT_MQTT_Subscribe ch_signal request 1);
      if ret <? 0 then mret None
      else
        '(ret, upgrade) ← eff_lift (otamqtt_GenTopicName OTA_MQTT_TOPIC_LEN (lit "upgrade") product_key device_name);
        if ret <? 0 then mret None
        else
          ret ← eff_plat (IOT_MQTT_Subscribe ch_signal upgrade 1);
          if ret <? 0 then mret None
          else
            get ← eff_lift (config_topic (lit "/sys/%s/%s/thing/config/get_reply") product_key device_name);
            ret ← eff_plat (IOT_MQTT_Subscribe ch_signal get 0);
            if ret <? 0 then mret None
            else
              push ← eff_lift (config_topic (lit "/sys/%s/%s/thing/config/push") product_key device_name);
              ret ← eff_plat (IOT_MQTT_Subscribe ch_signal push 0);
              if ret <? 0 then mret None
              else mret (Some (OtaMqtt ch_signal product_key device_name upgrade request get push true)).

Definition osc_ReportProgress (handle : otamqtt_Struct_t) (msg : list Z) : eff E Z :=
  otamqtt_Publish handle (lit "progress") 0 msg.

Definition osc_ReportVersion (handle : otamqtt_Struct_t) (msg : list Z) : eff E Z :=
  otamqtt_Publish handle (lit "inform") 1 msg.

Definition osc_RequestImage (handle : otamqtt_Struct_t) (msg : list Z) : eff E Z :=
  otamqtt_Publish handle (lit "request") 1 msg.

Definition osc_RequestConfig (handle : otamqtt_Struct_t) (topic_name : list Z) (qos : Z) (msg : list Z)
    : eff E Z := otamqtt_publish_full_topic handle topic_name qos msg.
End Signal.

(** ** The handle *)

(** [ota_event_cb] is one of the callbacks [Cb] of the application. *)
Record OTA_Struct_t (Cb : Type) := OtaStruct {
  product_key : option (list Z);
  device_name : option (list Z);
  ota_id : Z;
  state : Z;
  type : Z;
  size_last_fetched : Z;
  size_fetched : Z;
  size_file : Z;
  purl : option (list Z);
  version : option (list Z);
  md5sum : list Z;
  md5 : option hash_context;
  sha256 : option iot_sha256_context;
  ch_signal : option otamqtt_Struct_t;
  ch_fetch : option otahttp_Struct_t;
  configId : option (list Z);
  configSize : Z;
  sign : option (list Z);
  signMethod : option (list Z);
  cota_url : option (list Z);
  getType : option (list Z);
  err : Z;
  ota_event_cb : option Cb
}.
Arguments OtaStruct {Cb}.
Arguments product_key {Cb}.
Arguments device_name {Cb}.
Arguments ota_id {Cb}.
Arguments state {Cb}.
Arguments type {Cb}.
Arguments size_last_fetched {Cb}.
Arguments size_fetched {Cb}.
Arguments size_file {Cb}.
Arguments purl {Cb}.
Arguments version {Cb}.
Arguments md5sum {Cb}.
Arguments md5 {Cb}.
Arguments sha256 {Cb}.
Arguments ch_signal {Cb}.
Arguments ch_fetch {Cb}.
Arguments configId {Cb}.
Arguments configSize {Cb}.
Arguments sign {Cb}.
Arguments signMethod {Cb}.
Arguments cota_url {Cb}.
Arguments getType {Cb}.
Arguments err {Cb}.
Arguments ota_event_cb {Cb}.

#[global] Instance eta_ota Cb : Eta (OTA_Struct_t Cb) := fun h =>
  OtaStruct (product_key h) (device_name h) (ota_id h) (state h) (type h) (size_last_fetched h)
    (size_fetched h) (size_file h) (purl h) (version h) (md5sum h) (md5 h) (sha256 h) (ch_signal h)
    (ch_fetch h) (configId h) (configSize h) (sign h) (signMethod h) (cota_url h) (getType h) (err h)
    (ota_event_cb h).

(** What the callbacks do; their results are not looked at. *)
Class OtaEvents (E Cb : Type) := ota_event : Cb -> OTA_Struct_t Cb -> E -> OTA_Struct_t Cb * E.

Definition ota_check_progress (progress : Z) : bool :=
  (IOT_OTAP_BURN_FAILED <=? progress) && (progress <=? IOT_OTAP_FETCH_PERCENTAGE_MAX).

Section Ota.
Context {E Cb : Type} `{!Hal E, !HalStack E, !OtaSignal E, !OtaEvents E Cb}.
Variable ca_crt : option (list Z).
Notation OTA := (OTA_Struct_t Cb).

Definition ota_zero : OTA :=
  OtaStruct None None 0 0 0 0 0 0 None None (zeros 33) None None None None None 0 None None None None 0 None.

(** ** Announcements *)

(** A member of the message that has the expected value. *)
Definition positive (msg : list Z) (msg_len : Z) (key value : list Z) : eff E bool :=
  v ← eff_lift (otalib_JsonValueOf msg 0 msg_len key);
  match v with
  | None => mret false
  | Some (pvalue, val_len) =>
      if val_len =? Z.of_nat (List.length value) then
        p ← buf_from msg pvalue;
        eff_lift (strn_eq p value)
      else mret false
  end.

Definition set_fota (h_ota : OTA) (p : fota_params) : OTA :=
  let '(url, ver, sum, size) := p in
  h_ota <| purl := url |> <| version := ver |> <| md5sum := sum |> <| size_file := size |>.

Definition set_cota (h_ota : OTA) (p : cota_params) : OTA :=
  let '(id, size, sg, method, url, get) := p in
  h_ota <| configId := id |> <| configSize := size |> <| sign := sg |> <| signMethod := method |>
        <| cota_url := url |> <| getType := get |>.

(** The case of a new firmware: the code and the handle. *)
Definition push_fota (h_ota : OTA) (msg : list Z) (msg_len : Z) : eff E (Z * OTA) :=
  ok ← positive msg msg_len (lit "message") (lit "success");
  if negb ok then mret (-1, h_ota)
  else
    v ← eff_lift (otalib_JsonValueOf msg 0 msg_len (lit "data"));
    match v with
    | None => mret (-1, h_ota)
    | Some (pvalue, val_len) =>
        '(ret, p) ← otalib_GetParams msg pvalue val_len (purl h_ota, version h_ota, md5sum h_ota, size_file h_ota);
        let h_ota := set_fota h_ota p in
        if negb (ret =? 0) then mret (-1, h_ota)
        else
          c ← ofc_Init ca_crt (purl h_ota) (i32 (size_fetched h_ota));
          let h_ota := h_ota <| ch_fetch := c |> in
          match c with
          | None => mret (-1, h_ota)
          | Some _ => mret (0, h_ota <| type := IOT_OTAT_FOTA |> <| state := IOT_OTAS_PUSHED |>)
          end
    end.

(** The cases of a new configuration from its parameters on. *)
Definition push_cota (h_ota : OTA) (msg : list Z) (pvalue val_len : Z) : eff E (Z * OTA) :=
  '(ret, p) ← otalib_GetConfigParams msg pvalue val_len
      (configId h_ota, configSize h_ota, sign h_ota, signMethod h_ota, cota_url h_ota, getType h_ota);
  let h_ota := set_cota h_ota p in
  if negb (ret =? 0) then mret (-1, h_ota)
  else
    m ← otalib_MD5Init;
    s ← otalib_Sha256Init;
    let h_ota := h_ota <| size_file := configSize h_ota |> <| size_fetched := 0 |> <| md5 := m |>
                       <| sha256 := s |> in
    c ← ofc_Init ca_crt (cota_url h_ota) (i32 (size_fetched h_ota));
    let h_ota := h_ota <| ch_fetch := c |> in
    match c with
    | None => mret (-1, h_ota)
    | Some _ => mret (0, h_ota <| type := IOT_OTAT_COTA |> <| state := IOT_OTAS_PUSHED |>)
    end.

(** [msg] is the object of the message from its start on. *)
Definition ota_callback (h_ota : OTA) (msg : list Z) (msg_len topic_type : Z) : eff E (Z * OTA) :=
  if state h_ota =? IOT_OTAS_FETCHING then mret (-1, h_ota)
  else
    '(ret, h_ota) ←
      (if (topic_type =? IOTX_OTA_TOPIC_TYPE_DEVICE_REQUEST) || (topic_type =? IOTX_OTA_TOPIC_TYPE_DEVICE_UPGRATE)
       then push_fota h_ota msg msg_len
       else if topic_type =? IOTX_OTA_TOPIC_TYPE_CONFIG_GET then
         ok ← positive msg msg_len (lit "code") (lit "200");
         if negb ok then mret (-1, h_ota)
         else
           v ← eff_lift (otalib_JsonValueOf msg 0 msg_len (lit "data"));
           match v with
           | None => mret (-1, h_ota)
           | Some (pvalue, val_len) => push_cota h_ota msg pvalue val_len
           end
       else if topic_type =? IOTX_OTA_TOPIC_TYPE_CONFIG_PUSH then
         v ← eff_lift (otalib_JsonValueOf msg 0 msg_len (lit "params"));
         match v with
         | None => mret (-1, h_ota)
         | Some (pvalue, val_len) => push_cota h_ota msg pvalue val_len
         end
       else mret (-1, h_ota));
    if negb (ret =? 0) then mret (-1, h_ota)
    else
      h_ota ← match ota_event_cb h_ota with
              | Some cb => eff_plat (ota_event cb h_ota)
              | None => mret h_ota
              end;
      mret (0, h_ota).

(** The channel is that of the handle; [ptopic] and [payload] are the rest of the receive
    buffer from the topic and from the payload on. *)
Definition otamqtt_UpgrageCb (handle : otamqtt_Struct_t) (h_ota : OTA) (received : bool)
    (ptopic payload : list Z) (payload_len : Z) : eff E OTA :=
  if negb received then mret h_ota
  else
    request ← eff_lift (strstr ptopic (lit "/ota/device/request"));
    match request with
    | Some _ =>
        u ← eff_lift (strstr payload (lit "url"));
        match u with
        | Some _ =>
            if osc_cb handle then
              '(_, h_ota) ← ota_callback h_ota payload payload_len IOTX_OTA_TOPIC_TYPE_DEVICE_REQUEST;
              mret h_ota
            else mret h_ota
        | None => mret h_ota
        end
    | None =>
        upgrade ← eff_lift (strstr ptopic (lit "/ota/device/upgrade"));
        match upgrade with
        | Some _ =>
            if osc_cb handle then
              '(_, h_ota) ← ota_callback h_ota payload payload_len IOTX_OTA_TOPIC_TYPE_DEVICE_UPGRATE;
              mret h_ota
            else mret h_ota
        | None =>
            get_reply ← eff_lift (strstr ptopic (lit "/thing/config/get_reply"));
            match get_reply with
            | Some _ =>
                if osc_cb handle then
                  '(_, h_ota) ← ota_callback h_ota payload payload_len IOTX_OTA_TOPIC_TYPE_CONFIG_GET;
                  mret h_ota
                else mret h_ota
            | None =>
                push ← eff_lift (strstr ptopic (lit "/thing/config/push"));
                match push with
                | Some _ =>
                    if osc_cb handle then
                      '(ret, h_ota) ← ota_callback h_ota payload payload_len IOTX_OTA_TOPIC_TYPE_CONFIG_PUSH;
                      if negb (ret =? 0) then
                        v ← eff_lift (otalib_JsonValueOf payload 0 payload_len (lit "id"));
                        topic ← eff_lift (config_topic (lit "/sys/%s/%s/thing/config/push_reply")
                                            (osc_product_key handle) (osc_device_name handle));
                        '(pvalue, val_len) ← eff_lift v;
                        p ← buf_from payload pvalue;
                        text ← eff_lift (sprintf (json_lit "'id':%.*s,'code':'%d','data':{}")
                                           [PN (i32 val_len) p; PD 400]);
                        _ ← eff_plat (IOT_MQTT_Publish (mqtt handle) topic 0
                                        (snprintf_text OTA_MQTT_TOPIC_LEN text));
                        mret h_ota
                      else mret h_ota
                    else mret h_ota
                | None => mret h_ota
                end
            end
        end
    end.

(** ** Initialisation *)

Definition IOT_OTA_SetOnPushedCallback (h_ota : OTA) (cb : option Cb) : Z * OTA :=
  (0, h_ota <| ota_event_cb := cb |>).

(** The handle, or NULL, and [g_ota_is_initialized]. *)
Definition IOT_OTA_Init (g_ota_is_initialized : Z) (pk dn : option (list Z)) (ch : Z)
    : eff E (option OTA * Z) :=
  if g_ota_is_initialized =? 1 then mret (None, g_ota_is_initialized)
  else
    match pk, dn with
    | Some p, Some d =>
        ok ← eff_malloc sizeof_OTA_Struct;
        if negb ok then mret (None, g_ota_is_initialized)
        else
          osc ← osc_Init p d ch;
          match osc with
          | None => mret (None, g_ota_is_initialized)
          | Some _ =>
              m ← otalib_MD5Init;
              match m with
              | None => mret (None, g_ota_is_initialized)
              | Some _ =>
                  s ← otalib_Sha256Init;
                  match s with
                  | None => mret (None, g_ota_is_initialized)
                  | Some _ =>
                      mret (Some (ota_zero <| type := IOT_OTAT_NONE |> <| ch_signal := osc |> <| md5 := m |>
                                    <| sha256 := s |> <| product_key := pk |> <| device_name := dn |>
                                    <| state := IOT_OTAS_INITED |>), 1)
                  end
              end
          end
    | _, _ => mret (None, g_ota_is_initialized)
    end.

(** The code, what is left of the handle and [g_ota_is_initialized]; the subscriptions stay. *)
Definition IOT_OTA_Deinit (g_ota_is_initialized : Z) (h_ota : OTA) : eff E (Z * option OTA * Z) :=
  if state h_ota =? IOT_OTAS_UNINITED
  then mret (-1, Some (h_ota <| err := IOT_OTAE_INVALID_STATE |>), g_ota_is_initialized)
  else
    match ch_fetch h_ota with Some c => ofc_Deinit c | None => mret tt end;;
    mret (0, None, 0).

(** ** Messages to the cloud *)

Definition bad_version (v : list Z) : bool :=
  let len := Z.of_nat (List.length v) in (len <? OTA_VERSION_STR_LEN_MIN) || (OTA_VERSION_STR_LEN_MAX <? len).

Definition IOT_OTA_ReportVersion (h_ota : OTA) (ver : option (list Z)) : eff E (Z * OTA) :=
  match ver with
  | None => mret (IOT_OTAE_INVALID_PARAM, h_ota)
  | Some v =>
      if bad_version v then mret (-1, h_ota <| err := IOT_OTAE_INVALID_PARAM |>)
      else if state h_ota =? IOT_OTAS_UNINITED then mret (-1, h_ota <| err := IOT_OTAE_INVALID_STATE |>)
      else
        ok ← eff_malloc MSG_INFORM_LEN;
        if negb ok then mret (-1, h_ota <| err := IOT_OTAE_NOMEM |>)
        else
          '(ret, msg_informed) ← eff_lift (otalib_GenInfoMsg MSG_INFORM_LEN (ota_id h_ota) v);
          if negb (ret =? 0) then mret (-1, h_ota <| err := ret |>)
          else
            osc ← eff_lift (ch_signal h_ota);
            ret ← osc_ReportVersion osc msg_informed;
            if negb (ret =? 0) then mret (-1, h_ota <| err := ret |>) else mret (0, h_ota)
  end.

Definition iotx_req_image (h_ota : OTA) (ver : option (list Z)) : eff E (Z * OTA) :=
  match ver with
  | None => mret (IOT_OTAE_INVALID_PARAM, h_ota)
  | Some v =>
      if bad_version v then mret (-1, h_ota <| err := IOT_OTAE_INVALID_PARAM |>)
      else if state h_ota =? IOT_OTAS_UNINITED then mret (-1, h_ota <| err := IOT_OTAE_INVALID_STATE |>)
      else if state h_ota =? IOT_OTAS_FETCHING then mret (-1, h_ota <| err := IOT_OTAE_INVALID_STATE |>)
      else
        ok ← eff_malloc MSG_REQUEST_LEN;
        if negb ok then mret (-1, h_ota <| err := IOT_OTAE_NOMEM |>)
        else
          '(ret, msg_informed) ← eff_lift (otalib_GenInfoMsg MSG_REQUEST_LEN (ota_id h_ota) v);
          if negb (ret =? 0) then mret (-1, h_ota <| err := ret |>)
          else
            osc ← eff_lift (ch_signal h_ota);
            ret ← osc_RequestImage osc msg_informed;
            if negb (ret =? 0) then mret (-1, h_ota <| err := ret |>) else mret (0, h_ota)
  end.

Definition IOT_OTA_ReportProgress (h_ota : OTA) (progress : Z) (msg : option (list Z)) : eff E (Z * OTA) :=
  if state h_ota =? IOT_OTAS_UNINITED then mret (-1, h_ota <| err := IOT_OTAE_INVALID_STATE |>)
  else if negb (ota_check_progress progress) then mret (-1, h_ota <| err := IOT_OTAE_INVALID_PARAM |>)
  else
    ok ← eff_malloc MSG_REPORT_LEN;
    if negb ok then mret (-1, h_ota <| err := IOT_OTAE_NOMEM |>)
    else
      '(ret, msg_reported) ← eff_lift (otalib_GenReportMsg MSG_REPORT_LEN (ota_id h_ota) progress msg);
      if negb (ret =? 0) then mret (ret, h_ota <| err := ret |>)
      else
        osc ← eff_lift (ch_signal h_ota);
        ret ← osc_ReportProgress osc msg_reported;
        if negb (ret =? 0) then mret (ret, h_ota <| err := ret |>) else mret (0, h_ota).

Definition config_get_fmt : list Z :=
  json_lit "{'id' : %d,'version':'1.0','params':{'configScope':'%s','getType':'%s','attributeKeys':'%s'},'method':'thing.config.get'}".

(** A string argument that is NULL is printed. *)
Definition iotx_ota_get_config (h_ota : OTA) (configScope get attributeKeys : option (list Z))
    : eff E (Z * OTA) :=
  if state h_ota =? IOT_OTAS_UNINITED then mret (-1, h_ota <| err := IOT_OTAE_INVALID_STATE |>)
  else if state h_ota =? IOT_OTAS_FETCHING then mret (-1, h_ota <| err := IOT_OTAE_INVALID_STATE |>)
  else
    ok ← eff_malloc MSG_REPORT_LEN;
    if negb ok then mret (-1, h_ota <| err := IOT_OTAE_NOMEM |>)
    else
      pk ← eff_lift (product_key h_ota);
      dn ← eff_lift (device_name h_ota);
      topic ← eff_lift (config_topic (lit "/sys/%s/%s/thing/config/get") pk dn);
      scope ← eff_lift configScope;
      get ← eff_lift get;
      keys ← eff_lift attributeKeys;
      text ← eff_lift (sprintf config_get_fmt [PD (i32 (ota_id h_ota)); PS scope; PS get; PS keys]);
      osc ← eff_lift (ch_signal h_ota);
      ret ← osc_RequestConfig osc topic 0 (snprintf_text MSG_REPORT_LEN text);
      if ret <? 0 then mret (IOT_OTAE_OSC_FAILED, h_ota) else mret (0, h_ota).

(** ** Fetching *)

Definition IOT_OTA_IsFetching (h_ota : OTA) : Z * OTA :=
  if state h_ota =? IOT_OTAS_UNINITED then (0, h_ota <| err := IOT_OTAE_INVALID_STATE |>)
  else (if (state h_ota =? IOT_OTAS_PUSHED) || (state h_ota =? IOT_OTAS_FETCHING) then 1 else 0, h_ota).

Definition IOT_OTA_IsFetchFinish (h_ota : OTA) : Z * OTA :=
  if state h_ota =? IOT_OTAS_UNINITED then (0, h_ota <| err := IOT_OTAE_INVALID_STATE |>)
  else (if state h_ota =? IOT_OTAS_FETCHED then 1 else 0, h_ota).

(** The contexts that are missing are made, and whether they are there. *)
Definition fetch_digests (h_ota : OTA) : eff E (bool * OTA) :=
  h_ota ← match md5 h_ota with
          | None => m ← otalib_MD5Init; mret (h_ota <| md5 := m |>)
          | Some _ => mret h_ota
          end;
  match md5 h_ota with
  | None => mret (false, h_ota)
  | Some _ =>
      h_ota ← match sha256 h_ota with
              | None => s ← otalib_Sha256Init; mret (h_ota <| sha256 := s |>)
              | Some _ => mret h_ota
              end;
      match sha256 h_ota with
      | None => mret (false, h_ota)
      | Some _ => mret (true, h_ota)
      end
  end.

(** A download that is missing is started where the last one ended. *)
Definition fetch_channel (h_ota : OTA) : eff E OTA :=
  match ch_fetch h_ota with
  | Some _ => mret h_ota
  | None =>
      if type h_ota =? IOT_OTAT_FOTA then
        c ← ofc_Init ca_crt (purl h_ota) (i32 (size_fetched h_ota)); mret (h_ota <| ch_fetch := c |>)
      else if type h_ota =? IOT_OTAT_COTA then
        c ← ofc_Init ca_crt (cota_url h_ota) (i32 (size_fetched h_ota)); mret (h_ota <| ch_fetch := c |>)
      else mret h_ota
  end.

(** With the first piece the digests start again, and whether they are there. *)
Definition fetch_first (h_ota : OTA) : eff E (bool * OTA) :=
  if size_fetched h_ota =? 0 then
    m ← otalib_MD5Init;
    let h_ota := h_ota <| md5 := m |> in
    match m with
    | None => mret (false, h_ota)
    | Some _ =>
        s ← otalib_Sha256Init;
        let h_ota := h_ota <| sha256 := s |> in
        match s with
        | None => mret (false, h_ota)
        | Some _ =>
            '(_, h_ota) ← IOT_OTA_ReportProgress h_ota IOT_OTAP_FETCH_PERCENTAGE_MIN
                            (Some (lit "Enter in downloading state"));
            mret (true, h_ota)
        end
    end
  else mret (true, h_ota).

(** The code, the handle and [buf], which is not NULL. *)
Definition IOT_OTA_FetchYield (h_ota : OTA) (buf : list Z) (buf_len timeout_s : Z)
    : eff E (Z * OTA * list Z) :=
  if buf_len =? 0 then mret (IOT_OTAE_INVALID_PARAM, h_ota, buf)
  else if negb ((state h_ota =? IOT_OTAS_PUSHED) || (state h_ota =? IOT_OTAS_FETCHING))
  then mret (IOT_OTAE_INVALID_STATE, h_ota <| err := IOT_OTAE_INVALID_STATE |>, buf)
  else
    let h_ota := h_ota <| state := IOT_OTAS_FETCHING |> in
    '(ok, h_ota) ← fetch_digests h_ota;
    if negb ok then mret (FAIL_RETURN, h_ota, buf)
    else
      h_ota ← fetch_channel h_ota;
      match ch_fetch h_ota with
      | None => mret (FAIL_RETURN, h_ota, buf)
      | Some c =>
          '(ret, c, buf) ← ofc_Fetch c buf buf_len timeout_s;
          let h_ota := h_ota <| ch_fetch := Some c |> in
          if ret <? 0 then ofc_Deinit c;; mret (ret, h_ota <| ch_fetch := None |>, buf)
          else
            '(ok, h_ota) ← fetch_first h_ota;
            if negb ok then mret (-1, h_ota, buf)
            else
              m ← otalib_MD5Update (md5 h_ota) buf ret;
              s ← otalib_Sha256Update (sha256 h_ota) buf ret;
              let h_ota := h_ota <| md5 := Some m |> <| sha256 := Some s |> <| size_last_fetched := ret |>
                                 <| size_fetched ::= fun n => u32 (n + ret) |> in
              if size_file h_ota <=? size_fetched h_ota
              then mret (ret, h_ota <| type := IOT_OTAT_NONE |> <| state := IOT_OTAS_FETCHED |>, buf)
              else mret (ret, h_ota, buf)
      end.

(** ** Options *)

Inductive IOT_OTA_CmdType_t :=
  | IOT_OTAG_COTA_CONFIG_ID
  | IOT_OTAG_COTA_CONFIG_SIZE
  | IOT_OTAG_COTA_SIGN
  | IOT_OTAG_COTA_SIGN_METHOD
  | IOT_OTAG_COTA_URL
  | IOT_OTAG_COTA_GETTYPE
  | IOT_OTAG_OTA_TYPE
  | IOT_OTAG_FETCHED_SIZE
  | IOT_OTAG_FILE_SIZE
  | IOT_OTAG_MD5SUM
  | IOT_OTAG_VERSION
  | IOT_OTAG_CHECK_FIRMWARE
  | IOT_OTAG_CHECK_CONFIG
  | IOT_OTAG_RESET_FETCHED_SIZE
  | IOT_OTAG_RESET_STATE
  | IOT_OTAG_other (n : Z).

(** What [buf] points to: an aligned 32-bit integer, a string pointer, an array, or
    something that is not used; an option that finds another kind of object than it writes
    is undefined. *)
Inductive ota_buf :=
  | BufU32 (n : Z)
  | BufStr (p : option (list Z))
  | BufArr (a : list Z)
  | BufOther.

(** The code, the handle and [*buf]. *)
Definition ota_get_str (h_ota : OTA) (value : option (list Z)) (buf : ota_buf) : eff E (Z * OTA * ota_buf) :=
  match buf with
  | BufStr p =>
      match p, value with
      | None, Some s =>
          ok ← eff_malloc (Z.of_nat (List.length s) + 1);
          if ok : bool then mret (0, h_ota, BufStr (Some s))
          else mret (-1, h_ota <| err := IOT_OTAE_INVALID_PARAM |>, buf)
      | _, _ => mret (-1, h_ota <| err := IOT_OTAE_INVALID_PARAM |>, buf)
      end
  | _ => eff_fail
  end.

Definition ota_get_u32 (h_ota : OTA) (value : Z) (buf : ota_buf) (buf_len : Z) : eff E (Z * OTA * ota_buf) :=
  match buf with
  | BufU32 _ =>
      if negb (buf_len =? 4) then mret (-1, h_ota <| err := IOT_OTAE_INVALID_PARAM |>, buf)
      else mret (0, h_ota, BufU32 value)
  | _ => eff_fail
  end.

(** [strncpy], and a NUL at the end of the array. *)
Definition ota_get_arr (h_ota : OTA) (value : list Z) (buf : ota_buf) (buf_len : Z)
    : eff E (Z * OTA * ota_buf) :=
  match buf with
  | BufArr a =>
      if buf_len <? 0 then eff_fail
      else
        a ← buf_store a 0 (resize (Z.to_nat buf_len) 0 value);
        a ← buf_set a (buf_len - 1) 0;
        mret (0, h_ota, BufArr a)
  | _ => eff_fail
  end.

(** Whether an announced digest is the text of a computed one. *)
Definition digest_same (sum text : list Z) : option Z :=
  s ← arr_str sum; t ← arr_str text; Some (if bool_decide (s = t) then 1 else 0).

Definition check_firmware (h_ota : OTA) (buf : ota_buf) (buf_len : Z) : eff E (Z * OTA * ota_buf) :=
  match buf with
  | BufU32 _ =>
      if negb (buf_len =? 4) then mret (-1, h_ota <| err := IOT_OTAE_INVALID_PARAM |>, buf)
      else if negb (state h_ota =? IOT_OTAS_FETCHED) then mret (-1, h_ota <| err := IOT_OTAE_INVALID_STATE |>, buf)
      else
        '(_, md5_str) ← otalib_MD5Finalize (md5 h_ota);
        let h_ota := h_ota <| md5 := None |> in
        same ← eff_lift (digest_same (md5sum h_ota) md5_str);
        if same =? 1 then mret (0, h_ota, BufU32 1)
        else
          '(_, h_ota) ← IOT_OTA_ReportProgress h_ota IOT_OTAP_CHECK_FALIED None;
          mret (0, h_ota, BufU32 0)
  | _ => eff_fail
  end.

(** [strncmp(method, name, strlen(method)) == 0] *)
Definition method_is (method name : list Z) : bool := bool_decide (take (List.length method) name = method).

Definition check_config (h_ota : OTA) (buf : ota_buf) (buf_len : Z) : eff E (Z * OTA * ota_buf) :=
  match buf with
  | BufU32 _ =>
      if negb (buf_len =? 4) then mret (-1, h_ota <| err := IOT_OTAE_INVALID_PARAM |>, buf)
      else if negb (state h_ota =? IOT_OTAS_FETCHED) then mret (-1, h_ota <| err := IOT_OTAE_INVALID_STATE |>, buf)
      else
        method ← eff_lift (signMethod h_ota);
        '(h_ota, buf) ←
          (if method_is method (lit "Md5") then
             '(c, md5_str) ← otalib_MD5Finalize (md5 h_ota);
             sg ← eff_lift (sign h_ota);
             same ← eff_lift (digest_same (sg ++ [0]) md5_str);
             mret (h_ota <| md5 := Some c |>, BufU32 same)
           else mret (h_ota, buf));
        '(h_ota, buf) ←
          (if method_is method (lit "Sha256") then
             '(c, sha256_str) ← otalib_Sha256Finalize (sha256 h_ota);
             sg ← eff_lift (sign h_ota);
             same ← eff_lift (digest_same (sg ++ [0]) sha256_str);
             mret (h_ota <| sha256 := Some c |>, BufU32 same)
           else mret (h_ota, buf));
        mret (0, h_ota, buf)
  | _ => eff_fail
  end.

(** [buf] is NULL or what it points to. *)
Definition IOT_OTA_Ioctl (h_ota : OTA) (cmd : IOT_OTA_CmdType_t) (buf : option ota_buf) (buf_len : Z)
    : eff E (Z * OTA * option ota_buf) :=
  match buf with
  | None => mret (IOT_OTAE_INVALID_PARAM, h_ota, buf)
  | Some b =>
      if buf_len =? 0 then mret (IOT_OTAE_INVALID_PARAM, h_ota, buf)
      else if state h_ota <? IOT_OTAS_PUSHED
      then mret (IOT_OTAE_INVALID_STATE, h_ota <| err := IOT_OTAE_INVALID_STATE |>, buf)
      else
        '(ret, h_ota, b) ←
          match cmd with
          | IOT_OTAG_COTA_CONFIG_ID => ota_get_str h_ota (configId h_ota) b
          | IOT_OTAG_COTA_CONFIG_SIZE => ota_get_u32 h_ota (configSize h_ota) b buf_len
          | IOT_OTAG_COTA_SIGN => ota_get_str h_ota (sign h_ota) b
          | IOT_OTAG_COTA_SIGN_METHOD => ota_get_str h_ota (signMethod h_ota) b
          | IOT_OTAG_COTA_URL => ota_get_str h_ota (cota_url h_ota) b
          | IOT_OTAG_COTA_GETTYPE => ota_get_str h_ota (getType h_ota) b
          | IOT_OTAG_OTA_TYPE => ota_get_u32 h_ota (type h_ota) b buf_len
          | IOT_OTAG_FETCHED_SIZE => ota_get_u32 h_ota (size_fetched h_ota) b buf_len
          | IOT_OTAG_FILE_SIZE => ota_get_u32 h_ota (size_file h_ota) b buf_len
          | IOT_OTAG_VERSION => v ← eff_lift (version h_ota); ota_get_arr h_ota v b buf_len
          | IOT_OTAG_MD5SUM => s ← eff_lift (arr_str (md5sum h_ota)); ota_get_arr h_ota s b buf_len
          | IOT_OTAG_CHECK_FIRMWARE => check_firmware h_ota b buf_len
          | IOT_OTAG_CHECK_CONFIG => check_config h_ota b buf_len
          | IOT_OTAG_RESET_FETCHED_SIZE => mret (0, h_ota <| size_fetched := 0 |>, b)
          | IOT_OTAG_RESET_STATE =>
              mret (0, h_ota <| type := IOT_OTAT_NONE |> <| state := IOT_OTAS_INITED |> <| size_fetched := 0 |>, b)
          | IOT_OTAG_other _ => mret (-1, h_ota <| err := IOT_OTAE_INVALID_PARAM |>, b)
          end;
        mret (ret, h_ota, Some b)
  end.

Definition IOT_OTA_GetLastError (h_ota : OTA) : Z := err h_ota.
End Ota.
