(* ===== verification/DmOta.v ===== *)
(** * DmOta: updates in the device model

    [eng/dev_model/dm_ota.c], [dm_fota.c], [dm_cota.c] and [dm_opt.c]: the one handle of the
    device, and the loops that fetch a firmware or a configuration, store it piece by piece
    and have it checked.  The firmware goes to the bootloader through
    [HAL_Firmware_Persistence_*] of [eng/wrappers/mbed/HAL_OS_mbed.cpp].

    The static variables are kept beside the state of the platform.  The MQTT client of the
    handle is the one of the SDK, NULL in the calls. *)

From S2P Require Import Prelude.
From S2P Require Import CString.
From S2P Require Import Hal.
From S2P Require Import InfraState.
From S2P Require Import InfraCompat.
From S2P Require Import Json.
From S2P Require Import Eff.
From S2P Require Import OtaLib.
From S2P Require Import IotxOta.
From S2P Require Import DmManager.

Definition CONFIG_FOTA_RETRY_INTERNAL_MS : Z := 100.
Definition IOTX_DM_EVENT_COTA_NEW_CONFIG : Z := 42.
Definition IOTX_DM_EVENT_FOTA_NEW_FIRMWARE : Z := 43.
Definition IOTX_FIRMWARE_VER_LEN : Z := 32.
Definition DM_UTILS_UINT32_STRLEN : Z := 10.
Definition MBEDBL_UCP_WRITE_PREPARED : Z := 1.
Definition MBEDBL_UCP_WRITE_FAILED : Z := 2.

(** ** Data *)

(** The settings; the first three have no option in the configuration (raw data only, with
    the shadow). *)
Record dm_opt_ctx := DmOpt {
  prop_post_reply_opt : Z;
  event_post_reply_opt : Z;
  prop_set_reply_opt : Z;
  prop_desired_get_reply_opt : Z;
  prop_desired_delete_reply_opt : Z;
  fota_retry_timeout_ms : Z;
  proxy_product_register : Z
}.

#[global] Instance eta_dm_opt : Eta dm_opt_ctx := fun o =>
  DmOpt (prop_post_reply_opt o) (event_post_reply_opt o) (prop_set_reply_opt o) (prop_desired_get_reply_opt o)
    (prop_desired_delete_reply_opt o) (fota_retry_timeout_ms o) (proxy_product_register o).

Definition g_dm_opt_init : dm_opt_ctx := DmOpt 0 0 1 1 1 60000 0.

Inductive dm_opt_t :=
  | DM_OPT_DOWNSTREAM_EVENT_PROPERTY_DESIRED_DELETE_REPLY
  | DM_OPT_DOWNSTREAM_EVENT_PROPERTY_DESIRED_GET_REPLY
  | DM_OPT_FOTA_RETRY_TIMEOUT_MS
  | DM_OPT_PROXY_PRODUCT_REGISTER
  | DM_OPT_other (n : Z).

(** [data] is NULL or the integer it points to. *)
Definition dm_opt_set (opt : dm_opt_t) (data : option Z) (g : dm_opt_ctx) : Z * dm_opt_ctx :=
  match data with
  | None => (STATE_USER_INPUT_INVALID, g)
  | Some v =>
      match opt with
      | DM_OPT_DOWNSTREAM_EVENT_PROPERTY_DESIRED_GET_REPLY => (SUCCESS_RETURN, g <| prop_desired_get_reply_opt := v |>)
      | DM_OPT_DOWNSTREAM_EVENT_PROPERTY_DESIRED_DELETE_REPLY =>
          (SUCCESS_RETURN, g <| prop_desired_delete_reply_opt := v |>)
      | DM_OPT_FOTA_RETRY_TIMEOUT_MS => (SUCCESS_RETURN, g <| fota_retry_timeout_ms := v |>)
      | DM_OPT_PROXY_PRODUCT_REGISTER => (SUCCESS_RETURN, g <| proxy_product_register := v |>)
      | DM_OPT_other _ => (STATE_USER_INPUT_INVALID, g)
      end
  end.

(** The code and [*data]. *)
Definition dm_opt_get (opt : dm_opt_t) (data : option Z) (g : dm_opt_ctx) : Z * option Z :=
  match data with
  | None => (STATE_USER_INPUT_INVALID, None)
  | Some v =>
      match opt with
      | DM_OPT_DOWNSTREAM_EVENT_PROPERTY_DESIRED_DELETE_REPLY => (SUCCESS_RETURN, Some (prop_desired_delete_reply_opt g))
      | DM_OPT_DOWNSTREAM_EVENT_PROPERTY_DESIRED_GET_REPLY => (SUCCESS_RETURN, Some (prop_desired_get_reply_opt g))
      | DM_OPT_FOTA_RETRY_TIMEOUT_MS => (SUCCESS_RETURN, Some (fota_retry_timeout_ms g))
      | DM_OPT_PROXY_PRODUCT_REGISTER => (SUCCESS_RETURN, Some (proxy_product_register g))
      | DM_OPT_other _ => (STATE_DEV_MODEL_INVALID_DM_OPTION, data)
      end
  end.

(** The one callback that the device model registers. *)
Inductive dm_event := _dm_ota_clean_state.

Notation OTA := (OTA_Struct_t dm_event).

(** The static variables: [g_dm_ota_ctx] with its two arrays, [is_report_new_config] of
    [g_dm_fota_ctx] and [g_dm_cota_ctx], [g_dm_opt], [g_ota_is_initialized],
    [g_sdk_impl_ctx] and [mbedbl_status]. *)
Record dm_vars := DmVars {
  ota_handle : option OTA;
  ctx_product_key : list Z;
  ctx_device_name : list Z;
  fota_is_report_new_config : Z;
  cota_is_report_new_config : Z;
  g_dm_opt : dm_opt_ctx;
  g_ota_is_initialized : Z;
  g_sdk_impl_ctx : sdk_impl_ctx_t;
  mbedbl_status : Z
}.

#[global] Instance eta_dm_vars : Eta dm_vars := fun v =>
  DmVars (ota_handle v) (ctx_product_key v) (ctx_device_name v) (fota_is_report_new_config v)
    (cota_is_report_new_config v) (g_dm_opt v) (g_ota_is_initialized v) (g_sdk_impl_ctx v) (mbedbl_status v).

(** The bootloader's update writer: a write is prepared for a version and a size, given
    bytes, and finalised, which commits the image. *)
Class Ucp (E : Type) := {
  MBEDBL_UCP_PrepareWrite : list Z -> Z -> E -> Z * E;
  MBEDBL_UCP_Write : list Z -> E -> Z * E;
  MBEDBL_UCP_FinalizeWrite : E -> Z * E
}.

(** The queue of the application: an event with its text ([_dm_msg_send_to_user]). *)
Class DmUser (E : Type) := dm_send_to_user : Z -> list Z -> E -> Z * E.

#[global] Instance signal_beside {E G} `{!OtaSignal E} : OtaSignal (E * G) := {
  IOT_MQTT_Publish c topic qos msg := beside (IOT_MQTT_Publish c topic qos msg);
  IOT_MQTT_Subscribe c topic qos := beside (IOT_MQTT_Subscribe c topic qos)
}.

(** [_dm_ota_clean_state], which does not use the handle. *)
#[global] Instance dm_ota_events {E} : OtaEvents (E * dm_vars) dm_event := fun cb h w =>
  match cb with
  | _dm_ota_clean_state =>
      (h, (fst w, (snd w) <| cota_is_report_new_config := 0 |> <| fota_is_report_new_config := 0 |>))
  end.

Section DmOta.
Context {E : Type} `{!Hal E, !HalStack E, !OtaSignal E, !Ucp E, !DmUser E}.
Variable ca_crt : option (list Z).
Notation W := (E * dm_vars)%type.

Definition vars : eff W dm_vars := fun w => Some (snd w, w).
Definition set_vars (f : dm_vars -> dm_vars) : eff W unit := fun w => Some (tt, (fst w, f (snd w))).

(** A call with the handle, which is where [ctx->ota_handle] points. *)
Definition with_handle {A} (f : OTA -> eff W (A * OTA)) : eff W A :=
  v ← vars;
  h ← eff_lift (ota_handle v);
  '(a, h) ← f h;
  set_vars (fun v => v <| ota_handle := Some h |>);;
  mret a.

(** [IOT_OTA_Ioctl(ota_handle, cmd, &n, 4)]: what [n] holds behind it. *)
Definition ioctl_u32 (cmd : IOT_OTA_CmdType_t) (n : Z) : eff W Z :=
  with_handle (fun h =>
    '(_, h, b) ← IOT_OTA_Ioctl h cmd (Some (BufU32 n)) 4;
    match b with
    | Some (BufU32 n) => mret (n, h)
    | _ => eff_fail
    end).

(** A call with a buffer that is not used. *)
Definition ioctl_do (cmd : IOT_OTA_CmdType_t) (buf : option ota_buf) (buf_len : Z) : eff W unit :=
  with_handle (fun h => '(_, h, _) ← IOT_OTA_Ioctl h cmd buf buf_len; mret (tt, h)).

(** A string pointer that is NULL before. *)
Definition ioctl_str (cmd : IOT_OTA_CmdType_t) : eff W (option (list Z)) :=
  with_handle (fun h =>
    '(_, h, b) ← IOT_OTA_Ioctl h cmd (Some (BufStr None)) 1;
    match b with
    | Some (BufStr p) => mret (p, h)
    | _ => eff_fail
    end).

(** An array of zeros: the code and the array. *)
Definition ioctl_arr (cmd : IOT_OTA_CmdType_t) (size : Z) : eff W (Z * list Z) :=
  with_handle (fun h =>
    '(ret, h, b) ← IOT_OTA_Ioctl h cmd (Some (BufArr (zeros (Z.to_nat size)))) size;
    match b with
    | Some (BufArr a) => mret (ret, a, h)
    | _ => eff_fail
    end).

Definition report_progress (progress : Z) : eff W unit :=
  with_handle (fun h => '(_, h) ← IOT_OTA_ReportProgress h progress None; mret (tt, h)).

(** ** dm_ota.c *)

Definition dm_ota_init : eff W Z :=
  v ← vars;
  '(_, _, pk) ← eff_lift (IOT_Ioctl IOTX_IOCTL_GET_PRODUCT_KEY
                            (Some (DataBuf (zeros (Z.to_nat IOTX_PRODUCT_KEY_LEN + 1)))) (g_sdk_impl_ctx v));
  '(_, _, dn) ← eff_lift (IOT_Ioctl IOTX_IOCTL_GET_DEVICE_NAME
                            (Some (DataBuf (zeros (Z.to_nat IOTX_DEVICE_NAME_LEN + 1)))) (g_sdk_impl_ctx v));
  match pk, dn with
  | Some (DataBuf pk), Some (DataBuf dn) =>
      set_vars (fun v => v <| ota_handle := None |> <| ctx_product_key := pk |> <| ctx_device_name := dn |>);;
      mret SUCCESS_RETURN
  | _, _ => eff_fail
  end.

Definition dm_ota_sub : eff W Z :=
  v ← vars;
  pk ← eff_lift (arr_str (ctx_product_key v));
  dn ← eff_lift (arr_str (ctx_device_name v));
  '(h, g) ← IOT_OTA_Init (g_ota_is_initialized v) (Some pk) (Some dn) 0;
  set_vars (fun v => v <| g_ota_is_initialized := g |>);;
  match h with
  | None => mret STATE_DEV_MODEL_OTA_INIT_FAILED
  | Some h =>
      let '(_, h) := IOT_OTA_SetOnPushedCallback h (Some _dm_ota_clean_state) in
      set_vars (fun v => v <| ota_handle := Some h |>);;
      mret SUCCESS_RETURN
  end.

Definition dm_ota_deinit : eff W Z :=
  v ← vars;
  match ota_handle v with
  | Some h =>
      '(_, _, g) ← IOT_OTA_Deinit (g_ota_is_initialized v) h;
      set_vars (fun v => v <| g_ota_is_initialized := g |> <| ota_handle := None |>);;
      mret SUCCESS_RETURN
  | None => mret SUCCESS_RETURN
  end.

(** The code, with [SUCCESS_RETURN] when there is a handle; [*handle] is NULL before. *)
Definition dm_ota_get_ota_handle : eff W Z :=
  v ← vars;
  match ota_handle v with
  | None => mret STATE_DEV_MODEL_OTA_NOT_INITED
  | Some _ => mret SUCCESS_RETURN
  end.

(** Of a gateway; the devices are those of [DmManager]. *)
Definition dm_ota_switch_device (devid : Z) (devices : dm_mgr_ctx) : eff W Z :=
  '(res, (pk, dn, _)) ← eff_lift (dm_mgr_search_device_by_devid devid
      (zeros (Z.to_nat IOTX_PRODUCT_KEY_LEN + 1)) (zeros (Z.to_nat IOTX_DEVICE_NAME_LEN + 1))
      (zeros (Z.to_nat IOTX_DEVICE_SECRET_LEN + 1)) devices);
  if negb (res =? SUCCESS_RETURN) then mret res
  else
    res ← dm_ota_get_ota_handle;
    if negb (res =? SUCCESS_RETURN) then mret res
    else
      fetching ← with_handle (fun h => mret (IOT_OTA_IsFetching h));
      if fetching =? 1 then mret STATE_DEV_MODEL_OTA_STILL_IN_PROGRESS
      else
        _ ← dm_ota_deinit;
        pk ← eff_lift (s ← arr_str pk; arr_copy (zeros (Z.to_nat IOTX_PRODUCT_KEY_LEN + 1)) s);
        dn ← eff_lift (s ← arr_str dn; arr_copy (zeros (Z.to_nat IOTX_DEVICE_NAME_LEN + 1)) s);
        set_vars (fun v => v <| ota_handle := None |> <| ctx_product_key := pk |> <| ctx_device_name := dn |>);;
        dm_ota_sub.

(** ** The firmware in storage *)

Definition HAL_Firmware_Persistence_Start : eff W unit := set_vars (fun v => v <| mbedbl_status := 0 |>).

Definition flag_set (status flag : Z) : bool := negb (Z.land status flag =? 0).

Definition prepare_write : eff W Z :=
  res ← dm_ota_get_ota_handle;
  if negb (res =? SUCCESS_RETURN) then mret (-1)
  else
    '(res, firmware_size) ← with_handle (fun h =>
        '(ret, h, b) ← IOT_OTA_Ioctl h IOT_OTAG_FILE_SIZE (Some (BufU32 0)) 4;
        match b with Some (BufU32 n) => mret (ret, n, h) | _ => eff_fail end);
    if negb (res =? 0) then mret (-1)
    else
      '(res, firmware_version) ← ioctl_arr IOT_OTAG_VERSION (IOTX_FIRMWARE_VER_LEN + 1);
      if negb (res =? 0) then mret (-1)
      else
        v ← eff_lift (arr_str firmware_version);
        res ← eff_plat (beside (MBEDBL_UCP_PrepareWrite v (i32 firmware_size)));
        if negb (res =? 0) then mret (-1)
        else
          set_vars (fun v => v <| mbedbl_status ::= fun s => Z.lor s MBEDBL_UCP_WRITE_PREPARED |>);;
          mret 0.

Definition HAL_Firmware_Persistence_Write (buffer : list Z) (length : Z) : eff W Z :=
  v ← vars;
  ret ← (if negb (flag_set (mbedbl_status v) MBEDBL_UCP_WRITE_PREPARED) then prepare_write else mret 0);
  if negb (ret =? 0) then mret (-1)
  else
    bytes ← buf_sub buffer 0 length;
    res ← eff_plat (beside (MBEDBL_UCP_Write bytes));
    if negb (res =? 0) then
      set_vars (fun v => v <| mbedbl_status ::= fun s => Z.lor s MBEDBL_UCP_WRITE_FAILED |>);;
      mret (-1)
    else mret 0.

Definition HAL_Firmware_Persistence_Stop : eff W Z :=
  v ← vars;
  if negb (flag_set (mbedbl_status v) MBEDBL_UCP_WRITE_PREPARED) then mret (-1)
  else if flag_set (mbedbl_status v) MBEDBL_UCP_WRITE_FAILED then mret (-1)
  else
    res ← eff_plat (beside MBEDBL_UCP_FinalizeWrite);
    mret (if negb (res =? 0) then -1 else 0).

(** ** dm_fota.c *)

Definition dm_fota_init : eff W Z :=
  set_vars (fun v => v <| fota_is_report_new_config := 0 |>);; mret SUCCESS_RETURN.

Definition dm_fota_deinit : eff W Z :=
  set_vars (fun v => v <| fota_is_report_new_config := 0 |>);; mret SUCCESS_RETURN.

Definition _dm_fota_send_new_config_to_user : eff W Z :=
  '(_, ver) ← ioctl_arr IOT_OTAG_VERSION 128;
  ver ← eff_lift (arr_str ver);
  let fmt := json_lit "{'version':'%s'}" in
  let message_len := Z.of_nat (List.length fmt) + Z.of_nat (List.length ver) + 1 in
  ok ← eff_malloc message_len;
  if negb ok then mret STATE_SYS_DEPEND_MALLOC
  else
    text ← eff_lift (sprintf fmt [PS ver]);
    eff_plat (beside (dm_send_to_user IOTX_DM_EVENT_FOTA_NEW_FIRMWARE (snprintf_text message_len text))).

(** [HAL_Firmware_Persistence_Stop(); ctx->is_report_new_config = 0; return ret] *)
Definition fota_end (ret : Z) (output : list Z) : eff W (Z * list Z) :=
  _ ← HAL_Firmware_Persistence_Stop;
  set_vars (fun v => v <| fota_is_report_new_config := 0 |>);;
  mret (ret, output).

(** The percentage and the two times of [report_pre] and [report_now], when the progress is
    reported; a file of size 0 is a division by zero. *)
Definition report_download (percent_pre report_pre : Z) : eff W (Z * Z) :=
  file_downloaded ← ioctl_u32 IOT_OTAG_FETCHED_SIZE 0;
  file_size ← ioctl_u32 IOT_OTAG_FILE_SIZE 0;
  percent_now ← eff_lift (if file_size =? 0 then None else Some (u32 (file_downloaded * 100 / file_size)));
  report_now ← eff_plat HAL_UptimeMs;
  let report_pre := if report_now <? report_pre then report_now else report_pre in
  if ((5 <? u32 (percent_now - percent_pre)) && (50 <? report_now - report_pre))
     || (IOT_OTAP_FETCH_PERCENTAGE_MAX <=? percent_now) then
    report_progress (i32 percent_now);;
    mret (percent_now, report_now)
  else mret (percent_pre, report_pre).

Definition fetch_yield (output : list Z) (output_len : Z) : eff W (Z * list Z) :=
  with_handle (fun h =>
    '(ret, h, output) ← IOT_OTA_FetchYield ca_crt h output output_len 1; mret (ret, output, h)).

(** The loop of [dm_fota_perform_sync]: the code and [output].  [percent_pre] and
    [report_pre] are those of the last report. *)
Fixpoint fota_loop (n : nat) (output : list Z) (output_len retry_timeout percent_pre report_pre : Z)
    : eff W (Z * list Z) :=
  match n with
  | O => eff_fail
  | S n' =>
      '(file_download, output) ← fetch_yield output output_len;
      if file_download <? 0 then
        v ← vars;
        let '(res, retry_max_timeout) := dm_opt_get DM_OPT_FOTA_RETRY_TIMEOUT_MS (Some 0) (g_dm_opt v) in
        if (res =? SUCCESS_RETURN) && (default 0 retry_max_timeout <=? retry_timeout) then
          report_progress IOT_OTAP_FETCH_FAILED;;
          ioctl_do IOT_OTAG_RESET_STATE None 0;;
          fota_end STATE_DEV_MODEL_OTA_FETCH_FAILED output
        else
          eff_act (HAL_SleepMs CONFIG_FOTA_RETRY_INTERNAL_MS);;
          fota_loop n' output output_len (retry_timeout + CONFIG_FOTA_RETRY_INTERNAL_MS) percent_pre report_pre
      else
        ret ← HAL_Firmware_Persistence_Write output file_download;
        if ret <? 0 then
          report_progress IOT_OTAP_BURN_FAILED;;
          ioctl_do IOT_OTAG_RESET_STATE None 0;;
          fota_end STATE_SYS_DEPEND_FIRMWAIRE_WIRTE output
        else
          '(percent_pre, report_pre) ← report_download percent_pre report_pre;
          finished ← with_handle (fun h => mret (IOT_OTA_IsFetchFinish h));
          if finished =? 1 then
            file_isvalid ← ioctl_u32 IOT_OTAG_CHECK_FIRMWARE 0;
            if file_isvalid =? 0 then
              report_progress IOT_OTAP_CHECK_FALIED;;
              ioctl_do IOT_OTAG_RESET_STATE None 0;;
              fota_end STATE_DEV_MODEL_OTA_IMAGE_CHECK_FAILED output
            else fota_end SUCCESS_RETURN output
          else fota_loop n' output output_len 0 percent_pre report_pre
  end.

(** [output] is not NULL; [turns] bounds the turns of the loop. *)
Definition dm_fota_perform_sync (turns : nat) (output : list Z) (output_len : Z) : eff W (Z * list Z) :=
  if output_len <=? 0 then mret (STATE_USER_INPUT_INVALID, output)
  else
    res ← dm_ota_get_ota_handle;
    if negb (res =? SUCCESS_RETURN) then mret (res, output)
    else
      ota_type ← ioctl_u32 IOT_OTAG_OTA_TYPE IOT_OTAT_NONE;
      if negb (ota_type =? IOT_OTAT_FOTA) then mret (STATE_DEV_MODEL_OTA_TYPE_ERROR, output)
      else
        ioctl_do IOT_OTAG_RESET_FETCHED_SIZE (Some BufOther) 4;;
        HAL_Firmware_Persistence_Start;;
        fota_loop turns output output_len 0 0 0.

Definition dm_fota_status_check : eff W Z :=
  res ← dm_ota_get_ota_handle;
  if negb (res =? SUCCESS_RETURN) then mret STATE_DEV_MODEL_OTA_NOT_INITED
  else
    fetching ← with_handle (fun h => mret (IOT_OTA_IsFetching h));
    if fetching =? 1 then
      ota_type ← ioctl_u32 IOT_OTAG_OTA_TYPE IOT_OTAT_NONE;
      v ← vars;
      if (ota_type =? IOT_OTAT_FOTA) && (fota_is_report_new_config v =? 0) then
        res ← _dm_fota_send_new_config_to_user;
        (if res =? SUCCESS_RETURN then set_vars (fun v => v <| fota_is_report_new_config := 1 |>) else mret tt);;
        mret SUCCESS_RETURN
      else mret SUCCESS_RETURN
    else mret SUCCESS_RETURN.

(** [version] is NULL or an object. *)
Definition dm_fota_request_image (ver : option (list Z)) (buffer_len : Z) : eff W Z :=
  match ver with
  | None => mret STATE_USER_INPUT_INVALID
  | Some ver =>
      if buffer_len <=? 0 then mret STATE_USER_INPUT_INVALID
      else
        res ← dm_ota_get_ota_handle;
        if negb (res =? SUCCESS_RETURN) then mret STATE_DEV_MODEL_OTA_NOT_INITED
        else
          ok ← eff_malloc (buffer_len + 1);
          if negb ok then mret STATE_SYS_DEPEND_MALLOC
          else
            bytes ← buf_sub ver 0 buffer_len;
            version_str ← eff_lift (arr_str (bytes ++ [0]));
            with_handle (fun h => iotx_req_image h (Some version_str))
  end.

(** ** dm_cota.c *)

Definition dm_cota_init : eff W Z :=
  set_vars (fun v => v <| cota_is_report_new_config := 0 |>);; mret SUCCESS_RETURN.

Definition dm_cota_deinit : eff W Z :=
  set_vars (fun v => v <| cota_is_report_new_config := 0 |>);; mret SUCCESS_RETURN.

Definition cota_new_config_fmt : list Z :=
  json_lit "{'configId':'%s','configSize':%d,'getType':'%s','sign':'%s','signMethod':'%s','url':'%s'}".

Definition _dm_cota_send_new_config_to_user : eff W Z :=
  config_id ← ioctl_str IOT_OTAG_COTA_CONFIG_ID;
  config_size ← ioctl_u32 IOT_OTAG_COTA_CONFIG_SIZE 0;
  sg ← ioctl_str IOT_OTAG_COTA_SIGN;
  sign_method ← ioctl_str IOT_OTAG_COTA_SIGN_METHOD;
  url ← ioctl_str IOT_OTAG_COTA_URL;
  get_type ← ioctl_str IOT_OTAG_COTA_GETTYPE;
  match config_id, sg, sign_method, url, get_type with
  | Some config_id, Some sg, Some sign_method, Some url, Some get_type =>
      let len (s : list Z) := Z.of_nat (List.length s) in
      let message_len := len cota_new_config_fmt + len config_id + DM_UTILS_UINT32_STRLEN + len get_type + len sg
                         + len sign_method + len url + 1 in
      ok ← eff_malloc message_len;
      if negb ok then mret STATE_SYS_DEPEND_MALLOC
      else
        text ← eff_lift (sprintf cota_new_config_fmt [PS config_id; PD (i32 config_size); PS get_type; PS sg;
                                                       PS sign_method; PS url]);
        eff_plat (beside (dm_send_to_user IOTX_DM_EVENT_COTA_NEW_CONFIG (snprintf_text message_len text)))
  | _, _, _, _, _ => mret STATE_USER_INPUT_INVALID
  end.

Definition cota_end (ret : Z) (output : list Z) : eff W (Z * list Z) :=
  _ ← HAL_Firmware_Persistence_Stop;
  set_vars (fun v => v <| cota_is_report_new_config := 0 |>);;
  mret (ret, output).

(** The loop of [dm_cota_perform_sync]. *)
Fixpoint cota_loop (n : nat) (output : list Z) (output_len percent_pre report_pre : Z) : eff W (Z * list Z) :=
  match n with
  | O => eff_fail
  | S n' =>
      '(file_download, output) ← fetch_yield output output_len;
      if file_download <? 0 then
        report_progress IOT_OTAP_FETCH_FAILED;;
        cota_end STATE_DEV_MODEL_OTA_FETCH_FAILED output
      else
        _ ← HAL_Firmware_Persistence_Write output file_download;
        '(percent_pre, report_pre) ← report_download percent_pre report_pre;
        finished ← with_handle (fun h => mret (IOT_OTA_IsFetchFinish h));
        if finished =? 1 then
          file_isvalid ← ioctl_u32 IOT_OTAG_CHECK_CONFIG 0;
          if file_isvalid =? 0 then cota_end STATE_DEV_MODEL_OTA_IMAGE_CHECK_FAILED output
          else cota_end SUCCESS_RETURN output
        else cota_loop n' output output_len percent_pre report_pre
  end.

Definition dm_cota_perform_sync (turns : nat) (output : list Z) (output_len : Z) : eff W (Z * list Z) :=
  if output_len <=? 0 then mret (STATE_USER_INPUT_INVALID, output)
  else
    res ← dm_ota_get_ota_handle;
    if res <? 0 then mret (res, output)
    else
      ota_type ← ioctl_u32 IOT_OTAG_OTA_TYPE IOT_OTAT_NONE;
      if negb (ota_type =? IOT_OTAT_COTA) then mret (STATE_DEV_MODEL_OTA_TYPE_ERROR, output)
      else
        ioctl_do IOT_OTAG_RESET_FETCHED_SIZE (Some BufOther) 4;;
        HAL_Firmware_Persistence_Start;;
        cota_loop turns output output_len 0 0.

Definition dm_cota_get_config (config_scope get_type attribute_keys : option (list Z)) : eff W Z :=
  res ← dm_ota_get_ota_handle;
  if negb (res =? SUCCESS_RETURN) then mret res
  else with_handle (fun h => iotx_ota_get_config h config_scope get_type attribute_keys).

Definition dm_cota_status_check : eff W Z :=
  res ← dm_ota_get_ota_handle;
  if negb (res =? SUCCESS_RETURN) then mret res
  else
    fetching ← with_handle (fun h => mret (IOT_OTA_IsFetching h));
    if fetching =? 1 then
      ota_type ← ioctl_u32 IOT_OTAG_OTA_TYPE IOT_OTAT_NONE;
      v ← vars;
      if (ota_type =? IOT_OTAT_COTA) && (cota_is_report_new_config v =? 0) then
        res ← _dm_cota_send_new_config_to_user;
        (if res =? SUCCESS_RETURN then set_vars (fun v => v <| cota_is_report_new_config := 1 |>) else mret tt);;
        mret SUCCESS_RETURN
      else mret SUCCESS_RETURN
    else mret SUCCESS_RETURN.
End DmOta.
