(* ===== verification/OtaSafety.v ===== *)
(** * OtaSafety: only checked firmware is reported as updated

    Whatever the server sends and the platform does, when an update of the firmware reports
    success, the bytes given to the bootloader are those whose MD5 was announced. *)

From S2P Require Import Prelude.
From S2P Require Import CString.
From S2P Require Import InfraHash.
From S2P Require Import InfraSha256.
From S2P Require Import InfraMd5.
From S2P Require Import Hal.
From S2P Require Import InfraState.
From S2P Require Import InfraTimer.
From S2P Require Import InfraNet.
From S2P Require Import Eff.
From S2P Require Import InfraHttpc.
From S2P Require Import OtaLib.
From S2P Require Import IotxOta.
From S2P Require Import DmOta.

(** ** What a platform keeps *)

(** A preorder on platform states that no function used by an update leaves. *)
Class HalKeeps {E} (R : E -> E -> Prop) `{!Hal E, !OtaSignal E} := {
  keeps_order :: PreOrder R;
  keeps_uptime e : R e (snd (HAL_UptimeMs e));
  keeps_sleep n e : R e (HAL_SleepMs n e);
  keeps_malloc n e : R e (snd (HAL_Malloc n e));
  keeps_establish host port crt n e : R e (snd (HAL_SSL_Establish host port crt n e));
  keeps_destroy h e : R e (HAL_SSL_Destroy h e);
  keeps_read h n t e : R e (snd (HAL_SSL_Read h n t e));
  keeps_write h bs t e : R e (snd (HAL_SSL_Write h bs t e));
  keeps_publish c topic qos msg e : R e (snd (IOT_MQTT_Publish c topic qos msg e))
}.

Section Keeps.
Context {E Cb : Type} `{!Hal E, !OtaSignal E} (R : E -> E -> Prop) `{!HalKeeps R}.
Variable crt : option (list Z).

Lemma keeps_countdown ms : keeps R (eff_plat (utils_time_countdown_ms ms)).
Proof.
  apply keeps_plat. intros e. unfold utils_time_countdown_ms. pose proof (keeps_uptime e) as H.
  by destruct (HAL_UptimeMs e).
Qed.

Lemma keeps_left t : keeps R (eff_plat (iotx_time_left t)).
Proof.
  apply keeps_plat. intros e. unfold iotx_time_left, utils_time_is_expired. destruct t as [t|]; [|done].
  pose proof (keeps_uptime e) as H1. destruct (HAL_UptimeMs e) as [n1 e1]. cbn [snd] in H1.
  destruct (_ <? _); [done|]. cbn [Z.eqb negb]. pose proof (keeps_uptime e1) as H2.
  destruct (HAL_UptimeMs e1) as [n2 e2]. by transitivity e1.
Qed.

Lemma keeps_eff_malloc n : keeps R (eff_malloc n).
Proof. apply keeps_plat, keeps_malloc. Qed.

Lemma keeps_net_write c buf : keeps R (net_write c buf).
Proof. apply keeps_plat. intros e. apply keeps_write. Qed.

Lemma keeps_net_read c n t : keeps R (eff_plat (fun e => utils_net_read c n t e)).
Proof. apply keeps_plat. intros e. apply keeps_read. Qed.

Lemma keeps_disconnect c : keeps R (eff_plat (iotx_net_disconnect c)).
Proof. apply keeps_plat. intros e. apply keeps_destroy. Qed.

Lemma keeps_connect c : keeps R (eff_plat (iotx_net_connect c)).
Proof.
  apply keeps_plat. intros e. unfold iotx_net_connect, connect_ssl.
  pose proof (keeps_establish (pHostAddress c) (port c) (ca_crt c) (ca_crt_len c + 1) e) as H.
  destruct (HAL_SSL_Establish _ _ _ _ e) as [h e1]. by destruct (negb _).
Qed.

Lemma keeps_sleep_act n : keeps R (eff_act (HAL_SleepMs n)).
Proof. apply keeps_act, keeps_sleep. Qed.

Lemma keeps_mqtt_publish c topic qos msg : keeps R (eff_plat (IOT_MQTT_Publish c topic qos msg)).
Proof. apply keeps_plat. intros e. apply keeps_publish. Qed.

Lemma keeps_clock : keeps R (eff_plat HAL_UptimeMs).
Proof. apply keeps_plat, keeps_uptime. Qed.

Hint Resolve keeps_countdown keeps_left keeps_eff_malloc keeps_net_write keeps_net_read keeps_disconnect
  keeps_connect keeps_sleep_act keeps_mqtt_publish keeps_clock : keeps.

Lemma keeps_buf_set b i c : keeps R (buf_set b i c).
Proof. apply keeps_lift, _. Qed.
Lemma keeps_buf_move b i c : keeps R (buf_move b i c).
Proof. apply keeps_lift, _. Qed.
Lemma keeps_buf_store b i c : keeps R (buf_store b i c).
Proof. apply keeps_lift, _. Qed.
Lemma keeps_buf_from b i : keeps R (buf_from (E := E) b i).
Proof. apply keeps_lift, _. Qed.
Lemma keeps_buf_sub b i n : keeps R (buf_sub b i n).
Proof. apply keeps_lift, _. Qed.
Hint Resolve keeps_buf_set keeps_buf_move keeps_buf_store keeps_buf_from keeps_buf_sub : keeps.

Lemma keeps_buf_cpy b i c n : keeps R (buf_cpy b i c n).
Proof. unfold buf_cpy. keeps. Qed.
Hint Resolve keeps_buf_cpy : keeps.

Lemma keeps_http_send c url port crt' m d : keeps R (_http_send c url port crt' m d).
Proof.
  assert (forall n c b i buf len, keeps R (fill_tx_loop n c b i buf len)) as Hloop.
  { intros n. induction n; intros; cbn [fill_tx_loop]; keeps. }
  assert (forall c b i buf len, keeps R (_utils_fill_tx_buffer c b i buf len)) as Hfill.
  { intros. unfold _utils_fill_tx_buffer. keeps. }
  assert (forall c b len fmt args, keeps R (fill_format c b len fmt args)) as Hfmt.
  { intros. unfold fill_format. keeps. }
  assert (forall n c, keeps R (connect_loop n c)) as Hconn.
  { intros n. induction n; intros; cbn [connect_loop]; keeps. }
  unfold _http_send, httpclient_connect, httpclient_close, _http_send_request, _http_send_header,
    _http_send_userdata.
  keeps.
Qed.
Hint Resolve keeps_http_send : keeps.

Lemma keeps_http_recv c b off n t : keeps R (_http_recv c b off n t).
Proof. unfold _http_recv. keeps. Qed.

Lemma keeps_deadloop len t ret d x : keeps R (_utils_check_deadloop len t ret d x).
Proof. unfold _utils_check_deadloop. keeps. Qed.

Lemma keeps_fill_rx w len d data : keeps R (_utils_fill_rx_buf w len d data).
Proof. unfold _utils_fill_rx_buf. keeps. Qed.
Hint Resolve keeps_http_recv keeps_deadloop keeps_fill_rx : keeps.

Lemma keeps_body_loop n : forall c data r w t dl xc d, keeps R (body_loop n c data r w t dl xc d).
Proof. induction n; intros; cbn [body_loop]; keeps. Qed.
Hint Resolve keeps_body_loop : keeps.

Lemma keeps_response_body c data r tmo d : keeps R (_http_get_response_body c data r tmo d).
Proof. unfold _http_get_response_body. keeps. Qed.

Lemma keeps_head_loop n : forall c data len t, keeps R (head_loop n c data len t).
Proof. induction n; intros; cbn [head_loop]; keeps. Qed.
Hint Resolve keeps_response_body keeps_head_loop : keeps.

Lemma keeps_parse_header c data len tmo d : keeps R (_http_parse_response_header c data len tmo d).
Proof. unfold _http_parse_response_header. keeps. Qed.
Hint Resolve keeps_parse_header : keeps.

Lemma keeps_recv_response c tmo d : keeps R (httpclient_recv_response c tmo d).
Proof. unfold httpclient_recv_response. keeps. Qed.

Lemma keeps_setopt {C} (h : wrapper_http_handle_t C) o : keeps R (wrapper_http_setopt h o).
Proof. unfold wrapper_http_setopt, _replase_str. destruct o as [[]|]; keeps. Qed.
Hint Resolve keeps_recv_response keeps_setopt : keeps.

Lemma keeps_perform {C} (h : wrapper_http_handle_t C) data n : keeps R (wrapper_http_perform h data n).
Proof. unfold wrapper_http_perform. keeps. Qed.

Lemma keeps_http_deinit {C} (h : wrapper_http_handle_t C) : keeps R (wrapper_http_deinit h).
Proof. unfold wrapper_http_deinit, httpclient_close. keeps. Qed.
Hint Resolve keeps_perform keeps_http_deinit : keeps.

Lemma keeps_ofc_init url off : keeps R (ofc_Init crt url off).
Proof. unfold ofc_Init, wrapper_http_init. keeps. Qed.

Lemma keeps_ofc_fetch c b n t : keeps R (ofc_Fetch c b n t).
Proof. unfold ofc_Fetch. keeps. Qed.

Lemma keeps_report (h : OTA_Struct_t Cb) p m : keeps R (IOT_OTA_ReportProgress h p m).
Proof. unfold IOT_OTA_ReportProgress, osc_ReportProgress, otamqtt_Publish. keeps. Qed.
Hint Resolve keeps_ofc_init keeps_ofc_fetch keeps_report : keeps.

Lemma keeps_fetch_yield (h : OTA_Struct_t Cb) b n t : keeps R (IOT_OTA_FetchYield crt h b n t).
Proof.
  unfold IOT_OTA_FetchYield, fetch_digests, fetch_channel, fetch_first, otalib_MD5Init, otalib_Sha256Init,
    otalib_MD5Update, otalib_Sha256Update, ofc_Deinit.
  keeps.
Qed.

Lemma keeps_ioctl (h : OTA_Struct_t Cb) cmd b n : keeps R (IOT_OTA_Ioctl h cmd b n).
Proof.
  unfold IOT_OTA_Ioctl, ota_get_str, ota_get_u32, ota_get_arr, check_firmware, check_config,
    otalib_MD5Finalize, otalib_Sha256Finalize.
  keeps.
Qed.
End Keeps.

(** ** What is stored are bytes *)

Section Bytes.
Context {E : Type} `{!Hal E, !HalRead E}.

Lemma store_bytes (b src : list Z) off (e : E) :
  bytes_ok b -> bytes_ok src ->
  ensures (buf_store b off src) (fun b' _ => bytes_ok b' /\ List.length b' = List.length b) e.
Proof.
  intros Hb Hs. apply ensures_lift. intros b'. case_match eqn:Hc; [done|]. intros [= <-].
  apply orb_false_iff in Hc as [Ho Hl]. apply Z.ltb_ge in Ho, Hl. split.
  - repeat apply Forall_app_2; [by apply Forall_take|done|by apply Forall_drop].
  - rewrite !length_app, length_take, length_drop. lia.
Qed.

Lemma cpy_bytes (b src : list Z) off n (e : E) :
  bytes_ok b -> bytes_ok src -> ensures (buf_cpy b off src n) (fun b' _ => bytes_ok b') e.
Proof.
  intros Hb Hs. unfold buf_cpy. destruct (_ || _); [apply ensures_fail|].
  eapply ensures_mono; [apply store_bytes; [done|by apply Forall_take]|]. by intros ? ? [? _].
Qed.

Lemma set_bytes (b : list Z) i c (e : E) :
  bytes_ok b -> is_byte c -> ensures (buf_set b i c) (fun b' _ => bytes_ok b') e.
Proof.
  intros Hb Hc. apply ensures_lift. intros b'. case_match; [done|]. intros [= <-]. by apply Forall_insert.
Qed.

Lemma move_bytes (b : list Z) k n (e : E) :
  bytes_ok b -> ensures (buf_move b k n) (fun b' _ => bytes_ok b') e.
Proof.
  intros Hb. apply ensures_lift. intros b'. case_match; [done|]. intros [= <-].
  apply Forall_app_2; [by apply Forall_take, Forall_drop|by apply Forall_drop].
Qed.

Lemma zero_byte : is_byte 0.
Proof. unfold is_byte. lia. Qed.

Lemma zeros_bytes n : bytes_ok (zeros n).
Proof. apply Forall_replicate, zero_byte. Qed.

Lemma recv_bytes c b off n t (e : E) :
  bytes_ok b -> ensures (_http_recv c b off n t) (fun '(_, b', _) _ => bytes_ok b') e.
Proof.
  intros Hb. unfold _http_recv. apply ensures_skip. intros tm e1. apply ensures_skip. intros l e2.
  apply ensures_bind, ensures_plat. unfold utils_net_read, read_ssl.
  destruct (HAL_SSL_Read (handle (net c)) n l e2) as [[rc bs] e3] eqn:Hr. cbn [fst snd].
  destruct (hal_read_bytes _ _ _ _ _ _ _ Hr) as [Hbs _].
  eapply ensures_bind'; [by apply store_bytes|]. intros b' e4 [Hb' _].
  destruct (0 <? rc); [by apply ensures_ret|]. by destruct (rc =? 0); apply ensures_ret.
Qed.

Definition response_bytes (d : httpclient_data_t) : Prop := bytes_ok (response_buf d).

Lemma fill_rx_bytes w len d data (e : E) :
  response_bytes d -> bytes_ok data ->
  ensures (_utils_fill_rx_buf w len d data) (fun '(_, _, d') _ => response_bytes d') e.
Proof.
  intros Hd Hx. unfold _utils_fill_rx_buf. destruct (_ <? _).
  all: eapply ensures_bind'; [by apply cpy_bytes|]; intros b e1 Hb.
  all: eapply ensures_bind'; [by apply set_bytes; [|apply zero_byte]|]; intros b' e2 Hb'; by apply ensures_ret.
Qed.

Lemma body_loop_bytes n : forall c data r w t dl xc d (e : E),
  response_bytes d -> bytes_ok data ->
  ensures (body_loop n c data r w t dl xc d) (fun '(_, d') _ => response_bytes d') e.
Proof.
  induction n as [|n IH]; intros c data r w t dl xc d e Hd Hx; cbn [body_loop]; [apply ensures_fail|].
  eapply ensures_bind'; [by apply fill_rx_bytes|]. intros [[res w'] d'] e1 Hd'.
  destruct (res =? _); [by apply ensures_ret|]. destruct (retrieve_len d' =? 0); [by apply ensures_ret|].
  apply ensures_skip. intros l e2. eapply ensures_bind'; [by apply recv_bytes|].
  intros [[ret data'] r'] e3 Hx'. destruct (negb _); [by apply ensures_ret|].
  apply ensures_skip. intros [[[ret' t'] dl'] xc'] e4. destruct (negb _); [by apply ensures_ret|]. by apply IH.
Qed.

Lemma response_body_bytes c data r tmo d (e : E) :
  response_bytes d -> bytes_ok data ->
  ensures (_http_get_response_body c data r tmo d) (fun '(_, d') _ => response_bytes d') e.
Proof.
  intros Hd Hx. unfold _http_get_response_body. apply ensures_skip. intros t e1.
  destruct (_ && _); [by apply ensures_ret|]. by apply body_loop_bytes.
Qed.

Lemma head_loop_bytes n : forall c data len t (e : E),
  bytes_ok data -> ensures (head_loop n c data len t) (fun '(_, data', _, _) _ => bytes_ok data') e.
Proof.
  induction n as [|n IH]; intros c data len t e Hx; cbn [head_loop]; [apply ensures_fail|].
  apply ensures_skip. intros [p|] e1; [by apply ensures_ret|]. apply ensures_skip. intros l e2.
  eapply ensures_bind'; [by apply recv_bytes|]. intros [[ret data'] r'] e3 Hx'.
  destruct (negb _); [by apply ensures_ret|].
  eapply ensures_bind'; [by apply set_bytes; [|apply zero_byte]|]. intros b e4 Hb. by apply IH.
Qed.

Lemma parse_header_bytes c data len tmo d (e : E) :
  response_bytes d -> bytes_ok data ->
  ensures (_http_parse_response_header c data len tmo d) (fun '(_, _, d') _ => response_bytes d') e.
Proof.
  intros Hd Hx. unfold _http_parse_response_header. apply ensures_skip. intros t e1.
  apply ensures_skip. intros [p|] e2; [|by apply ensures_ret].
  eapply ensures_bind'; [by apply set_bytes; [|apply zero_byte]|]. intros b1 e3 H1.
  apply ensures_skip. intros num e4. apply ensures_skip. intros code e5.
  eapply ensures_bind'; [by apply move_bytes|]. intros b2 e6 H2.
  eapply ensures_bind'; [by apply head_loop_bytes|]. intros [[[ret b3] len'] pe] e7 H3.
  destruct (negb _); [by apply ensures_ret|]. apply ensures_skip.
  intros [tp|] e8; [|by apply ensures_ret]. apply ensures_skip. intros num2 e9. apply ensures_skip. intros n e10.
  eapply ensures_bind'; [by apply move_bytes|]. intros b4 e11 H4. apply ensures_skip. intros l e12.
  eapply ensures_bind'; [by apply response_body_bytes|]. intros [ret' d'] e13 Hd'. by apply ensures_ret.
Qed.

Lemma recv_response_bytes c tmo d (e : E) :
  response_bytes d ->
  ensures (httpclient_recv_response c tmo d) (fun '(_, _, d') _ => response_bytes d') e.
Proof.
  intros Hd. unfold httpclient_recv_response. apply ensures_skip. intros t e1.
  destruct (_ =? 0); [by apply ensures_ret|]. destruct (is_more d).
  - eapply ensures_bind'; [by apply set_bytes; [|apply zero_byte]|]. intros b e2 Hb. apply ensures_skip.
    intros l e3. eapply ensures_bind'; [by apply response_body_bytes; [|apply zeros_bytes]|].
    intros [ret d'] e4 Hd'. by apply ensures_ret.
  - apply ensures_skip. intros l e2. eapply ensures_bind'; [by apply recv_bytes, zeros_bytes|].
    intros [[ret b] n] e3 Hb. destruct (negb _); [by apply ensures_ret|].
    eapply ensures_bind'; [by apply set_bytes; [|apply zero_byte]|]. intros b' e4 Hb'.
    destruct (negb _); [|by apply ensures_ret]. apply ensures_skip. intros l' e5. by apply parse_header_bytes.
Qed.

(** The callback is given bytes, so its context keeps what the callback keeps of bytes. *)
Lemma perform_keeps {C} (h : wrapper_http_handle_t C) data n cb c (Q : C -> Prop) (e : E) :
  recv_cb h = Some cb -> recv_ctx h = Some c -> Q c ->
  (forall b k total c1 c2, bytes_ok b -> Q c1 -> cb b k total c1 = Some c2 -> Q c2) ->
  ensures (wrapper_http_perform h data n) (fun '(_, h') _ => from_option Q False (recv_ctx h')) e.
Proof.
  intros Hcb Hc HQ Hk. assert (from_option Q False (recv_ctx h)) as Hh by by rewrite Hc.
  unfold wrapper_http_perform. destruct (_ && _); [by apply ensures_ret|].
  destruct (_ <=? 0); [by apply ensures_ret|]. apply ensures_skip. intros ok e1.
  destruct (negb ok); [by apply ensures_ret|]. apply ensures_skip. intros url e2. apply ensures_skip.
  intros [res client] e3. destruct (_ <? _); [by apply ensures_ret|]. apply ensures_skip. intros t e4.
  apply ensures_skip. intros l e5.
  eapply ensures_bind'; [apply recv_response_bytes; apply zeros_bytes|]. intros [[res' client'] d] e6 Hd.
  destruct (_ <? _); [by apply ensures_ret|].
  match goal with |- context [recv_cb ?x] => change (recv_cb x) with (recv_cb h) end. rewrite Hcb.
  match goal with |- context [recv_ctx ?x] => change (recv_ctx x) with (recv_ctx h) end. rewrite Hc.
  apply ensures_bind, ensures_lift. intros c1 [= <-]. apply ensures_bind, ensures_lift. intros c2 H2.
  apply ensures_ret. exact (Hk _ _ _ _ _ Hd HQ H2).
Qed.

Lemma store_piece_ok (p ptr p' : list Z) off n :
  bytes_ok p -> bytes_ok ptr -> store_piece p off ptr n = Some p' ->
  bytes_ok p' /\ List.length p' = List.length p.
Proof.
  intros Hp Hq. unfold store_piece. case_match eqn:Hc; [done|]. intros [= <-].
  apply orb_false_iff in Hc as [[[Hn Hl]%orb_false_iff Ho]%orb_false_iff Hr].
  apply Z.ltb_ge in Hn, Hl, Ho, Hr. split.
  - repeat apply Forall_app_2; [by apply Forall_take|by apply Forall_take|by apply Forall_drop].
  - rewrite !length_app, !length_take, length_drop. lia.
Qed.

Lemma fetch_bytes c (buf : list Z) n tmo (e : E) :
  bytes_ok buf ->
  ensures (ofc_Fetch c buf n tmo) (fun '(_, _, b) _ => bytes_ok b /\ List.length b = List.length buf) e.
Proof.
  intros Hb. unfold ofc_Fetch. eapply ensures_bind'; [by apply store_bytes, zeros_bytes|].
  intros b0 e0 [Hb0 Hl0]. unfold wrapper_http_setopt. cbv zeta.
  apply ensures_skip. intros [r1 h1] e1. do 3 apply ensures_bind, ensures_ret.
  eapply ensures_bind'.
  { apply (perform_keeps _ _ _ _ota_fetch_callback (OtaResponse b0 0 (i32 n))
      (fun r => bytes_ok (payload r) /\ List.length (payload r) = List.length buf)); [done..|].
    intros b k total c1 c2 Hbb [H1 H2]. unfold _ota_fetch_callback. case_match; [by intros [= <-]|].
    destruct (store_piece _ _ _ _) as [p|] eqn:Hp; [|done]. intros [= <-].
    destruct (store_piece_ok _ _ _ _ _ H1 Hbb Hp) as [H3 H4]. split; [exact H3|].
    change (List.length p = List.length buf). congruence. }
  intros [ret h2] e2 Hr. apply ensures_bind, ensures_lift. intros r Hrx. change (recv_ctx h2 = Some r) in Hrx.
  rewrite Hrx in Hr. by destruct (ret <? 0); apply ensures_ret.
Qed.
End Bytes.

(** ** One fetch *)

Section Yield.
Context {E Cb : Type} `{!Hal E, !HalRead E, !OtaSignal E}.
Variable crt : option (list Z).
Notation OTA := (OTA_Struct_t Cb).
#[local] Existing Instance md5_ops.
#[local] Existing Instance md5_spec.

(** The MD5 of the handle has been given [m]. *)
Definition fed (h : OTA) (m : list Z) : Prop := exists c, md5 h = Some c /\ given c m.

(** [m] has been fetched, of a file that is not complete. *)
Definition fetched (h : OTA) (m : list Z) : Prop :=
  size_fetched h = mlen m /\ (m = [] \/ fed h m) /\ bytes_ok m.

(** What a fetch does not change. *)
Definition same_file (h h' : OTA) : Prop := md5sum h' = md5sum h /\ size_file h' = size_file h.

Lemma report_same (h : OTA) p m (e : E) :
  ensures (IOT_OTA_ReportProgress h p m) (fun '(_, h') _ => exists x, h' = h <| err := x |>) e.
Proof.
  assert (exists x, h = h <| err := x |>) as Hh by (exists (err h); by destruct h).
  unfold IOT_OTA_ReportProgress. destruct (_ =? _); [apply ensures_ret; eauto|].
  destruct (negb _); [apply ensures_ret; eauto|]. apply ensures_skip. intros ok e1.
  destruct (negb ok); [apply ensures_ret; eauto|]. apply ensures_skip. intros [ret msg] e2.
  destruct (negb _); [apply ensures_ret; eauto|]. apply ensures_skip. intros osc e3. apply ensures_skip.
  intros ret' e4. destruct (negb _); apply ensures_ret; eauto.
Qed.

Lemma md5_started : given (utils_md5_starts utils_md5_init) [].
Proof. exact (@starts_given _ md5_ops _ _ md5_spec utils_md5_init eq_refl). Qed.

Lemma md5_init_ok (e : E) :
  ensures otalib_MD5Init (fun m _ => forall c, m = Some c -> c = utils_md5_starts utils_md5_init) e.
Proof. apply ensures_skip. intros [] e1; apply ensures_ret; [by intros c [= <-]|done]. Qed.

Lemma md5_updated c m buf n c' :
  given c m -> 0 <= n < 4294967296 -> n <= mlen buf -> bytes_ok buf -> mlen m < 4294967296 ->
  utils_md5_update c buf n = Some c' -> given c' (m ++ take (Z.to_nat n) buf).
Proof.
  intros Hc Hn Hl Hb Hm Hu. destruct (@feed_given _ md5_ops _ _ md5_spec c m buf n Hc Hn Hl) as (c1 & H1 & H2);
    [by apply Forall_take|lia|]. change (hash_feed c buf n) with (utils_md5_update c buf n) in H1. congruence.
Qed.

(** [h'] differs from [h] in what the preparation of a fetch sets. *)
Definition prepared (h h' : OTA) (m : list Z) : Prop :=
  same_file h h' /\ fetched h' m /\ size_fetched h' = size_fetched h /\ state h' = state h.

Lemma fetch_digests_ok (h : OTA) m (e : E) :
  fetched h m -> ensures (fetch_digests h) (fun '(_, h') _ => prepared h h' m) e.
Proof.
  intros Hf. unfold fetch_digests. eapply (ensures_bind' _ _ (fun h' _ => prepared h h' m)).
  - destruct (md5 h) as [c|] eqn:Hc; [by apply ensures_ret; split; [done|split]|]. apply ensures_skip. intros c' e1.
    apply ensures_ret. split; [done|]. split; [|done]. destruct Hf as (Hn & [->|(c & Hc2 & _)] & Hb); [|congruence].
    split; [exact Hn|]. split; [by left|done].
  - intros h1 e1 H1. destruct (md5 h1) as [c|]; [|by apply ensures_ret].
    eapply (ensures_bind' _ _ (fun h' _ => prepared h h' m)).
    + destruct (sha256 h1); [by apply ensures_ret|]. apply ensures_skip. intros s e2. by apply ensures_ret.
    + intros h2 e2 H2. by destruct (sha256 h2); apply ensures_ret.
Qed.

Lemma fetch_channel_ok (h h0 : OTA) m (e : E) :
  prepared h0 h m -> ensures (fetch_channel crt h) (fun h' _ => prepared h0 h' m) e.
Proof.
  intros Hf. unfold fetch_channel. destruct (ch_fetch h); [by apply ensures_ret|].
  destruct (_ =? _); [apply ensures_skip; intros c e1; by apply ensures_ret|].
  destruct (_ =? _); [apply ensures_skip; intros c e1; by apply ensures_ret|]. by apply ensures_ret.
Qed.

(** Before a piece is digested the digest has been given all of what was fetched. *)
Lemma fetch_first_ok (h h0 : OTA) m (e : E) :
  prepared h0 h m ->
  ensures (fetch_first h) (fun '(ok, h') _ => prepared h0 h' m /\ (ok = true -> fed h' m)) e.
Proof.
  intros Hp. pose proof Hp as (Hs & (Hn & Hf & Hb) & Hc & Ht). unfold fetch_first. destruct (size_fetched h =? 0) eqn:Hz.
  - apply Z.eqb_eq in Hz. assert (m = []) as ->.
    { apply length_zero_iff_nil. unfold mlen in Hn. lia. }
    eapply ensures_bind'; [apply md5_init_ok|]. intros [c|] e1 Hm; cbv zeta.
    2: { apply ensures_ret. split; [|done]. split; [done|]. split; [|done]. split; [exact Hn|]. split; [by left|done]. }
    assert (prepared h0 (h <| md5 := Some c |>) []) as H1.
    { split; [done|]. split; [|done]. split; [exact Hn|]. split; [by left|done]. }
    apply ensures_skip. intros [s|] e2; [|by apply ensures_ret].
    eapply ensures_bind'; [apply report_same|]. intros [r h2] e3 [x ->]. apply ensures_ret.
    split; [exact H1|]. intros _. exists c. split; [done|]. rewrite (Hm c eq_refl). apply md5_started.
  - apply ensures_ret. split; [done|]. intros _. destruct Hf as [->|Hf]; [|done].
    apply Z.eqb_neq in Hz. by rewrite Hn in Hz.
Qed.

(** A fetch that does not fail adds its piece to what was fetched; one that fails adds
    nothing. *)
Definition yielded (h : OTA) (m : list Z) (ret : Z) (h' : OTA) (buf' : list Z) : Prop :=
  same_file h h'
  /\ (ret < 0 -> fetched h' m)
  /\ (0 <= ret <= mlen buf' ->
        let m' := m ++ take (Z.to_nat ret) buf' in
        fetched h' m' /\ fed h' m'
        /\ ((state h' =? IOT_OTAS_FETCHED) = (size_file h' <=? size_fetched h'))).

Lemma fetch_yield_ok (h : OTA) m (buf : list Z) n t (e : E) :
  fetched h m -> size_fetched h < 2147483648 -> bytes_ok buf -> mlen buf < 2147483648 ->
  ensures (IOT_OTA_FetchYield crt h buf n t)
    (fun '(ret, h', buf') _ => bytes_ok buf' /\ mlen buf' = mlen buf /\ yielded h m ret h' buf') e.
Proof.
  intros Hf Hs Hb Hl.
  assert (forall ret h' buf', ret < 0 -> same_file h h' -> fetched h' m -> bytes_ok buf' /\ mlen buf' = mlen buf ->
    bytes_ok buf' /\ mlen buf' = mlen buf /\ yielded h m ret h' buf') as Hfail.
  { intros ret h' buf' Hr H1 H2 [H3 H4]. split; [done|]. split; [done|]. split; [done|]. split; [done|]. lia. }
  unfold IOT_OTA_FetchYield. destruct (n =? 0); [by apply ensures_ret, Hfail|].
  destruct (negb _); [by apply ensures_ret, Hfail|]. cbv zeta.
  eapply ensures_bind'; [by apply (fetch_digests_ok (h <| state := IOT_OTAS_FETCHING |>) m)|].
  intros [ok h1] e1 H1. destruct (negb ok); [apply ensures_ret, Hfail; [done|apply H1|apply H1|done]|].
  eapply ensures_bind'; [apply (fetch_channel_ok _ _ _ _ H1)|]. clear h1 H1. intros h1 e2 H1. cbv beta in H1.
  destruct (ch_fetch h1) as [c|]; [|apply ensures_ret, Hfail; [done|apply H1|apply H1|done]].
  eapply ensures_bind'; [by apply fetch_bytes|]. intros [[ret c'] buf'] e3 [Hb' Hl'].
  assert (mlen buf' = mlen buf) as Hlb by (unfold mlen; lia).
  destruct (Z.ltb_spec ret 0) as [Hr|Hr].
  { apply ensures_skip. intros ? e4. apply ensures_ret, Hfail; [done|apply H1|apply H1|done]. }
  eapply ensures_bind'; [by apply (fetch_first_ok (h1 <| ch_fetch := Some c' |>) (h <| state := IOT_OTAS_FETCHING |>) m)|]. clear h1 H1. intros [ok1 h1] e4 [H1 Hfed].
  destruct ok1; [|apply ensures_ret, Hfail; [done|apply H1|apply H1|done]]. cbn [negb].
  destruct (Hfed eq_refl) as (c0 & Hc0 & Hg). rewrite Hc0.
  destruct H1 as (Hsame & (Hcount & _ & Hbm) & Hsize & Hstate).
  apply ensures_bind. unfold otalib_MD5Update. apply ensures_bind, ensures_lift. intros ? [= <-].
  apply ensures_lift. intros c1 Hc1. apply ensures_skip. intros s e5.
  assert (0 <= ret <= mlen buf' -> given c1 (m ++ take (Z.to_nat ret) buf')
    /\ u32 (size_fetched h1 + ret) = mlen (m ++ take (Z.to_nat ret) buf')) as Hnew.
  { intros Hret. change (size_fetched h1 = size_fetched h) in Hsize. split.
    - apply (md5_updated c0); [done|lia|lia|done|lia|done].
    - rewrite Hcount. unfold mlen. rewrite length_app, length_take. unfold u32, mlen in *.
      rewrite Z.mod_small; lia. }
  set (h2 := h1 <| md5 := Some c1 |> <| sha256 := Some s |> <| size_last_fetched := ret |>
               <| size_fetched ::= fun n => u32 (n + ret) |>).
  assert (forall h3, same_file h2 h3 -> size_fetched h3 = size_fetched h2 -> md5 h3 = md5 h2 ->
    (state h3 =? IOT_OTAS_FETCHED) = (size_file h2 <=? size_fetched h2) -> yielded h m ret h3 buf') as Hdone.
  { intros h3 [Hm3 Hf3] Hs3 Hd3 Ht3. split; [|split; [lia|]].
    - split; [rewrite Hm3; apply Hsame|rewrite Hf3; apply Hsame].
    - intros Hret. destruct (Hnew Hret) as [Hg1 Hn1]. assert (fed h3 (m ++ take (Z.to_nat ret) buf')) as Hfd.
      { exists c1. split; [by rewrite Hd3|done]. }
      split; [|split; [done|by rewrite Hf3, Hs3]]. split; [by rewrite Hs3|]. split; [by right|].
      apply Forall_app_2; [done|by apply Forall_take]. }
  destruct (Z.leb_spec (size_file h2) (size_fetched h2)) as [Hle|Hgt]; apply ensures_ret.
  - split; [done|]. split; [done|]. by apply Hdone.
  - split; [done|]. split; [done|]. apply Hdone; [done..|].
    change (state h2) with (state h1). by rewrite Hstate.
Qed.
End Yield.
