(* ===== verification/OtaUpdate.v ===== *)
(** * OtaUpdate: only checked firmware is reported as updated

    Whatever the server sends and the platform does: when [dm_fota_perform_sync] reports
    success, the image given to the bootloader is made of bytes whose MD5 is the one that
    was announced.  When the check fails the image is finalised all the same. *)

From S2P Require Import Prelude.
From S2P Require Import CString.
From S2P Require Import InfraHash.
From S2P Require Import InfraMd5.
From S2P Require Import Hal.
From S2P Require Import InfraState.
From S2P Require Import Eff.
From S2P Require Import InfraString.
From S2P Require Import OtaLib.
From S2P Require Import IotxOta.
From S2P Require Import DmOta.
From S2P Require Import OtaSafety.

(** ** The bootloader *)

(** What has been written since the last preparation, and the image that was committed
    last.  Only the functions of the bootloader change them. *)
Class UcpStorage (E : Type) `{!Hal E, !OtaSignal E, !Ucp E} := {
  ucp_pending : E -> list Z;
  ucp_image : E -> option (list Z);
  ucp_prepare v n e :
    let '(rc, e') := MBEDBL_UCP_PrepareWrite v n e in
    ucp_image e' = ucp_image e /\ (rc = 0 -> ucp_pending e' = []);
  ucp_write bs e :
    let '(rc, e') := MBEDBL_UCP_Write bs e in
    ucp_image e' = ucp_image e /\ (rc = 0 -> ucp_pending e' = ucp_pending e ++ bs);
  ucp_finalize e :
    let '(rc, e') := MBEDBL_UCP_FinalizeWrite e in
    ucp_pending e' = ucp_pending e
    /\ ucp_image e' = (if rc =? 0 then Some (ucp_pending e) else ucp_image e);
  ucp_apart :: HalKeeps (fun e e' => ucp_pending e' = ucp_pending e /\ ucp_image e' = ucp_image e)
}.

#[global] Instance read_beside {E G} `{!Hal E, !HalRead E} : HalRead (E * G).
Proof.
  split; intros h len t [e g] rc bs [e' g'] H; cbn in H; unfold beside in H;
    destruct (HAL_SSL_Read h len t e) as [[rc1 bs1] e1] eqn:Hr; injection H as <- <- <- <-.
  - exact (hal_read_bytes _ _ _ _ _ _ _ Hr).
  - exact (hal_read_count _ _ _ _ _ _ _ Hr).
Qed.

Section Update.
Context {E : Type} `{!Hal E, !HalRead E, !HalStack E, !OtaSignal E, !Ucp E, !UcpStorage E}.
Variable crt : option (list Z).
Notation W := (E * dm_vars)%type.
#[local] Existing Instance md5_ops.
#[local] Existing Instance md5_spec.

(** The variables and the storage stay. *)
Definition apart (w w' : W) : Prop :=
  snd w' = snd w /\ ucp_pending (fst w') = ucp_pending (fst w) /\ ucp_image (fst w') = ucp_image (fst w).

#[export] Instance apart_keeps : HalKeeps apart.
Proof.
  assert (forall A (f : E -> A * E) w,
    ucp_pending (snd (f (fst w))) = ucp_pending (fst w) /\ ucp_image (snd (f (fst w))) = ucp_image (fst w) ->
    apart w (snd (beside (G := dm_vars) f w))) as Hb.
  { intros A f [e g]. unfold beside, apart. cbn [fst snd]. by destruct (f e). }
  split.
  - split; [by intros w|]. intros w1 w2 w3 (H1 & H2 & H3) (H4 & H5 & H6). repeat split; congruence.
  - intros w. apply Hb, (keeps_uptime (HalKeeps := ucp_apart)).
  - intros n w. split; [done|]. apply (keeps_sleep (HalKeeps := ucp_apart)).
  - intros n w. apply Hb, (keeps_malloc (HalKeeps := ucp_apart)).
  - intros host port c n w. apply Hb, (keeps_establish (HalKeeps := ucp_apart)).
  - intros h w. split; [done|]. apply (keeps_destroy (HalKeeps := ucp_apart)).
  - intros h n t w. apply Hb, (keeps_read (HalKeeps := ucp_apart)).
  - intros h bs t w. apply Hb, (keeps_write (HalKeeps := ucp_apart)).
  - intros c topic qos msg w. apply Hb, (keeps_publish (HalKeeps := ucp_apart)).
Qed.

(** ** The state of an update *)

(** What the options and the reports do not change. *)
Definition core (h : OTA) : list Z * Z * Z * option hash_context * Z :=
  (md5sum h, size_file h, size_fetched h, md5 h, state h).

(** The handle is [g] in that respect; the image is [image]; the writer is prepared when
    [st] is 1, and has then been given [m]. *)
Definition holds (g : OTA) (image : option (list Z)) (st : Z) (m : list Z) (w : W) : Prop :=
  (exists h, ota_handle (snd w) = Some h /\ core h = core g)
  /\ ucp_image (fst w) = image /\ mbedbl_status (snd w) = st /\ (st = 1 -> ucp_pending (fst w) = m).

Lemma with_handle_ok {A} (f : OTA -> eff W (A * OTA)) g image st m (Q : A -> OTA -> Prop) w :
  holds g image st m w -> (forall h, keeps apart (f h)) ->
  (forall h, core h = core g -> ensures (f h) (fun '(a, h') _ => Q a h') w) ->
  ensures (with_handle f) (fun a w' => exists g', Q a g' /\ holds g' image st m w') w.
Proof.
  intros ([h [Hh Hc]] & Hi & Hs & Hp) Hk Hf. unfold with_handle.
  apply ensures_bind. intros v w1 [= <- <-]. rewrite Hh. apply ensures_bind, ensures_lift. intros ? [= <-].
  eapply ensures_bind'; [apply ensures_and; [apply Hk|apply (Hf h Hc)]|]. intros [a h'] w2 [(H1 & H2 & H3) HQ].
  apply ensures_bind. intros [] w3 [= <-]. apply ensures_ret. exists h'. split; [done|].
  split; [by exists h'|]. cbn [fst snd]. split; [congruence|]. split; [by rewrite <-Hs, <-H1|].
  intros Hst. rewrite H2. by apply Hp.
Qed.

(** A call that keeps the core keeps what holds. *)
Lemma with_handle_core {A} (f : OTA -> eff W (A * OTA)) g image st m w :
  holds g image st m w -> (forall h, keeps apart (f h)) ->
  (forall h, ensures (f h) (fun '(_, h') _ => core h' = core h) w) ->
  ensures (with_handle f) (fun _ w' => holds g image st m w') w.
Proof.
  intros Hw Hk Hf. eapply ensures_mono; [apply (with_handle_ok f g image st m (fun _ g' => core g' = core g))|].
  - done.
  - done.
  - intros h Hc. eapply ensures_mono; [apply Hf|]. intros [a h'] w' H. congruence.
  - intros a w' (g' & Hg & (h & Hh & Hc) & Hrest). split; [exists h; split; [done|congruence]|done].
Qed.

(** ** The steps of the loop *)

Lemma report_progress_holds g image st m p w :
  holds g image st m w -> ensures (report_progress p) (fun _ w' => holds g image st m w') w.
Proof.
  intros Hw. apply with_handle_core; [done| |].
  - intros h. unfold report_progress. pose proof (keeps_report (Cb := dm_event) apart). keeps.
  - intros h. eapply ensures_bind'; [apply report_same|]. intros [r h'] w' [x ->]. by apply ensures_ret.
Qed.

(** Options that only read. *)
Definition reading (cmd : IOT_OTA_CmdType_t) : bool :=
  match cmd with
  | IOT_OTAG_CHECK_FIRMWARE | IOT_OTAG_CHECK_CONFIG | IOT_OTAG_RESET_FETCHED_SIZE | IOT_OTAG_RESET_STATE => false
  | _ => true
  end.

Lemma ioctl_reading (h : OTA) cmd b n w :
  reading cmd = true -> ensures (IOT_OTA_Ioctl h cmd b n) (fun '(_, h', _) (_ : W) => core h' = core h) w.
Proof.
  intros Hcmd. unfold IOT_OTA_Ioctl. destruct b as [b|]; [|by apply ensures_ret].
  destruct (n =? 0); [by apply ensures_ret|]. destruct (_ <? _); [by apply ensures_ret|].
  eapply (ensures_bind' _ _ (fun '(_, h', _) _ => core h' = core h)).
  2: { intros [[r h'] b'] w' Hc. by apply ensures_ret. }
  destruct cmd; try done; unfold ota_get_str, ota_get_u32, ota_get_arr.
  all: repeat match goal with
    | |- ensures (match ?x with _ => _ end) _ _ => destruct x
    | |- ensures (mret _) _ _ => by apply ensures_ret
    | |- ensures eff_fail _ _ => apply ensures_fail
    | |- ensures (_ ≫= _) _ _ => apply ensures_skip; intros ? ?
    end.
Qed.

Lemma ioctl_u32_holds g image st m cmd n w :
  reading cmd = true -> holds g image st m w ->
  ensures (ioctl_u32 cmd n) (fun _ w' => holds g image st m w') w.
Proof.
  intros Hcmd Hw. apply with_handle_core; [done| |]; intros h.
  - pose proof (keeps_ioctl (Cb := dm_event) apart). keeps.
  - eapply ensures_bind'; [by apply ioctl_reading|]. intros [[r h'] b] w' Hc.
    destruct b as [[]|]; try apply ensures_fail. by apply ensures_ret.
Qed.

Lemma reset_state_holds g image st m w :
  holds g image st m w ->
  ensures (ioctl_do IOT_OTAG_RESET_STATE None 0) (fun _ w' => holds g image st m w') w.
Proof.
  intros Hw. apply with_handle_core; [done| |]; intros h.
  - pose proof (keeps_ioctl (Cb := dm_event) apart). keeps.
  - by apply ensures_bind, ensures_ret, ensures_ret.
Qed.

(** What does not touch the variables and the storage. *)
Lemma apart_holds {A} (f : eff W A) g image st m w :
  holds g image st m w -> keeps apart f -> ensures f (fun _ w' => holds g image st m w') w.
Proof.
  intros ((h & Hh & Hc) & Hi & Hs & Hp) Hk. eapply ensures_mono; [apply Hk|]. intros a w' (H1 & H2 & H3).
  unfold holds. rewrite H1, H2, H3. split; [by exists h|done].
Qed.

Lemma report_download_holds g image st m p r w :
  holds g image st m w -> ensures (report_download p r) (fun _ w' => holds g image st m w') w.
Proof.
  intros Hw. unfold report_download.
  eapply ensures_bind'; [by apply (ioctl_u32_holds g image st m)|]. cbv beta. intros fd w1 H1.
  eapply ensures_bind'; [by apply (ioctl_u32_holds g image st m)|]. cbv beta. intros fs w2 H2.
  apply ensures_bind, ensures_lift. intros pn _.
  eapply ensures_bind'; [by apply (apart_holds _ g image st m); [|apply (keeps_clock apart)]|].
  cbv beta. intros now w3 H3. cbv zeta. destruct (_ || _); [|by apply ensures_ret].
  eapply ensures_bind'; [by apply (report_progress_holds g image st m)|]. intros [] w4 H4. by apply ensures_ret.
Qed.

Lemma fetch_step g image st m p (output : list Z) n w :
  holds g image st p w -> fetched g m -> size_fetched g < 2147483648 ->
  bytes_ok output -> mlen output < 2147483648 ->
  ensures (fetch_yield crt output n)
    (fun '(ret, out) w' => bytes_ok out /\ mlen out = mlen output
       /\ exists g', yielded g m ret g' out /\ holds g' image st p w') w.
Proof.
  intros Hw Hf Hsz Hb Hl. eapply ensures_mono; [apply (with_handle_ok _ g image st p
    (fun '(ret, out) g' => bytes_ok out /\ mlen out = mlen output /\ yielded g m ret g' out)); [done| |]|].
  - intros h. pose proof (keeps_fetch_yield (Cb := dm_event) apart crt). keeps.
  - intros h [= Hsum Hfile Hcount Hmd Hst].
    assert (fetched h m) as Hh by (unfold fetched, fed; by rewrite Hcount, Hmd).
    eapply ensures_bind'; [apply (fetch_yield_ok crt h m); [done|by rewrite Hcount|done|done]|].
    intros [[ret h'] out] w' (H1 & H2 & H3). apply ensures_ret. split; [done|]. split; [done|].
    unfold yielded, same_file in *. by rewrite <-Hsum, <-Hfile.
  - intros [ret out] w' (g' & (H1 & H2 & H3) & Hg). split; [done|]. split; [done|]. by exists g'.
Qed.

Lemma get_handle_some g image st m w :
  holds g image st m w -> dm_ota_get_ota_handle w = Some (SUCCESS_RETURN, w).
Proof.
  intros ((h & Hh & _) & _). unfold dm_ota_get_ota_handle, vars, mbind, eff_bind. by rewrite Hh.
Qed.

Lemma prepare_ok g image w :
  holds g image 0 [] w -> ensures prepare_write (fun ret w' => ret = 0 -> holds g image 1 [] w') w.
Proof.
  intros Hw. unfold prepare_write. apply ensures_bind. eapply ensures_run; [by eapply get_handle_some|].
  change (negb (SUCCESS_RETURN =? SUCCESS_RETURN)) with false. cbv iota.
  eapply ensures_bind'; [apply (with_handle_core _ g image 0 []); [done| |]|].
  - intros h. pose proof (keeps_ioctl (Cb := dm_event) apart). keeps.
  - intros h. eapply ensures_bind'; [by apply ioctl_reading|]. intros [[r h'] b] w' Hc.
    destruct b as [[]|]; try apply ensures_fail. by apply ensures_ret.
  - intros [r n] w1 H1. cbv beta in H1. destruct (negb _); [by apply ensures_ret|].
    eapply ensures_bind'; [apply (with_handle_core _ g image 0 []); [done| |]|].
    + intros h. pose proof (keeps_ioctl (Cb := dm_event) apart). keeps.
    + intros h. eapply ensures_bind'; [by apply ioctl_reading|]. intros [[r' h'] b] w' Hc.
      destruct b as [[]|]; try apply ensures_fail. by apply ensures_ret.
    + intros [r' a] [e v] (Hh & Hi & Hs & _). destruct (negb _); [by apply ensures_ret|].
      apply ensures_bind, ensures_lift. intros ver _. apply ensures_bind, ensures_plat. unfold beside.
      cbn [fst snd] in *. pose proof (ucp_prepare ver (i32 n) e) as Hu.
      destruct (MBEDBL_UCP_PrepareWrite ver (i32 n) e) as [rc e']. cbn [fst snd].
      destruct (Z.eqb_spec rc 0) as [Hrc|Hrc]; [|by apply ensures_ret]. cbn [negb].
      apply ensures_bind. intros [] w3 [= <-]. apply ensures_ret. intros _. destruct Hu as [Hu1 Hu2].
      split; [exact Hh|]. split; [by rewrite <-Hi|]. split; [|intros _; by apply Hu2].
      change (Z.lor (mbedbl_status v) MBEDBL_UCP_WRITE_PREPARED = 1). by rewrite Hs.
Qed.

(** A write that does not fail adds its bytes, the first one to nothing. *)
Lemma write_step g image st m (buffer : list Z) n w :
  holds g image st m w -> (st = 0 /\ m = [] \/ st = 1) ->
  ensures (HAL_Firmware_Persistence_Write buffer n)
    (fun ret w' => 0 <= ret -> 0 <= n <= mlen buffer /\ holds g image 1 (m ++ take (Z.to_nat n) buffer) w') w.
Proof.
  intros Hw Hst. unfold HAL_Firmware_Persistence_Write. apply ensures_bind. intros v w0 [= <- <-].
  eapply (ensures_bind' _ _ (fun ret w' => ret = 0 -> holds g image 1 m w')).
  { destruct (Hw) as (_ & _ & -> & _). destruct Hst as [[-> ->]| ->]; [by apply prepare_ok|by apply ensures_ret]. }
  intros ret w1 H1. destruct (Z.eqb_spec ret 0) as [->|]; [|apply ensures_ret; lia]. cbn [negb].
  specialize (H1 eq_refl). apply ensures_bind, ensures_lift. intros bs. case_match eqn:Hc; [done|].
  intros [= <-]. apply orb_false_iff in Hc as [[_ Hn]%orb_false_iff Hl]. apply Z.ltb_ge in Hn, Hl.
  destruct w1 as [e1 v1], H1 as (Hh & Hi & Hs & Hp). apply ensures_bind, ensures_plat. unfold beside.
  cbn [fst snd] in *. rewrite drop_0. set (bs := take (Z.to_nat n) buffer).
  pose proof (ucp_write bs e1) as Hu. destruct (MBEDBL_UCP_Write bs e1) as [rc e2]. cbn [fst snd].
  destruct (Z.eqb_spec rc 0) as [Hrc|Hrc]; cbn [negb].
  2: { apply ensures_bind. intros [] w3 [= <-]. apply ensures_ret. lia. }
  apply ensures_ret. intros _. split; [unfold mlen; lia|]. destruct Hu as [Hu1 Hu2].
  split; [exact Hh|]. split; [by rewrite <-Hi|]. split; [exact Hs|]. intros _. cbn [fst].
  rewrite (Hu2 Hrc). by rewrite Hp.
Qed.

(** The text of the MD5 of some bytes, as the check computes it. *)
Definition md5_text (m : list Z) : list Z := hex_text (Rfc.md5 m) ++ [0].

Lemma digest_bit sum text n : digest_same sum text = Some n -> n = 0 \/ n = 1.
Proof.
  unfold digest_same. destruct (arr_str sum); [|done]. destruct (arr_str text); [|done].
  cbn [mbind option_bind]. case_bool_decide; intros [= <-]; auto.
Qed.

Lemma check_step g image st p m w :
  holds g image st p w -> fed g m -> mlen m < 2305843009213693952 -> state g = IOT_OTAS_FETCHED ->
  ensures (ioctl_u32 IOT_OTAG_CHECK_FIRMWARE 0)
    (fun n w' => digest_same (md5sum g) (md5_text m) = Some n /\ exists g', holds g' image st p w') w.
Proof.
  intros Hw (c & Hc & Hg) Hl Hst. eapply ensures_mono; [apply (with_handle_ok _ g image st p
    (fun n _ => digest_same (md5sum g) (md5_text m) = Some n)); [done| |]|].
  - intros h. pose proof (keeps_ioctl (Cb := dm_event) apart). keeps.
  - intros h [= Hsum Hfile Hcount Hmd Hh]. unfold IOT_OTA_Ioctl. cbn [Z.eqb]. rewrite Hh, Hst.
    change (IOT_OTAS_FETCHED <? IOT_OTAS_PUSHED) with false. cbv iota. unfold check_firmware.
    change (negb (4 =? 4)) with false. rewrite Hh, Hst. change (negb (IOT_OTAS_FETCHED =? IOT_OTAS_FETCHED)) with false.
    cbv iota. apply ensures_bind, ensures_bind, ensures_bind.
    destruct (@finish_given _ md5_ops _ _ md5_spec c m Hg Hl) as (c1 & Hfin).
    apply (ensures_run _ _ _ (c1, md5_text m) w).
    { unfold otalib_MD5Finalize. rewrite Hmd, Hc. unfold mbind, eff_bind, eff_lift.
      change (utils_md5_finish c) with (hash_finish c). by rewrite Hfin. }
    cbv zeta. apply ensures_bind, ensures_lift. intros same.
    match goal with |- context [md5sum ?x] => change (md5sum x) with (md5sum h) end. rewrite Hsum. intros Hsame.
    destruct (digest_bit _ _ _ Hsame) as [->| ->]; cbn [Z.eqb].
    + eapply ensures_bind'; [apply report_same|]. intros [r h'] w' [x ->]. by repeat apply ensures_ret.
    + by repeat apply ensures_ret.
  - intros n w' (g' & H1 & H2). split; [done|]. by exists g'.
Qed.

(** The image of the bootloader when it finalises [m] over [image]: [m], unless it reports
    an error. *)
Definition finalised (m : list Z) (image : option (list Z)) (e' : E) : Prop :=
  exists e, ucp_image e' = (if fst (MBEDBL_UCP_FinalizeWrite e) =? 0 then Some m else image).

Lemma fota_end_ok g image m ret output w :
  holds g image 1 m w ->
  ensures (fota_end ret output) (fun '(r, _) w' => r = ret /\ finalised m image (fst w')) w.
Proof.
  intros ((h & Hh & _) & Hi & Hs & Hp). unfold fota_end, HAL_Firmware_Persistence_Stop.
  apply ensures_bind, ensures_bind. intros v w0 [= <- <-]. rewrite Hs. cbn [negb].
  change (negb (flag_set 1 MBEDBL_UCP_WRITE_PREPARED)) with false.
  change (flag_set 1 MBEDBL_UCP_WRITE_FAILED) with false. cbv iota. destruct w as [e v]. cbn [fst snd] in *.
  apply ensures_bind, ensures_plat. unfold beside. pose proof (ucp_finalize e) as Hu.
  destruct (MBEDBL_UCP_FinalizeWrite e) as [rc e1] eqn:He. cbn [fst snd]. apply ensures_ret.
  apply ensures_bind. intros [] w1 [= <-]. apply ensures_ret. split; [done|]. exists e. cbn [fst].
  destruct Hu as [_ ->]. by rewrite He, Hp, Hi.
Qed.

(** How an update of [h0] that came to a check ends: the bytes given to the bootloader, in
    number at least those announced, with the verdict [ok] on their MD5. *)
Definition checked (h0 : OTA) (image : option (list Z)) (ok : bool) (e' : E) : Prop :=
  exists m, bytes_ok m /\ size_file h0 <= mlen m
    /\ digest_same (md5sum h0) (md5_text m) = Some (if ok then 1 else 0)
    /\ finalised m image e'.

Definition verdict (h0 : OTA) (image : option (list Z)) (ret : Z) (e' : E) : Prop :=
  (ret = SUCCESS_RETURN -> checked h0 image true e')
  /\ (ret = STATE_DEV_MODEL_OTA_IMAGE_CHECK_FAILED -> checked h0 image false e').

Lemma finish_step g image st m w :
  holds g image st m w ->
  ensures (with_handle (fun h => mret (IOT_OTA_IsFetchFinish h)))
    (fun fin w' => fin = (if state g =? IOT_OTAS_FETCHED then 1 else 0) /\ holds g image st m w') w.
Proof.
  intros Hw. eapply ensures_mono; [apply (with_handle_ok _ g image st m
    (fun fin g' => fin = (if state g =? IOT_OTAS_FETCHED then 1 else 0) /\ core g' = core g)); [done| |]|].
  - intros h. keeps.
  - intros h Hc. apply ensures_ret. pose proof Hc as [= _ _ _ _ Hst]. unfold IOT_OTA_IsFetchFinish.
    destruct (Z.eqb_spec (state h) IOT_OTAS_UNINITED) as [Hu|Hu]; [|by rewrite Hst].
    split; [|done]. by rewrite <-Hst, Hu.
  - intros fin w' (g' & [H1 H2] & (h & Hh & Hc) & Hrest). split; [done|].
    split; [exists h; split; [done|congruence]|done].
Qed.

Lemma fota_loop_ok h0 image n : forall g st m output len retry p r w,
  holds g image st m w -> (st = 0 /\ m = [] \/ st = 1) -> same_file h0 g -> fetched g m ->
  size_fetched g < 2147483648 -> size_file h0 < 2147483648 -> bytes_ok output -> mlen output < 2147483648 ->
  ensures (fota_loop crt n output len retry p r) (fun '(ret, _) w' => verdict h0 image ret (fst w')) w.
Proof.
  induction n as [|n IH]; intros g st m output len retry p r w Hw Hst Hsame Hf Hsz Hfile Hb Hl;
    cbn [fota_loop]; [apply ensures_fail|].
  assert (forall ret out w', ret <> SUCCESS_RETURN -> ret <> STATE_DEV_MODEL_OTA_IMAGE_CHECK_FAILED ->
    ensures (fota_end ret out) (fun '(ret, _) w' => verdict h0 image ret (fst w')) w') as Hother.
  { intros ret out w' H1 H2. unfold fota_end. apply ensures_skip. intros ? w1. apply ensures_skip.
    intros ? w2. apply ensures_ret. by split. }
  eapply ensures_bind'; [by apply (fetch_step g image st m m)|]. cbv beta.
  intros [ret out] w1 (Hbo & Hlo & g1 & (Hs1 & Hneg & Hpos) & Hw1).
  assert (same_file h0 g1) as Hsame1 by (destruct Hsame, Hs1; split; congruence).
  destruct (Z.ltb_spec ret 0) as [Hr|Hr].
  { apply ensures_bind. intros v w2 [= <- <-]. destruct (dm_opt_get _ _ _) as [res rmax].
    destruct (_ && _).
    - apply ensures_skip. intros ? w3. apply ensures_skip. intros ? w4. by apply Hother.
    - eapply ensures_bind'; [by apply (apart_holds _ g1 image st m); [|apply (keeps_sleep_act apart)]|].
      cbv beta. intros ? w3 Hw3. specialize (Hneg Hr). apply (IH g1 st m); try done; [|lia].
      destruct Hneg as [-> _], Hf as [<- _]. done. }
  eapply ensures_bind'; [by apply (write_step g1 image st m)|]. cbv beta. intros ret2 w2 Hw2.
  destruct (Z.ltb_spec ret2 0) as [Hr2|Hr2].
  { apply ensures_skip. intros ? w3. apply ensures_skip. intros ? w4. by apply Hother. }
  destruct (Hw2 Hr2) as [Hn Hw2']. clear Hw2. destruct (Hpos Hn) as (Hf1 & Hfed & Hdone).
  set (m1 := m ++ take (Z.to_nat ret) out) in *.
  eapply ensures_bind'; [by apply (report_download_holds g1 image 1 m1)|]. cbv beta. intros [p' r'] w3 Hw3.
  eapply ensures_bind'; [by apply (finish_step g1 image 1 m1)|]. cbv beta. intros fin w4 [-> Hw4].
  destruct (Z.eqb_spec (state g1) IOT_OTAS_FETCHED) as [Hend|Hend].
  - change (1 =? 1) with true. cbv iota. symmetry in Hdone. apply Z.leb_le in Hdone.
    pose proof Hsame1 as [Hsum Hsize]. destruct Hf1 as (Hcount & _ & Hbm).
    assert (mlen m1 < 4294967296) as Hm1.
    { destruct Hf as (Hc0 & _). unfold m1, mlen in *. rewrite length_app, length_take. lia. }
    eapply ensures_bind'; [by apply (check_step g1 image 1 m1 m1); [| |lia|]|]. cbv beta.
    intros valid w5 [Hdig (g2 & Hw5)].
    assert (forall ok e', valid = (if ok : bool then 1 else 0) -> finalised m1 image e' ->
      checked h0 image ok e') as Hchk.
    { intros ok e' -> Hfin. exists m1. rewrite <-Hsum, <-Hsize. split; [done|]. split; [lia|]. done. }
    destruct (digest_bit _ _ _ Hdig) as [->| ->].
    + change (0 =? 0) with true. cbv iota.
      eapply ensures_bind'; [by apply (report_progress_holds g2 image 1 m1)|]. cbv beta. intros ? w6 Hw6.
      eapply ensures_bind'; [by apply (reset_state_holds g2 image 1 m1)|]. cbv beta. intros ? w7 Hw7.
      eapply ensures_mono; [by apply (fota_end_ok g2 image m1)|]. intros [ret3 out3] w8 [-> Hfin].
      split; [done|]. intros _. by apply (Hchk false).
    + change (1 =? 0) with false. cbv iota.
      eapply ensures_mono; [by apply (fota_end_ok g2 image m1)|]. intros [ret3 out3] w8 [-> Hfin].
      split; [|done]. intros _. by apply (Hchk true).
  - change (0 =? 1) with false. cbv iota. symmetry in Hdone. apply Z.leb_gt in Hdone.
    destruct Hsame1 as [? Hsize]. apply (IH g1 1 m1); [done|by right|by split|done|lia|done|done|lia].
Qed.

(** ** The whole update *)

Lemma type_step g image st m w :
  holds g image st m w ->
  ensures (ioctl_u32 IOT_OTAG_OTA_TYPE IOT_OTAT_NONE)
    (fun n w' => (n = IOT_OTAT_FOTA -> IOT_OTAS_PUSHED <= state g) /\ holds g image st m w') w.
Proof.
  intros Hw. eapply ensures_mono; [apply (with_handle_ok _ g image st m
    (fun n g' => (n = IOT_OTAT_FOTA -> IOT_OTAS_PUSHED <= state g) /\ core g' = core g)); [done| |]|].
  - intros h. pose proof (keeps_ioctl (Cb := dm_event) apart). keeps.
  - intros h Hc. pose proof Hc as [= _ _ _ _ Hst]. unfold IOT_OTA_Ioctl. cbn [Z.eqb]. rewrite <-Hst.
    destruct (Z.ltb_spec (state h) IOT_OTAS_PUSHED) as [Hlt|Hge].
    + by apply ensures_bind, ensures_ret, ensures_ret.
    + unfold ota_get_u32. change (negb (4 =? 4)) with false. cbv iota. by apply ensures_bind, ensures_bind, ensures_ret,
        ensures_ret, ensures_ret.
  - intros n w' (g' & [H1 H2] & (h & Hh & Hc) & Hrest). split; [done|].
    split; [exists h; split; [done|congruence]|done].
Qed.

Lemma reset_step g image st m w :
  holds g image st m w -> IOT_OTAS_PUSHED <= state g ->
  ensures (ioctl_do IOT_OTAG_RESET_FETCHED_SIZE (Some BufOther) 4)
    (fun _ w' => exists g', same_file g g' /\ size_fetched g' = 0 /\ holds g' image st m w') w.
Proof.
  intros Hw Hst. eapply ensures_mono; [apply (with_handle_ok _ g image st m
    (fun _ g' => same_file g g' /\ size_fetched g' = 0)); [done| |]|].
  - intros h. pose proof (keeps_ioctl (Cb := dm_event) apart). keeps.
  - intros h [= Hsum Hfile _ _ Hs]. unfold IOT_OTA_Ioctl. cbn [Z.eqb].
    destruct (Z.ltb_spec (state h) IOT_OTAS_PUSHED); [lia|]. by apply ensures_bind, ensures_bind, ensures_ret,
        ensures_ret, ensures_ret.
  - intros ? w' (g' & [H1 H2] & H3). by exists g'.
Qed.

Lemma perform_verdict turns output output_len e v h :
  ota_handle v = Some h -> size_file h < 2147483648 -> bytes_ok output -> mlen output < 2147483648 ->
  ensures (dm_fota_perform_sync crt turns output output_len)
    (fun '(ret, _) w' => verdict h (ucp_image e) ret (fst w')) (e, v).
Proof.
  intros Hh Hsz Hb Hl.
  assert (holds h (ucp_image e) (mbedbl_status v) (ucp_pending e) (e, v)) as Hw by (split; [by exists h|done]).
  unfold dm_fota_perform_sync. destruct (_ <=? 0); [by apply ensures_ret|].
  apply ensures_bind. eapply ensures_run; [by eapply get_handle_some|].
  change (negb (SUCCESS_RETURN =? SUCCESS_RETURN)) with false. cbv iota.
  eapply ensures_bind'; [apply (type_step h _ _ _ _ Hw)|]. cbv beta. intros n w1 [Hn H1].
  destruct (Z.eqb_spec n IOT_OTAT_FOTA) as [->|]; [|by apply ensures_ret]. cbn [negb].
  eapply ensures_bind'; [by apply (reset_step h _ _ _ _ H1), Hn|]. cbv beta.
  intros ? w2 (g & Hg & Hz & (H2 & H3 & _)).
  apply ensures_bind. intros [] w3 [= <-].
  apply (fota_loop_ok h (ucp_image e) turns g 0 []); [|by left|done| |by rewrite Hz|done|done|done].
  - split; [exact H2|]. split; [exact H3|]. split; [done|lia].
  - split; [by rewrite Hz|]. split; [by left|by apply Forall_nil].
Qed.
End Update.

(** ** The text of a digest *)

Lemma hex_char_cstr b : 0 < infra_hex2char b < 256.
Proof.
  unfold infra_hex2char. pose proof (Z.land_nonneg b 15). assert (0 <= Z.land b 15 <= 15) as H1.
  { split; [apply Z.land_nonneg; lia|]. change 15 with (Z.ones 4). rewrite Z.land_ones by lia.
    pose proof (Z.mod_pos_bound b (2 ^ 4)). change (2 ^ 4) with 16 in *. change (Z.ones 4) with 15. lia. }
  unfold s8. destruct (_ <? 10) eqn:Hc; [apply Z.ltb_lt in Hc|apply Z.ltb_ge in Hc].
  all: rewrite Z.mod_small by lia; destruct (_ <? 128) eqn:Hd; [lia|apply Z.ltb_ge in Hd; lia].
Qed.

Lemma hex_text_cstr b : cstr_ok (hex_text b).
Proof.
  induction b as [|x b IH]; [by apply Forall_nil|]. cbn [hex_text flat_map app].
  do 2 (apply Forall_cons; split; [apply hex_char_cstr|]). exact IH.
Qed.
