(* ===== verification/OtaLive.v ===== *)
(** * OtaLive: an update that is served arrives

    On a network that connects and takes what it is given, with memory and a bootloader
    that works, a firmware that was announced is fetched from a server that sends it,
    stored and committed, and the update reports success. *)

From S2P Require Import Prelude.
From S2P Require Import CString.
From S2P Require Import InfraHash.
From S2P Require Import InfraSha256.
From S2P Require Import InfraMd5.
From S2P Require Import Hal.
From S2P Require Import InfraState.
From S2P Require Import InfraNet.
From S2P Require Import Json.
From S2P Require Import Eff.
From S2P Require Import InfraHttpc.
From S2P Require Import HttpSpec.
From S2P Require Import OtaLib.
From S2P Require Import IotxOta.
From S2P Require Import DmOta.
From S2P Require Import OtaSafety.
From S2P Require Import OtaUpdate.

(** The MQTT interface does not use the connection of the download. *)
Class SignalApart (E : Type) `{!Hal E, !HalStream E, !OtaSignal E} :=
  publish_apart c topic qos msg e : let e' := snd (IOT_MQTT_Publish c topic qos msg e) in
    out_of e' = out_of e /\ in_of e' = in_of e.

(** A bootloader whose functions succeed, and do not use the connection. *)
Class UcpWorks (E : Type) `{!Hal E, !HalStream E, !Ucp E} := {
  works_prepare v n e : fst (MBEDBL_UCP_PrepareWrite v n e) = 0;
  works_write bs e : fst (MBEDBL_UCP_Write bs e) = 0;
  works_finalize e : fst (MBEDBL_UCP_FinalizeWrite e) = 0;
  prepare_apart v n e : same e (snd (MBEDBL_UCP_PrepareWrite v n e));
  write_apart bs e : same e (snd (MBEDBL_UCP_Write bs e));
  finalize_apart e : same e (snd (MBEDBL_UCP_FinalizeWrite e))
}.

(** ** The laws beside further state *)

Section Beside.
Context {E G : Type} `{!Hal E, !HalStream E}.

#[global, refine] Instance stream_beside : HalStream (E * G) :=
  {| out_of w := out_of (fst w); in_of w := in_of (fst w) |}.
Proof.
  - intros [e g]. cbn. unfold beside. pose proof (stream_uptime e). by destruct (HAL_UptimeMs e).
  - intros n [e g]. cbn. unfold beside. pose proof (stream_malloc n e). by destruct (HAL_Malloc n e).
  - intros host port crt n [e g]. cbn. unfold beside. pose proof (stream_establish host port crt n e).
    by destruct (HAL_SSL_Establish host port crt n e).
  - intros h bs t [e g]. cbn. unfold beside. pose proof (stream_write h bs t e).
    by destruct (HAL_SSL_Write h bs t e).
  - intros h len t [e g] Hl. cbn. unfold beside. destruct (stream_read h len t e Hl) as (e' & -> & H1 & H2).
    by exists (e', g).
Defined.

#[global] Instance online_beside `{!HalOnline E} : HalOnline (E * G).
Proof.
  split.
  - intros host port crt n [e g]. cbn. unfold beside. pose proof (online_establish host port crt n e).
    by destruct (HAL_SSL_Establish host port crt n e).
  - intros h bs t [e g]. cbn. unfold beside. pose proof (online_write h bs t e). by destruct (HAL_SSL_Write h bs t e).
Qed.

#[global] Instance memory_beside `{!HalMemory E} : HalMemory (E * G).
Proof. split. intros n [e g]. cbn. unfold beside. pose proof (hal_malloc_ok n e). by destruct (HAL_Malloc n e). Qed.

#[global] Instance signal_apart_beside `{!OtaSignal E, !SignalApart E} : SignalApart (E * G).
Proof.
  intros c topic qos msg [e g]. cbn. unfold beside. pose proof (publish_apart c topic qos msg e).
  by destruct (IOT_MQTT_Publish c topic qos msg e).
Qed.
End Beside.

(** ** A piece of the download *)

Section Fetching.
Context {E : Type} `{!Hal E, !HalStream E, !HalOnline E, !HalMemory E, !OtaSignal E, !SignalApart E} {Cb : Type}.
Variable crt : option (list Z).
Notation OTA := (OTA_Struct_t Cb).
Notation CH := (wrapper_http_handle_t ota_http_response_t).

(** What is asked for, and what the server sends: a head of [s] and [r], and the file. *)
Variables (host path header s r file : list Z).
Notation n := (Z.of_nat (List.length file)).
Hypothesis Hhead : head_ok s r n.
Notation request := (request_head HTTPCLIENT_GET host path (Some header) None None).
Hypothesis Hrequest : (List.length request < 1024)%nat.

(** A download after [d] bytes: not begun, or with the rest to come. *)
Definition channel (h : CH) (d : nat) (e : E) : Prop :=
  (exists url, hh_url h = Some url /\ _utils_parse_url url = Some (STATE_SUCCESS, (host, path)))
  /\ hh_method h = IOTX_HTTP_GET
  /\ (d = O /\ hh_header h = Some header /\ handle (net (hh_client h)) = 0 /\ is_more (http_client_data h) = false /\ already_received h = 0
      /\ in_of e = s ++ CRLF ++ r ++ file
      \/ (0 < d < List.length file)%nat /\ in_transfer h n (Z.of_nat d) true /\ in_of e = drop d file).

Lemma fetch_takes N D (b0 : list Z) c :
  List.length b0 = Z.to_nat N -> Z.of_nat (List.length D) <= N -> payload c = b0 -> alread_download c = 0 ->
  payload_len c = N ->
  takes _ota_fetch_callback N n D c
    (c <| payload := D ++ drop (List.length D) b0 |> <| alread_download := Z.of_nat (List.length D) |>).
Proof.
  destruct c as [p a l]. cbn [payload alread_download payload_len]. intros Hb0 HD -> -> -> b [rest ->] Hb.
  unfold _ota_fetch_callback. cbn [payload alread_download payload_len]. rewrite Z.add_0_l.
  rewrite (proj2 (Z.ltb_ge _ _)) by lia. unfold store_piece.
  rewrite (proj2 (Z.ltb_ge _ 0)), (proj2 (Z.ltb_ge _ (Z.of_nat (List.length D)))) by (rewrite ?length_app; lia).
  rewrite (proj2 (Z.ltb_ge (Z.of_nat (List.length b0)) _)) by lia. cbn [orb mbind option_bind Z.ltb Z.compare].
  change (Z.to_nat 0) with 0%nat. rewrite Nat2Z.id, take_app_length, take_0. done.
Qed.

(** The state of the download behind a piece of [N - 1] bytes. *)
Lemma ofc_fetch_runs (c : otahttp_Struct_t) d N (buf : list Z) (e : E) :
  channel (http_handle c) d e -> (d < List.length file)%nat -> 34 <= N < 2147483648 ->
  List.length buf = Z.to_nat N ->
  let D := take (Z.to_nat (N - 1)) (drop d file) in
  runs (ofc_Fetch c buf N 1)
    (fun '(ret, c', buf') e' =>
       ret = Z.of_nat (List.length D) /\ (exists rest, buf' = D ++ rest)
       /\ ((d + List.length D < List.length file)%nat -> channel (http_handle c') (d + List.length D) e')
       /\ out_of e' = out_of e ++ (if decide (d = O) then request else [])) e.
Proof.
  intros (Hurl & Hm & Hch) Hd HN Hbuf D. unfold ofc_Fetch.
  assert (i32 N = N) as HiN by (unfold i32; rewrite Z.mod_small by lia; by rewrite (proj2 (Z.ltb_lt _ _)) by lia).
  apply runs_bind, runs_store; [lia|unfold zeros; rewrite length_replicate; lia|].
  set (b0 := _ ++ _ ++ _). assert (List.length b0 = Z.to_nat N) as Hb0.
  { unfold b0. rewrite !length_app, length_take, length_drop. unfold zeros. rewrite length_replicate. lia. }
  cbv zeta. rewrite HiN. change (i32 (1 * 1000)) with 1000. unfold wrapper_http_setopt.
  change (1000 <? 0) with false. cbv iota. do 4 apply runs_bind, runs_ret.
  set (resp := OtaResponse b0 0 N).
  match goal with |- runs (wrapper_http_perform ?x _ _ ≫= _) _ _ => set (h := x) end.
  set (resp' := resp <| payload := D ++ drop (List.length D) b0 |> <| alread_download := Z.of_nat (List.length D) |>).
  assert (options h host path N _ota_fetch_callback resp) as Hopt by (by split).
  assert (List.length D <= Z.to_nat (N - 1))%nat as HD by (unfold D; rewrite length_take; lia).
  assert (takes _ota_fetch_callback N n D resp resp') as Htakes by (apply fetch_takes; [done|lia|done..]).
  apply runs_bind. eapply (runs_mono _ (fun '(ret, h') e' => ret = Z.of_nat (List.length D)
    /\ options h' host path N _ota_fetch_callback resp'
    /\ in_transfer h' n (n - Z.of_nat (List.length (drop (Z.to_nat (N - 1)) (drop d file))))
         (negb (Z.of_nat (List.length (drop d file)) <? N - 1))
    /\ out_of e' = out_of e ++ (if decide (d = O) then request else [])
    /\ in_of e' = drop (Z.to_nat (N - 1)) (drop d file))).
  - destruct Hch as [(-> & Hhd & Hh & Hmore & Ha & Hin)|(Hd0 & Ht & Hin)].
    + assert (D = take (Z.to_nat (N - 1)) file) as HDe by done. rewrite HDe, !drop_0 in *.
      pose proof (perform_first h host path N _ota_fetch_callback resp resp' s r file e Hopt Hh Hmore Ha) as Hp.
      change (receive_maxlen h) with N in Hp. change (hh_header h) with (hh_header (http_handle c)) in Hp.
      rewrite Hhd in Hp. eapply runs_mono; [apply Hp; [lia|done|done|done|done]|].
      intros [ret h'] e' (-> & H1 & H2 & H3 & H4). split; [done|]. split; [done|]. split; [|done].
      replace (n - Z.of_nat (List.length (drop (Z.to_nat (N - 1)) file))) with
        (Z.of_nat (List.length (take (Z.to_nat (N - 1)) file))); [done|].
      rewrite length_take, length_drop. lia.
    + pose proof (perform_next h host path N _ota_fetch_callback resp resp' n (drop d file) e Hopt) as Hp.
      change (receive_maxlen h) with N in Hp.
      eapply runs_mono; [apply Hp; [|lia|done|done]|].
      * replace (n - Z.of_nat (List.length (drop d file))) with (Z.of_nat d) by (rewrite length_drop; lia).
        destruct Ht. by split.
      * intros [ret h'] e' (-> & H1 & H2 & H3 & H4). rewrite decide_False, app_nil_r by lia. done.
  - intros [ret h'] e' (-> & Ho & Ht & Hout & Hin). apply runs_bind. eapply runs_lift; [exact (op_ctx _ _ _ _ _ _ Ho)|].
    rewrite (proj2 (Z.ltb_ge _ 0)) by lia. apply runs_ret. split; [done|].
    split; [by exists (drop (List.length D) b0)|]. split; [|done].
    intros Hlt. assert (List.length D = Z.to_nat (N - 1) /\ Z.to_nat (N - 1) < List.length file - d)%nat as [HDl Hrest].
    { unfold D in *. rewrite length_take, length_drop in *. lia. }
    rewrite !length_drop in Ht. rewrite drop_drop in Hin. split; [apply Ho|]. split; [apply Ho|]. right.
    split; [lia|]. rewrite (proj2 (Z.ltb_ge _ _)) in Ht by lia. rewrite HDl. split; [|exact Hin].
    replace (Z.of_nat (d + Z.to_nat (N - 1))) with (n - Z.of_nat (List.length file - d - Z.to_nat (N - 1))) by lia.
    exact Ht.
Qed.
(** ** One fetch *)

Lemma report_runs (h : OTA) p m (e : E) :
  ch_signal h <> None ->
  runs (IOT_OTA_ReportProgress h p m) (fun '(_, h') e' => (exists x, h' = h <| err := x |>) /\ same e e') e.
Proof.
  intros Hosc. assert (exists x, h = h <| err := x |>) as Hh by (exists (err h); by destruct h).
  assert (forall h' (ret : Z) e', (exists x, h' = h <| err := x |>) -> same e e' ->
    runs (mret (ret, h')) (fun '(_, h') e' => (exists x, h' = h <| err := x |>) /\ same e e') e') as Hret
    by (intros; by apply runs_ret).
  unfold IOT_OTA_ReportProgress. destruct (_ =? _); [apply Hret; [by eexists|try done]|].
  destruct (negb _); [apply Hret; [by eexists|try done]|]. apply runs_bind, runs_malloc. intros e1 H1. cbn [negb].
  assert (exists t, otalib_GenReportMsg MSG_REPORT_LEN (ota_id h) p m = Some t) as [[ret text] Ht].
  { unfold otalib_GenReportMsg. destruct m as [m|].
    - edestruct (sprintf_some (json_lit "{'id':%d,'params':{'step':'%d','desc':'%s'}}")
        [PD (i32 (ota_id h)); PD p; PS m] [false; false; true]) as [t ->]; [done|by vm_compute|by eexists].
    - edestruct (sprintf_some (json_lit "{'id':%d,'params':{'step':'%d','desc':''}}")
        [PD (i32 (ota_id h)); PD p] [false; false]) as [t ->]; [done|by vm_compute|by eexists]. }
  apply runs_bind. eapply runs_lift; [exact Ht|]. cbv beta iota. destruct (negb (ret =? 0)); [apply Hret; [by eexists|done]|].
  destruct (ch_signal h) as [osc|] eqn:Ho; [|done]. apply runs_bind. eapply runs_lift; [done|].
  unfold osc_ReportProgress, otamqtt_Publish.
  assert (exists t, otamqtt_GenTopicName OTA_MQTT_TOPIC_LEN (lit "progress") (osc_product_key osc)
    (osc_device_name osc) = Some t) as [[ret2 topic] Ht2].
  { unfold otamqtt_GenTopicName. edestruct (sprintf_some (lit "/ota/device/%s/%s/%s")
      [PS (lit "progress"); PS (osc_product_key osc); PS (osc_device_name osc)] [true; true; true]) as [t ->];
      [done|by vm_compute|by eexists]. }
  apply runs_bind, runs_bind. eapply runs_lift; [exact Ht2|]. cbv beta iota.
  destruct (ret2 <? 0); [apply runs_ret; apply Hret; [by eexists|done]|].
  apply runs_bind, runs_plat. pose proof (publish_apart (mqtt osc) topic (if 0 =? 0 then 0 else 1) text e1) as H2.
  destruct (IOT_MQTT_Publish _ _ _ _ e1) as [rc e2]. cbn [fst snd]. apply runs_ret.
  assert (same e e2) as H3 by (eapply same_trans; [exact H1|exact H2]).
  destruct (negb _); apply Hret; [by eexists|done|exact Hh|done].
Qed.

#[local] Existing Instance md5_ops.
#[local] Existing Instance md5_spec.

(** Both digests have been given [m]. *)
Definition fed_both (h : OTA) (m : list Z) : Prop :=
  fed h m /\ exists c, sha256 h = Some c /\ @given _ sha256_ops _ _ sha256_spec c m.


Hypothesis Hbytes : bytes_ok file.
Hypothesis Hsize : n < 2147483648.

(** Digests that are there, and have been given [take d file] unless [d] is 0. *)
Definition digests (h : OTA) (d : nat) : Prop :=
  (exists m c, md5 h = Some m /\ sha256 h = Some c) /\ (d = O \/ fed_both h (take d file)).

(** The handle and the platform after [d] bytes of the file, which is not complete. *)
Definition live (h : OTA) (d : nat) (e : E) : Prop :=
  (state h = IOT_OTAS_PUSHED \/ state h = IOT_OTAS_FETCHING)
  /\ ch_signal h <> None /\ size_fetched h = Z.of_nat d /\ size_file h = n /\ (d < List.length file)%nat
  /\ digests h d /\ exists c, ch_fetch h = Some c /\ channel (http_handle c) d e.

(** With the first piece the digests start again: both have been given what was fetched. *)
Lemma fetch_first_runs (h : OTA) d (e : E) :
  size_fetched h = Z.of_nat d -> digests h d -> ch_signal h <> None ->
  runs (fetch_first h)
    (fun '(ok, h') e' => ok = true /\ same e e' /\ fed_both h' (take d file)
       /\ exists m c x, h' = h <| md5 := m |> <| sha256 := c |> <| err := x |>) e.
Proof.
  intros Hd [(m & c & Hm & Hc) Hfed] Hosc. unfold fetch_first. rewrite Hd. destruct (Z.eqb_spec (Z.of_nat d) 0) as [Hz|Hz].
  - assert (d = O) as -> by lia. rewrite take_0. unfold otalib_MD5Init, otalib_Sha256Init.
    apply runs_bind, runs_bind, runs_malloc. intros e1 H1. apply runs_ret. cbv zeta.
    apply runs_bind, runs_bind, runs_malloc. intros e2 H2. apply runs_ret. cbv zeta.
    apply runs_bind. eapply runs_mono; [by apply report_runs|]. intros [ret h'] e3 [[x ->] H3]. apply runs_ret.
    split; [done|]. split; [by eapply same_trans; [eapply same_trans|]|]. split; [|by eexists _, _, x].
    split; [eexists; split; [done|apply md5_started]|]. eexists. split; [done|].
    exact (@starts_given _ sha256_ops _ _ sha256_spec utils_sha256_init eq_refl).
  - destruct Hfed as [->|Hfed]; [done|]. apply runs_ret. split; [done|]. split; [done|]. split; [done|].
    exists (md5 h), (sha256 h), (err h). by destruct h.
Qed.

Lemma sha256_updated c m buf k :
  @given _ sha256_ops _ _ sha256_spec c m -> 0 <= k < 4294967296 -> k <= mlen buf -> bytes_ok (take (Z.to_nat k) buf) ->
  mlen m < 4294967296 ->
  exists c', utils_sha256_update c buf k = Some c' /\ @given _ sha256_ops _ _ sha256_spec c' (m ++ take (Z.to_nat k) buf).
Proof. intros. apply (@feed_given _ sha256_ops _ _ sha256_spec); [done..|lia]. Qed.

Lemma md5_fed c m buf k :
  given c m -> 0 <= k < 4294967296 -> k <= mlen buf -> bytes_ok (take (Z.to_nat k) buf) -> mlen m < 4294967296 ->
  exists c', utils_md5_update c buf k = Some c' /\ given c' (m ++ take (Z.to_nat k) buf).
Proof. intros. apply (@feed_given _ md5_ops _ _ md5_spec); [done..|lia]. Qed.

(** What a fetch makes of the handle when [D] has come. *)
Definition yields (h h' : OTA) (d : nat) (e' : E) : Prop :=
  same_file h h' /\ ch_signal h' = ch_signal h /\ version h' = version h
  /\ size_fetched h' = Z.of_nat d /\ fed_both h' (take d file)
  /\ state h' = (if decide (d < List.length file)%nat then IOT_OTAS_FETCHING else IOT_OTAS_FETCHED)
  /\ ((d < List.length file)%nat -> exists c, ch_fetch h' = Some c /\ channel (http_handle c) d e').

Lemma channel_same h d (e e' : E) : channel h d e -> same e e' -> channel h d e'.
Proof. intros (H1 & H2 & H3) [_ Hin]. split; [done|]. split; [done|]. by rewrite Hin. Qed.

Lemma fetch_yield_runs (h : OTA) d N (buf : list Z) (e : E) :
  live h d e -> 34 <= N < 2147483648 -> List.length buf = Z.to_nat N ->
  let D := take (Z.to_nat (N - 1)) (drop d file) in
  runs (IOT_OTA_FetchYield crt h buf N 1)
    (fun '(ret, h', buf') e' =>
       ret = Z.of_nat (List.length D) /\ (exists rest, buf' = D ++ rest) /\ yields h h' (d + List.length D) e'
       /\ out_of e' = out_of e ++ (if decide (d = O) then request else [])) e.
Proof.
  intros (Hst & Hosc & Hcount & Hfile & Hd & ((m0 & c0 & Hm0 & Hc0) & Hfed) & ch & Hch & Hchan) HN Hbuf D.
  unfold IOT_OTA_FetchYield. rewrite (proj2 (Z.eqb_neq N 0)) by lia.
  assert ((state h =? IOT_OTAS_PUSHED) || (state h =? IOT_OTAS_FETCHING) = true) as -> by (by destruct Hst as [-> | ->]).
  cbn [negb]. cbv zeta. unfold fetch_digests. set (h0 := h <| state := IOT_OTAS_FETCHING |>).
  change (md5 h0) with (md5 h). rewrite Hm0. apply runs_bind, runs_bind, runs_ret. change (md5 h0) with (md5 h).
  rewrite Hm0. change (sha256 h0) with (sha256 h). rewrite Hc0. apply runs_bind, runs_ret.
  change (sha256 h0) with (sha256 h). rewrite Hc0. apply runs_ret. cbn [negb].
  unfold fetch_channel. change (ch_fetch h0) with (ch_fetch h). rewrite Hch. apply runs_bind, runs_ret.
  change (ch_fetch h0) with (ch_fetch h). rewrite Hch. apply runs_bind.
  eapply runs_mono; [by apply (ofc_fetch_runs ch d N buf e)|]. fold D.
  intros [[ret ch'] buf'] e1 (-> & [rest ->] & Hchan' & Hout). cbv zeta.
  rewrite (proj2 (Z.ltb_ge _ 0)) by lia. apply runs_bind.
  eapply runs_mono; [apply (fetch_first_runs (h0 <| ch_fetch := Some ch' |>) d); [exact Hcount|split; [by exists m0, c0|exact Hfed]|exact Hosc]|].
  intros [ok h2] e2 (-> & Hsame & ((m1 & Hm1 & Hg1) & (c1 & Hc1 & Hg2)) & (m & c & x & Hh2)). cbn [negb].
  assert (same_file h h2 /\ ch_signal h2 = ch_signal h /\ version h2 = version h /\ ch_fetch h2 = Some ch'
    /\ state h2 = IOT_OTAS_FETCHING /\ size_fetched h2 = size_fetched h) as (Hs2 & Ho2 & Hv2 & Hcf2 & Ht2 & Hn2)
    by (by rewrite Hh2).
  clear Hh2.
  assert (List.length D <= List.length file - d)%nat as HDl by (unfold D; rewrite length_take, length_drop; lia).
  assert (take (Z.to_nat (Z.of_nat (List.length D))) (D ++ rest) = D) as HDt by (by rewrite Nat2Z.id, take_app_length).
  assert (bytes_ok D) as HDb by (by apply Forall_take, Forall_drop).
  assert (take d file ++ D = take (d + List.length D) file) as Htake.
  { unfold D. rewrite length_take, length_drop, take_take_drop. destruct (decide (Z.to_nat (N - 1) <= List.length file - d)%nat).
    - by rewrite Nat.min_l.
    - rewrite Nat.min_r by lia. rewrite !take_ge by lia. done. }
  assert (mlen (take d file) < 4294967296) as Htl by (unfold mlen; rewrite length_take; lia).
  assert (0 <= Z.of_nat (List.length D) < 4294967296) as HD1 by lia.
  assert (Z.of_nat (List.length D) <= mlen (D ++ rest)) as HD2 by (unfold mlen; rewrite length_app; lia).
  destruct (md5_fed m1 (take d file) (D ++ rest) (Z.of_nat (List.length D)) Hg1 HD1 HD2) as (m2 & Hu1 & Hf1);
    [by rewrite HDt|done|]. rewrite HDt, Htake in Hf1.
  destruct (sha256_updated c1 (take d file) (D ++ rest) (Z.of_nat (List.length D)) Hg2 HD1 HD2) as (c2 & Hu2 & Hf2);
    [by rewrite HDt|done|]. rewrite HDt, Htake in Hf2.
  unfold otalib_MD5Update, otalib_Sha256Update. apply runs_bind, runs_bind. eapply runs_lift; [exact Hm1|].
  eapply runs_lift; [exact Hu1|]. apply runs_bind, runs_bind. eapply runs_lift; [exact Hc1|].
  eapply runs_lift; [exact Hu2|]. cbv zeta.
  match goal with |- context [size_file ?y <=? size_fetched ?y] => set (h3 := y) end.
  assert (size_fetched h3 = Z.of_nat (d + List.length D)) as Hc3.
  { change (u32 (size_fetched h2 + Z.of_nat (List.length D)) = Z.of_nat (d + List.length D)). rewrite Hn2, Hcount.
    unfold u32. rewrite Z.mod_small; lia. }
  assert (fed_both h3 (take (d + List.length D) file)) as Hfed3 by (split; [by exists m2|by exists c2]).
  assert (out_of e2 = out_of e ++ (if decide (d = O) then request else [])) as Hout2 by (by rewrite (proj1 Hsame)).
  assert ((d + List.length D < List.length file)%nat ->
    exists c3, Some ch' = Some c3 /\ channel (http_handle c3) (d + List.length D) e2) as Hch3.
  { intros Hlt. exists ch'. split; [done|]. by eapply channel_same; [apply Hchan'|]. }
  assert (same_file h h3) as Hs3 by exact Hs2.
  assert (ch_signal h3 = ch_signal h) as Ho3 by exact Ho2.
  assert (version h3 = version h) as Hv3 by exact Hv2.
  assert (ch_fetch h3 = Some ch') as Hcf3 by exact Hcf2.
  assert (state h3 = IOT_OTAS_FETCHING) as Ht3 by exact Ht2.
  clearbody h3. rewrite (proj2 Hs3), Hfile, Hc3.
  destruct (Z.leb_spec n (Z.of_nat (d + List.length D))) as [Hle|Hgt]; apply runs_ret.
  - split; [done|]. split; [by exists rest|]. split; [|done].
    split; [exact Hs3|]. split; [exact Ho3|]. split; [exact Hv3|]. split; [exact Hc3|]. split; [exact Hfed3|].
    split; [by rewrite decide_False by lia|lia].
  - split; [done|]. split; [by exists rest|]. split; [|done].
    split; [exact Hs3|]. split; [exact Ho3|]. split; [exact Hv3|]. split; [exact Hc3|]. split; [exact Hfed3|].
    split; [by rewrite decide_True by lia|]. rewrite Hcf3. exact Hch3.
Qed.
End Fetching.
