(* ===== verification/OtaDeliver.v ===== *)
(** * OtaDeliver: the loop of an update that is served

    The steps of [dm_fota_perform_sync] run on a platform that works, and the turns of its
    loop bring the announced file, piece by piece, into the image of the bootloader. *)

From S2P Require Import Prelude.
From S2P Require Import CString.
From S2P Require Import InfraHash.
From S2P Require Import InfraSha256.
From S2P Require Import InfraMd5.
From S2P Require Import Hal.
From S2P Require Import InfraState.
From S2P Require Import InfraNet.
From S2P Require Import Json.
From S2P Require Import Eff.
From S2P Require Import InfraHttpc.
From S2P Require Import HttpSpec.
From S2P Require Import OtaLib.
From S2P Require Import IotxOta.
From S2P Require Import DmOta.
From S2P Require Import OtaSafety.
From S2P Require Import OtaUpdate.
From S2P Require Import OtaLive.

(** ** The loop *)

Section Live.
Context {E : Type} `{!Hal E, !HalRead E, !HalStream E, !HalOnline E, !HalMemory E, !HalStack E}
  `{!OtaSignal E, !SignalApart E, !Ucp E, !UcpStorage E, !UcpWorks E}.
Variable crt : option (list Z).
Notation W := (E * dm_vars)%type.

(** A step that leaves the connection and changes at most the error of the handle. *)
Definition quiet (h : OTA) (w w' : W) : Prop :=
  same w w' /\ exists x, ota_handle (snd w') = Some (h <| err := x |>).

Lemma runs_vars (P : dm_vars -> W -> Prop) w : P (snd w) w -> runs vars P w.
Proof. done. Qed.

Lemma runs_set_vars f (P : unit -> W -> Prop) w : P tt (fst w, f (snd w)) -> runs (set_vars f) P w.
Proof. done. Qed.

Lemma get_handle_runs h (P : Z -> W -> Prop) w :
  ota_handle (snd w) = Some h -> P SUCCESS_RETURN w -> runs dm_ota_get_ota_handle P w.
Proof. intros Hh HP. apply runs_bind, runs_vars. rewrite Hh. by apply runs_ret. Qed.

Lemma with_handle_runs {A} (f : OTA -> eff W (A * OTA)) h (Q : A -> W -> Prop) w :
  ota_handle (snd w) = Some h ->
  runs (f h) (fun '(a, h') w' => Q a (fst w', (snd w') <| ota_handle := Some h' |>)) w -> runs (with_handle f) Q w.
Proof.
  intros Hh Hf. unfold with_handle. apply runs_bind, runs_vars, runs_bind. eapply runs_lift; [exact Hh|]. apply runs_bind. eapply runs_mono; [exact Hf|].
  intros [a h'] w' HQ. exact HQ.
Qed.

Lemma with_handle_quiet {A} (f : OTA -> eff W (A * OTA)) h (R : A -> Prop) w :
  ota_handle (snd w) = Some h ->
  runs (f h) (fun '(a, h') w' => R a /\ (exists x, h' = h <| err := x |>) /\ same w w') w ->
  runs (with_handle f) (fun a w' => R a /\ quiet h w w') w.
Proof.
  intros Hh Hf. eapply with_handle_runs; [done|]. eapply runs_mono; [exact Hf|].
  intros [a h'] w' (H1 & [x ->] & H2). split; [done|]. split; [exact H2|]. by exists x.
Qed.

Lemma quiet_trans h w1 w2 w3 x :
  quiet h w1 w2 -> ota_handle (snd w2) = Some (h <| err := x |>) -> quiet (h <| err := x |>) w2 w3 -> quiet h w1 w3.
Proof. intros [H1 _] _ [H2 [y H3]]. split; [by eapply same_trans|]. by exists y. Qed.

Lemma err_refl (h : OTA) : exists x, h = h <| err := x |>.
Proof. exists (err h). by destruct h. Qed.

Lemma report_progress_runs h p w :
  ota_handle (snd w) = Some h -> ch_signal h <> None -> runs (report_progress p) (fun _ w' => quiet h w w') w.
Proof.
  intros Hh Hosc. eapply runs_mono; [apply (with_handle_quiet _ h (fun _ => True)); [done|]|by intros ? ? [_ ?]].
  apply runs_bind. eapply runs_mono; [by apply report_runs|]. intros [r h'] w' [H1 H2]. by apply runs_ret.
Qed.

Lemma ioctl_size_runs h cmd w k :
  ota_handle (snd w) = Some h -> IOT_OTAS_PUSHED <= state h ->
  cmd = IOT_OTAG_FETCHED_SIZE /\ k = size_fetched h \/ cmd = IOT_OTAG_FILE_SIZE /\ k = size_file h
    \/ cmd = IOT_OTAG_OTA_TYPE /\ k = type h ->
  runs (ioctl_u32 cmd 0) (fun n w' => n = k /\ quiet h w w') w.
Proof.
  intros Hh Hst Hcmd. apply with_handle_quiet; [done|].
  assert (runs (IOT_OTA_Ioctl h cmd (Some (BufU32 0)) 4)
    (fun '(_, h', b) w' => h' = h /\ b = Some (BufU32 k) /\ w' = w) w) as Hi.
  { unfold IOT_OTA_Ioctl. change (4 =? 0) with false. rewrite (proj2 (Z.ltb_ge _ _)) by lia. cbv iota.
    apply runs_bind. destruct Hcmd as [[-> ->]|[[-> ->]|[-> ->]]]; by apply runs_ret, runs_ret. }
  apply runs_bind. eapply runs_mono; [exact Hi|]. intros [[r h'] b] w' (-> & -> & ->). apply runs_ret.
  split; [done|]. split; [apply err_refl|done].
Qed.

Lemma report_download_runs h p r w :
  ota_handle (snd w) = Some h -> ch_signal h <> None -> IOT_OTAS_PUSHED <= state h -> size_file h <> 0 ->
  runs (report_download p r) (fun _ w' => quiet h w w') w.
Proof.
  intros Hh Hosc Hst Hsz. unfold report_download. apply runs_bind.
  eapply runs_mono; [apply (ioctl_size_runs h); [done|done|left; done]|]. intros fd w1 [-> [H1 [x1 Hx1]]].
  apply runs_bind. eapply runs_mono; [by eapply (ioctl_size_runs (h <| err := x1 |>)); [exact Hx1|exact Hst|right; left]|].
  intros fs w2 [-> [H2 [x2 Hx2]]]. change (size_file (h <| err := x1 |>)) with (size_file h).
  rewrite (proj2 (Z.eqb_neq _ 0)) by done. apply runs_bind. eapply runs_lift; [done|].
  apply runs_bind, runs_plat. pose proof (stream_uptime w2) as H3.
  assert (snd (snd (HAL_UptimeMs w2)) = snd w2) as Hv.
  { destruct w2 as [e2 v2]. change (snd (snd (beside HAL_UptimeMs (e2, v2))) = v2). unfold beside. by destruct (HAL_UptimeMs e2). }
  destruct (HAL_UptimeMs w2) as [now w3]. cbn [fst snd] in H3, Hv |- *. cbv zeta.
  assert (same w w3) as H4 by (eapply same_trans; [exact H1|]; by eapply same_trans).
  assert (ota_handle (snd w3) = Some (h <| err := x2 |>)) as Hx3 by (by rewrite Hv).
  destruct (_ || _); [|apply runs_ret; split; [done|by exists x2]].
  apply runs_bind. eapply runs_mono; [apply (report_progress_runs (h <| err := x2 |>)); [exact Hx3|exact Hosc]|].
  intros ? w4 [H5 [x4 Hx4]]. apply runs_ret. split; [by eapply same_trans|by exists x4].
Qed.
(** ** Writing *)

(** A string that an array is given is terminated in it. *)
Lemma ioctl_version_runs h w :
  ota_handle (snd w) = Some h -> IOT_OTAS_PUSHED <= state h -> version h <> None ->
  runs (ioctl_arr IOT_OTAG_VERSION (IOTX_FIRMWARE_VER_LEN + 1))
    (fun '(r, a) w' => (r = 0 /\ exists v, arr_str a = Some v) /\ quiet h w w') w.
Proof.
  intros Hh Hst Hv. destruct (version h) as [ver|] eqn:Hver; [|done]. eapply runs_mono.
  - apply (with_handle_quiet _ h (fun '(r, a) => r = 0 /\ exists v, arr_str a = Some v)); [exact Hh|].
    apply runs_bind. unfold IOT_OTA_Ioctl. change (IOTX_FIRMWARE_VER_LEN + 1 =? 0) with false.
    rewrite (proj2 (Z.ltb_ge (state h) _)) by lia. cbv iota. rewrite Hver.
    apply runs_bind, runs_bind. eapply runs_lift; [done|]. unfold ota_get_arr.
    change (IOTX_FIRMWARE_VER_LEN + 1 <? 0) with false. change (Z.to_nat (IOTX_FIRMWARE_VER_LEN + 1)) with 33%nat.
    cbv iota. set (a0 := zeros 33). assert (List.length (resize 33 0 ver) = 33%nat) as Hr by apply length_resize.
    apply runs_bind, runs_store; [lia|by rewrite Hr|]. set (a1 := _ ++ _).
    assert (List.length a1 = 33%nat) as Ha.
    { unfold a1. rewrite !length_app, length_take, length_drop, Hr. unfold a0, zeros. rewrite length_replicate. lia. }
    apply runs_bind, runs_set; [rewrite Ha; by vm_compute|]. do 3 apply runs_ret. split; [|split; [apply err_refl|done]].
    split; [done|]. apply (arr_str_prefix [] _); [by apply Forall_nil|].
    apply list_elem_of_lookup. exists 32%nat. apply list_lookup_insert_eq. rewrite Ha. by apply Nat.ltb_lt.
  - intros [r a] w' H. exact H.
Qed.

Lemma prepare_runs h w :
  ota_handle (snd w) = Some h -> IOT_OTAS_PUSHED <= state h -> version h <> None ->
  runs prepare_write (fun ret w' => ret = 0 /\ quiet h w w') w.
Proof.
  intros Hh Hst Hv. unfold prepare_write. apply runs_bind. eapply get_handle_runs; [exact Hh|].
  change (negb (SUCCESS_RETURN =? SUCCESS_RETURN)) with false. cbv iota.
  apply runs_bind. eapply runs_mono; [apply (with_handle_quiet _ h (fun '(r, _) => r = 0)); [exact Hh|]|].
  { apply runs_bind. unfold IOT_OTA_Ioctl. change (4 =? 0) with false. rewrite (proj2 (Z.ltb_ge (state h) _)) by lia.
    cbv iota. apply runs_bind, runs_ret, runs_ret, runs_ret. split; [done|]. split; [apply err_refl|done]. }
  intros [r n] w1 [-> [H1 [x1 Hx1]]]. change (negb (0 =? 0)) with false. cbv iota. apply runs_bind.
  eapply runs_mono; [by apply (ioctl_version_runs (h <| err := x1 |>))|].
  intros [r a] w2 [(-> & v & Ha) [H2 [x2 Hx2]]]. change (negb (0 =? 0)) with false. cbv iota.
  apply runs_bind. eapply runs_lift; [exact Ha|]. apply runs_bind, runs_plat. destruct w2 as [e2 v2]. unfold beside.
  pose proof (works_prepare v (i32 n) e2) as Hok. pose proof (prepare_apart v (i32 n) e2) as H3.
  destruct (MBEDBL_UCP_PrepareWrite v (i32 n) e2) as [rc e3]. cbn [fst snd] in Hok, H3, Hx2 |- *. rewrite Hok.
  change (negb (0 =? 0)) with false. cbv iota. apply runs_bind.
  apply runs_set_vars, runs_ret. split; [done|].
  split; [eapply same_trans; [exact H1|]; eapply same_trans; [exact H2|exact H3]|]. exists x2. exact Hx2.
Qed.
Lemma write_runs h (buffer : list Z) k w :
  ota_handle (snd w) = Some h -> IOT_OTAS_PUSHED <= state h -> version h <> None ->
  mbedbl_status (snd w) = 0 \/ mbedbl_status (snd w) = 1 -> 0 <= k <= mlen buffer ->
  runs (HAL_Firmware_Persistence_Write buffer k) (fun ret w' => ret = 0 /\ quiet h w w') w.
Proof.
  intros Hh Hst Hv Hs Hk. unfold HAL_Firmware_Persistence_Write. apply runs_bind, runs_vars, runs_bind.
  eapply (runs_mono _ (fun ret w' => ret = 0 /\ quiet h w w')).
  { destruct Hs as [-> | ->]; [by apply prepare_runs|]. apply runs_ret. split; [done|]. split; [done|].
    destruct (err_refl h) as [x Hx]. exists x. by rewrite <-Hx. }
  intros ret w1 [-> [H1 [x Hx]]]. change (negb (0 =? 0)) with false. cbv iota. unfold buf_sub, mlen in *.
  rewrite (proj2 (Z.ltb_ge 0 0)), (proj2 (Z.ltb_ge k 0)), (proj2 (Z.ltb_ge _ (0 + k))) by lia.
  apply runs_bind. eapply runs_lift; [done|]. set (bs := take _ _). clearbody bs. apply runs_bind, runs_plat.
  destruct w1 as [e1 v1]. unfold beside. pose proof (works_write bs e1) as Hok. pose proof (write_apart bs e1) as H2.
  destruct (MBEDBL_UCP_Write bs e1) as [rc e2]. cbn [fst snd] in Hok, H2, Hx |- *. rewrite Hok.
  change (negb (0 =? 0)) with false. cbv iota. apply runs_ret. split; [done|].
  split; [eapply same_trans; [exact H1|exact H2]|]. exists x. exact Hx.
Qed.

(** ** The end *)

Lemma finish_runs h w :
  ota_handle (snd w) = Some h -> state h <> IOT_OTAS_UNINITED ->
  runs (with_handle (fun h => mret (IOT_OTA_IsFetchFinish h)))
    (fun fin w' => fin = (if state h =? IOT_OTAS_FETCHED then 1 else 0) /\ quiet h w w') w.
Proof.
  intros Hh Hst. apply with_handle_quiet; [done|]. unfold IOT_OTA_IsFetchFinish.
  rewrite (proj2 (Z.eqb_neq _ _)) by done. apply runs_ret. split; [done|]. split; [apply err_refl|done].
Qed.

Lemma check_runs h m w :
  ota_handle (snd w) = Some h -> state h = IOT_OTAS_FETCHED -> fed h m -> mlen m < 2305843009213693952 ->
  digest_same (md5sum h) (md5_text m) = Some 1 ->
  runs (ioctl_u32 IOT_OTAG_CHECK_FIRMWARE 0) (fun n w' => n = 1 /\ same w w') w.
Proof.
  intros Hh Hst (c & Hc & Hg) Hl Hsum. eapply with_handle_runs; [exact Hh|].
  apply runs_bind. unfold IOT_OTA_Ioctl. change (4 =? 0) with false. rewrite Hst.
  change (IOT_OTAS_FETCHED <? IOT_OTAS_PUSHED) with false. cbv iota. unfold check_firmware.
  change (negb (4 =? 4)) with false. rewrite Hst. change (negb (IOT_OTAS_FETCHED =? IOT_OTAS_FETCHED)) with false.
  cbv iota. apply runs_bind, runs_bind.
  destruct (@finish_given _ md5_ops _ _ md5_spec c m Hg Hl) as (c1 & Hfin).
  assert (otalib_MD5Finalize (md5 h) w = Some ((c1, md5_text m), w)) as Hf.
  { unfold otalib_MD5Finalize. rewrite Hc. unfold mbind, eff_bind, eff_lift.
    change (utils_md5_finish c) with (@hash_finish _ md5_ops c). by rewrite Hfin. }
  unfold runs at 1. rewrite Hf. cbv zeta. apply runs_bind. eapply runs_lift; [exact Hsum|].
  change (1 =? 1) with true. cbv iota. do 3 apply runs_ret. done.
Qed.

Lemma end_runs image m ret output h w :
  holds h image 1 m w ->
  runs (fota_end ret output) (fun '(r, _) w' => r = ret /\ ucp_image (fst w') = Some m /\ same w w') w.
Proof.
  intros (_ & Hi & Hs & Hp). unfold fota_end, HAL_Firmware_Persistence_Stop.
  apply runs_bind, runs_bind, runs_vars. rewrite Hs.
  change (negb (flag_set 1 MBEDBL_UCP_WRITE_PREPARED)) with false.
  change (flag_set 1 MBEDBL_UCP_WRITE_FAILED) with false. cbv iota. destruct w as [e v]. cbn [fst snd] in *.
  apply runs_bind, runs_plat. unfold beside. pose proof (works_finalize e) as Hok.
  pose proof (finalize_apart e) as H1. pose proof (ucp_finalize e) as Hu.
  destruct (MBEDBL_UCP_FinalizeWrite e) as [rc e1]. cbn [fst snd] in *. rewrite Hok in Hu.
  destruct Hu as [_ Hu]. change (0 =? 0) with true in Hu. cbv iota in Hu.
  apply runs_ret, runs_bind, runs_set_vars, runs_ret. split; [done|]. split; [|exact H1].
  cbn [fst]. by rewrite Hu, Hp.
Qed.
(** ** The loop *)

Variables (host path header s r file : list Z).
Notation n := (Z.of_nat (List.length file)).
Hypothesis Hhead : head_ok s r n.
Notation request := (request_head HTTPCLIENT_GET host path (Some header) None None).
Hypothesis Hrequest : (List.length request < 1024)%nat.
Hypothesis Hbytes : bytes_ok file.
Hypothesis Hsize : n < 2147483648.
Variables (image : option (list Z)) (sum : list Z).
Hypothesis Hsum : digest_same sum (md5_text file) = Some 1.

(** [d] bytes have been fetched and given to the bootloader, and more are to come. *)
Definition going (h : OTA) (d : nat) (st : Z) (w : W) : Prop :=
  ota_handle (snd w) = Some h /\ live host path header s r file h d w /\ version h <> None /\ md5sum h = sum
  /\ holds h image st (take d file) w /\ (st = 0 /\ d = O \/ st = 1).

(** [d] bytes have been fetched. *)
Definition came (h : OTA) (d : nat) (w : W) : Prop :=
  ota_handle (snd w) = Some h /\ fed h (take d file) /\ md5sum h = sum /\ version h <> None
  /\ ch_signal h <> None /\ size_file h = n
  /\ state h = (if decide (d < List.length file)%nat then IOT_OTAS_FETCHING else IOT_OTAS_FETCHED)
  /\ ((d < List.length file)%nat -> live host path header s r file h d w).

Lemma holds_handle g h im st m w : holds g im st m w -> ota_handle (snd w) = Some h -> holds h im st m w.
Proof. intros ((h' & Hh' & Hc) & Hrest) Hh. split; [by exists h|done]. Qed.

Lemma going_fetched h d st w : going h d st w -> fetched h (take d file) /\ size_fetched h < 2147483648.
Proof.
  intros (_ & (_ & _ & Hc & _ & Hd & (_ & Hf) & _) & _). rewrite Hc. split; [|lia].
  split; [rewrite Hc; unfold mlen; rewrite length_take; lia|]. split; [|by apply Forall_take].
  destruct Hf as [->|[Hf _]]; [by left|by right].
Qed.

Lemma fetch_runs h d st w N (output : list Z) :
  going h d st w -> 34 <= N < 2147483648 -> List.length output = Z.to_nat N -> bytes_ok output ->
  let D := take (Z.to_nat (N - 1)) (drop d file) in
  runs (fetch_yield crt output N)
    (fun '(ret, out) w' =>
       ret = Z.of_nat (List.length D) /\ (exists rest, out = D ++ rest) /\ List.length out = Z.to_nat N /\ bytes_ok out
       /\ (exists h', came h' (d + List.length D) w' /\ holds h' image st (take d file) w')
       /\ out_of w' = out_of w ++ (if decide (d = O) then request else [])) w.
Proof.
  intros Hg HN Hl Hb D. destruct (going_fetched _ _ _ _ Hg) as [Hf Hsz]. destruct Hg as (Hh & Hlive & Hv & Hm & Hho & Hst).
  assert (mlen output < 2147483648) as Hlo by (unfold mlen; lia).
  eapply runs_mono; [apply runs_ensures; [|by apply (fetch_step crt h image st (take d file) (take d file) output N w)]|].
  - eapply (with_handle_runs _ h (fun '(ret, out) w' =>
      ret = Z.of_nat (List.length D) /\ (exists rest, out = D ++ rest)
       /\ (exists h', came h' (d + List.length D) w')
       /\ out_of w' = out_of w ++ (if decide (d = O) then request else []))); [exact Hh|].
    apply runs_bind. eapply runs_mono; [by apply (fetch_yield_runs crt host path header s r file)|]. fold D.
    intros [[ret h'] out] w' (-> & Hr & ((Hs1 & Hs2) & Ho & Hver & Hsf & Hfed & Hste & Hch) & Hout). apply runs_ret.
    split; [done|]. split; [done|]. split; [|exact Hout]. exists h'.
    destruct Hlive as (_ & Hosc & _ & Hfile & _). split; [done|]. split; [apply Hfed|]. split; [by rewrite Hs1|].
    split; [by rewrite Hver|]. split; [by rewrite Ho|]. split; [by rewrite Hs2|]. split; [exact Hste|].
    intros Hlt. split; [right; by rewrite Hste, decide_True|]. split; [by rewrite Ho|]. split; [done|].
    split; [by rewrite Hs2|]. split; [done|]. split; [|by apply Hch]. split; [|by right].
    destruct Hfed as ((m & Hm' & _) & (c & Hc' & _)). by exists m, c.
  - intros [ret out] w' [(-> & Hr & (h' & Hc) & Hout) (Hbo & Hlen & g' & _ & Hg')]. split; [done|]. split; [done|].
    split; [unfold mlen in Hlen; lia|]. split; [done|]. split; [|done]. exists h'. split; [done|].
    eapply holds_handle; [exact Hg'|apply Hc].
Qed.
Lemma came_quiet h d w w' : came h d w -> quiet h w w' -> exists h', came h' d w' /\ core h' = core h.
Proof.
  intros (Hh & Hf & Hm & Hv & Ho & Hfile & Hst & Hlive) [H1 [x Hx]]. exists (h <| err := x |>). split; [|done].
  split; [exact Hx|]. split; [exact Hf|]. split; [exact Hm|]. split; [exact Hv|]. split; [exact Ho|].
  split; [exact Hfile|]. split; [exact Hst|]. intros Hlt.
  destruct (Hlive Hlt) as (L1 & L2 & L3 & L4 & L5 & L6 & c & L7 & L8).
  split; [exact L1|]. split; [exact L2|]. split; [exact L3|]. split; [exact L4|]. split; [exact L5|]. split; [exact L6|].
  exists c. split; [exact L7|]. by eapply channel_same.
Qed.

(** A call that leaves what came and what is stored: its runs and its partial correctness. *)
Lemma step_runs {A} (f : eff W A) (R : A -> Prop) h d st m w :
  came h d w -> holds h image st m w -> runs f (fun a w' => R a /\ quiet h w w') w ->
  ensures f (fun _ w' => holds h image st m w') w ->
  runs f (fun a w' => R a /\ out_of w' = out_of w /\ exists h', came h' d w' /\ holds h' image st m w') w.
Proof.
  intros Hc Hho Hr He. eapply runs_mono; [by apply runs_ensures|]. intros a w' [[HR Hq] Hho']. split; [done|].
  split; [apply Hq|]. destruct (came_quiet _ _ _ _ Hc Hq) as (h' & Hc' & _). exists h'. split; [done|].
  eapply holds_handle; [exact Hho'|apply Hc'].
Qed.

Lemma came_state h d w : came h d w -> IOT_OTAS_PUSHED <= state h /\ state h <> IOT_OTAS_UNINITED.
Proof. intros (_ & _ & _ & _ & _ & _ & -> & _). by case_decide. Qed.

(** The bytes of a piece are stored. *)
Lemma store_runs h d D st out rest w :
  (0 < List.length file)%nat -> came h (d + List.length D) w -> holds h image st (take d file) w ->
  st = 0 /\ d = O \/ st = 1 -> out = D ++ rest -> take d file ++ D = take (d + List.length D) file ->
  runs (HAL_Firmware_Persistence_Write out (Z.of_nat (List.length D)))
    (fun ret w' => ret = 0 /\ out_of w' = out_of w
       /\ exists h', came h' (d + List.length D) w' /\ holds h' image 1 (take (d + List.length D) file) w') w.
Proof.
  intros Hpos Hc Hho Hst -> HD. destruct (came_state _ _ _ Hc) as [Hs _]. pose proof Hc as (Hh & _ & _ & Hv & _).
  eapply runs_mono; [apply runs_ensures|].
  - apply (write_runs h); [exact Hh|exact Hs|exact Hv| |].
    + destruct Hho as (_ & _ & -> & _). destruct Hst as [[-> _]|]; auto.
    + unfold mlen. rewrite length_app. lia.
  - apply (write_step h image st (take d file)); [exact Hho|]. destruct Hst as [[-> ->]| ->]; auto.
  - intros ret w' [[-> Hq] He]. split; [done|]. split; [apply Hq|]. destruct (He (Z.le_refl 0)) as [_ Hho'].
    rewrite Nat2Z.id, take_app_length, HD in Hho'. destruct (came_quiet _ _ _ _ Hc Hq) as (h' & Hc' & _). exists h'.
    split; [done|]. eapply holds_handle; [exact Hho'|apply Hc'].
Qed.

(** The last turn: the firmware is checked and committed. *)
Lemma last_runs h d out alt w :
  came h d w -> (List.length file <= d)%nat -> holds h image 1 (take d file) w ->
  runs (file_isvalid ← ioctl_u32 IOT_OTAG_CHECK_FIRMWARE 0;
        if file_isvalid =? 0 then alt else fota_end SUCCESS_RETURN out)
    (fun '(ret, _) w' => ret = SUCCESS_RETURN /\ ucp_image (fst w') = Some file /\ out_of w' = out_of w) w.
Proof.
  intros (Hh & Hfed & Hm & _ & _ & _ & Hst & _) Hd Hho. rewrite decide_False in Hst by lia.
  rewrite take_ge in Hfed, Hho by lia. assert (mlen file < 2305843009213693952) as Hml by (unfold mlen; lia).
  apply runs_bind. eapply runs_mono; [apply runs_ensures;
    [by apply (check_runs h file); [..|rewrite Hm]|by apply (check_step h image 1 file file)]|].
  intros v w5 [[-> Hs5] [_ (h5 & Hho5)]]. change (1 =? 0) with false. cbv iota.
  eapply runs_mono; [by apply (end_runs image file SUCCESS_RETURN out h5)|].
  intros [ret o] w6 (-> & Hi & Hs6). split; [done|]. split; [done|]. by rewrite (proj1 Hs6), (proj1 Hs5).
Qed.

(** Enough turns for the pieces that are left end the loop with the file committed. *)
Lemma fota_loop_runs N : 34 <= N < 2147483648 -> forall k h d st w output t p q,
  going h d st w -> List.length output = Z.to_nat N -> bytes_ok output ->
  Z.of_nat (List.length file - d) <= Z.of_nat k * (N - 1) ->
  runs (fota_loop crt k output N t p q)
    (fun '(ret, _) w' => ret = SUCCESS_RETURN /\ ucp_image (fst w') = Some file
       /\ out_of w' = out_of w ++ (if decide (d = O) then request else [])) w.
Proof.
  intros HN. induction k as [|k IH]; intros h d st w output t p q Hg Hl Hb Hk;
    pose proof Hg as (_ & (_ & _ & _ & _ & Hd & _) & _ & _ & _ & Hst); [lia|]. cbn [fota_loop].
  apply runs_bind. eapply runs_mono; [by apply (fetch_runs h d st w N output)|].
  set (D := take (Z.to_nat (N - 1)) (drop d file)).
  assert (List.length D = Nat.min (Z.to_nat (N - 1)) (List.length file - d)) as HDl
    by (unfold D; by rewrite length_take, length_drop).
  assert (take d file ++ D = take (d + List.length D) file) as HD.
  { rewrite HDl. unfold D. rewrite take_take_drop. destruct (Nat.min_spec (Z.to_nat (N - 1)) (List.length file - d))
      as [[? ->]|[? ->]]; [done|]. rewrite !take_ge by lia. done. }
  clearbody D. intros [ret out] w1 (-> & [rest Hrest] & Hlo & Hbo & (h1 & Hc1 & Hho1) & Hout1).
  rewrite (proj2 (Z.ltb_ge _ 0)) by lia. apply runs_bind.
  eapply runs_mono; [by eapply (store_runs h1 d D st out rest); [lia|..]|].
  intros ret w2 (-> & Hout2 & h2 & Hc2 & Hho2). change (0 <? 0) with false. cbv iota. apply runs_bind.
  destruct (came_state _ _ _ Hc2) as [Hs2 _]. pose proof Hc2 as (Hh2 & _ & _ & _ & Ho2 & Hf2 & _).
  eapply runs_mono; [eapply (step_runs _ (fun _ => True) h2); [exact Hc2|exact Hho2| |by apply report_download_holds]|].
  { eapply runs_mono; [apply (report_download_runs h2); [exact Hh2|exact Ho2|exact Hs2|lia]|by auto]. }
  intros [p' q'] w3 (_ & Hout3 & h3 & Hc3 & Hho3). destruct (came_state _ _ _ Hc3) as [_ Hs3].
  pose proof Hc3 as (Hh3 & Hfed3 & Hm3 & Hv3 & _ & _ & Hst3 & Hlive3). apply runs_bind.
  eapply runs_mono; [eapply (step_runs _ (fun fin => fin = (if state h3 =? IOT_OTAS_FETCHED then 1 else 0)) h3);
    [exact Hc3|exact Hho3|by apply finish_runs|]|].
  { eapply ensures_mono; [by apply (finish_step h3)|]. by intros a w' [_ ?]. }
  intros fin w4 (-> & Hout4 & h4 & Hc4 & Hho4). rewrite Hst3. rewrite Hout3, Hout2, Hout1 in Hout4.
  clear Hout1 Hout2 Hout3.
  destruct (decide (d + List.length D < List.length file)%nat) as [Hlt|Hge].
  - change (IOT_OTAS_FETCHING =? IOT_OTAS_FETCHED) with false. change (0 =? 1) with false. cbv iota.
    pose proof Hc4 as (Hh4 & _ & Hm4 & Hv4 & _ & _ & _ & Hlive4).
    eapply runs_mono; [apply (IH h4 (d + List.length D)%nat 1 w4); [|done|done|lia]|].
    { split; [exact Hh4|]. split; [by apply Hlive4|]. split; [done|]. split; [done|]. split; [done|by right]. }
    intros [ret o] w5 (-> & Hi & Ho5). split; [done|]. split; [done|].
    rewrite decide_False, app_nil_r in Ho5 by lia. by rewrite Ho5.
  - change (IOT_OTAS_FETCHED =? IOT_OTAS_FETCHED) with true. change (1 =? 1) with true. cbv iota.
    eapply runs_mono; [by apply (last_runs h4 (d + List.length D)); [|lia|]|].
    intros [ret o] w5 (-> & Hi & Ho5). split; [done|]. split; [done|]. by rewrite Ho5.
Qed.
(** ** The whole update *)

(** A firmware has been announced, and nothing of it has been fetched that is kept. *)
Definition announced (h : OTA) (w : W) : Prop :=
  live host path header s r file (h <| size_fetched := 0 |>) 0 w
  /\ type h = IOT_OTAT_FOTA /\ version h <> None /\ md5sum h = sum.

Lemma reset_runs h w :
  ota_handle (snd w) = Some h -> IOT_OTAS_PUSHED <= state h ->
  runs (ioctl_do IOT_OTAG_RESET_FETCHED_SIZE (Some BufOther) 4)
    (fun _ w' => w' = (fst w, (snd w) <| ota_handle := Some (h <| size_fetched := 0 |>) |>)) w.
Proof.
  intros Hh Hst. eapply with_handle_runs; [exact Hh|]. unfold IOT_OTA_Ioctl. change (4 =? 0) with false.
  rewrite (proj2 (Z.ltb_ge (state h) _)) by lia. cbv iota. do 2 apply runs_bind. by do 3 apply runs_ret.
Qed.

Lemma perform_runs N k h w output :
  ota_handle (snd w) = Some h -> announced h w -> ucp_image (fst w) = image -> 34 <= N < 2147483648 ->
  List.length output = Z.to_nat N -> bytes_ok output -> n <= Z.of_nat k * (N - 1) ->
  runs (dm_fota_perform_sync crt k output N)
    (fun '(ret, _) w' => ret = SUCCESS_RETURN /\ ucp_image (fst w') = Some file /\ out_of w' = out_of w ++ request) w.
Proof.
  intros Hh (Hlive & Hty & Hv & Hm) Hi HN Hl Hb Hk. unfold dm_fota_perform_sync.
  rewrite (proj2 (Z.leb_gt N 0)) by lia. apply runs_bind. eapply get_handle_runs; [exact Hh|].
  change (negb (SUCCESS_RETURN =? SUCCESS_RETURN)) with false. cbv iota.
  pose proof Hlive as (Hst & _). change (state (h <| size_fetched := 0 |>)) with (state h) in Hst.
  assert (IOT_OTAS_PUSHED <= state h) as Hs by (by destruct Hst as [-> | ->]). apply runs_bind.
  eapply runs_mono; [apply runs_ensures; [apply (ioctl_size_runs h); [exact Hh|exact Hs|by right; right]|
    by apply (ioctl_u32_holds h image (mbedbl_status (snd w)) (ucp_pending (fst w))); [|split; [by exists h|]]]|].
  intros ty w1 [[Hk1 [H1 [x1 Hx1]]] (_ & Hi1 & _)]. rewrite Hk1. change (negb (IOT_OTAT_FOTA =? IOT_OTAT_FOTA)) with false.
  cbv iota. apply runs_bind. eapply runs_mono; [by apply (reset_runs (h <| err := x1 |>))|]. intros [] w2 ->.
  apply runs_bind, runs_set_vars. cbn [fst snd].
  set (h1 := (h <| err := x1 |>) <| size_fetched := 0 |>).
  match goal with |- runs _ _ ?w' => set (w3 := w') end.
  assert (ota_handle (snd w3) = Some h1) as Hh3 by done.
  assert (mbedbl_status (snd w3) = 0 /\ ucp_image (fst w3) = image) as [Hst3 Hi3] by done.
  assert (same w w3) as Hsame by exact H1. clearbody w3.
  destruct Hlive as (L1 & L2 & L3 & L4 & L5 & L6 & c & L7 & L8).
  eapply runs_mono; [apply (fota_loop_runs N HN k h1 O 0 w3); [|done|done|lia]|].
  - split; [exact Hh3|]. split; [|split; [exact Hv|split; [exact Hm|split; [|by left]]]].
    + split; [exact L1|]. split; [exact L2|]. split; [exact L3|]. split; [exact L4|]. split; [exact L5|].
      split; [exact L6|]. exists c. split; [exact L7|]. by eapply channel_same.
    + split; [by exists h1|]. done.
  - intros [ret o] w4 (-> & Hi4 & Ho4). split; [done|]. split; [done|]. by rewrite Ho4, (proj1 Hsame).
Qed.
End Live.
