(* ===== verification/OtaSpec.v ===== *)
(** * OtaSpec: what an update promises

    The firmware that the device model installs: what its success means whatever the server
    and the network do, what a failed check leaves behind, and that a firmware which is
    served arrives. *)

From S2P Require Import Prelude.
From S2P Require Import CString.
From S2P Require Import InfraHash.
From S2P Require Import InfraMd5.
From S2P Require Import Hal.
From S2P Require Import InfraState.
From S2P Require Import InfraCompat.
From S2P Require Import Json.
From S2P Require Import Eff.
From S2P Require Import InfraHttpc.
From S2P Require Import HttpSpec.
From S2P Require Import OtaLib.
From S2P Require Import IotxOta.
From S2P Require Import DmOta.
From S2P Require Import OtaSafety.
From S2P Require Import OtaUpdate.
From S2P Require Import OtaLive.
From S2P Require Import OtaDeliver.

Lemma arr_str_cstr s : cstr_ok s -> arr_str (s ++ [0]) = Some s.
Proof.
  intros Hs. unfold arr_str. rewrite arr_strlen_app by done. cbn [mbind option_bind]. by rewrite take_app_length.
Qed.

(** The MD5 of a message as the cloud announces it. *)
Definition md5_hex (m : list Z) : list Z := hexadecimal lower_digits (Rfc.md5 m).

Lemma hex_text_md5 m : hex_text (Rfc.md5 m) = md5_hex m.
Proof.
  apply hexadecimal_encoder; [done|done|by vm_compute|]. apply (digest_bytes (HashSpec := md5_spec)).
Qed.

(** The verdict of a check: the string of the announced array against the digest. *)
Lemma digest_verdict sum m ok :
  digest_same sum (md5_text m) = Some (if ok : bool then 1 else 0) ->
  exists t, arr_str sum = Some t /\ (t = md5_hex m <-> ok = true).
Proof.
  unfold digest_same. destruct (arr_str sum) as [t|]; [|done]. unfold md5_text.
  rewrite <-hex_text_md5, arr_str_cstr by apply hex_text_cstr. cbn [mbind option_bind]. intros [= H]. exists t. split; [done|].
  case_bool_decide; destruct ok; try done.
Qed.

Section Promises.
Context {E : Type} `{!Hal E, !HalRead E, !HalStack E, !OtaSignal E, !Ucp E, !UcpStorage E}.
Variable crt : option (list Z).

(** C7. Whatever the server sends, the network loses and the bootloader answers: when
    [dm_fota_perform_sync] reports success, the bytes that were handed to the bootloader
    are at least as many as announced and their MD5, in hexadecimal, is the announced one;
    the bootloader has committed exactly those bytes, unless its own finalisation failed. *)
Theorem fota_integrity turns output output_len e v h output' e' v' :
  ota_handle v = Some h -> size_file h < 2147483648 -> bytes_ok output -> mlen output < 2147483648 ->
  dm_fota_perform_sync crt turns output output_len (e, v) = Some ((SUCCESS_RETURN, output'), (e', v')) ->
  exists m, bytes_ok m /\ size_file h <= mlen m
    /\ arr_str (md5sum h) = Some (md5_hex m) /\ finalised m (ucp_image e) e'.
Proof.
  intros Hh Hsz Hb Hl Hrun.
  destruct (perform_verdict crt turns output output_len e v h Hh Hsz Hb Hl _ _ Hrun) as [Hok _].
  destruct (Hok eq_refl) as (m & Hm & Hs & Hd & Hf). exists m. split; [done|]. split; [done|]. split; [|done].
  destruct (digest_verdict _ _ true Hd) as (t & Ht & Heq). rewrite Ht. f_equal. by apply Heq.
Qed.

(** C22. A firmware that fails its check is committed all the same: with a bootloader whose
    finalisation succeeds, the image that was received is the image of the bootloader when
    [dm_fota_perform_sync] reports that its MD5 is not the announced one. *)
Theorem fota_commits_unchecked turns output output_len e v h output' e' v' :
  (forall e, fst (MBEDBL_UCP_FinalizeWrite e) = 0) ->
  ota_handle v = Some h -> size_file h < 2147483648 -> bytes_ok output -> mlen output < 2147483648 ->
  dm_fota_perform_sync crt turns output output_len (e, v)
    = Some ((STATE_DEV_MODEL_OTA_IMAGE_CHECK_FAILED, output'), (e', v')) ->
  exists m, ucp_image e' = Some m /\ size_file h <= mlen m /\ arr_str (md5sum h) <> Some (md5_hex m).
Proof.
  intros Hfin Hh Hsz Hb Hl Hrun.
  destruct (perform_verdict crt turns output output_len e v h Hh Hsz Hb Hl _ _ Hrun) as [_ Hbad].
  destruct (Hbad eq_refl) as (m & _ & Hs & Hd & e1 & Hf). rewrite Hfin in Hf. exists m. split; [exact Hf|].
  split; [done|]. destruct (digest_verdict _ _ false Hd) as (t & Ht & Heq). rewrite Ht. intros [= Heq'].
  by apply Heq in Heq'.
Qed.
End Promises.

(** C8. On a platform that connects, takes what it is given and has memory, with a
    bootloader that works: a firmware that has been announced and that the server sends is
    fetched with one request, in pieces of a byte less than the buffer; after enough turns
    of the loop [dm_fota_perform_sync] reports success and the image of the bootloader is
    the file, byte for byte. *)
Theorem fota_delivers {E : Type} `{!Hal E, !HalRead E, !HalStream E, !HalOnline E, !HalMemory E, !HalStack E}
    `{!OtaSignal E, !SignalApart E, !Ucp E, !UcpStorage E, !UcpWorks E}
    crt host path header s r file sum N turns output e v h :
  head_ok s r (Z.of_nat (List.length file)) ->
  (List.length (request_head HTTPCLIENT_GET host path (Some header) None None) < 1024)%nat ->
  bytes_ok file -> Z.of_nat (List.length file) < 2147483648 ->
  arr_str sum = Some (md5_hex file) ->
  ota_handle v = Some h -> announced host path header s r file sum h (e, v) ->
  34 <= N < 2147483648 -> List.length output = Z.to_nat N -> bytes_ok output ->
  Z.of_nat (List.length file) <= Z.of_nat turns * (N - 1) ->
  exists output' w',
    dm_fota_perform_sync crt turns output N (e, v) = Some ((SUCCESS_RETURN, output'), w')
    /\ ucp_image (fst w') = Some file
    /\ out_of (fst w') = out_of e ++ request_head HTTPCLIENT_GET host path (Some header) None None.
Proof.
  intros Hhead Hreq Hb Hsz Hsum Hh Ha HN Hl Ho Hk.
  assert (digest_same sum (md5_text file) = Some 1) as Hd.
  { unfold digest_same, md5_text. rewrite Hsum, <-hex_text_md5, arr_str_cstr by apply hex_text_cstr. cbn [mbind option_bind].
    by rewrite bool_decide_true. }
  destruct (runs_run _ _ _ (perform_runs crt host path header s r file Hhead Hreq Hb Hsz (ucp_image e) sum Hd N turns h
    (e, v) output Hh Ha eq_refl HN Hl Ho Hk)) as ([ret out] & w' & Hrun & -> & Hi & Hout).
  by exists out, w'.
Qed.

(** ** A device *)

Module OtaSim.

(** The connection, the bytes written since the preparation, the image, and what was
    published; the clock stands still. *)
Record sim := Sim {
  sent : list Z;
  coming : list Z;
  pending : list Z;
  image : option (list Z);
  published : list (list Z)
}.

#[global] Instance eta_sim : Eta sim := fun e => Sim (sent e) (coming e) (pending e) (image e) (published e).

Definition octets (bs : list Z) : list Z := (fun b => b mod 256) <$> bs.

#[global] Instance sim_hal : Hal sim := {|
  HAL_UptimeMs e := (0, e);
  HAL_SleepMs _ e := e;
  HAL_Malloc _ e := (true, e);
  HAL_MutexCreate e := (true, e);
  HAL_SSL_Establish _ _ _ _ e := (1, e);
  HAL_SSL_Destroy _ e := e;
  HAL_SSL_Read _ len _ e :=
    let bs := octets (take (Z.to_nat len) (coming e)) in
    (Z.of_nat (List.length bs), bs, e <| coming ::= drop (Z.to_nat len) |>);
  HAL_SSL_Write _ bs _ e := (Z.of_nat (List.length bs), e <| sent ::= fun s => s ++ bs |>);
  HAL_indeterminate _ := 0
|}.

#[global] Instance sim_read : HalRead sim.
Proof.
  split.
  - intros h len t e rc bs e' [= <- <- <-]. split.
    + apply Forall_fmap, Forall_true. intros b. cbn. apply Z.mod_pos_bound. lia.
    + intros Hl. unfold octets. rewrite length_fmap, length_take. lia.
  - by intros h len t e rc bs e' [= <- <- <-] _.
Qed.

#[global, refine] Instance sim_stream : HalStream sim := {| out_of := sent; in_of e := octets (coming e) |}.
Proof.
  all: try done.
  - intros h bs t e. cbn. by rewrite Nat2Z.id, firstn_all.
  - intros h len t e Hl bs. exists (e <| coming ::= drop (Z.to_nat len) |>). cbn. unfold bs, octets.
    by rewrite <-fmap_take, <-fmap_drop.
Defined.

#[global] Instance sim_online : HalOnline sim.
Proof. by split. Qed.

#[global] Instance sim_memory : HalMemory sim.
Proof. by split. Qed.

#[global, refine] Instance sim_stack : HalStack sim := {| HAL_stack n _ := zeros n |}.
Proof. intros n _. apply length_replicate. Defined.

#[global] Instance sim_signal : OtaSignal sim := {
  IOT_MQTT_Publish _ _ _ msg e := (0, e <| published ::= fun l => l ++ [msg] |>);
  IOT_MQTT_Subscribe _ _ _ e := (0, e)
}.

#[global] Instance sim_apart : SignalApart sim.
Proof. done. Qed.

#[global] Instance sim_ucp : Ucp sim := {
  MBEDBL_UCP_PrepareWrite _ _ e := (0, e <| pending := [] |>);
  MBEDBL_UCP_Write bs e := (0, e <| pending ::= fun p => p ++ bs |>);
  MBEDBL_UCP_FinalizeWrite e := (0, e <| image := Some (pending e) |>)
}.

#[global, refine] Instance sim_storage : UcpStorage sim := {| ucp_pending := pending; ucp_image := image |}.
Proof.
  all: try done. split; try done. split; [by intros e|]. intros e1 e2 e3 [H1 H2] [H3 H4]. split; congruence.
Defined.

#[global] Instance sim_works : UcpWorks sim.
Proof. by split. Qed.

#[global] Instance sim_user : DmUser sim := fun _ _ e => (0, e).

Definition file : list Z := (fun i => Z.of_nat i) <$> seq 0 100.
Definition host : list Z := lit "fw.example.com:443".
Definition path : list Z := lit "/a.bin".
Definition header : list Z := lit "Accept: text/html,application/xhtml+xml,application/xml;q=0.9,*/*;q=0.8" ++ CRLF
  ++ lit "Range: bytes=0-" ++ CRLF.
Definition status_line : list Z := lit "HTTP/1.1 200 OK".
Definition headers : list Z :=
  lit "Server: x" ++ CRLF ++ lit "Content-Length: " ++ dec_digits 20 100 ++ CRLF ++ lit "Connection: close" ++ CRLF ++ CRLF.
Definition response (body : list Z) : list Z := status_line ++ CRLF ++ headers ++ body.

(** The announcement of [file]. *)
Definition push : list Z :=
  json_lit "{'code':'1000','data':{'size':100,'version':'v2','url':'https://fw.example.com:443/a.bin','md5':'"
  ++ md5_hex file ++ json_lit "'},'id':1,'message':'success'}".

Definition vars0 : dm_vars :=
  DmVars None (lit "pk" ++ [0]) (lit "dev" ++ [0]) 0 0 g_dm_opt_init 0 sdk_impl_ctx_zero 0.

Notation W := (sim * dm_vars)%type.

(** The device subscribes, and the announcement comes on the topic of upgrades. *)
Definition announce (body : list Z) : option (Z * W) :=
  (dm_ota_sub;;
   with_handle (fun h => ota_callback None h (push ++ [0]) (Z.of_nat (List.length push)) IOTX_OTA_TOPIC_TYPE_DEVICE_UPGRATE))
    (Sim [] (response body) [] None [], vars0).

Definition ready (body : list Z) : W :=
  default (Sim [] [] [] None [], vars0) (snd <$> announce body).
Example announce_ok : fst <$> announce file = Some 0 /\ option_map state (ota_handle (snd (ready file))) = Some IOT_OTAS_PUSHED.
Proof. vm_compute. split; reflexivity. Qed.

Definition device (body : list Z) : sim := fst (ready body).
Definition vars (body : list Z) : dm_vars := snd (ready body).
Definition handle (body : list Z) : OTA_Struct_t dm_event := default ota_zero (ota_handle (vars body)).
Definition buffer : list Z := zeros 40.

Definition perform (body : list Z) (turns : nat) : option (Z * list Z * W) :=
  dm_fota_perform_sync None turns buffer 40 (device body, vars body).

(** What is left of the buffer, the device and the variables. *)
Definition after (body : list Z) : list Z * W :=
  default ([], ready body) ((fun '(_, o, w) => (o, w)) <$> perform body 3).

(** What the server may send in place of the file. *)
Definition other : list Z := replicate 100 7.

Definition result (body : list Z) (turns : nat) : option (Z * option (list Z) * nat) :=
  (fun '(ret, _, w) => (ret, image (fst w), List.length (published (fst w)))) <$> perform body turns.

Example perform_good : result file 3 = Some (SUCCESS_RETURN, Some file, 2%nat).
Proof. vm_compute. reflexivity. Qed.

(** Another file of the same length is the image of the device behind the check. *)
Example perform_bad : result other 3 = Some (STATE_DEV_MODEL_OTA_IMAGE_CHECK_FAILED, Some other, 4%nat).
Proof. vm_compute. reflexivity. Qed.

(** The handle stays fetched when the check has failed: the reset is refused. *)
Example state_kept :
  state <$> ota_handle (snd (snd (after other))) = Some IOT_OTAS_FETCHED.
Proof. vm_compute. reflexivity. Qed.

(** A second check of the same firmware follows the pointer to the context that was freed. *)
Example check_twice : ioctl_u32 IOT_OTAG_CHECK_FIRMWARE 0 (snd (after file)) = None.
Proof. vm_compute. reflexivity. Qed.

(** A configuration has no version: the writer of the mbed wrapper follows the null pointer
    when its first piece is stored. *)
Definition config : list Z :=
  json_lit "{'id':1,'params':{'configId':'c','configSize':100,'sign':'0','signMethod':'Md5','url':'https://fw.example.com:443/a.bin','getType':'file'}}".

Definition configured : option (Z * W) :=
  (dm_ota_sub;;
   with_handle (fun h => ota_callback None h (config ++ [0]) (Z.of_nat (List.length config)) IOTX_OTA_TOPIC_TYPE_CONFIG_PUSH))
    (Sim [] (response file) [] None [], vars0).

Example config_stored :
  (fst <$> configured, dm_cota_perform_sync None 3 buffer 40 (default (ready file) (snd <$> configured))) = (Some 0, None).
Proof. vm_compute. reflexivity. Qed.
End OtaSim.

Import OtaSim.

Lemma buffer_bytes : bytes_ok buffer.
Proof. by apply bytes_ok_check. Qed.

Lemma file_bytes : bytes_ok file.
Proof. by apply bytes_ok_check. Qed.

Lemma fota_integrity_witness :
  dm_fota_perform_sync None 3 buffer 40 (device file, vars file)
    = Some ((SUCCESS_RETURN, fst (after file)), (fst (snd (after file)), snd (snd (after file))))
  /\ exists m, bytes_ok m /\ size_file (handle file) <= mlen m
    /\ arr_str (md5sum (handle file)) = Some (md5_hex m)
    /\ finalised m (ucp_image (device file)) (fst (snd (after file))).
Proof.
  split; [vm_compute; reflexivity|].
  apply (fota_integrity None 3 buffer 40 (device file) (vars file) (handle file) (fst (after file))
    (fst (snd (after file))) (snd (snd (after file)))).
  - vm_compute. reflexivity.
  - vm_compute. reflexivity.
  - exact buffer_bytes.
  - vm_compute. reflexivity.
  - vm_compute. reflexivity.
Defined.

Lemma fota_commits_unchecked_witness :
  dm_fota_perform_sync None 3 buffer 40 (device other, vars other)
    = Some ((STATE_DEV_MODEL_OTA_IMAGE_CHECK_FAILED, fst (after other)), (fst (snd (after other)), snd (snd (after other))))
  /\ exists m, ucp_image (fst (snd (after other))) = Some m /\ size_file (handle other) <= mlen m
    /\ arr_str (md5sum (handle other)) <> Some (md5_hex m).
Proof.
  split; [vm_compute; reflexivity|].
  apply (fota_commits_unchecked None 3 buffer 40 (device other) (vars other) (handle other) (fst (after other))
    (fst (snd (after other))) (snd (snd (after other)))).
  - reflexivity.
  - vm_compute. reflexivity.
  - vm_compute. reflexivity.
  - exact buffer_bytes.
  - vm_compute. reflexivity.
  - vm_compute. reflexivity.
Defined.

Lemma sim_head : head_ok status_line headers (Z.of_nat (List.length file)).
Proof.
  split.
  - by apply cstr_ok_check.
  - reflexivity.
  - split; apply Nat.leb_le; reflexivity.
  - exists 200. reflexivity.
  - by apply cstr_ok_check.
  - apply Nat.leb_le. reflexivity.
  - reflexivity.
  - split; [discriminate|reflexivity].
  - exists (lit "Server: x" ++ CRLF), (lit "Connection: close" ++ CRLF ++ CRLF). split; reflexivity.
Qed.

Lemma sim_announced : announced host path header status_line headers file (md5sum (handle file)) (handle file)
    (device file, vars file).
Proof.
  split; [|by vm_compute]. split; [left; vm_compute; reflexivity|]. split; [vm_compute; discriminate|].
  split; [vm_compute; reflexivity|]. split; [vm_compute; reflexivity|]. split; [apply Nat.ltb_lt; reflexivity|].
  split.
  - split; [eexists _, _; split; vm_compute; reflexivity|by left].
  - eexists. split; [vm_compute; reflexivity|]. split; [exists (lit "https://fw.example.com:443/a.bin"); split; vm_compute; reflexivity|].
    split; [vm_compute; reflexivity|]. left. repeat split; vm_compute; reflexivity.
Qed.

Lemma fota_delivers_witness :
  exists output' w',
    dm_fota_perform_sync None 3 buffer 40 (device file, vars file) = Some ((SUCCESS_RETURN, output'), w')
    /\ ucp_image (fst w') = Some file
    /\ out_of (fst w') = out_of (device file) ++ request_head HTTPCLIENT_GET host path (Some header) None None.
Proof.
  apply (fota_delivers None host path header status_line headers file (md5sum (handle file)) 40 3 buffer (device file)
    (vars file) (handle file)).
  - exact sim_head.
  - apply Nat.ltb_lt. vm_compute. reflexivity.
  - exact file_bytes.
  - reflexivity.
  - vm_compute. reflexivity.
  - vm_compute. reflexivity.
  - exact sim_announced.
  - lia.
  - reflexivity.
  - exact buffer_bytes.
  - vm_compute. discriminate.
Defined.
