(* ===== verification/Dynreg.v ===== *)
(** * Dynreg: dynamic registration

    [eng/dynamic_register/dynreg.c], without [MQTT_DYNAMIC_REGISTER]: a device that knows
    the secret of its product asks the authentication server for its own secret, over one
    transfer of [InfraHttpc].  The request is signed with the product secret; the answer is
    read by a scanner of its own, not by [InfraJson].

    A string argument is its content without the NUL; [payload] of the scanner is the object
    from the pointer on, NUL and what follows included.  [None] is a read or a write outside
    an object, or a conversion without its argument. *)

From S2P Require Import Prelude.
From S2P Require Import CString.
From S2P Require Import InfraHash.
From S2P Require Import InfraSha256.
From S2P Require Import Hal.
From S2P Require Import InfraState.
From S2P Require Import InfraString.
From S2P Require Import InfraCompat.
From S2P Require Import Eff.
From S2P Require Import InfraHttpc.
From S2P Require Import HttpSpec.

Definition STATE_USER_INPUT_HTTP_DOMAIN : Z := -263.
Definition HTTP_RESPONSE_PAYLOAD_LEN : Z := 256.

Definition DYNREG_RANDOM_KEY : list Z := lit "8Ygb7ULYh53B6OA".
Definition DYNREG_SIGN_METHOD_HMACSHA256 : list Z := lit "hmacsha256".

(** [g_infra_http_domain], with the custom entry that [IOT_Ioctl] sets; [None] outside the
    table. *)
Definition g_infra_http_domain (custom : option (list Z)) (region : Z) : option (option (list Z)) :=
  if region <? 0 then None
  else [Some (lit "iot-auth.cn-shanghai.aliyuncs.com"); Some (lit "iot-auth.ap-southeast-1.aliyuncs.com");
        Some (lit "iot-auth.ap-southeast-1.aliyuncs.com"); Some (lit "iot-auth.ap-southeast-1.aliyuncs.com");
        Some (lit "iot-auth.ap-southeast-1.aliyuncs.com"); custom] !! Z.to_nat region.

(** [iotx_dev_meta_info_t]: three strings, and the whole array of the secret. *)
Record iotx_dev_meta_info_t := MetaInfo {
  meta_product_key : list Z;
  meta_product_secret : list Z;
  meta_device_name : list Z;
  meta_device_secret : list Z
}.

#[export] Instance eta_meta_info : Eta iotx_dev_meta_info_t := fun m =>
  MetaInfo (meta_product_key m) (meta_product_secret m) (meta_device_name m) (meta_device_secret m).

(** ** The answer *)

(** [payload[i]] *)
Definition char_of (payload : list Z) (i : Z) : option Z := if i <? 0 then None else payload !! Z.to_nat i.

(** A loop over [payload] that stops at a character: [k] is the number of turns to the end
    of the string. *)
Fixpoint scan (stop : Z -> bool) (k : nat) (payload : list Z) (idx : Z) : option Z :=
  match k with
  | O => Some idx
  | S k' => c ← char_of payload idx; if stop c then Some idx else scan stop k' payload (idx + 1)
  end.

Definition turns (n idx : Z) : nat := Z.to_nat (n - idx).
Definition is_quote (c : Z) : bool := c =? 34.
Definition no_digit (c : Z) : bool := (c <? 48) || (57 <? c).

Fixpoint scan_braces (k : nat) (payload : list Z) (idx bracket_cnt : Z) : option Z :=
  match k with
  | O => Some idx
  | S k' =>
      c ← char_of payload idx;
      let bracket_cnt := if c =? 123 then bracket_cnt + 1
                         else if c =? 125 then bracket_cnt - 1 else bracket_cnt in
      if bracket_cnt =? 0 then Some idx else scan_braces k' payload (idx + 1) bracket_cnt
  end.

(** [*pos], [*start] and [*end], of a string of [n] characters. *)
Definition _parse_string_value (payload : list Z) (n pos : Z) : option (Z * Z * Z) :=
  idx ← scan is_quote (turns n (pos + 1)) payload (pos + 1);
  Some (idx, pos + 1, idx - 1).

(** The code, [*pos], [*start] and [*end]; [key] has at least four characters. *)
Definition _parse_dynreg_value (payload : list Z) (n : Z) (key : list Z) (pos start end_ : Z)
    : option (Z * (Z * Z * Z)) :=
  if bool_decide (take 4 key = lit "code") then
    idx ← scan no_digit (turns n pos) payload pos;
    Some (0, (idx - 1, pos, idx - 1))
  else if bool_decide (take 4 key = lit "data") then
    c ← char_of payload pos;
    if negb (c =? 123) then Some (-1, (pos, start, end_))
    else
      idx ← scan_braces (turns n pos) payload pos 0;
      Some (0, (idx, pos, idx))
  else
    c ← char_of payload pos;
    if negb (c =? 34) then Some (-1, (pos, start, end_))
    else
      r ← _parse_string_value payload n pos;
      Some (0, r).

(** [memcmp(key, &payload[off], strlen(key)) == 0] *)
Definition key_at (payload : list Z) (off : Z) (key : list Z) : option bool :=
  if (off <? 0) || (Z.of_nat (List.length payload) <? off + Z.of_nat (List.length key)) then None
  else Some (bool_decide (take (List.length key) (drop (Z.to_nat off) payload) = key)).

(** The loop of [_parse_dynreg_result]: the code, [*start] and [*end], which a value that is
    not the one asked for leaves changed. *)
Fixpoint result_loop (fuel : nat) (payload : list Z) (n : Z) (key : list Z) (idx start end_ : Z)
    : option (Z * (Z * Z)) :=
  match fuel with
  | O => None
  | S fuel' =>
      if n <=? idx then Some (-1, (start, end_))
      else
        c ← char_of payload idx;
        if c =? 34 then
          pos ← scan is_quote (turns n (idx + 1)) payload (idx + 1);
          if pos =? n then Some (-1, (start, end_))
          else
            c ← char_of payload (pos + 1);
            if negb (c =? 58) then Some (-1, (start, end_))
            else
              '(res, (pos, start, end_)) ← _parse_dynreg_value payload n key (pos + 2) start end_;
              if res =? 0 then
                same ← key_at payload (idx + 1) key;
                if same : bool then Some (0, (start, end_))
                else result_loop fuel' payload n key (pos + 1) start end_
              else result_loop fuel' payload n key (pos + 1) start end_
        else result_loop fuel' payload n key (idx + 1) start end_
  end.

Definition _parse_dynreg_result (payload : list Z) (key : list Z) (start end_ : Z)
    : option (Z * (Z * Z)) :=
  n ← arr_strlen payload;
  result_loop (S n) payload (Z.of_nat n) key 0 start end_.

(** ** The request *)

Definition dynamic_register_sign_fmt : list Z := lit "deviceName%sproductKey%srandom%s".
Definition dynamic_register_format : list Z :=
  lit "productKey=%s&deviceName=%s&random=%s&sign=%s&signMethod=%s".

Section Register.
Context {E : Type} `{!Hal E}.

(** The handler of [ITE_STATE_HTTP_COMM] that is registered, if one is. *)
Variable state_handler : option (Z -> list Z -> E -> E).
(** [iotx_ca_crt] *)
Variable ca_crt : option (list Z).

(** [iotx_state_event(ITE_STATE_HTTP_COMM, code, msg_format)] without further arguments: the
    text of at most 63 characters is formatted for a handler only. *)
Definition state_event (code : Z) (msg_format : list Z) : eff E unit :=
  match state_handler with
  | None => mret tt
  | Some handler =>
      msg_format ← eff_lift (arr_str msg_format);
      message ← eff_lift (sprintf msg_format []);
      eff_act (handler code (snprintf_text 64 message))
  end.

(** The code, [random] and [sign]. *)
Definition _calc_dynreg_sign (product_key product_secret device_name : list Z) (sign : list Z)
    : eff E (Z * list Z * list Z) :=
  let random := DYNREG_RANDOM_KEY in
  let sign_source_len := Z.of_nat (List.length dynamic_register_sign_fmt + List.length device_name
                                   + List.length product_key + List.length random) + 1 in
  ok ← eff_malloc sign_source_len;
  if negb ok then mret (STATE_SYS_DEPEND_MALLOC, random, sign)
  else
    text ← eff_lift (sprintf dynamic_register_sign_fmt [PS device_name; PS product_key; PS random]);
    let sign_source := snprintf_text sign_source_len text in
    signnum ← eff_lift (utils_hmac_sha256 (Some sign_source) (mlen sign_source)
                          (Some product_secret) (mlen product_secret) true);
    signnum ← eff_lift signnum;
    sign ← buf_store sign 0 (infra_hex2str signnum);
    mret (STATE_SUCCESS, random, sign).

Record dynreg_http_response_t := DynregResponse { response_payload : list Z; response_payload_len : Z }.

(** The result [-1] is not looked at by [wrapper_http_perform].  The sum is a [size_t]. *)
Definition _recv_callback (ptr : list Z) (length total_length : Z) (response : dynreg_http_response_t)
    : option dynreg_http_response_t :=
  n ← arr_strlen (response_payload response);
  if u32 (response_payload_len response) <? u32 (Z.of_nat n + length) then Some response
  else if (length <? 0) || (Z.of_nat (List.length ptr) <? length)
          || (Z.of_nat (List.length (response_payload response)) <? Z.of_nat n + length) then None
  else Some (DynregResponse
               (take n (response_payload response) ++ take (Z.to_nat length) ptr
                ++ drop (n + Z.to_nat length) (response_payload response))
               (response_payload_len response)).

(** What is done with the answer: the code and [device_secret]. *)
Definition _read_dynreg_answer (payload device_secret : list Z) : eff E (Z * list Z) :=
  '(_, (start, end_)) ← eff_lift (_parse_dynreg_result payload (lit "code") 0 0);
  code ← buf_sub payload start 3;
  if negb (bool_decide (code = lit "200")) then
    text ← buf_from payload start;
    state_event STATE_HTTP_DYNREG_FAIL_RESP text;;
    mret (STATE_HTTP_DYNREG_FAIL_RESP, device_secret)
  else
    '(_, (data_start, data_end)) ← eff_lift (_parse_dynreg_result payload (lit "data") 0 0);
    data ← buf_from payload (data_start + 1);
    '(_, (start, end_)) ← eff_lift (_parse_dynreg_result data (lit "deviceSecret") start end_);
    if IOTX_DEVICE_SECRET_LEN <? end_ - start + 1 then mret (STATE_HTTP_DYNREG_INVALID_DS, device_secret)
    else
      secret ← buf_sub payload (data_start + 1 + start) (end_ - start + 1);
      device_secret ← buf_store device_secret 0 secret;
      mret (STATE_SUCCESS, device_secret).

(** ** The transfer *)

Definition dynreg_url_format : list Z := lit "http://%s/auth/register/device".
Definition dynreg_header : list Z :=
  lit "Accept: text/xml,text/javascript,text/html,application/json" ++ CRLF
  ++ lit "Content-Type: application/x-www-form-urlencoded" ++ CRLF.

(** The code and [device_secret]. *)
Definition _fetch_dynreg_http_resp (custom : option (list Z)) (request_payload payload : list Z) (region : Z)
    (device_secret : list Z) : eff E (Z * list Z) :=
  domain ← eff_lift (g_infra_http_domain custom region);
  match domain with
  | None => mret (STATE_USER_INPUT_HTTP_DOMAIN, device_secret)
  | Some domain =>
      let url_len := Z.of_nat (List.length dynreg_url_format + List.length domain) + 1 in
      ok ← eff_malloc url_len;
      if negb ok then mret (STATE_SYS_DEPEND_MALLOC, device_secret)
      else
        url ← eff_lift (sprintf dynreg_url_format [PS domain]);
        let url := snprintf_text url_len url in
        let response := DynregResponse payload HTTP_RESPONSE_PAYLOAD_LEN in
        h ← wrapper_http_init;
        match h with
        | None => mret (STATE_USER_INPUT_INVALID, device_secret)
        | Some h =>
            '(_, h) ← wrapper_http_setopt h (Some (IOTX_HTTPOPT_URL url));
            '(_, h) ← wrapper_http_setopt h (Some (IOTX_HTTPOPT_PORT 443));
            '(_, h) ← wrapper_http_setopt h (Some (IOTX_HTTPOPT_METHOD IOTX_HTTP_POST));
            '(_, h) ← wrapper_http_setopt h (Some (IOTX_HTTPOPT_HEADER dynreg_header));
            '(_, h) ← wrapper_http_setopt h (IOTX_HTTPOPT_CERT <$> ca_crt);
            '(_, h) ← wrapper_http_setopt h (Some (IOTX_HTTPOPT_TIMEOUT 10000));
            '(_, h) ← wrapper_http_setopt h (Some (IOTX_HTTPOPT_RECVCALLBACK _recv_callback));
            '(_, h) ← wrapper_http_setopt h (Some (IOTX_HTTPOPT_RECVMAXLEN HTTP_RESPONSE_PAYLOAD_LEN));
            '(_, h) ← wrapper_http_setopt h (Some (IOTX_HTTPOPT_RECVCONTEXT response));
            '(res, h) ← wrapper_http_perform h (Some request_payload) (mlen request_payload);
            wrapper_http_deinit h;;
            if res <? STATE_SUCCESS then mret (res, device_secret)
            else
              response ← eff_lift (recv_ctx h);
              _read_dynreg_answer (response_payload response) device_secret
        end
  end.

(** The code and [*meta]. *)
Definition _http_dynamic_register (custom : option (list Z)) (region : Z) (meta : iotx_dev_meta_info_t)
    : eff E (Z * iotx_dev_meta_info_t) :=
  let pk := meta_product_key meta in
  let ps := meta_product_secret meta in
  let dn := meta_device_name meta in
  if IOTX_PRODUCT_KEY_LEN <? mlen pk then mret (STATE_USER_INPUT_PK, meta)
  else if IOTX_PRODUCT_SECRET_LEN <? mlen ps then mret (STATE_USER_INPUT_PS, meta)
  else if IOTX_DEVICE_NAME_LEN <? mlen dn then mret (STATE_USER_INPUT_DN, meta)
  else
    '(res, random, sign) ← _calc_dynreg_sign pk ps dn (zeros 65);
    if res <? STATE_SUCCESS then mret (res, meta)
    else
      sign ← eff_lift (arr_str sign);
      let request_len := Z.of_nat (List.length dynamic_register_format + List.length pk + List.length dn
          + List.length random + List.length sign + List.length DYNREG_SIGN_METHOD_HMACSHA256) + 1 in
      ok ← eff_malloc request_len;
      if negb ok then mret (STATE_SYS_DEPEND_MALLOC, meta)
      else
        text ← eff_lift (sprintf dynamic_register_format
                           [PS pk; PS dn; PS random; PS sign; PS DYNREG_SIGN_METHOD_HMACSHA256]);
        ok ← eff_malloc HTTP_RESPONSE_PAYLOAD_LEN;
        if negb ok then mret (STATE_SYS_DEPEND_MALLOC, meta)
        else
          '(res, secret) ← _fetch_dynreg_http_resp custom (snprintf_text request_len text)
                             (zeros (Z.to_nat HTTP_RESPONSE_PAYLOAD_LEN)) region (meta_device_secret meta);
          let meta := meta <| meta_device_secret := secret |> in
          if res <? STATE_SUCCESS then mret (res, meta) else mret (STATE_SUCCESS, meta).

Definition IOT_Dynamic_Register (custom : option (list Z)) (region : Z) (meta : iotx_dev_meta_info_t)
    : eff E (Z * iotx_dev_meta_info_t) :=
  _http_dynamic_register custom region meta.
End Register.
