(* ===== verification/DynregSpec.v ===== *)
(** * DynregSpec: what a registration promises

    The scanner of [Dynreg] on the answers of the server, and the registration over the
    network: the request that is sent and the secret that is stored. *)

From S2P Require Import Prelude.
From S2P Require Import CString.
From S2P Require Import InfraHash.
From S2P Require Import InfraSha256.
From S2P Require Import Hal.
From S2P Require Import InfraState.
From S2P Require Import InfraString.
From S2P Require Import InfraCompat.
From S2P Require Import InfraNet.
From S2P Require Import Json.
From S2P Require Import Eff.
From S2P Require Import InfraHttpc.
From S2P Require Import HttpSpec.
From S2P Require Import Dynreg.

(** ** The scanner *)

Section Scanner.
Implicit Types p q w k v : list Z.

Lemma char_of_app p c q : char_of (p ++ c :: q) (Z.of_nat (List.length p)) = Some c.
Proof.
  unfold char_of. rewrite (proj2 (Z.ltb_ge _ 0)) by lia. rewrite Nat2Z.id, list_lookup_middle; done.
Qed.

Lemma turns_S n i : i < n -> turns n i = S (turns n (i + 1)).
Proof. intros. unfold turns. lia. Qed.

Lemma succ_app p (c : Z) : Z.of_nat (List.length p) + 1 = Z.of_nat (List.length (p ++ [c])).
Proof. rewrite length_app. cbn [List.length]. lia. Qed.

Lemma snoc_app p (c : Z) q : p ++ c :: q = (p ++ [c]) ++ q.
Proof. by rewrite <-app_assoc. Qed.

(** The loop stops at the first character that it looks for. *)
Lemma scan_found stop w : forall p c q n,
  Forall (fun x => stop x = false) w -> stop c = true ->
  Z.of_nat (List.length p + List.length w) < n ->
  scan stop (turns n (Z.of_nat (List.length p))) (p ++ w ++ c :: q) (Z.of_nat (List.length p))
  = Some (Z.of_nat (List.length p + List.length w)).
Proof.
  induction w as [|x w IH]; intros p c q n Hw Hc Hn; cbn [app List.length] in *.
  - rewrite turns_S by lia. cbn [scan]. rewrite char_of_app. cbn [mbind option_bind]. rewrite Hc. f_equal. lia.
  - inversion Hw; subst. rewrite turns_S by lia. cbn [scan]. rewrite char_of_app. cbn [mbind option_bind].
    rewrite H1, (succ_app p x), (snoc_app p x (w ++ c :: q)), IH; try done; rewrite length_app; cbn [List.length];
      [f_equal; lia|lia].
Qed.

(** Braces that do not balance end with the string. *)
Lemma scan_braces_some (k : nat) : forall payload i cnt,
  0 <= i -> i + Z.of_nat k <= Z.of_nat (List.length payload) ->
  exists idx, scan_braces k payload i cnt = Some idx.
Proof.
  induction k as [|k IH]; intros payload i cnt Hi Hk; [by eexists|]. cbn [scan_braces]. unfold char_of.
  rewrite (proj2 (Z.ltb_ge i 0)) by lia.
  destruct (payload !! Z.to_nat i) as [c|] eqn:Hl.
  2:{ apply lookup_ge_None in Hl. lia. }
  cbn [mbind option_bind]. destruct (_ =? 0); [by eexists|]. apply IH; lia.
Qed.

(** A text between quotes: bytes, none of them a quote. *)
Definition plain (s : list Z) : Prop := Forall (fun c => 0 < c < 256 /\ c <> 34) s.
Definition quoted (s : list Z) : list Z := 34 :: s ++ [34].

Lemma plain_cstr s : plain s -> cstr_ok s.
Proof. intros H. eapply Forall_impl; [exact H|]. by intros c []. Qed.

Lemma plain_unquoted s : plain s -> Forall (fun c => is_quote c = false) s.
Proof. intros H. eapply Forall_impl; [exact H|]. intros c [_ Hc]. by apply Z.eqb_neq. Qed.

Lemma plain_check s : forallb (fun c => (0 <? c) && (c <? 256) && negb (c =? 34)) s = true -> plain s.
Proof.
  intros H. apply Forall_forall. intros x Hx. rewrite forallb_forall in H.
  specialize (H x (proj1 (list_elem_of_In _ _) Hx)). lia.
Qed.

Lemma quoted_cstr s : plain s -> cstr_ok (quoted s).
Proof.
  intros H. constructor; [lia|]. apply cstr_ok_app. split; [by apply plain_cstr|]. repeat constructor.
Qed.

Lemma result_skip fuel p c q n key st en :
  c <> 34 -> Z.of_nat (List.length p) < n ->
  result_loop (S fuel) (p ++ c :: q) n key (Z.of_nat (List.length p)) st en
  = result_loop fuel (p ++ c :: q) n key (Z.of_nat (List.length (p ++ [c]))) st en.
Proof.
  intros Hc Hn. cbn [result_loop]. rewrite (proj2 (Z.leb_gt n _)) by lia. rewrite char_of_app.
  cbn [mbind option_bind]. rewrite (proj2 (Z.eqb_neq c 34)) by done. by rewrite <-succ_app.
Qed.

(** A key and its colon. *)
Lemma result_key fuel p k rest n key st en :
  plain k -> Z.of_nat (List.length p + List.length k) + 2 < n ->
  result_loop (S fuel) (p ++ quoted k ++ 58 :: rest) n key (Z.of_nat (List.length p)) st en
  = ('(res, (pos, st, en)) ← _parse_dynreg_value (p ++ quoted k ++ 58 :: rest) n key
        (Z.of_nat (List.length p + List.length k) + 3) st en;
     if res =? 0 then
       same ← key_at (p ++ quoted k ++ 58 :: rest) (Z.of_nat (List.length p) + 1) key;
       if same : bool then Some (0, (st, en))
       else result_loop fuel (p ++ quoted k ++ 58 :: rest) n key (pos + 1) st en
     else result_loop fuel (p ++ quoted k ++ 58 :: rest) n key (pos + 1) st en).
Proof.
  intros Hk Hn. cbn [result_loop]. rewrite (proj2 (Z.leb_gt n _)) by lia.
  set (payload := p ++ quoted k ++ 58 :: rest).
  assert (char_of payload (Z.of_nat (List.length p)) = Some 34) as -> by apply char_of_app.
  cbn [mbind option_bind]. rewrite Z.eqb_refl.
  assert (payload = (p ++ [34]) ++ k ++ 34 :: 58 :: rest) as Hp
    by (unfold payload, quoted; cbn [app]; by rewrite <-!app_assoc).
  assert (payload = (p ++ [34] ++ k ++ [34]) ++ 58 :: rest) as Hp2
    by (unfold payload, quoted; cbn [app]; rewrite <-!app_assoc; cbn [app]; by rewrite <-!app_assoc).
  rewrite (succ_app p 34). rewrite Hp at 1.
  rewrite scan_found; [|by apply plain_unquoted|done|rewrite length_app; cbn [List.length]; lia].
  cbn [mbind option_bind]. rewrite <-(succ_app p 34).
  assert (List.length (p ++ [34]) = S (List.length p)) as Hl by (rewrite length_app; cbn [List.length]; lia).
  rewrite Hl. rewrite (proj2 (Z.eqb_neq _ n)) by lia.
  replace (Z.of_nat (S (List.length p) + List.length k) + 1) with (Z.of_nat (List.length (p ++ [34] ++ k ++ [34])))
    by (rewrite !length_app; cbn [List.length]; lia).
  rewrite Hp2 at 1. rewrite char_of_app. cbn [mbind option_bind]. rewrite Z.eqb_refl. cbn [negb].
  replace (Z.of_nat (S (List.length p) + List.length k) + 2) with (Z.of_nat (List.length p + List.length k) + 3) by lia.
  done.
Qed.

(** The value of a key that is neither the code nor the data. *)
Lemma value_string p v q n key st en :
  take 4 key <> lit "code" -> take 4 key <> lit "data" -> plain v ->
  Z.of_nat (List.length p + List.length v) + 1 < n ->
  _parse_dynreg_value (p ++ quoted v ++ q) n key (Z.of_nat (List.length p)) st en
  = Some (0, (Z.of_nat (List.length p + List.length v) + 1, Z.of_nat (List.length p) + 1,
              Z.of_nat (List.length p + List.length v))).
Proof.
  intros Hc Hd Hv Hn. unfold _parse_dynreg_value. rewrite !bool_decide_false by done.
  assert (p ++ quoted v ++ q = p ++ 34 :: v ++ 34 :: q) as -> by (unfold quoted; cbn [app]; by rewrite <-!app_assoc).
  rewrite char_of_app. cbn [mbind option_bind]. rewrite Z.eqb_refl. cbn [negb]. unfold _parse_string_value.
  rewrite (succ_app p 34), (snoc_app p 34 (v ++ 34 :: q)).
  rewrite scan_found; [|by apply plain_unquoted|done|rewrite length_app; cbn [List.length]; lia].
  cbn [mbind option_bind]. rewrite length_app. cbn [List.length]. do 3 f_equal; [f_equal; lia|lia].
Qed.

Lemma key_at_ok p x key :
  (List.length key <= List.length x)%nat ->
  key_at (p ++ x) (Z.of_nat (List.length p)) key = Some (bool_decide (take (List.length key) x = key)).
Proof.
  intros Hl. unfold key_at. rewrite (proj2 (Z.ltb_ge _ 0)), (proj2 (Z.ltb_ge _ _)) by (rewrite ?length_app; lia).
  cbn [orb]. by rewrite Nat2Z.id, drop_app_length.
Qed.

(** ** Answers *)

(** A member with a string value, and members each followed by a comma. *)
Definition member (m : list Z * list Z) : list Z := quoted (fst m) ++ 58 :: quoted (snd m).
Definition members (ms : list (list Z * list Z)) : list Z := concat ((fun m => member m ++ [44]) <$> ms).

Definition DS : list Z := lit "deviceSecret".

(** A member before the secret. *)
Definition other_member (m : list Z * list Z) : Prop :=
  plain (fst m) /\ plain (snd m) /\ take 12 (fst m) <> DS.

Lemma quoted_length v : List.length (quoted v) = (List.length v + 2)%nat.
Proof. unfold quoted. cbn [List.length]. rewrite length_app. cbn [List.length]. lia. Qed.

Lemma DS_plain : plain DS.
Proof. by apply plain_check. Qed.

(** A key that ends before it differs is not the one looked for. *)
Lemma other_key k r : take 12 k <> DS -> take 12 (k ++ 34 :: r) <> DS.
Proof.
  intros Hk Heq. destruct (decide (12 <= List.length k)%nat) as [Hl|Hl].
  - apply Hk. by rewrite take_app_le in Heq by lia.
  - assert (DS !! List.length k = Some 34) as Hq.
    { rewrite <-Heq, lookup_take, decide_True by lia. by apply list_lookup_middle. }
    pose proof DS_plain as Hp. unfold plain in Hp. rewrite Forall_lookup in Hp. by destruct (Hp _ _ Hq).
Qed.

End Scanner.

(** Lengths of texts put together. *)
Ltac lens := repeat first [rewrite length_app | rewrite quoted_length | progress cbn [List.length]];
  change (List.length DS) with 12%nat.
Ltac lens_in H := repeat first [rewrite length_app in H | rewrite quoted_length in H | progress cbn [List.length] in H];
  change (List.length DS) with 12%nat in H.
Ltac join_texts := rewrite <-?app_assoc; cbn [app]; rewrite <-?app_assoc; cbn [app]; by rewrite <-?app_assoc.

Lemma find_secret ms : forall fuel p secret tail n st en,
  Forall other_member ms -> plain secret -> (2 * List.length ms < fuel)%nat ->
  Z.of_nat (List.length (p ++ members ms ++ quoted DS ++ 58 :: quoted secret)) <= n ->
  result_loop fuel (p ++ members ms ++ quoted DS ++ 58 :: quoted secret ++ tail) n DS (Z.of_nat (List.length p)) st en
  = Some (0, (Z.of_nat (List.length (p ++ members ms)) + 16,
              Z.of_nat (List.length (p ++ members ms)) + 15 + Z.of_nat (List.length secret))).
Proof.
  induction ms as [|m ms IH]; intros fuel p secret tail n st en Hms Hs Hf Hn; lens_in Hn; lens_in Hf.
  - change (members []) with (@nil Z) in *. rewrite app_nil_r. cbn [app List.length] in *.
    destruct fuel as [|fuel]; [lia|].
    rewrite result_key; [|apply DS_plain|lens; lia].
    assert (p ++ quoted DS ++ 58 :: quoted secret ++ tail = (p ++ quoted DS ++ [58]) ++ quoted secret ++ tail) as Heq
      by join_texts.
    assert (List.length (p ++ quoted DS ++ [58%Z]) = List.length p + 15)%nat as Hl by (lens; lia).
    replace (Z.of_nat (List.length p + List.length DS) + 3) with (Z.of_nat (List.length (p ++ quoted DS ++ [58])))
      by (rewrite Hl; lens; lia).
    rewrite Heq at 1. rewrite value_string; [|discriminate|discriminate|done|rewrite Hl; lia].
    cbn [mbind option_bind]. rewrite Z.eqb_refl. rewrite (succ_app p 34).
    replace (p ++ quoted DS ++ 58 :: quoted secret ++ tail)
      with ((p ++ [34]) ++ DS ++ [34] ++ 58 :: quoted secret ++ tail)
      by (unfold quoted at 2; join_texts).
    rewrite key_at_ok by (lens; lia). rewrite take_app_length, bool_decide_true by done.
    cbn [mbind option_bind]. rewrite Hl. do 3 f_equal; lia.
  - inversion Hms as [|? ? (Hk & Hv & Hne) Hms']; subst. destruct m as [k v]. cbn [fst snd] in *.
    set (rest := quoted DS ++ 58 :: quoted secret ++ tail).
    assert (members ((k, v) :: ms) = quoted k ++ 58 :: quoted v ++ 44 :: members ms) as Hm
      by (change (members ((k, v) :: ms)) with ((member (k, v) ++ [44]) ++ members ms);
          unfold member; cbn [fst snd]; join_texts).
    rewrite Hm in Hn |- *. lens_in Hn. destruct fuel as [|[|fuel]]; [lia..|].
    assert (p ++ (quoted k ++ 58 :: quoted v ++ 44 :: members ms) ++ rest
            = p ++ quoted k ++ 58 :: (quoted v ++ 44 :: members ms ++ rest)) as -> by join_texts.
    rewrite result_key; [|done|lia].
    set (q := 44 :: members ms ++ rest).
    assert (p ++ quoted k ++ 58 :: quoted v ++ q = (p ++ quoted k ++ [58]) ++ quoted v ++ q) as Heq by join_texts.
    assert (List.length (p ++ quoted k ++ [58%Z]) = List.length p + List.length k + 3)%nat as Hl by (lens; lia).
    replace (Z.of_nat (List.length p + List.length k) + 3) with (Z.of_nat (List.length (p ++ quoted k ++ [58]))) by lia.
    rewrite Heq at 1. rewrite value_string; [|discriminate|discriminate|done|rewrite Hl; lia].
    cbn [mbind option_bind]. rewrite Z.eqb_refl. rewrite (succ_app p 34).
    replace (p ++ quoted k ++ 58 :: quoted v ++ q) with ((p ++ [34]) ++ k ++ 34 :: 58 :: quoted v ++ q)
      by (unfold quoted at 2; join_texts).
    rewrite key_at_ok by (unfold q, rest; lens; lia).
    change (List.length DS) with 12%nat. rewrite bool_decide_false by (by apply other_key). cbn [mbind option_bind].
    set (p1 := (p ++ [34]) ++ k ++ 34 :: 58 :: quoted v).
    assert ((p ++ [34]) ++ k ++ 34 :: 58 :: quoted v ++ q = p1 ++ 44 :: members ms ++ rest) as ->
      by (unfold p1, q; join_texts).
    assert (List.length p1 = List.length p + List.length k + List.length v + 5)%nat as Hl1 by (unfold p1; lens; lia).
    replace (Z.of_nat (List.length (p ++ quoted k ++ [58]) + List.length v) + 1 + 1) with (Z.of_nat (List.length p1)) by lia.
    rewrite result_skip; [|done|lia]. rewrite snoc_app. unfold rest.
    rewrite IH; [|done|done|lia|lens; rewrite Hl1; lia]. lens. rewrite Hl1. do 3 f_equal; lia.
Qed.

(** What comes before the members of the data. *)
Definition answer_head : list Z := json_lit "{'code':200,'data':{".

Section Answer.
Variables (rest : list Z) (n : Z).
Hypothesis Hn : 20 < n <= Z.of_nat (List.length (answer_head ++ rest)).

Lemma find_code fuel st en :
  (2 <= fuel)%nat -> result_loop fuel (answer_head ++ rest) n (lit "code") 0 st en = Some (0, (8, 10)).
Proof.
  intros Hf. destruct fuel as [|[|fuel]]; [lia..|].
  change (answer_head ++ rest) with ([] ++ 123 :: (drop 1 answer_head ++ rest)).
  change 0 with (Z.of_nat (List.length (@nil Z))) at 1.
  rewrite result_skip; [|done|cbn [List.length]; lia]. cbn [app].
  change (123 :: drop 1 answer_head ++ rest) with ([123] ++ quoted (lit "code") ++ 58 :: (drop 8 answer_head ++ rest)).
  rewrite result_key; [|by apply plain_check|change (List.length (lit "code")) with 4%nat; cbn [List.length]; lia].
  unfold _parse_dynreg_value at 1. rewrite bool_decide_true by done.
  change ([123] ++ quoted (lit "code") ++ 58 :: drop 8 answer_head ++ rest)
    with (take 8 answer_head ++ lit "200" ++ 44 :: (drop 12 answer_head ++ rest)).
  change (Z.of_nat (List.length [123] + List.length (lit "code")) + 3) with (Z.of_nat (List.length (take 8 answer_head))).
  rewrite scan_found; [|by repeat constructor|done|change (List.length (take 8 answer_head) + List.length (lit "200"))%nat with 11%nat; lia].
  cbn [mbind option_bind]. rewrite Z.eqb_refl.
  change (Z.of_nat (List.length [123]) + 1) with (Z.of_nat (List.length [123; 34])).
  change (take 8 answer_head ++ lit "200" ++ 44 :: (drop 12 answer_head ++ rest))
    with ([123; 34] ++ (drop 2 answer_head ++ rest)).
  rewrite key_at_ok; [|rewrite length_app; change (List.length (drop 2 answer_head)) with 18%nat; cbn; lia].
  done.
Qed.

Lemma find_data fuel st en :
  (7 <= fuel)%nat ->
  exists e, result_loop fuel (answer_head ++ rest) n (lit "data") 0 st en = Some (0, (19, e)).
Proof.
  intros Hf. do 7 (destruct fuel as [|fuel]; [lia|]).
  change (answer_head ++ rest) with ([] ++ 123 :: (drop 1 answer_head ++ rest)).
  change 0 with (Z.of_nat (List.length (@nil Z))) at 1.
  rewrite result_skip; [|done|cbn [List.length]; lia]. cbn [app].
  change (123 :: drop 1 answer_head ++ rest) with ([123] ++ quoted (lit "code") ++ 58 :: (drop 8 answer_head ++ rest)).
  rewrite result_key; [|by apply plain_check|change (List.length (lit "code")) with 4%nat; cbn [List.length]; lia].
  unfold _parse_dynreg_value at 1. rewrite bool_decide_false by done. rewrite bool_decide_true by done.
  change (char_of _ (Z.of_nat (List.length [123] + List.length (lit "code")) + 3)) with (Some 50).
  cbn [mbind option_bind]. change (negb (50 =? 123)) with true. cbn iota. cbn [mbind option_bind].
  change (-1 =? 0) with false. cbn iota.
  change (Z.of_nat (List.length [123] + List.length (lit "code")) + 3 + 1) with (Z.of_nat (List.length (take 9 answer_head))).
  change ([123] ++ quoted (lit "code") ++ 58 :: drop 8 answer_head ++ rest)
    with (take 9 answer_head ++ 48 :: (drop 10 answer_head ++ rest)).
  rewrite result_skip; [|done|change (List.length (take 9 answer_head)) with 9%nat; lia].
  change (take 9 answer_head ++ 48 :: drop 10 answer_head ++ rest)
    with (take 10 answer_head ++ 48 :: (drop 11 answer_head ++ rest)).
  change (take 9 answer_head ++ [48]) with (take 10 answer_head).
  rewrite result_skip; [|done|change (List.length (take 10 answer_head)) with 10%nat; lia].
  change (take 10 answer_head ++ 48 :: drop 11 answer_head ++ rest)
    with (take 11 answer_head ++ 44 :: (drop 12 answer_head ++ rest)).
  change (take 10 answer_head ++ [48]) with (take 11 answer_head).
  rewrite result_skip; [|done|change (List.length (take 11 answer_head)) with 11%nat; lia].
  change (take 11 answer_head ++ [44]) with (take 12 answer_head).
  change (take 11 answer_head ++ 44 :: drop 12 answer_head ++ rest)
    with (take 12 answer_head ++ quoted (lit "data") ++ 58 :: (drop 19 answer_head ++ rest)).
  rewrite result_key; [|by apply plain_check|change (List.length (take 12 answer_head)) with 12%nat; change (List.length (lit "data")) with 4%nat; lia].
  unfold _parse_dynreg_value at 1. rewrite bool_decide_false by done. rewrite bool_decide_true by done.
  change (char_of _ (Z.of_nat (List.length (take 12 answer_head) + List.length (lit "data")) + 3)) with (Some 123).
  cbn [mbind option_bind]. change (negb (123 =? 123)) with false. cbn iota.
  change (Z.of_nat (List.length (take 12 answer_head) + List.length (lit "data")) + 3) with 19.
  change (take 12 answer_head ++ quoted (lit "data") ++ 58 :: (drop 19 answer_head ++ rest)) with (answer_head ++ rest).
  destruct (scan_braces_some (turns n 19) (answer_head ++ rest) 19 0) as [idx ->]; [lia|unfold turns; lia|].
  cbn [mbind option_bind]. rewrite Z.eqb_refl. change (Z.of_nat (List.length (take 12 answer_head)) + 1)
    with (Z.of_nat (List.length (take 13 answer_head))).
  change (answer_head ++ rest) with (take 13 answer_head ++ (drop 13 answer_head ++ rest)).
  rewrite key_at_ok; [|rewrite length_app; change (List.length (drop 13 answer_head)) with 7%nat; cbn; lia].
  by exists idx.
Qed.
End Answer.

Lemma member_cstr m : other_member m -> cstr_ok (member m ++ [44]).
Proof.
  intros (Hk & Hv & _). unfold member. rewrite <-app_assoc. apply cstr_ok_app. split; [by apply quoted_cstr|].
  constructor; [lia|]. apply cstr_ok_app. split; [by apply quoted_cstr|repeat constructor].
Qed.

Lemma members_cstr ms : Forall other_member ms -> cstr_ok (members ms).
Proof.
  induction 1 as [|m ms Hm Hms IH]; [constructor|].
  change (members (m :: ms)) with ((member m ++ [44]) ++ members ms). apply cstr_ok_app. split; [by apply member_cstr|done].
Qed.

Lemma answer_members_length ms : (2 * List.length ms <= List.length (members ms))%nat.
Proof.
  induction ms as [|m ms IH]; [done|]. change (members (m :: ms)) with ((member m ++ [44]) ++ members ms).
  unfold member. lens. lia.
Qed.

(** The answer of the server: the code 200, and data whose members before the secret are
    strings; what follows the secret is not looked at. *)
Definition answer (ms : list (list Z * list Z)) (secret tail : list Z) : list Z :=
  answer_head ++ members ms ++ quoted DS ++ 58 :: quoted secret ++ tail.

Record answer_ok (ms : list (list Z * list Z)) (secret tail : list Z) : Prop := {
  an_members : Forall other_member ms;
  an_secret : plain secret;
  an_short : (List.length secret <= 64)%nat;
  an_tail : cstr_ok tail
}.

Lemma answer_cstr ms secret tail : answer_ok ms secret tail -> cstr_ok (answer ms secret tail).
Proof.
  intros [Hm Hs _ Ht]. unfold answer. apply cstr_ok_app. split; [by apply cstr_ok_check|].
  apply cstr_ok_app. split; [by apply members_cstr|]. apply cstr_ok_app. split; [apply quoted_cstr, DS_plain|].
  constructor; [lia|]. apply cstr_ok_app. split; [by apply quoted_cstr|done].
Qed.

Section Answered.
Context {E : Type}.
Variable handler : option (Z -> list Z -> E -> E).

Lemma runs_sub (buf p x q : list Z) off n (Q : list Z -> E -> Prop) e :
  buf = p ++ x ++ q -> off = Z.of_nat (List.length p) -> n = Z.of_nat (List.length x) ->
  Q x e -> runs (buf_sub buf off n) Q e.
Proof.
  intros -> -> -> HQ. unfold buf_sub. rewrite !(proj2 (Z.ltb_ge _ 0)) by lia.
  rewrite (proj2 (Z.ltb_ge _ _)) by (rewrite !length_app; lia). cbn [orb]. eapply runs_lift; [|exact HQ].
  by rewrite !Nat2Z.id, drop_app_length, take_app_length.
Qed.

Lemma read_answer_runs ms secret tail junk old (e : E) (Q : Z * list Z -> E -> Prop) :
  answer_ok ms secret tail -> (List.length secret <= List.length old)%nat ->
  Q (STATE_SUCCESS, secret ++ drop (List.length secret) old) e ->
  runs (_read_dynreg_answer handler (answer ms secret tail ++ 0 :: junk) old) Q e.
Proof.
  intros Ha Hold HQ. pose proof (answer_cstr _ _ _ Ha) as Hc. pose proof Ha as [Hms Hs Hl Ht].
  pose proof (answer_members_length ms) as Hml.
  set (data := members ms ++ quoted DS ++ 58 :: quoted secret ++ tail ++ 0 :: junk).
  assert (answer ms secret tail ++ 0 :: junk = answer_head ++ data) as Hp by (unfold answer, data; join_texts).
  assert (cstr_ok (drop 20 (answer ms secret tail))) as Hcd by (by apply Forall_drop).
  assert (data = drop 20 (answer ms secret tail) ++ 0 :: junk) as Hdata
    by (unfold data, answer; change 20%nat with (List.length answer_head); rewrite drop_app_length; join_texts).
  assert (List.length (answer ms secret tail) = 20 + List.length (drop 20 (answer ms secret tail)))%nat as Hlen.
  { rewrite length_drop. assert (20 <= List.length (answer ms secret tail))%nat; [|lia].
    unfold answer. rewrite length_app. change (List.length answer_head) with 20%nat. lia. }
  assert (List.length (drop 20 (answer ms secret tail))
          = List.length (members ms) + 17 + List.length secret + List.length tail)%nat as Hdl.
  { unfold answer. change 20%nat with (List.length answer_head). rewrite drop_app_length. lens. lia. }
  assert (List.length data = List.length (drop 20 (answer ms secret tail)) + 1 + List.length junk)%nat as Hdata_len
    by (rewrite Hdata, length_app; cbn [List.length]; lia).
  assert (20 < Z.of_nat (List.length (answer ms secret tail)) <= Z.of_nat (List.length (answer_head ++ data))) as Hn.
  { rewrite length_app. change (List.length answer_head) with 20%nat. lia. }
  unfold _read_dynreg_answer. apply runs_bind. eapply runs_lift.
  { unfold _parse_dynreg_result. rewrite arr_strlen_app by done. cbn [mbind option_bind]. rewrite Hp.
    apply find_code; [exact Hn|lia]. }
  apply runs_bind. eapply (runs_sub _ (take 8 answer_head) (lit "200") (drop 11 answer_head ++ data)); [by rewrite Hp|done|done|].
  rewrite bool_decide_true by done. cbn [negb].
  destruct (find_data data _ Hn (S (List.length (answer ms secret tail))) 0 0 ltac:(lia)) as [de Hde].
  apply runs_bind. eapply runs_lift.
  { unfold _parse_dynreg_result. rewrite arr_strlen_app by done. cbn [mbind option_bind]. rewrite Hp. exact Hde. }
  apply runs_bind. rewrite Hp. apply runs_from; [rewrite length_app; change (List.length answer_head) with 20%nat; lia|].
  change (Z.to_nat (19 + 1)) with (List.length answer_head). rewrite drop_app_length.
  apply runs_bind. eapply runs_lift.
  { unfold _parse_dynreg_result. rewrite Hdata, arr_strlen_app by done. cbn [mbind option_bind]. rewrite <-Hdata.
    apply (find_secret ms _ [] secret (tail ++ 0 :: junk)); [done|done|lia|]. cbn [app]. lens. lia. }
  cbn [app]. rewrite (proj2 (Z.ltb_ge _ _)) by (unfold IOTX_DEVICE_SECRET_LEN; lia).
  apply runs_bind. eapply (runs_sub _ (answer_head ++ members ms ++ quoted DS ++ [58; 34]) secret (34 :: tail ++ 0 :: junk)).
  { unfold data. unfold quoted at 2. join_texts. }
  { lens. change (List.length answer_head) with 20%nat. lia. }
  { lia. }
  apply runs_bind, runs_store; [lia|lia|]. apply runs_ret. exact HQ.
Qed.
End Answered.

(** ** The request *)

Definition sign_source (pk dn : list Z) : list Z :=
  lit "deviceName" ++ dn ++ lit "productKey" ++ pk ++ lit "random" ++ DYNREG_RANDOM_KEY.

(** HMAC-SHA256 with the product secret, in hexadecimal. *)
Definition signature (pk ps dn : list Z) : list Z :=
  hexadecimal upper_digits (hmac_spec Fips.sha256 ps (sign_source pk dn)).

Definition register_request (pk ps dn : list Z) : list Z :=
  lit "productKey=" ++ pk ++ lit "&deviceName=" ++ dn ++ lit "&random=" ++ DYNREG_RANDOM_KEY
  ++ lit "&sign=" ++ signature pk ps dn ++ lit "&signMethod=hmacsha256".

Record identity_ok (meta : iotx_dev_meta_info_t) : Prop := {
  id_product_key : cstr_ok (meta_product_key meta) /\ (List.length (meta_product_key meta) <= 20)%nat;
  id_product_secret : cstr_ok (meta_product_secret meta) /\ (List.length (meta_product_secret meta) <= 64)%nat;
  id_device_name : cstr_ok (meta_device_name meta) /\ (List.length (meta_device_name meta) <= 32)%nat;
  id_device_secret : List.length (meta_device_secret meta) = 65%nat
}.

Lemma hex_digit_cstr z : 0 < char_at "0123456789ABCDEF" (Z.land z 15) < 256.
Proof.
  assert (forallb (fun i => (0 <? char_at "0123456789ABCDEF" i) && (char_at "0123456789ABCDEF" i <? 256))
            (Z.of_nat <$> seq 0 16) = true) as Hall by reflexivity.
  rewrite forallb_forall in Hall. specialize (Hall (Z.land z 15)).
  assert (0 <= Z.land z 15 < 16) as Hr by (change 15 with (Z.ones 4); rewrite Z.land_ones by lia; apply Z.mod_pos_bound; lia).
  assert (In (Z.land z 15) (Z.of_nat <$> seq 0 16)) as Hin.
  { apply list_elem_of_In, list_elem_of_fmap. exists (Z.to_nat (Z.land z 15)). split; [lia|]. apply elem_of_seq. lia. }
  specialize (Hall Hin). lia.
Qed.

Lemma upper_hex_cstr l : cstr_ok (infra_hex2str l).
Proof. induction l as [|b l IH]; [constructor|]. cbn [infra_hex2str]. do 2 (constructor; [apply hex_digit_cstr|]). done. Qed.

Lemma signature_hex pk ps dn : signature pk ps dn = infra_hex2str (hmac_spec Fips.sha256 ps (sign_source pk dn)).
Proof.
  symmetry. apply hexadecimal_encoder; [done|done|by vm_compute|]. unfold hmac_spec.
  apply (digest_bytes (C := iot_sha256_context) (digest := Fips.sha256)).
Qed.

Lemma upper_hex_length l : List.length (infra_hex2str l) = (2 * List.length l)%nat.
Proof. induction l; cbn [infra_hex2str List.length]; lia. Qed.

Lemma sign_source_length pk dn :
  List.length (sign_source pk dn) = (41 + List.length pk + List.length dn)%nat.
Proof.
  unfold sign_source. rewrite !length_app. change (List.length (lit "deviceName")) with 10%nat.
  change (List.length (lit "productKey")) with 10%nat. change (List.length (lit "random")) with 6%nat.
  change (List.length DYNREG_RANDOM_KEY) with 15%nat. lia.
Qed.

Lemma sign_source_cstr pk dn : cstr_ok pk -> cstr_ok dn -> cstr_ok (sign_source pk dn).
Proof.
  intros Hp Hd. unfold sign_source. repeat (apply cstr_ok_app; split); try done; by apply cstr_ok_check.
Qed.

Lemma signature_length pk ps dn : List.length (signature pk ps dn) = 64%nat.
Proof.
  rewrite signature_hex, upper_hex_length. unfold hmac_spec.
  pose proof (digest_size (C := iot_sha256_context) (digest := Fips.sha256)) as Hd. unfold mlen in Hd.
  match goal with |- (2 * List.length (Fips.sha256 ?m))%nat = _ => specialize (Hd m) end. lia.
Qed.

(** ** The registration *)

(** Closing the connection sends nothing that is seen. *)
Class HalClose (E : Type) `{!Hal E, !HalStream E} :=
  close_out h e : out_of (HAL_SSL_Destroy h e) = out_of e.

Section Registration.
Context {E : Type} `{!Hal E, !HalStream E, !HalOnline E, !HalMemory E, !HalClose E}.
Variable handler : option (Z -> list Z -> E -> E).
Variable crt : option (list Z).

Lemma calc_sign_runs meta (e : E) (Q : Z * list Z * list Z -> E -> Prop) :
  identity_ok meta ->
  let sig := signature (meta_product_key meta) (meta_product_secret meta) (meta_device_name meta) in
  (forall e', same e e' -> Q (STATE_SUCCESS, DYNREG_RANDOM_KEY, sig ++ [0]) e') ->
  runs (_calc_dynreg_sign (meta_product_key meta) (meta_product_secret meta) (meta_device_name meta) (zeros 65)) Q e.
Proof.
  intros [[Hpk Lpk] [Hps Lps] [Hdn Ldn] _] sig HQ. unfold _calc_dynreg_sign.
  set (pk := meta_product_key meta) in *. set (ps := meta_product_secret meta) in *. set (dn := meta_device_name meta) in *.
  apply runs_bind, runs_malloc. intros e1 H1. cbn [negb]. apply runs_bind.
  eapply (runs_lift _ _ _ (sign_source pk dn)); [unfold sign_source; by rewrite <-(app_nil_r DYNREG_RANDOM_KEY) at 2|].
  pose proof (sign_source_length pk dn) as Hl. pose proof (sign_source_cstr pk dn Hpk Hdn) as Hc.
  assert (snprintf_text (Z.of_nat (List.length dynamic_register_sign_fmt + List.length dn + List.length pk
            + List.length DYNREG_RANDOM_KEY) + 1) (sign_source pk dn) = sign_source pk dn) as ->.
  { unfold snprintf_text. apply take_ge. rewrite Hl. change (List.length dynamic_register_sign_fmt) with 32%nat.
    change (List.length DYNREG_RANDOM_KEY) with 15%nat. lia. }
  apply runs_bind. eapply (runs_lift _ _ _ (Some (hmac_spec Fips.sha256 ps (sign_source pk dn)))).
  { unfold utils_hmac_sha256.
    rewrite (hmac_ok (digest := Fips.sha256)); unfold mlen; rewrite ?Nat2Z.id, ?firstn_all; auto with cint; try lia. }
  apply runs_bind. eapply runs_lift; [done|]. pose proof (signature_length pk ps dn) as Hsig.
  rewrite signature_hex in Hsig. apply runs_bind, runs_store; [lia|rewrite Hsig; cbn; lia|]. apply runs_ret.
  rewrite Hsig. change (drop (Z.to_nat 0 + 64) (zeros 65)) with [0]. rewrite <-signature_hex. by apply HQ.
Qed.

Lemma deinit_runs {C} (h : wrapper_http_handle_t C) (e : E) (Q : unit -> E -> Prop) :
  (forall e', out_of e' = out_of e -> Q tt e') -> runs (wrapper_http_deinit h) Q e.
Proof.
  intros HQ. unfold wrapper_http_deinit, httpclient_close. apply runs_bind, runs_bind.
  destruct (0 <? _).
  - apply runs_bind, runs_plat. unfold iotx_net_disconnect, disconnect_ssl. cbn [fst snd].
    do 3 apply runs_ret. apply HQ, close_out.
  - do 3 apply runs_ret. by apply HQ.
Qed.

Lemma table_domain custom region domain :
  0 <= region < 5 -> g_infra_http_domain custom region = Some (Some domain) ->
  sprintf dynreg_url_format [PS domain] = Some (lit "http://" ++ domain ++ lit "/auth/register/device")
  /\ _utils_parse_url (lit "http://" ++ domain ++ lit "/auth/register/device")
     = Some (STATE_SUCCESS, (domain, lit "/auth/register/device"))
  /\ (List.length domain <= 40)%nat.
Proof.
  intros Hr Hd. assert (region = 0 \/ region = 1 \/ region = 2 \/ region = 3 \/ region = 4) as Hc by lia.
  repeat destruct Hc as [->|Hc]; [..|subst region]; injection Hd as <-;
    (split; [reflexivity|split; [reflexivity|apply Nat.leb_le; reflexivity]]).
Qed.

Definition register_path : list Z := lit "/auth/register/device".

(** The head of the request, with the length of what is posted. *)
Lemma register_head_short domain n :
  (List.length domain <= 40)%nat -> 0 <= n < 2147483648 ->
  (List.length (request_head HTTPCLIENT_POST domain register_path (Some dynreg_header) (Some n) None) < 1024)%nat.
Proof.
  intros Hd Hn. pose proof (fmt_d_length n ltac:(lia)) as Hf. unfold request_head. rewrite !length_app.
  change (List.length (method_name HTTPCLIENT_POST)) with 4%nat. cbn [default from_option id].
  change (List.length dynreg_header) with 110%nat. change (List.length register_path) with 21%nat.
  change (List.length (lit " ")) with 1%nat. change (List.length (lit " HTTP/1.1")) with 9%nat.
  change (List.length CRLF) with 2%nat. change (List.length (lit "Host: ")) with 6%nat.
  change (List.length (lit "Content-Length: ")) with 16%nat. cbn [List.length]. lia.
Qed.

(** The callback stores the whole answer, which leaves room for a NUL. *)
Lemma recv_takes body :
  cstr_ok body -> (List.length body <= 255)%nat ->
  takes _recv_callback 256 (Z.of_nat (List.length body)) body
    (DynregResponse (zeros 256) 256) (DynregResponse (body ++ 0 :: zeros (255 - List.length body)) 256).
Proof.
  intros Hc Hl b [rest ->] _. unfold _recv_callback. change (response_payload (DynregResponse _ _)) with (zeros 256).
  change (arr_strlen (zeros 256)) with (Some 0%nat). cbn [mbind option_bind response_payload_len].
  rewrite (u32_small (Z.of_nat 0 + _)), (proj2 (Z.ltb_ge (u32 256) _)) by (change (u32 256) with 256; lia).
  rewrite (proj2 (Z.ltb_ge _ 0)), !(proj2 (Z.ltb_ge _ _)) by (rewrite ?length_app; change (List.length (zeros 256)) with 256%nat; lia).
  cbn [orb]. change (take 0 (zeros 256)) with (@nil Z). cbn [app]. rewrite Nat2Z.id, take_app_length.
  unfold zeros. rewrite drop_replicate. do 3 f_equal. replace (256 - (0 + List.length body))%nat with (S (255 - List.length body)) by lia.
  done.
Qed.

Lemma dynreg_fetch_runs custom region domain request ms secret tail s r old (e : E) :
  0 <= region < 5 -> g_infra_http_domain custom region = Some (Some domain) ->
  request <> [] -> Z.of_nat (List.length request) < 2147483648 ->
  answer_ok ms secret tail -> let body := answer ms secret tail in
  (List.length body <= 255)%nat -> (64 <= List.length old)%nat ->
  head_ok s r (Z.of_nat (List.length body)) -> in_of e = s ++ CRLF ++ r ++ body ->
  runs (_fetch_dynreg_http_resp handler crt custom request (zeros 256) region old)
    (fun '(res, secret') e' => res = STATE_SUCCESS /\ secret' = secret ++ drop (List.length secret) old
       /\ out_of e' = out_of e ++ request_text domain register_path (Some dynreg_header) (Some request)) e.
Proof.
  intros Hr Hd Hne Hreq Ha body Hb Hold Hhead Hin. destruct (table_domain _ _ _ Hr Hd) as (Hurl & Hparse & Hdl).
  unfold _fetch_dynreg_http_resp. apply runs_bind. eapply runs_lift; [exact Hd|].
  apply runs_bind, runs_malloc. intros e1 [Ho1 Hi1]. cbn [negb]. apply runs_bind. eapply runs_lift; [exact Hurl|].
  set (url := lit "http://" ++ domain ++ lit "/auth/register/device") in *.
  assert (snprintf_text (Z.of_nat (List.length dynreg_url_format + List.length domain) + 1) url = url) as ->.
  { unfold snprintf_text. apply take_ge. unfold url. rewrite !length_app.
    change (List.length (lit "http://")) with 7%nat. change (List.length (lit "/auth/register/device")) with 21%nat.
    change (List.length dynreg_url_format) with 30%nat. lia. }
  apply runs_bind. unfold wrapper_http_init. apply runs_bind, runs_malloc. intros e2 [Ho2 Hi2]. apply runs_ret.
  cbn [wrapper_http_setopt]. apply runs_bind. unfold _replase_str at 1.
  apply runs_bind, runs_bind, runs_malloc. intros e3 [Ho3 Hi3]. do 2 apply runs_ret.
  apply runs_bind, runs_ret. apply runs_bind, runs_ret. apply runs_bind. unfold _replase_str.
  apply runs_bind, runs_bind, runs_malloc. intros e4 [Ho4 Hi4]. do 2 apply runs_ret.
  apply runs_bind.
  match goal with |- runs (wrapper_http_setopt ?x _) _ _ => set (h0 := x) end.
  apply (runs_mono _ (fun '(_, h) e' => e' = e4 /\ h = h0 <| hh_cert := crt |>)).
  { destruct crt; apply runs_ret; done. }
  intros [? h1] e5 [-> ->]. apply runs_bind, runs_ret. apply runs_bind, runs_ret. apply runs_bind, runs_ret.
  apply runs_bind, runs_ret. match goal with |- runs (wrapper_http_perform ?x _ _ ≫= _) _ _ => set (h := x) end.
  apply runs_bind. eapply runs_mono.
  { refine (perform_request h domain register_path (Some request) _recv_callback (DynregResponse (zeros 256) 256)
      (DynregResponse (body ++ 0 :: zeros (255 - List.length body)) 256) s r body e4 _ _ _ _ _ _ _ _ _ _ _ _ _).
    - by exists url.
    - done.
    - by right.
    - done.
    - done.
    - done.
    - done.
    - done.
    - done.
    - exact Hhead.
    - congruence.
    - split; [|by intros [=]]. unfold request_text. change (hh_header h) with (Some dynreg_header).
      change (default [] (Some request)) with request. rewrite length_app.
      pose proof (register_head_short domain (Z.of_nat (List.length request)) Hdl ltac:(lia)). lia.
    - change (receive_maxlen h - 1) with 255. change (Z.to_nat 255) with 255%nat. rewrite take_ge by lia.
      apply recv_takes; [by apply answer_cstr|done]. }
  change (receive_maxlen h - 1) with 255. change (Z.to_nat 255) with 255%nat. rewrite take_ge by lia.
  intros [ret h2] e6 (-> & _ & Hctx & _ & Ho6 & _). apply runs_bind, deinit_runs. intros e7 Ho7.
  rewrite (proj2 (Z.ltb_ge _ _)) by (unfold STATE_SUCCESS; lia). apply runs_bind. eapply runs_lift; [exact Hctx|].
  cbn [response_payload]. pose proof (an_short _ _ _ Ha) as Hs. apply read_answer_runs; [done|lia|]. split; [done|]. split; [done|].
  rewrite Ho7, Ho6, Ho4, Ho3, Ho2, Ho1. done.
Qed.

Lemma register_request_length pk ps dn :
  List.length (register_request pk ps dn) = (138 + List.length pk + List.length dn)%nat.
Proof.
  unfold register_request. rewrite !length_app, signature_length.
  change (List.length (lit "productKey=")) with 11%nat. change (List.length (lit "&deviceName=")) with 12%nat.
  change (List.length (lit "&random=")) with 8%nat. change (List.length DYNREG_RANDOM_KEY) with 15%nat.
  change (List.length (lit "&sign=")) with 6%nat. change (List.length (lit "&signMethod=hmacsha256")) with 22%nat. lia.
Qed.

Lemma register_runs custom region domain meta ms secret tail s r (e : E) :
  0 <= region < 5 -> g_infra_http_domain custom region = Some (Some domain) -> identity_ok meta ->
  answer_ok ms secret tail -> let body := answer ms secret tail in
  (List.length body <= 255)%nat ->
  head_ok s r (Z.of_nat (List.length body)) -> in_of e = s ++ CRLF ++ r ++ body ->
  runs (IOT_Dynamic_Register handler crt custom region meta)
    (fun '(res, meta') e' => res = STATE_SUCCESS
       /\ meta' = meta <| meta_device_secret := secret ++ drop (List.length secret) (meta_device_secret meta) |>
       /\ out_of e' = out_of e ++ request_text domain register_path (Some dynreg_header)
            (Some (register_request (meta_product_key meta) (meta_product_secret meta) (meta_device_name meta)))) e.
Proof.
  intros Hr Hd Hid Ha body Hb Hhead Hin. pose proof Hid as [[Hpk Lpk] [Hps Lps] [Hdn Ldn] Hds].
  unfold IOT_Dynamic_Register, _http_dynamic_register.
  unfold mlen, IOTX_PRODUCT_KEY_LEN, IOTX_PRODUCT_SECRET_LEN, IOTX_DEVICE_NAME_LEN.
  rewrite (proj2 (Z.ltb_ge 20 _)), (proj2 (Z.ltb_ge 64 _)), (proj2 (Z.ltb_ge 32 _)) by lia.
  apply runs_bind, calc_sign_runs; [done|]. intros e1 [Ho1 Hi1]. rewrite Z.ltb_irrefl.
  set (pk := meta_product_key meta) in *. set (ps := meta_product_secret meta) in *. set (dn := meta_device_name meta) in *.
  set (sig := signature pk ps dn). apply runs_bind. eapply (runs_lift _ _ _ sig).
  { unfold arr_str. rewrite arr_strlen_app by (unfold sig; rewrite signature_hex; apply upper_hex_cstr). cbn [mbind option_bind]. by rewrite take_app_length. }
  apply runs_bind, runs_malloc. intros e2 [Ho2 Hi2]. cbn [negb]. apply runs_bind.
  eapply (runs_lift _ _ _ (register_request pk ps dn)).
  { unfold register_request. fold sig.
    change (lit "&signMethod=hmacsha256") with (lit "&signMethod=" ++ DYNREG_SIGN_METHOD_HMACSHA256 ++ []). reflexivity. }
  apply runs_bind, runs_malloc. intros e3 [Ho3 Hi3]. cbn [negb].
  pose proof (register_request_length pk ps dn) as Hl.
  assert (snprintf_text (Z.of_nat (List.length dynamic_register_format + List.length pk + List.length dn
            + List.length DYNREG_RANDOM_KEY + List.length sig + List.length DYNREG_SIGN_METHOD_HMACSHA256) + 1)
            (register_request pk ps dn) = register_request pk ps dn) as ->.
  { unfold snprintf_text. apply take_ge. rewrite Hl. unfold sig. rewrite signature_length.
    change (List.length dynamic_register_format) with 59%nat. change (List.length DYNREG_RANDOM_KEY) with 15%nat.
    change (List.length DYNREG_SIGN_METHOD_HMACSHA256) with 10%nat. lia. }
  apply runs_bind. eapply runs_mono.
  { apply (dynreg_fetch_runs custom region domain (register_request pk ps dn) ms secret tail s r (meta_device_secret meta) e3);
      try done.
    - lia.
    - lia.
    - rewrite Hi3, Hi2, Hi1. exact Hin. }
  intros [res secret'] e4 (-> & -> & Ho4). rewrite Z.ltb_irrefl. apply runs_ret. split; [done|]. split; [done|].
  by rewrite Ho4, Ho3, Ho2, Ho1.
Qed.
End Registration.

(** C23. Dynamic registration: on a platform that connects, takes what it is given and has
    memory, for a region of the table and an identity that fits its arrays, with a server
    that answers 200 and data whose members before the secret are strings with other keys,
    255 bytes at most in all: the device sends one POST, signed with the HMAC-SHA256 of its
    name, its product key and the random key under the product secret, and the secret of
    the answer is stored in front of what the array held. *)
Theorem dynreg_registers {E : Type} `{!Hal E, !HalStream E, !HalOnline E, !HalMemory E, !HalClose E}
    handler crt custom region domain meta ms secret tail s r (e : E) :
  0 <= region < 5 -> g_infra_http_domain custom region = Some (Some domain) -> identity_ok meta ->
  answer_ok ms secret tail -> (List.length (answer ms secret tail) <= 255)%nat ->
  head_ok s r (Z.of_nat (List.length (answer ms secret tail))) -> in_of e = s ++ CRLF ++ r ++ answer ms secret tail ->
  exists e', IOT_Dynamic_Register handler crt custom region meta e
      = Some ((STATE_SUCCESS,
               meta <| meta_device_secret := secret ++ drop (List.length secret) (meta_device_secret meta) |>), e')
    /\ out_of e' = out_of e ++ request_text domain register_path (Some dynreg_header)
         (Some (register_request (meta_product_key meta) (meta_product_secret meta) (meta_device_name meta))).
Proof.
  intros Hr Hd Hid Ha Hb Hhead Hin.
  destruct (runs_run _ _ _ (register_runs handler crt custom region domain meta ms secret tail s r e Hr Hd Hid Ha Hb Hhead Hin))
    as ([res meta'] & e' & Hrun & -> & -> & Hout).
  by exists e'.
Qed.

(** ** A device *)

Module DynregSim.
Import HttpSim.

#[global] Instance sim_close : HalClose sim.
Proof. done. Qed.

Definition meta0 : iotx_dev_meta_info_t := MetaInfo (lit "a1pk") (lit "psecret") (lit "dev1") (zeros 65).
Definition answer_members : list (list Z * list Z) :=
  [(lit "productKey", lit "a1pk"); (lit "deviceName", lit "dev1")].
Definition answer_secret : list Z := lit "0123456789abcdef0123456789abcdef".
Definition answer_tail : list Z := json_lit "},'message':'success'}".
Definition good : list Z := answer answer_members answer_secret answer_tail.

Definition response_headers (body : list Z) : list Z :=
  lit "Server: x" ++ CRLF ++ lit "Content-Length: " ++ dec_digits 20 (Z.of_nat (List.length body)) ++ CRLF
  ++ lit "Connection: close" ++ CRLF ++ CRLF.
Definition served (body : list Z) : sim := world (status_line ++ CRLF ++ response_headers body ++ body).

Example good_text :
  good = json_lit "{'code':200,'data':{'productKey':'a1pk','deviceName':'dev1','deviceSecret':'0123456789abcdef0123456789abcdef'},'message':'success'}".
Proof. reflexivity. Qed.

(** What is registered: the code and the string in the array of the secret. *)
Definition registered (handler : option (Z -> list Z -> sim -> sim)) (body : list Z) : option (Z * list Z) :=
  '(res, meta, _) ← IOT_Dynamic_Register handler None None 0 meta0 (served body);
  secret ← arr_str (meta_device_secret meta);
  Some (res, secret).

Example registers_good : registered None good = Some (STATE_SUCCESS, answer_secret).
Proof. vm_compute. reflexivity. Qed.

Example refuses_error : registered None (json_lit "{'code':6100,'message':'invalid'}") = Some (STATE_HTTP_DYNREG_FAIL_RESP, []).
Proof. vm_compute. reflexivity. Qed.

(** The code is not found behind a string. *)
Example refuses_order :
  registered None (json_lit "{'message':'success','code':200,'data':{'deviceSecret':'x'}}") = Some (STATE_HTTP_DYNREG_FAIL_RESP, []).
Proof. vm_compute. reflexivity. Qed.

(** Every code that starts with 200 is taken for it. *)
Example accepts_2001 :
  registered None (json_lit "{'code':2001,'data':{'deviceSecret':'x'}}") = Some (STATE_SUCCESS, lit "x").
Proof. vm_compute. reflexivity. Qed.

(** An answer without a secret is a success: the last string that was looked at is
    registered, or without one the bytes a place behind the code. *)
Example registers_without_secret :
  registered None (json_lit "{'code':200,'message':'success'}") = Some (STATE_SUCCESS, lit "success")
  /\ registered None (json_lit "{'code':200}") = Some (STATE_SUCCESS, lit "00}").
Proof. vm_compute. split; reflexivity. Qed.

(** Those places may lie behind the response. *)
Example secret_outside :
  registered None (json_lit "{'code':200,'x':" ++ replicate 225 49 ++ json_lit ",'data':{}}") = None.
Proof. vm_compute. reflexivity. Qed.

(** The answer is the format of the message for a handler of the event. *)
Example answer_as_format :
  registered (Some (fun _ _ e => e)) (json_lit "{'code':500,'message':'%s'}") = None.
Proof. vm_compute. reflexivity. Qed.

(** A longer answer is cut at 255 bytes. *)
Example answer_cut :
  registered None (json_lit "{'code':200,'message':'" ++ replicate 240 65 ++ json_lit "','data':{'deviceSecret':'x'}}")
  <> Some (STATE_SUCCESS, lit "x").
Proof. vm_compute. discriminate. Qed.
End DynregSim.

Lemma dynreg_registers_witness :
  answer_ok DynregSim.answer_members DynregSim.answer_secret DynregSim.answer_tail
  /\ exists e', IOT_Dynamic_Register None None None 0 DynregSim.meta0 (DynregSim.served DynregSim.good)
      = Some ((STATE_SUCCESS,
               DynregSim.meta0 <| meta_device_secret := DynregSim.answer_secret
                 ++ drop (List.length DynregSim.answer_secret) (meta_device_secret DynregSim.meta0) |>), e')
    /\ out_of e' = out_of (DynregSim.served DynregSim.good)
         ++ request_text (lit "iot-auth.cn-shanghai.aliyuncs.com") register_path (Some dynreg_header)
              (Some (register_request (lit "a1pk") (lit "psecret") (lit "dev1"))).
Proof.
  assert (answer_ok DynregSim.answer_members DynregSim.answer_secret DynregSim.answer_tail) as Ha.
  { split.
    - constructor; [|constructor; [|constructor]];
        (split; [by apply plain_check|split; [by apply plain_check|discriminate]]).
    - by apply plain_check.
    - apply Nat.leb_le. reflexivity.
    - by apply cstr_ok_check. }
  split; [exact Ha|].
  apply (dynreg_registers None None None 0 (lit "iot-auth.cn-shanghai.aliyuncs.com") DynregSim.meta0
    DynregSim.answer_members DynregSim.answer_secret DynregSim.answer_tail HttpSim.status_line
    (DynregSim.response_headers DynregSim.good) (DynregSim.served DynregSim.good)).
  - split; [discriminate|reflexivity].
  - reflexivity.
  - split; [split; [by apply cstr_ok_check|apply Nat.leb_le; reflexivity]..|reflexivity].
  - exact Ha.
  - apply Nat.leb_le. reflexivity.
  - split.
    + by apply cstr_ok_check.
    + reflexivity.
    + split; apply Nat.leb_le; reflexivity.
    + exists 200. reflexivity.
    + by apply cstr_ok_check.
    + apply Nat.leb_le. reflexivity.
    + reflexivity.
    + split; [discriminate|reflexivity].
    + exists (lit "Server: x" ++ CRLF), (lit "Connection: close" ++ CRLF ++ CRLF). split; reflexivity.
  - reflexivity.
Defined.
