(* ===== verification/DmStore.v ===== *)
(** * DmStore: the heap, the mutexes and the monad of the device model

    What the message queue and the message cache of [eng/dev_model] share: blocks on the
    heap with the objects stored in them, the two global contexts, the mutexes, and the
    platform.  A function is a state transformer on this world; [None] is an execution
    that goes wrong: a block used or freed that is not allocated, a mutex taken twice, not
    held when released, or used after it was destroyed. *)

From S2P Require Import Prelude.
From S2P Require Import Hal.
From stdpp Require Import gmap.

(** ** Data *)

(** [dm_ipc_msg_t] *)
Record dm_ipc_msg_t := IpcMsg { im_type : Z; im_data : option nat }.

(** [dm_ipc_msg_node_t] without its links: the lists are lists of addresses. *)
Record dm_ipc_msg_node_t := IpcNode { in_data : option nat }.

Record dm_msg_cache_node_t := CacheNode {
  msgid : Z;
  devid : Z;
  response_type : Z;
  data : option nat;
  ctime : Z
}.

#[global] Instance eta_cache_node : Eta dm_msg_cache_node_t := fun n =>
  CacheNode (msgid n) (devid n) (response_type n) (data n) (ctime n).

(** What a block holds. *)
Inductive dm_obj :=
  | OMsg (m : dm_ipc_msg_t)
  | ONode (n : dm_ipc_msg_node_t)
  | OCache (n : dm_msg_cache_node_t)
  | OText (s : list Z).

(** A mutex pointer is whether it is not NULL. *)
Record dm_ipc_t := Ipc {
  ipc_mutex : bool;
  max_size : Z;
  size : Z;
  message_list : list nat
}.

#[global] Instance eta_ipc : Eta dm_ipc_t := fun c =>
  Ipc (ipc_mutex c) (max_size c) (size c) (message_list c).

Record dm_msg_cache_ctx_t := CacheCtx {
  cache_mutex : bool;
  dmc_list_size : Z;
  dmc_list : list nat
}.

#[global] Instance eta_cache_ctx : Eta dm_msg_cache_ctx_t := fun c =>
  CacheCtx (cache_mutex c) (dmc_list_size c) (dmc_list c).

(** The contexts after [memset]. *)
Definition ipc_zero : dm_ipc_t := Ipc false 0 0 [].
Definition cache_zero : dm_msg_cache_ctx_t := CacheCtx false 0 [].

Inductive dm_mutex := IPC_MUTEX | CACHE_MUTEX.

#[global] Instance dm_mutex_eq_dec : EqDecision dm_mutex.
Proof. solve_decision. Defined.

(** [dw_next] is above every address given out; [dw_mutexes] are the mutexes created and
    not destroyed, [dw_held] those the thread holds. *)
Record dm_world (E : Type) := DmWorld {
  dw_heap : gmap nat dm_obj;
  dw_next : nat;
  dw_ipc : dm_ipc_t;
  dw_cache : dm_msg_cache_ctx_t;
  dw_mutexes : list dm_mutex;
  dw_held : list dm_mutex;
  dw_env : E
}.
Arguments DmWorld {E}.
Arguments dw_heap {E}.
Arguments dw_next {E}.
Arguments dw_ipc {E}.
Arguments dw_cache {E}.
Arguments dw_mutexes {E}.
Arguments dw_held {E}.
Arguments dw_env {E}.

#[global] Instance eta_dm_world E : Eta (dm_world E) := fun w =>
  DmWorld (dw_heap w) (dw_next w) (dw_ipc w) (dw_cache w) (dw_mutexes w) (dw_held w) (dw_env w).

(** ** The monad *)

Definition dm (E A : Type) : Type := dm_world E -> option (A * dm_world E).

#[global] Instance dm_ret E : MRet (dm E) := fun A a w => Some (a, w).
#[global] Instance dm_bind E : MBind (dm E) := fun A B f m w =>
  match m w with
  | Some (a, w) => f a w
  | None => None
  end.

Section Store.
Context {E : Type}.

Definition dm_fail {A} : dm E A := fun _ => None.

(** A computation that may be undefined. *)
Definition dm_lift {A} (o : option A) : dm E A := fun w =>
  match o with Some a => Some (a, w) | None => None end.

Definition get_ipc : dm E dm_ipc_t := fun w => Some (dw_ipc w, w).
Definition get_cache : dm E dm_msg_cache_ctx_t := fun w => Some (dw_cache w, w).
Definition mod_ipc (f : dm_ipc_t -> dm_ipc_t) : dm E unit := fun w => Some (tt, w <| dw_ipc ::= f |>).
Definition mod_cache (f : dm_msg_cache_ctx_t -> dm_msg_cache_ctx_t) : dm E unit :=
  fun w => Some (tt, w <| dw_cache ::= f |>).

(** A platform call. *)
Definition dm_plat {A} (f : E -> A * E) : dm E A := fun w =>
  let '(a, e) := f (dw_env w) in Some (a, w <| dw_env := e |>).

(** *** Blocks *)

Definition load (a : nat) : dm E dm_obj := fun w =>
  match dw_heap w !! a with
  | Some o => Some (o, w)
  | None => None
  end.

Definition store (a : nat) (o : dm_obj) : dm E unit := fun w =>
  match dw_heap w !! a with
  | Some _ => Some (tt, w <| dw_heap ::= insert a o |>)
  | None => None
  end.

Definition load_node (a : nat) : dm E dm_ipc_msg_node_t :=
  o ← load a; match o with ONode n => mret n | _ => dm_fail end.
Definition load_msg (a : nat) : dm E dm_ipc_msg_t :=
  o ← load a; match o with OMsg m => mret m | _ => dm_fail end.
Definition load_cache (a : nat) : dm E dm_msg_cache_node_t :=
  o ← load a; match o with OCache n => mret n | _ => dm_fail end.
Definition load_text (a : nat) : dm E (list Z) :=
  o ← load a; match o with OText s => mret s | _ => dm_fail end.

(** [DM_free] of a pointer that is not NULL. *)
Definition DM_free (a : nat) : dm E unit := fun w =>
  match dw_heap w !! a with
  | Some _ => Some (tt, w <| dw_heap ::= delete a |>)
  | None => None
  end.

(** [if (p) { DM_free(p); }] *)
Definition DM_free_opt (p : option nat) : dm E unit :=
  match p with
  | Some a => DM_free a
  | None => mret tt
  end.

Context `{!Hal E}.

(** [DM_malloc] with what is then stored in the block: the address, or NULL. *)
Definition DM_malloc (n : Z) (o : dm_obj) : dm E (option nat) := fun w =>
  let '(ok, e) := HAL_Malloc n (dw_env w) in
  if ok : bool
  then Some (Some (dw_next w),
             w <| dw_env := e |> <| dw_heap ::= insert (dw_next w) o |> <| dw_next ::= S |>)
  else Some (None, w <| dw_env := e |>).

(** *** Mutexes *)

(** A mutex created anew takes the place of the one the context had. *)
Definition HAL_MutexCreate (l : dm_mutex) : dm E bool := fun w =>
  let '(ok, e) := Hal.HAL_MutexCreate (dw_env w) in
  let w := w <| dw_env := e |> in
  if ok : bool
  then Some (true, w <| dw_mutexes ::= fun ms => l :: filter (fun m => m <> l) ms |>
                     <| dw_held ::= filter (fun m => m <> l) |>)
  else Some (false, w).

Definition HAL_MutexDestroy (l : dm_mutex) : dm E unit := fun w =>
  if bool_decide (l ∈ dw_mutexes w) && negb (bool_decide (l ∈ dw_held w))
  then Some (tt, w <| dw_mutexes ::= filter (fun m => m <> l) |>)
  else None.

Definition HAL_MutexLock (l : dm_mutex) : dm E unit := fun w =>
  if bool_decide (l ∈ dw_mutexes w) && negb (bool_decide (l ∈ dw_held w))
  then Some (tt, w <| dw_held ::= cons l |>)
  else None.

Definition HAL_MutexUnlock (l : dm_mutex) : dm E unit := fun w =>
  if bool_decide (l ∈ dw_mutexes w) && bool_decide (l ∈ dw_held w)
  then Some (tt, w <| dw_held ::= filter (fun m => m <> l) |>)
  else None.
End Store.

(** ** The application *)

(** The handler of state events and the event callback of [iotx_dm_connect], which may be
    NULL; they run with the whole world at hand. *)
Class DmApp (E : Type) := {
  iotx_state_event : Z -> dm E unit;
  event_callback : option (Z -> option (list Z) -> dm E unit)
}.
