(* ===== verification/DmQueue.v ===== *)
(** * DmQueue: the message queue and the message cache of the device model

    [eng/dev_model/dm_ipc.c], the queue of messages to the application, and
    [dm_message_cache.c], the requests that wait for a reply of the cloud; with the
    functions of [dm_message.c] that put a message on the queue and the loop of
    [iotx_dm_dispatch] ([dm_api.c]) that takes them off. *)

From S2P Require Import Prelude.
From S2P Require Import CString.
From S2P Require Import Json.
From S2P Require Import Hal.
From S2P Require Import InfraState.
From S2P Require Import DmStore.

Definition CONFIG_DISPATCH_QUEUE_MAXLEN : Z := 50.
Definition CONFIG_MSGCACHE_QUEUE_MAXLEN : Z := 50.
Definition DM_MSG_CACHE_TIMEOUT_MS_DEFAULT : Z := 10000.
Definition DM_UTILS_UINT32_STRLEN : Z := 10.
Definition IOTX_DM_ERR_CODE_TIMEOUT : Z := 100000.
Definition sizeof_ipc_msg : Z := 8.
Definition sizeof_ipc_node : Z := 12.
Definition sizeof_cache_node : Z := 40.

Section Dm.
Context {E : Type} `{!Hal E, !DmApp E}.

(** ** The queue *)

Definition _dm_ipc_lock : dm E unit :=
  c ← get_ipc; if ipc_mutex c then HAL_MutexLock IPC_MUTEX else mret tt.

Definition _dm_ipc_unlock : dm E unit :=
  c ← get_ipc; if ipc_mutex c then HAL_MutexUnlock IPC_MUTEX else mret tt.

Definition dm_ipc_init (max_size' : Z) : dm E Z :=
  mod_ipc (fun _ => ipc_zero);;
  ok ← HAL_MutexCreate IPC_MUTEX;
  mod_ipc (fun c => c <| ipc_mutex := ok |>);;
  if negb ok then mret STATE_SYS_DEPEND_MUTEX_CREATE
  else
    mod_ipc (fun c => c <| max_size := max_size' |> <| message_list := [] |>);;
    mret SUCCESS_RETURN.

(** The loop of [dm_ipc_deinit]; the size and the mutex pointer stay. *)
Fixpoint ipc_deinit_loop (l : list nat) : dm E unit :=
  match l with
  | [] => mret tt
  | a :: l' =>
      del_node ← load_node a;
      match in_data del_node with
      | None => dm_fail
      | Some m =>
          del_msg ← load_msg m;
          DM_free_opt (im_data del_msg);;
          DM_free m;;
          mod_ipc (fun c => c <| message_list ::= filter (fun b => b <> a) |>);;
          DM_free a;;
          ipc_deinit_loop l'
      end
  end.

Definition dm_ipc_deinit : dm E unit :=
  c ← get_ipc;
  (if ipc_mutex c then HAL_MutexDestroy IPC_MUTEX else mret tt);;
  ipc_deinit_loop (message_list c).

Definition dm_ipc_msg_insert (data : option nat) : dm E Z :=
  match data with
  | None => mret STATE_USER_INPUT_INVALID
  | Some d =>
      _dm_ipc_lock;;
      iotx_state_event STATE_DEV_MODEL_MSGQ_OPERATION;;
      c ← get_ipc;
      if max_size c <=? size c then
        _dm_ipc_unlock;;
        iotx_state_event STATE_DEV_MODEL_MSGQ_FULL;;
        mret STATE_DEV_MODEL_MSGQ_FULL
      else
        node ← DM_malloc sizeof_ipc_node (ONode (IpcNode (Some d)));
        match node with
        | None => _dm_ipc_unlock;; mret STATE_SYS_DEPEND_MALLOC
        | Some a =>
            mod_ipc (fun c => c <| size ::= fun n => n + 1 |> <| message_list ::= fun l => l ++ [a] |>);;
            _dm_ipc_unlock;;
            mret SUCCESS_RETURN
        end
  end.

(** [dm_ipc_msg_next]: the code and what is stored through [data], which is not NULL and
    points to a NULL pointer. *)
Definition dm_ipc_msg_next : dm E (Z * option nat) :=
  _dm_ipc_lock;;
  c ← get_ipc;
  match message_list c with
  | [] => _dm_ipc_unlock;; mret (STATE_DEV_MODEL_MSGQ_EMPTY, None)
  | a :: _ =>
      node ← load_node a;
      mod_ipc (fun c => c <| message_list ::= filter (fun b => b <> a) |> <| size ::= fun n => n - 1 |>);;
      DM_free a;;
      _dm_ipc_unlock;;
      iotx_state_event STATE_DEV_MODEL_MSGQ_OPERATION;;
      mret (SUCCESS_RETURN, in_data node)
  end.

(** ** Messages to the application *)

Definition _dm_msg_send_to_user (type : Z) (message : option nat) : dm E Z :=
  dipc_msg ← DM_malloc sizeof_ipc_msg (OMsg (IpcMsg type message));
  match dipc_msg with
  | None => mret STATE_SYS_DEPEND_MALLOC
  | Some a =>
      res ← dm_ipc_msg_insert (Some a);
      if negb (res =? SUCCESS_RETURN) then DM_free a;; mret res
      else iotx_state_event STATE_DEV_MODEL_MSGQ_OPERATION;; mret SUCCESS_RETURN
  end.

Definition DM_MSG_SEND_MSG_TIMEOUT_FMT : list Z := json_lit "{'id':%d,'code':%d,'devid':%d}".

Definition timeout_message_len : Z :=
  Z.of_nat (List.length DM_MSG_SEND_MSG_TIMEOUT_FMT) + DM_UTILS_UINT32_STRLEN * 3 + 1.

Definition dm_msg_send_msg_timeout_to_user (msg_id devid type : Z) : dm E Z :=
  text ← dm_lift (sprintf DM_MSG_SEND_MSG_TIMEOUT_FMT [PD msg_id; PD IOTX_DM_ERR_CODE_TIMEOUT; PD devid]);
  message ← DM_malloc (timeout_message_len + 1) (OText (snprintf_text timeout_message_len text));
  match message with
  | None => mret STATE_SYS_DEPEND_MALLOC
  | Some m =>
      res ← _dm_msg_send_to_user type (Some m);
      (if negb (res =? SUCCESS_RETURN) then DM_free m else mret tt);;
      mret res
  end.

(** The loop of [iotx_dm_dispatch]: at most [CONFIG_DISPATCH_QUEUE_MAXLEN] messages. *)
Fixpoint dispatch_loop (n : nat) : dm E unit :=
  match n with
  | O => mret tt
  | S n' =>
      '(res, data) ← dm_ipc_msg_next;
      if res =? SUCCESS_RETURN then
        match data with
        | None => dm_fail
        | Some m =>
            msg ← load_msg m;
            text ← match im_data msg with None => mret None | Some t => s ← load_text t; mret (Some s) end;
            match event_callback with None => mret tt | Some cb => cb (im_type msg) text end;;
            DM_free_opt (im_data msg);;
            DM_free m;;
            dispatch_loop n'
        end
      else mret tt
  end.

Definition dispatch_messages : dm E unit := dispatch_loop (Z.to_nat CONFIG_DISPATCH_QUEUE_MAXLEN).

(** ** The cache *)

Definition _dm_msg_cache_mutex_lock : dm E unit :=
  c ← get_cache; if cache_mutex c then HAL_MutexLock CACHE_MUTEX else mret tt.

Definition _dm_msg_cache_mutex_unlock : dm E unit :=
  c ← get_cache; if cache_mutex c then HAL_MutexUnlock CACHE_MUTEX else mret tt.

Definition dm_msg_cache_init : dm E Z :=
  mod_cache (fun _ => cache_zero);;
  ok ← HAL_MutexCreate CACHE_MUTEX;
  mod_cache (fun c => c <| cache_mutex := ok |>);;
  if negb ok then mret STATE_SYS_DEPEND_MUTEX_CREATE
  else mod_cache (fun c => c <| dmc_list := [] |>);; mret SUCCESS_RETURN.

Definition cache_unlink (a : nat) : dm E unit :=
  mod_cache (fun c => c <| dmc_list ::= filter (fun b => b <> a) |>).

(** The loop of [dm_msg_cache_deinit], which releases the mutex after every node. *)
Fixpoint cache_deinit_loop (l : list nat) : dm E unit :=
  match l with
  | [] => mret tt
  | a :: l' =>
      node ← load_cache a;
      cache_unlink a;;
      DM_free_opt (data node);;
      DM_free a;;
      _dm_msg_cache_mutex_unlock;;
      cache_deinit_loop l'
  end.

Definition dm_msg_cache_deinit : dm E Z :=
  _dm_msg_cache_mutex_lock;;
  c ← get_cache;
  cache_deinit_loop (dmc_list c);;
  _dm_msg_cache_mutex_unlock;;
  (if cache_mutex c then HAL_MutexDestroy CACHE_MUTEX else mret tt);;
  mret SUCCESS_RETURN.

(** The node's time is read between its allocation and its insertion. *)
Definition dm_msg_cache_insert (msgid devid type : Z) (data : option nat) : dm E Z :=
  iotx_state_event STATE_DEV_MODEL_CTX_LIST_INSERT;;
  c ← get_cache;
  if CONFIG_MSGCACHE_QUEUE_MAXLEN <=? dmc_list_size c then mret STATE_DEV_MODEL_CTX_LIST_FULL
  else
    node ← DM_malloc sizeof_cache_node (OCache (CacheNode msgid devid type data 0));
    match node with
    | None => mret STATE_SYS_DEPEND_MALLOC
    | Some a =>
        now ← dm_plat HAL_UptimeMs;
        store a (OCache (CacheNode msgid devid type data now));;
        _dm_msg_cache_mutex_lock;;
        mod_cache (fun c => c <| dmc_list ::= fun l => l ++ [a] |> <| dmc_list_size ::= fun n => n + 1 |>);;
        _dm_msg_cache_mutex_unlock;;
        iotx_state_event STATE_DEV_MODEL_CTX_LIST_INSERT;;
        mret SUCCESS_RETURN
    end.

(** The first node of the message. *)
Fixpoint cache_find (id : Z) (l : list nat) : dm E (option (nat * dm_msg_cache_node_t)) :=
  match l with
  | [] => mret None
  | a :: l' =>
      n ← load_cache a;
      if msgid n =? id then mret (Some (a, n)) else cache_find id l'
  end.

(** [dm_msg_cache_search]: the code and what is stored through [node], which is not NULL
    and points to a NULL pointer. *)
Definition dm_msg_cache_search (msgid : Z) : dm E (Z * option nat) :=
  if msgid <? 0 then mret (STATE_USER_INPUT_INVALID, None)
  else
    _dm_msg_cache_mutex_lock;;
    c ← get_cache;
    r ← cache_find msgid (dmc_list c);
    _dm_msg_cache_mutex_unlock;;
    match r with
    | Some (a, _) => mret (SUCCESS_RETURN, Some a)
    | None => mret (STATE_DEV_MODEL_CTX_LIST_EMPTY, None)
    end.

Definition dm_msg_cache_remove (msgid : Z) : dm E Z :=
  _dm_msg_cache_mutex_lock;;
  c ← get_cache;
  r ← cache_find msgid (dmc_list c);
  match r with
  | Some (a, n) =>
      cache_unlink a;;
      DM_free_opt (data n);;
      mod_cache (fun c => c <| dmc_list_size ::= fun n => n - 1 |>);;
      DM_free a;;
      iotx_state_event STATE_DEV_MODEL_CTX_LIST_REMOVE;;
      _dm_msg_cache_mutex_unlock;;
      mret SUCCESS_RETURN
  | None =>
      _dm_msg_cache_mutex_unlock;;
      mret STATE_DEV_MODEL_CTX_LIST_EMPTY
  end.

(** The loop of [dm_msg_cache_tick]; the size is not adjusted. *)
Fixpoint tick_loop (current_time : Z) (l : list nat) : dm E unit :=
  match l with
  | [] => mret tt
  | a :: l' =>
      node ← load_cache a;
      let node := if current_time <? ctime node then node <| ctime := current_time |> else node in
      store a (OCache node);;
      (if DM_MSG_CACHE_TIMEOUT_MS_DEFAULT <=? current_time - ctime node then
         iotx_state_event STATE_DEV_MODEL_CTX_LIST_FADEOUT;;
         dm_msg_send_msg_timeout_to_user (msgid node) (devid node) (response_type node);;
         cache_unlink a;;
         DM_free_opt (data node);;
         DM_free a
       else mret tt);;
      tick_loop current_time l'
  end.

Definition dm_msg_cache_tick : dm E unit :=
  current_time ← dm_plat HAL_UptimeMs;
  _dm_msg_cache_mutex_lock;;
  c ← get_cache;
  tick_loop current_time (dmc_list c);;
  _dm_msg_cache_mutex_unlock.
End Dm.
