(* ===== verification/DmLogic.v ===== *)
(** * DmLogic: reasoning about the device model's queue and cache

    Weakest preconditions of the monad of [DmStore], the blocks a world owns as a list of
    addresses with their objects, and the state assertion [st]: which messages are on the
    queue, which requests in the cache, which other blocks there are, and which mutexes
    are held. *)

From S2P Require Import Prelude.
From S2P Require Import CString.
From S2P Require Import Hal.
From S2P Require Import InfraState.
From S2P Require Import DmStore.
From S2P Require Import DmQueue.
From stdpp Require Import gmap.

(** ** Weakest preconditions *)

Definition wp {E A} (m : dm E A) (Q : A -> dm_world E -> Prop) (w : dm_world E) : Prop :=
  match m w with Some (a, w') => Q a w' | None => False end.

Lemma dwp_bind {E A B} (m : dm E A) (f : A -> dm E B) Q w :
  wp m (fun a w' => wp (f a) Q w') w -> wp (m ≫= f) Q w.
Proof. unfold wp, mbind, dm_bind. by destruct (m w) as [[a w']|]. Qed.

Lemma dwp_ret {E A} (a : A) Q (w : dm_world E) : Q a w -> wp (mret a) Q w.
Proof. done. Qed.

Lemma dwp_mono {E A} (m : dm E A) (P Q : A -> dm_world E -> Prop) w :
  wp m P w -> (forall a w', P a w' -> Q a w') -> wp m Q w.
Proof. unfold wp. destruct (m w) as [[a w']|]; auto. Qed.

Lemma wp_run {E A} (m : dm E A) Q w : wp m Q w -> exists a w', m w = Some (a, w') /\ Q a w'.
Proof. unfold wp. destruct (m w) as [[a w']|]; [eauto|done]. Qed.

Lemma wp_mod_ipc {E} f Q (w : dm_world E) : Q tt (w <| dw_ipc ::= f |>) -> wp (mod_ipc f) Q w.
Proof. done. Qed.

Lemma wp_mod_cache {E} f Q (w : dm_world E) : Q tt (w <| dw_cache ::= f |>) -> wp (mod_cache f) Q w.
Proof. done. Qed.

Lemma dwp_lift {E A} (o : option A) a Q (w : dm_world E) : o = Some a -> Q a w -> wp (dm_lift o) Q w.
Proof. by intros ->. Qed.

Lemma wp_load_at {E} a o Q (w : dm_world E) : dw_heap w !! a = Some o -> Q o w -> wp (load a) Q w.
Proof. intros H HQ. unfold wp, load. by rewrite H. Qed.

(** ** The application *)

(** What the module does that its surroundings see: its callback is given a message, the
    clock is read. *)
Inductive dm_obs :=
  | ObsMessage (m : Z * option (list Z))
  | ObsUptime (now : Z).

(** An application that does not call the module again, with what was seen of the module, in
    order. *)
Class DmQuiet (E : Type) `{!Hal E, !DmApp E} := {
  seen : E -> list dm_obs;
  seen_malloc n e : seen (snd (HAL_Malloc n e)) = seen e;
  seen_uptime e : seen (snd (HAL_UptimeMs e)) = seen e ++ [ObsUptime (fst (HAL_UptimeMs e))];
  seen_mutex e : seen (snd (Hal.HAL_MutexCreate e)) = seen e;
  quiet_event c w : exists e,
    iotx_state_event c w = Some (tt, w <| dw_env := e |>) /\ seen e = seen (dw_env w);
  quiet_callback : exists cb, event_callback = Some cb
    /\ forall t s w, exists e, cb t s w = Some (tt, w <| dw_env := e |>)
         /\ seen e = seen (dw_env w) ++ [ObsMessage (t, s)]
}.

(** Memory can run out. *)
Definition oom (E : Type) `{!Hal E} : Prop := exists n e, fst (HAL_Malloc n e) = false.

(** ** Blocks *)

(** The heap holds exactly these blocks. *)
Definition holds {E} (w : dm_world E) (l : list (nat * dm_obj)) : Prop :=
  NoDup l.*1 /\ dw_heap w = list_to_map l /\ Forall (fun x => (fst x < dw_next w)%nat) l.

Lemma holds_perm {E} (w : dm_world E) l l' : l ≡ₚ l' -> holds w l -> holds w l'.
Proof.
  intros Hp (Hn & Hh & Hb). split; [by rewrite <-Hp|]. split; [|by rewrite <-Hp].
  rewrite Hh. apply list_to_map_proper; [done|exact Hp].
Qed.

Lemma holds_lookup {E} (w : dm_world E) a o l : holds w ((a, o) :: l) -> dw_heap w !! a = Some o.
Proof. intros (_ & -> & _). cbn. apply lookup_insert_eq. Qed.

Lemma holds_delete {E} (w : dm_world E) a o l :
  holds w ((a, o) :: l) -> holds (w <| dw_heap ::= delete a |>) l.
Proof.
  intros (Hn & Hh & Hb). apply NoDup_cons in Hn as [Ha Hn]. apply Forall_cons in Hb as [_ Hb].
  split; [done|]. split; [|done]. cbn. rewrite Hh. cbn.
  apply delete_insert_id. by apply not_elem_of_list_to_map_1.
Qed.

Lemma holds_store {E} (w : dm_world E) a o o' l :
  holds w ((a, o) :: l) -> holds (w <| dw_heap ::= insert a o' |>) ((a, o') :: l).
Proof.
  intros (Hn & Hh & Hb). split; [done|]. split.
  - cbn. rewrite Hh. cbn. apply insert_insert_eq.
  - apply Forall_cons in Hb as [Ha Hb]. by constructor.
Qed.

Lemma holds_fresh {E} (w : dm_world E) o l :
  holds w l -> holds (w <| dw_heap ::= insert (dw_next w) o |> <| dw_next ::= S |>) ((dw_next w, o) :: l).
Proof.
  intros (Hn & Hh & Hb). split.
  - cbn. constructor; [|done]. intros (x & Hx & Hin)%list_elem_of_fmap.
    rewrite Forall_forall in Hb. specialize (Hb x Hin). rewrite <-Hx in Hb. lia.
  - split; [cbn; by rewrite Hh|]. constructor; [cbn; lia|]. eapply Forall_impl; [exact Hb|]. cbn. lia.
Qed.

(** Only the heap and the next address matter. *)
Lemma holds_same {E} (w w' : dm_world E) l :
  dw_heap w' = dw_heap w -> dw_next w' = dw_next w -> holds w l -> holds w' l.
Proof. unfold holds. by intros -> ->. Qed.

(** ** The state assertion *)

(** A message on the queue: its node, its block, its type, and its text with its block. *)
Record qmsg := QMsg { q_node : nat; q_msg : nat; q_type : Z; q_text : option (nat * list Z) }.

Definition text_block (t : option (nat * list Z)) : list (nat * dm_obj) :=
  match t with Some (a, s) => [(a, OText s)] | None => [] end.

Definition msg_blocks (m : nat) (type : Z) (t : option (nat * list Z)) : list (nat * dm_obj) :=
  (m, OMsg (IpcMsg type (fst <$> t))) :: text_block t.

Definition queue_blocks (q : qmsg) : list (nat * dm_obj) :=
  (q_node q, ONode (IpcNode (Some (q_msg q)))) :: msg_blocks (q_msg q) (q_type q) (q_text q).

Definition cache_block (x : nat * dm_msg_cache_node_t) : nat * dm_obj := (fst x, OCache (snd x)).

Definition blocks (qs : list qmsg) (cs : list (nat * dm_msg_cache_node_t)) (F : list (nat * dm_obj))
    : list (nat * dm_obj) := (qs ≫= queue_blocks) ++ (cache_block <$> cs) ++ F.

Definition message (q : qmsg) : Z * option (list Z) := (q_type q, snd <$> q_text q).

(** With capacity [cap]: the messages [qs] are queued, the cache counts [sz] requests and
    has [cs], the other blocks are [F], the mutexes [hs] are held, and [s] was seen. *)
Record st {E} `{!Hal E, !DmApp E, !DmQuiet E} (cap : Z) (hs : list dm_mutex) (sz : Z) (qs : list qmsg)
    (cs : list (nat * dm_msg_cache_node_t)) (F : list (nat * dm_obj)) (s : list dm_obs)
    (w : dm_world E) : Prop := MkSt {
  st_holds : holds w (blocks qs cs F);
  st_ipc : dw_ipc w = Ipc true cap (Z.of_nat (List.length qs)) (q_node <$> qs);
  st_cache : dw_cache w = CacheCtx true sz (cs.*1);
  st_mutexes : forall l, l ∈ dw_mutexes w;
  st_held : dw_held w = hs;
  st_data : Forall (fun x => data (snd x) = None) cs;
  st_seen : seen (dw_env w) = s
}.

(** A node is removed from its list by its address. *)
Lemma filter_head (l1 l2 : list nat) a :
  NoDup (l1 ++ a :: l2) -> filter (fun b => b <> a) (l1 ++ a :: l2) = l1 ++ l2.
Proof.
  intros Hn. apply NoDup_app in Hn as (_ & H1 & Hn). apply NoDup_cons in Hn as [H2 _].
  rewrite filter_app, filter_cons_False by (intros H; by apply H). f_equal; apply filter_all, Forall_forall.
  - intros x Hx ->. apply (H1 a Hx). constructor.
  - by intros x Hx ->.
Qed.

Section Triples.
Context {E : Type} `{!Hal E, !DmApp E, !DmQuiet E} (cap : Z).
Implicit Types (w : dm_world E) (qs : list qmsg) (cs : list (nat * dm_msg_cache_node_t)).

(** The platform's state matters only for what was seen. *)
Lemma st_env hs sz qs cs F s w e :
  seen e = seen (dw_env w) -> st cap hs sz qs cs F s w -> st cap hs sz qs cs F s (w <| dw_env := e |>).
Proof. intros He [K1 K2 K3 K4 K5 K6 K7]. split; try done. by rewrite <-K7. Qed.

Lemma st_hold hs sz qs cs F s w hs' :
  st cap hs sz qs cs F s w -> st cap hs' sz qs cs F s (w <| dw_held := hs' |>).
Proof. intros [K1 K2 K3 K4 K5 K6 K7]. by split. Qed.

Lemma st_perm hs sz qs cs F F' s w : F ≡ₚ F' -> st cap hs sz qs cs F s w -> st cap hs sz qs cs F' s w.
Proof.
  intros Hp [K1 K2 K3 K4 K5 K6 K7]. split; try done. eapply holds_perm; [|exact K1].
  unfold blocks. by rewrite Hp.
Qed.

(** A block among the others is at the head of the blocks. *)
Lemma blocks_other qs cs a o F : blocks qs cs ((a, o) :: F) ≡ₚ (a, o) :: blocks qs cs F.
Proof. unfold blocks. by rewrite !Permutation_middle. Qed.

Lemma wp_event hs sz qs cs F s w c Q :
  st cap hs sz qs cs F s w -> (forall w', st cap hs sz qs cs F s w' -> Q tt w') ->
  wp (iotx_state_event c) Q w.
Proof.
  intros H HQ. destruct (quiet_event c w) as (e & He & Hs). unfold wp. rewrite He. apply HQ.
  by apply st_env.
Qed.

Lemma wp_malloc hs sz qs cs F s w n o Q :
  st cap hs sz qs cs F s w ->
  (forall w' a, st cap hs sz qs cs ((a, o) :: F) s w' -> Q (Some a) w') ->
  (forall w', oom E -> st cap hs sz qs cs F s w' -> Q None w') ->
  wp (DM_malloc n o) Q w.
Proof.
  intros H HS HN. unfold wp, DM_malloc. pose proof (seen_malloc n (dw_env w)) as Hs.
  destruct (HAL_Malloc n (dw_env w)) as [ok e] eqn:Hm. cbn in Hs. destruct ok.
  - apply HS. destruct H as [K1 K2 K3 K4 K5 K6 K7]. split; try done; [|by rewrite <-K7].
    eapply holds_perm; [symmetry; apply blocks_other|]. eapply holds_same; [..|exact (holds_fresh w o _ K1)]; done.
  - apply HN; [exists n, (dw_env w); by rewrite Hm|]. by apply st_env.
Qed.

Lemma wp_uptime hs sz qs cs F s w Q :
  st cap hs sz qs cs F s w -> (forall w' now, st cap hs sz qs cs F (s ++ [ObsUptime now]) w' -> Q now w') ->
  wp (dm_plat HAL_UptimeMs) Q w.
Proof.
  intros H HQ. unfold wp, dm_plat. pose proof (seen_uptime (dw_env w)) as Hs.
  destruct (HAL_UptimeMs (dw_env w)) as [now e]. cbn [fst snd] in Hs. apply HQ.
  destruct H as [K1 K2 K3 K4 K5 K6 K7]. split; try done. by rewrite <-K7.
Qed.

Lemma wp_free hs sz qs cs F s w a o Q :
  st cap hs sz qs cs ((a, o) :: F) s w -> (forall w', st cap hs sz qs cs F s w' -> Q tt w') ->
  wp (DM_free a) Q w.
Proof.
  intros [K1 K2 K3 K4 K5 K6 K7] HQ. eapply holds_perm in K1; [|apply blocks_other].
  unfold wp, DM_free. rewrite (holds_lookup w a o _ K1). apply HQ. split; try done.
  by eapply holds_delete.
Qed.

Lemma wp_load hs sz qs cs F s w a o Q :
  st cap hs sz qs cs ((a, o) :: F) s w -> Q o w -> wp (load a) Q w.
Proof.
  intros [K1 _ _ _ _ _ _] HQ. eapply holds_perm in K1; [|apply blocks_other].
  eapply wp_load_at, HQ. by eapply holds_lookup.
Qed.

Lemma wp_store hs sz qs cs F s w a o o' Q :
  st cap hs sz qs cs ((a, o) :: F) s w -> (forall w', st cap hs sz qs cs ((a, o') :: F) s w' -> Q tt w') ->
  wp (store a o') Q w.
Proof.
  intros [K1 K2 K3 K4 K5 K6 K7] HQ. eapply holds_perm in K1; [|apply blocks_other].
  unfold wp, store. rewrite (holds_lookup w a o _ K1). apply HQ. split; try done.
  eapply holds_perm; [symmetry; apply blocks_other|]. by eapply holds_store.
Qed.

(** *** Mutexes *)

Lemma wp_mutex_lock l hs sz qs cs F s w Q :
  l ∉ hs -> st cap hs sz qs cs F s w -> (forall w', st cap (l :: hs) sz qs cs F s w' -> Q tt w') ->
  wp (HAL_MutexLock l) Q w.
Proof.
  intros Hl H HQ. unfold wp, HAL_MutexLock.
  rewrite (bool_decide_eq_true_2 (l ∈ dw_mutexes w)) by apply (st_mutexes _ _ _ _ _ _ _ _ H).
  rewrite (st_held _ _ _ _ _ _ _ _ H), (bool_decide_eq_false_2 _ Hl). cbn [andb negb]. apply HQ.
  pose proof (st_held _ _ _ _ _ _ _ _ H) as Hh. subst hs. exact (st_hold _ _ _ _ _ _ _ (l :: dw_held w) H).
Qed.

Lemma wp_mutex_unlock l hs sz qs cs F s w Q :
  l ∉ hs -> st cap (l :: hs) sz qs cs F s w -> (forall w', st cap hs sz qs cs F s w' -> Q tt w') ->
  wp (HAL_MutexUnlock l) Q w.
Proof.
  intros Hl H HQ. unfold wp, HAL_MutexUnlock.
  rewrite (bool_decide_eq_true_2 (l ∈ dw_mutexes w)) by apply (st_mutexes _ _ _ _ _ _ _ _ H).
  rewrite (bool_decide_eq_true_2 (l ∈ dw_held w))
    by (rewrite (st_held _ _ _ _ _ _ _ _ H); constructor). cbn [andb]. apply HQ.
  pose proof (st_held _ _ _ _ _ _ _ _ H) as Hh.
  pose proof (st_hold _ _ _ _ _ _ _ (filter (fun m => m <> l) (dw_held w)) H) as H'.
  enough (filter (fun m => m <> l) (dw_held w) = hs) as Hf by (rewrite Hf in H' at 1; exact H').
  rewrite Hh, filter_cons_False by (intros Hc; by apply Hc). apply filter_all, Forall_forall.
  intros x Hx ->. done.
Qed.

Lemma wp_get_ipc hs sz qs cs F s w Q :
  st cap hs sz qs cs F s w -> Q (Ipc true cap (Z.of_nat (List.length qs)) (q_node <$> qs)) w ->
  wp get_ipc Q w.
Proof. intros H HQ. unfold wp, get_ipc. by rewrite (st_ipc _ _ _ _ _ _ _ _ H). Qed.

Lemma wp_get_cache hs sz qs cs F s w Q :
  st cap hs sz qs cs F s w -> Q (CacheCtx true sz (cs.*1)) w -> wp get_cache Q w.
Proof. intros H HQ. unfold wp, get_cache. by rewrite (st_cache _ _ _ _ _ _ _ _ H). Qed.

Lemma wp_ipc_lock hs sz qs cs F s w Q :
  IPC_MUTEX ∉ hs -> st cap hs sz qs cs F s w ->
  (forall w', st cap (IPC_MUTEX :: hs) sz qs cs F s w' -> Q tt w') -> wp _dm_ipc_lock Q w.
Proof.
  intros. apply dwp_bind. eapply wp_get_ipc; [eassumption|]. cbn. eapply wp_mutex_lock; eassumption.
Qed.

Lemma wp_ipc_unlock hs sz qs cs F s w Q :
  IPC_MUTEX ∉ hs -> st cap (IPC_MUTEX :: hs) sz qs cs F s w ->
  (forall w', st cap hs sz qs cs F s w' -> Q tt w') -> wp _dm_ipc_unlock Q w.
Proof.
  intros. apply dwp_bind. eapply wp_get_ipc; [eassumption|]. cbn. eapply wp_mutex_unlock; eassumption.
Qed.

Lemma wp_cache_lock hs sz qs cs F s w Q :
  CACHE_MUTEX ∉ hs -> st cap hs sz qs cs F s w ->
  (forall w', st cap (CACHE_MUTEX :: hs) sz qs cs F s w' -> Q tt w') -> wp _dm_msg_cache_mutex_lock Q w.
Proof.
  intros. apply dwp_bind. eapply wp_get_cache; [eassumption|]. cbn. eapply wp_mutex_lock; eassumption.
Qed.

Lemma wp_cache_unlock hs sz qs cs F s w Q :
  CACHE_MUTEX ∉ hs -> st cap (CACHE_MUTEX :: hs) sz qs cs F s w ->
  (forall w', st cap hs sz qs cs F s w' -> Q tt w') -> wp _dm_msg_cache_mutex_unlock Q w.
Proof.
  intros. apply dwp_bind. eapply wp_get_cache; [eassumption|]. cbn. eapply wp_mutex_unlock; eassumption.
Qed.
End Triples.
