(* ===== verification/DmSpec.v ===== *)
(** * DmSpec: what the device model's queue and cache promise

    An abstract queue of messages and an abstract list of waiting requests, and that the
    functions of [DmQueue] implement them: no message is lost or repeated or overtakes
    another, every request is answered or reported as timed out, and all blocks but those
    of what is queued and cached are freed. *)

From S2P Require Import Prelude.
From S2P Require Import CString.
From S2P Require Import Json.
From S2P Require Import Hal.
From S2P Require Import InfraState.
From S2P Require Import DmStore.
From S2P Require Import DmQueue.
From S2P Require Import DmLogic.

(** The next statement, with the triple that describes it. *)
Ltac wp_side :=
  try match goal with
      | H : st _ _ _ _ _ _ _ ?w |- st _ _ _ _ _ _ _ ?w => exact H
      | |- _ ∉ _ => first [eassumption|by intros ?%list_elem_of_singleton|by intros ?%elem_of_nil]
      end.
Ltac wp_step t := apply dwp_bind; eapply t; wp_side.

Section Queue.
Context {E : Type} `{!Hal E, !DmApp E, !DmQuiet E} (cap : Z).
Implicit Types (w : dm_world E) (qs : list qmsg) (cs : list (nat * dm_msg_cache_node_t)).

(** *** The queue *)

Lemma blocks_push qs cs F a m t x :
  blocks qs cs ((a, ONode (IpcNode (Some m))) :: msg_blocks m t x ++ F)
  ≡ₚ blocks (qs ++ [QMsg a m t x]) cs F.
Proof.
  change ((a, ONode (IpcNode (Some m))) :: msg_blocks m t x ++ F) with (queue_blocks (QMsg a m t x) ++ F).
  unfold blocks. rewrite bind_app. cbn [mbind list_bind].
  rewrite app_nil_r, <-!app_assoc. apply Permutation_app_head, Permutation_app_swap_app.
Qed.

Lemma node_block qs a : a ∈ q_node <$> qs -> a ∈ (qs ≫= queue_blocks).*1.
Proof.
  intros (q & -> & Hq)%list_elem_of_fmap. apply list_elem_of_fmap.
  exists (q_node q, ONode (IpcNode (Some (q_msg q)))). split; [done|].
  apply list_elem_of_bind. exists q. split; [constructor|done].
Qed.

Lemma wp_msg_insert hs sz qs cs F s w m t x Q :
  IPC_MUTEX ∉ hs -> st cap hs sz qs cs (msg_blocks m t x ++ F) s w ->
  (forall w' a, Z.of_nat (List.length qs) < cap -> st cap hs sz (qs ++ [QMsg a m t x]) cs F s w' ->
     Q SUCCESS_RETURN w') ->
  (forall w', cap <= Z.of_nat (List.length qs) -> st cap hs sz qs cs (msg_blocks m t x ++ F) s w' ->
     Q STATE_DEV_MODEL_MSGQ_FULL w') ->
  (forall w', oom E -> st cap hs sz qs cs (msg_blocks m t x ++ F) s w' -> Q STATE_SYS_DEPEND_MALLOC w') ->
  wp (dm_ipc_msg_insert (Some m)) Q w.
Proof.
  intros Hhs H HS HF HM. unfold dm_ipc_msg_insert.
  wp_step wp_ipc_lock. intros w1 H1. wp_step wp_event. intros w2 H2. wp_step wp_get_ipc.
  cbn [max_size DmStore.size]. destruct (Z.leb_spec cap (Z.of_nat (List.length qs))) as [Hc|Hc].
  - wp_step wp_ipc_unlock. intros w3 H3. wp_step wp_event. intros w4 H4. apply dwp_ret. by apply HF.
  - wp_step wp_malloc.
    + intros w3 a H3. apply dwp_bind.
      assert (st cap (IPC_MUTEX :: hs) sz (qs ++ [QMsg a m t x]) cs F s
        (w3 <| dw_ipc ::= fun c => c <| DmStore.size ::= fun n => n + 1 |> <| message_list ::= fun l => l ++ [a] |> |>)) as H4.
      { destruct H3 as [K1 K2 K3 K4 K5 K6 K7]. split; try done.
        - eapply holds_same; [..|eapply holds_perm; [|exact K1]]; [done..|]. apply blocks_push.
        - change (dw_ipc (w3 <| dw_ipc ::= fun c => c <| DmStore.size ::= fun n => n + 1 |> <| message_list ::= fun l => l ++ [a] |> |>))
            with ((dw_ipc w3) <| DmStore.size ::= fun n => n + 1 |> <| message_list ::= fun l => l ++ [a] |>).
          rewrite K2, length_app, fmap_app. cbn [List.length]. rewrite Nat2Z.inj_add. done. }
      apply wp_mod_ipc. wp_step wp_ipc_unlock. intros w5 H5. apply dwp_ret. by eapply HS.
    + intros w3 Ho H3. wp_step wp_ipc_unlock. intros w4 H4. apply dwp_ret. by apply HM.
Qed.

Lemma wp_msg_next hs sz q qs cs F s w Q :
  IPC_MUTEX ∉ hs -> st cap hs sz (q :: qs) cs F s w ->
  (forall w', st cap hs sz qs cs (msg_blocks (q_msg q) (q_type q) (q_text q) ++ F) s w' ->
     Q (SUCCESS_RETURN, Some (q_msg q)) w') ->
  wp dm_ipc_msg_next Q w.
Proof.
  intros Hhs H HQ. unfold dm_ipc_msg_next.
  wp_step wp_ipc_lock. intros w1 H1. wp_step wp_get_ipc. cbn [message_list fmap list_fmap].
  set (a := q_node q).
  assert (st cap (IPC_MUTEX :: hs) sz qs cs
      ((a, ONode (IpcNode (Some (q_msg q)))) :: msg_blocks (q_msg q) (q_type q) (q_text q) ++ F) s
      (w1 <| dw_ipc ::= fun c => c <| message_list ::= filter (fun b => b <> a) |> <| DmStore.size ::= fun n => n - 1 |> |>)
    /\ dw_heap w1 !! a = Some (ONode (IpcNode (Some (q_msg q))))) as [H2 Ha].
  { destruct H1 as [K1 K2 K3 K4 K5 K6 K7].
    assert (blocks (q :: qs) cs F ≡ₚ (a, ONode (IpcNode (Some (q_msg q)))) ::
      msg_blocks (q_msg q) (q_type q) (q_text q) ++ blocks qs cs F) as Hp.
    { unfold blocks. cbn [mbind list_bind]. unfold queue_blocks at 1. by rewrite <-app_assoc. }
    pose proof (holds_perm _ _ _ Hp K1) as K1'.
    split; [|exact (holds_lookup _ _ _ _ K1')]. split; try done.
    - eapply holds_same; [..|eapply holds_perm; [|exact K1']]; [done..|].
      rewrite blocks_other. constructor. unfold blocks. rewrite !app_assoc. apply Permutation_app_tail.
      rewrite <-!app_assoc, Permutation_app_comm, <-app_assoc. done.
    - change (dw_ipc (w1 <| dw_ipc ::= fun c => c <| message_list ::= filter (fun b => b <> a) |> <| DmStore.size ::= fun n => n - 1 |> |>))
        with ((dw_ipc w1) <| message_list ::= filter (fun b => b <> a) |> <| DmStore.size ::= fun n => n - 1 |>).
      rewrite K2. cbn [List.length].
      assert (filter (fun b => b <> a) (a :: (q_node <$> qs)) = q_node <$> qs) as Hf.
      { rewrite filter_cons_False by (intros Hx; by apply Hx). apply filter_all, Forall_forall.
        intros b Hin%node_block ->. destruct K1' as (Hn & _ & _). cbn [fmap list_fmap fst] in Hn.
        apply NoDup_cons in Hn as [Hn _]. apply Hn. rewrite fmap_app. apply elem_of_app. right.
        unfold blocks. rewrite fmap_app. apply elem_of_app. by left. }
      change (Ipc true cap (Z.of_nat (S (List.length qs)) - 1) (filter (fun b => b <> a) (a :: (q_node <$> qs)))
        = Ipc true cap (Z.of_nat (List.length qs)) (q_node <$> qs)).
      rewrite Hf. f_equal. lia. }
  apply dwp_bind. apply dwp_bind. eapply wp_load_at; [exact Ha|]. apply dwp_ret. apply dwp_bind.
  apply wp_mod_ipc. wp_step wp_free. intros w3 H3. wp_step wp_ipc_unlock. intros w4 H4.
  wp_step wp_event. intros w5 H5. apply dwp_ret. by apply HQ.
Qed.

Lemma wp_msg_next_empty hs sz cs F s w Q :
  IPC_MUTEX ∉ hs -> st cap hs sz [] cs F s w ->
  (forall w', st cap hs sz [] cs F s w' -> Q (STATE_DEV_MODEL_MSGQ_EMPTY, None) w') ->
  wp dm_ipc_msg_next Q w.
Proof.
  intros Hhs H HQ. unfold dm_ipc_msg_next.
  wp_step wp_ipc_lock. intros w1 H1. wp_step wp_get_ipc. cbn [message_list fmap list_fmap].
  wp_step wp_ipc_unlock. exact HQ.
Qed.

(** A message is queued, or refused with its text left to the caller. *)
Lemma wp_send_to_user hs sz qs cs F s w type x Q :
  IPC_MUTEX ∉ hs -> st cap hs sz qs cs (text_block x ++ F) s w ->
  (forall w' q, Z.of_nat (List.length qs) < cap -> message q = (type, snd <$> x) ->
     st cap hs sz (qs ++ [q]) cs F s w' -> Q SUCCESS_RETURN w') ->
  (forall w', cap <= Z.of_nat (List.length qs) -> st cap hs sz qs cs (text_block x ++ F) s w' ->
     Q STATE_DEV_MODEL_MSGQ_FULL w') ->
  (forall w', oom E -> st cap hs sz qs cs (text_block x ++ F) s w' -> Q STATE_SYS_DEPEND_MALLOC w') ->
  wp (_dm_msg_send_to_user type (fst <$> x)) Q w.
Proof.
  intros Hhs H HS HF HM. unfold _dm_msg_send_to_user. wp_step wp_malloc; [|exact HM].
  intros w1 a H1. apply dwp_bind. eapply (wp_msg_insert hs sz qs cs F s w1 a type x); [done|exact H1|..].
  - intros w2 b Hl H2. cbn [Z.eqb SUCCESS_RETURN negb]. wp_step wp_event. intros w3 H3. apply dwp_ret.
    eapply HS; [done| |exact H3]. done.
  - intros w2 Hl H2. wp_step wp_free. intros w3 H3. by apply HF.
  - intros w2 Ho H2. wp_step wp_free. intros w3 H3. by apply HM.
Qed.

(** The report of a timed-out request. *)
Definition timeout_text (id dev : Z) : list Z :=
  json_lit "{'id':" ++ fmt_d id ++ json_lit ",'code':100000,'devid':" ++ fmt_d dev ++ json_lit "}".

Definition timeout_message (id dev type : Z) : Z * option (list Z) :=
  (type, Some (snprintf_text timeout_message_len (timeout_text id dev))).

Lemma timeout_fmt_text id dev :
  sprintf DM_MSG_SEND_MSG_TIMEOUT_FMT [PD id; PD IOTX_DM_ERR_CODE_TIMEOUT; PD dev] = Some (timeout_text id dev).
Proof.
  unfold timeout_text. change DM_MSG_SEND_MSG_TIMEOUT_FMT
    with (json_lit "{'id':" ++ 37 :: 100 :: json_lit ",'code':" ++ 37 :: 100 :: json_lit ",'devid':" ++ 37 :: 100 :: json_lit "}").
  rewrite sprintf_lit by done. change (sprintf (37 :: 100 :: ?f) (PD id :: ?a)) with (r ← sprintf f a; Some (fmt_d id ++ r)).
  rewrite sprintf_lit by done. change (sprintf (37 :: 100 :: ?f) (PD ?n :: ?a)) with (r ← sprintf f a; Some (fmt_d n ++ r)).
  rewrite sprintf_lit by done. change (sprintf (37 :: 100 :: ?f) [PD dev]) with (r ← sprintf f []; Some (fmt_d dev ++ r)).
  change (sprintf (json_lit "}") []) with (Some (json_lit "}")). cbn [mbind option_bind].
  change (fmt_d IOTX_DM_ERR_CODE_TIMEOUT) with (lit "100000").
  reflexivity.
Qed.

(** The report of a request is never cut off. *)
Lemma timeout_message_whole id dev type :
  -2147483648 <= id < 2147483648 -> -2147483648 <= dev < 2147483648 ->
  timeout_message id dev type = (type, Some (timeout_text id dev)).
Proof.
  intros Hi Hd. unfold timeout_message, snprintf_text. do 2 f_equal. apply take_ge.
  unfold timeout_text. rewrite !length_app.
  pose proof (fmt_d_length id Hi). pose proof (fmt_d_length dev Hd).
  change (List.length (json_lit "{'id':")) with 6%nat. change (List.length (json_lit ",'code':100000,'devid':")) with 23%nat.
  change (List.length (json_lit "}")) with 1%nat. change (Z.to_nat (timeout_message_len - 1)) with 60%nat. lia.
Qed.

Lemma wp_timeout_to_user hs sz qs cs F s w id dev type Q :
  IPC_MUTEX ∉ hs -> st cap hs sz qs cs F s w ->
  (forall w' q, Z.of_nat (List.length qs) < cap -> message q = timeout_message id dev type ->
     st cap hs sz (qs ++ [q]) cs F s w' -> Q SUCCESS_RETURN w') ->
  (forall w', cap <= Z.of_nat (List.length qs) -> st cap hs sz qs cs F s w' -> Q STATE_DEV_MODEL_MSGQ_FULL w') ->
  (forall w', oom E -> st cap hs sz qs cs F s w' -> Q STATE_SYS_DEPEND_MALLOC w') ->
  wp (dm_msg_send_msg_timeout_to_user id dev type) Q w.
Proof.
  intros Hhs H HS HF HM. unfold dm_msg_send_msg_timeout_to_user.
  apply dwp_bind. eapply dwp_lift; [apply timeout_fmt_text|]. wp_step wp_malloc; [|exact HM].
  intros w1 a H1. apply dwp_bind.
  match type of H1 with st _ _ _ _ _ ((a, OText ?s) :: F) _ _ =>
    eapply (wp_send_to_user hs sz qs cs F _ w1 type (Some (a, s))); [done|exact H1|..] end.
  - intros w2 q Hl Hq H2. by eapply HS.
  - intros w2 Hl H2. wp_step wp_free. intros w3 H3. by apply HF.
  - intros w2 Ho H2. wp_step wp_free. intros w3 H3. by apply HM.
Qed.

(** Dispatching gives the callback the first messages, in order, and frees them. *)
Lemma wp_dispatch n hs sz qs cs F s w Q :
  IPC_MUTEX ∉ hs -> st cap hs sz qs cs F s w ->
  (forall w', st cap hs sz (drop n qs) cs F (s ++ (ObsMessage <$> (message <$> take n qs))) w' -> Q tt w') ->
  wp (dispatch_loop n) Q w.
Proof.
  intros Hhs. revert qs s w. induction n as [|n IH]; intros qs s w H HQ; cbn [dispatch_loop].
  { apply dwp_ret, HQ. by rewrite app_nil_r. }
  destruct qs as [|q qs].
  { apply dwp_bind. eapply wp_msg_next_empty; [done|exact H|]. intros w' H'. apply HQ.
    cbn. by rewrite app_nil_r. }
  apply dwp_bind. eapply wp_msg_next; [done|exact H|]. intros w1 H1. cbn [Z.eqb SUCCESS_RETURN].
  apply dwp_bind. apply dwp_bind. eapply wp_load; [exact H1|]. apply dwp_ret. cbn [im_type im_data].
  apply dwp_bind.
  enough (wp (match event_callback with None => mret tt | Some cb => cb (q_type q) (snd <$> q_text q) end;;
    DM_free_opt (fst <$> q_text q);; DM_free (q_msg q);; dispatch_loop n) Q w1) as Hk.
  { destruct (q_text q) as [[b t]|]; [|by apply dwp_ret]. apply dwp_bind. unfold load_text. apply dwp_bind.
    eapply (wp_load cap hs sz qs cs _ s w1 b (OText t)); [eapply st_perm; [|exact H1]; apply perm_swap|].
    apply dwp_ret, dwp_ret. exact Hk. }
  apply dwp_bind. destruct quiet_callback as (cb & -> & Hcb).
  destruct (Hcb (q_type q) (snd <$> q_text q) w1) as (e & He & Hs). unfold wp at 1. rewrite He.
  assert (st cap hs sz qs cs (msg_blocks (q_msg q) (q_type q) (q_text q) ++ F) (s ++ [ObsMessage (message q)])
    (w1 <| dw_env := e |>)) as H2.
  { destruct H1 as [K1 K2 K3 K4 K5 K6 K7]. split; try done. rewrite <-K7. exact Hs. }
  apply dwp_bind.
  enough (forall w', st cap hs sz qs cs ((q_msg q, OMsg (IpcMsg (q_type q) (fst <$> q_text q))) :: F)
    (s ++ [ObsMessage (message q)]) w' -> wp (DM_free (q_msg q);; dispatch_loop n) Q w') as Hk.
  { destruct (q_text q) as [[b t]|]; [|by apply dwp_ret, Hk]. eapply wp_free; [|exact Hk].
    eapply st_perm; [|exact H2]. apply perm_swap. }
  intros w2 H3. wp_step wp_free. intros w3 H4. eapply IH; [exact H4|].
  intros w4 H5. apply HQ. cbn [take drop fmap list_fmap]. by rewrite <-app_assoc in H5.
Qed.
End Queue.

(** ** The cache *)

(** What an entry records, and the first one of a message. *)
Definition is_request (id : Z) (x : nat * dm_msg_cache_node_t) : bool := msgid (snd x) =? id.

Fixpoint first_request (id : Z) (cs : list (nat * dm_msg_cache_node_t))
    : option (list (nat * dm_msg_cache_node_t) * (nat * dm_msg_cache_node_t) * list (nat * dm_msg_cache_node_t)) :=
  match cs with
  | [] => None
  | x :: cs' =>
      if is_request id x then Some ([], x, cs')
      else '(l, y, r) ← first_request id cs'; Some (x :: l, y, r)
  end.

Lemma first_request_split id cs l y r : first_request id cs = Some (l, y, r) -> cs = l ++ y :: r.
Proof.
  revert l. induction cs as [|x cs IH]; intros l; [done|]. cbn [first_request].
  destruct (is_request id x); [by intros [= <- <- <-]|].
  destruct (first_request id cs) as [[[l' y'] r']|]; [|done]. intros [= <- <- <-].
  by rewrite (IH l' eq_refl).
Qed.

(** An entry whose time lies in the future, as after a step back of the clock, starts anew. *)
Definition adjusted (now : Z) (n : dm_msg_cache_node_t) : dm_msg_cache_node_t :=
  if now <? ctime n then n <| ctime := now |> else n.

Definition timed_out (now : Z) (n : dm_msg_cache_node_t) : bool :=
  DM_MSG_CACHE_TIMEOUT_MS_DEFAULT <=? now - ctime (adjusted now n).

Definition report (n : dm_msg_cache_node_t) : Z * option (list Z) :=
  timeout_message (msgid n) (devid n) (response_type n).

Definition tick_reports (now : Z) (cs : list (nat * dm_msg_cache_node_t)) : list (Z * option (list Z)) :=
  cs ≫= fun x => if timed_out now (snd x) then [report (snd x)] else [].

Definition tick_kept (now : Z) (cs : list (nat * dm_msg_cache_node_t)) : list (nat * dm_msg_cache_node_t) :=
  cs ≫= fun x => if timed_out now (snd x) then [] else [(fst x, adjusted now (snd x))].

(** Messages put on a queue one after the other: one is lost when the queue is full, or
    when memory runs out. *)
Inductive enqueue {A} (cap : Z) (may_fail : Prop) : list A -> list A -> list A -> Prop :=
  | enqueue_nil q : enqueue cap may_fail q [] q
  | enqueue_push q m ms q' :
      Z.of_nat (List.length q) < cap -> enqueue cap may_fail (q ++ [m]) ms q' ->
      enqueue cap may_fail q (m :: ms) q'
  | enqueue_full q m ms q' :
      cap <= Z.of_nat (List.length q) -> enqueue cap may_fail q ms q' -> enqueue cap may_fail q (m :: ms) q'
  | enqueue_fail q m ms q' :
      may_fail -> enqueue cap may_fail q ms q' -> enqueue cap may_fail q (m :: ms) q'.

Section Cache.
Context {E : Type} `{!Hal E, !DmApp E, !DmQuiet E} (cap : Z).
Implicit Types (w : dm_world E) (qs : list qmsg) (cs : list (nat * dm_msg_cache_node_t)).

Lemma cache_entry_lookup hs sz qs cs F s w l x r :
  st cap hs sz qs cs F s w -> cs = l ++ x :: r -> dw_heap w !! (fst x) = Some (OCache (snd x)).
Proof.
  intros H ->. eapply holds_lookup with (l := (qs ≫= queue_blocks) ++ (cache_block <$> l) ++ (cache_block <$> r) ++ F).
  eapply holds_perm; [|exact (st_holds _ _ _ _ _ _ _ _ H)]. unfold blocks.
  rewrite fmap_app, fmap_cons, <-!app_assoc. change (cache_block x) with (fst x, OCache (snd x)).
  cbn [app]. rewrite <-!Permutation_middle. done.
Qed.

(** An entry is taken off the list; its block stays. *)
Lemma st_unlink hs sz qs cs F s w l x r :
  st cap hs sz qs cs F s w -> cs = l ++ x :: r ->
  st cap hs sz qs (l ++ r) (cache_block x :: F) s
    (w <| dw_cache ::= fun c => c <| dmc_list ::= filter (fun b => b <> fst x) |> |>).
Proof.
  intros [K1 K2 K3 K4 K5 K6 K7] ->. split; try done.
  - eapply holds_same; [..|eapply holds_perm; [|exact K1]]; [done..|]. unfold blocks.
    rewrite !fmap_app, fmap_cons, <-!app_assoc. apply Permutation_app_head, Permutation_app_head.
    cbn [app]. by rewrite Permutation_middle.
  - change (dw_cache (w <| dw_cache ::= fun c => c <| dmc_list ::= filter (fun b => b <> fst x) |> |>))
      with ((dw_cache w) <| dmc_list ::= filter (fun b => b <> fst x) |>).
    rewrite K3, fmap_app, fmap_cons.
    change ((CacheCtx true sz (l.*1 ++ x.1 :: r.*1)) <| dmc_list ::= filter (fun b => b <> fst x) |>)
      with (CacheCtx true sz (filter (fun b => b <> fst x) (l.*1 ++ x.1 :: r.*1))).
    f_equal. rewrite fmap_app. apply filter_head.
    destruct K1 as (Hn & _ & _). unfold blocks in Hn. rewrite fmap_app in Hn.
    apply NoDup_app in Hn as (_ & _ & Hn). rewrite fmap_app in Hn. apply NoDup_app in Hn as (Hn & _ & _).
    rewrite <-list_fmap_compose, fmap_app in Hn. exact Hn.
  - apply Forall_app in K6 as [H1 H2]. apply Forall_cons in H2 as [_ H2]. by apply Forall_app.
Qed.

Lemma st_size hs sz qs cs F s w sz' :
  st cap hs sz qs cs F s w -> st cap hs sz' qs cs F s (w <| dw_cache ::= fun c => c <| dmc_list_size := sz' |> |>).
Proof.
  intros [K1 K2 K3 K4 K5 K6 K7]. split; try done.
  change (dw_cache (w <| dw_cache ::= fun c => c <| dmc_list_size := sz' |> |>))
    with ((dw_cache w) <| dmc_list_size := sz' |>). by rewrite K3.
Qed.

Lemma wp_insert hs sz qs cs F s w id dev type Q :
  CACHE_MUTEX ∉ hs -> st cap hs sz qs cs F s w ->
  (forall w' a now, sz < CONFIG_MSGCACHE_QUEUE_MAXLEN ->
     st cap hs (sz + 1) qs (cs ++ [(a, CacheNode id dev type None now)]) F (s ++ [ObsUptime now]) w' -> Q SUCCESS_RETURN w') ->
  (forall w', CONFIG_MSGCACHE_QUEUE_MAXLEN <= sz -> st cap hs sz qs cs F s w' -> Q STATE_DEV_MODEL_CTX_LIST_FULL w') ->
  (forall w', oom E -> st cap hs sz qs cs F s w' -> Q STATE_SYS_DEPEND_MALLOC w') ->
  wp (dm_msg_cache_insert id dev type None) Q w.
Proof.
  intros Hhs H HS HF HM. unfold dm_msg_cache_insert.
  wp_step wp_event. intros w1 H1. wp_step wp_get_cache. cbn [dmc_list_size].
  destruct (Z.leb_spec CONFIG_MSGCACHE_QUEUE_MAXLEN sz) as [Hs|Hs]; [apply dwp_ret; by apply HF|].
  wp_step wp_malloc; [|intros w2 Ho H2; apply dwp_ret; by apply HM].
  intros w2 a H2. wp_step wp_uptime. intros w3 now H3.
  apply dwp_bind. eapply wp_store; [exact H3|]. intros w4 H4.
  wp_step wp_cache_lock. intros w5 H5. apply dwp_bind. apply wp_mod_cache.
  assert (st cap (CACHE_MUTEX :: hs) (sz + 1) qs (cs ++ [(a, CacheNode id dev type None now)]) F (s ++ [ObsUptime now])
    (w5 <| dw_cache ::= fun c => c <| dmc_list ::= fun l => l ++ [a] |> <| dmc_list_size ::= fun n => n + 1 |> |>)) as H6.
  { destruct H5 as [K1 K2 K3 K4 K5 K6 K7]. split; try done.
    - eapply holds_same; [..|eapply holds_perm; [|exact K1]]; [done..|]. unfold blocks.
      rewrite fmap_app, <-app_assoc. done.
    - change (dw_cache (w5 <| dw_cache ::= fun c => c <| dmc_list ::= fun l => l ++ [a] |> <| dmc_list_size ::= fun n => n + 1 |> |>))
        with ((dw_cache w5) <| dmc_list ::= fun l => l ++ [a] |> <| dmc_list_size ::= fun n => n + 1 |>).
      rewrite K3, fmap_app. done.
    - apply Forall_app. split; [done|]. by repeat constructor. }
  wp_step wp_cache_unlock. intros w7 H7. wp_step wp_event. intros w8 H8. apply dwp_ret. by eapply HS.
Qed.

Lemma wp_find hs sz qs pre cs F s w id Q :
  st cap hs sz qs (pre ++ cs) F s w ->
  Q (option_map (fun x => snd (fst x)) (first_request id cs)) w -> wp (cache_find id (cs.*1)) Q w.
Proof.
  intros H. revert pre H Q. induction cs as [|[a n] cs IH]; intros pre H Q HQ; [done|].
  cbn [fmap list_fmap fst cache_find]. apply dwp_bind. apply dwp_bind.
  eapply wp_load_at; [by eapply (cache_entry_lookup _ _ _ _ _ _ _ pre (a, n) cs)|]. apply dwp_ret. cbn [snd].
  cbn [first_request is_request snd] in HQ. unfold is_request in HQ. cbn [snd] in HQ.
  destruct (msgid n =? id); [done|].
  apply (IH (pre ++ [(a, n)])); [by rewrite <-app_assoc|].
  destruct (first_request id cs) as [[[l y] r]|]; done.
Qed.

Lemma wp_search hs sz qs cs F s w id Q :
  CACHE_MUTEX ∉ hs -> 0 <= id -> st cap hs sz qs cs F s w ->
  (forall w', st cap hs sz qs cs F s w' ->
     Q (match first_request id cs with
        | Some (_, x, _) => (SUCCESS_RETURN, Some (fst x))
        | None => (STATE_DEV_MODEL_CTX_LIST_EMPTY, None)
        end) w') ->
  wp (dm_msg_cache_search id) Q w.
Proof.
  intros Hhs Hid H HQ. unfold dm_msg_cache_search. rewrite (proj2 (Z.ltb_ge id 0)) by done.
  wp_step wp_cache_lock. intros w1 H1. wp_step wp_get_cache. cbn [dmc_list].
  apply dwp_bind. eapply (wp_find _ _ _ []); [exact H1|].
  wp_step wp_cache_unlock. intros w2 H2. apply HQ in H2 as HQ'.
  destruct (first_request id cs) as [[[l [a n]] r]|]; by apply dwp_ret.
Qed.

Lemma wp_remove hs sz qs cs F s w id Q :
  CACHE_MUTEX ∉ hs -> st cap hs sz qs cs F s w ->
  match first_request id cs with
  | Some (l, x, r) => forall w', st cap hs (sz - 1) qs (l ++ r) F s w' -> Q SUCCESS_RETURN w'
  | None => forall w', st cap hs sz qs cs F s w' -> Q STATE_DEV_MODEL_CTX_LIST_EMPTY w'
  end ->
  wp (dm_msg_cache_remove id) Q w.
Proof.
  intros Hhs H HQ. unfold dm_msg_cache_remove.
  wp_step wp_cache_lock. intros w1 H1. wp_step wp_get_cache. cbn [dmc_list].
  apply dwp_bind. eapply (wp_find _ _ _ []); [exact H1|].
  destruct (first_request id cs) as [[[l [a n]] r]|] eqn:Hf; cbn [option_map fst snd]; last first.
  { wp_step wp_cache_unlock. intros w2 H2. apply dwp_ret. by apply HQ. }
  apply first_request_split in Hf. apply dwp_bind. apply wp_mod_cache.
  pose proof (st_unlink _ _ _ _ _ _ _ _ _ _ H1 Hf) as H2.
  assert (data n = None) as ->.
  { pose proof (st_data _ _ _ _ _ _ _ _ H1) as Hd. rewrite Hf in Hd.
    apply Forall_app in Hd as [_ Hd]. by apply Forall_cons in Hd as [Hd _]. }
  apply dwp_bind, dwp_ret. apply dwp_bind, wp_mod_cache.
  match goal with |- wp _ _ ?w3 =>
    assert (st cap (CACHE_MUTEX :: hs) (sz - 1) qs (l ++ r) (cache_block (a, n) :: F) s w3) as H3 end.
  { destruct H2 as [K1 K2 K3 K4 K5 K6 K7]. split; try done.
    cbn [fst] in K3. unfold upd in K3 |- *. cbn in K3 |- *. injection K3 as E1 E2 E3. rewrite E1, E2, E3. done. }
  wp_step wp_free. intros w4 H4. wp_step wp_event. intros w5 H5. wp_step wp_cache_unlock. intros w6 H6.
  apply dwp_ret. by apply HQ.
Qed.

Lemma wp_store_entry hs sz qs cs F s w l a n n' r Q :
  st cap hs sz qs cs F s w -> cs = l ++ (a, n) :: r -> data n' = data n ->
  (forall w', st cap hs sz qs (l ++ (a, n') :: r) F s w' -> Q tt w') ->
  wp (store a (OCache n')) Q w.
Proof.
  intros [K1 K2 K3 K4 K5 K6 K7] -> Hd HQ.
  assert (forall m, blocks qs (l ++ (a, m) :: r) F ≡ₚ (a, OCache m) :: blocks qs (l ++ r) F) as Hp.
  { intros m. unfold blocks. rewrite !fmap_app, fmap_cons, <-!app_assoc.
    change (cache_block (a, m)) with (a, OCache m). cbn [app]. by rewrite !Permutation_middle. }
  pose proof (holds_perm _ _ _ (Hp n) K1) as K1'.
  unfold wp, store. rewrite (holds_lookup _ _ _ _ K1'). apply HQ. split; try done.
  - eapply holds_perm; [symmetry; apply Hp|]. by eapply holds_store.
  - change (dw_cache (w <| dw_heap ::= insert a (OCache n') |>)) with (dw_cache w). rewrite K3.
    by rewrite !fmap_app, !fmap_cons.
  - apply Forall_app in K6 as [H1 H2]. apply Forall_cons in H2 as [H2 H3].
    apply Forall_app. split; [done|]. constructor; [|done]. cbn [snd] in *. by rewrite Hd.
Qed.

Lemma wp_tick_loop now hs sz todo :
  IPC_MUTEX ∉ hs -> forall qs pre F s w Q,
  st cap hs sz qs (pre ++ todo) F s w ->
  (forall w' qs', enqueue cap (oom E) (message <$> qs) (tick_reports now todo) (message <$> qs') ->
     st cap hs sz qs' (pre ++ tick_kept now todo) F s w' -> Q tt w') ->
  wp (tick_loop now (todo.*1)) Q w.
Proof.
  intros Hhs. induction todo as [|[a n] todo IH]; intros qs pre F s w Q H HQ.
  { apply dwp_ret. eapply HQ; [apply enqueue_nil|exact H]. }
  cbn [fmap list_fmap fst tick_loop]. apply dwp_bind. apply dwp_bind.
  eapply wp_load_at; [by eapply (cache_entry_lookup _ _ _ _ _ _ _ pre (a, n) todo)|]. apply dwp_ret. cbn [snd].
  fold (adjusted now n). apply dwp_bind.
  eapply (wp_store_entry _ _ _ _ _ _ _ pre a n (adjusted now n) todo); [exact H|done|by unfold adjusted; destruct (_ <? _)|].
  intros w1 H1. change (DM_MSG_CACHE_TIMEOUT_MS_DEFAULT <=? now - ctime (adjusted now n)) with (timed_out now n).
  unfold tick_reports, tick_kept in HQ. cbn [mbind list_bind fst snd] in HQ.
  fold (tick_reports now todo) in HQ. fold (tick_kept now todo) in HQ. apply dwp_bind.
  destruct (timed_out now n); last first.
  { apply dwp_ret. apply (IH qs (pre ++ [(a, adjusted now n)]) F s); [by rewrite <-app_assoc|].
    intros w2 qs' Hq H2. rewrite <-app_assoc in H2. by apply (HQ w2 qs'). }
  wp_step wp_event. intros w2 H2. apply dwp_bind.
  assert (msgid (adjusted now n) = msgid n /\ devid (adjusted now n) = devid n
    /\ response_type (adjusted now n) = response_type n /\ data (adjusted now n) = data n) as (-> & -> & -> & ->)
    by (unfold adjusted; by destruct (_ <? _)).
  assert (data n = None) as ->.
  { pose proof (st_data _ _ _ _ _ _ _ _ H) as Hd. apply Forall_app in Hd as [_ Hd]. by apply Forall_cons in Hd as [Hd _]. }
  assert (forall qs2 w3 (r : Z), st cap hs sz qs2 (pre ++ (a, adjusted now n) :: todo) F s w3 ->
    (forall qs', enqueue cap (oom E) (message <$> qs2) (tick_reports now todo) (message <$> qs') ->
       enqueue cap (oom E) (message <$> qs) (report n :: tick_reports now todo) (message <$> qs')) ->
    wp (cache_unlink a;; DM_free_opt None;; DM_free a)
      (fun _ w' => wp (tick_loop now (todo.*1)) Q w') w3) as Hrest.
  { intros qs2 w3 _ H3 Henq. apply dwp_bind, wp_mod_cache. apply dwp_bind, dwp_ret.
    pose proof (st_unlink _ _ _ _ _ _ _ pre (a, adjusted now n) todo H3 eq_refl) as H4.
    eapply wp_free; [exact H4|]. intros w5 H5. eapply (IH qs2 pre); [exact H5|].
    intros w6 qs' Hq H6. apply (HQ w6 qs'); [by apply Henq|done]. }
  eapply (wp_timeout_to_user cap hs sz qs _ F s w2 (msgid n) (devid n) (response_type n)); [done|exact H2|..].
  - intros w3 q Hl Hq H3. apply (Hrest (qs ++ [q]) w3 0 H3). intros qs' He.
    apply enqueue_push; [by rewrite length_fmap|]. rewrite fmap_app in He. cbn [fmap list_fmap] in He. by rewrite Hq in He.
  - intros w3 Hl H3. apply (Hrest qs w3 0 H3). intros qs' He. apply enqueue_full; [by rewrite length_fmap|done].
  - intros w3 Ho H3. apply (Hrest qs w3 0 H3). intros qs' He. by apply enqueue_fail.
Qed.

Lemma wp_tick hs sz qs cs F s w Q :
  IPC_MUTEX ∉ hs -> CACHE_MUTEX ∉ hs -> st cap hs sz qs cs F s w ->
  (forall w' now qs', enqueue cap (oom E) (message <$> qs) (tick_reports now cs) (message <$> qs') ->
     st cap hs sz qs' (tick_kept now cs) F (s ++ [ObsUptime now]) w' -> Q tt w') ->
  wp dm_msg_cache_tick Q w.
Proof.
  intros Hi Hc H HQ. unfold dm_msg_cache_tick. wp_step wp_uptime. intros w1 now H1.
  wp_step wp_cache_lock. intros w2 H2. wp_step wp_get_cache. cbn [dmc_list]. apply dwp_bind.
  eapply (wp_tick_loop now (CACHE_MUTEX :: hs) sz cs) with (pre := []); [|exact H2|].
  { by intros [|]%elem_of_cons. }
  intros w3 qs' Hq H3. eapply wp_cache_unlock; [exact Hc|exact H3|]. intros w4 H4. by eapply HQ.
Qed.
End Cache.
