(* ===== verification/DmSafety.v ===== *)
(** * DmSafety: the device model's queue and cache implement their specification

    Operations of the application and of the cloud side in any order, on a heap that
    other parts of the program use too. *)

From S2P Require Import Prelude.
From S2P Require Import CString.
From S2P Require Import Hal.
From S2P Require Import InfraState.
From S2P Require Import DmStore.
From S2P Require Import DmQueue.
From S2P Require Import DmLogic.
From S2P Require Import DmSpec.

(** ** The specification *)

(** The messages waiting, the requests waiting in the order of their insertion, how many
    requests have timed out, and what was seen: the messages given to the callback and the
    readings of the clock, in order. *)
Record dm_spec := Spec {
  sp_queue : list (Z * option (list Z));
  sp_cache : list dm_msg_cache_node_t;
  sp_lost : Z;
  sp_seen : list dm_obs
}.

Inductive dm_op :=
  | DmEvent (type : Z)
  | DmTimeout (id dev type : Z)
  | DmDispatch
  | DmInsert (id dev type : Z)
  | DmSearch (id : Z)
  | DmRemove (id : Z)
  | DmTick.

(** The code of an operation, and the request that a search finds. *)
Definition dm_result : Type := Z * option dm_msg_cache_node_t.

Definition code (c : Z) : dm_result := (c, None).

Definition waiting (id : Z) (l : list dm_msg_cache_node_t) : option dm_msg_cache_node_t :=
  List.find (fun n => msgid n =? id) l.

Fixpoint remove_first (id : Z) (l : list dm_msg_cache_node_t) : list dm_msg_cache_node_t :=
  match l with
  | [] => []
  | n :: l' => if msgid n =? id then l' else n :: remove_first id l'
  end.

Definition expired (now : Z) (l : list dm_msg_cache_node_t) : list dm_msg_cache_node_t :=
  filter (fun n => timed_out now n = true) l.

Definition kept (now : Z) (l : list dm_msg_cache_node_t) : list dm_msg_cache_node_t :=
  adjusted now <$> filter (fun n => timed_out now n = false) l.

Definition allocates (op : dm_op) : bool :=
  match op with DmEvent _ | DmTimeout _ _ _ | DmInsert _ _ _ => true | _ => false end.

(** Memory runs out only if [may_fail].  The time of a request, and of a tick, is what the
    clock was read to be. *)
Inductive dm_step (may_fail : Prop) : dm_spec -> dm_op -> dm_result -> dm_spec -> Prop :=
  | step_event q c n g t :
      Z.of_nat (List.length q) < CONFIG_DISPATCH_QUEUE_MAXLEN ->
      dm_step may_fail (Spec q c n g) (DmEvent t) (code SUCCESS_RETURN) (Spec (q ++ [(t, None)]) c n g)
  | step_timeout q c n g id dev t :
      Z.of_nat (List.length q) < CONFIG_DISPATCH_QUEUE_MAXLEN ->
      dm_step may_fail (Spec q c n g) (DmTimeout id dev t) (code SUCCESS_RETURN)
        (Spec (q ++ [timeout_message id dev t]) c n g)
  | step_full q c n g op :
      (exists t, op = DmEvent t) \/ (exists id dev t, op = DmTimeout id dev t) ->
      CONFIG_DISPATCH_QUEUE_MAXLEN <= Z.of_nat (List.length q) ->
      dm_step may_fail (Spec q c n g) op (code STATE_DEV_MODEL_MSGQ_FULL) (Spec q c n g)
  | step_dispatch q c n g :
      dm_step may_fail (Spec q c n g) DmDispatch (code SUCCESS_RETURN) (Spec [] c n (g ++ (ObsMessage <$> q)))
  | step_insert q c n g id dev t now :
      Z.of_nat (List.length c) + n < CONFIG_MSGCACHE_QUEUE_MAXLEN ->
      dm_step may_fail (Spec q c n g) (DmInsert id dev t) (code SUCCESS_RETURN)
        (Spec q (c ++ [CacheNode id dev t None now]) n (g ++ [ObsUptime now]))
  | step_insert_full q c n g id dev t :
      CONFIG_MSGCACHE_QUEUE_MAXLEN <= Z.of_nat (List.length c) + n ->
      dm_step may_fail (Spec q c n g) (DmInsert id dev t) (code STATE_DEV_MODEL_CTX_LIST_FULL) (Spec q c n g)
  | step_search a id :
      dm_step may_fail a (DmSearch id)
        (if id <? 0 then code STATE_USER_INPUT_INVALID
         else match waiting id (sp_cache a) with
              | Some n => (SUCCESS_RETURN, Some n)
              | None => code STATE_DEV_MODEL_CTX_LIST_EMPTY
              end) a
  | step_remove q c n g id :
      dm_step may_fail (Spec q c n g) (DmRemove id)
        (code match waiting id c with Some _ => SUCCESS_RETURN | None => STATE_DEV_MODEL_CTX_LIST_EMPTY end)
        (Spec q (remove_first id c) n g)
  | step_tick q q' c n g now :
      enqueue CONFIG_DISPATCH_QUEUE_MAXLEN may_fail q (report <$> expired now c) q' ->
      dm_step may_fail (Spec q c n g) DmTick (code SUCCESS_RETURN)
        (Spec q' (kept now c) (n + Z.of_nat (List.length (expired now c))) (g ++ [ObsUptime now]))
  | step_oom a op :
      may_fail -> allocates op = true ->
      dm_step may_fail a op (code STATE_SYS_DEPEND_MALLOC) a.

Inductive dm_steps (may_fail : Prop) : dm_spec -> list dm_op -> list dm_result -> dm_spec -> Prop :=
  | steps_nil a : dm_steps may_fail a [] [] a
  | steps_cons a op r a' ops rs a'' :
      dm_step may_fail a op r a' -> dm_steps may_fail a' ops rs a'' ->
      dm_steps may_fail a (op :: ops) (r :: rs) a''.

(** ** The implementation *)

Section Run.
Context {E : Type} `{!Hal E, !DmApp E}.

(** The caller of a search reads the request it is given a pointer to. *)
Definition run_op (op : dm_op) : dm E dm_result :=
  match op with
  | DmEvent t => r ← _dm_msg_send_to_user t None; mret (code r)
  | DmTimeout id dev t => r ← dm_msg_send_msg_timeout_to_user id dev t; mret (code r)
  | DmDispatch => dispatch_messages;; mret (code SUCCESS_RETURN)
  | DmInsert id dev t => r ← dm_msg_cache_insert id dev t None; mret (code r)
  | DmSearch id =>
      '(r, node) ← dm_msg_cache_search id;
      match node with
      | Some a => n ← load_cache a; mret (r, Some n)
      | None => mret (code r)
      end
  | DmRemove id => r ← dm_msg_cache_remove id; mret (code r)
  | DmTick => dm_msg_cache_tick;; mret (code SUCCESS_RETURN)
  end.

Fixpoint run_ops (ops : list dm_op) : dm E (list dm_result) :=
  match ops with
  | [] => mret []
  | op :: ops' => r ← run_op op; rs ← run_ops ops'; mret (r :: rs)
  end.

(** The order of [iotx_dm_open]. *)
Definition dm_start : dm E Z :=
  rc ← dm_msg_cache_init;
  if negb (rc =? SUCCESS_RETURN) then mret rc else dm_ipc_init CONFIG_DISPATCH_QUEUE_MAXLEN.

Context `{!DmQuiet E}.

(** The world holds the messages and requests of [a], in blocks of their own beside [F],
    and no mutex; [s] was seen before. *)
Definition implements (F : list (nat * dm_obj)) (s : list dm_obs) (a : dm_spec)
    (w : dm_world E) : Prop :=
  exists qs cs,
    st CONFIG_DISPATCH_QUEUE_MAXLEN [] (Z.of_nat (List.length cs) + sp_lost a) qs cs F (s ++ sp_seen a) w
    /\ message <$> qs = sp_queue a /\ cs.*2 = sp_cache a
    /\ Z.of_nat (List.length qs) <= CONFIG_DISPATCH_QUEUE_MAXLEN.
End Run.

(** ** Lists *)

Lemma first_request_spec id cs :
  match first_request id cs with
  | Some (l, x, r) => waiting id (cs.*2) = Some (snd x) /\ remove_first id (cs.*2) = (l ++ r).*2
      /\ Z.of_nat (List.length cs) - 1 = Z.of_nat (List.length (l ++ r))
  | None => waiting id (cs.*2) = None /\ remove_first id (cs.*2) = cs.*2
  end.
Proof.
  induction cs as [|[a n] cs IH]; [done|]. cbn [first_request fmap list_fmap snd waiting List.find remove_first].
  unfold is_request. cbn [snd]. fold (waiting id (cs.*2)).
  destruct (msgid n =? id).
  - cbn [app List.length snd]. split; [done|]. split; [done|lia].
  - destruct (first_request id cs) as [[[l y] r]|]; cbn [mbind option_bind].
    + destruct IH as (H1 & H2 & H3). rewrite H2. split; [done|]. split; [done|]. cbn [app List.length]. lia.
    + destruct IH as (H1 & H2). by rewrite H2.
Qed.

Lemma tick_reports_spec now cs : tick_reports now cs = report <$> expired now (cs.*2).
Proof.
  induction cs as [|[a n] cs IH]; [done|]. unfold tick_reports, expired in *. cbn [mbind list_bind fmap list_fmap snd].
  destruct (timed_out now n) eqn:Ht.
  - rewrite filter_cons_True by done. cbn. f_equal. exact IH.
  - rewrite filter_cons_False by congruence. exact IH.
Qed.

Lemma tick_kept_spec now cs :
  (tick_kept now cs).*2 = kept now (cs.*2)
  /\ Z.of_nat (List.length (tick_kept now cs)) + Z.of_nat (List.length (expired now (cs.*2))) = Z.of_nat (List.length cs).
Proof.
  induction cs as [|[a n] cs [IH1 IH2]]; [done|]. unfold tick_kept, kept, expired in *.
  cbn [mbind list_bind fmap list_fmap snd fst].
  destruct (timed_out now n) eqn:Ht.
  - rewrite filter_cons_False by congruence. rewrite filter_cons_True by done. cbn [app List.length].
    split; [exact IH1|]. lia.
  - rewrite filter_cons_True by done. rewrite filter_cons_False by congruence. cbn [app List.length fmap list_fmap snd].
    split; [by f_equal|]. lia.
Qed.

Lemma enqueue_bound {A} cap P (q ms q' : list A) :
  enqueue cap P q ms q' -> Z.of_nat (List.length q) <= cap -> Z.of_nat (List.length q') <= cap.
Proof.
  induction 1 as [| q m ms q' Hl _ IH | |]; auto. intros _. apply IH. rewrite length_app. cbn [List.length]. lia.
Qed.

(** ** Refinement *)

Section Refinement.
Context {E : Type} `{!Hal E, !DmApp E, !DmQuiet E} (F : list (nat * dm_obj)) (s : list dm_obs).
Implicit Types (w : dm_world E) (a : dm_spec).

Ltac implemented qs cs := exists qs, cs; cbn [sp_queue sp_cache sp_lost sp_seen].

Lemma run_op_step op a w :
  implements F s a w ->
  wp (run_op op) (fun r w' => exists a', dm_step (oom E) a op r a' /\ implements F s a' w') w.
Proof.
  destruct a as [q c n g]. intros (qs & cs & H & Hq & Hc & Hl). cbn [sp_queue sp_cache sp_lost sp_seen] in *.
  assert (forall hs : list dm_mutex, hs = [] -> (IPC_MUTEX ∉ hs) /\ (CACHE_MUTEX ∉ hs)) as Hhs
    by (intros ? ->; split; apply not_elem_of_nil).
  destruct (Hhs [] eq_refl) as [Hi Hx]. assert (List.length q = List.length qs) as Hlq by (rewrite <-Hq; apply length_fmap).
  assert (List.length c = List.length cs) as Hlc by (rewrite <-Hc; apply length_fmap).
  assert (forall w', st CONFIG_DISPATCH_QUEUE_MAXLEN [] (Z.of_nat (List.length cs) + n) qs cs F (s ++ g) w' ->
    implements F s (Spec q c n g) w') as Hsame by (intros w' H'; by implemented qs cs).
  assert (forall w' x m, Z.of_nat (List.length qs) < CONFIG_DISPATCH_QUEUE_MAXLEN -> message x = m ->
    st CONFIG_DISPATCH_QUEUE_MAXLEN [] (Z.of_nat (List.length cs) + n) (qs ++ [x]) cs F (s ++ g) w' ->
    implements F s (Spec (q ++ [m]) c n g) w') as Hpush.
  { intros w' x m Hlt <- H'. implemented (qs ++ [x]) cs. split; [exact H'|].
    rewrite fmap_app, length_app, Hq. cbn [List.length]. repeat split; [done|]. lia. }
  destruct op as [t|id dev t| |id dev t|id|id|]; cbn [run_op]; apply dwp_bind.
  - eapply (wp_send_to_user _ [] _ qs cs F _ w t None); [done|exact H|..].
    + intros w' x Hlt Hm H'. apply dwp_ret. eexists. split; [apply step_event; by rewrite Hlq|]. by eapply Hpush.
    + intros w' Hge H'. apply dwp_ret. eexists. split; [apply step_full; [eauto|by rewrite Hlq]|]. by apply Hsame.
    + intros w' Ho H'. apply dwp_ret. eexists. split; [by apply step_oom|]. by apply Hsame.
  - eapply wp_timeout_to_user; [done|exact H|..].
    + intros w' x Hlt Hm H'. apply dwp_ret. eexists. split; [apply step_timeout; by rewrite Hlq|]. by eapply Hpush.
    + intros w' Hge H'. apply dwp_ret. eexists. split; [apply step_full; [eauto|by rewrite Hlq]|]. by apply Hsame.
    + intros w' Ho H'. apply dwp_ret. eexists. split; [by apply step_oom|]. by apply Hsame.
  - eapply wp_dispatch; [done|exact H|]. intros w' H'. apply dwp_ret.
    eexists. split; [apply step_dispatch|].
    rewrite drop_ge, take_ge in H' by lia. rewrite Hq, <-app_assoc in H'. by implemented (@nil qmsg) cs.
  - eapply wp_insert; [done|exact H|..].
    + intros w' a now Hlt H'. apply dwp_ret. eexists. split; [apply (step_insert _ _ _ _ _ _ _ _ now); by rewrite Hlc|].
      implemented qs (cs ++ [(a, CacheNode id dev t None now)]). rewrite fmap_app, length_app, Hc. cbn [List.length].
      split; [|done]. replace (Z.of_nat (List.length cs + 1) + n) with (Z.of_nat (List.length cs) + n + 1) by lia.
      by rewrite app_assoc.
    + intros w' Hge H'. apply dwp_ret. eexists. split; [apply step_insert_full; by rewrite Hlc|]. by apply Hsame.
    + intros w' Ho H'. apply dwp_ret. eexists. split; [by apply step_oom|]. by apply Hsame.
  - pose proof (step_search (oom E) (Spec q c n g) id) as Hstep. cbn [sp_cache] in Hstep.
    destruct (Z.ltb_spec id 0) as [Hid|Hid].
    + unfold dm_msg_cache_search. rewrite (proj2 (Z.ltb_lt id 0)) by done. apply dwp_ret, dwp_ret. eauto.
    + eapply wp_search; [done|done|exact H|]. intros w' H'. pose proof (first_request_spec id cs) as Hf.
      rewrite Hc in Hf. destruct (first_request id cs) as [[[l y] r]|] eqn:Hfr; rewrite (proj1 Hf) in Hstep.
      * apply dwp_bind, dwp_bind.
        eapply wp_load_at; [eapply cache_entry_lookup; [exact H'|by eapply first_request_split]|].
        apply dwp_ret, dwp_ret. eauto.
      * apply dwp_ret. eauto.
  - pose proof (step_remove (oom E) q c n g id) as Hstep.
    eapply wp_remove; [done|exact H|]. pose proof (first_request_spec id cs) as Hf. rewrite Hc in Hf.
    destruct (first_request id cs) as [[[l y] r]|]; rewrite (proj1 Hf) in Hstep; intros w' H'; apply dwp_ret;
      (eexists; split; [exact Hstep|]).
    + destruct Hf as (_ & -> & Hlen). implemented qs (l ++ r). split; [|done].
      replace (Z.of_nat (List.length (l ++ r)) + n) with (Z.of_nat (List.length cs) + n - 1) by lia. exact H'.
    + destruct Hf as (_ & ->). by apply Hsame.
  - eapply wp_tick; [done|done|exact H|]. intros w' now qs' He H'. apply dwp_ret.
    rewrite tick_reports_spec, Hq, Hc in He. eexists. split; [eapply step_tick; exact He|].
    destruct (tick_kept_spec now cs) as [H1 H2]. rewrite Hc in H1, H2.
    implemented qs' (tick_kept now cs). split; [|split; [done|split; [done|]]].
    + replace (Z.of_nat (List.length (tick_kept now cs)) + (n + Z.of_nat (List.length (expired now c))))
        with (Z.of_nat (List.length cs) + n) by lia. by rewrite app_assoc.
    + apply enqueue_bound in He; [by rewrite length_fmap in He|]. by rewrite Hlq.
Qed.

Lemma run_ops_steps ops a w :
  implements F s a w ->
  wp (run_ops ops) (fun rs w' => exists a', dm_steps (oom E) a ops rs a' /\ implements F s a' w') w.
Proof.
  revert a w. induction ops as [|op ops IH]; intros a w H; cbn [run_ops].
  { apply dwp_ret. exists a. split; [constructor|done]. }
  apply dwp_bind. eapply dwp_mono; [by apply run_op_step|]. intros r w1 (a1 & Hs & H1). apply dwp_bind.
  eapply dwp_mono; [by apply IH|]. intros rs w2 (a2 & Hss & H2). apply dwp_ret. exists a2.
  split; [by econstructor|done].
Qed.

Definition spec_start : dm_spec := Spec [] [] 0 [].

Lemma start_implements w :
  holds w F -> dw_held w = [] -> seen (dw_env w) = s ->
  wp dm_start (fun rc w' => rc = SUCCESS_RETURN /\ implements F s spec_start w' \/ rc = STATE_SYS_DEPEND_MUTEX_CREATE) w.
Proof.
  intros H Hh Hs. unfold dm_start, dm_msg_cache_init, dm_ipc_init. apply dwp_bind, dwp_bind, wp_mod_cache, dwp_bind.
  unfold wp at 1, HAL_MutexCreate. pose proof (seen_mutex (dw_env w)) as Hm1.
  cbn [dw_env]. change (dw_env (w <| dw_cache ::= fun _ => cache_zero |>)) with (dw_env w).
  destruct (Hal.HAL_MutexCreate (dw_env w)) as [[|] e1]; cbn [snd] in Hm1; last first.
  { apply dwp_bind, wp_mod_cache, dwp_ret, dwp_ret. by right. }
  apply dwp_bind, wp_mod_cache, dwp_bind, wp_mod_cache, dwp_ret. cbn [Z.eqb SUCCESS_RETURN negb].
  apply dwp_bind, wp_mod_ipc, dwp_bind.
  unfold wp at 1, HAL_MutexCreate. pose proof (seen_mutex e1) as Hm2.
  match goal with |- context [Hal.HAL_MutexCreate ?x] => change x with e1 end.
  destruct (Hal.HAL_MutexCreate e1) as [[|] e2]; cbn [snd] in Hm2; last first.
  { apply dwp_bind, wp_mod_ipc, dwp_ret. by right. }
  apply dwp_bind, wp_mod_ipc, dwp_bind, wp_mod_ipc, dwp_ret. left. split; [done|].
  exists [], []. cbn [sp_queue sp_cache sp_lost sp_seen spec_start]. split; [|done].
  split; try done.
  - intros l.
    change (l ∈ IPC_MUTEX :: filter (fun m => m <> IPC_MUTEX)
      (CACHE_MUTEX :: filter (fun m => m <> CACHE_MUTEX) (dw_mutexes w))).
    rewrite filter_cons_True by done. destruct l; [left|right; left].
  - change (filter (fun m => m <> IPC_MUTEX) (filter (fun m => m <> CACHE_MUTEX) (dw_held w)) = []).
    by rewrite Hh.
  - change (seen e2 = s ++ []). by rewrite Hm2, Hm1, app_nil_r.
Qed.
End Refinement.

(** C20. The queue and the cache of the device model implement their specification: after the
    start, on a heap with any other blocks, any sequence of events, timeout reports,
    dispatches, insertions, searches, removals and ticks returns, with the codes and the
    effects of the specification - the queue holds at most 50 messages, gives every message
    it took to the callback once and in order, and refuses others; a search finds the first
    request with the identifier that still waits; a request leaves the cache when it is
    removed, or when a tick reads the clock ten seconds or more after the reading made at
    its insertion (or at the last tick that found the clock behind that), and is then
    reported, unless the queue is full; memory that runs out is reported and changes
    nothing.  What was seen of the module, messages and clock readings in their order, is
    what the specification says.  At the end no mutex is held, and the heap has only the
    blocks of the messages and requests that wait, beside the others. *)
Theorem dm_refines {E : Type} `{!Hal E, !DmApp E, !DmQuiet E} (F : list (nat * dm_obj)) (w : dm_world E)
    (ops : list dm_op) :
  holds w F -> dw_held w = [] ->
  exists rc w1, dm_start w = Some (rc, w1)
    /\ (rc = STATE_SYS_DEPEND_MUTEX_CREATE
        \/ rc = SUCCESS_RETURN
           /\ exists rs w2 a, run_ops ops w1 = Some (rs, w2)
                /\ dm_steps (oom E) (Spec [] [] 0 []) ops rs a /\ implements F (seen (dw_env w)) a w2).
Proof.
  intros H Hh. destruct (wp_run _ _ _ (start_implements F _ w H Hh eq_refl)) as (rc & w1 & Hr & Hw).
  exists rc, w1. split; [done|]. destruct Hw as [[-> Hi]| ->]; [right|by left]. split; [done|].
  destruct (wp_run _ _ _ (run_ops_steps F _ ops _ w1 Hi)) as (rs & w2 & Hrun & a & Hs & Ha). eauto 6.
Qed.

(** ** Timed-out requests stay in the count *)

Lemma lost_grows P a ops rs a' : dm_steps P a ops rs a' -> sp_lost a <= sp_lost a'.
Proof. induction 1 as [|a op r a1 ops rs a2 Hs _ IH]; [done|]. inversion Hs; subst; cbn [sp_lost] in *; lia. Qed.

Lemma exhausted_steps P a ops rs a' :
  dm_steps P a ops rs a' -> CONFIG_MSGCACHE_QUEUE_MAXLEN <= sp_lost a ->
  forall i id dev t, ops !! i = Some (DmInsert id dev t) ->
    rs !! i = Some (code STATE_DEV_MODEL_CTX_LIST_FULL) \/ rs !! i = Some (code STATE_SYS_DEPEND_MALLOC).
Proof.
  induction 1 as [|a op r a1 ops rs a2 Hs Hss IH]; intros Hl [|i] id dev t; cbn [lookup list_lookup]; [done|done|..].
  - intros [= ->]. inversion Hs as [| |? ? ? ? ? [[??]|(?&?&?&?)]| |? ? ? ? ? ? ? ? Hc| | | | |]; subst; auto; try done.
    cbn [sp_lost] in Hl. lia.
  - apply IH. pose proof (lost_grows P a [op] [r] a1 (steps_cons P _ _ _ _ _ _ _ Hs (steps_nil P a1))). lia.
Qed.

(** How many of some operations succeeded. *)
Fixpoint succeeded (p : dm_op -> bool) (ops : list dm_op) (rs : list dm_result) : Z :=
  match ops, rs with
  | op :: ops', r :: rs' => (if p op && (fst r =? SUCCESS_RETURN) then 1 else 0) + succeeded p ops' rs'
  | _, _ => 0
  end.

Definition inserts (op : dm_op) : bool := match op with DmInsert _ _ _ => true | _ => false end.
Definition removes (op : dm_op) : bool := match op with DmRemove _ => true | _ => false end.

Lemma remove_first_length id c :
  Z.of_nat (List.length (remove_first id c))
  = Z.of_nat (List.length c) - match waiting id c with Some _ => 1 | None => 0 end.
Proof.
  induction c as [|n c IH]; [done|]. cbn [remove_first waiting List.find]. fold (waiting id c).
  destruct (msgid n =? id); cbn [List.length]; lia.
Qed.

Lemma kept_expired now c :
  Z.of_nat (List.length (kept now c)) + Z.of_nat (List.length (expired now c)) = Z.of_nat (List.length c).
Proof.
  unfold kept, expired. rewrite length_fmap. induction c as [|n c IH]; [done|]. rewrite !filter_cons.
  destruct (timed_out now n); cbn [List.length]; repeat case_decide; try congruence; cbn [List.length]; lia.
Qed.

Lemma step_count P a op r a' :
  dm_step P a op r a' ->
  Z.of_nat (List.length (sp_cache a')) + sp_lost a'
  = Z.of_nat (List.length (sp_cache a)) + sp_lost a + succeeded inserts [op] [r] - succeeded removes [op] [r].
Proof.
  intros Hs. destruct Hs as [| |? ? ? ? ? [[? ->]|(?&?&?& ->)] ?| | | | | |? ? ? ? ? now ?|? [] ? ?];
    cbn [sp_cache sp_lost succeeded inserts removes fst code andb]; try lia; try discriminate.
  - rewrite length_app. cbn. lia.
  - cbn. lia.
  - rewrite remove_first_length. destruct (waiting _ _); cbn; lia.
  - pose proof (kept_expired now c). lia.
  - cbn. lia.
Qed.

Lemma steps_count P a ops rs a' :
  dm_steps P a ops rs a' ->
  Z.of_nat (List.length (sp_cache a')) + sp_lost a'
  = Z.of_nat (List.length (sp_cache a)) + sp_lost a + succeeded inserts ops rs - succeeded removes ops rs.
Proof.
  induction 1 as [a|a op r a1 ops rs a2 Hs _ IH]; [cbn; lia|]. apply step_count in Hs.
  cbn [succeeded] in *. lia.
Qed.

(** C34. The count of the cache is not lowered when a request times out: after any sequence
    of operations since the start it is the number of requests inserted less that of those
    removed, whatever the ticks took out of the list.  As soon as 50 of the requests
    inserted are neither removed nor in the list any more, no request is ever cached again,
    whatever else is done, although the list may be empty. *)
Theorem dm_cache_exhausted {E : Type} `{!Hal E, !DmApp E, !DmQuiet E} (F : list (nat * dm_obj)) (w w1 : dm_world E)
    (ops ops' : list dm_op) :
  holds w F -> dw_held w = [] -> dm_start w = Some (SUCCESS_RETURN, w1) ->
  exists rs w2, run_ops ops w1 = Some (rs, w2)
    /\ dmc_list_size (dw_cache w2) = succeeded inserts ops rs - succeeded removes ops rs
    /\ (CONFIG_MSGCACHE_QUEUE_MAXLEN
           <= succeeded inserts ops rs - succeeded removes ops rs - Z.of_nat (List.length (dmc_list (dw_cache w2))) ->
         exists rs' w3, run_ops ops' w2 = Some (rs', w3)
           /\ forall i id dev t, ops' !! i = Some (DmInsert id dev t) ->
                rs' !! i = Some (code STATE_DEV_MODEL_CTX_LIST_FULL)
                \/ rs' !! i = Some (code STATE_SYS_DEPEND_MALLOC)).
Proof.
  intros H Hh Hst. destruct (wp_run _ _ _ (start_implements F _ w H Hh eq_refl)) as (rc & w1' & Hr & Hw).
  rewrite Hst in Hr. injection Hr as <- <-. destruct Hw as [[_ Hi]|[=]].
  destruct (wp_run _ _ _ (run_ops_steps F _ ops _ w1 Hi)) as (rs & w2 & Hrun & a & Hs & Ha).
  exists rs, w2. split; [done|]. apply steps_count in Hs as Hn. cbn [sp_cache sp_lost spec_start List.length] in Hn.
  assert (dmc_list_size (dw_cache w2) = Z.of_nat (List.length (sp_cache a)) + sp_lost a
    /\ List.length (dmc_list (dw_cache w2)) = List.length (sp_cache a)) as [Hsz Hl].
  { destruct Ha as (qs & cs & Hc & _ & <- & _). rewrite (st_cache _ _ _ _ _ _ _ _ Hc), length_fmap.
    cbn [dmc_list_size dmc_list]. by rewrite length_fmap. }
  split; [lia|]. intros Hx. rewrite Hl in Hx.
  destruct (wp_run _ _ _ (run_ops_steps F _ ops' a w2 Ha)) as (rs' & w3 & Hrun' & a' & Hs' & _).
  exists rs', w3. split; [done|]. eapply exhausted_steps; [exact Hs'|lia].
Qed.

(** ** A platform *)

Module DmSim.

(** The clock moves ten seconds at every reading. *)
Record sim := Sim { now : Z; given : list dm_obs }.

#[global] Instance sim_hal : Hal sim := {|
  HAL_UptimeMs e := (now e, Sim (now e + 10000) (given e ++ [ObsUptime (now e)]));
  HAL_SleepMs _ e := e;
  HAL_Malloc _ e := (true, e);
  Hal.HAL_MutexCreate e := (true, e);
  HAL_SSL_Establish _ _ _ _ e := (0, e);
  HAL_SSL_Destroy _ e := e;
  HAL_SSL_Read _ _ _ e := (0, [], e);
  HAL_SSL_Write _ _ _ e := (0, e);
  HAL_indeterminate _ := 0
|}.

#[global] Instance sim_app : DmApp sim := {|
  iotx_state_event _ w := Some (tt, w);
  event_callback := Some (fun t s w =>
    Some (tt, w <| dw_env ::= fun e => Sim (now e) (given e ++ [ObsMessage (t, s)]) |>))
|}.

#[global, refine] Instance sim_quiet : DmQuiet sim := {| seen := given |}.
Proof.
  - done.
  - done.
  - done.
  - intros c w. exists (dw_env w). split; [by destruct w|done].
  - eexists. split; [reflexivity|]. intros t s w. eexists. split; [reflexivity|]. done.
Defined.

Definition world0 : dm_world sim :=
  DmWorld ∅ 0 ipc_zero cache_zero [] [] (Sim 0 []).

Definition run_from_start (ops : list dm_op) : option (list dm_result * dm_world sim) :=
  (_ ← dm_start; run_ops ops) world0.

Definition fifty : list dm_op := (fun i => DmInsert (Z.of_nat i) 0 29) <$> seq 1 50.

Definition fifty_ops : list dm_op := fifty ++ [DmTick; DmDispatch].

(** The world after the start. *)
Definition started : dm_world sim :=
  default world0 (snd <$> dm_start world0).

(** The codes and the world after fifty requests that time out. *)
Definition fifty_out : list dm_result * dm_world sim := default ([], started) (run_ops fifty_ops started).

Lemma started_ok : dm_start world0 = Some (SUCCESS_RETURN, started).
Proof. vm_compute. reflexivity. Qed.

Lemma fifty_run : run_ops fifty_ops started = Some fifty_out.
Proof. vm_compute. reflexivity. Qed.

(** The queue was full of the reports, and is empty; the cache is empty too, but refuses
    requests. *)
Example fifty_timeouts :
  (r ← run_ops [DmInsert 51 0 29; DmSearch 1] fifty_out.2;
   Some (fst r, dw_cache (snd r), message_list (dw_ipc (snd r))))
  = Some ([code STATE_DEV_MODEL_CTX_LIST_FULL; code STATE_DEV_MODEL_CTX_LIST_EMPTY], CacheCtx true 50 [], [])
  /\ fifty_out.1 = replicate 52 (code SUCCESS_RETURN)
  /\ List.length (given (dw_env fifty_out.2)) = 101%nat.
Proof. by vm_compute. Qed.

(** A search finds the first request with the identifier, with the time of its insertion. *)
Example search_finds :
  (fun r => fst r) <$> run_from_start [DmInsert 7 0 29; DmInsert 8 1 30; DmInsert 8 2 31; DmSearch 8; DmRemove 8; DmSearch 8]
  = Some [code SUCCESS_RETURN; code SUCCESS_RETURN; code SUCCESS_RETURN;
          (SUCCESS_RETURN, Some (CacheNode 8 1 30 None 10000)); code SUCCESS_RETURN;
          (SUCCESS_RETURN, Some (CacheNode 8 2 31 None 20000))].
Proof. by vm_compute. Qed.

(** The last unlock of [dm_msg_cache_deinit] finds the mutex released already. *)
Example deinit_unlocks_twice :
  (_ ← dm_start; _ ← run_ops [DmInsert 1 0 29]; dm_msg_cache_deinit) world0 = None.
Proof. vm_compute. reflexivity. Qed.

Example deinit_empty :
  is_Some ((_ ← dm_start; dm_ipc_deinit;; dm_msg_cache_deinit) world0).
Proof. vm_compute. eauto. Qed.
End DmSim.

Lemma dm_refines_witness :
  holds DmSim.world0 [] /\ exists rc w1, dm_start DmSim.world0 = Some (rc, w1)
    /\ (rc = STATE_SYS_DEPEND_MUTEX_CREATE
        \/ rc = SUCCESS_RETURN
           /\ exists rs w2 a, run_ops [DmEvent 3; DmDispatch] w1 = Some (rs, w2)
                /\ dm_steps (oom DmSim.sim) (Spec [] [] 0 []) [DmEvent 3; DmDispatch] rs a
                /\ implements [] [] a w2).
Proof.
  assert (holds DmSim.world0 []) as H by (split; [constructor|split; [reflexivity|constructor]]).
  split; [exact H|]. exact (dm_refines [] DmSim.world0 [DmEvent 3; DmDispatch] H eq_refl).
Defined.

Lemma dm_cache_exhausted_witness :
  dmc_list_size (dw_cache DmSim.fifty_out.2) = 50 /\ dmc_list (dw_cache DmSim.fifty_out.2) = []
  /\ exists rs w', run_ops [DmTick; DmInsert 51 0 29] DmSim.fifty_out.2 = Some (rs, w')
       /\ forall i id dev t, [DmTick; DmInsert 51 0 29] !! i = Some (DmInsert id dev t) ->
            rs !! i = Some (code STATE_DEV_MODEL_CTX_LIST_FULL) \/ rs !! i = Some (code STATE_SYS_DEPEND_MALLOC).
Proof.
  assert (holds DmSim.world0 []) as H by (split; [constructor|split; [reflexivity|constructor]]).
  destruct (dm_cache_exhausted [] DmSim.world0 DmSim.started DmSim.fifty_ops [DmTick; DmInsert 51 0 29] H eq_refl
    DmSim.started_ok) as (rs & w2 & Hr & Hsz & Hx).
  pose proof (eq_trans (eq_sym DmSim.fifty_run) Hr) as He. apply Some_inj in He.
  pose proof (f_equal snd He) as E2. pose proof (f_equal fst He) as E1. cbn [fst snd] in E1, E2.
  rewrite <-E1, <-E2 in Hx.
  split; [vm_compute; reflexivity|]. split; [vm_compute; reflexivity|]. apply Hx. vm_compute. discriminate.
Defined.
