(* ===== verification/DmManagerSpec.v ===== *)
(** * DmManagerSpec: the table of devices is a map

    A map from numbers to devices, in which no two devices have the same product key and
    device name; the operations of [DmManager] are those of the map, and the numbers are
    never given twice. *)

From stdpp Require Import gmap.
From S2P Require Import Prelude.
From S2P Require Import CString.
From S2P Require Import Hal.
From S2P Require Import InfraState.
From S2P Require Import InfraCompat.
From S2P Require Import DmManager.

#[local] Open Scope Z_scope.

(** ** The map *)

Definition devices (l : list dm_mgr_dev_node_t) : gmap Z dm_mgr_dev_node_t :=
  list_to_map ((fun n => (dn_devid n, n)) <$> l).

Definition names (n : dm_mgr_dev_node_t) : list Z * list Z := (dn_product_key n, dn_device_name n).

Definition node_ok (n : dm_mgr_dev_node_t) : Prop :=
  too_long (dn_product_key n) IOTX_PRODUCT_KEY_LEN = false
  /\ too_long (dn_product_secret n) IOTX_PRODUCT_SECRET_LEN = false
  /\ too_long (dn_device_name n) IOTX_DEVICE_NAME_LEN = false
  /\ too_long (dn_device_secret n) IOTX_DEVICE_SECRET_LEN = false.

Record mgr_ok (c : dm_mgr_ctx) : Prop := {
  ok_numbers : NoDup (dn_devid <$> dev_list c);
  ok_names : NoDup (names <$> dev_list c);
  ok_range : Forall (fun n => 0 <= dn_devid n < global_devid c) (dev_list c);
  ok_nodes : Forall node_ok (dev_list c);
  ok_local : exists n l, dev_list c = n :: l /\ dn_devid n = IOTX_DM_LOCAL_NODE_DEVID
}.

Inductive mgr_op :=
  | MCreate (type : Z) (pk ps dn : list Z) (ds : option (list Z))
  | MDestroy (devid : Z)
  | MEnable (devid : Z)
  | MDisable (devid : Z)
  | MStatus (devid st : Z)
  | MSecret (devid : Z) (ds : list Z).

(** The change of one device's record, when the operation is one. *)
Definition setter (op : mgr_op) : option (Z * (dm_mgr_dev_node_t -> dm_mgr_dev_node_t)) :=
  match op with
  | MEnable id => Some (id, fun n => n <| status := IOTX_DM_DEV_AVAIL_ENABLE |>)
  | MDisable id => Some (id, fun n => n <| status := IOTX_DM_DEV_AVAIL_DISABLE |>)
  | MStatus id st => Some (id, fun n => n <| dev_status := st |>)
  | MSecret id ds => Some (id, fun n => n <| dn_device_secret := ds |>)
  | MCreate _ _ _ _ _ | MDestroy _ => None
  end.

(** What a change stores fits its array. *)
Definition storable (op : mgr_op) : bool :=
  match op with MSecret _ ds => negb (too_long ds IOTX_DEVICE_SECRET_LEN) | _ => true end.

Definition fits (pk ps dn : list Z) (ds : option (list Z)) : bool :=
  negb (too_long pk IOTX_PRODUCT_KEY_LEN) && negb (too_long ps IOTX_PRODUCT_SECRET_LEN)
  && negb (too_long dn IOTX_DEVICE_NAME_LEN)
  && match ds with Some s => negb (too_long s IOTX_DEVICE_SECRET_LEN) | None => true end.

(** One operation on the map and the next number, with its code and, for a creation, the
    number of the device; memory runs out only if [may_fail]. *)
Inductive mgr_step (may_fail : Prop) : gmap Z dm_mgr_dev_node_t * Z -> mgr_op -> Z * option Z ->
    gmap Z dm_mgr_dev_node_t * Z -> Prop :=
  | create_invalid m g t pk ps dn ds :
      fits pk ps dn ds = false ->
      mgr_step may_fail (m, g) (MCreate t pk ps dn ds) (STATE_USER_INPUT_INVALID, None) (m, g)
  | create_exists m g t pk ps dn ds id n :
      fits pk ps dn ds = true -> m !! id = Some n -> names n = (pk, dn) ->
      mgr_step may_fail (m, g) (MCreate t pk ps dn ds) (STATE_DEV_MODEL_DEVICE_ALREADY_EXIST, Some id) (m, g)
  | create_oom m g t pk ps dn ds :
      may_fail -> fits pk ps dn ds = true -> (forall id n, m !! id = Some n -> names n <> (pk, dn)) ->
      mgr_step may_fail (m, g) (MCreate t pk ps dn ds) (STATE_SYS_DEPEND_MALLOC, None) (m, g)
  | create_new m g t pk ps dn ds :
      fits pk ps dn ds = true -> (forall id n, m !! id = Some n -> names n <> (pk, dn)) -> m !! g = None ->
      mgr_step may_fail (m, g) (MCreate t pk ps dn ds) (SUCCESS_RETURN, Some g)
        (<[g := DevNode g t pk ps dn (default [] ds) 0 IOTX_DM_DEV_STATUS_AUTHORIZED]> m, g + 1)
  | destroy_negative m g id :
      id < 0 -> mgr_step may_fail (m, g) (MDestroy id) (STATE_USER_INPUT_DEVID, None) (m, g)
  | destroy_absent m g id :
      0 <= id -> m !! id = None -> mgr_step may_fail (m, g) (MDestroy id) (STATE_DEV_MODEL_DEVICE_NOT_FOUND, None) (m, g)
  | destroy_local m g :
      mgr_step may_fail (m, g) (MDestroy IOTX_DM_LOCAL_NODE_DEVID) (STATE_DEV_MODEL_SUBD_NOT_DELETEABLE, None) (m, g)
  | destroy_device m g id :
      0 < id -> is_Some (m !! id) -> mgr_step may_fail (m, g) (MDestroy id) (SUCCESS_RETURN, None) (delete id m, g)
  | set_invalid m g op id f :
      setter op = Some (id, f) -> storable op = false \/ id < 0 ->
      mgr_step may_fail (m, g) op (STATE_USER_INPUT_INVALID, None) (m, g)
  | set_absent m g op id f :
      setter op = Some (id, f) -> storable op = true -> 0 <= id -> m !! id = None ->
      mgr_step may_fail (m, g) op (STATE_DEV_MODEL_DEVICE_NOT_FOUND, None) (m, g)
  | set_device m g op id f n :
      setter op = Some (id, f) -> storable op = true -> 0 <= id -> m !! id = Some n ->
      mgr_step may_fail (m, g) op (SUCCESS_RETURN, None) (<[id := f n]> m, g).

(** ** Lemmas *)

Lemma str_same_eq a b : str_same a b = true <-> a = b.
Proof.
  unfold str_same. rewrite andb_true_iff, Nat.eqb_eq, bool_decide_eq_true. split.
  - intros [Hl Ht]. rewrite <-Ht, <-Hl. by rewrite take_ge.
  - intros ->. by rewrite take_ge.
Qed.

Lemma is_pkdn_names pk dn n : is_pkdn pk dn n = true <-> names n = (pk, dn).
Proof. unfold is_pkdn, names. rewrite andb_true_iff, !str_same_eq. split; [by intros [-> ->]|by intros [= -> ->]]. Qed.

Lemma devices_cons n l : devices (n :: l) = <[dn_devid n := n]> (devices l).
Proof. done. Qed.

Lemma devices_find id l : devices l !! id = List.find (is_devid id) l.
Proof.
  induction l as [|n l IH]; [done|]. rewrite devices_cons. cbn [List.find]. unfold is_devid at 1.
  destruct (Z.eqb_spec (dn_devid n) id) as [<-|Hne]; [apply lookup_insert_eq|].
  by rewrite lookup_insert_ne, IH.
Qed.

Lemma devices_in l n : NoDup (dn_devid <$> l) -> n ∈ l -> devices l !! dn_devid n = Some n.
Proof.
  intros Hn Hin. unfold devices. apply elem_of_list_to_map_1.
  - by rewrite <-list_fmap_compose.
  - apply list_elem_of_fmap. eauto.
Qed.

Lemma devices_elem l id n : devices l !! id = Some n -> n ∈ l /\ dn_devid n = id.
Proof.
  rewrite devices_find. intros H. apply List.find_some in H as [Hin Hid].
  apply list_elem_of_In in Hin. unfold is_devid in Hid. by apply Z.eqb_eq in Hid.
Qed.

Lemma devices_dom l : dom (devices l) = list_to_set (dn_devid <$> l).
Proof.
  induction l as [|n l IH]; [apply dom_empty_L|]. rewrite devices_cons, dom_insert_L, IH. done.
Qed.

Lemma devices_size l : NoDup (dn_devid <$> l) -> size (devices l) = List.length l.
Proof.
  intros Hn. rewrite <-size_dom, devices_dom, size_list_to_set by done. apply length_fmap.
Qed.

Lemma names_inj l n1 n2 : NoDup (names <$> l) -> n1 ∈ l -> n2 ∈ l -> names n1 = names n2 -> n1 = n2.
Proof.
  intros Hn [i Hi]%list_elem_of_lookup [j Hj]%list_elem_of_lookup Heq.
  assert (i = j) as ->; [|congruence].
  apply (NoDup_lookup _ i j (names n1) Hn); rewrite list_lookup_fmap, ?Hi, ?Hj; cbn; congruence.
Qed.

Lemma devices_app l n : dn_devid n ∉ dn_devid <$> l -> devices (l ++ [n]) = <[dn_devid n := n]> (devices l).
Proof.
  intros Hn. induction l as [|x l IH]; [done|]. cbn [app]. rewrite !devices_cons.
  rewrite fmap_cons, not_elem_of_cons in Hn. destruct Hn as [Hx Hn]. rewrite IH by done.
  by rewrite insert_insert_ne by congruence.
Qed.

Lemma devices_none l id : id ∉ dn_devid <$> l -> devices l !! id = None.
Proof.
  intros Hn. destruct (devices l !! id) as [n|] eqn:H; [|done].
  apply devices_elem in H as [Hin <-]. destruct Hn. by apply list_elem_of_fmap_2.
Qed.

Lemma devices_del l id : NoDup (dn_devid <$> l) -> devices (del_node id l) = delete id (devices l).
Proof.
  induction l as [|n l IH]; intros Hn.
  { change (∅ = delete id (∅ : gmap Z dm_mgr_dev_node_t)). by rewrite delete_empty. } rewrite fmap_cons in Hn.
  apply NoDup_cons in Hn as [Hx Hn]. cbn [del_node]. rewrite devices_cons. unfold is_devid at 1.
  destruct (Z.eqb_spec (dn_devid n) id) as [<-|Hne].
  - rewrite delete_insert_eq. symmetry. apply delete_id. by apply devices_none.
  - rewrite devices_cons, IH by done. by rewrite delete_insert_ne.
Qed.

Lemma devices_set l id f n :
  (forall x, dn_devid (f x) = dn_devid x) -> devices l !! id = Some n ->
  devices (set_node id f l) = <[id := f n]> (devices l).
Proof.
  intros Hf. revert n. induction l as [|x l IH]; intros n H; [done|]. rewrite devices_cons in *.
  cbn [set_node]. unfold is_devid at 1. destruct (Z.eqb_spec (dn_devid x) id) as [<-|Hne].
  - rewrite lookup_insert_eq in H. injection H as ->. rewrite devices_cons, Hf. by rewrite insert_insert_eq.
  - rewrite lookup_insert_ne in H by done. rewrite devices_cons, (IH n) by done. by rewrite insert_insert_ne.
Qed.

Lemma set_node_map {A} (g : dm_mgr_dev_node_t -> A) id f l :
  (forall x, g (f x) = g x) -> g <$> set_node id f l = g <$> l.
Proof.
  intros Hf. induction l as [|x l IH]; [done|]. cbn [set_node]. destruct (is_devid id x).
  - rewrite !fmap_cons. by rewrite Hf.
  - rewrite !fmap_cons. by rewrite IH.
Qed.

Lemma set_node_Forall (P : dm_mgr_dev_node_t -> Prop) id f l :
  (forall x, P x -> P (f x)) -> Forall P l -> Forall P (set_node id f l).
Proof.
  intros Hf. induction 1 as [|x l Hx Hl IH]; [constructor|]. cbn [set_node].
  destruct (is_devid id x); by constructor; auto.
Qed.

Lemma del_node_sublist id l : del_node id l `sublist_of` l.
Proof.
  induction l as [|x l IH]; [constructor|]. cbn [del_node]. destruct (is_devid id x).
  - apply sublist_cons. done.
  - by apply sublist_skip.
Qed.

Lemma sublist_keeps {A} (g : dm_mgr_dev_node_t -> A) l l' :
  l' `sublist_of` l -> NoDup (g <$> l) -> NoDup (g <$> l').
Proof.
  induction 1 as [|x l1 l2 Hs IH|x l1 l2 Hs IH]; rewrite ?fmap_cons, ?NoDup_cons; [done| |].
  - intros [Hx Hn]. split; [|by apply IH]. intros Hin. apply Hx.
    apply list_elem_of_fmap in Hin as (y & -> & Hy). apply list_elem_of_fmap_2.
    eapply elem_of_submseteq; [exact Hy|]. by apply sublist_submseteq.
  - intros [_ Hn]. by apply IH.
Qed.

Lemma sublist_Forall (P : dm_mgr_dev_node_t -> Prop) l l' : l' `sublist_of` l -> Forall P l -> Forall P l'.
Proof.
  intros Hs Hl. apply Forall_forall. intros x Hx. rewrite Forall_forall in Hl. apply Hl.
  eapply elem_of_submseteq; [exact Hx|]. by apply sublist_submseteq.
Qed.

Lemma next_devid_spec pre a l :
  NoDup (dn_devid <$> pre ++ a :: l) ->
  next_devid_loop (pre ++ a :: l) None (dn_devid a) = dn_devid <$> head l.
Proof.
  intros Hn. assert (Forall (fun x => dn_devid x <> dn_devid a) pre) as Hp.
  { apply Forall_forall. intros x Hx Hd. rewrite fmap_app, fmap_cons in Hn.
    apply NoDup_app in Hn as (_ & H & _). apply (H (dn_devid x)); [by apply list_elem_of_fmap_2|].
    rewrite Hd. constructor. }
  clear Hn. induction Hp as [|x pre Hx Hp IH]; cbn [app next_devid_loop].
  - rewrite Z.eqb_refl. destruct l as [|b l]; [done|]. cbn [next_devid_loop head fmap option_fmap option_map].
    by rewrite Z.eqb_refl.
  - rewrite (proj2 (Z.eqb_neq _ _) Hx). exact IH.
Qed.

Definition sdk_names (pk dn : list Z) : Prop :=
  too_long pk IOTX_PRODUCT_KEY_LEN = false /\ too_long dn IOTX_DEVICE_NAME_LEN = false.

Lemma sdk_names_ok g : sdk_ctx_ok g -> sdk_names (product_key g) (device_name g).
Proof. intros []. unfold sdk_names, too_long. rewrite !Z.leb_gt. lia. Qed.

(** ** Refinement *)

Section Refinement.
Context {E : Type} `{!Hal E}.

Definition mgr_oom : Prop := exists n e, fst (HAL_Malloc (E := E) n e) = false.

Definition run_mgr (op : mgr_op) (c : dm_mgr_ctx) (e : E) : Z * option Z * dm_mgr_ctx * E :=
  match op with
  | MCreate t pk ps dn ds => dm_mgr_device_create t (Some pk) (Some ps) (Some dn) ds c e
  | MDestroy id => let '(r, c) := dm_mgr_device_destroy id c in (r, None, c, e)
  | MEnable id => let '(r, c) := dm_mgr_set_dev_enable id c in (r, None, c, e)
  | MDisable id => let '(r, c) := dm_mgr_set_dev_disable id c in (r, None, c, e)
  | MStatus id st => let '(r, c) := dm_mgr_set_dev_status id st c in (r, None, c, e)
  | MSecret id ds => let '(r, c) := dm_mgr_set_device_secret id (Some ds) c in (r, None, c, e)
  end.

Definition refines (op : mgr_op) (c : dm_mgr_ctx) (r : Z * option Z) (c' : dm_mgr_ctx) : Prop :=
  mgr_ok c' /\ mgr_step mgr_oom (devices (dev_list c), global_devid c) op r
                 (devices (dev_list c'), global_devid c').

Lemma set_field_refines op id f c :
  mgr_ok c -> setter op = Some (id, f) -> storable op = true ->
  (forall x, dn_devid (f x) = dn_devid x) -> (forall x, names (f x) = names x) ->
  (forall x, node_ok x -> node_ok (f x)) ->
  let '(r, c') := set_field f id c in refines op c (r, None) c'.
Proof.
  intros Hok Hop Hst Hd Hn Hk. unfold set_field. destruct (Z.ltb_spec id 0) as [Hneg|Hpos].
  { split; [done|]. eapply set_invalid; [exact Hop|by right]. }
  unfold _dm_mgr_search_dev_by_devid. destruct (List.find (is_devid id) (dev_list c)) as [n|] eqn:Hf;
    rewrite <-devices_find in Hf.
  - split; last first.
    { change (mgr_step mgr_oom (devices (dev_list c), global_devid c) op (SUCCESS_RETURN, None)
        (devices (set_node id f (dev_list c)), global_devid c)).
      rewrite (devices_set _ _ _ n) by done. by eapply set_device. }
    destruct Hok as [H1 H2 H3 H4 (x & l & Hl & Hx)].
    split; change (dev_list (c <| dev_list ::= set_node id f |>)) with (set_node id f (dev_list c)).
    + by rewrite set_node_map.
    + by rewrite set_node_map.
    + by apply set_node_Forall; [intros y; rewrite Hd|].
    + by apply set_node_Forall.
    + rewrite Hl. cbn [set_node]. destruct (is_devid id x); [exists (f x), l; by rewrite Hd|by eexists _, _].
  - split; [done|]. by eapply set_absent.
Qed.

Lemma destroy_refines id c :
  mgr_ok c -> let '(r, c') := dm_mgr_device_destroy id c in refines (MDestroy id) c (r, None) c'.
Proof.
  intros Hok. unfold dm_mgr_device_destroy. destruct (Z.ltb_spec id 0) as [Hneg|Hpos].
  { split; [done|]. by apply destroy_negative. }
  unfold _dm_mgr_search_dev_by_devid. destruct (List.find (is_devid id) (dev_list c)) as [n|] eqn:Hf;
    rewrite <-devices_find in Hf; [|split; [done|]; by apply destroy_absent].
  destruct (devices_elem _ _ _ Hf) as [Hin Hid]. rewrite Hid.
  destruct (Z.eqb_spec id IOTX_DM_LOCAL_NODE_DEVID) as [->|Hne]; [split; [done|]; apply destroy_local|].
  destruct Hok as [H1 H2 H3 H4 (x & l & Hl & Hx)]. pose proof (del_node_sublist id (dev_list c)) as Hs.
  split.
  - split; change (dev_list (c <| dev_list ::= del_node id |>)) with (del_node id (dev_list c)).
    + by eapply sublist_keeps.
    + by eapply sublist_keeps.
    + by eapply sublist_Forall.
    + by eapply sublist_Forall.
    + rewrite Hl. cbn [del_node]. unfold is_devid. rewrite Hx, (proj2 (Z.eqb_neq _ _)) by done. by eexists _, _.
  - change (mgr_step mgr_oom (devices (dev_list c), global_devid c) (MDestroy id) (SUCCESS_RETURN, None)
      (devices (del_node id (dev_list c)), global_devid c)).
    rewrite devices_del by done. apply destroy_device; [|by exists n].
    unfold IOTX_DM_LOCAL_NODE_DEVID in Hne. lia.
Qed.

Lemma fits_too_long pk ps dn ds :
  fits pk ps dn ds
  = negb (too_long pk IOTX_PRODUCT_KEY_LEN || too_long ps IOTX_PRODUCT_SECRET_LEN || too_long dn IOTX_DEVICE_NAME_LEN)
    && negb (match ds with Some s => too_long s IOTX_DEVICE_SECRET_LEN | None => false end).
Proof. unfold fits. destruct ds; by destruct (too_long pk _), (too_long ps _), (too_long dn _). Qed.

Lemma create_refines t pk ps dn ds c (e : E) :
  mgr_ok c ->
  let '(r, id, c', e') := dm_mgr_device_create t (Some pk) (Some ps) (Some dn) ds c e in
  refines (MCreate t pk ps dn ds) c (r, id) c'.
Proof.
  intros Hok. unfold dm_mgr_device_create. pose proof (fits_too_long pk ps dn ds) as Hfit.
  destruct (_ || _); [split; [done|]; by apply create_invalid|].
  destruct (match ds with Some s => _ | None => _ end) eqn:Hds; [split; [done|]; by apply create_invalid|].
  cbn [negb andb] in Hfit. unfold _dm_mgr_search_dev_by_pkdn.
  destruct (List.find (is_pkdn pk dn) (dev_list c)) as [n|] eqn:Hf; cbn [snd].
  { apply List.find_some in Hf as [Hin Hnm]. apply is_pkdn_names in Hnm. apply list_elem_of_In in Hin.
    split; [done|]. eapply create_exists; [done| |exact Hnm]. apply devices_in; [apply Hok|done]. }
  assert (forall n, n ∈ dev_list c -> names n <> (pk, dn)) as Hnew.
  { intros n Hin Hnm. apply is_pkdn_names in Hnm. pose proof (List.find_none _ _ Hf n) as Hfn.
    rewrite list_elem_of_In in Hin. by rewrite Hfn in Hnm. }
  destruct (HAL_Malloc sizeof_dev_node e) as [[|] e'] eqn:Hm; cbn [negb]; last first.
  { split; [done|]. apply create_oom; [|done|].
    - exists sizeof_dev_node, e. by rewrite Hm.
    - intros id n Hn. apply devices_elem in Hn as [Hn _]. by apply Hnew. }
  cbn [_dm_mgr_next_devid]. set (node := DevNode _ _ _ _ _ _ _ _).
  destruct Hok as [H1 H2 H3 H4 (x & l & Hl & Hx)].
  assert (global_devid c ∉ dn_devid <$> dev_list c) as Hfresh.
  { intros (y & Hy & Hin)%list_elem_of_fmap. rewrite Forall_forall in H3. specialize (H3 y Hin). lia. }
  assert (0 <= global_devid c) as Hg.
  { rewrite Forall_forall in H3. specialize (H3 x). rewrite Hl in H3. specialize (H3 ltac:(constructor)). lia. }
  assert (refines (MCreate t pk ps dn ds) c (SUCCESS_RETURN, Some (global_devid c))
    (MgrCtx (mgr_mutex c) (global_devid c + 1) (dev_list c ++ [node]))) as Hr; [|exact Hr].
  split.
  - split; change (dev_list (MgrCtx _ _ ?l)) with l.
    + rewrite fmap_app. apply NoDup_app. split; [done|]. split; [|apply NoDup_singleton].
      intros y Hy ->%list_elem_of_singleton. done.
    + rewrite fmap_app. apply NoDup_app. split; [done|]. split; [|apply NoDup_singleton].
      intros y (z & -> & Hz)%list_elem_of_fmap Hy%list_elem_of_singleton. by apply (Hnew z Hz).
    + apply Forall_app. split; [eapply Forall_impl; [exact H3|cbn; lia]|]. repeat constructor; cbn; lia.
    + apply Forall_app. split; [done|]. repeat constructor; cbn.
      all: unfold fits in Hfit; destruct (too_long pk _), (too_long ps _), (too_long dn _); try done.
      by destruct ds.
    + rewrite Hl. by eexists _, _.
  - change (mgr_step mgr_oom (devices (dev_list c), global_devid c) (MCreate t pk ps dn ds)
      (SUCCESS_RETURN, Some (global_devid c)) (devices (dev_list c ++ [node]), global_devid c + 1)).
    rewrite devices_app by done. apply create_new; [done| |by apply devices_none].
    intros id n Hn. apply devices_elem in Hn as [Hn _]. by apply Hnew.
Qed.

Lemma run_mgr_refines op c (e : E) :
  mgr_ok c -> let '(r, id, c', e') := run_mgr op c e in refines op c (r, id) c'.
Proof.
  intros Hok. destruct op as [t pk ps dn ds|id|id|id|id st|id ds]; cbn [run_mgr].
  - by apply create_refines.
  - pose proof (destroy_refines id c Hok). by destruct (dm_mgr_device_destroy id c).
  - pose proof (set_field_refines (MEnable id) id _ c Hok eq_refl eq_refl ltac:(done) ltac:(done) ltac:(done)) as H.
    unfold dm_mgr_set_dev_enable. by destruct (set_field _ id c).
  - pose proof (set_field_refines (MDisable id) id _ c Hok eq_refl eq_refl ltac:(done) ltac:(done) ltac:(done)) as H.
    unfold dm_mgr_set_dev_disable. by destruct (set_field _ id c).
  - pose proof (set_field_refines (MStatus id st) id _ c Hok eq_refl eq_refl ltac:(done) ltac:(done) ltac:(done)) as H.
    unfold dm_mgr_set_dev_status. by destruct (set_field _ id c).
  - unfold dm_mgr_set_device_secret. destruct (too_long ds IOTX_DEVICE_SECRET_LEN) eqn:Hl.
    + split; [done|]. eapply set_invalid; [reflexivity|]. left. cbn. by rewrite Hl.
    + pose proof (set_field_refines (MSecret id ds) id (fun n => n <| dn_device_secret := ds |>) c Hok) as H.
      cbn [setter storable] in H. rewrite Hl in H. specialize (H eq_refl eq_refl ltac:(done) ltac:(done)).
      specialize (H ltac:(by intros x (K1 & K2 & K3 & K4))).
      by destruct (set_field _ id c).
Qed.

Fixpoint run_mgrs (ops : list mgr_op) (c : dm_mgr_ctx) (e : E) : list (Z * option Z) * dm_mgr_ctx * E :=
  match ops with
  | [] => ([], c, e)
  | op :: ops' =>
      let '(r, id, c, e) := run_mgr op c e in
      let '(rs, c, e) := run_mgrs ops' c e in ((r, id) :: rs, c, e)
  end.
End Refinement.

Inductive mgr_steps (may_fail : Prop) : gmap Z dm_mgr_dev_node_t * Z -> list mgr_op -> list (Z * option Z) ->
    gmap Z dm_mgr_dev_node_t * Z -> Prop :=
  | mgr_nil a : mgr_steps may_fail a [] [] a
  | mgr_cons a op r a' ops rs a'' :
      mgr_step may_fail a op r a' -> mgr_steps may_fail a' ops rs a'' ->
      mgr_steps may_fail a (op :: ops) (r :: rs) a''.

(** What the functions that read the table give, for a table that is the map [m]. *)
Definition reads (c : dm_mgr_ctx) (m : gmap Z dm_mgr_dev_node_t) : Prop :=
  (forall id, dm_mgr_search_device_node_by_devid id c
     = match m !! id with Some n => (SUCCESS_RETURN, Some n) | None => (STATE_DEV_MODEL_DEVICE_NOT_FOUND, None) end)
  /\ (forall pk dn id, dm_mgr_search_device_by_pkdn (Some pk) (Some dn) c = (SUCCESS_RETURN, Some id)
       <-> exists n, m !! id = Some n /\ names n = (pk, dn))
  /\ (forall id1 id2 n1 n2, m !! id1 = Some n1 -> m !! id2 = Some n2 -> names n1 = names n2 -> id1 = id2)
  /\ dm_mgr_device_number c = Z.of_nat (size m)
  /\ exists ids, list_to_set ids = dom m /\ NoDup ids /\ ids !! 0%nat = Some IOTX_DM_LOCAL_NODE_DEVID
       /\ forall i id, ids !! i = Some id ->
            dm_mgr_get_devid_by_index (Z.of_nat i) c = (SUCCESS_RETURN, Some id)
            /\ dm_mgr_get_next_devid id c
               = match ids !! S i with
                 | Some n => (SUCCESS_RETURN, Some n)
                 | None => (STATE_DEV_MODEL_DEVICE_NOT_FOUND, None)
                 end.

Lemma mgr_ok_reads c : mgr_ok c -> reads c (devices (dev_list c)).
Proof.
  intros [H1 H2 H3 H4 (x & l & Hl & Hx)]. split; [|split; [|split; [|split]]].
  - intros id. unfold dm_mgr_search_device_node_by_devid, _dm_mgr_search_dev_by_devid.
    rewrite devices_find. by destruct (List.find _ _).
  - intros pk dn id. unfold dm_mgr_search_device_by_pkdn, _dm_mgr_search_dev_by_pkdn.
    destruct (List.find (is_pkdn pk dn) (dev_list c)) as [n|] eqn:Hf; split.
    + intros [= <-]. apply List.find_some in Hf as [Hin Hn]. apply is_pkdn_names in Hn.
      apply list_elem_of_In in Hin. exists n. split; [by apply devices_in|done].
    + intros (n' & Hn' & Hnm). apply devices_elem in Hn' as [Hin' <-].
      apply List.find_some in Hf as [Hin Hn]. apply is_pkdn_names in Hn. apply list_elem_of_In in Hin.
      by rewrite (names_inj (dev_list c) n n') by congruence.
    + done.
    + intros (n' & Hn' & Hnm). apply devices_elem in Hn' as [Hin' _]. apply is_pkdn_names in Hnm.
      apply list_elem_of_In in Hin'. by rewrite (List.find_none _ _ Hf n' Hin') in Hnm.
  - intros id1 id2 n1 n2 [Hin1 <-]%devices_elem [Hin2 <-]%devices_elem Hn.
    by rewrite (names_inj (dev_list c) n1 n2).
  - unfold dm_mgr_device_number. by rewrite devices_size.
  - exists (dn_devid <$> dev_list c). split; [by rewrite devices_dom|]. split; [done|].
    split; [by rewrite Hl, <-Hx|]. intros i id Hi. apply list_lookup_fmap_Some in Hi as (n & -> & Hn).
    assert (0 <= dn_devid n) as Hpos.
    { rewrite Forall_lookup in H3. specialize (H3 i n Hn). lia. }
    split.
    + unfold dm_mgr_get_devid_by_index. rewrite (proj2 (Z.ltb_ge _ _)), Nat2Z.id, Hn by lia. done.
    + unfold dm_mgr_get_next_devid. rewrite (proj2 (Z.ltb_ge _ _)) by lia.
      rewrite <-(take_drop_middle _ _ _ Hn), next_devid_spec by (by rewrite take_drop_middle).
      rewrite take_drop_middle, list_lookup_fmap by done.
      replace (dev_list c !! S i) with (head (drop (S i) (dev_list c)))
        by (by rewrite head_lookup, lookup_drop, Nat.add_0_r).
      by destruct (head _).
Qed.

(** ** The whole table *)

Lemma mgr_ok_local t pk dn : sdk_names pk dn -> mgr_ok (MgrCtx true 1 [DevNode 0 t pk [] dn [] 0 0]).
Proof.
  intros [Hp Hd]. split.
  - apply NoDup_singleton.
  - apply NoDup_singleton.
  - repeat constructor; cbn; lia.
  - constructor; [|constructor]. done.
  - by eexists _, _.
Qed.

Lemma get_key_ok opt g s :
  cstr_ok s -> (opt = IOTX_IOCTL_GET_PRODUCT_KEY /\ s = product_key g
                \/ opt = IOTX_IOCTL_GET_DEVICE_NAME /\ s = device_name g) ->
  forall n, (List.length s < n)%nat ->
  exists b, IOT_Ioctl opt (Some (DataBuf (zeros n))) g = Some (SUCCESS_RETURN, g, Some (DataBuf b))
    /\ arr_str b = Some s.
Proof.
  intros Hs Ho n Hn. exists (strbuf n s). split; [|by apply arr_str_strbuf].
  assert (ioctl_get s (DataBuf (zeros n)) = Some (DataBuf (strbuf n s))) as Hg.
  { unfold ioctl_get, zeros. rewrite length_replicate, (proj2 (Nat.ltb_ge _ _)) by lia. by rewrite drop_replicate. }
  destruct Ho as [[-> ->]|[-> ->]]; cbn [IOT_Ioctl]; by rewrite Hg.
Qed.

Section Table.
Context {E : Type} `{!Hal E}.

Lemma dm_mgr_init_ok g c (e : E) :
  sdk_ctx_ok g -> cstr_ok (product_key g) -> cstr_ok (device_name g) ->
  exists rc c' e', dm_mgr_init g c e = Some (rc, c', e')
    /\ ((rc = STATE_SYS_DEPEND_MUTEX_CREATE \/ rc = STATE_SYS_DEPEND_MALLOC /\ mgr_oom (E := E)) /\ c' = mgr_zero
        \/ rc = SUCCESS_RETURN
           /\ c' = MgrCtx true 1 [DevNode 0 IOTX_DM_DEVICE_TYPE (product_key g) [] (device_name g) [] 0 0]).
Proof.
  intros Hg Hp Hd. unfold dm_mgr_init. destruct (HAL_MutexCreate e) as [[|] e1]; cbn [negb]; [|eauto 9].
  destruct (get_key_ok IOTX_IOCTL_GET_PRODUCT_KEY g _ Hp ltac:(by left) (Z.to_nat (IOTX_PRODUCT_KEY_LEN + 1)))
    as (b1 & -> & Hb1); [pose proof (so_product_key g Hg); lia|].
  destruct (get_key_ok IOTX_IOCTL_GET_DEVICE_NAME g _ Hd ltac:(by right) (Z.to_nat (IOTX_DEVICE_NAME_LEN + 1)))
    as (b2 & -> & Hb2); [pose proof (so_device_name g Hg); lia|].
  cbn [mbind option_bind]. rewrite Hb1. cbn [mbind option_bind]. rewrite Hb2. cbn [mbind option_bind].
  unfold _dm_mgr_insert_dev. destruct (sdk_names_ok g Hg) as [-> ->].
  change (fst (_dm_mgr_search_dev_by_devid _ _) =? SUCCESS_RETURN) with false.
  destruct (HAL_Malloc sizeof_dev_node e1) as [[|] e2] eqn:Hm; cbn [negb].
  - eexists _, _, _. split; [done|]. by right.
  - eexists _, _, _. split; [done|]. left. split; [|done]. right. split; [done|].
    exists sizeof_dev_node, e1. by rewrite Hm.
Qed.

Lemma run_mgrs_steps ops : forall c (e : E), mgr_ok c ->
  let '(rs, c', e') := run_mgrs ops c e in
  mgr_ok c' /\ mgr_steps (mgr_oom (E := E)) (devices (dev_list c), global_devid c) ops rs
                 (devices (dev_list c'), global_devid c').
Proof.
  induction ops as [|op ops IH]; intros c e Hok; [split; [done|constructor]|]. cbn [run_mgrs].
  pose proof (run_mgr_refines op c e Hok) as H. destruct (run_mgr op c e) as [[[r id] c1] e1].
  destruct H as [Hok1 Hs]. specialize (IH c1 e1 Hok1). destruct (run_mgrs ops c1 e1) as [[rs c2] e2].
  destruct IH as [Hok2 Hss]. split; [done|]. by econstructor.
Qed.

(** C24. The table of devices is a map from numbers to devices: for settings within their
    bounds, [dm_mgr_init] is defined and either reports that the mutex or memory was
    refused, leaving nothing, or enters the device of the settings as number 0; then every
    sequence of creations, removals and changes returns the codes and makes the changes of
    the map - a new device has a number never given before, the same names are not entered
    twice, the local device is not removed, what does not fit is refused and a failure
    changes nothing - and the functions that read the table return what the map holds, a
    device being found by its number, by its names, by its index, and after the one
    before it. *)
Theorem devices_refine (g : sdk_impl_ctx_t) (c : dm_mgr_ctx) (e : E) (ops : list mgr_op) :
  sdk_ctx_ok g -> cstr_ok (product_key g) -> cstr_ok (device_name g) ->
  exists rc c1 e1, dm_mgr_init g c e = Some (rc, c1, e1)
    /\ ((rc = STATE_SYS_DEPEND_MUTEX_CREATE \/ rc = STATE_SYS_DEPEND_MALLOC /\ mgr_oom (E := E)) /\ c1 = mgr_zero
        \/ rc = SUCCESS_RETURN
           /\ exists rs c2 e2 m next, run_mgrs ops c1 e1 = (rs, c2, e2)
                /\ mgr_steps (mgr_oom (E := E))
                     ({[0 := DevNode 0 IOTX_DM_DEVICE_TYPE (product_key g) [] (device_name g) [] 0 0]}, 1)
                     ops rs (m, next)
                /\ reads c2 m).
Proof.
  intros Hg Hp Hd. destruct (dm_mgr_init_ok g c e Hg Hp Hd) as (rc & c1 & e1 & Hi & Hr).
  exists rc, c1, e1. split; [done|]. destruct Hr as [?|[-> ->]]; [by left|]. right. split; [done|].
  pose proof (run_mgrs_steps ops _ e1 (mgr_ok_local IOTX_DM_DEVICE_TYPE _ _ (sdk_names_ok g Hg))) as H.
  destruct (run_mgrs ops _ e1) as [[rs c2] e2]. destruct H as [Hok Hs].
  eexists rs, c2, e2, _, _. split; [done|]. split; [exact Hs|]. by apply mgr_ok_reads.
Qed.
End Table.

(** ** A platform whose memory never runs out *)

Module MgrSim.

#[global] Instance unit_hal : Hal unit := {|
  HAL_UptimeMs e := (0, e);
  HAL_SleepMs _ e := e;
  HAL_Malloc _ e := (true, e);
  HAL_MutexCreate e := (true, e);
  HAL_SSL_Establish _ _ _ _ e := (0, e);
  HAL_SSL_Destroy _ e := e;
  HAL_SSL_Read _ _ _ e := (0, [], e);
  HAL_SSL_Write _ _ _ e := (0, e);
  HAL_indeterminate _ := 0
|}.

Definition settings : sdk_impl_ctx_t :=
  sdk_impl_ctx_zero <| product_key := lit "a1b2" |> <| device_name := lit "lamp" |>.

Definition script : list mgr_op :=
  [MCreate 1 (lit "a1b2") (lit "s") (lit "plug") None; MCreate 1 (lit "a1b2") (lit "s") (lit "lamp") None;
   MSecret 1 (lit "k"); MDestroy 0; MCreate 1 (lit "a1b2") (lit "s") (lit "fan") None; MDestroy 1; MEnable 1].

Definition run_script : option (list (Z * option Z) * dm_mgr_ctx) :=
  r ← dm_mgr_init settings mgr_zero tt;
  let '(_, c, e) := r in Some (fst (run_mgrs script c e)).

Example script_result :
  fst <$> run_script
  = Some [(SUCCESS_RETURN, Some 1); (STATE_DEV_MODEL_DEVICE_ALREADY_EXIST, Some 0); (SUCCESS_RETURN, None);
          (STATE_DEV_MODEL_SUBD_NOT_DELETEABLE, None); (SUCCESS_RETURN, Some 2); (SUCCESS_RETURN, None);
          (STATE_DEV_MODEL_DEVICE_NOT_FOUND, None)]
  /\ (fun r => dm_mgr_get_next_devid 0 (snd r)) <$> run_script = Some (SUCCESS_RETURN, Some 2).
Proof. by vm_compute. Qed.
End MgrSim.

Lemma devices_refine_witness :
  exists rc c1 e1, dm_mgr_init MgrSim.settings mgr_zero tt = Some (rc, c1, e1)
    /\ ((rc = STATE_SYS_DEPEND_MUTEX_CREATE \/ rc = STATE_SYS_DEPEND_MALLOC /\ mgr_oom (E := unit)) /\ c1 = mgr_zero
        \/ rc = SUCCESS_RETURN
           /\ exists rs c2 e2 m next, run_mgrs MgrSim.script c1 e1 = (rs, c2, e2)
                /\ mgr_steps (mgr_oom (E := unit))
                     ({[0 := DevNode 0 IOTX_DM_DEVICE_TYPE (lit "a1b2") [] (lit "lamp") [] 0 0]}, 1)
                     MgrSim.script rs (m, next)
                /\ reads c2 m).
Proof.
  assert (sdk_ctx_ok MgrSim.settings) as H by (split; vm_compute; discriminate).
  assert (cstr_ok (lit "a1b2") /\ cstr_ok (lit "lamp")) as [H1 H2]
    by (split; repeat constructor; vm_compute; congruence).
  exact (devices_refine MgrSim.settings mgr_zero tt MgrSim.script H H1 H2).
Defined.
