(* ===== verification/DevSign.v ===== *)
(** * DevSign: the credentials of the MQTT connection

    [eng/dev_sign/dev_sign_mqtt.c]: the client identifier, the password (an HMAC-SHA-256
    of the identity under the device secret, in hexadecimal), the host and the user name,
    assembled in the fixed arrays of [iotx_sign_mqtt_t].  [clientid_kv[2][1]] is a global
    that every call assigns before it reads the table: it is an argument here. *)

From S2P Require Import Prelude.
From S2P Require Import CString.
From S2P Require Import InfraState.
From S2P Require Import InfraCompat.
From S2P Require Import InfraHash.
From S2P Require Import InfraSha256.

Definition DEV_SIGN_SOURCE_MAXLEN : Z := 200.
Definition DEV_SIGN_HOSTNAME_MAXLEN : Z := 64.
Definition DEV_SIGN_CLIENT_ID_MAXLEN : Z := 200.
Definition DEV_SIGN_USERNAME_MAXLEN : Z := 64.
Definition DEV_SIGN_PASSWORD_MAXLEN : Z := 65.
Definition IOTX_MQTT_DOMAIN_NUMBER : Z := 6.
Definition SIGN_FMT_LEN : Z := 50.

Definition MODE_TLS_DIRECT : list Z := lit "2".
Definition MODE_ITLS_DNS_ID2 : list Z := lit "8".
Definition SECURE_MODE : list Z := MODE_TLS_DIRECT.
Definition TIMESTAMP_VALUE : list Z := lit "2524608000000".

(** The table, with [mode] in [clientid_kv[2][1]]. *)
Definition clientid_kv (mode : list Z) : list (list Z * list Z) :=
  [(lit "timestamp", TIMESTAMP_VALUE); (lit "_v", lit "sdk-c-3.1.0"); (lit "securemode", mode);
   (lit "signmethod", lit "hmacsha256"); (lit "lan", lit "C"); (lit "_ss", lit "1");
   (lit "gw", lit "0"); (lit "ext", lit "0")].

(** [iotx_dev_meta_info_t]: each array is the string it holds. *)
Record iotx_dev_meta_info_t := MetaInfo
  { meta_product_key : list Z;
    meta_product_secret : list Z;
    meta_device_name : list Z;
    meta_device_secret : list Z }.

(** [iotx_sign_mqtt_t]: the whole arrays. *)
Record iotx_sign_mqtt_t := SignMqtt
  { hostname : list Z;
    port : Z;
    clientid : list Z;
    username : list Z;
    password : list Z }.

#[export] Instance eta_sign_mqtt : Eta iotx_sign_mqtt_t := fun s =>
  SignMqtt (hostname s) (port s) (clientid s) (username s) (password s).

Definition sign_mqtt_zero : iotx_sign_mqtt_t :=
  SignMqtt (zeros 64) 0 (zeros 200) (zeros 64) (zeros 65).

(** The loop stores two characters per byte, after those stored already. *)
Definition zEncode (i : Z) : Z := default 0 (lit "0123456789ABCDEF" !! Z.to_nat i).

Fixpoint _hex2str (input : list Z) : list Z :=
  match input with
  | [] => []
  | b :: input' =>
      zEncode (Z.land (Z.shiftr b 4) 0xf) :: zEncode (Z.land b 0xf) :: _hex2str input'
  end.

(** [n ← strlen(s)] of a whole string. *)
Definition slen (s : list Z) : Z := Z.of_nat (List.length s).

(** The body of the loop over the table; [Some (Some code)] is the [return] in it. *)
Fixpoint clientid_loop (kv : list (list Z * list Z)) (clientid_string : list Z)
    : option (option Z * list Z) :=
  match kv with
  | [] => Some (None, clientid_string)
  | (k, v) :: kv' =>
      n ← arr_strlen clientid_string;
      if DEV_SIGN_CLIENT_ID_MAXLEN <=? Z.of_nat n + slen k + slen v + 2
      then Some (Some STATE_MQTT_SIGN_CLIENTID_BUF_SHORT, clientid_string)
      else
        a ← arr_append clientid_string k;
        a ← arr_append a (lit "=");
        a ← arr_append a v;
        a ← arr_append a (lit ",");
        clientid_loop kv' a
  end.

(** [memcpy(a + strlen(a) - 1, "|", 1)] *)
Definition arr_set_last (a : list Z) (c : Z) : option (list Z) :=
  n ← arr_strlen a;
  match n with
  | O => None
  | S n' => w ← puts [c] (WBuf a n'); Some (wb_mem w)
  end.

(** The return code and the array at [clientid_string]; [None] as a pointer is [NULL]. *)
Definition _sign_get_clientid (clientid_string : option (list Z))
    (device_id custom_kv : option (list Z)) (enable_itls : Z)
    : option (Z * option (list Z)) :=
  match clientid_string, device_id with
  | Some _, Some device_id =>
      let a := zeros (Z.to_nat DEV_SIGN_CLIENT_ID_MAXLEN) in
      if DEV_SIGN_CLIENT_ID_MAXLEN <=? slen device_id + 1
      then Some (STATE_MQTT_SIGN_CLIENTID_BUF_SHORT, Some a)
      else
        a ← arr_copy a device_id;
        a ← arr_append a (lit "|");
        let mode := if 0 <? enable_itls then MODE_ITLS_DNS_ID2 else SECURE_MODE in
        '(ret, a) ← clientid_loop (clientid_kv mode) a;
        match ret with
        | Some code => Some (code, Some a)
        | None =>
            '(ret, a) ← (match custom_kv with
                         | None => Some (None, a)
                         | Some custom_kv =>
                             n ← arr_strlen a;
                             if DEV_SIGN_CLIENT_ID_MAXLEN <=? Z.of_nat n + slen custom_kv + 1
                             then Some (Some STATE_MQTT_SIGN_CLIENTID_BUF_SHORT, a)
                             else
                               a ← arr_append a custom_kv;
                               a ← arr_append a (lit ",");
                               Some (None, a)
                         end);
            match ret with
            | Some code => Some (code, Some a)
            | None =>
                a ← arr_set_last a 124;
                Some (STATE_SUCCESS, Some a)
            end
        end
  | _, _ => Some (STATE_USER_INPUT_INVALID, clientid_string)
  end.

(** The return code and the array at [sign_string]. *)
Definition _iotx_generate_sign_string (device_id device_name product_key device_secret : list Z)
    (sign_string : list Z) : option (Z * list Z) :=
  let signsource_len := u16 (SIGN_FMT_LEN + slen device_id + slen device_name
                             + slen product_key + slen TIMESTAMP_VALUE) in
  if DEV_SIGN_SOURCE_MAXLEN <=? signsource_len
  then Some (STATE_MQTT_SIGN_SOURCE_BUF_SHORT, sign_string)
  else
    a ← arr_copy (zeros (Z.to_nat DEV_SIGN_SOURCE_MAXLEN)) (lit "clientId");
    a ← arr_append a device_id;
    a ← arr_append a (lit "deviceName");
    a ← arr_append a device_name;
    a ← arr_append a (lit "productKey");
    a ← arr_append a product_key;
    a ← arr_append a (lit "timestamp");
    a ← arr_append a TIMESTAMP_VALUE;
    n ← arr_strlen a;
    out ← utils_hmac_sha256 (Some a) (Z.of_nat n) (Some device_secret) (slen device_secret) true;
    let sign_hex := default (zeros 32) out in
    a ← arr_copy sign_string (_hex2str sign_hex);
    Some (STATE_SUCCESS, a).

(** [g_infra_mqtt_domain], with the custom entry that [IOT_Ioctl] sets. *)
Definition g_infra_mqtt_domain (custom : option (list Z)) (region : Z) : option (list Z) :=
  match Z.to_nat region with
  | 0%nat => Some (lit "iot-as-mqtt.cn-shanghai.aliyuncs.com")
  | 1%nat => Some (lit "iot-as-mqtt.ap-southeast-1.aliyuncs.com")
  | 2%nat => Some (lit "iot-as-mqtt.ap-northeast-1.aliyuncs.com")
  | 3%nat => Some (lit "iot-as-mqtt.us-west-1.aliyuncs.com")
  | 4%nat => Some (lit "iot-as-mqtt.eu-central-1.aliyuncs.com")
  | _ => custom
  end.

(** The local array [device_id]. *)
Definition make_device_id (product_key device_name : list Z) : option (list Z) :=
  a ← arr_copy (zeros (Z.to_nat (IOTX_PRODUCT_KEY_LEN + IOTX_DEVICE_NAME_LEN + 1))) product_key;
  a ← arr_append a (lit ".");
  arr_append a device_name.

(** The host name: the code and the record. *)
Definition sign_hostname (custom : option (list Z)) (region : Z) (product_key : list Z)
    (signout : iotx_sign_mqtt_t) : option (option Z * iotx_sign_mqtt_t) :=
  if region =? IOTX_CLOUD_REGION_CUSTOM then
    match g_infra_mqtt_domain custom region with
    | None => Some (Some STATE_USER_INPUT_MQTT_DOMAIN, signout)
    | Some domain =>
        let length := u16 (slen domain + 1) in
        if DEV_SIGN_HOSTNAME_MAXLEN <=? length
        then Some (Some STATE_MQTT_SIGN_HOSTNAME_BUF_SHORT, signout)
        else
          a ← arr_copy (zeros (Z.to_nat DEV_SIGN_HOSTNAME_MAXLEN)) domain;
          Some (None, signout <| hostname := a |>)
    end
  else
    domain ← g_infra_mqtt_domain custom region;
    let length := u16 (slen product_key + slen domain + 2) in
    if DEV_SIGN_HOSTNAME_MAXLEN <=? length
    then Some (Some STATE_MQTT_SIGN_HOSTNAME_BUF_SHORT, signout)
    else
      a ← arr_copy (zeros (Z.to_nat DEV_SIGN_HOSTNAME_MAXLEN)) product_key;
      a ← arr_append a (lit ".");
      a ← arr_append a domain;
      Some (None, signout <| hostname := a |>).

(** The user name and the port. *)
Definition sign_username (meta : iotx_dev_meta_info_t) (signout : iotx_sign_mqtt_t)
    : option (Z * iotx_sign_mqtt_t) :=
  let length := u16 (slen (meta_device_name meta) + slen (meta_product_key meta) + 2) in
  if DEV_SIGN_USERNAME_MAXLEN <=? length
  then Some (STATE_MQTT_SIGN_USERNAME_BUF_SHORT, signout)
  else
    a ← arr_copy (zeros (Z.to_nat DEV_SIGN_USERNAME_MAXLEN)) (meta_device_name meta);
    a ← arr_append a (lit "&");
    a ← arr_append a (meta_product_key meta);
    Some (STATE_SUCCESS, signout <| username := a |> <| port := 443 |>).

(** [region] is an enumeration without negative values; [custom] is the entry
    of the table of domains for the custom region.  [signout] is not tested for [NULL]. *)
Definition IOT_Sign_MQTT (custom : option (list Z)) (region : Z)
    (meta : option iotx_dev_meta_info_t) (signout : iotx_sign_mqtt_t)
    : option (Z * iotx_sign_mqtt_t) :=
  match meta with
  | Some meta =>
      if IOTX_MQTT_DOMAIN_NUMBER <=? region then Some (STATE_USER_INPUT_INVALID, signout)
      else
        let signout := sign_mqtt_zero in
        id_array ← make_device_id (meta_product_key meta) (meta_device_name meta);
        device_id ← arr_str id_array;
        '(res, a) ← _sign_get_clientid (Some (clientid signout)) (Some device_id) None 0;
        a ← a;
        let signout := signout <| clientid := a |> in
        if res <? STATE_SUCCESS then Some (STATE_MQTT_SIGN_CLIENTID_BUF_SHORT, signout)
        else
          '(res, a) ← _iotx_generate_sign_string device_id (meta_device_name meta)
                        (meta_product_key meta) (meta_device_secret meta) (zeros 65);
          let signout := signout <| password := a |> in
          if res <? STATE_SUCCESS then Some (res, signout)
          else
            '(ret, signout) ← sign_hostname custom region (meta_product_key meta) signout;
            match ret with
            | Some code => Some (code, signout)
            | None => sign_username meta signout
            end
  | None => Some (STATE_USER_INPUT_INVALID, signout)
  end.

(** ** What the credentials are *)

Module Spec.

(** [k=v,k=v,...,] *)
Definition pairs (kv : list (list Z * list Z)) : list Z :=
  concat ((fun p => p.1 ++ lit "=" ++ p.2 ++ lit ",") <$> kv).

Definition device_id (product_key device_name : list Z) : list Z :=
  product_key ++ lit "." ++ device_name.

(** The client identifier before its last comma becomes a bar. *)
Definition client_id_body (device_id : list Z) (custom : option (list Z)) (mode : list Z) : list Z :=
  device_id ++ lit "|" ++ pairs (clientid_kv mode)
  ++ match custom with Some c => c ++ lit "," | None => [] end.

Definition client_id (device_id : list Z) (custom : option (list Z)) (mode : list Z) : list Z :=
  let b := client_id_body device_id custom mode in
  take (List.length b - 1) b ++ lit "|".

(** The text that is signed. *)
Definition source (product_key device_name : list Z) : list Z :=
  lit "clientId" ++ device_id product_key device_name ++ lit "deviceName" ++ device_name
  ++ lit "productKey" ++ product_key ++ lit "timestamp" ++ TIMESTAMP_VALUE.

Definition password (product_key device_name device_secret : list Z) : list Z :=
  hexadecimal upper_digits (hmac_spec Fips.sha256 device_secret (source product_key device_name)).

Definition host (custom : option (list Z)) (region : Z) (product_key : list Z) : option (list Z) :=
  if region =? IOTX_CLOUD_REGION_CUSTOM then custom
  else (fun d => product_key ++ lit "." ++ d) <$> g_infra_mqtt_domain custom region.

End Spec.

(** ** The client identifier *)

Lemma pairs_cons k v kv :
  Spec.pairs ((k, v) :: kv) = k ++ lit "=" ++ v ++ lit "," ++ Spec.pairs kv.
Proof. unfold Spec.pairs. cbn [fmap list_fmap concat fst snd]. by rewrite <-!app_assoc. Qed.

Lemma lit_eq : cstr_ok (lit "="). Proof. by apply lit_cstr. Qed.
Lemma lit_comma : cstr_ok (lit ","). Proof. by apply lit_cstr. Qed.
Lemma lit_bar : cstr_ok (lit "|"). Proof. by apply lit_cstr. Qed.
Lemma lit_dot : cstr_ok (lit "."). Proof. by apply lit_cstr. Qed.

Create HintDb cstring.
#[export] Hint Resolve cstr_ok_bytes lit_eq lit_comma lit_bar lit_dot : cstring.
#[export] Hint Extern 1 (cstr_ok (_ ++ _)) => rewrite cstr_ok_app; split : cstring.
#[export] Hint Extern 1 (cstr_ok (lit _)) => by apply lit_cstr : cstring.
#[export] Hint Extern 1 (_ < _)%nat => rewrite ?length_app; cbn [lit List.length]; lia : cstring.
#[export] Hint Extern 1 (_ <= _)%nat => rewrite ?length_app; cbn [lit List.length]; lia : cstring.

(** A run of appends to a zero-padded array. *)
Ltac appends := repeat (rewrite arr_append_strbuf by eauto with cstring; cbn [mbind option_bind]).

Definition kv_ok (kv : list (list Z * list Z)) : Prop :=
  Forall (fun p => cstr_ok p.1 /\ cstr_ok p.2) kv.

Lemma pairs_cstr kv : kv_ok kv -> cstr_ok (Spec.pairs kv).
Proof.
  induction 1 as [|[k v] kv [Hk Hv] _ IH]; [constructor|].
  rewrite pairs_cons. auto 10 with cstring.
Qed.

(** The loop appends the whole table, or stops before an entry that does not fit. *)
Lemma clientid_loop_ok kv s :
  kv_ok kv -> cstr_ok s -> (List.length s < 200)%nat ->
  exists ret a,
    clientid_loop kv (strbuf 200 s) = Some (ret, a)
    /\ if slen s + slen (Spec.pairs kv) <? 200
       then ret = None /\ a = strbuf 200 (s ++ Spec.pairs kv)
       else ret = Some STATE_MQTT_SIGN_CLIENTID_BUF_SHORT.
Proof.
  intros Hkv. revert s. induction Hkv as [|[k v] kv [Hk Hv] Hkv IH]; intros s Hs Hl.
  - exists None, (strbuf 200 s). split; [done|]. unfold slen, Spec.pairs. cbn.
    rewrite (proj2 (Z.ltb_lt _ 200)), app_nil_r by lia. done.
  - cbn [fst snd] in Hk, Hv. cbn [clientid_loop].
    rewrite arr_strlen_strbuf, decide_True by (done || lia). cbn [mbind option_bind].
    rewrite pairs_cons. unfold DEV_SIGN_CLIENT_ID_MAXLEN, slen.
    assert (List.length (lit "=") = 1%nat /\ List.length (lit ",") = 1%nat) as [L1 L2] by done.
    rewrite !length_app, L1, L2.
    destruct (Z.leb_spec 200 (Z.of_nat (List.length s) + Z.of_nat (List.length k)
                              + Z.of_nat (List.length v) + 2)).
    { eexists _, _. split; [done|]. by rewrite (proj2 (Z.ltb_ge _ 200)) by lia. }
    appends.
    destruct (IH ((((s ++ k) ++ lit "=") ++ v) ++ lit ",")) as (ret & a & Hr & Hc);
      [auto 10 with cstring|rewrite !length_app; cbn [lit List.length]; lia|].
    exists ret, a. split; [done|]. rewrite <-!app_assoc in Hc. revert Hc. unfold slen.
    rewrite !length_app, L1, L2. repeat zcase; first [done|lia].
Qed.

Lemma clientid_kv_ok mode : cstr_ok mode -> kv_ok (clientid_kv mode).
Proof.
  intros Hm. unfold kv_ok, clientid_kv. rewrite !Forall_cons, Forall_nil.
  split_and!; first [done|by apply lit_cstr].
Qed.

Lemma mode_cstr i : cstr_ok (if 0 <? i then MODE_ITLS_DNS_ID2 else SECURE_MODE).
Proof. destruct (0 <? i); by apply lit_cstr. Qed.

(** Replacing the last character of the string. *)
Lemma arr_set_last_strbuf n s c :
  cstr_ok s -> s <> [] -> (List.length s < n)%nat -> is_byte c ->
  arr_set_last (strbuf n s) c = Some (strbuf n (take (List.length s - 1) s ++ [c])).
Proof.
  intros Hs Hne Hl Hc. unfold arr_set_last.
  rewrite arr_strlen_strbuf, decide_True by (done || lia). cbn [mbind option_bind].
  destruct (exists_last Hne) as (s' & x & ->). rewrite length_app in *.
  cbn [List.length] in *. rewrite Nat.add_1_r, Nat.sub_1_r. cbn [Nat.pred].
  rewrite take_app_length. cbn [puts]. unfold put. cbn [wb_pos wb_mem].
  rewrite decide_True by (rewrite strbuf_length; rewrite ?length_app; cbn; lia).
  cbn [mbind option_bind wb_mem]. unfold strbuf. rewrite !length_app. cbn [List.length].
  rewrite <-!app_assoc. cbn [app]. by rewrite list_insert_mid, u8_small.
Qed.

(** The part of the function after the table. *)
Lemma custom_ok s custom :
  cstr_ok s -> (List.length s < 200)%nat -> (forall c, custom = Some c -> cstr_ok c) ->
  let tail := match custom with Some c => c ++ lit "," | None => [] end in
  exists ret a,
    match custom with
    | None => Some (None, strbuf 200 s)
    | Some c =>
        n ← arr_strlen (strbuf 200 s);
        if DEV_SIGN_CLIENT_ID_MAXLEN <=? Z.of_nat n + slen c + 1
        then Some (Some STATE_MQTT_SIGN_CLIENTID_BUF_SHORT, strbuf 200 s)
        else
          a ← arr_append (strbuf 200 s) c;
          a ← arr_append a (lit ",");
          Some (None, a)
    end = Some (ret, a)
    /\ if slen s + slen tail <? 200
       then ret = None /\ a = strbuf 200 (s ++ tail)
       else ret = Some STATE_MQTT_SIGN_CLIENTID_BUF_SHORT.
Proof.
  intros Hs Hl Hc tail. unfold tail, slen. destruct custom as [c|].
  - specialize (Hc c eq_refl). rewrite arr_strlen_strbuf, decide_True by (done || lia).
    cbn [mbind option_bind]. unfold DEV_SIGN_CLIENT_ID_MAXLEN, slen.
    assert (List.length (lit ",") = 1%nat) as L by done. rewrite length_app, L.
    destruct (Z.leb_spec 200 (Z.of_nat (List.length s) + Z.of_nat (List.length c) + 1)).
    + eexists _, _. split; [done|]. by rewrite (proj2 (Z.ltb_ge _ 200)) by lia.
    + appends. eexists _, _. split; [done|]. rewrite (proj2 (Z.ltb_lt _ 200)) by lia.
      by rewrite <-app_assoc.
  - eexists _, _. split; [done|]. cbn [List.length]. rewrite (proj2 (Z.ltb_lt _ 200)), app_nil_r by lia.
    done.
Qed.

Lemma body_length id custom mode :
  slen (Spec.client_id_body id custom mode)
  = slen id + 1 + slen (Spec.pairs (clientid_kv mode))
    + slen (match custom with Some c => c ++ lit "," | None => [] end).
Proof.
  unfold Spec.client_id_body, slen. rewrite !length_app.
  assert (List.length (lit "|") = 1%nat) as -> by done. lia.
Qed.

Lemma body_cstr id custom mode :
  cstr_ok id -> cstr_ok mode -> (forall c, custom = Some c -> cstr_ok c) ->
  cstr_ok (Spec.client_id_body id custom mode).
Proof.
  intros Hid Hm Hc. unfold Spec.client_id_body.
  rewrite !cstr_ok_app. split_and!; [done|apply lit_bar|by apply pairs_cstr, clientid_kv_ok|].
  destruct custom as [c|]; [|constructor]. rewrite cstr_ok_app. auto with cstring.
Qed.

(** [_sign_get_clientid] never leaves its array: it gives the identifier when it
    fits with its terminator, and the error code otherwise. *)
Lemma sign_get_clientid_ok x id custom itls :
  cstr_ok id -> (forall c, custom = Some c -> cstr_ok c) ->
  let mode := if 0 <? itls then MODE_ITLS_DNS_ID2 else SECURE_MODE in
  exists code a,
    _sign_get_clientid (Some x) (Some id) custom itls = Some (code, Some a)
    /\ if slen (Spec.client_id_body id custom mode) <? 200
       then code = STATE_SUCCESS /\ a = strbuf 200 (Spec.client_id id custom mode)
       else code = STATE_MQTT_SIGN_CLIENTID_BUF_SHORT.
Proof.
  intros Hid Hc mode. unfold _sign_get_clientid. fold mode. rewrite body_length.
  pose proof (mode_cstr itls) as Hm. fold mode in Hm.
  change (Z.to_nat DEV_SIGN_CLIENT_ID_MAXLEN) with 200%nat.
  destruct (Z.leb_spec DEV_SIGN_CLIENT_ID_MAXLEN (slen id + 1)) as [Hs|Hs];
    unfold DEV_SIGN_CLIENT_ID_MAXLEN in Hs.
  { eexists _, _. split; [done|]. unfold slen in *. by rewrite (proj2 (Z.ltb_ge _ 200)) by lia. }
  unfold slen in Hs. rewrite arr_copy_zeros by (auto with cstring || lia). cbn [mbind option_bind].
  appends. assert (List.length (id ++ lit "|") = List.length id + 1)%nat as L
    by (by rewrite length_app).
  destruct (clientid_loop_ok (clientid_kv mode) (id ++ lit "|")) as (ret & a & -> & Hk);
    [by apply clientid_kv_ok|auto with cstring|lia|]. cbn [mbind option_bind].
  revert Hk. unfold slen at 1. rewrite L.
  destruct (Z.ltb_spec (Z.of_nat (List.length id + 1) + slen (Spec.pairs (clientid_kv mode))) 200)
    as [Hk|Hk]; last first.
  { intros ->. eexists _, _. split; [done|]. unfold slen in *.
    by rewrite (proj2 (Z.ltb_ge _ 200)) by lia. }
  intros [-> ->]. set (s := (id ++ lit "|") ++ Spec.pairs (clientid_kv mode)).
  assert (cstr_ok s) as Hcs.
  { unfold s. rewrite !cstr_ok_app. split_and!; [done|apply lit_bar|].
    by apply pairs_cstr, clientid_kv_ok. }
  assert (slen s = slen id + 1 + slen (Spec.pairs (clientid_kv mode))) as Ls.
  { unfold s, slen. rewrite length_app, L. lia. }
  destruct (custom_ok s custom) as (ret & a & -> & Hr);
    [done|unfold slen in *; lia|done|]. cbn [mbind option_bind].
  rewrite Ls in Hr. destruct (_ <? 200) eqn:Hb; [|by rewrite Hr; eexists _, _].
  destruct Hr as [-> ->]. apply Z.ltb_lt in Hb.
  assert (Spec.client_id_body id custom mode
          = s ++ match custom with Some c => c ++ lit "," | None => [] end) as Eb
    by (unfold Spec.client_id_body, s; by rewrite <-!app_assoc).
  rewrite <-Eb. pose proof (body_length id custom mode) as Lb.
  rewrite arr_set_last_strbuf; [|by apply body_cstr| | |done].
  - eexists _, _. done.
  - intros E. rewrite E in Lb. unfold slen in *. cbn in Lb. lia.
  - unfold slen in *. lia.
Qed.

(** ** The password *)

Lemma zEncode_cstr i : 0 <= i < 16 -> 0 < zEncode i < 256.
Proof.
  intros Hi. assert ((0 <? zEncode i) && (zEncode i <? 256) = true) as H.
  { apply (upto_check (fun i => (0 <? zEncode i) && (zEncode i <? 256)) 16); [reflexivity|done]. }
  lia.
Qed.

Lemma land_15_range z : 0 <= Z.land z 15 < 16.
Proof. change 15 with (Z.ones 4). rewrite Z.land_ones by lia. apply Z.mod_pos_bound. lia. Qed.

Lemma hex2str_cstr l : cstr_ok (_hex2str l).
Proof.
  induction l as [|b l IH]; cbn [_hex2str]; [constructor|].
  constructor; [apply zEncode_cstr, land_15_range|].
  constructor; [apply zEncode_cstr, land_15_range|done].
Qed.

(** The encoder of the code writes the text of the specification. *)
Lemma hex2str_spec l : bytes_ok l -> _hex2str l = hexadecimal upper_digits l.
Proof. apply hexadecimal_encoder; [done|done|by vm_compute]. Qed.

Lemma password_hex pk dn secret :
  Spec.password pk dn secret = _hex2str (hmac_spec Fips.sha256 secret (Spec.source pk dn)).
Proof.
  symmetry. apply hex2str_spec. unfold hmac_spec.
  apply (digest_bytes (C := iot_sha256_context) (digest := Fips.sha256)).
Qed.

Lemma hex2str_length l : List.length (_hex2str l) = (2 * List.length l)%nat.
Proof. induction l; cbn [_hex2str List.length]; lia. Qed.

Lemma source_length pk dn :
  List.length (Spec.source pk dn) = (2 * List.length pk + 2 * List.length dn + 51)%nat.
Proof. unfold Spec.source, Spec.device_id. rewrite !length_app. cbn [lit List.length]. cbn. lia. Qed.

Lemma source_cstr pk dn : cstr_ok pk -> cstr_ok dn -> cstr_ok (Spec.source pk dn).
Proof. intros. unfold Spec.source, Spec.device_id, TIMESTAMP_VALUE. auto 15 with cstring. Qed.

Lemma generate_sign_string_ok pk dn secret :
  cstr_ok pk -> cstr_ok dn -> cstr_ok secret ->
  (List.length pk <= 20)%nat -> (List.length dn <= 32)%nat -> (List.length secret <= 64)%nat ->
  _iotx_generate_sign_string (Spec.device_id pk dn) dn pk secret (zeros 65)
  = Some (STATE_SUCCESS, strbuf 65 (Spec.password pk dn secret)).
Proof.
  intros Hpk Hdn Hs Lpk Ldn Ls. unfold _iotx_generate_sign_string.
  assert (List.length (Spec.device_id pk dn) = List.length pk + 1 + List.length dn)%nat as Li
    by (unfold Spec.device_id; rewrite !length_app; cbn; lia).
  assert (cstr_ok (Spec.device_id pk dn)) as Hid by (unfold Spec.device_id; auto with cstring).
  assert (slen TIMESTAMP_VALUE = 13) as Lt by done.
  assert (SIGN_FMT_LEN + slen (Spec.device_id pk dn) + slen dn + slen pk + slen TIMESTAMP_VALUE <= 168) as Hle
    by (rewrite Lt; unfold slen, SIGN_FMT_LEN; rewrite Li; lia).
  assert (0 <= SIGN_FMT_LEN + slen (Spec.device_id pk dn) + slen dn + slen pk + slen TIMESTAMP_VALUE) as Hge
    by (rewrite Lt; unfold slen, SIGN_FMT_LEN; lia).
  rewrite u16_small by lia. unfold DEV_SIGN_SOURCE_MAXLEN.
  rewrite (proj2 (Z.leb_gt 200 _)) by lia. change (Z.to_nat 200) with 200%nat.
  clear Hle Hge Lt. unfold TIMESTAMP_VALUE.
  assert (List.length (lit "clientId") = 8 /\ List.length (lit "deviceName") = 10
    /\ List.length (lit "productKey") = 10 /\ List.length (lit "timestamp") = 9
    /\ List.length (lit "2524608000000") = 13)%nat as (L1 & L2 & L3 & L4 & L5) by done.
  rewrite arr_copy_zeros by (auto with cstring || lia). cbn [mbind option_bind].
  do 7 (rewrite arr_append_strbuf;
    [cbn [mbind option_bind]|auto 12 with cstring|auto with cstring
    |rewrite ?length_app; lia|rewrite ?length_app; lia]).
  rewrite <-!app_assoc.
  match goal with |- context [strbuf 200 ?s] => change s with (Spec.source pk dn) end.
  pose proof (source_cstr pk dn Hpk Hdn) as Hsrc. pose proof (source_length pk dn) as Lsrc.
  rewrite arr_strlen_strbuf, decide_True by (done || lia). cbn [mbind option_bind].
  unfold utils_hmac_sha256.
  assert (take (List.length (Spec.source pk dn)) (strbuf 200 (Spec.source pk dn))
          = Spec.source pk dn) as Et by (unfold strbuf; apply take_app_length).
  rewrite (hmac_ok (digest := Fips.sha256)); rewrite ?Nat2Z.id, ?Et;
    unfold slen, mlen; rewrite ?Nat2Z.id, ?firstn_all, ?strbuf_length; auto with cstring; try lia.
  cbn [mbind option_bind default]. rewrite password_hex.
  rewrite arr_copy_zeros; [done|apply cstr_ok_bytes, hex2str_cstr|].
  rewrite hex2str_length. unfold hmac_spec, id.
  pose proof (digest_size (C := iot_sha256_context) (digest := Fips.sha256)) as Hd.
  unfold mlen in Hd. match goal with |- (2 * List.length (Fips.sha256 ?m) <= _)%nat => specialize (Hd m) end. lia.
Qed.

Lemma password_ok pk dn secret :
  cstr_ok (Spec.password pk dn secret) /\ (List.length (Spec.password pk dn secret) < 65)%nat.
Proof.
  rewrite password_hex. split; [apply hex2str_cstr|]. rewrite hex2str_length. unfold hmac_spec, id.
  pose proof (digest_size (C := iot_sha256_context) (digest := Fips.sha256)) as Hd. unfold mlen in Hd.
  match goal with |- (2 * List.length (Fips.sha256 ?m) < _)%nat => specialize (Hd m) end. lia.
Qed.

(** ** The whole record *)

Lemma make_device_id_ok pk dn :
  cstr_ok pk -> cstr_ok dn -> (List.length pk <= 20)%nat -> (List.length dn <= 32)%nat ->
  make_device_id pk dn = Some (strbuf 53 (Spec.device_id pk dn))
  /\ List.length (Spec.device_id pk dn) = (List.length pk + 1 + List.length dn)%nat
  /\ cstr_ok (Spec.device_id pk dn).
Proof.
  intros Hpk Hdn Lpk Ldn. unfold make_device_id, Spec.device_id.
  assert (List.length (lit ".") = 1%nat) as L by done.
  change (Z.to_nat (IOTX_PRODUCT_KEY_LEN + IOTX_DEVICE_NAME_LEN + 1)) with 53%nat.
  split_and!; [|rewrite !length_app; lia|auto with cstring].
  rewrite arr_copy_zeros by (auto with cstring || lia). cbn [mbind option_bind].
  do 2 (rewrite arr_append_strbuf;
    [cbn [mbind option_bind]|auto with cstring|auto with cstring
    |rewrite ?length_app; lia|rewrite ?length_app; lia]).
  by rewrite <-app_assoc.
Qed.

Lemma domain_ok custom region d :
  0 <= region < 6 -> region <> IOTX_CLOUD_REGION_CUSTOM ->
  g_infra_mqtt_domain custom region = Some d -> cstr_ok d /\ (List.length d <= 40)%nat.
Proof.
  intros Hr Hne. unfold g_infra_mqtt_domain, IOTX_CLOUD_REGION_CUSTOM in *.
  destruct (Z.to_nat region) as [|[|[|[|[|n]]]]] eqn:E; [..|exfalso; lia];
    intros [= <-]; (split; [by apply cstr_ok_check|cbn; lia]).
Qed.

Lemma sign_hostname_ok custom region pk signout :
  0 <= region < 6 -> cstr_ok pk -> (List.length pk <= 20)%nat ->
  (forall d, custom = Some d -> cstr_ok d /\ (List.length d <= 64)%nat) ->
  sign_hostname custom region pk signout
  = Some match Spec.host custom region pk with
         | None => (Some STATE_USER_INPUT_MQTT_DOMAIN, signout)
         | Some h => if slen h + 1 <? 64
                     then (None, signout <| hostname := strbuf 64 h |>)
                     else (Some STATE_MQTT_SIGN_HOSTNAME_BUF_SHORT, signout)
         end.
Proof.
  intros Hr Hpk Lpk Hc. unfold sign_hostname, Spec.host, DEV_SIGN_HOSTNAME_MAXLEN.
  assert (List.length (lit ".") = 1%nat) as L by done.
  destruct (Z.eqb_spec region IOTX_CLOUD_REGION_CUSTOM) as [->|Hne].
  - change (g_infra_mqtt_domain custom IOTX_CLOUD_REGION_CUSTOM) with custom.
    destruct custom as [d|]; [|done]. destruct (Hc d eq_refl) as [Hd Ld].
    unfold slen. rewrite u16_small by lia.
    destruct (Z.leb_spec 64 (Z.of_nat (List.length d) + 1)).
    + by rewrite (proj2 (Z.ltb_ge _ 64)) by lia.
    + rewrite (proj2 (Z.ltb_lt _ 64)) by lia. change (Z.to_nat 64) with 64%nat.
      by rewrite arr_copy_zeros by (auto with cstring || lia).
  - destruct (g_infra_mqtt_domain custom region) as [d|] eqn:Ed; last first.
    { exfalso. unfold g_infra_mqtt_domain, IOTX_CLOUD_REGION_CUSTOM in *.
      destruct (Z.to_nat region) as [|[|[|[|[|n]]]]] eqn:E; try done. lia. }
    destruct (domain_ok _ _ _ Hr Hne Ed) as [Hd Ld]. cbn [mbind option_bind fmap option_fmap option_map].
    unfold slen. rewrite u16_small, !length_app, L by lia.
    destruct (Z.leb_spec 64 (Z.of_nat (List.length pk) + Z.of_nat (List.length d) + 2)).
    + by rewrite (proj2 (Z.ltb_ge _ 64)) by lia.
    + rewrite (proj2 (Z.ltb_lt _ 64)) by lia. change (Z.to_nat 64) with 64%nat.
      rewrite arr_copy_zeros by (auto with cstring || lia). cbn [mbind option_bind].
      do 2 (rewrite arr_append_strbuf;
        [cbn [mbind option_bind]|auto with cstring|auto with cstring
        |rewrite ?length_app; lia|rewrite ?length_app; lia]).
      by rewrite <-app_assoc.
Qed.

Lemma sign_username_ok meta signout :
  cstr_ok (meta_product_key meta) -> cstr_ok (meta_device_name meta) ->
  (List.length (meta_product_key meta) <= 20)%nat ->
  (List.length (meta_device_name meta) <= 32)%nat ->
  sign_username meta signout
  = Some (STATE_SUCCESS,
          signout <| username := strbuf 64 (meta_device_name meta ++ lit "&" ++ meta_product_key meta) |>
                  <| port := 443 |>).
Proof.
  intros Hpk Hdn Lpk Ldn. unfold sign_username, DEV_SIGN_USERNAME_MAXLEN, slen.
  assert (List.length (lit "&") = 1%nat) as L by done.
  rewrite u16_small, (proj2 (Z.leb_gt 64 _)) by lia. change (Z.to_nat 64) with 64%nat.
  rewrite arr_copy_zeros by (auto with cstring || lia). cbn [mbind option_bind].
  do 2 (rewrite arr_append_strbuf;
    [cbn [mbind option_bind]|auto with cstring|auto with cstring
    |rewrite ?length_app; lia|rewrite ?length_app; lia]).
  by rewrite <-app_assoc.
Qed.

(** The identity that [IOT_Ioctl] accepts. *)
Record identity_ok (meta : iotx_dev_meta_info_t) : Prop := {
  id_pk : cstr_ok (meta_product_key meta);
  id_dn : cstr_ok (meta_device_name meta);
  id_ds : cstr_ok (meta_device_secret meta);
  id_pk_len : (List.length (meta_product_key meta) <= 20)%nat;
  id_dn_len : (List.length (meta_device_name meta) <= 32)%nat;
  id_ds_len : (List.length (meta_device_secret meta) <= 64)%nat }.

(** Up to the name of the host nothing fails. *)
Definition signed_identity (pk dn ds : list Z) : iotx_sign_mqtt_t :=
  sign_mqtt_zero
    <| clientid := strbuf 200 (Spec.client_id (Spec.device_id pk dn) None SECURE_MODE) |>
    <| password := strbuf 65 (Spec.password pk dn ds) |>.

Lemma sign_mqtt_identity custom region pk ps dn ds signout :
  identity_ok (MetaInfo pk ps dn ds) -> 0 <= region < 6 -> (List.length pk + List.length dn < 52)%nat ->
  IOT_Sign_MQTT custom region (Some (MetaInfo pk ps dn ds)) signout
  = '(ret, signout) ← sign_hostname custom region pk (signed_identity pk dn ds);
    match ret with
    | Some code => Some (code, signout)
    | None => sign_username (MetaInfo pk ps dn ds) signout
    end.
Proof.
  intros [Hpk Hdn Hds Lpk Ldn Lds] Hr Hl. cbn [meta_product_key meta_device_name meta_device_secret] in *.
  unfold IOT_Sign_MQTT, IOTX_MQTT_DOMAIN_NUMBER. cbn [meta_product_key meta_device_name meta_device_secret].
  rewrite (proj2 (Z.leb_gt 6 region)) by lia.
  destruct (make_device_id_ok pk dn Hpk Hdn Lpk Ldn) as (-> & Lid & Hid).
  cbn [mbind option_bind]. rewrite arr_str_strbuf by (done || lia). cbn [mbind option_bind].
  destruct (sign_get_clientid_ok (clientid sign_mqtt_zero) (Spec.device_id pk dn) None 0)
    as (code & a & -> & Hcl); [done|done|]. cbn [mbind option_bind].
  rewrite body_length in Hcl.
  assert (slen (Spec.pairs (clientid_kv (if 0 <? 0 then MODE_ITLS_DNS_ID2 else SECURE_MODE)))
          = 97) as Lp by reflexivity.
  rewrite Lp in Hcl. cbn [List.length] in Hcl. unfold slen in Hcl. rewrite Lid in Hcl.
  cbn [List.length] in Hcl. rewrite (proj2 (Z.ltb_lt _ 200)) in Hcl by lia.
  destruct Hcl as [-> ->]. cbn [Z.ltb Z.compare STATE_SUCCESS].
  rewrite generate_sign_string_ok by done. cbn [mbind option_bind]. by rewrite Z.ltb_irrefl.
Qed.

(** The credentials of a host name that fits. *)
Lemma sign_mqtt_host custom region pk ps dn ds signout h :
  identity_ok (MetaInfo pk ps dn ds) -> 0 <= region < 6 -> (List.length pk + List.length dn < 52)%nat ->
  (forall d, custom = Some d -> cstr_ok d /\ (List.length d <= 64)%nat) ->
  Spec.host custom region pk = Some h -> slen h + 1 < 64 ->
  IOT_Sign_MQTT custom region (Some (MetaInfo pk ps dn ds)) signout
  = Some (STATE_SUCCESS, SignMqtt (strbuf 64 h) 443
                           (strbuf 200 (Spec.client_id (Spec.device_id pk dn) None SECURE_MODE))
                           (strbuf 64 (dn ++ lit "&" ++ pk)) (strbuf 65 (Spec.password pk dn ds))).
Proof.
  intros Hid Hr Hl Hc Hh Lh. rewrite sign_mqtt_identity by done. destruct Hid as [Hpk Hdn Hds Lpk Ldn Lds].
  rewrite sign_hostname_ok by done. rewrite Hh. cbn [mbind option_bind]. rewrite (proj2 (Z.ltb_lt _ 64)) by done.
  by rewrite sign_username_ok.
Qed.

(** C12. For every identity whose product key and device name leave room for the
    terminator of [device_id], [IOT_Sign_MQTT] fills the record with the credentials of
    the service: the client identifier with its list of parameters, the upper-case
    hexadecimal HMAC-SHA-256, under the device secret, of
    clientId..deviceName..productKey..timestamp.., the host of the region, the user name
    and port 443; it fails exactly when the custom domain is not set or is too long. *)
Theorem IOT_Sign_MQTT_credentials custom region meta signout :
  identity_ok meta -> 0 <= region < 6 ->
  (forall d, custom = Some d -> cstr_ok d /\ (List.length d <= 64)%nat) ->
  (List.length (meta_product_key meta) + List.length (meta_device_name meta) < 52)%nat ->
  let pk := meta_product_key meta in
  let dn := meta_device_name meta in
  exists code r,
    IOT_Sign_MQTT custom region (Some meta) signout = Some (code, r)
    /\ match Spec.host custom region pk with
       | None => code = STATE_USER_INPUT_MQTT_DOMAIN
       | Some h =>
           if slen h + 1 <? 64 then
             code = STATE_SUCCESS
             /\ r = SignMqtt (strbuf 64 h) 443
                      (strbuf 200 (Spec.client_id (Spec.device_id pk dn) None SECURE_MODE))
                      (strbuf 64 (dn ++ lit "&" ++ pk))
                      (strbuf 65 (Spec.password pk dn (meta_device_secret meta)))
           else code = STATE_MQTT_SIGN_HOSTNAME_BUF_SHORT
       end.
Proof.
  destruct meta as [pk ps dn ds]. cbn [meta_product_key meta_device_name meta_device_secret].
  intros Hid Hr Hc Hl.
  pose proof (sign_mqtt_host custom region pk ps dn ds signout) as Hs.
  pose proof (sign_mqtt_identity custom region pk ps dn ds signout Hid Hr Hl) as He.
  destruct Hid as [Hpk Hdn Hds Lpk Ldn Lds]. rewrite sign_hostname_ok in He by done. cbn [mbind option_bind] in He.
  destruct (Spec.host custom region pk) as [h|]; [|eexists _, _; done].
  destruct (Z.ltb_spec (slen h + 1) 64); [|eexists _, _; done].
  eexists _, _. split; [by apply (Hs h)|]. done.
Qed.

(** With a product key of 20 and a device name of 32 characters, the largest the
    settings accept, [device_id] fills its array of 53 bytes and has no terminator:
    [IOT_Sign_MQTT] reads past the array. *)
Theorem IOT_Sign_MQTT_overrun custom region meta signout :
  identity_ok meta -> 0 <= region < 6 ->
  List.length (meta_product_key meta) = 20%nat -> List.length (meta_device_name meta) = 32%nat ->
  IOT_Sign_MQTT custom region (Some meta) signout = None.
Proof.
  intros [Hpk Hdn Hds Lpk Ldn Lds] Hr Ep Ed. unfold IOT_Sign_MQTT, IOTX_MQTT_DOMAIN_NUMBER.
  rewrite (proj2 (Z.leb_gt 6 region)) by lia.
  destruct (make_device_id_ok _ _ Hpk Hdn Lpk Ldn) as (-> & Lid & Hid).
  cbn [mbind option_bind]. unfold arr_str. rewrite arr_strlen_strbuf by (done || lia).
  by rewrite decide_False by lia.
Qed.

(** A device of the documentation, with its text as the code computes it. *)
Definition example_meta : iotx_dev_meta_info_t :=
  MetaInfo (lit "a1X2bEnP82z") [] (lit "example1") (lit "ga7XA6KdlEeiPXQPpRbAjOZXwG8ydgSe").

Lemma example_meta_ok : identity_ok example_meta.
Proof. split; try (by apply cstr_ok_check); cbn; lia. Qed.

Lemma IOT_Sign_MQTT_credentials_witness :
  exists code r,
    IOT_Sign_MQTT None 0 (Some example_meta) sign_mqtt_zero = Some (code, r)
    /\ code = STATE_SUCCESS
    /\ arr_str (clientid r) = Some (lit "a1X2bEnP82z.example1|timestamp=2524608000000,_v=sdk-c-3.1.0,securemode=2,signmethod=hmacsha256,lan=C,_ss=1,gw=0,ext=0|").
Proof.
  destruct (IOT_Sign_MQTT_credentials None 0 example_meta sign_mqtt_zero example_meta_ok)
    as (code & r & H & Hc & Hr); [lia|done|cbn; lia|].
  exists code, r. split; [exact H|]. split; [exact Hc|]. rewrite Hr. vm_compute. reflexivity.
Defined.

Lemma IOT_Sign_MQTT_overrun_witness :
  let meta := MetaInfo (lit "abcdefghijklmnopqrst") [] (lit "abcdefghijklmnopqrstuvwxyz012345")
                (lit "secret") in
  IOT_Sign_MQTT None 0 (Some meta) sign_mqtt_zero = None.
Proof.
  apply IOT_Sign_MQTT_overrun; [|lia|done|done].
  split; try (by apply cstr_ok_check); cbn; lia.
Defined.
