(* ===== verification/CoapPacket.v ===== *)
(** * CoapPacket: CoAP messages and their wire format

    [eng/coap/CoAPPacket]: the message record
    ([iotx_coap_internal.h]), serialisation ([CoAPSerialize_common.c]) and parsing
    ([CoAPDeserialize_common.c]).  A pointer into a received buffer is the rest of the
    buffer object from there on; [None] is a read or a write outside an object.  The
    [num] of an option is its difference to the option before in a message to be sent,
    and the number itself in a received one. *)

From S2P Require Import Prelude.

(** ** Data *)

Definition COAP_MSG_MAX_TOKEN_LEN : Z := 8.
Definition COAP_MSG_MAX_OPTION_NUM : Z := 12.
Definition COAP_MSG_MAX_PDU_LEN : Z := 1280.
Definition COAP_MESSAGE_TYPE_CON : Z := 0.
Definition COAP_MESSAGE_TYPE_NON : Z := 1.
Definition COAP_MESSAGE_TYPE_ACK : Z := 2.
Definition COAP_MESSAGE_TYPE_RST : Z := 3.
Definition COAP_SUCCESS : Z := 0.
Definition COAP_ERROR_INVALID_PARAM : Z := 257.
Definition COAP_ERROR_NULL : Z := 258.
Definition COAP_ERROR_MALLOC : Z := 259.
Definition COAP_ERROR_INVALID_LENGTH : Z := 260.
Definition COAP_ERROR_DATA_SIZE : Z := 261.
Definition COAP_ERROR_NOT_FOUND : Z := 263.
Definition COAP_MSG_CODE_EMPTY_MESSAGE : Z := 0.
Definition COAP_MSG_CODE_205_CONTENT : Z := 69.
Definition COAP_MSG_CODE_400_BAD_REQUEST : Z := 128.
Definition COAP_CUR_VERSION : Z := 1.

Record CoAPMsgHeader := MsgHeader
  { version : Z; type : Z; tokenlen : Z; code : Z; msgid : Z }.

#[export] Instance eta_header : Eta CoAPMsgHeader := fun h =>
  MsgHeader (version h) (type h) (tokenlen h) (code h) (msgid h).

(** A pointer is [None] for [NULL] and the bytes from it on. *)
Record CoAPMsgOption := MsgOption { num : Z; len : Z; val : option (list Z) }.

#[export] Instance eta_option : Eta CoAPMsgOption := fun o => MsgOption (num o) (len o) (val o).

(** The function pointers and [user] are addresses. *)
Record CoAPMessage := Message
  { header : CoAPMsgHeader;
    token : list Z;                    (** 8 bytes *)
    options : list CoAPMsgOption;      (** 12 of them *)
    optcount : Z;
    optdelta : Z;
    payloadlen : Z;
    payload : option (list Z);
    handler : Z;
    resp : Z;
    user : Z;
    keep : Z }.

#[export] Instance eta_message : Eta CoAPMessage := fun m =>
  Message (header m) (token m) (options m) (optcount m) (optdelta m) (payloadlen m)
    (payload m) (handler m) (resp m) (user m) (keep m).

(** ** Serialisation *)

(** The count that is returned, and the buffer. *)
Definition CoAPSerialize_Header (msg : CoAPMessage) (buflen : Z) (buf : wbuf)
    : option (Z * wbuf) :=
  if buflen <? 4 then Some (0, buf)
  else
    let h := header msg in
    w ← put (Z.lor (Z.lor (Z.shiftl (Z.land (version h) 3) 6) (Z.shiftl (Z.land (type h) 3) 4))
                   (Z.land (tokenlen h) 0x0F)) buf;
    w ← put (code h) w;
    w ← put (Z.shiftr (Z.land (msgid h) 0xFF00) 8) w;
    w ← put (Z.land (msgid h) 0x00FF) w;
    Some (4, w).

Definition CoAPSerialize_Token (msg : CoAPMessage) (buflen : Z) (buf : wbuf)
    : option (Z * wbuf) :=
  if buflen <? tokenlen (header msg) then Some (0, buf)
  else
    w ← cpy (token msg) (tokenlen (header msg)) buf;
    Some (tokenlen (header msg), w).

(** [memcpy(ptr, option->val, option->len)]: nothing is read for a length of 0. *)
Definition cpy_val (val : option (list Z)) (len : Z) (w : wbuf) : option wbuf :=
  match val with
  | Some v => cpy v len w
  | None => if len =? 0 then Some w else None
  end.

(** The number of an option or its length in the first byte, and in the bytes after it. *)
Definition nibble (n : Z) : Z := if 269 <=? n then 14 else if 13 <=? n then 13 else n.

Definition put_ext (n : Z) (w : wbuf) : option wbuf :=
  if 269 <=? n then
    w ← put (Z.shiftr (Z.land (n - 269) 0xFF00) 8) w; put (Z.land (n - 269) 0x00FF) w
  else if 13 <=? n then put (n - 13) w
  else Some w.

(** The return value is the number of bytes written. *)
Definition CoAPSerialize_Option (option : CoAPMsgOption) (buf : wbuf) : Datatypes.option (Z * wbuf) :=
  let first := u8 (Z.shiftl (nibble (num option)) 4) in
  let first := if 269 <=? len option then Z.lor first 14
               else if 13 <=? len option then Z.lor first 13
               else Z.lor first (Z.land (len option) 0x0F) in
  w ← put first buf;
  w ← put_ext (num option) w;
  w ← put_ext (len option) w;
  w ← cpy_val (val option) (len option) w;
  Some (u16 (Z.of_nat (wb_pos w) - Z.of_nat (wb_pos buf)), w).

(** The loop from index [i] on; [base] is the position of [buf[0]]. *)
Fixpoint serialize_options (opts : list CoAPMsgOption) (n : nat) (base : nat) (count : Z)
    (mem : list Z) {struct n} : option (Z * list Z) :=
  match n with
  | O => Some (count, mem)
  | S n' =>
      match opts with
      | [] => None
      | o :: opts' =>
          '(len, w) ← CoAPSerialize_Option o (WBuf mem (base + Z.to_nat count));
          if 0 <? len then serialize_options opts' n' base (u16 (count + len)) (wb_mem w)
          else Some (0, wb_mem w)
      end
  end.

(** The buffer is left at its start; [buflen] is not used. *)
Definition CoAPSerialize_Options (msg : CoAPMessage) (buflen : Z) (buf : wbuf)
    : option (Z * wbuf) :=
  '(count, mem) ← serialize_options (options msg) (Z.to_nat (optcount msg)) (wb_pos buf) 0
                    (wb_mem buf);
  Some (count, WBuf mem (wb_pos buf)).

Definition ext_len (n : Z) : Z := if 269 <=? n then 2 else if 13 <=? n then 1 else 0.

Definition CoAPSerialize_OptionLen (option : CoAPMsgOption) : Z :=
  u16 (1 + ext_len (num option) + ext_len (len option) + len option).

Fixpoint options_len (opts : list CoAPMsgOption) (n : nat) (count : Z) {struct n} : option Z :=
  match n with
  | O => Some count
  | S n' =>
      match opts with
      | [] => None
      | o :: opts' =>
          let len := CoAPSerialize_OptionLen o in
          if 0 <? len then options_len opts' n' (u16 (count + len)) else Some 0
      end
  end.

Definition CoAPSerialize_OptionsLen (msg : CoAPMessage) : option Z :=
  options_len (options msg) (Z.to_nat (optcount msg)) 0.

Definition CoAPSerialize_Payload (msg : CoAPMessage) (buflen : Z) (buf : wbuf)
    : option (Z * wbuf) :=
  if buflen <? payloadlen msg + 1 then Some (0, buf)
  else
    match payload msg with
    | Some p =>
        if 0 <? payloadlen msg then
          w ← put 0xFF buf;
          w ← cpy p (payloadlen msg) w;
          Some (payloadlen msg + 1, w)
        else Some (0, buf)
    | None => Some (0, buf)
    end.

Definition CoAPSerialize_MessageLength (msg : CoAPMessage) : option Z :=
  let msglen := u16 (4 + tokenlen (header msg)) in
  n ← CoAPSerialize_OptionsLen msg;
  let msglen := u16 (msglen + n) in
  Some (if 0 <? payloadlen msg then u16 (u16 (msglen + payloadlen msg) + 1) else msglen).

(** [ptr += count] from the start [p] of what was written. *)
Definition advance (p : nat) (count : Z) (w : wbuf) : wbuf :=
  WBuf (wb_mem w) (p + Z.to_nat count).

(** The code or the number of bytes, and the buffer. *)
Definition CoAPSerialize_Message (msg : option CoAPMessage) (buf : option (list Z)) (buflen : Z)
    : option (Z * option (list Z)) :=
  match msg, buf with
  | Some msg, Some mem =>
      let remlen := buflen in
      let ptr := WBuf mem 0 in
      '(count, w) ← CoAPSerialize_Header msg remlen ptr;
      let count := u16 count in
      let ptr := advance (wb_pos ptr) count w in
      let remlen := u16 (remlen - count) in
      '(count, w) ← CoAPSerialize_Token msg remlen ptr;
      let count := u16 count in
      let ptr := advance (wb_pos ptr) count w in
      let remlen := u16 (remlen - count) in
      '(count, w) ← CoAPSerialize_Options msg remlen ptr;
      let ptr := advance (wb_pos ptr) count w in
      let remlen := u16 (remlen - count) in
      '(count, w) ← CoAPSerialize_Payload msg remlen ptr;
      let count := u16 count in
      let remlen := u16 (remlen - count) in
      Some (buflen - remlen, Some (wb_mem w))
  | _, _ => Some (COAP_ERROR_INVALID_PARAM, buf)
  end.

(** ** Parsing

    [room] is the variable [left] of the code. *)

Definition CoAPDeserialize_Header (msg : CoAPMessage) (buf : list Z) : option (Z * CoAPMessage) :=
  b0 ← buf !! 0%nat; b1 ← buf !! 1%nat; b2 ← buf !! 2%nat; b3 ← buf !! 3%nat;
  Some (4, msg <| header :=
    MsgHeader (Z.land (Z.shiftr b0 6) 3) (Z.land (Z.shiftr b0 4) 3) (Z.land b0 0x0F) b1
      (u16 (u16 (Z.shiftl b2 8) + b3)) |>).

Definition CoAPDeserialize_Token (msg : CoAPMessage) (buf : list Z) : option (Z * CoAPMessage) :=
  let n := if COAP_MSG_MAX_TOKEN_LEN <? tokenlen (header msg)
           then COAP_MSG_MAX_TOKEN_LEN else tokenlen (header msg) in
  w ← cpy buf n (WBuf (token msg) 0);
  Some (tokenlen (header msg), msg <| token := wb_mem w |>).

(** [COAP_OPT_CHECK(ptr, left, step)]: [None] is the [return -1]. *)
Definition COAP_OPT_CHECK (ptr : list Z) (room step : Z) : option (list Z * Z) :=
  if room <? step then None
  else
    let room := room - step in
    if room <? 1 then None else Some (drop (Z.to_nat step) ptr, room).

(** What [CoAPDeserialize_Option] leaves: [-1] and what [num] was assigned, or the option, the new sum of the
    deltas and the return value. *)
Inductive option_result :=
  | OptError (assigned : option Z)
  | OptOk (o : CoAPMsgOption) (predelta : Z) (count : Z).

(** The value of a nibble and of the bytes after it; [Some None] is the [return -1]. *)
Definition opt_delta (optdelta predelta : Z) (ptr : list Z) (room : Z)
    : option (option (Z * list Z * Z)) :=
  if optdelta =? 13 then
    b ← ptr !! 0%nat;
    Some ('(ptr, room) ← COAP_OPT_CHECK ptr room 1; Some (u16 (predelta + (13 + b)), ptr, room))
  else if optdelta =? 14 then
    b ← ptr !! 0%nat; b' ← ptr !! 1%nat;
    Some ('(ptr, room) ← COAP_OPT_CHECK ptr room 2;
          Some (u16 (u16 (u16 (predelta + 269) + Z.shiftl b 8) + b'), ptr, room))
  else Some (Some (u16 (predelta + optdelta), ptr, room)).

Definition opt_len (optlen : Z) (ptr : list Z) (room : Z)
    : option (option (Z * list Z * Z)) :=
  if optlen =? 13 then
    b ← ptr !! 0%nat;
    Some ('(ptr, room) ← COAP_OPT_CHECK ptr room 1; Some (u16 (13 + b), ptr, room))
  else if optlen =? 14 then
    b ← ptr !! 0%nat; b' ← ptr !! 1%nat;
    let optlen := u16 (Z.shiftl b 8 + b') in
    if optlen + 269 <? 269 then Some None
    else
      let optlen := u16 (optlen + 269) in
      Some ('(ptr, room) ← COAP_OPT_CHECK ptr room 2; Some (optlen, ptr, room))
  else Some (Some (optlen, ptr, room)).

Definition CoAPDeserialize_Option (buf : list Z) (room predeltas : Z) : option option_result :=
  b ← buf !! 0%nat;
  let optdelta := Z.shiftr (Z.land b 0xF0) 4 in
  let optlen := Z.land b 0x0F in
  match COAP_OPT_CHECK buf room 1 with
  | None => Some (OptError None)
  | Some (ptr, room) =>
      r ← opt_delta optdelta predeltas ptr room;
      match r with
      | None => Some (OptError None)
      | Some (predelta, ptr, room) =>
          r ← opt_len optlen ptr room;
          match r with
          | None => Some (OptError (Some predelta))
          | Some (optlen, ptr, room) =>
              Some (OptOk (MsgOption predelta optlen (Some ptr)) predelta
                      (Z.of_nat (List.length buf - List.length ptr) + optlen))
          end
      end
  end.

(** The loop: the return value of a failed option, or [ptr - buf]; [off] is the offset
    of [ptr], which may have passed the end of the object. *)
Fixpoint deserialize_options (fuel : nat) (msg : CoAPMessage) (buf : list Z) (off : nat)
    (room : Z) (index : nat) (optdeltas : Z) : option (Z * CoAPMessage) :=
  match fuel with
  | O => None
  | S fuel' =>
      if 0 <? room then
        b ← buf !! off;
        if negb (b =? 0xFF) && (Z.of_nat index <? COAP_MSG_MAX_OPTION_NUM) then
          r ← CoAPDeserialize_Option (drop off buf) room optdeltas;
          match r with
          | OptError None => Some (-1, msg)
          | OptError (Some n) =>
              Some (-1, msg <| options ::= alter (fun o => o <| num := n |>) index |>)
          | OptOk o optdeltas len =>
              let msg := msg <| options ::= fun l => <[index := o]> l |>
                             <| optcount ::= fun n => u8 (n + 1) |> in
              deserialize_options fuel' msg buf (off + Z.to_nat len) (room - len) (S index) optdeltas
          end
        else Some (Z.of_nat off, msg)
      else Some (Z.of_nat off, msg)
  end.

Definition CoAPDeserialize_Options (msg : CoAPMessage) (buf : list Z) (buflen : Z)
    : option (Z * CoAPMessage) :=
  deserialize_options 13 (msg <| optcount := 0 |>) buf 0 buflen 0 0.

Definition CoAPDeserialize_Payload (msg : CoAPMessage) (buf : list Z) (buflen : Z)
    : option (Z * CoAPMessage) :=
  b ← buf !! 0%nat;
  if b =? 0xFF
  then Some (buflen, msg <| payloadlen := u16 (buflen - 1) |> <| payload := Some (drop 1 buf) |>)
  else Some (0, msg).

Definition CoAPDeserialize_Message (msg : option CoAPMessage) (buf : option (list Z)) (buflen : Z)
    : option (Z * option CoAPMessage) :=
  match msg, buf with
  | Some msg, Some buf =>
      if buflen <? 4 then Some (COAP_ERROR_INVALID_LENGTH, Some msg)
      else
        let remlen := buflen in
        '(count, msg) ← CoAPDeserialize_Header msg buf;
        if remlen <? count then Some (COAP_ERROR_INVALID_LENGTH, Some msg)
        else
          let ptr := drop (Z.to_nat count) buf in
          let remlen := remlen - count in
          '(count, msg) ← CoAPDeserialize_Token msg ptr;
          if remlen <? count then Some (COAP_ERROR_INVALID_LENGTH, Some msg)
          else
            let ptr := drop (Z.to_nat count) ptr in
            let remlen := remlen - count in
            '(count, msg) ← CoAPDeserialize_Options msg ptr remlen;
            if (remlen <? count) || (count <? 0)
            then Some (COAP_ERROR_INVALID_LENGTH, Some msg)
            else
              let ptr := drop (Z.to_nat count) ptr in
              let remlen := remlen - count in
              '(_, msg) ← CoAPDeserialize_Payload msg ptr remlen;
              Some (COAP_SUCCESS, Some msg)
  | _, _ => Some (COAP_ERROR_INVALID_PARAM, msg)
  end.

(** ** The wire format of RFC 7252, section 3 *)

Module Wire.

(** An option: its difference to the number before, and its value. *)
Definition opt : Type := Z * list Z.

Definition slen (v : list Z) : Z := Z.of_nat (List.length v).

Definition ext (n : Z) : list Z :=
  if 269 <=? n then [(n - 269) / 256; (n - 269) mod 256]
  else if 13 <=? n then [n - 13] else [].

Definition option_bytes (o : opt) : list Z :=
  (16 * nibble o.1 + nibble (slen o.2)) :: ext o.1 ++ ext (slen o.2) ++ o.2.

Definition options_bytes (os : list opt) : list Z := concat (option_bytes <$> os).

Record message := Msg
  { m_version : Z; m_type : Z; m_code : Z; m_id : Z;
    m_token : list Z; m_options : list opt; m_payload : list Z }.

#[export] Instance eta_wire : Eta message := fun m =>
  Msg (m_version m) (m_type m) (m_code m) (m_id m) (m_token m) (m_options m) (m_payload m).

Definition header_bytes (m : message) : list Z :=
  [64 * m_version m + 16 * m_type m + slen (m_token m); m_code m; m_id m / 256; m_id m mod 256].

Definition payload_bytes (p : list Z) : list Z := if decide (p = []) then [] else 0xFF :: p.

Definition bytes (m : message) : list Z :=
  header_bytes m ++ m_token m ++ options_bytes (m_options m) ++ payload_bytes (m_payload m).

(** What the fields may be. *)
Definition option_ok (o : opt) : Prop := 0 <= o.1 < 65536 /\ slen o.2 < 65536 /\ bytes_ok o.2.

Record ok (m : message) : Prop := {
  ok_version : 0 <= m_version m < 4;
  ok_type : 0 <= m_type m < 4;
  ok_code : is_byte (m_code m);
  ok_id : 0 <= m_id m < 65536;
  ok_token : slen (m_token m) <= 8;
  ok_token_bytes : bytes_ok (m_token m);
  ok_options : Forall option_ok (m_options m);
  ok_count : (List.length (m_options m) <= 12)%nat;
  ok_payload : slen (m_payload m) < 65536;
  ok_payload_bytes : bytes_ok (m_payload m) }.

End Wire.

Import Wire.

(** The message that a record of the code stands for, the [num]s being differences. *)
Definition value_of (o : CoAPMsgOption) : list Z :=
  match val o with Some v => take (Z.to_nat (len o)) v | None => [] end.

Definition message_of (m : CoAPMessage) : message :=
  Msg (version (header m)) (type (header m)) (code (header m)) (msgid (header m))
    (take (Z.to_nat (tokenlen (header m))) (token m))
    ((fun o => (num o, value_of o)) <$> take (Z.to_nat (optcount m)) (options m))
    (match payload m with Some p => take (Z.to_nat (payloadlen m)) p | None => [] end).

(** The pointers of a record to be sent point to what their lengths say. *)
Definition points (val : option (list Z)) (len : Z) : Prop :=
  match val with Some v => 0 <= len <= slen v | None => len = 0 end.

Record sendable (m : CoAPMessage) : Prop := {
  sd_token : List.length (token m) = 8%nat;
  sd_tokenlen : 0 <= tokenlen (header m) <= 8;
  sd_slots : List.length (options m) = 12%nat;
  sd_count : 0 <= optcount m <= 12;
  sd_options : Forall (fun o => points (val o) (len o)) (take (Z.to_nat (optcount m)) (options m));
  sd_payload : points (payload m) (payloadlen m);
  sd_ok : ok (message_of m) }.

(** ** Serialisation writes the format *)

Lemma nibble_range n : 0 <= n -> 0 <= nibble n < 15.
Proof. intros. unfold nibble. zcases. Qed.

Lemma ext_ok n : 0 <= n < 65536 -> bytes_ok (ext n).
Proof.
  intros Hn. unfold ext. zcases; repeat (constructor; [unfold is_byte; dlia|]); constructor.
Qed.

Lemma ext_length n : Z.of_nat (List.length (ext n)) = ext_len n.
Proof. unfold ext, ext_len. by zcases. Qed.

Lemma option_bytes_ok o : option_ok o -> bytes_ok (option_bytes o).
Proof.
  intros (Hn & Hl & Hv). unfold option_bytes. constructor.
  - pose proof (nibble_range o.1). pose proof (nibble_range (slen o.2)). unfold is_byte, slen in *. lia.
  - rewrite !bytes_ok_app. split_and!; [by apply ext_ok|apply ext_ok; unfold slen in *; lia|done].
Qed.

Lemma options_bytes_ok os : Forall option_ok os -> bytes_ok (options_bytes os).
Proof.
  induction 1 as [|o os Ho _ IH]; [constructor|].
  unfold options_bytes. cbn [fmap list_fmap concat]. apply bytes_ok_app. split; [|exact IH].
  by apply option_bytes_ok.
Qed.

Lemma message_bytes_ok m : ok m -> bytes_ok (bytes m).
Proof.
  intros [Hv Ht Hc Hi Htk Htb Ho Hcnt Hp Hpb]. unfold bytes.
  rewrite !bytes_ok_app. split_and!; [|done|by apply options_bytes_ok|].
  - unfold header_bytes, bytes_ok, is_byte, slen in *. rewrite !Forall_cons, Forall_nil.
    split_and!; try done; dlia.
  - unfold payload_bytes. case_decide; [constructor|]. constructor; [|done]. unfold is_byte. lia.
Qed.

(** Both nibbles of the first byte. *)
Lemma first_byte n l :
  0 <= n -> 0 <= l ->
  (let first := u8 (Z.shiftl (nibble n) 4) in
   if 269 <=? l then Z.lor first 14 else if 13 <=? l then Z.lor first 13
   else Z.lor first (Z.land l 0x0F)) = 16 * nibble n + nibble l.
Proof.
  intros Hn Hl. cbn zeta. pose proof (nibble_range n Hn) as Hr.
  assert (u8 (Z.shiftl (nibble n) 4) = Z.shiftl (nibble n) 4) as ->
    by (apply u8_small; unfold is_byte; rewrite Z.shiftl_mul_pow2; lia).
  assert (forall d, 0 <= d < 16 -> Z.lor (Z.shiftl (nibble n) 4) d = 16 * nibble n + d) as E
    by (intros; rewrite lor_shiftl; lia).
  change (nibble l) with (if 269 <=? l then 14 else if 13 <=? l then 13 else l). destruct (Z.leb_spec 269 l); [apply E; lia|].
  destruct (Z.leb_spec 13 l); [apply E; lia|].
  change 0x0F with (Z.ones 4). rewrite Z.land_ones, Z.mod_small by lia. apply E. lia.
Qed.

Lemma put_ext_writes n : 0 <= n < 65536 -> writes (put_ext n) (ext n).
Proof.
  intros Hn. unfold put_ext, ext.
  apply (writes_eq _ (if 269 <=? n then [Z.shiftr (Z.land (n - 269) 0xFF00) 8] ++ [Z.land (n - 269) 0x00FF]
                      else if 13 <=? n then [n - 13] else [])).
  - intros w. destruct (269 <=? n); [|destruct (13 <=? n); [apply put_puts|done]].
    apply writes_bind; auto with writes.
  - destruct (Z.leb_spec 269 n) as [H|H]; [|done].
    change 0x00FF with (Z.ones 8). rewrite Z.land_ones by lia. cbn [app].
    do 2 f_equal. rewrite Z.shiftr_land. change (Z.shiftr 0xFF00 8) with (Z.ones 8).
    rewrite Z.land_ones, Z.shiftr_div_pow2 by lia. apply Z.mod_small. dlia.
Qed.

Lemma cpy_val_writes o : points (val o) (len o) -> writes (cpy_val (val o) (len o)) (value_of o).
Proof.
  unfold points, value_of, cpy_val, slen. destruct (val o) as [v|]; intros H w.
  - unfold cpy. rewrite (proj2 (Z.ltb_ge (len o) 0)), (proj2 (Z.ltb_ge _ (len o))) by lia. done.
  - rewrite H. done.
Qed.

Lemma value_length o : points (val o) (len o) -> slen (value_of o) = len o.
Proof.
  unfold points, value_of, slen. destruct (val o) as [v|]; intros H; [rewrite length_take|cbn]; lia.
Qed.

Definition out (o : CoAPMsgOption) : opt := (num o, value_of o).

(** An option of the record that can be sent, with its size on the wire. *)
Definition option_sendable (o : CoAPMsgOption) : Prop :=
  points (val o) (len o) /\ option_ok (out o).

Lemma option_bytes_length o :
  slen (option_bytes o) = 1 + ext_len o.1 + ext_len (slen o.2) + slen o.2.
Proof.
  unfold option_bytes, slen. cbn [List.length]. rewrite !length_app.
  pose proof (ext_length o.1). pose proof (ext_length (Z.of_nat (List.length o.2))). lia.
Qed.

Lemma slen_nonneg l : 0 <= slen l.
Proof. unfold slen. lia. Qed.

Lemma CoAPSerialize_Option_writes o w :
  option_sendable o -> slen (option_bytes (out o)) < 65536 ->
  CoAPSerialize_Option o w
  = w' ← puts (option_bytes (out o)) w; Some (slen (option_bytes (out o)), w').
Proof.
  intros [Hp (Hn & Hl & Hv)] Hs. cbn [out fst snd] in Hn, Hl, Hv. unfold CoAPSerialize_Option.
  pose proof (value_length o Hp) as El.
  pose proof (slen_nonneg (value_of o)) as Hnn. rewrite El in Hl, Hnn.
  pose proof (first_byte (num o) (len o) ltac:(lia) Hnn) as E. cbn zeta in E. rewrite E.
  assert (writes (fun buf =>
            w ← put (16 * nibble (num o) + nibble (len o)) buf;
            w ← put_ext (num o) w; w ← put_ext (len o) w; cpy_val (val o) (len o) w)
            (option_bytes (out o))) as Hw.
  { unfold option_bytes. cbn [out fst snd]. rewrite El.
    apply (writes_eq _ ([16 * nibble (num o) + nibble (len o)]
             ++ (ext (num o) ++ (ext (len o) ++ value_of o)))); [|done].
    repeat apply writes_bind; [apply writes_put|apply put_ext_writes; lia..|].
    by apply cpy_val_writes. }
  specialize (Hw w). cbn beta in Hw.
  destruct (put (16 * _ + _) w) as [w1|]; cbn [mbind option_bind] in *; [|by rewrite <-Hw].
  destruct (put_ext (num o) w1) as [w2|]; cbn [mbind option_bind] in *; [|by rewrite <-Hw].
  destruct (put_ext (len o) w2) as [w3|]; cbn [mbind option_bind] in *; [|by rewrite <-Hw].
  destruct (cpy_val (val o) (len o) w3) as [w4|]; cbn [mbind option_bind] in *; rewrite <-Hw; [|done].
  symmetry in Hw. apply puts_mem_length in Hw as [_ Hpos]. rewrite Hpos. cbn [mbind option_bind].
  unfold slen in *. rewrite u16_small by lia. do 2 f_equal. lia.
Qed.

Lemma serialize_options_writes opts rest base count mem :
  Forall option_sendable opts -> 0 <= count ->
  count + slen (options_bytes (out <$> opts)) < 65536 ->
  serialize_options (opts ++ rest) (List.length opts) base count mem
  = w' ← puts (options_bytes (out <$> opts)) (WBuf mem (base + Z.to_nat count));
    Some (count + slen (options_bytes (out <$> opts)), wb_mem w').
Proof.
  intros Ho. revert count mem. induction Ho as [|o opts Ho Hos IH]; intros count mem Hc Hs.
  - change (Some (count, mem) = Some (count + 0, mem)). by rewrite Z.add_0_r.
  - cbn [fmap list_fmap] in *. unfold options_bytes in *. cbn [fmap list_fmap concat] in *.
    fold (fmap (M := list) option_bytes (fmap (M := list) out opts)) in *.
    fold (options_bytes (out <$> opts)) in *.
    assert (slen (option_bytes (out o) ++ options_bytes (out <$> opts))
            = slen (option_bytes (out o)) + slen (options_bytes (out <$> opts))) as El
      by (unfold slen; rewrite length_app; lia).
    rewrite El in *. pose proof (slen_nonneg (options_bytes (out <$> opts))) as Hnn.
    assert (0 < slen (option_bytes (out o))) as Hpos
      by (unfold slen, option_bytes; cbn [List.length]; lia).
    cbn [app List.length serialize_options].
    rewrite CoAPSerialize_Option_writes by (done || lia). rewrite puts_app.
    destruct (puts (option_bytes (out o)) _) as [w|] eqn:Hw; cbn [mbind option_bind]; [|done].
    rewrite (proj2 (Z.ltb_lt 0 _)), u16_small by lia. rewrite IH by lia.
    apply puts_mem_length in Hw as [_ Hw]. cbn [wb_pos] in Hw.
    replace (WBuf (wb_mem w) (base + Z.to_nat (count + slen (option_bytes (out o))))) with w.
    + destruct (puts _ w); cbn [mbind option_bind]; [|done]. do 2 f_equal. lia.
    + destruct w as [m p]. cbn [wb_pos wb_mem] in *. f_equal. unfold slen in *. lia.
Qed.

(** The length that the code computes beforehand. *)
Lemma options_len_ok opts rest count :
  Forall option_sendable opts -> 0 <= count ->
  count + slen (options_bytes (out <$> opts)) < 65536 ->
  options_len (opts ++ rest) (List.length opts) count
  = Some (count + slen (options_bytes (out <$> opts))).
Proof.
  intros Ho. revert count. induction Ho as [|o opts [Hp Ho] Hos IH]; intros count Hc Hs.
  - change (Some count = Some (count + 0)). by rewrite Z.add_0_r.
  - cbn [fmap list_fmap] in *. unfold options_bytes in *. cbn [fmap list_fmap concat] in *.
    fold (fmap (M := list) option_bytes (fmap (M := list) out opts)) in *.
    fold (options_bytes (out <$> opts)) in *.
    assert (slen (option_bytes (out o) ++ options_bytes (out <$> opts))
            = slen (option_bytes (out o)) + slen (options_bytes (out <$> opts))) as El
      by (unfold slen; rewrite length_app; lia).
    rewrite El in *. pose proof (slen_nonneg (options_bytes (out <$> opts))) as Hnn.
    pose proof (option_bytes_length (out o)) as Eo. cbn [out fst snd] in Eo.
    rewrite (value_length o Hp) in Eo.
    assert (0 <= len o) as Hl by (rewrite <-(value_length o Hp); apply slen_nonneg).
    assert (CoAPSerialize_OptionLen o = slen (option_bytes (out o))) as E.
    { unfold CoAPSerialize_OptionLen. cbn [out]. rewrite Eo, u16_small; [done|].
      unfold ext_len in *. zcases. }
    cbn [app List.length options_len]. rewrite E.
    assert (0 < slen (option_bytes (out o))) as Hpos
      by (unfold slen, option_bytes; cbn [List.length]; lia).
    rewrite (proj2 (Z.ltb_lt 0 _)), u16_small, IH by lia. f_equal. lia.
Qed.

Section Serialize.

Context (m : CoAPMessage) (Hm : sendable m).

Let M : message := message_of m.

Lemma token_length : slen (m_token M) = tokenlen (header m).
Proof.
  destruct Hm as [Ht Htl _ _ _ _ _]. unfold M, slen. cbn [message_of m_token].
  rewrite length_take. lia.
Qed.

Lemma payload_length : slen (m_payload M) = payloadlen m.
Proof.
  destruct Hm as [_ _ _ _ _ Hp _]. unfold M, slen, points in *. cbn [message_of m_payload].
  destruct (payload m) as [p|]; [rewrite length_take|cbn]; unfold slen in *; lia.
Qed.

(** The options in use. *)
Lemma options_split :
  exists opts rest,
    options m = opts ++ rest /\ Z.to_nat (optcount m) = List.length opts
    /\ Forall option_sendable opts /\ m_options M = out <$> opts.
Proof.
  destruct Hm as [_ _ Hs Hc Ho _ [_ _ _ _ _ _ Hok _ _ _]].
  exists (take (Z.to_nat (optcount m)) (options m)), (drop (Z.to_nat (optcount m)) (options m)).
  rewrite take_drop, length_take. split_and!; [done|lia| |done].
  cbn [message_of m_options] in Hok. rewrite Forall_fmap in Hok.
  apply Forall_and. split; [exact Ho|exact Hok].
Qed.

Lemma header_writes w buflen :
  4 <= buflen ->
  CoAPSerialize_Header m buflen w = w' ← puts (header_bytes M) w; Some (4, w').
Proof.
  intros Hb. pose proof token_length as Ht.
  destruct Hm as [_ Htl _ _ _ _ [Hv Hty Hc Hi _ _ _ _ _ _]]. fold M in Hv, Hty, Hc, Hi.
  unfold CoAPSerialize_Header, header_bytes. rewrite (proj2 (Z.ltb_ge buflen 4)) by done. rewrite Ht.
  cbn [M message_of m_version m_type m_code m_id] in *.
  assert (Z.lor (Z.lor (Z.shiftl (Z.land (version (header m)) 3) 6)
                       (Z.shiftl (Z.land (type (header m)) 3) 4))
                (Z.land (tokenlen (header m)) 0x0F)
          = 64 * version (header m) + 16 * type (header m) + tokenlen (header m)) as ->.
  { change 3 with (Z.ones 2). change 0x0F with (Z.ones 4). rewrite !Z.land_ones by lia.
    change (2 ^ 2) with 4. change (2 ^ 4) with 16. rewrite !(Z.mod_small _ 4), (Z.mod_small _ 16) by lia.
    rewrite <-Z.lor_assoc, (lor_shiftl (type (header m)) _ 4), lor_shiftl; lia. }
  assert (Z.shiftr (Z.land (msgid (header m)) 0xFF00) 8 = msgid (header m) / 256) as ->.
  { rewrite Z.shiftr_land. change (Z.shiftr 0xFF00 8) with (Z.ones 8).
    rewrite Z.land_ones, Z.shiftr_div_pow2 by lia. apply Z.mod_small. dlia. }
  change 0x00FF with (Z.ones 8). rewrite Z.land_ones by lia. cbn [puts].
  repeat (destruct (put _ _) as [?|]; cbn [mbind option_bind]; [|done]). done.
Qed.

Lemma token_writes w buflen :
  tokenlen (header m) <= buflen ->
  CoAPSerialize_Token m buflen w = w' ← puts (m_token M) w; Some (tokenlen (header m), w').
Proof.
  intros Hb. destruct Hm as [Ht Htl _ _ _ _ _]. unfold CoAPSerialize_Token.
  rewrite (proj2 (Z.ltb_ge buflen _)) by done. unfold cpy.
  rewrite (proj2 (Z.ltb_ge _ 0)), (proj2 (Z.ltb_ge _ (tokenlen (header m)))) by lia. done.
Qed.

Lemma options_writes w buflen :
  slen (options_bytes (m_options M)) < 65536 ->
  CoAPSerialize_Options m buflen w
  = w' ← puts (options_bytes (m_options M)) w;
    Some (slen (options_bytes (m_options M)), WBuf (wb_mem w') (wb_pos w)).
Proof.
  intros Hs. destruct options_split as (opts & rest & Eo & En & Ho & EM).
  unfold CoAPSerialize_Options. rewrite EM in *. rewrite Eo, En.
  rewrite serialize_options_writes by (done || lia).
  change (Z.to_nat 0) with 0%nat. rewrite Nat.add_0_r. destruct w as [mem p]. cbn [wb_mem wb_pos].
  destruct (puts _ _); by cbn [mbind option_bind].
Qed.

Lemma payload_writes w buflen :
  slen (payload_bytes (m_payload M)) <= buflen ->
  CoAPSerialize_Payload m buflen w
  = w' ← puts (payload_bytes (m_payload M)) w; Some (slen (payload_bytes (m_payload M)), w').
Proof.
  intros Hb. pose proof payload_length as Hl.
  assert (forall p : list Z, slen (0xFF :: p) = slen p + 1) as Hc
    by (intros; unfold slen; cbn [List.length]; lia).
  destruct Hm as [_ _ _ _ _ Hp _]. unfold CoAPSerialize_Payload, payload_bytes in *.
  unfold M in *. cbn [message_of m_payload] in *. unfold points in Hp.
  destruct (payload m) as [p|] eqn:Ep; cbn [mbind option_bind].
  - case_decide as Hn.
    + rewrite Hn in *. cbn in Hl. rewrite <-Hl. change (slen []) with 0.
      cbn [puts mbind option_bind Z.ltb Z.compare]. by destruct (buflen <? 0 + 1).
    + assert (0 < payloadlen m) as H0.
      { rewrite <-Hl. unfold slen. destruct (take _ _); [done|]. cbn [List.length]. lia. }
      rewrite Hc in *. rewrite Hl in *. rewrite (proj2 (Z.ltb_ge buflen _)), (proj2 (Z.ltb_lt 0 _)) by lia.
      cbn [puts]. destruct (put 255 w) as [w1|]; cbn [mbind option_bind]; [|done].
      unfold cpy. rewrite (proj2 (Z.ltb_ge _ 0)), (proj2 (Z.ltb_ge _ (payloadlen m))) by (unfold slen in *; lia).
      by cbn [orb].
  - rewrite Hp. rewrite decide_True by done. cbn [puts mbind option_bind].
    by destruct (buflen <? 0 + 1).
Qed.

End Serialize.

Lemma advance_puts bs w w' :
  puts bs w = Some w' -> advance (wb_pos w) (slen bs) w' = w'.
Proof.
  intros [_ H]%puts_mem_length. destruct w' as [mem p]. unfold advance, slen. cbn in *.
  f_equal. lia.
Qed.

Lemma bytes_length m :
  slen (bytes m) = 4 + slen (m_token m) + slen (options_bytes (m_options m))
                   + slen (payload_bytes (m_payload m)).
Proof. unfold bytes, slen. rewrite !length_app. cbn [header_bytes List.length]. lia. Qed.

(** A message that fits is written completely, and nothing else of the buffer. *)
Lemma CoAPSerialize_Message_ok m mem buflen :
  sendable m -> slen (bytes (message_of m)) <= buflen -> buflen < 65536 -> buflen <= slen mem ->
  CoAPSerialize_Message (Some m) (Some mem) buflen
  = Some (slen (bytes (message_of m)),
          Some (bytes (message_of m) ++ drop (List.length (bytes (message_of m))) mem)).
Proof.
  intros Hm Hb Hbuf Hmem. pose proof (message_bytes_ok _ (sd_ok _ Hm)) as Hok.
  pose proof (token_length m Hm) as Et.
  pose proof (bytes_length (message_of m)) as El.
  set (M := message_of m) in *.
  pose proof (slen_nonneg (m_token M)) as N1. pose proof (slen_nonneg (options_bytes (m_options M))) as N2.
  pose proof (slen_nonneg (payload_bytes (m_payload M))) as N3.
  assert (puts (bytes M) (WBuf mem 0) = Some (WBuf (bytes M ++ drop (List.length (bytes M)) mem)
            (List.length (bytes M)))) as Hall.
  { apply puts_start; [done|]. unfold slen in *. lia. }
  unfold bytes in Hall at 1. rewrite puts_app in Hall.
  unfold CoAPSerialize_Message. rewrite header_writes by (done || lia). fold M.
  destruct (puts (header_bytes M) (WBuf mem 0)) as [w1|] eqn:H1; [|done].
  cbn [mbind option_bind] in *. change (u16 4) with (slen (header_bytes M)).
  change (wb_pos (WBuf mem 0)) with 0%nat in *.
  rewrite (advance_puts _ (WBuf mem 0) w1 H1 : advance 0 _ w1 = w1).
  change (slen (header_bytes M)) with 4. rewrite (u16_small (buflen - 4)) by lia.
  rewrite token_writes by (done || lia). fold M. rewrite puts_app in Hall.
  destruct (puts (m_token M) w1) as [w2|] eqn:H2; [|done]. cbn [mbind option_bind] in *.
  rewrite <-Et, (u16_small (slen (m_token M))), (advance_puts _ _ _ H2) by lia.
  rewrite (u16_small (buflen - 4 - _)) by lia.
  rewrite options_writes by (done || (fold M; lia)). fold M. rewrite puts_app in Hall.
  destruct (puts (options_bytes (m_options M)) w2) as [w3|] eqn:H3; [|done].
  cbn [mbind option_bind] in *.
  assert (advance (wb_pos w2) (slen (options_bytes (m_options M))) (WBuf (wb_mem w3) (wb_pos w2)) = w3)
    as -> by (rewrite <-(advance_puts _ _ _ H3) at 2; done).
  rewrite (u16_small (buflen - 4 - _ - _)) by lia.
  rewrite payload_writes by (done || (fold M; lia)). fold M.
  rewrite Hall. cbn [mbind option_bind wb_mem].
  rewrite (u16_small (slen (payload_bytes _))), u16_small by lia. do 2 f_equal. lia.
Qed.

Lemma CoAPSerialize_MessageLength_ok m :
  sendable m -> slen (bytes (message_of m)) < 65536 ->
  CoAPSerialize_MessageLength m = Some (slen (bytes (message_of m))).
Proof.
  intros Hm Hb. pose proof (token_length m Hm) as Et. pose proof (payload_length m Hm) as Ep.
  rewrite bytes_length in *. set (M := message_of m) in *.
  destruct (options_split m Hm) as (opts & rest & Eo & En & Ho & EM). fold M in EM.
  pose proof (slen_nonneg (m_token M)) as N1. pose proof (slen_nonneg (options_bytes (m_options M))) as N2.
  pose proof (slen_nonneg (payload_bytes (m_payload M))) as N3.
  unfold CoAPSerialize_MessageLength, CoAPSerialize_OptionsLen. rewrite Eo, En.
  rewrite options_len_ok by (rewrite <-?EM; first [done|lia]). cbn [mbind option_bind].
  rewrite <-EM, Z.add_0_l, <-Et, <-Ep. f_equal.
  assert (slen (payload_bytes (m_payload M)) = if 0 <? slen (m_payload M) then slen (m_payload M) + 1 else 0) as E.
  { unfold payload_bytes, slen. case_decide as Hp; [by rewrite Hp|].
    cbn [List.length]. rewrite (proj2 (Z.ltb_lt 0 _)); [lia|].
    destruct (m_payload M); [done|]. cbn [List.length]. lia. }
  rewrite E in *. rewrite !(u16_small (4 + _)), (u16_small (4 + _ + _)) by (destruct (0 <? _); lia).
  destruct (0 <? slen (m_payload M)) eqn:H0; [|lia]. apply Z.ltb_lt in H0.
  rewrite !u16_small by (rewrite ?u16_small; lia). lia.
Qed.

(** ** Parsing inverts serialisation *)

Lemma opt_check_ok (step : nat) ptr e r room :
  List.length e = step -> ptr = e ++ r -> Z.of_nat step + 1 <= room ->
  COAP_OPT_CHECK ptr room (Z.of_nat step) = Some (r, room - Z.of_nat step).
Proof.
  intros He -> Hr. unfold COAP_OPT_CHECK.
  rewrite (proj2 (Z.ltb_ge room _)), (proj2 (Z.ltb_ge (room - _) 1)) by lia.
  rewrite Nat2Z.id, drop_app_length' by done. done.
Qed.

(** The bytes of [ext], read back. *)
Lemma ext_cases n :
  0 <= n < 65536 ->
  (nibble n = 14 /\ 269 <= n /\ ext n = [(n - 269) / 256; (n - 269) mod 256])
  \/ (nibble n = 13 /\ 13 <= n < 269 /\ ext n = [n - 13])
  \/ (nibble n = n /\ n < 13 /\ ext n = []).
Proof.
  intros Hn. unfold nibble, ext. destruct (Z.leb_spec 269 n); [by left|].
  destruct (Z.leb_spec 13 n); [right; left|right; right]; done.
Qed.

Lemma two_bytes z : 0 <= z < 65536 -> Z.shiftl (z / 256) 8 + z mod 256 = z.
Proof. intros. rewrite Z.shiftl_mul_pow2 by lia. dlia. Qed.

Lemma opt_delta_ok n predelta r room :
  0 <= n < 65536 -> 0 <= predelta -> predelta + n < 65536 -> ext_len n + 1 <= room ->
  opt_delta (nibble n) predelta (ext n ++ r) room
  = Some (Some (predelta + n, r, room - ext_len n)).
Proof.
  intros Hn Hp Hs Hr. unfold ext_len in *. unfold opt_delta.
  destruct (ext_cases n Hn) as [(-> & Hl & ->)|[(-> & Hl & ->)|(-> & Hl & ->)]].
  - rewrite (proj2 (Z.leb_le 269 n)) in * by lia. cbn [Z.eqb Pos.eqb lookup list_lookup app mbind option_bind].
    rewrite (opt_check_ok 2 _ [(n - 269) / 256; (n - 269) mod 256] r) by (done || lia).
    cbn [mbind option_bind]. pose proof (two_bytes (n - 269) ltac:(lia)) as E.
    rewrite Z.shiftl_mul_pow2 in * by lia. change (2 ^ 8) with 256 in *.
    rewrite (u16_small (predelta + 269)), (u16_small (predelta + 269 + _)), u16_small by dlia.
    do 4 f_equal; lia.
  - rewrite (proj2 (Z.leb_gt 269 n)), (proj2 (Z.leb_le 13 n)) in * by lia.
    cbn [Z.eqb Pos.eqb lookup list_lookup app mbind option_bind].
    rewrite (opt_check_ok 1 _ [n - 13] r) by (done || lia). cbn [mbind option_bind].
    rewrite u16_small by lia. do 4 f_equal; lia.
  - rewrite (proj2 (Z.leb_gt 269 n)), (proj2 (Z.leb_gt 13 n)) in * by lia.
    rewrite !(proj2 (Z.eqb_neq n _)) by lia. rewrite u16_small by lia. cbn [app].
    by rewrite Z.sub_0_r.
Qed.

Lemma opt_len_ok n r room :
  0 <= n < 65536 -> ext_len n + 1 <= room ->
  opt_len (nibble n) (ext n ++ r) room = Some (Some (n, r, room - ext_len n)).
Proof.
  intros Hn Hr. unfold ext_len in *. unfold opt_len.
  destruct (ext_cases n Hn) as [(-> & Hl & ->)|[(-> & Hl & ->)|(-> & Hl & ->)]].
  - rewrite (proj2 (Z.leb_le 269 n)) in * by lia. cbn [Z.eqb Pos.eqb lookup list_lookup app mbind option_bind].
    rewrite two_bytes, (u16_small (n - 269)) by lia. rewrite (proj2 (Z.ltb_ge _ 269)) by lia.
    rewrite (opt_check_ok 2 _ [(n - 269) / 256; (n - 269) mod 256] r) by (done || lia).
    cbn [mbind option_bind]. rewrite u16_small by lia. do 4 f_equal; lia.
  - rewrite (proj2 (Z.leb_gt 269 n)), (proj2 (Z.leb_le 13 n)) in * by lia.
    cbn [Z.eqb Pos.eqb lookup list_lookup app mbind option_bind].
    rewrite (opt_check_ok 1 _ [n - 13] r) by (done || lia). cbn [mbind option_bind].
    rewrite u16_small by lia. do 4 f_equal; lia.
  - rewrite (proj2 (Z.leb_gt 269 n)), (proj2 (Z.leb_gt 13 n)) in * by lia.
    rewrite !(proj2 (Z.eqb_neq n _)) by lia. cbn [app]. by rewrite Z.sub_0_r.
Qed.

Lemma nibbles a b :
  0 <= a < 16 -> 0 <= b < 16 ->
  Z.shiftr (Z.land (16 * a + b) 0xF0) 4 = a /\ Z.land (16 * a + b) 0x0F = b.
Proof.
  intros Ha Hb. rewrite Z.shiftr_land. change (Z.shiftr 0xF0 4) with (Z.ones 4).
  change 0x0F with (Z.ones 4). rewrite !Z.land_ones, Z.shiftr_div_pow2 by lia.
  change (2 ^ 4) with 16. dlia.
Qed.

(** An option followed by [r]; something must follow its head. *)
Lemma CoAPDeserialize_Option_ok (o : opt) r room predelta :
  option_ok o -> 0 <= predelta -> predelta + o.1 < 65536 ->
  slen (option_bytes o) <= room -> (o.2 = [] -> slen (option_bytes o) < room) ->
  CoAPDeserialize_Option (option_bytes o ++ r) room predelta
  = Some (OptOk (MsgOption (predelta + o.1) (slen o.2) (Some (o.2 ++ r))) (predelta + o.1)
            (slen (option_bytes o))).
Proof.
  intros (Hn & Hl & Hv) Hp Hs Hr He. pose proof (slen_nonneg o.2) as Hnn.
  pose proof (option_bytes_length o) as El.
  assert (1 + ext_len o.1 + ext_len (slen o.2) + 1 <= room) as Hroom.
  { destruct (decide (o.2 = [])) as [E|E]; [specialize (He E); rewrite E in *; lia|].
    assert (0 < slen o.2); [|lia]. unfold slen. destruct o.2; [done|]. cbn [List.length]. lia. }
  assert (0 <= ext_len o.1 /\ 0 <= ext_len (slen o.2)) as [E1 E2]
    by (unfold ext_len; split; zcases).
  set (k := slen (option_bytes o)) in *.
  unfold CoAPDeserialize_Option, option_bytes. cbn [app lookup list_lookup mbind option_bind].
  destruct (nibbles (nibble o.1) (nibble (slen o.2))) as [-> ->].
  { pose proof (nibble_range o.1). lia. } { pose proof (nibble_range (slen o.2)). lia. }
  change 1 with (Z.of_nat 1). rewrite (opt_check_ok 1 _ [_] ((ext o.1 ++ ext (slen o.2) ++ o.2) ++ r))
    by (done || lia).
  rewrite <-!app_assoc, opt_delta_ok by lia. cbn [mbind option_bind].
  rewrite opt_len_ok by lia. cbn [mbind option_bind]. do 2 f_equal.
  rewrite El. pose proof (ext_length o.1) as L1. pose proof (ext_length (slen o.2)) as L2.
  cbn [List.length]. rewrite !length_app. lia.
Qed.

(** The numbers of the options, from their differences. *)
Fixpoint numbered (base : Z) (os : list opt) : list opt :=
  match os with
  | [] => []
  | (d, v) :: os' => (base + d, v) :: numbered (base + d) os'
  end.

Definition last_number (base : Z) (os : list opt) : Z := foldl (fun b o => b + o.1) base os.

(** Something follows the head of the last option: its value or the payload. *)
Definition ends_ok (os : list opt) (p : list Z) : Prop :=
  p <> [] \/ match last os with Some o => o.2 <> [] | None => True end.

Lemma last_number_ge base os : Forall option_ok os -> base <= last_number base os.
Proof.
  intros H. revert base. induction H as [|o os [Ho _] _ IH]; intros base; [done|].
  cbn [last_number foldl]. specialize (IH (base + o.1)). unfold last_number in IH. lia.
Qed.

Lemma options_bytes_cons o os : options_bytes (o :: os) = option_bytes o ++ options_bytes os.
Proof. done. Qed.

Lemma slen_app a b : slen (a ++ b) = slen a + slen b.
Proof. unfold slen. rewrite length_app. lia. Qed.

(** What the loop leaves of the message. *)
Record options_parsed (m m' : CoAPMessage) (index : nat) (base : Z) (os : list opt) : Prop := {
  op_header : header m' = header m;
  op_token : token m' = token m;
  op_payload : payload m' = payload m;
  op_payloadlen : payloadlen m' = payloadlen m;
  op_count : optcount m' = optcount m + Z.of_nat (List.length os);
  op_slots : List.length (options m') = List.length (options m);
  op_before : take index (options m') = take index (options m);
  op_options : out <$> take (List.length os) (drop index (options m')) = numbered base os }.

Lemma out_parsed n v r : out (MsgOption n (slen v) (Some (v ++ r))) = (n, v).
Proof. unfold out, value_of, slen. cbn [num val len]. by rewrite Nat2Z.id, take_app_length. Qed.

(** One option parsed, and then the others. *)
Lemma options_parsed_cons msg msg' index base (o : opt) os r :
  (index < List.length (options msg))%nat -> optcount msg = Z.of_nat index -> (index < 12)%nat ->
  options_parsed
    (msg <| options ::= fun l => <[index := MsgOption (base + o.1) (slen o.2) (Some (o.2 ++ r))]> l |>
         <| optcount ::= fun n => u8 (n + 1) |>)
    msg' (S index) (base + o.1) os ->
  options_parsed msg msg' index base (o :: os).
Proof.
  intros Hi Hc Hlt [P1 P2 P3 P4 P5 P6 P7 P8]. cbn in P1, P2, P3, P4, P5, P6, P7.
  split; try done.
  - rewrite P5, Hc, u8_small by (unfold is_byte; lia). cbn [List.length]. lia.
  - by rewrite P6, length_insert.
  - assert (take index (options msg') = take index (take (S index) (options msg'))) as ->
      by (rewrite take_take; f_equal; lia).
    rewrite P7, take_take, Nat.min_l by lia. by rewrite take_insert_ge by lia.
  - assert (options msg' !! index
            = Some (MsgOption (base + o.1) (slen o.2) (Some (o.2 ++ r)))) as Hat.
    { rewrite <-(lookup_take_lt _ (S index)) by lia. rewrite P7, lookup_take_lt by lia.
      by apply list_lookup_insert_eq. }
    rewrite (drop_S _ _ _ Hat). cbn [List.length take fmap list_fmap numbered].
    rewrite out_parsed. destruct o as [d v]. cbn [numbered fst snd] in *. f_equal. exact P8.
Qed.

(** A non-empty part of the format. *)
Lemma payload_bytes_pos p : p <> [] -> 0 < slen (payload_bytes p).
Proof. intros. unfold payload_bytes, slen. rewrite decide_False by done. cbn [List.length]. lia. Qed.

Lemma option_bytes_pos o : 0 < slen (option_bytes o).
Proof. unfold slen, option_bytes. cbn [List.length]. lia. Qed.

Lemma deserialize_options_ok os p extra fuel msg buf off index base room :
  Forall option_ok os -> (List.length os < fuel)%nat ->
  (index + List.length os <= 12)%nat -> List.length (options msg) = 12%nat ->
  optcount msg = Z.of_nat index -> 0 <= base -> last_number base os < 65536 ->
  ends_ok os p ->
  drop off buf = options_bytes os ++ payload_bytes p ++ extra ->
  room = slen (options_bytes os) + slen (payload_bytes p) ->
  exists msg',
    deserialize_options fuel msg buf off room index base
    = Some (Z.of_nat off + slen (options_bytes os), msg')
    /\ options_parsed msg msg' index base os.
Proof.
  intros Hos. revert fuel msg off index base room.
  induction Hos as [|o os Ho Hos IH]; intros fuel msg off index base room Hf Hi Hsl Hc Hb Hn He Hd Hr;
    (destruct fuel as [|fuel]; [cbn in Hf; lia|]); cbn [deserialize_options].
  - exists msg. cbn [options_bytes fmap list_fmap concat app] in Hd.
    change (slen (options_bytes [])) with 0 in *. rewrite Z.add_0_r.
    split; [|split; try done; cbn; lia].
    destruct (Z.ltb_spec 0 room) as [H0|H0]; [|done].
    unfold payload_bytes in *. case_decide as Hp; [change (slen []) with 0 in Hr; lia|].
    apply drop_cons_lookup in Hd as [-> _]. done.
  - pose proof Ho as (Hn0 & Hl & Hv). rewrite options_bytes_cons in Hd, Hr |- *.
    rewrite slen_app in Hr |- *. rewrite <-app_assoc in Hd.
    pose proof (slen_nonneg (options_bytes os)) as N1. pose proof (slen_nonneg (payload_bytes p)) as N2.
    pose proof (option_bytes_pos o) as Hpos. cbn [List.length] in *.
    assert (base + o.1 < 65536) as Hbo.
    { pose proof (last_number_ge (base + o.1) os Hos) as Hge. unfold last_number in *. cbn [foldl] in Hn. lia. }
    rewrite (proj2 (Z.ltb_lt 0 room)) by lia.
    assert (buf !! off = Some (16 * nibble o.1 + nibble (slen o.2))) as ->.
    { pose proof Hd as Hd'. unfold option_bytes in Hd'. cbn [app] in Hd'.
      by apply drop_cons_lookup in Hd' as [? _]. }
    cbn [mbind option_bind].
    assert ((16 * nibble o.1 + nibble (slen o.2) =? 0xFF) = false) as ->.
    { pose proof (nibble_range o.1). pose proof (nibble_range (slen o.2)).
      pose proof (slen_nonneg o.2). lia. }
    unfold COAP_MSG_MAX_OPTION_NUM. rewrite (proj2 (Z.ltb_lt _ 12)) by lia. cbn [negb andb].
    rewrite Hd, CoAPDeserialize_Option_ok; [|done|done|done|lia|].
    + cbn [mbind option_bind].
      set (m1 := msg <| options ::= _ |> <| optcount ::= _ |>).
      destruct (IH fuel m1 (off + Z.to_nat (slen (option_bytes o)))%nat (S index) (base + o.1)
                  (room - slen (option_bytes o))) as (msg' & Hm & Hp); clear IH.
      { lia. } { lia. } { unfold m1. cbn. by rewrite length_insert. }
      { unfold m1. cbn. rewrite Hc. rewrite u8_small by (unfold is_byte; lia). lia. }
      { lia. } { done. }
      { destruct He as [He|He]; [by left|right]. destruct os; [done|]. by rewrite last_cons_cons in He. }
      { rewrite <-drop_drop, Hd. unfold slen. rewrite Nat2Z.id. by rewrite drop_app_length. }
      { lia. }
      exists msg'. split; [rewrite Hm; do 2 f_equal; unfold slen in *; lia|].
      unfold m1 in Hp. by apply options_parsed_cons in Hp; [|lia..].
    + intros E. destruct He as [He|He]; [pose proof (payload_bytes_pos p He); lia|].
      destruct os as [|o' os']; [by cbn in He|]. rewrite options_bytes_cons, slen_app in *.
      pose proof (option_bytes_pos o'). pose proof (slen_nonneg (options_bytes os')). lia.
Qed.

Lemma take_slen v r : take (Z.to_nat (slen v)) (v ++ r) = v.
Proof. unfold slen. by rewrite Nat2Z.id, take_app_length. Qed.

Lemma drop_slen v r : drop (Z.to_nat (slen v)) (v ++ r) = r.
Proof. unfold slen. by rewrite Nat2Z.id, drop_app_length. Qed.

(** [memset(&message, 0x00, sizeof message)] *)
Definition message_zero : CoAPMessage :=
  Message (MsgHeader 0 0 0 0 0) (replicate 8 0) (replicate 12 (MsgOption 0 0 None)) 0 0 0 None
    0 0 0 0.

Section Parse.

Context (M : message) (HM : ok M).

Lemma header_parse msg r :
  CoAPDeserialize_Header msg (header_bytes M ++ r)
  = Some (4, msg <| header := MsgHeader (m_version M) (m_type M) (slen (m_token M)) (m_code M) (m_id M) |>).
Proof.
  destruct HM as [Hv Ht Hc Hi Htk _ _ _ _ _]. pose proof (slen_nonneg (m_token M)).
  unfold CoAPDeserialize_Header, header_bytes. cbn [app lookup list_lookup mbind option_bind].
  rewrite (u16_small (Z.shiftl _ 8)), two_bytes, u16_small
    by (rewrite ?two_bytes by lia; rewrite ?Z.shiftl_mul_pow2 by lia; change (2 ^ 8) with 256; dlia).
  change 3 with (Z.ones 2). change 0x0F with (Z.ones 4).
  rewrite !Z.land_ones, !Z.shiftr_div_pow2 by lia.
  change (2 ^ 6) with 64. change (2 ^ 4) with 16. change (2 ^ 2) with 4.
  set (b := 64 * m_version M + 16 * m_type M + slen (m_token M)).
  assert ((b / 64) mod 4 = m_version M /\ (b / 16) mod 4 = m_type M /\ b mod 16 = slen (m_token M))
    as (-> & -> & ->) by (unfold b; split_and!; dlia). done.
Qed.

Lemma token_parse msg r :
  tokenlen (header msg) = slen (m_token M) -> List.length (token msg) = 8%nat ->
  CoAPDeserialize_Token msg (m_token M ++ r)
  = Some (slen (m_token M),
          msg <| token := m_token M ++ drop (List.length (m_token M)) (token msg) |>).
Proof.
  intros Ht Hl. destruct HM as [_ _ _ _ Htk Htb _ _ _ _]. unfold CoAPDeserialize_Token.
  unfold COAP_MSG_MAX_TOKEN_LEN. rewrite Ht, (proj2 (Z.ltb_ge 8 _)) by done. unfold cpy.
  rewrite (proj2 (Z.ltb_ge _ 0)), (proj2 (Z.ltb_ge _ (slen (m_token M))))
    by (unfold slen; rewrite ?length_app; lia). cbn [orb].
  rewrite take_slen, puts_start by (first [done|unfold slen in *; lia]). done.
Qed.

Lemma options_parse msg extra :
  optcount msg = 0 -> List.length (options msg) = 12%nat ->
  last_number 0 (m_options M) < 65536 -> ends_ok (m_options M) (m_payload M) ->
  exists msg',
    CoAPDeserialize_Options msg (options_bytes (m_options M) ++ payload_bytes (m_payload M) ++ extra)
      (slen (options_bytes (m_options M)) + slen (payload_bytes (m_payload M)))
    = Some (slen (options_bytes (m_options M)), msg')
    /\ options_parsed msg msg' 0 0 (m_options M).
Proof.
  intros Hc Hl Hn He. destruct HM as [_ _ _ _ _ _ Ho Hcnt _ _]. unfold CoAPDeserialize_Options.
  assert (msg <| optcount := 0 |> = msg) as -> by (destruct msg; cbn in *; by subst).
  destruct (deserialize_options_ok (m_options M) (m_payload M) extra 13 msg
    (options_bytes (m_options M) ++ payload_bytes (m_payload M) ++ extra) 0 0 0
    (slen (options_bytes (m_options M)) + slen (payload_bytes (m_payload M))))
    as (msg' & Hm & Hp); try done; try lia.
  exists msg'. by rewrite Hm.
Qed.

(** After a payload marker everything up to the end is the payload; without a payload
    the byte after the message is looked at. *)
Lemma payload_parse msg extra :
  m_payload M <> [] \/ (exists b r, extra = b :: r /\ b <> 0xFF) ->
  payload msg = None -> payloadlen msg = 0 ->
  exists n msg',
    CoAPDeserialize_Payload msg (payload_bytes (m_payload M) ++ extra)
      (slen (payload_bytes (m_payload M))) = Some (n, msg')
    /\ header msg' = header msg /\ token msg' = token msg /\ options msg' = options msg
    /\ optcount msg' = optcount msg
    /\ match payload msg' with Some p => take (Z.to_nat (payloadlen msg')) p | None => [] end
       = m_payload M.
Proof.
  intros Hx Hp Hl. destruct HM as [_ _ _ _ _ _ _ _ Hpl _]. unfold CoAPDeserialize_Payload, payload_bytes.
  case_decide as Hn.
  - destruct Hx as [|(b & r & -> & Hb)]; [done|]. cbn [app lookup list_lookup mbind option_bind].
    rewrite (proj2 (Z.eqb_neq b _)) by done. eexists _, msg. rewrite Hp. done.
  - cbn [app lookup list_lookup mbind option_bind Z.eqb Pos.eqb drop]. eexists _, _.
    split; [done|]. split_and!; try done. cbn.
    assert (slen (255 :: m_payload M) - 1 = slen (m_payload M)) as E
      by (unfold slen; cbn [List.length]; lia).
    rewrite E, u16_small by (pose proof (slen_nonneg (m_payload M)); lia). apply take_slen.
Qed.

End Parse.

(** The message as it is received: with the option numbers. *)
Definition received (M : message) : message :=
  Msg (m_version M) (m_type M) (m_code M) (m_id M) (m_token M) (numbered 0 (m_options M))
    (m_payload M).

Lemma CoAPDeserialize_Message_ok M extra :
  ok M -> last_number 0 (m_options M) < 65536 -> ends_ok (m_options M) (m_payload M) ->
  m_payload M <> [] \/ (exists b r, extra = b :: r /\ b <> 0xFF) ->
  exists msg,
    CoAPDeserialize_Message (Some message_zero) (Some (bytes M ++ extra)) (slen (bytes M))
    = Some (COAP_SUCCESS, Some msg)
    /\ message_of msg = received M /\ tokenlen (header msg) = slen (m_token M).
Proof.
  intros HM Hn He Hx. pose proof (bytes_length M) as El.
  pose proof (slen_nonneg (m_token M)) as N1. pose proof (slen_nonneg (options_bytes (m_options M))) as N2.
  pose proof (slen_nonneg (payload_bytes (m_payload M))) as N3.
  unfold CoAPDeserialize_Message. rewrite (proj2 (Z.ltb_ge _ 4)) by lia.
  assert (bytes M ++ extra = header_bytes M ++ m_token M ++ options_bytes (m_options M)
            ++ payload_bytes (m_payload M) ++ extra) as ->
    by (unfold bytes; by rewrite <-!app_assoc).
  rewrite header_parse by done. cbn [mbind option_bind].
  rewrite (proj2 (Z.ltb_ge _ 4)) by lia. change (Z.to_nat 4) with (List.length (header_bytes M)).
  rewrite drop_app_length.
  match goal with |- context [CoAPDeserialize_Token ?m _] => set (m1 := m) end.
  rewrite token_parse by done. cbn [mbind option_bind].
  rewrite (proj2 (Z.ltb_ge _ (slen (m_token M)))) by lia.
  rewrite drop_slen.
  match goal with |- context [CoAPDeserialize_Options ?m _ _] => set (m2 := m) end.
  replace (slen (bytes M) - 4 - slen (m_token M))
    with (slen (options_bytes (m_options M)) + slen (payload_bytes (m_payload M))) by lia.
  destruct (options_parse M HM m2 extra) as (m3 & -> & Hp); [done|done|done|done|].
  cbn [mbind option_bind].
  rewrite (proj2 (Z.ltb_ge _ (slen (options_bytes _)))), (proj2 (Z.ltb_ge (slen (options_bytes _)) 0)) by lia.
  cbn [orb]. rewrite drop_slen.
  replace (slen (options_bytes (m_options M)) + slen (payload_bytes (m_payload M))
           - slen (options_bytes (m_options M))) with (slen (payload_bytes (m_payload M))) by lia.
  destruct Hp as [P1 P2 P3 P4 P5 P6 P7 P8].
  destruct (payload_parse M HM m3 extra Hx) as (n & m4 & -> & Q1 & Q2 & Q3 & Q4 & Q5);
    [by rewrite P3|by rewrite P4|]. cbn [mbind option_bind].
  exists m4. split; [done|]. split; [|by rewrite Q1, P1].
  unfold message_of, received. rewrite Q5, Q1, Q2, Q3, Q4, P1, P2, P5.
  unfold m2, m1. cbn.
  f_equal.
  - apply take_slen.
  - rewrite drop_0 in P8. rewrite <-P8. unfold out. do 2 f_equal. lia.
Qed.

(** ** Parsing any bytes *)

(** What [left >= step] and one byte more give. *)
Lemma opt_check_some ptr room step ptr' room' :
  0 <= step -> COAP_OPT_CHECK ptr room step = Some (ptr', room') ->
  ptr' = drop (Z.to_nat step) ptr /\ room' = room - step /\ 1 <= room'.
Proof.
  intros Hs. unfold COAP_OPT_CHECK. destruct (Z.ltb_spec room step); [done|].
  destruct (Z.ltb_spec (room - step) 1); [done|]. intros [= <- <-]. split_and!; first [done|lia].
Qed.

(** [r] is what is read from the bytes after a nibble: [h] bytes are passed. *)
Definition passes (ptr : list Z) (room : Z) (r : option (Z * list Z * Z)) : Prop :=
  match r with
  | None => True
  | Some (v, ptr', room') =>
      0 <= v < 65536
      /\ exists h, 0 <= h <= 2 /\ ptr' = drop (Z.to_nat h) ptr /\ room' = room - h /\ 1 <= room'
  end.

Lemma byte_at buf (i : nat) : bytes_ok buf -> Z.of_nat i < slen buf ->
  exists b, buf !! i = Some b /\ is_byte b.
Proof.
  intros Hb Hi. destruct (lookup_lt_is_Some_2 buf i) as [b Eb]; [unfold slen in *; lia|].
  exists b. split; [done|]. eapply Forall_lookup_1; [exact Hb|exact Eb].
Qed.

Lemma opt_delta_total d predelta ptr room :
  bytes_ok ptr -> 1 <= room -> room < slen ptr ->
  exists r, opt_delta d predelta ptr room = Some r /\ passes ptr room r.
Proof.
  intros Hb Hr Hl. unfold opt_delta.
  destruct (byte_at ptr 0 Hb ltac:(lia)) as (b & Eb & Hbb).
  destruct (byte_at ptr 1 Hb ltac:(lia)) as (b' & Eb' & Hbb').
  destruct (d =? 13); [|destruct (d =? 14)]; rewrite ?Eb, ?Eb'; cbn [mbind option_bind].
  - eexists. split; [done|]. destruct (COAP_OPT_CHECK ptr room 1) as [[ptr' room']|] eqn:E; [|done].
    apply opt_check_some in E as (-> & -> & H1); [|lia]. cbn [mbind option_bind passes].
    split; [apply u16_range|]. by exists 1.
  - eexists. split; [done|]. destruct (COAP_OPT_CHECK ptr room 2) as [[ptr' room']|] eqn:E; [|done].
    apply opt_check_some in E as (-> & -> & H1); [|lia]. cbn [mbind option_bind passes].
    split; [apply u16_range|]. by exists 2.
  - eexists. split; [done|]. cbn [passes]. split; [apply u16_range|]. exists 0.
    rewrite drop_0. split_and!; first [done|lia].
Qed.

Lemma opt_len_total d ptr room :
  0 <= d < 16 -> bytes_ok ptr -> 1 <= room -> room < slen ptr ->
  exists r, opt_len d ptr room = Some r /\ passes ptr room r.
Proof.
  intros Hd Hb Hr Hl. unfold opt_len.
  destruct (byte_at ptr 0 Hb ltac:(lia)) as (b & Eb & Hbb).
  destruct (byte_at ptr 1 Hb ltac:(lia)) as (b' & Eb' & Hbb').
  destruct (d =? 13); [|destruct (d =? 14)]; rewrite ?Eb, ?Eb'; cbn [mbind option_bind].
  - eexists. split; [done|]. destruct (COAP_OPT_CHECK ptr room 1) as [[ptr' room']|] eqn:E; [|done].
    apply opt_check_some in E as (-> & -> & H1); [|lia]. cbn [mbind option_bind passes].
    split; [apply u16_range|]. by exists 1.
  - destruct (_ <? 269); [by exists None|].
    eexists. split; [done|]. destruct (COAP_OPT_CHECK ptr room 2) as [[ptr' room']|] eqn:E; [|done].
    apply opt_check_some in E as (-> & -> & H1); [|lia]. cbn [mbind option_bind passes].
    split; [apply u16_range|]. by exists 2.
  - eexists. split; [done|]. cbn [passes]. split; [lia|]. exists 0.
    rewrite drop_0. split_and!; first [done|lia].
Qed.

(** An option of any bytes: its value starts inside the message. *)
Lemma CoAPDeserialize_Option_total buf room predelta :
  bytes_ok buf -> 1 <= room -> room < slen buf ->
  exists r,
    CoAPDeserialize_Option buf room predelta = Some r
    /\ match r with
       | OptError _ => True
       | OptOk o predelta' count =>
           exists h, 1 <= h < room /\ val o = Some (drop (Z.to_nat h) buf)
             /\ 0 <= len o < 65536 /\ count = h + len o
       end.
Proof.
  intros Hb Hr Hl. unfold CoAPDeserialize_Option.
  destruct (byte_at buf 0 Hb ltac:(lia)) as (b & -> & Hbb). cbn [mbind option_bind].
  destruct (COAP_OPT_CHECK buf room 1) as [[p1 r1]|] eqn:E1; [|by eexists (OptError _)].
  apply opt_check_some in E1 as (-> & -> & H1); [|lia].
  assert (forall h, 0 <= h -> h <= slen buf -> slen (drop (Z.to_nat h) buf) = slen buf - h) as Hd
    by (intros; unfold slen in *; rewrite length_drop; lia).
  destruct (opt_delta_total (Z.shiftr (Z.land b 0xF0) 4) predelta (drop (Z.to_nat 1) buf) (room - 1))
    as (r & -> & Hp); [by apply bytes_ok_drop|lia|rewrite Hd; lia|]. cbn [mbind option_bind].
  destruct r as [[[v p2] r2]|]; [|by eexists (OptError _)].
  destruct Hp as (Hv & h2 & Hh2 & -> & -> & H2).
  rewrite drop_drop in *. replace (Z.to_nat 1 + Z.to_nat h2)%nat with (Z.to_nat (1 + h2)) in * by lia.
  assert (0 <= Z.land b 0x0F < 16) as Hd0.
  { change 0x0F with (Z.ones 4). rewrite Z.land_ones by lia. apply Z.mod_pos_bound. lia. }
  destruct (opt_len_total (Z.land b 0x0F) (drop (Z.to_nat (1 + h2)) buf) (room - 1 - h2))
    as (r & -> & Hp); [done|by apply bytes_ok_drop|lia|rewrite Hd; lia|]. cbn [mbind option_bind].
  destruct r as [[[n p3] r3]|]; [|by eexists (OptError _)].
  destruct Hp as (Hn & h3 & Hh3 & -> & -> & H3).
  rewrite drop_drop in *. replace (Z.to_nat (1 + h2) + Z.to_nat h3)%nat with (Z.to_nat (1 + h2 + h3)) in * by lia.
  eexists. split; [done|]. exists (1 + h2 + h3). cbn [val len].
  split_and!; try done; try lia. rewrite length_drop. unfold slen in *. lia.
Qed.

(** The options in use point into the buffer. *)
Definition options_inside (m : CoAPMessage) : Prop :=
  List.length (options m) = 12%nat /\ 0 <= optcount m <= 12
  /\ Forall (fun o => points (val o) (len o)) (take (Z.to_nat (optcount m)) (options m)).

(** One more option, whose value starts at [h] and ends before [e]. *)
Lemma options_inside_add m buf index o h :
  (index < 12)%nat -> List.length (options m) = 12%nat -> optcount m = Z.of_nat index ->
  Forall (fun o => points (val o) (len o)) (take index (options m)) ->
  val o = Some (drop (Z.to_nat h) buf) -> 0 <= h -> 0 <= len o -> h + len o <= slen buf ->
  let m' := m <| options ::= fun l => <[index := o]> l |> <| optcount ::= fun n => u8 (n + 1) |> in
  List.length (options m') = 12%nat /\ optcount m' = Z.of_nat (S index)
  /\ Forall (fun o => points (val o) (len o)) (take (S index) (options m')).
Proof.
  intros Hi Hl Hc Hf Hv Hh Hn Hs m'. unfold m'. cbn.
  rewrite length_insert, Hc, u8_small by (unfold is_byte; lia). split_and!; [done|lia|].
  rewrite (take_S_r _ _ o) by (apply list_lookup_insert_eq; lia).
  rewrite take_insert_ge by lia. apply Forall_app. split; [done|]. apply Forall_singleton.
  unfold points. rewrite Hv. unfold slen in *. rewrite length_drop. lia.
Qed.

Lemma deserialize_options_total fuel msg buf off room index base :
  bytes_ok buf -> Z.of_nat off + room < slen buf ->
  List.length (options msg) = 12%nat -> optcount msg = Z.of_nat index -> (index <= 12)%nat ->
  (13 <= fuel + index)%nat ->
  (0 <= room -> Forall (fun o => points (val o) (len o)) (take index (options msg))) ->
  exists n msg',
    deserialize_options fuel msg buf off room index base = Some (n, msg')
    /\ payload msg' = payload msg /\ payloadlen msg' = payloadlen msg
    /\ (n = -1 \/ (0 <= n /\ (n <= Z.of_nat off + room -> options_inside msg'))).
Proof.
  revert msg off room index base.
  induction fuel as [|fuel IH]; intros msg off room index base Hb Hr Hl Hc Hi Hf Hin;
    [lia|]. cbn [deserialize_options].
  assert (0 <= room -> options_inside msg) as Hdone.
  { intros H0. split; [done|]. split; [lia|]. rewrite Hc, Nat2Z.id. by apply Hin. }
  destruct (Z.ltb_spec 0 room) as [H0|H0]; last first.
  { exists (Z.of_nat off), msg. split_and!; try done. right. split; [lia|]. intros ?. apply Hdone. lia. }
  destruct (byte_at buf off Hb ltac:(lia)) as (b & -> & _). cbn [mbind option_bind].
  destruct (negb (b =? 255) && (Z.of_nat index <? COAP_MSG_MAX_OPTION_NUM)) eqn:Hgo; last first.
  { exists (Z.of_nat off), msg. split_and!; try done. right. split; [lia|]. intros ?. apply Hdone. lia. }
  apply andb_true_iff in Hgo as [_ Hlt%Z.ltb_lt]. unfold COAP_MSG_MAX_OPTION_NUM in Hlt.
  destruct (CoAPDeserialize_Option_total (drop off buf) room base)
    as (r & -> & Hres); [by apply bytes_ok_drop|lia|unfold slen in *; rewrite length_drop; lia|].
  cbn [mbind option_bind].
  destruct r as [[n|]|o pd count]; [eexists (-1), _; split_and!; auto..|].
  destruct Hres as (h & Hh & Hv & Hn & ->). rewrite drop_drop in Hv.
  replace (off + Z.to_nat h)%nat with (Z.to_nat (Z.of_nat off + h)) in Hv by lia.
  set (m1 := msg <| options ::= _ |> <| optcount ::= _ |>).
  assert (List.length (options m1) = 12%nat /\ optcount m1 = Z.of_nat (S index)) as [Hl1 Hc1].
  { unfold m1. cbn. rewrite length_insert, Hc, u8_small by (unfold is_byte; lia). lia. }
  destruct (IH m1 (off + Z.to_nat (h + len o))%nat (room - (h + len o)) (S index) pd)
    as (n & msg' & Hm & Hh' & Ht' & Hd'); [done|lia|done|done|lia|lia| |].
  { intros Hr'. unfold m1.
    apply (options_inside_add msg buf index o (Z.of_nat off + h)); try done; try lia. apply Hin. lia. }
  exists n, msg'. split_and!; [done|by rewrite Hh'|by rewrite Ht'|].
  destruct Hd' as [->|[H0' Hd']]; [by left|right]. split; [done|]. intros Hn'. apply Hd'. lia.
Qed.

Lemma CoAPDeserialize_Payload_total msg buf room :
  bytes_ok buf -> 0 < slen buf ->
  exists n msg',
    CoAPDeserialize_Payload msg buf room = Some (n, msg')
    /\ header msg' = header msg /\ options msg' = options msg /\ optcount msg' = optcount msg
    /\ (payload msg' = payload msg /\ payloadlen msg' = payloadlen msg
        \/ payload msg' = Some (drop 1 buf) /\ payloadlen msg' = u16 (room - 1)).
Proof.
  intros Hb Hl. unfold CoAPDeserialize_Payload.
  destruct (byte_at buf 0 Hb ltac:(lia)) as (b & -> & _). cbn [mbind option_bind].
  destruct (b =? 0xFF); eexists _, _; (split; [done|]); split_and!; try done.
  - by right.
  - by left.
Qed.

Lemma CoAPDeserialize_Token_total msg buf :
  List.length (token msg) = 8%nat -> 0 <= tokenlen (header msg) -> bytes_ok buf -> 8 <= slen buf ->
  exists t, CoAPDeserialize_Token msg buf = Some (tokenlen (header msg), msg <| token := t |>)
    /\ List.length t = 8%nat.
Proof.
  intros Hl Ht Hb Hs. unfold CoAPDeserialize_Token, COAP_MSG_MAX_TOKEN_LEN.
  set (n := if 8 <? tokenlen (header msg) then 8 else tokenlen (header msg)).
  assert (0 <= n <= 8) as Hn by (unfold n; zcases). unfold cpy.
  rewrite (proj2 (Z.ltb_ge n 0)), (proj2 (Z.ltb_ge _ n)) by (unfold slen in *; lia). cbn [orb].
  assert (List.length (take (Z.to_nat n) buf) = Z.to_nat n) as Lt
    by (unfold slen in *; rewrite length_take; lia).
  rewrite puts_start; [|by apply bytes_ok_take|lia]. cbn [mbind option_bind wb_mem].
  eexists. split; [done|]. rewrite length_app, length_drop. lia.
Qed.

Lemma CoAPDeserialize_Header_total msg buf :
  bytes_ok buf -> 4 <= slen buf ->
  exists h, CoAPDeserialize_Header msg buf = Some (4, msg <| header := h |>) /\ 0 <= tokenlen h.
Proof.
  intros Hb Hl. unfold CoAPDeserialize_Header.
  destruct (byte_at buf 0 Hb ltac:(lia)) as (b0 & -> & H0).
  destruct (byte_at buf 1 Hb ltac:(lia)) as (b1 & -> & _).
  destruct (byte_at buf 2 Hb ltac:(lia)) as (b2 & -> & _).
  destruct (byte_at buf 3 Hb ltac:(lia)) as (b3 & -> & _). cbn [mbind option_bind].
  eexists. split; [done|]. cbn. apply Z.land_nonneg. lia.
Qed.

(** What parsing gives for any bytes. *)
Lemma CoAPDeserialize_Message_total msg buf buflen :
  List.length (token msg) = 8%nat -> List.length (options msg) = 12%nat ->
  bytes_ok buf -> 12 <= slen buf -> buflen < slen buf ->
  exists code msg',
    CoAPDeserialize_Message (Some msg) (Some buf) buflen = Some (code, Some msg')
    /\ (code = COAP_ERROR_INVALID_LENGTH
        \/ code = COAP_SUCCESS /\ options_inside msg'
           /\ (payload msg' = payload msg /\ payloadlen msg' = payloadlen msg
               \/ exists p, payload msg' = Some p
                    /\ (payloadlen msg' <= slen p \/ payloadlen msg' = 65535))).
Proof.
  intros Htk Hl Hb H12 Hs. unfold CoAPDeserialize_Message.
  destruct (Z.ltb_spec buflen 4); [eexists _, _; split; [done|by left]|].
  destruct (CoAPDeserialize_Header_total msg buf Hb ltac:(lia)) as (h & -> & Hn).
  cbn [mbind option_bind]. rewrite (proj2 (Z.ltb_ge buflen 4)) by done.
  set (m1 := msg <| header := h |>).
  assert (forall h, 0 <= h -> h <= slen buf -> slen (drop (Z.to_nat h) buf) = slen buf - h) as Hd
    by (intros; unfold slen in *; rewrite length_drop; lia).
  destruct (CoAPDeserialize_Token_total m1 (drop (Z.to_nat 4) buf)) as (t & -> & Lt);
    [done|done|by apply bytes_ok_drop|rewrite Hd; lia|]. cbn [mbind option_bind].
  change (tokenlen (header m1)) with (tokenlen h). set (n := tokenlen h) in *.
  destruct (Z.ltb_spec (buflen - 4) n); [eexists _, _; split; [done|by left]|].
  rewrite drop_drop. replace (Z.to_nat 4 + Z.to_nat n)%nat with (Z.to_nat (4 + n)) by lia.
  unfold CoAPDeserialize_Options.
  destruct (deserialize_options_total 13 (m1 <| token := t |> <| optcount := 0 |>)
    (drop (Z.to_nat (4 + n)) buf) 0 (buflen - 4 - n) 0 0) as (c & m2 & Hm & P2 & L2 & Hc).
  { by apply bytes_ok_drop. } { rewrite Hd; lia. } { done. } { done. } { lia. } { lia. }
  { intros _. constructor. }
  rewrite Hm. cbn [mbind option_bind]. cbn in P2, L2.
  destruct (Z.ltb_spec (buflen - 4 - n) c) as [|Hcr]; cbn [orb]; [eexists _, _; split; [done|by left]|].
  destruct (Z.ltb_spec c 0) as [|Hc0]; [eexists _, _; split; [done|by left]|].
  destruct Hc as [Hc|[_ Hc]]; [lia|]. rewrite drop_drop.
  replace (Z.to_nat (4 + n) + Z.to_nat c)%nat with (Z.to_nat (4 + n + c)) by lia.
  destruct (CoAPDeserialize_Payload_total m2 (drop (Z.to_nat (4 + n + c)) buf) (buflen - 4 - n - c))
    as (k & m3 & -> & _ & O3 & C3 & Hp); [by apply bytes_ok_drop|rewrite Hd; lia|].
  cbn [mbind option_bind]. eexists _, m3. split; [done|]. right. split; [done|].
  specialize (Hc ltac:(lia)). split; [unfold options_inside; by rewrite O3, C3|].
  destruct Hp as [[-> ->]|[-> ->]]; [by left|right]. eexists. split; [done|].
  destruct (decide (buflen - 4 - n - c = 0)) as [E|E]; [right; by rewrite E|left].
  unfold slen in *. rewrite !length_drop. unfold u16. dlia.
Qed.

(** ** What parsing keeps

    Whatever is parsed, the message keeps a token of 8 bytes, and the header is what the
    first bytes say. *)
Definition token_header (m m' : CoAPMessage) : Prop :=
  token m' = token m /\ header m' = header m.

Lemma deserialize_options_keeps fuel msg buf off room index base n msg' :
  deserialize_options fuel msg buf off room index base = Some (n, msg') -> token_header msg msg'.
Proof.
  revert msg off room index base.
  induction fuel as [|fuel IH]; intros msg off room index base; [done|]. cbn [deserialize_options].
  destruct (0 <? room); [|by intros [= <- <-]].
  destruct (buf !! off) as [b|]; [|done]. cbn [mbind option_bind].
  destruct (_ && _); [|by intros [= <- <-]].
  destruct (CoAPDeserialize_Option _ _ _) as [[[v|]|o pd c]|]; [by intros [= <- <-]..| |done].
  cbn [mbind option_bind]. intros H%IH. exact H.
Qed.

Lemma CoAPDeserialize_Header_msgid msg buf n msg' :
  CoAPDeserialize_Header msg buf = Some (n, msg') ->
  token msg' = token msg /\ 0 <= msgid (header msg') < 65536.
Proof.
  unfold CoAPDeserialize_Header.
  destruct (buf !! 0%nat); [|done]. destruct (buf !! 1%nat); [|done].
  destruct (buf !! 2%nat); [|done]. destruct (buf !! 3%nat); [|done]. cbn [mbind option_bind].
  intros [= <- <-]. split; [done|]. apply u16_range.
Qed.

Lemma CoAPDeserialize_Token_keeps msg buf n msg' :
  CoAPDeserialize_Token msg buf = Some (n, msg') ->
  List.length (token msg') = List.length (token msg) /\ header msg' = header msg.
Proof.
  unfold CoAPDeserialize_Token. set (k := if _ <? _ then _ else _). unfold cpy.
  destruct (_ || _); [done|]. destruct (puts _ _) as [w|] eqn:Ew; [|done].
  cbn [mbind option_bind]. intros [= <- <-]. apply puts_mem_length in Ew as [Ew _]. by split.
Qed.

Lemma CoAPDeserialize_Message_keeps msg buf buflen code msg' :
  CoAPDeserialize_Message (Some msg) (Some buf) buflen = Some (code, Some msg') ->
  0 <= msgid (header msg) < 65536 ->
  List.length (token msg') = List.length (token msg) /\ 0 <= msgid (header msg') < 65536.
Proof.
  intros H Hid. unfold CoAPDeserialize_Message in H.
  destruct (buflen <? 4); [by injection H as <- <-|].
  destruct (CoAPDeserialize_Header msg buf) as [[n1 m1]|] eqn:E1; [|done].
  apply CoAPDeserialize_Header_msgid in E1 as [T1 I1]. cbn [mbind option_bind] in H.
  destruct (_ <? n1); [injection H as <- <-; by rewrite T1|].
  destruct (CoAPDeserialize_Token m1 _) as [[n2 m2]|] eqn:E2; [|done].
  apply CoAPDeserialize_Token_keeps in E2 as [T2 H2]. cbn [mbind option_bind] in H. rewrite <-H2 in I1.
  rewrite T1 in T2.
  destruct (_ <? n2); [by injection H as <- <-|].
  destruct (CoAPDeserialize_Options m2 _ _) as [[n3 m3]|] eqn:E3; [|done].
  apply deserialize_options_keeps in E3 as [T3 H3]. cbn in T3, H3. cbn [mbind option_bind] in H.
  rewrite <-H3 in I1. rewrite <-T3 in T2.
  destruct (_ || _); [by injection H as <- <-|].
  destruct (CoAPDeserialize_Payload m3 _ _) as [[n4 m4]|] eqn:E4; [|done].
  cbn [mbind option_bind] in H. injection H as <- <-. unfold CoAPDeserialize_Payload in E4.
  destruct (_ !! 0%nat) as [b|]; [|done]. cbn [mbind option_bind] in E4.
  destruct (b =? 0xFF); by injection E4 as <- <-.
Qed.
