(* ===== verification/CoapMessage.v ===== *)
(** * CoapMessage: building and reading CoAP messages

    [eng/coap/CoAPPacket/CoAPMessage_common.c]: initialisation, the setters, options
    added and read; and the theorems on the packet layer as a whole, from the
    application's calls through the wire to the receiver's calls. *)

From S2P Require Import Prelude.
From S2P Require Import Hal.
From S2P Require Import InfraTimer.
From S2P Require Import CoapPacket.
Import CoapPacket.Wire.

(** ** Operations *)

(** [CoAPMessage_init] of a message that is not [NULL]. *)
Definition CoAPMessage_init (message : option CoAPMessage) : Z * option CoAPMessage :=
  match message with
  | None => (COAP_ERROR_NULL, None)
  | Some _ =>
      let m := message_zero in
      let h := MsgHeader COAP_CUR_VERSION COAP_MESSAGE_TYPE_ACK 0 COAP_MSG_CODE_EMPTY_MESSAGE 0 in
      (COAP_SUCCESS,
       Some (m <| header := h |> <| payload := None |> <| payloadlen := 0 |> <| optcount := 0 |>
               <| optdelta := 0 |> <| handler := 0 |> <| keep := 0 |>
               <| options := replicate 12 (MsgOption 0 0 None) |>))
  end.

Definition CoAPMessageId_set (message : option CoAPMessage) (msgid' : Z)
    : Z * option CoAPMessage :=
  match message with
  | None => (COAP_ERROR_NULL, None)
  | Some m => (COAP_SUCCESS, Some (m <| header ::= fun h => h <| msgid := msgid' |> |>))
  end.

Definition CoAPMessageType_set (message : option CoAPMessage) (type' : Z)
    : Z * option CoAPMessage :=
  match message with
  | None => (COAP_ERROR_NULL, None)
  | Some m =>
      if negb (type' =? COAP_MESSAGE_TYPE_CON) && negb (type' =? COAP_MESSAGE_TYPE_NON)
         && negb (type' =? COAP_MESSAGE_TYPE_ACK) && negb (type' =? COAP_MESSAGE_TYPE_RST)
      then (COAP_ERROR_INVALID_PARAM, Some m)
      else (COAP_SUCCESS, Some (m <| header ::= fun h => h <| type := type' |> |>))
  end.

(** The code is stored in an [unsigned char]. *)
Definition CoAPMessageCode_set (message : option CoAPMessage) (code' : Z)
    : Z * option CoAPMessage :=
  match message with
  | None => (COAP_ERROR_NULL, None)
  | Some m => (COAP_SUCCESS, Some (m <| header ::= fun h => h <| code := u8 code' |> |>))
  end.

(** [code'] is whether the caller's pointer is not [NULL]. *)
Definition CoAPMessageCode_get (message : option CoAPMessage) (code' : bool) : Z * option Z :=
  match message with
  | Some m => if code' then (COAP_SUCCESS, Some (code (header m))) else (COAP_ERROR_NULL, None)
  | None => (COAP_ERROR_NULL, None)
  end.

Definition CoAPMessageToken_set (message : option CoAPMessage) (token' : option (list Z))
    (tokenlen' : Z) : option (Z * option CoAPMessage) :=
  match message, token' with
  | Some m, Some t =>
      if COAP_MSG_MAX_TOKEN_LEN <? tokenlen' then Some (COAP_ERROR_INVALID_LENGTH, Some m)
      else
        w ← cpy t tokenlen' (WBuf (token m) 0);
        Some (COAP_SUCCESS,
              Some (m <| token := wb_mem w |> <| header ::= fun h => h <| tokenlen := tokenlen' |> |>))
  | _, _ => Some (COAP_ERROR_NULL, message)
  end.

(** [userdata] is an address, 0 for [NULL]. *)
Definition CoAPMessageUserData_set (message : option CoAPMessage) (userdata : Z)
    : Z * option CoAPMessage :=
  match message with
  | Some m =>
      if userdata =? 0 then (COAP_ERROR_NULL, Some m)
      else (COAP_SUCCESS, Some (m <| user := userdata |>))
  | None => (COAP_ERROR_NULL, None)
  end.

Definition CoAPMessageKeep_Set (message : option CoAPMessage) (keep' : Z)
    : Z * option CoAPMessage :=
  match message with
  | Some m =>
      if keep' <? 0 then (COAP_ERROR_NULL, Some m) else (COAP_SUCCESS, Some (m <| keep := keep' |>))
  | None => (COAP_ERROR_NULL, None)
  end.

Definition CoAPMessagePayload_set (message : option CoAPMessage) (payload' : option (list Z))
    (payloadlen' : Z) : Z * option CoAPMessage :=
  match message with
  | Some m =>
      if (0 <? payloadlen') && bool_decide (payload' = None) then (COAP_ERROR_NULL, Some m)
      else (COAP_SUCCESS, Some (m <| payload := payload' |> <| payloadlen := payloadlen' |>))
  | None => (COAP_ERROR_NULL, None)
  end.

(** [options[optcount] = o], and the bookkeeping. *)
Definition add_option (m : CoAPMessage) (optnum : Z) (o : CoAPMsgOption) : CoAPMessage :=
  m <| options ::= fun l => <[Z.to_nat (optcount m) := o]> l |>
    <| optdelta := u8 optnum |>
    <| optcount ::= fun n => u8 (n + 1) |>.

Section Options.

Context {E : Type} `{!Hal E}.

(** [num] and [len] of the slot are assigned before the allocation. *)
Definition CoAPStrOption_add (message : CoAPMessage) (optnum : Z) (data : list Z) (datalen : Z)
    (e : E) : option (Z * CoAPMessage * E) :=
  if COAP_MSG_MAX_OPTION_NUM <=? optcount message
  then Some (COAP_ERROR_INVALID_PARAM, message, e)
  else
    let num := u16 (optnum - optdelta message) in
    let '(ok, e) := HAL_Malloc datalen e in
    if negb ok then
      Some (COAP_ERROR_MALLOC,
            message <| options ::= fun l =>
              alter (fun o => MsgOption num datalen (val o)) (Z.to_nat (optcount message)) l |>, e)
    else
      w ← cpy data datalen (WBuf (replicate (Z.to_nat datalen) 0) 0);
      Some (COAP_SUCCESS, add_option message optnum (MsgOption num datalen (Some (wb_mem w))), e).

(** The bytes of the value, as stored. *)
Definition uint_value (data : Z) : list Z :=
  if data =? 0 then []
  else if data <=? 255 then [u8 data]
  else if data <=? 65535 then
    [u8 (Z.shiftr (Z.land data 0xFF00) 8); u8 (Z.land data 0x00FF)]
  else
    [u8 (Z.shiftr (Z.land data 0xFF000000) 24); u8 (Z.shiftr (Z.land data 0x00FF0000) 16);
     u8 (Z.shiftr (Z.land data 0x0000FF00) 8); u8 (Z.land data 0x000000FF)].

(** No allocation for 0; a failed allocation leaves the length and a NULL value. *)
Definition CoAPUintOption_add (message : CoAPMessage) (optnum data : Z) (e : E)
    : Z * CoAPMessage * E :=
  if COAP_MSG_MAX_OPTION_NUM <=? optcount message then (COAP_ERROR_INVALID_PARAM, message, e)
  else
    let num := u16 (optnum - optdelta message) in
    let v := uint_value data in
    let len := Z.of_nat (List.length v) in
    let '(ptr, e) := if data =? 0 then (None, e)
                     else let '(ok, e) := HAL_Malloc len e in
                          (if ok then Some v else None, e) in
    (COAP_SUCCESS, add_option message optnum (MsgOption num len ptr), e).

End Options.

(** The search that the readers share: the first option in use with the number. *)
Fixpoint find_option (n : nat) (opts : list CoAPMsgOption) (optnum : Z)
    : option (option CoAPMsgOption) :=
  match n with
  | O => Some None
  | S n' =>
      match opts with
      | [] => None
      | o :: opts' => if num o =? optnum then Some (Some o) else find_option n' opts' optnum
      end
  end.

(** The code, and what is stored at [data] and [*datalen]. *)
Definition CoAPStrOption_get (message : CoAPMessage) (optnum : Z) (data : list Z) (datalen : Z)
    : option (Z * list Z * Z) :=
  r ← find_option (Z.to_nat (optcount message)) (options message) optnum;
  match r with
  | None => Some (COAP_ERROR_NOT_FOUND, data, datalen)
  | Some o =>
      if len o <=? datalen then
        w ← cpy_val (val o) (len o) (WBuf data 0);
        Some (COAP_SUCCESS, wb_mem w, len o)
      else Some (COAP_ERROR_INVALID_LENGTH, data, datalen)
  end.

(** [*data |= ...], from the value that [*data] had.  The bytes are promoted to [int], and
    [val[0] << 24] is undefined in C when the byte is 128 or more; the model takes the
    bits that two's complement gives. *)
Definition CoAPUintOption_get (message : CoAPMessage) (optnum : Z) (data : Z) : option (Z * Z) :=
  r ← find_option (Z.to_nat (optcount message)) (options message) optnum;
  match r with
  | None => Some (COAP_ERROR_NOT_FOUND, data)
  | Some o =>
      let at_ i := v ← val o; v !! i in
      data ← (if len o =? 1 then b0 ← at_ 0%nat; Some (Z.lor data b0)
              else if len o =? 2 then
                b0 ← at_ 0%nat; b1 ← at_ 1%nat; Some (Z.lor (Z.lor data (Z.shiftl b0 8)) b1)
              else if len o =? 3 then
                b0 ← at_ 0%nat; b1 ← at_ 1%nat; b2 ← at_ 2%nat;
                Some (Z.lor (Z.lor (Z.lor data (Z.shiftl b0 16)) (Z.shiftl b1 8)) b2)
              else if len o =? 4 then
                b0 ← at_ 0%nat; b1 ← at_ 1%nat; b2 ← at_ 2%nat; b3 ← at_ 3%nat;
                Some (Z.lor (Z.lor (Z.lor (Z.lor data (Z.shiftl b0 24)) (Z.shiftl b1 16))
                              (Z.shiftl b2 8)) b3)
              else Some 0);
      Some (COAP_SUCCESS, data)
  end.

Definition CoAPOption_present (message : CoAPMessage) (option : Z) : Datatypes.option Z :=
  r ← find_option (Z.to_nat (optcount message)) (options message) option;
  Some (match r with Some _ => COAP_SUCCESS | None => COAP_ERROR_NOT_FOUND end).

(** The values of all 12 slots are freed. *)
Definition CoAPMessage_destory (message : option CoAPMessage) : Z * option CoAPMessage :=
  match message with
  | None => (COAP_ERROR_NULL, None)
  | Some m => (COAP_SUCCESS, Some (m <| options ::= fmap (fun o => o <| val := None |>) |>))
  end.

(** ** Reading the options of a message *)

(** The first value of an option, in a list of numbers and values. *)
Fixpoint option_of (os : list opt) (n : Z) : option (list Z) :=
  match os with
  | [] => None
  | o :: os' => if o.1 =? n then Some o.2 else option_of os' n
  end.

(** The number that bytes are in network order. *)
Definition be_value (v : list Z) : Z := foldl (fun a b => 256 * a + b) 0 v.

Lemma find_option_ok n opts optnum :
  (n <= List.length opts)%nat -> Forall (fun o => points (val o) (len o)) (take n opts) ->
  exists r, find_option n opts optnum = Some r
    /\ value_of <$> r = option_of (out <$> take n opts) optnum
    /\ match r with Some o => points (val o) (len o) | None => True end.
Proof.
  revert opts. induction n as [|n IH]; intros opts Hn Hp; [by exists None|].
  destruct opts as [|o opts]; [cbn in Hn; lia|]. cbn [find_option take fmap list_fmap option_of] in *.
  apply Forall_cons in Hp as [Ho Hp]. cbn [out fst snd].
  destruct (num o =? optnum); [by exists (Some o)|]. apply IH; [cbn in Hn; lia|done].
Qed.

Lemma option_of_bytes os n : Forall option_ok os ->
  forall v, option_of os n = Some v -> bytes_ok v.
Proof.
  intros Hok. induction Hok as [|o os Ho _ IH]; [done|]. intros v. cbn [option_of].
  destruct (o.1 =? n); [intros [= <-]; apply Ho|by apply IH].
Qed.

(** [data |= b << k], one byte after another. *)
Lemma or_byte a b k :
  is_byte b -> 0 <= k -> Z.lor (Z.shiftl a (8 + k)) (Z.shiftl b k) = Z.shiftl (256 * a + b) k.
Proof.
  intros Hb Hk. unfold is_byte in Hb. rewrite <-Z.shiftl_shiftl, <-Z.shiftl_lor, lor_shiftl by lia. f_equal. lia.
Qed.

Lemma or_byte_last a b : is_byte b -> Z.lor (Z.shiftl a 8) b = 256 * a + b.
Proof. intros Hb. unfold is_byte in Hb. rewrite lor_shiftl by lia. lia. Qed.

#[local] Ltac or_bytes H :=
  repeat match goal with |- context [Z.of_nat ?n] =>
    let z := eval compute in (Z.of_nat n) in change (Z.of_nat n) with z end;
  cbn [Z.eqb Pos.eqb mbind option_bind]; rewrite Z.lor_0_l; unfold bytes_ok in H; repeat rewrite Forall_cons in H;
  decompose [and] H;
  repeat match goal with
    | |- context [Z.lor (Z.shiftl ?a ?n) (Z.shiftl ?b ?k)] =>
        change (Z.shiftl a n) with (Z.shiftl a (8 + k)); rewrite (or_byte a b k) by (done || lia)
    | |- context [Z.lor (Z.shiftl ?a 8) ?b] => rewrite (or_byte_last a b) by done
    end.

Section Read.

Context (m : CoAPMessage) (Hm : options_inside m).

Lemma find_option_message optnum :
  exists r, find_option (Z.to_nat (optcount m)) (options m) optnum = Some r
    /\ value_of <$> r = option_of (m_options (message_of m)) optnum
    /\ match r with Some o => points (val o) (len o) | None => True end.
Proof. destruct Hm as (Hl & Hc & Hp). apply find_option_ok; [lia|done]. Qed.

Lemma CoAPStrOption_get_ok optnum data datalen :
  datalen <= slen data ->
  Forall option_ok (m_options (message_of m)) ->
  CoAPStrOption_get m optnum data datalen
  = Some (match option_of (m_options (message_of m)) optnum with
          | None => (COAP_ERROR_NOT_FOUND, data, datalen)
          | Some v => if slen v <=? datalen
                      then (COAP_SUCCESS, v ++ drop (List.length v) data, slen v)
                      else (COAP_ERROR_INVALID_LENGTH, data, datalen)
          end).
Proof.
  intros Hd Hok. unfold CoAPStrOption_get.
  destruct (find_option_message optnum) as (r & -> & Hr & Hp). cbn [mbind option_bind].
  pose proof (option_of_bytes _ optnum Hok) as Hb.
  rewrite <-Hr in *. destruct r as [o|]; cbn [fmap option_fmap option_map] in *; [|done].
  specialize (Hb _ eq_refl). rewrite (value_length o Hp). destruct (Z.leb_spec (len o) datalen); [|done].
  rewrite (cpy_val_writes o Hp). pose proof (value_length o Hp) as E.
  rewrite puts_start by (unfold slen in *; first [done|lia]). done.
Qed.

(** Values of up to 4 bytes are read; longer ones are read as 0. *)
Lemma CoAPUintOption_get_ok optnum :
  Forall option_ok (m_options (message_of m)) ->
  CoAPUintOption_get m optnum 0
  = Some (match option_of (m_options (message_of m)) optnum with
          | None => (COAP_ERROR_NOT_FOUND, 0)
          | Some v => (COAP_SUCCESS, if slen v <=? 4 then be_value v else 0)
          end).
Proof.
  intros Hok. unfold CoAPUintOption_get.
  destruct (find_option_message optnum) as (r & -> & Hr & Hp). cbn [mbind option_bind].
  pose proof (option_of_bytes _ optnum Hok) as Hb. rewrite <-Hr in *.
  destruct r as [o|]; cbn [fmap option_fmap option_map] in *; [|done].
  specialize (Hb _ eq_refl). pose proof (value_length o Hp) as E. rewrite E.
  destruct o as [n l [v|]]; cbn [points val len] in *; [|by subst].
  unfold value_of in Hb. cbn [val len mbind option_bind] in *.
  assert (forall i, Z.of_nat i < l -> v !! i = take (Z.to_nat l) v !! i) as Hv
    by (intros; rewrite lookup_take_lt; [done|lia]).
  unfold value_of in *. cbn [val len] in *. clear Hr Hp.
  remember (take (Z.to_nat l) v) as w eqn:Ew. clear Ew. unfold slen in E.
  destruct w as [|b0 [|b1 [|b2 [|b3 [|b4 w]]]]]; cbn [List.length] in E; subst l;
    rewrite ?Hv by lia; cbn [lookup list_lookup mbind option_bind].
  - done.
  - by rewrite Z.lor_0_l.
  - or_bytes Hb. cbn -[Z.mul Z.add]. do 2 f_equal; lia.
  - or_bytes Hb. cbn -[Z.mul Z.add]. do 2 f_equal; lia.
  - or_bytes Hb. cbn -[Z.mul Z.add]. do 2 f_equal; lia.
  - rewrite !(proj2 (Z.eqb_neq _ _)) by lia. rewrite (proj2 (Z.leb_gt _ _)) by lia. done.
Qed.

End Read.

(** ** Building a message

    A message under construction: it can be sent as it is, and [optdelta] is the number
    of its last option, as far as it fits a byte. *)
Record building (m : CoAPMessage) : Prop := {
  bu_sendable : sendable m;
  bu_delta : optdelta m = u8 (last_number 0 (m_options (message_of m))) }.

Lemma numbered_app base os o :
  numbered base (os ++ [o]) = numbered base os ++ [(last_number base os + o.1, o.2)].
Proof.
  revert base. induction os as [|[d v] os IH]; intros base; [by destruct o|].
  cbn [numbered app last_number foldl fst]. by rewrite IH.
Qed.

Lemma last_number_app base os o : last_number base (os ++ [o]) = last_number base os + o.1.
Proof. unfold last_number. by rewrite foldl_app. Qed.

Lemma numbered_ok base os :
  Forall option_ok os -> 0 <= base -> last_number base os < 65536 ->
  Forall option_ok (numbered base os).
Proof.
  intros Hos. revert base. induction Hos as [|[d v] os Ho Hos IH]; intros base Hb Hl; [constructor|].
  cbn [numbered]. destruct Ho as (Hd & Hv). cbn [fst snd] in *.
  change (last_number base ((d, v) :: os)) with (last_number (base + d) os) in Hl.
  pose proof (last_number_ge (base + d) os Hos).
  constructor; [|apply IH; lia]. split; [cbn; lia|done].
Qed.

(** One option more in the slots in use. *)
Lemma add_option_message m n o :
  sendable m -> optcount m < 12 ->
  message_of (add_option m n o)
  = (message_of m) <| m_options ::= fun os => os ++ [out o] |>.
Proof.
  intros [Ht Htl Hs [Hc _] Ho Hp Hok] Hlt. unfold message_of, add_option. cbn.
  rewrite u8_small by (unfold is_byte; lia).
  replace (Z.to_nat (optcount m + 1)) with (S (Z.to_nat (optcount m))) by lia.
  rewrite (take_S_r _ _ o) by (apply list_lookup_insert_eq; lia).
  rewrite take_insert_ge by lia. by rewrite fmap_app.
Qed.

(** An option of a number that is not below the last one can be added. *)
Lemma add_option_building m n o :
  building m -> optcount m < 12 -> last_number 0 (m_options (message_of m)) < 256 ->
  last_number 0 (m_options (message_of m)) <= n < 65536 ->
  num o = u16 (n - optdelta m) -> points (val o) (len o) -> len o < 65536 -> bytes_ok (value_of o) ->
  building (add_option m n o)
  /\ message_of (add_option m n o)
     = (message_of m) <| m_options ::= fun os => os ++ [(n - last_number 0 (m_options (message_of m)),
                                                         value_of o)] |>
  /\ last_number 0 (m_options (message_of (add_option m n o))) = n.
Proof.
  intros [Hm Hd] Hc H256 Hn Hnum Hp Hl Hb. set (base := last_number _ _) in *.
  pose proof (last_number_ge 0 _ (ok_options _ (sd_ok _ Hm))) as H0. fold base in H0.
  rewrite Hd, u8_small, u16_small in Hnum by (unfold is_byte; lia).
  pose proof (add_option_message m n o Hm Hc) as E. unfold out in E. rewrite Hnum in E.
  assert (last_number 0 (m_options (message_of (add_option m n o))) = n) as El.
  { transitivity (last_number 0 (m_options (message_of m) ++ [(n - base, value_of o)])); [by rewrite E|].
    rewrite last_number_app. fold base. cbn [fst]. lia. }
  split_and!; [|done|done]. split; [|by rewrite El].
  pose proof (value_length o Hp) as Lv. destruct Hm as [Ht Htl Hs [Hc0 Hc1] Ho Hpl Hok].
  split; cbn; try done.
  - by rewrite length_insert.
  - rewrite u8_small by (unfold is_byte; lia). lia.
  - rewrite u8_small by (unfold is_byte; lia).
    replace (Z.to_nat (optcount m + 1)) with (S (Z.to_nat (optcount m))) by lia.
    rewrite (take_S_r _ _ o) by (apply list_lookup_insert_eq; lia).
    rewrite take_insert_ge by lia. apply Forall_app. split; [done|by apply Forall_singleton].
  - rewrite E. destruct Hok as [K1 K2 K3 K4 K5 K6 K7 K8 K9 K10]. split; cbn; try done.
    + change (Forall option_ok (m_options (message_of m) ++ [(n - base, value_of o)])).
      apply Forall_app. rewrite Forall_singleton. split; [done|]. unfold option_ok. cbn [fst snd].
      split_and!; first [done|lia].
    + rewrite length_app, length_fmap, length_take. cbn [List.length]. lia.
Qed.

(** The calls that add an option. *)
Inductive option_call :=
  | StrOption (optnum : Z) (data : list Z)
  | UintOption (optnum : Z) (data : Z).

Definition call_number (c : option_call) : Z :=
  match c with StrOption n _ => n | UintOption n _ => n end.

Definition call_value (c : option_call) : list Z :=
  match c with StrOption _ v => v | UintOption _ d => uint_value d end.

(** The arguments are of their types. *)
Definition call_ok (c : option_call) : Prop :=
  0 <= call_number c < 65536
  /\ match c with StrOption _ v => bytes_ok v /\ slen v < 65536 | UintOption _ d => 0 <= d < 2 ^ 32 end.

Lemma uint_value_ok d : bytes_ok (uint_value d) /\ slen (uint_value d) <= 4.
Proof.
  unfold uint_value, slen. zcases; cbn [List.length]; (split; [|lia]);
    repeat (constructor; [apply u8_range|]); constructor.
Qed.

Lemma byte_of_int d k : 0 <= k -> u8 (Z.shiftr (Z.land d (Z.shiftl 0xFF k)) k) = d / 2 ^ k mod 256.
Proof.
  intros Hk. rewrite Z.shiftr_land, Z.shiftr_shiftl_l, Z.sub_diag, Z.shiftl_0_r by lia.
  change 0xFF with (Z.ones 8). rewrite Z.land_ones, Z.shiftr_div_pow2 by lia.
  unfold u8. by rewrite Z.mod_mod.
Qed.

Lemma uint_value_be d : 0 <= d < 2 ^ 32 -> be_value (uint_value d) = d.
Proof.
  intros Hd. unfold uint_value.
  destruct (Z.eqb_spec d 0) as [->|]; [done|].
  destruct (Z.leb_spec d 255); [unfold be_value; cbn [foldl]; rewrite u8_small by (unfold is_byte; lia); lia|].
  change 0xFF00 with (Z.shiftl 0xFF 8). change 0xFF0000 with (Z.shiftl 0xFF 16).
  change 0xFF000000 with (Z.shiftl 0xFF 24). change 0x00FF with (Z.ones 8).
  rewrite !byte_of_int, Z.land_ones by lia. unfold u8, be_value.
  destruct (Z.leb_spec d 65535); cbn [foldl];
    change (2 ^ 8) with 256; change (2 ^ 16) with 65536; change (2 ^ 24) with 16777216; dlia.
Qed.

Section Build.

Context {E : Type} `{!Hal E} `{!HalMemory E}.

Definition add_call (m : CoAPMessage) (c : option_call) (e : E) : option (Z * CoAPMessage * E) :=
  match c with
  | StrOption n v => CoAPStrOption_add m n v (slen v) e
  | UintOption n d => Some (CoAPUintOption_add m n d e)
  end.

(** The codes of the calls, and what they leave. *)
Fixpoint add_calls (m : CoAPMessage) (cs : list option_call) (e : E)
    : option (list Z * CoAPMessage * E) :=
  match cs with
  | [] => Some ([], m, e)
  | c :: cs' =>
      '(rc, m, e) ← add_call m c e;
      '(rcs, m, e) ← add_calls m cs' e;
      Some (rc :: rcs, m, e)
  end.

(** Numbers that do not go down from [base], and of which only the last may be above
    a byte. *)
Fixpoint ascending (base : Z) (cs : list option_call) : Prop :=
  match cs with
  | [] => True
  | c :: cs' => base < 256 /\ base <= call_number c /\ ascending (call_number c) cs'
  end.

Lemma add_call_option m c e :
  call_ok c -> optcount m < 12 ->
  exists o e', add_call m c e = Some (COAP_SUCCESS, add_option m (call_number c) o, e')
    /\ num o = u16 (call_number c - optdelta m) /\ points (val o) (len o) /\ value_of o = call_value c
    /\ len o < 65536 /\ bytes_ok (value_of o).
Proof.
  intros [Hn Hc] H12. unfold COAP_MSG_MAX_OPTION_NUM. destruct c as [n v|n d]; cbn [add_call call_number call_value] in *.
  - destruct Hc as [Hb Hl]. unfold CoAPStrOption_add, COAP_MSG_MAX_OPTION_NUM.
    rewrite (proj2 (Z.leb_gt 12 _)) by done.
    pose proof (hal_malloc_ok (slen v) e) as Hm. destruct (HAL_Malloc (slen v) e) as [ok e']. cbn [fst] in Hm.
    subst ok. cbn [negb]. pose proof (slen_nonneg v).
    unfold cpy. rewrite (proj2 (Z.ltb_ge (slen v) 0)), (proj2 (Z.ltb_ge _ (slen v))) by (unfold slen in *; lia).
    cbn [orb]. unfold slen. rewrite Nat2Z.id, firstn_all, puts_start by (rewrite ?length_replicate; first [done|lia]).
    cbn [mbind option_bind wb_mem]. rewrite drop_ge, app_nil_r by (rewrite length_replicate; lia).
    eexists _, e'. split; [done|]. unfold points, value_of, slen in *. cbn [val len num].
    rewrite Nat2Z.id, firstn_all. split_and!; first [done|lia].
  - unfold CoAPUintOption_add, COAP_MSG_MAX_OPTION_NUM. rewrite (proj2 (Z.leb_gt 12 _)) by done.
    pose proof (uint_value_ok d) as [Hb Hl].
    set (v := uint_value d) in *. unfold slen in Hl.
    destruct (Z.eqb_spec d 0) as [E0|E0].
    + assert (v = []) as Ev by (unfold v; by rewrite E0).
      eexists _, e. split; [done|]. rewrite Ev. unfold points, value_of. cbn. split_and!; first [done|lia|constructor].
    + pose proof (hal_malloc_ok (Z.of_nat (length v)) e) as Hm.
      destruct (HAL_Malloc (Z.of_nat (length v)) e) as [ok e']. cbn [fst] in Hm. subst ok.
      eexists _, e'. split; [done|]. unfold points, value_of, slen. cbn [val len num].
      rewrite Nat2Z.id, firstn_all. split_and!; first [done|lia].
Qed.

Lemma add_calls_ok m cs e :
  building m -> Forall call_ok cs -> optcount m + Z.of_nat (List.length cs) <= 12 ->
  last_number 0 (m_options (message_of m)) < 65536 ->
  ascending (last_number 0 (m_options (message_of m))) cs ->
  exists m' e',
    add_calls m cs e = Some (replicate (List.length cs) COAP_SUCCESS, m', e')
    /\ building m' /\ last_number 0 (m_options (message_of m')) < 65536
    /\ received (message_of m')
       = (received (message_of m))
           <| m_options ::= fun os => os ++ ((fun c => (call_number c, call_value c)) <$> cs) |>.
Proof.
  intros Hm Hcs. revert m e Hm. induction Hcs as [|c cs Hc Hcs IH]; intros m e Hm H12 Hl Ha.
  - exists m, e. split_and!; try done. unfold received, upd. cbn. by rewrite app_nil_r.
  - destruct Ha as (H256 & Hge & Ha). cbn [List.length] in H12. cbn [add_calls].
    destruct (add_call_option m c e Hc ltac:(lia)) as (o & e1 & -> & Hnum & Hp & Hv & Hlo & Hb).
    cbn [mbind option_bind].
    destruct (add_option_building m (call_number c) o Hm ltac:(lia) H256) as (Hm1 & E1 & El1);
      [destruct Hc; lia|done..|].
    destruct (IH _ e1 Hm1) as (m' & e' & -> & Hm' & Hl' & E'); clear IH.
    { unfold add_option. cbn. pose proof (sd_count _ (bu_sendable _ Hm)).
      rewrite u8_small by (unfold is_byte; lia). lia. }
    { rewrite El1. destruct Hc. lia. }
    { by rewrite El1. }
    exists m', e'. cbn [mbind option_bind]. split_and!; try done.
    rewrite E', E1. unfold received, upd. cbn. rewrite numbered_app. cbn [fst snd].
    rewrite <-app_assoc, Hv. cbn [app]. do 3 f_equal. f_equal. unfold last_number. lia.
Qed.

End Build.

(** ** A new message *)

(** The calls with which the client and the server start every message. *)
Definition new_message (typ cod id : Z) (tok : list Z) (pl : option (list Z)) (pllen : Z)
    : option CoAPMessage :=
  let '(_, m) := CoAPMessage_init (Some message_zero) in
  let '(_, m) := CoAPMessageType_set m typ in
  let '(_, m) := CoAPMessageCode_set m cod in
  let '(_, m) := CoAPMessageId_set m id in
  '(_, m) ← CoAPMessageToken_set m (Some tok) (slen tok);
  let '(_, m) := CoAPMessagePayload_set m pl pllen in
  m.

Lemma CoAPMessage_init_fields m :
  CoAPMessage_init (Some m)
  = (COAP_SUCCESS,
     Some (Message (MsgHeader COAP_CUR_VERSION COAP_MESSAGE_TYPE_ACK 0 COAP_MSG_CODE_EMPTY_MESSAGE 0)
             (replicate 8 0) (replicate 12 (MsgOption 0 0 None)) 0 0 0 None 0 0 0 0)).
Proof. by vm_compute. Qed.

Lemma CoAPMessageType_set_ok v t n c i tok os oc od pll pl h r u k typ :
  0 <= typ < 4 ->
  CoAPMessageType_set (Some (Message (MsgHeader v t n c i) tok os oc od pll pl h r u k)) typ
  = (COAP_SUCCESS, Some (Message (MsgHeader v typ n c i) tok os oc od pll pl h r u k)).
Proof.
  intros Ht. unfold CoAPMessageType_set, COAP_MESSAGE_TYPE_CON, COAP_MESSAGE_TYPE_NON,
    COAP_MESSAGE_TYPE_ACK, COAP_MESSAGE_TYPE_RST.
  assert (negb (typ =? 0) && negb (typ =? 1) && negb (typ =? 2) && negb (typ =? 3) = false) as -> by zcases.
  done.
Qed.

Lemma CoAPMessageToken_set_ok v t n c i tok os oc od pll pl h r u k tok' :
  List.length tok = 8%nat -> bytes_ok tok' -> slen tok' <= 8 ->
  CoAPMessageToken_set (Some (Message (MsgHeader v t n c i) tok os oc od pll pl h r u k))
    (Some tok') (slen tok')
  = Some (COAP_SUCCESS, Some (Message (MsgHeader v t (slen tok') c i)
      (tok' ++ drop (List.length tok') tok) os oc od pll pl h r u k)).
Proof.
  intros Ht Hb Hl. cbn [CoAPMessageToken_set]. unfold COAP_MSG_MAX_TOKEN_LEN.
  rewrite (proj2 (Z.ltb_ge 8 _)) by done. pose proof (slen_nonneg tok') as Hn. unfold cpy.
  rewrite (proj2 (Z.ltb_ge (slen tok') 0)), (proj2 (Z.ltb_ge _ (slen tok'))) by (unfold slen in *; lia).
  assert (take (Z.to_nat (slen tok')) tok' = tok') as ->
    by (unfold slen; by rewrite Nat2Z.id, firstn_all).
  cbn [orb token]. rewrite puts_start by (first [done|unfold slen in *; lia]). done.
Qed.

Lemma new_message_building typ cod id tok pl pllen :
  0 <= typ < 4 -> is_byte cod -> 0 <= id < 65536 -> slen tok <= 8 -> bytes_ok tok ->
  points pl pllen -> pllen < 65536 -> bytes_ok (value_of (MsgOption 0 pllen pl)) ->
  exists m, new_message typ cod id tok pl pllen = Some m /\ building m
    /\ message_of m = Msg COAP_CUR_VERSION typ cod id tok [] (value_of (MsgOption 0 pllen pl)).
Proof.
  intros Ht Hc Hi Hl Hb Hp Hpl Hpb. unfold new_message. rewrite CoAPMessage_init_fields.
  rewrite CoAPMessageType_set_ok by done.
  change (CoAPMessageCode_set (Some (Message (MsgHeader ?v ?t ?n ?c ?i) ?tok ?os ?oc ?od ?pll ?p ?h ?r ?u ?k)) cod)
    with (COAP_SUCCESS, Some (Message (MsgHeader v t n (u8 cod) i) tok os oc od pll p h r u k)).
  cbv beta iota.
  rewrite (u8_small cod) by done.
  change (CoAPMessageId_set (Some (Message (MsgHeader ?v ?t ?n ?c ?i) ?tok ?os ?oc ?od ?pll ?p ?h ?r ?u ?k)) id)
    with (COAP_SUCCESS, Some (Message (MsgHeader v t n c id) tok os oc od pll p h r u k)).
  cbv beta iota.
  rewrite CoAPMessageToken_set_ok by done. cbn [mbind option_bind].
  unfold CoAPMessagePayload_set.
  assert ((0 <? pllen) && bool_decide (pl = None) = false) as ->.
  { destruct pl; [by rewrite andb_false_r|]. cbn [points] in Hp. subst. done. }
  pose proof (slen_nonneg tok) as Hn.
  eexists. split; [done|]. cbn. set (t := tok ++ _).
  assert (take (Z.to_nat (slen tok)) t = tok) as Et by apply take_slen.
  assert (List.length t = 8%nat) as Lt.
  { unfold t, slen in *. rewrite length_app, length_drop. cbn. lia. }
  match goal with |- building ?m /\ _ => set (msg := m) end.
  assert (message_of msg = Msg COAP_CUR_VERSION typ cod id tok [] (value_of (MsgOption 0 pllen pl))) as E.
  { unfold msg, message_of. cbn. by rewrite Et. }
  split; [|done]. split; [|by rewrite E]. split; try done; try (cbn; lia).
  rewrite E. pose proof (value_length (MsgOption 0 pllen pl) Hp) as Lp. cbn [val len] in Lp.
  split; cbn; try done; try lia; first [constructor|unfold COAP_CUR_VERSION; lia].
Qed.

(** ** Properties of the packet layer *)

Section Properties.

Context {E : Type} `{!Hal E} `{!HalMemory E}.

(** C32. Options added with calls of ascending numbers, of which only the last may
    exceed 255, are the options of the message that is sent: every call succeeds, and
    after what the message had come the numbers and values of the calls, integers in
    their shortest of 0, 1, 2 and 4 bytes, whose value is the integer. *)
Theorem coap_options_built (m : CoAPMessage) (cs : list option_call) (e : E) :
  building m -> Forall call_ok cs -> optcount m + Z.of_nat (List.length cs) <= 12 ->
  last_number 0 (m_options (message_of m)) < 65536 ->
  ascending (last_number 0 (m_options (message_of m))) cs ->
  exists m' e',
    add_calls m cs e = Some (replicate (List.length cs) COAP_SUCCESS, m', e')
    /\ building m' /\ last_number 0 (m_options (message_of m')) < 65536
    /\ received (message_of m')
       = (received (message_of m))
           <| m_options ::= fun os => os ++ ((fun c => (call_number c, call_value c)) <$> cs) |>
    /\ forall n d, UintOption n d ∈ cs -> be_value (call_value (UintOption n d)) = d.
Proof.
  intros Hm Hcs H12 Hl Ha.
  destruct (add_calls_ok m cs e Hm Hcs H12 Hl Ha) as (m' & e' & E1 & E2 & E3 & E4).
  exists m', e'. split_and!; try done. intros n d Hd.
  rewrite Forall_forall in Hcs. destruct (Hcs _ Hd) as [_ Hr]. by apply uint_value_be.
Qed.

End Properties.

(** C16. A message that is sent arrives: if it fits the buffer, as many bytes as
    [CoAPSerialize_MessageLength] says are written, and nothing of the buffer after
    them is changed; they are its RFC 7252 format; and parsing them in a receive
    buffer gives a message of the same header, token, options and payload, whose
    options the two readers find, the first of a number, with its string or integer
    value.  Parsing needs a byte after the head of the last option, so that option is not
    empty unless a payload follows, and what follows a
    message without a payload in the buffer must not be a payload marker. *)
Theorem coap_roundtrip (m : CoAPMessage) (mem rest : list Z) (b buflen : Z) :
  let bs := bytes (message_of m) in
  sendable m -> last_number 0 (m_options (message_of m)) < 65536 ->
  ends_ok (m_options (message_of m)) (m_payload (message_of m)) ->
  slen bs <= buflen -> buflen < 65536 -> buflen <= slen mem ->
  bytes_ok (b :: rest) -> m_payload (message_of m) <> [] \/ b <> 0xFF ->
  12 <= slen (bs ++ b :: rest) ->
  CoAPSerialize_MessageLength m = Some (slen bs)
  /\ CoAPSerialize_Message (Some m) (Some mem) buflen
     = Some (slen bs, Some (bs ++ drop (List.length bs) mem))
  /\ exists msg,
      CoAPDeserialize_Message (Some message_zero) (Some (bs ++ b :: rest)) (slen bs)
      = Some (COAP_SUCCESS, Some msg)
      /\ message_of msg = received (message_of m)
      /\ forall optnum,
          CoAPUintOption_get msg optnum 0
          = Some (match option_of (m_options (received (message_of m))) optnum with
                  | None => (COAP_ERROR_NOT_FOUND, 0)
                  | Some v => (COAP_SUCCESS, if slen v <=? 4 then be_value v else 0)
                  end)
          /\ forall data datalen, datalen <= slen data ->
            CoAPStrOption_get msg optnum data datalen
            = Some (match option_of (m_options (received (message_of m))) optnum with
                    | None => (COAP_ERROR_NOT_FOUND, data, datalen)
                    | Some v => if slen v <=? datalen
                                then (COAP_SUCCESS, v ++ drop (List.length v) data, slen v)
                                else (COAP_ERROR_INVALID_LENGTH, data, datalen)
                    end).
Proof.
  intros bs Hm Hn He Hb H64 Hmem Hr Hp H12. split_and!.
  - apply CoAPSerialize_MessageLength_ok; [done|]. fold bs. lia.
  - by apply CoAPSerialize_Message_ok.
  - pose proof (sd_ok m Hm) as Hok.
    destruct (CoAPDeserialize_Message_ok (message_of m) (b :: rest) Hok Hn He) as (msg & Hd & HM & _).
    { destruct Hp as [|Hp]; [by left|right; by exists b, rest]. }
    exists msg. split; [done|]. split; [done|].
    assert (options_inside msg) as Hin.
    { destruct (CoAPDeserialize_Message_total message_zero (bs ++ b :: rest) (slen bs))
        as (code & msg' & Hd' & Hc); try done.
      - apply bytes_ok_app. split; [by apply message_bytes_ok|done].
      - rewrite slen_app. unfold slen. cbn [List.length]. lia.
      - unfold bs in Hd'. rewrite Hd in Hd'. injection Hd' as <- <-.
        destruct Hc as [Hc|(_ & Hc & _)]; [discriminate|done]. }
    assert (Forall option_ok (m_options (message_of msg))) as Ho
      by (rewrite HM; by apply numbered_ok; [apply Hok|..]).
    rewrite <-HM. intros optnum. split; [by apply CoAPUintOption_get_ok|].
    intros data datalen Hdl. by apply CoAPStrOption_get_ok.
Qed.

(** C33. Whatever a datagram holds, parsing it ends and reads only the receive buffer, if
    the object is longer than the datagram: the result is an error or a message whose
    options in use start and end inside the object, at most 12, and whose payload does
    so too, except that a message without a payload followed by a payload marker in the
    buffer is given one of 65535 bytes. *)
Theorem coap_parse_total (msg : CoAPMessage) (buf : list Z) (buflen : Z) :
  List.length (token msg) = 8%nat -> List.length (options msg) = 12%nat ->
  bytes_ok buf -> 12 <= slen buf -> buflen < slen buf ->
  exists code msg',
    CoAPDeserialize_Message (Some msg) (Some buf) buflen = Some (code, Some msg')
    /\ (code = COAP_ERROR_INVALID_LENGTH
        \/ code = COAP_SUCCESS /\ options_inside msg'
           /\ (payload msg' = payload msg /\ payloadlen msg' = payloadlen msg
               \/ exists p, payload msg' = Some p
                    /\ (payloadlen msg' <= slen p \/ payloadlen msg' = 65535))).
Proof. apply CoAPDeserialize_Message_total. Qed.

(** ** The hypotheses hold *)

#[global] Instance clock_memory : HalMemory (Z * Z).
Proof. by split. Defined.

Lemma coap_options_built_witness :
  exists m m' e',
    new_message 0 2 7 [1; 2] (Some [65]) 1 = Some m
    /\ add_calls m [StrOption 11 [115; 121; 115]; UintOption 12 50; UintOption 17 0; StrOption 61 [116];
                    StrOption 2089 [1; 2]] (0, 0)
      = Some (replicate 5 COAP_SUCCESS, m', e')
    /\ m_options (received (message_of m'))
       = [(11, [115; 121; 115]); (12, [50]); (17, []); (61, [116]); (2089, [1; 2])].
Proof.
  destruct (new_message_building 0 2 7 [1; 2] (Some [65]) 1) as (m & Em & Hm & HM);
    try (unfold is_byte, slen; cbn; lia); try (repeat constructor; done).
  assert (optcount m = 0) as Hc.
  { enough (new_message 0 2 7 [1; 2] (Some [65]) 1 = Some m -> optcount m = 0) by auto.
    vm_compute. by intros [= <-]. }
  destruct (coap_options_built m [StrOption 11 [115; 121; 115]; UintOption 12 50; UintOption 17 0;
      StrOption 61 [116]; StrOption 2089 [1; 2]] (0, 0)) as (m' & e' & Ha & _ & _ & Hr & _).
  - done.
  - repeat (constructor; [split; [vm_compute; by split|]|]); try by constructor.
    all: (split; [by repeat constructor|done]).
  - by rewrite Hc.
  - by rewrite HM.
  - rewrite HM. vm_compute. repeat split; discriminate.
  - exists m, m', e'. split_and!; [done|done|]. rewrite Hr, HM. by vm_compute.
Defined.

Definition sample : CoAPMessage :=
  Message (MsgHeader 1 0 2 2 7) [1; 2; 0; 0; 0; 0; 0; 0]
    ([MsgOption 11 3 (Some [115; 121; 115]); MsgOption 1 1 (Some [50])]
     ++ replicate 10 (MsgOption 0 0 None))
    2 12 2 (Some [65; 66]) 0 0 0 0.

Lemma sample_sendable : sendable sample.
Proof.
  split; try (vm_compute; repeat constructor; done).
Qed.

Lemma coap_roundtrip_witness :
  bytes (message_of sample) = [66; 2; 0; 7; 1; 2; 0xB3; 115; 121; 115; 0x11; 50; 0xFF; 65; 66]
  /\ CoAPSerialize_Message (Some sample) (Some (replicate 1280 0)) 1280
     = Some (15, Some (bytes (message_of sample) ++ replicate 1265 0))
  /\ exists msg,
      CoAPDeserialize_Message (Some message_zero) (Some (bytes (message_of sample) ++ [0])) 15
      = Some (COAP_SUCCESS, Some msg)
      /\ CoAPUintOption_get msg 12 0 = Some (COAP_SUCCESS, 50).
Proof.
  split; [by vm_compute|].
  destruct (coap_roundtrip sample (replicate 1280 0) [] 0 1280) as (_ & Hs & msg & Hd & _ & Hg).
  - apply sample_sendable.
  - by vm_compute.
  - left. by vm_compute.
  - vm_compute. discriminate.
  - lia.
  - vm_compute. discriminate.
  - by repeat constructor.
  - left. by vm_compute.
  - vm_compute. discriminate.
  - split; [rewrite Hs; by vm_compute|]. exists msg. split; [exact Hd|].
    destruct (Hg 12) as [-> _]. by vm_compute.
Defined.

(** The message that is cut off inside an option. *)
Lemma coap_parse_total_witness :
  exists code msg',
    CoAPDeserialize_Message (Some message_zero)
      (Some ([66; 2; 0; 7; 1; 2; 0xB9; 115] ++ replicate 1272 0)) 8 = Some (code, Some msg')
    /\ code = COAP_ERROR_INVALID_LENGTH.
Proof.
  destruct (coap_parse_total message_zero ([66; 2; 0; 7; 1; 2; 0xB9; 115] ++ replicate 1272 0) 8)
    as (code & msg' & Hd & _); try done.
  - apply Forall_app. split; [by repeat constructor|]. by apply Forall_replicate.
  - exists code, msg'. split; [done|]. vm_compute in Hd. by injection Hd as <- _.
Defined.

(** A GET request with the empty option If-None-Match: the byte after the head of an
    option that the check asks for is missing, and the message is refused. *)
Example coap_empty_option_refused :
  CoAPDeserialize_Message (Some message_zero) (Some ([0x40; 1; 0; 7; 0x50] ++ replicate 1275 0)) 5
  = Some (COAP_ERROR_INVALID_LENGTH,
          Some (message_zero <| header := MsgHeader 1 0 0 1 7 |>)).
Proof. by vm_compute. Qed.

(** A datagram of the size of the receive buffer that an option fills up: the byte
    after it is looked at, outside the buffer. *)
Example coap_full_datagram_overread :
  let bs := [0x40; 1; 0; 7; 0x1E; 3; 0xEC] ++ replicate 1273 7 in
  List.length bs = 1280%nat
  /\ CoAPDeserialize_Message (Some message_zero) (Some bs) 1280 = None.
Proof. split; by vm_compute. Qed.
