(* ===== verification/CoapClient.v ===== *)
(** * CoapClient: the CoAP client's requests and responses

    [eng/coap/client]: datagrams ([Cloud_CoAPNetwork.c]) and requests
    ([Cloud_CoAPMessage.c]), sent, kept for retransmission, matched with their responses
    and dropped.  A node of the list of requests is a heap object; [nd_addr] is its
    address, and [next_addr] of the context the address of the next allocation.  [None]
    is an access outside an object or to a freed one. *)

From S2P Require Import Prelude.
From S2P Require Import Hal.
From S2P Require Import InfraTimer.
From S2P Require Import CoapPacket.
From S2P Require Import CoapMessage.
Import CoapPacket.Wire.

(** ** Data *)

Definition COAP_ERROR_WRITE_FAILED : Z := 266.
Definition COAP_ERROR_NET_INIT_FAILED : Z := 264.
Definition COAP_MAX_MESSAGE_ID : Z := 65535.
Definition COAP_MAX_RETRY_COUNT : Z := 4.
Definition COAP_ACK_TIMEOUT : Z := 2.
Definition COAP_ACK_RANDOM_FACTOR : Z := 1.
Definition COAP_MAX_TRANSMISSION_SPAN : Z := 10.
Definition sizeof_send_node : Z := 44.

Inductive coap_endpoint_type := COAP_ENDPOINT_NOSEC | COAP_ENDPOINT_DTLS | COAP_ENDPOINT_PSK.

#[export] Instance endpoint_eq : EqDecision coap_endpoint_type.
Proof. solve_decision. Defined.

Record coap_network_t := Network { ep_type : coap_endpoint_type; context : Z }.

(** [nd_token] has the [nd_tokenlen] bytes that are copied; [nd_user] and [nd_resp] are
    addresses. *)
Record Cloud_CoAPSendNode := SendNode
  { nd_addr : nat; nd_user : Z; nd_msgid : Z; nd_acked : Z; nd_tokenlen : Z; nd_token : list Z;
    nd_retrans_count : Z; nd_timeout : Z; nd_timeout_val : Z; nd_message : option (list Z);
    nd_msglen : Z; nd_resp : Z }.

#[export] Instance eta_node : Eta Cloud_CoAPSendNode := fun n =>
  SendNode (nd_addr n) (nd_user n) (nd_msgid n) (nd_acked n) (nd_tokenlen n) (nd_token n)
    (nd_retrans_count n) (nd_timeout n) (nd_timeout_val n) (nd_message n) (nd_msglen n) (nd_resp n).

Record Cloud_CoAPContext := Context
  { message_id : Z; network : coap_network_t; notifier : Z; sendbuf : list Z; recvbuf : list Z;
    count : Z; maxcount : Z; sendlist : list Cloud_CoAPSendNode; waittime : Z; next_addr : nat }.

#[export] Instance eta_context : Eta Cloud_CoAPContext := fun c =>
  Context (message_id c) (network c) (notifier c) (sendbuf c) (recvbuf c) (count c) (maxcount c)
    (sendlist c) (waittime c) (next_addr c).

(** ** The macros on headers *)

Definition COAPAckMsg (h : CoAPMsgHeader) : bool :=
  (code h =? COAP_MSG_CODE_EMPTY_MESSAGE) && (type h =? COAP_MESSAGE_TYPE_ACK).

Definition Cloud_CoAPRespMsg (h : CoAPMsgHeader) : bool := (0x40 <=? code h) && (code h <? 0xc0).

Definition Cloud_CoAPCONRespMsg (h : CoAPMsgHeader) : bool :=
  (code h =? COAP_MSG_CODE_205_CONTENT) && (type h =? COAP_MESSAGE_TYPE_CON).

Definition Cloud_CoAPReqMsg (h : CoAPMsgHeader) : bool := (1 <=? code h) && (code h <? 32).

(** ** Operations *)

(** The response handler of the application, with the handler's address, the user data,
    the message and the client at hand. *)
Class CoapApp (E : Type) := {
  resp_handler : Z -> Z -> CoAPMessage -> Cloud_CoAPContext -> E -> option (Cloud_CoAPContext * E)
}.

(** At 65535 the identifier stays, and 1 is returned. *)
Definition Cloud_CoAPMessageId_gen (c : Cloud_CoAPContext) : Z * Cloud_CoAPContext :=
  if COAP_MAX_MESSAGE_ID =? message_id c then (1, c)
  else (message_id c, c <| message_id ::= fun i => u16 (i + 1) |>).

Definition Cloud_CoAPMessageHandler_set (message : option CoAPMessage) (resp' : Z)
    : Z * option CoAPMessage :=
  match message with
  | None => (COAP_ERROR_NULL, None)
  | Some m => (COAP_SUCCESS, Some (m <| resp := resp' |>))
  end.

Section Client.

Context {E : Type} `{!Hal E} `{!HalUdp E} `{!CoapApp E}.

Definition Cloud_CoAPNetwork_write (n : coap_network_t) (p_data : option (list Z)) (datalen : Z)
    (e : E) : Z * E :=
  let '(rc, e) := HAL_UDP_write (context n) p_data datalen e in
  (if rc =? -1 then COAP_ERROR_WRITE_FAILED else COAP_SUCCESS, e).

(** The buffer is cleared first; the platform is told its size. *)
Definition Cloud_CoAPNetwork_read (n : coap_network_t) (data : list Z) (datalen timeout : Z) (e : E)
    : option (Z * list Z * E) :=
  w ← puts (replicate (Z.to_nat datalen) 0) (WBuf data 0);
  let '(len, bs, e) := HAL_UDP_readTimeout (context n) COAP_MSG_MAX_PDU_LEN timeout e in
  w ← puts bs (WBuf (wb_mem w) 0);
  Some (len, wb_mem w, e).

(** A DTLS endpoint opens nothing. *)
Definition Cloud_CoAPNetwork_init (ep : coap_endpoint_type) (host : list Z) (port : Z)
    (n : coap_network_t) (e : E) : Z * coap_network_t * E :=
  match ep with
  | COAP_ENDPOINT_DTLS => (COAP_SUCCESS, Network ep (context n), e)
  | _ =>
      let '(fd, e) := HAL_UDP_create host port e in
      (if fd =? -1 then COAP_ERROR_NET_INIT_FAILED else COAP_SUCCESS, Network ep fd, e)
  end.

Definition Cloud_CoAPNetwork_deinit (n : coap_network_t) (e : E) : Z * E :=
  match ep_type n with
  | COAP_ENDPOINT_DTLS => (COAP_SUCCESS, e)
  | _ => (COAP_SUCCESS, HAL_UDP_close_without_connect (context n) e)
  end.

(** The addresses of two members are compared, not what they hold: [count] is declared
    before [maxcount], and the comparison is always false. *)
Definition addresses_full : bool := let count_at := 0 in let maxcount_at := 1 in maxcount_at <=? count_at.

(** The node of a request whose bytes are in the send buffer. *)
Definition make_node (addr : nat) (m : CoAPMessage) (message : option (list Z)) (len : Z)
    (tok : list Z) : Cloud_CoAPSendNode :=
  let con := COAP_MESSAGE_TYPE_CON =? type (header m) in
  let timeout_val := COAP_ACK_TIMEOUT * COAP_ACK_RANDOM_FACTOR in
  SendNode addr (user m) (msgid (header m)) 0 (tokenlen (header m)) tok
    (if con then 0 else COAP_MAX_RETRY_COUNT)
    (if con then timeout_val else COAP_MAX_TRANSMISSION_SPAN) timeout_val message len (resp m).

Definition Cloud_CoAPMessageList_add (c : Cloud_CoAPContext) (m : CoAPMessage) (len : Z) (e : E)
    : option (Z * Cloud_CoAPContext * E) :=
  let '(ok, e) := HAL_Malloc sizeof_send_node e in
  if negb ok then Some (-1, c, e)
  else
    let addr := next_addr c in
    let c := c <| next_addr ::= S |> in
    tok ← cpy (token m) (tokenlen (header m)) (WBuf (replicate 8 0) 0);
    let '(ok, e) := HAL_Malloc len e in
    message ← (if ok then w ← cpy (sendbuf c) len (WBuf (replicate (Z.to_nat len) 0) 0);
                          Some (Some (wb_mem w))
               else Some None);
    if addresses_full then Some (-1, c, e)
    else
      let node := make_node addr m message len (take (Z.to_nat (tokenlen (header m))) (wb_mem tok)) in
      Some (0, c <| sendlist ::= fun l => l ++ [node] |> <| count ::= fun n => u8 (n + 1) |>, e).

Definition Cloud_CoAPMessage_send (ctx : option Cloud_CoAPContext) (message : option CoAPMessage) (e : E)
    : option (Z * option Cloud_CoAPContext * E) :=
  match ctx, message with
  | Some c, Some m =>
      msglen ← CoAPSerialize_MessageLength m;
      if COAP_MSG_MAX_PDU_LEN <? msglen then Some (COAP_ERROR_DATA_SIZE, Some c, e)
      else
        w ← puts (replicate (Z.to_nat COAP_MSG_MAX_PDU_LEN) 0) (WBuf (sendbuf c) 0);
        '(n, buf) ← CoAPSerialize_Message (Some m) (Some (wb_mem w)) COAP_MSG_MAX_PDU_LEN;
        buf ← buf;
        let msglen := u16 n in
        let c := c <| sendbuf := buf |> in
        if Z.of_nat (List.length buf) <? msglen then None
        else
          let '(ret, e) := Cloud_CoAPNetwork_write (network c) (Some (take (Z.to_nat msglen) buf)) msglen e in
          if ret =? COAP_SUCCESS then
            if Cloud_CoAPReqMsg (header m) || Cloud_CoAPCONRespMsg (header m) then
              '(_, c, e) ← Cloud_CoAPMessageList_add c m msglen e;
              Some (ret, Some c, e)
            else Some (ret, Some c, e)
          else Some (ret, Some c, e)
  | _, _ => Some (COAP_ERROR_INVALID_PARAM, ctx, e)
  end.

(** The first node with the identifier is acknowledged. *)
Fixpoint ack_node (id : Z) (l : list Cloud_CoAPSendNode) : list Cloud_CoAPSendNode :=
  match l with
  | [] => []
  | n :: l' => if nd_msgid n =? id then (n <| nd_acked := 1 |>) :: l' else n :: ack_node id l'
  end.

Definition Cloud_CoAPAckMessage_handle (c : Cloud_CoAPContext) (message : CoAPMessage)
    : Z * Cloud_CoAPContext :=
  (COAP_SUCCESS, c <| sendlist ::= ack_node (msgid (header message)) |>).

Definition Cloud_CoAPAckMessage_send (c : Cloud_CoAPContext) (id : Z) (e : E)
    : option (Z * Cloud_CoAPContext * E) :=
  let '(_, m) := CoAPMessage_init (Some message_zero) in
  let '(_, m) := CoAPMessageId_set m id in
  '(rc, c, e) ← Cloud_CoAPMessage_send (Some c) m e;
  c ← c;
  Some (rc, c, e).

(** [memcmp(a, b, n) == 0] *)
Definition memcmp_eq (a b : list Z) (n : Z) : option bool :=
  if (Z.of_nat (List.length a) <? n) || (Z.of_nat (List.length b) <? n) then None
  else Some (bool_decide (take (Z.to_nat n) a = take (Z.to_nat n) b)).

(** [if (NULL != node->resp) node->resp(node->user, message)] *)
Definition call_handler (node : Cloud_CoAPSendNode) (message : CoAPMessage) (c : Cloud_CoAPContext)
    (e : E) : option (Cloud_CoAPContext * E) :=
  if nd_resp node =? 0 then Some (c, e) else resp_handler (nd_resp node) (nd_user node) message c e.

(** The first node with the token of the message. *)
Fixpoint find_token (m : CoAPMessage) (l : list Cloud_CoAPSendNode)
    : option (option Cloud_CoAPSendNode) :=
  match l with
  | [] => Some None
  | n :: l' =>
      eq ← (if negb (nd_tokenlen n =? 0) && (nd_tokenlen n =? tokenlen (header m))
            then memcmp_eq (nd_token n) (token m) (tokenlen (header m)) else Some false);
      if (eq : bool) then Some (Some n) else find_token m l'
  end.

(** [list_del_init] and [coap_free] of a node, which has to be there. *)
Fixpoint del_node (addr : nat) (l : list Cloud_CoAPSendNode) : option (list Cloud_CoAPSendNode) :=
  match l with
  | [] => None
  | n :: l' => if decide (nd_addr n = addr) then Some l' else l' ← del_node addr l'; Some (n :: l')
  end.

Definition Cloud_CoAPRespMessage_handle (c : Cloud_CoAPContext) (message : CoAPMessage) (e : E)
    : option (Z * Cloud_CoAPContext * E) :=
  '(c, e) ← (if COAP_MESSAGE_TYPE_CON =? type (header message)
             then '(_, c, e) ← Cloud_CoAPAckMessage_send c (msgid (header message)) e; Some (c, e)
             else Some (c, e));
  found ← find_token message (sendlist c);
  match found with
  | None => Some (COAP_ERROR_NOT_FOUND, c, e)
  | Some node =>
      let message := message <| user := nd_user node |> in
      '(c, e) ← call_handler node message c e;
      l ← del_node (nd_addr node) (sendlist c);
      Some (COAP_SUCCESS, c <| sendlist := l |> <| count ::= fun n => u8 (n - 1) |>, e)
  end.

(** The message is handled also when parsing it failed. *)
Definition Cloud_CoAPMessage_handle (c : Cloud_CoAPContext) (buf : list Z) (datalen : Z) (e : E)
    : option (Cloud_CoAPContext * E) :=
  '(_, m) ← CoAPDeserialize_Message (Some message_zero) (Some buf) (u16 datalen);
  m ← m;
  if COAPAckMsg (header m) then Some (snd (Cloud_CoAPAckMessage_handle c m), e)
  else if Cloud_CoAPRespMsg (header m) then
    '(_, c, e) ← Cloud_CoAPRespMessage_handle c m e; Some (c, e)
  else Some (c, e).

(** The loop ends when a read returns nothing, or after [readcount] datagrams. *)
Fixpoint recv_loop (fuel : nat) (c : Cloud_CoAPContext) (timeout readcount n : Z) (e : E)
    : option (Z * Cloud_CoAPContext * E) :=
  match fuel with
  | O => None
  | S fuel' =>
      '(len, buf, e) ← Cloud_CoAPNetwork_read (network c) (recvbuf c) COAP_MSG_MAX_PDU_LEN timeout e;
      let c := c <| recvbuf := buf |> in
      if 0 <? len then
        '(c, e) ← Cloud_CoAPMessage_handle c buf len e;
        if 0 =? readcount then recv_loop fuel' c timeout readcount n e
        else
          let n := n - 1 in
          if 0 =? n then Some (len, c, e) else recv_loop fuel' c timeout readcount n e
      else Some (0, c, e)
  end.

Definition Cloud_CoAPMessage_recv (fuel : nat) (c : Cloud_CoAPContext) (timeout readcount : Z) (e : E)
    : option (Z * Cloud_CoAPContext * E) :=
  recv_loop fuel c timeout readcount readcount e.

(** The body of the loop of the cycle: what is left of the node. *)
Definition cycle_node (nw : coap_network_t) (n : Cloud_CoAPSendNode) (e : E)
    : option Cloud_CoAPSendNode * E :=
  if nd_timeout n =? 0 then
    let '(n, e) :=
      if (nd_retrans_count n <? COAP_MAX_RETRY_COUNT) && (0 =? nd_acked n) then
        let t := u16 (nd_timeout_val n * 2) in
        let n := n <| nd_timeout := t |> <| nd_timeout_val := t |>
                   <| nd_retrans_count ::= fun k => u8 (k + 1) |> in
        let '(_, e) := Cloud_CoAPNetwork_write nw (nd_message n) (nd_msglen n) e in
        (n, e)
      else (n, e) in
    if (COAP_MAX_TRANSMISSION_SPAN <? nd_timeout n) || (COAP_MAX_RETRY_COUNT <=? nd_retrans_count n)
    then (None, e) else (Some n, e)
  else (Some (n <| nd_timeout ::= fun t => t - 1 |>), e).

(** [list_for_each_entry_safe]: nodes are changed or removed in place. *)
Fixpoint cycle_nodes (nw : coap_network_t) (l : list Cloud_CoAPSendNode) (cnt : Z) (e : E)
    : list Cloud_CoAPSendNode * Z * E :=
  match l with
  | [] => ([], cnt, e)
  | n :: l' =>
      let '(n, e) := cycle_node nw n e in
      match n with
      | None => cycle_nodes nw l' (u8 (cnt - 1)) e
      | Some n => let '(l', cnt, e) := cycle_nodes nw l' cnt e in (n :: l', cnt, e)
      end
  end.

Definition Cloud_CoAPMessage_cycle (fuel : nat) (c : Cloud_CoAPContext) (e : E)
    : option (Z * Cloud_CoAPContext * E) :=
  '(_, c, e) ← Cloud_CoAPMessage_recv fuel c (waittime c) 0 e;
  let '(l, cnt, e) := cycle_nodes (network c) (sendlist c) (count c) e in
  Some (COAP_SUCCESS, c <| sendlist := l |> <| count := cnt |>, e).

End Client.
