(* ===== verification/CoapReliable.v ===== *)
(** * CoapReliable: what the CoAP client promises of its requests

    A request that waits for its response is described by its age, the number of cycles
    it has waited: the specification of retransmission.  The theorems show that the
    client's list of nodes implements it: requests are sent as they are, retransmitted
    at the ages of the schedule and dropped at the last one; a response goes to the
    handler of the request with its token, once; no datagram leads the client out of its
    buffers or to a freed node. *)

From S2P Require Import Prelude.
From S2P Require Import Hal.
From S2P Require Import InfraTimer.
From S2P Require Import CoapPacket.
From S2P Require Import CoapMessage.
From S2P Require Import CoapClient.
Import CoapPacket.Wire.

(** ** The specification *)

Record request := Request
  { rq_user : Z; rq_msgid : Z; rq_token : list Z; rq_bytes : list Z; rq_resp : Z; rq_con : bool }.

(** A request that waits, in the list node of the address. *)
Record pending := Pending
  { pd_addr : nat; pd_request : request; pd_age : nat; pd_acked : bool }.

#[export] Instance eta_pending : Eta pending := fun p =>
  Pending (pd_addr p) (pd_request p) (pd_age p) (pd_acked p).

(** A confirmable request is sent again 3, 8 and 17 cycles after it was sent, the third
    time as it is dropped; another one is only kept, for 11 cycles. *)
Definition last_age (con : bool) : nat := if con then 17 else 11.

Definition due (p : pending) : bool :=
  rq_con (pd_request p) && existsb (Nat.eqb (S (pd_age p))) [3; 8; 17]%nat.

(** One cycle: what is left of the request, and what is sent.  An acknowledged request
    is not sent again, and does not age past the cycle in which it would be. *)
Definition tick (p : pending) : option pending * list (list Z) :=
  if due p && pd_acked p then (Some p, [])
  else
    (if Nat.eqb (S (pd_age p)) (last_age (rq_con (pd_request p))) then None
     else Some (p <| pd_age ::= S |>),
     if due p then [rq_bytes (pd_request p)] else []).

Definition ticks (ps : list pending) : list pending := omap (fun p => (tick p).1) ps.

Definition resent (ps : list pending) : list (list Z) := concat ((fun p => (tick p).2) <$> ps).

(** ** The list nodes that implement it *)

(** Timeout, timeout value and retransmission count at an age. *)
Definition timers (con : bool) (age : nat) : Z * Z * Z :=
  if con then
    if Nat.ltb age 3 then (2 - Z.of_nat age, 2, 0)
    else if Nat.ltb age 8 then (7 - Z.of_nat age, 4, 1)
    else (16 - Z.of_nat age, 8, 2)
  else (10 - Z.of_nat age, 2, 4).

Definition node_of (p : pending) : Cloud_CoAPSendNode :=
  let r := pd_request p in
  let '(timeout, timeout_val, retrans) := timers (rq_con r) (pd_age p) in
  SendNode (pd_addr p) (rq_user r) (rq_msgid r) (if pd_acked p then 1 else 0) (slen (rq_token r))
    (rq_token r) retrans timeout timeout_val (Some (rq_bytes r)) (slen (rq_bytes r)) (rq_resp r).

Record request_ok (r : request) : Prop := {
  rq_id : 0 <= rq_msgid r < 65536;
  rq_tokenlen : slen (rq_token r) <= 8 }.

Definition pending_ok (p : pending) : Prop :=
  request_ok (pd_request p) /\ (pd_age p < last_age (rq_con (pd_request p)))%nat.

(** The client with its requests [ps]. *)
Record client (c : Cloud_CoAPContext) (ps : list pending) : Prop := {
  cl_list : sendlist c = node_of <$> ps;
  cl_count : count c = u8 (Z.of_nat (List.length ps));
  cl_pending : Forall pending_ok ps;
  cl_addrs : NoDup (pd_addr <$> ps);
  cl_fresh : Forall (fun p => (pd_addr p < next_addr c)%nat) ps;
  cl_sendbuf : slen (sendbuf c) = COAP_MSG_MAX_PDU_LEN;
  cl_recvbuf : slen (recvbuf c) = COAP_MSG_MAX_PDU_LEN }.

(** The request that a message makes. *)
Definition request_of (m : CoAPMessage) : request :=
  Request (user m) (msgid (header m)) (m_token (message_of m)) (bytes (message_of m)) (resp m)
    (type (header m) =? COAP_MESSAGE_TYPE_CON).

Definition listed (m : CoAPMessage) : bool :=
  Cloud_CoAPReqMsg (header m) || Cloud_CoAPCONRespMsg (header m).

Definition new_pending (addr : nat) (m : CoAPMessage) : list pending :=
  if listed m then [Pending addr (request_of m) 0 false] else [].

(** A platform whose writes do not fail. *)
Class HalUdpUp (E : Type) `{!HalUdp E} := {
  udp_write_ok h bs n e : fst (HAL_UDP_write h bs n e) <> -1
}.

(** One turn of the reading loop. *)
Lemma recv_loop_S {E} `{!Hal E} `{!HalUdp E} `{!CoapApp E} fuel c timeout readcount n (e : E) :
  recv_loop (S fuel) c timeout readcount n e
  = ('(len, buf, e) ← Cloud_CoAPNetwork_read (network c) (recvbuf c) COAP_MSG_MAX_PDU_LEN timeout e;
     let c := c <| recvbuf := buf |> in
     if 0 <? len then
       '(c, e) ← Cloud_CoAPMessage_handle c buf len e;
       if 0 =? readcount then recv_loop fuel c timeout readcount n e
       else
         let n := n - 1 in
         if 0 =? n then Some (len, c, e) else recv_loop fuel c timeout readcount n e
     else Some (0, c, e)).
Proof. done. Qed.

Section Reliable.

Context {E : Type} `{!Hal E} `{!HalUdp E} `{!CoapApp E} `{!HalMemory E}
        `{!HalDatagrams E} `{!HalUdpUp E}.

Lemma network_write_ok n bs len e :
  exists e', Cloud_CoAPNetwork_write n (Some bs) len e = (COAP_SUCCESS, e')
    /\ udp_in e' = udp_in e /\ udp_sent e' = udp_sent e ++ [bs].
Proof.
  unfold Cloud_CoAPNetwork_write. pose proof (udp_write_ok (context n) (Some bs) len e) as Hn.
  destruct (HAL_UDP_write (context n) (Some bs) len e) as [rc e'] eqn:Ew. cbn [fst] in Hn.
  destruct (udp_write _ _ _ _ _ _ Ew) as [Hi Ho]. rewrite (proj2 (Z.eqb_neq rc (-1))) in Ho |- * by done.
  by exists e'.
Qed.

(** ** Retransmission *)

Lemma cycle_node_ok nw p e :
  pending_ok p ->
  exists e', cycle_node nw (node_of p) e = (node_of <$> (tick p).1, e')
    /\ udp_in e' = udp_in e /\ udp_sent e' = udp_sent e ++ (tick p).2.
Proof.
  intros [_ Ha]. destruct p as [addr [u i t b r con] age acked]. unfold cycle_node, tick, due, node_of.
  cbn [pd_request pd_age pd_acked rq_con rq_bytes pd_addr rq_user rq_msgid rq_token rq_resp] in *.
  destruct con; cbn [last_age] in *; repeat (destruct age as [|age]; try lia).
  all: match goal with |- context [timers ?c ?a] =>
         let v := eval vm_compute in (timers c a) in change (timers c a) with v end.
  all: destruct acked; cbn -[udp_sent udp_in Cloud_CoAPNetwork_write slen].
  all: try (exists e; rewrite app_nil_r; done).
  all: destruct (network_write_ok nw b (slen b) e) as (e' & -> & Hi & Hs); by exists e'.
Qed.

Lemma cycle_nodes_ok nw ps cnt e :
  Forall pending_ok ps ->
  exists e',
    cycle_nodes nw (node_of <$> ps) (u8 (cnt + Z.of_nat (List.length ps))) e
    = (node_of <$> ticks ps, u8 (cnt + Z.of_nat (List.length (ticks ps))), e')
    /\ udp_in e' = udp_in e /\ udp_sent e' = udp_sent e ++ resent ps.
Proof.
  intros Hps. revert cnt e. induction Hps as [|p ps Hp Hps IH]; intros cnt e.
  - exists e. by rewrite app_nil_r.
  - cbn [fmap list_fmap cycle_nodes]. destruct (cycle_node_ok nw p e Hp) as (e1 & -> & Hi & Hs).
    unfold ticks, resent. cbn [omap list_omap fmap list_fmap concat]. fold (ticks ps). fold (resent ps).
    destruct (tick p).1 as [p'|]; cbn [fmap option_fmap option_map].
    + destruct (IH (cnt + 1) e1) as (e' & Hc & Hi' & Hs').
      replace (cnt + 1 + Z.of_nat (List.length ps)) with (cnt + Z.of_nat (List.length (p :: ps))) in Hc
        by (cbn [List.length]; lia).
      rewrite Hc. exists e'. rewrite Hi', Hs', Hs, <-app_assoc. split_and!; try done.
      do 2 f_equal. f_equal. fold (ticks ps). cbn [List.length]. lia.
    + destruct (IH cnt e1) as (e' & Hc & Hi' & Hs').
      replace (u8 (u8 (cnt + Z.of_nat (List.length (p :: ps))) - 1)) with (u8 (cnt + Z.of_nat (List.length ps)));
        [|unfold u8; cbn [List.length]; dlia].
      rewrite Hc. exists e'. rewrite Hi', Hs', Hs, <-app_assoc. done.
Qed.

Lemma tick_some p p' : (tick p).1 = Some p' -> pending_ok p ->
  pending_ok p' /\ pd_addr p' = pd_addr p /\ pd_request p' = pd_request p.
Proof.
  unfold tick. intros Ht [Hr Ha]. destruct (due p && pd_acked p); cbn [fst] in Ht.
  - injection Ht as <-. done.
  - destruct (Nat.eqb_spec (S (pd_age p)) (last_age (rq_con (pd_request p)))); [done|].
    injection Ht as <-. split; [|done]. split; [done|]. cbn. lia.
Qed.

Lemma ticks_ok ps : Forall pending_ok ps -> Forall pending_ok (ticks ps).
Proof.
  intros Hps. induction Hps as [|p ps Hp Hps IH]; [constructor|].
  unfold ticks. cbn [omap list_omap]. destruct ((tick p).1) eqn:Et; [|done].
  constructor; [by apply (tick_some p)|done].
Qed.

Lemma ticks_addrs ps : Forall pending_ok ps -> sublist (pd_addr <$> ticks ps) (pd_addr <$> ps).
Proof.
  intros Hps. induction Hps as [|p ps Hp Hps IH]; [constructor|].
  unfold ticks. cbn [omap list_omap fmap list_fmap]. destruct ((tick p).1) eqn:Et.
  - cbn [fmap list_fmap]. destruct (tick_some _ _ Et Hp) as (_ & -> & _). by constructor.
  - by constructor.
Qed.

(** The cycle without datagrams. *)
Lemma client_ticks c ps l cnt :
  client c ps -> l = node_of <$> ticks ps -> cnt = u8 (Z.of_nat (List.length (ticks ps))) ->
  client (c <| sendlist := l |> <| count := cnt |>) (ticks ps).
Proof.
  intros [C1 C2 C3 C4 C5 C6 C7] -> ->. split; try done.
  - by apply ticks_ok.
  - by eapply sublist_NoDup; [|apply ticks_addrs].
  - cbn. rewrite Forall_forall in C5 |- *. intros p Hp.
    assert (pd_addr p ∈ pd_addr <$> ps) as (p' & -> & Hp')%list_elem_of_fmap; [|by apply C5].
    eapply elem_of_submseteq; [by apply list_elem_of_fmap_2|].
    by apply sublist_submseteq, ticks_addrs.
Qed.

(** ** Reading *)

Lemma network_read_ok n data timeout e :
  slen data = COAP_MSG_MAX_PDU_LEN ->
  match udp_in e with
  | [] => exists rc e', Cloud_CoAPNetwork_read n data COAP_MSG_MAX_PDU_LEN timeout e
                        = Some (rc, replicate 1280 0, e')
            /\ rc <= 0 /\ udp_in e' = [] /\ udp_sent e' = udp_sent e
  | d :: ds => exists e', let bs := take 1280 d in
              Cloud_CoAPNetwork_read n data COAP_MSG_MAX_PDU_LEN timeout e
              = Some (slen bs, bs ++ replicate (1280 - List.length bs) 0, e')
              /\ udp_in e' = ds /\ udp_sent e' = udp_sent e
  end.
Proof.
  intros Hl. unfold COAP_MSG_MAX_PDU_LEN, slen in Hl. unfold Cloud_CoAPNetwork_read.
  rewrite puts_start; [|apply Forall_replicate; unfold is_byte; lia|
    rewrite length_replicate; unfold COAP_MSG_MAX_PDU_LEN; lia].
  cbn [mbind option_bind wb_mem]. rewrite drop_ge, app_nil_r
    by (rewrite length_replicate; unfold COAP_MSG_MAX_PDU_LEN; lia).
  change (Z.to_nat COAP_MSG_MAX_PDU_LEN) with 1280%nat.
  pose proof (udp_in_bytes e) as Hb. pose proof (udp_read (context n) COAP_MSG_MAX_PDU_LEN timeout e) as Hr.
  specialize (Hr ltac:(done)). change (Z.to_nat COAP_MSG_MAX_PDU_LEN) with 1280%nat in Hr.
  destruct (udp_in e) as [|d ds].
  - destruct Hr as (rc & e' & -> & Hrc & Hi & Hs). cbn [puts mbind option_bind wb_mem].
    by exists rc, e'.
  - apply Forall_cons in Hb as [[Hd _] _]. destruct Hr as (e' & -> & Hi & Hs). cbn [mbind option_bind].
    rewrite puts_start; [|by apply bytes_ok_take|rewrite length_take, length_replicate; lia].
    cbn [mbind option_bind wb_mem]. rewrite drop_replicate. by exists e'.
Qed.

(** The number of cycles without datagrams. *)
Fixpoint cycles (k : nat) (c : Cloud_CoAPContext) (e : E) : option (Cloud_CoAPContext * E) :=
  match k with
  | O => Some (c, e)
  | S k' => '(_, c, e) ← Cloud_CoAPMessage_cycle 1 c e; cycles k' c e
  end.

(** The reads end when nothing arrived. *)
Lemma recv_quiet fuel c ps timeout n e :
  client c ps -> udp_in e = [] ->
  exists c' e',
    recv_loop (S fuel) c timeout 0 n e = Some (0, c', e')
    /\ client c' ps /\ udp_in e' = [] /\ udp_sent e' = udp_sent e.
Proof.
  intros Hc Hi. cbn [recv_loop].
  pose proof (network_read_ok (network c) (recvbuf c) timeout e (cl_recvbuf _ _ Hc)) as Hr.
  rewrite Hi in Hr. destruct Hr as (rc & e1 & -> & Hrc & Hi1 & Hs1). cbn [mbind option_bind].
  rewrite (proj2 (Z.ltb_ge 0 rc)) by done. eexists _, e1. split; [done|]. split; [|done].
  destruct Hc. by split.
Qed.

(** And then the list is gone through. *)
Lemma cycle_rest c ps e :
  client c ps ->
  exists c' e',
    (let '(l, cnt, e) := cycle_nodes (network c) (sendlist c) (count c) e in
     Some (COAP_SUCCESS, c <| sendlist := l |> <| count := cnt |>, e)) = Some (COAP_SUCCESS, c', e')
    /\ client c' (ticks ps) /\ udp_in e' = udp_in e /\ udp_sent e' = udp_sent e ++ resent ps.
Proof.
  intros Hc. destruct (cycle_nodes_ok (network c) ps 0 e (cl_pending _ _ Hc)) as (e' & Hn & Hi & Hs).
  rewrite (cl_list _ _ Hc), (cl_count _ _ Hc). rewrite Z.add_0_l in Hn. rewrite Hn.
  eexists _, e'. split; [done|]. split; [by eapply client_ticks|done].
Qed.

Lemma cycle_quiet fuel c ps e :
  client c ps -> udp_in e = [] ->
  exists c' e',
    Cloud_CoAPMessage_cycle (S fuel) c e = Some (COAP_SUCCESS, c', e')
    /\ client c' (ticks ps) /\ udp_in e' = [] /\ udp_sent e' = udp_sent e ++ resent ps.
Proof.
  intros Hc Hi. unfold Cloud_CoAPMessage_cycle, Cloud_CoAPMessage_recv.
  destruct (recv_quiet fuel c ps (waittime c) 0 e Hc Hi) as (c1 & e1 & -> & Hc1 & Hi1 & Hs1).
  cbn [mbind option_bind]. destruct (cycle_rest c1 ps e1 Hc1) as (c' & e' & -> & Hc' & Hi' & Hs').
  exists c', e'. by rewrite Hi', Hs', Hs1.
Qed.

Fixpoint after (k : nat) (ps : list pending) : list pending :=
  match k with O => ps | S k' => after k' (ticks ps) end.

Fixpoint sent_during (k : nat) (ps : list pending) : list (list Z) :=
  match k with O => [] | S k' => resent ps ++ sent_during k' (ticks ps) end.

Lemma cycles_quiet k c ps e :
  client c ps -> udp_in e = [] ->
  exists c' e',
    cycles k c e = Some (c', e') /\ client c' (after k ps) /\ udp_in e' = []
    /\ udp_sent e' = udp_sent e ++ sent_during k ps.
Proof.
  revert c ps e. induction k as [|k IH]; intros c ps e Hc Hi.
  - exists c, e. cbn [sent_during]. by rewrite app_nil_r.
  - cbn [cycles]. destruct (cycle_quiet 0 c ps e Hc Hi) as (c1 & e1 & -> & Hc1 & Hi1 & Hs1).
    cbn [mbind option_bind]. destruct (IH c1 _ e1 Hc1 Hi1) as (c' & e' & -> & Hc' & Hi' & Hs').
    exists c', e'. cbn [after sent_during]. by rewrite Hs', Hs1, <-app_assoc.
Qed.

(** ** Sending *)

Lemma network_write_ok' n bs len e rc e' :
  Cloud_CoAPNetwork_write n (Some bs) len e = (rc, e') ->
  rc = COAP_SUCCESS /\ udp_in e' = udp_in e /\ udp_sent e' = udp_sent e ++ [bs].
Proof.
  intros H. destruct (network_write_ok n bs len e) as (e1 & E1 & Hi & Hs).
  rewrite E1 in H. injection H as <- <-. done.
Qed.

Lemma heap_ok n e b e' :
  HAL_Malloc n e = (b, e') -> b = true /\ udp_in e' = udp_in e /\ udp_sent e' = udp_sent e.
Proof.
  intros H. pose proof (hal_malloc_ok n e) as Hm. pose proof (udp_malloc n e) as [Hs Hi].
  rewrite H in *. done.
Qed.

(** The new node. *)
Lemma make_node_ok addr m :
  sendable m ->
  make_node addr m (Some (bytes (message_of m))) (slen (bytes (message_of m)))
    (take (Z.to_nat (tokenlen (header m))) (token m))
  = node_of (Pending addr (request_of m) 0 false).
Proof.
  intros Hm. unfold make_node, node_of, request_of. cbn [pd_request pd_age pd_acked pd_addr rq_con
    rq_user rq_msgid rq_token rq_bytes rq_resp].
  rewrite (token_length m Hm). rewrite Z.eqb_sym. by destruct (type (header m) =? COAP_MESSAGE_TYPE_CON).
Qed.

Lemma client_add c ps p cnt :
  client c ps -> pending_ok p -> pd_addr p = next_addr c -> cnt = u8 (count c + 1) ->
  client (c <| next_addr ::= S |> <| sendlist ::= fun l => l ++ [node_of p] |> <| count := cnt |>)
    (ps ++ [p]).
Proof.
  intros [C1 C2 C3 C4 C5 C6 C7] Hp Ha ->. split; cbn; try done.
  - by rewrite C1, fmap_app.
  - rewrite C2, length_app. cbn [List.length]. unfold u8. dlia.
  - apply Forall_app. by split; [|apply Forall_singleton].
  - rewrite fmap_app. apply NoDup_app. split_and!; [done| |apply NoDup_singleton].
    intros a (q & -> & Hq)%list_elem_of_fmap. rewrite Forall_forall in C5. specialize (C5 q Hq).
    cbn [fmap list_fmap]. rewrite list_elem_of_singleton. lia.
  - apply Forall_app. split; [|apply Forall_singleton; lia].
    eapply Forall_impl; [exact C5|]. cbn. lia.
Qed.

Lemma list_add_ok c ps m e :
  client c ps -> sendable m -> take (List.length (bytes (message_of m))) (sendbuf c) = bytes (message_of m) ->
  exists c' e',
    Cloud_CoAPMessageList_add c m (slen (bytes (message_of m))) e = Some (0, c', e')
    /\ client c' (ps ++ [Pending (next_addr c) (request_of m) 0 false])
    /\ udp_in e' = udp_in e /\ udp_sent e' = udp_sent e.
Proof.
  intros Hc Hm Hb. set (bs := bytes (message_of m)) in *. unfold Cloud_CoAPMessageList_add.
  destruct (HAL_Malloc sizeof_send_node e) as [ok e1] eqn:E1.
  apply heap_ok in E1 as (-> & Hi1 & Hs1). cbn [negb].
  pose proof (sd_token _ Hm) as Lt. pose proof (sd_tokenlen _ Hm) as Lk.
  assert (bytes_ok (take (Z.to_nat (tokenlen (header m))) (token m))) as Htb
    by apply (ok_token_bytes _ (sd_ok _ Hm)).
  rewrite (cpy_start (token m)) by (rewrite ?length_replicate; first [done|lia]).
  cbn [mbind option_bind wb_mem].
  destruct (HAL_Malloc (slen bs) e1) as [ok e2] eqn:E2. apply heap_ok in E2 as (-> & Hi2 & Hs2).
  change (sendbuf (c <| next_addr ::= S |>)) with (sendbuf c).
  pose proof (slen_nonneg bs) as Hn.
  assert (List.length bs <= List.length (sendbuf c))%nat as Hle.
  { rewrite <-Hb, length_take. lia. }
  assert (Z.to_nat (slen bs) = List.length bs) as El by (unfold slen; lia).
  rewrite (cpy_start (sendbuf c)), El, Hb; [..|by rewrite El, Hb; apply message_bytes_ok, sd_ok];
    [|unfold slen in *; lia|rewrite length_replicate; lia].
  cbn [mbind option_bind wb_mem addresses_full Z.leb Z.compare].
  rewrite drop_ge, app_nil_r by (by rewrite length_replicate).
  rewrite take_app_le by (rewrite length_take; lia). rewrite take_take, Nat.min_id.
  unfold bs at 1 2. rewrite make_node_ok by done.
  eexists _, e2. split; [done|]. rewrite Hi2, Hs2. split; [|done].
  apply (client_add c ps (Pending (next_addr c) (request_of m) 0 false)); try done.
  split; cbn; [|destruct (_ =? _); cbn; lia]. split; [apply (ok_id _ (sd_ok _ Hm))|].
  change (slen (m_token (message_of m)) <= 8). rewrite (token_length m Hm). lia.
Qed.

Lemma client_sendbuf c ps buf :
  client c ps -> slen buf = COAP_MSG_MAX_PDU_LEN -> client (c <| sendbuf := buf |>) ps.
Proof. intros [C1 C2 C3 C4 C5 C6 C7] Hb. by split. Qed.

Lemma client_recvbuf c ps buf :
  client c ps -> slen buf = COAP_MSG_MAX_PDU_LEN -> client (c <| recvbuf := buf |>) ps.
Proof. intros [C1 C2 C3 C4 C5 C6 C7] Hb. by split. Qed.

Lemma Cloud_CoAPMessage_send_ok c ps m e :
  client c ps -> sendable m -> slen (bytes (message_of m)) < 65536 ->
  if COAP_MSG_MAX_PDU_LEN <? slen (bytes (message_of m))
  then Cloud_CoAPMessage_send (Some c) (Some m) e = Some (COAP_ERROR_DATA_SIZE, Some c, e)
  else exists c' e',
    Cloud_CoAPMessage_send (Some c) (Some m) e = Some (COAP_SUCCESS, Some c', e')
    /\ client c' (ps ++ new_pending (next_addr c) m)
    /\ udp_in e' = udp_in e /\ udp_sent e' = udp_sent e ++ [bytes (message_of m)].
Proof.
  intros Hc Hm Hl. set (bs := bytes (message_of m)) in *. unfold Cloud_CoAPMessage_send.
  rewrite (CoAPSerialize_MessageLength_ok m Hm Hl). fold bs. cbn [mbind option_bind].
  destruct (Z.ltb_spec COAP_MSG_MAX_PDU_LEN (slen bs)) as [|Hle]; [done|].
  pose proof (cl_sendbuf _ _ Hc) as Hsb. pose proof (slen_nonneg bs) as Hn.
  unfold COAP_MSG_MAX_PDU_LEN, slen in Hsb, Hle. change (Z.to_nat COAP_MSG_MAX_PDU_LEN) with 1280%nat.
  rewrite puts_start; [|apply Forall_replicate; unfold is_byte; lia|rewrite length_replicate; lia].
  cbn [mbind option_bind wb_mem]. rewrite drop_ge, app_nil_r by (rewrite length_replicate; lia).
  rewrite CoAPSerialize_Message_ok; [|done|fold bs; unfold slen, COAP_MSG_MAX_PDU_LEN; lia|done|done].
  fold bs. cbn [mbind option_bind]. rewrite u16_small by (unfold slen in *; lia).
  rewrite drop_replicate. set (buf := bs ++ replicate (1280 - List.length bs) 0).
  assert (slen buf = COAP_MSG_MAX_PDU_LEN) as Lb
    by (unfold buf, slen, COAP_MSG_MAX_PDU_LEN; rewrite length_app, length_replicate; lia).
  unfold slen in Lb. rewrite (proj2 (Z.ltb_ge _ _)) by (rewrite Lb; unfold slen, COAP_MSG_MAX_PDU_LEN; lia).
  assert (take (Z.to_nat (slen bs)) buf = bs) as -> by apply take_slen.
  change (network (c <| sendbuf := buf |>)) with (network c).
  destruct (Cloud_CoAPNetwork_write (network c) (Some bs) (slen bs) e) as [rc e1] eqn:Ew.
  apply network_write_ok' in Ew as (-> & Hi & Hs). cbn [Z.eqb COAP_SUCCESS].
  pose proof (client_sendbuf c ps buf Hc Lb) as Hc1. unfold new_pending, listed.
  destruct (_ || _).
  - destruct (list_add_ok _ _ m e1 Hc1 Hm) as (c2 & e2 & Ha & Hc2 & Hi2 & Hs2).
    { fold bs. cbn. unfold buf. by rewrite take_app_length. }
    fold bs in Ha. rewrite Ha.
    cbn [mbind option_bind]. exists c2, e2. rewrite Hi2, Hs2, Hi, Hs. done.
  - exists (c <| sendbuf := buf |>), e1. rewrite app_nil_r. done.
Qed.
End Reliable.

(** ** Receiving *)

(** Handlers that use the client as it is meant to be used: whatever they send is added
    to the list, and they do not take requests from it nor read datagrams. *)
Class CoapAppClient (E : Type) `{!HalUdp E} `{!CoapApp E} `{!Hal E} `{!HalDatagrams E} := {
  handler_ok h u m c e ps :
    client c ps ->
    exists c' e' new, resp_handler h u m c e = Some (c', e') /\ client c' (ps ++ new)
      /\ udp_in e' = udp_in e
}.

(** The message has the token of the request. *)
Definition answers (m : CoAPMessage) (p : pending) : bool :=
  let tok := rq_token (pd_request p) in
  negb (slen tok =? 0) && (slen tok =? tokenlen (header m))
  && bool_decide (tok = take (Z.to_nat (tokenlen (header m))) (token m)).

Lemma find_token_ok m ps :
  List.length (token m) = 8%nat -> Forall pending_ok ps ->
  (Forall (fun p => answers m p = false) ps /\ find_token m (node_of <$> ps) = Some None)
  \/ exists ps1 p ps2, ps = ps1 ++ p :: ps2 /\ Forall (fun p => answers m p = false) ps1
       /\ answers m p = true /\ find_token m (node_of <$> ps) = Some (Some (node_of p)).
Proof.
  intros Hl Hps. induction Hps as [|p ps Hp Hps IH]; [by left|]. cbn [fmap list_fmap find_token].
  assert (nd_tokenlen (node_of p) = slen (rq_token (pd_request p))
          /\ nd_token (node_of p) = rq_token (pd_request p)) as [-> ->]
    by (unfold node_of; by destruct (timers _ _) as [[? ?] ?]).
  destruct Hp as [[_ Ht] _]. set (tok := rq_token (pd_request p)) in *.
  assert ((if negb (slen tok =? 0) && (slen tok =? tokenlen (header m))
           then memcmp_eq tok (token m) (tokenlen (header m)) else Some false)
          = Some (answers m p)) as ->.
  { unfold answers. fold tok. destruct (Z.eqb_spec (slen tok) 0) as [|H0]; [done|]. cbn [negb andb].
    destruct (Z.eqb_spec (slen tok) (tokenlen (header m))) as [E|]; [|done]. cbn [andb].
    rewrite <-E. unfold memcmp_eq, slen in *. rewrite !(proj2 (Z.ltb_ge _ _)) by lia. cbn [orb].
    by rewrite Nat2Z.id, firstn_all. }
  cbn [mbind option_bind]. destruct (answers m p) eqn:Ea.
  - right. exists [], p, ps. by split_and!.
  - destruct IH as [[Hn Hf]|(ps1 & q & ps2 & -> & Hn & Hq & Hf)].
    + left. split; [by constructor|done].
    + right. exists (p :: ps1), q, ps2. split_and!; try done. by constructor.
Qed.

Lemma node_addr p : nd_addr (node_of p) = pd_addr p.
Proof. unfold node_of. by destruct (timers _ _) as [[? ?] ?]. Qed.

Lemma del_node_ok ps1 p ps2 :
  NoDup (pd_addr <$> ps1 ++ p :: ps2) ->
  del_node (pd_addr p) (node_of <$> ps1 ++ p :: ps2) = Some (node_of <$> ps1 ++ ps2).
Proof.
  induction ps1 as [|q ps1 IH]; cbn [app fmap list_fmap del_node]; rewrite node_addr.
  - by rewrite decide_True.
  - intros [Hn Hd]%NoDup_cons. rewrite decide_False; [by rewrite IH|].
    intros Eq. apply Hn. rewrite fmap_app, elem_of_app. right. rewrite fmap_cons, Eq. left.
Qed.

Lemma client_remove c ps1 p ps2 l cnt :
  client c (ps1 ++ p :: ps2) -> l = node_of <$> ps1 ++ ps2 -> cnt = u8 (count c - 1) ->
  client (c <| sendlist := l |> <| count := cnt |>) (ps1 ++ ps2).
Proof.
  intros [C1 C2 C3 C4 C5 C6 C7] -> ->. split; cbn; try done.
  - rewrite C2, !length_app. cbn [List.length]. unfold u8. dlia.
  - apply Forall_app in C3 as [H1 [_ H2]%Forall_cons]. by apply Forall_app.
  - eapply sublist_NoDup; [exact C4|]. apply fmap_sublist. by apply sublist_app, sublist_cons.
  - apply Forall_app in C5 as [H1 [_ H2]%Forall_cons]. by apply Forall_app.
Qed.

(** An empty acknowledgement. *)
Definition ack_bytes (id : Z) : list Z := [0x60; 0; id / 256; id mod 256].

Section Receive.

Context {E : Type} `{!Hal E} `{!HalUdp E} `{!CoapApp E} `{!HalMemory E}
        `{!HalDatagrams E} `{!HalUdpUp E} `{!CoapAppClient E}.

Lemma ack_send_ok c ps id e :
  client c ps -> 0 <= id < 65536 ->
  exists c' e', Cloud_CoAPAckMessage_send c id e = Some (COAP_SUCCESS, c', e')
    /\ client c' ps /\ udp_in e' = udp_in e /\ udp_sent e' = udp_sent e ++ [ack_bytes id].
Proof.
  intros Hc Hid. unfold Cloud_CoAPAckMessage_send. rewrite CoAPMessage_init_fields.
  change (CoAPMessageId_set (Some (Message (MsgHeader ?v ?t ?n ?c ?i) ?tok ?os ?oc ?od ?pll ?p ?h ?r ?u ?k)) id)
    with (COAP_SUCCESS, Some (Message (MsgHeader v t n c id) tok os oc od pll p h r u k)).
  cbv beta iota. set (m := Message _ _ _ _ _ _ _ _ _ _ _).
  assert (message_of m = Msg 1 2 0 id [] [] []) as Em by done.
  assert (sendable m) as Hm.
  { split; try done. rewrite Em. split; cbn; try done; try (unfold is_byte; lia); constructor. }
  assert (bytes (message_of m) = ack_bytes id) as Eb by (rewrite Em; done).
  pose proof (Cloud_CoAPMessage_send_ok c ps m e Hc Hm) as Hs. rewrite Eb in Hs.
  destruct (Hs ltac:(done)) as (c' & e' & -> & Hc' & Hi & Ho). cbn [mbind option_bind].
  exists c', e'. split_and!; try done. change (new_pending (next_addr c) m) with (@nil pending) in Hc'.
  by rewrite app_nil_r in Hc'.
Qed.

(** The acknowledgement that a confirmable response gets. *)
Definition acks (m : CoAPMessage) : list (list Z) :=
  if COAP_MESSAGE_TYPE_CON =? type (header m) then [ack_bytes (msgid (header m))] else [].

Lemma resp_ack_ok c ps m e :
  client c ps -> 0 <= msgid (header m) < 65536 ->
  exists c1 e1,
    (if COAP_MESSAGE_TYPE_CON =? type (header m)
     then '(_, c, e) ← Cloud_CoAPAckMessage_send c (msgid (header m)) e; Some (c, e)
     else Some (c, e)) = Some (c1, e1)
    /\ client c1 ps /\ udp_in e1 = udp_in e /\ udp_sent e1 = udp_sent e ++ acks m.
Proof.
  intros Hc Hid. unfold acks. destruct (COAP_MESSAGE_TYPE_CON =? _).
  - destruct (ack_send_ok c ps _ e Hc Hid) as (c1 & e1 & -> & H1). by exists c1, e1.
  - exists c, e. by rewrite app_nil_r.
Qed.

Lemma call_handler_ok p m c e ps :
  client c ps ->
  exists c' e' new, call_handler (node_of p) m c e = Some (c', e') /\ client c' (ps ++ new)
    /\ udp_in e' = udp_in e.
Proof.
  intros Hc. unfold call_handler. destruct (_ =? 0); [|by apply handler_ok].
  exists c, e, []. by rewrite app_nil_r.
Qed.

(** A response without a request. *)
Lemma resp_unknown_ok c ps m e :
  client c ps -> List.length (token m) = 8%nat -> 0 <= msgid (header m) < 65536 ->
  Forall (fun p => answers m p = false) ps ->
  exists c' e', Cloud_CoAPRespMessage_handle c m e = Some (COAP_ERROR_NOT_FOUND, c', e')
    /\ client c' ps /\ udp_in e' = udp_in e /\ udp_sent e' = udp_sent e ++ acks m.
Proof.
  intros Hc Hl Hid Hn. unfold Cloud_CoAPRespMessage_handle.
  destruct (resp_ack_ok c ps m e Hc Hid) as (c1 & e1 & -> & Hc1 & Hi & Hs). cbn [mbind option_bind].
  destruct (find_token_ok m ps Hl (cl_pending _ _ Hc)) as [[_ Hf]|(ps1 & p & ps2 & -> & _ & Hp & _)].
  - rewrite (cl_list _ _ Hc1), Hf. by exists c1, e1.
  - apply Forall_app in Hn as [_ [Hn _]%Forall_cons]. congruence.
Qed.

(** The response to a request: its handler is called, and then the request is removed. *)
Lemma resp_known_ok c ps1 p ps2 m e :
  client c (ps1 ++ p :: ps2) -> List.length (token m) = 8%nat -> 0 <= msgid (header m) < 65536 ->
  Forall (fun p => answers m p = false) ps1 -> answers m p = true ->
  exists c1 e1 c2 e2 c' new,
    client c1 (ps1 ++ p :: ps2) /\ udp_in e1 = udp_in e /\ udp_sent e1 = udp_sent e ++ acks m
    /\ call_handler (node_of p) (m <| user := rq_user (pd_request p) |>) c1 e1 = Some (c2, e2)
    /\ Cloud_CoAPRespMessage_handle c m e = Some (COAP_SUCCESS, c', e2)
    /\ client c' (ps1 ++ ps2 ++ new) /\ udp_in e2 = udp_in e.
Proof.
  intros Hc Hl Hid Hn Ha. unfold Cloud_CoAPRespMessage_handle.
  destruct (resp_ack_ok c _ m e Hc Hid) as (c1 & e1 & -> & Hc1 & Hi & Hs). cbn [mbind option_bind].
  destruct (find_token_ok m _ Hl (cl_pending _ _ Hc)) as [[Hn' _]|(qs1 & q & qs2 & Eq & Hn' & Hq & Hf)].
  { apply Forall_app in Hn' as [_ [Hn' _]%Forall_cons]. congruence. }
  rewrite (cl_list _ _ Hc1), Hf. cbn [mbind option_bind]. clear Hf.
  assert (q = p /\ qs1 = ps1 /\ qs2 = ps2) as (-> & -> & ->).
  { clear -Eq Hn Hn' Ha Hq. revert qs1 Eq Hn'. induction Hn as [|a ps1 Hx Hn IH]; intros [|b qs1] Eq Hn';
      injection Eq as E1 E2; try (apply Forall_cons in Hn' as [Hb Hn']); subst; try congruence; try done.
    by destruct (IH qs1 E2 Hn') as (-> & -> & ->). }
  assert (nd_user (node_of p) = rq_user (pd_request p)) as ->
    by (unfold node_of; by destruct (timers _ _) as [[? ?] ?]).
  set (m' := m <| user := _ |>).
  destruct (call_handler_ok p m' c1 e1 _ Hc1) as (c2 & e2 & new & Hh & Hc2 & Hi2).
  rewrite Hh. cbn [mbind option_bind]. rewrite <-app_assoc in Hc2. cbn [app] in Hc2.
  rewrite (cl_list _ _ Hc2), node_addr, del_node_ok by apply (cl_addrs _ _ Hc2).
  cbn [mbind option_bind]. exists c1, e1, c2, e2. eexists _, new. split_and!; try done.
  - by eapply client_remove.
  - by rewrite Hi2.
Qed.

(** An acknowledgement. *)
Fixpoint acknowledged (id : Z) (ps : list pending) : list pending :=
  match ps with
  | [] => []
  | p :: ps' => if rq_msgid (pd_request p) =? id then (p <| pd_acked := true |>) :: ps'
                else p :: acknowledged id ps'
  end.

Lemma ack_node_ok id ps : ack_node id (node_of <$> ps) = node_of <$> acknowledged id ps.
Proof.
  induction ps as [|p ps IH]; [done|]. cbn [fmap list_fmap ack_node acknowledged].
  assert (nd_msgid (node_of p) = rq_msgid (pd_request p)) as ->
    by (unfold node_of; by destruct (timers _ _) as [[? ?] ?]).
  destruct (_ =? id); cbn [fmap list_fmap]; [|by rewrite IH]. f_equal.
  unfold node_of. cbn. by destruct (timers _ _) as [[? ?] ?].
Qed.

Lemma acknowledged_addrs id ps : pd_addr <$> acknowledged id ps = pd_addr <$> ps.
Proof.
  induction ps as [|p ps IH]; [done|]. cbn [acknowledged].
  destruct (_ =? id); cbn [fmap list_fmap]; [done|by rewrite IH].
Qed.

Lemma acknowledged_forall (P : pending -> Prop) id ps :
  (forall p, P p -> P (p <| pd_acked := true |>)) -> Forall P ps -> Forall P (acknowledged id ps).
Proof.
  intros HP H. induction H as [|p ps Hp H IH]; [constructor|]. cbn [acknowledged].
  destruct (_ =? id); constructor; auto.
Qed.

Lemma ack_handle_ok c ps m :
  client c ps ->
  client (snd (Cloud_CoAPAckMessage_handle c m)) (acknowledged (msgid (header m)) ps).
Proof.
  intros [C1 C2 C3 C4 C5 C6 C7]. split; cbn; try done.
  - by rewrite C1, ack_node_ok.
  - assert (List.length (acknowledged (msgid (header m)) ps) = List.length ps) as ->; [|done].
    by rewrite <-!(length_fmap pd_addr), acknowledged_addrs.
  - by apply acknowledged_forall.
  - by rewrite acknowledged_addrs.
  - by apply acknowledged_forall.
Qed.

(** Any datagram that is shorter than the buffer. *)
Lemma handle_total c ps bs e :
  client c ps -> bytes_ok bs -> slen bs < COAP_MSG_MAX_PDU_LEN ->
  exists c' e' ps',
    Cloud_CoAPMessage_handle c (bs ++ replicate (1280 - List.length bs) 0) (slen bs) e = Some (c', e')
    /\ client c' ps' /\ udp_in e' = udp_in e.
Proof.
  intros Hc Hb Hl. unfold Cloud_CoAPMessage_handle. pose proof (slen_nonneg bs) as Hn.
  unfold COAP_MSG_MAX_PDU_LEN in Hl. rewrite u16_small by lia.
  set (buf := bs ++ _).
  assert (slen buf = 1280) as Lb
    by (unfold buf, slen in *; rewrite length_app, length_replicate; lia).
  destruct (CoAPDeserialize_Message_total message_zero buf (slen bs)) as (code & m & Hd & _);
    [done|done| |lia|lia|].
  { apply bytes_ok_app. split; [done|]. apply Forall_replicate. unfold is_byte. lia. }
  rewrite Hd. cbn [mbind option_bind].
  apply CoAPDeserialize_Message_keeps in Hd as [Ht Hid]; [|cbn; lia].
  change (List.length (token message_zero)) with 8%nat in Ht.
  destruct (COAPAckMsg (header m)).
  { eexists _, e, _. split; [done|]. split; [by apply ack_handle_ok|done]. }
  destruct (Cloud_CoAPRespMsg (header m)); [|by exists c, e, ps].
  destruct (find_token_ok m ps Ht (cl_pending _ _ Hc)) as [[Hu _]|(ps1 & p & ps2 & -> & Hu & Ha & _)].
  - destruct (resp_unknown_ok c ps m e Hc Ht Hid Hu) as (c' & e' & -> & Hc' & Hi & _).
    cbn [mbind option_bind]. by exists c', e', ps.
  - destruct (resp_known_ok c ps1 p ps2 m e Hc Ht Hid Hu Ha)
      as (c1 & e1 & c2 & e2 & c' & new & _ & _ & _ & _ & -> & Hc' & Hi).
    cbn [mbind option_bind]. eexists c', e2, _. by split_and!.
Qed.

Lemma recv_all fuel c ps timeout n e :
  client c ps -> Forall (fun d => slen d < COAP_MSG_MAX_PDU_LEN) (udp_in e) ->
  (List.length (udp_in e) < fuel)%nat ->
  exists c' e' ps',
    recv_loop fuel c timeout 0 n e = Some (0, c', e') /\ client c' ps' /\ udp_in e' = [].
Proof.
  revert c ps e. induction fuel as [|fuel IH]; intros c ps e Hc Hd Hf; [lia|]. cbn [recv_loop].
  pose proof (network_read_ok (network c) (recvbuf c) timeout e (cl_recvbuf _ _ Hc)) as Hr.
  pose proof (udp_in_bytes e) as Hb.
  destruct (udp_in e) as [|d ds].
  - destruct Hr as (rc & e' & -> & Hrc & Hi & _). cbn [mbind option_bind].
    rewrite (proj2 (Z.ltb_ge 0 rc)) by done. eexists _, e', ps. split; [done|].
    split; [by apply client_recvbuf|done].
  - apply Forall_cons in Hd as [Hl Hd]. apply Forall_cons in Hb as [[Hb Hne] _].
    destruct Hr as (e1 & -> & Hi & _). cbn [mbind option_bind].
    unfold slen, COAP_MSG_MAX_PDU_LEN in Hl. rewrite firstn_all2 by lia.
    assert (0 < slen d) as Hpos by (destruct d; [done|unfold slen; cbn [List.length]; lia]).
    rewrite (proj2 (Z.ltb_lt 0 _)) by done.
    destruct (handle_total (c <| recvbuf := d ++ replicate (1280 - List.length d) 0 |>) ps d e1)
      as (c2 & e2 & ps2 & -> & Hc2 & Hi2);
      [apply client_recvbuf; [done|]|done|unfold slen, COAP_MSG_MAX_PDU_LEN; lia|].
    { unfold slen, COAP_MSG_MAX_PDU_LEN. rewrite length_app, length_replicate. lia. }
    cbn [mbind option_bind Z.eqb]. apply (IH c2 ps2 e2); [done|by rewrite Hi2, Hi|].
    rewrite Hi2, Hi. cbn [List.length] in Hf. lia.
Qed.
End Receive.

(** ** How long a request lives *)

(** How often a request is still sent. *)
Definition remaining (p : pending) : nat :=
  if rq_con (pd_request p) then List.length (filter (fun a => pd_age p < a)%nat [3; 8; 17]%nat) else 0.

Definition to_send (ps : list pending) : list (list Z) :=
  concat ((fun p => replicate (remaining p) (rq_bytes (pd_request p))) <$> ps).

Definition waiting (p : pending) : Prop := pending_ok p /\ pd_acked p = false.

Lemma tick_waiting p :
  waiting p ->
  match (tick p).1 with
  | Some p' => waiting p' /\ pd_age p' = S (pd_age p) /\ pd_request p' = pd_request p
  | None => S (pd_age p) = last_age (rq_con (pd_request p))
  end.
Proof.
  intros [[Hr Ha] Hk]. unfold tick. rewrite Hk, andb_false_r. cbn [fst].
  destruct (Nat.eqb_spec (S (pd_age p)) (last_age (rq_con (pd_request p)))); [done|].
  split; [|done]. split; [|done]. split; [done|]. cbn. lia.
Qed.

Lemma remaining_tick p :
  waiting p ->
  remaining p = (List.length (tick p).2 + match (tick p).1 with Some p' => remaining p' | None => 0 end)%nat
  /\ Forall (fun d => d = rq_bytes (pd_request p)) (tick p).2.
Proof.
  intros [[_ Ha] Hk]. destruct p as [addr [u i t b r con] age acked]. cbn in Hk. subst acked.
  unfold tick, due, remaining. cbn [pd_request pd_age pd_acked rq_con rq_bytes] in *.
  destruct con; cbn [last_age] in *; repeat (destruct age as [|age]; try lia); by repeat constructor.
Qed.

Lemma replicate_forall {A} (x : A) l : Forall (fun y => y = x) l -> l = replicate (List.length l) x.
Proof. induction 1 as [|y l -> _ IH]; [done|]. cbn [List.length replicate]. by rewrite <-IH. Qed.

Lemma ticks_cons p ps :
  ticks (p :: ps) = match (tick p).1 with Some p' => p' :: ticks ps | None => ticks ps end.
Proof. done. Qed.

(** A cycle sends some of what there is to send. *)
Lemma to_send_tick ps : Forall waiting ps -> to_send ps ≡ₚ resent ps ++ to_send (ticks ps).
Proof.
  intros H. induction H as [|p ps Hp H IH]; [done|].
  destruct (remaining_tick p Hp) as [Er Hf]. pose proof (tick_waiting p Hp) as Ht.
  unfold to_send, resent in *. rewrite ticks_cons. cbn [fmap list_fmap concat]. rewrite IH, Er, replicate_add.
  rewrite <-(replicate_forall _ _ Hf). destruct (tick p).1 as [p'|]; cbn [fmap list_fmap concat].
  - destruct Ht as (_ & _ & ->). rewrite <-!app_assoc. apply Permutation_app_head.
    rewrite !app_assoc. by apply Permutation_app_tail, Permutation_app_comm.
  - rewrite app_nil_r, <-app_assoc. done.
Qed.

Lemma ticks_waiting ps : Forall waiting ps -> Forall waiting (ticks ps).
Proof.
  intros H. induction H as [|p ps Hp H IH]; [constructor|]. rewrite ticks_cons.
  pose proof (tick_waiting p Hp) as Ht. destruct (tick p).1; [|done]. constructor; [apply Ht|done].
Qed.

Lemma to_send_during k ps :
  Forall waiting ps -> to_send ps ≡ₚ sent_during k ps ++ to_send (after k ps).
Proof.
  revert ps. induction k as [|k IH]; intros ps H; [done|]. cbn [sent_during after].
  rewrite to_send_tick, <-app_assoc by done. by rewrite <-IH by by apply ticks_waiting.
Qed.

Lemma after_last k ps :
  Forall (fun p => waiting p /\ last_age (rq_con (pd_request p)) <= pd_age p + k)%nat ps ->
  after k ps = [].
Proof.
  revert ps. induction k as [|k IH]; intros ps H.
  - destruct H as [|p ps [[[_ Ha] _] Hl] _]; [done|]. lia.
  - cbn [after]. apply IH. induction H as [|p ps [Hw Hl] _ IHp]; [constructor|].
    rewrite ticks_cons. pose proof (tick_waiting p Hw) as Ht. destruct (tick p).1 as [p'|]; [|done].
    constructor; [|done]. destruct Ht as (Hw' & Ea & Er). split; [done|]. rewrite Ea, Er. lia.
Qed.

(** An acknowledged confirmable request. *)
Lemma tick_acked p :
  pending_ok p -> pd_acked p = true -> rq_con (pd_request p) = true ->
  exists p', (tick p).1 = Some p' /\ pd_acked p' = true /\ pd_addr p' = pd_addr p
    /\ pd_request p' = pd_request p.
Proof.
  intros [_ Hage] Ha Hc. unfold tick, due. rewrite Ha, Hc, andb_true_r. rewrite Hc in Hage.
  cbn [andb last_age] in *.
  destruct (existsb (Nat.eqb (S (pd_age p))) [3; 8; 17]%nat) eqn:Ed; [by exists p|]. cbn [fst].
  destruct (Nat.eqb_spec (S (pd_age p)) 17) as [E|]; [by rewrite E in Ed|].
  by exists (p <| pd_age ::= S |>).
Qed.

Lemma after_acked k ps p :
  Forall pending_ok ps -> p ∈ ps -> pd_acked p = true -> rq_con (pd_request p) = true ->
  exists p', p' ∈ after k ps /\ pd_addr p' = pd_addr p.
Proof.
  revert ps p. induction k as [|k IH]; intros ps p Hok Hp Ha Hc; [by exists p|]. cbn [after].
  destruct (tick_acked p) as (p' & Et & Ha' & Haddr & Hr); [by eapply Forall_forall in Hok|done..|].
  destruct (IH (ticks ps) p') as (q & Hq & Eq).
  - by apply ticks_ok.
  - apply list_elem_of_omap. by exists p.
  - done.
  - by rewrite Hr.
  - exists q. split; [done|]. by rewrite Eq.
Qed.

(** ** The message of a datagram *)

(** A datagram in the receive buffer, which is cleared. *)
Lemma parse_response M :
  ok M -> slen (bytes M) < COAP_MSG_MAX_PDU_LEN ->
  last_number 0 (m_options M) < 65536 -> ends_ok (m_options M) (m_payload M) ->
  exists msg,
    CoAPDeserialize_Message (Some message_zero)
      (Some (bytes M ++ replicate (1280 - List.length (bytes M)) 0)) (slen (bytes M))
    = Some (COAP_SUCCESS, Some msg)
    /\ message_of msg = received M /\ tokenlen (header msg) = slen (m_token M)
    /\ List.length (token msg) = 8%nat.
Proof.
  intros HM Hl Hn He. unfold slen, COAP_MSG_MAX_PDU_LEN in Hl.
  destruct (CoAPDeserialize_Message_ok M (replicate (1280 - List.length (bytes M)) 0) HM Hn He)
    as (msg & Hd & Hm & Ht).
  { right. destruct (1280 - List.length (bytes M))%nat as [|k] eqn:Ek; [lia|].
    by exists 0, (replicate k 0). }
  exists msg. split_and!; try done.
  by apply CoAPDeserialize_Message_keeps in Hd as [-> _]; [|cbn; lia].
Qed.

Lemma received_fields M msg :
  message_of msg = received M ->
  type (header msg) = m_type M /\ code (header msg) = m_code M /\ msgid (header msg) = m_id M
  /\ take (Z.to_nat (tokenlen (header msg))) (token msg) = m_token M.
Proof. unfold message_of, received. by intros [= _ -> -> -> -> _ _]. Qed.

(** ** Properties of the client *)

Section Properties.

Context {E : Type} `{!Hal E} `{!HalUdp E} `{!CoapApp E} `{!HalMemory E}
        `{!HalDatagrams E} `{!HalUdpUp E}.

(** C15. Requests that no datagram answers are retransmitted and given up: in any 17
    cycles in which none arrives, the client, which waits for the requests [ps], sends
    the bytes of each confirmable one again as often as its schedule has left, three
    times from the start, and nothing else, and drops them all. *)
Theorem coap_retransmission (c : Cloud_CoAPContext) (ps : list pending) (e : E) :
  client c ps -> Forall (fun p => pd_acked p = false) ps -> udp_in e = [] ->
  exists c' e' ds,
    cycles 17 c e = Some (c', e')
    /\ udp_sent e' = udp_sent e ++ ds /\ ds ≡ₚ to_send ps
    /\ sendlist c' = [] /\ count c' = 0.
Proof.
  intros Hc Ha Hi. assert (Forall waiting ps) as Hw.
  { pose proof (cl_pending _ _ Hc) as Hp. rewrite Forall_forall in Ha, Hp |- *. intros p H. split; auto. }
  assert (after 17 ps = []) as He.
  { apply after_last. eapply Forall_impl; [exact Hw|]. intros p Hp. split; [done|].
    destruct (rq_con _); cbn [last_age]; lia. }
  destruct (cycles_quiet 17 c ps e Hc Hi) as (c' & e' & E1 & Hc' & _ & Hs).
  rewrite He in Hc'. exists c', e', (sent_during 17 ps). split_and!; try done.
  - rewrite (to_send_during 17 ps Hw), He. unfold to_send. by rewrite app_nil_r.
  - by rewrite (cl_list _ _ Hc').
  - by rewrite (cl_count _ _ Hc').
Qed.

(** C31. Sending a message: one that is larger than a datagram may be is refused and
    nothing changes; another one is written to the network as its RFC 7252 bytes, once,
    and a request, or a confirmable 2.05 response, is added to the requests that wait,
    with these bytes, its token, identifier, user data and handler, to be retransmitted
    if it is confirmable. *)
Theorem coap_send (c : Cloud_CoAPContext) (ps : list pending) (m : CoAPMessage) (e : E) :
  client c ps -> sendable m -> slen (bytes (message_of m)) < 65536 ->
  if COAP_MSG_MAX_PDU_LEN <? slen (bytes (message_of m))
  then Cloud_CoAPMessage_send (Some c) (Some m) e = Some (COAP_ERROR_DATA_SIZE, Some c, e)
  else exists c' e',
    Cloud_CoAPMessage_send (Some c) (Some m) e = Some (COAP_SUCCESS, Some c', e')
    /\ client c' (ps ++ new_pending (next_addr c) m)
    /\ udp_in e' = udp_in e /\ udp_sent e' = udp_sent e ++ [bytes (message_of m)].
Proof. apply Cloud_CoAPMessage_send_ok. Qed.

(** An acknowledged request is never given up: without a response, however many
    cycles pass, its node stays in the list. *)
Theorem coap_acknowledged_kept (c : Cloud_CoAPContext) (ps : list pending) (p : pending) (k : nat) (e : E) :
  client c ps -> udp_in e = [] -> p ∈ ps -> pd_acked p = true -> rq_con (pd_request p) = true ->
  exists c' e', cycles k c e = Some (c', e')
    /\ exists n, n ∈ sendlist c' /\ nd_addr n = pd_addr p.
Proof.
  intros Hc Hi Hp Ha Hcon. destruct (cycles_quiet k c ps e Hc Hi) as (c' & e' & E1 & Hc' & _ & _).
  exists c', e'. split; [done|]. pose proof (cl_pending _ _ Hc) as Hok.
  destruct (after_acked k ps p Hok Hp Ha Hcon) as (p' & Hp' & Haddr).
  exists (node_of p'). rewrite (cl_list _ _ Hc'), node_addr. split; [|done]. by apply list_elem_of_fmap_2.
Qed.

Context `{!CoapAppClient E}.

(** C18. No datagrams lead the client astray: whatever has arrived, as long as each is
    shorter than the receive buffer of 1280 bytes (one that fills it can be read past its
    end, [CoapMessage.coap_full_datagram_overread]), a cycle reads and handles all of it, without an
    access outside an object or to a freed node, and ends with the client in order: the
    nodes of its list are distinct objects, [count] is their number, each is at an age
    of its schedule. *)
Theorem coap_cycle_safe (c : Cloud_CoAPContext) (ps : list pending) (e : E) :
  client c ps -> Forall (fun d => slen d < COAP_MSG_MAX_PDU_LEN) (udp_in e) ->
  exists c' e' ps',
    Cloud_CoAPMessage_cycle (S (List.length (udp_in e))) c e = Some (COAP_SUCCESS, c', e')
    /\ client c' ps' /\ udp_in e' = [].
Proof.
  intros Hc Hd. unfold Cloud_CoAPMessage_cycle, Cloud_CoAPMessage_recv.
  destruct (recv_all (S (List.length (udp_in e))) c ps (waittime c) 0 e Hc Hd)
    as (c1 & e1 & ps1 & -> & Hc1 & Hi1); [lia|]. cbn [mbind option_bind].
  destruct (cycle_rest c1 ps1 e1 Hc1) as (c' & e' & -> & Hc' & Hi' & _).
  exists c', e', (ticks ps1). by rewrite Hi'.
Qed.

(** C14. The response to a request: when a datagram arrives that is the RFC 7252 format
    of a response [M] with the token of a request [p] that waits, and of no earlier one,
    and whose last option is not empty unless a payload follows, the cycle acknowledges it if it is confirmable, calls the handler of the request
    once, with the user data and a message of the fields, options and payload of [M],
    and removes the request; the other requests, and those that the handler makes, are
    a cycle older. *)
Theorem coap_response (c : Cloud_CoAPContext) (ps1 ps2 : list pending) (p : pending)
    (M : message) (e : E) :
  client c (ps1 ++ p :: ps2) -> udp_in e = [bytes M] ->
  ok M -> slen (bytes M) < COAP_MSG_MAX_PDU_LEN ->
  last_number 0 (m_options M) < 65536 -> ends_ok (m_options M) (m_payload M) ->
  0x40 <= m_code M < 0xc0 ->
  m_token M <> [] -> rq_token (pd_request p) = m_token M ->
  Forall (fun q => rq_token (pd_request q) <> m_token M) ps1 ->
  exists msg c1 e1 c2 e2 c' e' new,
    message_of msg = received M /\ user msg = rq_user (pd_request p)
    /\ client c1 (ps1 ++ p :: ps2)
    /\ udp_sent e1 = udp_sent e ++ (if m_type M =? COAP_MESSAGE_TYPE_CON then [ack_bytes (m_id M)] else [])
    /\ call_handler (node_of p) msg c1 e1 = Some (c2, e2)
    /\ Cloud_CoAPMessage_cycle 2 c e = Some (COAP_SUCCESS, c', e')
    /\ client c' (ticks (ps1 ++ ps2 ++ new))
    /\ udp_sent e' = udp_sent e2 ++ resent (ps1 ++ ps2 ++ new).
Proof.
  intros Hc Hi HM Hl Hn He Hcode Htok Hp Hps1.
  pose proof (network_read_ok (network c) (recvbuf c) (waittime c) e (cl_recvbuf _ _ Hc)) as Hr.
  rewrite Hi in Hr. destruct Hr as (e0 & Hr & Hi0 & Hs0).
  pose proof Hl as Hl'. unfold slen, COAP_MSG_MAX_PDU_LEN in Hl'. rewrite firstn_all2 in Hr by lia.
  destruct (parse_response M HM Hl Hn He) as (msg & Hd & Hm & Ht & Hlen).
  destruct (received_fields M msg Hm) as (Etype & Ecode & Eid & Etok).
  set (buf := bytes M ++ _) in *.
  assert (client (c <| recvbuf := buf |>) (ps1 ++ p :: ps2)) as Hc0.
  { apply client_recvbuf; [done|]. unfold buf, slen, COAP_MSG_MAX_PDU_LEN.
    rewrite length_app, length_replicate. lia. }
  assert (forall q, rq_token (pd_request q) = m_token M -> answers msg q = true) as Hans.
  { intros q Eq. unfold answers. rewrite Eq, Ht, Z.eqb_refl, <-Ht, Etok, bool_decide_true by done.
    rewrite (proj2 (Z.eqb_neq _ 0)); [done|]. rewrite Ht. unfold slen. by destruct (m_token M). }
  assert (Forall (fun q => answers msg q = false) ps1) as Hno.
  { eapply Forall_impl; [exact Hps1|]. intros q Hq. unfold answers. rewrite Etok.
    by rewrite (bool_decide_false (_ = m_token M)), andb_false_r. }
  destruct (resp_known_ok _ ps1 p ps2 msg e0 Hc0 Hlen) as (c1 & e1 & c2 & e2 & c3 & new & H1 & H2 & H3 & H4 & H5 & H6 & H7).
  { rewrite Eid. apply (ok_id _ HM). } { done. } { by apply Hans. }
  destruct (recv_quiet 0 c3 (ps1 ++ ps2 ++ new) (waittime c) 0 e2 H6) as (c4 & e4 & Hrest & Hc4 & Hi4 & Hs4);
    [by rewrite H7, Hi0|].
  destruct (cycle_rest c4 _ e4 Hc4) as (c' & e' & Hcyc & Hc' & _ & Hs').
  exists (msg <| user := rq_user (pd_request p) |>), c1, e1, c2, e2, c', e', new.
  split_and!; try done; [|unfold Cloud_CoAPMessage_cycle, Cloud_CoAPMessage_recv|by rewrite Hs', Hs4].
  - rewrite H3, Hs0. unfold acks. rewrite Etype, Eid, Z.eqb_sym. done.
  - rewrite recv_loop_S, Hr. cbn [mbind option_bind]. cbv zeta.
    assert (0 < slen (bytes M)) as Hpos.
    { rewrite bytes_length. pose proof (slen_nonneg (m_token M)).
      pose proof (slen_nonneg (options_bytes (m_options M))).
      pose proof (slen_nonneg (payload_bytes (m_payload M))). lia. }
    rewrite (proj2 (Z.ltb_lt _ _) Hpos).
    unfold Cloud_CoAPMessage_handle. rewrite u16_small by (unfold slen in *; lia). rewrite Hd.
    cbn [mbind option_bind]. unfold COAPAckMsg, Cloud_CoAPRespMsg, COAP_MSG_CODE_EMPTY_MESSAGE.
    rewrite Ecode, (proj2 (Z.eqb_neq (m_code M) 0)), (proj2 (Z.leb_le 64 (m_code M))),
      (proj2 (Z.ltb_lt (m_code M) 192)) by lia.
    cbn [andb]. rewrite H5. cbn [mbind option_bind Z.eqb]. rewrite Hrest. exact Hcyc.
Qed.

End Properties.

(** ** A platform and an application

    Datagrams that wait to be read and those that were sent; handlers that do nothing. *)
Record net := Net { net_in : list (list Z); net_out : list (list Z) }.

(** What can be on the wire. *)
Definition datagram (d : list Z) : list Z := match d with [] => [0] | _ => u8 <$> d end.

#[global] Instance net_hal : Hal net := {|
  HAL_UptimeMs e := (0, e);
  HAL_SleepMs _ e := e;
  HAL_Malloc _ e := (true, e);
  HAL_MutexCreate e := (true, e);
  HAL_SSL_Establish _ _ _ _ e := (0, e);
  HAL_SSL_Destroy _ e := e;
  HAL_SSL_Read _ _ _ e := (0, [], e);
  HAL_SSL_Write _ _ _ e := (0, e);
  HAL_indeterminate _ := 0
|}.

#[global] Instance net_udp : HalUdp net := {|
  HAL_UDP_create _ _ e := (3, e);
  HAL_UDP_write _ bs n e := (0, Net (net_in e) (net_out e ++ from_option (fun b => [b]) [] bs));
  HAL_UDP_readTimeout _ n _ e :=
    match net_in e with
    | [] => (0, [], e)
    | d :: ds => let bs := take (Z.to_nat n) (datagram d) in
                 (Z.of_nat (List.length bs), bs, Net ds (net_out e))
    end;
  HAL_UDP_close_without_connect _ e := e
|}.

#[global] Instance net_memory : HalMemory net.
Proof. by split. Defined.

Definition net_queue (e : net) : list (list Z) := datagram <$> net_in e.

#[global] Instance net_datagrams : HalDatagrams net.
Proof.
  refine (Build_HalDatagrams net net_hal net_udp net_out net_queue _ _ _ _).
  - intros e. apply Forall_fmap, Forall_true. intros [|b d]; cbn; (split; [|done]).
    + by repeat constructor.
    + constructor; [apply u8_range|]. apply Forall_fmap, Forall_true. intros. apply u8_range.
  - done.
  - by intros h bs n e rc e' [= <- <-].
  - intros h n timeout [[|d ds] o] Hn; cbn [net_in fmap list_fmap].
    + by exists 0, (Net [] o).
    + by exists (Net ds o).
Defined.

#[global] Instance net_up : HalUdpUp net.
Proof. by split. Defined.

#[global] Instance net_app : CoapApp net := {| resp_handler _ _ _ c e := Some (c, e) |}.

#[global] Instance net_app_client : CoapAppClient net.
Proof. split. intros h u m c e ps Hc. exists c, e, []. by rewrite app_nil_r. Defined.

(** A client with requests in nodes 0, 1, ... *)
Definition client_of (ps : list pending) : Cloud_CoAPContext :=
  Context 1 (Network COAP_ENDPOINT_NOSEC 3) 0 (replicate 1280 0) (replicate 1280 0)
    (u8 (Z.of_nat (List.length ps))) 10 (node_of <$> ps) 100 (List.length ps).

Lemma client_of_ok ps :
  Forall pending_ok ps -> pd_addr <$> ps = seq 0 (List.length ps) -> client (client_of ps) ps.
Proof.
  intros Hp Ha. split; try done.
  - rewrite Ha. apply NoDup_ListNoDup, seq_NoDup.
  - apply Forall_forall. intros p Hin. assert (pd_addr p ∈ pd_addr <$> ps) as Hi by by apply list_elem_of_fmap_2.
    rewrite Ha, elem_of_seq in Hi. cbn. lia.
Qed.

(** A confirmable request and one that is not. *)
Definition get : request := Request 5 7 [1; 2] (bytes (message_of sample)) 9 true.
Definition non : request := Request 6 8 [3] [0x51; 2; 0; 8; 3] 9 false.

Definition two : list pending := [Pending 0 get 0 false; Pending 1 non 0 false].

Lemma two_ok : client (client_of two) two.
Proof.
  apply client_of_ok; [|done]. repeat constructor; cbn; unfold slen; cbn; lia.
Qed.

Lemma coap_retransmission_witness :
  exists c' e' ds,
    cycles 17 (client_of two) (Net [] []) = Some (c', e')
    /\ net_out e' = ds /\ ds ≡ₚ replicate 3 (bytes (message_of sample)) /\ sendlist c' = [].
Proof.
  destruct (coap_retransmission (client_of two) two (Net [] [])) as (c' & e' & ds & H1 & H2 & H3 & H4 & _).
  - apply two_ok.
  - by repeat constructor.
  - done.
  - exists c', e', ds. split_and!; try done.
Defined.

Lemma coap_send_witness :
  exists c' e',
    Cloud_CoAPMessage_send (Some (client_of two)) (Some sample) (Net [] []) = Some (COAP_SUCCESS, Some c', e')
    /\ client c' (two ++ [Pending 2 (request_of sample) 0 false])
    /\ net_out e' = [bytes (message_of sample)].
Proof.
  destruct (coap_send (client_of two) two sample (Net [] [])) as (c' & e' & H1 & H2 & _ & H4).
  - apply two_ok.
  - apply sample_sendable.
  - done.
  - exists c', e'. split; [exact H1|split; [exact H2|exact H4]].
Defined.

Lemma coap_acknowledged_kept_witness :
  exists c' e', cycles 100 (client_of [Pending 0 get 0 true]) (Net [] []) = Some (c', e')
    /\ exists n, n ∈ sendlist c' /\ nd_addr n = 0%nat.
Proof.
  apply (coap_acknowledged_kept _ [Pending 0 get 0 true] (Pending 0 get 0 true) 100 (Net [] [])); try done.
  - apply client_of_ok; [|done]. repeat constructor; cbn; unfold slen; cbn; lia.
  - by left.
Defined.

(** Three datagrams that are not CoAP messages. *)
Lemma coap_cycle_safe_witness :
  exists c' e' ps',
    Cloud_CoAPMessage_cycle 4 (client_of two) (Net [[0xFF]; [64; 0; 1]; [0x62; 69; 0; 7; 1; 2; 0xE0]] [])
    = Some (COAP_SUCCESS, c', e')
    /\ client c' ps' /\ udp_in e' = [].
Proof.
  destruct (coap_cycle_safe (client_of two) two (Net [[0xFF]; [64; 0; 1]; [0x62; 69; 0; 7; 1; 2; 0xE0]] []))
    as (c' & e' & ps' & H1 & H2 & H3).
  - apply two_ok.
  - by repeat constructor.
  - exists c', e', ps'. split; [exact H1|split; [exact H2|exact H3]].
Defined.

(** A confirmable 2.05 response to the first request. *)
Definition content : message := Msg 1 0 69 300 [1; 2] [(12, [50])] [123; 125].

Lemma content_ok : ok content.
Proof. split; vm_compute; repeat constructor; done. Qed.

Lemma coap_response_witness :
  exists msg c1 e1 c' e',
    message_of msg = received content /\ user msg = 5
    /\ net_out e1 = [ack_bytes 300]
    /\ call_handler (node_of (Pending 0 get 0 false)) msg c1 e1 = Some (c1, e1)
    /\ Cloud_CoAPMessage_cycle 2 (client_of two) (Net [bytes content] []) = Some (COAP_SUCCESS, c', e').
Proof.
  destruct (coap_response (client_of two) [] [Pending 1 non 0 false] (Pending 0 get 0 false) content
      (Net [bytes content] []))
    as (msg & c1 & e1 & c2 & e2 & c' & e' & new & H1 & H2 & _ & H4 & _ & H6 & _).
  - apply two_ok.
  - by vm_compute.
  - apply content_ok.
  - by vm_compute.
  - by vm_compute.
  - left. done.
  - cbn. lia.
  - done.
  - done.
  - constructor.
  - exists msg, c1, e1, c', e'. split_and!; [exact H1|exact H2|exact H4|reflexivity|exact H6].
Defined.
