(* ===== verification/MqttPacket.v ===== *)
(** * MqttPacket: the primitives of the MQTT wire format

    [eng/mqtt/MQTTPacket.c] and [eng/mqtt/MQTTPacket.h]: the fixed header byte,
    the variable-length Remaining Length field, 16-bit integers and
    length-prefixed strings, read from and written to byte buffers. *)

From S2P Require Import Prelude.

(** ** Data *)

Definition MQTTPACKET_BUFFER_TOO_SHORT : Z := -2.
Definition MQTTPACKET_READ_ERROR : Z := -1.
Definition MQTTPACKET_READ_COMPLETE : Z := 0.

(** Control packet types ([enum msgTypes]). *)
Definition MQTT_CPT_RESERVED : Z := 0.
Definition CONNECT : Z := 1.
Definition CONNACK : Z := 2.
Definition PUBLISH : Z := 3.
Definition PUBACK : Z := 4.
Definition PUBREC : Z := 5.
Definition PUBREL : Z := 6.
Definition PUBCOMP : Z := 7.
Definition SUBSCRIBE : Z := 8.
Definition SUBACK : Z := 9.
Definition UNSUBSCRIBE : Z := 10.
Definition UNSUBACK : Z := 11.
Definition PINGREQ : Z := 12.
Definition PINGRESP : Z := 13.
Definition DISCONNECT : Z := 14.

(** [MQTTString]: a C string, or a pointer with a length.  A [char *] is [None]
    for NULL; a C string is its bytes before the NUL, and a data pointer is the
    rest of the object it points into. *)
Record MQTTString := {
  cstring : option (list Z);
  lenstring_len : Z;
  lenstring_data : option (list Z)
}.

Definition MQTTString_initializer : MQTTString :=
  {| cstring := None; lenstring_len := 0; lenstring_data := None |}.

(** ** Header byte macros *)

Definition MQTT_HEADER_GET_TYPE (head : Z) : Z := Z.shiftr (Z.land head 240) 4.
Definition MQTT_HEADER_GET_DUP (head : Z) : Z := Z.shiftr (Z.land head 8) 3.
Definition MQTT_HEADER_GET_QOS (head : Z) : Z := Z.shiftr (Z.land head 6) 1.
Definition MQTT_HEADER_GET_RETAIN (head : Z) : Z := Z.land head 1.

Definition MQTT_HEADER_SET_TYPE (head type : Z) : Z :=
  u8 (Z.lor head (Z.land (Z.shiftl type 4) 240)).
Definition MQTT_HEADER_SET_DUP (head dup : Z) : Z :=
  u8 (Z.lor head (Z.land (Z.shiftl dup 3) 8)).
Definition MQTT_HEADER_SET_QOS (head qos : Z) : Z :=
  u8 (Z.lor head (Z.land (Z.shiftl qos 1) 6)).
Definition MQTT_HEADER_SET_RETAIN (head retain : Z) : Z :=
  u8 (Z.lor head (Z.land retain 1)).

(** ** Remaining Length *)

(** The [do ... while] of [MQTTPacket_encode]; [fuel] bounds its iterations. *)
Fixpoint MQTTPacket_encode_loop (fuel : nat) (length rc : Z) (w : wbuf)
    : option (Z * wbuf) :=
  match fuel with
  | O => None
  | S fuel' =>
      let d := Z.rem length 128 in
      let length' := Z.quot length 128 in
      let d := if 0 <? length' then Z.lor d 128 else d in
      w' ← put d w;
      if 0 <? length' then MQTTPacket_encode_loop fuel' length' (rc + 1) w'
      else Some (rc + 1, w')
  end.

(** Five base-128 digits cover every [int]. *)
Definition MQTTPacket_encode (length : Z) (w : wbuf) : option (Z * wbuf) :=
  MQTTPacket_encode_loop 5 length 0 w.

(** [ptr += MQTTPacket_encode(ptr, length)]: the pointer moves past the digits. *)
Definition write_remlen (length : Z) (w : wbuf) : option wbuf :=
  '(_, w) ← MQTTPacket_encode length w; Some w.

Definition MAX_NO_OF_REMAINING_LENGTH_BYTES : Z := 4.

Section Decode.
(** The character source: its return code, the character, its next state. *)
Context {St : Type} (getcharfn : St -> option (Z * Z * St)).

Fixpoint MQTTPacket_decode_loop (fuel : nat) (value multiplier len : Z) (s : St)
    : option (Z * Z * St) :=
  match fuel with
  | O => None
  | S fuel' =>
      let len := len + 1 in
      if MAX_NO_OF_REMAINING_LENGTH_BYTES <? len then Some (len, value, s)
      else
        '(rc, c, s) ← getcharfn s;
        if negb (rc =? 1) then Some (len, value, s)
        else
          let value := value + Z.land c 127 * multiplier in
          let multiplier := multiplier * 128 in
          if negb (Z.land c 128 =? 0)
          then MQTTPacket_decode_loop fuel' value multiplier len s
          else Some (len, value, s)
  end.

(** Returns the number of bytes and the value ([int *value]). *)
Definition MQTTPacket_decode (s : St) : option (Z * Z * St) :=
  MQTTPacket_decode_loop 5 0 1 0 s.
End Decode.

(** Compare [MQTTPacket_len] with the number of bytes of the encoding. *)
Definition MQTTPacket_len (rem_len : Z) : Z :=
  let rem_len := rem_len + 1 in
  if rem_len <? 128 then rem_len + 1
  else if rem_len <? 16384 then rem_len + 2
  else if rem_len <? 2097151 then rem_len + 3
  else rem_len + 4.

(** [bufchar] reads [count] characters through the static [bufptr] and keeps the
    last; the state is the value of [bufptr] as an offset into [buf]. *)
Fixpoint bufchar_loop (buf : list Z) (n : nat) (c : Z) (bufptr : nat)
    : option (Z * nat) :=
  match n with
  | O => Some (c, bufptr)
  | S n' => c' ← buf !! bufptr; bufchar_loop buf n' c' (S bufptr)
  end.

Definition bufchar (buf : list Z) (count : nat) (bufptr : nat)
    : option (Z * Z * nat) :=
  '(c, bufptr) ← bufchar_loop buf count 0 bufptr;
  Some (Z.of_nat count, c, bufptr).

Definition MQTTPacket_decodeBuf (buf : list Z) (cur : nat) : option (Z * Z) :=
  '(len, value, _) ← MQTTPacket_decode (bufchar buf 1) cur;
  Some (len, value).

(** ** Integers, characters and strings *)

Definition readInt (buf : list Z) (cur : nat) : option (Z * nat) :=
  b0 ← buf !! cur;
  b1 ← buf !! (cur + 1)%nat;
  Some (256 * b0 + b1, (cur + 2)%nat).

Definition readChar (buf : list Z) (cur : nat) : option (Z * nat) :=
  c ← buf !! cur; Some (c, S cur).

Definition writeChar (c : Z) (w : wbuf) : option wbuf := put c w.

Definition writeInt (anInt : Z) (w : wbuf) : option wbuf :=
  w ← put (u8 (Z.quot anInt 256)) w;
  put (u8 (Z.rem anInt 256)) w.

Definition writeCString (string : list Z) (w : wbuf) : option wbuf :=
  let len := Z.of_nat (List.length string) in
  w ← writeInt len w;
  cpy string len w.

Definition getLenStringLen (ptr : list Z) : option Z :=
  b0 ← ptr !! 0%nat;
  b1 ← ptr !! 1%nat;
  Some (256 * u8 b0 + u8 b1).

Definition writeMQTTString (mqttstring : MQTTString) (w : wbuf) : option wbuf :=
  if 0 <? lenstring_len mqttstring then
    w ← writeInt (lenstring_len mqttstring) w;
    data ← lenstring_data mqttstring;
    cpy data (lenstring_len mqttstring) w
  else
    match cstring mqttstring with
    | Some s => writeCString s w
    | None => writeInt 0 w
    end.

(** [pptr] and [enddata] are offsets into [buf]; [enddata] comes from the packet
    and may lie outside the buffer. *)
Definition readMQTTLenString (mqttstring : MQTTString) (buf : list Z)
    (pptr : nat) (enddata : Z) : option (Z * MQTTString * nat) :=
  if 1 <? enddata - Z.of_nat pptr then
    '(len, pptr) ← readInt buf pptr;
    if Z.of_nat pptr + len <=? enddata then
      Some (1, {| cstring := None; lenstring_len := len;
                  lenstring_data := Some (drop pptr buf) |},
            (pptr + Z.to_nat len)%nat)
    else
      Some (0, {| cstring := None; lenstring_len := len;
                  lenstring_data := lenstring_data mqttstring |}, pptr)
  else
    Some (0, {| cstring := None; lenstring_len := lenstring_len mqttstring;
                lenstring_data := lenstring_data mqttstring |}, pptr).

Definition MQTTstrlen (mqttstring : MQTTString) : Z :=
  match cstring mqttstring with
  | Some s => Z.of_nat (List.length s)
  | None => lenstring_len mqttstring
  end.

(** [bptr] is a C string; the comparison reads it up to its terminator. *)
Definition MQTTPacket_equals (a : MQTTString) (bptr : list Z) : option bool :=
  let '(aptr, alen) :=
    match cstring a with
    | Some s => (s, Z.of_nat (List.length s))
    | None => (default [] (lenstring_data a), lenstring_len a)
    end in
  let blen := Z.of_nat (List.length bptr) in
  if alen =? blen then
    if Z.of_nat (List.length aptr) <? alen then None
    else Some (bool_decide (take (Z.to_nat alen) aptr = bptr))
  else Some false.

(** ** The wire format, as the protocol states it *)

(** Remaining Length: base-128 digits, least significant first, a continuation
    bit on each digit but the last (MQTT 3.1.1, 2.2.3). *)
Definition remlen_bytes (n : Z) : list Z :=
  if n <? 128 then [n]
  else if n <? 16384 then [n mod 128 + 128; n / 128]
  else if n <? 2097152 then [n mod 128 + 128; n / 128 mod 128 + 128; n / 16384]
  else [n mod 128 + 128; n / 128 mod 128 + 128; n / 16384 mod 128 + 128;
        n / 2097152].

Definition remlen_max : Z := 268435455.

Definition int_bytes (n : Z) : list Z := [n / 256; n mod 256].

Definition str_bytes (s : list Z) : list Z :=
  int_bytes (Z.of_nat (List.length s)) ++ s.

(** The characters an [MQTTString] denotes. *)
Definition mstr_data (s : MQTTString) : list Z :=
  match cstring s with
  | Some c => c
  | None => take (Z.to_nat (lenstring_len s)) (default [] (lenstring_data s))
  end.

(** The strings callers build: one of the two representations, at most 65535
    bytes, and a data pointer to at least as many bytes as the length says. *)
Record mstr_ok (s : MQTTString) : Prop := {
  mo_bytes : bytes_ok (mstr_data s);
  mo_len : Z.of_nat (List.length (mstr_data s)) < 65536;
  mo_excl : is_Some (cstring s) -> lenstring_len s <= 0;
  mo_data : cstring s = None ->
            0 <= lenstring_len s
            <= Z.of_nat (List.length (default [] (lenstring_data s)))
            /\ (0 < lenstring_len s -> is_Some (lenstring_data s))
}.

(** What a serializer that tests its buffer first does: it refuses and leaves
    the buffer alone, or it stores the packet at the start, changes nothing
    after it and returns its length. *)
Definition stores (buf : list Z) (buflen need : Z) (packet : list Z) : Z * list Z :=
  if buflen <? need then (MQTTPACKET_BUFFER_TOO_SHORT, buf)
  else (Z.of_nat (List.length packet), packet ++ drop (List.length packet) buf).

(** ** Facts about the wire format *)

Lemma remlen_bytes_length n :
  0 <= n <= remlen_max ->
  (1 <= List.length (remlen_bytes n) <= 4)%nat.
Proof. intros _. unfold remlen_bytes. repeat case_match; simpl; lia. Qed.

Lemma remlen_bytes_ok n : 0 <= n <= remlen_max -> bytes_ok (remlen_bytes n).
Proof.
  intros H; unfold remlen_max in H; unfold remlen_bytes, bytes_ok, is_byte.
  zcases; repeat constructor; dlia.
Qed.

Lemma int_bytes_ok n : 0 <= n < 65536 -> bytes_ok (int_bytes n).
Proof. intros. unfold int_bytes, bytes_ok, is_byte. repeat constructor; dlia. Qed.

Lemma str_bytes_ok s :
  bytes_ok s -> Z.of_nat (List.length s) < 65536 -> bytes_ok (str_bytes s).
Proof.
  intros. unfold str_bytes. apply bytes_ok_app. split; [|done].
  apply int_bytes_ok. lia.
Qed.

Lemma str_bytes_length s : List.length (str_bytes s) = (2 + List.length s)%nat.
Proof. done. Qed.

#[export] Hint Resolve remlen_bytes_ok int_bytes_ok str_bytes_ok : cint.

Lemma mstr_strlen s : mstr_ok s -> MQTTstrlen s = Z.of_nat (List.length (mstr_data s)).
Proof.
  intros [_ _ _ Hd]. unfold MQTTstrlen, mstr_data in *.
  destruct (cstring s); [done|]. destruct (Hd eq_refl) as [? _].
  rewrite length_take. lia.
Qed.

(** ** Writing *)

Lemma encode_step fuel n rc w :
  0 <= n ->
  MQTTPacket_encode_loop (S fuel) n rc w =
    if n <? 128 then w' ← put n w; Some (rc + 1, w')
    else w' ← put (n mod 128 + 128) w;
         MQTTPacket_encode_loop fuel (n / 128) (rc + 1) w'.
Proof.
  intros Hn. cbn [MQTTPacket_encode_loop].
  rewrite Z.rem_mod_nonneg, Z.quot_div_nonneg by lia.
  destruct (Z.ltb_spec n 128).
  - rewrite (proj2 (Z.ltb_ge _ _)) by dlia. by rewrite Z.mod_small by lia.
  - rewrite (proj2 (Z.ltb_lt _ _)) by dlia. rewrite lor_128 by dlia. done.
Qed.

#[local] Arguments MQTTPacket_encode_loop : simpl never.

(** The encoder writes the digits of the Remaining Length and returns their
    number; its loop ends within its fuel. *)
Lemma MQTTPacket_encode_puts n w :
  0 <= n <= remlen_max ->
  MQTTPacket_encode n w =
    (w' ← puts (remlen_bytes n) w;
     Some (Z.of_nat (List.length (remlen_bytes n)), w')).
Proof.
  unfold remlen_max, MQTTPacket_encode, remlen_bytes. intros Hn.
  replace (n / 16384) with (n / 128 / 128) by dlia.
  replace (n / 2097152) with (n / 128 / 128 / 128) by dlia.
  zcases; cbn [puts mbind option_bind];
    repeat (rewrite encode_step by dlia;
            first [rewrite (proj2 (Z.ltb_lt _ _)) by dlia
                  |rewrite (proj2 (Z.ltb_ge _ _)) by dlia];
            destruct (put _ _); simpl; [|done]);
    done.
Qed.

Lemma writeInt_puts n w : 0 <= n < 65536 -> writeInt n w = puts (int_bytes n) w.
Proof.
  intros. unfold writeInt, int_bytes. simpl.
  rewrite Z.quot_div_nonneg, Z.rem_mod_nonneg by lia.
  rewrite !u8_small by (unfold is_byte; dlia).
  destruct (put (n / 256) w) as [w1|]; simpl; [|done]. by destruct (put _ w1).
Qed.

Lemma writeCString_puts s w :
  Z.of_nat (List.length s) < 65536 -> writeCString s w = puts (str_bytes s) w.
Proof.
  intros. unfold writeCString, str_bytes. rewrite writeInt_puts by lia.
  rewrite puts_app. destruct (puts (int_bytes _) w); simpl; [|done].
  apply cpy_all.
Qed.

Lemma write_remlen_writes n :
  0 <= n <= remlen_max -> writes (write_remlen n) (remlen_bytes n).
Proof.
  intros Hn w. unfold write_remlen. rewrite MQTTPacket_encode_puts by done.
  by destruct (puts (remlen_bytes n) w).
Qed.

Lemma writeChar_writes c : writes (writeChar c) [c].
Proof. apply writes_put. Qed.

Lemma writeInt_writes n : 0 <= n < 65536 -> writes (writeInt n) (int_bytes n).
Proof. intros Hn w. by apply writeInt_puts. Qed.

Lemma writeCString_writes s :
  Z.of_nat (List.length s) < 65536 -> writes (writeCString s) (str_bytes s).
Proof. intros Hs w. by apply writeCString_puts. Qed.

Lemma cpy_take src n w :
  0 <= n <= Z.of_nat (List.length src) -> cpy src n w = puts (take (Z.to_nat n) src) w.
Proof. intros. unfold cpy. by zcases. Qed.

Lemma writeMQTTString_puts s w :
  mstr_ok s -> writeMQTTString s w = puts (str_bytes (mstr_data s)) w.
Proof.
  intros [_ Hl He Hd]. unfold writeMQTTString, mstr_data in *.
  destruct (cstring s) as [c|] eqn:Ec.
  - rewrite (proj2 (Z.ltb_ge _ _)) by (by apply He; eexists).
    by apply writeCString_puts.
  - destruct (Hd eq_refl) as [Hn Hs]. rewrite length_take in Hl.
    destruct (Z.ltb_spec 0 (lenstring_len s)) as [H|H].
    + destruct (Hs H) as [d Ed]. rewrite Ed in *; cbn [default from_option id mbind option_bind] in *.
      rewrite writeInt_puts by lia. unfold str_bytes.
      rewrite puts_app, length_take.
      replace (Z.of_nat (_ `min` _)) with (lenstring_len s) by lia.
      destruct (puts (int_bytes _) w); simpl; [|reflexivity].
      by apply cpy_take.
    + replace (lenstring_len s) with 0 by lia. rewrite take_0. apply writeInt_puts. lia.
Qed.

Lemma writeMQTTString_writes s :
  mstr_ok s -> writes (writeMQTTString s) (str_bytes (mstr_data s)).
Proof. intros Hs w. by apply writeMQTTString_puts. Qed.

#[export] Hint Resolve write_remlen_writes writeChar_writes writeInt_writes
  writeCString_writes writeMQTTString_writes : writes.

(** The length the serializers test their buffer against is never short of
    what they write. *)
Lemma MQTTPacket_len_bound n :
  0 <= n <= remlen_max ->
  1 + Z.of_nat (List.length (remlen_bytes n)) + n <= MQTTPacket_len n.
Proof.
  unfold remlen_max, MQTTPacket_len, remlen_bytes. intros.
  zcases; simpl; lia.
Qed.

(** ** Reading *)

(** Turn what is known of the memory from an offset on into the bytes at the
    offsets that follow. *)
Ltac peel_bytes :=
  repeat match goal with
  | H : drop _ _ = _ ++ _ |- _ => progress cbn [app] in H
  | H : drop _ _ = _ :: _ |- _ =>
      let Ha := fresh "Hc" in let Hb := fresh "Hd" in
      destruct (drop_cons_lookup _ _ _ _ H) as [Ha Hb]; clear H
  | H : Forall is_byte (_ :: _) |- _ =>
      let Ha := fresh "Hb" in let Hb := fresh "Hk" in
      destruct (proj1 (Forall_cons _ _ _) H) as [Ha Hb]; clear H
  end.

Lemma readInt_spec buf cur n rest :
  0 <= n < 65536 ->
  drop cur buf = int_bytes n ++ rest ->
  readInt buf cur = Some (n, (cur + 2)%nat) /\ drop (cur + 2) buf = rest.
Proof.
  intros Hn H. apply drop_cons_lookup in H as [H0 H].
  apply drop_cons_lookup in H as [H1 H].
  unfold readInt. rewrite H0. simpl. replace (cur + 1)%nat with (S cur) by lia.
  rewrite H1. simpl. replace (cur + 2)%nat with (S (S cur)) by lia.
  split; [|done]. do 2 f_equal. dlia.
Qed.

Lemma readChar_spec buf cur c rest :
  drop cur buf = c :: rest ->
  readChar buf cur = Some (c, S cur) /\ drop (S cur) buf = rest.
Proof.
  intros [H0 H]%drop_cons_lookup. unfold readChar. by rewrite H0.
Qed.

Lemma bufchar_1 buf p : bufchar buf 1 p = (c ← buf !! p; Some (1, c, S p)).
Proof. unfold bufchar. simpl. by destruct (buf !! p). Qed.

Lemma decode_step buf fuel v m l p c :
  buf !! p = Some c -> is_byte c -> l < 4 ->
  MQTTPacket_decode_loop (bufchar buf 1) (S fuel) v m l p =
    if c <? 128 then Some (l + 1, v + c * m, S p)
    else MQTTPacket_decode_loop (bufchar buf 1) fuel (v + c mod 128 * m)
           (m * 128) (l + 1) (S p).
Proof.
  intros Hc Hb Hl. cbn [MQTTPacket_decode_loop].
  rewrite (proj2 (Z.ltb_ge _ _)) by (unfold MAX_NO_OF_REMAINING_LENGTH_BYTES; lia).
  rewrite bufchar_1, Hc. simpl.
  rewrite land_128, land_127 by done.
  destruct (Z.ltb_spec c 128); simpl; [|done].
  unfold is_byte in Hb. by rewrite Z.mod_small by lia.
Qed.

(** The decoder inverts the encoder wherever the bytes stand in a buffer. *)
Lemma MQTTPacket_decodeBuf_remlen buf cur n rest :
  0 <= n <= remlen_max ->
  drop cur buf = remlen_bytes n ++ rest ->
  MQTTPacket_decodeBuf buf cur = Some (Z.of_nat (List.length (remlen_bytes n)), n)
  /\ drop (cur + List.length (remlen_bytes n)) buf = rest.
Proof.
  intros Hn H. pose proof (remlen_bytes_ok n Hn) as Hok.
  split; [|by rewrite <-drop_drop, H, drop_app_length].
  unfold remlen_max in Hn.
  unfold MQTTPacket_decodeBuf, MQTTPacket_decode.
  revert Hok H; unfold remlen_bytes; zcases; intros Hok Hbuf;
    unfold bytes_ok in Hok; peel_bytes;
    repeat (erewrite decode_step by (first [eassumption | lia]);
            (rewrite (proj2 (Z.ltb_lt _ _)) by dlia)
            || (rewrite (proj2 (Z.ltb_ge _ _)) by dlia));
    cbn [mbind option_bind]; do 2 f_equal; dlia.
Qed.

(** The common shape of the serializers. *)
Lemma serializer_stores (f : wbuf -> option wbuf) (packet buf : list Z)
    (buflen need : Z) :
  writes f packet -> bytes_ok packet ->
  Z.of_nat (List.length packet) <= need ->
  buflen = Z.of_nat (List.length buf) ->
  (if buflen <? need then Some (MQTTPACKET_BUFFER_TOO_SHORT, buf)
   else w ← f (WBuf buf 0); Some (Z.of_nat (wb_pos w), wb_mem w))
  = Some (stores buf buflen need packet).
Proof.
  intros Hf Hok Hl ->. unfold stores. destruct (Z.ltb_spec (Z.of_nat (List.length buf)) need); [done|].
  rewrite (writes_start _ _ _ Hf Hok) by lia. done.
Qed.

(** ** Properties *)

(** Remaining Length round trip: [MQTTPacket_encode] stores one to four
    bytes for every length the protocol allows, and [MQTTPacket_decodeBuf] reads
    the same length back from wherever they stand, whatever surrounds them. *)
Theorem MQTTPacket_remlen_roundtrip (n : Z) (before after : list Z) :
  0 <= n <= remlen_max -> (4 <= List.length after)%nat ->
  exists len w,
    MQTTPacket_encode n (WBuf (before ++ after) (List.length before)) = Some (len, w)
    /\ 1 <= len <= 4
    /\ Z.of_nat (wb_pos w) = Z.of_nat (List.length before) + len
    /\ MQTTPacket_decodeBuf (wb_mem w) (List.length before) = Some (len, n)
    /\ take (List.length before) (wb_mem w) = before
    /\ drop (wb_pos w) (wb_mem w) = drop (Z.to_nat len) after.
Proof.
  intros Hn Ha. pose proof (remlen_bytes_length n Hn) as Hl.
  rewrite MQTTPacket_encode_puts by done.
  rewrite puts_fits;
    [|by apply remlen_bytes_ok|cbn [wb_pos wb_mem]; rewrite length_app; lia].
  eexists _, _. split; [reflexivity|]. split; [lia|].
  unfold blit. cbn [wb_pos wb_mem]. split; [lia|].
  rewrite take_app_length, <-drop_drop, drop_app_length.
  split.
  { eapply MQTTPacket_decodeBuf_remlen; [done|]. apply drop_app_length. }
  split; [apply take_app_length|].
  rewrite <-drop_drop, drop_app_length, drop_app_length. by rewrite Nat2Z.id.
Qed.

Lemma MQTTPacket_remlen_roundtrip_witness :
  exists len w,
    MQTTPacket_encode 321 (WBuf ([7] ++ [0; 0; 0; 0]) 1) = Some (len, w)
    /\ 1 <= len <= 4 /\ Z.of_nat (wb_pos w) = Z.of_nat 1 + len
    /\ MQTTPacket_decodeBuf (wb_mem w) 1 = Some (len, 321)
    /\ take 1 (wb_mem w) = [7]
    /\ drop (wb_pos w) (wb_mem w) = drop (Z.to_nat len) [0; 0; 0; 0].
Proof.
  exact (MQTTPacket_remlen_roundtrip 321 [7] [0; 0; 0; 0]
           ltac:(unfold remlen_max; lia) ltac:(simpl; lia)).
Defined.

(** A Remaining Length of more than four bytes is not reported:
    [MQTTPacket_decodeBuf] stops after the fourth continuation byte without
    reading a fifth, and returns a length of 5 with the value of the four digits
    it read; no return value tells the caller of the malformed packet. *)
Theorem MQTTPacket_decodeBuf_malformed (c0 c1 c2 c3 : Z) (rest : list Z) :
  bytes_ok [c0; c1; c2; c3] ->
  128 <= c0 -> 128 <= c1 -> 128 <= c2 -> 128 <= c3 ->
  MQTTPacket_decodeBuf (c0 :: c1 :: c2 :: c3 :: rest) 0 =
    Some (5, c0 mod 128 + 128 * (c1 mod 128) + 16384 * (c2 mod 128)
             + 2097152 * (c3 mod 128)).
Proof.
  intros Hok ????. unfold bytes_ok in Hok. peel_bytes.
  unfold MQTTPacket_decodeBuf, MQTTPacket_decode.
  do 4 (erewrite decode_step by (first [reflexivity | eassumption | lia]);
        rewrite (proj2 (Z.ltb_ge _ 128)) by lia).
  cbn [MQTTPacket_decode_loop].
  change (MAX_NO_OF_REMAINING_LENGTH_BYTES <? _) with true.
  cbn [mbind option_bind]. do 2 f_equal. lia.
Qed.

Lemma MQTTPacket_decodeBuf_malformed_witness :
  MQTTPacket_decodeBuf [255; 128; 129; 128; 1] 0 = Some (5, 16511).
Proof.
  exact (MQTTPacket_decodeBuf_malformed 255 128 129 128 [1]
    ltac:(by apply bytes_ok_check) ltac:(lia) ltac:(lia) ltac:(lia) ltac:(lia)).
Defined.

(** The room [MQTTPacket_len] asks for is the exact size of a packet with
    that Remaining Length, except at the top of each digit range, where it asks
    for one byte more than the packet needs: never less. *)
Theorem MQTTPacket_len_tight (n : Z) :
  0 <= n <= remlen_max ->
  MQTTPacket_len n =
    1 + Z.of_nat (List.length (remlen_bytes n)) + n
    + (if decide (n = 127 \/ n = 16383 \/ n = 2097150 \/ n = 2097151) then 1 else 0).
Proof.
  unfold remlen_max, MQTTPacket_len, remlen_bytes. intros.
  zcases; destruct (decide _); simpl; lia.
Qed.

Lemma MQTTPacket_len_tight_witness : 0 <= 127 <= remlen_max /\ MQTTPacket_len 127 = 130.
Proof.
  split; [unfold remlen_max; lia|].
  exact (MQTTPacket_len_tight 127 ltac:(unfold remlen_max; lia)).
Defined.
