(* ===== verification/MqttConnect.v ===== *)
(** * MqttConnect: CONNECT, CONNACK and the two-byte packets

    [eng/mqtt/MQTTConnectClient.c] and [eng/mqtt/MQTTConnect.h]. *)

From S2P Require Import Prelude.
From S2P Require Import MqttPacket.

(** ** Data *)

Definition MQTT_CONN_FLAG_USER_NAME : Z := 128.
Definition MQTT_CONN_FLAG_PASSWORD : Z := 64.
Definition MQTT_CONN_FLAG_WILL_RETAIN : Z := 32.
Definition MQTT_CONN_FLAG_WILL_FLAG : Z := 4.
Definition MQTT_CONN_FLAG_CLEAN_SESSION : Z := 2.

Record MQTTPacket_willOptions := {
  will_struct_id : list Z;
  will_struct_version : Z;
  will_topicName : MQTTString;
  will_message : MQTTString;
  will_retained : Z;
  will_qos : Z
}.

Record MQTTPacket_connectData := {
  cd_struct_id : list Z;
  cd_struct_version : Z;
  cd_MQTTVersion : Z;
  cd_clientID : MQTTString;
  cd_keepAliveInterval : Z;
  cd_cleansession : Z;
  cd_willFlag : Z;
  cd_will : MQTTPacket_willOptions;
  cd_username : MQTTString;
  cd_password : MQTTString
}.

(** C truth values. *)
Definition truth (z : Z) : bool := negb (z =? 0).

(** [s.cstring || s.lenstring.data] *)
Definition present (s : MQTTString) : bool :=
  bool_decide (is_Some (cstring s)) || bool_decide (is_Some (lenstring_data s)).

(** ** CONNECT *)

Definition MQTTSerialize_connectLength (options : MQTTPacket_connectData) : Z :=
  let len := if cd_MQTTVersion options =? 3 then 12
             else if cd_MQTTVersion options =? 4 then 10 else 0 in
  let len := len + (MQTTstrlen (cd_clientID options) + 2) in
  let len :=
    if truth (cd_willFlag options)
    then len + (MQTTstrlen (will_topicName (cd_will options)) + 2
                + MQTTstrlen (will_message (cd_will options)) + 2)
    else len in
  let len := if present (cd_username options)
             then len + (MQTTstrlen (cd_username options) + 2) else len in
  if present (cd_password options)
  then len + (MQTTstrlen (cd_password options) + 2) else len.

Definition connect_flags (options : MQTTPacket_connectData) : Z :=
  let flags := 0 in
  let flags := Z.lor flags (if truth (cd_cleansession options)
                            then MQTT_CONN_FLAG_CLEAN_SESSION else 0) in
  let flags := Z.lor flags (if truth (cd_willFlag options)
                            then MQTT_CONN_FLAG_WILL_FLAG else 0) in
  let flags :=
    if truth (Z.land flags MQTT_CONN_FLAG_WILL_FLAG) then
      let flags := Z.lor flags (Z.shiftl (Z.land (will_qos (cd_will options)) 3) 3) in
      Z.lor flags (if truth (will_retained (cd_will options))
                   then MQTT_CONN_FLAG_WILL_RETAIN else 0)
    else flags in
  let flags := if present (cd_username options)
               then Z.lor flags MQTT_CONN_FLAG_USER_NAME else flags in
  if present (cd_password options)
  then Z.lor flags MQTT_CONN_FLAG_PASSWORD else flags.

(** The writes of [MQTTSerialize_connect], from the header byte on. *)
Definition write_connect (options : MQTTPacket_connectData) (len : Z)
    (w : wbuf) : option wbuf :=
  let flags := connect_flags options in
  w ← writeChar (MQTT_HEADER_SET_TYPE 0 CONNECT) w;
  w ← write_remlen len w;
  w ← (if cd_MQTTVersion options =? 4
       then w ← writeCString (lit "MQTT") w; writeChar 4 w
       else w ← writeCString (lit "MQIsdp") w; writeChar 3 w);
  w ← writeChar flags w;
  w ← writeInt (cd_keepAliveInterval options) w;
  w ← writeMQTTString (cd_clientID options) w;
  w ← (if truth (cd_willFlag options)
       then w ← writeMQTTString (will_topicName (cd_will options)) w;
            writeMQTTString (will_message (cd_will options)) w
       else Some w);
  w ← (if truth (Z.land flags MQTT_CONN_FLAG_USER_NAME)
       then writeMQTTString (cd_username options) w else Some w);
  (if truth (Z.land flags MQTT_CONN_FLAG_PASSWORD)
   then writeMQTTString (cd_password options) w else Some w).

(** The result is the return code and the buffer afterwards. *)
Definition MQTTSerialize_connect (buf : list Z) (buflen : Z)
    (options : MQTTPacket_connectData) : option (Z * list Z) :=
  let len := MQTTSerialize_connectLength options in
  if buflen <? MQTTPacket_len len then Some (MQTTPACKET_BUFFER_TOO_SHORT, buf)
  else
    w ← write_connect options len (WBuf buf 0);
    Some (Z.of_nat (wb_pos w), wb_mem w).

(** ** CONNACK *)

(** [flags.bits.sessionpresent]: on a little-endian target the seven unnamed
    bits come first, so the field is the most significant bit. *)
Definition connack_sessionpresent (all : Z) : Z := Z.shiftr (Z.land all 128) 7.

(** The result is the return code and the two output parameters, which keep
    their old values where the code does not assign them. *)
Definition MQTTDeserialize_connack (sessionPresent connack_rc : Z) (buf : list Z)
    (buflen : Z) : option (Z * Z * Z) :=
  '(header, curdata) ← readChar buf 0;
  if negb (MQTT_HEADER_GET_TYPE header =? CONNACK)
  then Some (0, sessionPresent, connack_rc)
  else
    '(rc, mylen) ← MQTTPacket_decodeBuf buf curdata;
    let curdata := (curdata + Z.to_nat rc)%nat in
    let enddata := Z.of_nat curdata + mylen in
    if enddata - Z.of_nat curdata <? 2 then Some (rc, sessionPresent, connack_rc)
    else
      '(flags, curdata) ← readChar buf curdata;
      '(connack_rc, _) ← readChar buf curdata;
      Some (1, connack_sessionpresent flags, connack_rc).

(** ** PINGREQ and DISCONNECT *)

Definition write_zero (packettype : Z) (w : wbuf) : option wbuf :=
  w ← writeChar (MQTT_HEADER_SET_TYPE 0 packettype) w;
  write_remlen 0 w.

Definition MQTTSerialize_zero (buf : list Z) (buflen packettype : Z)
    : option (Z * list Z) :=
  if buflen <? 2 then Some (MQTTPACKET_BUFFER_TOO_SHORT, buf)
  else
    w ← write_zero packettype (WBuf buf 0);
    Some (Z.of_nat (wb_pos w), wb_mem w).

Definition MQTTSerialize_disconnect (buf : list Z) (buflen : Z) :=
  MQTTSerialize_zero buf buflen DISCONNECT.

Definition MQTTSerialize_pingreq (buf : list Z) (buflen : Z) :=
  MQTTSerialize_zero buf buflen PINGREQ.

(** ** The CONNECT packet, as the protocol lays it out *)

Definition opt_str (b : bool) (s : MQTTString) : list Z :=
  if b then str_bytes (mstr_data s) else [].

Definition connect_flag_bits (o : MQTTPacket_connectData) : Z :=
  (if truth (cd_cleansession o) then 2 else 0)
  + (if truth (cd_willFlag o)
     then 4 + 8 * (will_qos (cd_will o) mod 4)
          + (if truth (will_retained (cd_will o)) then 32 else 0)
     else 0)
  + (if present (cd_password o) then 64 else 0)
  + (if present (cd_username o) then 128 else 0).

(** Everything after the fixed header. *)
Definition connect_body (o : MQTTPacket_connectData) : list Z :=
  (if cd_MQTTVersion o =? 4 then str_bytes (lit "MQTT") ++ [4]
   else str_bytes (lit "MQIsdp") ++ [3])
  ++ [connect_flag_bits o]
  ++ int_bytes (cd_keepAliveInterval o)
  ++ str_bytes (mstr_data (cd_clientID o))
  ++ (opt_str (truth (cd_willFlag o)) (will_topicName (cd_will o))
      ++ opt_str (truth (cd_willFlag o)) (will_message (cd_will o)))
  ++ opt_str (present (cd_username o)) (cd_username o)
  ++ opt_str (present (cd_password o)) (cd_password o).

Definition connect_packet (o : MQTTPacket_connectData) : list Z :=
  16 :: remlen_bytes (Z.of_nat (List.length (connect_body o))) ++ connect_body o.

(** What a caller must supply. *)
Record connect_ok (o : MQTTPacket_connectData) : Prop := {
  co_version : cd_MQTTVersion o = 3 \/ cd_MQTTVersion o = 4;
  co_keepalive : 0 <= cd_keepAliveInterval o < 65536;
  co_client : mstr_ok (cd_clientID o);
  co_topic : mstr_ok (will_topicName (cd_will o));
  co_message : mstr_ok (will_message (cd_will o));
  co_user : mstr_ok (cd_username o);
  co_pass : mstr_ok (cd_password o)
}.

(** ** CONNECT *)

(** The flags take finitely many shapes: compute each. *)
Ltac flag_cases o :=
  let Hq := fresh "Hq" in
  assert (0 <= will_qos (cd_will o) mod 4 < 4) as Hq by dlia;
  generalize dependent (will_qos (cd_will o) mod 4);
  let q := fresh "q" in intros q Hq;
  assert (q = 0 \/ q = 1 \/ q = 2 \/ q = 3) as [-> | [-> | [-> | ->]]] by lia;
  destruct (truth (cd_cleansession o)), (truth (cd_willFlag o)),
    (truth (will_retained (cd_will o))), (present (cd_username o)),
    (present (cd_password o)).

Lemma connect_flags_bits o : connect_flags o = connect_flag_bits o.
Proof.
  unfold connect_flags, connect_flag_bits.
  pose proof (Z.land_ones (will_qos (cd_will o)) 2 ltac:(lia)) as E.
  change (Z.ones 2) with 3 in E. change (2 ^ 2) with 4 in E. rewrite E. clear E.
  flag_cases o; reflexivity.
Qed.

Lemma connect_flag_bits_byte o : is_byte (connect_flag_bits o).
Proof. unfold is_byte, connect_flag_bits. repeat case_match; dlia. Qed.

Lemma connect_flags_user o :
  truth (Z.land (connect_flags o) MQTT_CONN_FLAG_USER_NAME) = present (cd_username o)
  /\ truth (Z.land (connect_flags o) MQTT_CONN_FLAG_PASSWORD) = present (cd_password o).
Proof.
  rewrite connect_flags_bits. unfold connect_flag_bits.
  flag_cases o; split; reflexivity.
Qed.

Lemma opt_str_length b s :
  List.length (opt_str b s) = if b then (2 + List.length (mstr_data s))%nat else 0%nat.
Proof. by destruct b. Qed.

Lemma connect_body_length o :
  connect_ok o ->
  Z.of_nat (List.length (connect_body o)) = MQTTSerialize_connectLength o.
Proof.
  intros [Hv _ Hc Ht Hm Hu Hp].
  unfold MQTTSerialize_connectLength, connect_body.
  rewrite !mstr_strlen by done.
  rewrite !length_app, !opt_str_length, str_bytes_length. simpl (List.length [_]).
  replace (List.length (int_bytes _)) with 2%nat by done.
  destruct Hv as [-> | ->]; simpl;
    destruct (truth _), (present (cd_username o)), (present (cd_password o)); lia.
Qed.

Lemma connect_body_small o :
  connect_ok o -> 0 <= MQTTSerialize_connectLength o <= remlen_max.
Proof.
  intros Ho. rewrite <-connect_body_length by done. split; [lia|].
  unfold remlen_max, connect_body. destruct Ho as [_ _ [] [] [] [] []].
  rewrite !length_app, !opt_str_length, str_bytes_length. simpl (List.length [_]).
  replace (List.length (int_bytes _)) with 2%nat by done.
  repeat case_match; rewrite length_app; simpl; lia.
Qed.

Lemma opt_str_ok b s : mstr_ok s -> bytes_ok (opt_str b s).
Proof. intros []. destruct b; [by apply str_bytes_ok | constructor]. Qed.

#[export] Hint Resolve opt_str_ok connect_flag_bits_byte : cint.

Lemma connect_packet_ok o : connect_ok o -> bytes_ok (connect_packet o).
Proof.
  intros Ho. pose proof (connect_body_small o Ho) as Hs.
  pose proof (connect_body_length o Ho) as Hl.
  unfold connect_packet. constructor; [unfold is_byte; lia|].
  apply bytes_ok_app; split; [apply remlen_bytes_ok; lia|].
  destruct Ho as [_ Hk [] Ht Hm Hu Hp]. unfold connect_body.
  assert (bytes_ok [connect_flag_bits o]).
  { apply Forall_singleton, connect_flag_bits_byte. }
  repeat (apply bytes_ok_app; split); auto with cint.
  - destruct (_ =? 4); by apply bytes_ok_check.
  - apply int_bytes_ok; lia.
Qed.

Lemma writes_opt_str (b : bool) s :
  mstr_ok s ->
  writes (fun w => if b then writeMQTTString s w else Some w) (opt_str b s).
Proof. intros. apply writes_if; auto with writes. Qed.

#[export] Hint Resolve writes_opt_str : writes.

(** The writes of the CONNECT code produce the packet. *)
Lemma write_connect_writes o :
  connect_ok o ->
  writes (write_connect o (MQTTSerialize_connectLength o)) (connect_packet o).
Proof.
  intros Ho. pose proof (connect_body_small o Ho).
  pose proof (connect_body_length o Ho) as Hl.
  destruct (connect_flags_user o) as [Hu Hp].
  unfold write_connect. rewrite Hu, Hp, connect_flags_bits.
  destruct Ho. eapply writes_eq.
  { eapply writes_bind; [apply writeChar_writes|].
    eapply writes_bind; [by apply write_remlen_writes|].
    eapply writes_bind.
    { eapply writes_if; (eapply writes_bind; [|apply writeChar_writes]);
        by apply writeCString_writes. }
    repeat (eapply writes_bind; [by auto with writes|]).
    by auto with writes. }
  unfold connect_packet. rewrite Hl. unfold connect_body.
  unfold opt_str. destruct (truth (cd_willFlag o)); reflexivity.
Qed.

Lemma connect_packet_length o :
  connect_ok o ->
  Z.of_nat (List.length (connect_packet o)) <= MQTTPacket_len (MQTTSerialize_connectLength o).
Proof.
  intros Ho. pose proof (connect_body_small o Ho) as Hs.
  pose proof (MQTTPacket_len_bound _ Hs).
  unfold connect_packet. cbn [List.length]. rewrite length_app.
  rewrite connect_body_length by done.
  pose proof (connect_body_length o Ho). lia.
Qed.

Definition zero_packet (packettype : Z) : list Z := [16 * packettype; 0].

(** [MQTTSerialize_pingreq] and [MQTTSerialize_disconnect] store the two bytes of
    their packet, when the buffer has room for them. *)
Lemma MQTTSerialize_zero_stores t buf :
  0 <= t < 16 ->
  let buflen := Z.of_nat (List.length buf) in
  MQTTSerialize_zero buf buflen t = Some (stores buf buflen 2 (zero_packet t)).
Proof.
  intros Ht buflen.
  assert (MQTT_HEADER_SET_TYPE 0 t = 16 * t) as Eh.
  { apply Z.eqb_eq.
    apply (upto_check (fun t => MQTT_HEADER_SET_TYPE 0 t =? 16 * t) 16);
      [reflexivity | exact Ht]. }
  apply serializer_stores; [| |simpl; lia|done].
  - eapply writes_eq.
    { eapply writes_bind; [apply writeChar_writes|].
      apply write_remlen_writes. unfold remlen_max; lia. }
    by rewrite Eh.
  - unfold zero_packet. repeat apply Forall_cons_2; unfold is_byte; [lia|lia|].
    by apply bytes_ok_check.
Qed.

(** ** Properties *)

Lemma MQTTSerialize_connect_stores (o : MQTTPacket_connectData) (buf : list Z) :
  connect_ok o ->
  let buflen := Z.of_nat (List.length buf) in
  MQTTSerialize_connect buf buflen o =
    Some (stores buf buflen (MQTTPacket_len (MQTTSerialize_connectLength o))
            (connect_packet o)).
Proof.
  intros Ho buflen. unfold MQTTSerialize_connect. apply serializer_stores; auto.
  - by apply write_connect_writes.
  - by apply connect_packet_ok.
  - by apply connect_packet_length.
Qed.

(** C36. [MQTTSerialize_connect] implements the CONNECT packet: for options of
    protocol version 3 or 4 with well-formed strings, it refuses a buffer
    shorter than [MQTTPacket_len] of the computed length without touching it,
    and otherwise stores exactly the packet of the protocol at its start, never
    past its end, leaves the rest of the buffer alone and returns the packet's
    length. *)
Theorem MQTTSerialize_connect_refines (o : MQTTPacket_connectData) (buf : list Z) :
  connect_ok o ->
  let buflen := Z.of_nat (List.length buf) in
  MQTTSerialize_connect buf buflen o =
    Some (stores buf buflen (MQTTPacket_len (MQTTSerialize_connectLength o))
            (connect_packet o)).
Proof. by apply MQTTSerialize_connect_stores. Qed.

Definition example_cstr (s : list Z) : MQTTString :=
  {| cstring := Some s; lenstring_len := 0; lenstring_data := None |}.

Lemma example_cstr_ok s :
  bytes_ok s -> Z.of_nat (List.length s) < 65536 -> mstr_ok (example_cstr s).
Proof. by split. Qed.

Definition example_connect : MQTTPacket_connectData :=
  {| cd_struct_id := lit "MQTC"; cd_struct_version := 0; cd_MQTTVersion := 4;
     cd_clientID := example_cstr (lit "dev"); cd_keepAliveInterval := 60;
     cd_cleansession := 1; cd_willFlag := 0;
     cd_will := {| will_struct_id := lit "MQTW"; will_struct_version := 0;
                   will_topicName := MQTTString_initializer;
                   will_message := MQTTString_initializer;
                   will_retained := 0; will_qos := 0 |};
     cd_username := example_cstr (lit "u"); cd_password := MQTTString_initializer |}.

Lemma MQTTString_initializer_ok : mstr_ok MQTTString_initializer.
Proof.
  split; simpl; [by apply bytes_ok_check | lia | by intros [? ?] | lia].
Qed.

Lemma example_connect_ok : connect_ok example_connect.
Proof.
  split; simpl;
    try (by apply MQTTString_initializer_ok);
    try (apply example_cstr_ok; [by apply bytes_ok_check | simpl; lia]); lia.
Qed.

Lemma MQTTSerialize_connect_refines_witness :
  connect_ok example_connect
  /\ MQTTSerialize_connect (repeat 255 24) 24 example_connect =
       Some (20, [16; 18; 0; 4; 77; 81; 84; 84; 4; 130; 0; 60; 0; 3; 100; 101; 118;
                  0; 1; 117; 255; 255; 255; 255]).
Proof.
  split; [exact example_connect_ok|].
  exact (MQTTSerialize_connect_refines example_connect (repeat 255 24)
           example_connect_ok).
Defined.

(** [MQTTDeserialize_connack] on a CONNACK whose two-byte body is present
    returns success with the return code of the second body byte and, for the
    session flag, the most significant bit of the first. *)
Theorem MQTTDeserialize_connack_ok (sp rc0 h flags code : Z) (rest : list Z) (n : Z) :
  MQTT_HEADER_GET_TYPE h = CONNACK -> is_byte flags -> 2 <= n <= remlen_max ->
  MQTTDeserialize_connack sp rc0 (h :: remlen_bytes n ++ flags :: code :: rest) n =
    Some (1, flags / 128, code).
Proof.
  intros Hh Hf Hn. unfold MQTTDeserialize_connack.
  cbn [readChar lookup list_lookup mbind option_bind].
  rewrite Hh. simpl (negb _). cbn iota.
  destruct (MQTTPacket_decodeBuf_remlen
              (h :: remlen_bytes n ++ flags :: code :: rest) 1 n (flags :: code :: rest))
    as [-> Hd]; [lia|done|].
  cbn [mbind option_bind]. rewrite Nat2Z.id.
  rewrite (proj2 (Z.ltb_ge _ _)) by lia.
  apply readChar_spec in Hd as [-> Hd]. cbn [mbind option_bind].
  apply readChar_spec in Hd as [-> _]. cbn [mbind option_bind].
  do 3 f_equal. unfold connack_sessionpresent.
  apply Z.eqb_eq.
  apply (upto_check (fun f => Z.shiftr (Z.land f 128) 7 =? f / 128) 256);
    [reflexivity | exact Hf].
Qed.

Lemma MQTTDeserialize_connack_ok_witness :
  MQTT_HEADER_GET_TYPE 32 = CONNACK
  /\ MQTTDeserialize_connack 0 255 [32; 2; 1; 5] 2 = Some (1, 0, 5).
Proof.
  split; [reflexivity|].
  exact (MQTTDeserialize_connack_ok 0 255 32 1 5 [] 2 eq_refl
           ltac:(unfold is_byte; lia) ltac:(unfold remlen_max; lia)).
Defined.
