(* ===== verification/MqttPublish.v ===== *)
(** * MqttPublish: PUBLISH and the acknowledgements

    [eng/mqtt/MQTTSerializePublish.c] and [eng/mqtt/MQTTDeserializePublish.c]. *)

From S2P Require Import Prelude.
From S2P Require Import MqttPacket.

(** ** PUBLISH, outgoing *)

Definition MQTTSerialize_publishLength (qos : Z) (topicName : MQTTString)
    (payloadlen : Z) : Z :=
  let len := 0 in
  let len := len + (2 + MQTTstrlen topicName + payloadlen) in
  if 0 <? qos then len + 2 else len.

Definition publish_header (dup qos retained : Z) : Z :=
  let header := MQTT_HEADER_SET_TYPE 0 PUBLISH in
  let header := MQTT_HEADER_SET_DUP header dup in
  let header := MQTT_HEADER_SET_QOS header qos in
  MQTT_HEADER_SET_RETAIN header retained.

(** The writes of [MQTTSerialize_publish]; [payload] is the object the payload
    pointer points into. *)
Definition write_publish (dup qos retained packetid : Z) (topicName : MQTTString)
    (payload : list Z) (payloadlen rem_len : Z) (w : wbuf) : option wbuf :=
  w ← writeChar (publish_header dup qos retained) w;
  w ← write_remlen rem_len w;
  w ← writeMQTTString topicName w;
  w ← (if 0 <? qos then writeInt packetid w else Some w);
  cpy payload payloadlen w.

Definition MQTTSerialize_publish (buf : list Z) (buflen dup qos retained packetid : Z)
    (topicName : MQTTString) (payload : list Z) (payloadlen : Z)
    : option (Z * list Z) :=
  let rem_len := MQTTSerialize_publishLength qos topicName payloadlen in
  if buflen <? MQTTPacket_len rem_len then Some (MQTTPACKET_BUFFER_TOO_SHORT, buf)
  else
    w ← write_publish dup qos retained packetid topicName payload payloadlen
          rem_len (WBuf buf 0);
    Some (Z.of_nat (wb_pos w), wb_mem w).

(** ** PUBLISH, incoming *)

(** The output parameters of [MQTTDeserialize_publish]; the payload pointer is
    the rest of the buffer from where it points. *)
Record publish_out := {
  po_dup : Z;
  po_qos : Z;
  po_retained : Z;
  po_packetid : Z;
  po_topicName : MQTTString;
  po_payload : option (list Z);
  po_payloadlen : Z
}.

(** The result is the return code and the output parameters, each keeping its
    old value where the code does not assign it. *)
Definition MQTTDeserialize_publish (o : publish_out) (buf : list Z) (buflen : Z)
    : option (Z * publish_out) :=
  '(header, curdata) ← readChar buf 0;
  if negb (MQTT_HEADER_GET_TYPE header =? PUBLISH) then Some (0, o)
  else
    let dup := MQTT_HEADER_GET_DUP header in
    let qos := MQTT_HEADER_GET_QOS header in
    let retained := MQTT_HEADER_GET_RETAIN header in
    '(rc, mylen) ← MQTTPacket_decodeBuf buf curdata;
    let curdata := (curdata + Z.to_nat rc)%nat in
    let enddata := Z.of_nat curdata + mylen in
    '(ok, topicName, curdata) ← readMQTTLenString (po_topicName o) buf curdata enddata;
    if (ok =? 0) || (enddata - Z.of_nat curdata <? 0) then
      Some (rc, {| po_dup := dup; po_qos := qos; po_retained := retained;
                   po_packetid := po_packetid o; po_topicName := topicName;
                   po_payload := po_payload o; po_payloadlen := po_payloadlen o |})
    else
      '(packetid, curdata) ←
        (if 0 <? qos then readInt buf curdata else Some (po_packetid o, curdata));
      Some (1, {| po_dup := dup; po_qos := qos; po_retained := retained;
                  po_packetid := packetid; po_topicName := topicName;
                  po_payload := Some (drop curdata buf);
                  po_payloadlen := enddata - Z.of_nat curdata |}).

(** ** Acknowledgements *)

Definition ack_header (packettype dup : Z) : Z :=
  let header := MQTT_HEADER_SET_TYPE 0 packettype in
  let header := MQTT_HEADER_SET_DUP header dup in
  MQTT_HEADER_SET_QOS header (if packettype =? PUBREL then 1 else 0).

Definition write_ack (packettype dup packetid : Z) (w : wbuf) : option wbuf :=
  w ← writeChar (ack_header packettype dup) w;
  w ← write_remlen 2 w;
  writeInt packetid w.

Definition MQTTSerialize_ack (buf : list Z) (buflen packettype dup packetid : Z)
    : option (Z * list Z) :=
  if buflen <? 4 then Some (MQTTPACKET_BUFFER_TOO_SHORT, buf)
  else
    w ← write_ack packettype dup packetid (WBuf buf 0);
    Some (Z.of_nat (wb_pos w), wb_mem w).

(** Return code, packet type, dup flag and packet identifier; the identifier
    keeps its old value [packetid] when the body is too short. *)
Definition MQTTDeserialize_ack (packetid : Z) (buf : list Z) (buflen : Z)
    : option (Z * Z * Z * Z) :=
  '(header, curdata) ← readChar buf 0;
  let dup := MQTT_HEADER_GET_DUP header in
  let packettype := MQTT_HEADER_GET_TYPE header in
  '(rc, mylen) ← MQTTPacket_decodeBuf buf curdata;
  let curdata := (curdata + Z.to_nat rc)%nat in
  let enddata := Z.of_nat curdata + mylen in
  if enddata - Z.of_nat curdata <? 2 then Some (rc, packettype, dup, packetid)
  else
    '(packetid, _) ← readInt buf curdata;
    Some (1, packettype, dup, packetid).

(** ** The packets, as the protocol lays them out *)

Definition publish_body (qos packetid : Z) (topic payload : list Z) : list Z :=
  str_bytes topic ++ (if 0 <? qos then int_bytes packetid else []) ++ payload.

Definition publish_packet (dup qos retained packetid : Z) (topic payload : list Z)
    : list Z :=
  (48 + 8 * (dup mod 2) + 2 * (qos mod 4) + retained mod 2)
  :: remlen_bytes (Z.of_nat (List.length (publish_body qos packetid topic payload)))
  ++ publish_body qos packetid topic payload.

Definition ack_packet (packettype dup packetid : Z) : list Z :=
  [16 * packettype + 8 * (dup mod 2) + (if packettype =? PUBREL then 2 else 0); 2]
  ++ int_bytes packetid.

(** ** Header bits *)

Lemma land_shiftl z m n :
  0 <= m -> 0 <= n ->
  Z.land (Z.shiftl z n) (Z.shiftl (Z.ones m) n) = 2 ^ n * (z mod 2 ^ m).
Proof.
  intros. rewrite <-Z.shiftl_land, Z.land_ones, Z.shiftl_mul_pow2 by lia. lia.
Qed.

Lemma dup_bits dup : Z.land (Z.shiftl dup 3) 8 = 8 * (dup mod 2).
Proof. apply (land_shiftl dup 1 3); lia. Qed.

Lemma qos_bits qos : Z.land (Z.shiftl qos 1) 6 = 2 * (qos mod 4).
Proof. apply (land_shiftl qos 2 1); lia. Qed.

Lemma retain_bits r : Z.land r 1 = r mod 2.
Proof. apply (Z.land_ones r 1). lia. Qed.

(** Case analysis on a bounded integer of the context, up to four values. *)
Ltac small_cases q H :=
  first
    [ assert (q = 0) as -> by lia
    | assert (q = 0 \/ q = 1) as [-> | ->] by lia
    | assert (q = 0 \/ q = 1 \/ q = 2 \/ q = 3) as [-> | [-> | [-> | ->]]] by lia ].

Lemma publish_header_bits dup qos retained :
  publish_header dup qos retained =
    48 + 8 * (dup mod 2) + 2 * (qos mod 4) + retained mod 2.
Proof.
  unfold publish_header, MQTT_HEADER_SET_RETAIN, MQTT_HEADER_SET_QOS,
    MQTT_HEADER_SET_DUP, MQTT_HEADER_SET_TYPE.
  rewrite dup_bits, qos_bits, retain_bits.
  assert (0 <= dup mod 2 < 2) as Hd by dlia.
  assert (0 <= qos mod 4 < 4) as Hq by dlia.
  assert (0 <= retained mod 2 < 2) as Hr by dlia.
  revert Hd Hq Hr. generalize (dup mod 2), (qos mod 4), (retained mod 2).
  intros d q r Hd Hq Hr. small_cases d Hd; small_cases q Hq; small_cases r Hr; reflexivity.
Qed.

(** The fields read back from a PUBLISH header byte. *)
Lemma publish_header_fields d q r :
  0 <= d < 2 -> 0 <= q < 4 -> 0 <= r < 2 ->
  let h := 48 + 8 * d + 2 * q + r in
  is_byte h /\ MQTT_HEADER_GET_TYPE h = PUBLISH /\ MQTT_HEADER_GET_DUP h = d
  /\ MQTT_HEADER_GET_QOS h = q /\ MQTT_HEADER_GET_RETAIN h = r.
Proof.
  intros Hd Hq Hr. unfold is_byte.
  small_cases d Hd; small_cases q Hq; small_cases r Hr;
    (split; [lia|repeat split; reflexivity]).
Qed.

(** Acknowledgement header bytes for the packet types of four bits. *)
Lemma ack_header_bits t dup :
  0 <= t < 16 ->
  ack_header t dup = 16 * t + 8 * (dup mod 2) + (if t =? PUBREL then 2 else 0)
  /\ MQTT_HEADER_GET_TYPE (ack_header t dup) = t
  /\ MQTT_HEADER_GET_DUP (ack_header t dup) = dup mod 2.
Proof.
  intros Ht. unfold ack_header, MQTT_HEADER_SET_DUP. rewrite dup_bits.
  assert (0 <= dup mod 2 < 2) as Hd by dlia. revert Hd.
  generalize (dup mod 2); intros d Hd.
  pose (ok t d :=
    let h := MQTT_HEADER_SET_QOS
               (u8 (Z.lor (MQTT_HEADER_SET_TYPE 0 t) (8 * d)))
               (if t =? PUBREL then 1 else 0) in
    (h =? 16 * t + 8 * d + (if t =? PUBREL then 2 else 0))
    && (MQTT_HEADER_GET_TYPE h =? t) && (MQTT_HEADER_GET_DUP h =? d)).
  enough (ok t d = true) as Hok.
  { unfold ok in Hok. rewrite !andb_true_iff, !Z.eqb_eq in Hok. tauto. }
  small_cases d Hd; [apply (upto_check (fun t => ok t 0) 16) |
                     apply (upto_check (fun t => ok t 1) 16)]; auto.
Qed.

(** ** Writing *)

Section Publish.
Context (dup qos retained packetid : Z) (topic : MQTTString) (payload : list Z).
Context (Htopic : mstr_ok topic) (Hpayload : bytes_ok payload).
Context (Hid : 0 <= packetid < 65536).

#[local] Abbreviation plen := (Z.of_nat (List.length payload)).
#[local] Abbreviation body := (publish_body qos packetid (mstr_data topic) payload).

Lemma publish_body_length :
  Z.of_nat (List.length body) = MQTTSerialize_publishLength qos topic plen.
Proof.
  unfold publish_body, MQTTSerialize_publishLength.
  rewrite mstr_strlen by done. rewrite !length_app, str_bytes_length.
  destruct (0 <? qos); simpl; lia.
Qed.

Lemma publish_packet_ok :
  Z.of_nat (List.length body) <= remlen_max ->
  bytes_ok (publish_packet dup qos retained packetid (mstr_data topic) payload).
Proof.
  intros Hs. destruct Htopic. unfold publish_packet. constructor.
  - unfold is_byte. dlia.
  - apply bytes_ok_app; split; [apply remlen_bytes_ok; lia|].
    unfold publish_body. repeat (apply bytes_ok_app; split); auto with cint.
    + apply int_bytes_ok. lia.
    + destruct (0 <? qos); [by apply int_bytes_ok|constructor].
Qed.

Lemma write_publish_writes :
  Z.of_nat (List.length body) <= remlen_max ->
  writes (write_publish dup qos retained packetid topic payload plen
            (MQTTSerialize_publishLength qos topic plen))
    (publish_packet dup qos retained packetid (mstr_data topic) payload).
Proof.
  intros Hs. pose proof publish_body_length as Hl. unfold write_publish.
  rewrite publish_header_bits. eapply writes_eq.
  { eapply writes_bind; [apply writeChar_writes|].
    eapply writes_bind; [apply write_remlen_writes; lia|].
    eapply writes_bind; [by apply writeMQTTString_writes|].
    eapply writes_bind; [apply writes_if; auto with writes|].
    intros w. apply cpy_all. }
  unfold publish_packet. by rewrite Hl.
Qed.

Lemma publish_packet_length :
  Z.of_nat (List.length body) <= remlen_max ->
  Z.of_nat (List.length
    (publish_packet dup qos retained packetid (mstr_data topic) payload))
  <= MQTTPacket_len (MQTTSerialize_publishLength qos topic plen).
Proof.
  intros Hs. pose proof publish_body_length as Hl. rewrite <-Hl.
  pose proof (MQTTPacket_len_bound (Z.of_nat (List.length body)) ltac:(lia)).
  unfold publish_packet. cbn [List.length]. rewrite length_app. lia.
Qed.

Lemma MQTTSerialize_publish_stores (buf : list Z) :
  Z.of_nat (List.length body) <= remlen_max ->
  let buflen := Z.of_nat (List.length buf) in
  MQTTSerialize_publish buf buflen dup qos retained packetid topic payload plen =
    Some (stores buf buflen
            (MQTTPacket_len (MQTTSerialize_publishLength qos topic plen))
            (publish_packet dup qos retained packetid (mstr_data topic) payload)).
Proof.
  intros Hs buflen. unfold MQTTSerialize_publish. apply serializer_stores; auto.
  - by apply write_publish_writes.
  - by apply publish_packet_ok.
  - by apply publish_packet_length.
Qed.

(** [MQTTSerialize_publish] implements the PUBLISH packet: for a well-formed
    topic, a payload of [payloadlen] bytes and a body within the protocol's
    limit, it refuses a short buffer untouched, or stores exactly the packet of
    the protocol at its start without writing past its end, leaves the rest
    alone and returns the packet's length. *)
Theorem MQTTSerialize_publish_refines (buf : list Z) :
  Z.of_nat (List.length body) <= remlen_max ->
  let buflen := Z.of_nat (List.length buf) in
  MQTTSerialize_publish buf buflen dup qos retained packetid topic payload plen =
    Some (stores buf buflen
            (MQTTPacket_len (MQTTSerialize_publishLength qos topic plen))
            (publish_packet dup qos retained packetid (mstr_data topic) payload)).
Proof. by apply MQTTSerialize_publish_stores. Qed.
End Publish.

(** ** Reading *)

Lemma readMQTTLenString_spec s buf cur enddata str rest :
  Z.of_nat (List.length str) < 65536 ->
  drop cur buf = str_bytes str ++ rest ->
  Z.of_nat cur + 2 + Z.of_nat (List.length str) <= enddata ->
  readMQTTLenString s buf cur enddata =
    Some (1, {| cstring := None; lenstring_len := Z.of_nat (List.length str);
                lenstring_data := Some (str ++ rest) |},
          (cur + 2 + List.length str)%nat)
  /\ drop (cur + 2 + List.length str) buf = rest.
Proof.
  intros Hl Hd He. unfold str_bytes in Hd. rewrite <-app_assoc in Hd.
  unfold readMQTTLenString. rewrite (proj2 (Z.ltb_lt _ _)) by lia.
  apply readInt_spec in Hd as [-> Hd]; [|lia]. cbn [mbind option_bind].
  rewrite (proj2 (Z.leb_le _ _)) by lia. rewrite Hd, Nat2Z.id. split; [done|].
  by rewrite <-drop_drop, Hd, drop_app_length.
Qed.

(** What the reader makes of a packet whose topic lies within it: the packet
    identifier is read without looking at the end of the packet. *)
Lemma MQTTDeserialize_publish_spec o h n topic rest buflen :
  MQTT_HEADER_GET_TYPE h = PUBLISH ->
  0 <= n <= remlen_max -> Z.of_nat (List.length topic) < 65536 ->
  2 + Z.of_nat (List.length topic) <= n ->
  let buf := h :: remlen_bytes n ++ str_bytes topic ++ rest in
  let cur := (1 + List.length (remlen_bytes n) + 2 + List.length topic)%nat in
  MQTTDeserialize_publish o buf buflen =
   ('(packetid, cur) ← (if 0 <? MQTT_HEADER_GET_QOS h then readInt buf cur
                        else Some (po_packetid o, cur));
    Some (1, {| po_dup := MQTT_HEADER_GET_DUP h; po_qos := MQTT_HEADER_GET_QOS h;
                po_retained := MQTT_HEADER_GET_RETAIN h; po_packetid := packetid;
                po_topicName :=
                  {| cstring := None; lenstring_len := Z.of_nat (List.length topic);
                     lenstring_data := Some (topic ++ rest) |};
                po_payload := Some (drop cur buf);
                po_payloadlen :=
                  Z.of_nat (1 + List.length (remlen_bytes n)) + n - Z.of_nat cur |}))
  /\ drop cur buf = rest.
Proof.
  intros Hh Hn Ht Hle buf cur. unfold MQTTDeserialize_publish.
  cbn [readChar lookup list_lookup mbind option_bind buf].
  rewrite Hh. cbn [Z.eqb PUBLISH Pos.eqb negb].
  destruct (MQTTPacket_decodeBuf_remlen buf 1 n (str_bytes topic ++ rest))
    as [-> Hd]; [done|done|].
  cbn [mbind option_bind]. rewrite Nat2Z.id.
  edestruct (readMQTTLenString_spec (po_topicName o) buf
    (1 + List.length (remlen_bytes n))
    (Z.of_nat (1 + List.length (remlen_bytes n)) + n) topic rest) as [-> Hd'];
    [done|done|lia|].
  cbn [mbind option_bind].
  rewrite (proj2 (Z.ltb_ge _ _)) by lia. simpl (_ || _). cbn iota.
  split; [|exact Hd']. reflexivity.
Qed.

(** Reading a packet that was laid out by the protocol, whatever follows it. *)
Lemma MQTTDeserialize_publish_packet o dup qos retained packetid topic payload tail
    buflen :
  0 <= dup < 2 -> 0 <= qos < 4 -> 0 <= retained < 2 -> 0 <= packetid < 65536 ->
  Z.of_nat (List.length topic) < 65536 ->
  Z.of_nat (List.length (publish_body qos packetid topic payload)) <= remlen_max ->
  MQTTDeserialize_publish o
    (publish_packet dup qos retained packetid topic payload ++ tail) buflen =
  Some (1, {| po_dup := dup; po_qos := qos; po_retained := retained;
              po_packetid := if 0 <? qos then packetid else po_packetid o;
              po_topicName :=
                {| cstring := None; lenstring_len := Z.of_nat (List.length topic);
                   lenstring_data :=
                     Some (topic ++ (if 0 <? qos then int_bytes packetid else [])
                           ++ payload ++ tail) |};
              po_payload := Some (payload ++ tail);
              po_payloadlen := Z.of_nat (List.length payload) |}).
Proof.
  intros Hd Hq Hr Hi Ht Hmax.
  destruct (publish_header_fields dup qos retained Hd Hq Hr) as (_ & Hgt & Hgd & Hgq & Hgr).
  unfold publish_packet. rewrite (Z.mod_small dup), (Z.mod_small qos),
    (Z.mod_small retained) by lia.
  set (body := publish_body _ _ _ _) in *.
  assert (2 + Z.of_nat (List.length topic) <= Z.of_nat (List.length body)) as Hlt.
  { unfold body, publish_body. rewrite length_app, str_bytes_length. lia. }
  set (rest := (if 0 <? qos then int_bytes packetid else []) ++ payload ++ tail).
  assert (body ++ tail = str_bytes topic ++ rest) as Hb.
  { unfold body, publish_body, rest. by rewrite <-!app_assoc. }
  cbn [app]. rewrite <-app_assoc, Hb.
  edestruct (MQTTDeserialize_publish_spec o _ (Z.of_nat (List.length body)) topic rest
               buflen Hgt) as [-> Hcur]; [lia|done|done|].
  rewrite Hgq, Hgd, Hgr. unfold rest in Hcur |- *.
  assert (List.length body = 2 + List.length topic
            + (if (0 <? qos)%Z then 2 else 0) + List.length payload)%nat as Hbl.
  { unfold body, publish_body. rewrite !length_app, str_bytes_length.
    destruct (0 <? qos); simpl; lia. }
  destruct (0 <? qos).
  - destruct (readInt_spec _ _ packetid (payload ++ tail) Hi Hcur) as [-> Hdr].
    cbn [mbind option_bind]. rewrite Hdr. do 3 f_equal; lia.
  - cbn [mbind option_bind]. rewrite Hcur. do 3 f_equal; lia.
Qed.

(** C35. Round trip of PUBLISH: what [MQTTSerialize_publish] stores in a large
    enough buffer, whatever stood there before, [MQTTDeserialize_publish] reads
    back with the same flags, the same packet identifier (for QoS above 0), the
    same topic and the same payload. *)
Theorem MQTTPublish_roundtrip (dup qos retained packetid : Z) (topic : MQTTString)
    (payload buf : list Z) (o : publish_out) :
  0 <= dup < 2 -> 0 <= qos < 4 -> 0 <= retained < 2 -> 0 <= packetid < 65536 ->
  mstr_ok topic -> bytes_ok payload ->
  let plen := Z.of_nat (List.length payload) in
  let buflen := Z.of_nat (List.length buf) in
  MQTTSerialize_publishLength qos topic plen <= remlen_max ->
  MQTTPacket_len (MQTTSerialize_publishLength qos topic plen) <= buflen ->
  exists rc buf' o' p,
    MQTTSerialize_publish buf buflen dup qos retained packetid topic payload plen
      = Some (rc, buf')
    /\ 0 < rc <= buflen /\ List.length buf' = List.length buf
    /\ MQTTDeserialize_publish o buf' buflen = Some (1, o')
    /\ po_dup o' = dup /\ po_qos o' = qos /\ po_retained o' = retained
    /\ po_packetid o' = (if 0 <? qos then packetid else po_packetid o)
    /\ mstr_data (po_topicName o') = mstr_data topic
    /\ po_payloadlen o' = plen
    /\ po_payload o' = Some p /\ take (List.length payload) p = payload.
Proof.
  intros Hd Hq Hr Hi Ht Hp plen buflen Hmax Hfit.
  pose proof (publish_body_length qos packetid topic payload Ht) as Hbl.
  assert (Z.of_nat (List.length (publish_body qos packetid (mstr_data topic) payload))
          <= remlen_max) as Hbm by (rewrite Hbl; exact Hmax).
  pose proof (publish_packet_length dup qos retained packetid topic payload Ht Hbm) as Hpl.
  fold plen in Hpl.
  eexists _, _, _, _. split.
  { unfold MQTTSerialize_publish. rewrite (proj2 (Z.ltb_ge _ _)) by done.
    erewrite writes_start;
      [reflexivity|by apply write_publish_writes|by apply publish_packet_ok|lia]. }
  cbn [mbind option_bind wb_pos wb_mem].
  split; [unfold publish_packet in *; cbn [List.length] in *; lia|].
  split; [rewrite length_app, length_drop; lia|].
  split; [apply MQTTDeserialize_publish_packet; auto; by destruct Ht|].
  simpl. repeat split; try done.
  - unfold mstr_data at 1. simpl. by rewrite Nat2Z.id, take_app_length.
  - by rewrite take_app_length.
Qed.

Definition example_topic : MQTTString :=
  {| cstring := Some (lit "/a/b"); lenstring_len := 0; lenstring_data := None |}.

Lemma example_topic_ok : mstr_ok example_topic.
Proof. split; simpl; [by apply bytes_ok_check | lia | done | done]. Qed.

Definition publish_out_zero : publish_out :=
  {| po_dup := 0; po_qos := 0; po_retained := 0; po_packetid := 0;
     po_topicName := MQTTString_initializer; po_payload := None; po_payloadlen := 0 |}.

Lemma MQTTSerialize_publish_refines_witness :
  mstr_ok example_topic
  /\ MQTTSerialize_publish (repeat 0 14) 14 0 1 0 258 example_topic [7; 8] 2 =
       Some (12, [50; 10; 0; 4; 47; 97; 47; 98; 1; 2; 7; 8; 0; 0]).
Proof.
  split; [exact example_topic_ok|].
  exact (MQTTSerialize_publish_refines 0 1 0 258 example_topic [7; 8] example_topic_ok
           ltac:(by apply bytes_ok_check) ltac:(lia) (repeat 0 14)
           ltac:(unfold remlen_max; simpl; lia)).
Defined.

Lemma MQTTPublish_roundtrip_witness :
  exists rc buf' o' p,
    MQTTSerialize_publish (repeat 0 14) 14 0 1 0 258 example_topic [7; 8] 2
      = Some (rc, buf')
    /\ 0 < rc <= 14 /\ List.length buf' = 14%nat
    /\ MQTTDeserialize_publish publish_out_zero buf' 14 = Some (1, o')
    /\ po_dup o' = 0 /\ po_qos o' = 1 /\ po_retained o' = 0 /\ po_packetid o' = 258
    /\ mstr_data (po_topicName o') = lit "/a/b" /\ po_payloadlen o' = 2
    /\ po_payload o' = Some p /\ take 2 p = [7; 8].
Proof.
  exact (MQTTPublish_roundtrip 0 1 0 258 example_topic [7; 8] (repeat 0 14)
           publish_out_zero ltac:(lia) ltac:(lia) ltac:(lia) ltac:(lia)
           example_topic_ok ltac:(by apply bytes_ok_check)
           ltac:(unfold remlen_max; vm_compute; discriminate)
           ltac:(vm_compute; discriminate)).
Defined.

(** C37. A PUBLISH of QoS above 0 whose Remaining Length ends with its topic is
    accepted: the reader takes the packet identifier from the two bytes that
    follow the packet and reports success with a payload length of -2; when
    fewer than two bytes follow, it reads outside the buffer. *)
Theorem MQTTDeserialize_publish_overrun (o : publish_out) (h : Z) (topic : list Z)
    (buflen : Z) :
  MQTT_HEADER_GET_TYPE h = PUBLISH -> 0 < MQTT_HEADER_GET_QOS h ->
  Z.of_nat (List.length topic) < 65536 ->
  let n := 2 + Z.of_nat (List.length topic) in
  (forall b0 b1 rest, exists o',
     MQTTDeserialize_publish o
       (h :: remlen_bytes n ++ str_bytes topic ++ b0 :: b1 :: rest) buflen = Some (1, o')
     /\ po_payloadlen o' = -2 /\ po_packetid o' = 256 * b0 + b1
     /\ po_payload o' = Some rest)
  /\ (forall rest, (List.length rest < 2)%nat ->
       MQTTDeserialize_publish o (h :: remlen_bytes n ++ str_bytes topic ++ rest) buflen
       = None).
Proof.
  intros Hh Hq Ht n. assert (0 <= n <= remlen_max) as Hn by (unfold n, remlen_max; lia).
  split.
  - intros b0 b1 rest.
    edestruct (MQTTDeserialize_publish_spec o h n topic (b0 :: b1 :: rest) buflen)
      as [-> Hcur]; [done|done|done|lia|].
    rewrite (proj2 (Z.ltb_lt _ _) Hq).
    apply drop_cons_lookup in Hcur as [H0 Hcur].
    apply drop_cons_lookup in Hcur as [H1 Hcur].
    unfold readInt. rewrite H0. cbn [mbind option_bind].
    rewrite Nat.add_1_r, H1. cbn [mbind option_bind].
    eexists. split; [reflexivity|]. cbn [po_payloadlen po_packetid po_payload]. repeat split; [unfold n; lia|].
    f_equal. etrans; [|exact Hcur]. f_equal. lia.
  - intros rest Hr.
    edestruct (MQTTDeserialize_publish_spec o h n topic rest buflen)
      as [-> Hcur]; [done|done|done|lia|].
    rewrite (proj2 (Z.ltb_lt _ _) Hq). unfold readInt.
    set (cur := (_ + List.length topic)%nat) in *. set (buf := h :: _) in *.
    assert (buf !! (cur + 1)%nat = None) as E1.
    { rewrite <-lookup_drop, Hcur. apply lookup_ge_None. lia. }
    rewrite E1. by destruct (buf !! cur).
Qed.

Lemma MQTTDeserialize_publish_overrun_witness :
  exists o', MQTTDeserialize_publish publish_out_zero [50; 4; 0; 2; 47; 97; 9; 9] 8
             = Some (1, o')
    /\ po_payloadlen o' = -2 /\ po_packetid o' = 256 * 9 + 9 /\ po_payload o' = Some [].
Proof.
  exact (proj1 (MQTTDeserialize_publish_overrun publish_out_zero 50 (lit "/a") 8
    eq_refl ltac:(vm_compute; reflexivity) ltac:(simpl; lia)) 9 9 []).
Defined.

(** ** Acknowledgements *)

Lemma ack_packet_ok t dup packetid :
  0 <= t < 16 -> 0 <= packetid < 65536 -> bytes_ok (ack_packet t dup packetid).
Proof.
  intros. apply bytes_ok_app. split; [|by apply int_bytes_ok].
  apply Forall_cons_2; [|by apply bytes_ok_check].
  unfold is_byte. pose proof (ack_header_bits t dup H) as [E _]. rewrite <-E.
  unfold ack_header, MQTT_HEADER_SET_QOS. apply u8_range.
Qed.

Lemma MQTTSerialize_ack_stores (t dup packetid : Z) (buf : list Z) :
  0 <= t < 16 -> 0 <= packetid < 65536 ->
  let buflen := Z.of_nat (List.length buf) in
  MQTTSerialize_ack buf buflen t dup packetid =
    Some (stores buf buflen 4 (ack_packet t dup packetid)).
Proof.
  intros Ht Hi buflen. destruct (ack_header_bits t dup Ht) as (Eh & _).
  unfold MQTTSerialize_ack.
  apply serializer_stores;
    [|by apply ack_packet_ok|unfold ack_packet; simpl; lia|done].
  eapply writes_eq.
  { eapply writes_bind; [apply writeChar_writes|].
    eapply writes_bind; [apply write_remlen_writes; unfold remlen_max; lia|].
    by apply writeInt_writes. }
  unfold ack_packet. by rewrite Eh.
Qed.

(** Reading an acknowledgement back, whatever follows it. *)
Lemma MQTTDeserialize_ack_packet t dup packetid old tail buflen :
  0 <= t < 16 -> 0 <= dup < 2 -> 0 <= packetid < 65536 ->
  MQTTDeserialize_ack old (ack_packet t dup packetid ++ tail) buflen
  = Some (1, t, dup, packetid).
Proof.
  intros Ht Hd Hi. destruct (ack_header_bits t dup Ht) as (Eh & Hgt & Hgd).
  unfold MQTTDeserialize_ack, ack_packet. rewrite <-Eh.
  cbn [app readChar lookup list_lookup mbind option_bind]. rewrite Hgt, Hgd.
  destruct (MQTTPacket_decodeBuf_remlen
              (ack_header t dup :: 2 :: int_bytes packetid ++ tail) 1 2
              (int_bytes packetid ++ tail)) as [-> Hc];
    [unfold remlen_max; lia|done|].
  cbn [mbind option_bind]. rewrite Nat2Z.id, (proj2 (Z.ltb_ge _ _)) by lia.
  apply (readInt_spec _ _ packetid) in Hc as [-> _]; [|done].
  cbn [mbind option_bind].
  by rewrite Z.mod_small by lia.
Qed.

(** Round trip of the acknowledgements (PUBACK, PUBREC, PUBREL, PUBCOMP and
    the other types of a two-byte body): [MQTTSerialize_ack] refuses a buffer of
    less than four bytes, or stores exactly the four-byte packet; and
    [MQTTDeserialize_ack] reads back its type, dup flag and identifier. *)
Theorem MQTTSerialize_ack_roundtrip (t dup packetid old : Z) (buf : list Z) :
  0 <= t < 16 -> 0 <= dup < 2 -> 0 <= packetid < 65536 ->
  let buflen := Z.of_nat (List.length buf) in
  MQTTSerialize_ack buf buflen t dup packetid =
    Some (stores buf buflen 4 (ack_packet t dup packetid))
  /\ (4 <= buflen ->
      MQTTDeserialize_ack old (ack_packet t dup packetid ++ drop 4 buf) buflen =
        Some (1, t, dup, packetid)).
Proof.
  intros Ht Hd Hi buflen. split.
  - by apply MQTTSerialize_ack_stores.
  - intros _. by apply MQTTDeserialize_ack_packet.
Qed.

Lemma MQTTSerialize_ack_roundtrip_witness :
  MQTTSerialize_ack [0; 0; 0; 0; 0] 5 PUBREL 1 513 = Some (4, [106; 2; 2; 1; 0])
  /\ (4 <= 5 -> MQTTDeserialize_ack 0 [106; 2; 2; 1; 0] 5 = Some (1, PUBREL, 1, 513)).
Proof.
  exact (MQTTSerialize_ack_roundtrip PUBREL 1 513 0 [0; 0; 0; 0; 0]
           ltac:(unfold PUBREL; lia) ltac:(lia) ltac:(lia)).
Defined.

(** A truncated acknowledgement is not refused: when the Remaining Length is
    0 or 1 the reader leaves the packet identifier unassigned but still returns
    1, the code its callers take for success. *)
Theorem MQTTDeserialize_ack_truncated (h n old : Z) (rest : list Z) (buflen : Z) :
  0 <= n < 2 ->
  MQTTDeserialize_ack old (h :: n :: rest) buflen =
    Some (1, MQTT_HEADER_GET_TYPE h, MQTT_HEADER_GET_DUP h, old).
Proof.
  intros Hn. unfold MQTTDeserialize_ack.
  cbn [app readChar lookup list_lookup mbind option_bind].
  assert (drop 1 (h :: n :: rest) = remlen_bytes n ++ rest) as Hd.
  { unfold remlen_bytes. by rewrite (proj2 (Z.ltb_lt _ _)) by lia. }
  apply MQTTPacket_decodeBuf_remlen in Hd as [-> _]; [|unfold remlen_max; lia].
  cbn [mbind option_bind]. rewrite (proj2 (Z.ltb_lt _ _)) by lia.
  unfold remlen_bytes. by rewrite (proj2 (Z.ltb_lt _ _)) by lia.
Qed.

Lemma MQTTDeserialize_ack_truncated_witness :
  0 <= 0 < 2 /\ MQTTDeserialize_ack 777 [64; 0] 2 = Some (1, PUBACK, 0, 777).
Proof.
  split; [lia|]. exact (MQTTDeserialize_ack_truncated 64 0 777 [] 2 ltac:(lia)).
Defined.
