(* ===== verification/MqttSubscribe.v ===== *)
(** * MqttSubscribe: SUBSCRIBE, SUBACK, UNSUBSCRIBE and UNSUBACK

    [eng/mqtt/MQTTSubscribeClient.c] and [eng/mqtt/MQTTUnsubscribeClient.c].
    The arrays of topic filters and of requested QoS are lists; an index past
    their end is undefined behaviour. *)

From S2P Require Import Prelude.
From S2P Require Import MqttPacket.
From S2P Require Import MqttPublish.

(** ** SUBSCRIBE *)

(** The loop from index [i] on, with [n] iterations left. *)
Fixpoint subscribeLength_loop (n i : nat) (topicFilters : list MQTTString) (len : Z)
    : option Z :=
  match n with
  | O => Some len
  | S n' =>
      t ← topicFilters !! i;
      subscribeLength_loop n' (S i) topicFilters (len + (2 + MQTTstrlen t + 1))
  end.

Definition MQTTSerialize_subscribeLength (count : Z) (topicFilters : list MQTTString)
    : option Z :=
  subscribeLength_loop (Z.to_nat count) 0 topicFilters 2.

Definition sub_header (packettype dup : Z) : Z :=
  let header := MQTT_HEADER_SET_TYPE 0 packettype in
  let header := MQTT_HEADER_SET_DUP header dup in
  MQTT_HEADER_SET_QOS header 1.

Fixpoint write_filters_qos (n i : nat) (topicFilters : list MQTTString)
    (requestedQoSs : list Z) (w : wbuf) : option wbuf :=
  match n with
  | O => Some w
  | S n' =>
      t ← topicFilters !! i;
      w ← writeMQTTString t w;
      q ← requestedQoSs !! i;
      w ← writeChar q w;
      write_filters_qos n' (S i) topicFilters requestedQoSs w
  end.

Definition write_subscribe (dup packetid : Z) (count : Z)
    (topicFilters : list MQTTString) (requestedQoSs : list Z) (rem_len : Z)
    (w : wbuf) : option wbuf :=
  w ← writeChar (sub_header SUBSCRIBE dup) w;
  w ← write_remlen rem_len w;
  w ← writeInt packetid w;
  write_filters_qos (Z.to_nat count) 0 topicFilters requestedQoSs w.

Definition MQTTSerialize_subscribe (buf : list Z) (buflen dup packetid count : Z)
    (topicFilters : list MQTTString) (requestedQoSs : list Z)
    : option (Z * list Z) :=
  rem_len ← MQTTSerialize_subscribeLength count topicFilters;
  if buflen <? MQTTPacket_len rem_len then Some (MQTTPACKET_BUFFER_TOO_SHORT, buf)
  else
    w ← write_subscribe dup packetid count topicFilters requestedQoSs rem_len
          (WBuf buf 0);
    Some (Z.of_nat (wb_pos w), wb_mem w).

(** ** SUBACK *)

(** The output parameters: the packet identifier and the first [*count] elements
    of [grantedQoSs]. *)
Record suback_out := { so_packetid : Z; so_count : Z; so_grantedQoSs : list Z }.

(** The [while (curdata < enddata)] loop; [fuel] is the distance to [enddata]. *)
Fixpoint suback_loop (fuel : nat) (buf : list Z) (maxcount : Z) (curdata : nat)
    (count : Z) (granted : list Z) : option (Z * Z * list Z) :=
  match fuel with
  | O => Some (1, count, granted)
  | S fuel' =>
      if maxcount <=? count then Some (-1, count, granted)
      else
        '(c, curdata) ← readChar buf curdata;
        suback_loop fuel' buf maxcount curdata (count + 1) (granted ++ [c])
  end.

Definition MQTTDeserialize_suback (o : suback_out) (maxcount : Z) (buf : list Z)
    (buflen : Z) : option (Z * suback_out) :=
  '(header, curdata) ← readChar buf 0;
  if negb (MQTT_HEADER_GET_TYPE header =? SUBACK) then Some (0, o)
  else
    '(rc, mylen) ← MQTTPacket_decodeBuf buf curdata;
    let curdata := (curdata + Z.to_nat rc)%nat in
    let enddata := Z.of_nat curdata + mylen in
    if enddata - Z.of_nat curdata <? 2 then Some (rc, o)
    else
      '(packetid, curdata) ← readInt buf curdata;
      '(rc, count, granted) ←
        suback_loop (Z.to_nat (enddata - Z.of_nat curdata)) buf maxcount curdata 0 [];
      Some (rc, {| so_packetid := packetid; so_count := count;
                   so_grantedQoSs := granted |}).

(** ** UNSUBSCRIBE and UNSUBACK *)

Fixpoint unsubscribeLength_loop (n i : nat) (topicFilters : list MQTTString) (len : Z)
    : option Z :=
  match n with
  | O => Some len
  | S n' =>
      t ← topicFilters !! i;
      unsubscribeLength_loop n' (S i) topicFilters (len + (2 + MQTTstrlen t))
  end.

Definition MQTTSerialize_unsubscribeLength (count : Z) (topicFilters : list MQTTString)
    : option Z :=
  unsubscribeLength_loop (Z.to_nat count) 0 topicFilters 2.

Fixpoint write_filters (n i : nat) (topicFilters : list MQTTString) (w : wbuf)
    : option wbuf :=
  match n with
  | O => Some w
  | S n' =>
      t ← topicFilters !! i;
      w ← writeMQTTString t w;
      write_filters n' (S i) topicFilters w
  end.

Definition write_unsubscribe (dup packetid count : Z)
    (topicFilters : list MQTTString) (rem_len : Z) (w : wbuf) : option wbuf :=
  w ← writeChar (sub_header UNSUBSCRIBE dup) w;
  w ← write_remlen rem_len w;
  w ← writeInt packetid w;
  write_filters (Z.to_nat count) 0 topicFilters w.

Definition MQTTSerialize_unsubscribe (buf : list Z) (buflen dup packetid count : Z)
    (topicFilters : list MQTTString) : option (Z * list Z) :=
  rem_len ← MQTTSerialize_unsubscribeLength count topicFilters;
  if buflen <? MQTTPacket_len rem_len then Some (MQTTPACKET_BUFFER_TOO_SHORT, buf)
  else
    w ← write_unsubscribe dup packetid count topicFilters rem_len (WBuf buf 0);
    Some (Z.of_nat (wb_pos w), wb_mem w).

(** Return code and packet identifier. *)
Definition MQTTDeserialize_unsuback (packetid : Z) (buf : list Z) (buflen : Z)
    : option (Z * Z) :=
  '(rc, type, _, packetid) ← MQTTDeserialize_ack packetid buf buflen;
  Some (if type =? UNSUBACK then 1 else rc, packetid).

(** ** The packets, as the protocol lays them out *)

Definition sub_entry (tq : MQTTString * Z) : list Z :=
  str_bytes (mstr_data (fst tq)) ++ [snd tq].

Definition unsub_entry (t : MQTTString) : list Z := str_bytes (mstr_data t).

(** A request packet of type [t] with its identifier and the encoded filters. *)
Definition request_packet (t dup packetid : Z) (entries : list Z) : list Z :=
  let body := int_bytes packetid ++ entries in
  (16 * t + 8 * (dup mod 2) + 2) :: remlen_bytes (Z.of_nat (List.length body)) ++ body.

(** ** Lemmas *)

Lemma sub_header_bits t dup :
  0 <= t < 16 -> sub_header t dup = 16 * t + 8 * (dup mod 2) + 2.
Proof.
  intros Ht. unfold sub_header, MQTT_HEADER_SET_DUP. rewrite dup_bits.
  assert (0 <= dup mod 2 < 2) as Hd by dlia. revert Hd.
  generalize (dup mod 2); intros d Hd. apply Z.eqb_eq.
  small_cases d Hd;
    [ apply (upto_check (fun t => MQTT_HEADER_SET_QOS
        (u8 (Z.lor (MQTT_HEADER_SET_TYPE 0 t) (8 * 0))) 1 =? 16 * t + 8 * 0 + 2) 16)
    | apply (upto_check (fun t => MQTT_HEADER_SET_QOS
        (u8 (Z.lor (MQTT_HEADER_SET_TYPE 0 t) (8 * 1))) 1 =? 16 * t + 8 * 1 + 2) 16) ];
    auto.
Qed.

Lemma request_packet_ok t dup packetid entries :
  0 <= t < 15 -> 0 <= packetid < 65536 -> bytes_ok entries ->
  Z.of_nat (2 + List.length entries) <= remlen_max ->
  bytes_ok (request_packet t dup packetid entries).
Proof.
  intros Ht Hi He Hs. apply Forall_cons_2; [unfold is_byte; dlia|].
  apply bytes_ok_app; split.
  - apply remlen_bytes_ok. rewrite length_app. simpl. lia.
  - apply bytes_ok_app; split; [by apply int_bytes_ok|done].
Qed.

Lemma request_packet_length t dup packetid entries :
  Z.of_nat (2 + List.length entries) <= remlen_max ->
  Z.of_nat (List.length (request_packet t dup packetid entries))
  <= MQTTPacket_len (Z.of_nat (2 + List.length entries)).
Proof.
  intros Hs. pose proof (MQTTPacket_len_bound _ (conj (Nat2Z.is_nonneg _) Hs)).
  unfold request_packet. cbn [List.length]. rewrite !length_app.
  replace (List.length (int_bytes packetid)) with 2%nat by done. lia.
Qed.

(** The loops, for arrays whose elements from index [i] on are given. *)
Lemma lookup_mid {A} (pre : list A) x post : (pre ++ x :: post) !! List.length pre = Some x.
Proof. by rewrite list_lookup_middle. Qed.

Lemma snoc_length {A} (pre : list A) x : S (List.length pre) = List.length (pre ++ [x]).
Proof. rewrite length_app. simpl. lia. Qed.

Lemma cons_middle {A} (pre : list A) x post : pre ++ x :: post = (pre ++ [x]) ++ post.
Proof. by rewrite <-app_assoc. Qed.

Lemma subscribeLength_loop_eq tqs pre len :
  Forall mstr_ok tqs.*1 ->
  subscribeLength_loop (List.length tqs) (List.length pre) (pre ++ tqs.*1) len =
    Some (len + Z.of_nat (List.length (flat_map sub_entry tqs))).
Proof.
  revert pre len; induction tqs as [|[f q] tqs IH]; intros pre len Hok.
  - simpl. f_equal; lia.
  - apply Forall_cons in Hok as [Hf Hok]. cbn [List.length subscribeLength_loop].
    cbn [fmap list_fmap]. rewrite lookup_mid. cbn [mbind option_bind].
    rewrite cons_middle, (snoc_length pre f), IH by done.
    cbn [flat_map]. unfold sub_entry at 2. rewrite !length_app, str_bytes_length.
    simpl in Hf |- *. rewrite mstr_strlen by done. f_equal. lia.
Qed.

Lemma unsubscribeLength_loop_eq fs pre len :
  Forall mstr_ok fs ->
  unsubscribeLength_loop (List.length fs) (List.length pre) (pre ++ fs) len =
    Some (len + Z.of_nat (List.length (flat_map unsub_entry fs))).
Proof.
  revert pre len; induction fs as [|f fs IH]; intros pre len Hok.
  - simpl. f_equal; lia.
  - apply Forall_cons in Hok as [Hf Hok]. cbn [List.length unsubscribeLength_loop].
    rewrite lookup_mid. cbn [mbind option_bind].
    rewrite cons_middle, (snoc_length pre f), IH by done.
    cbn [flat_map]. unfold unsub_entry at 2. rewrite !length_app, str_bytes_length.
    rewrite mstr_strlen by done. f_equal. lia.
Qed.

Lemma write_filters_qos_writes tqs pre preq :
  Forall mstr_ok tqs.*1 -> List.length pre = List.length preq ->
  writes (write_filters_qos (List.length tqs) (List.length pre)
            (pre ++ tqs.*1) (preq ++ tqs.*2)) (flat_map sub_entry tqs).
Proof.
  revert pre preq; induction tqs as [|[f q] tqs IH]; intros pre preq Hok Hl; [done|].
  apply Forall_cons in Hok as [Hf Hok]. simpl in Hf.
  intros w. cbn [List.length write_filters_qos fmap list_fmap fst snd].
  rewrite lookup_mid. cbn [mbind option_bind].
  assert ((preq ++ q :: tqs.*2) !! List.length pre = Some q) as ->
    by (rewrite Hl; apply lookup_mid).
  cbn [mbind option_bind].
  rewrite (cons_middle pre), (cons_middle preq), (snoc_length pre f).
  cbn [flat_map]. unfold sub_entry at 1. cbn [fst snd].
  rewrite <-(app_assoc (str_bytes _)).
  revert w. eapply writes_bind; [by apply writeMQTTString_writes|].
  eapply writes_bind; [apply writeChar_writes|].
  apply IH; [done|]. rewrite !length_app. simpl. lia.
Qed.

Lemma write_filters_writes fs pre :
  Forall mstr_ok fs ->
  writes (write_filters (List.length fs) (List.length pre) (pre ++ fs))
    (flat_map unsub_entry fs).
Proof.
  revert pre; induction fs as [|f fs IH]; intros pre Hok; [done|].
  apply Forall_cons in Hok as [Hf Hok].
  intros w. cbn [List.length write_filters].
  rewrite lookup_mid. cbn [mbind option_bind].
  rewrite (cons_middle pre), (snoc_length pre f). cbn [flat_map].
  revert w. eapply writes_bind; [by apply writeMQTTString_writes|]. by apply IH.
Qed.

Lemma sub_entries_ok tqs :
  Forall mstr_ok tqs.*1 -> bytes_ok tqs.*2 -> bytes_ok (flat_map sub_entry tqs).
Proof.
  induction tqs as [|[f q] tqs IH]; [constructor|].
  intros [[] Hf]%Forall_cons [Hq Hb]%Forall_cons. cbn [flat_map].
  apply bytes_ok_app; split; [|auto]. unfold sub_entry. cbn [fst snd].
  apply bytes_ok_app; split; [by apply str_bytes_ok|]. apply Forall_singleton. exact Hq.
Qed.

Lemma unsub_entries_ok fs : Forall mstr_ok fs -> bytes_ok (flat_map unsub_entry fs).
Proof.
  induction fs as [|f fs IH]; [constructor|]. intros [[] Hf]%Forall_cons. cbn [flat_map].
  apply bytes_ok_app; split; [unfold unsub_entry; by apply str_bytes_ok|auto].
Qed.

(** ** Properties *)

Lemma MQTTSerialize_subscribe_stores (dup packetid : Z)
    (tqs : list (MQTTString * Z)) (buf : list Z) :
  0 <= packetid < 65536 -> Forall mstr_ok tqs.*1 -> bytes_ok tqs.*2 ->
  let entries := flat_map sub_entry tqs in
  let body := Z.of_nat (2 + List.length entries) in
  let buflen := Z.of_nat (List.length buf) in
  body <= remlen_max ->
  MQTTSerialize_subscribe buf buflen dup packetid (Z.of_nat (List.length tqs))
    tqs.*1 tqs.*2
  = Some (stores buf buflen (MQTTPacket_len body)
            (request_packet SUBSCRIBE dup packetid entries)).
Proof.
  intros Hi Hf Hq entries body buflen Hs.
  unfold MQTTSerialize_subscribe, MQTTSerialize_subscribeLength. rewrite Nat2Z.id.
  rewrite (subscribeLength_loop_eq tqs []) by done. cbn [mbind option_bind].
  fold entries. replace (2 + Z.of_nat (List.length entries)) with body by lia.
  apply serializer_stores; auto.
  - unfold write_subscribe. rewrite Nat2Z.id. eapply writes_eq.
    { eapply writes_bind; [apply writeChar_writes|].
      eapply writes_bind; [apply write_remlen_writes; lia|].
      eapply writes_bind; [by apply writeInt_writes|].
      by apply (write_filters_qos_writes tqs [] []). }
    rewrite sub_header_bits by (unfold SUBSCRIBE; lia).
    unfold request_packet. cbn [app]. rewrite length_app. done.
  - apply request_packet_ok; auto; [unfold SUBSCRIBE; lia|by apply sub_entries_ok].
  - by apply request_packet_length.
Qed.

(** [MQTTSerialize_subscribe] implements the SUBSCRIBE packet for any number
    of filters: identifier, then each filter as a length-prefixed string with
    its requested QoS; a buffer that [MQTTPacket_len] finds too short is refused
    untouched, any other receives exactly the packet. *)
Theorem MQTTSerialize_subscribe_refines (dup packetid : Z)
    (tqs : list (MQTTString * Z)) (buf : list Z) :
  0 <= packetid < 65536 -> Forall mstr_ok tqs.*1 -> bytes_ok tqs.*2 ->
  let entries := flat_map sub_entry tqs in
  let body := Z.of_nat (2 + List.length entries) in
  let buflen := Z.of_nat (List.length buf) in
  body <= remlen_max ->
  MQTTSerialize_subscribe buf buflen dup packetid (Z.of_nat (List.length tqs))
    tqs.*1 tqs.*2
  = Some (stores buf buflen (MQTTPacket_len body)
            (request_packet SUBSCRIBE dup packetid entries)).
Proof. by apply MQTTSerialize_subscribe_stores. Qed.

Lemma MQTTSerialize_unsubscribe_stores (dup packetid : Z) (fs : list MQTTString)
    (buf : list Z) :
  0 <= packetid < 65536 -> Forall mstr_ok fs ->
  let entries := flat_map unsub_entry fs in
  let body := Z.of_nat (2 + List.length entries) in
  let buflen := Z.of_nat (List.length buf) in
  body <= remlen_max ->
  MQTTSerialize_unsubscribe buf buflen dup packetid (Z.of_nat (List.length fs)) fs
  = Some (stores buf buflen (MQTTPacket_len body)
            (request_packet UNSUBSCRIBE dup packetid entries)).
Proof.
  intros Hi Hf entries body buflen Hs.
  unfold MQTTSerialize_unsubscribe, MQTTSerialize_unsubscribeLength. rewrite Nat2Z.id.
  rewrite (unsubscribeLength_loop_eq fs []) by done. cbn [mbind option_bind].
  fold entries. replace (2 + Z.of_nat (List.length entries)) with body by lia.
  apply serializer_stores; auto.
  - unfold write_unsubscribe. rewrite Nat2Z.id. eapply writes_eq.
    { eapply writes_bind; [apply writeChar_writes|].
      eapply writes_bind; [apply write_remlen_writes; lia|].
      eapply writes_bind; [by apply writeInt_writes|].
      by apply (write_filters_writes fs []). }
    rewrite sub_header_bits by (unfold UNSUBSCRIBE; lia).
    unfold request_packet. cbn [app]. rewrite length_app. done.
  - apply request_packet_ok; auto; [unfold UNSUBSCRIBE; lia|by apply unsub_entries_ok].
  - by apply request_packet_length.
Qed.

(** [MQTTSerialize_unsubscribe] implements the UNSUBSCRIBE packet in the same
    way, without the QoS bytes. *)
Theorem MQTTSerialize_unsubscribe_refines (dup packetid : Z) (fs : list MQTTString)
    (buf : list Z) :
  0 <= packetid < 65536 -> Forall mstr_ok fs ->
  let entries := flat_map unsub_entry fs in
  let body := Z.of_nat (2 + List.length entries) in
  let buflen := Z.of_nat (List.length buf) in
  body <= remlen_max ->
  MQTTSerialize_unsubscribe buf buflen dup packetid (Z.of_nat (List.length fs)) fs
  = Some (stores buf buflen (MQTTPacket_len body)
            (request_packet UNSUBSCRIBE dup packetid entries)).
Proof. by apply MQTTSerialize_unsubscribe_stores. Qed.

Lemma MQTTSerialize_subscribe_refines_witness :
  mstr_ok example_topic
  /\ MQTTSerialize_subscribe (repeat 0 16) 16 0 7 1 [example_topic] [1] =
       Some (11, [130; 9; 0; 7; 0; 4; 47; 97; 47; 98; 1; 0; 0; 0; 0; 0]).
Proof.
  split; [exact example_topic_ok|].
  exact (MQTTSerialize_subscribe_refines 0 7 [(example_topic, 1)] (repeat 0 16)
           ltac:(lia) ltac:(by apply Forall_singleton, example_topic_ok)
           ltac:(by apply bytes_ok_check) ltac:(vm_compute; discriminate)).
Defined.

Lemma MQTTSerialize_unsubscribe_refines_witness :
  mstr_ok example_topic
  /\ MQTTSerialize_unsubscribe (repeat 0 12) 12 0 7 1 [example_topic] =
       Some (10, [162; 8; 0; 7; 0; 4; 47; 97; 47; 98; 0; 0]).
Proof.
  split; [exact example_topic_ok|].
  exact (MQTTSerialize_unsubscribe_refines 0 7 [example_topic] (repeat 0 12)
           ltac:(lia) ltac:(by apply Forall_singleton, example_topic_ok)
           ltac:(vm_compute; discriminate)).
Defined.

(** *** SUBACK *)

(** The loop copies the return codes until the caller's array is full. *)
Lemma suback_loop_eq codes buf maxcount cur granted tail :
  drop cur buf = codes ++ tail ->
  suback_loop (List.length codes) buf maxcount cur
    (Z.of_nat (List.length granted)) granted =
  Some (if decide (codes = []) then 1
        else if Z.of_nat (List.length granted + List.length codes) <=? maxcount
        then 1 else -1,
        Z.of_nat (List.length granted) +
          Z.max 0 (Z.min (Z.of_nat (List.length codes))
                         (maxcount - Z.of_nat (List.length granted))),
        granted ++ take (Z.to_nat (maxcount - Z.of_nat (List.length granted))) codes).
Proof.
  revert cur granted; induction codes as [|c codes IH]; intros cur granted Hd.
  - simpl. rewrite take_nil, app_nil_r. do 3 f_equal. lia.
  - cbn [List.length suback_loop]. rewrite decide_False by done.
    destruct (Z.leb_spec maxcount (Z.of_nat (List.length granted))).
    + rewrite (proj2 (Z.leb_gt _ _)) by lia.
      replace (Z.to_nat (maxcount - _)) with 0%nat by lia.
      rewrite take_0, app_nil_r. do 3 f_equal. lia.
    + apply readChar_spec in Hd as [-> Hd]. cbn [mbind option_bind].
      replace (Z.of_nat (List.length granted) + 1)
        with (Z.of_nat (List.length (granted ++ [c]))) by (rewrite length_app; simpl; lia).
      rewrite IH by done. rewrite length_app. cbn [List.length].
      replace (Z.to_nat (maxcount - Z.of_nat (List.length granted)))
        with (S (Z.to_nat (maxcount - Z.of_nat (List.length granted + 1)))) by lia.
      rewrite <-app_assoc. cbn [app firstn]. do 3 f_equal; [|lia].
      destruct (decide (codes = [])) as [->|]; simpl; zcases; done.
Qed.

(** A SUBACK as the protocol lays it out. *)
Definition suback_packet (packetid : Z) (codes : list Z) : list Z :=
  let body := int_bytes packetid ++ codes in
  144 :: remlen_bytes (Z.of_nat (List.length body)) ++ body.

(** [MQTTDeserialize_suback] reads the identifier and the granted QoS codes
    of a SUBACK, whatever follows it in the buffer, and never stores more than
    [maxcount] codes: a packet with more is answered with -1 after the first
    [maxcount]. *)
Theorem MQTTDeserialize_suback_ok (o : suback_out) (packetid maxcount : Z)
    (codes tail : list Z) (buflen : Z) :
  0 <= packetid < 65536 -> 0 <= maxcount ->
  Z.of_nat (2 + List.length codes) <= remlen_max ->
  MQTTDeserialize_suback o maxcount (suback_packet packetid codes ++ tail) buflen =
    Some (if Z.of_nat (List.length codes) <=? maxcount then 1 else -1,
          {| so_packetid := packetid;
             so_count := Z.min (Z.of_nat (List.length codes)) maxcount;
             so_grantedQoSs := take (Z.to_nat maxcount) codes |}).
Proof.
  intros Hi Hm Hs. unfold MQTTDeserialize_suback, suback_packet.
  cbn [app readChar lookup list_lookup mbind option_bind].
  change (MQTT_HEADER_GET_TYPE 144 =? SUBACK) with true. cbn [negb].
  set (n := Z.of_nat (List.length (int_bytes packetid ++ codes))).
  assert (n = 2 + Z.of_nat (List.length codes)) as Hn
    by (unfold n; rewrite length_app; simpl; lia).
  set (buf := 144 :: _).
  destruct (MQTTPacket_decodeBuf_remlen buf 1 n (int_bytes packetid ++ codes ++ tail))
    as [-> Hd]; [lia|unfold buf; cbn [drop]; by rewrite drop_0, <-!app_assoc|].
  cbn [mbind option_bind]. rewrite Nat2Z.id, (proj2 (Z.ltb_ge _ _)) by lia.
  apply readInt_spec in Hd as [-> Hd]; [|done]. cbn [mbind option_bind].
  match goal with |- context [suback_loop ?k] =>
    replace k with (List.length codes) by lia end.
  change 0 with (Z.of_nat (@List.length Z [])) at 1.
  rewrite (suback_loop_eq codes _ _ _ [] tail) by exact Hd. cbn [mbind option_bind].
  cbn [List.length]. rewrite Nat.add_0_l, Z.sub_0_r. cbn [app].
  do 3 f_equal; [|lia]. destruct (decide (codes = [])) as [->|]; [|done].
  by rewrite (proj2 (Z.leb_le _ _)) by (simpl; lia).
Qed.

Definition suback_zero : suback_out :=
  {| so_packetid := 0; so_count := 0; so_grantedQoSs := [] |}.

Lemma MQTTDeserialize_suback_ok_witness :
  MQTTDeserialize_suback suback_zero 2 [144; 5; 0; 9; 0; 1; 128] 7 =
    Some (-1, {| so_packetid := 9; so_count := 2; so_grantedQoSs := [0; 1] |}).
Proof.
  exact (MQTTDeserialize_suback_ok suback_zero 9 2 [0; 1; 128] [] 7
           ltac:(lia) ltac:(lia) ltac:(vm_compute; discriminate)).
Defined.

(** [MQTTDeserialize_unsuback] cannot refuse a packet of type UNSUBACK: every
    such buffer that is readable gives 1, and a body shorter than the identifier
    leaves the caller's identifier as it was. *)
Theorem MQTTDeserialize_unsuback_always (h n old : Z) (rest : list Z) (buflen : Z) :
  MQTT_HEADER_GET_TYPE h = UNSUBACK -> 0 <= n < 128 ->
  MQTTDeserialize_unsuback old (h :: n :: rest) buflen =
    (if n <? 2 then Some (1, old)
     else b0 ← rest !! 0%nat; b1 ← rest !! 1%nat; Some (1, 256 * b0 + b1)).
Proof.
  intros Hh Hn. unfold MQTTDeserialize_unsuback, MQTTDeserialize_ack.
  cbn [app readChar lookup list_lookup mbind option_bind].
  assert (drop 1 (h :: n :: rest) = remlen_bytes n ++ rest) as Hd.
  { unfold remlen_bytes. by rewrite (proj2 (Z.ltb_lt _ _)) by lia. }
  apply MQTTPacket_decodeBuf_remlen in Hd as [-> _]; [|unfold remlen_max; lia].
  cbn [mbind option_bind]. rewrite Hh. unfold remlen_bytes.
  rewrite (proj2 (Z.ltb_lt n 128)) by lia. cbn [List.length].
  replace (Z.of_nat _ + n - Z.of_nat _) with n by lia.
  destruct (n <? 2); [done|]. cbn -[Z.mul Z.add].
  destruct rest as [|b0 [|b1 rest]]; reflexivity.
Qed.

Lemma MQTTDeserialize_unsuback_always_witness :
  MQTTDeserialize_unsuback 5 [176; 0] 2 = Some (1, 5).
Proof. exact (MQTTDeserialize_unsuback_always 176 0 5 [] 2 eq_refl ltac:(lia)). Defined.
