(* ===== verification/MqttTopic.v ===== *)
(** * MqttTopic: topic filters

    The topic functions of [eng/mqtt/iotx_mqtt_client.c]: the checks of topic
    names and filters, which cut the topic into levels with [infra_strtok], and
    the matching of a topic name against a subscribed filter. *)

From S2P Require Import Prelude.
From S2P Require Import InfraState.
From S2P Require Import InfraString.
From S2P Require Import MqttPacket.

(** ** Operations *)

Inductive iotx_mc_topic_type_t := TOPIC_NAME_TYPE | TOPIC_FILTER_TYPE.

Definition CONFIG_MQTT_TOPIC_MAXLEN : Z := 128.

(** Is the character ['+'] or ['#']? *)
Definition wildcard (c : Z) : bool := (c =? 43) || (c =? 35).

(** The [for] loop over the characters left, of a term of length [len]. *)
Fixpoint check_rule_loop (s : list Z) (len : Z) (type : iotx_mc_topic_type_t) : Z :=
  match s with
  | [] => STATE_SUCCESS
  | c :: s' =>
      if match type with
         | TOPIC_FILTER_TYPE => wildcard c && negb (len =? 1)
         | TOPIC_NAME_TYPE => wildcard c
         end
      then STATE_MQTT_UNEXP_TOPIC_FORMAT
      else if (c <? 32) || (127 <=? c) then STATE_MQTT_UNEXP_TOPIC_FORMAT
      else check_rule_loop s' len type
  end.

Definition iotx_mc_check_rule (iterm : option (list Z)) (type : iotx_mc_topic_type_t) : Z :=
  match iterm with
  | None => STATE_USER_INPUT_INVALID
  | Some s => check_rule_loop s (Z.of_nat (List.length s)) type
  end.

(** The C string at an offset of an array. *)
Definition cstr_at (a : list Z) (off : nat) : option (list Z) :=
  n ← strlen (drop off a); Some (take n (drop off a)).

(** The string a token points to; [infra_strtok] returned NULL for [None]. *)
Definition token_str (st : strtok_t) (tok : option nat) : option (option (list Z)) :=
  match tok with
  | None => Some None
  | Some off => s ← cstr_at (st_array st) off; Some (Some s)
  end.

Definition delim : list Z := lit "/".

(** The [for (;;)] loop: [mask] is set by a level that starts with ['#']. *)
Fixpoint check_topic_loop (fuel : nat) (st : strtok_t) (mask : bool)
    (type : iotx_mc_topic_type_t) : option Z :=
  match fuel with
  | O => None
  | S fuel' =>
      '(tok, st) ← infra_strtok None delim st;
      iterm ← token_str st tok;
      match iterm with
      | None => Some STATE_SUCCESS
      | Some s =>
          if mask then Some STATE_MQTT_UNEXP_TOPIC_FORMAT
          else
            let res := iotx_mc_check_rule (Some s) type in
            if res <? STATE_SUCCESS then Some res
            else
              let mask := match s with c :: _ => c =? 35 | [] => false end in
              check_topic_loop fuel' st mask type
      end
  end.

(** [strncpy] of at most 127 characters into a zeroed array of 128. *)
Definition topicString (topicName : list Z) : list Z :=
  let s := take (Z.to_nat (CONFIG_MQTT_TOPIC_MAXLEN - 1)) topicName in
  s ++ repeat 0 (Z.to_nat CONFIG_MQTT_TOPIC_MAXLEN - List.length s).

Definition iotx_mc_check_topic (topicName : option (list Z)) (type : iotx_mc_topic_type_t)
    : option Z :=
  match topicName with
  | None => Some STATE_MQTT_UNEXP_TOPIC_FORMAT
  | Some s =>
      if negb (match s with c :: _ => c =? 47 | [] => false end)
      then Some STATE_MQTT_UNEXP_TOPIC_FORMAT
      else if CONFIG_MQTT_TOPIC_MAXLEN <? Z.of_nat (List.length s)
      then Some STATE_MQTT_TOPIC_BUF_TOO_SHORT
      else
        '(tok, st) ← infra_strtok (Some (topicString s)) delim strtok_init;
        iterm ← token_str st tok;
        let res := iotx_mc_check_rule iterm type in
        if res <? STATE_SUCCESS then Some res
        else check_topic_loop (Z.to_nat CONFIG_MQTT_TOPIC_MAXLEN) st false type
  end.

(** From a character inside a level to the separator that ends it. *)
Fixpoint skip_level (n : list Z) : list Z :=
  match n with
  | [] => []
  | c :: n' => if c =? 47 then n else skip_level n'
  end.

(** The [while] loop: [f] is the filter from [curf] on, [n] the topic name from
    [curn] to [curn_end]. *)
Fixpoint topic_match_loop (f n : list Z) : bool :=
  match f, n with
  | c :: f', x :: n' =>
      if (x =? 47) && negb (c =? 47) then false
      else if negb (c =? 43) && negb (c =? 35) && negb (c =? x) then false
      else if c =? 43 then topic_match_loop f' (skip_level n')
      else if c =? 35 then topic_match_loop f' []
      else topic_match_loop f' n'
  | [], [] => true
  | _, _ => false
  end.

(** [None]: the name's length exceeds the object its pointer points into. *)
Definition iotx_mc_is_topic_matched (topicFilter : option (list Z))
    (topicName : option MQTTString) : option Z :=
  match topicFilter, topicName with
  | Some f, Some t =>
      let data := default [] (lenstring_data t) in
      let len := Z.to_nat (lenstring_len t) in
      if (List.length data <? len)%nat then None
      else Some (if topic_match_loop f (take len data) then 1 else 0)
  | _, _ => Some STATE_SUCCESS
  end.

(** ** The specifications, by levels *)

(** The levels of a topic: its pieces between slashes. *)
Fixpoint levels (s : list Z) : list (list Z) :=
  match s with
  | [] => [[]]
  | c :: s' =>
      if c =? 47 then [] :: levels s'
      else match levels s' with
           | l :: ls => (c :: l) :: ls
           | [] => [[c]]
           end
  end.

(** The levels the check looks at: the non-empty ones, except that a last level
    of one character is passed over when the level before it is not empty. *)
Fixpoint checked (ls : list (list Z)) : list (list Z) :=
  match ls with
  | [] => []
  | [] :: ls' => checked ls'
  | l :: ls' => l :: match ls' with
                     | [[_]] => []
                     | _ => checked ls'
                     end
  end.

(** A level obeys the rule of its topic type. *)
Definition level_ok (type : iotx_mc_topic_type_t) (l : list Z) : bool :=
  forallb (fun c => (32 <=? c) && (c <? 127) &&
    match type with
    | TOPIC_NAME_TYPE => negb (wildcard c)
    | TOPIC_FILTER_TYPE => negb (wildcard c) || (List.length l =? 1)%nat
    end) l.

(** After the first level, a level that starts with ['#'] is the last. *)
Fixpoint hash_last (ls : list (list Z)) : bool :=
  match ls with
  | [] => true
  | l :: ls' => match l, ls' with
                | c :: _, _ :: _ => negb (c =? 35)
                | _, _ => true
                end && hash_last ls'
  end.

Definition topic_ok (type : iotx_mc_topic_type_t) (s : list Z) : bool :=
  match checked (levels s) with
  | [] => false
  | l :: ls => forallb (level_ok type) (l :: ls) && hash_last ls
  end.

(** Matching level by level: ['+'] stands for one level and a final ['#'] for all
    that remain, neither for an empty one. *)
Fixpoint level_match (fs ns : list (list Z)) : bool :=
  match fs, ns with
  | [], [] => true
  | f :: fs', n :: ns' =>
      if bool_decide (f = [35]) then bool_decide (fs' = []) && negb (bool_decide (n = []))
      else if bool_decide (f = [43]) then negb (bool_decide (n = [])) && level_match fs' ns'
      else bool_decide (f = n) && level_match fs' ns'
  | _, _ => false
  end.

(** A filter whose wildcards stand alone in their levels, ['#'] in the last. *)
Fixpoint filter_ok (fs : list (list Z)) : bool :=
  match fs with
  | [] => true
  | f :: fs' =>
      (forallb (fun c => negb (wildcard c)) f || bool_decide (f = [43])
       || (bool_decide (f = [35]) && bool_decide (fs' = []))) && filter_ok fs'
  end.

(** ** Matching *)

Lemma levels_ne s : exists l ls, levels s = l :: ls.
Proof.
  destruct s as [|c s]; simpl; [eauto|]. destruct (c =? 47); [eauto|].
  destruct (levels s); eauto.
Qed.

Lemma levels_skip n m ms gs :
  levels n = m :: ms -> level_match ([] :: gs) (levels (skip_level n)) = level_match gs ms.
Proof.
  revert m ms; induction n as [|x n IH]; intros m ms; simpl.
  - intros [= <- <-]. simpl. done.
  - destruct (x =? 47) eqn:Ex; [|].
    + intros [= <- <-]. simpl. rewrite Ex. simpl. done.
    + destruct (levels_ne n) as (l & ls & El). rewrite El. intros [= <- <-].
      by apply (IH l).
Qed.

Lemma topic_match_levels f n :
  filter_ok (levels f) = true ->
  topic_match_loop f n = level_match (levels f) (levels n).
Proof.
  revert n; induction f as [|c f IH]; intros n Hf.
  { destruct n as [|x n]; [done|]. simpl. destruct (x =? 47).
    - by destruct (levels_ne n) as (m & ms & ->).
    - by destruct (levels_ne n) as (m & ms & ->). }
  cbn [levels] in Hf |- *. destruct (levels_ne f) as (l & ls & El). rewrite El in *.
  destruct (c =? 47) eqn:Ec.
  - apply Z.eqb_eq in Ec as ->. simpl in Hf. assert (forall n, topic_match_loop f n = level_match (l :: ls) (levels n)) as IH'
      by (intros; by apply IH).
    destruct n as [|x n]; [simpl; by destruct ls|]. cbn [topic_match_loop levels].
    destruct (Z.eqb_spec x 47) as [->|Hx].
    + exact (IH' n).
    + replace (47 =? x) with false by lia. simpl.
      by destruct (levels_ne n) as (m & ms & ->).
  - cbn [filter_ok forallb] in Hf. apply andb_true_iff in Hf as [H1 H2].
    destruct (wildcard c) eqn:Ew.
    + simpl in H1. unfold wildcard in Ew. apply orb_true_iff in Ew as [E|E];
        apply Z.eqb_eq in E as ->.
      * assert (l = []) as -> by (case_bool_decide; simplify_eq; done).
        destruct n as [|x n]; [done|]. cbn [topic_match_loop levels].
        destruct (x =? 47); [done|]. simpl.
        destruct (levels_ne n) as (m & ms & Em). rewrite Em. simpl.
        rewrite IH by (simpl; done). by rewrite <-(levels_skip n m ms ls Em).
      * assert (l = [] /\ ls = []) as [-> ->]
          by (repeat case_bool_decide; simplify_eq; try done).
        destruct n as [|x n]; [done|]. cbn [topic_match_loop levels].
        destruct (x =? 47); [done|]. simpl.
        destruct (levels_ne n) as (m & ms & Em). rewrite Em. simpl.
        assert (f = []) as -> by (destruct f as [|y f]; [done|]; simpl in El;
          destruct (y =? 47), (levels_ne f) as (? & ? & E); rewrite E in El; done).
        done.
    + simpl in H1. unfold wildcard in Ew. apply orb_false_iff in Ew as [E1 E2].
      apply Z.eqb_neq in E1, E2.
      assert (filter_ok (l :: ls) = true) as Hl.
      { simpl. rewrite H2. destruct (forallb _ l); [done|].
        repeat case_bool_decide; simplify_eq; done. }
      assert (forall n, topic_match_loop f n = level_match (l :: ls) (levels n)) as IH'
        by (intros; by apply IH).
      destruct n as [|x n]; [simpl; repeat case_bool_decide; simplify_eq; done|].
      cbn [topic_match_loop levels]. rewrite (proj2 (Z.eqb_neq c 43)),
        (proj2 (Z.eqb_neq c 35)) by done. simpl.
      destruct (x =? 47) eqn:Ex.
      * apply Z.eqb_eq in Ex as ->. simpl. rewrite Ec. simpl. cbn [level_match].
        repeat case_bool_decide; simplify_eq; done.
      * simpl. destruct (levels_ne n) as (m & ms & Em). rewrite Em.
        destruct (Z.eqb_spec c x) as [<-|Hx]; simpl.
        -- rewrite IH', Em. cbn [level_match].
           repeat case_bool_decide; simplify_eq; done.
        -- rewrite !bool_decide_eq_false_2 by congruence. done.
Qed.

(** C38. [iotx_mc_is_topic_matched] is matching level by level: for every filter
    whose wildcards stand alone in their levels with ['#'] in the last, and every
    topic name, the scan of the two strings returns 1 exactly when each level of
    the filter equals the name's or is a ['+'] facing a non-empty level, a final
    ['#'] standing for one or more remaining levels of which the first is not
    empty.  (MQTT also lets ['+'] match an empty level and a final ['#'] match the
    parent level or an empty level: the code does not.) *)
Theorem topic_matched_levels (f : list Z) (t : MQTTString) (data : list Z) :
  filter_ok (levels f) = true ->
  lenstring_data t = Some data -> 0 <= lenstring_len t <= Z.of_nat (List.length data) ->
  iotx_mc_is_topic_matched (Some f) (Some t) =
    Some (if level_match (levels f) (levels (take (Z.to_nat (lenstring_len t)) data))
          then 1 else 0).
Proof.
  intros Hf Hd Hl. unfold iotx_mc_is_topic_matched. rewrite Hd. simpl.
  rewrite (proj2 (Nat.ltb_ge _ _)) by lia. by rewrite topic_match_levels.
Qed.

Lemma topic_matched_levels_witness :
  iotx_mc_is_topic_matched (Some (lit "/a/+/#"))
    (Some {| cstring := None; lenstring_len := 8; lenstring_data := Some (lit "/a/b/c/d?") |})
  = Some 1.
Proof.
  exact (topic_matched_levels (lit "/a/+/#")
    {| cstring := None; lenstring_len := 8; lenstring_data := Some (lit "/a/b/c/d?") |}
    (lit "/a/b/c/d?") eq_refl eq_refl ltac:(simpl; lia)).
Defined.

(** ** Checking *)

Fixpoint take_level (n : list Z) : list Z :=
  match n with
  | [] => []
  | c :: n' => if c =? 47 then [] else c :: take_level n'
  end.

Fixpoint skip_slashes (n : list Z) : list Z :=
  match n with
  | c :: n' => if c =? 47 then skip_slashes n' else n
  | [] => []
  end.

(** What a call of [infra_strtok] finds in the rest of the string: the token and
    the rest for the next call. *)
Definition next_token (r : list Z) : option (list Z * list Z) :=
  if (List.length r <=? 1)%nat then None
  else match skip_slashes r with
       | [] => None
       | r1 => Some (take_level r1, tl (skip_level r1))
       end.

(** The array from an offset on holds the C string [s]. *)
Definition str_at (a : list Z) (off : nat) (s : list Z) : Prop :=
  exists pre post, a = pre ++ s ++ 0 :: post /\ List.length pre = off
    /\ Forall (fun c => c <> 0) s.

Lemma str_at_intro a off s pre post :
  Forall (fun c => c <> 0) s -> a = pre ++ s ++ 0 :: post -> off = List.length pre ->
  str_at a off s.
Proof. intros. by exists pre, post. Qed.

Lemma strlen_app s post : Forall (fun c => c <> 0) s -> strlen (s ++ 0 :: post) = Some (List.length s).
Proof.
  induction 1 as [|c s Hc Hs IH]; simpl; [done|].
  rewrite (proj2 (Z.eqb_neq c 0)) by done. by rewrite IH.
Qed.

Lemma str_at_strlen a off s : str_at a off s -> strlen (drop off a) = Some (List.length s).
Proof. intros (pre & post & -> & <- & Hs). rewrite drop_app_length. by apply strlen_app. Qed.

Lemma str_at_cstr a off s : str_at a off s -> cstr_at a off = Some s.
Proof.
  intros Hs. unfold cstr_at. rewrite (str_at_strlen _ _ _ Hs). simpl.
  destruct Hs as (pre & post & -> & <- & _). by rewrite drop_app_length, take_app_length.
Qed.

(** Scanning a token whose characters [t] have been passed. *)
Lemma strtok_scan fuel pre t r post :
  Forall (fun c => c <> 0) (t ++ r) -> t <> [] -> (List.length r < fuel)%nat ->
  exists a' pos',
    strtok_loop fuel (pre ++ t ++ r ++ 0 :: post) delim
      (List.length pre + List.length t) (List.length pre) false
    = Some (a', pos', List.length pre, Some (List.length pre))
    /\ str_at a' (List.length pre) (t ++ take_level r)
    /\ str_at a' pos' (tl (skip_level r))
    /\ List.length a' = List.length (pre ++ t ++ r ++ 0 :: post).
Proof.
  revert t r; induction fuel as [|fuel IH]; intros t r Hnz Ht Hf; [lia|].
  assert (Forall (fun c => c <> 0) r) as Hr by (by apply Forall_app in Hnz as [_ ?]).
  cbn [strtok_loop]. rewrite <-length_app, (app_assoc pre t), drop_app_length.
  rewrite strlen_app by done. cbn [mbind option_bind]. change (List.length delim) with 1%nat.
  destruct r as [|c r].
  - simpl. eexists _, _. split; [done|]. rewrite app_nil_r in *.
    split; [by apply (str_at_intro _ _ _ pre post); [|rewrite <-app_assoc|]|].
    split; [|done]. by apply (str_at_intro _ _ _ (pre ++ t) post).
  - rewrite (proj2 (Nat.ltb_ge _ _)) by (simpl; lia). cbn [app firstn].
    rewrite firstn_O. destruct (Z.eqb_spec c 47) as [->|Hc].
    + rewrite bool_decide_eq_true_2 by done. cbn [negb].
      apply Forall_app in Hnz as [Hnt _]. apply Forall_cons in Hr as [_ Hr].
      cbn [clear_at]. rewrite list_insert_mid. destruct r as [|x r].
      * simpl. eexists _, _. split; [done|]. rewrite app_nil_r in *.
        split; [by apply (str_at_intro _ _ _ pre (0 :: post)); [|rewrite <-app_assoc|]|].
        split; [by apply (str_at_intro _ _ _ (pre ++ t) (0 :: post))|].
        by rewrite !length_app.
      * rewrite (proj2 (Nat.eqb_neq _ _)) by (simpl; lia).
        rewrite (proj2 (Nat.eqb_neq (List.length pre) _))
          by (rewrite length_app; destruct t; [done|simpl; lia]).
        eexists _, _. split; [done|]. simpl. rewrite app_nil_r.
        split; [by apply (str_at_intro _ _ _ pre (x :: r ++ 0 :: post)); [|rewrite <-app_assoc|]|].
        split; [|by rewrite !length_app].
        apply (str_at_intro _ _ _ (pre ++ t ++ [0]) post); [done|by rewrite <-!app_assoc|].
        rewrite !length_app. simpl. lia.
    + rewrite bool_decide_eq_false_2 by (change delim with [47]; congruence). cbn [negb].
      destruct (IH (t ++ [c]) r) as (a' & pos' & E & Hs & Hp & Hl).
      { by rewrite <-app_assoc. }
      { by destruct t. }
      { simpl in Hf. lia. }
      rewrite <-!app_assoc in E, Hs, Hl. cbn [app] in E, Hs, Hl.
      rewrite <-app_assoc.
      replace (S (List.length (pre ++ t))) with (List.length pre + List.length (t ++ [c]))%nat
        by (rewrite !length_app; simpl; lia).
      eexists _, _. split; [exact E|]. cbn [take_level skip_level].
      rewrite (proj2 (Z.eqb_neq c 47)) by done. done.
Qed.

(** Skipping the slashes before a token. *)
Lemma strtok_skip fuel pre r post :
  Forall (fun c => c <> 0) r -> r <> [] -> (List.length r < fuel)%nat ->
  exists a' pos' target' tok,
    strtok_loop fuel (pre ++ r ++ 0 :: post) delim (List.length pre) (List.length pre) true
    = Some (a', pos', target', tok)
    /\ List.length a' = List.length (pre ++ r ++ 0 :: post)
    /\ match skip_slashes r, tok with
       | [], None => True
       | r1, Some off => str_at a' off (take_level r1) /\ str_at a' pos' (tl (skip_level r1))
                         /\ r1 <> []
       | _, _ => False
       end.
Proof.
  revert pre r; induction fuel as [|fuel IH]; intros pre r Hr Hne Hf; [lia|].
  cbn [strtok_loop]. rewrite drop_app_length, strlen_app by done.
  cbn [mbind option_bind]. change (List.length delim) with 1%nat.
  destruct r as [|c r]; [done|]. clear Hne.
  rewrite (proj2 (Nat.ltb_ge _ _)) by (simpl; lia). cbn [app firstn]. rewrite firstn_O.
  pose proof Hr as Hr'. apply Forall_cons in Hr' as [Hc0 Hr'].
  destruct (Z.eqb_spec c 47) as [->|Hc].
  - rewrite bool_decide_eq_true_2 by done. cbn [negb skip_slashes].
    change (47 =? 47) with true. cbn iota.
    destruct r as [|x r].
    + simpl. eexists _, _, _, _. split; [done|]. split; [|done].
      by rewrite list_insert_mid, !length_app.
    + rewrite (proj2 (Nat.eqb_neq _ _)) by (simpl; lia). rewrite Nat.eqb_refl.
      replace (List.length pre + 1)%nat with (List.length (pre ++ [47]))
        by (rewrite length_app; simpl; lia).
      destruct (IH (pre ++ [47]) (x :: r)) as (a' & pos' & target' & tok & E & Hl & H);
        [done|done|simpl in *; lia|].
      rewrite <-!app_assoc in E, Hl. cbn [app] in E, Hl.
      eexists _, _, _, _. split; [exact E|]. done.
  - rewrite bool_decide_eq_false_2 by (change delim with [47]; congruence). cbn [negb].
    destruct (strtok_scan fuel pre [c] r post) as (a' & pos' & E & Hs & Hp & Hl);
      [done|done|simpl in *; lia|].
    cbn [app] in E, Hs, Hl.
    replace (S (List.length pre)) with (List.length pre + List.length [c])%nat by (simpl; lia).
    eexists _, _, _, _. split; [exact E|]. split; [exact Hl|].
    cbn [skip_slashes]. rewrite (proj2 (Z.eqb_neq c 47)) by done.
    cbn [take_level skip_level]. rewrite (proj2 (Z.eqb_neq c 47)) by done. done.
Qed.

(** A call that goes on with the string [r]. *)
Lemma infra_strtok_next a pos target r :
  str_at a pos r ->
  exists tok st', infra_strtok None delim (Strtok a (Some pos) target) = Some (tok, st')
    /\ match next_token r, tok with
       | None, None => True
       | Some (t, r'), Some off =>
           str_at (st_array st') off t
           /\ exists pos', st_pos st' = Some pos' /\ str_at (st_array st') pos' r'
       | _, _ => False
       end.
Proof.
  intros Hs. unfold infra_strtok, next_token. cbn [st_pos st_array].
  rewrite (str_at_strlen _ _ _ Hs). cbn [mbind option_bind].
  change (List.length delim) with 1%nat.
  destruct (Nat.leb_spec (List.length r) 1) as [Hl|Hl]; [by eexists _, _|].
  destruct Hs as (pre & post & -> & <- & Hr).
  destruct (strtok_skip (S (List.length (pre ++ r ++ 0 :: post))) pre r post)
    as (a' & pos' & target' & tok & -> & _ & H);
    [done|by destruct r; [simpl in Hl; lia|]|rewrite !length_app; lia|].
  cbn [mbind option_bind]. eexists _, _. split; [done|]. cbn [st_array st_pos].
  destruct (skip_slashes r) as [|c r1]; destruct tok as [off|]; try done.
  - by destruct H as (_ & _ & []).
  - destruct H as (H1 & H2 & _). eauto.
Qed.

(** *** Tokens and levels *)

Definition rest_levels (r : list Z) : list (list Z) :=
  if (List.length r <=? 1)%nat then [] else checked (levels r).

Lemma checked_skip r : checked (levels r) = checked (levels (skip_slashes r)).
Proof.
  induction r as [|c r IH]; [done|]. cbn [skip_slashes].
  destruct (c =? 47) eqn:E; [|done]. cbn [levels]. rewrite E. exact IH.
Qed.

Lemma levels_take r :
  levels r = take_level r ::
    match skip_level r with [] => [] | _ :: r' => levels r' end.
Proof.
  induction r as [|c r IH]; [done|]. cbn [levels take_level skip_level].
  destruct (c =? 47); [done|]. by rewrite IH.
Qed.

Lemma levels_single r c : levels r = [[c]] -> r = [c].
Proof.
  destruct r as [|x r]; [done|]. cbn [levels]. destruct (x =? 47) eqn:E.
  - destruct (levels_ne r) as (l & ls & ->). done.
  - destruct (levels_ne r) as (l & ls & El). rewrite El. intros [= -> -> ->].
    destruct r as [|y r]; [done|]. cbn [levels] in El.
    destruct (y =? 47), (levels_ne r) as (? & ? & E'); rewrite E' in El; done.
Qed.

(** The tokens are the checked levels. *)
Lemma next_token_levels r :
  match next_token r with
  | None => rest_levels r = []
  | Some (t, r') => rest_levels r = t :: rest_levels r'
                    /\ (List.length r' < List.length r)%nat
  end.
Proof.
  unfold next_token, rest_levels.
  destruct (Nat.leb_spec (List.length r) 1) as [Hl|Hl]; [done|].
  rewrite checked_skip.
  assert (List.length (skip_slashes r) <= List.length r)%nat as Hs.
  { clear Hl. induction r as [|c r IH]; simpl; [lia|]. destruct (c =? 47); simpl; lia. }
  destruct (skip_slashes r) as [|c r1] eqn:Er; [done|].
  assert ((c =? 47) = false) as Hc.
  { clear -Er. induction r as [|x r IH]; [done|]. cbn [skip_slashes] in Er.
    destruct (x =? 47) eqn:E; [by apply IH|]. by injection Er as -> _. }
  rewrite (levels_take (c :: r1)). cbn [take_level skip_level]. rewrite Hc.
  assert (List.length (skip_level r1) <= List.length r1)%nat as Hs'.
  { clear. induction r1 as [|x r IH]; simpl; [lia|]. destruct (x =? 47); simpl; lia. }
  split; [|destruct (skip_level r1); simpl in *; lia].
  destruct (skip_level r1) as [|x r2]; [done|]. cbn [tl checked]. f_equal.
  destruct (Nat.leb_spec (List.length r2) 1) as [H2|H2].
  - destruct r2 as [|y [|z r2]]; [done| |simpl in H2; lia].
    cbn [levels]. by destruct (y =? 47).
  - destruct (levels r2) as [|l ls] eqn:El; [done|].
    destruct l as [|y [|z l]]; [done| |by destruct ls].
    destruct ls; [|done]. apply levels_single in El as ->. simpl in H2. lia.
Qed.

Lemma check_rule_level type l :
  iotx_mc_check_rule (Some l) type =
    if level_ok type l then STATE_SUCCESS else STATE_MQTT_UNEXP_TOPIC_FORMAT.
Proof.
  unfold iotx_mc_check_rule, level_ok.
  assert ((List.length l =? 1)%nat = (Z.of_nat (List.length l) =? 1)) as ->.
  { destruct (Nat.eqb_spec (List.length l) 1), (Z.eqb_spec (Z.of_nat (List.length l)) 1);
      (done || lia). }
  generalize (Z.of_nat (List.length l)); intros len.
  induction l as [|c l IH]; [done|]. cbn [check_rule_loop forallb]. rewrite IH.
  replace ((c <? 32) || (127 <=? c)) with (negb ((32 <=? c) && (c <? 127))) by lia.
  by destruct type, (wildcard c), (len =? 1), ((32 <=? c) && (c <? 127)).
Qed.

(** The loop over the levels after the first. *)
Lemma check_topic_loop_spec fuel a pos target mask type r :
  str_at a pos r -> (List.length r < fuel)%nat ->
  exists rc, check_topic_loop fuel (Strtok a (Some pos) target) mask type = Some rc
    /\ (rc = STATE_SUCCESS <->
        forallb (level_ok type) (rest_levels r) && hash_last (rest_levels r)
        && (negb mask || bool_decide (rest_levels r = [])) = true)
    /\ rc <= STATE_SUCCESS.
Proof.
  revert a pos target mask r; induction fuel as [|fuel IH]; intros a pos target mask r Hs Hf;
    [lia|].
  cbn [check_topic_loop].
  destruct (infra_strtok_next a pos target r Hs) as (tok & st' & -> & H).
  cbn [mbind option_bind]. pose proof (next_token_levels r) as Hn.
  destruct (next_token r) as [[t r']|]; destruct tok as [off|]; try done; cbn [token_str mbind option_bind].
  - destruct H as (Ht & pos' & Ep & Hr'). destruct Hn as [-> Hlt].
    rewrite (str_at_cstr _ _ _ Ht). cbn [mbind option_bind].
    destruct mask.
    { eexists. split; [done|]. split; [|vm_compute; discriminate].
      by rewrite andb_false_r. }
    rewrite check_rule_level. cbn [forallb negb orb]. rewrite andb_true_r.
    destruct (level_ok type t).
    + cbn [Z.ltb STATE_SUCCESS Z.compare].
      destruct st' as [a' p' tg']. cbn [st_pos st_array] in *. subst p'.
      destruct (IH a' pos' tg' (match t with c :: _ => c =? 35 | [] => false end) r' Hr')
        as (rc & E & Hrc & Hle); [lia|].
      eexists. split; [exact E|]. split; [|done]. rewrite Hrc. cbn [andb].
      destruct t as [|c t]; cbn [hash_last].
      * by rewrite andb_true_r.
      * destruct (rest_levels r') as [|l ls]; [simpl; by rewrite !orb_true_r|].
        rewrite bool_decide_eq_false_2 by done. rewrite orb_false_r.
        destruct (forallb _ _), (c =? 35), (hash_last _); done.
    + eexists. split; [reflexivity|]. split; [done|]. done.
  - rewrite Hn. eexists. split; [reflexivity|]. split; [|done].
    simpl. by rewrite orb_true_r.
Qed.

Lemma check_topic_spec (s : list Z) (type : iotx_mc_topic_type_t) :
  cstr_ok s ->
  exists rc, iotx_mc_check_topic (Some s) type = Some rc
  /\ (rc = STATE_SUCCESS <->
      head s = Some 47 /\ Z.of_nat (List.length s) <= 128
      /\ topic_ok type (take 127 s) = true)
  /\ (head s = Some 47 -> 128 < Z.of_nat (List.length s) ->
      rc = STATE_MQTT_TOPIC_BUF_TOO_SHORT)
  /\ rc <= STATE_SUCCESS.
Proof.
  intros Hs. unfold iotx_mc_check_topic.
  destruct s as [|c s].
  { eexists. split; [reflexivity|]. split; [split; [done|intros ([=] & _)]|].
    split; [intros [=]|done]. }
  destruct (Z.eqb_spec c 47) as [->|Hc]; cbn [negb]; last first.
  { eexists. split; [done|]. simpl.
    split; [split; [done|intros ([= ?] & _); congruence]|].
    split; [intros [= ?]; congruence|done]. }
  unfold CONFIG_MQTT_TOPIC_MAXLEN at 1.
  destruct (Z.ltb_spec 128 (Z.of_nat (List.length (47 :: s)))) as [Hl|Hl].
  { eexists. split; [done|]. split; [|by split]. split; [done|]. intros (_ & Hl' & _). lia. }
  assert (Forall (fun c => c <> 0) (47 :: s)) as Hnz
    by (eapply Forall_impl; [exact Hs|]; simpl; lia).
  unfold topicString. change (Z.to_nat (CONFIG_MQTT_TOPIC_MAXLEN - 1)) with 127%nat.
  change (Z.to_nat CONFIG_MQTT_TOPIC_MAXLEN) with 128%nat.
  assert (Forall (fun c => c <> 0) (take 127 (47 :: s))) as Hr by (by apply Forall_take).
  assert (List.length (take 127 (47%Z :: s)) <= 127)%nat as Hlen by (rewrite length_take; lia).
  assert (head (take 127 (47 :: s)) = Some 47) as Hh by done.
  revert Hr Hlen Hh. generalize (take 127 (47 :: s)). intros r Hr Hlen Hh.
  replace (128 - List.length r)%nat with (S (127 - List.length r)) by lia. cbn [repeat].
  assert (str_at (r ++ 0 :: repeat 0 (127 - List.length r)) 0 r) as Hat
    by (by apply (str_at_intro _ _ _ [] (repeat 0 (127 - List.length r)))).
  destruct (infra_strtok_next _ _ None r Hat) as (tok & st' & E & H).
  unfold infra_strtok in E |- *. cbn [st_pos st_array st_target strtok_init] in E |- *.
  rewrite E. cbn [mbind option_bind]. clear E.
  pose proof (next_token_levels r) as Hn. unfold topic_ok.
  assert (rest_levels r = checked (levels r)) as Hrl.
  { unfold rest_levels. destruct (Nat.leb_spec (List.length r) 1); [|done].
    destruct r as [|x [|y r]]; simpl in *; [done| |lia]. injection Hh as ->. done. }
  rewrite <-Hrl.
  destruct (next_token r) as [[t r']|]; destruct tok as [off|]; try done; cbn [token_str mbind option_bind].
  - destruct H as (Ht & pos' & Ep & Hr'). destruct Hn as [-> Hlt].
    rewrite (str_at_cstr _ _ _ Ht). cbn [mbind option_bind]. rewrite check_rule_level.
    cbn [forallb]. destruct (level_ok type t).
    + cbn [Z.ltb STATE_SUCCESS Z.compare].
      destruct st' as [a' p' tg']. cbn [st_pos st_array] in *. subst p'.
      destruct (check_topic_loop_spec 128 a' pos' tg' false type r' Hr')
        as (rc & -> & Hrc & Hle); [lia|].
      eexists. split; [done|]. split; [|split; [lia|done]]. rewrite Hrc. cbn [negb orb andb].
      rewrite andb_true_r. split; [|tauto]. intros ?. split; [done|]. split; [lia|done].
    + eexists. split; [reflexivity|]. split; [|split; [lia|done]].
      split; [done|]. intros (_ & _ & ?). done.
  - rewrite Hn. eexists. split; [reflexivity|]. split; [|split; [lia|done]].
    split; [done|]. intros (_ & _ & ?). done.
Qed.

(** [iotx_mc_check_topic] decides the well-formedness of a topic by levels: it
    always ends, and for a topic of at most 128 characters that starts with a
    slash it returns 0 exactly when, among the levels of its first 127
    characters, the checked ones exist, each obeys the rule of the topic type
    (printable characters; in a name no wildcard, in a filter a wildcard only
    alone), and after the first a level that starts with ['#'] comes last.  Any
    other topic is refused, with the buffer-too-short code when it is too long. *)
Theorem check_topic_levels (s : list Z) (type : iotx_mc_topic_type_t) :
  cstr_ok s ->
  exists rc, iotx_mc_check_topic (Some s) type = Some rc
  /\ (rc = STATE_SUCCESS <->
      head s = Some 47 /\ Z.of_nat (List.length s) <= 128
      /\ topic_ok type (take 127 s) = true)
  /\ (head s = Some 47 -> 128 < Z.of_nat (List.length s) ->
      rc = STATE_MQTT_TOPIC_BUF_TOO_SHORT)
  /\ rc <= STATE_SUCCESS.
Proof. apply check_topic_spec. Qed.

Lemma check_topic_levels_witness :
  exists rc, iotx_mc_check_topic (Some (lit "/sys/+/#")) TOPIC_FILTER_TYPE = Some rc
  /\ (rc = STATE_SUCCESS <->
      head (lit "/sys/+/#") = Some 47 /\ Z.of_nat (List.length (lit "/sys/+/#")) <= 128
      /\ topic_ok TOPIC_FILTER_TYPE (take 127 (lit "/sys/+/#")) = true)
  /\ (head (lit "/sys/+/#") = Some 47 -> 128 < Z.of_nat (List.length (lit "/sys/+/#")) ->
      rc = STATE_MQTT_TOPIC_BUF_TOO_SHORT)
  /\ rc <= STATE_SUCCESS.
Proof.
  exact (check_topic_levels (lit "/sys/+/#") TOPIC_FILTER_TYPE
    ltac:(repeat constructor)).
Defined.

Lemma levels_app s u : levels (s ++ 47 :: u) = levels s ++ levels u.
Proof.
  induction s as [|c s IH]; [done|]. cbn [app levels]. rewrite IH.
  destruct (c =? 47); [done|]. by destruct (levels_ne s) as (l & ls & ->).
Qed.

Lemma levels_last s : s <> [] -> last s <> Some 47 -> exists ls l, levels s = ls ++ [l] /\ l <> [].
Proof.
  induction s as [|c s IH]; intros Hne Hl; [done|]. cbn [levels].
  destruct s as [|x s].
  - destruct (Z.eqb_spec c 47) as [->|Hc]; [done|]. by exists [], [c].
  - destruct IH as (ls & l & E & Hl'); [done|done|]. rewrite E.
    destruct (c =? 47); [by exists ([] :: ls), l|].
    destruct ls as [|m ls]; [by exists [], (c :: l)|by exists ((c :: m) :: ls), l].
Qed.

Lemma checked_snoc ls l c :
  l <> [] ->
  checked ((ls ++ [l]) ++ [[c]]) <> []
  /\ Forall (fun x => x ∈ ls ++ [l]) (checked ((ls ++ [l]) ++ [[c]])).
Proof.
  intros Hl. induction ls as [|m ls [IH1 IH2]]; cbn [app].
  - destruct l as [|x l]; [done|]. simpl. split; [done|].
    apply Forall_singleton. by left.
  - assert (Forall (fun x => x ∈ m :: ls ++ [l]) (checked ((ls ++ [l]) ++ [[c]]))) as H.
    { eapply Forall_impl; [exact IH2|]. intros x Hx. by right. }
    cbn [checked]. destruct m as [|x m]; [done|]. split; [done|].
    constructor; [by left|].
    destruct ((ls ++ [l]) ++ [[c]]) as [|[|y [|]] [|]]; done.
Qed.

Lemma hash_last_names ls :
  Forall (fun l => level_ok TOPIC_NAME_TYPE l = true) ls -> hash_last ls = true.
Proof.
  induction 1 as [|l ls Hl Hls IH]; [done|]. cbn [hash_last]. rewrite IH, andb_true_r.
  destruct l as [|c l]; [done|]. unfold level_ok in Hl. cbn [forallb] in Hl.
  unfold wildcard in Hl. destruct ls; [done|]. lia.
Qed.

(** A wildcard passes for a topic name when it is the last level: after any
    topic name of at most 125 characters whose levels are all well formed, and
    which does not end with a slash, a final level of one character, whatever the
    character, is not looked at, so that for instance a publication to "/a/#" is
    accepted. *)
Theorem check_topic_last_wildcard (s : list Z) (c : Z) :
  cstr_ok (s ++ [47; c]) -> Z.of_nat (List.length s) <= 125 ->
  head s = Some 47 -> last s <> Some 47 -> c <> 47 ->
  forallb (level_ok TOPIC_NAME_TYPE) (levels s) = true ->
  iotx_mc_check_topic (Some (s ++ [47; c])) TOPIC_NAME_TYPE = Some STATE_SUCCESS.
Proof.
  intros Hok Hlen Hh Hl Hc Hlv.
  destruct (check_topic_spec _ TOPIC_NAME_TYPE Hok) as (rc & -> & Hrc & _ & _).
  f_equal. apply Hrc. rewrite length_app. cbn [List.length].
  split; [by destruct s|]. split; [lia|].
  rewrite take_ge by (rewrite length_app; simpl; lia).
  unfold topic_ok. rewrite levels_app. cbn [levels].
  rewrite (proj2 (Z.eqb_neq c 47)) by done.
  destruct (levels_last s) as (ls & l & E & Hne); [by destruct s|done|].
  rewrite E in *. destruct (checked_snoc ls l c Hne) as [H1 H2].
  assert (Forall (fun l => level_ok TOPIC_NAME_TYPE l = true) (checked ((ls ++ [l]) ++ [[c]])))
    as H3.
  { eapply Forall_impl; [exact H2|]. intros x Hx. rewrite forallb_forall in Hlv.
    apply Hlv. by apply list_elem_of_In. }
  destruct (checked _) as [|m ms]; [done|].
  apply Forall_cons in H3 as [Hm Hms]. rewrite hash_last_names by done.
  rewrite andb_true_r. cbn [forallb]. rewrite Hm. simpl.
  apply forallb_forall. intros x Hx. rewrite Forall_forall in Hms. apply Hms.
  by apply list_elem_of_In.
Qed.

Lemma check_topic_last_wildcard_witness :
  iotx_mc_check_topic (Some (lit "/a/#")) TOPIC_NAME_TYPE = Some STATE_SUCCESS.
Proof.
  exact (check_topic_last_wildcard (lit "/a") 35 ltac:(repeat constructor)
    ltac:(simpl; lia) eq_refl ltac:(discriminate) ltac:(lia) eq_refl).
Defined.
