(* ===== verification/MqttState.v ===== *)
(** * MqttState: the MQTT client's data and the monad of its code

    [eng/mqtt/iotx_mqtt_client.h] and the constants of [iotx_mqtt_config.h] and
    [mqtt_api.h].  A function of the client is a state transformer on a [world]:
    the client, the two globals it uses, the heap blocks that are allocated, the
    mutexes the running thread holds and the state of the platform. *)

From S2P Require Import Prelude.
From S2P Require Import InfraState.
From S2P Require Import Hal.
From S2P Require Import InfraTimer.
From S2P Require Import InfraNet.
From S2P Require Import InfraCompat.
From S2P Require Import MqttPacket.
From S2P Require Import MqttConnect.

(** ** Constants *)

Definition MQTT_DYNBUF_SEND_MARGIN : Z := 64.
Definition MQTT_DYNBUF_RECV_MARGIN : Z := 8.
Definition IOTX_MC_MQTT_VERSION : Z := 4.
Definition IOTX_MC_REPUB_NUM_MAX : Z := 10.
Definition IOTX_MC_PACKET_ID_MAX : Z := 65535.
Definition IOTX_MC_RECONNECT_INTERVAL_MIN_MS : Z := 1000.
Definition IOTX_MC_RECONNECT_INTERVAL_MAX_MS : Z := 30000.
Definition IOTX_MC_KEEPALIVE_PROBE_MAX : Z := 2.
Definition CONFIG_MQTT_KEEPALIVE_INTERVAL : Z := 60.
Definition CONFIG_MQTT_KEEPALIVE_INTERVAL_MIN : Z := 30.
Definition CONFIG_MQTT_KEEPALIVE_INTERVAL_MAX : Z := 1200.
Definition CONFIG_MQTT_REQUEST_TIMEOUT : Z := 5000.
Definition CONFIG_MQTT_REQ_TIMEOUT_MIN : Z := 1000.
Definition CONFIG_MQTT_REQ_TIMEOUT_MAX : Z := 10000.
Definition MUTLI_SUBSCIRBE_MAX : Z := 5.

(** [iotx_mqtt_qos_t] *)
Definition IOTX_MQTT_QOS0 : Z := 0.
Definition IOTX_MQTT_QOS1 : Z := 1.
Definition IOTX_MQTT_QOS2 : Z := 2.
Definition IOTX_MQTT_QOS3_SUB_LOCAL : Z := 3.

(** [iotx_mc_connect_ack_code_t] *)
Definition IOTX_MC_CONNECTION_ACCEPTED : Z := 0.
Definition IOTX_MC_CONNECTION_REFUSED_UNACCEPTABLE_PROTOCOL_VERSION : Z := 1.
Definition IOTX_MC_CONNECTION_REFUSED_IDENTIFIER_REJECTED : Z := 2.
Definition IOTX_MC_CONNECTION_REFUSED_SERVER_UNAVAILABLE : Z := 3.
Definition IOTX_MC_CONNECTION_REFUSED_BAD_USERDATA : Z := 4.
Definition IOTX_MC_CONNECTION_REFUSED_NOT_AUTHORIZED : Z := 5.

(** ** Data *)

Inductive iotx_mc_state_t :=
  | IOTX_MC_STATE_INVALID
  | IOTX_MC_STATE_INITIALIZED
  | IOTX_MC_STATE_CONNECTED
  | IOTX_MC_STATE_DISCONNECTED
  | IOTX_MC_STATE_DISCONNECTED_RECONNECTING
  | IOTX_MC_STATE_CONNECT_BLOCK.

#[global] Instance iotx_mc_state_eq_dec : EqDecision iotx_mc_state_t.
Proof. solve_decision. Defined.

Inductive iotx_mc_node_t := IOTX_MC_NODE_STATE_NORMANL | IOTX_MC_NODE_STATE_INVALID.

#[global] Instance iotx_mc_node_eq_dec : EqDecision iotx_mc_node_t.
Proof. solve_decision. Defined.

Inductive iotx_mqtt_event_type_t :=
  | IOTX_MQTT_EVENT_UNDEF
  | IOTX_MQTT_EVENT_DISCONNECT
  | IOTX_MQTT_EVENT_RECONNECT
  | IOTX_MQTT_EVENT_SUBCRIBE_SUCCESS
  | IOTX_MQTT_EVENT_SUBCRIBE_TIMEOUT
  | IOTX_MQTT_EVENT_SUBCRIBE_NACK
  | IOTX_MQTT_EVENT_UNSUBCRIBE_SUCCESS
  | IOTX_MQTT_EVENT_PUBLISH_SUCCESS
  | IOTX_MQTT_EVENT_PUBLISH_RECEIVED
  | IOTX_MQTT_EVENT_BUFFER_OVERFLOW.

#[global] Instance iotx_mqtt_event_type_eq_dec : EqDecision iotx_mqtt_event_type_t.
Proof. solve_decision. Defined.

(** A [const char *] into a buffer is the rest of the buffer from there on. *)
Record iotx_mqtt_topic_info_t := {
  ti_packet_id : Z;
  ti_qos : Z;
  ti_dup : Z;
  ti_retain : Z;
  ti_topic_len : Z;
  ti_payload_len : Z;
  ti_ptopic : option (list Z);
  ti_payload : option (list Z)
}.

#[global] Instance eta_topic_info : Eta iotx_mqtt_topic_info_t := fun t =>
  {| ti_packet_id := ti_packet_id t; ti_qos := ti_qos t; ti_dup := ti_dup t;
     ti_retain := ti_retain t; ti_topic_len := ti_topic_len t;
     ti_payload_len := ti_payload_len t; ti_ptopic := ti_ptopic t;
     ti_payload := ti_payload t |}.

(** What the [void *msg] of an event holds. *)
Inductive event_arg :=
  | MsgNull
  | MsgText (s : list Z)
  | MsgId (packet_id : Z)
  | MsgTopic (info : iotx_mqtt_topic_info_t).

Record iotx_mqtt_event_msg_t := { event_type : iotx_mqtt_event_type_t; msg : event_arg }.

(** A function pointer is an address, 0 for NULL. *)
Record iotx_mqtt_event_handle_t := { h_fp : Z; pcontext : Z }.

#[global] Instance event_handle_eq_dec : EqDecision iotx_mqtt_event_handle_t.
Proof. solve_decision. Defined.

(** List nodes and buffers carry the address of their heap block. *)
Record iotx_mc_topic_handle_t := {
  th_addr : nat;
  th_filter_addr : nat;
  topic_filter : list Z;
  th_handle : iotx_mqtt_event_handle_t
}.

Record iotx_mc_pub_info_t := {
  pi_addr : nat;
  pub_start_time : iotx_time_t;
  node_state : iotx_mc_node_t;
  msg_id : Z;
  pi_len : Z;
  pi_buf : list Z
}.

#[global] Instance eta_pub_info : Eta iotx_mc_pub_info_t := fun p =>
  {| pi_addr := pi_addr p; pub_start_time := pub_start_time p; node_state := node_state p;
     msg_id := msg_id p; pi_len := pi_len p; pi_buf := pi_buf p |}.

Record mqtt_sub_sync_node_t := {
  ss_addr : nat;
  ss_packet_id : Z;
  ack_type : iotx_mqtt_event_type_t
}.

#[global] Instance eta_sub_sync : Eta mqtt_sub_sync_node_t := fun s =>
  {| ss_addr := ss_addr s; ss_packet_id := ss_packet_id s; ack_type := ack_type s |}.

Record buffer := { buf_addr : nat; buf_data : list Z }.

#[global] Instance eta_buffer : Eta buffer := fun b =>
  {| buf_addr := buf_addr b; buf_data := buf_data b |}.

Record iotx_mc_reconnect_param_t := {
  reconnect_next_time : iotx_time_t;
  reconnect_time_interval_ms : Z
}.

#[global] Instance eta_reconnect_param : Eta iotx_mc_reconnect_param_t := fun r =>
  {| reconnect_next_time := reconnect_next_time r;
     reconnect_time_interval_ms := reconnect_time_interval_ms r |}.

#[global] Instance eta_connect_data : Eta MQTTPacket_connectData := fun d =>
  {| cd_struct_id := cd_struct_id d; cd_struct_version := cd_struct_version d;
     cd_MQTTVersion := cd_MQTTVersion d; cd_clientID := cd_clientID d;
     cd_keepAliveInterval := cd_keepAliveInterval d;
     cd_cleansession := cd_cleansession d; cd_willFlag := cd_willFlag d;
     cd_will := cd_will d; cd_username := cd_username d; cd_password := cd_password d |}.

(** The mutexes of a client. *)
Inductive lock :=
  | LOCK_YIELD
  | LOCK_READ_BUF
  | LOCK_LIST_PUB
  | LOCK_WRITE_BUF
  | LOCK_GENERIC.

#[global] Instance lock_eq_dec : EqDecision lock.
Proof. solve_decision. Defined.

(** [iotx_mc_client_t]; a mutex pointer is whether the mutex was created, the
    lists are in the order of their nodes. *)
Record iotx_mc_client_t := {
  lock_generic : bool;
  packet_id : Z;
  request_timeout_ms : Z;
  cycle_timeout_ms : Z;
  buf_size_send : Z;
  buf_size_send_max : Z;
  buf_size_read_max : Z;
  buf_size_read : Z;
  keepalive_probes : Z;
  buf_send : option buffer;
  buf_read : option buffer;
  list_sub_handle : list iotx_mc_topic_handle_t;
  ipstack : utils_network_t;
  next_ping_time : iotx_time_t;
  client_state : iotx_mc_state_t;
  reconnect_param : iotx_mc_reconnect_param_t;
  connect_data : MQTTPacket_connectData;
  list_pub_wait_ack : list iotx_mc_pub_info_t;
  list_sub_sync_ack : list mqtt_sub_sync_node_t;
  lock_list_pub : bool;
  lock_write_buf : bool;
  lock_read_buf : bool;
  lock_yield : bool;
  handle_event : iotx_mqtt_event_handle_t
}.

#[global] Instance eta_client : Eta iotx_mc_client_t := fun c =>
  {| lock_generic := lock_generic c; packet_id := packet_id c;
     request_timeout_ms := request_timeout_ms c; cycle_timeout_ms := cycle_timeout_ms c;
     buf_size_send := buf_size_send c; buf_size_send_max := buf_size_send_max c;
     buf_size_read_max := buf_size_read_max c; buf_size_read := buf_size_read c;
     keepalive_probes := keepalive_probes c; buf_send := buf_send c;
     buf_read := buf_read c; list_sub_handle := list_sub_handle c;
     ipstack := ipstack c; next_ping_time := next_ping_time c;
     client_state := client_state c; reconnect_param := reconnect_param c;
     connect_data := connect_data c; list_pub_wait_ack := list_pub_wait_ack c;
     list_sub_sync_ack := list_sub_sync_ack c; lock_list_pub := lock_list_pub c;
     lock_write_buf := lock_write_buf c; lock_read_buf := lock_read_buf c;
     lock_yield := lock_yield c; handle_event := handle_event c |}.

(** ** The world *)

(** [w_blocks]: the allocated heap blocks; [w_next]: an address above them all.
    [w_held]: the mutexes held, the last taken first.  [w_taken] is the history of
    acquisitions: each mutex taken, with those held at that moment. *)
Record world (E : Type) := World {
  w_client : iotx_mc_client_t;
  w_in_yield_cb : Z;
  w_ctx : sdk_impl_ctx_t;
  w_blocks : list nat;
  w_next : nat;
  w_held : list lock;
  w_taken : list (lock * list lock);
  w_env : E
}.
Arguments World {E}.
Arguments w_client {E}.
Arguments w_in_yield_cb {E}.
Arguments w_ctx {E}.
Arguments w_blocks {E}.
Arguments w_next {E}.
Arguments w_held {E}.
Arguments w_taken {E}.
Arguments w_env {E}.

#[global] Instance eta_world E : Eta (world E) := fun w =>
  World (w_client w) (w_in_yield_cb w) (w_ctx w) (w_blocks w) (w_next w) (w_held w)
    (w_taken w) (w_env w).

(** ** The monad *)

(** How an execution goes wrong: a mutex is taken twice by one thread, released
    without being held or used before its creation; a block that is not allocated
    is freed or used; memory is read or written outside an object; a NULL pointer
    is followed. *)
Inductive fault := FaultLock | FaultHeap | FaultRead | FaultWrite | FaultNull.

#[global] Instance fault_eq_dec : EqDecision fault.
Proof. solve_decision. Defined.

Inductive outcome (E A : Type) :=
  | Done (a : A) (w : world E)
  | Fault (f : fault)
  | OutOfFuel.
Arguments Done {E A}.
Arguments Fault {E A}.
Arguments OutOfFuel {E A}.

Definition prog (E A : Type) : Type := world E -> outcome E A.

#[global] Instance prog_ret E : MRet (prog E) := fun A a w => Done a w.
#[global] Instance prog_bind E : MBind (prog E) := fun A B f m w =>
  match m w with
  | Done a w => f a w
  | Fault x => Fault x
  | OutOfFuel => OutOfFuel
  end.

Section Prog.
Context {E : Type}.

Definition fail {A} (f : fault) : prog E A := fun _ => Fault f.
Definition diverge {A} : prog E A := fun _ => OutOfFuel.

(** A computation that may be undefined, with the fault it then is. *)
Definition lift {A} (f : fault) (o : option A) : prog E A :=
  match o with
  | Some a => mret a
  | None => fail f
  end.

Definition get {A} (f : iotx_mc_client_t -> A) : prog E A := fun w => Done (f (w_client w)) w.
Definition modify (f : iotx_mc_client_t -> iotx_mc_client_t) : prog E unit :=
  fun w => Done tt (w <| w_client ::= f |>).

(** A platform call. *)
Definition plat {A} (f : E -> A * E) : prog E A := fun w =>
  let '(a, e) := f (w_env w) in Done a (w <| w_env := e |>).

Definition in_yield_cb : prog E Z := fun w => Done (w_in_yield_cb w) w.
Definition set_in_yield_cb (z : Z) : prog E unit := fun w => Done tt (w <| w_in_yield_cb := z |>).

Definition lock_created (l : lock) (c : iotx_mc_client_t) : bool :=
  match l with
  | LOCK_YIELD => lock_yield c
  | LOCK_READ_BUF => lock_read_buf c
  | LOCK_LIST_PUB => lock_list_pub c
  | LOCK_WRITE_BUF => lock_write_buf c
  | LOCK_GENERIC => lock_generic c
  end.

(** The mutexes are not recursive: taking one again blocks the thread for ever. *)
Definition HAL_MutexLock (l : lock) : prog E unit := fun w =>
  if negb (lock_created l (w_client w)) then Fault FaultLock
  else if bool_decide (l ∈ w_held w) then Fault FaultLock
  else Done tt (w <| w_taken ::= cons (l, w_held w) |> <| w_held ::= cons l |>).

Definition HAL_MutexUnlock (l : lock) : prog E unit := fun w =>
  if bool_decide (l ∈ w_held w)
  then Done tt (w <| w_held ::= filter (fun k => k <> l) |>)
  else Fault FaultLock.

Context `{!Hal E}.

(** [mqtt_malloc]: the address of a new block, or NULL. *)
Definition mqtt_malloc (size : Z) : prog E (option nat) := fun w =>
  let '(ok, e) := HAL_Malloc size (w_env w) in
  let w := w <| w_env := e |> in
  if ok then
    Done (Some (w_next w))
      (w <| w_blocks ::= cons (w_next w) |> <| w_next ::= S |>)
  else Done None w.

(** [mqtt_free] of a pointer that is not NULL. *)
Definition mqtt_free (a : nat) : prog E unit := fun w =>
  if bool_decide (a ∈ w_blocks w)
  then Done tt (w <| w_blocks ::= filter (fun b => b <> a) |>)
  else Fault FaultHeap.

(** The timer functions on the platform's state. *)
Definition time_start : prog E iotx_time_t := plat iotx_time_start.
Definition time_spend (t : iotx_time_t) : prog E Z := plat (utils_time_spend (Some t)).
Definition time_left (t : iotx_time_t) : prog E Z := plat (iotx_time_left (Some t)).
Definition time_is_expired (t : iotx_time_t) : prog E Z :=
  plat (utils_time_is_expired (Some t)).
Definition time_countdown_ms (ms : Z) : prog E iotx_time_t :=
  plat (utils_time_countdown_ms ms).

Definition sleep_ms (ms : Z) : prog E unit := plat (fun e => (tt, HAL_SleepMs ms e)).

(** Calls through the client's network structure. *)
Definition net_read (len timeout_ms : Z) : prog E (Z * list Z) :=
  n ← get ipstack;
  plat (fun e => let '(rc, bs, e) := utils_net_read n len timeout_ms e in ((rc, bs), e)).
Definition net_write (bs : list Z) (timeout_ms : Z) : prog E Z :=
  n ← get ipstack;
  plat (utils_net_write n bs timeout_ms).
Definition net_disconnect : prog E Z :=
  n ← get ipstack;
  '(rc, n) ← plat (iotx_net_disconnect n);
  modify (fun c => c <| ipstack := n |>);;
  mret rc.
Definition net_connect : prog E Z :=
  n ← get ipstack;
  '(rc, n) ← plat (iotx_net_connect n);
  modify (fun c => c <| ipstack := n |>);;
  mret rc.
End Prog.

(** ** The application *)

(** What the client calls back: the event handlers that the user registered, the
    handler of the identity response and the state-event handlers.  They run with
    the whole world at hand, so they may call the client again. *)
Class App (E : Type) := {
  on_event : iotx_mqtt_event_handle_t -> iotx_mqtt_event_msg_t -> prog E unit;
  on_identity_response : list Z -> prog E unit;
  iotx_state_event : Z -> prog E unit
}.
