(* ===== verification/MqttSend.v ===== *)
(** * MqttSend: what the MQTT client sends

    The sending half of [eng/mqtt/iotx_mqtt_client.c]: the dynamic buffers, the
    packet writer, the list of publications that wait for their PUBACK, and the
    requests CONNECT, PUBLISH, PUBACK, SUBSCRIBE, UNSUBSCRIBE, PINGREQ and
    DISCONNECT.  The client pointer is never NULL in the calls modelled. *)

From S2P Require Import Prelude.
From S2P Require Import InfraState.
From S2P Require Import Hal.
From S2P Require Import InfraTimer.
From S2P Require Import MqttPacket.
From S2P Require Import MqttConnect.
From S2P Require Import MqttPublish.
From S2P Require Import MqttSubscribe.
From S2P Require Import MqttTopic.
From S2P Require Import MqttState.

(** Sizes of the structures on a 32-bit target, the arguments of [mqtt_malloc]. *)
Definition sizeof_topic_handle : Z := 24.
Definition sizeof_pub_info : Z := 28.
Definition sizeof_sub_sync_node : Z := 20.

(** [n] bytes of an object from an offset on. *)
Definition slice (buf : list Z) (off n : Z) : option (list Z) :=
  if (off <? 0) || (n <? 0) || (Z.of_nat (List.length buf) <? off + n) then None
  else Some (take (Z.to_nat n) (drop (Z.to_nat off) buf)).

Section Send.
Context {E : Type} `{!Hal E} (fuel : nat).

(** ** The client state *)

Definition iotx_mc_set_client_state (newState : iotx_mc_state_t) : prog E unit :=
  HAL_MutexLock LOCK_GENERIC;;
  modify (fun c => c <| client_state := newState |>);;
  HAL_MutexUnlock LOCK_GENERIC.

Definition iotx_mc_get_client_state : prog E iotx_mc_state_t :=
  HAL_MutexLock LOCK_GENERIC;;
  state ← get client_state;
  HAL_MutexUnlock LOCK_GENERIC;;
  mret state.

Definition wrapper_mqtt_check_state : prog E bool :=
  state ← iotx_mc_get_client_state;
  mret (bool_decide (state = IOTX_MC_STATE_CONNECTED)).

Definition iotx_mc_get_next_packetid : prog E Z :=
  HAL_MutexLock LOCK_GENERIC;;
  modify (fun c => c <| packet_id ::= fun id =>
    if id =? IOTX_MC_PACKET_ID_MAX then 1 else u32 (id + 1) |>);;
  id ← get packet_id;
  HAL_MutexUnlock LOCK_GENERIC;;
  mret id.

(** ** Buffers *)

Definition _get_connect_length (options : MQTTPacket_connectData) : Z :=
  MQTTPacket_len (MQTTSerialize_connectLength options).

Definition _reset_send_buffer : prog E Z :=
  b ← get buf_send;
  match b with
  | None => mret STATE_USER_INPUT_INVALID
  | Some b =>
      mqtt_free (buf_addr b);;
      modify (fun c => c <| buf_send := None |> <| buf_size_send := 0 |>);;
      mret STATE_SUCCESS
  end.

Definition _reset_recv_buffer : prog E Z :=
  b ← get buf_read;
  match b with
  | None => mret STATE_USER_INPUT_INVALID
  | Some b =>
      mqtt_free (buf_addr b);;
      modify (fun c => c <| buf_read := None |> <| buf_size_read := 0 |>);;
      mret STATE_SUCCESS
  end.

Definition zeroed (a : nat) (n : Z) : buffer :=
  {| buf_addr := a; buf_data := repeat 0 (Z.to_nat n) |}.

(** The comparison of the [int] length with the [uint32_t] limit is unsigned. *)
Definition _alloc_send_buffer (len : Z) : prog E Z :=
  max ← get buf_size_send_max;
  let tmp_len := u32 (MQTT_DYNBUF_SEND_MARGIN + len) in
  let tmp_len := if max <? tmp_len then max else tmp_len in
  b ← get buf_send;
  match b with
  | Some b => mqtt_free (buf_addr b);; modify (fun c => c <| buf_send := None |>)
  | None => mret tt
  end;;
  a ← mqtt_malloc tmp_len;
  match a with
  | None => mret STATE_SYS_DEPEND_MALLOC
  | Some a =>
      modify (fun c => c <| buf_send := Some (zeroed a tmp_len) |>
                         <| buf_size_send := tmp_len |>);;
      mret STATE_SUCCESS
  end.

Definition _alloc_recv_buffer (len : Z) : prog E Z :=
  max ← get buf_size_read_max;
  let tmp_len := u32 (MQTT_DYNBUF_RECV_MARGIN + len) in
  let tmp_len := if max <? tmp_len then max else tmp_len in
  b ← get buf_read;
  match b with
  | Some b =>
      temp ← mqtt_malloc tmp_len;
      match temp with
      | None => mret STATE_SYS_DEPEND_MALLOC
      | Some temp =>
          size ← get buf_size_read;
          let n := if size <? tmp_len then size else tmp_len in
          data ← lift FaultRead (slice (buf_data b) 0 n);
          mqtt_free (buf_addr b);;
          modify (fun c => c <| buf_read := Some {| buf_addr := temp;
              buf_data := data ++ drop (Z.to_nat n) (buf_data (zeroed temp tmp_len)) |} |>
            <| buf_size_read := tmp_len |>);;
          mret STATE_SUCCESS
      end
  | None =>
      a ← mqtt_malloc tmp_len;
      match a with
      | None => mret STATE_SYS_DEPEND_MALLOC
      | Some a =>
          modify (fun c => c <| buf_read := Some (zeroed a tmp_len) |>
                             <| buf_size_read := tmp_len |>);;
          mret STATE_SUCCESS
      end
  end.

(** A serializer called on [c->buf_send] and [c->buf_size_send]: its return value;
    the bytes it stored are in the buffer. *)
Definition serialize (f : list Z -> Z -> option (Z * list Z)) : prog E Z :=
  b ← get buf_send;
  b ← lift FaultNull b;
  size ← get buf_size_send;
  '(len, data) ← lift FaultWrite (f (buf_data b) (i32 size));
  modify (fun c => c <| buf_send := Some (b <| buf_data := data |>) |>);;
  mret len.

(** ** Writing a packet to the network *)

(** The [while] loop of [iotx_mc_send_packet]: the number of bytes sent. *)
Fixpoint send_loop (n : nat) (buf : list Z) (length sent : Z) (timer : iotx_time_t)
    : prog E Z :=
  match n with
  | O => diverge
  | S n' =>
      if sent <? length then
        expired ← time_is_expired timer;
        if negb (expired =? 0) then mret sent
        else
          left_t ← time_left timer;
          let left_t := if left_t =? 0 then 1 else left_t in
          bytes ← lift FaultRead (slice buf sent (length - sent));
          rc ← net_write bytes left_t;
          if rc <? 0 then mret sent
          else send_loop n' buf length (sent + rc) timer
      else mret sent
  end.

Definition iotx_mc_send_packet (buf : option (list Z)) (length : Z) (timer : iotx_time_t)
    : prog E Z :=
  match buf with
  | None => mret STATE_USER_INPUT_INVALID
  | Some buf =>
      sent ← send_loop fuel buf length 0 timer;
      mret (if sent =? length then STATE_SUCCESS else STATE_SYS_DEPEND_NWK_CLOSE)
  end.

(** [iotx_mc_send_packet(c, c->buf_send, len, &timer)] *)
Definition send_buffer (len : Z) (timer : iotx_time_t) : prog E Z :=
  b ← get buf_send;
  iotx_mc_send_packet (buf_data <$> b) len timer.

Definition MQTTConnect : prog E Z :=
  pConnectParams ← get connect_data;
  HAL_MutexLock LOCK_WRITE_BUF;;
  let len := _get_connect_length pConnectParams in
  res ← _alloc_send_buffer len;
  if res <? STATE_SUCCESS then HAL_MutexUnlock LOCK_WRITE_BUF;; mret res
  else
    len ← serialize (fun buf size => MQTTSerialize_connect buf size pConnectParams);
    if len <=? 0 then
      _reset_send_buffer;;
      HAL_MutexUnlock LOCK_WRITE_BUF;;
      mret STATE_MQTT_SERIALIZE_CONN_ERROR
    else
      timeout ← get request_timeout_ms;
      connectTimer ← time_countdown_ms timeout;
      res ← send_buffer len connectTimer;
      _reset_send_buffer;;
      HAL_MutexUnlock LOCK_WRITE_BUF;;
      mret (if res <? STATE_SUCCESS then res else STATE_SUCCESS).

(** ** Publications that wait for their acknowledgement *)

(** The return code and the address of the new node. *)
Definition iotx_mc_push_pubInfo_to (len msgId : Z) : prog E (Z * option nat) :=
  size ← get buf_size_send;
  if (len <? 0) || (size <? len) then mret (STATE_MQTT_TX_BUFFER_TOO_SHORT, None)
  else
    l ← get list_pub_wait_ack;
    let list_number := Z.of_nat (List.length l) in
    if IOTX_MC_REPUB_NUM_MAX <=? list_number
    then mret (STATE_MQTT_QOS1_REPUB_EXCEED_MAX, None)
    else
      repubInfo ← mqtt_malloc (sizeof_pub_info + len);
      match repubInfo with
      | None => mret (STATE_SYS_DEPEND_MALLOC, None)
      | Some a =>
          t ← time_start;
          b ← get buf_send;
          b ← lift FaultNull b;
          data ← lift FaultRead (slice (buf_data b) 0 len);
          modify (fun c => c <| list_pub_wait_ack ::= fun l => l ++
            [{| pi_addr := a; pub_start_time := t;
                node_state := IOTX_MC_NODE_STATE_NORMANL; msg_id := u16 msgId;
                pi_len := len; pi_buf := data |}] |>);;
          mret (STATE_SUCCESS, Some a)
      end.

Definition iotx_mc_mask_pubInfo_from (msgId : Z) : prog E Z :=
  HAL_MutexLock LOCK_LIST_PUB;;
  modify (fun c => c <| list_pub_wait_ack ::= fmap (fun node =>
    if msg_id node =? msgId then node <| node_state := IOTX_MC_NODE_STATE_INVALID |>
    else node) |>);;
  HAL_MutexUnlock LOCK_LIST_PUB;;
  mret STATE_SUCCESS.

Definition MQTTRePublish (buf : list Z) (len : Z) : prog E Z :=
  timeout ← get request_timeout_ms;
  timer ← time_countdown_ms timeout;
  HAL_MutexLock LOCK_WRITE_BUF;;
  rc ← iotx_mc_send_packet (Some buf) len timer;
  HAL_MutexUnlock LOCK_WRITE_BUF;;
  mret (if negb (rc =? STATE_SUCCESS) then STATE_SYS_DEPEND_NWK_CLOSE else STATE_SUCCESS).

(** [list_del] of the node at an address, and its [mqtt_free]. *)
Definition pub_del (a : nat) : prog E unit :=
  modify (fun c => c <| list_pub_wait_ack ::= filter (fun n => pi_addr n <> a) |>);;
  mqtt_free a.

(** The loop of [MQTTPubInfoProc] over the nodes left. *)
Fixpoint pub_info_loop (nodes : list iotx_mc_pub_info_t) : prog E unit :=
  match nodes with
  | [] => mret tt
  | node :: nodes' =>
      if decide (node_state node = IOTX_MC_NODE_STATE_INVALID) then
        pub_del (pi_addr node);; pub_info_loop nodes'
      else
        state ← iotx_mc_get_client_state;
        if negb (bool_decide (state = IOTX_MC_STATE_CONNECTED)) then pub_info_loop nodes'
        else
          spent ← time_spend (pub_start_time node);
          timeout ← get request_timeout_ms;
          if spent <=? u32 (timeout * 2) then pub_info_loop nodes'
          else
            rc ← MQTTRePublish (pi_buf node) (pi_len node);
            t ← time_start;
            modify (fun c => c <| list_pub_wait_ack ::= fmap (fun n =>
              if (pi_addr n =? pi_addr node)%nat then n <| pub_start_time := t |> else n) |>);;
            if rc =? STATE_SYS_DEPEND_NWK_CLOSE
            then iotx_mc_set_client_state IOTX_MC_STATE_DISCONNECTED
            else pub_info_loop nodes'
  end.

Definition MQTTPubInfoProc : prog E Z :=
  HAL_MutexLock LOCK_LIST_PUB;;
  nodes ← get list_pub_wait_ack;
  pub_info_loop nodes;;
  HAL_MutexUnlock LOCK_LIST_PUB;;
  mret STATE_SUCCESS.

Definition MQTTPublish (topicName : option (list Z)) (topic_msg : option iotx_mqtt_topic_info_t)
    : prog E Z :=
  match topicName, topic_msg with
  | Some name, Some topic_msg =>
      let topic := {| cstring := Some name; lenstring_len := 0; lenstring_data := None |} in
      timeout ← get request_timeout_ms;
      timer ← time_countdown_ms timeout;
      HAL_MutexLock LOCK_LIST_PUB;;
      HAL_MutexLock LOCK_WRITE_BUF;;
      res ← _alloc_send_buffer (i32 (u32 (Z.of_nat (List.length name) + ti_payload_len topic_msg)));
      if res <? STATE_SUCCESS then
        HAL_MutexUnlock LOCK_WRITE_BUF;;
        HAL_MutexUnlock LOCK_LIST_PUB;;
        mret res
      else
        len ← serialize (fun buf size =>
          MQTTSerialize_publish buf size 0 (ti_qos topic_msg) (ti_retain topic_msg)
            (ti_packet_id topic_msg) topic (default [] (ti_payload topic_msg))
            (i32 (ti_payload_len topic_msg)));
        if len <=? 0 then
          _reset_send_buffer;;
          HAL_MutexUnlock LOCK_WRITE_BUF;;
          HAL_MutexUnlock LOCK_LIST_PUB;;
          mret STATE_MQTT_SERIALIZE_PUB_ERROR
        else
          '(res, node) ←
            (if IOTX_MQTT_QOS0 <? ti_qos topic_msg
             then iotx_mc_push_pubInfo_to len (ti_packet_id topic_msg)
             else mret (STATE_SUCCESS, None));
          if res <? STATE_SUCCESS then
            _reset_send_buffer;;
            HAL_MutexUnlock LOCK_WRITE_BUF;;
            HAL_MutexUnlock LOCK_LIST_PUB;;
            mret res
          else
            rc ← send_buffer len timer;
            if negb (rc =? STATE_SUCCESS) then
              (if IOTX_MQTT_QOS0 <? ti_qos topic_msg
               then a ← lift FaultNull node; pub_del a
               else mret tt);;
              _reset_send_buffer;;
              HAL_MutexUnlock LOCK_WRITE_BUF;;
              HAL_MutexUnlock LOCK_LIST_PUB;;
              mret STATE_SYS_DEPEND_NWK_CLOSE
            else
              _reset_send_buffer;;
              HAL_MutexUnlock LOCK_WRITE_BUF;;
              HAL_MutexUnlock LOCK_LIST_PUB;;
              mret STATE_SUCCESS
  | _, _ => mret STATE_USER_INPUT_INVALID
  end.

(** ** Acknowledgements, keep-alive and disconnection *)

Definition MQTTPuback (msgId type : Z) : prog E Z :=
  timeout ← get request_timeout_ms;
  timer ← time_countdown_ms timeout;
  HAL_MutexLock LOCK_WRITE_BUF;;
  if type =? PUBACK then
    rc ← _alloc_send_buffer 0;
    if rc <? STATE_SUCCESS then HAL_MutexUnlock LOCK_WRITE_BUF;; mret rc
    else
      len ← serialize (fun buf size => MQTTSerialize_ack buf size PUBACK 0 (u16 msgId));
      if len <=? 0 then
        _reset_send_buffer;;
        HAL_MutexUnlock LOCK_WRITE_BUF;;
        mret STATE_MQTT_SERIALIZE_PUBACK_ERROR
      else
        rc ← send_buffer len timer;
        _reset_send_buffer;;
        HAL_MutexUnlock LOCK_WRITE_BUF;;
        mret (if rc <? STATE_SUCCESS then rc else STATE_SUCCESS)
  else
    HAL_MutexUnlock LOCK_WRITE_BUF;;
    mret STATE_MQTT_SERIALIZE_PUBACK_ERROR.

Definition MQTTKeepalive : prog E Z :=
  timer ← time_countdown_ms 1000;
  HAL_MutexLock LOCK_WRITE_BUF;;
  rc ← _alloc_send_buffer 0;
  if rc <? STATE_SUCCESS then HAL_MutexUnlock LOCK_WRITE_BUF;; mret rc
  else
    len ← serialize MQTTSerialize_pingreq;
    if len <=? 0 then
      _reset_send_buffer;;
      HAL_MutexUnlock LOCK_WRITE_BUF;;
      mret STATE_MQTT_SERIALIZE_PINGREQ_ERROR
    else
      rc ← send_buffer len timer;
      _reset_send_buffer;;
      HAL_MutexUnlock LOCK_WRITE_BUF;;
      mret (if rc <? STATE_SUCCESS then STATE_SYS_DEPEND_NWK_CLOSE else STATE_SUCCESS).

Definition MQTTDisconnect : prog E Z :=
  HAL_MutexLock LOCK_WRITE_BUF;;
  res ← _alloc_send_buffer 0;
  if res <? STATE_SUCCESS then HAL_MutexUnlock LOCK_WRITE_BUF;; mret res
  else
    len ← serialize MQTTSerialize_disconnect;
    timeout ← get request_timeout_ms;
    timer ← time_countdown_ms timeout;
    rc ← (if 0 <? len then send_buffer len timer else mret STATE_SUCCESS);
    _reset_send_buffer;;
    HAL_MutexUnlock LOCK_WRITE_BUF;;
    mret rc.

(** ** Subscriptions *)

(** 0 when the two filters are equal; the pointers are never NULL. *)
Definition iotx_mc_check_handle_is_identical_ex
    (h1 h2 : iotx_mc_topic_handle_t) : Z :=
  if negb (Z.of_nat (List.length (topic_filter h1)) =? Z.of_nat (List.length (topic_filter h2)))
  then 1
  else if bool_decide (topic_filter h1 = topic_filter h2) then 0 else 1.

Definition iotx_mc_check_handle_is_identical (h1 h2 : iotx_mc_topic_handle_t) : Z :=
  if negb (iotx_mc_check_handle_is_identical_ex h1 h2 =? 0) then 1
  else if negb (h_fp (th_handle h1) =? h_fp (th_handle h2)) then 1
  else if negb (pcontext (th_handle h1) =? pcontext (th_handle h2)) then 1
  else 0.

(** [mqtt_free(handler->topic_filter); mqtt_free(handler);] *)
Definition free_handler (h : iotx_mc_topic_handle_t) : prog E unit :=
  mqtt_free (th_filter_addr h);;
  mqtt_free (th_addr h).

(** The end of [MQTTSubscribe], which is written twice: the new handler joins the
    list unless an identical one is there. *)
Definition subscribe_add (handler : iotx_mc_topic_handle_t) : prog E unit :=
  HAL_MutexLock LOCK_GENERIC;;
  l ← get list_sub_handle;
  let dup := existsb (fun node => 0 =? iotx_mc_check_handle_is_identical node handler) l in
  (if dup then free_handler handler
   else modify (fun c => c <| list_sub_handle ::= fun l => l ++ [handler] |>));;
  HAL_MutexUnlock LOCK_GENERIC.

Definition MQTTSubscribe (topicFilter : option (list Z)) (qos msgId messageHandler context : Z)
    : prog E Z :=
  match topicFilter with
  | None => mret STATE_USER_INPUT_INVALID
  | Some filter =>
      if messageHandler =? 0 then mret STATE_USER_INPUT_INVALID
      else
        let topic := {| cstring := Some filter; lenstring_len := 0; lenstring_data := None |} in
        timeout ← get request_timeout_ms;
        timer ← time_countdown_ms timeout;
        handler ← mqtt_malloc sizeof_topic_handle;
        match handler with
        | None => mret STATE_SYS_DEPEND_MALLOC
        | Some a =>
            f ← mqtt_malloc (Z.of_nat (List.length filter) + 1);
            match f with
            | None => mqtt_free a;; mret STATE_SYS_DEPEND_MALLOC
            | Some f =>
                let handler := {| th_addr := a; th_filter_addr := f; topic_filter := filter;
                  th_handle := {| h_fp := messageHandler; pcontext := context |} |} in
                if qos =? IOTX_MQTT_QOS3_SUB_LOCAL then
                  subscribe_add handler;; mret STATE_SUCCESS
                else
                  HAL_MutexLock LOCK_WRITE_BUF;;
                  res ← _alloc_send_buffer (Z.of_nat (List.length filter));
                  if res <? STATE_SUCCESS then
                    HAL_MutexUnlock LOCK_WRITE_BUF;;
                    free_handler handler;;
                    mret res
                  else
                    len ← serialize (fun buf size =>
                      MQTTSerialize_subscribe buf size 0 (u16 msgId) 1 [topic] [qos]);
                    if len <=? 0 then
                      free_handler handler;;
                      _reset_send_buffer;;
                      HAL_MutexUnlock LOCK_WRITE_BUF;;
                      mret STATE_MQTT_SERIALIZE_SUB_ERROR
                    else
                      rc ← send_buffer len timer;
                      if negb (rc =? STATE_SUCCESS) then
                        free_handler handler;;
                        _reset_send_buffer;;
                        HAL_MutexUnlock LOCK_WRITE_BUF;;
                        mret STATE_SYS_DEPEND_NWK_CLOSE
                      else
                        _reset_send_buffer;;
                        HAL_MutexUnlock LOCK_WRITE_BUF;;
                        subscribe_add handler;;
                        mret STATE_SUCCESS
            end
        end
  end.

(** The loop of [MQTTUnsubscribe] over the nodes left: those whose filter equals
    or matches [cur_topic] are removed and freed. *)
Fixpoint unsubscribe_loop (cur_topic : MQTTString) (nodes : list iotx_mc_topic_handle_t)
    : prog E unit :=
  match nodes with
  | [] => mret tt
  | node :: nodes' =>
      eq ← lift FaultRead (MQTTPacket_equals cur_topic (topic_filter node));
      m ← (if eq : bool then mret 1
           else lift FaultRead
             (iotx_mc_is_topic_matched (Some (topic_filter node)) (Some cur_topic)));
      (if negb (m =? 0) then
         modify (fun c => c <| list_sub_handle ::=
           filter (fun n => th_addr n <> th_addr node) |>);;
         free_handler node
       else mret tt);;
      unsubscribe_loop cur_topic nodes'
  end.

(** The length of [cur_topic] counts the terminator of the filter. *)
Definition unsubscribe_topic (filter : list Z) : MQTTString :=
  {| cstring := None; lenstring_len := Z.of_nat (List.length filter) + 1;
     lenstring_data := Some (filter ++ [0]) |}.

Definition MQTTUnsubscribe (topicFilter : option (list Z)) (msgId : Z) : prog E Z :=
  match topicFilter with
  | None => mret STATE_USER_INPUT_INVALID
  | Some filter =>
      let topic := {| cstring := Some filter; lenstring_len := 0; lenstring_data := None |} in
      timeout ← get request_timeout_ms;
      timer ← time_countdown_ms timeout;
      handler ← mqtt_malloc sizeof_topic_handle;
      match handler with
      | None => mret STATE_SYS_DEPEND_MALLOC
      | Some a =>
          f ← mqtt_malloc (Z.of_nat (List.length filter) + 1);
          match f with
          | None => mqtt_free a;; mret STATE_SYS_DEPEND_MALLOC
          | Some f =>
              let handler := {| th_addr := a; th_filter_addr := f; topic_filter := filter;
                                th_handle := {| h_fp := 0; pcontext := 0 |} |} in
              HAL_MutexLock LOCK_WRITE_BUF;;
              res ← _alloc_send_buffer (Z.of_nat (List.length filter));
              if res <? STATE_SUCCESS then
                HAL_MutexUnlock LOCK_WRITE_BUF;;
                free_handler handler;;
                mret res
              else
                len ← serialize (fun buf size =>
                  MQTTSerialize_unsubscribe buf size 0 (u16 msgId) 1 [topic]);
                if len <=? 0 then
                  free_handler handler;;
                  _reset_send_buffer;;
                  HAL_MutexUnlock LOCK_WRITE_BUF;;
                  mret STATE_MQTT_SERIALIZE_UNSUB_ERROR
                else
                  rc ← send_buffer len timer;
                  if negb (rc =? STATE_SUCCESS) then
                    free_handler handler;;
                    _reset_send_buffer;;
                    HAL_MutexUnlock LOCK_WRITE_BUF;;
                    mret STATE_SYS_DEPEND_NWK_CLOSE
                  else
                    HAL_MutexLock LOCK_GENERIC;;
                    nodes ← get list_sub_handle;
                    unsubscribe_loop (unsubscribe_topic filter) nodes;;
                    free_handler handler;;
                    HAL_MutexUnlock LOCK_GENERIC;;
                    _reset_send_buffer;;
                    HAL_MutexUnlock LOCK_WRITE_BUF;;
                    mret STATE_SUCCESS
          end
      end
  end.
End Send.
