(* ===== verification/MqttRecv.v ===== *)
(** * MqttRecv: what the MQTT client receives

    The receiving half of [eng/mqtt/iotx_mqtt_client.c]: reading one packet from
    the network, the handler of each packet type, the delivery of a publication to
    the subscribed handlers, and [iotx_mc_cycle]. *)

From S2P Require Import Prelude.
From S2P Require Import InfraState.
From S2P Require Import Hal.
From S2P Require Import InfraTimer.
From S2P Require Import InfraString.
From S2P Require Import InfraCompat.
From S2P Require Import MqttPacket.
From S2P Require Import MqttConnect.
From S2P Require Import MqttPublish.
From S2P Require Import MqttSubscribe.
From S2P Require Import MqttTopic.
From S2P Require Import MqttState.
From S2P Require Import MqttSend.

Section Recv.
Context {E : Type} `{!Hal E} `{!App E} (fuel : nat).

(** ** Reading a packet *)

Definition clamp1 (left_t : Z) : Z := if left_t =? 0 then 1 else left_t.

(** The [do ... while] loop of [iotx_mc_decode_packet]: its return value and
    [*value]. *)
Fixpoint decode_packet_loop (n : nat) (value multiplier len timeout : Z) : prog E (Z * Z) :=
  match n with
  | O => diverge
  | S n' =>
      let len := len + 1 in
      if MAX_NO_OF_REMAINING_LENGTH_BYTES <? len then mret (MQTTPACKET_READ_ERROR, value)
      else
        '(rc, bs) ← net_read 1 (clamp1 timeout);
        if rc <=? STATE_SUCCESS then mret (STATE_SYS_DEPEND_NWK_CLOSE, value)
        else
          i ← lift FaultRead (bs !! 0%nat);
          let value := value + Z.land i 127 * multiplier in
          let multiplier := multiplier * 128 in
          if negb (Z.land i 128 =? 0)
          then decode_packet_loop n' value multiplier len timeout
          else mret (len, value)
  end.

Definition iotx_mc_decode_packet (timeout : Z) : prog E (Z * Z) :=
  decode_packet_loop 5 0 1 0 timeout.

Definition _handle_event (handle : iotx_mqtt_event_handle_t) (m : iotx_mqtt_event_msg_t)
    : prog E Z :=
  if h_fp handle =? 0 then mret STATE_USER_INPUT_INVALID
  else
    set_in_yield_cb 1;;
    on_event handle m;;
    set_in_yield_cb 0;;
    mret STATE_SUCCESS.

(** [c->ipstack.read(&c->ipstack, c->buf_read + off, len, left_t)] *)
Definition read_into (off : nat) (len left_t : Z) : prog E Z :=
  b ← get buf_read;
  b ← lift FaultNull b;
  '(rc, bs) ← net_read len left_t;
  w ← lift FaultWrite (puts bs (WBuf (buf_data b) off));
  modify (fun c => c <| buf_read := Some (b <| buf_data := wb_mem w |>) |>);;
  mret rc.

(** The loop that drops the rest of a packet that is too long for the buffer: is
    the whole of it read? *)
Fixpoint drain_loop (n : nat) (rem_len left_t : Z) : prog E bool :=
  match n with
  | O => diverge
  | S n' =>
      size ← get buf_size_read;
      let needReadLen := if size <? rem_len then size else rem_len in
      rc ← read_into 0 needReadLen left_t;
      if negb (rc =? needReadLen) then mret false
      else
        let rem_len := rem_len - needReadLen in
        if rem_len =? 0 then mret true else drain_loop n' rem_len left_t
  end.

(** The return code and [*packet_type], which keeps its value when the code does
    not assign it. *)
Definition iotx_mc_read_packet (timer : iotx_time_t) (packet_type : Z) : prog E (Z * Z) :=
  HAL_MutexLock LOCK_READ_BUF;;
  rc ← _alloc_recv_buffer 0;
  if rc <? 0 then HAL_MutexUnlock LOCK_READ_BUF;; mret (rc, packet_type)
  else
    left_t ← time_left timer;
    rc ← read_into 0 1 (clamp1 left_t);
    if rc =? 0 then HAL_MutexUnlock LOCK_READ_BUF;; mret (STATE_SUCCESS, 0)
    else if rc <? STATE_SUCCESS then
      HAL_MutexUnlock LOCK_READ_BUF;; mret (STATE_SYS_DEPEND_NWK_CLOSE, packet_type)
    else
      left_t ← time_left timer;
      '(rc, rem_len) ← iotx_mc_decode_packet (clamp1 left_t);
      if rc <? 0 then HAL_MutexUnlock LOCK_READ_BUF;; mret (rc, packet_type)
      else
        b ← get buf_read;
        b ← lift FaultNull b;
        '(n, w) ← lift FaultWrite (MQTTPacket_encode rem_len (WBuf (buf_data b) 1));
        modify (fun c => c <| buf_read := Some (b <| buf_data := wb_mem w |>) |>);;
        let len := 1 + n in
        rc ← _alloc_recv_buffer (rem_len + len);
        if rc <? 0 then HAL_MutexUnlock LOCK_READ_BUF;; mret (rc, packet_type)
        else
          size ← get buf_size_read;
          if (0 <? rem_len) && (size <? rem_len + len) then
            iotx_state_event STATE_MQTT_RX_BUFFER_TOO_SHORT;;
            left_t ← time_left timer;
            ok ← drain_loop (S (Z.to_nat rem_len)) rem_len (clamp1 left_t);
            if negb ok then
              HAL_MutexUnlock LOCK_READ_BUF;; mret (STATE_SYS_DEPEND_NWK_READ_ERROR, 0)
            else
              HAL_MutexUnlock LOCK_READ_BUF;;
              h ← get handle_event;
              (if negb (h_fp h =? 0) then
                 _handle_event h {| event_type := IOTX_MQTT_EVENT_BUFFER_OVERFLOW;
                                    msg := MsgText (lit "mqtt read buffer is too short") |};;
                 mret tt
               else mret tt);;
              mret (STATE_SUCCESS, 0)
          else
            left_t ← time_left timer;
            rc ← read_into (Z.to_nat len) rem_len (clamp1 left_t);
            if (0 <? rem_len) && (rc <? 0) then
              HAL_MutexUnlock LOCK_READ_BUF;; mret (STATE_SYS_DEPEND_NWK_CLOSE, packet_type)
            else if (0 <? rem_len) && negb (rc =? rem_len) then
              HAL_MutexUnlock LOCK_READ_BUF;; mret (STATE_MQTT_PACKET_READ_ERROR, packet_type)
            else
              b ← get buf_read;
              b ← lift FaultNull b;
              header ← lift FaultRead (buf_data b !! 0%nat);
              (if len + rem_len <? size then
                 w ← lift FaultWrite (put 0 (WBuf (buf_data b) (Z.to_nat (len + rem_len))));
                 modify (fun c => c <| buf_read := Some (b <| buf_data := wb_mem w |>) |>)
               else mret tt);;
              HAL_MutexUnlock LOCK_READ_BUF;;
              mret (STATE_SUCCESS, MQTT_HEADER_GET_TYPE header).

(** A deserializer called on [c->buf_read] and [c->buf_size_read]. *)
Definition deserialize {A} (f : list Z -> Z -> option A) : prog E A :=
  b ← get buf_read;
  b ← lift FaultNull b;
  size ← get buf_size_read;
  lift FaultRead (f (buf_data b) (i32 size)).

(** ** CONNACK *)

Definition connack_code (connack_rc : Z) : Z :=
  if connack_rc =? IOTX_MC_CONNECTION_ACCEPTED then STATE_SUCCESS
  else if connack_rc =? IOTX_MC_CONNECTION_REFUSED_UNACCEPTABLE_PROTOCOL_VERSION
  then STATE_MQTT_CONNACK_VERSION_UNACCEPT
  else if connack_rc =? IOTX_MC_CONNECTION_REFUSED_IDENTIFIER_REJECTED
  then STATE_MQTT_CONNACK_IDENT_REJECT
  else if connack_rc =? IOTX_MC_CONNECTION_REFUSED_SERVER_UNAVAILABLE
  then STATE_MQTT_CONNACK_SERVICE_NA
  else if connack_rc =? IOTX_MC_CONNECTION_REFUSED_NOT_AUTHORIZED
  then STATE_MQTT_CONNACK_NOT_AUTHORIZED
  else if connack_rc =? IOTX_MC_CONNECTION_REFUSED_BAD_USERDATA
  then STATE_MQTT_CONNACK_BAD_USERDATA
  else STATE_MQTT_CONNACK_UNKNOWN_ERROR.

Definition iotx_mc_handle_recv_CONNACK : prog E Z :=
  '(rc, _, connack_rc) ← deserialize (MQTTDeserialize_connack 0 255);
  if negb (rc =? 1) then mret STATE_MQTT_DESERIALIZE_CONNACK_ERROR
  else mret (connack_code connack_rc).

Definition WAIT_CONNACK_MAX : Z := 10.

(** [HAL_MutexLock(c->lock_read_buf); _reset_recv_buffer(c);
    HAL_MutexUnlock(c->lock_read_buf);] *)
Definition reset_recv : prog E unit :=
  HAL_MutexLock LOCK_READ_BUF;;
  _reset_recv_buffer;;
  HAL_MutexUnlock LOCK_READ_BUF.

(** The [do ... while (packetType != CONNACK)] loop: a code to return at once, or
    nothing when a CONNACK was read. *)
Fixpoint wait_connack_loop (n : nat) (timer : iotx_time_t) (wait_connack packetType : Z)
    : prog E (option Z) :=
  match n with
  | O => diverge
  | S n' =>
      '(rc, packetType) ← iotx_mc_read_packet timer packetType;
      if rc <? STATE_SUCCESS then reset_recv;; mret (Some rc)
      else
        let wait_connack := u8 (wait_connack + 1) in
        if WAIT_CONNACK_MAX <? wait_connack then
          reset_recv;; mret (Some STATE_SYS_DEPEND_NWK_CLOSE)
        else if negb (packetType =? CONNACK)
        then wait_connack_loop n' timer wait_connack packetType
        else mret None
  end.

Definition iotx_mc_wait_CONNACK : prog E Z :=
  timeout ← get request_timeout_ms;
  timer ← time_countdown_ms timeout;
  r ← wait_connack_loop 11 timer 0 0;
  match r with
  | Some rc => mret rc
  | None =>
      HAL_MutexLock LOCK_READ_BUF;;
      rc ← iotx_mc_handle_recv_CONNACK;
      _reset_recv_buffer;;
      HAL_MutexUnlock LOCK_READ_BUF;;
      mret rc
  end.

(** ** Acknowledgements *)

Definition indeterminate : prog E Z := plat (fun e => (u16 (HAL_indeterminate e), e)).

(** [if (NULL != c->handle_event.h_fp) _handle_event(&c->handle_event, c, &msg);] *)
Definition notify (t : iotx_mqtt_event_type_t) (arg : event_arg) : prog E unit :=
  h ← get handle_event;
  if negb (h_fp h =? 0) then
    _handle_event h {| event_type := t; msg := arg |};; mret tt
  else mret tt.

Definition iotx_mc_handle_recv_PUBACK : prog E Z :=
  old ← indeterminate;
  '(rc, _, _, mypacketid) ← deserialize (MQTTDeserialize_ack old);
  if negb (rc =? 1) then mret MQTT_PUBLISH_ACK_PACKET_ERROR
  else
    iotx_mc_mask_pubInfo_from mypacketid;;
    notify IOTX_MQTT_EVENT_PUBLISH_SUCCESS (MsgId mypacketid);;
    mret STATE_SUCCESS.

Definition _iotx_mqtt_event_handle_sub (packet_id : Z) (t : iotx_mqtt_event_type_t)
    : prog E unit :=
  HAL_MutexLock LOCK_GENERIC;;
  modify (fun c => c <| list_sub_sync_ack ::= fmap (fun node =>
    if ss_packet_id node =? packet_id then node <| ack_type := t |> else node) |>);;
  HAL_MutexUnlock LOCK_GENERIC.

(** The [for] loop over the granted codes: each one overwrites [fail_flag]. *)
Definition suback_fail_flag (grantedQoS : list Z) : Z :=
  fold_left (fun _ q => if u8 q =? 128 then 1 else 0) grantedQoS (-1).

Definition iotx_mc_handle_recv_SUBACK : prog E Z :=
  old ← indeterminate;
  '(rc, o) ← deserialize (MQTTDeserialize_suback
      {| so_packetid := old; so_count := 0; so_grantedQoSs := [] |} MUTLI_SUBSCIRBE_MAX);
  if rc <? 0 then mret STATE_MQTT_DESERIALIZE_SUBACK_ERROR
  else
    let fail_flag := suback_fail_flag (so_grantedQoSs o) in
    let t := if fail_flag =? 1 then IOTX_MQTT_EVENT_SUBCRIBE_NACK
             else IOTX_MQTT_EVENT_SUBCRIBE_SUCCESS in
    _iotx_mqtt_event_handle_sub (so_packetid o) t;;
    notify t (MsgId (so_packetid o));;
    mret STATE_SUCCESS.

Definition iotx_mc_handle_recv_UNSUBACK : prog E Z :=
  '(rc, mypacketid) ← deserialize (MQTTDeserialize_unsuback 0);
  if negb (rc =? 1) then mret STATE_MQTT_DESERIALIZE_UNSUBACK_ERROR
  else
    notify IOTX_MQTT_EVENT_UNSUBCRIBE_SUCCESS (MsgId mypacketid);;
    mret STATE_SUCCESS.

(** ** PUBLISH *)

Definition ioctl (opt : iotx_ioctl_option_t) (data : option ioctl_data)
    : prog E (Z * option ioctl_data) := fun w =>
  match IOT_Ioctl opt data (w_ctx w) with
  | Some (rc, ctx, d) => Done (rc, d) (w <| w_ctx := ctx |>)
  | None => Fault FaultWrite
  end.

(** The C string in a block that ends with a NUL. *)
Definition cstr_of (s : list Z) : list Z :=
  match strlen s with Some n => take n s | None => s end.

Definition identify_topic : list Z := lit "/ext/auth/identity/response".

(** [infra_json_value] on the payload: the bytes between the quotes of the value,
    in a block of their own. *)
Definition identity_member (info : iotx_mqtt_topic_info_t) (key : list Z)
    : prog E (option (nat * Z)) :=
  '(_, v) ← lift FaultRead (infra_json_value (default [] (ti_payload info))
                               (ti_payload_len info) key);
  mret v.

(** [memcpy] of the value without its first character into a zeroed block of
    [len - 2 + 1] bytes. *)
Definition unquoted (info : iotx_mqtt_topic_info_t) (v : nat * Z) : prog E (list Z) :=
  s ← lift FaultRead (slice (default [] (ti_payload info)) (Z.of_nat (fst v) + 1) (snd v - 2));
  mret (cstr_of ((u8 <$> s) ++ [0])).

Definition iotx_mc_parse_identity_response (info : iotx_mqtt_topic_info_t) : prog E unit :=
  if negb (ti_topic_len info =? Z.of_nat (List.length identify_topic)) then mret tt
  else
    name ← lift FaultRead (slice (default [] (ti_ptopic info)) 0 (ti_topic_len info));
    if negb (bool_decide (name = identify_topic)) then mret tt
    else
      payload ← mqtt_malloc (u32 (ti_payload_len info + 1));
      match payload with
      | None => iotx_state_event STATE_SYS_DEPEND_MALLOC
      | Some payload =>
          s ← lift FaultRead (slice (default [] (ti_payload info)) 0 (ti_payload_len info));
          on_identity_response (cstr_of (s ++ [0]));;
          mqtt_free payload;;
          pk ← identity_member info (lit "productKey");
          match pk with
          | None => mret tt
          | Some pk =>
              dn ← identity_member info (lit "deviceName");
              match dn with
              | None => mret tt
              | Some dn =>
                  a ← mqtt_malloc (u32 (snd pk - 1));
                  match a with
                  | None => iotx_state_event STATE_SYS_DEPEND_MALLOC
                  | Some a =>
                      str_product_key ← unquoted info pk;
                      b ← mqtt_malloc (u32 (snd dn - 1));
                      match b with
                      | None => mqtt_free a;; iotx_state_event STATE_SYS_DEPEND_MALLOC
                      | Some b =>
                          str_device_name ← unquoted info dn;
                          ioctl IOTX_IOCTL_SET_PRODUCT_KEY (Some (DataStr str_product_key));;
                          ioctl IOTX_IOCTL_SET_DEVICE_NAME (Some (DataStr str_device_name));;
                          mqtt_free a;;
                          mqtt_free b
                      end
                  end
              end
          end
      end.

(** The node after the one at an address: [None] when that node is not in the list
    any more. *)
Fixpoint node_after (a : nat) (l : list iotx_mc_topic_handle_t)
    : option (option iotx_mc_topic_handle_t) :=
  match l with
  | [] => None
  | n :: l' => if (th_addr n =? a)%nat then Some (head l') else node_after a l'
  end.

(** Does a publication on [topicName] reach the node? *)
Definition delivers (topicName : MQTTString) (node : iotx_mc_topic_handle_t) : option bool :=
  eq ← MQTTPacket_equals topicName (topic_filter node);
  if eq : bool then Some true
  else
    m ← iotx_mc_is_topic_matched (Some (topic_filter node)) (Some topicName);
    Some (negb (m =? 0)).

(** [list_for_each_entry] over the subscriptions: the mutex is released around
    each callback, which may change the list; the loop goes on from the node that
    follows in the list as it then is. *)
Fixpoint deliver_loop (n : nat) (topicName : MQTTString) (info : iotx_mqtt_topic_info_t)
    (cur : option iotx_mc_topic_handle_t) (flag_matched : bool) : prog E bool :=
  match n, cur with
  | O, _ => diverge
  | S _, None => mret flag_matched
  | S n', Some node =>
      m ← lift FaultRead (delivers topicName node);
      flag_matched ←
        (if m : bool then
           HAL_MutexUnlock LOCK_GENERIC;;
           flag ← (if negb (h_fp (th_handle node) =? 0) then
                     _handle_event (th_handle node)
                       {| event_type := IOTX_MQTT_EVENT_PUBLISH_RECEIVED;
                          msg := MsgTopic info |};;
                     mret true
                   else mret flag_matched);
           HAL_MutexLock LOCK_GENERIC;;
           mret flag
         else mret flag_matched);
      l ← get list_sub_handle;
      next ← lift FaultHeap (node_after (th_addr node) l);
      deliver_loop n' topicName info next flag_matched
  end.

Definition iotx_mc_deliver_message (topicName : MQTTString) (info : iotx_mqtt_topic_info_t)
    : prog E unit :=
  let info := info <| ti_ptopic := lenstring_data topicName |>
                   <| ti_topic_len := u16 (lenstring_len topicName) |> in
  iotx_mc_parse_identity_response info;;
  HAL_MutexLock LOCK_GENERIC;;
  l ← get list_sub_handle;
  flag_matched ← deliver_loop fuel topicName info (head l) false;
  HAL_MutexUnlock LOCK_GENERIC;;
  if flag_matched : bool then mret tt
  else notify IOTX_MQTT_EVENT_PUBLISH_RECEIVED (MsgTopic info).

Definition iotx_mc_handle_recv_PUBLISH : prog E Z :=
  '(rc, o) ← deserialize (MQTTDeserialize_publish publish_out_zero);
  if negb (rc =? 1) then mret MQTT_PUBLISH_PACKET_ERROR
  else
    let info := {| ti_packet_id := u16 (po_packetid o); ti_qos := u8 (po_qos o);
      ti_dup := po_dup o; ti_retain := po_retained o; ti_topic_len := 0;
      ti_payload_len := u32 (po_payloadlen o); ti_ptopic := None;
      ti_payload := po_payload o |} in
    let topicName := po_topicName o in
    if (lenstring_len topicName =? 0) || bool_decide (lenstring_data topicName = None)
    then mret STATE_MQTT_DESERIALIZE_PUB_ERROR
    else
      iotx_mc_deliver_message topicName info;;
      if ti_qos info =? IOTX_MQTT_QOS0 then mret STATE_SUCCESS
      else if ti_qos info =? IOTX_MQTT_QOS1 then MQTTPuback fuel (ti_packet_id info) PUBACK
      else if ti_qos info =? IOTX_MQTT_QOS2 then MQTTPuback fuel (ti_packet_id info) PUBREC
      else mret STATE_MQTT_PUB_QOS_INVALID.

(** ** One cycle *)

(** The [switch] of [iotx_mc_cycle]. *)
Definition dispatch_packet (packetType : Z) : prog E Z :=
  if packetType =? CONNACK then mret STATE_SUCCESS
  else if packetType =? PUBACK then iotx_mc_handle_recv_PUBACK
  else if packetType =? SUBACK then iotx_mc_handle_recv_SUBACK
  else if packetType =? PUBLISH then iotx_mc_handle_recv_PUBLISH
  else if packetType =? UNSUBACK then iotx_mc_handle_recv_UNSUBACK
  else if packetType =? PINGRESP then mret STATE_SUCCESS
  else mret STATE_MQTT_RECV_UNKNOWN_PACKET.

Definition iotx_mc_cycle (timer : iotx_time_t) : prog E Z :=
  state ← iotx_mc_get_client_state;
  if negb (bool_decide (state = IOTX_MC_STATE_CONNECTED)) then mret STATE_MQTT_IN_OFFLINE_STATUS
  else
    probes ← get keepalive_probes;
    if IOTX_MC_KEEPALIVE_PROBE_MAX <? probes then
      iotx_mc_set_client_state IOTX_MC_STATE_DISCONNECTED;;
      modify (fun c => c <| keepalive_probes := 0 |>);;
      mret STATE_MQTT_IN_OFFLINE_STATUS
    else
      '(rc, packetType) ← iotx_mc_read_packet timer 0;
      if negb (rc =? STATE_SUCCESS) then
        reset_recv;;
        (if rc =? STATE_SYS_DEPEND_NWK_CLOSE
         then iotx_mc_set_client_state IOTX_MC_STATE_DISCONNECTED else mret tt);;
        mret STATE_SYS_DEPEND_NWK_CLOSE
      else if packetType =? MQTT_CPT_RESERVED then reset_recv;; mret STATE_SUCCESS
      else
        modify (fun c => c <| keepalive_probes := 0 |>);;
        HAL_MutexLock LOCK_READ_BUF;;
        rc ← dispatch_packet packetType;
        _reset_recv_buffer;;
        HAL_MutexUnlock LOCK_READ_BUF;;
        mret rc.

(** The loop of [_mqtt_cycle]. *)
Fixpoint cycle_loop (n : nat) (time : iotx_time_t) : prog E unit :=
  match n with
  | O => diverge
  | S n' =>
      HAL_MutexLock LOCK_YIELD;;
      rc ← iotx_mc_cycle time;
      (if rc =? STATE_SUCCESS then MQTTPubInfoProc fuel;; mret tt else mret tt);;
      HAL_MutexUnlock LOCK_YIELD;;
      left_t ← time_left time;
      (if left_t <? 10 then sleep_ms left_t else sleep_ms 10);;
      expired ← time_is_expired time;
      if negb (expired =? 0) then mret tt else cycle_loop n' time
  end.

Definition _mqtt_cycle : prog E unit :=
  timeout ← get cycle_timeout_ms;
  time ← time_countdown_ms timeout;
  cycle_loop fuel time.
End Recv.
