(* ===== verification/MqttSession.v ===== *)
(** * MqttSession: connection, keep-alive and the client's interface

    The rest of [eng/mqtt/iotx_mqtt_client.c]: connecting with retries, the
    keep-alive and reconnection state machine, the initialisation and release of a
    client, and the interface functions [wrapper_mqtt_*]. *)

From S2P Require Import Prelude.
From S2P Require Import InfraState.
From S2P Require Import Hal.
From S2P Require Import InfraTimer.
From S2P Require Import InfraNet.
From S2P Require Import InfraCompat.
From S2P Require Import MqttPacket.
From S2P Require Import MqttConnect.
From S2P Require Import MqttTopic.
From S2P Require Import MqttState.
From S2P Require Import MqttSend.
From S2P Require Import MqttRecv.

Definition RETRY_TIME_LIMIT : Z := 9.
Definition RETRY_INTV_PERIOD : Z := 2000.
Definition sizeof_client : Z := 256.

Record iotx_mqtt_param_t := {
  p_port : Z;
  p_host : option (list Z);
  p_client_id : option (list Z);
  p_username : option (list Z);
  p_password : option (list Z);
  p_pub_key : option (list Z);
  p_clean_session : Z;
  p_request_timeout_ms : Z;
  p_keepalive_interval_ms : Z;
  p_write_buf_size : Z;
  p_read_buf_size : Z;
  p_handle_event : iotx_mqtt_event_handle_t
}.

(** [MQTTPacket_connectData_initializer] *)
Definition MQTTPacket_connectData_initializer : MQTTPacket_connectData :=
  {| cd_struct_id := lit "MQTC"; cd_struct_version := 0; cd_MQTTVersion := 4;
     cd_clientID := MQTTString_initializer;
     cd_keepAliveInterval := CONFIG_MQTT_KEEPALIVE_INTERVAL_MIN;
     cd_cleansession := 1; cd_willFlag := 0;
     cd_will := {| will_struct_id := lit "MQTW"; will_struct_version := 0;
       will_topicName := MQTTString_initializer; will_message := MQTTString_initializer;
       will_retained := 0; will_qos := 0 |};
     cd_username := MQTTString_initializer; cd_password := MQTTString_initializer |}.

(** The connect data of a client that [memset] has cleared. *)
Definition connectData_zero : MQTTPacket_connectData :=
  {| cd_struct_id := repeat 0 4; cd_struct_version := 0; cd_MQTTVersion := 0;
     cd_clientID := MQTTString_initializer; cd_keepAliveInterval := 0;
     cd_cleansession := 0; cd_willFlag := 0;
     cd_will := {| will_struct_id := repeat 0 4; will_struct_version := 0;
       will_topicName := MQTTString_initializer; will_message := MQTTString_initializer;
       will_retained := 0; will_qos := 0 |};
     cd_username := MQTTString_initializer; cd_password := MQTTString_initializer |}.

Definition client_zero : iotx_mc_client_t :=
  {| lock_generic := false; packet_id := 0; request_timeout_ms := 0; cycle_timeout_ms := 0;
     buf_size_send := 0; buf_size_send_max := 0; buf_size_read_max := 0; buf_size_read := 0;
     keepalive_probes := 0; buf_send := None; buf_read := None; list_sub_handle := [];
     ipstack := utils_network_zero; next_ping_time := MkTime 0;
     client_state := IOTX_MC_STATE_INVALID;
     reconnect_param := {| reconnect_next_time := MkTime 0; reconnect_time_interval_ms := 0 |};
     connect_data := connectData_zero; list_pub_wait_ack := []; list_sub_sync_ack := [];
     lock_list_pub := false; lock_write_buf := false; lock_read_buf := false;
     lock_yield := false; handle_event := {| h_fp := 0; pcontext := 0 |} |}.

Definition set_lock (l : lock) (b : bool) (c : iotx_mc_client_t) : iotx_mc_client_t :=
  match l with
  | LOCK_YIELD => c <| lock_yield := b |>
  | LOCK_READ_BUF => c <| lock_read_buf := b |>
  | LOCK_LIST_PUB => c <| lock_list_pub := b |>
  | LOCK_WRITE_BUF => c <| lock_write_buf := b |>
  | LOCK_GENERIC => c <| lock_generic := b |>
  end.

Section Session.
Context {E : Type} `{!Hal E} `{!App E} (fuel : nat).

(** ** Connecting *)

(** The [do ... while (++retry_cnt <= retry_max)] loop. *)
Fixpoint nwk_connect_loop (n : nat) (retry_cnt : Z) : prog E Z :=
  match n with
  | O => diverge
  | S n' =>
      rc ← net_connect;
      if negb (rc =? STATE_SUCCESS) then
        net_disconnect;;
        let rc := if rc =? ERROR_CERTIFICATE_EXPIRED then ERROR_CERT_VERIFY_FAIL
                  else STATE_SYS_DEPEND_NWK_CLOSE in
        sleep_ms 1000;;
        let retry_cnt := retry_cnt + 1 in
        if retry_cnt <=? 3 then nwk_connect_loop n' retry_cnt else mret rc
      else mret rc
  end.

Definition _mqtt_nwk_connect : prog E Z := nwk_connect_loop 3 1.

(** The [do ... while (++try_count < RETRY_TIME_LIMIT)] loop of [_mqtt_connect]: a
    code to return at once, or [try_count] at the end of the loop. *)
Fixpoint mqtt_connect_loop (n : nat) (try_count userKeepAliveInterval : Z)
    : prog E (Z + Z) :=
  match n with
  | O => diverge
  | S n' =>
      rc ← MQTTConnect fuel;
      modify (fun c => c <| connect_data ::= fun d =>
        d <| cd_keepAliveInterval := userKeepAliveInterval |> |>);;
      if rc <? STATE_SUCCESS then net_disconnect;; mret (inl rc)
      else
        rc ← iotx_mc_wait_CONNACK;
        if (rc <=? STATE_MQTT_CONNACK_VERSION_UNACCEPT)
           && (STATE_MQTT_CONNACK_NOT_AUTHORIZED <=? rc)
        then net_disconnect;; mret (inl rc)
        else if negb (STATE_SUCCESS =? rc) then
          sleep_ms RETRY_INTV_PERIOD;;
          net_disconnect;;
          net_connect;;
          let try_count := try_count + 1 in
          if try_count <? RETRY_TIME_LIMIT
          then mqtt_connect_loop n' try_count userKeepAliveInterval
          else mret (inr try_count)
        else mret (inr try_count)
  end.

Definition _mqtt_connect : prog E Z :=
  d ← get connect_data;
  let userKeepAliveInterval := cd_keepAliveInterval d in
  let k := u16 (userKeepAliveInterval * 2) in
  let k := if CONFIG_MQTT_KEEPALIVE_INTERVAL_MAX <? k
           then CONFIG_MQTT_KEEPALIVE_INTERVAL_MAX else k in
  modify (fun c => c <| connect_data ::= fun d => d <| cd_keepAliveInterval := k |> |>);;
  r ← mqtt_connect_loop 8 1 userKeepAliveInterval;
  match r with
  | inl rc => mret rc
  | inr try_count =>
      if try_count =? RETRY_TIME_LIMIT then mret STATE_MQTT_CONN_RETRY_EXCEED_MAX
      else
        modify (fun c => c <| keepalive_probes := 0 |>);;
        iotx_mc_set_client_state IOTX_MC_STATE_CONNECTED;;
        d ← get connect_data;
        t ← time_countdown_ms (cd_keepAliveInterval d * 1000);
        modify (fun c => c <| next_ping_time := t |>);;
        mret STATE_SUCCESS
  end.

(** ** Keep-alive and reconnection *)

Definition iotx_mc_keepalive_sub : prog E Z :=
  ok ← wrapper_mqtt_check_state;
  if negb ok then mret STATE_SUCCESS
  else
    t ← get next_ping_time;
    expired ← time_is_expired t;
    if expired =? 0 then mret STATE_SUCCESS
    else
      d ← get connect_data;
      t ← time_countdown_ms (cd_keepAliveInterval d * 1000);
      modify (fun c => c <| next_ping_time := t |>);;
      rc ← MQTTKeepalive fuel;
      if rc <? STATE_SUCCESS then
        (if rc =? STATE_SYS_DEPEND_NWK_CLOSE
         then iotx_mc_set_client_state IOTX_MC_STATE_DISCONNECTED else mret tt);;
        mret rc
      else
        modify (fun c => c <| keepalive_probes ::= fun p => u8 (p + 1) |>);;
        mret STATE_SUCCESS.

Definition iotx_mc_attempt_reconnect : prog E Z :=
  net_disconnect;;
  _mqtt_nwk_connect;;
  _mqtt_connect.

Definition iotx_mc_handle_reconnect : prog E Z :=
  r ← get reconnect_param;
  expired ← time_is_expired (reconnect_next_time r);
  if expired =? 0 then sleep_ms 100;; mret STATE_MQTT_WAIT_RECONN_TIMER
  else
    rc ← iotx_mc_attempt_reconnect;
    if rc =? STATE_SUCCESS then
      iotx_mc_set_client_state IOTX_MC_STATE_CONNECTED;;
      mret STATE_SUCCESS
    else if STATE_MQTT_ASYNC_STACK_CONN_IN_PROG =? rc then mret rc
    else
      modify (fun c => c <| reconnect_param ::= fun r => r <| reconnect_time_interval_ms ::=
        fun i => if i <? IOTX_MC_RECONNECT_INTERVAL_MAX_MS then u32 (i * 2)
                 else IOTX_MC_RECONNECT_INTERVAL_MAX_MS |> |>);;
      r ← get reconnect_param;
      let interval_ms := reconnect_time_interval_ms r in
      let interval_ms := if IOTX_MC_RECONNECT_INTERVAL_MAX_MS <? interval_ms
                         then IOTX_MC_RECONNECT_INTERVAL_MAX_MS else interval_ms in
      t ← time_countdown_ms interval_ms;
      modify (fun c => c <| reconnect_param ::= fun r => r <| reconnect_next_time := t |> |>);;
      mret rc.

(** The callbacks of the state machine call the handler directly, without marking
    that a callback runs. *)
Definition iotx_mc_reconnect_callback : prog E unit :=
  h ← get handle_event;
  if negb (h_fp h =? 0)
  then on_event h {| event_type := IOTX_MQTT_EVENT_RECONNECT; msg := MsgNull |}
  else mret tt.

Definition iotx_mc_disconnect_callback : prog E unit :=
  h ← get handle_event;
  if negb (h_fp h =? 0)
  then on_event h {| event_type := IOTX_MQTT_EVENT_DISCONNECT; msg := MsgNull |}
  else mret tt.

Definition iotx_mc_keepalive : prog E unit :=
  iotx_mc_keepalive_sub;;
  currentState ← iotx_mc_get_client_state;
  if bool_decide (currentState = IOTX_MC_STATE_DISCONNECTED_RECONNECTING)
     || bool_decide (currentState = IOTX_MC_STATE_CONNECT_BLOCK)
  then
    rc ← iotx_mc_handle_reconnect;
    if rc <? STATE_SUCCESS then mret tt
    else
      iotx_mc_reconnect_callback;;
      modify (fun c => c <| reconnect_param ::= fun r =>
        r <| reconnect_time_interval_ms := IOTX_MC_RECONNECT_INTERVAL_MIN_MS |> |>)
  else if bool_decide (currentState = IOTX_MC_STATE_DISCONNECTED) then
    iotx_mc_disconnect_callback;;
    modify (fun c => c <| reconnect_param ::= fun r =>
      r <| reconnect_time_interval_ms := IOTX_MC_RECONNECT_INTERVAL_MIN_MS |> |>);;
    t ← time_countdown_ms IOTX_MC_RECONNECT_INTERVAL_MIN_MS;
    modify (fun c => c <| reconnect_param ::= fun r => r <| reconnect_next_time := t |> |>);;
    net_disconnect;;
    iotx_mc_set_client_state IOTX_MC_STATE_DISCONNECTED_RECONNECTING
  else mret tt.

Definition iotx_mc_disconnect : prog E Z :=
  ok ← wrapper_mqtt_check_state;
  (if ok : bool then MQTTDisconnect fuel;; mret tt else mret tt);;
  net_disconnect;;
  iotx_mc_set_client_state IOTX_MC_STATE_INITIALIZED;;
  mret STATE_SUCCESS.

(** ** Initialisation and release *)

Definition HAL_MutexDestroy (l : lock) : prog E unit := fun w =>
  if bool_decide (l ∈ w_held w) then Fault FaultLock
  else Done tt (w <| w_client ::= set_lock l false |>).

Definition mutex_create (l : lock) : prog E bool :=
  ok ← plat HAL_MutexCreate;
  modify (set_lock l ok);;
  mret ok.

Definition iotx_mc_set_connect_params (d : MQTTPacket_connectData) : prog E Z :=
  let k := cd_keepAliveInterval d in
  let k := if k <? CONFIG_MQTT_KEEPALIVE_INTERVAL_MIN then CONFIG_MQTT_KEEPALIVE_INTERVAL
           else if CONFIG_MQTT_KEEPALIVE_INTERVAL_MAX <? k then CONFIG_MQTT_KEEPALIVE_INTERVAL
           else k in
  modify (fun c => c <| connect_data := d <| cd_keepAliveInterval := k |> |>);;
  mret STATE_SUCCESS.

(** [if (pClient->lock) { HAL_MutexDestroy(lock); lock = NULL; }] *)
Definition destroy_if_created (l : lock) : prog E unit :=
  ok ← get (lock_created l);
  if ok : bool then HAL_MutexDestroy l else mret tt.

(** [if (buf != NULL) { mqtt_free(buf); buf = NULL; }] for both buffers. *)
Definition free_buffers : prog E unit :=
  b ← get buf_send;
  match b with
  | Some b => mqtt_free (buf_addr b);; modify (fun c => c <| buf_send := None |>)
  | None => mret tt
  end;;
  b ← get buf_read;
  match b with
  | Some b => mqtt_free (buf_addr b);; modify (fun c => c <| buf_read := None |>)
  | None => mret tt
  end.

(** The code at the label [RETURN]. *)
Definition init_return (mc_state : iotx_mc_state_t) (rc : Z) : prog E Z :=
  iotx_mc_set_client_state mc_state;;
  (if rc <? STATE_SUCCESS then
     free_buffers;;
     destroy_if_created LOCK_LIST_PUB;;
     destroy_if_created LOCK_WRITE_BUF;;
     destroy_if_created LOCK_READ_BUF;;
     destroy_if_created LOCK_YIELD
   else mret tt);;
  mret rc.

(** The mutexes after [lock_generic], in the order they are created: are they all
    created? *)
Fixpoint create_locks (ls : list lock) : prog E bool :=
  match ls with
  | [] => mret true
  | l :: ls' =>
      ok ← mutex_create l;
      if ok : bool then create_locks ls'
      else iotx_state_event STATE_SYS_DEPEND_MUTEX_CREATE;; mret false
  end.

Definition cstr_mstring (s : option (list Z)) : MQTTString :=
  {| cstring := s; lenstring_len := 0; lenstring_data := None |}.

Definition iotx_mc_init (pInitParams : option iotx_mqtt_param_t) : prog E Z :=
  match pInitParams with
  | None => mret STATE_USER_INPUT_INVALID
  | Some p =>
      if (p_write_buf_size p =? 0) || (p_read_buf_size p =? 0)
      then mret STATE_USER_INPUT_INVALID
      else
        ok ← mutex_create LOCK_GENERIC;
        if negb ok then
          iotx_state_event STATE_SYS_DEPEND_MUTEX_CREATE;;
          mret STATE_SYS_DEPEND_MUTEX_CREATE
        else
          ok ← create_locks [LOCK_LIST_PUB; LOCK_YIELD; LOCK_WRITE_BUF; LOCK_READ_BUF];
          if negb ok then init_return IOTX_MC_STATE_INVALID (-1)
          else
            let connectdata := MQTTPacket_connectData_initializer
              <| cd_MQTTVersion := IOTX_MC_MQTT_VERSION |>
              <| cd_keepAliveInterval := u16 (Z.quot (p_keepalive_interval_ms p) 1000) |>
              <| cd_clientID := cstr_mstring (p_client_id p) |>
              <| cd_username := cstr_mstring (p_username p) |>
              <| cd_password := cstr_mstring (p_password p) |>
              <| cd_cleansession := p_clean_session p |> in
            let timeout :=
              if (p_request_timeout_ms p <? CONFIG_MQTT_REQ_TIMEOUT_MIN)
                 || (CONFIG_MQTT_REQ_TIMEOUT_MAX <? p_request_timeout_ms p)
              then CONFIG_MQTT_REQUEST_TIMEOUT else p_request_timeout_ms p in
            modify (fun c => c <| request_timeout_ms := timeout |>
              <| buf_size_send_max := p_write_buf_size p |>
              <| buf_size_read_max := p_read_buf_size p |>
              <| keepalive_probes := 0 |>
              <| handle_event := p_handle_event p |>
              <| reconnect_param ::= fun r =>
                   r <| reconnect_time_interval_ms := IOTX_MC_RECONNECT_INTERVAL_MIN_MS |> |>
              <| list_pub_wait_ack := [] |>
              <| list_sub_handle := [] |>
              <| list_sub_sync_ack := [] |>);;
            rc ← iotx_mc_set_connect_params connectdata;
            if rc <? STATE_SUCCESS then
              iotx_state_event rc;; init_return IOTX_MC_STATE_INVALID rc
            else
              modify (fun c => c <| next_ping_time := iotx_time_init |>
                <| reconnect_param ::= fun r => r <| reconnect_next_time := iotx_time_init |> |>);;
              let '(rc, n) := iotx_net_init utils_network_zero (p_host p) (p_port p) (p_pub_key p) in
              modify (fun c => c <| ipstack := n |>);;
              if negb (STATE_SUCCESS =? rc) then
                iotx_state_event rc;; init_return IOTX_MC_STATE_INVALID rc
              else init_return IOTX_MC_STATE_INITIALIZED STATE_SUCCESS
  end.

(** The address of the new client's block, or NULL. *)
Definition wrapper_mqtt_init (mqtt_params : option iotx_mqtt_param_t) : prog E (option nat) :=
  pclient ← mqtt_malloc sizeof_client;
  match pclient with
  | None => iotx_state_event STATE_SYS_DEPEND_MALLOC;; mret None
  | Some a =>
      modify (fun _ => client_zero);;
      err ← iotx_mc_init mqtt_params;
      if err <? STATE_SUCCESS then
        iotx_state_event err;;
        mqtt_free a;;
        mret None
      else mret (Some a)
  end.

(** The loop of [wrapper_mqtt_release] over the subscriptions left. *)
Fixpoint release_sub_loop (nodes : list iotx_mc_topic_handle_t) : prog E unit :=
  match nodes with
  | [] => mret tt
  | node :: nodes' =>
      modify (fun c => c <| list_sub_handle ::= filter (fun n => th_addr n <> th_addr node) |>);;
      mqtt_free (th_filter_addr node);;
      mqtt_free (th_addr node);;
      release_sub_loop nodes'
  end.

Fixpoint pub_wait_list_deinit_loop (nodes : list iotx_mc_pub_info_t) : prog E unit :=
  match nodes with
  | [] => mret tt
  | node :: nodes' => pub_del (pi_addr node);; pub_wait_list_deinit_loop nodes'
  end.

Definition iotx_mc_pub_wait_list_deinit : prog E unit :=
  nodes ← get list_pub_wait_ack;
  pub_wait_list_deinit_loop nodes.

(** [c] is the address of the client's block; a NULL [*c] is refused. *)
Definition wrapper_mqtt_release (c : option nat) : prog E Z :=
  match c with
  | None => mret STATE_USER_INPUT_INVALID
  | Some a =>
      sleep_ms 100;;
      iotx_mc_disconnect;;
      iotx_mc_set_client_state IOTX_MC_STATE_INVALID;;
      sleep_ms 100;;
      nodes ← get list_sub_handle;
      release_sub_loop nodes;;
      HAL_MutexDestroy LOCK_GENERIC;;
      HAL_MutexDestroy LOCK_LIST_PUB;;
      HAL_MutexDestroy LOCK_WRITE_BUF;;
      HAL_MutexDestroy LOCK_YIELD;;
      HAL_MutexDestroy LOCK_READ_BUF;;
      iotx_mc_pub_wait_list_deinit;;
      free_buffers;;
      mqtt_free a;;
      mret STATE_SUCCESS
  end.

(** ** The interface *)

(** [IOT_Ioctl] into a character array. *)
Definition ioctl_into (opt : iotx_ioctl_option_t) (buf : list Z) : prog E (list Z) :=
  '(_, d) ← ioctl opt (Some (DataBuf buf));
  mret (match d with Some (DataBuf b) => b | _ => buf end).

(** The [do ... while (++try_count < RETRY_TIME_LIMIT)] loop that waits for the
    identity of the device. *)
Fixpoint connect_cycle_loop (n : nat) (try_count : Z) (product_key device_name : list Z)
    : prog E unit :=
  match n with
  | O => diverge
  | S n' =>
      HAL_MutexLock LOCK_YIELD;;
      modify (fun c => c <| cycle_timeout_ms := 500 |>);;
      HAL_MutexUnlock LOCK_YIELD;;
      _mqtt_cycle fuel;;
      product_key ← ioctl_into IOTX_IOCTL_GET_PRODUCT_KEY product_key;
      device_name ← ioctl_into IOTX_IOCTL_GET_DEVICE_NAME device_name;
      if negb (bool_decide (head product_key = Some 0))
         && negb (bool_decide (head device_name = Some 0)) then mret tt
      else
        let try_count := try_count + 1 in
        if try_count <? RETRY_TIME_LIMIT
        then connect_cycle_loop n' try_count product_key device_name
        else mret tt
  end.

Definition wrapper_mqtt_connect : prog E Z :=
  rc ← _mqtt_nwk_connect;
  if negb (rc =? STATE_SUCCESS) then mret rc
  else
    rc ← _mqtt_connect;
    connect_cycle_loop 9 0 (repeat 0 (Z.to_nat (IOTX_PRODUCT_KEY_LEN + 1)))
      (repeat 0 (Z.to_nat (IOTX_DEVICE_NAME_LEN + 1)));;
    mret rc.

Definition wrapper_mqtt_yield (timeout_ms : Z) : prog E Z :=
  if timeout_ms <? 0 then mret STATE_USER_INPUT_INVALID
  else
    let timeout_ms := if timeout_ms =? 0 then 10 else timeout_ms in
    HAL_MutexLock LOCK_YIELD;;
    modify (fun c => c <| cycle_timeout_ms := timeout_ms |>);;
    iotx_mc_keepalive;;
    HAL_MutexUnlock LOCK_YIELD;;
    _mqtt_cycle fuel;;
    mret STATE_SUCCESS.

Definition wrapper_mqtt_subscribe (topicFilter : option (list Z))
    (qos topic_handle_func context : Z) : prog E Z :=
  if bool_decide (topicFilter = None) || bool_decide (topicFilter = Some [])
     || (topic_handle_func =? 0)
  then mret STATE_USER_INPUT_INVALID
  else
    msgId ← iotx_mc_get_next_packetid;
    ok ← wrapper_mqtt_check_state;
    if negb ok then iotx_mc_get_client_state;; mret STATE_MQTT_IN_OFFLINE_STATUS
    else
      rc ← lift FaultRead (iotx_mc_check_topic topicFilter TOPIC_FILTER_TYPE);
      if rc <? STATE_SUCCESS then mret rc
      else
        rc ← MQTTSubscribe fuel topicFilter qos msgId topic_handle_func context;
        if rc <? STATE_SUCCESS then
          (if rc =? STATE_SYS_DEPEND_NWK_CLOSE
           then iotx_mc_set_client_state IOTX_MC_STATE_DISCONNECTED else mret tt);;
          mret rc
        else mret msgId.

Definition wrapper_mqtt_unsubscribe (topicFilter : option (list Z)) : prog E Z :=
  if bool_decide (topicFilter = None) then mret STATE_USER_INPUT_INVALID
  else
    msgId ← iotx_mc_get_next_packetid;
    rc ← lift FaultRead (iotx_mc_check_topic topicFilter TOPIC_FILTER_TYPE);
    if rc <? STATE_SUCCESS then mret rc
    else
      ok ← wrapper_mqtt_check_state;
      if negb ok then iotx_mc_get_client_state;; mret STATE_MQTT_IN_OFFLINE_STATUS
      else
        rc ← MQTTUnsubscribe fuel topicFilter msgId;
        if rc <? STATE_SUCCESS then
          (if rc =? STATE_SYS_DEPEND_NWK_CLOSE
           then iotx_mc_set_client_state IOTX_MC_STATE_DISCONNECTED else mret tt);;
          mret rc
        else mret msgId.

(** The packet identifier that the code writes into [*topic_msg] is the one passed
    on. *)
Definition wrapper_mqtt_publish (topicName : option (list Z))
    (topic_msg : option iotx_mqtt_topic_info_t) : prog E Z :=
  match topicName, topic_msg with
  | Some _, Some info =>
      if bool_decide (ti_payload info = None) then mret STATE_USER_INPUT_INVALID
      else
        rc ← lift FaultRead (iotx_mc_check_topic topicName TOPIC_NAME_TYPE);
        if rc <? STATE_SUCCESS then mret rc
        else
          ok ← wrapper_mqtt_check_state;
          if negb ok then iotx_mc_get_client_state;; mret STATE_MQTT_IN_OFFLINE_STATUS
          else
            '(msg_id, info) ←
              (if (ti_qos info =? IOTX_MQTT_QOS1) || (ti_qos info =? IOTX_MQTT_QOS2) then
                 id ← iotx_mc_get_next_packetid;
                 mret (u16 id, info <| ti_packet_id := u16 id |>)
               else mret (0, info));
            if ti_qos info =? IOTX_MQTT_QOS2 then mret STATE_MQTT_PUB_QOS_INVALID
            else
              rc ← MQTTPublish fuel topicName (Some info);
              if rc <? STATE_SUCCESS then
                (if rc =? STATE_SYS_DEPEND_NWK_CLOSE
                 then iotx_mc_set_client_state IOTX_MC_STATE_DISCONNECTED else mret tt);;
                mret rc
              else mret msg_id
  | _, _ => mret STATE_USER_INPUT_INVALID
  end.

(** [list_del] and [mqtt_free] of a node that waits for a SUBACK. *)
Definition sync_del (a : nat) : prog E unit :=
  modify (fun c => c <| list_sub_sync_ack ::= filter (fun n => ss_addr n <> a) |>);;
  mqtt_free a.

(** The look at the list of waiting nodes: the [for] loop stops after its first
    node.  A value to return at once, or the new [ret] and [subed]. *)
Definition sync_check (ret : Z) (subed : bool) : prog E (Z + Z * bool) :=
  l ← get list_sub_sync_ack;
  match l with
  | [] => mret (inr (ret, subed))
  | node :: _ =>
      if ss_packet_id node =? u32 ret then
        if bool_decide (ack_type node = IOTX_MQTT_EVENT_SUBCRIBE_SUCCESS)
        then sync_del (ss_addr node);; mret (inl ret)
        else if bool_decide (ack_type node = IOTX_MQTT_EVENT_SUBCRIBE_NACK)
                || bool_decide (ack_type node = IOTX_MQTT_EVENT_SUBCRIBE_TIMEOUT)
        then sync_del (ss_addr node);; mret (inr (-1, false))
        else mret (inr (ret, subed))
      else mret (inr (ret, subed))
  end.

(** The [do ... while] loop: a value to return at once, or [ret] at its end. *)
Fixpoint subscribe_sync_loop (n : nat) (topic_filter : option (list Z))
    (qos topic_handle_func context : Z) (timer : iotx_time_t) (ret : Z) (subed : bool)
    : prog E (Z + Z) :=
  match n with
  | O => diverge
  | S n' =>
      r ← (if ret <? 0 then
             ret ← wrapper_mqtt_subscribe topic_filter qos topic_handle_func context;
             cb ← in_yield_cb;
             if negb (cb =? 0) || (qos =? IOTX_MQTT_QOS3_SUB_LOCAL)
             then mret (inl ret) else mret (inr ret)
           else mret (inr ret) : prog E (Z + Z));
      match r with
      | inl ret => mret (inl ret)
      | inr ret =>
          subed ← (if negb subed && (0 <=? ret) then
                     a ← mqtt_malloc sizeof_sub_sync_node;
                     match a with
                     | None => mret subed
                     | Some a =>
                         HAL_MutexLock LOCK_GENERIC;;
                         modify (fun c => c <| list_sub_sync_ack ::= fun l => l ++
                           [{| ss_addr := a; ss_packet_id := ret;
                               ack_type := IOTX_MQTT_EVENT_UNDEF |}] |>);;
                         HAL_MutexUnlock LOCK_GENERIC;;
                         mret true
                     end
                   else mret subed);
          wrapper_mqtt_yield 100;;
          HAL_MutexLock LOCK_GENERIC;;
          r ← sync_check ret subed;
          HAL_MutexUnlock LOCK_GENERIC;;
          match r with
          | inl ret => mret (inl ret)
          | inr (ret, subed) =>
              expired ← time_is_expired timer;
              if negb (expired =? 0) then mret (inr ret)
              else subscribe_sync_loop n' topic_filter qos topic_handle_func context
                     timer ret subed
          end
      end
  end.

(** The last loop: every node with the identifier is removed. *)
Fixpoint sync_timeout_loop (ret : Z) (nodes : list mqtt_sub_sync_node_t) : prog E unit :=
  match nodes with
  | [] => mret tt
  | node :: nodes' =>
      (if ss_packet_id node =? u32 ret then sync_del (ss_addr node) else mret tt);;
      sync_timeout_loop ret nodes'
  end.

Definition wrapper_mqtt_subscribe_sync (topic_filter : option (list Z))
    (qos topic_handle_func context timeout_ms : Z) : prog E Z :=
  let qos := if IOTX_MQTT_QOS3_SUB_LOCAL <? qos then IOTX_MQTT_QOS0 else qos in
  timer ← time_countdown_ms timeout_ms;
  r ← subscribe_sync_loop fuel topic_filter qos topic_handle_func context timer (-1) false;
  match r with
  | inl ret => mret ret
  | inr ret =>
      HAL_MutexLock LOCK_GENERIC;;
      nodes ← get list_sub_sync_ack;
      sync_timeout_loop ret nodes;;
      HAL_MutexUnlock LOCK_GENERIC;;
      mret STATE_MQTT_SYNC_SUB_TIMEOUT
  end.
End Session.
