(* ===== verification/MqttLogic.v ===== *)
(** * MqttLogic: a program logic for the MQTT client

    Weakest preconditions of the client's monad, the invariant of the client and
    the rules of the primitive operations.  The invariant says that the heap blocks
    allocated are exactly those the client owns (its two buffers, the nodes of its
    three lists and their strings) and a frame of others, that sizes and limits
    agree, and that every mutex was ever taken in the order yield, read buffer,
    publication list, write buffer, generic. *)

From S2P Require Import Prelude.
From S2P Require Import InfraState.
From S2P Require Import Hal.
From S2P Require Import InfraTimer.
From S2P Require Import InfraNet.
From S2P Require Import InfraCompat.
From S2P Require Import MqttPacket.
From S2P Require Import MqttConnect.
From S2P Require Import MqttPublish.
From S2P Require Import MqttState.
From S2P Require Import MqttSend.

(** ** Weakest preconditions *)

(** How a run ends without a result. *)
Inductive stop := Faulted (f : fault) | NoFuel.
Coercion Faulted : fault >-> stop.

(** [wp ok m Q w]: run from [w], the program [m] ends in a state that satisfies [Q],
    or stops in a way that [ok] admits. *)
Definition wp {E A} (ok : stop -> Prop) (m : prog E A) (Q : A -> world E -> Prop)
    (w : world E) : Prop :=
  match m w with
  | Done a w' => Q a w'
  | Fault f => ok f
  | OutOfFuel => ok NoFuel
  end.

Section Wp.
Context {E : Type} (ok : stop -> Prop).

Lemma wp_ret {A} (a : A) Q (w : world E) : Q a w -> wp ok (mret a) Q w.
Proof. done. Qed.

Lemma wp_bind {A B} (m : prog E A) (k : A -> prog E B) P Q (w : world E) :
  wp ok m P w -> (forall a w', P a w' -> wp ok (k a) Q w') -> wp ok (m ≫= k) Q w.
Proof.
  unfold wp, mbind, prog_bind. destruct (m w); [|done|done]. intros HP HQ. by apply HQ.
Qed.

Lemma wp_mono {A} (m : prog E A) (P Q : A -> world E -> Prop) (w : world E) :
  wp ok m P w -> (forall a w', P a w' -> Q a w') -> wp ok m Q w.
Proof. unfold wp. destruct (m w); auto. Qed.

Lemma wp_get {A} (f : iotx_mc_client_t -> A) Q (w : world E) :
  Q (f (w_client w)) w -> wp ok (get f) Q w.
Proof. done. Qed.

Lemma wp_lift {A} (x : fault) (o : option A) (Q : A -> world E -> Prop) w :
  (o = None -> ok x) -> (forall a, o = Some a -> Q a w) -> wp ok (lift x o) Q w.
Proof. unfold lift. destruct o; intros HN HS; [by apply HS|by apply HN]. Qed.

Lemma wp_ret_bind {A B} (a : A) (k : A -> prog E B) Q (w : world E) :
  wp ok (k a) Q w -> wp ok (mret a ≫= k) Q w.
Proof. done. Qed.

(** A computation that is defined; one that may not be. *)
Lemma wp_lift_bind {A B} x (o : option A) a (k : A -> prog E B) Q (w : world E) :
  o = Some a -> wp ok (k a) Q w -> wp ok (lift x o ≫= k) Q w.
Proof. by intros ->. Qed.

Lemma wp_lift_bind_ok {A B} (x : fault) (o : option A) (k : A -> prog E B) Q (w : world E) :
  ok x -> (forall a, o = Some a -> wp ok (k a) Q w) -> wp ok (lift x o ≫= k) Q w.
Proof. intros Hx Hk. destruct o; [by apply Hk|done]. Qed.

Lemma wp_diverge {A} (Q : A -> world E -> Prop) w : ok NoFuel -> wp ok diverge Q w.
Proof. done. Qed.
End Wp.

(** Admitting more faults. *)
Lemma wp_weaken {E A} (ok ok' : stop -> Prop) (m : prog E A) Q w :
  (forall f, ok f -> ok' f) -> wp ok m Q w -> wp ok' m Q w.
Proof. unfold wp. destruct (m w); auto. Qed.

Lemma wp_done {E A} ok (m : prog E A) Q w a w' : wp ok m Q w -> m w = Done a w' -> Q a w'.
Proof. unfold wp. intros Hm Ew. by rewrite Ew in Hm. Qed.

(** No stop at all. *)
Definition never (_ : stop) : Prop := False.

Lemma wp_never {E A} (m : prog E A) Q (w : world E) :
  wp never m Q w -> exists a w', m w = Done a w' /\ Q a w'.
Proof. unfold wp. destruct (m w) as [a w'| |]; [eauto|done|done]. Qed.

(** ** The order of the mutexes *)

Definition rank (l : lock) : Z :=
  match l with
  | LOCK_YIELD => 0
  | LOCK_READ_BUF => 1
  | LOCK_LIST_PUB => 2
  | LOCK_WRITE_BUF => 3
  | LOCK_GENERIC => 4
  end.

(** Every mutex of [held] comes before [l]. *)
Definition below (l : lock) (held : list lock) : Prop := Forall (fun k => rank k < rank l) held.

Lemma below_weaken l l' held : rank l <= rank l' -> below l held -> below l' held.
Proof. intros Hl H. eapply Forall_impl; [exact H|]. simpl; lia. Qed.

Lemma below_cons l k held : rank k < rank l -> below k held -> below l (k :: held).
Proof. intros Hl H. constructor; [done|]. apply (below_weaken k); [lia|done]. Qed.

Lemma below_notin l held : below l held -> l ∉ held.
Proof. unfold below. rewrite Forall_forall. intros H Hin%H. lia. Qed.

Lemma below_nil l : below l [].
Proof. constructor. Qed.

Create HintDb locks.
#[export] Hint Resolve below_nil : locks.
#[export] Hint Extern 2 (below _ (_ :: _)) =>
  (apply below_cons; [vm_compute; reflexivity|]) : locks.
#[export] Hint Extern 3 (below _ ?h) =>
  (match goal with H : below ?k h |- _ =>
     apply (below_weaken k); [vm_compute; discriminate|exact H] end) : locks.

(** ** The invariant *)

(** The addresses of the blocks a client owns. *)
Definition buf_addrs (b : option buffer) : list nat :=
  match b with Some b => [buf_addr b] | None => [] end.

Definition handle_addrs (l : list iotx_mc_topic_handle_t) : list nat :=
  flat_map (fun h => [th_addr h; th_filter_addr h]) l.

Definition owned (c : iotx_mc_client_t) : list nat :=
  buf_addrs (buf_send c) ++ buf_addrs (buf_read c) ++ handle_addrs (list_sub_handle c)
  ++ (pi_addr <$> list_pub_wait_ack c) ++ (ss_addr <$> list_sub_sync_ack c).

(** The heap: the client's blocks and the frame's, each allocated once. *)
Record heap_ok {E} (F : list nat) (w : world E) : Prop := {
  heap_blocks : w_blocks w ≡ₚ owned (w_client w) ++ F;
  heap_nodup : NoDup (w_blocks w);
  heap_next : Forall (fun a => (a < w_next w)%nat) (w_blocks w)
}.

Definition buf_ok (b : option buffer) (size : Z) : Prop :=
  forall b', b = Some b' -> Z.of_nat (List.length (buf_data b')) = size.

(** A node that waits for its PUBACK holds the whole packet. *)
Definition pub_ok (n : iotx_mc_pub_info_t) : Prop :=
  pi_len n = Z.of_nat (List.length (pi_buf n)) /\ pi_len n < 2147483648.

(** No two subscriptions have the same filter, handler and context. *)
Definition subs_ok (l : list iotx_mc_topic_handle_t) : Prop :=
  NoDup ((fun h => (topic_filter h, th_handle h)) <$> l).

(** The waiting times that doubling from one second goes through. *)
Definition intervals : list Z := [1000; 2000; 4000; 8000; 16000; 32000; 30000].

Record client_ok (c : iotx_mc_client_t) : Prop := {
  co_locks : forall l, lock_created l c = true;
  co_send : buf_ok (buf_send c) (buf_size_send c);
  co_read : buf_ok (buf_read c) (buf_size_read c);
  co_send_size : 0 <= buf_size_send c <= buf_size_send_max c;
  co_read_size : 0 <= buf_size_read c <= buf_size_read_max c;
  co_send_max : 0 < buf_size_send_max c < 2147483648;
  co_read_max : 5 <= buf_size_read_max c < 2147483648;
  co_id : 0 <= packet_id c <= IOTX_MC_PACKET_ID_MAX;
  co_timeout : CONFIG_MQTT_REQ_TIMEOUT_MIN <= request_timeout_ms c <= CONFIG_MQTT_REQ_TIMEOUT_MAX;
  co_connect : connect_ok (connect_data c);
  co_keepalive : CONFIG_MQTT_KEEPALIVE_INTERVAL_MIN <= cd_keepAliveInterval (connect_data c)
                 <= CONFIG_MQTT_KEEPALIVE_INTERVAL_MAX;
  co_pubs : Z.of_nat (List.length (list_pub_wait_ack c)) <= IOTX_MC_REPUB_NUM_MAX;
  co_pub_nodes : Forall pub_ok (list_pub_wait_ack c);
  co_subs : subs_ok (list_sub_handle c);
  co_interval : reconnect_time_interval_ms (reconnect_param c) ∈ intervals
}.

Definition order_ok (t : list (lock * list lock)) : Prop :=
  Forall (fun p => below (fst p) (snd p)) t.

(** [cinv C F H w]: the heap holds the client's blocks and the frame [F], the
    mutexes held are [H], and the client satisfies [C]. *)
Record cinv {E} (C : iotx_mc_client_t -> Prop) (F : list nat) (H : list lock)
    (w : world E) : Prop := {
  inv_heap : heap_ok F w;
  inv_client : C (w_client w);
  inv_order : order_ok (w_taken w);
  inv_held : w_held w = H;
  inv_settings : settings_ok (w_ctx w)
}.

Lemma inv_ctx {E} C F H (w : world E) : cinv C F H w -> sdk_ctx_ok (w_ctx w).
Proof. intros HI. apply HI. Qed.

(** The invariant of a client that was initialised. *)
Abbreviation inv := (cinv client_ok).

(** The invariant while a client is being initialised or released. *)
Abbreviation base := (cinv (fun _ => True)).

Lemma inv_base {E} F H (w : world E) : inv F H w -> base F H w.
Proof. by intros []. Qed.

(** ** The primitive operations *)

Lemma NoDup_filter_ne (a : nat) l : NoDup (a :: l) -> filter (fun b => b <> a) (a :: l) = l.
Proof.
  intros [Ha Hl]%NoDup_cons. rewrite filter_cons_False by naive_solver.
  clear Hl. induction l as [|b l IH]; [done|].
  rewrite filter_cons_True by (intros ->; apply Ha; by left).
  rewrite IH; [done|]. intros Hin. apply Ha. by right.
Qed.

Lemma filter_ne_notin (l : lock) H : l ∉ H -> filter (fun k => k <> l) (l :: H) = H.
Proof.
  intros Hl. rewrite filter_cons_False by naive_solver.
  induction H as [|k H IH]; [done|].
  rewrite filter_cons_True by (intros ->; apply Hl; by left).
  rewrite IH; [done|]. intros Hin. apply Hl. by right.
Qed.

Lemma filter_ne_middle {A} (f : A -> nat) l1 x l2 :
  NoDup (f <$> (l1 ++ x :: l2)) -> filter (fun y => f y <> f x) (l1 ++ x :: l2) = l1 ++ l2.
Proof.
  rewrite fmap_app. cbn. intros (_ & H1 & Hx)%NoDup_app. apply NoDup_cons in Hx as [Hx _].
  rewrite filter_app, (filter_cons_False _ x) by naive_solver.
  rewrite !filter_all; [done|apply Forall_forall; intros y Hy Heq..].
  - apply Hx. rewrite <-Heq. by apply list_elem_of_fmap_2.
  - apply (H1 (f y)); [by apply list_elem_of_fmap_2|]. rewrite Heq. by left.
Qed.

(** Removing from a list the one node at an address. *)
Lemma filter_ne_perm {A} (f : A -> nat) (l : list A) n :
  NoDup (f <$> l) -> n ∈ l -> l ≡ₚ n :: filter (fun m => f m <> f n) l.
Proof.
  induction l as [|m l IH]; intros Hd Hn; [by apply not_elem_of_nil in Hn|].
  cbn in Hd. apply NoDup_cons in Hd as [Hm Hd].
  apply elem_of_cons in Hn as [<-|Hn].
  - rewrite filter_cons_False by naive_solver. f_equiv.
    clear IH Hd. induction l as [|k l IH]; [done|].
    rewrite filter_cons_True.
    + f_equiv. apply IH. intros Hin. apply Hm. cbn. by right.
    + intros E. apply Hm. rewrite <-E. cbn. by left.
  - rewrite filter_cons_True.
    + rewrite (IH Hd Hn) at 1. apply Permutation_swap.
    + intros E. apply Hm. rewrite E. by apply list_elem_of_fmap_2.
Qed.

Section Primitives.
Context {E : Type} (ok : stop -> Prop) {C : iotx_mc_client_t -> Prop}.
Implicit Types (F : list nat) (H : list lock) (w : world E).

Lemma inv_perm F F' H w : F ≡ₚ F' -> cinv C F H w -> cinv C F' H w.
Proof.
  intros HF [[Hb Hn Hx] Hc Ho Hh Hs]. split; [|done..]. split; [|done..]. by rewrite Hb, HF.
Qed.

Lemma inv_same F H w w' :
  w_client w' = w_client w -> w_blocks w' = w_blocks w -> w_next w' = w_next w ->
  w_taken w' = w_taken w -> w_held w' = w_held w -> w_ctx w' = w_ctx w ->
  cinv C F H w -> cinv C F H w'.
Proof.
  intros E1 E2 E3 E4 E5 E6 [[Hb Hn Hx] Hc Ho Hh Hs].
  split; [split|..]; rewrite ?E1, ?E2, ?E3, ?E4, ?E5, ?E6; done.
Qed.

Lemma modify_spec f F F' H w :
  cinv C F H w ->
  owned (f (w_client w)) ++ F' ≡ₚ owned (w_client w) ++ F ->
  C (f (w_client w)) ->
  wp ok (modify f) (fun _ w' => cinv C F' H w' /\ w_client w' = f (w_client w)) w.
Proof.
  intros [[Hb Hn Hx] Hc Ho Hh Hs] Hown Hok. unfold wp, modify. split; [|done].
  split; [|done..]. split; [|done..]. cbn. rewrite Hb. by symmetry.
Qed.

Lemma clock_spec l F H w :
  cinv C F H w -> below l H -> lock_created l (w_client w) = true ->
  wp ok (HAL_MutexLock l) (fun _ w' => cinv C F (l :: H) w' /\ w_client w' = w_client w) w.
Proof.
  intros [[Hb Hn Hx] Hc Ho Hh Hs] Hl Hcr. unfold wp, HAL_MutexLock.
  rewrite Hcr. cbn [negb].
  rewrite bool_decide_eq_false_2 by (rewrite Hh; by apply below_notin).
  cbn. split; [|done]. split; cbn; [done|done| |by rewrite Hh|done].
  constructor; [|done]. cbn. by rewrite Hh.
Qed.

Lemma unlock_spec l F H w :
  cinv C F (l :: H) w -> below l H ->
  wp ok (HAL_MutexUnlock l) (fun _ w' => cinv C F H w' /\ w_client w' = w_client w) w.
Proof.
  intros [[Hb Hn Hx] Hc Ho Hh Hs] Hl. unfold wp, HAL_MutexUnlock.
  rewrite bool_decide_eq_true_2 by (rewrite Hh; by left).
  split; [|done]. split; cbn; [done..| |done]. rewrite Hh.
  apply filter_ne_notin. by apply below_notin.
Qed.

Lemma plat_spec {A} (f : E -> A * E) F H w :
  cinv C F H w -> wp ok (plat f) (fun _ w' => cinv C F H w' /\ w_client w' = w_client w) w.
Proof.
  intros HI. unfold wp, plat. destruct (f (w_env w)). split; [|done].
  by apply (inv_same F H w).
Qed.

Lemma set_in_yield_cb_spec z F H w :
  cinv C F H w -> wp ok (set_in_yield_cb z) (fun _ w' => cinv C F H w' /\ w_client w' = w_client w) w.
Proof. intros HI. split; [|done]. by apply (inv_same F H w). Qed.

Lemma in_yield_cb_spec F H w :
  cinv C F H w -> wp ok in_yield_cb (fun _ w' => cinv C F H w' /\ w_client w' = w_client w) w.
Proof. intros HI. by split. Qed.

Context `{!Hal E}.

Lemma malloc_spec size F H w :
  cinv C F H w ->
  wp ok (mqtt_malloc size) (fun a w' =>
    cinv C (match a with Some a => a :: F | None => F end) H w' /\ w_client w' = w_client w) w.
Proof.
  intros HI. pose proof HI as [[Hb Hn Hx] Hc Ho Hh Hs]. unfold wp, mqtt_malloc.
  destruct (HAL_Malloc size (w_env w)) as [[] e]; (split; [|done]).
  - split; cbn; [|done..]. split; cbn.
    + rewrite Hb. apply Permutation_middle.
    + constructor; [|done]. intros Hin. rewrite Forall_forall in Hx. apply Hx in Hin. lia.
    + constructor; [lia|]. eapply Forall_impl; [exact Hx|]. simpl; lia.
  - by apply (inv_same F H w).
Qed.

Lemma free_spec a F H w :
  cinv C (a :: F) H w ->
  wp ok (mqtt_free a) (fun _ w' => cinv C F H w' /\ w_client w' = w_client w) w.
Proof.
  intros [[Hb Hn Hx] Hc Ho Hh Hs]. unfold wp, mqtt_free.
  assert (w_blocks w ≡ₚ a :: owned (w_client w) ++ F) as Hb'.
  { rewrite Hb. symmetry. apply Permutation_middle. }
  rewrite bool_decide_eq_true_2 by (rewrite Hb'; by left).
  split; [|done]. split; cbn; [|done..]. split; cbn.
  - rewrite Hb', NoDup_filter_ne; [done|]. by rewrite <-Hb'.
  - by apply NoDup_filter.
  - rewrite Forall_forall in Hx |- *. intros x [_ Hin]%list_elem_of_filter. by apply Hx.
Qed.

(** Freeing a block, and then changing what the client points to. *)
Lemma free_modify_spec {B} a f (k : prog E B) F F' H Q w :
  cinv C F H w ->
  owned (w_client w) ++ F ≡ₚ a :: owned (f (w_client w)) ++ F' ->
  C (f (w_client w)) ->
  (forall w', cinv C F' H w' -> w_client w' = f (w_client w) -> wp ok k Q w') ->
  wp ok (mqtt_free a;; modify f;; k) Q w.
Proof.
  intros HI Hown Hok HQ. pose proof HI as [[Hb Hn Hx] Hc Ho Hh Hs].
  unfold mqtt_free, modify, mbind, prog_bind, wp.
  assert (w_blocks w ≡ₚ a :: owned (f (w_client w)) ++ F') as Hb' by (by rewrite Hb, Hown).
  rewrite bool_decide_eq_true_2 by (rewrite Hb'; by left).
  apply HQ; [|done]. split; cbn; [|done..]. split; cbn.
  - rewrite Hb', NoDup_filter_ne; [done|]. by rewrite <-Hb'.
  - by apply NoDup_filter.
  - rewrite Forall_forall in Hx |- *. intros x [_ Hin]%list_elem_of_filter. by apply Hx.
Qed.

(** Freeing a block that the client points to, and then forgetting it. *)
Lemma free_forget_spec {B} a f (k : prog E B) F H Q w :
  cinv C F H w ->
  owned (w_client w) ≡ₚ a :: owned (f (w_client w)) -> C (f (w_client w)) ->
  (forall w', cinv C F H w' -> w_client w' = f (w_client w) -> wp ok k Q w') ->
  wp ok (mqtt_free a;; modify f;; k) Q w.
Proof.
  intros HI Hown Hok HQ. apply (free_modify_spec a f k F F H); [done| |done|done].
  by rewrite Hown.
Qed.

Lemma free_forget_last a f F H Q w :
  cinv C F H w ->
  owned (w_client w) ≡ₚ a :: owned (f (w_client w)) -> C (f (w_client w)) ->
  (forall w', cinv C F H w' -> w_client w' = f (w_client w) -> Q tt w') ->
  wp ok (mqtt_free a;; modify f) Q w.
Proof.
  intros HI Hown Hok HQ.
  pose proof (free_forget_spec a f (mret tt) F H Q w HI Hown Hok HQ) as Hw. revert Hw.
  unfold wp, mbind, prog_bind. destruct (mqtt_free a w) as [[] w'| |]; [|done|done].
  by destruct (modify f w') as [[] w''| |].
Qed.
End Primitives.

(** A change that moves no block. *)
Lemma set_spec {E} {C C' : iotx_mc_client_t -> Prop} ok f F H (w : world E) :
  cinv C F H w -> owned (f (w_client w)) = owned (w_client w) -> C' (f (w_client w)) ->
  wp ok (modify f) (fun _ w' => cinv C' F H w' /\ w_client w' = f (w_client w)) w.
Proof.
  intros [[Hb Hn Hx] Hc Ho Hh Hs] Hown Hok. split; [|done]. split; [|done..].
  split; [|done..]. cbn. by rewrite Hown.
Qed.

Lemma lock_spec {E} ok l F H (w : world E) :
  inv F H w -> below l H ->
  wp ok (HAL_MutexLock l) (fun _ w' => inv F (l :: H) w' /\ w_client w' = w_client w) w.
Proof. intros HI Hb. apply clock_spec; [done|done|]. apply co_locks, HI. Qed.

(** The addresses of the nodes of each list are distinct. *)
Lemma inv_nodup {E} {C} F H (w : world E) : cinv C F H w ->
  NoDup (handle_addrs (list_sub_handle (w_client w)))
  /\ NoDup (pi_addr <$> list_pub_wait_ack (w_client w))
  /\ NoDup (ss_addr <$> list_sub_sync_ack (w_client w)).
Proof.
  intros [[Hb Hn _] _ _ _ _]. rewrite Hb in Hn. unfold owned in Hn.
  rewrite !NoDup_app in Hn. tauto.
Qed.

Lemma handle_addrs_perm l : handle_addrs l ≡ₚ (th_addr <$> l) ++ (th_filter_addr <$> l).
Proof.
  induction l as [|n l IH]; [done|]. unfold handle_addrs in *. cbn. rewrite IH. solve_Permutation.
Qed.

Lemma inv_handles {E} {C} F H (w : world E) : cinv C F H w ->
  NoDup (th_addr <$> list_sub_handle (w_client w)).
Proof.
  intros (Hn & _ & _)%inv_nodup. rewrite handle_addrs_perm in Hn. apply NoDup_app in Hn. tauto.
Qed.

(** *** Stepping through a program

    [step lem] runs the first call of a sequence by its specification, whose first
    premise is the invariant; [final lem] runs the last call. *)

Ltac step_goal := try eassumption; eauto with locks.
Tactic Notation "step" uconstr(lem) := eapply wp_bind; [eapply lem; step_goal|]; cbn beta.
Tactic Notation "final" uconstr(lem) := eapply wp_mono; [eapply lem; step_goal|]; cbn beta.

Lemma get_spec {E A} ok (f : iotx_mc_client_t -> A) (w : world E) :
  wp ok (get f) (fun a w' => a = f (w_client w) /\ w' = w) w.
Proof. done. Qed.

(** Read a client field. *)
Ltac step_get := eapply wp_bind; [apply get_spec|]; cbn beta; intros ? ? [-> ->].

(** Close a client invariant whose fields did not change or are plain. *)
Ltac client_tac :=
  match goal with
  | H : client_ok ?c |- client_ok _ =>
      destruct H; split; cbn in *; try done; try lia
  end.

Lemma inv_c {E} F H (w : world E) : inv F H w -> client_ok (w_client w).
Proof. by intros []. Qed.

(** Run a change of plain client fields. *)
Tactic Notation "step_set" hyp(HI) :=
  eapply wp_bind;
  [eapply (set_spec (C' := client_ok)); [exact HI|done|pose proof (inv_c _ _ _ HI); client_tac]|]; cbn beta.
