(* ===== verification/MqttSendSafe.v ===== *)
(** * MqttSendSafe: the sending half keeps the client's invariant

    For each function of [MqttSend]: from a state that satisfies the invariant it
    neither faults nor breaks it, it leaves the same mutexes held, and the blocks
    it allocates are freed or end up owned by the client. *)

From S2P Require Import Prelude.
From S2P Require Import InfraState.
From S2P Require Import Hal.
From S2P Require Import InfraTimer.
From S2P Require Import InfraNet.
From S2P Require Import MqttPacket.
From S2P Require Import MqttConnect.
From S2P Require Import MqttPublish.
From S2P Require Import MqttSubscribe.
From S2P Require Import MqttTopic.
From S2P Require Import MqttState.
From S2P Require Import MqttSend.
From S2P Require Import MqttLogic.

Section Send.
Context {E : Type} `{!Hal E} (fuel : nat) (ok : stop -> Prop).
(** Either running out of fuel is admitted, or the loop that sends a packet never
    does: every write makes progress and there is fuel for every byte. *)
Definition send_fuel : Prop :=
  ok NoFuel \/ (HalProgress E /\ 2147483648 <= Z.of_nat fuel).

Context (send_ok : send_fuel).
Implicit Types (F : list nat) (H : list lock) (w : world E).

(** ** The client state *)

Lemma set_state_spec s F H w :
  inv F H w -> below LOCK_GENERIC H ->
  wp ok (iotx_mc_set_client_state s)
    (fun _ w' => inv F H w' /\ w_client w' = (w_client w) <| client_state := s |>) w.
Proof.
  intros HI Hb. unfold iotx_mc_set_client_state.
  step lock_spec. intros _ w1 [HI1 E1].
  eapply wp_bind.
  { eapply (modify_spec _ _ F F); [exact HI1|done|]. pose proof (inv_c _ _ _ HI1). client_tac. }
  cbn beta. intros _ w2 [HI2 E2].
  final unlock_spec. intros _ w3 [HI3 E3]. split; [done|]. by rewrite E3, E2, E1.
Qed.

Lemma get_state_spec F H w :
  inv F H w -> below LOCK_GENERIC H ->
  wp ok iotx_mc_get_client_state
    (fun s w' => inv F H w' /\ w_client w' = w_client w /\ s = client_state (w_client w)) w.
Proof.
  intros HI Hb. unfold iotx_mc_get_client_state.
  step lock_spec. intros _ w1 [HI1 E1]. step_get.
  step unlock_spec. intros _ w2 [HI2 E2].
  apply wp_ret. split; [done|]. by rewrite E2, E1.
Qed.

Lemma check_state_spec F H w :
  inv F H w -> below LOCK_GENERIC H ->
  wp ok wrapper_mqtt_check_state
    (fun b w' => inv F H w' /\ w_client w' = w_client w
       /\ b = bool_decide (client_state (w_client w) = IOTX_MC_STATE_CONNECTED)) w.
Proof.
  intros HI Hb. unfold wrapper_mqtt_check_state.
  step get_state_spec. intros s w1 (HI1 & E1 & ->). apply wp_ret. by rewrite E1.
Qed.

Lemma next_packetid_spec F H w :
  inv F H w -> below LOCK_GENERIC H ->
  wp ok iotx_mc_get_next_packetid
    (fun id w' => inv F H w' /\ 1 <= id <= IOTX_MC_PACKET_ID_MAX
       /\ id = (if packet_id (w_client w) =? IOTX_MC_PACKET_ID_MAX then 1
                else packet_id (w_client w) + 1)
       /\ w_client w' = (w_client w) <| packet_id := id |>) w.
Proof.
  intros HI Hb. unfold iotx_mc_get_next_packetid.
  step lock_spec. intros _ w1 [HI1 E1].
  pose proof (co_id _ (inv_c _ _ _ HI1)) as Hid. rewrite E1 in Hid.
  assert (forall id, id = packet_id (w_client w) ->
    (if id =? IOTX_MC_PACKET_ID_MAX then 1 else u32 (id + 1))
    = (if id =? IOTX_MC_PACKET_ID_MAX then 1 else id + 1)
    /\ 1 <= (if id =? IOTX_MC_PACKET_ID_MAX then 1 else id + 1) <= IOTX_MC_PACKET_ID_MAX) as Hx.
  { intros id ->. unfold IOTX_MC_PACKET_ID_MAX in *. rewrite u32_small by lia.
    destruct (Z.eqb_spec (packet_id (w_client w)) 65535); lia. }
  eapply wp_bind.
  { eapply (modify_spec _ _ F F); [exact HI1|done|]. pose proof (inv_c _ _ _ HI1).
    client_tac. rewrite E1. rewrite (proj1 (Hx _ eq_refl)). destruct (Hx _ eq_refl). lia. }
  cbn beta. intros _ w2 [HI2 E2]. step_get.
  step unlock_spec. intros _ w3 [HI3 E3]. apply wp_ret.
  destruct (Hx _ eq_refl) as [Hx1 Hx2].
  assert (packet_id (w_client w2) = if packet_id (w_client w) =? IOTX_MC_PACKET_ID_MAX then 1
            else packet_id (w_client w) + 1) as ->.
  { rewrite E2, E1. exact Hx1. }
  split; [done|]. split; [done|]. split; [done|].
  rewrite E3, E2, E1. cbn. by rewrite <-Hx1.
Qed.

(** ** Buffers *)

(** A client without its send buffer. *)
Definition drop_send (c : iotx_mc_client_t) : iotx_mc_client_t :=
  c <| buf_send := None |> <| buf_size_send := 0 |>.

Lemma reset_send_spec F H w :
  inv F H w ->
  wp ok _reset_send_buffer
    (fun _ w' => inv F H w' /\ buf_send (w_client w') = None
       /\ drop_send (w_client w') = drop_send (w_client w)) w.
Proof.
  intros HI. unfold _reset_send_buffer. step_get.
  destruct (buf_send (w_client w)) as [b|] eqn:Eb.
  - eapply free_forget_spec; [exact HI|unfold owned; by rewrite Eb|
      pose proof (inv_c _ _ _ HI); client_tac|].
    intros w' HI' E'. apply wp_ret. by rewrite E'.
  - by apply wp_ret.
Qed.

Definition alloc_size (margin len max : Z) : Z :=
  let n := u32 (margin + len) in if max <? n then max else n.

Lemma alloc_size_range margin len max :
  0 < max < 2147483648 -> 0 <= alloc_size margin len max <= max.
Proof. unfold alloc_size. pose proof (u32_range (margin + len)). zcase; lia. Qed.

Lemma zeroed_ok a n : 0 <= n -> Z.of_nat (List.length (buf_data (zeroed a n))) = n.
Proof. intros. simpl. rewrite List.repeat_length. lia. Qed.

Lemma alloc_send_spec len F H w :
  inv F H w ->
  wp ok (_alloc_send_buffer len)
    (fun rc w' => inv F H w' /\ drop_send (w_client w') = drop_send (w_client w)
       /\ ((rc = STATE_SUCCESS /\ exists a, buf_send (w_client w') =
              Some (zeroed a (alloc_size MQTT_DYNBUF_SEND_MARGIN len
                                (buf_size_send_max (w_client w)))))
           \/ (rc = STATE_SYS_DEPEND_MALLOC /\ buf_send (w_client w') = None))) w.
Proof.
  intros HI. unfold _alloc_send_buffer. step_get. step_get.
  fold (alloc_size MQTT_DYNBUF_SEND_MARGIN len (buf_size_send_max (w_client w))).
  pose proof (alloc_size_range MQTT_DYNBUF_SEND_MARGIN len _ (co_send_max _ (inv_c _ _ _ HI)))
    as Hsz.
  set (sz := alloc_size _ _ _) in *.
  eapply (wp_bind _ _ _ (fun _ w' => inv F H w'
            /\ w_client w' = (w_client w) <| buf_send := None |>)).
  { destruct (buf_send (w_client w)) as [b|] eqn:Eb.
    - eapply free_forget_last; [exact HI|unfold owned; by rewrite Eb|
        pose proof (inv_c _ _ _ HI); client_tac|]. by intros.
    - apply wp_ret. split; [done|]. by destruct (w_client w); cbn in *; subst. }
  intros _ w1 [HI1 E1]. step malloc_spec. intros [a|] w2 [HI2 E2].
  - eapply wp_bind.
    { eapply (modify_spec _ _ (a :: F) F); [exact HI2| |].
      - unfold owned. rewrite E2, E1. cbn. solve_Permutation.
      - pose proof (inv_c _ _ _ HI2). client_tac.
        + intros b [= <-]. apply zeroed_ok; lia.
        + by rewrite E2, E1. }
    cbn beta. intros _ w3 [HI3 E3]. apply wp_ret.
    split; [done|]. rewrite E3, E2, E1. split; [done|]. left. split; [done|]. by exists a.
  - apply wp_ret. rewrite E2, E1. split; [done|]. split; [done|]. by right.
Qed.

(** ** Serializing and sending *)

Definition with_send (b : buffer) (data : list Z) (c : iotx_mc_client_t) : iotx_mc_client_t :=
  c <| buf_send := Some (b <| buf_data := data |>) |>.

Lemma serialize_spec f b len data F H w :
  inv F H w -> buf_send (w_client w) = Some b ->
  f (buf_data b) (Z.of_nat (List.length (buf_data b))) = Some (len, data) ->
  List.length data = List.length (buf_data b) ->
  wp ok (serialize f) (fun r w' => inv F H w' /\ r = len
     /\ w_client w' = with_send b data (w_client w)) w.
Proof.
  intros HI Eb Ef El. unfold serialize. step_get. eapply wp_lift_bind; [exact Eb|]. step_get.
  pose proof (inv_c _ _ _ HI) as Hc.
  pose proof (co_send _ Hc b Eb) as Hsz.
  pose proof (co_send_size _ Hc) as Hs1. pose proof (co_send_max _ Hc) as Hs2.
  rewrite i32_small by lia. eapply wp_lift_bind; [by rewrite <-Hsz|].
  eapply wp_bind.
  { eapply (modify_spec _ _ F F); [exact HI| |].
    - unfold owned. cbn. by rewrite Eb.
    - client_tac. intros b' [= <-]. cbn. lia. }
  cbn beta. intros _ w1 [HI1 E1]. apply wp_ret. done.
Qed.

Lemma stores_length buf need packet len data :
  Z.of_nat (List.length packet) <= need ->
  stores buf (Z.of_nat (List.length buf)) need packet = (len, data) ->
  List.length data = List.length buf /\ len <= Z.of_nat (List.length buf).
Proof.
  unfold stores. intros Hp. zcase; intros [= <- <-].
  - split; [done|]. unfold MQTTPACKET_BUFFER_TOO_SHORT. lia.
  - split; [rewrite length_app, length_drop; lia|lia].
Qed.

Lemma net_write_spec bs t F H w :
  inv F H w -> wp ok (net_write bs t) (fun rc w' => inv F H w' /\ w_client w' = w_client w
    /\ (HalProgress E -> bs <> [] -> rc <> 0)) w.
Proof.
  intros HI. unfold net_write. step_get. unfold wp, plat, utils_net_write, write_ssl.
  destruct (HAL_SSL_Write _ bs t (w_env w)) as [rc e] eqn:Er.
  split; [by apply (inv_same F H w)|]. split; [done|]. intros Hp Hb.
  pose proof (hal_write_progress (handle (ipstack (w_client w))) bs t (w_env w) Hb) as Hx.
  by rewrite Er in Hx.
Qed.

Lemma send_loop_spec n buf length sent timer F H w :
  ok NoFuel \/ (HalProgress E /\ Z.max 0 (length - sent) < Z.of_nat n) ->
  inv F H w -> 0 <= sent -> length <= Z.of_nat (List.length buf) ->
  wp ok (send_loop n buf length sent timer)
    (fun _ w' => inv F H w' /\ w_client w' = w_client w) w.
Proof.
  revert sent w; induction n as [|n IH]; intros sent w Hf HI Hs Hl.
  { destruct Hf as [Hf|[_ Hf]]; [exact Hf|lia]. }
  cbn [send_loop]. destruct (Z.ltb_spec sent length); [|by apply wp_ret].
  step plat_spec. intros expired w1 [HI1 E1].
  destruct (negb (expired =? 0)); [by apply wp_ret|].
  step plat_spec. intros left_t w2 [HI2 E2].
  eapply wp_lift_bind.
  { unfold slice. rewrite (proj2 (Z.ltb_ge sent 0)), (proj2 (Z.ltb_ge (length - sent) 0)),
      (proj2 (Z.ltb_ge _ (sent + _))) by lia. reflexivity. }
  step net_write_spec. intros rc w3 (HI3 & E3 & Hrc).
  destruct (Z.ltb_spec rc 0); [apply wp_ret; by rewrite E3, E2, E1|].
  final (IH (sent + rc)); [|lia|].
  - destruct Hf as [Hf|[Hp Hf]]; [by left|right]. split; [done|].
    assert (rc <> 0); [|lia]. apply Hrc; [done|]. intros Hnil.
    apply (f_equal List.length) in Hnil. rewrite length_take, length_drop in Hnil.
    cbn in Hnil. lia.
  - intros ? ? [? ->]. by rewrite E3, E2, E1.
Qed.

Lemma send_packet_spec buf length timer F H w :
  inv F H w -> length <= Z.of_nat (List.length buf) -> length < 2147483648 ->
  wp ok (iotx_mc_send_packet fuel (Some buf) length timer)
    (fun rc w' => inv F H w' /\ w_client w' = w_client w
       /\ (rc = STATE_SUCCESS \/ rc = STATE_SYS_DEPEND_NWK_CLOSE)) w.
Proof.
  intros HI Hl Hlt. unfold iotx_mc_send_packet.
  eapply wp_bind; [apply (send_loop_spec _ _ _ 0); [|exact HI|lia|done]|].
  { destruct send_ok as [Hf|[Hp Hf]]; [by left|right]. split; [done|lia]. }
  cbn beta. intros sent w1 [HI1 E1]. apply wp_ret.
  split; [done|]. split; [done|]. destruct (_ =? _); auto.
Qed.

Lemma send_buffer_spec b len timer F H w :
  inv F H w -> buf_send (w_client w) = Some b ->
  len <= Z.of_nat (List.length (buf_data b)) ->
  wp ok (send_buffer fuel len timer)
    (fun rc w' => inv F H w' /\ w_client w' = w_client w
       /\ (rc = STATE_SUCCESS \/ rc = STATE_SYS_DEPEND_NWK_CLOSE)) w.
Proof.
  intros HI Eb Hl. unfold send_buffer. step_get. rewrite Eb. cbn [fmap option_fmap option_map].
  pose proof (inv_c _ _ _ HI) as Hc. pose proof (co_send _ Hc b Eb).
  pose proof (co_send_size _ Hc). pose proof (co_send_max _ Hc).
  apply send_packet_spec; [done|done|lia].
Qed.

(** The send buffer holds a packet of [len] bytes, when [len] is positive. *)
Definition has_packet (packet : list Z) (len : Z) (c : iotx_mc_client_t) : Prop :=
  exists b, buf_send c = Some b /\ len <= Z.of_nat (List.length (buf_data b))
    /\ (0 < len -> len = Z.of_nat (List.length packet)
                   /\ take (List.length packet) (buf_data b) = packet).

Lemma serialize_stores f need packet b F H w :
  inv F H w -> buf_send (w_client w) = Some b ->
  (let buflen := Z.of_nat (List.length (buf_data b)) in
   f (buf_data b) buflen = Some (stores (buf_data b) buflen need packet)) ->
  Z.of_nat (List.length packet) <= need ->
  wp ok (serialize f) (fun len w' => inv F H w' /\ has_packet packet len (w_client w')
     /\ drop_send (w_client w') = drop_send (w_client w)) w.
Proof.
  intros HI Eb Ef Hp.
  destruct (stores (buf_data b) (Z.of_nat (List.length (buf_data b))) need packet)
    as [len data] eqn:Es.
  destruct (stores_length _ _ _ _ _ Hp Es) as [Hl1 Hl2]. rewrite <-Hl1 in Hl2.
  cbn zeta in Ef. rewrite Es in Ef.
  eapply wp_mono; [by apply (serialize_spec _ b len data)|]. intros r w1 (HI1 & -> & E1).
  split; [done|]. rewrite E1. split; [|done].
  eexists. split; [reflexivity|]. cbn. split; [done|]. intros Hpos.
  unfold stores in Es. destruct (_ <? need); injection Es as <- <-.
  - unfold MQTTPACKET_BUFFER_TOO_SHORT in Hpos. lia.
  - split; [done|]. by rewrite take_app_length.
Qed.

(** Sending what the serializer left in the buffer. *)
Lemma send_packet_buffer packet len timer F H w :
  inv F H w -> has_packet packet len (w_client w) ->
  wp ok (send_buffer fuel len timer)
    (fun rc w' => inv F H w' /\ w_client w' = w_client w
       /\ (rc = STATE_SUCCESS \/ rc = STATE_SYS_DEPEND_NWK_CLOSE)) w.
Proof. intros HI (b & Eb & Hl & _). by eapply send_buffer_spec. Qed.

(** [_reset_send_buffer(c); HAL_MutexUnlock(c->lock_write_buf); return rc;] *)
Lemma reset_unlock_ret {A} (a : A) Q F H w :
  inv F (LOCK_WRITE_BUF :: H) w -> below LOCK_WRITE_BUF H ->
  (forall w', inv F H w' -> buf_send (w_client w') = None ->
    drop_send (w_client w') = drop_send (w_client w) -> Q a w') ->
  wp ok (_reset_send_buffer;; HAL_MutexUnlock LOCK_WRITE_BUF;; mret a) Q w.
Proof.
  intros HI Hb HQ. step reset_send_spec. intros _ w1 (HI1 & N1 & E1).
  step unlock_spec. intros _ w2 [HI2 E2]. apply wp_ret. apply HQ; [done|by rewrite E2..].
Qed.

(** ** Requests *)

(** What a request leaves behind: the invariant, and a client that differs at most
    in its send buffer. *)
Definition request_post {A} F H w (P : A -> Prop) (a : A) (w' : world E) : Prop :=
  inv F H w' /\ drop_send (w_client w') = drop_send (w_client w) /\ P a.

Definition code (rc : Z) : Prop := rc <= 0.

Ltac codes := unfold request_post, code; split; [done|split; [congruence|]];
  try (vm_compute; discriminate).

Lemma MQTTConnect_spec F H w :
  inv F H w -> below LOCK_WRITE_BUF H ->
  wp ok (MQTTConnect fuel) (request_post F H w code) w.
Proof.
  intros HI Hb. unfold MQTTConnect. step_get.
  step lock_spec. intros _ w1 [HI1 E1].
  step alloc_send_spec. intros rc w2 (HI2 & E2 & [[-> [a Ea]]|[-> Ea]]).
  - cbn [Z.ltb STATE_SUCCESS Z.compare].
    pose proof (co_connect _ (inv_c _ _ _ HI)) as Ho.
    eapply wp_bind.
    { eapply serialize_stores; [exact HI2|exact Ea|exact (MQTTSerialize_connect_stores _ _ Ho)|].
      by apply connect_packet_length. }
    cbn beta. intros len w3 (HI3 & Hp & E3).
    destruct (Z.leb_spec len 0).
    + eapply reset_unlock_ret; [done|done|]. intros w' HI' _ E'. codes.
    + step_get. step plat_spec. intros t w4 [HI4 E4].
      step send_packet_buffer; [by rewrite E4|]. intros rc w5 (HI5 & E5 & Hrc).
      eapply reset_unlock_ret; [done|done|]. intros w' HI' _ E'. codes.
      destruct Hrc as [-> | ->]; vm_compute; discriminate.
  - cbn [Z.ltb STATE_SUCCESS STATE_SYS_DEPEND_MALLOC Z.compare].
    step unlock_spec. intros _ w3 [HI3 E3]. apply wp_ret. codes.
Qed.

Lemma MQTTRePublish_spec buf len F H w :
  inv F H w -> below LOCK_WRITE_BUF H ->
  len <= Z.of_nat (List.length buf) -> len < 2147483648 ->
  wp ok (MQTTRePublish fuel buf len)
    (fun rc w' => inv F H w' /\ w_client w' = w_client w
       /\ (rc = STATE_SUCCESS \/ rc = STATE_SYS_DEPEND_NWK_CLOSE)) w.
Proof.
  intros HI Hb Hl Hlt. unfold MQTTRePublish. step_get. step plat_spec. intros t w1 [HI1 E1].
  step lock_spec. intros _ w2 [HI2 E2].
  step send_packet_spec. intros rc w3 (HI3 & E3 & Hrc).
  step unlock_spec. intros _ w4 [HI4 E4]. apply wp_ret.
  split; [done|]. split; [by rewrite E4, E3, E2, E1|].
  destruct (negb (rc =? STATE_SUCCESS)); auto.
Qed.

(** ** Publications *)

Lemma pub_del_cspec {C : iotx_mc_client_t -> Prop} a F H w :
  cinv C F H w -> a ∈ (pi_addr <$> list_pub_wait_ack (w_client w)) ->
  C ((w_client w) <| list_pub_wait_ack ::= filter (fun n => pi_addr n <> a) |>) ->
  wp ok (pub_del a) (fun _ w' => cinv C F H w' /\ w_client w' =
    (w_client w) <| list_pub_wait_ack ::= filter (fun n => pi_addr n <> a) |>) w.
Proof.
  intros HI Ha HC. unfold pub_del. destruct (inv_nodup _ _ _ HI) as (_ & Hd & _).
  apply list_elem_of_fmap in Ha as (n & -> & Hn).
  pose proof (filter_ne_perm pi_addr _ n Hd Hn) as Hp.
  eapply wp_bind.
  { eapply (modify_spec _ _ F (pi_addr n :: F)); [exact HI| |exact HC].
    unfold owned. cbn. rewrite Hp at 2. cbn. solve_Permutation. }
  cbn beta. intros _ w1 [HI1 E1]. final free_spec. intros _ w2 [HI2 E2]. by rewrite E2.
Qed.

Lemma pub_del_spec a F H w :
  inv F H w -> a ∈ (pi_addr <$> list_pub_wait_ack (w_client w)) ->
  wp ok (pub_del a) (fun _ w' => inv F H w' /\ w_client w' =
    (w_client w) <| list_pub_wait_ack ::= filter (fun n => pi_addr n <> a) |>) w.
Proof.
  intros HI Ha. apply pub_del_cspec; [done|done|]. pose proof (inv_c _ _ _ HI). client_tac.
  - etrans; [|exact co_pubs]. pose proof (length_filter (fun n => pi_addr n <> a)
      (list_pub_wait_ack (w_client w))). lia.
  - by apply Forall_filter_keep.
Qed.

Definition pub_node (n : iotx_mc_pub_info_t) (len id : Z) (packet : list Z) : Prop :=
  node_state n = IOTX_MC_NODE_STATE_NORMANL /\ msg_id n = u16 id /\ pi_len n = len
  /\ pi_buf n = packet.

Lemma push_pubInfo_spec packet len id F H w :
  inv F H w -> has_packet packet len (w_client w) -> 0 < len ->
  wp ok (iotx_mc_push_pubInfo_to len id)
    (fun r w' => inv F H w' /\
       ((fst r = STATE_SUCCESS /\ exists n, snd r = Some (pi_addr n)
         /\ pub_node n len id packet
         /\ w_client w' = (w_client w) <| list_pub_wait_ack ::= fun l => l ++ [n] |>)
        \/ (fst r < STATE_SUCCESS /\ w_client w' = w_client w))) w.
Proof.
  intros HI (b & Eb & Hl & Hpk) Hpos. destruct (Hpk Hpos) as [El Et].
  unfold iotx_mc_push_pubInfo_to. step_get.
  pose proof (inv_c _ _ _ HI) as Hc. pose proof (co_send _ Hc b Eb) as Hsz.
  pose proof (co_send_size _ Hc) as Hs1. pose proof (co_send_max _ Hc) as Hs2.
  rewrite (proj2 (Z.ltb_ge len 0)), (proj2 (Z.ltb_ge _ len)) by lia. cbn [orb].
  step_get. destruct (Z.leb_spec IOTX_MC_REPUB_NUM_MAX
    (Z.of_nat (List.length (list_pub_wait_ack (w_client w))))) as [Hn|Hn].
  { apply wp_ret. split; [done|]. right. split; [vm_compute; reflexivity|done]. }
  step malloc_spec. intros [a|] w1 [HI1 E1]; last first.
  { apply wp_ret. split; [done|]. right. split; [vm_compute; reflexivity|done]. }
  step plat_spec. intros t w2 [HI2 E2]. step_get.
  eapply wp_lift_bind; [by rewrite E2, E1|].
  eapply wp_lift_bind.
  { unfold slice. cbn [Z.ltb Z.compare]. rewrite (proj2 (Z.ltb_ge len 0)),
      (proj2 (Z.ltb_ge _ (0 + len))) by lia. reflexivity. }
  eapply wp_bind.
  { eapply (modify_spec _ _ (a :: F) F); [exact HI2| |].
    - unfold owned. cbn. rewrite fmap_app. cbn. solve_Permutation.
    - pose proof (inv_c _ _ _ HI2). client_tac.
      + rewrite length_app. rewrite E2, E1. cbn. lia.
      + apply Forall_app. split; [done|]. apply Forall_singleton. unfold pub_ok. cbn.
        rewrite length_take, length_drop. lia. }
  cbn beta. intros _ w3 [HI3 E3]. apply wp_ret. split; [done|]. left. split; [done|].
  eexists. split; [|split; [|rewrite E3, E2, E1; reflexivity]]; [done|].
  split; [done|]. split; [done|]. split; [done|]. cbn. rewrite drop_0.
  rewrite El, Nat2Z.id. exact Et.
Qed.

Lemma mask_pubInfo_spec id F H w :
  inv F H w -> below LOCK_LIST_PUB H ->
  wp ok (iotx_mc_mask_pubInfo_from id) (fun rc w' => inv F H w' /\ rc = STATE_SUCCESS
    /\ w_client w' = (w_client w) <| list_pub_wait_ack ::= fmap (fun n =>
         if msg_id n =? id then n <| node_state := IOTX_MC_NODE_STATE_INVALID |> else n) |>) w.
Proof.
  intros HI Hb. unfold iotx_mc_mask_pubInfo_from. step lock_spec. intros _ w1 [HI1 E1].
  eapply wp_bind.
  { eapply (modify_spec _ _ F F); [exact HI1| |].
    - unfold owned. cbn. rewrite fmap_keep; [done|].
      intros n. by destruct (_ =? _).
    - pose proof (inv_c _ _ _ HI1). client_tac.
      + by rewrite length_fmap.
      + apply Forall_fmap. eapply Forall_impl; [done|]. intros n Hn. cbn. by destruct (_ =? _). }
  cbn beta. intros _ w2 [HI2 E2]. step unlock_spec. intros _ w3 [HI3 E3]. apply wp_ret.
  by rewrite E3, E2, E1.
Qed.

(** The nodes left are in the list, at distinct addresses, with their packets. *)
Definition nodes_left (nodes : list iotx_mc_pub_info_t) (c : iotx_mc_client_t) : Prop :=
  NoDup (pi_addr <$> nodes) /\ Forall pub_ok nodes
  /\ Forall (fun n => pi_addr n ∈ (pi_addr <$> list_pub_wait_ack c)) nodes.

Lemma nodes_left_eq nodes c c' :
  pi_addr <$> list_pub_wait_ack c' = pi_addr <$> list_pub_wait_ack c ->
  nodes_left nodes c -> nodes_left nodes c'.
Proof. unfold nodes_left. by intros ->. Qed.

Lemma nodes_left_tail n nodes c : nodes_left (n :: nodes) c -> nodes_left nodes c.
Proof.
  unfold nodes_left. cbn. rewrite NoDup_cons, !Forall_cons. tauto.
Qed.

Lemma pub_info_loop_spec nodes F H w :
  inv F H w -> below LOCK_WRITE_BUF H -> nodes_left nodes (w_client w) ->
  wp ok (pub_info_loop fuel nodes) (fun _ w' => inv F H w') w.
Proof.
  revert w; induction nodes as [|n nodes IH]; intros w HI Hb Hl; [done|].
  pose proof (nodes_left_tail _ _ _ Hl) as Ht.
  destruct Hl as (Hd & Hp & Hin). cbn in Hd. apply NoDup_cons in Hd as [Hn Hd].
  apply Forall_cons in Hp as [Hpn _]. apply Forall_cons in Hin as [Hinn Hin].
  cbn [pub_info_loop]. destruct (decide _).
  { step pub_del_spec. intros _ w1 [HI1 E1]. apply IH; [done|done|].
    destruct Ht as (_ & Hp & _). split; [done|]. split; [done|].
    rewrite E1. cbn. rewrite Forall_forall in Hin |- *. intros m Hm.
    apply list_elem_of_fmap. pose proof (Hin m Hm) as (m' & Em & Hm')%list_elem_of_fmap.
    exists m'. split; [done|]. apply list_elem_of_filter. split; [|done].
    intros Heq. apply Hn. rewrite <-Heq, <-Em. by apply list_elem_of_fmap_2. }
  step get_state_spec. intros st w1 (HI1 & E1 & _).
  destruct (negb _); [apply IH; [done|done|by rewrite E1]|].
  step plat_spec. intros spent w2 [HI2 E2]. step_get.
  destruct (spent <=? _); [apply IH; [done|done|by rewrite E2, E1]|].
  step MQTTRePublish_spec; [destruct Hpn as [-> _]; lia|apply Hpn|]. intros rc w3 (HI3 & E3 & _).
  step plat_spec. intros t w4 [HI4 E4].
  eapply wp_bind.
  { eapply (modify_spec _ _ F F); [exact HI4| |].
    - unfold owned. cbn. rewrite fmap_keep; [done|]. intros m. by destruct (_ =? _)%nat.
    - pose proof (inv_c _ _ _ HI4). client_tac.
      + by rewrite length_fmap.
      + apply Forall_fmap. eapply Forall_impl; [done|]. intros m Hm. cbn.
        by destruct (_ =? _)%nat. }
  cbn beta. intros _ w5 [HI5 E5].
  destruct (rc =? _).
  - final set_state_spec. by intros _ w6 [HI6 _].
  - apply IH; [done|done|]. eapply nodes_left_eq; [|exact Ht].
    rewrite E5. cbn. rewrite E4, E3, E2, E1. apply fmap_keep.
    intros m. by destruct (_ =? _)%nat.
Qed.

Lemma PubInfoProc_spec F H w :
  inv F H w -> below LOCK_LIST_PUB H ->
  wp ok (MQTTPubInfoProc fuel) (fun _ w' => inv F H w') w.
Proof.
  intros HI Hb. unfold MQTTPubInfoProc. step lock_spec. intros _ w1 [HI1 E1]. step_get.
  step pub_info_loop_spec.
  { split; [by destruct (inv_nodup _ _ _ HI1) as (_ & ? & _)|].
    split; [by apply co_pub_nodes, (inv_c _ _ _ HI1)|].
    apply Forall_forall. intros n Hn. by apply list_elem_of_fmap_2. }
  intros _ w2 HI2. step unlock_spec. intros _ w3 [HI3 _]. by apply wp_ret.
Qed.

(** [_reset_send_buffer(c); unlock(lock_write_buf); unlock(lock_list_pub); return] *)
Lemma reset_unlock2_ret {A} (a : A) Q F H w :
  inv F (LOCK_WRITE_BUF :: LOCK_LIST_PUB :: H) w -> below LOCK_LIST_PUB H ->
  (forall w', inv F H w' -> drop_send (w_client w') = drop_send (w_client w) -> Q a w') ->
  wp ok (_reset_send_buffer;; HAL_MutexUnlock LOCK_WRITE_BUF;;
         HAL_MutexUnlock LOCK_LIST_PUB;; mret a) Q w.
Proof.
  intros HI Hb HQ. step reset_send_spec. intros _ w1 (HI1 & N1 & E1).
  step unlock_spec. intros _ w2 [HI2 E2]. step unlock_spec. intros _ w3 [HI3 E3].
  apply wp_ret. apply HQ; [done|by rewrite E3, E2].
Qed.

(** A publication whose payload pointer points to its payload, within the limits of
    the protocol. *)
Record publication_ok (name : list Z) (info : iotx_mqtt_topic_info_t) (payload : list Z)
    : Prop := {
  pc_name : cstr_ok name;
  pc_name_len : Z.of_nat (List.length name) < 65536;
  pc_payload : ti_payload info = Some payload;
  pc_payload_len : ti_payload_len info = Z.of_nat (List.length payload);
  pc_bytes : bytes_ok payload;
  pc_id : 0 <= ti_packet_id info < 65536;
  pc_size : Z.of_nat (List.length (publish_body (ti_qos info) (ti_packet_id info) name payload))
            <= remlen_max
}.

Definition publication_packet (name : list Z) (info : iotx_mqtt_topic_info_t)
    (payload : list Z) : list Z :=
  publish_packet 0 (ti_qos info) (ti_retain info) (ti_packet_id info) name payload.

Lemma cstr_mstr_ok s :
  cstr_ok s -> Z.of_nat (List.length s) < 65536 ->
  mstr_ok {| cstring := Some s; lenstring_len := 0; lenstring_data := None |}.
Proof. intros Hs Hl. split; cbn; [by apply cstr_ok_bytes|done|done|done]. Qed.

(** Adding a node at a new address and removing the node at that address. *)
Lemma del_added n c :
  pi_addr n ∉ (pi_addr <$> list_pub_wait_ack c) ->
  c <| list_pub_wait_ack ::= fun l => l ++ [n] |>
    <| list_pub_wait_ack ::= filter (fun m => pi_addr m <> pi_addr n) |> = c.
Proof.
  intros Hn.
  assert (filter (fun m => pi_addr m <> pi_addr n) (list_pub_wait_ack c ++ [n])
          = list_pub_wait_ack c) as Hf.
  { rewrite filter_app, (filter_cons_False _ n) by naive_solver.
    rewrite filter_nil, app_nil_r. apply filter_all. apply Forall_forall.
    intros m Hm Heq. apply Hn. rewrite <-Heq. by apply list_elem_of_fmap_2. }
  transitivity (c <| list_pub_wait_ack := filter (fun m => pi_addr m <> pi_addr n)
                      (list_pub_wait_ack c ++ [n]) |>); [done|].
  rewrite Hf. by destruct c.
Qed.

(** Publishing: the client gains a node with the packet, or nothing changes. *)
Lemma MQTTPublish_spec name info payload F H w :
  inv F H w -> below LOCK_LIST_PUB H -> publication_ok name info payload ->
  wp ok (MQTTPublish fuel (Some name) (Some info)) (fun rc w' => inv F H w' /\
    ((rc = STATE_SUCCESS /\ IOTX_MQTT_QOS0 < ti_qos info /\ exists n,
        pub_node n (Z.of_nat (List.length (publication_packet name info payload)))
          (ti_packet_id info) (publication_packet name info payload)
        /\ drop_send (w_client w') =
             drop_send ((w_client w) <| list_pub_wait_ack ::= fun l => l ++ [n] |>))
     \/ (rc = STATE_SUCCESS /\ ti_qos info <= IOTX_MQTT_QOS0
         /\ drop_send (w_client w') = drop_send (w_client w))
     \/ (rc < STATE_SUCCESS /\ drop_send (w_client w') = drop_send (w_client w)))) w.
Proof.
  intros HI Hb [Hn Hnl Hp Hpl Hbs Hid Hsz]. unfold MQTTPublish. step_get.
  step plat_spec. intros t w1 [HI1 E1].
  step lock_spec. intros _ w2 [HI2 E2]. step lock_spec. intros _ w3 [HI3 E3].
  step alloc_send_spec. intros rc w4 (HI4 & E4 & [[-> [a Ea]]|[-> Ea]]); last first.
  { cbn [Z.ltb STATE_SUCCESS STATE_SYS_DEPEND_MALLOC Z.compare].
    step unlock_spec. intros _ w5 [HI5 E5]. step unlock_spec. intros _ w6 [HI6 E6].
    apply wp_ret. split; [done|]. right. right. split; [vm_compute; reflexivity|congruence]. }
  cbn [Z.ltb STATE_SUCCESS Z.compare].
  set (packet := publication_packet name info payload).
  pose proof (cstr_mstr_ok name Hn Hnl) as Hm.
  set (topic := {| cstring := Some name; lenstring_len := 0; lenstring_data := None |}) in *.
  assert (i32 (ti_payload_len info) = Z.of_nat (List.length payload)) as Hi.
  { rewrite Hpl. apply i32_small. unfold publish_body in Hsz.
    rewrite !length_app in Hsz. unfold remlen_max in Hsz. lia. }
  eapply wp_bind.
  { eapply (serialize_stores _ _ packet); [exact HI4|exact Ea| |].
    - rewrite Hp, Hi. cbn [default from_option id].
      exact (MQTTSerialize_publish_stores 0 (ti_qos info) (ti_retain info) (ti_packet_id info)
        topic payload Hm Hbs Hid _ Hsz).
    - exact (publish_packet_length 0 (ti_qos info) (ti_retain info) (ti_packet_id info)
        topic payload Hm Hsz). }
  cbn beta. intros len w5 (HI5 & Hpk & E5).
  destruct (Z.leb_spec len 0) as [Hle|Hpos].
  { eapply reset_unlock2_ret; [done|done|]. intros w' HI' E'. split; [done|].
    right. right. split; [vm_compute; reflexivity|congruence]. }
  pose proof Hpk as (b & Eb & _ & Hlen). destruct (Hlen Hpos) as [El _].
  eapply (wp_bind _ _ _ (fun r w' => inv F (LOCK_WRITE_BUF :: LOCK_LIST_PUB :: H) w' /\
     ((fst r = STATE_SUCCESS /\ IOTX_MQTT_QOS0 < ti_qos info /\ exists n,
         snd r = Some (pi_addr n) /\ pub_node n len (ti_packet_id info) packet
         /\ w_client w' = (w_client w5) <| list_pub_wait_ack ::= fun l => l ++ [n] |>)
      \/ (fst r = STATE_SUCCESS /\ ti_qos info <= IOTX_MQTT_QOS0 /\ w_client w' = w_client w5)
      \/ (fst r < STATE_SUCCESS /\ w_client w' = w_client w5)))).
  { destruct (Z.ltb_spec IOTX_MQTT_QOS0 (ti_qos info)).
    - final push_pubInfo_spec. intros r w6 (HI6 & [(? & n & ? & ? & ?)|[? ?]]); (split; [done|]).
      + left. split; [done|]. split; [done|]. exists n. done.
      + by right; right.
    - apply wp_ret. split; [done|]. by right; left. }
  intros [rc node] w6 (HI6 & H6). cbn [fst snd] in H6.
  assert (has_packet packet len (w_client w6)) as Hpk6.
  { destruct H6 as [(_ & _ & n & _ & _ & ->)|[(_ & _ & ->)|[_ ->]]]; done. }
  destruct (Z.ltb_spec rc STATE_SUCCESS) as [Hrc|Hrc].
  { eapply reset_unlock2_ret; [done|done|]. intros w' HI' E'. split; [done|].
    right. right. split; [done|].
    destruct H6 as [(-> & _)|[(-> & _)|(_ & E6)]]; [done|done|congruence]. }
  step send_packet_buffer. intros rc' w7 (HI7 & E7 & Hrc').
  destruct Hrc' as [-> | ->]; cbn [Z.eqb STATE_SUCCESS STATE_SYS_DEPEND_NWK_CLOSE negb].
  - eapply reset_unlock2_ret; [done|done|]. intros w' HI' E'. split; [done|].
    destruct H6 as [(-> & Hq & n & _ & Hnode & E6)|[(-> & Hq & E6)|(Hlt & _)]]; [| |lia].
    + left. split; [done|]. split; [done|]. exists n. rewrite <-El. split; [done|].
      rewrite E', E7, E6.
      transitivity ((drop_send (w_client w5)) <| list_pub_wait_ack ::= fun l => l ++ [n] |>); [done|].
      by rewrite E5, E4, E3, E2, E1.
    + right. left. split; [done|]. split; [done|]. congruence.
  - destruct H6 as [(-> & Hq & n & -> & Hnode & E6)|[(-> & Hq & E6)|(Hlt & _)]]; [| |lia].
    + rewrite (proj2 (Z.ltb_lt _ _)) by done.
      eapply (wp_bind _ _ _ (fun _ w' => inv F (LOCK_WRITE_BUF :: LOCK_LIST_PUB :: H) w'
        /\ w_client w' = (w_client w5))).
      { eapply wp_lift_bind; [done|].
        assert (pi_addr n ∉ (pi_addr <$> list_pub_wait_ack (w_client w5))) as Hnin.
        { destruct (inv_nodup _ _ _ HI6) as (_ & Hd & _). rewrite E6 in Hd. cbn in Hd.
          rewrite fmap_app in Hd. apply NoDup_app in Hd as (_ & Hd & _).
          intros Hin. apply (Hd _ Hin). cbn. by left. }
        final pub_del_spec.
        { rewrite E7, E6. cbn. rewrite fmap_app. apply elem_of_app. right. by left. }
        intros _ w8 [HI8 E8]. split; [done|]. rewrite E8, E7, E6.
        by apply del_added. }
      intros _ w8 [HI8 E8]. eapply reset_unlock2_ret; [done|done|]. intros w' HI' E'.
      split; [done|]. right. right. split; [vm_compute; reflexivity|congruence].
    + rewrite (proj2 (Z.ltb_ge _ _)) by done. eapply wp_ret_bind.
      eapply reset_unlock2_ret; [done|done|]. intros w' HI' E'.
      split; [done|]. right. right. split; [vm_compute; reflexivity|congruence].
Qed.
End Send.

#[export] Hint Extern 1 (send_fuel _ _) => (first [assumption | left; assumption]) : locks.
