(* ===== verification/MqttSubSafe.v ===== *)
(** * MqttSubSafe: acknowledgements and subscriptions keep the client's invariant

    The rest of [MqttSend]: PUBACK, PINGREQ and DISCONNECT, the list of
    subscriptions, SUBSCRIBE and UNSUBSCRIBE. *)

From S2P Require Import Prelude.
From S2P Require Import InfraState.
From S2P Require Import Hal.
From S2P Require Import InfraTimer.
From S2P Require Import MqttPacket.
From S2P Require Import MqttConnect.
From S2P Require Import MqttPublish.
From S2P Require Import MqttSubscribe.
From S2P Require Import MqttTopic.
From S2P Require Import MqttState.
From S2P Require Import MqttSend.
From S2P Require Import MqttLogic.
From S2P Require Import MqttSendSafe.

Section Sub.
Context {E : Type} `{!Hal E} (fuel : nat) (ok : stop -> Prop).
Context (send_ok : send_fuel fuel ok).
Implicit Types (F : list nat) (H : list lock) (w : world E).

Ltac codes := unfold request_post, code; split; [done|split; [congruence|]];
  try (vm_compute; discriminate).

(** ** Small packets *)

(** Taking the write mutex and allocating: the buffer, or the error path. *)
Lemma lock_alloc_spec {A} len (k1 : Z -> prog E A) (k2 : prog E A) F H Q w :
  inv F H w -> below LOCK_WRITE_BUF H ->
  (forall w' b, inv F (LOCK_WRITE_BUF :: H) w' ->
     drop_send (w_client w') = drop_send (w_client w) ->
     buf_send (w_client w') = Some b -> wp ok k2 Q w') ->
  (forall w', inv F H w' -> drop_send (w_client w') = drop_send (w_client w) ->
     wp ok (k1 STATE_SYS_DEPEND_MALLOC) Q w') ->
  wp ok (HAL_MutexLock LOCK_WRITE_BUF;;
         rc ← _alloc_send_buffer len;
         if rc <? STATE_SUCCESS then HAL_MutexUnlock LOCK_WRITE_BUF;; k1 rc else k2) Q w.
Proof.
  intros HI Hb H2 H1. step lock_spec. intros _ w1 [HI1 E1].
  step alloc_send_spec. intros rc w2 (HI2 & E2 & [[-> [a Ea]]|[-> _]]).
  - cbn [Z.ltb STATE_SUCCESS Z.compare]. eapply H2; [exact HI2|congruence|exact Ea].
  - cbn [Z.ltb STATE_SUCCESS STATE_SYS_DEPEND_MALLOC Z.compare].
    step unlock_spec. intros _ w3 [HI3 E3]. apply H1; [done|congruence].
Qed.

(** Writing a packet that the buffer may be too short for. *)
Lemma write_packet_spec {A} f need packet b (k : Z -> prog E A) F H Q w :
  inv F H w -> buf_send (w_client w) = Some b ->
  f (buf_data b) (Z.of_nat (List.length (buf_data b)))
    = Some (stores (buf_data b) (Z.of_nat (List.length (buf_data b))) need packet) ->
  Z.of_nat (List.length packet) <= need ->
  (forall len w', inv F H w' -> drop_send (w_client w') = drop_send (w_client w) ->
     has_packet packet len (w_client w') -> wp ok (k len) Q w') ->
  wp ok (serialize f ≫= k) Q w.
Proof.
  intros HI Eb Ef Hp HQ. eapply wp_bind.
  { eapply (serialize_stores _ f need packet b); done. }
  cbn beta. intros len w1 (HI1 & Hpk & E1). by apply HQ.
Qed.

Lemma MQTTPuback_spec id type F H w :
  inv F H w -> below LOCK_WRITE_BUF H ->
  wp ok (MQTTPuback fuel id type) (request_post F H w code) w.
Proof.
  intros HI Hb. unfold MQTTPuback. step_get. step plat_spec. intros t w1 [HI1 E1].
  destruct (Z.eqb_spec type PUBACK) as [->|_]; last first.
  { step lock_spec. intros _ w2 [HI2 E2]. step unlock_spec. intros _ w3 [HI3 E3].
    apply wp_ret. codes. }
  eapply lock_alloc_spec; [exact HI1|done| |]; intros w2; last first.
  { intros HI2 E2. apply wp_ret. codes. }
  intros b HI2 E2 Eb.
  pose proof (u16_range id) as Hid.
  eapply write_packet_spec; [done|exact Eb|apply MQTTSerialize_ack_stores; [unfold PUBACK; lia|lia]
    |done|].
  intros len w3 HI3 E3 Hp. destruct (Z.leb_spec len 0).
  { eapply reset_unlock_ret; [done|done|]. intros w' HI' _ E'. codes. }
  step send_packet_buffer. intros rc w4 (HI4 & E4 & Hrc).
  eapply reset_unlock_ret; [done|done|]. intros w' HI' _ E'. codes.
  destruct Hrc as [-> | ->]; vm_compute; discriminate.
Qed.

Lemma MQTTKeepalive_spec F H w :
  inv F H w -> below LOCK_WRITE_BUF H ->
  wp ok (MQTTKeepalive fuel) (request_post F H w code) w.
Proof.
  intros HI Hb. unfold MQTTKeepalive. step plat_spec. intros t w1 [HI1 E1].
  eapply lock_alloc_spec; [exact HI1|done| |]; intros w2; last first.
  { intros HI2 E2. apply wp_ret. codes. }
  intros b HI2 E2 Eb.
  eapply write_packet_spec; [done|exact Eb|apply MQTTSerialize_zero_stores; unfold PINGREQ; lia
    |done|].
  intros len w3 HI3 E3 Hp. destruct (Z.leb_spec len 0).
  { eapply reset_unlock_ret; [done|done|]. intros w' HI' _ E'. codes. }
  step send_packet_buffer. intros rc w4 (HI4 & E4 & Hrc).
  eapply reset_unlock_ret; [done|done|]. intros w' HI' _ E'. codes.
  destruct Hrc as [-> | ->]; vm_compute; discriminate.
Qed.

Lemma MQTTDisconnect_spec F H w :
  inv F H w -> below LOCK_WRITE_BUF H ->
  wp ok (MQTTDisconnect fuel) (request_post F H w code) w.
Proof.
  intros HI Hb. unfold MQTTDisconnect.
  eapply lock_alloc_spec; [exact HI|done| |]; intros w2; last first.
  { intros HI2 E2. apply wp_ret. codes. }
  intros b HI2 E2 Eb.
  eapply write_packet_spec; [done|exact Eb|apply MQTTSerialize_zero_stores; unfold DISCONNECT; lia
    |done|].
  intros len w3 HI3 E3 Hp. step_get. step plat_spec. intros t w4 [HI4 E4].
  eapply (wp_bind _ _ _ (fun rc w' => inv F (LOCK_WRITE_BUF :: H) w'
    /\ w_client w' = w_client w4 /\ code rc)).
  { destruct (0 <? len).
    - final send_packet_buffer; [by rewrite E4|]. intros rc w' (? & ? & Hrc).
      split; [done|]. split; [done|]. by destruct Hrc as [-> | ->].
    - apply wp_ret. by split. }
  intros rc w5 (HI5 & E5 & Hrc).
  eapply reset_unlock_ret; [done|done|]. intros w' HI' _ E'. by codes.
Qed.

(** ** Subscribing *)

(** The key of a subscription: its filter, handler and context. *)
Definition sub_key (h : iotx_mc_topic_handle_t) : list Z * iotx_mqtt_event_handle_t :=
  (topic_filter h, th_handle h).

Lemma identical_key h1 h2 :
  (0 =? iotx_mc_check_handle_is_identical h1 h2) = bool_decide (sub_key h1 = sub_key h2).
Proof.
  destruct h1 as [a1 f1 s1 [p1 c1]], h2 as [a2 f2 s2 [p2 c2]].
  unfold iotx_mc_check_handle_is_identical, iotx_mc_check_handle_is_identical_ex, sub_key. cbn.
  destruct (decide (s1 = s2)) as [->|Hs].
  - rewrite Z.eqb_refl. cbn [negb]. rewrite bool_decide_eq_true_2 by done. cbn [negb Z.eqb].
    destruct (Z.eqb_spec p1 p2) as [->|]; cbn [negb].
    + destruct (Z.eqb_spec c1 c2) as [->|]; cbn [negb]; symmetry;
        [by apply bool_decide_eq_true_2|apply bool_decide_eq_false_2; congruence].
    + symmetry. apply bool_decide_eq_false_2; congruence.
  - rewrite (bool_decide_eq_false_2 (s1 = s2)) by done.
    transitivity false; [by destruct (Z.of_nat (List.length s1) =? Z.of_nat (List.length s2))|].
    symmetry; apply bool_decide_eq_false_2; congruence.
Qed.

(** The list after a subscription: unchanged when the same one is there. *)
Definition add_sub (h : iotx_mc_topic_handle_t) (l : list iotx_mc_topic_handle_t) :=
  if bool_decide (sub_key h ∈ (sub_key <$> l)) then l else l ++ [h].

Lemma add_sub_eq h l :
  add_sub h l = if bool_decide (sub_key h ∈ (sub_key <$> l)) then l else l ++ [h].
Proof. done. Qed.

Lemma upd_sub_eq f g c :
  f (list_sub_handle c) = g (list_sub_handle c) ->
  c <| list_sub_handle ::= f |> = c <| list_sub_handle ::= g |>.
Proof.
  intros Hf. transitivity (c <| list_sub_handle := f (list_sub_handle c) |>); [done|].
  by rewrite Hf.
Qed.

Lemma upd_sub_same f c :
  f (list_sub_handle c) = list_sub_handle c -> c = c <| list_sub_handle ::= f |>.
Proof.
  intros Hf. symmetry.
  transitivity (c <| list_sub_handle := f (list_sub_handle c) |>); [done|].
  rewrite Hf. by destruct c.
Qed.

Lemma existsb_key h l :
  existsb (fun node => 0 =? iotx_mc_check_handle_is_identical node h) l
  = bool_decide (sub_key h ∈ (sub_key <$> l)).
Proof.
  induction l as [|n l IH]; cbn [existsb].
  - symmetry. apply bool_decide_eq_false_2. apply not_elem_of_nil.
  - rewrite IH, identical_key. cbn. apply eq_bool_prop_intro.
    rewrite orb_True, !bool_decide_spec, elem_of_cons. split; intros [?|?]; auto.
Qed.

Lemma free_handler_spec h F H w :
  inv (th_addr h :: th_filter_addr h :: F) H w ->
  wp ok (free_handler h) (fun _ w' => inv F H w' /\ w_client w' = w_client w) w.
Proof.
  intros HI. unfold free_handler.
  eapply wp_bind.
  { eapply free_spec, inv_perm; [|exact HI]. apply Permutation_swap. }
  cbn beta. intros _ w1 [HI1 E1]. final free_spec. intros _ w2 [HI2 E2]. by rewrite E2.
Qed.

Lemma subscribe_add_spec h F H w :
  inv (th_addr h :: th_filter_addr h :: F) H w -> below LOCK_GENERIC H ->
  wp ok (subscribe_add h) (fun _ w' => inv F H w' /\
    w_client w' = (w_client w) <| list_sub_handle ::= add_sub h |>) w.
Proof.
  intros HI Hb. unfold subscribe_add. step lock_spec. intros _ w1 [HI1 E1]. step_get.
  rewrite existsb_key.
  eapply (wp_bind _ _ _ (fun _ w' => inv F (LOCK_GENERIC :: H) w' /\
    w_client w' = (w_client w1) <| list_sub_handle ::= add_sub h |>)).
  { pose proof (add_sub_eq h (list_sub_handle (w_client w1))) as Ha.
    case_bool_decide as Hin.
    - final free_handler_spec. intros _ w' [HI' E']. split; [done|].
      rewrite E'. by apply upd_sub_same.
    - final (modify_spec _ _ (th_addr h :: th_filter_addr h :: F) F).
      + unfold owned, handle_addrs. cbn. rewrite flat_map_app. cbn. solve_Permutation.
      + pose proof (inv_c _ _ _ HI1). client_tac. unfold subs_ok in *.
        rewrite fmap_app. apply NoDup_app. split; [done|]. split; [|apply NoDup_singleton].
        intros k Hk Hk'. cbn in Hk'. apply list_elem_of_singleton in Hk' as ->. by apply Hin.
      + intros _ w' [HI' E']. split; [done|]. rewrite E'. by apply upd_sub_eq. }
  intros _ w2 [HI2 E2]. final unlock_spec. intros _ w3 [HI3 E3]. by rewrite E3, E2, E1.
Qed.

(** [mqtt_free(filter); mqtt_free(handler); _reset_send_buffer; unlock; return] *)
Lemma free_reset_ret {A} h (a : A) F H Q w :
  inv (th_addr h :: th_filter_addr h :: F) (LOCK_WRITE_BUF :: H) w -> below LOCK_WRITE_BUF H ->
  (forall w', inv F H w' -> drop_send (w_client w') = drop_send (w_client w) -> Q a w') ->
  wp ok (free_handler h;; _reset_send_buffer;; HAL_MutexUnlock LOCK_WRITE_BUF;; mret a) Q w.
Proof.
  intros HI Hb HQ. step free_handler_spec. intros _ w1 [HI1 E1].
  eapply reset_unlock_ret; [done|done|]. intros w' HI' _ E'. apply HQ; [done|congruence].
Qed.

(** Allocating a handler and its filter: both blocks, or none. *)
Lemma alloc_handler_spec {A} size1 size2 (e : prog E A) (k : nat -> nat -> prog E A) F H Q w :
  inv F H w ->
  (forall w', inv F H w' -> w_client w' = w_client w -> wp ok e Q w') ->
  (forall a f w', inv (a :: f :: F) H w' -> w_client w' = w_client w -> wp ok (k a f) Q w') ->
  wp ok (handler ← mqtt_malloc size1;
         match handler with
         | None => e
         | Some a =>
             f ← mqtt_malloc size2;
             match f with
             | None => mqtt_free a;; e
             | Some f => k a f
             end
         end) Q w.
Proof.
  intros HI He Hk. step malloc_spec. intros [a|] w1 [HI1 E1]; [|by apply He].
  step malloc_spec. intros [f|] w2 [HI2 E2].
  - apply Hk; [|by rewrite E2]. eapply inv_perm; [|exact HI2]. apply Permutation_swap.
  - step free_spec. intros _ w3 [HI3 E3]. apply He; [done|by rewrite E3, E2].
Qed.

(** A filter that fits in a packet. *)
Record filter_in (f : list Z) : Prop := {
  fi_chars : cstr_ok f;
  fi_len : Z.of_nat (List.length f) < 65536
}.

Lemma filter_mstr f : filter_in f ->
  mstr_ok {| cstring := Some f; lenstring_len := 0; lenstring_data := None |}.
Proof. intros [Hc Hl]. by apply cstr_mstr_ok. Qed.

Lemma MQTTSubscribe_spec f qos id fp ctx F H w :
  inv F H w -> below LOCK_WRITE_BUF H -> filter_in f -> 0 <= qos < 256 ->
  wp ok (MQTTSubscribe fuel (Some f) qos id fp ctx) (fun rc w' => inv F H w' /\
    ((rc = STATE_SUCCESS /\ exists h, sub_key h = (f, {| h_fp := fp; pcontext := ctx |})
        /\ drop_send (w_client w') =
             drop_send ((w_client w) <| list_sub_handle ::= add_sub h |>))
     \/ (rc < STATE_SUCCESS /\ drop_send (w_client w') = drop_send (w_client w)))) w.
Proof.
  intros HI Hb Hf Hq. unfold MQTTSubscribe.
  destruct (fp =? 0).
  { apply wp_ret. split; [done|]. right. split; [vm_compute; reflexivity|done]. }
  step_get. step plat_spec. intros t w1 [HI1 E1].
  eapply alloc_handler_spec; [exact HI1| |].
  { intros w2 HI2 E2. apply wp_ret. split; [done|]. right.
    split; [vm_compute; reflexivity|congruence]. }
  intros a fa w2 HI2 E2.
  set (h := {| th_addr := a; th_filter_addr := fa; topic_filter := f;
               th_handle := {| h_fp := fp; pcontext := ctx |} |}).
  change (a :: fa :: F) with (th_addr h :: th_filter_addr h :: F) in HI2.
  assert (forall w0 w', inv F H w' -> drop_send (w_client w0) = drop_send (w_client w) ->
    w_client w' = (w_client w0) <| list_sub_handle ::= add_sub h |> ->
    drop_send (w_client w') = drop_send ((w_client w) <| list_sub_handle ::= add_sub h |>)) as Hadd.
  { intros w0 w' _ E0 ->.
    transitivity ((drop_send (w_client w0)) <| list_sub_handle ::= add_sub h |>); [done|].
    by rewrite E0. }
  destruct (qos =? IOTX_MQTT_QOS3_SUB_LOCAL).
  { step subscribe_add_spec. intros _ w3 [HI3 E3]. apply wp_ret. split; [done|]. left.
    split; [done|]. exists h. split; [done|]. apply (Hadd w2); [done|congruence|done]. }
  eapply lock_alloc_spec; [exact HI2|done| |]; intros w3; last first.
  { intros HI3 E3. step free_handler_spec. intros _ w4 [HI4 E4]. apply wp_ret.
    split; [done|]. right. split; [vm_compute; reflexivity|congruence]. }
  intros b HI3 E3 Eb. pose proof (u16_range id) as Hid.
  pose proof (filter_mstr f Hf) as Hm. pose proof (fi_len f Hf) as Hlen.
  set (tq := [({| cstring := Some f; lenstring_len := 0; lenstring_data := None |}, qos)]).
  assert (Z.of_nat (2 + List.length (flat_map sub_entry tq)) <= remlen_max) as Hmax.
  { unfold tq. cbn [flat_map]. rewrite app_nil_r. unfold sub_entry.
    rewrite length_app, str_bytes_length. change (mstr_data (fst _)) with f. cbn [snd List.length].
    unfold remlen_max. lia. }
  eapply write_packet_spec; [exact HI3|exact Eb| | |].
  { apply (MQTTSerialize_subscribe_stores 0 (u16 id) tq); [lia|by apply Forall_singleton| |done].
    apply Forall_singleton. unfold is_byte; cbn; lia. }
  { by apply request_packet_length. }
  intros len w4 HI4 E4 Hp. destruct (Z.leb_spec len 0).
  { eapply free_reset_ret; [done|done|]. intros w' HI' E'. split; [done|]. right.
    split; [vm_compute; reflexivity|congruence]. }
  step send_packet_buffer. intros rc w5 (HI5 & E5 & Hrc).
  destruct Hrc as [-> | ->]; cbn [Z.eqb STATE_SUCCESS STATE_SYS_DEPEND_NWK_CLOSE negb]; last first.
  { eapply free_reset_ret; [done|done|]. intros w' HI' E'. split; [done|]. right.
    split; [vm_compute; reflexivity|congruence]. }
  step reset_send_spec. intros _ w6 (HI6 & _ & E6). step unlock_spec. intros _ w7 [HI7 E7].
  step subscribe_add_spec. intros _ w8 [HI8 E8]. apply wp_ret. split; [done|]. left.
  split; [done|]. exists h. split; [done|]. apply (Hadd w7); [done|congruence|done].
Qed.

(** ** Unsubscribing *)

(** A subscription leaves the list and its blocks are freed. *)
Lemma sub_del_spec l1 n l2 F H w :
  inv F H w -> list_sub_handle (w_client w) = l1 ++ n :: l2 ->
  wp ok (modify (fun c => c <| list_sub_handle ::= filter (fun m => th_addr m <> th_addr n) |>);;
         free_handler n)
    (fun _ w' => inv F H w' /\ w_client w' = (w_client w) <| list_sub_handle := l1 ++ l2 |>) w.
Proof.
  intros HI El.
  assert (filter (fun m => th_addr m <> th_addr n) (l1 ++ n :: l2) = l1 ++ l2) as Hf.
  { apply filter_ne_middle. rewrite <-El. by apply (inv_handles _ _ _ HI). }
  assert (forall c, list_sub_handle c = l1 ++ n :: l2 ->
    c <| list_sub_handle ::= filter (fun m => th_addr m <> th_addr n) |>
    = c <| list_sub_handle := l1 ++ l2 |>) as Hu.
  { intros c Ec. apply (upd_sub_eq _ (fun _ => l1 ++ l2)). by rewrite Ec. }
  eapply wp_bind.
  { eapply (modify_spec _ _ F (th_addr n :: th_filter_addr n :: F)); [exact HI| |].
    - rewrite Hu by done. unfold owned. cbn. rewrite El. unfold handle_addrs.
      rewrite !flat_map_app. cbn. solve_Permutation.
    - rewrite Hu by done. pose proof (inv_c _ _ _ HI). client_tac.
      unfold subs_ok in *. rewrite El, fmap_app in co_subs. rewrite fmap_app.
      cbn in co_subs. apply NoDup_app in co_subs as (? & Hd & Hs).
      apply NoDup_cons in Hs as [? ?]. apply NoDup_app. split; [done|]. split; [|done].
      intros k Hk Hk'. apply (Hd k Hk). by right. }
  cbn beta. intros _ w1 [HI1 E1]. final free_handler_spec. intros _ w2 [HI2 E2].
  split; [done|]. by rewrite E2, E1, Hu.
Qed.

(** The filters that [MQTTUnsubscribe] removes for a filter [f]. *)
Definition unsub_removes (f s : list Z) : bool :=
  bool_decide (f ++ [0] = s) || topic_match_loop s (f ++ [0]).

Lemma unsub_equals f s :
  MQTTPacket_equals (unsubscribe_topic f) s = Some (bool_decide (f ++ [0] = s)).
Proof.
  unfold MQTTPacket_equals, unsubscribe_topic. cbn [cstring lenstring_len lenstring_data default
    from_option id].
  destruct (Z.eqb_spec (Z.of_nat (List.length f) + 1) (Z.of_nat (List.length s))) as [El|Hl].
  - rewrite (proj2 (Z.ltb_ge _ _)) by (rewrite length_app; cbn; lia).
    rewrite take_ge; [done|]. rewrite length_app; cbn; lia.
  - rewrite bool_decide_eq_false_2; [done|]. intros <-. rewrite length_app in Hl. cbn in Hl. lia.
Qed.

Lemma unsub_matched f s :
  iotx_mc_is_topic_matched (Some s) (Some (unsubscribe_topic f))
  = Some (if topic_match_loop s (f ++ [0]) then 1 else 0).
Proof.
  unfold iotx_mc_is_topic_matched, unsubscribe_topic.
  cbn [lenstring_len lenstring_data default from_option id].
  rewrite (proj2 (Nat.ltb_ge _ _)) by (rewrite length_app; cbn; lia).
  rewrite take_ge; [done|]. rewrite length_app; cbn; lia.
Qed.

Lemma unsubscribe_loop_spec f done_ nodes F H w :
  inv F H w -> list_sub_handle (w_client w) = done_ ++ nodes ->
  wp ok (unsubscribe_loop (unsubscribe_topic f) nodes) (fun _ w' => inv F H w' /\
    w_client w' = (w_client w) <| list_sub_handle := done_ ++
      filter (fun n => unsub_removes f (topic_filter n) = false) nodes |>) w.
Proof.
  revert done_ w; induction nodes as [|n nodes IH]; intros done_ w HI El.
  { apply wp_ret. split; [done|]. rewrite filter_nil, <-El. by destruct (w_client w). }
  cbn [unsubscribe_loop]. eapply wp_lift_bind; [apply unsub_equals|].
  eapply (wp_bind _ _ _ (fun m w' => w' = w
    /\ negb (m =? 0) = unsub_removes f (topic_filter n))).
  { unfold unsub_removes. case_bool_decide; [by apply wp_ret|].
    apply wp_lift; rewrite unsub_matched; [done|].
    intros m [= <-]. split; [done|]. by destruct (topic_match_loop _ _). }
  intros m w1 [-> ->]. destruct (unsub_removes f (topic_filter n)) eqn:Er.
  - eapply wp_bind; [by apply sub_del_spec|]. intros _ w2 [HI2 E2].
    final (IH done_); [by rewrite E2|]. intros _ w3 [HI3 E3]. split; [done|].
    rewrite E3, E2. by rewrite filter_cons_False by congruence.
  - apply wp_ret_bind. final (IH (done_ ++ [n])); [by rewrite <-app_assoc|].
    intros _ w3 [HI3 E3]. split; [done|]. rewrite E3, filter_cons_True by done.
    by rewrite <-app_assoc.
Qed.

(** What [MQTTUnsubscribe] leaves of the list. *)
Definition unsub_list (f : list Z) (l : list iotx_mc_topic_handle_t) :=
  filter (fun n => unsub_removes f (topic_filter n) = false) l.

Lemma MQTTUnsubscribe_spec f id F H w :
  inv F H w -> below LOCK_WRITE_BUF H -> filter_in f ->
  wp ok (MQTTUnsubscribe fuel (Some f) id) (fun rc w' => inv F H w' /\
    ((rc = STATE_SUCCESS /\ drop_send (w_client w') =
        drop_send ((w_client w) <| list_sub_handle ::= unsub_list f |>))
     \/ (rc < STATE_SUCCESS /\ drop_send (w_client w') = drop_send (w_client w)))) w.
Proof.
  intros HI Hb Hf. unfold MQTTUnsubscribe. step_get. step plat_spec. intros t w1 [HI1 E1].
  eapply alloc_handler_spec; [exact HI1| |].
  { intros w2 HI2 E2. apply wp_ret. split; [done|]. right.
    split; [vm_compute; reflexivity|congruence]. }
  intros a fa w2 HI2 E2.
  set (h := {| th_addr := a; th_filter_addr := fa; topic_filter := f;
               th_handle := {| h_fp := 0; pcontext := 0 |} |}).
  change (a :: fa :: F) with (th_addr h :: th_filter_addr h :: F) in HI2.
  eapply lock_alloc_spec; [exact HI2|done| |]; intros w3; last first.
  { intros HI3 E3. step free_handler_spec. intros _ w4 [HI4 E4]. apply wp_ret.
    split; [done|]. right. split; [vm_compute; reflexivity|congruence]. }
  intros b HI3 E3 Eb. pose proof (u16_range id) as Hid.
  pose proof (filter_mstr f Hf) as Hm. pose proof (fi_len f Hf) as Hlen.
  set (topic := {| cstring := Some f; lenstring_len := 0; lenstring_data := None |}) in *.
  assert (Z.of_nat (2 + List.length (flat_map unsub_entry [topic])) <= remlen_max) as Hmax.
  { cbn [flat_map]. rewrite app_nil_r. unfold unsub_entry.
    rewrite str_bytes_length. change (mstr_data topic) with f. unfold remlen_max. lia. }
  eapply write_packet_spec; [exact HI3|exact Eb| | |].
  { apply (MQTTSerialize_unsubscribe_stores 0 (u16 id) [topic]);
      [lia|by apply Forall_singleton|done]. }
  { by apply request_packet_length. }
  intros len w4 HI4 E4 Hp. destruct (Z.leb_spec len 0).
  { eapply free_reset_ret; [done|done|]. intros w' HI' E'. split; [done|]. right.
    split; [vm_compute; reflexivity|congruence]. }
  step send_packet_buffer. intros rc w5 (HI5 & E5 & Hrc).
  destruct Hrc as [-> | ->]; cbn [Z.eqb STATE_SUCCESS STATE_SYS_DEPEND_NWK_CLOSE negb]; last first.
  { eapply free_reset_ret; [done|done|]. intros w' HI' E'. split; [done|]. right.
    split; [vm_compute; reflexivity|congruence]. }
  step lock_spec. intros _ w6 [HI6 E6]. step_get.
  eapply wp_bind; [by apply (unsubscribe_loop_spec f [])|]. intros _ w7 [HI7 E7].
  step free_handler_spec. intros _ w8 [HI8 E8]. step unlock_spec. intros _ w9 [HI9 E9].
  eapply reset_unlock_ret; [done|done|]. intros w' HI' _ E'. split; [done|]. left.
  split; [done|]. rewrite E', E9, E8, E7, E6, E5.
  transitivity ((drop_send (w_client w4)) <| list_sub_handle ::= unsub_list f |>); [done|].
  by rewrite E4, E3, E2, E1.
Qed.
End Sub.
