(* ===== verification/MqttRecvSafe.v ===== *)
(** * MqttRecvSafe: the receiving half keeps the client's invariant

    The functions of [MqttRecv], for every platform whose reads return no more
    bytes than they were asked for and every application whose handlers keep the
    invariant.  The only fault left possible is a read past the received bytes by
    one of the packet decoders (see [MqttPublish.MQTTDeserialize_publish_overrun]). *)

From S2P Require Import Prelude.
From S2P Require Import InfraState.
From S2P Require Import Hal.
From S2P Require Import InfraTimer.
From S2P Require Import InfraNet.
From S2P Require Import InfraString.
From S2P Require Import InfraCompat.
From S2P Require Import MqttPacket.
From S2P Require Import MqttConnect.
From S2P Require Import MqttPublish.
From S2P Require Import MqttSubscribe.
From S2P Require Import MqttTopic.
From S2P Require Import MqttState.
From S2P Require Import MqttSend.
From S2P Require Import MqttRecv.
From S2P Require Import MqttLogic.
From S2P Require Import MqttSendSafe.
From S2P Require Import MqttSubSafe.

(** ** What the client asks of the application *)

(** A callback may publish and subscribe: it leaves the read buffer alone and the
    subscriptions that are there in place. *)
Record kept (c c' : iotx_mc_client_t) : Prop := {
  kept_buf : buf_read c' = buf_read c;
  kept_size : buf_size_read c' = buf_size_read c;
  kept_subs : exists l, list_sub_handle c' = list_sub_handle c ++ l
}.

#[global] Instance kept_preorder : PreOrder kept.
Proof.
  split.
  - intros c. split; [done|done|]. exists []. by rewrite app_nil_r.
  - intros c1 c2 c3 [E1 E2 [l1 E3]] [E4 E5 [l2 E6]].
    split; [congruence|congruence|]. exists (l1 ++ l2). by rewrite E6, E3, app_assoc.
Qed.

Lemma kept_eq c c' : c' = c -> kept c c'.
Proof. by intros ->. Qed.

(** The promise of the application to the client: called with no mutex from the
    list mutexes on held, a handler returns with the invariant and the same mutexes
    held. *)
Class AppSafe {E} `{!App E} (ok : stop -> Prop) := {
  on_event_safe h m F H (w : world E) :
    inv F H w -> below LOCK_LIST_PUB H ->
    wp ok (on_event h m) (fun _ w' => inv F H w' /\ kept (w_client w) (w_client w')) w;
  on_identity_safe s F H (w : world E) :
    inv F H w -> below LOCK_LIST_PUB H ->
    wp ok (on_identity_response s)
      (fun _ w' => inv F H w' /\ kept (w_client w) (w_client w')) w;
  state_event_safe c F H (w : world E) :
    inv F H w -> below LOCK_LIST_PUB H ->
    wp ok (iotx_state_event c)
      (fun _ w' => inv F H w' /\ kept (w_client w) (w_client w')) w
}.

Section Recv.
Context {E : Type} `{!Hal E} `{!App E} `{!HalRead E} (fuel : nat) (ok : stop -> Prop).
Context (ok_fuel : ok NoFuel) (ok_read : ok FaultRead).
Context `{!AppSafe ok}.
Implicit Types (F : list nat) (H : list lock) (w : world E).

(** [kept_post F H w]: the invariant, and a client that kept what callbacks keep. *)
Definition kept_post F H w (w' : world E) : Prop :=
  inv F H w' /\ kept (w_client w) (w_client w').

Lemma handle_event_spec h m F H w :
  inv F H w -> below LOCK_LIST_PUB H -> wp ok (_handle_event h m) (fun _ => kept_post F H w) w.
Proof.
  intros HI Hb. unfold _handle_event. destruct (_ =? 0); [by apply wp_ret|].
  step set_in_yield_cb_spec. intros _ w1 [HI1 E1].
  step on_event_safe. intros _ w2 [HI2 E2].
  step set_in_yield_cb_spec. intros _ w3 [HI3 E3]. apply wp_ret.
  split; [done|]. by rewrite E3, <-E1.
Qed.

Lemma notify_spec t arg F H w :
  inv F H w -> below LOCK_LIST_PUB H -> wp ok (notify t arg) (fun _ => kept_post F H w) w.
Proof.
  intros HI Hb. unfold notify. step_get. destruct (negb _); [|by apply wp_ret].
  step handle_event_spec. intros _ w1 HI1. by apply wp_ret.
Qed.

(** ** The read buffer *)

(** A client without its read buffer. *)
Definition drop_read (c : iotx_mc_client_t) : iotx_mc_client_t :=
  c <| buf_read := None |> <| buf_size_read := 0 |>.

Definition read_len (c : iotx_mc_client_t) (n : Z) : Prop :=
  exists b, buf_read c = Some b /\ Z.of_nat (List.length (buf_data b)) = n
    /\ buf_size_read c = n.

Lemma reset_recv_buffer_spec F H w :
  inv F H w ->
  wp ok _reset_recv_buffer
    (fun _ w' => inv F H w' /\ drop_read (w_client w') = drop_read (w_client w)) w.
Proof.
  intros HI. unfold _reset_recv_buffer. step_get.
  destruct (buf_read (w_client w)) as [b|] eqn:Eb.
  - eapply free_forget_spec; [exact HI| |pose proof (inv_c _ _ _ HI); client_tac|].
    { unfold owned. rewrite Eb. cbn. solve_Permutation. }
    intros w' HI' E'. apply wp_ret. by rewrite E'.
  - by apply wp_ret.
Qed.

(** A buffer of [n] bytes with the contents of another one. *)
Definition resized (d : list Z) (n : nat) : list Z := take n d ++ repeat 0 (n - List.length d).

Lemma resized_length d n : List.length (resized d n) = n.
Proof. unfold resized. rewrite length_app, length_take, List.repeat_length. lia. Qed.

Lemma drop_repeat (x : Z) k n : drop k (repeat x n) = repeat x (n - k).
Proof.
  revert n; induction k as [|k IH]; intros n; [by rewrite drop_0, Nat.sub_0_r|].
  destruct n as [|n]; [done|]. cbn. by rewrite IH.
Qed.

Lemma alloc_recv_spec len F H w :
  inv F H w ->
  wp ok (_alloc_recv_buffer len) (fun rc w' => inv F H w'
    /\ drop_read (w_client w') = drop_read (w_client w)
    /\ ((rc = STATE_SUCCESS /\ exists b',
           let n := alloc_size MQTT_DYNBUF_RECV_MARGIN len (buf_size_read_max (w_client w)) in
           buf_read (w_client w') = Some b' /\ Z.of_nat (List.length (buf_data b')) = n
           /\ buf_size_read (w_client w') = n
           /\ (forall b, buf_read (w_client w) = Some b ->
                 buf_data b' = resized (buf_data b) (Z.to_nat n)))
        \/ (rc = STATE_SYS_DEPEND_MALLOC /\ w_client w' = w_client w))) w.
Proof.
  intros HI. unfold _alloc_recv_buffer. step_get. step_get.
  fold (alloc_size MQTT_DYNBUF_RECV_MARGIN len (buf_size_read_max (w_client w))).
  pose proof (inv_c _ _ _ HI) as Hc. pose proof (co_read_max _ Hc) as Hm.
  assert (0 < buf_size_read_max (w_client w) < 2147483648) as Hm0 by lia.
  pose proof (alloc_size_range MQTT_DYNBUF_RECV_MARGIN len _ Hm0) as Hsz.
  set (sz := alloc_size _ _ _) in *.
  destruct (buf_read (w_client w)) as [b|] eqn:Eb.
  - step malloc_spec. intros [a|] w1 [HI1 E1]; [|apply wp_ret; rewrite E1; eauto].
    step_get. rewrite E1.
    pose proof (co_read _ Hc b Eb) as Hb. pose proof (co_read_size _ Hc) as Hbs.
    set (size := buf_size_read (w_client w)) in *.
    set (n := if size <? sz then size else sz).
    assert (0 <= n <= size /\ n <= sz) as Hn by (unfold n; zcase; lia).
    eapply wp_lift_bind.
    { unfold slice. rewrite (proj2 (Z.ltb_ge n 0)), (proj2 (Z.ltb_ge _ (0 + n))) by lia.
      reflexivity. }
    set (d := take (Z.to_nat n) (drop (Z.to_nat 0) (buf_data b))
              ++ drop (Z.to_nat n) (buf_data (zeroed a sz))).
    assert (d = resized (buf_data b) (Z.to_nat sz)) as Ed.
    { unfold d, resized, zeroed. cbn [buf_data]. rewrite drop_0, drop_repeat. unfold n.
      destruct (Z.ltb_spec size sz).
      - rewrite !take_ge by lia. f_equal. f_equal. lia.
      - f_equal. replace (_ - _)%nat with 0%nat by lia.
        by replace (_ - _)%nat with 0%nat by lia. }
    rewrite Ed. clear Ed d n Hn.
    eapply (free_modify_spec _ _ _ _ (a :: F) F); [exact HI1| | |].
    + unfold owned. rewrite E1. cbn. rewrite Eb. cbn. solve_Permutation.
    + pose proof (inv_c _ _ _ HI1). client_tac.
      * intros b' [= <-]. cbn. rewrite resized_length. lia.
      * rewrite E1. lia.
    + intros w2 HI2 E2. apply wp_ret. split; [done|]. rewrite E2, E1. split; [done|].
      left. split; [done|]. eexists. split; [done|]. cbn.
      split; [rewrite resized_length; lia|]. split; [done|]. by intros b' [= <-].
  - step malloc_spec. intros [a|] w1 [HI1 E1]; [|apply wp_ret; rewrite E1; eauto].
    eapply wp_bind.
    { eapply (modify_spec _ _ (a :: F) F); [exact HI1| |].
      - unfold owned. rewrite E1. cbn. rewrite Eb. cbn. solve_Permutation.
      - pose proof (inv_c _ _ _ HI1). client_tac.
        + intros b' [= <-]. apply zeroed_ok; lia.
        + rewrite E1. lia. }
    cbn beta. intros _ w2 [HI2 E2]. apply wp_ret. split; [done|]. rewrite E2, E1.
    split; [done|]. left. split; [done|]. eexists. split; [done|].
    split; [apply zeroed_ok; lia|]. by split.
Qed.

(** ** Reading *)

Lemma net_read_spec len t F H w :
  inv F H w ->
  wp ok (net_read len t) (fun r w' => inv F H w' /\ w_client w' = w_client w
    /\ bytes_ok (snd r) /\ (0 <= len -> Z.of_nat (List.length (snd r)) <= len)
    /\ (0 < fst r -> fst r = Z.of_nat (List.length (snd r)))) w.
Proof.
  intros HI. unfold net_read. step_get. unfold wp, plat, utils_net_read, read_ssl.
  destruct (HAL_SSL_Read _ len t (w_env w)) as [[rc bs] e] eqn:Er.
  destruct (hal_read_bytes _ _ _ _ _ _ _ Er) as [Hb Hl].
  pose proof (hal_read_count _ _ _ _ _ _ _ Er) as Hc.
  split; [by apply (inv_same F H w)|]. by repeat split.
Qed.

(** The Remaining Length decoded from the network: an error, or one to four digits
    and the value. *)
Definition decoded (r : Z * Z) : Prop :=
  fst r < 0 \/ (1 <= fst r <= 4 /\ 0 <= snd r <= remlen_max).

Lemma decode_loop_spec n value multiplier len t F H w :
  inv F H w -> Z.of_nat n + len = 5 -> 0 <= len <= 4 -> multiplier = 128 ^ len ->
  0 <= value < multiplier ->
  wp ok (decode_packet_loop n value multiplier len t)
    (fun r w' => inv F H w' /\ w_client w' = w_client w /\ decoded r) w.
Proof.
  revert value multiplier len w; induction n as [|n IH]; intros value m len w HI Hn Hl Hm Hv.
  { lia. }
  cbn [decode_packet_loop]. unfold MAX_NO_OF_REMAINING_LENGTH_BYTES.
  destruct (Z.ltb_spec 4 (len + 1)) as [|Hl4].
  { apply wp_ret. split; [done|]. split; [done|]. left. vm_compute. reflexivity. }
  step net_read_spec. intros [rc bs] w1 (HI1 & E1 & _ & _ & Hc). cbn [fst snd] in Hc.
  destruct (Z.leb_spec rc STATE_SUCCESS) as [|Hrc].
  { apply wp_ret. split; [done|]. split; [done|]. left. vm_compute. reflexivity. }
  unfold STATE_SUCCESS in Hrc. destruct bs as [|i bs]; [cbn in Hc; lia|].
  eapply wp_lift_bind; [reflexivity|].
  assert (0 <= Z.land i 127 < 128) as Hi.
  { change 127 with (Z.ones 7). rewrite Z.land_ones by lia. apply Z.mod_pos_bound. lia. }
  assert (m * 128 = 128 ^ (len + 1)) as Hm' by (rewrite Z.pow_add_r by lia; lia).
  assert (0 <= value + Z.land i 127 * m < m * 128) as Hv' by nia.
  destruct (negb _).
  - eapply wp_mono; [eapply IH; [exact HI1|lia|lia|exact Hm'|lia]|]. by rewrite E1.
  - apply wp_ret. split; [done|]. split; [done|]. right. cbn [fst snd]. split; [lia|].
    assert (128 ^ (len + 1) <= 128 ^ 4) by (apply Z.pow_le_mono_r; lia).
    unfold remlen_max. lia.
Qed.

Lemma decode_packet_spec t F H w :
  inv F H w ->
  wp ok (iotx_mc_decode_packet t)
    (fun r w' => inv F H w' /\ w_client w' = w_client w /\ decoded r) w.
Proof. intros HI. by apply (decode_loop_spec 5). Qed.

(** Storing received bytes: the buffer keeps its size. *)
Lemma set_read_spec b data F H w :
  inv F H w -> buf_read (w_client w) = Some b -> List.length data = List.length (buf_data b) ->
  wp ok (modify (fun c => c <| buf_read := Some (b <| buf_data := data |>) |>))
    (fun _ w' => inv F H w'
       /\ w_client w' = (w_client w) <| buf_read := Some (b <| buf_data := data |>) |>) w.
Proof.
  intros HI Eb El. pose proof (inv_c _ _ _ HI) as Hc. pose proof (co_read _ Hc b Eb) as Hs.
  eapply wp_mono; [eapply (modify_spec _ _ F F); [exact HI| |]|done].
  - unfold owned. cbn. by rewrite Eb.
  - client_tac. intros b' [= <-]. cbn. lia.
Qed.

(** A read into the buffer at an offset, within it. *)
Lemma read_into_spec off len t n F H w :
  inv F H w -> read_len (w_client w) n -> 0 <= len -> Z.of_nat off + len <= n ->
  wp ok (read_into off len t) (fun _ w' => inv F H w'
    /\ drop_read (w_client w') = drop_read (w_client w) /\ read_len (w_client w') n) w.
Proof.
  intros HI (b & Eb & El & Es) H0 Hn. unfold read_into. step_get.
  eapply wp_lift_bind; [exact Eb|].
  step net_read_spec. intros [rc bs] w1 (HI1 & E1 & Hbs & Hl & _). cbn [fst snd] in *.
  eapply wp_lift_bind; [apply puts_fits; [done|cbn; specialize (Hl H0); lia]|].
  assert (List.length (wb_mem (blit bs (WBuf (buf_data b) off))) = List.length (buf_data b))
    as Hlen by (apply blit_length; cbn; specialize (Hl H0); lia).
  step (set_read_spec b); [by rewrite E1|]. intros _ w2 [HI2 E2]. apply wp_ret.
  split; [done|]. rewrite E2, E1. split; [done|]. eexists. split; [done|]. cbn [buf_data].
  split; [cbn; rewrite <-El; f_equal; exact Hlen|done].
Qed.

(** The packet is dropped in pieces that fit in the buffer. *)
Lemma drain_loop_spec k rem t n F H w :
  inv F H w -> read_len (w_client w) n -> 0 < n -> 0 < rem -> rem < Z.of_nat k ->
  wp ok (drain_loop k rem t) (fun _ w' => inv F H w'
    /\ drop_read (w_client w') = drop_read (w_client w) /\ read_len (w_client w') n) w.
Proof.
  revert rem w; induction k as [|k IH]; intros rem w HI Hr Hn H0 Hk; [lia|].
  cbn [drain_loop]. step_get. pose proof Hr as (b & Eb & El & <-).
  set (size := buf_size_read (w_client w)) in *.
  set (need := if size <? rem then size else rem).
  assert (0 < need <= size /\ need <= rem) as Hneed by (unfold need; destruct (Z.ltb_spec size rem); lia).
  step (read_into_spec 0 need t size); [lia|cbn; lia|]. intros rc w1 (HI1 & E1 & Hr1).
  destruct (negb _); [by apply wp_ret|].
  destruct (Z.eqb_spec (rem - need) 0); [by apply wp_ret|].
  final (IH (rem - need)); [lia|lia|]. by rewrite E1.
Qed.

(** What [iotx_mc_read_packet] promises: with a packet comes its buffer. *)
Definition packet_read F H (r : Z * Z) (w' : world E) : Prop :=
  inv F H w' /\ (STATE_SUCCESS <= fst r -> snd r <> MQTT_CPT_RESERVED ->
                 is_Some (buf_read (w_client w'))).

Lemma unlock_read_ret r F H w :
  inv F (LOCK_READ_BUF :: H) w -> below LOCK_READ_BUF H ->
  (STATE_SUCCESS <= fst r -> snd r <> MQTT_CPT_RESERVED -> is_Some (buf_read (w_client w))) ->
  wp ok (HAL_MutexUnlock LOCK_READ_BUF;; mret r) (packet_read F H) w.
Proof.
  intros HI Hb Hr. step unlock_spec. intros _ w1 [HI1 E1]. apply wp_ret.
  split; [done|]. by rewrite E1.
Qed.

(** The packet is too long for the buffer. *)
Lemma oversize_spec timer rem F H w n :
  inv F (LOCK_READ_BUF :: H) w -> below LOCK_READ_BUF H ->
  read_len (w_client w) n -> 0 < n -> 0 < rem ->
  wp ok (iotx_state_event STATE_MQTT_RX_BUFFER_TOO_SHORT;;
         left_t ← time_left timer;
         ok ← drain_loop (S (Z.to_nat rem)) rem (clamp1 left_t);
         if negb ok then
           HAL_MutexUnlock LOCK_READ_BUF;; mret (STATE_SYS_DEPEND_NWK_READ_ERROR, 0)
         else
           HAL_MutexUnlock LOCK_READ_BUF;;
           h ← get handle_event;
           (if negb (h_fp h =? 0) then
              _handle_event h {| event_type := IOTX_MQTT_EVENT_BUFFER_OVERFLOW;
                                 msg := MsgText (lit "mqtt read buffer is too short") |};;
              mret tt
            else mret tt);;
           mret (STATE_SUCCESS, 0)) (packet_read F H) w.
Proof.
  intros HI Hb (b & Eb & El & Es) Hn H0.
  step state_event_safe. intros _ w1 [HI1 [K1 K2 _]].
  step plat_spec. intros lt w2 [HI2 E2].
  step (drain_loop_spec _ _ _ n); [|lia|].
  { exists b. rewrite E2, K1, K2. done. }
  intros ok_ w3 (HI3 & _). destruct (negb ok_).
  { apply unlock_read_ret; [done|done|]. intros Hf. by destruct Hf. }
  step unlock_spec. intros _ w4 [HI4 E4]. step_get.
  eapply (wp_bind _ _ _ (fun _ => inv F H)).
  { destruct (negb _); [|by apply wp_ret].
    step handle_event_spec. intros _ w5 [HI5 _]. by apply wp_ret. }
  intros _ w5 HI5. apply wp_ret. split; [done|]. by intros _ [].
Qed.

(** Storing the Remaining Length after the first byte. *)
Lemma encode_into_spec {A} rem (k : Z -> prog E A) n F H Q w :
  inv F H w -> read_len (w_client w) n -> 5 <= n -> 0 <= rem <= remlen_max ->
  (forall m w', inv F H w' -> drop_read (w_client w') = drop_read (w_client w) ->
     read_len (w_client w') n -> 1 <= m <= 4 -> wp ok (k m) Q w') ->
  wp ok (b ← get buf_read;
         b ← lift FaultNull b;
         '(m, w) ← lift FaultWrite (MQTTPacket_encode rem (WBuf (buf_data b) 1));
         modify (fun c => c <| buf_read := Some (b <| buf_data := wb_mem w |>) |>);;
         k m) Q w.
Proof.
  intros HI (b & Eb & El & Es) Hn Hr HQ. step_get. eapply wp_lift_bind; [exact Eb|].
  pose proof (remlen_bytes_length rem Hr) as Hrl.
  eapply wp_lift_bind.
  { rewrite MQTTPacket_encode_puts by done.
    rewrite puts_fits by (first [by apply remlen_bytes_ok|cbn; lia]). reflexivity. }
  assert (List.length (wb_mem (blit (remlen_bytes rem) (WBuf (buf_data b) 1)))
          = List.length (buf_data b)) as Hlen by (apply blit_length; cbn; lia).
  step (set_read_spec b). intros _ w1 [HI1 E1]. apply HQ; [done|by rewrite E1| |lia].
  rewrite E1. eexists. split; [done|]. cbn [buf_data].
  split; [rewrite <-El; f_equal; exact Hlen|done].
Qed.

(** The rest of a packet that fits, and the NUL after it. *)
Lemma packet_rest_spec timer t0 len rem size n F H w :
  inv F (LOCK_READ_BUF :: H) w -> below LOCK_READ_BUF H ->
  read_len (w_client w) n -> 0 < len -> 0 <= rem -> len + rem <= n -> size = n ->
  wp ok (left_t ← time_left timer;
         rc ← read_into (Z.to_nat len) rem (clamp1 left_t);
         if (0 <? rem) && (rc <? 0) then
           HAL_MutexUnlock LOCK_READ_BUF;; mret (STATE_SYS_DEPEND_NWK_CLOSE, t0)
         else if (0 <? rem) && negb (rc =? rem) then
           HAL_MutexUnlock LOCK_READ_BUF;; mret (STATE_MQTT_PACKET_READ_ERROR, t0)
         else
           b ← get buf_read;
           b ← lift FaultNull b;
           header ← lift FaultRead (buf_data b !! 0%nat);
           (if len + rem <? size then
              w ← lift FaultWrite (put 0 (WBuf (buf_data b) (Z.to_nat (len + rem))));
              modify (fun c => c <| buf_read := Some (b <| buf_data := wb_mem w |>) |>)
            else mret tt);;
           HAL_MutexUnlock LOCK_READ_BUF;;
           mret (STATE_SUCCESS, MQTT_HEADER_GET_TYPE header)) (packet_read F H) w.
Proof.
  intros HI Hb Hr Hl H0 Hfit ->. step plat_spec. intros lt w1 [HI1 E1].
  step (read_into_spec _ _ _ n); [by rewrite E1|lia|]. intros rc w2 (HI2 & E2 & Hr2).
  destruct (_ && _); [by apply unlock_read_ret|].
  destruct (_ && _); [by apply unlock_read_ret|].
  destruct Hr2 as (b & Eb & El & Es). step_get. eapply wp_lift_bind; [exact Eb|].
  destruct (buf_data b) as [|hd tl] eqn:Ed; [cbn in El; lia|].
  eapply wp_lift_bind; [reflexivity|].
  eapply (wp_bind _ _ _ (fun _ w' => inv F (LOCK_READ_BUF :: H) w'
    /\ is_Some (buf_read (w_client w')))).
  { destruct (Z.ltb_spec (len + rem) n) as [Hlt|]; [|apply wp_ret; split; [done|by eexists]].
    eapply wp_lift_bind; [unfold put; rewrite decide_True by (cbn [wb_pos wb_mem]; lia);
      reflexivity|].
    final (set_read_spec b); [cbn [wb_mem]; by rewrite length_insert, Ed|].
    intros _ w3 [HI3 E3]. split; [done|]. rewrite E3. by eexists. }
  intros _ w3 [HI3 Hs]. by apply unlock_read_ret.
Qed.

Lemma read_packet_spec timer t0 F H w :
  inv F H w -> below LOCK_READ_BUF H ->
  wp ok (iotx_mc_read_packet timer t0) (packet_read F H) w.
Proof.
  intros HI Hb. unfold iotx_mc_read_packet. step lock_spec. intros _ w1 [HI1 E1].
  step alloc_recv_spec. intros rc w2 (HI2 & E2 & Hrc).
  pose proof (co_read_max _ (inv_c _ _ _ HI1)) as Hm.
  destruct Hrc as [[-> (b & Eb & El & Es & _)]|[-> _]]; last first.
  { cbn [Z.ltb STATE_SYS_DEPEND_MALLOC Z.compare]. by apply unlock_read_ret. }
  cbn [Z.ltb STATE_SUCCESS Z.compare].
  set (n := alloc_size _ _ _) in *.
  assert (5 <= n) as Hn5.
  { unfold n, alloc_size, MQTT_DYNBUF_RECV_MARGIN. rewrite u32_small by lia. zcase; lia. }
  step plat_spec. intros lt w3 [HI3 E3].
  step (read_into_spec 0 1 _ n); [rewrite E3; by exists b|lia|lia|].
  intros rc w4 (HI4 & E4 & Hr4).
  destruct (rc =? 0); [by apply unlock_read_ret|].
  destruct (rc <? STATE_SUCCESS); [by apply unlock_read_ret|].
  step plat_spec. intros lt2 w5 [HI5 E5].
  step decode_packet_spec. intros [rc2 rem] w6 (HI6 & E6 & Hd). unfold decoded in Hd.
  cbn [fst snd] in Hd. destruct (Z.ltb_spec rc2 0) as [Hneg|Hpos].
  { apply unlock_read_ret; [done|done|]. cbn. unfold STATE_SUCCESS. lia. }
  destruct Hd as [Hd|[_ Hd]]; [lia|].
  eapply (encode_into_spec _ _ n); [exact HI6|by rewrite E6, E5|done|done|].
  intros m w7 HI7 E7 Hr7 Hmm.
  step alloc_recv_spec. intros rc3 w8 (HI8 & E8 & Hrc3).
  destruct Hrc3 as [[-> (b8 & Eb8 & El8 & Es8 & _)]|[-> _]]; last first.
  { cbn [Z.ltb STATE_SYS_DEPEND_MALLOC Z.compare]. by apply unlock_read_ret. }
  cbn [Z.ltb STATE_SUCCESS Z.compare]. step_get.
  set (n8 := alloc_size MQTT_DYNBUF_RECV_MARGIN (rem + (1 + m)) _) in *. rewrite Es8.
  assert (5 <= n8) as Hn8.
  { unfold n8, alloc_size, MQTT_DYNBUF_RECV_MARGIN, remlen_max in *.
    pose proof (co_read_max _ (inv_c _ _ _ HI7)). rewrite u32_small by lia. zcase; lia. }
  destruct ((0 <? rem) && (n8 <? rem + (1 + m))) eqn:Ebig.
  { apply andb_true_iff in Ebig as [H0%Z.ltb_lt _].
    apply (oversize_spec _ _ _ _ _ n8); [done|done|by exists b8|lia|done]. }
  assert (1 + m + rem <= n8) as Hfit.
  { apply andb_false_iff in Ebig as [H0%Z.ltb_ge|H0%Z.ltb_ge]; lia. }
  apply (packet_rest_spec _ _ _ _ _ n8); [done|done|by exists b8|lia|lia|done|done].
Qed.

(** ** The packet handlers *)

Lemma deserialize_spec {A} (f : list Z -> Z -> option A) w :
  is_Some (buf_read (w_client w)) -> wp ok (deserialize f) (fun _ w' => w' = w) w.
Proof.
  intros [b Eb]. unfold deserialize. step_get. eapply wp_lift_bind; [exact Eb|]. step_get.
  by apply wp_lift.
Qed.

Ltac step_deserialize := eapply wp_bind; [by apply deserialize_spec|]; cbn beta.

Lemma handle_CONNACK_spec F H w :
  inv F H w -> is_Some (buf_read (w_client w)) ->
  wp ok iotx_mc_handle_recv_CONNACK (fun _ w' => inv F H w') w.
Proof.
  intros HI Hs. unfold iotx_mc_handle_recv_CONNACK. step_deserialize.
  intros [[rc f] c] w' ->. by destruct (negb _); apply wp_ret.
Qed.

Lemma handle_PUBACK_spec F H w :
  inv F H w -> below LOCK_LIST_PUB H -> is_Some (buf_read (w_client w)) ->
  wp ok iotx_mc_handle_recv_PUBACK (fun _ w' => inv F H w') w.
Proof.
  intros HI Hb Hs. unfold iotx_mc_handle_recv_PUBACK, indeterminate.
  step plat_spec. intros old w1 [HI1 E1]. rewrite <-E1 in Hs. step_deserialize.
  intros [[[rc t] d] id] w' ->. destruct (negb _); [by apply wp_ret|].
  step mask_pubInfo_spec. intros rc2 w2 (HI2 & _ & E2).
  step notify_spec. intros _ w3 [HI3 _]. by apply wp_ret.
Qed.

Lemma event_handle_sub_spec id t F H w :
  inv F H w -> below LOCK_GENERIC H ->
  wp ok (_iotx_mqtt_event_handle_sub id t) (fun _ w' => inv F H w' /\
    w_client w' = (w_client w) <| list_sub_sync_ack ::= fmap (fun node =>
      if ss_packet_id node =? id then node <| ack_type := t |> else node) |>) w.
Proof.
  intros HI Hb. unfold _iotx_mqtt_event_handle_sub. step lock_spec. intros _ w1 [HI1 E1].
  eapply wp_bind.
  { eapply (modify_spec _ _ F F); [exact HI1| |].
    - unfold owned. cbn. rewrite (fmap_keep ss_addr); [done|].
      intros n. by destruct (_ =? _).
    - pose proof (inv_c _ _ _ HI1). client_tac. }
  cbn beta. intros _ w2 [HI2 E2]. final unlock_spec. intros _ w3 [HI3 E3].
  by rewrite E3, E2, E1.
Qed.

Lemma handle_SUBACK_spec F H w :
  inv F H w -> below LOCK_LIST_PUB H -> is_Some (buf_read (w_client w)) ->
  wp ok iotx_mc_handle_recv_SUBACK (fun _ w' => inv F H w') w.
Proof.
  intros HI Hb Hs. unfold iotx_mc_handle_recv_SUBACK, indeterminate.
  step plat_spec. intros old w1 [HI1 E1]. rewrite <-E1 in Hs. step_deserialize.
  intros [rc o] w' ->. destruct (_ <? 0); [by apply wp_ret|].
  step event_handle_sub_spec. intros _ w2 [HI2 E2].
  step notify_spec. intros _ w3 [HI3 _]. by apply wp_ret.
Qed.

Lemma handle_UNSUBACK_spec F H w :
  inv F H w -> below LOCK_LIST_PUB H -> is_Some (buf_read (w_client w)) ->
  wp ok iotx_mc_handle_recv_UNSUBACK (fun _ w' => inv F H w') w.
Proof.
  intros HI Hb Hs. unfold iotx_mc_handle_recv_UNSUBACK. step_deserialize.
  intros [rc id] w' ->. destruct (negb _); [by apply wp_ret|].
  step notify_spec. intros _ w3 [HI3 _]. by apply wp_ret.
Qed.

(** ** Delivering a publication *)

Lemma ioctl_set_spec opt s F H w :
  inv F H w -> opt ∈ [IOTX_IOCTL_SET_PRODUCT_KEY; IOTX_IOCTL_SET_DEVICE_NAME] -> cstr_ok s ->
  wp ok (ioctl opt (Some (DataStr s))) (fun _ w' => inv F H w' /\ w_client w' = w_client w) w.
Proof.
  intros HI Ho Hcs. unfold wp, ioctl.
  destruct (IOT_Ioctl_set_str opt s (w_ctx w) Ho) as [[[rc ctx] d] Er]. rewrite Er.
  split; [|done]. destruct HI as [Hh Hc Hor Hhe Hs].
  split; cbn; [|done..|]; [by destruct Hh|].
  eapply IOT_Ioctl_settings; [exact Hs| |exact Er]. by destruct opt.
Qed.

Lemma identity_member_spec info key w :
  wp ok (identity_member info key) (fun _ w' => w' = w) w.
Proof.
  unfold identity_member. apply wp_lift_bind_ok; [done|]. intros [rc v] _. by apply wp_ret.
Qed.

Lemma cstr_of_bytes s : cstr_ok (cstr_of ((u8 <$> s) ++ [0])).
Proof.
  unfold cstr_of. induction s as [|c s IH]; [constructor|]. cbn [fmap list_fmap app strlen].
  pose proof (u8_range c) as Hc. unfold is_byte in Hc. destruct (Z.eqb_spec (u8 c) 0); [constructor|].
  destruct (strlen _) as [k|]; cbn [mbind option_bind]; (constructor; [lia|exact IH]).
Qed.

Lemma unquoted_spec info v w : wp ok (unquoted info v) (fun s w' => w' = w /\ cstr_ok s) w.
Proof.
  unfold unquoted. apply wp_lift_bind_ok; [done|]. intros s _. apply wp_ret. split; [done|apply cstr_of_bytes].
Qed.

(** The two settings of an identity response: the blocks are freed on every path. *)
Lemma identity_store_spec info pk dn F H w :
  inv F H w -> below LOCK_LIST_PUB H ->
  wp ok (a ← mqtt_malloc (u32 (snd pk - 1));
         match a with
         | None => iotx_state_event STATE_SYS_DEPEND_MALLOC
         | Some a =>
             str_product_key ← unquoted info pk;
             b ← mqtt_malloc (u32 (snd dn - 1));
             match b with
             | None => mqtt_free a;; iotx_state_event STATE_SYS_DEPEND_MALLOC
             | Some b =>
                 str_device_name ← unquoted info dn;
                 ioctl IOTX_IOCTL_SET_PRODUCT_KEY (Some (DataStr str_product_key));;
                 ioctl IOTX_IOCTL_SET_DEVICE_NAME (Some (DataStr str_device_name));;
                 mqtt_free a;;
                 mqtt_free b
             end
         end) (fun _ => kept_post F H w) w.
Proof.
  intros HI Hb. step malloc_spec. intros [a|] w1 [HI1 E1]; last first.
  { final state_event_safe. by rewrite E1. }
  eapply wp_bind; [apply unquoted_spec|]. intros s1 w1' [-> Hs1].
  step malloc_spec. intros [b|] w2 [HI2 E2]; last first.
  { step free_spec. intros _ w3 [HI3 E3]. final state_event_safe. by rewrite E3, E2, E1. }
  eapply wp_bind; [apply unquoted_spec|]. intros s2 w2' [-> Hs2].
  step ioctl_set_spec; [left|]. intros _ w3 [HI3 E3].
  step ioctl_set_spec; [right; left|]. intros _ w4 [HI4 E4].
  eapply wp_bind.
  { eapply free_spec, inv_perm; [|exact HI4]. apply Permutation_swap. }
  cbn beta. intros _ w5 [HI5 E5]. final free_spec. intros _ w6 [HI6 E6].
  split; [done|]. apply kept_eq. congruence.
Qed.

Lemma parse_identity_spec info F H w :
  inv F H w -> below LOCK_LIST_PUB H ->
  wp ok (iotx_mc_parse_identity_response info) (fun _ => kept_post F H w) w.
Proof.
  intros HI Hb. unfold iotx_mc_parse_identity_response.
  destruct (negb _); [by apply wp_ret|].
  apply wp_lift_bind_ok; [done|]. intros name _. destruct (negb _); [by apply wp_ret|].
  step malloc_spec. intros [p|] w1 [HI1 E1]; last first.
  { final state_event_safe. by rewrite E1. }
  apply wp_lift_bind_ok; [done|]. intros s _.
  step on_identity_safe. intros _ w2 [HI2 K2].
  step free_spec. intros _ w3 [HI3 E3]. rewrite E1 in K2.
  eapply wp_bind; [apply identity_member_spec|]. intros [pk|] w3' ->; last first.
  { apply wp_ret. split; [done|]. by rewrite E3. }
  eapply wp_bind; [apply identity_member_spec|]. intros [dn|] w3' ->; last first.
  { apply wp_ret. split; [done|]. by rewrite E3. }
  final identity_store_spec. intros _ w4 [HI4 K4]. split; [done|].
  etrans; [exact K2|]. by rewrite <-E3.
Qed.

(** The next node is in the list when the current one is. *)
Lemma node_after_in n l : n ∈ l ->
  exists o, node_after (th_addr n) l = Some o /\ (forall m, o = Some m -> m ∈ l).
Proof.
  induction l as [|k l IH]; [by intros ?%not_elem_of_nil|]. intros Hn. cbn [node_after].
  destruct (Nat.eqb_spec (th_addr k) (th_addr n)) as [Heq|Hne].
  - eexists. split; [done|]. intros m Hm. right. destruct l; [done|]. injection Hm as ->. by left.
  - apply elem_of_cons in Hn as [->|Hn]; [done|].
    destruct (IH Hn) as (o & -> & Ho). exists o. split; [done|]. intros m Hm. right. by apply Ho.
Qed.

Lemma deliver_loop_spec k t info cur flag F H w :
  inv F (LOCK_GENERIC :: H) w -> below LOCK_LIST_PUB H ->
  (forall n, cur = Some n -> n ∈ list_sub_handle (w_client w)) ->
  wp ok (deliver_loop k t info cur flag)
    (fun _ => kept_post F (LOCK_GENERIC :: H) w) w.
Proof.
  revert cur flag w; induction k as [|k IH]; intros cur flag w HI Hb Hc; [done|].
  cbn [deliver_loop]. destruct cur as [n|]; [|by apply wp_ret].
  apply wp_lift_bind_ok; [done|]. intros m _.
  eapply (wp_bind _ _ _ (fun _ => kept_post F (LOCK_GENERIC :: H) w)).
  { destruct m; [|by apply wp_ret].
    step unlock_spec. intros _ w1 [HI1 E1].
    eapply (wp_bind _ _ _ (fun _ => kept_post F H w)).
    { destruct (negb _).
      - step handle_event_spec. intros _ w2 [HI2 K2]. apply wp_ret. by rewrite E1 in K2.
      - apply wp_ret. split; [done|by apply kept_eq]. }
    intros f w2 [HI2 K2]. step lock_spec. intros _ w3 [HI3 E3]. apply wp_ret.
    split; [done|]. by rewrite E3. }
  intros f w1 [HI1 K1]. step_get.
  assert (n ∈ list_sub_handle (w_client w1)) as Hn.
  { destruct (kept_subs _ _ K1) as [l ->]. apply elem_of_app. left. by apply Hc. }
  destruct (node_after_in _ _ Hn) as (o & Eo & Ho).
  eapply wp_lift_bind; [exact Eo|]. final IH. intros f2 w2 [HI2 K2].
  split; [done|]. by etrans.
Qed.

Lemma deliver_message_spec t info F H w :
  inv F H w -> below LOCK_LIST_PUB H ->
  wp ok (iotx_mc_deliver_message fuel t info) (fun _ => kept_post F H w) w.
Proof.
  intros HI Hb. unfold iotx_mc_deliver_message.
  step parse_identity_spec. intros _ w1 [HI1 K1].
  step lock_spec. intros _ w2 [HI2 E2]. step_get.
  step deliver_loop_spec.
  { intros n. destruct (list_sub_handle (w_client w2)); [done|]. intros [= ->]. by left. }
  intros f w3 [HI3 K3]. step unlock_spec. intros _ w4 [HI4 E4].
  assert (kept (w_client w) (w_client w4)) as K4.
  { rewrite E4. etrans; [exact K1|]. by rewrite <-E2. }
  destruct f; [by apply wp_ret|]. final notify_spec. intros _ w5 [HI5 K5].
  split; [done|]. by etrans.
Qed.

Lemma handle_PUBLISH_spec F H w :
  inv F H w -> below LOCK_LIST_PUB H -> is_Some (buf_read (w_client w)) ->
  wp ok (iotx_mc_handle_recv_PUBLISH fuel) (fun _ w' => inv F H w') w.
Proof.
  intros HI Hb Hs. unfold iotx_mc_handle_recv_PUBLISH. step_deserialize.
  intros [rc o] w' ->. destruct (negb _); [by apply wp_ret|].
  destruct (_ || _); [by apply wp_ret|].
  step deliver_message_spec. intros _ w1 [HI1 _].
  repeat (destruct (_ =? _); [first [by apply wp_ret|final MQTTPuback_spec; by intros ? ? [? _]]|]).
  by apply wp_ret.
Qed.

(** ** Cycles *)

Lemma reset_recv_spec F H w :
  inv F H w -> below LOCK_READ_BUF H -> wp ok reset_recv (fun _ => inv F H) w.
Proof.
  intros HI Hb. unfold reset_recv. step lock_spec. intros _ w1 [HI1 _].
  step reset_recv_buffer_spec. intros _ w2 [HI2 _]. final unlock_spec. by intros _ w3 [HI3 _].
Qed.

Lemma dispatch_spec t F H w :
  inv F H w -> below LOCK_LIST_PUB H -> is_Some (buf_read (w_client w)) ->
  wp ok (dispatch_packet fuel t) (fun _ => inv F H) w.
Proof.
  intros HI Hb Hs. unfold dispatch_packet.
  destruct (t =? CONNACK); [by apply wp_ret|].
  destruct (t =? PUBACK); [by apply handle_PUBACK_spec|].
  destruct (t =? SUBACK); [by apply handle_SUBACK_spec|].
  destruct (t =? PUBLISH); [by apply handle_PUBLISH_spec|].
  destruct (t =? UNSUBACK); [by apply handle_UNSUBACK_spec|].
  destruct (t =? PINGRESP); by apply wp_ret.
Qed.

Lemma cycle_spec timer F H w :
  inv F H w -> below LOCK_READ_BUF H ->
  wp ok (iotx_mc_cycle fuel timer) (fun _ => inv F H) w.
Proof.
  intros HI Hb. unfold iotx_mc_cycle. step get_state_spec. intros st w1 (HI1 & _).
  destruct (negb _); [by apply wp_ret|]. step_get. destruct (_ <? _).
  { step set_state_spec. intros _ w2 [HI2 _].
    eapply wp_bind.
    { eapply (modify_spec _ _ F F); [exact HI2|done|]. pose proof (inv_c _ _ _ HI2). client_tac. }
    intros _ w3 [HI3 _]. by apply wp_ret. }
  step read_packet_spec. intros [rc t] w2 [HI2 Hs]. cbn [fst snd] in Hs.
  destruct (Z.eqb_spec rc STATE_SUCCESS) as [->|]; cbn [negb]; last first.
  { step reset_recv_spec. intros _ w3 HI3.
    eapply (wp_bind _ _ _ (fun _ => inv F H)).
    { destruct (_ =? _); [|by apply wp_ret]. final set_state_spec. by intros _ w4 [HI4 _]. }
    intros _ w4 HI4. by apply wp_ret. }
  destruct (Z.eqb_spec t MQTT_CPT_RESERVED) as [|Ht].
  { step reset_recv_spec. intros _ w3 HI3. by apply wp_ret. }
  specialize (Hs ltac:(reflexivity) Ht).
  eapply wp_bind.
  { eapply (modify_spec _ _ F F); [exact HI2|done|]. pose proof (inv_c _ _ _ HI2). client_tac. }
  cbn beta. intros _ w3 [HI3 E3]. step lock_spec. intros _ w4 [HI4 E4].
  step dispatch_spec; [by rewrite E4, E3|]. intros rc w5 HI5.
  step reset_recv_buffer_spec. intros _ w6 [HI6 _].
  step unlock_spec. intros _ w7 [HI7 _]. by apply wp_ret.
Qed.

Lemma cycle_loop_spec n timer F H w :
  inv F H w -> below LOCK_YIELD H -> wp ok (cycle_loop fuel n timer) (fun _ => inv F H) w.
Proof.
  revert w; induction n as [|n IH]; intros w HI Hb; [done|]. cbn [cycle_loop].
  step lock_spec. intros _ w1 [HI1 _]. step cycle_spec. intros rc w2 HI2.
  eapply (wp_bind _ _ _ (fun _ => inv F (LOCK_YIELD :: H))).
  { destruct (_ =? _); [|by apply wp_ret]. step PubInfoProc_spec. intros _ w3 HI3.
    by apply wp_ret. }
  intros _ w3 HI3. step unlock_spec. intros _ w4 [HI4 _].
  step plat_spec. intros lt w5 [HI5 _].
  eapply (wp_bind _ _ _ (fun _ => inv F H)).
  { destruct (_ <? _); final plat_spec; by intros _ w6 [HI6 _]. }
  intros _ w6 HI6. step plat_spec. intros ex w7 [HI7 _].
  destruct (negb _); [by apply wp_ret|by apply IH].
Qed.

Lemma mqtt_cycle_spec F H w :
  inv F H w -> below LOCK_YIELD H -> wp ok (_mqtt_cycle fuel) (fun _ => inv F H) w.
Proof.
  intros HI Hb. unfold _mqtt_cycle. step_get. step plat_spec. intros t w1 [HI1 _].
  by apply cycle_loop_spec.
Qed.

Lemma wait_connack_loop_spec n timer wait t F H w :
  inv F H w -> below LOCK_READ_BUF H ->
  0 <= wait <= WAIT_CONNACK_MAX -> Z.of_nat n + wait = 11 ->
  wp ok (wait_connack_loop n timer wait t) (fun r w' => inv F H w' /\
    (r = None -> is_Some (buf_read (w_client w')))) w.
Proof.
  revert wait t w; induction n as [|n IH]; unfold WAIT_CONNACK_MAX;
    intros wait t w HI Hb H0 Hn; [lia|].
  cbn [wait_connack_loop]. step read_packet_spec. intros [rc t'] w1 [HI1 Hs]. cbn [fst snd] in Hs.
  destruct (Z.ltb_spec rc STATE_SUCCESS).
  { step reset_recv_spec. intros _ w2 HI2. by apply wp_ret. }
  rewrite u8_small by (unfold is_byte; lia). unfold WAIT_CONNACK_MAX.
  destruct (Z.ltb_spec 10 (wait + 1)).
  { step reset_recv_spec. intros _ w2 HI2. by apply wp_ret. }
  destruct (Z.eqb_spec t' CONNACK) as [->|]; cbn [negb].
  - apply wp_ret. split; [done|]. intros _. by apply Hs.
  - apply IH; [done|done|unfold WAIT_CONNACK_MAX; lia|lia].
Qed.

Lemma wait_CONNACK_spec F H w :
  inv F H w -> below LOCK_READ_BUF H -> wp ok iotx_mc_wait_CONNACK (fun _ => inv F H) w.
Proof.
  intros HI Hb. unfold iotx_mc_wait_CONNACK. step_get. step plat_spec. intros t w1 [HI1 _].
  eapply wp_bind; [eapply (wait_connack_loop_spec 11); [exact HI1|done|unfold WAIT_CONNACK_MAX; lia|done]|].
  cbn beta.
  intros [rc|] w2 [HI2 Hs]; [by apply wp_ret|].
  step lock_spec. intros _ w3 [HI3 E3].
  step handle_CONNACK_spec; [rewrite E3; by apply Hs|]. intros rc w4 HI4.
  step reset_recv_buffer_spec. intros _ w5 [HI5 _]. step unlock_spec. intros _ w6 [HI6 _].
  by apply wp_ret.
Qed.
End Recv.
