(* ===== verification/MqttSessionSafe.v ===== *)
(** * MqttSessionSafe: connection and keep-alive keep the client's invariant

    Connecting with retries, the keep-alive and reconnection state machine, and the
    interface functions of [MqttSession]. *)

From S2P Require Import Prelude.
From S2P Require Import InfraState.
From S2P Require Import Hal.
From S2P Require Import InfraTimer.
From S2P Require Import InfraNet.
From S2P Require Import InfraCompat.
From S2P Require Import MqttPacket.
From S2P Require Import MqttConnect.
From S2P Require Import MqttTopic.
From S2P Require Import MqttState.
From S2P Require Import MqttSend.
From S2P Require Import MqttRecv.
From S2P Require Import MqttSession.
From S2P Require Import MqttLogic.
From S2P Require Import MqttSendSafe.
From S2P Require Import MqttSubSafe.
From S2P Require Import MqttRecvSafe.

Section Session.
Context {E : Type} `{!Hal E} `{!App E} `{!HalRead E} (fuel : nat) (ok : stop -> Prop).
Context (ok_fuel : ok NoFuel) (ok_read : ok FaultRead).
Context `{!AppSafe ok}.
Implicit Types (F : list nat) (H : list lock) (w : world E).

(** ** Connecting *)

Lemma net_connect_spec F H w : inv F H w -> wp ok net_connect (fun _ => inv F H) w.
Proof.
  intros HI. unfold net_connect. step_get. step plat_spec. intros [rc n] w1 [HI1 _].
  step_set HI1. intros _ w2 [HI2 _]. by apply wp_ret.
Qed.

Lemma net_disconnect_spec F H w : inv F H w -> wp ok net_disconnect (fun _ => inv F H) w.
Proof.
  intros HI. unfold net_disconnect. step_get. step plat_spec. intros [rc n] w1 [HI1 _].
  step_set HI1. intros _ w2 [HI2 _]. by apply wp_ret.
Qed.

Lemma nwk_connect_loop_spec n retry F H w :
  inv F H w -> Z.of_nat n + retry = 4 -> retry <= 3 ->
  wp ok (nwk_connect_loop n retry) (fun _ => inv F H) w.
Proof.
  revert retry w; induction n as [|n IH]; intros retry w HI Hn Hr; [lia|].
  cbn [nwk_connect_loop]. step net_connect_spec. intros rc w1 HI1.
  destruct (negb _); [|by apply wp_ret].
  step net_disconnect_spec. intros _ w2 HI2. step plat_spec. intros _ w3 [HI3 _].
  destruct (Z.leb_spec (retry + 1) 3); [apply IH; [done|lia|lia]|by apply wp_ret].
Qed.

Lemma nwk_connect_spec F H w : inv F H w -> wp ok _mqtt_nwk_connect (fun _ => inv F H) w.
Proof. intros HI. by apply (nwk_connect_loop_spec 3). Qed.

Definition keepalive_in (k : Z) : Prop :=
  CONFIG_MQTT_KEEPALIVE_INTERVAL_MIN <= k <= CONFIG_MQTT_KEEPALIVE_INTERVAL_MAX.

Lemma set_keepalive_spec k F H w :
  inv F H w -> keepalive_in k ->
  wp ok (modify (fun c => c <| connect_data ::= fun d => d <| cd_keepAliveInterval := k |> |>))
    (fun _ => inv F H) w.
Proof.
  intros HI Hk. eapply wp_mono; 
    [eapply (set_spec (C' := client_ok)); [exact HI|done|]|by intros _ w' [? _]].
  unfold keepalive_in, CONFIG_MQTT_KEEPALIVE_INTERVAL_MIN, CONFIG_MQTT_KEEPALIVE_INTERVAL_MAX in Hk.
  pose proof (inv_c _ _ _ HI). client_tac. destruct co_connect; split; cbn; try done. lia.
Qed.

Lemma mqtt_connect_loop_spec n try k F H w :
  inv F H w -> below LOCK_READ_BUF H -> keepalive_in k ->
  Z.of_nat n + try = RETRY_TIME_LIMIT -> try < RETRY_TIME_LIMIT ->
  wp ok (mqtt_connect_loop fuel n try k) (fun _ => inv F H) w.
Proof.
  revert try w; induction n as [|n IH]; intros try w HI Hb Hk Hn Ht; [lia|].
  cbn [mqtt_connect_loop]. step MQTTConnect_spec. intros rc w1 (HI1 & _).
  step set_keepalive_spec. intros _ w2 HI2.
  destruct (rc <? STATE_SUCCESS).
  { step net_disconnect_spec. intros _ w3 HI3. by apply wp_ret. }
  step wait_CONNACK_spec. intros rc2 w3 HI3. destruct (_ && _).
  { step net_disconnect_spec. intros _ w4 HI4. by apply wp_ret. }
  destruct (negb _); [|by apply wp_ret].
  step plat_spec. intros _ w4 [HI4 _]. step net_disconnect_spec. intros _ w5 HI5.
  step net_connect_spec. intros _ w6 HI6.
  destruct (Z.ltb_spec (try + 1) RETRY_TIME_LIMIT); [|by apply wp_ret].
  apply IH; [done|done|done|lia|done].
Qed.

Lemma mqtt_connect_spec F H w :
  inv F H w -> below LOCK_READ_BUF H -> wp ok (_mqtt_connect fuel) (fun _ => inv F H) w.
Proof.
  intros HI Hb. unfold _mqtt_connect. step_get.
  pose proof (co_keepalive _ (inv_c _ _ _ HI)) as Hk.
  set (k := cd_keepAliveInterval (connect_data (w_client w))) in *.
  step set_keepalive_spec.
  { unfold keepalive_in, CONFIG_MQTT_KEEPALIVE_INTERVAL_MIN,
      CONFIG_MQTT_KEEPALIVE_INTERVAL_MAX in *. rewrite u16_small by lia. zcase; lia. }
  intros _ w1 HI1.
  eapply wp_bind; [eapply (mqtt_connect_loop_spec 8 1 k); [exact HI1|done|exact Hk|done|done]|].
  cbn beta.
  intros [rc|n] w2 HI2; [by apply wp_ret|].
  destruct (_ =? _); [by apply wp_ret|].
  step_set HI2. intros _ w3 [HI3 _]. step set_state_spec. intros _ w4 [HI4 _]. step_get.
  step plat_spec. intros t w5 [HI5 _]. step_set HI5. intros _ w6 [HI6 _]. by apply wp_ret.
Qed.

(** ** Keep-alive and reconnection *)

Lemma keepalive_sub_spec F H w :
  inv F H w -> below LOCK_WRITE_BUF H ->
  wp ok (iotx_mc_keepalive_sub fuel) (fun _ => inv F H) w.
Proof.
  intros HI Hb. unfold iotx_mc_keepalive_sub. step check_state_spec. intros b w1 (HI1 & _).
  destruct (negb b); [by apply wp_ret|]. step_get.
  step plat_spec. intros ex w2 [HI2 _]. destruct (_ =? 0); [by apply wp_ret|]. step_get.
  step plat_spec. intros t w3 [HI3 _]. step_set HI3. intros _ w4 [HI4 _].
  step MQTTKeepalive_spec. intros rc w5 (HI5 & _). destruct (_ <? _).
  - eapply (wp_bind _ _ _ (fun _ => inv F H)).
    { destruct (_ =? _); [final set_state_spec; by intros _ w6 [? _]|by apply wp_ret]. }
    intros _ w6 HI6. by apply wp_ret.
  - step_set HI5. intros _ w6 [HI6 _]. by apply wp_ret.
Qed.

Lemma attempt_reconnect_spec F H w :
  inv F H w -> below LOCK_READ_BUF H ->
  wp ok (iotx_mc_attempt_reconnect fuel) (fun _ => inv F H) w.
Proof.
  intros HI Hb. unfold iotx_mc_attempt_reconnect. step net_disconnect_spec. intros _ w1 HI1.
  step nwk_connect_spec. intros _ w2 HI2. by apply mqtt_connect_spec.
Qed.

(** The next waiting time is one of those doubling goes through. *)
Lemma interval_next i : i ∈ intervals ->
  (if i <? IOTX_MC_RECONNECT_INTERVAL_MAX_MS then u32 (i * 2)
   else IOTX_MC_RECONNECT_INTERVAL_MAX_MS) ∈ intervals.
Proof.
  unfold intervals. rewrite !elem_of_cons.
  intros [->|[->|[->|[->|[->|[->|[->|[]%not_elem_of_nil]]]]]]]; vm_compute; auto 10.
Qed.

Lemma handle_reconnect_spec F H w :
  inv F H w -> below LOCK_READ_BUF H ->
  wp ok (iotx_mc_handle_reconnect fuel) (fun _ => inv F H) w.
Proof.
  intros HI Hb. unfold iotx_mc_handle_reconnect. step_get. step plat_spec. intros ex w1 [HI1 _].
  destruct (_ =? 0).
  { step plat_spec. intros _ w2 [HI2 _]. by apply wp_ret. }
  step attempt_reconnect_spec. intros rc w2 HI2. destruct (_ =? _).
  { step set_state_spec. intros _ w3 [HI3 _]. by apply wp_ret. }
  destruct (_ =? _); [by apply wp_ret|].
  eapply wp_bind.
  { eapply (set_spec (C' := client_ok)); [exact HI2|done|].
    pose proof (inv_c _ _ _ HI2). client_tac. by apply interval_next. }
  cbn beta. intros _ w3 [HI3 _]. step_get. step plat_spec. intros t w4 [HI4 _].
  step_set HI4. intros _ w5 [HI5 _]. by apply wp_ret.
Qed.

Lemma reset_interval_spec F H w :
  inv F H w ->
  wp ok (modify (fun c => c <| reconnect_param ::= fun r =>
    r <| reconnect_time_interval_ms := IOTX_MC_RECONNECT_INTERVAL_MIN_MS |> |>))
    (fun _ => inv F H) w.
Proof.
  intros HI. eapply wp_mono;
    [eapply (set_spec (C' := client_ok)); [exact HI|done|]|by intros _ w' [? _]].
  pose proof (inv_c _ _ _ HI). client_tac. left.
Qed.

Lemma event_callback_spec t F H w :
  inv F H w -> below LOCK_LIST_PUB H ->
  wp ok (h ← get handle_event;
         if negb (h_fp h =? 0) then on_event h {| event_type := t; msg := MsgNull |}
         else mret tt) (fun _ => inv F H) w.
Proof.
  intros HI Hb. step_get. destruct (negb _); [|by apply wp_ret].
  final on_event_safe. by intros _ w1 [? _].
Qed.

Lemma keepalive_spec F H w :
  inv F H w -> below LOCK_READ_BUF H -> wp ok (iotx_mc_keepalive fuel) (fun _ => inv F H) w.
Proof.
  intros HI Hb. unfold iotx_mc_keepalive. step keepalive_sub_spec. intros _ w1 HI1.
  step get_state_spec. intros st w2 (HI2 & _). destruct (_ || _).
  { step handle_reconnect_spec. intros rc w3 HI3. destruct (_ <? _); [by apply wp_ret|].
    unfold iotx_mc_reconnect_callback. step event_callback_spec. intros _ w4 HI4.
    by apply reset_interval_spec. }
  destruct (bool_decide _); [|by apply wp_ret].
  unfold iotx_mc_disconnect_callback. step event_callback_spec. intros _ w3 HI3.
  step reset_interval_spec. intros _ w4 HI4. step plat_spec. intros t w5 [HI5 _].
  step_set HI5. intros _ w6 [HI6 _]. step net_disconnect_spec. intros _ w7 HI7.
  final set_state_spec. by intros _ w8 [? _].
Qed.

Lemma disconnect_spec F H w :
  inv F H w -> below LOCK_WRITE_BUF H -> wp ok (iotx_mc_disconnect fuel) (fun _ => inv F H) w.
Proof.
  intros HI Hb. unfold iotx_mc_disconnect. step check_state_spec. intros b w1 (HI1 & _).
  eapply (wp_bind _ _ _ (fun _ => inv F H)).
  { destruct b; [|by apply wp_ret]. step MQTTDisconnect_spec. intros rc w2 (HI2 & _).
    by apply wp_ret. }
  intros _ w2 HI2. step net_disconnect_spec. intros _ w3 HI3.
  step set_state_spec. intros _ w4 [HI4 _]. by apply wp_ret.
Qed.
End Session.
