(* ===== verification/MqttApi.v ===== *)
(** * MqttApi: the client's interface is safe

    Every interface function of [MqttSession], run on an initialised client with no
    mutex held, ends with the invariant and no mutex held; initialisation
    establishes the invariant or frees what it allocated, and release gives all the
    blocks back. *)

From S2P Require Import Prelude.
From S2P Require Import InfraState.
From S2P Require Import Hal.
From S2P Require Import InfraTimer.
From S2P Require Import InfraNet.
From S2P Require Import InfraCompat.
From S2P Require Import MqttPacket.
From S2P Require Import MqttConnect.
From S2P Require Import MqttPublish.
From S2P Require Import MqttTopic.
From S2P Require Import MqttState.
From S2P Require Import MqttSend.
From S2P Require Import MqttRecv.
From S2P Require Import MqttSession.
From S2P Require Import MqttLogic.
From S2P Require Import MqttSendSafe.
From S2P Require Import MqttSubSafe.
From S2P Require Import MqttRecvSafe.
From S2P Require Import MqttSessionSafe.

Section Api.
Context {E : Type} `{!Hal E} `{!App E} `{!HalRead E} (fuel : nat) (ok : stop -> Prop).
Context (ok_fuel : ok NoFuel) (ok_read : ok FaultRead).
Context `{!AppSafe ok}.
Implicit Types (F : list nat) (H : list lock) (w : world E).

(** ** Connect and yield *)

Lemma set_cycle_timeout_spec t F H w :
  inv F H w ->
  wp ok (modify (fun c => c <| cycle_timeout_ms := t |>)) (fun _ => inv F H) w.
Proof.
  intros HI. eapply wp_mono;
    [eapply (set_spec (C' := client_ok)); [exact HI|done|]|by intros _ w' [? _]].
  pose proof (inv_c _ _ _ HI). client_tac.
Qed.

(** Reading a setting into an array that is large enough. *)
Lemma ioctl_into_spec opt buf n F H w :
  inv F H w -> List.length buf = n ->
  (opt = IOTX_IOCTL_GET_PRODUCT_KEY /\ Z.of_nat n = IOTX_PRODUCT_KEY_LEN + 1
   \/ opt = IOTX_IOCTL_GET_DEVICE_NAME /\ Z.of_nat n = IOTX_DEVICE_NAME_LEN + 1) ->
  wp ok (ioctl_into opt buf) (fun b w' => inv F H w' /\ List.length b = n) w.
Proof.
  intros HI Hl Ho. unfold ioctl_into, ioctl.
  assert (exists s, (List.length s <= n)%nat /\
    IOT_Ioctl opt (Some (DataBuf buf)) (w_ctx w) =
      (d ← ioctl_get s (DataBuf buf); Some (SUCCESS_RETURN, w_ctx w, Some d))) as (s & Hs & Ec).
  { pose proof (inv_ctx _ _ _ _ HI) as Hx. destruct Ho as [[-> Hn]|[-> Hn]]; eexists;
      (split; [|reflexivity]); [pose proof (so_product_key _ Hx)|pose proof (so_device_name _ Hx)];
      unfold IOTX_PRODUCT_KEY_LEN, IOTX_DEVICE_NAME_LEN in *; lia. }
  cbn [ioctl_get] in Ec. rewrite (proj2 (Nat.ltb_ge _ _)) in Ec by lia.
  cbn [mbind option_bind] in Ec. unfold wp, mbind, prog_bind. rewrite Ec.
  split; [|rewrite length_app, length_drop; lia].
  apply (inv_same F H w); done.
Qed.

Lemma connect_cycle_loop_spec n try pk dn F w :
  inv F [] w -> Z.of_nat n + try = RETRY_TIME_LIMIT -> try < RETRY_TIME_LIMIT ->
  Z.of_nat (List.length pk) = IOTX_PRODUCT_KEY_LEN + 1 ->
  Z.of_nat (List.length dn) = IOTX_DEVICE_NAME_LEN + 1 ->
  wp ok (connect_cycle_loop fuel n try pk dn) (fun _ => inv F []) w.
Proof.
  revert try pk dn w; induction n as [|n IH]; intros try pk dn w HI Hn Ht Hp Hd; [lia|].
  cbn [connect_cycle_loop]. step lock_spec. intros _ w1 [HI1 _].
  step set_cycle_timeout_spec. intros _ w2 HI2. step unlock_spec. intros _ w3 [HI3 _].
  step mqtt_cycle_spec. intros _ w4 HI4.
  step (ioctl_into_spec IOTX_IOCTL_GET_PRODUCT_KEY). intros pk' w5 [HI5 Hp'].
  step (ioctl_into_spec IOTX_IOCTL_GET_DEVICE_NAME). intros dn' w6 [HI6 Hd'].
  destruct (_ && _); [by apply wp_ret|].
  destruct (Z.ltb_spec (try + 1) RETRY_TIME_LIMIT); [|by apply wp_ret].
  apply IH; [done|lia|done|lia|lia].
Qed.

Lemma wrapper_connect_spec F w :
  inv F [] w -> wp ok (wrapper_mqtt_connect fuel) (fun _ => inv F []) w.
Proof.
  intros HI. unfold wrapper_mqtt_connect. step nwk_connect_spec. intros rc w1 HI1.
  destruct (negb _); [by apply wp_ret|]. step mqtt_connect_spec. intros rc2 w2 HI2.
  eapply wp_bind; [apply (connect_cycle_loop_spec 9 0); [exact HI2|done|done|done|done]|].
  cbn beta. intros _ w3 HI3. by apply wp_ret.
Qed.

Lemma wrapper_yield_spec t F w :
  inv F [] w -> wp ok (wrapper_mqtt_yield fuel t) (fun _ => inv F []) w.
Proof.
  intros HI. unfold wrapper_mqtt_yield. destruct (_ <? _); [by apply wp_ret|].
  step lock_spec. intros _ w1 [HI1 _]. step set_cycle_timeout_spec. intros _ w2 HI2.
  step keepalive_spec. intros _ w3 HI3. step unlock_spec. intros _ w4 [HI4 _].
  step mqtt_cycle_spec. intros _ w5 HI5. by apply wp_ret.
Qed.
End Api.

(** ** Publish and subscribe: a handler may call them too *)

Section Requests.
Context {E : Type} `{!Hal E} (fuel : nat) (ok : stop -> Prop) (send_ok : send_fuel fuel ok).
Implicit Types (F : list nat) (H : list lock) (w : world E).

Lemma drop_send_kept c c' : drop_send c' = drop_send c -> kept c c'.
Proof.
  intros Hd. split.
  - apply (f_equal buf_read) in Hd. exact Hd.
  - apply (f_equal buf_size_read) in Hd. exact Hd.
  - apply (f_equal list_sub_handle) in Hd. exists []. rewrite app_nil_r. exact Hd.
Qed.

(** [if (rc == STATE_SYS_DEPEND_NWK_CLOSE) iotx_mc_set_client_state(...)] *)
Lemma nwk_close_spec rc F H w :
  inv F H w -> below LOCK_GENERIC H ->
  wp ok (if rc =? STATE_SYS_DEPEND_NWK_CLOSE
         then iotx_mc_set_client_state IOTX_MC_STATE_DISCONNECTED else mret tt)
    (fun _ w' => inv F H w' /\ exists s, w_client w' = (w_client w) <| client_state := s |>) w.
Proof.
  intros HI Hb. destruct (_ =? _).
  - final set_state_spec. intros _ w1 [HI1 E1]. split; [done|]. by eexists.
  - apply wp_ret. split; [done|]. exists (client_state (w_client w)). by destruct (w_client w).
Qed.

Lemma publication_body_length qos id id' name payload :
  List.length (publish_body qos id name payload) = List.length (publish_body qos id' name payload).
Proof. unfold publish_body. rewrite !length_app. by destruct (0 <? qos). Qed.

Lemma publication_id name info payload id :
  publication_ok name info payload -> 0 <= id < 65536 ->
  publication_ok name (info <| ti_packet_id := id |>) payload.
Proof.
  intros [H1 H2 H3 H4 H5 H6 H7] Hid.
  split; [exact H1|exact H2|exact H3|exact H4|exact H5|exact Hid|].
  cbn [ti_qos ti_packet_id]. revert H7. apply Z.le_trans. apply Z.eq_le_incl. f_equal.
  apply publication_body_length.
Qed.

(** The lists that a publication leaves. *)
Definition published (name : list Z) (info : iotx_mqtt_topic_info_t) (payload : list Z)
    (rc : Z) (c c' : iotx_mc_client_t) : Prop :=
  let packet := publication_packet name (info <| ti_packet_id := rc |>) payload in
  (ti_qos info = IOTX_MQTT_QOS1 /\ 1 <= rc <= IOTX_MC_PACKET_ID_MAX /\ packet_id c' = rc /\
     exists n, list_pub_wait_ack c' = list_pub_wait_ack c ++ [n]
       /\ pub_node n (Z.of_nat (List.length packet)) rc packet)
  \/ (ti_qos info = IOTX_MQTT_QOS0 /\ rc = 0 /\ list_pub_wait_ack c' = list_pub_wait_ack c)
  \/ (rc < 0 /\ list_pub_wait_ack c' = list_pub_wait_ack c).

Lemma assign_id_spec info F H w :
  inv F H w -> below LOCK_GENERIC H ->
  wp ok (if (ti_qos info =? IOTX_MQTT_QOS1) || (ti_qos info =? IOTX_MQTT_QOS2) then
           id ← iotx_mc_get_next_packetid;
           mret (u16 id, info <| ti_packet_id := u16 id |>)
         else mret (0, info)) (fun r w' => inv F H w' /\ exists id,
    1 <= id <= IOTX_MC_PACKET_ID_MAX /\
    if (ti_qos info =? IOTX_MQTT_QOS1) || (ti_qos info =? IOTX_MQTT_QOS2)
    then w_client w' = (w_client w) <| packet_id := id |>
         /\ r = (id, info <| ti_packet_id := id |>)
    else w_client w' = w_client w /\ r = (0, info)) w.
Proof.
  intros HI Hb. destruct (_ || _); last first.
  { apply wp_ret. split; [done|]. by exists 1. }
  step next_packetid_spec. intros id w1 (HI1 & Hid & _ & E1). apply wp_ret. split; [done|].
  unfold IOTX_MC_PACKET_ID_MAX in Hid. rewrite u16_small by lia. by exists id.
Qed.

(** Publishing, and the state that a closed connection leaves. *)
Lemma publish_rest_spec name info payload msg_id F H w :
  inv F H w -> below LOCK_LIST_PUB H -> publication_ok name info payload ->
  wp ok (rc ← MQTTPublish fuel (Some name) (Some info);
         if rc <? STATE_SUCCESS then
           (if rc =? STATE_SYS_DEPEND_NWK_CLOSE
            then iotx_mc_set_client_state IOTX_MC_STATE_DISCONNECTED else mret tt);;
           mret rc
         else mret msg_id) (fun rc w' => inv F H w' /\ kept (w_client w) (w_client w')
    /\ packet_id (w_client w') = packet_id (w_client w) /\
    ((rc = msg_id /\ IOTX_MQTT_QOS0 < ti_qos info /\
        exists n, list_pub_wait_ack (w_client w') = list_pub_wait_ack (w_client w) ++ [n]
          /\ pub_node n (Z.of_nat (List.length (publication_packet name info payload)))
               (ti_packet_id info) (publication_packet name info payload))
     \/ (rc = msg_id /\ ti_qos info <= IOTX_MQTT_QOS0
         /\ list_pub_wait_ack (w_client w') = list_pub_wait_ack (w_client w))
     \/ (rc < 0 /\ list_pub_wait_ack (w_client w') = list_pub_wait_ack (w_client w)))) w.
Proof.
  intros HI Hb Hp. step MQTTPublish_spec. intros rc w1 (HI1 & Hrc).
  destruct Hrc as [(-> & Hq & n & Hn & E1)|[(-> & Hq & E1)|(Hlt & E1)]].
  - cbn [Z.ltb STATE_SUCCESS Z.compare]. apply wp_ret. split; [done|].
    assert (kept (w_client w) ((w_client w) <| list_pub_wait_ack ::= fun l => l ++ [n] |>)) as K0
      by (split; [..|exists []; rewrite app_nil_r]; done).
    split; [etrans; [exact K0|by apply drop_send_kept]|].
    split; [by apply (f_equal packet_id) in E1|]. left. split; [done|]. split; [done|].
    exists n. split; [|done]. by apply (f_equal list_pub_wait_ack) in E1.
  - cbn [Z.ltb STATE_SUCCESS Z.compare]. apply wp_ret. split; [done|].
    split; [by apply drop_send_kept|]. split; [by apply (f_equal packet_id) in E1|].
    right. left. split; [done|]. split; [done|]. by apply (f_equal list_pub_wait_ack) in E1.
  - rewrite (proj2 (Z.ltb_lt _ _)) by done. step nwk_close_spec. intros _ w2 [HI2 [s E2]].
    apply wp_ret. split; [done|]. rewrite E2.
    split; [apply drop_send_kept in E1 as [K1 K2 K3]; by split|].
    split; [by apply (f_equal packet_id) in E1|]. right. right. split; [done|].
    by apply (f_equal list_pub_wait_ack) in E1.
Qed.

Lemma wrapper_publish_spec name info payload F H w :
  inv F H w -> below LOCK_LIST_PUB H -> publication_ok name info payload ->
  0 <= ti_qos info <= 2 ->
  wp ok (wrapper_mqtt_publish fuel (Some name) (Some info)) (fun rc w' => inv F H w'
    /\ kept (w_client w) (w_client w')
    /\ published name info payload rc (w_client w) (w_client w')) w.
Proof.
  intros HI Hb Hp Hq. unfold wrapper_mqtt_publish.
  rewrite bool_decide_eq_false_2 by (by rewrite (pc_payload _ _ _ Hp)).
  destruct (check_topic_spec name TOPIC_NAME_TYPE (pc_name _ _ _ Hp)) as (rc0 & Erc & _ & _ & Hrc0).
  eapply wp_lift_bind; [exact Erc|].
  destruct (Z.ltb_spec rc0 STATE_SUCCESS) as [Hlt|].
  { apply wp_ret. split; [done|]. split; [done|]. by right; right. }
  step check_state_spec. intros b w1 (HI1 & E1 & _). destruct (negb b).
  { step get_state_spec. intros s w2 (HI2 & E2 & _). apply wp_ret. rewrite E2, E1.
    split; [done|]. split; [done|]. by right; right. }
  step assign_id_spec. intros [msg_id info'] w2 (HI2 & id & Hid & Er).
  unfold IOTX_MC_PACKET_ID_MAX in Hid.
  destruct (_ || _) eqn:Eq12; destruct Er as [E2 Er]; injection Er as -> ->;
    rewrite E1 in E2.
  - change (ti_qos (info <| ti_packet_id := id |>)) with (ti_qos info). destruct (Z.eqb_spec (ti_qos info) IOTX_MQTT_QOS2) as [|Hq2].
    { apply wp_ret. rewrite E2. split; [done|].
      split; [by split; [..|by exists []; rewrite app_nil_r]|]. by right; right. }
    rewrite orb_false_r in Eq12. apply Z.eqb_eq in Eq12 as Eq1.
    assert (publication_ok name (info <| ti_packet_id := id |>) payload) as Hp'
      by (apply publication_id; [done|lia]).
    final publish_rest_spec. intros rc w3 (HI3 & K3 & Ei & Hrc). split; [done|].
    rewrite E2 in K3, Ei, Hrc. split; [destruct K3; by split|].
    destruct Hrc as [(-> & _ & n & Hl & Hn)|[(-> & Hq0 & _)|[Hneg Hl]]].
    + left. split; [done|]. split; [done|]. split; [done|]. by exists n.
    + cbn in Hq0. rewrite Eq1 in Hq0. by destruct Hq0.
    + by right; right.
  - apply orb_false_iff in Eq12 as [Eq1%Z.eqb_neq Eq2%Z.eqb_neq].
    unfold IOTX_MQTT_QOS1, IOTX_MQTT_QOS2 in *.
    rewrite (proj2 (Z.eqb_neq _ _)) by done.
    final publish_rest_spec. intros rc w3 (HI3 & K3 & _ & Hrc). split; [done|].
    rewrite E2 in K3, Hrc. split; [exact K3|].
    destruct Hrc as [(_ & Hq0 & _)|[(-> & Hq0 & Hl)|[Hneg Hl]]].
    + unfold IOTX_MQTT_QOS0 in Hq0. lia.
    + right. left. unfold IOTX_MQTT_QOS0 in *. split; [lia|]. by split.
    + by right; right.
Qed.
(** The list that a subscription leaves. *)
Definition subscribed (f : list Z) (fp ctx rc : Z) (c c' : iotx_mc_client_t) : Prop :=
  (1 <= rc <= IOTX_MC_PACKET_ID_MAX /\ packet_id c' = rc /\ exists h,
     sub_key h = (f, {| h_fp := fp; pcontext := ctx |})
     /\ list_sub_handle c' = add_sub h (list_sub_handle c))
  \/ (rc < 0 /\ list_sub_handle c' = list_sub_handle c).

Lemma add_sub_app h l : exists l', add_sub h l = l ++ l'.
Proof.
  unfold add_sub. case_bool_decide; [|by eexists]. exists []. by rewrite app_nil_r.
Qed.

Lemma kept_update c c' l :
  buf_read c' = buf_read c -> buf_size_read c' = buf_size_read c ->
  list_sub_handle c' = list_sub_handle c ++ l -> kept c c'.
Proof. intros. by split; [..|exists l]. Qed.

(** The common start of [wrapper_mqtt_subscribe] and [wrapper_mqtt_unsubscribe]:
    an error, or the checked filter and its packet identifier. *)
Lemma filter_checked f : cstr_ok f ->
  exists rc, iotx_mc_check_topic (Some f) TOPIC_FILTER_TYPE = Some rc /\ rc <= STATE_SUCCESS.
Proof. intros Hf. destruct (check_topic_spec f TOPIC_FILTER_TYPE Hf) as (rc & ? & _ & _ & ?). eauto. Qed.

Lemma wrapper_subscribe_spec f qos fp ctx F H w :
  inv F H w -> below LOCK_LIST_PUB H -> filter_in f -> 0 <= qos < 256 ->
  wp ok (wrapper_mqtt_subscribe fuel (Some f) qos fp ctx) (fun rc w' => inv F H w'
    /\ kept (w_client w) (w_client w')
    /\ subscribed f fp ctx rc (w_client w) (w_client w')) w.
Proof.
  intros HI Hb Hf Hq. unfold wrapper_mqtt_subscribe. destruct (_ || _).
  { apply wp_ret. split; [done|]. split; [done|]. by right. }
  step next_packetid_spec. intros id w1 (HI1 & Hid & _ & E1).
  assert (forall rc w', w_client w' = w_client w1 -> rc < 0 ->
    kept (w_client w) (w_client w') /\ subscribed f fp ctx rc (w_client w) (w_client w')) as Hsame.
  { intros rc w' E' Hrc. rewrite E', E1. split; [|by right].
    by apply (kept_update _ _ []); rewrite ?app_nil_r. }
  step check_state_spec. intros b w2 (HI2 & E2 & _). destruct (negb b).
  { step get_state_spec. intros s w3 (HI3 & E3 & _). apply wp_ret. split; [done|].
    apply Hsame; [congruence|done]. }
  destruct (filter_checked f (fi_chars _ Hf)) as (rc0 & Erc & _).
  eapply wp_lift_bind; [exact Erc|].
  destruct (Z.ltb_spec rc0 STATE_SUCCESS).
  { apply wp_ret. split; [done|]. by apply Hsame. }
  step MQTTSubscribe_spec. intros rc w3 (HI3 & Hrc).
  destruct Hrc as [(-> & h & Hk & E3)|[Hlt E3]].
  - cbn [Z.ltb STATE_SUCCESS Z.compare]. apply wp_ret. split; [done|].
    assert (list_sub_handle (w_client w3) = add_sub h (list_sub_handle (w_client w))) as El.
    { apply (f_equal list_sub_handle) in E3. rewrite E2, E1 in E3. exact E3. }
    split.
    + destruct (add_sub_app h (list_sub_handle (w_client w))) as [l Ha].
      apply (kept_update _ _ l); [| |by rewrite El].
      * apply (f_equal buf_read) in E3. rewrite E2, E1 in E3. exact E3.
      * apply (f_equal buf_size_read) in E3. rewrite E2, E1 in E3. exact E3.
    + left. split; [done|]. split; [|by exists h].
      apply (f_equal packet_id) in E3. rewrite E2, E1 in E3. exact E3.
  - rewrite (proj2 (Z.ltb_lt _ _)) by done. step nwk_close_spec. intros _ w4 [HI4 [s E4]].
    apply wp_ret. split; [done|]. rewrite E2, E1 in E3. rewrite E4. split.
    + apply drop_send_kept in E3. destruct E3 as [K1 K2 K3]. by split.
    + right. split; [done|]. by apply (f_equal list_sub_handle) in E3.
Qed.

Lemma wrapper_unsubscribe_spec f F H w :
  inv F H w -> below LOCK_LIST_PUB H -> filter_in f ->
  wp ok (wrapper_mqtt_unsubscribe fuel (Some f)) (fun rc w' => inv F H w' /\
    ((1 <= rc <= IOTX_MC_PACKET_ID_MAX
      /\ list_sub_handle (w_client w') = unsub_list f (list_sub_handle (w_client w)))
     \/ (rc < 0 /\ list_sub_handle (w_client w') = list_sub_handle (w_client w)))) w.
Proof.
  intros HI Hb Hf. unfold wrapper_mqtt_unsubscribe. rewrite bool_decide_eq_false_2 by done.
  step next_packetid_spec. intros id w1 (HI1 & Hid & _ & E1).
  destruct (filter_checked f (fi_chars _ Hf)) as (rc0 & Erc & _).
  eapply wp_lift_bind; [exact Erc|].
  destruct (Z.ltb_spec rc0 STATE_SUCCESS).
  { apply wp_ret. split; [done|]. right. rewrite E1. by split. }
  step check_state_spec. intros b w2 (HI2 & E2 & _). destruct (negb b).
  { step get_state_spec. intros s w3 (HI3 & E3 & _). apply wp_ret. split; [done|].
    right. rewrite E3, E2, E1. by split. }
  step MQTTUnsubscribe_spec. intros rc w3 (HI3 & Hrc).
  destruct Hrc as [[-> E3]|[Hlt E3]]; apply (f_equal list_sub_handle) in E3;
    rewrite E2, E1 in E3.
  - cbn [Z.ltb STATE_SUCCESS Z.compare]. apply wp_ret. split; [done|]. left. split; [done|].
    exact E3.
  - rewrite (proj2 (Z.ltb_lt _ _)) by done. step nwk_close_spec. intros _ w4 [HI4 [s E4]].
    apply wp_ret. split; [done|]. right. split; [done|]. rewrite E4. exact E3.
Qed.
End Requests.

(** ** The synchronous subscription *)

Section Sync.
Context {E : Type} `{!Hal E} `{!App E} `{!HalRead E} (fuel : nat) (ok : stop -> Prop).
Context (ok_fuel : ok NoFuel) (ok_read : ok FaultRead).
Context `{!AppSafe ok}.
Implicit Types (F : list nat) (H : list lock) (w : world E).

Lemma sync_del_spec a F H w :
  inv F H w -> a ∈ (ss_addr <$> list_sub_sync_ack (w_client w)) ->
  wp ok (sync_del a) (fun _ w' => inv F H w' /\ w_client w' =
    (w_client w) <| list_sub_sync_ack ::= filter (fun n => ss_addr n <> a) |>) w.
Proof.
  intros HI Ha. unfold sync_del. destruct (inv_nodup _ _ _ HI) as (_ & _ & Hd).
  apply list_elem_of_fmap in Ha as (n & -> & Hn).
  pose proof (filter_ne_perm ss_addr _ n Hd Hn) as Hp.
  eapply wp_bind.
  { eapply (modify_spec _ _ F (ss_addr n :: F)); [exact HI| |].
    - unfold owned. cbn. rewrite Hp at 2. cbn. solve_Permutation.
    - pose proof (inv_c _ _ _ HI). client_tac. }
  cbn beta. intros _ w1 [HI1 E1]. final free_spec. intros _ w2 [HI2 E2]. by rewrite E2.
Qed.

Lemma sync_check_spec ret subed F H w :
  inv F H w -> wp ok (sync_check ret subed) (fun _ => inv F H) w.
Proof.
  intros HI. unfold sync_check. step_get.
  destruct (list_sub_sync_ack (w_client w)) as [|n l] eqn:El; [by apply wp_ret|].
  assert (ss_addr n ∈ (ss_addr <$> list_sub_sync_ack (w_client w))) as Hn
    by (rewrite El; left).
  destruct (_ =? _); [|by apply wp_ret].
  destruct (bool_decide _).
  { step sync_del_spec. intros _ w1 [HI1 _]. by apply wp_ret. }
  destruct (_ || _); [|by apply wp_ret].
  step sync_del_spec. intros _ w1 [HI1 _]. by apply wp_ret.
Qed.

Lemma sync_add_spec ret F w :
  inv F [] w ->
  wp ok (a ← mqtt_malloc sizeof_sub_sync_node;
         match a with
         | None => mret false
         | Some a =>
             HAL_MutexLock LOCK_GENERIC;;
             modify (fun c => c <| list_sub_sync_ack ::= fun l => l ++
               [{| ss_addr := a; ss_packet_id := ret; ack_type := IOTX_MQTT_EVENT_UNDEF |}] |>);;
             HAL_MutexUnlock LOCK_GENERIC;;
             mret true
         end) (fun _ => inv F []) w.
Proof.
  intros HI. step malloc_spec. intros [a|] w1 [HI1 E1]; [|by apply wp_ret].
  step lock_spec. intros _ w2 [HI2 E2].
  eapply wp_bind.
  { eapply (modify_spec _ _ (a :: F) F); [exact HI2| |].
    - unfold owned. cbn. rewrite fmap_app. cbn. solve_Permutation.
    - pose proof (inv_c _ _ _ HI2). client_tac. }
  cbn beta. intros _ w3 [HI3 _]. step unlock_spec. intros _ w4 [HI4 _]. by apply wp_ret.
Qed.

Lemma subscribe_sync_loop_spec n f qos fp ctx timer ret subed F w :
  inv F [] w -> filter_in f -> 0 <= qos < 256 ->
  wp ok (subscribe_sync_loop fuel n (Some f) qos fp ctx timer ret subed)
    (fun _ => inv F []) w.
Proof.
  revert ret subed w; induction n as [|n IH]; intros ret subed w HI Hf Hq; [done|].
  cbn [subscribe_sync_loop].
  eapply (wp_bind _ _ _ (fun _ => inv F [])).
  { destruct (ret <? 0); [|by apply wp_ret].
    step wrapper_subscribe_spec. intros r w1 (HI1 & _).
    step in_yield_cb_spec. intros cb w2 [HI2 _]. by destruct (_ || _); apply wp_ret. }
  intros [r|r] w1 HI1; [by apply wp_ret|].
  eapply (wp_bind _ _ _ (fun _ => inv F [])).
  { destruct (negb subed && (0 <=? r)) eqn:Ea; [|by apply wp_ret].
    destruct subed; [done|]. by apply sync_add_spec. }
  intros s w2 HI2. step wrapper_yield_spec. intros _ w3 HI3.
  step lock_spec. intros _ w4 [HI4 _]. step sync_check_spec. intros r2 w5 HI5.
  step unlock_spec. intros _ w6 [HI6 _]. destruct r2 as [r2|[r2 s2]]; [by apply wp_ret|].
  step plat_spec. intros ex w7 [HI7 _]. destruct (negb _); [by apply wp_ret|by apply IH].
Qed.

Lemma sync_timeout_loop_spec ret nodes F H w :
  inv F H w -> NoDup (ss_addr <$> nodes) ->
  Forall (fun n => ss_addr n ∈ (ss_addr <$> list_sub_sync_ack (w_client w))) nodes ->
  wp ok (sync_timeout_loop ret nodes) (fun _ => inv F H) w.
Proof.
  revert w; induction nodes as [|n nodes IH]; intros w HI Hd Hin; [done|].
  cbn in Hd. apply NoDup_cons in Hd as [Hn Hd]. apply Forall_cons in Hin as [Hinn Hin].
  cbn [sync_timeout_loop].
  eapply (wp_bind _ _ _ (fun _ w' => inv F H w' /\
    Forall (fun m => ss_addr m ∈ (ss_addr <$> list_sub_sync_ack (w_client w'))) nodes)).
  { destruct (_ =? _); [|by apply wp_ret].
    final sync_del_spec. intros _ w1 [HI1 E1]. split; [done|]. rewrite E1. cbn.
    rewrite Forall_forall in Hin |- *. intros m Hm. apply list_elem_of_fmap.
    pose proof (Hin m Hm) as (m' & Em & Hm')%list_elem_of_fmap.
    exists m'. split; [done|]. apply list_elem_of_filter. split; [|done].
    intros Heq. apply Hn. rewrite <-Heq, <-Em. by apply list_elem_of_fmap_2. }
  intros _ w1 [HI1 Hin1]. by apply IH.
Qed.

Lemma wrapper_subscribe_sync_spec f qos fp ctx timeout F w :
  inv F [] w -> filter_in f -> 0 <= qos < 256 ->
  wp ok (wrapper_mqtt_subscribe_sync fuel (Some f) qos fp ctx timeout) (fun _ => inv F []) w.
Proof.
  intros HI Hf Hq. unfold wrapper_mqtt_subscribe_sync. step plat_spec. intros t w1 [HI1 _].
  step subscribe_sync_loop_spec; [unfold IOTX_MQTT_QOS0; zcase; lia|].
  intros [r|r] w2 HI2; [by apply wp_ret|].
  step lock_spec. intros _ w3 [HI3 E3]. step_get.
  step sync_timeout_loop_spec.
  { by destruct (inv_nodup _ _ _ HI3) as (_ & _ & ?). }
  { apply Forall_forall. intros n Hn. by apply list_elem_of_fmap_2. }
  intros _ w4 HI4. step unlock_spec. intros _ w5 [HI5 _]. by apply wp_ret.
Qed.
End Sync.
