(* ===== verification/MqttLife.v ===== *)
(** * MqttLife: the life of a client

    Initialisation, release, and the states that a client reaches through its
    interface. *)

From S2P Require Import Prelude.
From S2P Require Import InfraState.
From S2P Require Import Hal.
From S2P Require Import InfraTimer.
From S2P Require Import InfraNet.
From S2P Require Import InfraCompat.
From S2P Require Import MqttPacket.
From S2P Require Import MqttConnect.
From S2P Require Import MqttPublish.
From S2P Require Import MqttTopic.
From S2P Require Import MqttState.
From S2P Require Import MqttSend.
From S2P Require Import MqttRecv.
From S2P Require Import MqttSession.
From S2P Require Import MqttLogic.
From S2P Require Import MqttSendSafe.
From S2P Require Import MqttSubSafe.
From S2P Require Import MqttRecvSafe.
From S2P Require Import MqttSessionSafe.
From S2P Require Import MqttApi.

(** State events are reported while a client is being initialised, too; a handler
    then has no client to call. *)
Class AppInit {E} `{!App E} (ok : stop -> Prop) := {
  state_event_init c C F (w : world E) :
    cinv C F [] w ->
    wp ok (iotx_state_event c) (fun _ w' => cinv C F [] w' /\ w_client w' = w_client w) w
}.

Section Life.
Context {E : Type} `{!Hal E} `{!App E} (fuel : nat) (ok : stop -> Prop).
Implicit Types (F : list nat) (H : list lock) (w : world E).

(** ** Initialisation *)

Lemma cinv_weaken (C C' : iotx_mc_client_t -> Prop) F H w :
  cinv C F H w -> (C (w_client w) -> C' (w_client w)) -> cinv C' F H w.
Proof. intros [? HC ? ? ?] HCC. split; auto. Qed.

(** A client without buffers or list nodes. *)
Record fresh (c : iotx_mc_client_t) : Prop := {
  fr_send : buf_send c = None;
  fr_read : buf_read c = None;
  fr_subs : list_sub_handle c = [];
  fr_pubs : list_pub_wait_ack c = [];
  fr_sync : list_sub_sync_ack c = [];
  fr_send_size : buf_size_send c = 0;
  fr_read_size : buf_size_read c = 0;
  fr_id : packet_id c = 0
}.

Lemma fresh_owned c : fresh c -> owned c = [].
Proof. intros [E1 E2 E3 E4 E5 _ _ _]. unfold owned. by rewrite E1, E2, E3, E4, E5. Qed.

Lemma fresh_set_lock l b c : fresh c -> fresh (set_lock l b c).
Proof. intros []. by destruct l; split. Qed.

Lemma lock_created_set l b c : lock_created l (set_lock l b c) = b.
Proof. by destruct l. Qed.

Lemma lock_created_other l k b c : l <> k -> lock_created l (set_lock k b c) = lock_created l c.
Proof. by destruct l, k. Qed.

(** A client being initialised, with the mutexes [ls] created. *)
Definition built (ls : list lock) (c : iotx_mc_client_t) : Prop :=
  fresh c /\ Forall (fun l => lock_created l c = true) ls.

Lemma built_set_lock l (b : bool) ls c :
  built ls c -> l ∉ ls -> built (if b then l :: ls else ls) (set_lock l b c).
Proof.
  intros [Hf Hl] Hn. split; [by apply fresh_set_lock|].
  assert (Forall (fun k => lock_created k (set_lock l b c) = true) ls) as Hls.
  { rewrite Forall_forall in Hl |- *. intros k Hk. rewrite lock_created_other; [by apply Hl|].
    intros ->. done. }
  destruct b; [constructor; [apply lock_created_set|done]|done].
Qed.

Lemma mutex_create_spec l ls F w :
  cinv (built ls) F [] w -> l ∉ ls ->
  wp ok (mutex_create l) (fun b => cinv (built (if b then l :: ls else ls)) F []) w.
Proof.
  intros HI Hn. unfold mutex_create. step plat_spec. intros b w1 [HI1 E1].
  eapply wp_bind.
  { eapply (set_spec (C' := built (if b then l :: ls else ls))); [exact HI1| |].
    - rewrite !fresh_owned; [done|apply HI1|apply fresh_set_lock, HI1].
    - apply built_set_lock; [apply HI1|done]. }
  cbn beta. intros _ w2 [HI2 _]. by apply wp_ret.
Qed.

Context `{!AppInit ok}.

Lemma create_locks_spec ks ls F w :
  cinv (built ls) F [] w -> NoDup ks -> (forall l, l ∈ ks -> l ∉ ls) ->
  wp ok (create_locks ks) (fun b w' => exists ls',
    cinv (built ls') F [] w' /\ (forall l, l ∈ ls -> l ∈ ls')
    /\ (b = true -> forall l, l ∈ ks -> l ∈ ls')) w.
Proof.
  revert ls w; induction ks as [|k ks IH]; intros ls w HI Hd Hks.
  { apply wp_ret. exists ls. split; [done|]. split; [done|].
    by intros _ l ?%not_elem_of_nil. }
  cbn [create_locks]. apply NoDup_cons in Hd as [Hk Hd].
  step mutex_create_spec; [apply Hks; by left|]. intros b w1 HI1. destruct b.
  - final (IH (k :: ls)).
    + intros l Hl. rewrite not_elem_of_cons. split; [by intros ->|]. apply Hks. by right.
    + intros b w2 (ls' & HI2 & Hls & Hb). exists ls'. split; [done|].
      split; [intros l Hl; apply Hls; by right|].
      intros Eb l [->|Hl]%elem_of_cons; [apply Hls; by left|by apply Hb].
  - step state_event_init. intros _ w2 [HI2 _]. apply wp_ret. by exists ls.
Qed.

Lemma built_state_spec s ls F w :
  cinv (built ls) F [] w -> LOCK_GENERIC ∈ ls ->
  wp ok (iotx_mc_set_client_state s) (fun _ => cinv (built ls) F []) w.
Proof.
  intros HI Hg. unfold iotx_mc_set_client_state.
  assert (lock_created LOCK_GENERIC (w_client w) = true) as Hc.
  { destruct (inv_client _ _ _ _ HI) as [_ Hl]. rewrite Forall_forall in Hl. by apply Hl. }
  step clock_spec. intros _ w1 [HI1 E1].
  eapply wp_bind.
  { eapply (set_spec (C' := built ls)); [exact HI1|done|].
    destruct (inv_client _ _ _ _ HI1) as [[] Hl]. split; [by split|exact Hl]. }
  cbn beta. intros _ w2 [HI2 _]. final unlock_spec. by intros _ w3 [? _].
Qed.

Lemma owned_set_lock l b c : owned (set_lock l b c) = owned c.
Proof. by destruct l. Qed.

Lemma destroy_spec (C : iotx_mc_client_t -> Prop) l F w :
  cinv C F [] w -> (forall c, C c -> C (set_lock l false c)) ->
  wp ok (destroy_if_created l) (fun _ => cinv C F []) w.
Proof.
  intros HI HC. unfold destroy_if_created. step_get. destruct (lock_created l _); [|by apply wp_ret].
  unfold wp, HAL_MutexDestroy. rewrite bool_decide_eq_false_2
    by (rewrite (inv_held _ _ _ _ HI); apply not_elem_of_nil).
  destruct (set_spec (C' := C) ok (set_lock l false) F [] w HI) as [HI' _];
    [apply owned_set_lock|apply HC, HI|done].
Qed.

(** What a failed initialisation leaves: nothing but the generic mutex. *)
Definition leftover (c : iotx_mc_client_t) : Prop := fresh c /\ lock_generic c = true.

Lemma leftover_destroy l c : l <> LOCK_GENERIC -> leftover c -> leftover (set_lock l false c).
Proof. intros Hl [Hf Hg]. split; [by apply fresh_set_lock|]. by destruct l. Qed.

Lemma free_buffers_fresh w :
  fresh (w_client w) -> wp ok free_buffers (fun _ w' => w' = w) w.
Proof.
  intros Hf. unfold free_buffers. step_get. rewrite (fr_send _ Hf).
  apply wp_ret_bind. step_get. rewrite (fr_read _ Hf). by apply wp_ret.
Qed.

(** The error path: nothing of the client is left but its block. *)
Lemma init_return_error s rc ls F w :
  cinv (built ls) F [] w -> LOCK_GENERIC ∈ ls -> rc < STATE_SUCCESS ->
  wp ok (init_return s rc) (fun r w' => r = rc /\ cinv leftover F [] w') w.
Proof.
  intros HI Hg Hrc. unfold init_return. step built_state_spec. intros _ w1 HI1.
  rewrite (proj2 (Z.ltb_lt _ _)) by done.
  assert (cinv leftover F [] w1) as HI1'.
  { eapply cinv_weaken; [exact HI1|]. intros [Hf Hl]. split; [done|].
    rewrite Forall_forall in Hl. by apply (Hl LOCK_GENERIC). }
  clear HI1. pose proof (inv_client _ _ _ _ HI1') as [Hf _].
  eapply (wp_bind _ _ _ (fun _ => cinv leftover F [])).
  { eapply wp_bind; [by apply free_buffers_fresh|]. intros _ ? ->.
    repeat (eapply wp_bind; [eapply destroy_spec; [eassumption|intros; by apply leftover_destroy]|];
            cbn beta; intros _ ? ?).
    eapply destroy_spec; [eassumption|intros; by apply leftover_destroy]. }
  intros _ w2 HI2. by apply wp_ret.
Qed.

(** Parameters within the limits of the protocol and of the platform. *)
Record param_ok (p : iotx_mqtt_param_t) : Prop := {
  po_write : 0 <= p_write_buf_size p < 2147483648;
  po_read : p_read_buf_size p = 0 \/ 5 <= p_read_buf_size p < 2147483648;
  po_client : mstr_ok (cstr_mstring (p_client_id p));
  po_user : mstr_ok (cstr_mstring (p_username p));
  po_pass : mstr_ok (cstr_mstring (p_password p))
}.
(** The client that [iotx_mc_init] leaves when it succeeds. *)
Record ready (p : iotx_mqtt_param_t) (c : iotx_mc_client_t) : Prop := {
  rd_ok : client_ok c;
  rd_fresh : fresh c;
  rd_state : client_state c = IOTX_MC_STATE_INITIALIZED;
  rd_send_max : buf_size_send_max c = p_write_buf_size p;
  rd_read_max : buf_size_read_max c = p_read_buf_size p
}.

Definition init_timeout (p : iotx_mqtt_param_t) : Z :=
  if (p_request_timeout_ms p <? CONFIG_MQTT_REQ_TIMEOUT_MIN)
     || (CONFIG_MQTT_REQ_TIMEOUT_MAX <? p_request_timeout_ms p)
  then CONFIG_MQTT_REQUEST_TIMEOUT else p_request_timeout_ms p.

(** After the first block of assignments. *)
Record configured (p : iotx_mqtt_param_t) (c : iotx_mc_client_t) : Prop := {
  cf_locks : forall l, lock_created l c = true;
  cf_fresh : fresh c;
  cf_timeout : CONFIG_MQTT_REQ_TIMEOUT_MIN <= request_timeout_ms c <= CONFIG_MQTT_REQ_TIMEOUT_MAX;
  cf_send_max : buf_size_send_max c = p_write_buf_size p;
  cf_read_max : buf_size_read_max c = p_read_buf_size p;
  cf_interval : reconnect_time_interval_ms (reconnect_param c) = IOTX_MC_RECONNECT_INTERVAL_MIN_MS
}.

Definition init_connect_data (p : iotx_mqtt_param_t) : MQTTPacket_connectData :=
  MQTTPacket_connectData_initializer
    <| cd_MQTTVersion := IOTX_MC_MQTT_VERSION |>
    <| cd_keepAliveInterval := u16 (Z.quot (p_keepalive_interval_ms p) 1000) |>
    <| cd_clientID := cstr_mstring (p_client_id p) |>
    <| cd_username := cstr_mstring (p_username p) |>
    <| cd_password := cstr_mstring (p_password p) |>
    <| cd_cleansession := p_clean_session p |>.

Lemma empty_mstr_ok : mstr_ok MQTTString_initializer.
Proof. split; cbn; try done; try lia. constructor. Qed.

Lemma init_connect_ok p k : param_ok p -> 0 <= k < 65536 ->
  connect_ok ((init_connect_data p) <| cd_keepAliveInterval := k |>).
Proof.
  intros [_ _ H1 H2 H3] Hk. split; cbn; try done; [by right|apply empty_mstr_ok..].
Qed.

Lemma set_connect_params_spec p F w :
  cinv (configured p) F [] w -> param_ok p ->
  0 < p_write_buf_size p -> 0 < p_read_buf_size p ->
  wp ok (iotx_mc_set_connect_params (init_connect_data p))
    (fun rc w' => rc = STATE_SUCCESS /\ cinv (fun c => client_ok c /\ fresh c
       /\ buf_size_send_max c = p_write_buf_size p
       /\ buf_size_read_max c = p_read_buf_size p) F [] w') w.
Proof.
  intros HI Hp Hw Hr. unfold iotx_mc_set_connect_params.
  set (k := if _ <? _ then _ else _).
  assert (CONFIG_MQTT_KEEPALIVE_INTERVAL_MIN <= k <= CONFIG_MQTT_KEEPALIVE_INTERVAL_MAX) as Hk.
  { unfold k, CONFIG_MQTT_KEEPALIVE_INTERVAL_MIN, CONFIG_MQTT_KEEPALIVE_INTERVAL_MAX,
      CONFIG_MQTT_KEEPALIVE_INTERVAL. zcases. }
  eapply wp_bind.
  { eapply set_spec; [exact HI|done|].
    instantiate (1 := fun c => client_ok c /\ fresh c
       /\ buf_size_send_max c = p_write_buf_size p /\ buf_size_read_max c = p_read_buf_size p).
    destruct (inv_client _ _ _ _ HI) as [C1 C2 C3 C4 C5 C6]. destruct C2. pose proof Hp as [P1 P2 _ _ _].
    unfold CONFIG_MQTT_KEEPALIVE_INTERVAL_MIN, CONFIG_MQTT_KEEPALIVE_INTERVAL_MAX in Hk.
    split; [|split; [by split|by split]]. split; cbn.
    - intros l. by destruct l; [apply (C1 LOCK_YIELD)|apply (C1 LOCK_READ_BUF)|
        apply (C1 LOCK_LIST_PUB)|apply (C1 LOCK_WRITE_BUF)|apply (C1 LOCK_GENERIC)].
    - intros b Eb. cbn in Eb. congruence.
    - intros b Eb. cbn in Eb. congruence.
    - rewrite fr_send_size0, C4. lia.
    - rewrite fr_read_size0, C5. lia.
    - rewrite C4. lia.
    - rewrite C5. lia.
    - rewrite fr_id0. unfold IOTX_MC_PACKET_ID_MAX. lia.
    - exact C3.
    - apply init_connect_ok; [done|lia].
    - exact Hk.
    - rewrite fr_pubs0. unfold IOTX_MC_REPUB_NUM_MAX. cbn. lia.
    - rewrite fr_pubs0. constructor.
    - rewrite fr_subs0. constructor.
    - rewrite C6. left. }
  cbn beta. intros _ w1 [HI1 _]. by apply wp_ret.
Qed.
Lemma fresh_zero : fresh client_zero.
Proof. by split. Qed.

Lemma nodup_locks : NoDup [LOCK_LIST_PUB; LOCK_YIELD; LOCK_WRITE_BUF; LOCK_READ_BUF].
Proof. by apply (bool_decide_unpack _). Qed.

(** The client after [iotx_mc_init] returned the error [rc]: the bare -1 leaves the
    generic mutex behind. *)
Definition failed (rc : Z) (c : iotx_mc_client_t) : Prop :=
  fresh c /\ (rc = -1 -> lock_generic c = true).

Lemma leftover_failed rc c : leftover c -> failed rc c.
Proof. by intros [? ?]. Qed.

(** The last part of [iotx_mc_init], from the connect parameters on. *)
Lemma init_finish_spec p F w :
  cinv (fun c => client_ok c /\ fresh c /\ buf_size_send_max c = p_write_buf_size p
          /\ buf_size_read_max c = p_read_buf_size p) F [] w ->
  wp ok (modify (fun c => c <| next_ping_time := iotx_time_init |>
           <| reconnect_param ::= fun r => r <| reconnect_next_time := iotx_time_init |> |>);;
         let '(rc, n) := iotx_net_init utils_network_zero (p_host p) (p_port p) (p_pub_key p) in
         modify (fun c => c <| ipstack := n |>);;
         if negb (STATE_SUCCESS =? rc) then
           iotx_state_event rc;; init_return IOTX_MC_STATE_INVALID rc
         else init_return IOTX_MC_STATE_INITIALIZED STATE_SUCCESS)
    (fun rc w' => (rc = STATE_SUCCESS /\ cinv (ready p) F [] w')
                  \/ (rc < STATE_SUCCESS /\ cinv (failed rc) F [] w')) w.
Proof.
  intros HI.
  eapply wp_bind.
  { eapply (set_spec (C' := fun c => client_ok c /\ fresh c /\
      buf_size_send_max c = p_write_buf_size p /\ buf_size_read_max c = p_read_buf_size p));
      [exact HI|done|].
    destruct (inv_client _ _ _ _ HI) as (Hc & [] & ? & ?). split; [client_tac|].
    split; [by split|by split]. }
  cbn beta. intros _ w1 [HI1 _].
  destruct (iotx_net_init _ _ _ _) as [rc n] eqn:En.
  assert (rc = STATE_SUCCESS \/ rc = STATE_USER_INPUT_INVALID) as Hrc.
  { unfold iotx_net_init in En. destruct (p_host p); injection En as <- _; auto. }
  eapply wp_bind.
  { eapply (set_spec (C' := fun c => client_ok c /\ fresh c /\
      buf_size_send_max c = p_write_buf_size p /\ buf_size_read_max c = p_read_buf_size p));
      [exact HI1|done|].
    destruct (inv_client _ _ _ _ HI1) as (Hc & [] & ? & ?). split; [client_tac|].
    split; [by split|by split]. }
  cbn beta. intros _ w2 [HI2 _].
  destruct Hrc as [-> | ->]; cbn [Z.eqb negb STATE_SUCCESS STATE_USER_INPUT_INVALID].
  - unfold init_return. cbn [Z.ltb STATE_SUCCESS Z.compare].
    assert (inv F [] w2) as HI2'.
    { eapply cinv_weaken; [exact HI2|by intros [? _]]. }
    eapply wp_bind; [eapply set_state_spec; [exact HI2'|apply below_nil]|]. cbn beta. intros _ w3 [HI3 E3].
    apply wp_ret_bind. apply wp_ret. left. split; [done|].
    eapply cinv_weaken; [exact HI3|]. intros Hc.
    destruct (inv_client _ _ _ _ HI2) as (_ & [] & ? & ?).
    rewrite E3 in Hc |- *. split; [exact Hc|by split|done..].
  - assert (cinv (built [LOCK_GENERIC]) F [] w2) as HI2'.
    { eapply cinv_weaken; [exact HI2|]. intros (Hc & Hf & _). split; [done|].
      apply Forall_singleton. by apply co_locks. }
    step state_event_init. intros _ w3 [HI3 _].
    eapply wp_mono; [eapply init_return_error; [exact HI3|left|vm_compute; reflexivity]|]. cbn beta.
    intros rc w4 [-> HI4]. right. split; [done|].
    eapply cinv_weaken; [exact HI4|apply leftover_failed].
Qed.
Definition all_locks : list lock :=
  [LOCK_GENERIC; LOCK_LIST_PUB; LOCK_YIELD; LOCK_WRITE_BUF; LOCK_READ_BUF].

Lemma configured_built p ls c :
  built ls c -> (forall l, l ∈ ls) -> 
  configured p (c <| request_timeout_ms := init_timeout p |>
              <| buf_size_send_max := p_write_buf_size p |>
              <| buf_size_read_max := p_read_buf_size p |>
              <| keepalive_probes := 0 |>
              <| handle_event := p_handle_event p |>
              <| reconnect_param ::= fun r =>
                   r <| reconnect_time_interval_ms := IOTX_MC_RECONNECT_INTERVAL_MIN_MS |> |>
              <| list_pub_wait_ack := [] |>
              <| list_sub_handle := [] |>
              <| list_sub_sync_ack := [] |>).
Proof.
  intros [[] Hl] Hall. rewrite Forall_forall in Hl. split; cbn; try done.
  - intros l. specialize (Hl l (Hall l)). by destruct l.
  - unfold init_timeout, CONFIG_MQTT_REQ_TIMEOUT_MIN, CONFIG_MQTT_REQ_TIMEOUT_MAX,
      CONFIG_MQTT_REQUEST_TIMEOUT.
    destruct (Z.ltb_spec (p_request_timeout_ms p) 1000); cbn [orb]; [lia|].
    destruct (Z.ltb_spec 10000 (p_request_timeout_ms p)); lia.
Qed.

Lemma iotx_mc_init_spec p F w :
  cinv fresh F [] w -> param_ok p ->
  wp ok (iotx_mc_init (Some p))
    (fun rc w' => (rc = STATE_SUCCESS /\ cinv (ready p) F [] w')
                  \/ (rc < STATE_SUCCESS /\ cinv (failed rc) F [] w')) w.
Proof.
  intros HI Hp. unfold iotx_mc_init.
  destruct ((p_write_buf_size p =? 0) || (p_read_buf_size p =? 0)) eqn:Ez.
  { apply wp_ret. right. split; [done|]. eapply cinv_weaken; [exact HI|]. by split. }
  apply orb_false_iff in Ez as [Hw%Z.eqb_neq Hr%Z.eqb_neq].
  pose proof (po_write _ Hp) as Hpw. pose proof (po_read _ Hp) as Hpr.
  assert (cinv (built []) F [] w) as HI0.
  { eapply cinv_weaken; [exact HI|]. intros Hf. by split. }
  eapply wp_bind; [apply mutex_create_spec; [exact HI0|apply not_elem_of_nil]|]. cbn beta.
  intros [] w1 HI1; cbn [negb]; last first.
  { step state_event_init. intros _ w2 [HI2 _]. apply wp_ret. right.
    split; [done|]. eapply cinv_weaken; [exact HI2|]. intros [? _]. by split. }
  eapply wp_bind; [eapply create_locks_spec; [exact HI1|exact nodup_locks|]|]; cbn beta.
  { intros l Hl ->%list_elem_of_singleton.
    apply (bool_decide_unpack (LOCK_GENERIC ∉ [LOCK_LIST_PUB; LOCK_YIELD; LOCK_WRITE_BUF;
             LOCK_READ_BUF])); [done|exact Hl]. }
  intros b w2 (ls & HI2 & Hls & Hb).
  assert (LOCK_GENERIC ∈ ls) as Hg by (apply Hls; left).
  destruct b; cbn [negb]; last first.
  { eapply wp_mono; [eapply init_return_error; [exact HI2|exact Hg|vm_compute; reflexivity]|].
    cbn beta. intros rc w3 [-> HI3]. right. split; [done|].
    eapply cinv_weaken; [exact HI3|apply leftover_failed]. }
  assert (forall l, l ∈ ls) as Hall.
  { intros []; [|..]; first [exact Hg|apply Hb; [done|]; apply (bool_decide_unpack _); done]. }
  fold (init_connect_data p). fold (init_timeout p).
  eapply wp_bind.
  { eapply (set_spec (C' := configured p)); [exact HI2| |].
    - destruct (inv_client _ _ _ _ HI2) as [[] _]. unfold owned. cbn.
      by rewrite fr_subs0, fr_pubs0, fr_sync0.
    - eapply configured_built; [exact (inv_client _ _ _ _ HI2)|exact Hall]. }
  cbn beta. intros _ w3 [HI3 _].
  eapply wp_bind; [apply set_connect_params_spec; [exact HI3|done|lia|lia]|]. cbn beta.
  intros rc w4 [-> HI4]. cbn [Z.ltb STATE_SUCCESS Z.compare]. by apply init_finish_spec.
Qed.

(** No client: the heap is the frame. *)
Definition no_client F w : Prop := cinv (fun c => owned c = []) F [] w.

Lemma wrapper_init_spec p F w :
  no_client F w -> param_ok p ->
  wp ok (wrapper_mqtt_init (Some p)) (fun r w' =>
    match r with
    | Some a => cinv (ready p) (a :: F) [] w'
    | None => no_client F w'
    end) w.
Proof.
  intros HI Hp. unfold wrapper_mqtt_init.
  step malloc_spec. intros [a|] w1 [HI1 E1]; last first.
  { step state_event_init. intros _ w2 [HI2 _]. by apply wp_ret. }
  eapply wp_bind.
  { eapply (set_spec (C' := fresh)); [exact HI1| |exact fresh_zero].
    rewrite (inv_client _ _ _ _ HI1). by apply fresh_owned, fresh_zero. }
  cbn beta. intros _ w2 [HI2 _].
  eapply wp_bind; [by apply iotx_mc_init_spec|]. cbn beta.
  intros rc w3 [[-> HI3]|[Hrc HI3]].
  - cbn [Z.ltb STATE_SUCCESS Z.compare]. by apply wp_ret.
  - rewrite (proj2 (Z.ltb_lt _ _)) by done. step state_event_init. intros _ w4 [HI4 _].
    step free_spec. intros _ w5 [HI5 _]. apply wp_ret.
    eapply cinv_weaken; [exact HI5|]. intros [? _]. by apply fresh_owned.
Qed.
(** ** Release *)

(** The client's lists while it is released: what waits for a SUBACK stays. *)
Definition sync_is (l : list mqtt_sub_sync_node_t) (c : iotx_mc_client_t) : Prop :=
  list_sub_sync_ack c = l.

Context (send_ok : send_fuel fuel ok).

Lemma disconnect_sync l F w :
  inv F [] w -> sync_is l (w_client w) ->
  wp ok (iotx_mc_disconnect fuel) (fun _ w' => inv F [] w' /\ sync_is l (w_client w')) w.
Proof.
  intros HI Hl. unfold iotx_mc_disconnect. step check_state_spec. intros b w1 (HI1 & E1 & _).
  rewrite <-E1 in Hl. clear E1.
  eapply (wp_bind _ _ _ (fun _ w' => inv F [] w' /\ sync_is l (w_client w'))).
  { destruct b; [|by apply wp_ret]. step MQTTDisconnect_spec. intros rc w2 (HI2 & E2 & _).
    apply wp_ret. split; [done|]. apply (f_equal list_sub_sync_ack) in E2.
    unfold sync_is. etrans; [exact E2|exact Hl]. }
  intros _ w2 [HI2 Hl2]. unfold net_disconnect.
  eapply (wp_bind _ _ _ (fun _ w' => inv F [] w' /\ sync_is l (w_client w'))).
  { step_get. step plat_spec. intros [rc n] w3 [HI3 E3].
    step_set HI3. intros _ w4 [HI4 E4]. apply wp_ret. split; [done|].
    unfold sync_is. rewrite E4. cbn. by rewrite E3. }
  intros _ w3 [HI3 Hl3]. step set_state_spec. intros _ w4 [HI4 E4]. apply wp_ret.
  split; [done|]. by rewrite E4.
Qed.

Lemma release_sub_loop_spec nodes F w :
  inv F [] w -> list_sub_handle (w_client w) = nodes ->
  wp ok (release_sub_loop nodes) (fun _ w' => inv F [] w'
    /\ w_client w' = (w_client w) <| list_sub_handle := [] |>) w.
Proof.
  revert w; induction nodes as [|n nodes IH]; intros w HI El.
  { apply wp_ret. split; [done|]. rewrite <-El. by destruct (w_client w). }
  cbn [release_sub_loop].
  pose proof (sub_del_spec ok [] n nodes F [] w HI El) as Hd. revert Hd.
  unfold free_handler, wp, mbind, prog_bind.
  destruct (modify _ w) as [[] w1| |]; [|done|done].
  destruct (mqtt_free (th_filter_addr n) w1) as [[] w2| |]; [|done|done].
  destruct (mqtt_free (th_addr n) w2) as [[] w3| |]; [|done|done].
  intros [HI3 E3]. cbn [app] in E3.
  assert (list_sub_handle (w_client w3) = nodes) as El3 by (by rewrite E3).
  eapply wp_mono; [exact (IH w3 HI3 El3)|]. cbn beta. intros _ w4 [HI4 E4].
  split; [done|]. by rewrite E4, E3.
Qed.

(** The client after its mutexes and subscriptions are gone. *)
Definition stripped (l : list mqtt_sub_sync_node_t) (c : iotx_mc_client_t) : Prop :=
  list_sub_handle c = [] /\ list_sub_sync_ack c = l.

Lemma mutex_destroy_spec k l F w :
  cinv (stripped l) F [] w -> wp ok (HAL_MutexDestroy k) (fun _ => cinv (stripped l) F []) w.
Proof.
  intros HI. unfold wp, HAL_MutexDestroy. rewrite bool_decide_eq_false_2
    by (rewrite (inv_held _ _ _ _ HI); apply not_elem_of_nil).
  destruct (set_spec (C' := stripped l) ok (set_lock k false) F [] w HI) as [HI' _]; [..|done].
  - by destruct k.
  - destruct (inv_client _ _ _ _ HI). by destruct k; split.
Qed.

Lemma pub_deinit_loop_spec nodes l F w :
  cinv (stripped l) F [] w -> list_pub_wait_ack (w_client w) = nodes ->
  wp ok (pub_wait_list_deinit_loop nodes) (fun _ w' => cinv (stripped l) F [] w'
    /\ list_pub_wait_ack (w_client w') = []) w.
Proof.
  revert w; induction nodes as [|n nodes IH]; intros w HI El; [by apply wp_ret|].
  cbn [pub_wait_list_deinit_loop].
  eapply wp_bind; [eapply pub_del_cspec; [exact HI|rewrite El; left|apply HI]|]. cbn beta.
  intros _ w1 [HI1 E1]. apply IH; [done|]. rewrite E1. cbn. rewrite El.
  destruct (inv_nodup _ _ _ HI) as (_ & Hd & _). rewrite El in Hd.
  apply (filter_ne_middle pi_addr [] n nodes Hd).
Qed.

Definition gone (l : list mqtt_sub_sync_node_t) (c : iotx_mc_client_t) : Prop :=
  owned c = ss_addr <$> l.

Lemma free_buffers_spec l F w :
  cinv (stripped l) F [] w -> list_pub_wait_ack (w_client w) = [] ->
  wp ok free_buffers (fun _ => cinv (gone l) F []) w.
Proof.
  intros HI Hp. unfold free_buffers. step_get.
  eapply (wp_bind _ _ _ (fun _ w' => cinv (stripped l) F [] w' /\
    list_pub_wait_ack (w_client w') = [] /\ buf_send (w_client w') = None)).
  { destruct (buf_send (w_client w)) as [b|] eqn:Eb; [|by apply wp_ret].
    eapply free_forget_last; [exact HI|unfold owned; by rewrite Eb|apply HI|].
    intros w' HI' E'. split; [done|]. by rewrite E'. }
  intros _ w1 (HI1 & Hp1 & Hb1). step_get.
  assert (forall c, stripped l c -> list_pub_wait_ack c = [] -> buf_send c = None ->
    buf_read c = None -> gone l c) as Hg.
  { intros c [E1 E2] E3 E4 E5. unfold gone, owned. by rewrite E1, E2, E3, E4, E5. }
  destruct (buf_read (w_client w1)) as [b|] eqn:Eb.
  - eapply free_forget_last; [exact HI1| |apply HI1|].
    + unfold owned. rewrite Eb. cbn. solve_Permutation.
    + intros w' HI' E'. eapply cinv_weaken; [exact HI'|]. intros Hs. rewrite E' in *.
      by apply Hg.
  - apply wp_ret. eapply cinv_weaken; [exact HI1|]. intros Hs. by apply Hg.
Qed.

Lemma wrapper_release_spec a l F w :
  inv (a :: F) [] w -> sync_is l (w_client w) ->
  wp ok (wrapper_mqtt_release fuel (Some a))
    (fun rc w' => rc = STATE_SUCCESS /\ cinv (gone l) F [] w') w.
Proof.
  intros HI Hl. unfold wrapper_mqtt_release. step plat_spec. intros _ w1 [HI1 E1].
  eapply wp_bind; [apply (disconnect_sync l); [exact HI1|by rewrite E1]|]. cbn beta.
  intros _ w2 [HI2 Hl2]. step set_state_spec. intros _ w3 [HI3 E3].
  step plat_spec. intros _ w4 [HI4 E4]. step_get.
  eapply wp_bind; [by apply release_sub_loop_spec|]. cbn beta. intros _ w5 [HI5 E5].
  assert (cinv (stripped l) (a :: F) [] w5) as HI6.
  { eapply cinv_weaken; [exact HI5|]. intros _. rewrite E5, E4, E3. by split. }
  clear HI5 E5.
  eapply wp_bind; [by apply mutex_destroy_spec|]. cbn beta. intros _ w6 HI7.
  eapply wp_bind; [by apply mutex_destroy_spec|]. cbn beta. intros _ w7 HI8.
  eapply wp_bind; [by apply mutex_destroy_spec|]. cbn beta. intros _ w8 HI9.
  eapply wp_bind; [by apply mutex_destroy_spec|]. cbn beta. intros _ w9 HI10.
  eapply wp_bind; [by apply mutex_destroy_spec|]. cbn beta. intros _ w10 HI11.
  unfold iotx_mc_pub_wait_list_deinit.
  eapply wp_bind; [eapply wp_bind; [apply get_spec|]|]; cbn beta.
  { intros ? ? [-> ->]. by apply pub_deinit_loop_spec. }
  cbn beta. intros _ w11 [HI12 Hp]. step free_buffers_spec. intros _ w12 HI13.
  step free_spec. intros _ w13 [HI14 _]. by apply wp_ret.
Qed.
End Life.
