(* ===== verification/MqttSim.v ===== *)
(** * MqttSim: a simulated platform and two applications

    A platform whose network is a list of bytes to be received and a list of bytes
    sent, and two applications: one whose handlers do nothing and one that answers
    every received publication by publishing.  They satisfy what the client asks of
    a platform and of an application, and run the examples of the theorems. *)

From S2P Require Import Prelude.
From S2P Require Import InfraState.
From S2P Require Import Hal.
From S2P Require Import InfraTimer.
From S2P Require Import InfraNet.
From S2P Require Import InfraCompat.
From S2P Require Import MqttPacket.
From S2P Require Import MqttConnect.
From S2P Require Import MqttPublish.
From S2P Require Import MqttTopic.
From S2P Require Import MqttState.
From S2P Require Import MqttSend.
From S2P Require Import MqttRecv.
From S2P Require Import MqttSession.
From S2P Require Import MqttLogic.
From S2P Require Import MqttSendSafe.
From S2P Require Import MqttSubSafe.
From S2P Require Import MqttRecvSafe.
From S2P Require Import MqttSessionSafe.
From S2P Require Import MqttApi.
From S2P Require Import MqttLife.

(** Two events the applications log: a handler ran, with its event; a state event. *)
Inductive sim_log := LogEvent (h : iotx_mqtt_event_handle_t) (m : iotx_mqtt_event_msg_t)
  | LogIdentity (s : list Z) | LogState (code : Z).

(** [sim_now]: the clock.  [sim_mutexes]: how many more mutexes can be created. *)
Record sim := Sim {
  sim_now : Z;
  sim_mutexes : nat;
  sim_in : list Z;
  sim_out : list Z;
  sim_logs : list sim_log
}.

#[global] Instance eta_sim : Eta sim := fun s =>
  Sim (sim_now s) (sim_mutexes s) (sim_in s) (sim_out s) (sim_logs s).

#[global] Instance sim_hal : Hal sim := {|
  HAL_UptimeMs s := (sim_now s, s <| sim_now ::= Z.succ |>);
  HAL_SleepMs ms s := s <| sim_now ::= fun t => t + Z.max 0 ms |>;
  HAL_Malloc _ s := (true, s);
  HAL_MutexCreate s :=
    match sim_mutexes s with
    | O => (false, s)
    | S n => (true, s <| sim_mutexes := n |>)
    end;
  HAL_SSL_Establish _ _ _ _ s := (1, s);
  HAL_SSL_Destroy _ s := s;
  HAL_SSL_Read _ len _ s :=
    let bs := u8 <$> take (Z.to_nat len) (sim_in s) in
    (Z.of_nat (List.length bs), bs,
     s <| sim_in ::= drop (Z.to_nat len) |> <| sim_now ::= Z.succ |>);
  HAL_SSL_Write _ bs _ s :=
    (Z.of_nat (List.length bs),
     s <| sim_out ::= fun out => out ++ bs |> <| sim_now ::= Z.succ |>);
  HAL_indeterminate _ := 0
|}.

#[global] Instance sim_read : HalRead sim.
Proof.
  split; intros h len t e rc bs e' [= <- <- <-]; [|done]. split.
  - apply Forall_fmap, Forall_forall. intros b _. apply u8_range.
  - intros Hl. rewrite length_fmap, length_take. lia.
Qed.

Definition sim_note (l : sim_log) : prog sim unit :=
  plat (fun s => (tt, s <| sim_logs ::= fun logs => logs ++ [l] |>)).

(** The application that only logs. *)
#[global] Instance log_app : App sim := {|
  on_event h m := sim_note (LogEvent h m);
  on_identity_response s := sim_note (LogIdentity s);
  iotx_state_event c := sim_note (LogState c)
|}.

#[global] Instance log_app_safe ok : AppSafe (E := sim) ok.
Proof.
  split; intros; (eapply wp_mono; [by apply plat_spec|]); cbn beta;
    intros _ w' [HI' E']; (split; [done|by apply kept_eq]).
Qed.

#[global] Instance log_app_init ok : AppInit (E := sim) ok.
Proof. split. intros. by apply plat_spec. Qed.

(** The application that publishes what it receives on a topic of its own. *)
Definition echo_info (payload : list Z) : iotx_mqtt_topic_info_t :=
  {| ti_packet_id := 0; ti_qos := IOTX_MQTT_QOS1; ti_dup := 0; ti_retain := 0;
     ti_topic_len := 0; ti_payload_len := Z.of_nat (List.length payload);
     ti_ptopic := None; ti_payload := Some payload |}.

Definition echo_event (fuel : nat) (m : iotx_mqtt_event_msg_t) : prog sim unit :=
  match event_type m with
  | IOTX_MQTT_EVENT_PUBLISH_RECEIVED =>
      wrapper_mqtt_publish fuel (Some (lit "/a/echo")) (Some (echo_info (lit "pong")));; mret tt
  | IOTX_MQTT_EVENT_RECONNECT =>
      wrapper_mqtt_subscribe fuel (Some (lit "/a/get")) IOTX_MQTT_QOS0 1 0;; mret tt
  | _ => mret tt
  end.

Definition echo_app (fuel : nat) : App sim := {|
  on_event _ m := echo_event fuel m;
  on_identity_response _ := mret tt;
  iotx_state_event _ := mret tt
|}.

Lemma echo_publication : publication_ok (lit "/a/echo") (echo_info (lit "pong")) (lit "pong").
Proof.
  split; [|vm_compute; reflexivity|done|done| |vm_compute; intuition discriminate|
          vm_compute; discriminate].
  - by apply cstr_ok_check.
  - by apply bytes_ok_check.
Qed.

(** A handler that publishes keeps what the client relies on. *)
Lemma echo_app_safe fuel ok : ok NoFuel -> AppSafe (App0 := echo_app fuel) ok.
Proof.
  intros Hfuel. split; intros; [|by apply wp_ret..]. cbn [on_event echo_app].
  unfold echo_event.
  destruct (event_type m); try by apply wp_ret.
  - step wrapper_subscribe_spec; [|by unfold IOTX_MQTT_QOS0|].
    { split; [by apply cstr_ok_check|vm_compute; reflexivity]. }
    intros rc w' (HI' & K' & _). by apply wp_ret.
  - step wrapper_publish_spec; [exact echo_publication|vm_compute; intuition discriminate|].
    intros rc w' (HI' & K' & _). by apply wp_ret.
Qed.

Lemma echo_app_init fuel ok : AppInit (App0 := echo_app fuel) ok.
Proof. split. intros. by apply wp_ret. Qed.

(** ** A client of the simulated platform *)

Definition sim_param : iotx_mqtt_param_t :=
  {| p_port := 443; p_host := Some (lit "host"); p_client_id := Some (lit "id");
     p_username := Some (lit "user"); p_password := Some (lit "pass"); p_pub_key := None;
     p_clean_session := 0; p_request_timeout_ms := 2000; p_keepalive_interval_ms := 60000;
     p_write_buf_size := 1024; p_read_buf_size := 1024;
     p_handle_event := {| h_fp := 9; pcontext := 0 |} |}.

Definition sim_world (mutexes : nat) (input : list Z) : world sim :=
  World client_zero 0 sdk_impl_ctx_zero [] 0 [] [] (Sim 0 mutexes input [] []).

Lemma sim_mstr s :
  forallb (fun b => (0 <? b) && (b <? 256)) s = true -> Z.of_nat (List.length s) < 65536 ->
  mstr_ok (cstr_mstring (Some s)).
Proof. intros Hs Hl. by apply cstr_mstr_ok; [apply cstr_ok_check|]. Qed.

Lemma sim_param_ok : param_ok sim_param.
Proof.
  split; cbn; [lia|lia|by apply sim_mstr|by apply sim_mstr|by apply sim_mstr].
Qed.

Lemma sim_ctx_ok : settings_ok sdk_impl_ctx_zero.
Proof. exact settings_zero. Qed.

Lemma sim_no_client mutexes input : no_client [] (sim_world mutexes input).
Proof.
  split; [|done|constructor|done|exact sim_ctx_ok]. split; cbn; [done|constructor|constructor].
Qed.

(** The world that a run ends in. *)
Definition world_after {A} (m : prog sim A) (w : world sim) : world sim :=
  match m w with Done _ w' => w' | _ => w end.

Lemma world_after_done {A} (m : prog sim A) (w : world sim) :
  match m w with Done _ _ => true | _ => false end = true ->
  exists a, m w = Done a (world_after m w).
Proof. unfold world_after. destruct (m w); [eauto|done|done]. Qed.

#[global] Instance sim_progress : HalProgress sim.
Proof. split. intros h bs t e Hb. destruct bs; [done|]. cbn. lia. Qed.

(** Enough fuel for any packet; never computed. *)
Definition packet_fuel : nat := Z.to_nat 2147483648.

Lemma packet_fuel_ok : 2147483648 <= Z.of_nat packet_fuel.
Proof. unfold packet_fuel. rewrite Z2Nat.id; lia. Qed.

#[global] Opaque packet_fuel.

(** A CONNACK that accepts, and then a publication of ["hi"] on ["/a/get"]. *)
Definition sim_input : list Z :=
  [32; 2; 0; 0] ++ [48; 10; 0; 6] ++ lit "/a/get" ++ lit "hi".

Definition sim_init : world sim := sim_world 5 sim_input.

(** The client after its initialisation, with the application that logs. *)
Definition sim_client : world sim := world_after (wrapper_mqtt_init (Some sim_param)) sim_init.

Lemma sim_client_inv : inv [0%nat] [] sim_client.
Proof.
  assert (wrapper_mqtt_init (Some sim_param) sim_init = Done (Some 0%nat) sim_client) as Hi
    by (vm_compute; reflexivity).
  pose proof (wp_done _ _ _ _ _ _ (wrapper_init_spec (fun _ => False) sim_param [] sim_init
    (sim_no_client 5 _) sim_param_ok) Hi) as Hw.
  cbv beta iota in Hw. revert Hw. generalize sim_client. intros w Hw.
  eapply cinv_weaken; [exact Hw|]. by intros [].
Qed.
