(* ===== verification/MqttSafety.v ===== *)
(** * MqttSafety: what the MQTT client guarantees its application

    The states that a client reaches through its interface, and the contracts of
    initialisation, release, publication and subscription, with examples on the
    simulated platform. *)

From S2P Require Import Prelude.
From S2P Require Import InfraState.
From S2P Require Import Hal.
From S2P Require Import InfraTimer.
From S2P Require Import InfraNet.
From S2P Require Import InfraCompat.
From S2P Require Import MqttPacket.
From S2P Require Import MqttConnect.
From S2P Require Import MqttPublish.
From S2P Require Import MqttTopic.
From S2P Require Import MqttState.
From S2P Require Import MqttSend.
From S2P Require Import MqttRecv.
From S2P Require Import MqttSession.
From S2P Require Import MqttLogic.
From S2P Require Import MqttSendSafe.
From S2P Require Import MqttSubSafe.
From S2P Require Import MqttRecvSafe.
From S2P Require Import MqttSessionSafe.
From S2P Require Import MqttApi.
From S2P Require Import MqttLife.
From S2P Require Import MqttSim.

(** The stops that are left: a read past the received bytes, by a decoder on a
    malformed packet, and the fuel of a loop that the network or a callback keeps
    going. *)
Definition safe_stop (x : stop) : Prop := x = Faulted FaultRead \/ x = NoFuel.

(** ** Calls *)

Inductive call :=
  | CallConnect
  | CallYield (timeout_ms : Z)
  | CallPublish (name : list Z) (info : iotx_mqtt_topic_info_t)
  | CallSubscribe (topicFilter : list Z) (qos topic_handle_func pcontext : Z)
  | CallSubscribeSync (topicFilter : list Z) (qos topic_handle_func pcontext timeout_ms : Z)
  | CallUnsubscribe (topicFilter : list Z).

(** The arguments that the interface asks for: strings of the protocol's length, a
    payload of the length passed. *)
Definition call_ok (c : call) : Prop :=
  match c with
  | CallConnect | CallYield _ => True
  | CallPublish name info =>
      0 <= ti_qos info <= 2 /\ exists payload, publication_ok name info payload
  | CallSubscribe f qos _ _ | CallSubscribeSync f qos _ _ _ => filter_in f /\ 0 <= qos < 256
  | CallUnsubscribe f => filter_in f
  end.

Section Safety.
Context {E : Type} `{!Hal E} `{!App E}.

Definition exec (fuel : nat) (c : call) : prog E Z :=
  match c with
  | CallConnect => wrapper_mqtt_connect fuel
  | CallYield t => wrapper_mqtt_yield fuel t
  | CallPublish name info => wrapper_mqtt_publish fuel (Some name) (Some info)
  | CallSubscribe f qos fp ctx => wrapper_mqtt_subscribe fuel (Some f) qos fp ctx
  | CallSubscribeSync f qos fp ctx t =>
      wrapper_mqtt_subscribe_sync fuel (Some f) qos fp ctx t
  | CallUnsubscribe f => wrapper_mqtt_unsubscribe fuel (Some f)
  end.

(** The states of a client at [a], among blocks [F] of others: what initialisation
    gives, and what a call leaves. *)
Inductive reachable (F : list nat) (p : iotx_mqtt_param_t) (a : nat) : world E -> Prop :=
  | reach_init w0 w :
      no_client F w0 -> wrapper_mqtt_init (Some p) w0 = Done (Some a) w ->
      reachable F p a w
  | reach_call w c fuel rc w' :
      reachable F p a w -> call_ok c -> exec fuel c w = Done rc w' ->
      reachable F p a w'.

Context `{!HalRead E} `{!AppSafe safe_stop} `{!AppInit safe_stop}.

Lemma exec_spec fuel c F (w : world E) :
  inv F [] w -> call_ok c -> wp safe_stop (exec fuel c) (fun _ => inv F []) w.
Proof.
  intros HI Hc.
  assert (safe_stop NoFuel) as Hf by (by right).
  assert (safe_stop FaultRead) as Hr by (by left).
  destruct c; cbn [exec call_ok] in *.
  - by apply wrapper_connect_spec.
  - by apply wrapper_yield_spec.
  - destruct Hc as [Hq [payload Hp]].
    eapply wp_mono; [by eapply wrapper_publish_spec; [left|..|apply below_nil|exact Hp|]|].
    by intros rc w' [? _].
  - destruct Hc as [Hq Hf0].
    eapply wp_mono; [by eapply wrapper_subscribe_spec; [left|..|apply below_nil| |]|].
    by intros rc w' [? _].
  - destruct Hc as [Hq Hf0]. by apply wrapper_subscribe_sync_spec.
  - eapply wp_mono; [by eapply wrapper_unsubscribe_spec; [left|..|apply below_nil|]|].
    by intros rc w' [? _].
Qed.

Lemma reachable_inv F p a w : param_ok p -> reachable F p a w -> inv (a :: F) [] w.
Proof.
  intros Hp. induction 1 as [w0 w H0 Ei|w c fuel rc w' _ IH Hc Ex].
  - pose proof (wp_done _ _ _ _ _ _ (wrapper_init_spec safe_stop p F w0 H0 Hp) Ei) as Hr.
    cbn in Hr. eapply cinv_weaken; [exact Hr|]. by intros [].
  - exact (wp_done _ _ _ _ _ _ (exec_spec fuel c (a :: F) w IH Hc) Ex).
Qed.

(** C1. Safety of the client over every sequence of interface calls, by rule
    induction on the states reached: between calls no mutex is held and each mutex
    was only ever taken after those of a lower rank (so threads cannot deadlock on
    them); the allocated blocks are, each once, those of the client's buffers, list
    nodes and strings, its own block and those of others (nothing leaks, nothing is
    freed twice); the limits of its data hold.  And no further call stops on a
    mutex taken twice or released unheld, on a block freed twice, on a store
    outside a buffer or on a NULL pointer, for every platform, every application
    whose handlers keep the invariant, every input from the network and every
    allocation failure. *)
Theorem api_safe (F : list nat) (p : iotx_mqtt_param_t) (a : nat) (w : world E) :
  param_ok p -> reachable F p a w ->
  w_held w = [] /\ order_ok (w_taken w)
  /\ w_blocks w ≡ₚ a :: owned (w_client w) ++ F /\ NoDup (w_blocks w)
  /\ client_ok (w_client w)
  /\ (forall fuel c f, call_ok c -> exec fuel c w = Fault f -> f = FaultRead).
Proof.
  intros Hp Hr. pose proof (reachable_inv F p a w Hp Hr) as HI.
  destruct HI as [[Hb Hn Hx] Hc Ho Hh Hs]. split; [done|]. split; [done|].
  split; [rewrite Hb; symmetry; apply Permutation_middle|]. split; [done|]. split; [done|].
  intros fuel c f Hcall Hx'. pose proof (exec_spec fuel c (a :: F) w
    (Build_cinv _ _ _ _ _ (Build_heap_ok _ _ _ Hb Hn Hx) Hc Ho Hh Hs) Hcall) as Hwp.
  unfold wp in Hwp. rewrite Hx' in Hwp. by destruct Hwp as [[= ->]|].
Qed.
End Safety.

(** ** Termination of the reader *)

(** C27. Reading returns for every input: whatever the peer sends (malformed
    lengths, packets longer than the buffer, half a packet, nothing), however the
    platform splits, delays or fails the reads and the allocations,
    [iotx_mc_read_packet] returns with its mutex released and the invariant, and
    with a packet type comes a buffer; and the wait for a CONNACK reads at most
    eleven packets. *)
Theorem read_packet_returns {E} `{!Hal E} `{!App E} `{!HalRead E} `{!AppSafe never}
    (F : list nat) (H : list lock) (w : world E) (timer : iotx_time_t) (t0 : Z) :
  inv F H w -> below LOCK_READ_BUF H ->
  (exists rc t w', iotx_mc_read_packet timer t0 w = Done (rc, t) w' /\ inv F H w'
     /\ (STATE_SUCCESS <= rc -> t <> MQTT_CPT_RESERVED -> is_Some (buf_read (w_client w'))))
  /\ (exists r w', wait_connack_loop 11 timer 0 0 w = Done r w' /\ inv F H w').
Proof.
  intros HI Hb. split.
  - destruct (wp_never _ _ _ (read_packet_spec never timer t0 F H w HI Hb))
      as ([rc t] & w' & Er & HI' & Hs).
    by exists rc, t, w'.
  - destruct (wp_never _ _ _ (wait_connack_loop_spec never 11 timer 0 0 F H w HI Hb
      ltac:(unfold WAIT_CONNACK_MAX; lia) eq_refl)) as (r & w' & Er & HI' & _).
    by exists r, w'.
Qed.

(** ** Contracts of the calls *)

Section Contracts.
Context {E : Type} `{!Hal E} `{!App E}.

(** C29. Initialisation gives a client or nothing: for every platform and every
    result of its allocations and mutex creations, [wrapper_mqtt_init] returns;
    either it returns a client with its mutexes, empty lists and its parameters
    within their limits, whose only block is its own, or it returns NULL and every
    block it allocated is freed again. *)
Theorem wrapper_mqtt_init_contract `{!AppInit never} (F : list nat) (p : iotx_mqtt_param_t)
    (w : world E) :
  no_client F w -> param_ok p ->
  exists r w', wrapper_mqtt_init (Some p) w = Done r w' /\ w_held w' = [] /\
  match r with
  | Some a => w_blocks w' ≡ₚ a :: F /\ client_ok (w_client w') /\ owned (w_client w') = []
              /\ client_state (w_client w') = IOTX_MC_STATE_INITIALIZED
              /\ buf_size_send_max (w_client w') = p_write_buf_size p
              /\ buf_size_read_max (w_client w') = p_read_buf_size p
  | None => w_blocks w' ≡ₚ F
  end.
Proof.
  intros H0 Hp.
  destruct (wp_never _ _ _ (wrapper_init_spec never p F w H0 Hp)) as (r & w' & Er & Hr).
  exists r, w'. split; [done|]. destruct r as [a|]; destruct Hr as [[Hb _ _] Hc _ Hh _];
    (split; [done|]).
  - destruct Hc as [Hc Hf Hs H1 H2]. apply fresh_owned in Hf. rewrite Hf in Hb.
    split; [exact Hb|]. split; [exact Hc|]. split; [exact Hf|]. by split; [|split].
  - by rewrite Hc in Hb.
Qed.

(** When one of the mutexes after the first cannot be created,
    [iotx_mc_init] returns the bare code -1, and the generic mutex stays created
    while the caller frees the client: it is lost. *)
Theorem iotx_mc_init_leaks_lock `{!AppInit never} (F : list nat) (p : iotx_mqtt_param_t)
    (w : world E) :
  cinv fresh F [] w -> param_ok p ->
  exists rc w', iotx_mc_init (Some p) w = Done rc w'
  /\ (rc = STATE_SUCCESS \/ rc < STATE_SUCCESS)
  /\ (rc = -1 -> lock_generic (w_client w') = true).
Proof.
  intros H0 Hp.
  destruct (wp_never _ _ _ (iotx_mc_init_spec never p F w H0 Hp)) as (rc & w' & Er & Hr).
  exists rc, w'. split; [done|]. destruct Hr as [[-> _]|[Hrc Hr]].
  - split; [by left|done].
  - split; [by right|]. by destruct (inv_client _ _ _ _ Hr).
Qed.

Context `{!HalProgress E} (fuel : nat) (Hfuel : 2147483648 <= Z.of_nat fuel).

Lemma never_send_fuel : send_fuel (E := E) fuel never.
Proof. by right. Qed.

(** C30. Release gives everything back, except the nodes of subscriptions that wait
    for their SUBACK: on a platform whose writes make progress,
    [wrapper_mqtt_release] returns success with no mutex left, and of the client's
    blocks only those nodes are still allocated. *)
Theorem wrapper_mqtt_release_contract (F : list nat) (a : nat) (w : world E) :
  inv (a :: F) [] w ->
  exists w', wrapper_mqtt_release fuel (Some a) w = Done STATE_SUCCESS w'
  /\ w_held w' = []
  /\ w_blocks w' ≡ₚ (ss_addr <$> list_sub_sync_ack (w_client w)) ++ F.
Proof.
  intros HI.
  destruct (wp_never _ _ _ (wrapper_release_spec fuel never never_send_fuel a _ F w HI eq_refl))
    as (rc & w' & Er & -> & [[Hb _ _] Hg _ Hh _]).
  exists w'. split; [done|]. split; [done|]. by rewrite Hb, Hg.
Qed.

(** C10. Publishing is all or nothing: [wrapper_mqtt_publish] returns a packet
    identifier between 1 and 65535 for QoS 1, and then exactly one node was added
    to the list that waits for PUBACKs, holding that identifier and the very packet
    of the protocol; 0 for QoS 0, with the list unchanged; or a negative code with
    the list unchanged, whatever failed: the topic, the connection state, the
    allocation, the list's limit of ten or the network. *)
Theorem wrapper_mqtt_publish_contract (F : list nat) (H : list lock) (w : world E)
    (name : list Z) (info : iotx_mqtt_topic_info_t) (payload : list Z) :
  inv F H w -> below LOCK_LIST_PUB H -> publication_ok name info payload ->
  0 <= ti_qos info <= 2 ->
  exists rc w', wrapper_mqtt_publish fuel (Some name) (Some info) w = Done rc w'
  /\ inv F H w' /\ published name info payload rc (w_client w) (w_client w').
Proof.
  intros HI Hb Hp Hq.
  destruct (wp_never _ _ _ (wrapper_publish_spec fuel never never_send_fuel name info payload
    F H w HI Hb Hp Hq)) as (rc & w' & Er & HI' & _ & Hpub).
  by exists rc, w'.
Qed.

(** C25. Subscribing registers a handler once: [wrapper_mqtt_subscribe] returns a
    packet identifier between 1 and 65535, and the handler with its filter and
    context is in the list exactly once, at the end unless it was there; or it
    returns a negative code with the list unchanged and its blocks freed. *)
Theorem wrapper_mqtt_subscribe_contract (F : list nat) (H : list lock) (w : world E)
    (f : list Z) (qos fp ctx : Z) :
  inv F H w -> below LOCK_LIST_PUB H -> filter_in f -> 0 <= qos < 256 ->
  exists rc w', wrapper_mqtt_subscribe fuel (Some f) qos fp ctx w = Done rc w'
  /\ inv F H w' /\ subscribed f fp ctx rc (w_client w) (w_client w').
Proof.
  intros HI Hb Hf Hq.
  destruct (wp_never _ _ _ (wrapper_subscribe_spec fuel never never_send_fuel f qos fp ctx
    F H w HI Hb Hf Hq)) as (rc & w' & Er & HI' & _ & Hs).
  by exists rc, w'.
Qed.
(** A filter without wildcards, as a C string. *)
Definition plain (s : list Z) : Prop := Forall (fun c => c <> 43 /\ c <> 35 /\ c <> 0) s.

Lemma plain_match s n : plain s -> topic_match_loop s n = true -> s = n.
Proof.
  revert n; induction s as [|c s IH]; intros [|x n] Hp; cbn [topic_match_loop]; try done.
  apply Forall_cons in Hp as [(Hc1 & Hc2 & _) Hp].
  rewrite (proj2 (Z.eqb_neq c 43)), (proj2 (Z.eqb_neq c 35)) by done. cbn [negb andb].
  destruct (_ && _); [done|]. destruct (Z.eqb_spec c x) as [->|]; cbn [negb]; [|done].
  intros Hm. f_equal. by apply IH.
Qed.

Lemma plain_kept f s : plain s -> unsub_removes f s = false.
Proof.
  intros Hp. unfold unsub_removes.
  assert (f ++ [0] <> s) as Hne.
  { intros <-. apply Forall_app in Hp as [_ Hp]. rewrite Forall_singleton in Hp.
    by destruct Hp as (_ & _ & Hp). }
  rewrite bool_decide_eq_false_2 by done. cbn [orb].
  destruct (topic_match_loop s (f ++ [0])) eqn:Em; [|done].
  by apply plain_match in Em as ->.
Qed.

(** What [wrapper_mqtt_unsubscribe] does to the handlers: when it succeeds,
    those stay whose filter neither equals nor matches the filter with the
    terminating NUL that the code counts as its last character.  So no handler with
    a filter without wildcards is ever removed, not even the one subscribed with
    exactly that filter: its callback keeps running after the UNSUBACK. *)
Theorem wrapper_mqtt_unsubscribe_contract (F : list nat) (H : list lock) (w : world E)
    (f : list Z) :
  inv F H w -> below LOCK_LIST_PUB H -> filter_in f ->
  exists rc w', wrapper_mqtt_unsubscribe fuel (Some f) w = Done rc w' /\ inv F H w'
  /\ (rc < 0 -> list_sub_handle (w_client w') = list_sub_handle (w_client w))
  /\ (0 <= rc -> list_sub_handle (w_client w') =
        filter (fun n => unsub_removes f (topic_filter n) = false)
          (list_sub_handle (w_client w)))
  /\ (forall n, n ∈ list_sub_handle (w_client w) -> plain (topic_filter n) ->
        n ∈ list_sub_handle (w_client w')).
Proof.
  intros HI Hb Hf.
  destruct (wp_never _ _ _ (wrapper_unsubscribe_spec fuel never never_send_fuel f
    F H w HI Hb Hf)) as (rc & w' & Er & HI' & Hl).
  exists rc, w'. split; [done|]. split; [done|].
  destruct Hl as [[Hrc Hl]|[Hrc Hl]]; rewrite Hl; (split; [|split]); try done; try lia.
  intros n Hn Hp. apply list_elem_of_filter. split; [by apply plain_kept|done].
Qed.
End Contracts.

Section Ids.
Context {E : Type}.

(** Taking [n] packet identifiers. *)
Fixpoint take_ids (n : nat) : prog E (list Z) :=
  match n with
  | O => mret []
  | S n' => id ← iotx_mc_get_next_packetid; ids ← take_ids n'; mret (id :: ids)
  end.

(** The [k]-th identifier after [i]. *)
Definition id_after (i : Z) (k : nat) : Z := (i + Z.of_nat k) mod 65535 + 1.

Lemma take_ids_spec n F w :
  inv F [] w ->
  wp never (take_ids n) (fun ids w' => inv F [] w'
    /\ ids = id_after (packet_id (w_client w)) <$> seq 0 n) w.
Proof.
  revert w; induction n as [|n IH]; intros w HI; [by apply wp_ret|]. cbn [take_ids].
  eapply wp_bind; [eapply next_packetid_spec; [exact HI|apply below_nil]|]. cbn beta.
  intros id w1 (HI1 & Hid & Eid & E1).
  eapply wp_bind; [by apply IH|]. cbn beta. intros ids w2 [HI2 ->]. apply wp_ret.
  split; [done|]. rewrite E1. cbn [seq].
  change (packet_id ((w_client w) <| packet_id := id |>)) with id.
  pose proof (co_id _ (inv_c _ _ _ HI)) as Hpid. unfold IOTX_MC_PACKET_ID_MAX in *.
  assert (id = packet_id (w_client w) mod 65535 + 1) as Hmod.
  { rewrite Eid. destruct (Z.eqb_spec (packet_id (w_client w)) 65535) as [->|]; [done|].
    rewrite Z.mod_small; lia. }
  rewrite <-seq_shift, fmap_cons. f_equal.
  - unfold id_after. cbn. by rewrite Z.add_0_r.
  - rewrite <-list_fmap_compose. apply list_fmap_ext. intros _ k _. unfold id_after. cbn.
    rewrite Hmod. f_equal.
    replace (packet_id (w_client w) mod 65535 + 1 + Z.of_nat k)
      with (packet_id (w_client w) mod 65535 + Z.of_nat (S k)) by lia.
    by rewrite Zplus_mod_idemp_l.
Qed.

(** C39. Packet identifiers: [iotx_mc_get_next_packetid] always returns one between
    1 and 65535 (never the reserved 0), and any run of up to 65535 consecutive
    requests gets distinct ones. *)
Theorem packet_ids_distinct (F : list nat) (w : world E) (n : nat) :
  inv F [] w -> Z.of_nat n <= 65535 ->
  exists ids w', take_ids n w = Done ids w' /\ List.length ids = n
  /\ Forall (fun id => 1 <= id <= 65535) ids /\ NoDup ids.
Proof.
  intros HI Hn. destruct (wp_never _ _ _ (take_ids_spec n F w HI)) as (ids & w' & Er & _ & ->).
  eexists _, w'. split; [exact Er|]. rewrite length_fmap, length_seq. split; [done|]. split.
  - apply Forall_fmap, Forall_forall. intros k _. unfold id_after. cbn.
    pose proof (Z.mod_pos_bound (packet_id (w_client w) + Z.of_nat k) 65535 ltac:(lia)). lia.
  - apply NoDup_fmap_2_strong; [|apply NoDup_seq]. intros i j Hi Hj Heq.
    apply elem_of_seq in Hi, Hj. unfold id_after in Heq.
    pose proof (Z.div_mod (packet_id (w_client w) + Z.of_nat i) 65535 ltac:(lia)).
    pose proof (Z.div_mod (packet_id (w_client w) + Z.of_nat j) 65535 ltac:(lia)).
    assert ((packet_id (w_client w) + Z.of_nat i) / 65535
            = (packet_id (w_client w) + Z.of_nat j) / 65535) by nia.
    lia.
Qed.
End Ids.

(** ** Examples *)

(** The application that answers publications, on the simulated platform, after it
    connected and received one: its answer waits for a PUBACK. *)
Definition echo_client : world sim :=
  world_after (wrapper_mqtt_init (App0 := echo_app 1000) (Some sim_param)) sim_init.

Definition echo_connected : world sim :=
  world_after (exec (App0 := echo_app 1000) 1000 CallConnect) echo_client.

Lemma echo_reachable : reachable (App0 := echo_app 1000) [] sim_param 0 echo_connected.
Proof.
  destruct (world_after_done (exec (App0 := echo_app 1000) 1000 CallConnect) echo_client)
    as [rc Hc]; [vm_compute; reflexivity|].
  apply (reach_call (App0 := echo_app 1000) [] sim_param 0 echo_client CallConnect 1000 rc
           echo_connected); [|done|exact Hc].
  apply (reach_init (App0 := echo_app 1000) [] sim_param 0 sim_init echo_client);
    [apply sim_no_client|vm_compute; reflexivity].
Qed.

Lemma api_safe_witness :
  List.length (list_pub_wait_ack (w_client echo_connected)) = 1%nat
  /\ w_held echo_connected = []
  /\ w_blocks echo_connected ≡ₚ 0%nat :: owned (w_client echo_connected) ++ [].
Proof.
  destruct (api_safe (App0 := echo_app 1000) (AppSafe0 := echo_app_safe 1000 _ (or_intror eq_refl))
    (AppInit0 := echo_app_init 1000 _) [] sim_param 0 echo_connected sim_param_ok echo_reachable)
    as (Hh & _ & Hb & _).
  split; [vm_compute; reflexivity|]. split; [exact Hh|exact Hb].
Defined.

(** The client of the application that logs, after it connected. *)
Definition sim_connected : world sim := world_after (exec 1000 CallConnect) sim_client.

Lemma sim_connected_inv : inv [0%nat] [] sim_connected.
Proof.
  destruct (world_after_done (exec 1000 CallConnect) sim_client) as [rc Hc];
    [vm_compute; reflexivity|].
  exact (wp_done _ _ _ _ _ _ (exec_spec 1000 CallConnect [0%nat] sim_client sim_client_inv I) Hc).
Qed.

#[local] Opaque sim_client sim_connected.

(** A Remaining Length of more than four bytes, and then nothing. *)
Lemma read_packet_returns_witness :
  let w := sim_connected <| w_env ::= fun s => s <| sim_in := [32; 255; 255; 255; 255; 9] |> |> in
  exists rc t w', iotx_mc_read_packet (MkTime 100) 0 w = Done (rc, t) w' /\ inv [0%nat] [] w'
  /\ (STATE_SUCCESS <= rc -> t <> MQTT_CPT_RESERVED -> is_Some (buf_read (w_client w'))).
Proof.
  intros w.
  assert (inv [0%nat] [] w) as HI.
  { unfold w. generalize sim_connected_inv. generalize sim_connected.
    intros w0 HI. by apply (inv_same [0%nat] [] w0). }
  exact (proj1 (read_packet_returns [0%nat] [] w (MkTime 100) 0 HI (below_nil _))).
Defined.

Lemma wrapper_mqtt_init_contract_witness :
  exists r w', wrapper_mqtt_init (Some sim_param) sim_init = Done r w' /\ w_held w' = [] /\
  match r with
  | Some a => w_blocks w' ≡ₚ a :: [] /\ client_ok (w_client w') /\ owned (w_client w') = []
              /\ client_state (w_client w') = IOTX_MC_STATE_INITIALIZED
              /\ buf_size_send_max (w_client w') = 1024
              /\ buf_size_read_max (w_client w') = 1024
  | None => w_blocks w' ≡ₚ []
  end.
Proof.
  exact (wrapper_mqtt_init_contract [] sim_param sim_init (sim_no_client 5 sim_input) sim_param_ok).
Defined.

(** One mutex can be created, the second cannot. *)
Lemma iotx_mc_init_leaks_lock_witness :
  exists rc w', iotx_mc_init (Some sim_param) (sim_world 1 []) = Done rc w'
  /\ (rc = STATE_SUCCESS \/ rc < STATE_SUCCESS)
  /\ (rc = -1 -> lock_generic (w_client w') = true).
Proof.
  apply (iotx_mc_init_leaks_lock [] sim_param (sim_world 1 [])); [|exact sim_param_ok].
  eapply cinv_weaken; [apply sim_no_client|]. intros _. by split.
Defined.

Example iotx_mc_init_leaks_lock_example :
  match iotx_mc_init (Some sim_param) (sim_world 1 []) with
  | Done rc w' => rc = -1 /\ lock_generic (w_client w') = true
  | _ => False
  end.
Proof. vm_compute. by split. Qed.

Lemma wrapper_mqtt_release_contract_witness :
  exists w', wrapper_mqtt_release packet_fuel (Some 0%nat) sim_connected = Done STATE_SUCCESS w'
  /\ w_held w' = []
  /\ w_blocks w' ≡ₚ (ss_addr <$> list_sub_sync_ack (w_client sim_connected)) ++ [].
Proof.
  exact (wrapper_mqtt_release_contract packet_fuel packet_fuel_ok [] 0 sim_connected
           sim_connected_inv).
Defined.

Lemma echo_qos : 0 <= ti_qos (echo_info (lit "pong")) <= 2.
Proof. cbn. unfold IOTX_MQTT_QOS1. lia. Qed.

Lemma wrapper_mqtt_publish_contract_witness :
  exists rc w', wrapper_mqtt_publish packet_fuel (Some (lit "/a/echo"))
                  (Some (echo_info (lit "pong"))) sim_connected = Done rc w'
  /\ inv [0%nat] [] w'
  /\ published (lit "/a/echo") (echo_info (lit "pong")) (lit "pong") rc
       (w_client sim_connected) (w_client w').
Proof.
  exact (wrapper_mqtt_publish_contract packet_fuel packet_fuel_ok [0%nat] [] sim_connected
    (lit "/a/echo") (echo_info (lit "pong")) (lit "pong") sim_connected_inv (below_nil _)
    echo_publication echo_qos).
Defined.

Lemma get_filter_in : filter_in (lit "/a/get").
Proof. split; [by apply cstr_ok_check|vm_compute; reflexivity]. Qed.

Lemma wrapper_mqtt_subscribe_contract_witness :
  exists rc w', wrapper_mqtt_subscribe packet_fuel (Some (lit "/a/get")) 1 7 0 sim_connected
                = Done rc w'
  /\ inv [0%nat] [] w'
  /\ subscribed (lit "/a/get") 7 0 rc (w_client sim_connected) (w_client w').
Proof.
  exact (wrapper_mqtt_subscribe_contract packet_fuel packet_fuel_ok [0%nat] [] sim_connected
    _ 1 7 0 sim_connected_inv (below_nil _) get_filter_in ltac:(lia)).
Defined.

(** The client with one subscription. *)
Definition sim_subscribed : world sim :=
  world_after (exec 1000 (CallSubscribe (lit "/a/get") 1 7 0)) sim_connected.

Lemma sim_subscribed_inv : inv [0%nat] [] sim_subscribed.
Proof.
  destruct (world_after_done (exec 1000 (CallSubscribe (lit "/a/get") 1 7 0)) sim_connected)
    as [rc Hc]; [vm_compute; reflexivity|].
  exact (wp_done _ _ _ _ _ _ (exec_spec 1000 (CallSubscribe (lit "/a/get") 1 7 0) [0%nat]
    sim_connected sim_connected_inv (conj get_filter_in (conj Z.le_0_1 eq_refl))) Hc).
Qed.

#[local] Opaque sim_subscribed.

(** The handler of ["/a/get"] stays when ["/a/get"] is unsubscribed. *)
Lemma wrapper_mqtt_unsubscribe_contract_witness :
  exists n rc w', topic_filter n = lit "/a/get"
  /\ n ∈ list_sub_handle (w_client sim_subscribed)
  /\ wrapper_mqtt_unsubscribe packet_fuel (Some (lit "/a/get")) sim_subscribed = Done rc w'
  /\ n ∈ list_sub_handle (w_client w').
Proof.
  destruct (wrapper_mqtt_unsubscribe_contract packet_fuel packet_fuel_ok [0%nat] []
    sim_subscribed (lit "/a/get") sim_subscribed_inv (below_nil _) get_filter_in)
    as (rc & w' & Er & _ & _ & _ & Hkeep).
  assert (exists n, list_sub_handle (w_client sim_subscribed) = [n]
                    /\ topic_filter n = lit "/a/get") as (n & El & Hf).
  { eexists. split; vm_compute; reflexivity. }
  exists n, rc, w'. split; [exact Hf|]. rewrite El in Hkeep |- *. split; [by left|].
  split; [exact Er|]. apply Hkeep; [by left|]. rewrite Hf. unfold plain.
  apply Forall_forall. intros c Hc.
  assert (forallb (fun b => negb (b =? 43) && negb (b =? 35) && negb (b =? 0)) (lit "/a/get")
          = true) as Hall by reflexivity.
  rewrite forallb_forall in Hall. specialize (Hall c (proj1 (list_elem_of_In _ _) Hc)). lia.
Defined.

Lemma packet_ids_distinct_witness :
  exists ids w', take_ids 3 sim_connected = Done ids w' /\ List.length ids = 3%nat
  /\ Forall (fun id => 1 <= id <= 65535) ids /\ NoDup ids.
Proof.
  exact (packet_ids_distinct [0%nat] sim_connected 3
    sim_connected_inv ltac:(lia)).
Defined.
