(* ===== verification/MqttWire.v ===== *)
(** * MqttWire: what goes over the network

    The bytes that the client gives to the network and those it takes from it, for
    platforms that keep account of them.  [iotx_mc_send_packet] sends a prefix of
    its packet, the whole of it exactly when it reports success. *)

From S2P Require Import Prelude.
From S2P Require Import InfraState.
From S2P Require Import Hal.
From S2P Require Import InfraTimer.
From S2P Require Import InfraNet.
From S2P Require Import InfraCompat.
From S2P Require Import MqttPacket.
From S2P Require Import MqttConnect.
From S2P Require Import MqttPublish.
From S2P Require Import MqttState.
From S2P Require Import MqttSend.
From S2P Require Import MqttRecv.
From S2P Require Import MqttSession.
From S2P Require Import MqttLogic.
From S2P Require Import MqttSendSafe.
From S2P Require Import MqttRecvSafe.
From S2P Require Import MqttApi.
From S2P Require Import MqttLife.
From S2P Require Import MqttSim.

(** What an observer sees: the bytes that the network accepted, those the peer sent
    and nobody read yet, and the events that the application was told. *)
Record wire := Wire {
  sent : list Z;
  pending : list Z;
  told : list (iotx_mqtt_event_handle_t * iotx_mqtt_event_msg_t)
}.

(** A platform that keeps account of its network. *)
Class HalWire (E : Type) `{!Hal E} := {
  wire_of : E -> wire;
  wire_uptime e : wire_of (snd (HAL_UptimeMs e)) = wire_of e;
  wire_sleep ms e : wire_of (HAL_SleepMs ms e) = wire_of e;
  wire_malloc n e : wire_of (snd (HAL_Malloc n e)) = wire_of e;
  (** A write appends the bytes it accepts, none when it fails. *)
  wire_write h bs t e rc e' :
    HAL_SSL_Write h bs t e = (rc, e') ->
    rc <= Z.of_nat (List.length bs)
    /\ wire_of e' = Wire (sent (wire_of e) ++ take (Z.to_nat rc) bs) (pending (wire_of e))
                        (told (wire_of e))
}.

(** The peer's bytes arrive before a read gives up: it returns as many as it was
    asked for, or all there are. *)
Class HalArrives (E : Type) `{!Hal E} `{!HalWire E} := {
  wire_read h len t e :
    0 <= len ->
    let bs := take (Z.to_nat len) (pending (wire_of e)) in
    exists e', HAL_SSL_Read h len t e = (Z.of_nat (List.length bs), bs, e')
    /\ wire_of e' = Wire (sent (wire_of e)) (drop (Z.to_nat len) (pending (wire_of e)))
                        (told (wire_of e))
}.

(** Every stop is admitted. *)
Definition any (_ : stop) : Prop := True.

(** Two specifications of one run. *)
Lemma wp_both {E A} ok (m : prog E A) P Q w :
  wp ok m P w -> wp any m Q w -> wp ok m (fun a w' => P a w' /\ Q a w') w.
Proof. unfold wp. by destruct (m w). Qed.

(** ** Programs that an observer does not see *)

Section Quiet.
Context {E : Type} `{!Hal E} `{!HalWire E}.
Implicit Types (w : world E).

Class Quiet {A} (m : prog E A) :=
  quiet w : wp any m (fun _ w' => wire_of (w_env w') = wire_of (w_env w)) w.

Lemma wp_quiet {A} ok (m : prog E A) `{!Quiet m} P w :
  wp ok m P w ->
  wp ok m (fun a w' => P a w' /\ wire_of (w_env w') = wire_of (w_env w)) w.
Proof. intros Hm. by apply wp_both. Qed.

#[global] Instance quiet_ret {A} (a : A) : Quiet (mret a).
Proof. by intros w. Qed.

#[global] Instance quiet_bind {A B} (m : prog E A) (k : A -> prog E B) :
  Quiet m -> (forall a, Quiet (k a)) -> Quiet (m ≫= k).
Proof.
  intros Hm Hk w. eapply wp_bind; [apply Hm|]. cbn beta. intros a w1 H1.
  eapply wp_mono; [apply Hk|]. cbn beta. intros b w2 ->. exact H1.
Qed.

#[global] Instance quiet_get {A} (f : iotx_mc_client_t -> A) : Quiet (get f).
Proof. by intros w. Qed.

#[global] Instance quiet_modify f : Quiet (modify f).
Proof. by intros w. Qed.

#[global] Instance quiet_lift {A} x (o : option A) : Quiet (lift x o).
Proof. intros w. unfold wp, lift. by destruct o. Qed.

#[global] Instance quiet_lock l : Quiet (HAL_MutexLock l).
Proof. intros w. unfold wp, HAL_MutexLock. destruct (negb _); [done|]. by destruct (bool_decide _). Qed.

#[global] Instance quiet_unlock l : Quiet (HAL_MutexUnlock l).
Proof. intros w. unfold wp, HAL_MutexUnlock. by destruct (bool_decide _). Qed.

#[global] Instance quiet_free a : Quiet (mqtt_free a).
Proof. intros w. unfold wp, mqtt_free. by destruct (bool_decide _). Qed.

#[global] Instance quiet_malloc n : Quiet (mqtt_malloc n).
Proof.
  intros w. unfold wp, mqtt_malloc. pose proof (wire_malloc n (w_env w)) as Hw.
  destruct (HAL_Malloc n (w_env w)) as [[] e]; exact Hw.
Qed.

Lemma quiet_plat {A} (f : E -> A * E) :
  (forall e, wire_of (snd (f e)) = wire_of e) -> Quiet (plat f).
Proof. intros Hf w. unfold wp, plat. specialize (Hf (w_env w)). by destruct (f (w_env w)). Qed.

Lemma wire_expired t e : wire_of (snd (utils_time_is_expired (Some t) e)) = wire_of e.
Proof.
  unfold utils_time_is_expired. pose proof (wire_uptime e) as H.
  destruct (HAL_UptimeMs e). cbn in *. by destruct (_ <? _).
Qed.

Lemma wire_left t e : wire_of (snd (iotx_time_left (Some t) e)) = wire_of e.
Proof.
  unfold iotx_time_left. pose proof (wire_expired t e) as H1.
  destruct (utils_time_is_expired (Some t) e) as [x e'] eqn:Ee. cbn [snd] in *.
  destruct (negb _); [done|]. pose proof (wire_uptime e') as H2.
  destruct (HAL_UptimeMs e'). cbn in *. by rewrite H2.
Qed.

#[global] Instance quiet_expired t : Quiet (time_is_expired t).
Proof. apply quiet_plat, wire_expired. Qed.

#[global] Instance quiet_left t : Quiet (time_left t).
Proof. apply quiet_plat, wire_left. Qed.

#[global] Instance quiet_countdown ms : Quiet (time_countdown_ms ms).
Proof.
  apply quiet_plat. intros e. unfold utils_time_countdown_ms.
  pose proof (wire_uptime e) as H. by destruct (HAL_UptimeMs e).
Qed.

#[global] Instance quiet_start : Quiet time_start.
Proof.
  apply quiet_plat. intros e. unfold iotx_time_start.
  pose proof (wire_uptime e) as H. by destruct (HAL_UptimeMs e).
Qed.

#[global] Instance quiet_spend t : Quiet (time_spend t).
Proof.
  apply quiet_plat. intros e. unfold utils_time_spend.
  pose proof (wire_uptime e) as H. by destruct (HAL_UptimeMs e).
Qed.
End Quiet.

#[global] Hint Mode Quiet - - - - ! : typeclass_instances.

(** Decides the case distinctions of a program that an observer does not see. *)
Ltac quiet_tac :=
  repeat first
    [ progress intros
    | apply _
    | match goal with
      | |- Quiet (_ ≫= _) => apply quiet_bind
      | |- Quiet (match ?x with _ => _ end) => destruct x
      end ].

Section QuietOps.
Context {E : Type} `{!Hal E} `{!HalWire E}.

#[global] Instance quiet_alloc_send n : Quiet (_alloc_send_buffer n).
Proof. unfold _alloc_send_buffer. quiet_tac. Qed.

#[global] Instance quiet_reset_send : Quiet _reset_send_buffer.
Proof. unfold _reset_send_buffer. quiet_tac. Qed.

#[global] Instance quiet_alloc_recv n : Quiet (_alloc_recv_buffer n).
Proof. unfold _alloc_recv_buffer. quiet_tac. Qed.

#[global] Instance quiet_reset_recv : Quiet _reset_recv_buffer.
Proof. unfold _reset_recv_buffer. quiet_tac. Qed.

#[global] Instance quiet_serialize f : Quiet (serialize f).
Proof. unfold serialize. quiet_tac. Qed.

#[global] Instance quiet_push len id : Quiet (iotx_mc_push_pubInfo_to len id).
Proof. unfold iotx_mc_push_pubInfo_to. quiet_tac. Qed.

#[global] Instance quiet_pub_del a : Quiet (pub_del a).
Proof. unfold pub_del. quiet_tac. Qed.

#[global] Instance quiet_next_packetid : Quiet iotx_mc_get_next_packetid.
Proof. unfold iotx_mc_get_next_packetid. quiet_tac. Qed.

#[global] Instance quiet_get_state : Quiet iotx_mc_get_client_state.
Proof. unfold iotx_mc_get_client_state. quiet_tac. Qed.

#[global] Instance quiet_set_state s : Quiet (iotx_mc_set_client_state s).
Proof. unfold iotx_mc_set_client_state. quiet_tac. Qed.
End QuietOps.

(** One step of a program and what an observer sees of it: nothing. *)
Tactic Notation "qstep" uconstr(lem) :=
  eapply wp_bind; [apply wp_quiet; [quiet_tac|eapply lem; step_goal]|]; cbn beta.

(** Only the platform's state changed, and an observer sees [x]. *)
Record wire_at {E} `{!Hal E} `{!HalWire E} (w0 : world E) (x : wire) (w : world E) : Prop := {
  wa_same : exists e, w = w0 <| w_env := e |>;
  wa_wire : wire_of (w_env w) = x
}.

(** What is seen after [bs] was sent. *)
Definition sending (x : wire) (bs : list Z) : wire := Wire (sent x ++ bs) (pending x) (told x).

Lemma sending_nil x : sending x [] = x.
Proof. destruct x. unfold sending. cbn. by rewrite app_nil_r. Qed.

Section Wire.
Context {E : Type} `{!Hal E} `{!HalWire E} (ok : stop -> Prop).
Implicit Types (w : world E).

Lemma wire_at_refl w : wire_at w (wire_of (w_env w)) w.
Proof. split; [|done]. exists (w_env w). by destruct w. Qed.

(** A platform call that an observer does not see. *)
Lemma wire_plat {A} (f : E -> A * E) w0 x w :
  (forall e, wire_of (snd (f e)) = wire_of e) ->
  wire_at w0 x w -> wp ok (plat f) (fun _ => wire_at w0 x) w.
Proof.
  intros Hf [[e ->] Hs]. unfold wp, plat. pose proof (Hf (w_env (w0 <| w_env := e |>))) as H1.
  destruct (f _) as [a e'] eqn:Ef. cbn in *. rewrite ?Ef in *.
  split; [by exists e'|by rewrite <-Hs].
Qed.

Lemma wire_write_spec bs t w0 x w :
  wire_at w0 x w ->
  wp ok (net_write bs t) (fun rc w' => rc <= Z.of_nat (List.length bs)
    /\ (HalProgress E -> bs <> [] -> rc <> 0)
    /\ wire_at w0 (sending x (take (Z.to_nat rc) bs)) w') w.
Proof.
  intros [[e ->] Hs]. unfold net_write. step_get.
  unfold wp, plat, utils_net_write, write_ssl.
  set (h := handle _). set (e0 := w_env _) in *.
  destruct (HAL_SSL_Write h bs t e0) as [rc e'] eqn:Ew.
  destruct (wire_write _ _ _ _ _ _ Ew) as (Hl & H1).
  split; [done|]. split.
  - intros Hpr Hb. pose proof (hal_write_progress h bs t e0 Hb) as Hx. by rewrite Ew in Hx.
  - split; cbn; [by exists e'|by rewrite H1, Hs].
Qed.

Lemma wire_send_loop n buf length k timer w0 x w :
  ok NoFuel \/ (HalProgress E /\ Z.max 0 (length - k) < Z.of_nat n) ->
  0 <= k <= length -> length <= Z.of_nat (List.length buf) ->
  wire_at w0 (sending x (take (Z.to_nat k) buf)) w ->
  wp ok (send_loop n buf length k timer) (fun k' w' => k <= k' <= length
    /\ wire_at w0 (sending x (take (Z.to_nat k') buf)) w') w.
Proof.
  revert k w; induction n as [|n IH]; intros k w Hf Hs Hl HW.
  { destruct Hf as [Hf|[_ Hf]]; [exact Hf|lia]. }
  cbn [send_loop]. destruct (Z.ltb_spec k length); [|apply wp_ret; split; [lia|done]].
  eapply wp_bind; [by apply wire_plat; [apply wire_expired|]|]. cbn beta. intros y w1 HW1.
  destruct (negb _); [apply wp_ret; split; [lia|done]|].
  eapply wp_bind; [by apply wire_plat; [apply wire_left|]|]. cbn beta. intros lt w2 HW2.
  set (bs := take (Z.to_nat (length - k)) (drop (Z.to_nat k) buf)).
  assert (Z.of_nat (List.length bs) = length - k) as Hbs
    by (unfold bs; rewrite length_take, length_drop; lia).
  eapply wp_lift_bind.
  { unfold slice. rewrite (proj2 (Z.ltb_ge k 0)), (proj2 (Z.ltb_ge (length - k) 0)),
      (proj2 (Z.ltb_ge _ (k + _))) by lia. reflexivity. }
  eapply wp_bind; [by apply wire_write_spec|]. cbn beta. fold bs. intros rc w3 (Hrc & Hp & HW3).
  destruct (Z.ltb_spec rc 0).
  { apply wp_ret. split; [lia|]. replace (Z.to_nat rc) with 0%nat in HW3 by lia.
    by rewrite take_0, sending_nil in HW3. }
  eapply wp_mono; [apply (IH (k + rc))|].
  - destruct Hf as [Hf|[Hpr Hf]]; [by left|right]. split; [done|].
    assert (rc <> 0); [|lia]. apply Hp; [done|]. intros Hnil. rewrite Hnil in Hbs. cbn in Hbs. lia.
  - lia.
  - done.
  - replace (take (Z.to_nat (k + rc)) buf)
      with (take (Z.to_nat k) buf ++ take (Z.to_nat rc) bs).
    + unfold sending in *. cbn in HW3. by rewrite app_assoc.
    + unfold bs. rewrite take_take. rewrite Z2Nat.inj_add by lia.
      rewrite Nat.min_l by lia. apply take_take_drop.
  - cbn beta. intros k' w' [Hk HW']. split; [lia|done].
Qed.

(** The network gets a prefix of a packet, the whole of it on success. *)
Lemma wire_send_packet fuel buf length timer w :
  ok NoFuel \/ (HalProgress E /\ length < Z.of_nat fuel) ->
  0 <= length <= Z.of_nat (List.length buf) ->
  wp ok (iotx_mc_send_packet fuel (Some buf) length timer) (fun rc w' =>
    exists k, 0 <= k <= length
      /\ wire_at w (sending (wire_of (w_env w)) (take (Z.to_nat k) buf)) w'
      /\ rc = (if k =? length then STATE_SUCCESS else STATE_SYS_DEPEND_NWK_CLOSE)) w.
Proof.
  intros Hf Hl. unfold iotx_mc_send_packet. eapply wp_bind.
  - apply (wire_send_loop fuel buf length 0 timer w (wire_of (w_env w))); [|lia|lia|].
    + destruct Hf as [Hf|[Hp Hf]]; [by left|right]. split; [done|lia].
    + rewrite take_0, sending_nil. apply wire_at_refl.
  - cbn beta. intros k w' [Hk HW]. apply wp_ret. by exists k.
Qed.
End Wire.

(** The network was given a prefix of [packet], all of it when [rc] reports no
    error, and nothing else is seen. *)
Definition request_wire (packet : list Z) (rc : Z) (x x' : wire) : Prop :=
  exists k, (k <= List.length packet)%nat /\ x' = sending x (take k packet)
            /\ (0 <= rc -> k = List.length packet).

Lemma request_none packet rc x : rc < 0 -> request_wire packet rc x x.
Proof. intros Hrc. exists 0%nat. rewrite take_0, sending_nil. split; [lia|]. split; [done|lia]. Qed.

Lemma request_code packet rc rc' x x' :
  request_wire packet rc x x' -> (0 <= rc' -> 0 <= rc) -> request_wire packet rc' x x'.
Proof. intros (k & Hk & Hx & Hrc) Hi. exists k. auto. Qed.

Section SendBuffer.
Context {E : Type} `{!Hal E} `{!HalWire E} (ok : stop -> Prop).
Implicit Types (w : world E).

(** Sending what the serializer left in the buffer. *)
Lemma send_buffer_wire fuel packet len timer F H w :
  send_fuel fuel ok -> inv F H w -> has_packet packet len (w_client w) -> 0 < len ->
  wp ok (send_buffer fuel len timer) (fun rc w' =>
    (inv F H w' /\ w_client w' = w_client w
     /\ (rc = STATE_SUCCESS \/ rc = STATE_SYS_DEPEND_NWK_CLOSE))
    /\ request_wire packet rc (wire_of (w_env w)) (wire_of (w_env w'))) w.
Proof.
  intros Hf HI Hpk Hlen.
  apply wp_both; [by eapply send_packet_buffer|].
  destruct Hpk as (b & Eb & Hl & Hp). destruct (Hp Hlen) as [El Et].
  unfold send_buffer. step_get. rewrite Eb. cbn [fmap option_fmap option_map].
  eapply wp_mono; [apply wire_send_packet; [by left|lia]|].
  cbn beta. intros rc w' (k & Hk & [_ Hw] & ->).
  exists (Z.to_nat k). split; [lia|]. split.
  - rewrite Hw. rewrite <-Et, take_take, Nat.min_l by lia. done.
  - destruct (Z.eqb_spec k len); [lia|]. unfold STATE_SYS_DEPEND_NWK_CLOSE. lia.
Qed.
End SendBuffer.

(** C11. Sending: on a platform whose writes make progress, [iotx_mc_send_packet]
    returns for every packet, timer and behaviour of the network (partial writes,
    time-outs, failures); the network was given a prefix of the packet, each byte
    once and in order, and the result is success exactly when that is the whole
    packet; nothing else changed. *)
Theorem send_packet_wire {E} `{!Hal E} `{!HalWire E} `{!HalProgress E} (fuel : nat)
    (buf : list Z) (length : Z) (timer : iotx_time_t) (w : world E) :
  0 <= length <= Z.of_nat (List.length buf) -> length < Z.of_nat fuel ->
  exists rc e k,
    iotx_mc_send_packet fuel (Some buf) length timer w = Done rc (w <| w_env := e |>)
    /\ 0 <= k <= length
    /\ wire_of e = sending (wire_of (w_env w)) (take (Z.to_nat k) buf)
    /\ rc = (if k =? length then STATE_SUCCESS else STATE_SYS_DEPEND_NWK_CLOSE).
Proof.
  intros Hl Hf.
  pose proof (wire_send_packet never fuel buf length timer w (or_intror (conj _ Hf)) Hl) as Hw.
  apply wp_never in Hw as (rc & w' & Er & k & Hk & [[e ->] Hs] & ->).
  eexists _, e, k. split; [exact Er|]. by split; [|split].
Qed.

(** The events that the application which logs was told. *)
Definition sim_told (l : sim_log) : option (iotx_mqtt_event_handle_t * iotx_mqtt_event_msg_t) :=
  match l with LogEvent h m => Some (h, m) | _ => None end.

#[global, refine] Instance sim_wire : HalWire sim :=
  {| wire_of s := Wire (sim_out s) (u8 <$> sim_in s) (omap sim_told (sim_logs s)) |}.
Proof.
  - done.
  - done.
  - done.
  - intros h bs t e rc e' [= <- <-]. cbn. rewrite Nat2Z.id, firstn_all. split; [lia|done].
Defined.

Lemma send_packet_wire_witness :
  exists rc e k,
    iotx_mc_send_packet 9 (Some [192; 0; 7]) 2 (MkTime 100) (sim_world 0 [])
      = Done rc ((sim_world 0 []) <| w_env := e |>)
    /\ 0 <= k <= 2 /\ wire_of e = Wire ([] ++ take (Z.to_nat k) [192; 0; 7]) [] []
    /\ rc = (if k =? 2 then STATE_SUCCESS else STATE_SYS_DEPEND_NWK_CLOSE).
Proof.
  exact (send_packet_wire 9 [192; 0; 7] 2 (MkTime 100) (sim_world 0 [])
    ltac:(cbn; lia) ltac:(lia)).
Defined.
