(* ===== verification/MqttFrame.v ===== *)
(** * MqttFrame: one packet is read from the network

    [iotx_mc_read_packet] takes exactly one packet from the bytes that the peer
    sent, and leaves it in the read buffer. *)

From S2P Require Import Prelude.
From S2P Require Import InfraState.
From S2P Require Import Hal.
From S2P Require Import InfraTimer.
From S2P Require Import InfraNet.
From S2P Require Import InfraCompat.
From S2P Require Import MqttPacket.
From S2P Require Import MqttConnect.
From S2P Require Import MqttState.
From S2P Require Import MqttSend.
From S2P Require Import MqttRecv.
From S2P Require Import MqttLogic.
From S2P Require Import MqttSendSafe.
From S2P Require Import MqttRecvSafe.
From S2P Require Import MqttSim.
From S2P Require Import MqttWire.

Section Frame.
Context {E : Type} `{!Hal E} `{!App E} `{!HalRead E} `{!HalWire E} `{!HalArrives E} `{!HalMemory E}.
Implicit Types (F : list nat) (H : list lock) (w : world E).

(** What is seen when [rest] is left of the peer's bytes. *)
Definition unread (x : wire) (rest : list Z) : wire := Wire (sent x) rest (told x).

(** A packet is read since [w0]: only the read buffer changed, which holds [data],
    and [rest] is left of the peer's bytes. *)
Record reading F H w0 (data rest : list Z) w : Prop := {
  rd_inv : inv F H w;
  rd_client : drop_read (w_client w) = drop_read (w_client w0);
  rd_wire : wire_of (w_env w) = unread (wire_of (w_env w0)) rest;
  rd_buf : exists b, buf_read (w_client w) = Some b /\ buf_data b = data
}.

Lemma reading_size F H w0 data rest w :
  reading F H w0 data rest w -> buf_size_read (w_client w) = Z.of_nat (List.length data).
Proof.
  intros [HI _ _ (b & Eb & <-)]. by rewrite (co_read _ (inv_c _ _ _ HI) b Eb).
Qed.

Lemma reading_max F H w0 data rest w :
  reading F H w0 data rest w ->
  buf_size_read_max (w_client w) = buf_size_read_max (w_client w0).
Proof. intros [_ Ec _ _]. exact (f_equal buf_size_read_max Ec). Qed.

Lemma reading_same F H H' w0 data rest w w' :
  reading F H w0 data rest w -> inv F H' w' -> w_client w' = w_client w ->
  wire_of (w_env w') = wire_of (w_env w) -> reading F H' w0 data rest w'.
Proof. intros [HI Hc Hw Hb] HI' E1 E2. split; [done|by rewrite E1|by rewrite E2|by rewrite E1]. Qed.

Lemma reading_base w1 F H w0 data rest w :
  w_client w0 = w_client w1 -> wire_of (w_env w0) = wire_of (w_env w1) ->
  reading F H w0 data rest w -> reading F H w1 data rest w.
Proof. intros E1 E2 [HI Hc Hw Hb]. by split; [|rewrite <-E1|rewrite <-E2|]. Qed.

Lemma reading_plat {A} (f : E -> A * E) `{!Quiet (plat f)} F H w0 data rest w :
  reading F H w0 data rest w ->
  wp never (plat f) (fun _ => reading F H w0 data rest) w.
Proof.
  intros HR. eapply wp_mono; [apply wp_quiet; [apply _|apply plat_spec, HR]|].
  intros a w' [[HI E1] E2]. by eapply reading_same.
Qed.

Lemma reading_unlock l F H w0 data rest w :
  reading F (l :: H) w0 data rest w -> below l H ->
  wp never (HAL_MutexUnlock l) (fun _ => reading F H w0 data rest) w.
Proof.
  intros HR Hb. eapply wp_mono; [apply wp_quiet; [apply _|by apply unlock_spec, Hb; apply HR]|].
  intros a w' [[HI E1] E2]. by eapply reading_same.
Qed.

Lemma malloc_ok sz w : wp any (mqtt_malloc sz) (fun a _ => is_Some a) w.
Proof.
  unfold wp, mqtt_malloc. pose proof (hal_malloc_ok sz (w_env w)) as H1.
  destruct (HAL_Malloc sz (w_env w)) as [o e]. cbn in *. by subst o.
Qed.

Lemma alloc_recv_ok len w : wp any (_alloc_recv_buffer len) (fun rc _ => rc = STATE_SUCCESS) w.
Proof.
  unfold _alloc_recv_buffer. step_get. step_get.
  destruct (buf_read (w_client w)) as [b|].
  - eapply wp_bind; [apply malloc_ok|]. cbn beta. intros a w1 [a' ->].
    step_get. apply wp_lift_bind_ok; [done|]. intros d _.
    eapply (wp_bind _ _ _ (fun _ _ => True)); [unfold wp; by destruct (mqtt_free _ _)|]. done.
  - eapply wp_bind; [apply malloc_ok|]. by intros a w1 [a' ->].
Qed.

Lemma reading_alloc len F H w0 data rest w :
  reading F H w0 data rest w ->
  let n := alloc_size MQTT_DYNBUF_RECV_MARGIN len (buf_size_read_max (w_client w0)) in
  wp never (_alloc_recv_buffer len) (fun rc w' => rc = STATE_SUCCESS
    /\ reading F H w0 (resized data (Z.to_nat n)) rest w') w.
Proof.
  intros HR n. pose proof (reading_max _ _ _ _ _ _ HR) as Hm.
  destruct HR as [HI Hc Hw (b & Eb & Ed)].
  eapply wp_mono; [apply wp_both; [apply wp_quiet; [apply _|by apply alloc_recv_spec]
    |apply alloc_recv_ok]|].
  cbn beta. intros rc w' [[(HI' & Hc' & Hrc) Hw'] ->]. split; [done|].
  destruct Hrc as [(_ & b' & Eb' & _ & _ & Hd)|[Hbad _]]; [|done].
  split; [done|congruence|congruence|].
  exists b'. split; [done|]. by rewrite (Hd b Eb), Ed, Hm.
Qed.

(** The first allocation of a read. *)
Lemma reading_start len F H w :
  inv F H w ->
  let n := alloc_size MQTT_DYNBUF_RECV_MARGIN len (buf_size_read_max (w_client w)) in
  wp never (_alloc_recv_buffer len) (fun rc w' => rc = STATE_SUCCESS
    /\ exists data, Z.of_nat (List.length data) = n
       /\ reading F H w data (pending (wire_of (w_env w))) w') w.
Proof.
  intros HI n.
  eapply wp_mono; [apply wp_both; [apply wp_quiet; [apply _|by apply alloc_recv_spec]
    |apply alloc_recv_ok]|].
  cbn beta. intros rc w' [[(HI' & Hc' & Hrc) Hw'] ->]. split; [done|].
  destruct Hrc as [(_ & b' & Eb' & El & _ & _)|[Hbad _]]; [|done].
  exists (buf_data b'). split; [done|]. split; [done|done| |by exists b'].
  rewrite Hw'. unfold unread. by destruct (wire_of (w_env w)).
Qed.

Lemma reading_net len t F H w0 data rest w :
  reading F H w0 data rest w -> 0 <= len ->
  let bs := take (Z.to_nat len) rest in
  wp never (net_read len t) (fun r w' => r = (Z.of_nat (List.length bs), bs) /\ bytes_ok bs
    /\ w_client w' = w_client w
    /\ reading F H w0 data (drop (Z.to_nat len) rest) w') w.
Proof.
  intros [HI Hc Hw Hb] Hl bs. unfold net_read. step_get.
  unfold wp, plat, utils_net_read, read_ssl. set (h := handle _).
  destruct (wire_read h len t (w_env w) Hl) as (e' & Er & Hw').
  rewrite Hw in Er, Hw'. cbn [pending unread] in Er, Hw'. fold bs in Er. rewrite Er.
  split; [done|].
  destruct (hal_read_bytes _ _ _ _ _ _ _ Er) as [Hbs _]. split; [done|].
  split; [done|]. split; [by apply (inv_same F H w)|done|done|done].
Qed.

Lemma reading_set b d F H w0 data rest w :
  reading F H w0 data rest w -> buf_read (w_client w) = Some b ->
  List.length d = List.length data ->
  wp never (modify (fun c => c <| buf_read := Some (b <| buf_data := d |>) |>))
    (fun _ => reading F H w0 d rest) w.
Proof.
  intros [HI Hc Hw (b' & Eb & Ed)] Eb' El. rewrite Eb in Eb'. injection Eb' as ->.
  pose proof (set_read_spec never b d F H w HI Eb ltac:(by rewrite Ed)) as Hs. revert Hs.
  unfold wp, modify. intros [HI' _]. split; [exact HI'|exact Hc|exact Hw|].
  by exists (b <| buf_data := d |>).
Qed.

(** The bytes of a read into the buffer. *)
Lemma reading_into off len t F H w0 data rest w :
  reading F H w0 data rest w -> 0 <= len ->
  let bs := take (Z.to_nat len) rest in
  Z.of_nat off + Z.of_nat (List.length bs) <= Z.of_nat (List.length data) ->
  wp never (read_into off len t) (fun rc w' => rc = Z.of_nat (List.length bs)
    /\ reading F H w0 (take off data ++ bs ++ drop (off + List.length bs) data)
         (drop (Z.to_nat len) rest) w') w.
Proof.
  intros HR Hl bs Hfit. unfold read_into. step_get.
  pose proof (rd_buf _ _ _ _ _ _ HR) as (b & Eb & Ed). eapply wp_lift_bind; [exact Eb|].
  eapply wp_bind; [by apply reading_net|]. cbn beta. fold bs. intros r w1 (-> & Hb & E1 & HR1).
  eapply wp_lift_bind; [apply puts_fits; [exact Hb|cbn; rewrite Ed; lia]|].
  cbn [blit wb_mem wb_pos]. rewrite Ed.
  eapply wp_bind; [eapply (reading_set b); [exact HR1|by rewrite E1|]|].
  { rewrite !length_app, length_take, length_drop. lia. }
  cbn beta. intros _ w2 HR2. apply wp_ret. split; [done|exact HR2].
Qed.

(** One digit of the Remaining Length. *)
Lemma reading_digit k v m len t d rest F H w0 data w P :
  reading F H w0 data (d :: rest) w -> 0 <= d < 256 -> len < 4 ->
  (forall w', reading F H w0 data rest w' ->
     wp never (if d <? 128 then mret (len + 1, v + d mod 128 * m)
               else decode_packet_loop k (v + d mod 128 * m) (m * 128) (len + 1) t) P w') ->
  wp never (decode_packet_loop (S k) v m len t) P w.
Proof.
  intros HR Hd Hl HP. cbn [decode_packet_loop].
  unfold MAX_NO_OF_REMAINING_LENGTH_BYTES. rewrite (proj2 (Z.ltb_ge _ _)) by lia.
  eapply wp_bind; [eapply reading_net; [exact HR|lia]|]. cbn beta.
  change (Z.to_nat 1) with 1%nat. cbn [take drop].
  intros r w1 (-> & _ & _ & HR1). cbn [List.length Z.of_nat Pos.of_succ_nat].
  cbn [Z.leb STATE_SUCCESS Z.compare].
  eapply wp_lift_bind; [reflexivity|].
  change 127 with (Z.ones 7). rewrite Z.land_ones by lia. change (2 ^ 7) with 128.
  rewrite land_128 by done. specialize (HP w1 HR1).
  destruct (Z.ltb_spec d 128); exact HP.
Qed.

Lemma reading_decode n rest t F H w0 data w :
  reading F H w0 data (remlen_bytes n ++ rest) w -> 0 <= n <= remlen_max ->
  wp never (iotx_mc_decode_packet t) (fun r w' =>
    r = (Z.of_nat (List.length (remlen_bytes n)), n) /\ reading F H w0 data rest w') w.
Proof.
  intros HR Hn. unfold remlen_max in Hn. unfold iotx_mc_decode_packet. revert HR.
  unfold remlen_bytes. zcases; cbn [app]; intros HR;
    repeat (eapply reading_digit; [eassumption|dlia|lia|]; clear dependent w; intros w HR;
            first [rewrite (proj2 (Z.ltb_lt _ _)) by dlia
                  |rewrite (proj2 (Z.ltb_ge _ _)) by dlia]);
    apply wp_ret; (split; [|exact HR]); cbn [List.length]; f_equal; dlia.
Qed.

(** Storing the Remaining Length again, after the first byte. *)
Lemma reading_encode {A} n (k : Z -> prog E A) F H w0 data rest w P :
  reading F H w0 data rest w -> 0 <= n <= remlen_max ->
  (1 + List.length (remlen_bytes n) <= List.length data)%nat ->
  (forall w', reading F H w0 (take 1 data ++ remlen_bytes n
       ++ drop (1 + List.length (remlen_bytes n)) data) rest w' ->
     wp never (k (Z.of_nat (List.length (remlen_bytes n)))) P w') ->
  wp never (b ← get buf_read;
            b ← lift FaultNull b;
            '(m, w) ← lift FaultWrite (MQTTPacket_encode n (WBuf (buf_data b) 1));
            modify (fun c => c <| buf_read := Some (b <| buf_data := wb_mem w |>) |>);;
            k m) P w.
Proof.
  intros HR Hn Hl HP. step_get. pose proof (rd_buf _ _ _ _ _ _ HR) as (b & Eb & Ed).
  eapply wp_lift_bind; [exact Eb|].
  eapply wp_lift_bind.
  { rewrite MQTTPacket_encode_puts by done.
    rewrite puts_fits by (first [by apply remlen_bytes_ok|cbn; rewrite Ed; lia]). reflexivity. }
  cbn [blit wb_mem wb_pos]. rewrite Ed.
  eapply wp_bind; [eapply (reading_set b); [exact HR|exact Eb|]|].
  { rewrite !length_app, length_take, length_drop. lia. }
  cbn beta. intros _ w1 HR1. by apply HP.
Qed.

(** The rest of the packet. *)
Lemma reading_rest timer t0 (len n size : Z) head_ body rest F H w0 data w :
  reading F (LOCK_READ_BUF :: H) w0 data (body ++ rest) w -> below LOCK_READ_BUF H ->
  n = Z.of_nat (List.length body) -> len = Z.of_nat (List.length head_) ->
  take (List.length head_) data = head_ -> 0 < len ->
  len + n <= Z.of_nat (List.length data) -> size = Z.of_nat (List.length data) ->
  wp never (left_t ← time_left timer;
            rc ← read_into (Z.to_nat len) n (clamp1 left_t);
            if (0 <? n) && (rc <? 0) then
              HAL_MutexUnlock LOCK_READ_BUF;; mret (STATE_SYS_DEPEND_NWK_CLOSE, t0)
            else if (0 <? n) && negb (rc =? n) then
              HAL_MutexUnlock LOCK_READ_BUF;; mret (STATE_MQTT_PACKET_READ_ERROR, t0)
            else
              b ← get buf_read;
              b ← lift FaultNull b;
              header ← lift FaultRead (buf_data b !! 0%nat);
              (if len + n <? size then
                 w ← lift FaultWrite (put 0 (WBuf (buf_data b) (Z.to_nat (len + n))));
                 modify (fun c => c <| buf_read := Some (b <| buf_data := wb_mem w |>) |>)
               else mret tt);;
              HAL_MutexUnlock LOCK_READ_BUF;;
              mret (STATE_SUCCESS, MQTT_HEADER_GET_TYPE header))
    (fun r w' => exists data', r = (STATE_SUCCESS, MQTT_HEADER_GET_TYPE (hd 0 head_))
       /\ take (List.length (head_ ++ body)) data' = head_ ++ body
       /\ reading F H w0 data' rest w') w.
Proof.
  intros HR Hb -> -> Hhead Hlen Hfit ->.
  eapply wp_bind; [by apply reading_plat; [apply quiet_left|]|]. cbn beta. intros lt w1 HR1.
  rewrite !Nat2Z.id.
  eapply wp_bind; [apply reading_into; [exact HR1|lia|]|].
  { rewrite Nat2Z.id, take_app_length. lia. }
  rewrite Nat2Z.id, take_app_length, drop_app_length. cbn beta. intros rc w2 (-> & HR2).
  rewrite Z.eqb_refl, (proj2 (Z.ltb_ge _ 0)) by lia. rewrite !andb_false_r. rewrite Hhead in HR2.
  set (d2 := head_ ++ body ++ drop (List.length head_ + List.length body) data) in *.
  step_get. pose proof (rd_buf _ _ _ _ _ _ HR2) as (b & Eb & Ed).
  eapply wp_lift_bind; [exact Eb|].
  destruct head_ as [|h0 hs]; [cbn in Hlen; lia|].
  eapply wp_lift_bind; [by rewrite Ed|].
  assert (List.length d2 = List.length data) as Hd2
    by (unfold d2; rewrite !length_app, length_drop; lia).
  eapply (wp_bind _ _ _ (fun _ w' => exists d3, take (List.length ((h0 :: hs) ++ body)) d3
             = (h0 :: hs) ++ body /\ reading F (LOCK_READ_BUF :: H) w0 d3 rest w')).
  { destruct (Z.ltb_spec (Z.of_nat (List.length (h0 :: hs)) + Z.of_nat (List.length body))
                (Z.of_nat (List.length data))) as [Hlt|].
    - eapply wp_lift_bind.
      { unfold put. cbn [wb_pos wb_mem]. rewrite Ed, decide_True by lia. reflexivity. }
      cbn [wb_mem]. eapply wp_mono; [eapply (reading_set b); [exact HR2|exact Eb|]|].
      { by rewrite length_insert. }
      cbn beta. intros _ w3 HR3. eexists. split; [|exact HR3].
      rewrite take_insert_ge by (rewrite length_app; lia). unfold d2.
      by rewrite app_assoc, take_app_length.
    - apply wp_ret. exists d2. split; [|done]. unfold d2. by rewrite app_assoc, take_app_length. }
  cbn beta. intros _ w3 (d3 & Ht3 & HR3).
  eapply wp_bind; [by apply reading_unlock|]. cbn beta. intros _ w4 HR4. apply wp_ret.
  exists d3. done.
Qed.
(** A packet as it is on the wire: its first byte, the Remaining Length and as many
    bytes. *)
Definition wire_packet (first : Z) (body : list Z) : list Z :=
  first :: remlen_bytes (Z.of_nat (List.length body)) ++ body.

Lemma take_resized k data n : (k <= n)%nat -> (k <= List.length data)%nat ->
  take k (resized data n) = take k data.
Proof.
  intros Hn Hk. unfold resized. rewrite take_app_le by (rewrite length_take; lia).
  rewrite take_take. by rewrite Nat.min_l by lia.
Qed.

Lemma read_packet_frame_spec timer t0 first body rest F H w :
  inv F H w -> below LOCK_READ_BUF H -> 0 <= first < 256 ->
  Z.of_nat (List.length body) <= remlen_max ->
  Z.of_nat (List.length (wire_packet first body)) <= buf_size_read_max (w_client w) ->
  pending (wire_of (w_env w)) = wire_packet first body ++ rest ->
  wp never (iotx_mc_read_packet timer t0) (fun r w' => exists data,
    r = (STATE_SUCCESS, MQTT_HEADER_GET_TYPE first)
    /\ take (List.length (wire_packet first body)) data = wire_packet first body
    /\ reading F H w data rest w') w.
Proof.
  intros HI Hb Hfirst Hn Hroom Hp. unfold iotx_mc_read_packet.
  set (n := Z.of_nat (List.length body)) in *. set (L := remlen_bytes n).
  assert (1 <= List.length L <= 4)%nat as HL by (apply remlen_bytes_length; lia).
  assert (List.length (wire_packet first body) = 1 + List.length L + List.length body)%nat as Hlen
    by (unfold wire_packet; fold n L; cbn [List.length]; rewrite length_app; lia).
  rewrite Hlen in Hroom.
  qstep lock_spec. intros _ w1 [[HI1 E1] P1].
  eapply wp_bind; [by apply reading_start|]. cbn beta. intros rc w2 (-> & d0 & Hd0 & HR2).
  apply (reading_base w) in HR2; [|done|done].
  rewrite E1, P1, Hp in *. set (max := buf_size_read_max (w_client w)) in *.
  pose proof (co_read_max _ (inv_c _ _ _ HI)) as Hm. fold max in Hm.
  assert (5 <= Z.of_nat (List.length d0)) as Hd0'.
  { rewrite Hd0. unfold alloc_size, MQTT_DYNBUF_RECV_MARGIN. rewrite u32_small by lia. zcase; lia. }
  cbn [Z.ltb STATE_SUCCESS Z.compare].
  eapply wp_bind; [by apply reading_plat; [apply quiet_left|]|]. cbn beta. intros lt w3 HR3.
  unfold wire_packet in HR3. fold n L in HR3. cbn [app] in HR3.
  eapply wp_bind; [apply reading_into; [exact HR3|lia|]|]; change (Z.to_nat 1) with 1%nat;
    cbn [take drop List.length]; rewrite ?take_0; cbn [List.length];
    [lia|]. cbn beta. intros rc w4 (-> & HR4).
  cbn [Z.of_nat Z.eqb Z.ltb Z.compare Pos.of_succ_nat Nat.add app] in HR4 |- *.
  eapply wp_bind; [by apply reading_plat; [apply quiet_left|]|]. cbn beta. intros lt2 w5 HR5.
  rewrite <-app_assoc in HR5. unfold L in HR5.
  eapply wp_bind; [eapply reading_decode; [exact HR5|lia]|]. cbn beta. fold L.
  intros r w6 (-> & HR6). rewrite (proj2 (Z.ltb_ge _ 0)) by lia.
  eapply reading_encode; [exact HR6|lia|fold L; cbn [List.length]; rewrite length_drop; lia|].
  fold L. cbn [take app Nat.add]. rewrite ?take_0, ?drop_0. cbn [app]. intros w7 HR7.
  eapply wp_bind; [by apply reading_alloc|]. cbn beta. intros rc w8 (-> & HR8).
  cbn [Z.ltb STATE_SUCCESS Z.compare].
  fold max in HR8.
  set (sz := alloc_size MQTT_DYNBUF_RECV_MARGIN (n + (1 + Z.of_nat (List.length L))) max) in *.
  set (d1 := first :: L ++ _) in *.
  assert (n + (1 + Z.of_nat (List.length L)) <= sz) as Hsz.
  { unfold sz, alloc_size, MQTT_DYNBUF_RECV_MARGIN. unfold remlen_max in Hn.
    rewrite u32_small by lia. zcase; lia. }
  assert (Z.of_nat (List.length (resized d1 (Z.to_nat sz))) = sz) as Hres
    by (rewrite resized_length; lia).
  step_get. rewrite (reading_size _ _ _ _ _ _ HR8), Hres.
  rewrite (proj2 (Z.ltb_ge sz _)) by lia. rewrite andb_false_r.
  eapply wp_mono; [eapply (reading_rest _ _ _ _ _ (first :: L) body rest);
    [exact HR8|done|done|cbn [List.length]; lia| |lia|lia|by rewrite Hres]|].
  - cbn [List.length]. rewrite take_resized; [|lia|].
    + unfold d1. cbn [take]. by rewrite take_app_length.
    + unfold d1. cbn [List.length]. rewrite length_app. lia.
  - cbn beta. intros r w9 (d & -> & Ht & HR9). by exists d.
Qed.
End Frame.

(** C9. Framing: when the peer's next bytes are a packet (any first byte, any body
    whose length the protocol and the client's read buffer allow) and the platform
    delivers them and has memory, [iotx_mc_read_packet] returns success and the
    packet's type, takes exactly the bytes of that packet from the network, and
    leaves exactly them at the start of the read buffer, where the decoders find
    them; the Remaining Length is read digit by digit and stored again.  Nothing is
    sent, no callback runs, and nothing else of the client changes. *)
Theorem read_packet_frame {E} `{!Hal E} `{!App E} `{!HalRead E} `{!HalWire E} `{!HalArrives E}
    `{!HalMemory E} (F : list nat) (H : list lock) (w : world E) (timer : iotx_time_t)
    (t0 first : Z) (body rest : list Z) :
  inv F H w -> below LOCK_READ_BUF H -> 0 <= first < 256 ->
  Z.of_nat (List.length body) <= remlen_max ->
  Z.of_nat (List.length (wire_packet first body)) <= buf_size_read_max (w_client w) ->
  pending (wire_of (w_env w)) = wire_packet first body ++ rest ->
  exists w' b, iotx_mc_read_packet timer t0 w
                 = Done (STATE_SUCCESS, MQTT_HEADER_GET_TYPE first) w'
  /\ inv F H w' /\ buf_read (w_client w') = Some b
  /\ take (List.length (wire_packet first body)) (buf_data b) = wire_packet first body
  /\ drop_read (w_client w') = drop_read (w_client w)
  /\ wire_of (w_env w') = unread (wire_of (w_env w)) rest.
Proof.
  intros HI Hb Hfirst Hn Hroom Hp.
  destruct (wp_never _ _ _ (read_packet_frame_spec timer t0 first body rest F H w
    HI Hb Hfirst Hn Hroom Hp)) as (r & w' & Er & data & -> & Ht & [HI' Hc Hw (b & Eb & <-)]).
  exists w', b. by split_and!.
Qed.

#[global] Instance sim_arrives : HalArrives sim.
Proof.
  split. intros h len t e Hlen. eexists. cbn.
  rewrite <-fmap_take, <-fmap_drop. by split.
Qed.

#[global] Instance sim_memory : HalMemory sim.
Proof. by split. Qed.

(** The CONNACK, with a publication behind it. *)
Lemma read_packet_frame_witness :
  exists w' b, iotx_mc_read_packet (MkTime 100) 255 sim_client
                 = Done (STATE_SUCCESS, MQTT_HEADER_GET_TYPE 32) w'
  /\ inv [0%nat] [] w' /\ buf_read (w_client w') = Some b
  /\ take 4 (buf_data b) = [32; 2; 0; 0]
  /\ drop_read (w_client w') = drop_read (w_client sim_client)
  /\ wire_of (w_env w') = unread (wire_of (w_env sim_client))
                            ([48; 10; 0; 6] ++ lit "/a/get" ++ lit "hi").
Proof.
  apply (read_packet_frame [0%nat] [] sim_client (MkTime 100) 255 32 [0; 0]
    ([48; 10; 0; 6] ++ lit "/a/get" ++ lit "hi")).
  - exact sim_client_inv.
  - apply below_nil.
  - lia.
  - vm_compute. discriminate.
  - vm_compute. discriminate.
  - vm_compute. reflexivity.
Defined.
