(* ===== verification/MqttDeliver.v ===== *)
(** * MqttDeliver: what the client sends and what it delivers

    The bytes that the requests put on the network and the callbacks that a received
    publication runs, for applications whose callbacks only take note of the event. *)

From S2P Require Import Prelude.
From S2P Require Import InfraState.
From S2P Require Import Hal.
From S2P Require Import InfraTimer.
From S2P Require Import InfraNet.
From S2P Require Import InfraCompat.
From S2P Require Import MqttPacket.
From S2P Require Import MqttConnect.
From S2P Require Import MqttPublish.
From S2P Require Import MqttTopic.
From S2P Require Import MqttState.
From S2P Require Import MqttSend.
From S2P Require Import MqttRecv.
From S2P Require Import MqttSession.
From S2P Require Import MqttLogic.
From S2P Require Import MqttSendSafe.
From S2P Require Import MqttSubSafe.
From S2P Require Import MqttRecvSafe.
From S2P Require Import MqttApi.
From S2P Require Import MqttLife.
From S2P Require Import MqttSim.
From S2P Require Import MqttSafety.
From S2P Require Import MqttWire.
From S2P Require Import MqttFrame.

(** ** Requests on the network *)

Section Requests.
Context {E : Type} `{!Hal E} `{!HalWire E} (fuel : nat) (ok : stop -> Prop).
Context (send_ok : send_fuel fuel ok).
Implicit Types (F : list nat) (H : list lock) (w : world E).

(** A program that returns [a] whenever it returns. *)
Definition returns {A} (m : prog E A) (a : A) : Prop := forall w, wp any m (fun b _ => b = a) w.

Lemma returns_ret {A} (a : A) : returns (mret a) a.
Proof. by intros w. Qed.

Lemma returns_seq {A B} (m : prog E B) (k : prog E A) a :
  returns k a -> returns (m;; k) a.
Proof. intros Hk w. unfold wp, mbind, prog_bind. destruct (m w); [apply Hk|done..]. Qed.

(** The end of a request, which an observer does not see. *)
Lemma wire_end {A} (m : prog E A) a Q w :
  Quiet m -> returns m a ->
  (forall w', wire_of (w_env w') = wire_of (w_env w) -> Q a w') -> wp any m Q w.
Proof.
  intros Hq Hm HQ. eapply wp_mono; [apply wp_quiet; [apply _|apply Hm]|].
  cbn beta. intros b w' [-> W']. by apply HQ.
Qed.

Ltac wire_end :=
  eapply wire_end; [quiet_tac|repeat apply returns_seq; apply returns_ret|];
  intros ? ->.

Lemma MQTTPuback_wire id F H w :
  inv F H w -> below LOCK_WRITE_BUF H ->
  wp ok (MQTTPuback fuel id PUBACK) (fun rc w' => request_post F H w code rc w'
    /\ request_wire (ack_packet PUBACK 0 (u16 id)) rc (wire_of (w_env w)) (wire_of (w_env w')))
    w.
Proof.
  intros HI Hb. apply wp_both; [by apply MQTTPuback_spec|].
  unfold MQTTPuback. step_get. qstep plat_spec. intros t w1 [[HI1 E1] W1].
  qstep lock_spec. intros _ w2 [[HI2 E2] W2]. rewrite Z.eqb_refl.
  qstep alloc_send_spec. intros rc w3 [(HI3 & E3 & [[-> [a Ea]]|[-> _]]) W3]; last first.
  { cbn [Z.ltb STATE_SUCCESS STATE_SYS_DEPEND_MALLOC Z.compare].
    wire_end. rewrite W3, W2, W1. by apply request_none. }
  cbn [Z.ltb STATE_SUCCESS Z.compare]. pose proof (u16_range id) as Hid.
  qstep serialize_stores; [apply MQTTSerialize_ack_stores; [unfold PUBACK; lia|lia]|done|].
  intros len w4 [(HI4 & Hp & E4) W4].
  rewrite W3, W2, W1 in W4. destruct (Z.leb_spec len 0).
  { wire_end. rewrite W4. by apply request_none. }
  eapply wp_bind; [eapply send_buffer_wire; [left; done|exact HI4|exact Hp|done]|].
  cbn beta. intros rc w5 [(_ & _ & Hrc) W5]. rewrite W4 in W5.
  wire_end.
  eapply request_code; [exact W5|]. destruct Hrc as [-> | ->]; done.
Qed.

Lemma publication_serializes name info payload buf :
  publication_ok name info payload ->
  let topic := {| cstring := Some name; lenstring_len := 0; lenstring_data := None |} in
  let packet := publication_packet name info payload in
  exists need, Z.of_nat (List.length packet) <= need
    /\ MQTTSerialize_publish buf (Z.of_nat (List.length buf)) 0 (ti_qos info) (ti_retain info)
         (ti_packet_id info) topic (default [] (ti_payload info)) (i32 (ti_payload_len info))
       = Some (stores buf (Z.of_nat (List.length buf)) need packet).
Proof.
  intros [Hn Hnl Hp Hpl Hbs Hid Hsz] topic packet.
  pose proof (cstr_mstr_ok name Hn Hnl) as Hm. fold topic in Hm.
  assert (i32 (ti_payload_len info) = Z.of_nat (List.length payload)) as Hi.
  { rewrite Hpl. apply i32_small. unfold publish_body in Hsz.
    rewrite !length_app in Hsz. unfold remlen_max in Hsz. lia. }
  eexists. split.
  - exact (publish_packet_length 0 (ti_qos info) (ti_retain info) (ti_packet_id info)
        topic payload Hm Hsz).
  - rewrite Hp, Hi. cbn [default from_option id].
    exact (MQTTSerialize_publish_stores 0 (ti_qos info) (ti_retain info) (ti_packet_id info)
        topic payload Hm Hbs Hid _ Hsz).
Qed.

(** Pushing a publication leaves the send buffer alone. *)
Lemma push_packet packet len (b : bool) id F H w :
  inv F H w -> has_packet packet len (w_client w) -> 0 < len ->
  wp any (if b then iotx_mc_push_pubInfo_to len id else mret (STATE_SUCCESS, None))
    (fun _ w' => inv F H w' /\ has_packet packet len (w_client w')
       /\ wire_of (w_env w') = wire_of (w_env w)) w.
Proof.
  intros HI Hp Hl. destruct b; [|by apply wp_ret].
  eapply wp_mono; [apply wp_quiet; [apply _|by eapply push_pubInfo_spec]|].
  cbn beta. intros r w' [[HI' Hr] W']. split; [done|]. split; [|done].
  by destruct Hr as [(_ & n & _ & _ & ->)|[_ ->]].
Qed.

Lemma MQTTPublish_wire name info payload F H w :
  inv F H w -> below LOCK_LIST_PUB H -> publication_ok name info payload ->
  wp any (MQTTPublish fuel (Some name) (Some info)) (fun rc w' =>
    request_wire (publication_packet name info payload) rc
      (wire_of (w_env w)) (wire_of (w_env w'))) w.
Proof.
  intros HI Hb Hok. unfold MQTTPublish. step_get. qstep plat_spec. intros t w1 [[HI1 E1] W1].
  qstep lock_spec. intros _ w2 [[HI2 E2] W2]. qstep lock_spec. intros _ w3 [[HI3 E3] W3].
  rewrite W2, W1 in W3. clear W1 W2.
  qstep alloc_send_spec. intros rc w4 [(HI4 & E4 & [[-> [a Ea]]|[-> _]]) W4];
    rewrite W3 in W4; last first.
  { cbn [Z.ltb STATE_SUCCESS STATE_SYS_DEPEND_MALLOC Z.compare].
    wire_end. rewrite W4. by apply request_none. }
  cbn [Z.ltb STATE_SUCCESS Z.compare].
  destruct (publication_serializes name info payload
    (buf_data (zeroed a (alloc_size MQTT_DYNBUF_SEND_MARGIN
       (i32 (u32 (Z.of_nat (List.length name) + ti_payload_len info)))
       (buf_size_send_max (w_client w3))))) Hok) as (need & Hneed & Hst).
  eapply wp_bind; [apply wp_quiet; [apply _|]|]; [by eapply serialize_stores|]. cbn beta.
  intros len w5 [(HI5 & Hp & E5) W5]. rewrite W4 in W5. destruct (Z.leb_spec len 0).
  { wire_end. rewrite W5. by apply request_none. }
  eapply wp_bind; [by apply push_packet|]. cbn beta. intros [res node] w6 (HI6 & Hp6 & W6).
  rewrite W5 in W6. destruct (Z.ltb_spec res STATE_SUCCESS) as [Hr|_].
  { wire_end. rewrite W6. by apply request_none. }
  eapply wp_bind; [eapply send_buffer_wire; [left; done|exact HI6|exact Hp6|done]|].
  cbn beta. intros rc w7 [(_ & _ & Hrc) W7]. rewrite W6 in W7.
  destruct Hrc as [-> | ->]; cbn [Z.eqb STATE_SUCCESS STATE_SYS_DEPEND_NWK_CLOSE negb].
  - wire_end. exact W7.
  - wire_end. exact W7.
Qed.

(** The packet of a publication with an identifier. *)
Definition identified (name : list Z) (info : iotx_mqtt_topic_info_t) (payload : list Z)
    (id : Z) : list Z :=
  publication_packet name (info <| ti_packet_id := id |>) payload.

(** A publication with identifier [id] was given to the network in part, and as a
    whole when it is reported by its identifier. *)
Definition publish_wire name info payload rc (x x' : wire) : Prop :=
  exists id, request_wire (identified name info payload id) rc x x' /\ (0 <= rc -> rc = id).

Lemma publish_rest_wire name info info' payload id F H w :
  inv F H w -> below LOCK_LIST_PUB H -> publication_ok name info' payload ->
  publication_packet name info' payload = identified name info payload id ->
  wp any (rc ← MQTTPublish fuel (Some name) (Some info');
         if rc <? STATE_SUCCESS then
           (if rc =? STATE_SYS_DEPEND_NWK_CLOSE
            then iotx_mc_set_client_state IOTX_MC_STATE_DISCONNECTED else mret tt);;
           mret rc
         else mret id) (fun rc w' =>
    publish_wire name info payload rc (wire_of (w_env w)) (wire_of (w_env w'))) w.
Proof.
  intros HI Hb Hok Hid. eapply wp_bind; [by eapply MQTTPublish_wire|]. cbn beta.
  rewrite Hid. intros rc w1 Hr. destruct (Z.ltb_spec rc STATE_SUCCESS) as [Hlt|Hge].
  - wire_end. exists id. split; [exact Hr|]. unfold STATE_SUCCESS in Hlt. lia.
  - apply wp_ret. exists id. split; [|done]. by eapply request_code.
Qed.

Lemma publish_wire_none name info payload rc x : rc < 0 -> publish_wire name info payload rc x x.
Proof. intros Hrc. exists 0. split; [by apply request_none|lia]. Qed.

Lemma wrapper_publish_wire name info payload F H w :
  inv F H w -> below LOCK_LIST_PUB H -> publication_ok name info payload ->
  0 <= ti_qos info <= 2 ->
  wp any (wrapper_mqtt_publish fuel (Some name) (Some info)) (fun rc w' =>
    publish_wire name info payload rc (wire_of (w_env w)) (wire_of (w_env w'))) w.
Proof.
  intros HI Hb Hp Hq. unfold wrapper_mqtt_publish.
  rewrite bool_decide_eq_false_2 by (by rewrite (pc_payload _ _ _ Hp)).
  destruct (check_topic_spec name TOPIC_NAME_TYPE (pc_name _ _ _ Hp)) as (rc0 & Erc & _ & _ & Hrc0).
  eapply wp_lift_bind; [exact Erc|].
  destruct (Z.ltb_spec rc0 STATE_SUCCESS) as [Hlt|].
  { apply wp_ret. by apply publish_wire_none. }
  qstep check_state_spec. intros b w1 [(HI1 & E1 & _) W1]. destruct (negb b).
  { wire_end. rewrite W1. by apply publish_wire_none. }
  qstep assign_id_spec. intros [msg_id info'] w2 [(HI2 & id & Hid & Er) W2]. rewrite W1 in W2.
  unfold IOTX_MC_PACKET_ID_MAX in Hid. rewrite <-W2.
  destruct (_ || _) eqn:Eq12; destruct Er as [E2 Er]; injection Er as -> ->.
  - destruct (_ =? IOTX_MQTT_QOS2); [apply wp_ret; by apply publish_wire_none|].
    eapply publish_rest_wire; [exact HI2|done| |reflexivity]. apply publication_id; [done|]. lia.
  - destruct (_ =? IOTX_MQTT_QOS2) eqn:Eq2; [apply wp_ret; by apply publish_wire_none|].
    eapply publish_rest_wire; [exact HI2|done|exact Hp|].
    apply orb_false_iff in Eq12 as [Eq1 _]. apply Z.eqb_neq in Eq1, Eq2.
    unfold IOTX_MQTT_QOS1, IOTX_MQTT_QOS2 in *.
    assert (ti_qos info = 0) as Hq0 by lia. clear -Hq0.
    unfold identified, publication_packet, publish_packet, publish_body.
    destruct info. cbn in *. by rewrite Hq0.
Qed.
End Requests.

(** ** Delivery *)

(** An application whose callbacks only take note of the event. *)
Class AppTold (E : Type) `{!Hal E} `{!App E} `{!HalWire E} := {
  told_event h m (w : world E) :
    exists e, on_event h m w = Done tt (w <| w_env := e |>)
    /\ wire_of e = Wire (sent (wire_of (w_env w))) (pending (wire_of (w_env w)))
                        (told (wire_of (w_env w)) ++ [(h, m)])
}.

(** What is seen after the application was told the events [l]. *)
Definition telling (x : wire) (l : list (iotx_mqtt_event_handle_t * iotx_mqtt_event_msg_t)) : wire :=
  Wire (sent x) (pending x) (told x ++ l).

Lemma telling_nil x : telling x [] = x.
Proof. destruct x. unfold telling. cbn. by rewrite app_nil_r. Qed.

Lemma telling_app x l l' : telling (telling x l) l' = telling x (l ++ l').
Proof. unfold telling. cbn. by rewrite app_assoc. Qed.

(** Does a publication on [topic] reach a subscription with [f]? *)
Definition reaches (topic f : list Z) : bool :=
  bool_decide (topic = f) || topic_match_loop f topic.

(** The subscriptions that a publication is delivered to, in the order of the list. *)
Definition receivers (topic : list Z) (l : list iotx_mc_topic_handle_t)
    : list iotx_mc_topic_handle_t :=
  filter (fun n => reaches topic (topic_filter n) && negb (h_fp (th_handle n) =? 0) = true) l.

Definition received_event (info : iotx_mqtt_topic_info_t) : iotx_mqtt_event_msg_t :=
  {| event_type := IOTX_MQTT_EVENT_PUBLISH_RECEIVED; msg := MsgTopic info |}.

(** The callbacks that a publication runs: those of its receivers, and the client's
    own when there is none. *)
Definition deliveries (topic : list Z) (info : iotx_mqtt_topic_info_t) (c : iotx_mc_client_t)
    : list (iotx_mqtt_event_handle_t * iotx_mqtt_event_msg_t) :=
  match receivers topic (list_sub_handle c) with
  | [] => if h_fp (handle_event c) =? 0 then [] else [(handle_event c, received_event info)]
  | l => (fun n => (th_handle n, received_event info)) <$> l
  end.

(** A topic as the deserializer gives it: its length and the bytes from its start on. *)
Definition wire_topic (topic rest : list Z) : MQTTString :=
  {| cstring := None; lenstring_len := Z.of_nat (List.length topic);
     lenstring_data := Some (topic ++ rest) |}.

Lemma delivers_reaches topic rest n :
  delivers (wire_topic topic rest) n = Some (reaches topic (topic_filter n)).
Proof.
  unfold delivers, MQTTPacket_equals, iotx_mc_is_topic_matched, wire_topic, reaches.
  cbn [cstring lenstring_len lenstring_data default from_option id].
  rewrite Nat2Z.id, take_app_length, length_app.
  rewrite (proj2 (Z.ltb_ge _ _)), (proj2 (Nat.ltb_ge _ _)) by lia.
  destruct (Z.eqb_spec (Z.of_nat (List.length topic)) (Z.of_nat (List.length (topic_filter n))))
    as [|Hne]; cbn [mbind option_bind].
  - case_bool_decide; [done|]. by destruct (topic_match_loop _ _).
  - rewrite bool_decide_eq_false_2 by congruence. by destruct (topic_match_loop _ _).
Qed.

Lemma node_after_next l1 n l2 :
  NoDup (th_addr <$> (l1 ++ n :: l2)) -> node_after (th_addr n) (l1 ++ n :: l2) = Some (head l2).
Proof.
  induction l1 as [|m l1 IH]; cbn [app node_after]; intros Hd.
  - by rewrite Nat.eqb_refl.
  - rewrite fmap_cons in Hd. apply NoDup_cons in Hd as [Hm Hd].
    destruct (Nat.eqb_spec (th_addr m) (th_addr n)) as [Heq|]; [|by apply IH].
    destruct Hm. rewrite Heq. apply list_elem_of_fmap_2, elem_of_app. right. by left.
Qed.

Section Deliver.
Context {E : Type} `{!Hal E} `{!App E} `{!HalWire E} `{!AppTold E} (fuel : nat) (ok : stop -> Prop).
Implicit Types (F : list nat) (H : list lock) (w : world E).

(** Only what is seen changed, from [x] to [y]. *)
Definition observed F H w (y : wire) w' : Prop :=
  inv F H w' /\ w_client w' = w_client w /\ wire_of (w_env w') = y.

#[global] Instance quiet_set_in_yield_cb z : Quiet (set_in_yield_cb z).
Proof. by intros w. Qed.

Lemma handle_event_told h m F H w :
  inv F H w ->
  wp ok (_handle_event h m) (fun _ => observed F H w
    (telling (wire_of (w_env w)) (if h_fp h =? 0 then [] else [(h, m)]))) w.
Proof.
  intros HI. unfold _handle_event. destruct (_ =? 0).
  { apply wp_ret. split; [done|]. split; [done|]. by rewrite telling_nil. }
  qstep set_in_yield_cb_spec. intros _ w1 [[HI1 E1] W1].
  eapply (wp_bind _ _ _ (fun _ => observed F H w1 (telling (wire_of (w_env w1)) [(h, m)]))).
  { destruct (told_event h m w1) as (e & Er & He). unfold wp. rewrite Er.
    split; [by apply (inv_same F H w1)|]. by split. }
  intros _ w2 (HI2 & E2 & W2).
  qstep set_in_yield_cb_spec. intros _ w3 [[HI3 E3] W3]. apply wp_ret.
  split; [done|]. split; [congruence|]. by rewrite W3, W2, W1.
Qed.

Lemma notify_told t arg F H w :
  inv F H w ->
  wp ok (notify t arg) (fun _ => observed F H w
    (telling (wire_of (w_env w)) (if h_fp (handle_event (w_client w)) =? 0 then []
       else [(handle_event (w_client w), {| event_type := t; msg := arg |})]))) w.
Proof.
  intros HI. unfold notify. step_get. destruct (Z.eqb_spec (h_fp (handle_event (w_client w))) 0) as [|Hne].
  - apply wp_ret. split; [done|]. split; [done|]. by rewrite telling_nil.
  - cbn [negb]. eapply wp_bind; [by apply handle_event_told|]. cbn beta.
    rewrite (proj2 (Z.eqb_neq _ _) Hne). intros _ w1 Hw. by apply wp_ret.
Qed.

(** One node of the delivery: the callback runs with the list unlocked. *)
Lemma deliver_node_told topic info n flag F H w :
  inv F (LOCK_GENERIC :: H) w -> below LOCK_GENERIC H ->
  wp ok (if reaches topic (topic_filter n) then
           HAL_MutexUnlock LOCK_GENERIC;;
           flag ← (if negb (h_fp (th_handle n) =? 0) then
                     _handle_event (th_handle n)
                       {| event_type := IOTX_MQTT_EVENT_PUBLISH_RECEIVED; msg := MsgTopic info |};;
                     mret true
                   else mret flag);
           HAL_MutexLock LOCK_GENERIC;;
           mret flag
         else mret flag)
    (fun flag' w' => let b := reaches topic (topic_filter n) && negb (h_fp (th_handle n) =? 0) in
       flag' = flag || b
       /\ observed F (LOCK_GENERIC :: H) w (telling (wire_of (w_env w))
            (if b then [(th_handle n, received_event info)] else [])) w') w.
Proof.
  intros HI Hb. destruct (reaches topic (topic_filter n)); cbn [andb]; last first.
  { apply wp_ret. rewrite orb_false_r, telling_nil. done. }
  qstep unlock_spec. intros _ w1 [[HI1 E1] W1].
  eapply (wp_bind _ _ _ (fun flag' w' => flag' = flag || negb (h_fp (th_handle n) =? 0)
    /\ observed F H w (telling (wire_of (w_env w))
         (if negb (h_fp (th_handle n) =? 0) then [(th_handle n, received_event info)] else [])) w')).
  { destruct (Z.eqb_spec (h_fp (th_handle n)) 0) as [|Hne]; cbn [negb].
    - apply wp_ret. rewrite orb_false_r, telling_nil. done.
    - eapply wp_bind; [by apply handle_event_told|]. cbn beta.
      rewrite (proj2 (Z.eqb_neq _ _) Hne). intros _ w2 (HI2 & E2 & W2). apply wp_ret.
      rewrite orb_true_r. split; [done|]. split; [done|]. split; [congruence|].
      by rewrite W2, W1. }
  intros flag' w2 [Hf (HI2 & E2 & W2)]. qstep lock_spec. intros _ w3 [[HI3 E3] W3].
  apply wp_ret. split; [done|]. split; [done|]. split; [congruence|]. by rewrite W3.
Qed.

(** The loop: the receivers among the nodes left, in their order. *)
Lemma deliver_loop_told k topic rest info done_ nodes flag F H w :
  inv F (LOCK_GENERIC :: H) w -> below LOCK_GENERIC H ->
  list_sub_handle (w_client w) = done_ ++ nodes -> (List.length nodes < k)%nat ->
  wp ok (deliver_loop k (wire_topic topic rest) info (head nodes) flag) (fun flag' w' =>
    flag' = flag || negb (bool_decide (receivers topic nodes = []))
    /\ observed F (LOCK_GENERIC :: H) w (telling (wire_of (w_env w))
         ((fun n => (th_handle n, received_event info)) <$> receivers topic nodes)) w') w.
Proof.
  revert done_ nodes flag w; induction k as [|k IH]; intros done_ nodes flag w HI Hb El Hk; [lia|].
  destruct nodes as [|n nodes]; cbn [deliver_loop head].
  { apply wp_ret. cbn. rewrite orb_false_r, telling_nil. done. }
  eapply wp_lift_bind; [apply delivers_reaches|].
  eapply wp_bind; [by apply (deliver_node_told topic info n flag)|]. cbn beta zeta.
  intros flag1 w1 [Hf1 (HI1 & E1 & W1)]. step_get.
  assert (list_sub_handle (w_client w1) = done_ ++ n :: nodes) as El1 by (by rewrite E1).
  eapply wp_lift_bind.
  { rewrite El1. apply node_after_next. rewrite <-El1. by eapply inv_handles. }
  eapply wp_mono; [apply (IH (done_ ++ [n])); [exact HI1|done|by rewrite <-app_assoc|cbn in Hk; lia]|].
  cbn beta. intros flag' w' [Hf (HI' & E' & W')]. rewrite W1, telling_app in W'.
  unfold receivers in *. cbn [filter list_filter].
  destruct (reaches topic (topic_filter n) && negb (h_fp (th_handle n) =? 0)) eqn:Er.
  - rewrite decide_True by done. split.
    + rewrite Hf, Hf1, !orb_true_r. done.
    + split; [done|]. split; [congruence|]. exact W'.
  - rewrite decide_False by done. rewrite orb_false_r in Hf1. subst flag1.
    split; [done|]. split; [done|]. split; [congruence|]. exact W'.
Qed.

(** The publication that the application is shown. *)
Definition with_topic (topic rest : list Z) (info : iotx_mqtt_topic_info_t)
    : iotx_mqtt_topic_info_t :=
  info <| ti_ptopic := Some (topic ++ rest) |>
       <| ti_topic_len := Z.of_nat (List.length topic) |>.

Lemma parse_identity_other topic rest info w Q :
  topic <> identify_topic -> Q tt w ->
  wp ok (iotx_mc_parse_identity_response (with_topic topic rest info)) Q w.
Proof.
  intros Hne HQ. unfold iotx_mc_parse_identity_response.
  change (ti_topic_len (with_topic topic rest info)) with (Z.of_nat (List.length topic)).
  change (ti_ptopic (with_topic topic rest info)) with (Some (topic ++ rest)).
  destruct (negb _); [by apply wp_ret|].
  eapply wp_lift_bind.
  { unfold slice. cbn [default from_option id Z.ltb Z.compare].
    rewrite (proj2 (Z.ltb_ge (Z.of_nat _) 0)), (proj2 (Z.ltb_ge (Z.of_nat (List.length (_ ++ _))) _))
      by (rewrite ?length_app; lia). reflexivity. }
  change (Z.to_nat 0) with 0%nat. rewrite drop_0, Nat2Z.id, take_app_length.
  rewrite bool_decide_eq_false_2 by done. cbn [negb]. by apply wp_ret.
Qed.

Lemma deliver_message_told topic rest info F H w :
  inv F H w -> below LOCK_GENERIC H -> topic <> identify_topic ->
  Z.of_nat (List.length topic) < 65536 ->
  (List.length (list_sub_handle (w_client w)) < fuel)%nat ->
  wp ok (iotx_mc_deliver_message fuel (wire_topic topic rest) info) (fun _ => observed F H w
    (telling (wire_of (w_env w)) (deliveries topic (with_topic topic rest info) (w_client w)))) w.
Proof.
  intros HI Hb Hid Hlen Hfuel. unfold iotx_mc_deliver_message.
  cbn [lenstring_len lenstring_data wire_topic]. rewrite u16_small by lia.
  change (info <| ti_ptopic := Some (topic ++ rest) |>
               <| ti_topic_len := Z.of_nat (List.length topic) |>)
    with (with_topic topic rest info).
  set (info' := with_topic topic rest info).
  eapply wp_bind; [apply (parse_identity_other topic rest info w (fun _ w' => w' = w)); done|].
  cbn beta. intros _ ? ->. qstep lock_spec. intros _ w1 [[HI1 E1] W1]. step_get.
  eapply wp_bind; [apply (deliver_loop_told fuel topic rest info' []); [done|done|done|by rewrite E1]|].
  cbn beta. intros flag w2 [-> (HI2 & E2 & W2)]. rewrite W1, E1 in W2.
  qstep unlock_spec. intros _ w3 [[HI3 E3] W3]. rewrite W2 in W3.
  unfold deliveries. rewrite E1. destruct (receivers topic (list_sub_handle (w_client w))) as [|n l].
  - cbn in W3. rewrite telling_nil in W3. eapply wp_mono; [by apply notify_told|].
    cbn beta. intros _ w4 (HI4 & E4 & W4). rewrite E3, E2, E1, W3 in W4.
    split; [done|]. split; [congruence|exact W4].
  - apply wp_ret. split; [done|]. split; [congruence|exact W3].
Qed.

(** A publication as the application sees it: with the bytes that follow its topic
    and its payload in the read buffer. *)
Definition received_info (dup qos retained id : Z) (topic payload tail : list Z)
    : iotx_mqtt_topic_info_t :=
  with_topic topic ((if 0 <? qos then int_bytes id else []) ++ payload ++ tail)
    {| ti_packet_id := if 0 <? qos then id else 0; ti_qos := qos; ti_dup := dup;
       ti_retain := retained; ti_topic_len := 0;
       ti_payload_len := Z.of_nat (List.length payload); ti_ptopic := None;
       ti_payload := Some (payload ++ tail) |}.

(** The answer to a publication: a PUBACK for QoS 1, nothing otherwise. *)
Definition publish_answer (qos id rc : Z) (x x' : wire) : Prop :=
  if qos =? 1 then rc <= 0 /\ request_wire (ack_packet PUBACK 0 id) rc x x'
  else x' = x /\ rc = (if qos =? 0 then STATE_SUCCESS
                      else if qos =? 2 then STATE_MQTT_SERIALIZE_PUBACK_ERROR
                      else STATE_MQTT_PUB_QOS_INVALID).

(** The fields of a well-formed publication. *)
Record publish_in (dup qos retained id : Z) (topic payload : list Z) : Prop := {
  in_dup : 0 <= dup < 2;
  in_qos : 0 <= qos < 4;
  in_retained : 0 <= retained < 2;
  in_id : 0 <= id < 65536;
  in_topic : topic <> [] /\ topic <> identify_topic;
  in_topic_len : Z.of_nat (List.length topic) < 65536;
  in_size : Z.of_nat (List.length (publish_body qos id topic payload)) <= remlen_max
}.

Context (send_ok : send_fuel fuel ok).

Lemma MQTTPuback_other id t F H w :
  inv F H w -> below LOCK_WRITE_BUF H -> t <> PUBACK ->
  wp ok (MQTTPuback fuel id t) (fun rc => fun w' => rc = STATE_MQTT_SERIALIZE_PUBACK_ERROR
    /\ observed F H w (wire_of (w_env w)) w') w.
Proof.
  intros HI Hb Ht. unfold MQTTPuback. step_get. qstep plat_spec. intros timer w1 [[HI1 E1] W1].
  qstep lock_spec. intros _ w2 [[HI2 E2] W2]. rewrite (proj2 (Z.eqb_neq t PUBACK)) by done.
  qstep unlock_spec. intros _ w3 [[HI3 E3] W3]. apply wp_ret.
  split; [done|]. split; [done|]. split; congruence.
Qed.

Lemma answer_told qos id F H w :
  inv F H w -> below LOCK_WRITE_BUF H -> 0 <= qos < 4 -> 0 <= id < 65536 ->
  wp ok (if qos =? IOTX_MQTT_QOS0 then mret STATE_SUCCESS
         else if qos =? IOTX_MQTT_QOS1 then MQTTPuback fuel id PUBACK
         else if qos =? IOTX_MQTT_QOS2 then MQTTPuback fuel id PUBREC
         else mret STATE_MQTT_PUB_QOS_INVALID) (fun rc w' => inv F H w'
    /\ drop_send (w_client w') = drop_send (w_client w)
    /\ publish_answer qos id rc (wire_of (w_env w)) (wire_of (w_env w'))) w.
Proof.
  intros HI Hb Hq Hid. unfold publish_answer, IOTX_MQTT_QOS0, IOTX_MQTT_QOS1, IOTX_MQTT_QOS2.
  assert (qos = 0 \/ qos = 1 \/ qos = 2 \/ qos = 3) as [->|[->|[->| ->]]] by lia;
    cbn [Z.eqb Pos.eqb].
  - by apply wp_ret.
  - eapply wp_mono; [by apply MQTTPuback_wire|]. cbn beta.
    intros rc w' [(HI' & Hd & Hrc) Hw]. rewrite u16_small in Hw by lia.
    split; [exact HI'|]. split; [exact Hd|]. split; [exact Hrc|exact Hw].
  - eapply wp_mono; [by apply MQTTPuback_other|]. cbn beta.
    intros rc w' (-> & HI' & E' & W'). split; [exact HI'|]. split; [by rewrite E'|].
    split; [exact W'|done].
  - by apply wp_ret.
Qed.

Lemma deserialize_some {A} (f : list Z -> Z -> option A) b a w :
  buf_read (w_client w) = Some b -> (forall n, f (buf_data b) n = Some a) ->
  wp ok (deserialize f) (fun r w' => r = a /\ w' = w) w.
Proof.
  intros Eb Hf. unfold deserialize. step_get. eapply wp_lift_bind; [exact Eb|]. step_get.
  by apply wp_lift; rewrite Hf; [|intros ? [= <-]].
Qed.

Lemma handle_PUBLISH_told dup qos retained id topic payload tail b F H w :
  inv F H w -> below LOCK_LIST_PUB H -> publish_in dup qos retained id topic payload ->
  buf_read (w_client w) = Some b ->
  buf_data b = publish_packet dup qos retained id topic payload ++ tail ->
  (List.length (list_sub_handle (w_client w)) < fuel)%nat ->
  let info := received_info dup qos retained id topic payload tail in
  wp ok (iotx_mc_handle_recv_PUBLISH fuel) (fun rc w' => inv F H w'
    /\ drop_send (w_client w') = drop_send (w_client w)
    /\ publish_answer qos id rc
         (telling (wire_of (w_env w)) (deliveries topic info (w_client w)))
         (wire_of (w_env w'))) w.
Proof.
  intros HI Hb [Hd Hq Hr Hi [Hne Hid] Hl Hsz] Eb Ed Hfuel info.
  unfold iotx_mc_handle_recv_PUBLISH. eapply wp_bind.
  { eapply deserialize_some; [exact Eb|]. intros n. rewrite Ed.
    by apply MQTTDeserialize_publish_packet. }
  cbn beta. intros r w0 [-> ->]. cbn [Z.eqb Pos.eqb negb po_packetid po_qos po_dup po_retained
    po_topicName po_payload po_payloadlen publish_out_zero lenstring_len lenstring_data].
  destruct topic as [|c t]; [done|].
  rewrite (proj2 (Z.eqb_neq _ 0)) by (cbn [List.length]; lia).
  rewrite bool_decide_eq_false_2 by done. cbn [orb].
  assert (Z.of_nat (List.length payload) <= remlen_max) as Hpl.
  { revert Hsz. unfold publish_body. rewrite !length_app. lia. }
  unfold remlen_max in Hpl. unfold u8. rewrite !Z.mod_small, u32_small by lia.
  rewrite u16_small by (destruct (0 <? qos); lia).
  eapply wp_bind.
  { apply (deliver_message_told (c :: t) ((if 0 <? qos then int_bytes id else []) ++ payload ++ tail));
      [exact HI|eauto with locks|exact Hid|exact Hl|exact Hfuel]. }
  cbn beta. fold (received_info dup qos retained id (c :: t) payload tail).
  intros _ w1 (HI1 & E1 & W1). cbn [ti_qos ti_packet_id]. fold info in W1. rewrite <-W1, <-E1.
  assert (qos = 0 \/ 0 < qos) as [->|Hpos] by lia; [by apply wp_ret|].
  rewrite (proj2 (Z.ltb_lt 0 qos)) by done. apply answer_told; eauto with locks.
Qed.
End Deliver.

(** ** A cycle *)

Section Cycle.
Context {E : Type} `{!Hal E} `{!App E} `{!HalRead E} `{!HalWire E} `{!HalArrives E} `{!HalMemory E}
  `{!AppTold E} (fuel : nat) (send_ok : send_fuel fuel never).
Implicit Types (F : list nat) (H : list lock) (w : world E).

(** A cycle that finds a packet of the peer: the packet is in the read buffer when
    its handler runs, and the buffer is given back after it. *)
Lemma cycle_packet timer first body rest (P : Z -> iotx_mc_client_t -> wire -> Prop) F H w :
  inv F H w -> below LOCK_READ_BUF H ->
  client_state (w_client w) = IOTX_MC_STATE_CONNECTED ->
  keepalive_probes (w_client w) <= IOTX_MC_KEEPALIVE_PROBE_MAX ->
  0 <= first < 256 -> Z.of_nat (List.length body) <= remlen_max ->
  Z.of_nat (List.length (wire_packet first body)) <= buf_size_read_max (w_client w) ->
  pending (wire_of (w_env w)) = wire_packet first body ++ rest ->
  MQTT_HEADER_GET_TYPE first <> MQTT_CPT_RESERVED ->
  (forall w1 b tail, inv F (LOCK_READ_BUF :: H) w1 ->
     drop_read (w_client w1) = drop_read ((w_client w) <| keepalive_probes := 0 |>) ->
     buf_read (w_client w1) = Some b -> buf_data b = wire_packet first body ++ tail ->
     wire_of (w_env w1) = unread (wire_of (w_env w)) rest ->
     wp never (dispatch_packet fuel (MQTT_HEADER_GET_TYPE first)) (fun rc w2 =>
       inv F (LOCK_READ_BUF :: H) w2 /\ P rc (drop_read (w_client w2)) (wire_of (w_env w2))) w1) ->
  wp never (iotx_mc_cycle fuel timer) (fun rc w' =>
    inv F H w' /\ P rc (drop_read (w_client w')) (wire_of (w_env w'))) w.
Proof.
  intros HI Hb Hst Hpr Hfirst Hn Hroom Hp Ht Hk. unfold iotx_mc_cycle.
  qstep get_state_spec. intros st w1 [(HI1 & E1 & ->) W1].
  rewrite bool_decide_eq_true_2 by done. cbn [negb]. step_get.
  rewrite E1, (proj2 (Z.ltb_ge _ _)) by done.
  eapply wp_bind; [eapply (read_packet_frame_spec timer 0 first body rest F H w1);
    rewrite ?E1, ?W1; done|]. cbn beta.
  intros r w2 (data & -> & Hdata & [HI2 E2 W2 (b & Eb & <-)]).
  rewrite Z.eqb_refl. cbn [negb]. rewrite (proj2 (Z.eqb_neq _ MQTT_CPT_RESERVED)) by done.
  eapply wp_bind.
  { apply wp_quiet; [quiet_tac|]. eapply (modify_spec _ _ F F); [exact HI2|done|].
    pose proof (inv_c _ _ _ HI2). client_tac. }
  cbn beta. intros _ w3 [[HI3 E3] W3]. qstep lock_spec. intros _ w4 [[HI4 E4] W4].
  eapply wp_bind.
  { apply (Hk w4 b (drop (List.length (wire_packet first body)) (buf_data b))); [exact HI4| | | |].
    - rewrite E4, E3, <-E1. exact (f_equal (fun d => d <| keepalive_probes := 0 |>) E2).
    - by rewrite E4, E3.
    - rewrite <-Hdata at 1. by rewrite take_drop.
    - by rewrite W4, W3, W2, W1. }
  cbn beta. intros rc w5 [HI5 HP]. qstep reset_recv_buffer_spec. intros _ w6 [[HI6 E6] W6].
  qstep unlock_spec. intros _ w7 [[HI7 E7] W7]. apply wp_ret.
  split; [done|]. by rewrite E7, W7, E6, W6.
Qed.

Lemma cycle_publish_spec timer dup qos retained id topic payload rest F H w :
  inv F H w -> below LOCK_READ_BUF H ->
  client_state (w_client w) = IOTX_MC_STATE_CONNECTED ->
  keepalive_probes (w_client w) <= IOTX_MC_KEEPALIVE_PROBE_MAX ->
  publish_in dup qos retained id topic payload ->
  Z.of_nat (List.length (publish_packet dup qos retained id topic payload))
    <= buf_size_read_max (w_client w) ->
  pending (wire_of (w_env w)) = publish_packet dup qos retained id topic payload ++ rest ->
  (List.length (list_sub_handle (w_client w)) < fuel)%nat ->
  wp never (iotx_mc_cycle fuel timer) (fun rc w' => inv F H w' /\ exists tail,
    drop_read (drop_send (w_client w'))
      = drop_read (drop_send ((w_client w) <| keepalive_probes := 0 |>))
    /\ publish_answer qos id rc
         (telling (unread (wire_of (w_env w)) rest)
            (deliveries topic (received_info dup qos retained id topic payload tail) (w_client w)))
         (wire_of (w_env w'))) w.
Proof.
  intros HI Hb Hst Hpr Hin Hroom Hp Hfuel. pose proof Hin as [Hd Hq Hr _ _ _ Hsz].
  destruct (publish_header_fields (dup mod 2) (qos mod 4) (retained mod 2))
    as (Hh & Ht & _); [dlia|dlia|dlia|].
  apply (cycle_packet timer _ _ rest (fun rc c x => exists tail,
    drop_send c = drop_read (drop_send ((w_client w) <| keepalive_probes := 0 |>))
    /\ publish_answer qos id rc (telling (unread (wire_of (w_env w)) rest)
         (deliveries topic (received_info dup qos retained id topic payload tail) (w_client w))) x)
    F H w HI Hb Hst Hpr Hh Hsz Hroom Hp); rewrite Ht; [done|].
  intros w1 b tail HI1 E1 Eb Ed W1. change (dispatch_packet fuel PUBLISH)
    with (iotx_mc_handle_recv_PUBLISH fuel).
  pose proof (f_equal list_sub_handle E1) as El. pose proof (f_equal handle_event E1) as Eh.
  cbn in El, Eh.
  eapply wp_mono; [apply (handle_PUBLISH_told fuel never send_ok dup qos retained id topic payload
    tail b F (LOCK_READ_BUF :: H) w1); [exact HI1|eauto with locks|exact Hin|exact Eb|exact Ed|]|].
  { by rewrite El. }
  cbn beta zeta. intros rc w2 (HI2 & E2 & Hans). split; [exact HI2|]. exists tail. split.
  - transitivity (drop_read (drop_send (w_client w1))); [exact (f_equal drop_read E2)|].
    exact (f_equal drop_send E1).
  - rewrite W1 in Hans. unfold deliveries in *. by rewrite El, Eh in Hans.
Qed.
End Cycle.

(** C4. Publishing reaches the network: for every valid publication on an
    initialised client, [wrapper_mqtt_publish] gives the network a prefix of the
    PUBLISH packet of the protocol with some identifier, each byte once and in order;
    when it returns 0 or more, that is the whole packet and the number returned is
    its identifier.  No callback runs and nothing is read. *)
Theorem wrapper_mqtt_publish_wire {E} `{!Hal E} `{!App E} `{!HalWire E} `{!HalProgress E}
    (fuel : nat) (F : list nat) (H : list lock) (w : world E)
    (name : list Z) (info : iotx_mqtt_topic_info_t) (payload : list Z) :
  2147483648 <= Z.of_nat fuel ->
  inv F H w -> below LOCK_LIST_PUB H -> publication_ok name info payload ->
  0 <= ti_qos info <= 2 ->
  exists rc w' id k, wrapper_mqtt_publish fuel (Some name) (Some info) w = Done rc w'
  /\ wire_of (w_env w')
     = sending (wire_of (w_env w)) (take k (identified name info payload id))
  /\ (0 <= rc -> rc = id /\ k = List.length (identified name info payload id)).
Proof.
  intros Hfuel HI Hb Hp Hq.
  pose proof (wrapper_publish_spec fuel never (or_intror (conj _ Hfuel)) name info payload
    F H w HI Hb Hp Hq) as Hs.
  pose proof (wrapper_publish_wire fuel name info payload F H w HI Hb Hp Hq) as Hw.
  destruct (wp_never _ _ _ (wp_both _ _ _ _ _ Hs Hw)) as (rc & w' & Er & _ & id & (k & _ & Hk & Hall) & Hid).
  exists rc, w', id, k. auto.
Qed.

(** C5. Delivery: when a connected client runs [iotx_mc_cycle] and the peer's next
    bytes are a PUBLISH packet that fits its read buffer, the callbacks run are
    exactly those of the subscriptions whose filter equals or matches the topic and
    that have one, each once, in the order of the list, with the flags, identifier,
    topic and payload of the packet (the client's own callback when there is none);
    for QoS 1 the PUBACK with the packet's identifier is then given to the network,
    for the other QoS nothing is; exactly the packet's bytes are taken from the
    network, and the client is as before but for its buffers and its count of
    unanswered keep-alives, which is zero again. *)
Theorem cycle_delivers {E} `{!Hal E} `{!App E} `{!HalRead E} `{!HalWire E} `{!HalArrives E}
    `{!HalMemory E} `{!HalProgress E} `{!AppTold E} (fuel : nat) (F : list nat) (H : list lock)
    (w : world E) (timer : iotx_time_t) (dup qos retained id : Z) (topic payload rest : list Z) :
  2147483648 <= Z.of_nat fuel -> (List.length (list_sub_handle (w_client w)) < fuel)%nat ->
  inv F H w -> below LOCK_READ_BUF H ->
  client_state (w_client w) = IOTX_MC_STATE_CONNECTED ->
  keepalive_probes (w_client w) <= IOTX_MC_KEEPALIVE_PROBE_MAX ->
  publish_in dup qos retained id topic payload ->
  Z.of_nat (List.length (publish_packet dup qos retained id topic payload))
    <= buf_size_read_max (w_client w) ->
  pending (wire_of (w_env w)) = publish_packet dup qos retained id topic payload ++ rest ->
  exists rc w' tail, iotx_mc_cycle fuel timer w = Done rc w' /\ inv F H w'
  /\ drop_read (drop_send (w_client w'))
     = drop_read (drop_send ((w_client w) <| keepalive_probes := 0 |>))
  /\ publish_answer qos id rc
       (telling (unread (wire_of (w_env w)) rest)
          (deliveries topic (received_info dup qos retained id topic payload tail) (w_client w)))
       (wire_of (w_env w')).
Proof.
  intros Hfuel Hl HI Hb Hst Hpr Hin Hroom Hp.
  destruct (wp_never _ _ _ (cycle_publish_spec fuel (or_intror (conj _ Hfuel)) timer dup qos
    retained id topic payload rest F H w HI Hb Hst Hpr Hin Hroom Hp Hl))
    as (rc & w' & Er & HI' & tail & Hc & Ha).
  by exists rc, w', tail.
Qed.

(** ** Examples *)

#[global] Instance log_app_told : AppTold sim.
Proof.
  split. intros h m w. eexists. split; [reflexivity|]. cbn. by rewrite omap_app.
Qed.

(** The client with one subscription, after the peer sent [bytes]. *)
Definition sim_receives (bytes : list Z) : world sim :=
  sim_subscribed <| w_env ::= fun s => s <| sim_in := bytes |> |>.

Lemma sim_receives_inv bytes : inv [0%nat] [] (sim_receives bytes).
Proof.
  unfold sim_receives. generalize sim_subscribed_inv. generalize sim_subscribed.
  intros w HI. by apply (inv_same [0%nat] [] w).
Qed.

Lemma sim_receives_client bytes : w_client (sim_receives bytes) = w_client sim_subscribed.
Proof. unfold sim_receives. generalize sim_subscribed. by intros []. Qed.

#[local] Opaque sim_subscribed sim_connected.

Definition get_publication : list Z := publish_packet 0 1 0 258 (lit "/a/get") (lit "hi").

Lemma get_publication_in : publish_in 0 1 0 258 (lit "/a/get") (lit "hi").
Proof. split; [lia..|split; discriminate| |]; vm_compute; intuition discriminate. Qed.

Lemma wrapper_mqtt_publish_wire_witness :
  exists rc w' id k, wrapper_mqtt_publish packet_fuel (Some (lit "/a/echo"))
                       (Some (echo_info (lit "pong"))) sim_connected = Done rc w'
  /\ wire_of (w_env w') = sending (wire_of (w_env sim_connected))
       (take k (identified (lit "/a/echo") (echo_info (lit "pong")) (lit "pong") id))
  /\ (0 <= rc -> rc = id /\ k = List.length (identified (lit "/a/echo")
                                  (echo_info (lit "pong")) (lit "pong") id)).
Proof.
  exact (wrapper_mqtt_publish_wire packet_fuel [0%nat] [] sim_connected (lit "/a/echo")
    (echo_info (lit "pong")) (lit "pong") packet_fuel_ok sim_connected_inv (below_nil _)
    echo_publication echo_qos).
Defined.

Lemma sim_receives_fuel bytes :
  (List.length (list_sub_handle (w_client (sim_receives bytes))) < packet_fuel)%nat.
Proof.
  rewrite sim_receives_client.
  assert (List.length (list_sub_handle (w_client sim_subscribed)) = 1%nat) as ->
    by (vm_compute; reflexivity).
  pose proof packet_fuel_ok. lia.
Qed.

(** The subscription's callback runs, and the PUBACK is sent. *)
Lemma cycle_delivers_witness :
  exists rc w' tail, iotx_mc_cycle packet_fuel (MkTime 100) (sim_receives get_publication)
                     = Done rc w'
  /\ inv [0%nat] [] w'
  /\ publish_answer 1 258 rc
       (telling (unread (wire_of (w_env (sim_receives get_publication))) [])
          [({| h_fp := 7; pcontext := 0 |},
            received_event (received_info 0 1 0 258 (lit "/a/get") (lit "hi") tail))])
       (wire_of (w_env w')).
Proof.
  destruct (cycle_delivers packet_fuel [0%nat] [] (sim_receives get_publication) (MkTime 100)
    0 1 0 258 (lit "/a/get") (lit "hi") [] packet_fuel_ok (sim_receives_fuel _)
    (sim_receives_inv _) (below_nil _)) as (rc & w' & tail & Er & HI & _ & Ha).
  - vm_compute. reflexivity.
  - vm_compute. discriminate.
  - exact get_publication_in.
  - vm_compute. discriminate.
  - vm_compute. reflexivity.
  - exists rc, w', tail. split; [exact Er|]. split; [exact HI|].
    assert (receivers (lit "/a/get") (list_sub_handle (w_client (sim_receives get_publication)))
            = list_sub_handle (w_client sim_subscribed)) as Hr by (vm_compute; reflexivity).
    assert (exists n, list_sub_handle (w_client sim_subscribed) = [n]
              /\ th_handle n = {| h_fp := 7; pcontext := 0 |}) as (n & El & Hn)
      by (eexists; split; vm_compute; reflexivity).
    unfold deliveries in Ha. rewrite Hr, El in Ha. cbn [fmap list_fmap] in Ha.
    rewrite Hn in Ha. exact Ha.
Defined.
