(* ===== verification/MqttRepub.v ===== *)
(** * MqttRepub: publications until they are acknowledged

    The list of publications that wait for their PUBACK: a PUBACK marks exactly the
    nodes of its identifier, and the pass over the list that follows in each cycle
    removes exactly the marked nodes, sending again those that waited too long. *)

From S2P Require Import Prelude.
From S2P Require Import InfraState.
From S2P Require Import Hal.
From S2P Require Import InfraTimer.
From S2P Require Import InfraCompat.
From S2P Require Import MqttPacket.
From S2P Require Import MqttPublish.
From S2P Require Import MqttState.
From S2P Require Import MqttSend.
From S2P Require Import MqttRecv.
From S2P Require Import MqttSession.
From S2P Require Import MqttLogic.
From S2P Require Import MqttSendSafe.
From S2P Require Import MqttRecvSafe.
From S2P Require Import MqttLife.
From S2P Require Import MqttSim.
From S2P Require Import MqttSafety.
From S2P Require Import MqttWire.
From S2P Require Import MqttFrame.
From S2P Require Import MqttDeliver.

(** A node but for the time it was last sent at. *)
Definition pub_key (n : iotx_mc_pub_info_t) : nat * iotx_mc_node_t * Z * Z * list Z :=
  (pi_addr n, node_state n, msg_id n, pi_len n, pi_buf n).

(** The nodes that no PUBACK has come for. *)
Definition unacknowledged (l : list iotx_mc_pub_info_t) : list iotx_mc_pub_info_t :=
  filter (fun n => node_state n <> IOTX_MC_NODE_STATE_INVALID) l.

Lemma keys_addr (l l' : list iotx_mc_pub_info_t) : pub_key <$> l = pub_key <$> l' -> pi_addr <$> l = pi_addr <$> l'.
Proof.
  intros H. apply (f_equal (fmap (fun k => k.1.1.1.1))) in H. by rewrite <-!list_fmap_compose in H.
Qed.

Lemma keys_filter a (l l' : list iotx_mc_pub_info_t) :
  pub_key <$> l = pub_key <$> l' ->
  pub_key <$> filter (fun n => pi_addr n <> a) l = pub_key <$> filter (fun n => pi_addr n <> a) l'.
Proof.
  revert l'; induction l as [|n l IH]; intros [|n' l'] H; try done.
  rewrite !fmap_cons in H. injection H as H1 H2 H3 H4 H5 H.
  rewrite !filter_cons, H1. destruct (decide _); [|by apply IH].
  rewrite !fmap_cons, (IH l' H). f_equal. unfold pub_key. congruence.
Qed.

Lemma keys_fmap (f : iotx_mc_pub_info_t -> iotx_mc_pub_info_t) (l : list iotx_mc_pub_info_t) :
  (forall n, pub_key (f n) = pub_key n) -> pub_key <$> (f <$> l) = pub_key <$> l.
Proof. intros Hf. rewrite <-list_fmap_compose. by apply list_fmap_ext; intros; apply Hf. Qed.

Section Repub.
Context {E : Type} `{!Hal E} (fuel : nat) (ok : stop -> Prop) (send_ok : send_fuel fuel ok).
Implicit Types (F : list nat) (H : list lock) (w : world E).

(** What the pass leaves: the unacknowledged nodes of the list, and when it gave up
    on a closed network, the nodes it did not come to. *)
Definition pass_over (done_ nodes : list iotx_mc_pub_info_t) (c c' : iotx_mc_client_t) : Prop :=
  (client_state c' = client_state c
   /\ pub_key <$> list_pub_wait_ack c' = pub_key <$> (done_ ++ unacknowledged nodes))
  \/ (client_state c' = IOTX_MC_STATE_DISCONNECTED /\ exists k,
      pub_key <$> list_pub_wait_ack c'
      = pub_key <$> (done_ ++ unacknowledged (take k nodes) ++ drop k nodes)).

Lemma pass_over_keep n done_ nodes c1 c c' :
  node_state n <> IOTX_MC_NODE_STATE_INVALID -> client_state c1 = client_state c ->
  pass_over (done_ ++ [n]) nodes c1 c' -> pass_over done_ (n :: nodes) c c'.
Proof.
  intros Hn Hc [[Hs Hl]|[Hs [k Hl]]]; rewrite <-app_assoc in Hl; unfold pass_over, unacknowledged in *.
  - left. split; [congruence|]. by rewrite filter_cons_True.
  - right. split; [done|]. exists (S k). cbn [take drop]. by rewrite filter_cons_True.
Qed.

Lemma pass_over_drop n done_ nodes c1 c c' :
  node_state n = IOTX_MC_NODE_STATE_INVALID -> client_state c1 = client_state c ->
  pass_over done_ nodes c1 c' -> pass_over done_ (n :: nodes) c c'.
Proof.
  intros Hn Hc [[Hs Hl]|[Hs [k Hl]]]; unfold pass_over, unacknowledged in *.
  - left. split; [congruence|]. rewrite filter_cons_False; [done|]. by intros H.
  - right. split; [done|]. exists (S k). cbn [take drop].
    rewrite filter_cons_False; [done|]. by intros H.
Qed.

Lemma set_start_spec a t F H w :
  inv F H w ->
  wp ok (modify (fun c => c <| list_pub_wait_ack ::= fmap (fun n =>
           if (pi_addr n =? a)%nat then n <| pub_start_time := t |> else n) |>))
    (fun _ w' => inv F H w' /\ client_state (w_client w') = client_state (w_client w)
       /\ pub_key <$> list_pub_wait_ack (w_client w')
          = pub_key <$> list_pub_wait_ack (w_client w)) w.
Proof.
  intros HI. eapply wp_mono.
  - eapply (modify_spec _ _ F F); [exact HI| |].
    + unfold owned. cbn. rewrite fmap_keep; [done|]. intros m. by destruct (_ =? _)%nat.
    + pose proof (inv_c _ _ _ HI). client_tac.
      * by rewrite length_fmap.
      * apply Forall_fmap. eapply Forall_impl; [done|]. intros m Hm. cbn.
        by destruct (_ =? _)%nat.
  - cbn beta. intros _ w' [HI' E']. rewrite E'. split; [done|]. split; [done|].
    apply keys_fmap. intros n. by destruct (_ =? _)%nat.
Qed.

Lemma pub_info_loop_keys done_ nodes F H w :
  inv F H w -> below LOCK_WRITE_BUF H ->
  pub_key <$> list_pub_wait_ack (w_client w) = pub_key <$> (done_ ++ nodes) ->
  Forall pub_ok nodes ->
  wp ok (pub_info_loop fuel nodes) (fun _ w' => inv F H w'
    /\ pass_over done_ nodes (w_client w) (w_client w')) w.
Proof.
  revert done_ w; induction nodes as [|n nodes IH]; intros done_ w HI Hb Hk Hp.
  { apply wp_ret. split; [done|]. left. split; [done|exact Hk]. }
  apply Forall_cons in Hp as [Hpn Hp]. cbn [pub_info_loop].
  assert (pub_key <$> list_pub_wait_ack (w_client w) = pub_key <$> ((done_ ++ [n]) ++ nodes)) as Hk'
    by (by rewrite <-app_assoc).
  destruct (decide _) as [Hn|Hn].
  { step pub_del_spec.
    { rewrite (keys_addr _ _ Hk), fmap_app. apply elem_of_app. right. by left. }
    intros _ w1 [HI1 E1]. final (IH done_); [|].
    - rewrite E1. cbn. rewrite (keys_filter _ _ _ Hk), filter_ne_middle; [done|].
      rewrite <-(keys_addr _ _ Hk). by destruct (inv_nodup _ _ _ HI) as (_ & ? & _).
    - intros _ w2 [HI2 Hps]. split; [done|].
      eapply pass_over_drop; [done| |exact Hps]. by rewrite E1. }
  step get_state_spec. intros st w1 (HI1 & E1 & _).
  destruct (negb _).
  { final (IH (done_ ++ [n])); [by rewrite E1|]. intros _ w2 [HI2 Hps]. split; [done|].
    eapply pass_over_keep; [done| |exact Hps]. by rewrite E1. }
  step plat_spec. intros spent w2 [HI2 E2]. step_get.
  destruct (spent <=? _).
  { final (IH (done_ ++ [n])); [by rewrite E2, E1|]. intros _ w3 [HI3 Hps]. split; [done|].
    eapply pass_over_keep; [done| |exact Hps]. by rewrite E2, E1. }
  step MQTTRePublish_spec; [destruct Hpn as [-> _]; lia|apply Hpn|]. intros rc w3 (HI3 & E3 & _).
  step plat_spec. intros t w4 [HI4 E4]. step set_start_spec. intros _ w5 (HI5 & S5 & K5).
  assert (w_client w4 = w_client w) as E4' by congruence. rewrite E4' in S5, K5.
  destruct (rc =? _).
  - final set_state_spec. intros _ w6 [HI6 E6]. split; [done|]. right.
    rewrite E6. split; [done|]. exists 1%nat. cbn [take drop]. rewrite take_0.
    unfold unacknowledged. rewrite filter_cons_True by done. cbn. by rewrite K5, Hk.
  - final (IH (done_ ++ [n])); [by rewrite K5|]. intros _ w6 [HI6 Hps]. split; [done|].
    by eapply pass_over_keep; [done| |exact Hps].
Qed.

Lemma PubInfoProc_keys F H w :
  inv F H w -> below LOCK_LIST_PUB H ->
  wp ok (MQTTPubInfoProc fuel) (fun rc w' => inv F H w' /\ rc = STATE_SUCCESS
    /\ pass_over [] (list_pub_wait_ack (w_client w)) (w_client w) (w_client w')) w.
Proof.
  intros HI Hb. unfold MQTTPubInfoProc. step lock_spec. intros _ w1 [HI1 E1]. step_get.
  step (pub_info_loop_keys []); [by apply co_pub_nodes, (inv_c _ _ _ HI1)|].
  intros _ w2 [HI2 Hps]. step unlock_spec. intros _ w3 [HI3 E3]. apply wp_ret.
  split; [done|]. split; [done|]. by rewrite E3, <-E1.
Qed.
End Repub.

(** ** A PUBACK *)

(** The nodes after a PUBACK for [id]. *)
Definition acknowledge (id : Z) (l : list iotx_mc_pub_info_t) : list iotx_mc_pub_info_t :=
  (fun n => if msg_id n =? id then n <| node_state := IOTX_MC_NODE_STATE_INVALID |> else n) <$> l.

Section Puback.
Context {E : Type} `{!Hal E} `{!App E} `{!HalRead E} `{!HalWire E} `{!HalArrives E} `{!HalMemory E}
  `{!AppTold E} (fuel : nat) (send_ok : send_fuel fuel never).
Implicit Types (F : list nat) (H : list lock) (w : world E).

#[global] Instance quiet_indeterminate : Quiet indeterminate.
Proof. by apply quiet_plat. Qed.

#[global] Instance quiet_mask id : Quiet (iotx_mc_mask_pubInfo_from id).
Proof. unfold iotx_mc_mask_pubInfo_from. quiet_tac. Qed.

(** The event that tells the application. *)
Definition success_events (id : Z) (c : iotx_mc_client_t)
    : list (iotx_mqtt_event_handle_t * iotx_mqtt_event_msg_t) :=
  if h_fp (handle_event c) =? 0 then []
  else [(handle_event c, {| event_type := IOTX_MQTT_EVENT_PUBLISH_SUCCESS; msg := MsgId id |})].

Lemma handle_PUBACK_told id tail b F H w :
  inv F H w -> below LOCK_LIST_PUB H -> 0 <= id < 65536 ->
  buf_read (w_client w) = Some b -> buf_data b = ack_packet PUBACK 0 id ++ tail ->
  wp never iotx_mc_handle_recv_PUBACK (fun rc w' => inv F H w' /\ rc = STATE_SUCCESS
    /\ w_client w' = (w_client w) <| list_pub_wait_ack ::= acknowledge id |>
    /\ wire_of (w_env w') = telling (wire_of (w_env w)) (success_events id (w_client w))) w.
Proof.
  intros HI Hb Hid Eb Ed. unfold iotx_mc_handle_recv_PUBACK.
  qstep plat_spec. intros old w1 [[HI1 E1] W1]. eapply wp_bind.
  { eapply deserialize_some; [by rewrite E1|]. intros n. rewrite Ed.
    by apply MQTTDeserialize_ack_packet. }
  cbn beta. intros r w1' [-> ->]. cbn [Z.eqb Pos.eqb negb].
  qstep mask_pubInfo_spec. intros rc w2 [(HI2 & -> & E2) W2].
  eapply wp_bind; [by apply notify_told|]. cbn beta. intros _ w3 (HI3 & E3 & W3). apply wp_ret.
  split; [done|]. split; [done|]. split; [by rewrite E3, E2, E1|].
  rewrite W3, W2, W1, E2, E1. reflexivity.
Qed.

Lemma cycle_puback_spec timer id rest F H w :
  inv F H w -> below LOCK_READ_BUF H -> 0 <= id < 65536 ->
  client_state (w_client w) = IOTX_MC_STATE_CONNECTED ->
  keepalive_probes (w_client w) <= IOTX_MC_KEEPALIVE_PROBE_MAX ->
  pending (wire_of (w_env w)) = ack_packet PUBACK 0 id ++ rest ->
  wp never (iotx_mc_cycle fuel timer) (fun rc w' => inv F H w' /\ rc = STATE_SUCCESS
    /\ drop_read (w_client w') = drop_read ((w_client w) <| keepalive_probes := 0 |>
                                              <| list_pub_wait_ack ::= acknowledge id |>)
    /\ wire_of (w_env w')
       = telling (unread (wire_of (w_env w)) rest) (success_events id (w_client w))) w.
Proof.
  intros HI Hb Hid Hst Hpr Hp. pose proof (co_read_max _ (inv_c _ _ _ HI)) as Hmax.
  apply (cycle_packet fuel timer 64 (int_bytes id) rest (fun rc c x => rc = STATE_SUCCESS
    /\ c = drop_read ((w_client w) <| keepalive_probes := 0 |>
                                    <| list_pub_wait_ack ::= acknowledge id |>)
    /\ x = telling (unread (wire_of (w_env w)) rest) (success_events id (w_client w)))
    F H w HI Hb Hst Hpr);
    [lia|vm_compute; discriminate|change (4 <= buf_size_read_max (w_client w)); lia|exact Hp|done|].
  intros w1 b tail HI1 E1 Eb Ed W1.
  change (dispatch_packet fuel (MQTT_HEADER_GET_TYPE 64)) with iotx_mc_handle_recv_PUBACK.
  eapply wp_mono; [apply (handle_PUBACK_told id tail b F (LOCK_READ_BUF :: H) w1);
    [exact HI1|eauto with locks|done|exact Eb|exact Ed]|].
  cbn beta. intros rc w2 (HI2 & -> & E2 & W2). split; [exact HI2|]. split; [done|]. split.
  - rewrite E2. exact (f_equal (fun c => c <| list_pub_wait_ack ::= acknowledge id |>) E1).
  - rewrite W2, W1. unfold success_events. by rewrite (f_equal handle_event E1 :
      handle_event (w_client w1) = handle_event (w_client w)).
Qed.

(** A cycle and the pass over the list that follows it. *)
Lemma puback_settles_spec timer id rest F H w :
  inv F H w -> below LOCK_READ_BUF H -> 0 <= id < 65536 ->
  client_state (w_client w) = IOTX_MC_STATE_CONNECTED ->
  keepalive_probes (w_client w) <= IOTX_MC_KEEPALIVE_PROBE_MAX ->
  pending (wire_of (w_env w)) = ack_packet PUBACK 0 id ++ rest ->
  wp never (rc ← iotx_mc_cycle fuel timer;
            if rc =? STATE_SUCCESS then MQTTPubInfoProc fuel else mret rc) (fun rc w' =>
    inv F H w' /\ rc = STATE_SUCCESS
    /\ pass_over [] (acknowledge id (list_pub_wait_ack (w_client w))) (w_client w) (w_client w')) w.
Proof.
  intros HI Hb Hid Hst Hpr Hp. eapply wp_bind; [by apply cycle_puback_spec|]. cbn beta.
  intros rc w1 (HI1 & -> & E1 & _). rewrite Z.eqb_refl.
  eapply wp_mono; [apply (PubInfoProc_keys fuel never send_ok); [exact HI1|eauto with locks]|].
  cbn beta. intros rc w2 (HI2 & -> & Hps). split; [done|]. split; [done|].
  pose proof (f_equal list_pub_wait_ack E1) as El. pose proof (f_equal client_state E1) as Es.
  cbn in El, Es. by unfold pass_over in *; rewrite El, Es in Hps.
Qed.
End Puback.

(** C6. A publication is kept until its PUBACK and no longer: when a connected
    client runs a cycle that reads the PUBACK of an identifier, and then the pass
    over the publications that wait, as [_mqtt_cycle] does, the nodes of that
    identifier (and those already acknowledged) are gone, and every other node is
    still there in its place, with its packet byte for byte, whether it was sent
    again or not; only when sending one again found the network closed is the
    client disconnected and the rest of the list left for later. *)
Theorem puback_settles {E} `{!Hal E} `{!App E} `{!HalRead E} `{!HalWire E} `{!HalArrives E}
    `{!HalMemory E} `{!HalProgress E} `{!AppTold E} (fuel : nat) (F : list nat) (H : list lock)
    (w : world E) (timer : iotx_time_t) (id : Z) (rest : list Z) :
  2147483648 <= Z.of_nat fuel ->
  inv F H w -> below LOCK_READ_BUF H -> 0 <= id < 65536 ->
  client_state (w_client w) = IOTX_MC_STATE_CONNECTED ->
  keepalive_probes (w_client w) <= IOTX_MC_KEEPALIVE_PROBE_MAX ->
  pending (wire_of (w_env w)) = ack_packet PUBACK 0 id ++ rest ->
  exists w', (rc ← iotx_mc_cycle fuel timer;
              if rc =? STATE_SUCCESS then MQTTPubInfoProc fuel else mret rc) w
             = Done STATE_SUCCESS w'
  /\ inv F H w'
  /\ pass_over [] (acknowledge id (list_pub_wait_ack (w_client w))) (w_client w) (w_client w').
Proof.
  intros Hfuel HI Hb Hid Hst Hpr Hp.
  destruct (wp_never _ _ _ (puback_settles_spec fuel (or_intror (conj _ Hfuel)) timer id rest
    F H w HI Hb Hid Hst Hpr Hp)) as (rc & w' & Er & HI' & -> & Hps).
  by exists w'.
Qed.

(** The client with one publication that waits, after its PUBACK came. *)
Definition sim_published : world sim :=
  world_after (exec 1000 (CallPublish (lit "/a/echo") (echo_info (lit "pong")))) sim_subscribed.

Lemma sim_published_inv : inv [0%nat] [] sim_published.
Proof.
  destruct (world_after_done (exec 1000 (CallPublish (lit "/a/echo") (echo_info (lit "pong"))))
    sim_subscribed) as [rc Hc]; [vm_compute; reflexivity|].
  exact (wp_done _ _ _ _ _ _ (exec_spec 1000 (CallPublish (lit "/a/echo") (echo_info (lit "pong")))
    [0%nat] sim_subscribed sim_subscribed_inv
    (conj echo_qos (ex_intro _ (lit "pong") echo_publication))) Hc).
Qed.

#[local] Opaque sim_published.

Definition sim_acknowledged : world sim :=
  sim_published <| w_env ::= fun s => s <| sim_in := ack_packet PUBACK 0 2 |> |>.

Lemma sim_acknowledged_inv : inv [0%nat] [] sim_acknowledged.
Proof.
  unfold sim_acknowledged. generalize sim_published_inv. generalize sim_published.
  intros w HI. by apply (inv_same [0%nat] [] w).
Qed.

Lemma puback_settles_witness :
  exists w', (rc ← iotx_mc_cycle packet_fuel (MkTime 100);
              if rc =? STATE_SUCCESS then MQTTPubInfoProc packet_fuel else mret rc)
               sim_acknowledged = Done STATE_SUCCESS w'
  /\ inv [0%nat] [] w'
  /\ pass_over [] (acknowledge 2 (list_pub_wait_ack (w_client sim_acknowledged)))
       (w_client sim_acknowledged) (w_client w').
Proof.
  apply (puback_settles packet_fuel [0%nat] [] sim_acknowledged (MkTime 100) 2 []
    packet_fuel_ok sim_acknowledged_inv (below_nil _)).
  - lia.
  - vm_compute. reflexivity.
  - vm_compute. discriminate.
  - vm_compute. reflexivity.
Defined.

Example sim_acknowledged_nodes :
  msg_id <$> list_pub_wait_ack (w_client sim_acknowledged) = [2]
  /\ unacknowledged (acknowledge 2 (list_pub_wait_ack (w_client sim_acknowledged))) = [].
Proof. vm_compute. by split. Qed.
