(* ===== verification/MqttFront.v ===== *)
(** * MqttFront: the MQTT interface of the application

    [eng/mqtt/mqtt_api.c], with [DYNAMIC_REGISTER], without [MQTT_PRE_AUTH] and without an
    asynchronous network stack; and the parts of [eng/infra/infra_report.c] that
    [IOT_MQTT_Construct] uses.  The functions look after the one client of the device,
    [g_mqtt_client]: its credentials, the parameters of the session, and the arguments of
    the requests.

    They run in [api], the monad of the client with the global variables of the two files
    beside it.  A pointer to a client is the address of its block, and is followed only
    while the block is allocated.  Work on platform memory that is not the client's
    (registration) is [Dynreg]'s, and where that is undefined it stops as [FaultRead]. *)

From S2P Require Import Prelude.
From S2P Require Import CString.
From S2P Require Import InfraState.
From S2P Require Import Hal.
From S2P Require Import InfraCompat.
From S2P Require Import Json.
From S2P Require Import Eff.
From S2P Require Import Dynreg.
From S2P Require Import DevSign.
From S2P Require Import MqttState.
From S2P Require Import MqttSend.
From S2P Require Import MqttRecv.
From S2P Require Import MqttSession.

Definition CONFIG_MQTT_MESSAGE_MAXLEN : Z := 3072.
Definition SUBSCRIBE_SYNC_TIMEOUT_MAX : Z := 10000.
Definition MQTT_CONNECT_BLOCK : Z := -44.
Definition IOTX_URI_MAX_LEN : Z := 135.
Definition FIRMWARE_VERSION_MSG_LEN : Z := 64.
Definition DYNAMIC_REG_KV_PREFIX : list Z := lit "DYNAMIC_REG_".

(** ** The state and the monad *)

(** The global variables; [mqtt_domain] and [http_domain] are the custom entries of the
    tables of domains, which [IOT_Ioctl] sets. *)
Record front_vars := Front {
  g_mqtt_client : option nat;
  g_default_sign : iotx_sign_mqtt_t;
  g_report_id : Z;
  info_report_func : bool;
  mqtt_domain : option (list Z);
  http_domain : option (list Z)
}.

#[global] Instance eta_front : Eta front_vars := fun v =>
  Front (g_mqtt_client v) (g_default_sign v) (g_report_id v) (info_report_func v) (mqtt_domain v) (http_domain v).

Definition front_zero : front_vars := Front None sign_mqtt_zero 0 false None None.

Definition api (E A : Type) : Type := front_vars -> prog E (A * front_vars).

#[global] Instance api_ret E : MRet (api E) := fun A a v => mret (a, v).
#[global] Instance api_bind E : MBind (api E) := fun A B f m v => '(a, v) ← m v; f a v.

Definition gets {E A} (f : front_vars -> A) : api E A := fun v => mret (f v, v).
Definition sets {E} (f : front_vars -> front_vars) : api E unit := fun v => mret (tt, f v).
Definition run {E A} (m : prog E A) : api E A := fun v => a ← m; mret (a, v).

(** The version of the firmware, and the callbacks of [ITE_DYNREG_DEVICE_SECRET] and
    [ITE_MQTT_CONNECT_SUCC]. *)
Class FrontApp (E : Type) := {
  HAL_GetFirmwareVersion : E -> list Z * E;
  on_device_secret : list Z -> prog E unit;
  on_connect_succ : prog E unit
}.

(** The string in an array of characters after [snprintf(array, size, ...)]. *)
Definition stored (size : Z) (text : list Z) : option (list Z) :=
  arr_str ((u8 <$> snprintf_text size text) ++ [0]).

(** ** Parameters *)

Definition default_str (s : option (list Z)) (d : list Z) : option (list Z) :=
  match s with
  | Some (c :: s') => Some (c :: s')
  | _ => Some d
  end.

(** [mqtt_params], from the defaults and what the application asks for. *)
Definition construct_params (host client_id username password : list Z) (port : Z)
    (pub_key : option (list Z)) (pInitParams : option iotx_mqtt_param_t) : iotx_mqtt_param_t :=
  match pInitParams with
  | None =>
      {| p_port := port; p_host := Some host; p_client_id := Some client_id; p_username := Some username;
         p_password := Some password; p_pub_key := pub_key; p_clean_session := 0;
         p_request_timeout_ms := CONFIG_MQTT_REQUEST_TIMEOUT;
         p_keepalive_interval_ms := CONFIG_MQTT_KEEPALIVE_INTERVAL * 1000;
         p_write_buf_size := CONFIG_MQTT_MESSAGE_MAXLEN; p_read_buf_size := CONFIG_MQTT_MESSAGE_MAXLEN;
         p_handle_event := {| h_fp := 0; pcontext := 0 |} |}
  | Some p =>
      {| p_port := if negb (p_port p =? 0) then p_port p else port;
         p_host := default_str (p_host p) host;
         p_client_id := default_str (p_client_id p) client_id;
         p_username := default_str (p_username p) username;
         p_password := default_str (p_password p) password;
         p_pub_key := pub_key;
         p_clean_session := if (p_clean_session p =? 0) || (p_clean_session p =? 1) then p_clean_session p else 0;
         p_request_timeout_ms :=
           if (p_request_timeout_ms p <? CONFIG_MQTT_REQ_TIMEOUT_MIN)
              || (CONFIG_MQTT_REQ_TIMEOUT_MAX <? p_request_timeout_ms p)
           then CONFIG_MQTT_REQUEST_TIMEOUT else p_request_timeout_ms p;
         p_keepalive_interval_ms :=
           if (p_keepalive_interval_ms p <? CONFIG_MQTT_KEEPALIVE_INTERVAL_MIN * 1000)
              || (CONFIG_MQTT_KEEPALIVE_INTERVAL_MAX * 1000 <? p_keepalive_interval_ms p)
           then CONFIG_MQTT_KEEPALIVE_INTERVAL * 1000 else p_keepalive_interval_ms p;
         p_write_buf_size := if p_write_buf_size p =? 0 then CONFIG_MQTT_MESSAGE_MAXLEN else p_write_buf_size p;
         p_read_buf_size := if p_read_buf_size p =? 0 then CONFIG_MQTT_MESSAGE_MAXLEN else p_read_buf_size p;
         p_handle_event := p_handle_event p |}
  end.

Section Front.
Context {E : Type} `{!Hal E} `{!App E} `{!FrontApp E} (fuel : nat).

(** [iotx_ca_crt], and the handler that [Dynreg] may call. *)
Variable iotx_ca_crt : option (list Z).
Variable http_state_handler : option (Z -> list Z -> E -> E).

Definition plat_eff {A} (m : eff E A) : prog E A := fun w =>
  match m (w_env w) with
  | Some (a, e) => Done a (w <| w_env := e |>)
  | None => Fault FaultRead
  end.

Definition ioctl_int (opt : iotx_ioctl_option_t) : prog E Z :=
  '(_, d) ← ioctl opt (Some (DataInt 0));
  mret (match d with Some (DataInt n) => n | _ => 0 end).

(** A character of a local array. *)
Definition arr_at (a : list Z) (i : Z) : Z := default 0 (a !! Z.to_nat i).

(** ** Requests *)

(** [handle ? handle : g_mqtt_client] *)
Definition client_or (handle : option nat) : api E (option nat) :=
  match handle with
  | Some a => mret (Some a)
  | None => gets g_mqtt_client
  end.

(** What a function of the client does with a pointer to it. *)
Definition on_client {A} (a : nat) (m : prog E A) : api E A :=
  run (fun w => if bool_decide (a ∈ w_blocks w) then m w else Fault FaultHeap).

Definition IOT_MQTT_Yield (handle : option nat) (timeout_ms : Z) : api E Z :=
  client ← client_or handle;
  match client with
  | None => mret STATE_USER_INPUT_INVALID
  | Some a => on_client a (wrapper_mqtt_yield fuel timeout_ms)
  end.

Definition IOT_MQTT_CheckStateNormal (handle : option nat) : api E Z :=
  client ← client_or handle;
  match client with
  | None => mret STATE_USER_INPUT_INVALID
  | Some a => on_client a (ok ← wrapper_mqtt_check_state; mret (if ok : bool then 1 else 0))
  end.

Definition IOT_MQTT_Subscribe (handle : option nat) (topic_filter : option (list Z))
    (qos topic_handle_func context : Z) : api E Z :=
  client ← client_or handle;
  if bool_decide (topic_filter = None) || bool_decide (topic_filter = Some []) || (topic_handle_func =? 0)
  then mret STATE_USER_INPUT_INVALID
  else
    let qos := if IOTX_MQTT_QOS3_SUB_LOCAL <? qos then IOTX_MQTT_QOS0 else qos in
    run (iotx_state_event STATE_MQTT_SUB_INFO);;
    match client with
    | None => mret STATE_USER_INPUT_INVALID
    | Some a => on_client a (wrapper_mqtt_subscribe fuel topic_filter qos topic_handle_func context)
    end.

Definition IOT_MQTT_Subscribe_Sync (handle : option nat) (topic_filter : option (list Z))
    (qos topic_handle_func context timeout_ms : Z) : api E Z :=
  client ← client_or handle;
  let timeout_ms := if SUBSCRIBE_SYNC_TIMEOUT_MAX <? timeout_ms then SUBSCRIBE_SYNC_TIMEOUT_MAX else timeout_ms in
  if bool_decide (topic_filter = None) || bool_decide (topic_filter = Some []) || (topic_handle_func =? 0)
  then mret STATE_USER_INPUT_INVALID
  else
    let qos := if IOTX_MQTT_QOS3_SUB_LOCAL <? qos then IOTX_MQTT_QOS0 else qos in
    run (iotx_state_event STATE_MQTT_SUB_INFO);;
    match client with
    | None => mret STATE_USER_INPUT_INVALID
    | Some a => on_client a (wrapper_mqtt_subscribe_sync fuel topic_filter qos topic_handle_func context timeout_ms)
    end.

Definition IOT_MQTT_Unsubscribe (handle : option nat) (topic_filter : option (list Z)) : api E Z :=
  client ← client_or handle;
  match client with
  | None => mret STATE_USER_INPUT_INVALID
  | Some a =>
      if bool_decide (topic_filter = None) || bool_decide (topic_filter = Some [])
      then mret STATE_USER_INPUT_INVALID
      else
        run (iotx_state_event STATE_MQTT_SUB_INFO);;
        on_client a (wrapper_mqtt_unsubscribe fuel topic_filter)
  end.

Definition IOT_MQTT_Publish (handle : option nat) (topic_name : option (list Z))
    (topic_msg : option iotx_mqtt_topic_info_t) : api E Z :=
  client ← client_or handle;
  match client with
  | None => mret STATE_USER_INPUT_INVALID
  | Some a =>
      if bool_decide (topic_name = None) || bool_decide (topic_name = Some [])
      then mret STATE_USER_INPUT_INVALID
      else
        rc ← on_client a (wrapper_mqtt_publish fuel topic_name topic_msg);
        run (iotx_state_event STATE_MQTT_PUB_INFO);;
        mret rc
  end.

(** [mqtt_msg] *)
Definition simple_msg (qos : Z) (data : option (list Z)) (len : Z) : iotx_mqtt_topic_info_t :=
  {| ti_packet_id := 0; ti_qos := u8 qos; ti_dup := 0; ti_retain := 0; ti_topic_len := 0;
     ti_payload_len := u32 len; ti_ptopic := None; ti_payload := data |}.

Definition IOT_MQTT_Publish_Simple (handle : option nat) (topic_name : option (list Z)) (qos : Z)
    (data : option (list Z)) (len : Z) : api E Z :=
  client ← client_or handle;
  match client with
  | None => mret STATE_USER_INPUT_INVALID
  | Some a =>
      if bool_decide (topic_name = None) || bool_decide (topic_name = Some [])
      then mret STATE_USER_INPUT_INVALID
      else
        rc ← on_client a (wrapper_mqtt_publish fuel topic_name (Some (simple_msg qos data len)));
        run (iotx_state_event STATE_MQTT_PUB_INFO);;
        mret rc
  end.

Definition IOT_MQTT_Nwk_Event_Handler : api E Z := mret STATE_MQTT_ASYNC_STACK_NOT_SUPPORT.

(** The code; the pointer of the caller becomes NULL. *)
Definition IOT_MQTT_Destroy (phandler : option (option nat)) : api E Z :=
  client ← (match phandler with Some c => mret c | None => gets g_mqtt_client end);
  match client with
  | None => mret STATE_USER_INPUT_INVALID
  | Some a =>
      on_client a (wrapper_mqtt_release fuel (Some a));;
      sets (fun v => v <| g_mqtt_client := None |>);;
      mret STATE_SUCCESS
  end.

(** ** Reporting *)

Definition iotx_report_id : api E Z :=
  id ← gets g_report_id;
  sets (fun v => v <| g_report_id := u32 (id + 1) |>);;
  mret (i32 id).

Definition iotx_report_firmware_version (pclient : option nat) : api E Z :=
  f ← gets info_report_func;
  if negb f then mret (-1)
  else
    product_key ← run (ioctl_into IOTX_IOCTL_GET_PRODUCT_KEY (zeros (Z.to_nat (IOTX_PRODUCT_KEY_LEN + 1))));
    device_name ← run (ioctl_into IOTX_IOCTL_GET_DEVICE_NAME (zeros (Z.to_nat (IOTX_DEVICE_NAME_LEN + 1))));
    version ← run (plat HAL_GetFirmwareVersion);
    if bool_decide (version = []) then mret FAIL_RETURN
    else
      product_key ← run (lift FaultRead (arr_str product_key));
      device_name ← run (lift FaultRead (arr_str device_name));
      topic ← run (lift FaultRead (sprintf (lit "/ota/device/inform/%s/%s") [PS product_key; PS device_name]));
      topic_name ← run (lift FaultRead (stored IOTX_URI_MAX_LEN topic));
      id ← iotx_report_id;
      text ← run (lift FaultRead (sprintf (json_lit "{'id':'%d','params':{'version':'%s'}}") [PD id; PS version]));
      msg ← run (lift FaultRead (stored FIRMWARE_VERSION_MSG_LEN text));
      ret ← IOT_MQTT_Publish_Simple pclient (Some topic_name) 1 (Some msg) (slen msg);
      if ret <? 0 then mret ret else mret SUCCESS_RETURN.

Definition iotx_mqtt_report_funcs (pclient : option nat) : api E unit :=
  sets (fun v => v <| info_report_func := true |>);;
  iotx_report_firmware_version pclient;;
  mret tt.

(** ** Construction *)

(** The arrays of [meta_info]. *)
Record meta_arrays := MetaArrays {
  ma_product_key : list Z;
  ma_product_secret : list Z;
  ma_device_name : list Z;
  ma_device_secret : list Z
}.

#[local] Instance eta_meta_arrays : Eta meta_arrays := fun m =>
  MetaArrays (ma_product_key m) (ma_product_secret m) (ma_device_name m) (ma_device_secret m).

Definition meta_str (a : list Z) : api E (list Z) := run (lift FaultRead (arr_str a)).

(** The code and [*meta_info]; a secret that is known is not stored in it. *)
Definition _iotx_dynamic_register (region : Z) (meta_info : meta_arrays) : api E (Z * meta_arrays) :=
  dn ← meta_str (ma_device_name meta_info);
  kv_key ← run (lift FaultWrite (puts dn (WBuf (DYNAMIC_REG_KV_PREFIX ++ zeros 32) 12)));
  device_secret ← run (ioctl_into IOTX_IOCTL_GET_DEVICE_SECRET (zeros (Z.to_nat (IOTX_DEVICE_SECRET_LEN + 1))));
  device_secret ← meta_str device_secret;
  if bool_decide (device_secret = []) then
    pk ← meta_str (ma_product_key meta_info);
    ps ← meta_str (ma_product_secret meta_info);
    http ← gets http_domain;
    '(res, meta) ← run (plat_eff (IOT_Dynamic_Register http_state_handler iotx_ca_crt http region
                                    (Dynreg.MetaInfo pk ps dn (ma_device_secret meta_info))));
    let meta_info := meta_info <| ma_device_secret := Dynreg.meta_device_secret meta |> in
    if res <? STATE_SUCCESS then mret (res, meta_info)
    else
      secret ← meta_str (ma_device_secret meta_info);
      run (ioctl IOTX_IOCTL_SET_DEVICE_SECRET (Some (DataStr secret)));;
      run (on_device_secret secret);;
      mret (STATE_SUCCESS, meta_info)
  else mret (STATE_SUCCESS, meta_info).

(** The device secret: a code to report, or [meta_info]. *)
Definition construct_secret (region dynamic : Z) (meta_info : meta_arrays) : api E (Z + meta_arrays) :=
  if negb (dynamic =? 0) then
    ps ← run (ioctl_into IOTX_IOCTL_GET_PRODUCT_SECRET (ma_product_secret meta_info));
    let meta_info := meta_info <| ma_product_secret := ps |> in
    if (arr_at ps 0 =? 0) || negb (arr_at ps IOTX_PRODUCT_SECRET_LEN =? 0) then mret (inl STATE_USER_INPUT_PS)
    else
      '(ret, meta_info) ← _iotx_dynamic_register region meta_info;
      if ret <? STATE_SUCCESS then mret (inl ret) else mret (inr meta_info)
  else
    ds ← run (ioctl_into IOTX_IOCTL_GET_DEVICE_SECRET (ma_device_secret meta_info));
    if (arr_at ds 0 =? 0) || negb (arr_at ds IOTX_DEVICE_SECRET_LEN =? 0) then mret (inl STATE_USER_INPUT_DS)
    else mret (inr (meta_info <| ma_device_secret := ds |>)).

(** The identity: a code to report, or the region, an enumeration and so unsigned, and
    [meta_info]. *)
Definition construct_meta : api E (Z + Z * meta_arrays) :=
  region ← run (ioctl_int IOTX_IOCTL_GET_REGION);
  let region := u32 region in
  dynamic ← run (ioctl_int IOTX_IOCTL_GET_DYNAMIC_REGISTER);
  pk ← run (ioctl_into IOTX_IOCTL_GET_PRODUCT_KEY (zeros (Z.to_nat (IOTX_PRODUCT_KEY_LEN + 1))));
  dn ← run (ioctl_into IOTX_IOCTL_GET_DEVICE_NAME (zeros (Z.to_nat (IOTX_DEVICE_NAME_LEN + 1))));
  if negb (arr_at pk IOTX_PRODUCT_KEY_LEN =? 0) then mret (inl STATE_USER_INPUT_PK)
  else if negb (arr_at dn IOTX_DEVICE_NAME_LEN =? 0) then mret (inl STATE_USER_INPUT_DN)
  else
    r ← construct_secret region dynamic
          (MetaArrays pk (zeros (Z.to_nat (IOTX_PRODUCT_SECRET_LEN + 1))) dn
             (zeros (Z.to_nat (IOTX_DEVICE_SECRET_LEN + 1))));
    mret (match r with inl c => inl c | inr meta_info => inr (region, meta_info) end).

Definition authtype_id2 (customize_info : option (list Z)) : bool :=
  match customize_info with
  | Some info => match find_sub info (lit "authtype=id2") with Some _ => true | None => false end
  | None => false
  end.

(** The credentials in [g_default_sign]: a code to report, or none. *)
Definition construct_sign (region : Z) (meta_info : meta_arrays) (customize_info : option (list Z))
    : api E (option Z) :=
  pk ← meta_str (ma_product_key meta_info);
  dn ← meta_str (ma_device_name meta_info);
  ps ← meta_str (ma_product_secret meta_info);
  ds ← meta_str (ma_device_secret meta_info);
  sign ← gets g_default_sign;
  domain ← gets mqtt_domain;
  '(ret, sign) ← run (lift FaultRead (IOT_Sign_MQTT domain region (Some (MetaInfo pk ps dn ds)) sign));
  sets (fun v => v <| g_default_sign := sign |>);;
  if ret <? STATE_SUCCESS then mret (Some ret)
  else
    device_id ← run (lift FaultWrite (make_device_id pk dn));
    device_id ← meta_str device_id;
    '(ret, cid) ← run (lift FaultWrite (_sign_get_clientid (Some (clientid sign)) (Some device_id) customize_info
                                          (if authtype_id2 customize_info then 1 else 0)));
    sets (fun v => v <| g_default_sign ::= fun s => s <| clientid := default (clientid s) cid |> |>);;
    if ret <? STATE_SUCCESS then mret (Some ret) else mret None.

(** [mqtt_params.pub_key]: the certificate, or the product key and secret for iTLS, as the
    string up to the NUL between them. *)
Definition construct_pub_key (customize_info : option (list Z)) : api E (option (list Z)) :=
  if authtype_id2 customize_info then
    pk ← run (ioctl_into IOTX_IOCTL_GET_PRODUCT_KEY (zeros (Z.to_nat (IOTX_PRODUCT_KEY_LEN + IOTX_PRODUCT_SECRET_LEN + 2))));
    pk ← meta_str pk;
    run (ioctl_into IOTX_IOCTL_GET_PRODUCT_SECRET
           (zeros (Z.to_nat (IOTX_PRODUCT_KEY_LEN + IOTX_PRODUCT_SECRET_LEN + 1) - List.length pk)));;
    mret (Some pk)
  else mret iotx_ca_crt.

(** [mqtt_params]: a code to report, or the parameters of the session.  [pInitParams] comes
    with its [customize_info]. *)
Definition construct_parameters (pInitParams : option (iotx_mqtt_param_t * option (list Z)))
    : api E (Z + iotx_mqtt_param_t) :=
  r ← construct_meta;
  match r with
  | inl code => mret (inl code)
  | inr (region, meta_info) =>
      let customize_info := pInitParams ≫= snd in
      r ← construct_sign region meta_info customize_info;
      match r with
      | Some code => mret (inl code)
      | None =>
          pub_key ← construct_pub_key customize_info;
          sign ← gets g_default_sign;
          host ← meta_str (hostname sign);
          cid ← meta_str (clientid sign);
          user ← meta_str (username sign);
          pw ← meta_str (password sign);
          mret (inr (construct_params host cid user pw (port sign) pub_key (fst <$> pInitParams)))
      end
  end.

(** The rest, from [wrapper_mqtt_init] on. *)
Definition construct_client (mqtt_params : iotx_mqtt_param_t) : api E (option nat) :=
  pclient ← run (wrapper_mqtt_init (Some mqtt_params));
  match pclient with
  | None => run (iotx_state_event STATE_MQTT_WRAPPER_INIT_FAIL);; mret None
  | Some a =>
      run (iotx_state_event STATE_MQTT_CONN_USER_INFO);;
      run (iotx_state_event STATE_MQTT_CONN_USER_INFO);;
      run (lift FaultNull (find_sub (default [] (p_client_id mqtt_params)) (lit ",")));;
      run (iotx_state_event STATE_MQTT_CONN_USER_INFO);;
      run (iotx_state_event STATE_MQTT_CONN_USER_INFO);;
      run (iotx_state_event STATE_MQTT_CONN_USER_INFO);;
      run (plat HAL_UptimeMs);;
      ret ← run (wrapper_mqtt_connect fuel);
      if (ret <? STATE_SUCCESS) && negb (ret =? MQTT_CONNECT_BLOCK) then
        run (iotx_state_event ret);;
        run (wrapper_mqtt_release fuel (Some a));;
        mret None
      else
        run (plat HAL_UptimeMs);;
        run (iotx_state_event STATE_SUCCESS);;
        iotx_mqtt_report_funcs (Some a);;
        sets (fun v => v <| g_mqtt_client := Some a |>);;
        run on_connect_succ;;
        mret (Some a)
  end.

Definition IOT_MQTT_Construct (pInitParams : option (iotx_mqtt_param_t * option (list Z))) : api E (option nat) :=
  g ← gets g_mqtt_client;
  match g with
  | Some a => mret (Some a)
  | None =>
      r ← construct_parameters pInitParams;
      match r with
      | inl code => run (iotx_state_event code);; mret None
      | inr mqtt_params => construct_client mqtt_params
      end
  end.
End Front.
