(* ===== verification/DevReset.v ===== *)
(** * DevReset: the report of a device reset

    [eng/dev_reset/dev_reset.c], over the interface of [MqttFront]. *)

From S2P Require Import Prelude.
From S2P Require Import CString.
From S2P Require Import InfraState.
From S2P Require Import Hal.
From S2P Require Import InfraCompat.
From S2P Require Import Json.
From S2P Require Import DevSign.
From S2P Require Import MqttState.
From S2P Require Import MqttSend.
From S2P Require Import MqttRecv.
From S2P Require Import MqttSession.
From S2P Require Import MqttFront.

(** [g_dev_reset_sub_flag] and [g_devrst_event_handle], 0 for NULL. *)
Record devrst_vars := DevrstVars {
  g_dev_reset_sub_flag : Z;
  g_devrst_event_handle : Z
}.

#[global] Instance eta_devrst_vars : Eta devrst_vars := fun s =>
  DevrstVars (g_dev_reset_sub_flag s) (g_devrst_event_handle s).

Record iotx_devrst_evt_recv_msg_t := RecvMsg {
  msgid : Z;
  recv_payload : option (list Z);
  recv_payload_len : Z
}.

(** What the handler of the reply passes on. *)
Definition mqtt_sub_handle (s : devrst_vars) (event_type : iotx_mqtt_event_type_t)
    (packet_info : iotx_mqtt_topic_info_t) : option iotx_devrst_evt_recv_msg_t :=
  match event_type with
  | IOTX_MQTT_EVENT_PUBLISH_RECEIVED =>
      if g_devrst_event_handle s =? 0 then None
      else Some (RecvMsg (ti_packet_id packet_info) (ti_payload packet_info) (ti_payload_len packet_info))
  | _ => None
  end.

Definition reset_fmt : list Z := lit "/sys/%s/%s/thing/reset".
Definition reset_reply_fmt : list Z := lit "/sys/%s/%s/thing/reset_reply".
Definition payload_fmt : list Z :=
  json_lit "{'id':%d, 'version':'1.0', 'method':'thing.reset', 'params':{}}".
Definition RESET_TOPIC_LEN : Z := IOTX_PRODUCT_KEY_LEN + IOTX_DEVICE_NAME_LEN + 30.

Section DevReset.
Context {E : Type} `{!Hal E} `{!App E} (fuel : nat).

(** The number that stands for [mqtt_sub_handle] in the handlers of the client. *)
Variable mqtt_sub_handle_fp : Z.

(** The string of an array after [HAL_Snprintf(array, size, fmt, ...)]. *)
Definition reset_text (size : Z) (fmt : list Z) (args : list parg) : api E (list Z) :=
  text ← run (lift FaultRead (sprintf fmt args));
  run (lift FaultRead (stored size text)).

Definition IOT_DevReset_Report (s : devrst_vars) (meta_info : option iotx_dev_meta_info_t) (handle : Z)
    : api E (Z * devrst_vars) :=
  match meta_info with
  | None => mret (FAIL_RETURN, s)
  | Some meta_info =>
      if handle =? 0 then mret (FAIL_RETURN, s)
      else
        let s := s <| g_devrst_event_handle := handle |> in
        let names := [PS (meta_product_key meta_info); PS (meta_device_name meta_info)] in
        topic ← reset_text RESET_TOPIC_LEN reset_reply_fmt names;
        subscribed ←
          (if g_dev_reset_sub_flag s =? 0 then
             res ← IOT_MQTT_Subscribe_Sync fuel None (Some topic) IOTX_MQTT_QOS3_SUB_LOCAL mqtt_sub_handle_fp 0 5000;
             mret (if res <? 0 then None else Some (s <| g_dev_reset_sub_flag := 1 |>))
           else mret (Some s));
        match subscribed with
        | None => mret (FAIL_RETURN, s)
        | Some s =>
            topic ← reset_text RESET_TOPIC_LEN reset_fmt names;
            id ← iotx_report_id;
            payload ← reset_text 128 payload_fmt [PD id];
            res ← IOT_MQTT_Publish_Simple fuel None (Some topic) IOTX_MQTT_QOS0 (Some payload) (slen payload);
            mret (res, s)
        end
  end.
End DevReset.
