(* ===== verification/MqttFrontSpec.v ===== *)
(** * MqttFrontSpec: the interface of the application is safe

    Every function of [MqttFront] keeps the client of the device consistent, through its
    construction and its destruction, and the session is opened with the credentials of
    the identity. *)

From S2P Require Import Prelude.
From S2P Require Import CString.
From S2P Require Import InfraHash.
From S2P Require Import InfraSha256.
From S2P Require Import InfraState.
From S2P Require Import Hal.
From S2P Require Import InfraCompat.
From S2P Require Import Json.
From S2P Require Import Eff.
From S2P Require Import Dynreg.
From S2P Require Import DevSign.
From S2P Require Import MqttPacket.
From S2P Require Import MqttConnect.
From S2P Require Import MqttPublish.
From S2P Require Import MqttTopic.
From S2P Require Import MqttState.
From S2P Require Import MqttSend.
From S2P Require Import MqttRecv.
From S2P Require Import MqttSession.
From S2P Require Import MqttLogic.
From S2P Require Import MqttSendSafe.
From S2P Require Import MqttSubSafe.
From S2P Require Import MqttRecvSafe.
From S2P Require Import MqttSessionSafe.
From S2P Require Import MqttApi.
From S2P Require Import MqttLife.
From S2P Require Import MqttSim.
From S2P Require Import MqttSafety.
From S2P Require Import MqttFront.

(** ** Weakest preconditions of [api] *)

Definition wpa {E A} (ok : stop -> Prop) (m : api E A) (Q : A -> front_vars -> world E -> Prop)
    (v : front_vars) (w : world E) : Prop :=
  wp ok (m v) (fun p w' => Q (fst p) (snd p) w') w.

Section Wpa.
Context {E : Type} (ok : stop -> Prop).
Implicit Types (v : front_vars) (w : world E).

Lemma wpa_ret {A} (a : A) Q v w : Q a v w -> wpa ok (mret a) Q v w.
Proof. done. Qed.

Lemma wpa_bind {A B} (m : api E A) (k : A -> api E B) P Q v w :
  wpa ok m P v w -> (forall a v' w', P a v' w' -> wpa ok (k a) Q v' w') -> wpa ok (m ≫= k) Q v w.
Proof.
  unfold wpa. intros Hm Hk. unfold mbind at 1, api_bind. eapply wp_bind; [exact Hm|].
  intros [a v'] w' H. by apply Hk.
Qed.

Lemma wpa_mono {A} (m : api E A) (P Q : A -> front_vars -> world E -> Prop) v w :
  wpa ok m P v w -> (forall a v' w', P a v' w' -> Q a v' w') -> wpa ok m Q v w.
Proof. intros Hm HQ. eapply wp_mono; [exact Hm|]. intros [a v'] w' H. by apply HQ. Qed.

Lemma wpa_run {A} (m : prog E A) Q v w : wp ok m (fun a w' => Q a v w') w -> wpa ok (run m) Q v w.
Proof. intros Hm. unfold wpa, run. eapply wp_bind; [exact Hm|]. intros a w' H. exact H. Qed.

Lemma wpa_run_bind {A B} (m : prog E A) (k : A -> api E B) P Q v w :
  wp ok m P w -> (forall a w', P a w' -> wpa ok (k a) Q v w') -> wpa ok (run m ≫= k) Q v w.
Proof.
  intros Hm Hk. eapply (wpa_bind _ _ (fun a v' w' => v' = v /\ P a w')).
  - apply wpa_run. eapply wp_mono; [exact Hm|]. by intros a w' H.
  - intros a v' w' [-> H]. by apply Hk.
Qed.

(** A step that is computed. *)
Lemma wpa_done_bind {A B} (m : prog E A) a (k : A -> api E B) Q v w :
  m w = Done a w -> wpa ok (k a) Q v w -> wpa ok (run m ≫= k) Q v w.
Proof.
  intros Hm Hk. eapply (wpa_run_bind _ _ (fun a' w' => a' = a /\ w' = w)); [unfold wp; by rewrite Hm|].
  by intros ? ? [-> ->].
Qed.

Lemma wpa_lift_bind {A B} (x : fault) (o : option A) (k : A -> api E B) Q v w :
  (o = None -> ok x) -> (forall a, o = Some a -> wpa ok (k a) Q v w) -> wpa ok (run (lift x o) ≫= k) Q v w.
Proof.
  intros Hn Hk. eapply (wpa_run_bind _ _ (fun a w' => o = Some a /\ w' = w)).
  - apply wp_lift; [done|]. by intros a ->.
  - intros a w' [Ho ->]. by apply Hk.
Qed.

Lemma wpa_gets_bind {A B} (f : front_vars -> A) (k : A -> api E B) Q v w :
  wpa ok (k (f v)) Q v w -> wpa ok (gets f ≫= k) Q v w.
Proof. done. Qed.

Lemma wpa_sets_bind {B} (f : front_vars -> front_vars) (k : unit -> api E B) Q v w :
  wpa ok (k tt) Q (f v) w -> wpa ok (sets f ≫= k) Q v w.
Proof. done. Qed.
End Wpa.

(** ** The settings *)

Lemma ioctl_into_get {E} opt s buf (w : world E) :
  IOT_Ioctl opt (Some (DataBuf buf)) (w_ctx w)
    = (d ← ioctl_get s (DataBuf buf); Some (SUCCESS_RETURN, w_ctx w, Some d)) ->
  (List.length s <= List.length buf)%nat ->
  ioctl_into opt buf w = Done (s ++ drop (List.length s) buf) w.
Proof.
  intros He Hl. unfold ioctl_into, ioctl, mbind at 1, prog_bind. rewrite He. unfold ioctl_get.
  rewrite (proj2 (Nat.ltb_ge _ _)) by lia. cbn [mbind option_bind]. by destruct w.
Qed.

Lemma ioctl_zeros {E} opt s n (w : world E) :
  IOT_Ioctl opt (Some (DataBuf (zeros n))) (w_ctx w)
    = (d ← ioctl_get s (DataBuf (zeros n)); Some (SUCCESS_RETURN, w_ctx w, Some d)) ->
  (List.length s <= n)%nat -> ioctl_into opt (zeros n) w = Done (strbuf n s) w.
Proof.
  intros He Hl. rewrite (ioctl_into_get opt s (zeros n) w He) by (unfold zeros; rewrite length_replicate; exact Hl).
  unfold strbuf, zeros. by rewrite drop_replicate.
Qed.

Lemma arr_at_strbuf_end n s : (List.length s < n)%nat -> arr_at (strbuf n s) (Z.of_nat (n - 1)) = 0.
Proof.
  intros Hl. unfold arr_at, strbuf, zeros. rewrite Nat2Z.id, lookup_app_r by lia.
  rewrite lookup_replicate_2 by lia. done.
Qed.

Lemma arr_at_strbuf_start n s : cstr_ok s -> (0 < n)%nat -> (arr_at (strbuf n s) 0 =? 0) = bool_decide (s = []).
Proof.
  intros Hs Hn. destruct s as [|c s].
  - rewrite strbuf_nil. by destruct n; [lia|].
  - rewrite bool_decide_false by done. apply Forall_cons in Hs as [Hc _].
    change (arr_at (strbuf n (c :: s)) 0) with c. apply Z.eqb_neq. lia.
Qed.

(** A string of the settings, without NUL. *)
Record ctx_cstr (ctx : sdk_impl_ctx_t) : Prop := {
  cc_product_key : cstr_ok (product_key ctx);
  cc_product_secret : cstr_ok (product_secret ctx);
  cc_device_name : cstr_ok (device_name ctx);
  cc_device_secret : cstr_ok (device_secret ctx)
}.

(** ** The credentials *)

Definition sign_of (h : list Z) (cid pk dn pw : list Z) : iotx_sign_mqtt_t :=
  SignMqtt (strbuf 64 h) 443 (strbuf 200 cid) (strbuf 64 (dn ++ lit "&" ++ pk)) (strbuf 65 pw).

Lemma generate_sign_string_some pk dn secret code a :
  _iotx_generate_sign_string (Spec.device_id pk dn) dn pk secret (zeros 65) = Some (code, a) ->
  code < STATE_SUCCESS \/ (code = STATE_SUCCESS /\ exists t, cstr_ok t /\ (List.length t <= 65)%nat /\ a = strbuf 65 t).
Proof.
  unfold _iotx_generate_sign_string. destruct (_ <=? _); [intros [= <- _]; by left|].
  do 10 (intros (?x & _ & H)%bind_Some; revert H). intros (a' & Hc & [= <- <-])%bind_Some.
  right. split; [done|]. set (t := _hex2str _) in Hc. exists t.
  assert (cstr_ok t) as Ht by apply hex2str_cstr. clearbody t.
  assert (List.length t <= 65)%nat as Hl.
  { unfold arr_copy in Hc. rewrite puts_spec in Hc by (by apply cstr_ok_bytes). cbn [wb_pos wb_mem] in Hc.
    change (List.length (zeros 65)) with 65%nat in Hc.
    destruct (decide (0 + List.length t <= 65)%nat); [lia|]. destruct (decide (t = [])) as [->|]; [cbn; lia|done]. }
  split; [done|]. split; [done|]. rewrite arr_copy_zeros in Hc by (by try apply cstr_ok_bytes). by injection Hc.
Qed.

Lemma host_cstr custom region pk h :
  cstr_ok pk -> 0 <= region < 6 ->
  (forall d, custom = Some d -> cstr_ok d /\ (List.length d <= 64)%nat) ->
  Spec.host custom region pk = Some h -> cstr_ok h.
Proof.
  intros Hpk Hr Hd Hh. unfold Spec.host in Hh. destruct (Z.eqb_spec region IOTX_CLOUD_REGION_CUSTOM) as [->|Hne].
  - by apply Hd.
  - destruct (g_infra_mqtt_domain custom region) as [d|] eqn:Ed; [|done]. injection Hh as <-.
    destruct (domain_ok custom region d ltac:(lia) Hne Ed) as [Hcd _].
    apply cstr_ok_app. split; [done|]. change (cstr_ok (lit "." ++ d)). apply cstr_ok_app. by split; [apply lit_dot|].
Qed.

(** Whatever the device secret is, a signature that succeeds fills the arrays. *)
Lemma sign_mqtt_some custom region pk ps dn ds signout code r :
  cstr_ok pk -> cstr_ok dn -> (List.length pk <= 20)%nat -> (List.length dn <= 32)%nat -> 0 <= region ->
  (forall d, custom = Some d -> cstr_ok d /\ (List.length d <= 64)%nat) ->
  IOT_Sign_MQTT custom region (Some (MetaInfo pk ps dn ds)) signout = Some (code, r) ->
  code < STATE_SUCCESS \/
  (code = STATE_SUCCESS /\ exists h pw, cstr_ok h /\ (List.length h < 64)%nat /\ cstr_ok pw /\ (List.length pw <= 65)%nat
     /\ (List.length pk + List.length dn < 52)%nat
     /\ r = sign_of h (Spec.client_id (Spec.device_id pk dn) None SECURE_MODE) pk dn pw).
Proof.
  intros Hpk Hdn Lpk Ldn Hr Hd. unfold IOT_Sign_MQTT. cbn [meta_product_key meta_device_name meta_device_secret].
  destruct (Z.leb_spec IOTX_MQTT_DOMAIN_NUMBER region) as [|Hr6]; [intros [= <- _]; by left|].
  destruct (make_device_id_ok pk dn Hpk Hdn Lpk Ldn) as (-> & Lid & Hid). cbn [mbind option_bind].
  destruct (decide (List.length pk + List.length dn < 52)%nat) as [Hs|Hs].
  2:{ unfold arr_str. rewrite arr_strlen_strbuf by (done || lia). by rewrite decide_False by lia. }
  rewrite arr_str_strbuf by (done || lia). cbn [mbind option_bind].
  destruct (sign_get_clientid_ok (clientid sign_mqtt_zero) (Spec.device_id pk dn) None 0)
    as (code0 & a & -> & Hcl); [done|done|]. cbn [mbind option_bind].
  rewrite body_length in Hcl.
  assert (slen (Spec.pairs (clientid_kv (if 0 <? 0 then MODE_ITLS_DNS_ID2 else SECURE_MODE))) = 97) as Lp by reflexivity.
  rewrite Lp in Hcl. cbn [List.length] in Hcl. unfold slen in Hcl. rewrite Lid in Hcl.
  cbn [List.length] in Hcl. rewrite (proj2 (Z.ltb_lt _ 200)) in Hcl by lia.
  destruct Hcl as [-> ->]. rewrite Z.ltb_irrefl.
  destruct (_iotx_generate_sign_string _ _ _ _ _) as [[c2 pwa]|] eqn:Hg; [|done]. cbn [mbind option_bind].
  destruct (generate_sign_string_some _ _ _ _ _ Hg) as [Hlt|(-> & pw & Hpw & Lpw & ->)].
  { rewrite (proj2 (Z.ltb_lt c2 STATE_SUCCESS)) by exact Hlt. intros [= <- _]. by left. }
  rewrite Z.ltb_irrefl. unfold IOTX_MQTT_DOMAIN_NUMBER in Hr6.
  rewrite sign_hostname_ok by (done || lia). cbn [mbind option_bind].
  destruct (Spec.host custom region pk) as [h|] eqn:Hh; [|intros [= <- _]; by left].
  destruct (Z.ltb_spec (slen h + 1) 64) as [Hl|]; [|intros [= <- _]; by left].
  rewrite sign_username_ok by done. intros [= <- <-]. right. split; [done|]. exists h, pw.
  split. 2:{ unfold slen in Hl. split; [lia|done]. }
  by eapply (host_cstr custom region pk); [|lia|..].
Qed.

(** ** The parameters of the session *)

Lemma find_sub_mid p s q : exists k, find_sub (p ++ s ++ q) s = Some k.
Proof.
  induction p as [|c p [k IH]]; cbn [app].
  - exists 0%nat. rewrite find_sub_eq, take_app_length. by rewrite bool_decide_true by done.
  - rewrite find_sub_eq. destruct (bool_decide _); [by eexists|]. rewrite IH. by eexists.
Qed.

Lemma client_id_comma id custom mode :
  exists k, find_sub (Spec.client_id id custom mode) (lit ",") = Some k.
Proof.
  unfold Spec.client_id, Spec.client_id_body.
  change (Spec.pairs (clientid_kv mode))
    with (lit "timestamp=2524608000000" ++ lit "," ++ (lit "_v=" ++ drop 3 (Spec.pairs (tail (clientid_kv mode))))).
  set (q := lit "_v=" ++ _). set (c := match custom with Some c => _ | None => _ end).
  set (p := id ++ lit "|" ++ lit "timestamp=2524608000000").
  assert (id ++ lit "|" ++ (lit "timestamp=2524608000000" ++ lit "," ++ q) ++ c = p ++ lit "," ++ q ++ c) as ->
    by (unfold p; by rewrite <-!app_assoc).
  replace (List.length (p ++ lit "," ++ q ++ c) - 1)%nat
    with (List.length p + (List.length (lit ",") + (List.length (q ++ c) - 1)))%nat.
  - rewrite take_app_add, take_app_add, <-!app_assoc. apply find_sub_mid.
  - rewrite !length_app. change (List.length (lit ",")) with 1%nat. unfold q. cbn [List.length lit app]. lia.
Qed.

Lemma client_id_cstr id custom mode :
  cstr_ok id -> cstr_ok mode -> (forall c, custom = Some c -> cstr_ok c) -> cstr_ok (Spec.client_id id custom mode).
Proof.
  intros Hi Hm Hc. unfold Spec.client_id. apply cstr_ok_app. split; [|apply lit_bar].
  apply Forall_take. by apply body_cstr.
Qed.

(** What the application may ask for: strings of the protocol's length, buffers that hold
    a packet's head, and a client identifier with a comma. *)
Definition mstr_arg (s : option (list Z)) : Prop :=
  forall t, s = Some t -> bytes_ok t /\ Z.of_nat (List.length t) < 65536.

Record init_ok (p : iotx_mqtt_param_t) : Prop := {
  ip_write : 0 <= p_write_buf_size p < 2147483648;
  ip_read : p_read_buf_size p = 0 \/ 5 <= p_read_buf_size p < 2147483648;
  ip_client : mstr_arg (p_client_id p);
  ip_comma : forall t, p_client_id p = Some t -> t = [] \/ exists k, find_sub t (lit ",") = Some k;
  ip_user : mstr_arg (p_username p);
  ip_pass : mstr_arg (p_password p)
}.

Lemma mstr_of (t : list Z) : bytes_ok t -> Z.of_nat (List.length t) < 65536 -> mstr_ok (cstr_mstring (Some t)).
Proof. intros Hb Hl. split; cbn; [exact Hb|exact Hl|lia|done]. Qed.

Lemma default_str_cases s d : default_str s d = Some d \/ exists c t, s = Some (c :: t) /\ default_str s d = s.
Proof. destruct s as [[|c t]|]; [by left|right; by exists c, t|by left]. Qed.

Lemma default_str_ok s d :
  mstr_arg s -> cstr_ok d -> (List.length d <= 200)%nat -> mstr_ok (cstr_mstring (default_str s d)).
Proof.
  intros Hs Hd Hl. destruct (default_str_cases s d) as [->|(c & t & -> & ->)].
  - apply mstr_of; [by apply cstr_ok_bytes|lia].
  - destruct (Hs _ eq_refl). by apply mstr_of.
Qed.

Lemma construct_params_ok host cid user pw port crt p :
  cstr_ok cid -> cstr_ok user -> cstr_ok pw ->
  (List.length cid <= 200 /\ List.length user <= 200 /\ List.length pw <= 200)%nat ->
  (exists k, find_sub cid (lit ",") = Some k) -> (forall q, p = Some q -> init_ok q) ->
  param_ok (construct_params host cid user pw port crt p)
  /\ exists k, find_sub (default [] (p_client_id (construct_params host cid user pw port crt p))) (lit ",") = Some k.
Proof.
  intros Hc Hu Hw (Lc & Lu & Lw) Hk Hp. destruct p as [p|].
  - destruct (Hp p eq_refl) as [Hwr Hrd Hci Hco Hus Hpa]. split.
    + split; cbn [construct_params p_write_buf_size p_read_buf_size p_client_id p_username p_password].
      * unfold CONFIG_MQTT_MESSAGE_MAXLEN. destruct (_ =? 0); lia.
      * unfold CONFIG_MQTT_MESSAGE_MAXLEN. destruct (Z.eqb_spec (p_read_buf_size p) 0); lia.
      * by apply default_str_ok.
      * by apply default_str_ok.
      * by apply default_str_ok.
    + cbn [construct_params p_client_id]. destruct (default_str_cases (p_client_id p) cid) as [->|(c & t & Hs & ->)]; [done|].
      rewrite Hs. by destruct (Hco _ Hs) as [|].
  - split; [|done]. split; cbn [construct_params p_write_buf_size p_read_buf_size p_client_id p_username p_password];
      unfold CONFIG_MQTT_MESSAGE_MAXLEN; [lia|right; lia|..]; apply mstr_of; try (by apply cstr_ok_bytes); lia.
Qed.

(** ** Construction *)

Definition domains_ok (v : front_vars) : Prop :=
  forall d, mqtt_domain v = Some d -> cstr_ok d /\ (List.length d <= 64)%nat.

(** What is called back while there is no client, and when there is one. *)
Class FrontSafe {E} `{!FrontApp E} (ok : stop -> Prop) := {
  device_secret_safe s C F (w : world E) :
    cinv C F [] w -> wp ok (on_device_secret s) (fun _ w' => cinv C F [] w') w;
  connect_succ_safe F (w : world E) :
    inv F [] w -> wp ok on_connect_succ (fun _ w' => inv F [] w') w
}.

Section Construct.
Context {E : Type} `{!Hal E} `{!App E} `{!FrontApp E} (fuel : nat) (ok : stop -> Prop).
Context (ok_read : ok FaultRead).
Variable crt : option (list Z).
Variable http_handler : option (Z -> list Z -> E -> E).
Implicit Types (F : list nat) (v : front_vars) (w : world E).

Lemma meta_str_bind {B} n s (k : list Z -> api E B) Q v w :
  cstr_ok s -> (List.length s < n)%nat -> wpa ok (k s) Q v w -> wpa ok (meta_str (strbuf n s) ≫= k) Q v w.
Proof.
  intros Hs Hl Hk. unfold meta_str. apply wpa_lift_bind; rewrite arr_str_strbuf by done; [intros [=]|]. by intros ? [= <-].
Qed.

Lemma meta_str_bind_any {B} a (k : list Z -> api E B) Q v w :
  (forall s, wpa ok (k s) Q v w) -> wpa ok (meta_str a ≫= k) Q v w.
Proof. intros Hk. apply wpa_lift_bind; [by intros _|]. intros s _. apply Hk. Qed.

Lemma ioctl_int_get {B} opt n (k : Z -> api E B) Q v w :
  IOT_Ioctl opt (Some (DataInt 0)) (w_ctx w) = Some (SUCCESS_RETURN, w_ctx w, Some (DataInt n)) ->
  wpa ok (k n) Q v w -> wpa ok (run (ioctl_int opt) ≫= k) Q v w.
Proof.
  intros He Hk. eapply (wpa_done_bind _ _ n); [|exact Hk]. unfold ioctl_int, ioctl, mbind at 1, prog_bind.
  rewrite He. by destruct w.
Qed.

(** A setting read into zeros. *)
Lemma ioctl_str_get {B} opt s n (k : list Z -> api E B) Q v w :
  IOT_Ioctl opt (Some (DataBuf (zeros n))) (w_ctx w)
    = (d ← ioctl_get s (DataBuf (zeros n)); Some (SUCCESS_RETURN, w_ctx w, Some d)) ->
  (List.length s <= n)%nat -> wpa ok (k (strbuf n s)) Q v w ->
  wpa ok (run (ioctl_into opt (zeros n)) ≫= k) Q v w.
Proof. intros He Hl Hk. eapply wpa_done_bind; [by apply ioctl_zeros|exact Hk]. Qed.

Lemma plat_eff_spec {A} (m : eff E A) C F H w :
  cinv C F H w -> wp ok (plat_eff m) (fun _ w' => cinv C F H w' /\ w_ctx w' = w_ctx w) w.
Proof.
  intros HI. unfold wp, plat_eff. destruct (m (w_env w)) as [[a e]|]; [|exact ok_read].
  split; [|done]. by apply (inv_same F H w).
Qed.

Lemma front_ioctl_set_spec s C F H w :
  cinv C F H w ->
  wp ok (ioctl IOTX_IOCTL_SET_DEVICE_SECRET (Some (DataStr s))) (fun _ w' => cinv C F H w') w.
Proof.
  intros HI. unfold wp, ioctl. destruct (IOT_Ioctl _ _ _) as [[[rc ctx] d]|] eqn:He.
  - destruct HI as [Hh Hc Ho Hl Hx]. pose proof (IOT_Ioctl_settings IOTX_IOCTL_SET_DEVICE_SECRET _ _ _ _ _ Hx I He) as Hx'.
    split; [destruct Hh as [Hb Hn Hm]; by split|exact Hc|exact Ho|exact Hl|exact Hx'].
  - cbn in He. by destruct (_ <=? _).
Qed.

Context `{!AppInit ok} `{!FrontSafe ok}.

(** The register path keeps the names; a secret that is stored is not read. *)
Lemma dynamic_register_spec region pk dn psa C F v w :
  cinv C F [] w -> cstr_ok dn -> (List.length dn <= 32)%nat -> cstr_ok pk -> (List.length pk <= 20)%nat ->
  wpa ok (_iotx_dynamic_register crt http_handler region (MetaArrays (strbuf 21 pk) psa (strbuf 33 dn) (zeros 65)))
    (fun '(ret, m) v' w' => v' = v /\ cinv C F [] w'
       /\ ma_product_key m = strbuf 21 pk /\ ma_device_name m = strbuf 33 dn) v w.
Proof.
  intros HI Hdn Ldn Hpk Lpk. pose proof (inv_ctx _ _ _ _ HI) as Hx. destruct Hx as [X1 X2 X3 X4 _ _ _].
  unfold IOTX_DEVICE_SECRET_LEN in *. unfold _iotx_dynamic_register.
  cbn [ma_product_key ma_product_secret ma_device_name ma_device_secret].
  apply meta_str_bind; [done|lia|]. apply wpa_lift_bind.
  { rewrite puts_spec by (by apply cstr_ok_bytes). cbn [wb_pos wb_mem].
    change (List.length (DYNAMIC_REG_KV_PREFIX ++ zeros 32)) with 44%nat. by rewrite decide_True by lia. }
  intros kv _. change (Z.to_nat (IOTX_DEVICE_SECRET_LEN + 1)) with 65%nat.
  eapply (ioctl_str_get _ (device_secret (w_ctx w))); [done|lia|]. apply meta_str_bind_any. intros known.
  case_bool_decide; [|by apply wpa_ret].
  apply meta_str_bind; [done|lia|]. apply meta_str_bind_any. intros ps. apply wpa_gets_bind.
  eapply wpa_run_bind; [by apply plat_eff_spec|]. intros [res meta] w1 [HI1 _].
  destruct (res <? STATE_SUCCESS); [by apply wpa_ret|].
  apply meta_str_bind_any. intros secret.
  eapply wpa_run_bind; [by apply front_ioctl_set_spec|]. cbn beta. intros _ w2 HI2.
  eapply wpa_run_bind; [by apply device_secret_safe|]. cbn beta. intros _ w3 HI3. by apply wpa_ret.
Qed.

(** The identity of the settings. *)
Lemma construct_meta_spec C F v w :
  cinv C F [] w ->
  wpa ok (construct_meta crt http_handler)
    (fun r v' w' => v' = v /\ cinv C F [] w' /\
       match r with
       | inl _ => True
       | inr (region, m) => 0 <= region /\ ma_product_key m = strbuf 21 (product_key (w_ctx w))
           /\ ma_device_name m = strbuf 33 (device_name (w_ctx w))
       end) v w.
Proof.
  intros HI. pose proof (inv_settings _ _ _ _ HI) as [[X1 X2 X3 X4 _ _ _] C1 C3 _].
  unfold IOTX_PRODUCT_KEY_LEN, IOTX_PRODUCT_SECRET_LEN, IOTX_DEVICE_NAME_LEN, IOTX_DEVICE_SECRET_LEN in *.
  unfold construct_meta. eapply ioctl_int_get; [done|]. eapply ioctl_int_get; [done|].
  change (Z.to_nat (IOTX_PRODUCT_KEY_LEN + 1)) with 21%nat. change (Z.to_nat (IOTX_DEVICE_NAME_LEN + 1)) with 33%nat.
  change (Z.to_nat (IOTX_PRODUCT_SECRET_LEN + 1)) with 65%nat. change (Z.to_nat (IOTX_DEVICE_SECRET_LEN + 1)) with 65%nat.
  eapply (ioctl_str_get _ (product_key (w_ctx w))); [done|lia|].
  eapply (ioctl_str_get _ (device_name (w_ctx w))); [done|lia|].
  change IOTX_PRODUCT_KEY_LEN with (Z.of_nat (21 - 1)). change IOTX_DEVICE_NAME_LEN with (Z.of_nat (33 - 1)).
  rewrite !arr_at_strbuf_end by lia. cbn [Z.eqb negb].
  assert (0 <= u32 (domain_type (w_ctx w))) as Hr by apply u32_range.
  set (pk := product_key (w_ctx w)) in *. set (dn := device_name (w_ctx w)) in *.
  eapply (wpa_bind _ _ _ (fun r v' w' => v' = v /\ cinv C F [] w' /\
       match r with inl _ => True | inr m => ma_product_key m = strbuf 21 pk /\ ma_device_name m = strbuf 33 dn end)).
  2:{ intros [code|m] v1 w1 (-> & HI1 & Hm); apply wpa_ret; [done|]. by destruct Hm. }
  unfold construct_secret. cbn [ma_product_key ma_product_secret ma_device_name ma_device_secret].
  destruct (negb _).
  - eapply (ioctl_str_get _ (product_secret (w_ctx w))); [done|lia|]. destruct (_ || _); [by apply wpa_ret|].
    eapply (wpa_bind _ _ _ (fun '(ret, m) v' w' => v' = v /\ cinv C F [] w'
       /\ ma_product_key m = strbuf 21 pk /\ ma_device_name m = strbuf 33 dn)).
    { apply dynamic_register_spec; try done; lia. }
    intros [ret m] v1 w1 (-> & HI1 & Hm). by destruct (ret <? STATE_SUCCESS); apply wpa_ret.
  - eapply (ioctl_str_get _ (device_secret (w_ctx w))); [done|lia|]. destruct (_ || _); by apply wpa_ret.
Qed.

(** The signature, and the identifier with the customised pairs. *)
Definition signed (pk dn : list Z) (info : option (list Z)) (s : iotx_sign_mqtt_t) : Prop :=
  exists h pw, cstr_ok h /\ (List.length h < 64)%nat /\ cstr_ok pw /\ (List.length pw <= 65)%nat
    /\ (List.length pk + List.length dn < 52)%nat
    /\ s = sign_of h (Spec.client_id (Spec.device_id pk dn) info
                        (if authtype_id2 info then MODE_ITLS_DNS_ID2 else SECURE_MODE)) pk dn pw
    /\ slen (Spec.client_id_body (Spec.device_id pk dn) info
               (if authtype_id2 info then MODE_ITLS_DNS_ID2 else SECURE_MODE)) < 200.

Lemma construct_sign_spec region m info pk dn v w :
  ma_product_key m = strbuf 21 pk -> ma_device_name m = strbuf 33 dn ->
  cstr_ok pk -> cstr_ok dn -> (List.length pk <= 20)%nat -> (List.length dn <= 32)%nat -> 0 <= region ->
  (forall c, info = Some c -> cstr_ok c) -> domains_ok v ->
  wpa ok (construct_sign region m info)
    (fun r v' w' => w' = w /\ exists s, v' = v <| g_default_sign := s |> /\ (r = None -> signed pk dn info s)) v w.
Proof.
  intros Epk Edn Hpk Hdn Lpk Ldn Hr Hi Hd. unfold construct_sign. rewrite Epk, Edn.
  apply meta_str_bind; [done|lia|]. apply meta_str_bind; [done|lia|].
  apply meta_str_bind_any. intros ps. apply meta_str_bind_any. intros ds.
  apply wpa_gets_bind, wpa_gets_bind, wpa_lift_bind; [done|]. intros [ret s] Hs. apply wpa_sets_bind.
  destruct (sign_mqtt_some _ _ _ _ _ _ _ _ _ Hpk Hdn Lpk Ldn Hr Hd Hs)
    as [Hlt|(-> & h & pw & Hh & Lh & Hw & Lw & Hsum & ->)].
  { rewrite (proj2 (Z.ltb_lt _ _)) by done. apply wpa_ret. split; [done|]. by exists s. }
  rewrite Z.ltb_irrefl. destruct (make_device_id_ok pk dn Hpk Hdn Lpk Ldn) as (-> & Lid & Hid).
  apply wpa_lift_bind; [done|]. intros ? [= <-]. apply meta_str_bind; [done|lia|].
  set (itls := if authtype_id2 info then 1 else 0).
  set (cid0 := clientid (sign_of h (Spec.client_id (Spec.device_id pk dn) None SECURE_MODE) pk dn pw)).
  destruct (sign_get_clientid_ok cid0 (Spec.device_id pk dn) info itls Hid Hi) as (code & a & -> & Hc).
  apply wpa_lift_bind; [done|]. intros ? [= <-]. apply wpa_sets_bind. cbn [default].
  assert ((if 0 <? itls then MODE_ITLS_DNS_ID2 else SECURE_MODE)
          = (if authtype_id2 info then MODE_ITLS_DNS_ID2 else SECURE_MODE)) as Hm by (unfold itls; by destruct (authtype_id2 info)).
  rewrite Hm in Hc. destruct (Z.ltb_spec (slen (Spec.client_id_body (Spec.device_id pk dn) info
    (if authtype_id2 info then MODE_ITLS_DNS_ID2 else SECURE_MODE))) 200) as [Hl|].
  - destruct Hc as [-> ->]. rewrite Z.ltb_irrefl. apply wpa_ret. split; [done|]. eexists. split; [reflexivity|].
    intros _. exists h, pw. by split_and!.
  - rewrite Hc. change (STATE_MQTT_SIGN_CLIENTID_BUF_SHORT <? STATE_SUCCESS) with true. apply wpa_ret.
    split; [done|]. eexists. by split.
Qed.

Lemma arr_str_strbuf_le n s t : (List.length s < n)%nat -> arr_str (strbuf n s) = Some t -> (List.length t <= List.length s)%nat.
Proof.
  intros Hl. unfold arr_str. destruct (arr_strlen (strbuf n s)) as [k|] eqn:Hk; [|done]. intros [= <-].
  rewrite length_take. enough (k <= List.length s)%nat by lia. revert Hk. unfold strbuf, zeros.
  replace (n - List.length s)%nat with (S (n - List.length s - 1)) by lia. cbn [replicate].
  generalize (replicate (n - List.length s - 1) 0). clear Hl. intros r. revert k.
  induction s as [|c s IH]; intros k; cbn [app arr_strlen List.length]; [by intros [= <-]|].
  destruct (c =? 0); [intros [= <-]; lia|]. destruct (arr_strlen _) as [j|]; [|by intros [=]].
  intros [= <-]. pose proof (IH j eq_refl). lia.
Qed.

Lemma construct_pub_key_spec info v C F w :
  cinv C F [] w -> wpa ok (construct_pub_key crt info) (fun _ v' w' => v' = v /\ w' = w) v w.
Proof.
  intros HI. pose proof (inv_ctx _ _ _ _ HI) as Hx. destruct Hx as [X1 X2 X3 X4 _ _ _].
  unfold IOTX_PRODUCT_KEY_LEN, IOTX_PRODUCT_SECRET_LEN in *.
  unfold construct_pub_key. destruct (authtype_id2 info); [|by apply wpa_ret].
  change (Z.to_nat (IOTX_PRODUCT_KEY_LEN + IOTX_PRODUCT_SECRET_LEN + 2)) with 86%nat.
  change (Z.to_nat (IOTX_PRODUCT_KEY_LEN + IOTX_PRODUCT_SECRET_LEN + 1)) with 85%nat.
  eapply (ioctl_str_get _ (product_key (w_ctx w))); [done|lia|]. apply wpa_lift_bind; [done|]. intros t Ht.
  apply arr_str_strbuf_le in Ht; [|lia].
  eapply (ioctl_str_get _ (product_secret (w_ctx w))); [done|lia|]. by apply wpa_ret.
Qed.

(** What a construction starts from. *)
Definition params_in (p : option (iotx_mqtt_param_t * option (list Z))) : Prop :=
  forall q info, p = Some (q, info) -> init_ok q /\ forall c, info = Some c -> cstr_ok c.

Lemma construct_parameters_spec p C F v w :
  cinv C F [] w -> domains_ok v -> params_in p ->
  wpa ok (construct_parameters crt http_handler p)
    (fun r v' w' => cinv C F [] w' /\ (exists s, v' = v <| g_default_sign := s |>) /\
       match r with
       | inl _ => True
       | inr q => param_ok q /\ exists k, find_sub (default [] (p_client_id q)) (lit ",") = Some k
       end) v w.
Proof.
  intros HI Hd Hp. pose proof (inv_settings _ _ _ _ HI) as [[X1 _ X3 _ _ _ _] C1 C3 _].
  unfold IOTX_PRODUCT_KEY_LEN, IOTX_DEVICE_NAME_LEN in *.
  unfold construct_parameters. eapply wpa_bind; [by apply construct_meta_spec|]. cbn beta.
  intros [code|[region m]] v1 w1 (-> & HI1 & Hm); [apply wpa_ret; split; [exact HI1|]; split; [exists (g_default_sign v); by destruct v|done]|].
  destruct Hm as (Hr & Epk & Edn). set (info := p ≫= snd).
  assert (forall c, info = Some c -> cstr_ok c) as Hi.
  { intros c Ec. unfold info in Ec. destruct p as [[q i]|]; [|done]. by apply (Hp q i eq_refl). }
  assert (forall q, fst <$> p = Some q -> init_ok q) as Hq.
  { intros q Eq. destruct p as [[q' i]|]; [|done]. injection Eq as <-. by apply (Hp q' i eq_refl). }
  eapply wpa_bind; [apply (construct_sign_spec region m info _ _ _ _ Epk Edn); try done; lia|]. cbn beta.
  intros r v2 w2 (-> & s & -> & Hs).
  destruct r as [code|]; [apply wpa_ret; split; [done|]; split; [by exists s|done]|].
  destruct (Hs eq_refl) as (h & pw & Hh & Lh & Hw & Lw & Hsum & -> & Lcid).
  set (mode := if authtype_id2 info then MODE_ITLS_DNS_ID2 else SECURE_MODE) in *.
  set (pk := product_key (w_ctx w)) in *. set (dn := device_name (w_ctx w)) in *.
  eapply wpa_bind; [by eapply construct_pub_key_spec|]. cbn beta. intros key v3 w3 [-> ->].
  apply wpa_gets_bind. cbn [g_default_sign]. unfold sign_of. cbn [hostname clientid username password port].
  assert (cstr_ok (Spec.client_id (Spec.device_id pk dn) info mode)) as Hcid.
  { apply client_id_cstr; [unfold Spec.device_id; auto with cstring| |done]. unfold mode. destruct (authtype_id2 info); by apply lit_cstr. }
  assert (List.length (Spec.client_id (Spec.device_id pk dn) info mode) < 200)%nat as Lc.
  { unfold Spec.client_id. rewrite length_app, length_take. change (List.length (lit "|")) with 1%nat. unfold slen in Lcid. lia. }
  assert (cstr_ok (dn ++ lit "&" ++ pk)) as Huser by auto with cstring.
  assert (List.length (dn ++ lit "&" ++ pk) < 64)%nat as Lu.
  { rewrite !length_app. change (List.length (lit "&")) with 1%nat. lia. }
  apply meta_str_bind; [done|lia|]. apply meta_str_bind; [done|lia|]. apply meta_str_bind; [done|lia|].
  destruct (decide (List.length pw < 65)%nat) as [Lpw|].
  2:{ unfold meta_str. apply wpa_lift_bind; [done|]. intros t Ht. exfalso.
      change (arr_str (strbuf 65 pw) = Some t) in Ht. unfold arr_str in Ht.
      by rewrite arr_strlen_strbuf, decide_False in Ht by (done || lia). }
  apply meta_str_bind; [done|lia|]. apply wpa_ret. split; [done|]. split; [by eexists|].
  apply construct_params_ok; try done; [lia|apply client_id_comma].
Qed.
End Construct.

(** ** The credentials of a session *)

(** Settings that a session can be opened with. *)
Record settings_in (ctx : sdk_impl_ctx_t) : Prop := {
  st_bounds : sdk_ctx_ok ctx;
  st_cstr : ctx_cstr ctx;
  st_region : 0 <= u32 (domain_type ctx) < 6;
  st_room : (List.length (product_key ctx) + List.length (device_name ctx) < 52)%nat;
  st_secret : device_secret ctx <> [];
  st_product_secret : dynamic_register ctx <> 0 -> product_secret ctx <> []
}.

(** The secret that signs: the one stored, or none when registration is on, which leaves
    the array of [meta_info] empty. *)
Definition signing_secret (ctx : sdk_impl_ctx_t) : list Z :=
  if dynamic_register ctx =? 0 then device_secret ctx else [].

Section Credentials.
Context {E : Type} `{!Hal E} `{!App E} `{!FrontApp E}.
Variable crt : option (list Z).
Variable http_handler : option (Z -> list Z -> E -> E).
Implicit Types (v : front_vars) (w : world E).

Definition is_done {A} (a : A) v w (a' : A) v' w' : Prop := a' = a /\ v' = v /\ w' = w.

Lemma dynamic_register_known region pk dn ps v w :
  cstr_ok dn -> (List.length dn <= 32)%nat -> sdk_ctx_ok (w_ctx w) ->
  cstr_ok (device_secret (w_ctx w)) -> device_secret (w_ctx w) <> [] ->
  let m := MetaArrays (strbuf 21 pk) ps (strbuf 33 dn) (zeros 65) in
  wpa never (_iotx_dynamic_register crt http_handler region m) (is_done (STATE_SUCCESS, m) v w) v w.
Proof.
  intros Hdn Ldn [X1 X2 X3 X4 _ _ _] Hds Hne m. unfold IOTX_DEVICE_SECRET_LEN in *. unfold _iotx_dynamic_register.
  unfold m. cbn [ma_product_key ma_product_secret ma_device_name ma_device_secret].
  apply meta_str_bind; [done|lia|]. apply wpa_lift_bind.
  { rewrite puts_spec by (by apply cstr_ok_bytes). cbn [wb_pos wb_mem].
    change (List.length (DYNAMIC_REG_KV_PREFIX ++ zeros 32)) with 44%nat. by rewrite decide_True by lia. }
  intros kv _. change (Z.to_nat (IOTX_DEVICE_SECRET_LEN + 1)) with 65%nat.
  eapply (ioctl_str_get never _ (device_secret (w_ctx w))); [done|lia|]. apply meta_str_bind; [done|lia|].
  rewrite bool_decide_false by done. by apply wpa_ret.
Qed.

Lemma construct_meta_known v w :
  settings_in (w_ctx w) ->
  let ctx := w_ctx w in
  exists ps, wpa never (construct_meta crt http_handler)
    (is_done (inr (u32 (domain_type ctx), MetaArrays (strbuf 21 (product_key ctx)) (strbuf 65 ps)
                     (strbuf 33 (device_name ctx)) (strbuf 65 (signing_secret ctx)))) v w) v w
    /\ cstr_ok ps /\ (List.length ps < 65)%nat.
Proof.
  intros [Hb [C1 C2 C3 C4] Hr Hl Hs Hps]. pose proof Hb as [X1 X2 X3 X4 _ _ _]. cbn zeta.
  unfold IOTX_PRODUCT_KEY_LEN, IOTX_PRODUCT_SECRET_LEN, IOTX_DEVICE_NAME_LEN, IOTX_DEVICE_SECRET_LEN in *.
  exists (if dynamic_register (w_ctx w) =? 0 then [] else product_secret (w_ctx w)).
  split; [|by destruct (_ =? 0); (split; [first [done|constructor]|cbn; lia])].
  unfold construct_meta. eapply ioctl_int_get; [done|]. eapply ioctl_int_get; [done|].
  change (Z.to_nat (IOTX_PRODUCT_KEY_LEN + 1)) with 21%nat. change (Z.to_nat (IOTX_DEVICE_NAME_LEN + 1)) with 33%nat.
  change (Z.to_nat (IOTX_PRODUCT_SECRET_LEN + 1)) with 65%nat. change (Z.to_nat (IOTX_DEVICE_SECRET_LEN + 1)) with 65%nat.
  eapply (ioctl_str_get never _ (product_key (w_ctx w))); [done|lia|].
  eapply (ioctl_str_get never _ (device_name (w_ctx w))); [done|lia|].
  change IOTX_PRODUCT_KEY_LEN with (Z.of_nat (21 - 1)). change IOTX_DEVICE_NAME_LEN with (Z.of_nat (33 - 1)).
  rewrite !arr_at_strbuf_end by lia. cbn [Z.eqb negb]. unfold signing_secret, construct_secret.
  cbn [ma_product_key ma_product_secret ma_device_name ma_device_secret].
  change IOTX_PRODUCT_SECRET_LEN with (Z.of_nat (65 - 1)). change IOTX_DEVICE_SECRET_LEN with (Z.of_nat (65 - 1)).
  set (ps := if dynamic_register _ =? 0 then [] else _). set (ds := if dynamic_register _ =? 0 then _ else []).
  eapply (wpa_bind _ _ _ (is_done (inr (MetaArrays (strbuf 21 (product_key (w_ctx w))) (strbuf 65 ps)
                                          (strbuf 33 (device_name (w_ctx w))) (strbuf 65 ds))) v w)).
  2:{ intros r v1 w1 (-> & -> & ->). by apply wpa_ret. }
  unfold ps, ds. destruct (Z.eqb_spec (dynamic_register (w_ctx w)) 0) as [E0|E0]; cbn [negb].
  - eapply (ioctl_str_get never _ (device_secret (w_ctx w))); [done|lia|].
    rewrite arr_at_strbuf_end by lia. rewrite arr_at_strbuf_start, bool_decide_false by (done || lia).
    cbn [orb negb Z.eqb]. apply wpa_ret.
    unfold is_done. rewrite strbuf_nil. split; [reflexivity|by split].
  - eapply (ioctl_str_get never _ (product_secret (w_ctx w))); [done|lia|].
    rewrite arr_at_strbuf_end by lia. rewrite arr_at_strbuf_start, bool_decide_false by (auto || lia).
    cbn [orb negb Z.eqb]. eapply wpa_bind;
      [by apply (dynamic_register_known _ _ _ (strbuf 65 (product_secret (w_ctx w)))); try lia|].
    intros [ret m] v1 w1 ([= -> ->] & -> & ->). rewrite Z.ltb_irrefl. apply wpa_ret.
    unfold is_done. rewrite strbuf_nil. split; [reflexivity|by split].
Qed.

Definition id2_mode (info : option (list Z)) : list Z := if authtype_id2 info then MODE_ITLS_DNS_ID2 else SECURE_MODE.

Lemma construct_sign_known region pk dn ps ds info h v w :
  identity_ok (MetaInfo pk ps dn ds) -> cstr_ok ps -> (List.length ps < 65)%nat -> 0 <= region < 6 ->
  (List.length pk + List.length dn < 52)%nat -> domains_ok v -> (forall c, info = Some c -> cstr_ok c) ->
  Spec.host (mqtt_domain v) region pk = Some h -> slen h + 1 < 64 ->
  slen (Spec.client_id_body (Spec.device_id pk dn) info (id2_mode info)) < 200 ->
  wpa never (construct_sign region (MetaArrays (strbuf 21 pk) (strbuf 65 ps) (strbuf 33 dn) (strbuf 65 ds)) info)
    (is_done None (v <| g_default_sign := sign_of h (Spec.client_id (Spec.device_id pk dn) info (id2_mode info))
                                            pk dn (Spec.password pk dn ds) |>) w) v w.
Proof.
  intros Hid Hps Lps Hr Hl Hd Hi Hh Lh Lc. pose proof Hid as [Hpk Hdn Hds Lpk Ldn Lds].
  cbn [meta_product_key meta_device_name meta_device_secret] in *.
  unfold construct_sign. cbn [ma_product_key ma_product_secret ma_device_name ma_device_secret].
  do 4 (apply meta_str_bind; [done|lia|]). apply wpa_gets_bind, wpa_gets_bind, wpa_lift_bind;
    rewrite (sign_mqtt_host _ _ _ _ _ _ _ h) by done; [intros [=]|].
  intros [ret s] [= <- <-]. apply wpa_sets_bind. rewrite Z.ltb_irrefl.
  destruct (make_device_id_ok pk dn Hpk Hdn Lpk Ldn) as (-> & Lid & Hdev).
  apply wpa_lift_bind; [intros [=]|]. intros ? [= <-]. apply meta_str_bind; [done|lia|].
  cbn [clientid]. set (cid0 := strbuf 200 _). set (itls := if authtype_id2 info then 1 else 0).
  destruct (sign_get_clientid_ok cid0 (Spec.device_id pk dn) info itls Hdev Hi) as (code & a & -> & Hc).
  apply wpa_lift_bind; [intros [=]|]. intros ? [= <-]. apply wpa_sets_bind. cbn [default].
  assert ((if 0 <? itls then MODE_ITLS_DNS_ID2 else SECURE_MODE) = id2_mode info) as Hm
    by (unfold itls, id2_mode; by destruct (authtype_id2 info)).
  rewrite Hm, (proj2 (Z.ltb_lt _ 200)) in Hc by done. destruct Hc as [-> ->]. rewrite Z.ltb_irrefl.
  apply wpa_ret. by split.
Qed.

Lemma construct_pub_key_known info v w :
  settings_in (w_ctx w) ->
  wpa never (construct_pub_key crt info)
    (is_done (if authtype_id2 info then Some (product_key (w_ctx w)) else crt) v w) v w.
Proof.
  intros [[X1 X2 _ _ _ _ _] [C1 _ _ _] _ _ _ _]. unfold IOTX_PRODUCT_KEY_LEN, IOTX_PRODUCT_SECRET_LEN in *.
  unfold construct_pub_key. destruct (authtype_id2 info); [|apply wpa_ret; by split].
  change (Z.to_nat (IOTX_PRODUCT_KEY_LEN + IOTX_PRODUCT_SECRET_LEN + 2)) with 86%nat.
  change (Z.to_nat (IOTX_PRODUCT_KEY_LEN + IOTX_PRODUCT_SECRET_LEN + 1)) with 85%nat.
  eapply (ioctl_str_get never _ (product_key (w_ctx w))); [done|lia|]. apply meta_str_bind; [done|lia|].
  eapply (ioctl_str_get never _ (product_secret (w_ctx w))); [done|lia|]. apply wpa_ret. by split.
Qed.

(** C13. The parameters of a session: for settings that fit the arrays, with the secret of
    the device stored, [IOT_MQTT_Construct] asks for the session of the identity: the
    host of the region, port 443, the user name, the client identifier with the
    customised pairs and the security mode they ask for, and a password that is the
    HMAC-SHA-256 of the identity's text, unless the application gives its own; and the
    settings, the client and the heap are as before.  The key of that password is the
    stored secret when dynamic registration is off, and the EMPTY string when it is on:
    [_iotx_dynamic_register] finds the secret stored and does not put it into
    [meta_info], so that a device that registered once cannot log in again. *)
Theorem construct_credentials p h v w :
  let ctx := w_ctx w in
  let pk := product_key ctx in
  let dn := device_name ctx in
  let info := p ≫= snd in
  settings_in ctx -> domains_ok v -> (forall c, info = Some c -> cstr_ok c) ->
  Spec.host (mqtt_domain v) (u32 (domain_type ctx)) pk = Some h -> slen h + 1 < 64 ->
  slen (Spec.client_id_body (Spec.device_id pk dn) info (id2_mode info)) < 200 ->
  exists v', g_mqtt_client v' = g_mqtt_client v
  /\ construct_parameters crt http_handler p v w
     = Done (inr (construct_params h (Spec.client_id (Spec.device_id pk dn) info (id2_mode info))
                    (dn ++ lit "&" ++ pk) (Spec.password pk dn (signing_secret ctx)) 443
                    (if authtype_id2 info then Some pk else crt) (fst <$> p)), v') w.
Proof.
  intros ctx pk dn info Hs Hd Hi Hh Lh Lc. pose proof Hs as [[X1 X2 X3 X4 _ _ _] [C1 C2 C3 C4] Hr Hl Hsec Hps].
  unfold IOTX_PRODUCT_KEY_LEN, IOTX_DEVICE_NAME_LEN, IOTX_DEVICE_SECRET_LEN in *.
  destruct (construct_meta_known v w Hs) as (ps & Hm & Cps & Lps).
  fold ctx pk dn in Hs, X1, X2, X3, X4, C1, C2, C3, C4, Hr, Hl, Hsec, Hps, Hm.
  set (ds := signing_secret ctx) in *.
  assert (cstr_ok ds /\ (List.length ds <= 64)%nat) as [Cds Lds].
  { unfold ds, signing_secret. destruct (_ =? 0); [split; [done|lia]|split; [constructor|cbn; lia]]. }
  set (sign := sign_of h (Spec.client_id (Spec.device_id pk dn) info (id2_mode info)) pk dn (Spec.password pk dn ds)).
  exists (v <| g_default_sign := sign |>). split; [done|].
  enough (wpa never (construct_parameters crt http_handler p)
    (is_done (inr (construct_params h (Spec.client_id (Spec.device_id pk dn) info (id2_mode info))
                    (dn ++ lit "&" ++ pk) (Spec.password pk dn ds) 443
                    (if authtype_id2 info then Some pk else crt) (fst <$> p)))
       (v <| g_default_sign := sign |>) w) v w) as Hw.
  { apply wp_never in Hw as ([r v'] & w' & Ew & Hr' & Hv & Hw). cbn [fst snd] in Hr', Hv. by rewrite Ew, Hr', Hv, Hw. }
  unfold construct_parameters. eapply wpa_bind; [exact Hm|]. intros r v1 w1 (-> & -> & ->). fold info.
  eapply wpa_bind; [apply (construct_sign_known _ _ _ _ _ _ h); try done; split; try done; cbn; lia|].
  intros r v1 w1 (-> & -> & ->). fold sign.
  eapply wpa_bind; [by apply construct_pub_key_known|]. intros key v1 w1 (-> & -> & ->). fold ctx pk.
  apply wpa_gets_bind. cbn [g_default_sign]. unfold sign, sign_of. cbn [hostname clientid username password port].
  assert (cstr_ok (Spec.client_id (Spec.device_id pk dn) info (id2_mode info))) as Hcid.
  { apply client_id_cstr; [unfold Spec.device_id; auto with cstring| |done].
    unfold id2_mode. destruct (authtype_id2 info); by apply lit_cstr. }
  assert (List.length (Spec.client_id (Spec.device_id pk dn) info (id2_mode info)) < 200)%nat as Lcid.
  { unfold Spec.client_id. rewrite length_app, length_take. change (List.length (lit "|")) with 1%nat. unfold slen in Lc. lia. }
  assert (cstr_ok (dn ++ lit "&" ++ pk)) as Huser by auto with cstring.
  assert (List.length (dn ++ lit "&" ++ pk) < 64)%nat as Lu.
  { rewrite !length_app. change (List.length (lit "&")) with 1%nat. lia. }
  assert (cstr_ok h) as Hhost by (by eapply host_cstr; [exact C1|exact Hr|exact Hd|exact Hh]).
  destruct (password_ok pk dn ds) as [Hpw Lpw]. unfold slen in Lh.
  apply meta_str_bind; [done|lia|]. apply meta_str_bind; [done|lia|]. apply meta_str_bind; [done|lia|].
  apply meta_str_bind; [done|lia|]. apply wpa_ret. by split.
Qed.
End Credentials.

(** A device of the documentation that registered before. *)
Definition registered_ctx : sdk_impl_ctx_t :=
  sdk_impl_ctx_zero <| product_key := lit "a1X2bEnP82z" |> <| product_secret := lit "v1X2bEnP82z" |>
    <| device_name := lit "example1" |> <| device_secret := lit "ga7XA6KdlEeiPXQPpRbAjOZXwG8ydgSe" |>
    <| dynamic_register := 1 |>.

Lemma registered_ctx_in : settings_in registered_ctx.
Proof.
  split; [split; vm_compute; discriminate|split; by apply cstr_ok_check|vm_compute; by split|cbn; lia|done|done].
Qed.

#[local] Instance sim_front : FrontApp sim := {|
  HAL_GetFirmwareVersion s := (lit "app-1.0.0-20180101.1000", s);
  on_device_secret _ := mret tt;
  on_connect_succ := mret tt
|}.

Lemma construct_credentials_witness :
  let w := World client_zero 0 registered_ctx [] 0 [] [] (Sim 0 5 [] [] []) in
  exists v' q, construct_parameters (E := sim) None None None front_zero w = Done (inr q, v') w
    /\ p_host q = Some (lit "a1X2bEnP82z.iot-as-mqtt.cn-shanghai.aliyuncs.com")
    /\ p_password q = Some (Spec.password (lit "a1X2bEnP82z") (lit "example1") [])
    /\ p_password q <> Some (Spec.password (lit "a1X2bEnP82z") (lit "example1") (device_secret registered_ctx)).
Proof.
  destruct (construct_credentials (E := sim) None None None
    (lit "a1X2bEnP82z.iot-as-mqtt.cn-shanghai.aliyuncs.com") front_zero
    (World client_zero 0 registered_ctx [] 0 [] [] (Sim 0 5 [] [] [])) registered_ctx_in)
    as (v' & _ & Hc); [done|done|vm_compute; reflexivity|vm_compute; reflexivity|vm_compute; reflexivity|].
  eexists v', _. split; [exact Hc|]. split; [reflexivity|]. split; [reflexivity|]. vm_compute. discriminate.
Defined.
