(* ===== verification/MqttFrontSafe.v ===== *)
(** * MqttFrontSafe: the client of the device through its interface

    Every function of [MqttFront], in any order and through constructions and
    destructions of the client, keeps the heap, the mutexes and the data of the client
    consistent; by rule induction on the states reached. *)

From S2P Require Import Prelude.
From S2P Require Import CString.
From S2P Require Import InfraState.
From S2P Require Import Hal.
From S2P Require Import InfraCompat.
From S2P Require Import Json.
From S2P Require Import Eff.
From S2P Require Import DevSign.
From S2P Require Import MqttPacket.
From S2P Require Import MqttConnect.
From S2P Require Import MqttPublish.
From S2P Require Import MqttTopic.
From S2P Require Import MqttState.
From S2P Require Import MqttSend.
From S2P Require Import MqttRecv.
From S2P Require Import MqttSession.
From S2P Require Import MqttLogic.
From S2P Require Import MqttSendSafe.
From S2P Require Import MqttSubSafe.
From S2P Require Import MqttRecvSafe.
From S2P Require Import MqttSessionSafe.
From S2P Require Import MqttApi.
From S2P Require Import MqttLife.
From S2P Require Import MqttSim.
From S2P Require Import MqttSafety.
From S2P Require Import MqttFront.
From S2P Require Import DevReset.
From S2P Require Import MqttFrontSpec.

(** ** The client, or none *)

(** No client.  What a client that was released left allocated stays among the blocks of
    others. *)
Definition idle {E} (F : list nat) (w : world E) : Prop := exists L, cinv (fun _ => True) (L ++ F) [] w.

(** The client in its block. *)
Definition live {E} (a : nat) (F : list nat) (w : world E) : Prop := exists L, inv (a :: L ++ F) [] w.

Definition client_at {E} (F : list nat) (o : option nat) (w : world E) : Prop :=
  match o with Some a => live a F w | None => idle F w end.

Record front_inv {E} (F : list nat) (v : front_vars) (w : world E) : Prop := {
  fi_domains : domains_ok v;
  fi_client : client_at F (g_mqtt_client v) w
}.

(** The client that a handle stands for. *)
Definition handled (handle : option nat) (v : front_vars) : option nat :=
  match handle with Some a => Some a | None => g_mqtt_client v end.

Lemma inv_idle {E} L F (w : world E) : inv (L ++ F) [] w -> idle F w.
Proof. intros HI. exists L. by eapply cinv_weaken. Qed.

Lemma live_block {E} a L (w : world E) : inv (a :: L) [] w -> a ∈ w_blocks w.
Proof.
  intros HI. rewrite (heap_blocks _ _ (inv_heap _ _ _ _ HI)). apply elem_of_app. right. by left.
Qed.

Lemma stored_cstr size text s : stored size text = Some s -> cstr_ok s /\ (List.length s <= Z.to_nat (size - 1))%nat.
Proof.
  unfold stored, arr_str. set (a := (u8 <$> snprintf_text size text)).
  assert (Forall (fun b => 0 <= b < 256) a) as Ha by (apply Forall_fmap, Forall_true; intros b; exact (u8_range b)).
  assert (List.length a <= Z.to_nat (size - 1))%nat as Hl.
  { unfold a, snprintf_text. rewrite length_fmap, length_take. lia. }
  clearbody a. destruct (arr_strlen (a ++ [0])) as [n|] eqn:En; [|done]. intros [= <-].
  enough (cstr_ok (take n (a ++ [0])) /\ (n <= List.length a)%nat) as [? ?].
  { split; [done|]. rewrite length_take, length_app. lia. }
  clear Hl. revert n En. induction Ha as [|c a Hc Ha IH]; intros n; cbn [app arr_strlen].
  { intros [= <-]. split; [constructor|cbn; lia]. }
  destruct (Z.eqb_spec c 0); [intros [= <-]; split; [constructor|cbn; lia]|].
  destruct (arr_strlen _) as [m|]; [|by intros [=]]. intros [= <-]. destruct (IH m eq_refl).
  split; [constructor; [lia|done]|cbn; lia].
Qed.

Section Front.
Context {E : Type} `{!Hal E} `{!App E} `{!FrontApp E} `{!HalRead E} (fuel : nat) (ok : stop -> Prop).
Context (ok_fuel : ok NoFuel) (ok_read : ok FaultRead).
Context `{!AppSafe ok} `{!AppInit ok} `{!FrontSafe ok}.
Variable crt : option (list Z).
Variable http_handler : option (Z -> list Z -> E -> E).
Implicit Types (F L : list nat) (v : front_vars) (w : world E).

(** ** Construction of the client *)

Lemma wrapper_init_idle p F w :
  cinv (fun _ => True) F [] w -> param_ok p ->
  wp ok (wrapper_mqtt_init (Some p)) (fun r w' =>
    match r with Some a => live a F w' | None => idle F w' end) w.
Proof.
  intros HI Hp. unfold wrapper_mqtt_init. step malloc_spec. intros [a|] w1 [HI1 E1]; last first.
  { step state_event_init. intros _ w2 [HI2 _]. apply wp_ret. by exists []. }
  eapply wp_bind.
  { eapply (modify_spec (C := fun _ => True) ok _ _ (a :: owned (w_client w1) ++ F)); [exact HI1| |done].
    cbn [app]. rewrite (fresh_owned _ fresh_zero). apply Permutation_middle. }
  cbn beta. intros _ w2 [HI2 E2]. set (L := owned (w_client w1)) in *.
  assert (cinv fresh (a :: L ++ F) [] w2) as HI2'.
  { eapply cinv_weaken; [exact HI2|]. intros _. rewrite E2. exact fresh_zero. }
  eapply wp_bind; [by apply iotx_mc_init_spec|].
  cbn beta. intros rc w3 [[-> HI3]|[Hrc HI3]].
  - cbn [Z.ltb STATE_SUCCESS Z.compare]. apply wp_ret. exists L. eapply cinv_weaken; [exact HI3|]. by intros [].
  - rewrite (proj2 (Z.ltb_lt _ _)) by done. step state_event_init. intros _ w4 [HI4 _].
    step free_spec. intros _ w5 [HI5 _]. apply wp_ret. exists L. by eapply cinv_weaken.
Qed.

Lemma release_idle a F w :
  live a F w -> wp ok (wrapper_mqtt_release fuel (Some a)) (fun _ w' => idle F w') w.
Proof.
  intros [L HI].
  eapply wp_mono; [eapply (wrapper_release_spec fuel ok ltac:(by left) a); [exact HI|reflexivity]|].
  cbn beta. intros rc w' [_ HI']. exists L. by eapply cinv_weaken.
Qed.

(** ** Requests *)

Lemma client_or_bind {A} handle (k : option nat -> api E A) Q v w :
  wpa ok (k (handled handle v)) Q v w -> wpa ok (client_or handle ≫= k) Q v w.
Proof. by destruct handle. Qed.

Lemma on_client_spec {A} a (m : prog E A) F v w :
  live a F w -> (forall G w, inv G [] w -> wp ok m (fun _ w' => inv G [] w') w) ->
  wpa ok (on_client a m) (fun _ v' w' => v' = v /\ live a F w') v w.
Proof.
  intros [L HI] Hm. apply wpa_run. unfold wp at 1. rewrite bool_decide_true by (by eapply live_block).
  eapply wp_mono; [by apply Hm|]. cbn beta. intros x w' HI'. split; [done|by exists L].
Qed.

Lemma state_event_any c o F w :
  client_at F o w -> wp ok (iotx_state_event c) (fun _ w' => client_at F o w') w.
Proof.
  destruct o as [a|]; intros [L HI].
  - eapply wp_mono; [apply state_event_safe; [exact HI|apply below_nil]|]. intros _ w' [HI' _]. by exists L.
  - eapply wp_mono; [apply state_event_init; exact HI|]. intros _ w' [HI' _]. by exists L.
Qed.

(** What a request leaves. *)
Definition request_done {A} F (o : option nat) v (_ : A) v' w' : Prop := v' = v /\ client_at F o w'.

Lemma event_bind {A} c o (k : api E A) F v w :
  client_at F o w -> (forall w', client_at F o w' -> wpa ok k (request_done F o v) v w') ->
  wpa ok (run (iotx_state_event c);; k) (request_done F o v) v w.
Proof.
  intros Hc Hk. eapply wpa_run_bind; [by apply (state_event_any c o F)|]. cbn beta. intros _ w' Hc'. by apply Hk.
Qed.

Definition filter_arg (f : option (list Z)) : Prop := forall t, f = Some t -> t = [] \/ filter_in t.

Lemma filter_arg_in f t : filter_arg f -> f = Some t -> bool_decide (f = Some []) = false -> filter_in t.
Proof. intros Hf -> Hb. apply bool_decide_eq_false in Hb. by destruct (Hf t eq_refl) as [->|]. Qed.

Lemma yield_front handle t F v w :
  client_at F (handled handle v) w ->
  wpa ok (IOT_MQTT_Yield fuel handle t) (request_done F (handled handle v) v) v w.
Proof.
  intros Hc. unfold IOT_MQTT_Yield. apply client_or_bind. destruct (handled handle v) as [a|]; [|by apply wpa_ret].
  apply on_client_spec; [done|]. intros G w' HI. by apply wrapper_yield_spec.
Qed.

Lemma check_front handle F v w :
  client_at F (handled handle v) w ->
  wpa ok (IOT_MQTT_CheckStateNormal handle) (request_done F (handled handle v) v) v w.
Proof.
  intros Hc. unfold IOT_MQTT_CheckStateNormal. apply client_or_bind.
  destruct (handled handle v) as [a|]; [|by apply wpa_ret]. apply on_client_spec; [done|]. intros G w' HI.
  step check_state_spec. intros b w2 (HI2 & _). by apply wp_ret.
Qed.

Lemma qos_arg qos : 0 <= qos -> 0 <= (if IOTX_MQTT_QOS3_SUB_LOCAL <? qos then IOTX_MQTT_QOS0 else qos) < 256.
Proof.
  intros Hq. unfold IOTX_MQTT_QOS0. destruct (Z.ltb_spec IOTX_MQTT_QOS3_SUB_LOCAL qos); [lia|].
  unfold IOTX_MQTT_QOS3_SUB_LOCAL in *. lia.
Qed.

Lemma subscribe_front handle f qos fp ctx F v w :
  client_at F (handled handle v) w -> filter_arg f -> 0 <= qos ->
  wpa ok (IOT_MQTT_Subscribe fuel handle f qos fp ctx) (request_done F (handled handle v) v) v w.
Proof.
  intros Hc Hf Hq. unfold IOT_MQTT_Subscribe. apply client_or_bind.
  destruct (bool_decide (f = None)) eqn:Hn; [by apply wpa_ret|].
  destruct (bool_decide (f = Some [])) eqn:He; [by apply wpa_ret|].
  destruct (fp =? 0); [by apply wpa_ret|]. cbn [orb]. apply event_bind; [done|]. intros w1 Hc1.
  destruct (handled handle v) as [a|]; [|by apply wpa_ret]. apply on_client_spec; [done|]. intros G w2 HI.
  destruct f as [t|]; [|done]. pose proof (filter_arg_in _ t Hf eq_refl He). 
  eapply wp_mono; [eapply wrapper_subscribe_spec; [by left|exact HI|apply below_nil|done|by apply qos_arg]|].
  by intros rc w3 [? _].
Qed.

Lemma subscribe_sync_front handle f qos fp ctx t F v w :
  client_at F (handled handle v) w -> filter_arg f -> 0 <= qos ->
  wpa ok (IOT_MQTT_Subscribe_Sync fuel handle f qos fp ctx t) (request_done F (handled handle v) v) v w.
Proof.
  intros Hc Hf Hq. unfold IOT_MQTT_Subscribe_Sync. apply client_or_bind.
  destruct (bool_decide (f = None)) eqn:Hn; [by apply wpa_ret|].
  destruct (bool_decide (f = Some [])) eqn:He; [by apply wpa_ret|].
  destruct (fp =? 0); [by apply wpa_ret|]. cbn [orb]. apply event_bind; [done|]. intros w1 Hc1.
  destruct (handled handle v) as [a|]; [|by apply wpa_ret]. apply on_client_spec; [done|]. intros G w2 HI.
  destruct f as [s|]; [|done]. pose proof (filter_arg_in _ s Hf eq_refl He).
  apply wrapper_subscribe_sync_spec; try done. by apply qos_arg.
Qed.

Lemma unsubscribe_front handle f F v w :
  client_at F (handled handle v) w -> filter_arg f ->
  wpa ok (IOT_MQTT_Unsubscribe fuel handle f) (request_done F (handled handle v) v) v w.
Proof.
  intros Hc Hf. unfold IOT_MQTT_Unsubscribe. apply client_or_bind.
  destruct (handled handle v) as [a|]; [|by apply wpa_ret].
  destruct (bool_decide (f = None)) eqn:Hn; [by apply wpa_ret|].
  destruct (bool_decide (f = Some [])) eqn:He; [by apply wpa_ret|].
  cbn [orb]. apply event_bind; [done|]. intros w1 Hc1. apply on_client_spec; [done|]. intros G w2 HI.
  destruct f as [t|]; [|done]. pose proof (filter_arg_in _ t Hf eq_refl He).
  eapply wp_mono; [eapply wrapper_unsubscribe_spec; [by left|exact HI|apply below_nil|done]|].
  by intros rc w3 [? _].
Qed.

(** A message to publish: none, or a payload of the length passed. *)
Definition publish_arg (name : option (list Z)) (info : option iotx_mqtt_topic_info_t) : Prop :=
  forall n, name = Some n -> n = [] \/
    exists i payload, info = Some i /\ publication_ok n i payload /\ 0 <= ti_qos i <= 2.

Lemma publish_client a name info F v w :
  live a F w -> publish_arg name info -> bool_decide (name = None) || bool_decide (name = Some []) = false ->
  wpa ok (rc ← on_client a (wrapper_mqtt_publish fuel name info);
          run (iotx_state_event STATE_MQTT_PUB_INFO);; mret rc) (request_done F (Some a) v) v w.
Proof.
  intros Hc Hp [Hn He]%orb_false_iff. apply bool_decide_eq_false in Hn, He. destruct name as [n|]; [|done].
  destruct (Hp n eq_refl) as [->|(i & payload & -> & Hi & Hq)]; [done|].
  eapply wpa_bind.
  { apply on_client_spec; [exact Hc|]. intros G w1 HI.
    eapply wp_mono; [eapply wrapper_publish_spec; [by left|exact HI|apply below_nil|exact Hi|exact Hq]|].
    by intros rc w2 [? _]. }
  cbn beta. intros rc v1 w1 [-> Hc1]. apply event_bind; [done|]. intros w2 Hc2. by apply wpa_ret.
Qed.

Lemma publish_front handle name info F v w :
  client_at F (handled handle v) w -> publish_arg name info ->
  wpa ok (IOT_MQTT_Publish fuel handle name info) (request_done F (handled handle v) v) v w.
Proof.
  intros Hc Hp. unfold IOT_MQTT_Publish. apply client_or_bind.
  destruct (handled handle v) as [a|]; [|by apply wpa_ret].
  destruct (_ || _) eqn:Hb; [by apply wpa_ret|]. by apply publish_client.
Qed.

Lemma publish_simple_front handle name qos data len F v w :
  client_at F (handled handle v) w -> publish_arg name (Some (simple_msg qos data len)) ->
  wpa ok (IOT_MQTT_Publish_Simple fuel handle name qos data len) (request_done F (handled handle v) v) v w.
Proof.
  intros Hc Hp. unfold IOT_MQTT_Publish_Simple. apply client_or_bind.
  destruct (handled handle v) as [a|]; [|by apply wpa_ret].
  destruct (_ || _) eqn:Hb; [by apply wpa_ret|]. by apply publish_client.
Qed.

(** ** Reporting *)

Definition same_client v v' : Prop :=
  g_mqtt_client v' = g_mqtt_client v /\ mqtt_domain v' = mqtt_domain v.

Lemma client_ctx o F w : client_at F o w -> sdk_ctx_ok (w_ctx w).
Proof. by destruct o; intros [L HI]; apply HI. Qed.

Lemma client_plat {A} (f : E -> A * E) o F w :
  client_at F o w -> wp ok (plat f) (fun _ w' => client_at F o w') w.
Proof.
  destruct o; intros [L HI]; (eapply wp_mono; [by apply plat_spec|]); intros x w' [HI' _]; by exists L.
Qed.

(** A short topic and message fit a packet. *)
Lemma short_publication qos name payload :
  cstr_ok name -> cstr_ok payload -> (List.length name <= 1000)%nat -> (List.length payload <= 1000)%nat ->
  0 <= u8 qos <= 2 -> publish_arg (Some name) (Some (simple_msg qos (Some payload) (slen payload))).
Proof.
  intros Hn Hm Ln Lm Hq n [= <-]. right. exists (simple_msg qos (Some payload) (slen payload)), payload.
  split; [done|]. split; [|exact Hq].
  split; cbn [simple_msg ti_payload ti_payload_len ti_packet_id ti_qos]; [done|lia|done| |by apply cstr_ok_bytes|lia|].
  - unfold slen. apply u32_small. lia.
  - unfold publish_body, str_bytes, int_bytes, remlen_max. destruct (0 <? u8 qos);
      rewrite !length_app; cbn [List.length]; lia.
Qed.

(** The report's topic and message fit, whatever the version is. *)
Lemma report_publication topic text name msg :
  stored IOTX_URI_MAX_LEN topic = Some name -> stored FIRMWARE_VERSION_MSG_LEN text = Some msg ->
  publish_arg (Some name) (Some (simple_msg 1 (Some msg) (slen msg))).
Proof.
  intros [Hn Ln]%stored_cstr [Hm Lm]%stored_cstr.
  change (Z.to_nat (IOTX_URI_MAX_LEN - 1)) with 134%nat in Ln.
  change (Z.to_nat (FIRMWARE_VERSION_MSG_LEN - 1)) with 63%nat in Lm.
  apply short_publication; [done|done|lia|lia|split; vm_compute; discriminate].
Qed.

Lemma report_version_front handle F v w :
  client_at F (handled handle v) w ->
  wpa ok (iotx_report_firmware_version fuel handle)
    (fun _ v' w' => same_client v v' /\ client_at F (handled handle v) w') v w.
Proof.
  intros Hc. pose proof (client_ctx _ _ _ Hc) as Hx. destruct Hx as [X1 X2 X3 X4 _ _ _].
  unfold IOTX_PRODUCT_KEY_LEN, IOTX_DEVICE_NAME_LEN in *.
  unfold iotx_report_firmware_version. apply wpa_gets_bind. destruct (negb _); [by apply wpa_ret|].
  eapply (ioctl_str_get ok _ (product_key (w_ctx w))); [done|vm_compute Z.to_nat; lia|].
  eapply (ioctl_str_get ok _ (device_name (w_ctx w))); [done|vm_compute Z.to_nat; lia|].
  eapply wpa_run_bind; [by apply (client_plat _ (handled handle v) F)|]. cbn beta. intros version w1 Hc1.
  destruct (bool_decide _); [by apply wpa_ret|].
  do 3 (apply wpa_lift_bind; [done|]; intros ? ?). apply wpa_lift_bind; [done|]. intros name Hn.
  eapply (wpa_bind _ _ _ (fun _ v' w' => same_client v v' /\ w' = w1)); [by apply wpa_ret|].
  intros id v1 w2 [[G1 G2] ->]. apply wpa_lift_bind; [done|]. intros text _.
  apply wpa_lift_bind; [done|]. intros msg Hm.
  assert (handled handle v1 = handled handle v) as Eh by (destruct handle; [done|exact G1]).
  eapply wpa_bind; [apply (publish_simple_front _ _ _ _ _ F)|].
  - by rewrite Eh.
  - by eapply report_publication.
  - intros ret v2 w3 [-> Hc3]. rewrite Eh in Hc3. by destruct (ret <? 0); apply wpa_ret.
Qed.

(** ** The reset of the device *)

Lemma reset_text_bind {A} size fmt args (k : list Z -> api E A) Q v w :
  (forall t, cstr_ok t -> (List.length t <= Z.to_nat (size - 1))%nat -> wpa ok (k t) Q v w) ->
  wpa ok (reset_text size fmt args ≫= k) Q v w.
Proof.
  intros Hk. eapply (wpa_bind _ _ _ (fun t v' w' => v' = v /\ w' = w /\ cstr_ok t /\ (List.length t <= Z.to_nat (size - 1))%nat)).
  - unfold reset_text. apply wpa_lift_bind; [done|]. intros text _. apply wpa_run, wp_lift; [done|].
    intros t Ht. split; [done|]. split; [done|]. exact (stored_cstr _ _ _ Ht).
  - intros t v' w' (-> & -> & Ht & Lt). by apply Hk.
Qed.

Lemma reset_front fp s meta handle F v w :
  client_at F (g_mqtt_client v) w ->
  wpa ok (IOT_DevReset_Report fuel fp s meta handle)
    (fun _ v' w' => same_client v v' /\ client_at F (g_mqtt_client v) w') v w.
Proof.
  intros Hc. unfold IOT_DevReset_Report. destruct meta as [meta|]; [|by apply wpa_ret].
  destruct (handle =? 0); [by apply wpa_ret|]. apply reset_text_bind. intros topic Ht Lt.
  change (Z.to_nat (RESET_TOPIC_LEN - 1)) with 81%nat in Lt.
  eapply (wpa_bind _ _ _ (fun _ v' w' => v' = v /\ client_at F (g_mqtt_client v) w')).
  { destruct (_ =? 0); [|by apply wpa_ret].
    eapply wpa_bind; [apply (subscribe_sync_front None _ _ _ _ _ F); [done| |by unfold IOTX_MQTT_QOS3_SUB_LOCAL]|].
    - intros t [= <-]. right. split; [done|lia].
    - intros res v1 w1 [-> Hc1]. by apply wpa_ret. }
  intros [s1|] v1 w1 [-> Hc1]; [|by apply wpa_ret]. apply reset_text_bind. intros topic2 Ht2 Lt2.
  change (Z.to_nat (RESET_TOPIC_LEN - 1)) with 81%nat in Lt2.
  eapply (wpa_bind _ _ _ (fun _ v' w' => same_client v v' /\ w' = w1)); [by apply wpa_ret|].
  intros id v2 w2 [[G1 G2] ->]. apply reset_text_bind. intros payload Hp Lp.
  change (Z.to_nat (128 - 1)) with 127%nat in Lp. rewrite <-G1 in Hc1.
  eapply wpa_bind; [apply (publish_simple_front None _ _ _ _ F); [exact Hc1|]|].
  - apply short_publication; [done|done|lia|lia|split; vm_compute; discriminate].
  - intros res v3 w3 [-> Hc3]. apply wpa_ret. split; [done|]. by rewrite <-G1.
Qed.

(** ** Construction and destruction *)

Lemma live_spec {A} a (m : prog E A) F w :
  live a F w -> (forall G w, inv G [] w -> wp ok m (fun _ w' => inv G [] w') w) ->
  wp ok m (fun _ w' => live a F w') w.
Proof. intros [L HI] Hm. eapply wp_mono; [by apply Hm|]. intros x w' HI'. by exists L. Qed.

Lemma live_event {A} c a (k : api E A) Q F v w :
  live a F w -> (forall w', live a F w' -> wpa ok k Q v w') -> wpa ok (run (iotx_state_event c);; k) Q v w.
Proof.
  intros Hc Hk. eapply wpa_run_bind; [by apply (state_event_any c (Some a) F)|]. cbn beta. intros _ w' Hc'. by apply Hk.
Qed.

(** The handle returned is the client's. *)
Definition constructed F (r : option nat) v' w' : Prop := r = g_mqtt_client v' /\ front_inv F v' w'.

Lemma construct_idle F v w : g_mqtt_client v = None -> domains_ok v -> idle F w -> constructed F None v w.
Proof. intros Hg Hd Hi. split; [done|]. split; [done|]. by rewrite Hg. Qed.

Lemma construct_client_front p F v w :
  param_ok p -> (exists k, find_sub (default [] (p_client_id p)) (lit ",") = Some k) ->
  g_mqtt_client v = None -> domains_ok v -> idle F w ->
  wpa ok (construct_client fuel p) (constructed F) v w.
Proof.
  intros Hp [k Hk] Hg Hd [L HI]. unfold construct_client.
  eapply wpa_run_bind; [by eapply wrapper_init_idle|]. cbn beta. intros [a|] w1 Hc; last first.
  { assert (idle F w1) as Hi by (destruct Hc as [L' Hi]; exists (L' ++ L); by rewrite <-app_assoc).
    eapply wpa_run_bind; [by apply (state_event_any _ None F)|]. cbn beta. intros _ w2 Hi2.
    apply wpa_ret. by apply construct_idle. }
  assert (live a F w1) as Hc1 by (destruct Hc as [L' Hi]; exists (L' ++ L); by rewrite <-app_assoc). clear Hc.
  eapply live_event; [exact Hc1|]. intros w2 Hc2. eapply live_event; [exact Hc2|]. intros w3 Hc3.
  rewrite Hk. apply wpa_lift_bind; [done|]. intros ? _.
  do 3 (eapply live_event; [eassumption|]; intros ? ?).
  eapply wpa_run_bind; [by apply (client_plat _ (Some a) F)|]. cbn beta. intros _ w7 Hc7.
  eapply wpa_run_bind; [by eapply live_spec; [exact Hc7|]; intros; apply wrapper_connect_spec|]. cbn beta.
  intros ret w8 Hc8. destruct (_ && _).
  - eapply live_event; [exact Hc8|]. intros w9 Hc9.
    eapply wpa_run_bind; [by apply release_idle|]. cbn beta. intros _ w10 Hi. apply wpa_ret. by apply construct_idle.
  - eapply wpa_run_bind; [by apply (client_plat _ (Some a) F)|]. cbn beta. intros _ w9 Hc9.
    eapply live_event; [exact Hc9|]. intros w10 Hc10. unfold iotx_mqtt_report_funcs.
    eapply (wpa_bind _ _ _ (fun _ v' w' => same_client v v' /\ live a F w')).
    { apply wpa_sets_bind. eapply wpa_bind; [by apply (report_version_front (Some a) F)|]. cbn beta.
      intros _ v1 w11 [Hs Hc11]. by apply wpa_ret. }
    intros _ v1 w11 [[G1 G2] Hc11]. apply wpa_sets_bind.
    eapply wpa_run_bind; [by eapply live_spec; [exact Hc11|]; intros; apply connect_succ_safe|]. cbn beta.
    intros _ w12 Hc12. apply wpa_ret. split; [done|]. split; [|done].
    intros d Ed. apply Hd. by rewrite <-G2.
Qed.

Lemma construct_front p F v w :
  front_inv F v w -> params_in p ->
  wpa ok (IOT_MQTT_Construct fuel crt http_handler p)
    (fun r v' w' => constructed F r v' w' /\ (r = None -> g_mqtt_client v = None)) v w.
Proof.
  intros [Hd Hc] Hp. unfold IOT_MQTT_Construct. apply wpa_gets_bind.
  destruct (g_mqtt_client v) as [a|] eqn:Hg.
  { apply wpa_ret. split; [|done]. split; [done|]. split; [done|]. by rewrite Hg. }
  eapply wpa_mono; [|by intros r v' w' H; exact (conj H (fun _ => eq_refl))].
  destruct Hc as [L HI]. eapply wpa_bind; [by eapply construct_parameters_spec|]. cbn beta.
  intros r v1 w1 (HI1 & [s ->] & Hr). destruct r as [code|q].
  - eapply wpa_run_bind; [apply (state_event_any _ None F); by exists L|]. cbn beta. intros _ w2 Hi.
    apply wpa_ret. by apply construct_idle.
  - destruct Hr as [Hq Hk]. apply construct_client_front; try done. by exists L.
Qed.

Lemma destroy_front ph F v w :
  front_inv F v w -> (forall h, ph = Some h -> h = None \/ h = g_mqtt_client v) ->
  wpa ok (IOT_MQTT_Destroy fuel ph) (fun _ v' w' => front_inv F v' w'
    /\ (ph = Some (g_mqtt_client v) -> g_mqtt_client v' = None)) v w.
Proof.
  intros [Hd Hc] Hh. unfold IOT_MQTT_Destroy.
  eapply (wpa_bind _ _ _ (fun o v' w' => v' = v /\ w' = w /\ (o = None \/ o = g_mqtt_client v)
                             /\ (ph = Some (g_mqtt_client v) -> o = g_mqtt_client v))).
  { destruct ph as [h|]; apply wpa_ret; split_and!; auto. by intros [= <-]. }
  intros [a|] v1 w1 (-> & -> & Ho & Hp); [|apply wpa_ret; split; [done|by intros <-%Hp]]. destruct Ho as [|Ho]; [done|]. rewrite <-Ho in Hc.
  eapply (wpa_bind _ _ _ (fun _ v' w' => v' = v /\ idle F w')).
  { destruct Hc as [L HI]. apply wpa_run. unfold wp at 1. rewrite bool_decide_true by (by eapply live_block).
    eapply wp_mono; [apply release_idle; by exists L|]. by intros rc w2 Hi. }
  intros _ v2 w2 [-> Hi]. apply wpa_sets_bind, wpa_ret. split; [by split|done].
Qed.
End Front.

(** ** The interface *)

Inductive front_call :=
  | FrontConstruct (params : option (iotx_mqtt_param_t * option (list Z)))
  | FrontYield (handle : option nat) (timeout_ms : Z)
  | FrontCheck (handle : option nat)
  | FrontSubscribe (handle : option nat) (topic_filter : option (list Z)) (qos topic_handle_func context : Z)
  | FrontSubscribeSync (handle : option nat) (topic_filter : option (list Z))
      (qos topic_handle_func context timeout_ms : Z)
  | FrontUnsubscribe (handle : option nat) (topic_filter : option (list Z))
  | FrontPublish (handle : option nat) (topic_name : option (list Z)) (topic_msg : option iotx_mqtt_topic_info_t)
  | FrontPublishSimple (handle : option nat) (topic_name : option (list Z)) (qos : Z) (data : option (list Z)) (len : Z)
  | FrontReport (handle : option nat)
  | FrontReset (handler_fp : Z) (vars : devrst_vars) (meta : option iotx_dev_meta_info_t) (handle : Z)
  | FrontDestroy (phandler : option (option nat)).

(** The arguments that the interface asks for: a handle that is NULL or the client's, and
    what [call_ok] asks of a request. *)
Definition front_call_ok (v : front_vars) (c : front_call) : Prop :=
  let handle_ok h := h = None \/ h = g_mqtt_client v in
  match c with
  | FrontConstruct p => params_in p
  | FrontYield h _ | FrontCheck h | FrontReport h => handle_ok h
  | FrontSubscribe h f qos _ _ | FrontSubscribeSync h f qos _ _ _ => handle_ok h /\ filter_arg f /\ 0 <= qos
  | FrontUnsubscribe h f => handle_ok h /\ filter_arg f
  | FrontPublish h name info => handle_ok h /\ publish_arg name info
  | FrontPublishSimple h name qos data len => handle_ok h /\ publish_arg name (Some (simple_msg qos data len))
  | FrontReset _ _ _ _ => True
  | FrontDestroy ph => forall h, ph = Some h -> handle_ok h
  end.

Section Reach.
Context {E : Type} `{!Hal E} `{!App E} `{!FrontApp E}.
Variable crt : option (list Z).
Variable http_handler : option (Z -> list Z -> E -> E).
Implicit Types (F : list nat) (v : front_vars) (w : world E).

Definition front_exec (fuel : nat) (c : front_call) : api E unit :=
  match c with
  | FrontConstruct p => IOT_MQTT_Construct fuel crt http_handler p;; mret tt
  | FrontYield h t => IOT_MQTT_Yield fuel h t;; mret tt
  | FrontCheck h => IOT_MQTT_CheckStateNormal h;; mret tt
  | FrontSubscribe h f qos fp ctx => IOT_MQTT_Subscribe fuel h f qos fp ctx;; mret tt
  | FrontSubscribeSync h f qos fp ctx t => IOT_MQTT_Subscribe_Sync fuel h f qos fp ctx t;; mret tt
  | FrontUnsubscribe h f => IOT_MQTT_Unsubscribe fuel h f;; mret tt
  | FrontPublish h name info => IOT_MQTT_Publish fuel h name info;; mret tt
  | FrontPublishSimple h name qos data len => IOT_MQTT_Publish_Simple fuel h name qos data len;; mret tt
  | FrontReport h => iotx_report_firmware_version fuel h;; mret tt
  | FrontReset fp s meta h => IOT_DevReset_Report fuel fp s meta h;; mret tt
  | FrontDestroy ph => IOT_MQTT_Destroy fuel ph;; mret tt
  end.

(** The states between calls, from a start without a client: a call, a setting of
    [IOT_Ioctl], and the domain that a setting stores in the table. *)
Inductive front_reach F : front_vars -> world E -> Prop :=
  | front_start v w : g_mqtt_client v = None -> domains_ok v -> no_client F w -> front_reach F v w
  | front_step v w c fuel v' w' :
      front_reach F v w -> front_call_ok v c -> front_exec fuel c v w = Done (tt, v') w' ->
      front_reach F v' w'
  | front_set v w opt data rc ctx d :
      front_reach F v w -> data_cstr opt data -> IOT_Ioctl opt data (w_ctx w) = Some (rc, ctx, d) ->
      front_reach F v (w <| w_ctx := ctx |>)
  | front_domain v w s :
      front_reach F v w -> cstr_ok s -> (List.length s <= 64)%nat ->
      front_reach F (v <| mqtt_domain := Some s |>) w.

Context `{!HalRead E} `{!AppSafe safe_stop} `{!AppInit safe_stop} `{!FrontSafe safe_stop}.

(** A request leaves the variables and the client. *)
Lemma request_front {A} (m : api E A) handle F v w :
  front_inv F v w -> handle = None \/ handle = g_mqtt_client v ->
  (client_at F (handled handle v) w ->
   wpa safe_stop m (fun _ v' w' => same_client v v' /\ client_at F (handled handle v) w') v w) ->
  wpa safe_stop (m;; mret tt) (fun _ v' w' => front_inv F v' w') v w.
Proof.
  intros [Hd Hc] Hh Hm. assert (handled handle v = g_mqtt_client v) as Eh.
  { destruct Hh as [->|Hh]; [done|]. destruct handle; [exact Hh|done]. }
  rewrite Eh in Hm. eapply wpa_bind; [by apply Hm|]. cbn beta. intros _ v1 w1 [[G1 G2] Hc1]. apply wpa_ret.
  split; [intros d Ed; apply Hd; by rewrite <-G2|by rewrite G1].
Qed.

Lemma request_same {A} (m : api E A) F o v w :
  wpa safe_stop m (request_done F o v) v w ->
  wpa safe_stop m (fun _ v' w' => same_client v v' /\ client_at F o w') v w.
Proof. intros Hm. eapply wpa_mono; [exact Hm|]. intros r v' w' [-> Hc]. by split. Qed.

Lemma front_exec_spec fuel c F v w :
  front_inv F v w -> front_call_ok v c ->
  wpa safe_stop (front_exec fuel c) (fun _ v' w' => front_inv F v' w') v w.
Proof.
  intros HI Hc. assert (safe_stop NoFuel) as Hf by (by right). assert (safe_stop FaultRead) as Hr by (by left).
  destruct c; cbn [front_exec front_call_ok] in *.
  - eapply wpa_bind; [by eapply construct_front|].
    intros r v' w' [[_ HI'] _]. by apply wpa_ret.
  - apply (request_front _ handle F); [done|done|]. intros Ho. apply request_same. by apply yield_front.
  - apply (request_front _ handle F); [done|done|]. intros Ho. apply request_same. by apply check_front.
  - destruct Hc as (Hh & Ha & Hq). apply (request_front _ handle F); [done|done|]. intros Ho. apply request_same.
    by apply subscribe_front.
  - destruct Hc as (Hh & Ha & Hq). apply (request_front _ handle F); [done|done|]. intros Ho. apply request_same.
    by apply subscribe_sync_front.
  - destruct Hc as (Hh & Ha). apply (request_front _ handle F); [done|done|]. intros Ho. apply request_same.
    by apply unsubscribe_front.
  - destruct Hc as (Hh & Ha). apply (request_front _ handle F); [done|done|]. intros Ho. apply request_same.
    by apply publish_front.
  - destruct Hc as (Hh & Ha). apply (request_front _ handle F); [done|done|]. intros Ho. apply request_same.
    by apply publish_simple_front.
  - apply (request_front _ handle F); [done|done|]. intros Ho. by apply report_version_front.
  - apply (request_front _ None F); [done|by left|]. intros Ho. by apply reset_front.
  - eapply wpa_bind; [by eapply destroy_front|].
    intros r v' w' [HI' _]. by apply wpa_ret.
Qed.

Lemma client_settings o F w opt data rc ctx d :
  client_at F o w -> data_cstr opt data -> IOT_Ioctl opt data (w_ctx w) = Some (rc, ctx, d) -> client_at F o (w <| w_ctx := ctx |>).
Proof.
  intros Hc Hs0 He.
  assert (forall C G, cinv C G [] w -> cinv C G [] (w <| w_ctx := ctx |>)) as Hset.
  { intros C G [[Hb Hn Hx] HC Ho Hl Hs]. pose proof (IOT_Ioctl_settings _ _ _ _ _ _ Hs Hs0 He) as Hs'.
    split; [split; [exact Hb|exact Hn|exact Hx]|exact HC|exact Ho|exact Hl|exact Hs']. }
  by destruct o; destruct Hc as [L HI]; exists L; apply Hset.
Qed.

Lemma front_reach_inv F v w : front_reach F v w -> front_inv F v w.
Proof.
  induction 1 as [v w Hg Hd Hn|v w c fuel v' w' _ IH Hc Ex|v w opt data rc ctx d _ IH Hs He|v w s _ IH Hs Ls].
  - split; [done|]. rewrite Hg. exists []. by eapply cinv_weaken.
  - pose proof (front_exec_spec fuel c F v w IH Hc) as Hw. exact (wp_done _ _ _ _ _ _ Hw Ex).
  - destruct IH as [Hd Hc]. split; [done|]. by eapply client_settings.
  - destruct IH as [Hd Hc]. split; [|done]. by intros d [= <-].
Qed.

(** C2. Safety of the application's interface over every sequence of its calls, by rule
    induction on the states reached: constructions, with the registration of the device
    and the signature of its credentials, requests with a handle that is NULL or the
    client's, reports of the version or of a reset, destructions, and settings in between.  Between calls no mutex is
    held, and every allocated block is in the heap once; with a client, these are its
    buffers, nodes and strings, its own block, what earlier clients left and those of
    others, and the limits of its data hold.  No further call stops on a mutex, on a block
    that is not allocated (a client that was released, or never was), on a store outside
    an array or on a NULL pointer. *)
Theorem front_safe F v w :
  front_reach F v w ->
  w_held w = [] /\ order_ok (w_taken w) /\ NoDup (w_blocks w)
  /\ (forall a, g_mqtt_client v = Some a ->
        client_ok (w_client w) /\ exists L, w_blocks w ≡ₚ a :: owned (w_client w) ++ L ++ F)
  /\ (forall fuel c f, front_call_ok v c -> front_exec fuel c v w = Fault f -> f = FaultRead).
Proof.
  intros Hr. pose proof (front_reach_inv F v w Hr) as HI.
  assert (exists C G, cinv C G [] w) as (C & G & [[Hb Hn Hx] HC Ho Hh Hs]).
  { destruct HI as [_ Hc]. by destruct (g_mqtt_client v); destruct Hc as [L Hc]; do 2 eexists. }
  split; [done|]. split; [done|]. split; [done|]. split.
  - intros a Ha. destruct HI as [_ Hc]. rewrite Ha in Hc. destruct Hc as [L Hc]. split; [apply Hc|].
    exists L. rewrite (heap_blocks _ _ (inv_heap _ _ _ _ Hc)). symmetry. apply Permutation_middle.
  - intros fuel c f Hc Ef. pose proof (front_exec_spec fuel c F v w HI Hc) as Hw.
    unfold wpa, wp in Hw. rewrite Ef in Hw. by destruct Hw as [[= ->]|].
Qed.
End Reach.

(** ** A device of the simulated platform *)

#[local] Instance sim_front_app : FrontApp sim := {|
  HAL_GetFirmwareVersion s := (lit "app-1.0.0-20180101.1000", s);
  on_device_secret s := sim_note (LogIdentity s);
  on_connect_succ := sim_note (LogState 0)
|}.

#[local] Instance sim_front_safe ok : FrontSafe (E := sim) ok.
Proof. split; intros; (eapply wp_mono; [by apply plat_spec|]); by intros _ w' [HI' _]. Qed.

Definition device_ctx : sdk_impl_ctx_t :=
  sdk_impl_ctx_zero <| product_key := lit "a1X2bEnP82z" |>
    <| device_name := lit "example1" |> <| device_secret := lit "ga7XA6KdlEeiPXQPpRbAjOZXwG8ydgSe" |>.

Definition device_start : world sim := World client_zero 0 device_ctx [] 0 [] [] (Sim 0 5 sim_input [] []).

(** The variables and the world after a call. *)
Definition front_after (c : front_call) (s : front_vars * world sim) : front_vars * world sim :=
  match front_exec None None 1000 c s.1 s.2 with
  | Done (_, v) w => (v, w)
  | _ => s
  end.

Definition device_built : front_vars * world sim := front_after (FrontConstruct None) (front_zero, device_start).

Lemma device_settings : settings_ok device_ctx.
Proof. split; [split; vm_compute; discriminate|by apply cstr_ok_check..]. Qed.

Lemma device_no_client : no_client [] device_start.
Proof.
  split; [|done|constructor|done|exact device_settings]. split; cbn; [done|constructor|constructor].
Qed.

Lemma device_built_reach : front_reach None None [] device_built.1 device_built.2.
Proof.
  apply (front_step None None [] front_zero device_start (FrontConstruct None) 1000).
  - apply front_start; [done|done|exact device_no_client].
  - done.
  - vm_compute. reflexivity.
Qed.

Lemma front_safe_witness :
  g_mqtt_client device_built.1 = Some 0%nat /\ client_state (w_client device_built.2) = IOTX_MC_STATE_CONNECTED
  /\ List.length (list_pub_wait_ack (w_client device_built.2)) = 1%nat
  /\ w_held device_built.2 = [] /\ client_ok (w_client device_built.2).
Proof.
  destruct (front_safe None None [] device_built.1 device_built.2 device_built_reach) as (Hh & _ & _ & Hc & _).
  split; [vm_compute; reflexivity|]. split; [vm_compute; reflexivity|]. split; [vm_compute; reflexivity|].
  split; [exact Hh|]. apply (Hc 0%nat). vm_compute. reflexivity.
Defined.

(** A client identifier of the application without a comma: the text behind the comma is
    taken from NULL. *)
Example client_id_no_comma :
  front_exec None None 1000 (FrontConstruct (Some (sim_param, None))) front_zero device_start = Fault FaultNull.
Proof. vm_compute. reflexivity. Qed.

(** The message of a version of 32 characters, which the platform may return, is cut. *)
Example version_cut :
  (text ← sprintf (json_lit "{'id':'%d','params':{'version':'%s'}}") [PD 0; PS (lit "12345678901234567890123456789012")];
   stored FIRMWARE_VERSION_MSG_LEN text)
  = Some (json_lit "{'id':'0','params':{'version':'12345678901234567890123456789012").
Proof. vm_compute. reflexivity. Qed.

(** A second construction returns the client; after its destruction the next one connects a
    new client. *)
Example device_again :
  let twice := front_after (FrontConstruct None) device_built in
  let gone := front_after (FrontDestroy None) device_built in
  g_mqtt_client twice.1 = Some 0%nat /\ g_mqtt_client gone.1 = None /\ w_blocks gone.2 = [].
Proof. vm_compute. by split_and!. Qed.

(** The first report of a reset subscribes to the reply, too. *)
Example reset_reports :
  let meta := MetaInfo (lit "a1X2bEnP82z") [] (lit "example1") [] in
  match IOT_DevReset_Report 1000 7 (DevrstVars 0 0) (Some meta) 5 device_built.1 device_built.2 with
  | Done ((rc, s), _) w =>
      rc = 0 /\ s = DevrstVars 1 5 /\ List.length (list_sub_handle (w_client w)) = 1%nat
  | _ => False
  end.
Proof. vm_compute. by split_and!. Qed.
