(* ===== verification/Cm.v ===== *)
(** * Cm: the connectivity manager of the device model

    [eng/dev_model/iotx_cm.c], [iotx_cm_mqtt.c] and [dm_client_adapter.c], for a device
    ([DEVICE_MODEL_GATEWAY] is not configured), over the interface of [MqttFront]; and the
    event monitor of [eng/infra/infra_compat.c].

    A connection is an object in a block of the heap; the table of descriptors and
    [_mqtt_conncection] are pointers to it, which are followed only while its block is
    allocated.  Every connection has the functions of [_set_common_handlers], so they are
    not fields.  A connection over CoAP, which [dm_client_open] asks for only when MQTT is
    not configured, is not a protocol of the model.

    The variables of the manager are beside those of the client ([cm]).  The callbacks of
    the manager run on the world of the client: they may use the client, and do not open
    or close connections. *)

From stdpp Require Import gmap.
From S2P Require Import Prelude.
From S2P Require Import CString.
From S2P Require Import InfraState.
From S2P Require Import Hal.
From S2P Require Import InfraTimer.
From S2P Require Import InfraCompat.
From S2P Require Import MqttState.
From S2P Require Import MqttSend.
From S2P Require Import MqttRecv.
From S2P Require Import MqttSession.
From S2P Require Import MqttFront.

Definition CM_MAX_FD_NUM : Z := 3.
Definition IOTX_CONN_CLOUD : Z := 8192.
Definition IOTX_CONN_CLOUD_FAIL : Z := 8193.
Definition IOTX_CONN_CLOUD_SUC : Z := 8194.
Definition IOTX_DM_CLIENT_SUB_TIMEOUT_MS : Z := 5000.
Definition IOTX_DM_CLIENT_REQUEST_TIMEOUT_MS : Z := 5000.
Definition IOTX_DM_CLIENT_KEEPALIVE_INTERVAL_MS : Z := 30000.
Definition CONFIG_MQTT_TX_MAXLEN : Z := 2048.
Definition CONFIG_MQTT_RX_MAXLEN : Z := 2048.


(** On a platform with pointers of four bytes. *)
Definition sizeof_connection : Z := 52.
Definition sizeof_mqtt_param : Z := 56.

(** ** The data *)

Inductive iotx_cm_ack_types_t :=
  | IOTX_CM_MESSAGE_NO_ACK
  | IOTX_CM_MESSAGE_NEED_ACK
  | IOTX_CM_MESSAGE_SUB_LOCAL
  | IOTX_CM_MESSAGE_ACK_MAX.

Inductive iotx_cm_sync_mode_types_t := IOTX_CM_ASYNC | IOTX_CM_SYNC | IOTX_CM_SYNC_MAX.

(** Without [IOTX_CM_PROTOCOL_TYPE_COAP]. *)
Inductive iotx_cm_protocol_types_t :=
  | IOTX_CM_PROTOCOL_TYPE_MQTT
  | IOTX_CM_PROTOCOL_TYPE_HTTP
  | IOTX_CM_PROTOCOL_TYPE_HTTP2
  | IOTX_CM_PROTOCOL_TYPE_MAX.

Inductive iotx_cm_event_types_t :=
  | IOTX_CM_EVENT_CLOUD_CONNECTED
  | IOTX_CM_EVENT_CLOUD_CONNECT_FAILED
  | IOTX_CM_EVENT_CLOUD_DISCONNECT
  | IOTX_CM_EVENT_SUBCRIBE_SUCCESS
  | IOTX_CM_EVENT_SUBCRIBE_FAILED
  | IOTX_CM_EVENT_UNSUB_SUCCESS
  | IOTX_CM_EVENT_UNSUB_FAILED
  | IOTX_CM_EVENT_PUBLISH_SUCCESS
  | IOTX_CM_EVENT_PUBLISH_FAILED.

Record iotx_cm_event_msg_t := CmEvent { cm_event_type : iotx_cm_event_types_t; cm_event_msg : event_arg }.

(** The last argument of a callback: the data of the application, or the connection. *)
Inductive cm_context := ContextData (cb_data : Z) | ContextConnection (a : nat).

(** A function pointer is a number, 0 for NULL. *)
Record iotx_cm_init_param_t := CmInitParam {
  ci_request_timeout_ms : Z;
  ci_keepalive_interval_ms : Z;
  ci_write_buf_size : Z;
  ci_read_buf_size : Z;
  ci_protocol_type : iotx_cm_protocol_types_t;
  ci_handle_event : Z;
  ci_context : Z
}.

Record iotx_cm_ext_params_t := CmExtParams {
  ack_type : iotx_cm_ack_types_t;
  sync_mode : iotx_cm_sync_mode_types_t;
  sync_timeout : Z
}.

(** [open_params] is a block of its own: its address and its content.  Its pointer
    [customize_info] is NULL or leads to the array of the settings. *)
Record iotx_cm_connection_t := CmConnection {
  fd : Z;
  open_params : option nat;
  mqtt_param : iotx_mqtt_param_t;
  customized : bool;
  context : option nat;
  event_handler : Z;
  cb_data : Z
}.

#[global] Instance eta_cm_connection : Eta iotx_cm_connection_t := fun c =>
  CmConnection (fd c) (open_params c) (mqtt_param c) (customized c) (context c) (event_handler c) (cb_data c).

#[local] Instance eta_mqtt_param : Eta iotx_mqtt_param_t := fun p =>
  {| p_port := p_port p; p_host := p_host p; p_client_id := p_client_id p; p_username := p_username p;
     p_password := p_password p; p_pub_key := p_pub_key p; p_clean_session := p_clean_session p;
     p_request_timeout_ms := p_request_timeout_ms p; p_keepalive_interval_ms := p_keepalive_interval_ms p;
     p_write_buf_size := p_write_buf_size p; p_read_buf_size := p_read_buf_size p;
     p_handle_event := p_handle_event p |}.

(** The static variables: [fd_lock], not created, or created and perhaps held; the
    objects by their addresses; the monitor of [iotx_event_regist_cb]. *)
Record cm_vars := CmVars {
  fd_lock : option bool;
  _cm_fd : list (option nat);
  inited_conn_num : Z;
  _mqtt_conncection : option nat;
  connections : gmap nat iotx_cm_connection_t;
  g_event_monitor : bool;
  dm_client_fd : Z
}.

#[global] Instance eta_cm_vars : Eta cm_vars := fun s =>
  CmVars (fd_lock s) (_cm_fd s) (inited_conn_num s) (_mqtt_conncection s) (connections s)
    (g_event_monitor s) (dm_client_fd s).

Definition cm_zero : cm_vars := CmVars None [None; None; None] 0 None ∅ false 0.

Definition cm (E A : Type) : Type := cm_vars -> api E (A * cm_vars).

#[global] Instance cm_ret E : MRet (cm E) := fun A a s => mret (a, s).
#[global] Instance cm_bind E : MBind (cm E) := fun A B f m s => '(a, s) ← m s; f a s.

Definition cgets {E A} (f : cm_vars -> A) : cm E A := fun s => mret (f s, s).
Definition csets {E} (f : cm_vars -> cm_vars) : cm E unit := fun s => mret (tt, f s).
Definition on_api {E A} (m : api E A) : cm E A := fun s => a ← m; mret (a, s).
Definition on_prog {E A} (m : prog E A) : cm E A := on_api (run m).

(** The handlers of [iotx_cm_open] and [iotx_cm_sub], and the monitor. *)
Class CmApp (E : Type) := {
  on_cm_event : Z -> Z -> iotx_cm_event_msg_t -> cm_context -> prog E unit;
  on_cm_data : Z -> Z -> list Z -> option (list Z) -> Z -> prog E unit;
  on_monitor : Z -> prog E unit
}.

Section Cm.
Context {E : Type} `{!Hal E} `{!App E} `{!FrontApp E} `{!CmApp E} (fuel : nat).
Variable iotx_ca_crt : option (list Z).
Variable http_state_handler : option (Z -> list Z -> E -> E).

(** The number of [iotx_cloud_conn_mqtt_event_handle] among the handlers of the client. *)
Variable event_handle_fp : Z.

(** ** Memory *)

Definition cm_malloc (size : Z) : cm E (option nat) := on_prog (mqtt_malloc size).
Definition cm_free (a : nat) : cm E unit := on_prog (mqtt_free a).

(** An access to a block. *)
Definition touch (a : nat) : cm E unit :=
  on_prog (fun w => if bool_decide (a ∈ w_blocks w) then Done tt w else Fault FaultHeap).

Definition connection_at (a : nat) : cm E iotx_cm_connection_t :=
  touch a;;
  c ← cgets (fun s => connections s !! a);
  on_prog (lift FaultHeap c).

Definition set_connection (a : nat) (f : iotx_cm_connection_t -> iotx_cm_connection_t) : cm E unit :=
  c ← connection_at a;
  csets (fun s => s <| connections ::= <[a := f c]> |>).

(** [HAL_MutexLock(fd_lock)], and so on. *)
Definition lock_fd : cm E unit :=
  l ← cgets fd_lock;
  match l with
  | Some false => csets (fun s => s <| fd_lock := Some true |>)
  | _ => on_prog (fun _ => Fault FaultLock)
  end.

Definition unlock_fd : cm E unit :=
  l ← cgets fd_lock;
  match l with
  | Some true => csets (fun s => s <| fd_lock := Some false |>)
  | _ => on_prog (fun _ => Fault FaultLock)
  end.

Definition create_fd_lock : cm E bool :=
  l ← cgets fd_lock;
  match l with
  | Some _ => mret true
  | None =>
      ok ← on_prog (plat HAL_MutexCreate);
      if ok : bool then csets (fun s => s <| fd_lock := Some false |>);; mret true else mret false
  end.

(** ** Events *)

Definition iotx_event_regist_cb (monitor : bool) : cm E Z :=
  csets (fun s => s <| g_event_monitor := monitor |>);; mret 0.

Definition iotx_event_post (event : Z) : cm E Z :=
  m ← cgets g_event_monitor;
  if m : bool then on_prog (on_monitor event);; mret 0 else mret (-1).

Definition call_event_handler (c : iotx_cm_connection_t) (event : iotx_cm_event_msg_t) (ctx : cm_context)
    : cm E unit :=
  if event_handler c =? 0 then mret tt else on_prog (on_cm_event (event_handler c) (fd c) event ctx).

(** [iotx_cloud_conn_mqtt_event_handle], with the pointer [pcontext] of the subscription.
    The four events of a failed unsubscription or publication, which it passes on as
    [IOTX_CM_EVENT_UNSUB_FAILED] and [IOTX_CM_EVENT_PUBLISH_FAILED], are never sent by the
    client: they are not in [iotx_mqtt_event_type_t]. *)
Definition cm_event_of (t : iotx_mqtt_event_type_t) : option iotx_cm_event_types_t :=
  match t with
  | IOTX_MQTT_EVENT_DISCONNECT => Some IOTX_CM_EVENT_CLOUD_DISCONNECT
  | IOTX_MQTT_EVENT_RECONNECT => Some IOTX_CM_EVENT_CLOUD_CONNECTED
  | IOTX_MQTT_EVENT_SUBCRIBE_SUCCESS => Some IOTX_CM_EVENT_SUBCRIBE_SUCCESS
  | IOTX_MQTT_EVENT_SUBCRIBE_NACK | IOTX_MQTT_EVENT_SUBCRIBE_TIMEOUT => Some IOTX_CM_EVENT_SUBCRIBE_FAILED
  | IOTX_MQTT_EVENT_UNSUBCRIBE_SUCCESS => Some IOTX_CM_EVENT_UNSUB_SUCCESS
  | IOTX_MQTT_EVENT_PUBLISH_SUCCESS => Some IOTX_CM_EVENT_PUBLISH_SUCCESS
  | _ => None
  end.

Definition event_arg_of (t : iotx_mqtt_event_type_t) (arg : event_arg) : event_arg :=
  match t with
  | IOTX_MQTT_EVENT_DISCONNECT | IOTX_MQTT_EVENT_RECONNECT => MsgNull
  | _ => arg
  end.

(** The copy of the topic, with its NUL. *)
Definition receive_publish (c : iotx_cm_connection_t) (topic_handle_func : Z) (info : iotx_mqtt_topic_info_t)
    : cm E unit :=
  if topic_handle_func =? 0 then on_prog (iotx_state_event STATE_DEV_MODEL_RECV_UNEXP_MQTT_PUB)
  else
    topic ← cm_malloc (ti_topic_len info + 1);
    match topic with
    | None => on_prog (iotx_state_event STATE_SYS_DEPEND_MALLOC)
    | Some a =>
        ptopic ← on_prog (lift FaultNull (ti_ptopic info));
        text ← on_prog (lift FaultRead (if Z.of_nat (List.length ptopic) <? ti_topic_len info then None
                                        else Some (take (Z.to_nat (ti_topic_len info)) ptopic)));
        on_prog (on_cm_data topic_handle_func (fd c) (text ++ [0]) (ti_payload info) (ti_payload_len info));;
        cm_free a
    end.

Definition iotx_cloud_conn_mqtt_event_handle (pcontext : Z) (m : iotx_mqtt_event_msg_t) : cm E unit :=
  conn ← cgets _mqtt_conncection;
  match conn with
  | None => mret tt
  | Some a =>
      match event_type m, msg m with
      | IOTX_MQTT_EVENT_PUBLISH_RECEIVED, MsgTopic info => c ← connection_at a; receive_publish c pcontext info
      | IOTX_MQTT_EVENT_PUBLISH_RECEIVED, _ => on_prog (fun _ => Fault FaultRead)
      | IOTX_MQTT_EVENT_BUFFER_OVERFLOW, _ => on_prog (iotx_state_event STATE_DEV_MODEL_INTERNAL_ERROR)
      | t, arg =>
          match cm_event_of t with
          | Some e => c ← connection_at a; call_event_handler c (CmEvent e (event_arg_of t arg)) (ContextData (cb_data c))
          | None => mret tt
          end
      end
  end.

(** ** The MQTT connection *)

(** [mqtt_param] as [iotx_cm_open_mqtt] fills it. *)
Definition cm_mqtt_param (params : iotx_cm_init_param_t) : iotx_mqtt_param_t :=
  {| p_port := 0; p_host := None; p_client_id := None; p_username := None; p_password := None; p_pub_key := None;
     p_clean_session := 0; p_request_timeout_ms := ci_request_timeout_ms params;
     p_keepalive_interval_ms := ci_keepalive_interval_ms params;
     p_write_buf_size := ci_write_buf_size params; p_read_buf_size := ci_read_buf_size params;
     p_handle_event := {| h_fp := event_handle_fp; pcontext := 0 |} |}.

Definition iotx_cm_open_mqtt (params : iotx_cm_init_param_t) : cm E (option nat) :=
  conn ← cgets _mqtt_conncection;
  match conn with
  | Some a => on_prog (iotx_state_event STATE_DEV_MODEL_INTERNAL_MQTT_DUP_INIT);; mret (Some a)
  | None =>
      conn ← cm_malloc sizeof_connection;
      match conn with
      | None => on_prog (iotx_state_event STATE_SYS_DEPEND_MALLOC);; mret None
      | Some a =>
          csets (fun s => s <| _mqtt_conncection := Some a |>);;
          param ← cm_malloc sizeof_mqtt_param;
          match param with
          | None =>
              on_prog (iotx_state_event STATE_SYS_DEPEND_MALLOC);;
              cm_free a;;
              csets (fun s => s <| _mqtt_conncection := None |>);;
              mret None
          | Some q =>
              csets (fun s => s <| connections ::=
                <[a := CmConnection 0 (Some q) (cm_mqtt_param params) false None
                         (ci_handle_event params) (ci_context params)]> |>);;
              mret (Some a)
          end
      end
  end.

(** The turns of the loop, with a connection at [a]. *)
Fixpoint connect_loop (n : nat) (a : nat) (timer : iotx_time_t) : cm E Z :=
  match n with
  | O => on_prog (fun _ => OutOfFuel)
  | S n =>
      c ← connection_at a;
      q ← on_prog (lift FaultNull (open_params c));
      touch q;;
      info ← on_prog (fun w => Done (mqtt_customzie_info (w_ctx w)) w);
      pclient ← on_api (IOT_MQTT_Construct fuel iotx_ca_crt http_state_handler
                          (Some (mqtt_param c, if customized c then Some info else None)));
      match pclient with
      | Some p =>
          set_connection a (fun c => c <| context := Some p |>);;
          c ← connection_at a;
          call_event_handler c (CmEvent IOTX_CM_EVENT_CLOUD_CONNECTED MsgNull) (ContextConnection a);;
          mret STATE_SUCCESS
      | None =>
          on_prog (plat (fun e => (tt, HAL_SleepMs 500 e)));;
          expired ← on_prog (plat (utils_time_is_expired (Some timer)));
          if expired =? 0 then connect_loop n a timer
          else
            c ← connection_at a;
            call_event_handler c (CmEvent IOTX_CM_EVENT_CLOUD_CONNECT_FAILED MsgNull) (ContextConnection a);;
            mret STATE_DEV_MODEL_MQTT_CONNECT_FAILED
      end
  end.

(** A setting as a string. *)
Definition setting (opt : iotx_ioctl_option_t) (len : Z) : cm E (list Z) :=
  text ← on_prog (ioctl_into opt (zeros (Z.to_nat (len + 1))));
  on_prog (lift FaultRead (arr_str text)).

Definition _mqtt_connect (timeout : Z) : cm E Z :=
  conn ← cgets _mqtt_conncection;
  match conn with
  | None => mret STATE_DEV_MODEL_INTERNAL_MQTT_NOT_INIT_YET
  | Some a =>
      product_key ← setting IOTX_IOCTL_GET_PRODUCT_KEY IOTX_PRODUCT_KEY_LEN;
      device_name ← setting IOTX_IOCTL_GET_DEVICE_NAME IOTX_DEVICE_NAME_LEN;
      setting IOTX_IOCTL_GET_DEVICE_SECRET IOTX_DEVICE_SECRET_LEN;;
      if bool_decide (product_key = []) then mret STATE_USER_INPUT_PK
      else if bool_decide (device_name = []) then mret STATE_USER_INPUT_DN
      else
        timer ← on_prog (plat (utils_time_countdown_ms timeout));
        info ← on_prog (fun w => Done (mqtt_customzie_info (w_ctx w)) w);
        (if bool_decide (info = []) then mret tt else set_connection a (fun c => c <| customized := true |>));;
        port ← on_prog (fun w => Done (mqtt_port_num (w_ctx w)) w);
        (if port =? 0 then mret tt
         else set_connection a (fun c => c <| mqtt_param ::= fun p => p <| p_port := port |> |>));;
        connect_loop fuel a timer
  end.

Definition _get_mqtt_qos (ack : iotx_cm_ack_types_t) : Z :=
  match ack with
  | IOTX_CM_MESSAGE_NO_ACK => IOTX_MQTT_QOS0
  | IOTX_CM_MESSAGE_NEED_ACK => IOTX_MQTT_QOS1
  | IOTX_CM_MESSAGE_SUB_LOCAL => IOTX_MQTT_QOS3_SUB_LOCAL
  | IOTX_CM_MESSAGE_ACK_MAX => IOTX_MQTT_QOS0
  end.

(** The functions of a connection, which start with its [context]. *)
Definition with_context (k : option nat -> api E Z) : cm E Z :=
  conn ← cgets _mqtt_conncection;
  match conn with
  | None => mret STATE_DEV_MODEL_INTERNAL_MQTT_NOT_INIT_YET
  | Some a => c ← connection_at a; on_api (k (context c))
  end.

Definition _mqtt_publish (ext : option iotx_cm_ext_params_t) (topic payload : option (list Z)) (payload_len : Z)
    : cm E Z :=
  let qos := match ext with Some e => _get_mqtt_qos (ack_type e) | None => 0 end in
  with_context (fun handle => IOT_MQTT_Publish_Simple fuel handle topic qos payload (i32 payload_len)).

Definition _mqtt_yield (timeout : Z) : cm E Z :=
  with_context (fun handle => IOT_MQTT_Yield fuel handle (i32 timeout)).

Definition _mqtt_sub (ext : option iotx_cm_ext_params_t) (topic : option (list Z)) (topic_handle_func : Z) : cm E Z :=
  let sync := match ext with
              | Some e => match sync_mode e with IOTX_CM_ASYNC => None | _ => Some (sync_timeout e) end
              | None => None
              end in
  let qos := match ext with Some e => _get_mqtt_qos (ack_type e) | None => IOTX_MQTT_QOS0 end in
  with_context (fun handle =>
    match sync with
    | Some timeout => IOT_MQTT_Subscribe_Sync fuel handle topic qos event_handle_fp topic_handle_func (i32 timeout)
    | None => IOT_MQTT_Subscribe fuel handle topic qos event_handle_fp topic_handle_func
    end).

Definition _mqtt_unsub (topic : option (list Z)) : cm E Z :=
  with_context (fun handle => IOT_MQTT_Unsubscribe fuel handle topic).

Definition _mqtt_close : cm E Z :=
  conn ← cgets _mqtt_conncection;
  match conn with
  | None => mret STATE_DEV_MODEL_INTERNAL_MQTT_NOT_INIT_YET
  | Some a =>
      c ← connection_at a;
      (match open_params c with Some q => cm_free q | None => mret tt end);;
      set_connection a (fun c => c <| open_params := None |>);;
      on_api (IOT_MQTT_Destroy fuel (Some (context c)));;
      set_connection a (fun c => c <| context := None |>);;
      cm_free a;;
      csets (fun s => s <| _mqtt_conncection := None |>);;
      mret STATE_SUCCESS
  end.

(** ** The table of descriptors *)

Definition slot (fd : Z) (s : cm_vars) : option nat := default None (_cm_fd s !! Z.to_nat fd).

Definition _fd_is_valid (fd : Z) : cm E Z :=
  l ← cgets fd_lock;
  match l with
  | None => mret NULL_VALUE_ERROR
  | Some _ =>
      lock_fd;;
      s ← cgets (slot fd);
      unlock_fd;;
      mret (if (0 <=? fd) && (fd <? CM_MAX_FD_NUM) && bool_decide (s <> None) then 0 else -1)
  end.

Definition _recycle_fd (fd : Z) : cm E Z :=
  ok ← create_fd_lock;
  if negb ok then mret (-1)
  else if (fd <? 0) || (CM_MAX_FD_NUM - 1 <? fd) then mret (-1)
  else
    lock_fd;;
    csets (fun s => s <| _cm_fd ::= <[Z.to_nat fd := None]> |>);;
    unlock_fd;;
    mret 0.

(** The loop over the table: the first slot that is NULL. *)
Fixpoint free_slot (table : list (option nat)) (i : nat) : option nat :=
  match table with
  | None :: _ => Some i
  | Some _ :: table => free_slot table (S i)
  | [] => None
  end.

Definition _get_fd (handle : nat) : cm E Z :=
  ok ← create_fd_lock;
  if negb ok then mret STATE_SYS_DEPEND_MUTEX_CREATE
  else
    lock_fd;;
    i ← cgets (fun s => free_slot (_cm_fd s) 0);
    match i with
    | Some i =>
        csets (fun s => s <| _cm_fd ::= <[i := Some handle]> |>);;
        unlock_fd;;
        mret (Z.of_nat i)
    | None => unlock_fd;; mret STATE_DEV_MODEL_CM_FD_NOT_FOUND
    end.

(** A function of [_cm_fd[fd]], read with the mutex held. *)
Definition function_of (fd : Z) : cm E unit :=
  lock_fd;;
  s ← cgets (slot fd);
  a ← on_prog (lift FaultNull s);
  connection_at a;;
  unlock_fd.

(** The test of [fd] that the functions start with, and the function of the connection. *)
Definition with_fd (fd : Z) (k : cm E Z) : cm E Z :=
  v ← _fd_is_valid fd;
  if v <? 0 then mret STATE_DEV_MODEL_CM_FD_ERROR
  else function_of fd;; k.

Definition iotx_cm_open (params : iotx_cm_init_param_t) : cm E Z :=
  connection ← (match ci_protocol_type params with
                | IOTX_CM_PROTOCOL_TYPE_MQTT => iotx_cm_open_mqtt params
                | _ => mret None
                end);
  match connection with
  | None => mret STATE_DEV_MODEL_CM_OPEN_FAILED
  | Some a =>
      new_fd ← _get_fd a;
      if new_fd <? 0 then connection_at a;; _mqtt_close;; mret new_fd
      else set_connection a (fun c => c <| fd := new_fd |>);; mret new_fd
  end.

Definition iotx_cm_connect (fd timeout : Z) : cm E Z :=
  with_fd fd
    (iotx_event_post IOTX_CONN_CLOUD;;
     ret ← _mqtt_connect timeout;
     (if ret =? 0 then
        csets (fun s => s <| inited_conn_num ::= fun n => n + 1 |>);;
        iotx_event_post IOTX_CONN_CLOUD_SUC
      else iotx_event_post IOTX_CONN_CLOUD_FAIL);;
     mret ret).

(** The loop over all descriptors. *)
Fixpoint yield_loop (fds : list Z) (timeout : Z) : cm E unit :=
  match fds with
  | [] => mret tt
  | i :: fds =>
      lock_fd;;
      s ← cgets (slot i);
      (match s with Some a => connection_at a;; mret tt | None => mret tt end);;
      unlock_fd;;
      (match s with Some _ => _mqtt_yield timeout;; mret tt | None => mret tt end);;
      yield_loop fds timeout
  end.

Definition iotx_cm_yield (fd timeout : Z) : cm E Z :=
  l ← cgets fd_lock;
  match l with
  | None => mret STATE_DEV_MODEL_INTERNAL_ERROR
  | Some _ =>
      if fd =? -1 then yield_loop [0; 1; 2] timeout;; mret STATE_SUCCESS
      else with_fd fd (_mqtt_yield timeout)
  end.

Definition iotx_cm_sub (fd : Z) (ext : option iotx_cm_ext_params_t) (topic : option (list Z)) (topic_handle_func : Z)
    : cm E Z := with_fd fd (_mqtt_sub ext topic topic_handle_func).

Definition iotx_cm_unsub (fd : Z) (topic : option (list Z)) : cm E Z := with_fd fd (_mqtt_unsub topic).

Definition iotx_cm_pub (fd : Z) (ext : option iotx_cm_ext_params_t) (topic payload : option (list Z)) (payload_len : Z)
    : cm E Z := with_fd fd (_mqtt_publish ext topic payload payload_len).

Definition iotx_cm_close (fd : Z) : cm E Z :=
  v ← _fd_is_valid fd;
  if v <? 0 then mret STATE_DEV_MODEL_CM_FD_ERROR
  else
    csets (fun s => s <| inited_conn_num ::= fun n => if 0 <? n then n - 1 else n |>);;
    function_of fd;;
    ret ← _mqtt_close;
    if negb (ret =? 0) then mret (-1)
    else
      ret ← _recycle_fd fd;
      if negb (ret =? 0) then mret (-1)
      else
        n ← cgets inited_conn_num;
        l ← cgets fd_lock;
        (match l with
         | Some held =>
             if n =? 0 then
               if held : bool then on_prog (fun _ => Fault FaultLock)
               else csets (fun s => s <| fd_lock := None |>)
             else mret tt
         | None => mret tt
         end);;
        mret 0.

(** ** The client of the device model *)

(** [g_dm_client_ctx] is its [fd].  The number of [dm_client_event_handle]. *)
Variable dm_client_event_handle : Z.

Definition dm_client_open : cm E Z :=
  csets (fun s => s <| dm_client_fd := 0 |>);;
  res ← iotx_cm_open (CmInitParam IOTX_DM_CLIENT_REQUEST_TIMEOUT_MS IOTX_DM_CLIENT_KEEPALIVE_INTERVAL_MS
                        CONFIG_MQTT_TX_MAXLEN CONFIG_MQTT_RX_MAXLEN IOTX_CM_PROTOCOL_TYPE_MQTT
                        dm_client_event_handle 0);
  if res <? SUCCESS_RETURN then mret res
  else csets (fun s => s <| dm_client_fd := res |>);; mret SUCCESS_RETURN.

Definition dm_client_connect (timeout_ms : Z) : cm E Z :=
  fd ← cgets dm_client_fd; iotx_cm_connect fd (u32 timeout_ms).

Definition dm_client_close : cm E Z := fd ← cgets dm_client_fd; iotx_cm_close fd.

(** [context] is NULL or leads to a byte. *)
Definition dm_client_subscribe (uri : option (list Z)) (callback : Z) (context : option Z) : cm E Z :=
  fd ← cgets dm_client_fd;
  let sub_params :=
    if default 0 context =? 1 then CmExtParams IOTX_CM_MESSAGE_SUB_LOCAL IOTX_CM_ASYNC IOTX_DM_CLIENT_SUB_TIMEOUT_MS
    else CmExtParams IOTX_CM_MESSAGE_NO_ACK IOTX_CM_SYNC IOTX_DM_CLIENT_SUB_TIMEOUT_MS in
  iotx_cm_sub fd (Some sub_params) uri callback.

Definition dm_client_unsubscribe (uri : option (list Z)) : cm E Z :=
  fd ← cgets dm_client_fd; iotx_cm_unsub fd uri.

Definition dm_client_publish (uri payload : option (list Z)) (payload_len : Z) : cm E Z :=
  fd ← cgets dm_client_fd;
  on_prog (iotx_state_event STATE_DEV_MODEL_TX_CLOUD_MESSAGE);;
  iotx_cm_pub fd (Some (CmExtParams IOTX_CM_MESSAGE_NO_ACK IOTX_CM_ASYNC 0)) uri payload (u32 payload_len).

Definition dm_client_yield (timeout : Z) : cm E Z := fd ← cgets dm_client_fd; iotx_cm_yield fd timeout.
End Cm.
