(* ===== verification/CmSafe.v ===== *)
(** * CmSafe: the connectivity manager keeps its connection

    Between calls the table of descriptors, the connection and the client of the device
    belong together, as long as a connection is not opened while one is open. *)

From stdpp Require Import gmap.
From S2P Require Import Prelude.
From S2P Require Import CString.
From S2P Require Import InfraState.
From S2P Require Import Hal.
From S2P Require Import InfraTimer.
From S2P Require Import InfraCompat.
From S2P Require Import MqttState.
From S2P Require Import MqttSend.
From S2P Require Import MqttRecv.
From S2P Require Import MqttSession.
From S2P Require Import MqttLogic.
From S2P Require Import MqttSendSafe.
From S2P Require Import MqttSubSafe.
From S2P Require Import MqttRecvSafe.
From S2P Require Import MqttApi.
From S2P Require Import MqttLife.
From S2P Require Import MqttSim.
From S2P Require Import MqttSafety.
From S2P Require Import MqttFront.
From S2P Require Import MqttFrontSpec.
From S2P Require Import MqttFrontSafe.
From S2P Require Import Cm.

(** ** Weakest preconditions of [cm] *)

Definition wpc {E A} (ok : stop -> Prop) (m : cm E A) (Q : A -> cm_vars -> front_vars -> world E -> Prop)
    (s : cm_vars) (v : front_vars) (w : world E) : Prop :=
  wpa ok (m s) (fun p v' w' => Q (fst p) (snd p) v' w') v w.

Section Wpc.
Context {E : Type} (ok : stop -> Prop).
Implicit Types (s : cm_vars) (v : front_vars) (w : world E).

Lemma wpc_ret {A} (a : A) Q s v w : Q a s v w -> wpc ok (mret a) Q s v w.
Proof. done. Qed.

Lemma wpc_bind {A B} (m : cm E A) (k : A -> cm E B) P Q s v w :
  wpc ok m P s v w -> (forall a s' v' w', P a s' v' w' -> wpc ok (k a) Q s' v' w') -> wpc ok (m ≫= k) Q s v w.
Proof.
  unfold wpc. intros Hm Hk. unfold mbind at 1, cm_bind. eapply wpa_bind; [exact Hm|].
  intros [a s'] v' w' H. by apply Hk.
Qed.

Lemma wpc_mono {A} (m : cm E A) (P Q : A -> cm_vars -> front_vars -> world E -> Prop) s v w :
  wpc ok m P s v w -> (forall a s' v' w', P a s' v' w' -> Q a s' v' w') -> wpc ok m Q s v w.
Proof. intros Hm HQ. eapply wpa_mono; [exact Hm|]. intros [a s'] v' w' H. by apply HQ. Qed.

Lemma wpc_gets_bind {A B} (f : cm_vars -> A) (k : A -> cm E B) Q s v w :
  wpc ok (k (f s)) Q s v w -> wpc ok (cgets f ≫= k) Q s v w.
Proof. done. Qed.

Lemma wpc_sets_bind {B} f (k : unit -> cm E B) Q s v w :
  wpc ok (k tt) Q (f s) v w -> wpc ok (csets f ≫= k) Q s v w.
Proof. done. Qed.

Lemma wpc_api {A} (m : api E A) Q s v w : wpa ok m (fun a v' w' => Q a s v' w') v w -> wpc ok (on_api m) Q s v w.
Proof. intros Hm. unfold wpc, on_api. eapply wpa_bind; [exact Hm|]. intros a v' w' H. exact H. Qed.

Lemma wpc_api_bind {A B} (m : api E A) (k : A -> cm E B) P Q s v w :
  wpa ok m P v w -> (forall a v' w', P a v' w' -> wpc ok (k a) Q s v' w') -> wpc ok (on_api m ≫= k) Q s v w.
Proof.
  intros Hm Hk. eapply (wpc_bind _ _ (fun a s' v' w' => s' = s /\ P a v' w')).
  - apply wpc_api. eapply wpa_mono; [exact Hm|]. by intros a v' w' H.
  - intros a s' v' w' [-> H]. by apply Hk.
Qed.

Lemma wpc_prog {A} (m : prog E A) Q s v w : wp ok m (fun a w' => Q a s v w') w -> wpc ok (on_prog m) Q s v w.
Proof. intros Hm. by apply wpc_api, wpa_run. Qed.

Lemma wpc_prog_bind {A B} (m : prog E A) (k : A -> cm E B) P Q s v w :
  wp ok m P w -> (forall a w', P a w' -> wpc ok (k a) Q s v w') -> wpc ok (on_prog m ≫= k) Q s v w.
Proof.
  intros Hm Hk. eapply wpc_api_bind.
  - apply (wpa_run ok m (fun a v' w' => v' = v /\ P a w')). eapply wp_mono; [exact Hm|]. by intros a w' H.
  - intros a v' w' [-> H]. by apply Hk.
Qed.

(** A step that is computed. *)
Lemma wpc_done_bind {A B} (m : prog E A) a (k : A -> cm E B) Q s v w :
  m w = Done a w -> wpc ok (k a) Q s v w -> wpc ok (on_prog m ≫= k) Q s v w.
Proof.
  intros Hm Hk. eapply (wpc_prog_bind _ _ (fun a' w' => a' = a /\ w' = w)); [unfold wp; by rewrite Hm|].
  by intros ? ? [-> ->].
Qed.

Lemma wpc_lift_bind {A B} (x : fault) (o : option A) (k : A -> cm E B) Q s v w :
  (o = None -> ok x) -> (forall a, o = Some a -> wpc ok (k a) Q s v w) -> wpc ok (on_prog (lift x o) ≫= k) Q s v w.
Proof.
  intros Hn Hk. eapply (wpc_prog_bind _ _ (fun a w' => o = Some a /\ w' = w)).
  - apply wp_lift; [done|]. by intros a ->.
  - intros a w' [Ho ->]. by apply Hk.
Qed.

Lemma cm_assoc {A B D} (m : cm E A) (k : A -> cm E B) (k' : B -> cm E D) Q s v w :
  wpc ok (m ≫= fun a => k a ≫= k') Q s v w -> wpc ok ((m ≫= k) ≫= k') Q s v w.
Proof.
  unfold wpc, wpa, wp, mbind, cm_bind, api_bind, prog_bind. cbn.
  unfold mbind, api_bind, prog_bind. destruct (m s v w) as [[[a s1] v1] w1| |]; intros H; exact H.
Qed.

(** ** The mutex of the table *)

Lemma lock_fd_bind {B} (k : unit -> cm E B) Q s v w :
  fd_lock s = Some false -> wpc ok (k tt) Q (s <| fd_lock := Some true |>) v w -> wpc ok (lock_fd ≫= k) Q s v w.
Proof. intros Hl Hk. unfold lock_fd. apply cm_assoc, wpc_gets_bind. rewrite Hl. exact Hk. Qed.

Lemma unlock_fd_bind {B} (k : unit -> cm E B) Q s v w :
  fd_lock s = Some true -> wpc ok (k tt) Q (s <| fd_lock := Some false |>) v w -> wpc ok (unlock_fd ≫= k) Q s v w.
Proof. intros Hl Hk. unfold unlock_fd. apply cm_assoc, wpc_gets_bind. rewrite Hl. exact Hk. Qed.

Lemma unlocked s : fd_lock s = Some false -> s <| fd_lock := Some true |> <| fd_lock := Some false |> = s.
Proof. destruct s; cbn. by intros ->. Qed.
End Wpc.

(** ** Blocks beside the client *)

Section Blocks.
Context {E : Type} (ok : stop -> Prop).
Implicit Types (F : list nat) (w : world E).

Lemma client_perm F F' o w : F ≡ₚ F' -> client_at F o w -> client_at F' o w.
Proof.
  intros HF. destruct o; intros [L HI]; exists L; (eapply inv_perm; [|exact HI]); by rewrite HF.
Qed.

Lemma client_malloc `{!Hal E} size o F w :
  client_at F o w ->
  wp ok (mqtt_malloc size) (fun r w' => client_at (match r with Some a => a :: F | None => F end) o w') w.
Proof.
  destruct o as [x|]; intros [L HI]; (eapply wp_mono; [by apply malloc_spec|]); intros [a|] w' [HI' _];
    exists L; try exact HI'; (eapply inv_perm; [|exact HI']).
  - rewrite Permutation_swap. by rewrite Permutation_middle.
  - apply Permutation_middle.
Qed.

Lemma client_free a o F w : client_at (a :: F) o w -> wp ok (mqtt_free a) (fun _ w' => client_at F o w') w.
Proof.
  destruct o as [x|]; intros [L HI].
  - eapply wp_mono; [eapply (free_spec ok a (x :: L ++ F)), inv_perm; [|exact HI]|].
    + by rewrite <-Permutation_middle, Permutation_swap.
    + cbn beta. intros _ w' [HI' _]. by exists L.
  - eapply wp_mono; [eapply (free_spec ok a (L ++ F)), inv_perm; [|exact HI]|].
    + by rewrite <-Permutation_middle.
    + cbn beta. intros _ w' [HI' _]. by exists L.
Qed.

Lemma client_block a o F w : client_at F o w -> a ∈ F -> a ∈ w_blocks w.
Proof.
  intros Hc Ha. destruct o as [x|]; destruct Hc as [L HI]; rewrite (heap_blocks _ _ (inv_heap _ _ _ _ HI));
    rewrite ?elem_of_app, ?elem_of_cons, ?elem_of_app; auto.
Qed.

Lemma client_settings_ok o F w : client_at F o w -> settings_ok (w_ctx w).
Proof. by destruct o; intros [L HI]; apply HI. Qed.
End Blocks.

(** What is called back: outside the client, and from its handlers. *)
Class CmSafe {E} `{!CmApp E} (ok : stop -> Prop) := {
  on_cm_event_safe h fd e c F o (w : world E) :
    client_at F o w -> wp ok (on_cm_event h fd e c) (fun _ w' => client_at F o w') w;
  on_cm_event_inside h fd e c F H (w : world E) :
    inv F H w -> below LOCK_LIST_PUB H ->
    wp ok (on_cm_event h fd e c) (fun _ w' => inv F H w' /\ kept (w_client w) (w_client w')) w;
  on_cm_data_inside h fd topic payload len F H (w : world E) :
    inv F H w -> below LOCK_LIST_PUB H ->
    wp ok (on_cm_data h fd topic payload len) (fun _ w' => inv F H w' /\ kept (w_client w) (w_client w')) w;
  on_monitor_safe e F o (w : world E) :
    client_at F o w -> wp ok (on_monitor e) (fun _ w' => client_at F o w') w
}.

(** ** The connection *)

(** A connection at [a], with its parameters at [q]: both are blocks of the manager, and
    its client is the one of the device. *)
Record opened {E} (F : list nat) (s : cm_vars) (v : front_vars) (w : world E) (a : nat)
    (c : iotx_cm_connection_t) (q : nat) : Prop := {
  op_conn : _mqtt_conncection s = Some a;
  op_at : connections s !! a = Some c;
  op_params : open_params c = Some q;
  op_context : context c = g_mqtt_client v;
  op_init : init_ok (mqtt_param c);
  op_front : front_inv (a :: q :: F) v w
}.

Section Connection.
Context {E : Type} `{!Hal E} `{!App E} `{!FrontApp E} `{!CmApp E} `{!HalRead E} (fuel : nat) (ok : stop -> Prop).
Context (ok_fuel : ok NoFuel) (ok_read : ok FaultRead).
Context `{!AppSafe ok} `{!AppInit ok} `{!FrontSafe ok} `{!CmSafe ok}.
Variable crt : option (list Z).
Variable http_handler : option (Z -> list Z -> E -> E).
Variable event_fp : Z.
Implicit Types (F : list nat) (s : cm_vars) (v : front_vars) (w : world E).

Lemma touch_bind {B} a o G (k : unit -> cm E B) Q s v w :
  client_at G o w -> a ∈ G -> wpc ok (k tt) Q s v w -> wpc ok (touch a ≫= k) Q s v w.
Proof.
  intros Hc Ha Hk. unfold touch. eapply wpc_done_bind; [|exact Hk].
  by rewrite bool_decide_true by (by eapply client_block).
Qed.

Lemma connection_bind {B} a c o G (k : iotx_cm_connection_t -> cm E B) Q s v w :
  client_at G o w -> a ∈ G -> connections s !! a = Some c -> wpc ok (k c) Q s v w ->
  wpc ok (connection_at a ≫= k) Q s v w.
Proof.
  intros Hc Ha Hs Hk. unfold connection_at. apply cm_assoc. eapply touch_bind; [done|done|].
  apply cm_assoc, wpc_gets_bind. rewrite Hs. apply wpc_lift_bind; [done|]. by intros ? [= <-].
Qed.

Lemma set_connection_bind {B} a c f o G (k : unit -> cm E B) Q s v w :
  client_at G o w -> a ∈ G -> connections s !! a = Some c ->
  wpc ok (k tt) Q (s <| connections ::= <[a := f c]> |>) v w -> wpc ok (set_connection a f ≫= k) Q s v w.
Proof.
  intros Hc Ha Hs Hk. unfold set_connection. apply cm_assoc. eapply connection_bind; [done|done|done|].
  by apply wpc_sets_bind.
Qed.

(** The client of a connection is at hand. *)
Lemma opened_at F s v w a c q : opened F s v w a c q -> client_at (a :: q :: F) (g_mqtt_client v) w.
Proof. intros []. by apply fi_client. Qed.

Lemma opened_world F s v w w' a c q :
  opened F s v w a c q -> client_at (a :: q :: F) (g_mqtt_client v) w' -> opened F s v w' a c q.
Proof. intros [O1 O2 O3 O4 O5 [Hd _]] Hc. by split. Qed.

Lemma opened_conn {B} F (k : iotx_cm_connection_t -> cm E B) Q s v w a c q :
  opened F s v w a c q -> wpc ok (k c) Q s v w -> wpc ok (connection_at a ≫= k) Q s v w.
Proof. intros Ho Hk. eapply connection_bind; [by eapply opened_at|left|by apply Ho|done]. Qed.

Lemma opened_set {B} F f (k : unit -> cm E B) Q s v w a c q :
  opened F s v w a c q -> wpc ok (k tt) Q (s <| connections ::= <[a := f c]> |>) v w ->
  wpc ok (set_connection a f ≫= k) Q s v w.
Proof. intros Ho Hk. eapply set_connection_bind; [by eapply opened_at|left|by apply Ho|done]. Qed.

Lemma opened_put F s v w a c c' q :
  opened F s v w a c q -> open_params c' = Some q -> context c' = g_mqtt_client v -> init_ok (mqtt_param c') ->
  opened F (s <| connections ::= <[a := c']> |>) v w a c' q.
Proof. intros [O1 O2 O3 O4 O5 O6] Hp Hc Hi. split; try done. apply lookup_insert_eq. Qed.

Lemma opened_prog {A B} (m : prog E A) F (k : A -> cm E B) Q s v w a c q :
  opened F s v w a c q ->
  (forall o G w, client_at G o w -> wp ok m (fun _ w' => client_at G o w') w) ->
  (forall x w', opened F s v w' a c q -> wpc ok (k x) Q s v w') -> wpc ok (on_prog m ≫= k) Q s v w.
Proof.
  intros Ho Hm Hk. eapply wpc_prog_bind; [by apply Hm, (opened_at F s v w a c q)|].
  cbn beta. intros x w' Hc. apply Hk. by eapply opened_world.
Qed.

(** What a function leaves of a connection: its place and its number. *)
Definition still F s a q {A} (_ : A) s' v' w' : Prop :=
  exists c', opened F s' v' w' a c' q
  /\ s' = s <| connections := connections s' |> /\ fd c' = default 0 (fd <$> connections s !! a).

Lemma still_refl {A} F s v w a c q (x : A) : opened F s v w a c q -> still F s a q x s v w.
Proof. intros Ho. exists c. split; [done|]. rewrite (op_at _ _ _ _ _ _ _ Ho). by destruct s. Qed.

(** ** Connecting *)

Lemma call_handler_bind {B} F e x (k : unit -> cm E B) Q s v w a c q :
  opened F s v w a c q -> (forall w', opened F s v w' a c q -> wpc ok (k tt) Q s v w') ->
  wpc ok (call_event_handler c e x ≫= k) Q s v w.
Proof.
  intros Ho Hk. unfold call_event_handler. destruct (_ =? 0).
  - by apply (wpc_bind ok _ _ (fun _ s' v' w' => s' = s /\ v' = v /\ w' = w)); [by apply wpc_ret|];
      intros [] s' v' w' (-> & -> & ->); apply Hk.
  - eapply opened_prog; [exact Ho| |by intros []; apply Hk]. intros o G w1 Hc. by apply on_cm_event_safe.
Qed.

Lemma connect_loop_spec n timer F s v w a c q :
  opened F s v w a c q ->
  wpc ok (connect_loop fuel crt http_handler n a timer) (still F s a q) s v w.
Proof.
  revert v w; induction n as [|n IH]; intros v w Ho; [exact ok_fuel|]. cbn [connect_loop].
  eapply opened_conn; [exact Ho|]. rewrite (op_params _ _ _ _ _ _ _ Ho).
  apply wpc_lift_bind; [done|]. intros ? [= <-].
  eapply touch_bind; [by eapply opened_at|right; left|].
  eapply wpc_done_bind; [done|]. pose proof (client_settings_ok _ _ _ (opened_at _ _ _ _ _ _ _ Ho)) as Hs.
  eapply wpc_api_bind.
  { apply (construct_front fuel ok ok_fuel ok_read crt http_handler _ (a :: q :: F)); [apply Ho|].
    intros p info [= <- Hi]. split; [apply Ho|]. intros t ->. destruct (customized c); [|done].
    injection Hi as <-. apply Hs. }
  cbn beta. intros r v1 w1 [[-> Hf] Hn]. destruct (g_mqtt_client v1) as [p|] eqn:Hg.
  - eapply set_connection_bind; [apply Hf|left|apply Ho|].
    assert (opened F (s <| connections ::= <[a := c <| context := Some p |>]> |>) v1 w1 a
              (c <| context := Some p |>) q) as Ho1.
    { destruct Ho as [O1 O2 O3 O4 O5 O6]. split; try done. apply lookup_insert_eq. }
    eapply opened_conn; [exact Ho1|]. eapply call_handler_bind; [exact Ho1|]. intros w2 Ho2. apply wpc_ret.
    exists (c <| context := Some p |>). split; [exact Ho2|]. by rewrite (op_at _ _ _ _ _ _ _ Ho).
  - assert (opened F s v1 w1 a c q) as Ho1.
    { destruct Ho as [O1 O2 O3 O4 O5 O6]. split; try done. by rewrite O4, Hn. }
    eapply opened_prog; [exact Ho1|intros; by apply client_plat|]. intros _ w2 Ho2.
    eapply opened_prog; [exact Ho2|intros; by apply client_plat|]. intros e w3 Ho3.
    destruct (e =? 0); [by apply IH|].
    eapply opened_conn; [exact Ho3|]. eapply call_handler_bind; [exact Ho3|]. intros w4 Ho4. apply wpc_ret.
    by eapply still_refl.
Qed.

(** A setting is read, whatever it is. *)
Lemma setting_bind {B} opt text len (k : list Z -> cm E B) Q s v w :
  IOT_Ioctl opt (Some (DataBuf (zeros (Z.to_nat (len + 1))))) (w_ctx w)
    = (d ← ioctl_get text (DataBuf (zeros (Z.to_nat (len + 1)))); Some (SUCCESS_RETURN, w_ctx w, Some d)) ->
  Z.of_nat (List.length text) <= len -> (forall t, wpc ok (k t) Q s v w) -> wpc ok (setting opt len ≫= k) Q s v w.
Proof.
  intros He Hl Hk. unfold setting. apply cm_assoc. eapply wpc_done_bind; [by apply (ioctl_zeros _ text); [|lia]|].
  apply wpc_lift_bind; [done|]. by intros t _.
Qed.

Lemma still_trans {A B} F s a q (x : A) s1 v1 w1 (y : B) s2 v2 w2 :
  still F s a q x s1 v1 w1 -> still F s1 a q y s2 v2 w2 -> still F s a q y s2 v2 w2.
Proof.
  intros (c1 & Ho1 & E1 & F1) (c2 & Ho2 & E2 & F2). exists c2. split; [done|].
  split; [rewrite E2, E1; by destruct s|]. rewrite F2, (op_at _ _ _ _ _ _ _ Ho1). exact F1.
Qed.

(** A field of the connection that does not matter here is set, perhaps. *)
Lemma update_still (b : bool) f F s v w a c q :
  opened F s v w a c q -> open_params (f c) = open_params c -> context (f c) = context c -> fd (f c) = fd c ->
  init_ok (mqtt_param (f c)) ->
  wpc ok (if b then mret tt else set_connection a f)
    (fun x s' v' w' => still F s a q x s' v' w' /\ v' = v /\ w' = w) s v w.
Proof.
  intros Ho Hp Hx Hf Hi. destruct b; [by split; [eapply still_refl|]|].
  unfold set_connection. eapply opened_conn; [exact Ho|]. split; [|done]. exists (f c). split.
  - eapply opened_put; [exact Ho|rewrite Hp; apply Ho|rewrite Hx; apply Ho|done].
  - split; [done|]. by rewrite Hf, (op_at _ _ _ _ _ _ _ Ho).
Qed.

Lemma mqtt_connect_open timeout F s v w a c q :
  opened F s v w a c q -> wpc ok (_mqtt_connect fuel crt http_handler timeout) (still F s a q) s v w.
Proof.
  intros Ho. pose proof (client_settings_ok _ _ _ (opened_at _ _ _ _ _ _ _ Ho)) as [[X1 X2 X3 X4 _ _ _] _ _ _].
  unfold _mqtt_connect. apply wpc_gets_bind. rewrite (op_conn _ _ _ _ _ _ _ Ho).
  eapply (setting_bind _ (product_key (w_ctx w))); [done|done|]. intros pk.
  eapply (setting_bind _ (device_name (w_ctx w))); [done|done|]. intros dn.
  eapply (setting_bind _ (device_secret (w_ctx w))); [done|done|]. intros _.
  destruct (bool_decide (pk = [])); [by eapply still_refl|]. destruct (bool_decide (dn = [])); [by eapply still_refl|].
  eapply opened_prog; [exact Ho|intros; by apply client_plat|]. intros timer w1 Ho1. clear Ho w X1 X2 X3 X4.
  eapply wpc_done_bind; [done|].
  eapply wpc_bind; [eapply update_still; [exact Ho1|done|done|done|apply Ho1]|]. cbn beta.
  intros x2 s2 v2 w2 (Hs2 & -> & ->). pose proof Hs2 as (c2 & Ho2 & _). eapply wpc_done_bind; [done|].
  eapply wpc_bind; [eapply update_still; [exact Ho2|done|done|done|]|].
  { destruct (op_init _ _ _ _ _ _ _ Ho2). by split. }
  cbn beta. intros x3 s3 v3 w3 (Hs3 & -> & ->). pose proof Hs3 as (c3 & Ho3 & _).
  eapply wpc_mono; [by eapply connect_loop_spec|]. cbn beta. intros r s4 v4 w4 Hs4.
  eapply still_trans; [exact Hs2|]. eapply still_trans; [exact Hs3|exact Hs4].
Qed.

(** ** Requests and closing *)

Lemma with_context_open k F s v w a c q :
  opened F s v w a c q ->
  wpa ok (k (g_mqtt_client v)) (request_done (a :: q :: F) (g_mqtt_client v) v) v w ->
  wpc ok (with_context k) (fun _ s' v' w' => s' = s /\ v' = v /\ opened F s v w' a c q) s v w.
Proof.
  intros Ho Hk. unfold with_context. apply wpc_gets_bind. rewrite (op_conn _ _ _ _ _ _ _ Ho).
  eapply opened_conn; [exact Ho|]. rewrite (op_context _ _ _ _ _ _ _ Ho). apply wpc_api.
  eapply wpa_mono; [exact Hk|]. intros r v1 w1 [-> Hc]. split; [done|]. split; [done|]. by eapply opened_world.
Qed.

Lemma handled_client v : handled (g_mqtt_client v) v = g_mqtt_client v.
Proof. unfold handled. by destruct (g_mqtt_client v). Qed.

Lemma free_bind {B} a' o G (k : unit -> cm E B) Q s v w :
  client_at (a' :: G) o w -> (forall w', client_at G o w' -> wpc ok (k tt) Q s v w') ->
  wpc ok (cm_free a' ≫= k) Q s v w.
Proof.
  intros Hc Hk. eapply wpc_prog_bind; [by apply (client_free ok a' o G)|]. cbn beta. intros [] w' Hc'. by apply Hk.
Qed.

Lemma mqtt_close_open F s v w a c q :
  opened F s v w a c q ->
  wpc ok (_mqtt_close fuel) (fun r s' v' w' => r = STATE_SUCCESS /\ front_inv F v' w' /\ g_mqtt_client v' = None
    /\ s' = s <| connections := connections s' |> <| _mqtt_conncection := None |>) s v w.
Proof.
  intros Ho. pose proof (opened_at _ _ _ _ _ _ _ Ho) as Hc. destruct Ho as [O1 O2 O3 O4 O5 [Hd _]].
  unfold _mqtt_close. apply wpc_gets_bind. rewrite O1.
  eapply connection_bind; [exact Hc|left|exact O2|]. rewrite O3.
  eapply free_bind; [eapply client_perm; [apply Permutation_swap|exact Hc]|]. intros w1 Hc1.
  eapply set_connection_bind; [exact Hc1|left|exact O2|]. rewrite O4.
  eapply wpc_api_bind; [apply (destroy_front fuel ok ok_fuel _ (a :: F)); [by split|intros h [= <-]; by right]|].
  cbn beta. intros r v2 w2 [[Hd2 Hc2] Hn]. pose proof (Hn eq_refl) as Hg.
  eapply set_connection_bind; [exact Hc2|left|apply lookup_insert_eq|].
  eapply free_bind; [exact Hc2|]. intros w3 Hc3. apply wpc_sets_bind, wpc_ret. by split_and!.
Qed.
End Connection.

(** ** The table of descriptors *)

(** At most one connection, at the first descriptor. *)
Record cm_inv {E} (F : list nat) (s : cm_vars) (v : front_vars) (w : world E) : Prop := {
  cmi_lock : fd_lock s <> Some true;
  cmi_table : _cm_fd s = [_mqtt_conncection s; None; None];
  cmi_open : match _mqtt_conncection s with
             | None => front_inv F v w /\ g_mqtt_client v = None
             | Some a => fd_lock s = Some false /\ exists c q, opened F s v w a c q /\ fd c = 0
             end
}.

Section Manager.
Context {E : Type} `{!Hal E} `{!App E} `{!FrontApp E} `{!CmApp E} `{!HalRead E} (fuel : nat) (ok : stop -> Prop).
Context (ok_fuel : ok NoFuel) (ok_read : ok FaultRead).
Context `{!AppSafe ok} `{!AppInit ok} `{!FrontSafe ok} `{!CmSafe ok}.
Variable crt : option (list Z).
Variable http_handler : option (Z -> list Z -> E -> E).
Variable event_fp : Z.
Implicit Types (F : list nat) (s : cm_vars) (v : front_vars) (w : world E).

Lemma opened_inv F s v w a c q :
  fd_lock s = Some false -> _cm_fd s = [Some a; None; None] -> opened F s v w a c q -> fd c = 0 -> cm_inv F s v w.
Proof.
  intros Hl Ht Ho Hf. pose proof (op_conn _ _ _ _ _ _ _ Ho) as Hc. split; rewrite ?Hl, ?Hc; [done|done|].
  split; [done|]. by exists c, q.
Qed.

Lemma still_inv {A} F s a q (x : A) s' v' w' c :
  fd_lock s = Some false -> _cm_fd s = [Some a; None; None] -> connections s !! a = Some c -> fd c = 0 ->
  still F s a q x s' v' w' -> cm_inv F s' v' w'.
Proof.
  intros Hl Ht Hc Hf (c' & Ho & Es & Ef). eapply opened_inv; [..|exact Ho|].
  - by rewrite Es.
  - by rewrite Es.
  - by rewrite Ef, Hc.
Qed.

Lemma slot_valid fd s o : _cm_fd s = [o; None; None] ->
  (0 <=? fd) && (fd <? CM_MAX_FD_NUM) && bool_decide (slot fd s <> None) = true -> fd = 0 /\ slot fd s = o /\ o <> None.
Proof.
  intros Ht [[H1%Z.leb_le H2%Z.ltb_lt]%andb_true_iff H3%bool_decide_eq_true]%andb_true_iff. revert H3.
  unfold slot. rewrite Ht. unfold CM_MAX_FD_NUM in H2.
  assert (fd = 0 \/ fd = 1 \/ fd = 2) as [-> | [-> | ->]] by lia; by cbn.
Qed.

(** A descriptor is valid when it is the open one. *)
Lemma valid_bind {B} n (k : Z -> cm E B) F Q s v w :
  cm_inv F s v w ->
  (forall a c q, n = 0 -> fd_lock s = Some false -> slot n s = Some a -> _cm_fd s = [Some a; None; None] ->
     opened F s v w a c q -> fd c = 0 -> wpc ok (k 0) Q s v w) ->
  (forall r, r < 0 -> wpc ok (k r) Q s v w) -> wpc ok (_fd_is_valid n ≫= k) Q s v w.
Proof.
  intros [Hl Ht Ho] Hk Hn. unfold _fd_is_valid. apply cm_assoc, wpc_gets_bind.
  destruct (fd_lock s) as [b|] eqn:El; [|by apply Hn]. destruct b; [done|].
  apply cm_assoc, lock_fd_bind; [done|]. apply cm_assoc, wpc_gets_bind.
  change (slot n (s <| fd_lock := Some true |>)) with (slot n s).
  apply cm_assoc, unlock_fd_bind; [done|]. rewrite unlocked by done.
  destruct (_ && _) eqn:Ev; [|by apply (Hn (-1))].
  destruct (slot_valid n s _ Ht Ev) as (-> & Es & Hne).
  destruct (_mqtt_conncection s) as [a|]; [|done]. destruct Ho as (_ & c & q & Ho & Hf).
  by apply (Hk a c q).
Qed.

Lemma function_bind {B} n (k : unit -> cm E B) F Q s v w a c q :
  fd_lock s = Some false -> slot n s = Some a -> opened F s v w a c q ->
  wpc ok (k tt) Q s v w -> wpc ok (function_of n ≫= k) Q s v w.
Proof.
  intros Hl Hs Ho Hk. unfold function_of. apply cm_assoc, lock_fd_bind; [done|]. apply cm_assoc, wpc_gets_bind.
  change (slot n (s <| fd_lock := Some true |>)) with (slot n s). rewrite Hs.
  apply cm_assoc, wpc_lift_bind; [done|]. intros ? [= <-]. apply cm_assoc.
  eapply connection_bind; [by eapply opened_at|left|apply Ho|]. apply unlock_fd_bind; [done|].
  by rewrite unlocked.
Qed.

Lemma with_fd_spec n k F (Q : Z -> cm_vars -> front_vars -> world E -> Prop) s v w :
  cm_inv F s v w ->
  (forall a c q, fd_lock s = Some false -> _cm_fd s = [Some a; None; None] -> opened F s v w a c q -> fd c = 0 ->
     wpc ok k Q s v w) ->
  Q STATE_DEV_MODEL_CM_FD_ERROR s v w -> wpc ok (with_fd n k) Q s v w.
Proof.
  intros HI Hk Hq. unfold with_fd. eapply valid_bind; [exact HI|..].
  - intros a c q -> Hl Hs Ht Ho Hf. cbn [Z.ltb Z.compare]. eapply function_bind; [done|done|done|]. by eapply Hk.
  - intros r Hr. rewrite (proj2 (Z.ltb_lt r 0)) by done. by apply wpc_ret.
Qed.

(** What an operation leaves. *)
Definition keeps F {A} (_ : A) s' v' w' : Prop := cm_inv F s' v' w'.

Lemma request_keeps n k F s v w :
  cm_inv F s v w ->
  (forall a q, client_at (a :: q :: F) (g_mqtt_client v) w ->
     wpa ok (k (g_mqtt_client v)) (request_done (a :: q :: F) (g_mqtt_client v) v) v w) ->
  wpc ok (with_fd n (with_context k)) (keeps F) s v w.
Proof.
  intros HI Hk. apply (with_fd_spec _ _ F); [done| |done]. intros a c q Hl Ht Ho Hf.
  eapply wpc_mono; [eapply with_context_open; [exact Ho|]; apply Hk; by eapply opened_at|].
  cbn beta. intros r s1 v1 w1 (-> & -> & Ho1). by eapply opened_inv.
Qed.

(** ** The operations *)

(** A request through the handle of the client. *)
Ltac at_client lem :=
  match goal with
  | |- wpa _ _ (request_done _ (g_mqtt_client ?v) ?v) _ _ => rewrite <-(handled_client v) at 2
  end; by apply lem; rewrite ?handled_client.

Lemma qos_nonneg k : 0 <= _get_mqtt_qos k.
Proof. by destruct k. Qed.

Lemma cm_sub_keeps n ext topic fp F s v w :
  cm_inv F s v w -> filter_arg topic -> wpc ok (iotx_cm_sub fuel event_fp n ext topic fp) (keeps F) s v w.
Proof.
  intros HI Ht. unfold iotx_cm_sub, _mqtt_sub. apply request_keeps; [done|]. intros a q Hc.
  assert (0 <= match ext with Some e => _get_mqtt_qos (ack_type e) | None => IOTX_MQTT_QOS0 end) as Hq
    by (destruct ext; [apply qos_nonneg|by unfold IOTX_MQTT_QOS0]).
  destruct (match ext with Some e => _ | None => None end) as [t|];
    [at_client subscribe_sync_front|at_client subscribe_front].
Qed.

Lemma cm_unsub_keeps n topic F s v w :
  cm_inv F s v w -> filter_arg topic -> wpc ok (iotx_cm_unsub fuel n topic) (keeps F) s v w.
Proof.
  intros HI Ht. unfold iotx_cm_unsub, _mqtt_unsub. apply request_keeps; [done|]. intros a q Hc.
  at_client unsubscribe_front.
Qed.

Definition ext_qos (ext : option iotx_cm_ext_params_t) : Z :=
  match ext with Some e => _get_mqtt_qos (ack_type e) | None => 0 end.

Lemma cm_pub_keeps n ext topic payload len F s v w :
  cm_inv F s v w -> publish_arg topic (Some (simple_msg (ext_qos ext) payload (i32 len))) ->
  wpc ok (iotx_cm_pub fuel n ext topic payload len) (keeps F) s v w.
Proof.
  intros HI Ht. unfold iotx_cm_pub, _mqtt_publish. apply request_keeps; [done|]. intros a q Hc.
  at_client publish_simple_front.
Qed.

Lemma slot_cases i s o : _cm_fd s = [o; None; None] -> slot i s = None \/ slot i s = o.
Proof. intros Ht. unfold slot. rewrite Ht. destruct (Z.to_nat i) as [|[|[|j]]]; auto. Qed.

Lemma mqtt_yield_open timeout F s v w a c q :
  opened F s v w a c q ->
  wpc ok (_mqtt_yield fuel timeout) (fun _ s' v' w' => s' = s /\ v' = v /\ opened F s v w' a c q) s v w.
Proof.
  intros Ho. unfold _mqtt_yield. eapply with_context_open; [exact Ho|].
  pose proof (opened_at _ _ _ _ _ _ _ Ho) as Hc. at_client yield_front.
Qed.

Lemma yield_loop_keeps fds timeout F s v w :
  cm_inv F s v w -> fd_lock s = Some false -> wpc ok (yield_loop fuel fds timeout) (keeps F) s v w.
Proof.
  intros HI Hl. revert w HI; induction fds as [|i fds IH]; intros w HI; [by apply wpc_ret|]. cbn [yield_loop].
  apply lock_fd_bind; [done|]. apply wpc_gets_bind.
  change (slot i (s <| fd_lock := Some true |>)) with (slot i s).
  pose proof HI as [_ Ht Ho]. destruct (slot i s) as [a|] eqn:Es.
  - destruct (slot_cases i s _ Ht) as [|Hs]; [congruence|]. rewrite Es in Hs. rewrite <-Hs in Ho.
    destruct Ho as (_ & c & q & Ho & Hf). apply cm_assoc.
    eapply connection_bind; [by eapply opened_at|left|apply Ho|].
    apply (wpc_bind ok _ _ (fun _ s' v' w' => s' = s <| fd_lock := Some true |> /\ v' = v /\ w' = w)); [by apply wpc_ret|].
    intros _ s1 v1 w1 (-> & -> & ->). apply unlock_fd_bind; [done|]. rewrite unlocked by done. apply cm_assoc.
    eapply wpc_bind; [by eapply mqtt_yield_open|]. cbn beta. intros _ s1 v1 w1 (-> & -> & Ho1).
    apply (wpc_bind ok _ _ (fun _ s' v' w' => s' = s /\ v' = v /\ w' = w1)); [by apply wpc_ret|].
    intros _ s2 v2 w2 (-> & -> & ->). apply IH. eapply opened_inv; [done| |exact Ho1|done]. by rewrite Hs.
  - apply (wpc_bind ok _ _ (fun _ s' v' w' => s' = s <| fd_lock := Some true |> /\ v' = v /\ w' = w)); [by apply wpc_ret|].
    intros _ s1 v1 w1 (-> & -> & ->). apply unlock_fd_bind; [done|]. rewrite unlocked by done.
    apply (wpc_bind ok _ _ (fun _ s' v' w' => s' = s /\ v' = v /\ w' = w)); [by apply wpc_ret|].
    intros _ s2 v2 w2 (-> & -> & ->). by apply IH.
Qed.

Lemma cm_yield_keeps n timeout F s v w :
  cm_inv F s v w -> wpc ok (iotx_cm_yield fuel n timeout) (keeps F) s v w.
Proof.
  intros HI. unfold iotx_cm_yield. apply wpc_gets_bind. pose proof (cmi_lock _ _ _ _ HI) as Hl.
  destruct (fd_lock s) as [[]|] eqn:El; [done| |by apply wpc_ret]. destruct (n =? -1).
  - eapply wpc_bind; [by apply yield_loop_keeps|]. intros x1 s1 v1 w1 HI1. by apply wpc_ret.
  - apply (with_fd_spec _ _ F); [done| |done]. intros a c q _ Ht Ho Hf.
    eapply wpc_mono; [by eapply mqtt_yield_open|]. intros r s1 v1 w1 (-> & -> & Ho1). by eapply opened_inv.
Qed.

Lemma post_open e F s v w a c q :
  opened F s v w a c q ->
  wpc ok (iotx_event_post e) (fun _ s' v' w' => s' = s /\ v' = v /\ opened F s v w' a c q) s v w.
Proof.
  intros Ho. unfold iotx_event_post. apply wpc_gets_bind. destruct (g_event_monitor s); [|by apply wpc_ret].
  eapply opened_prog; [exact Ho|intros; by apply on_monitor_safe|]. intros _ w1 Ho1. by apply wpc_ret.
Qed.

Lemma cm_connect_keeps n timeout F s v w :
  cm_inv F s v w -> wpc ok (iotx_cm_connect fuel crt http_handler n timeout) (keeps F) s v w.
Proof.
  intros HI. unfold iotx_cm_connect. apply (with_fd_spec _ _ F); [done| |done]. intros a c q Hl Ht Ho Hf.
  eapply wpc_bind; [by eapply post_open|]. cbn beta. intros _ s1 v1 w1 (-> & -> & Ho1).
  eapply wpc_bind; [by eapply mqtt_connect_open|]. intros r s2 v2 w2 (c2 & Ho2 & Es & Ef).
  assert (fd_lock s2 = Some false /\ _cm_fd s2 = [Some a; None; None] /\ fd c2 = 0) as (Hl2 & Ht2 & Hf2).
  { rewrite Es, Ef, (op_at _ _ _ _ _ _ _ Ho1). by split_and!. }
  eapply (wpc_bind ok _ _ (fun _ s' v' w' => cm_inv F s' v' w')).
  2:{ intros _ s3 v3 w3 HI3. by apply wpc_ret. }
  destruct (r =? 0).
  - apply wpc_sets_bind. set (s3 := s2 <| inited_conn_num ::= _ |>).
    assert (opened F s3 v2 w2 a c2 q) as Ho3 by by destruct Ho2.
    eapply wpc_mono; [by eapply post_open|]. cbn beta. intros _ s4 v4 w4 (-> & -> & Ho4). by eapply opened_inv.
  - eapply wpc_mono; [by eapply post_open|]. cbn beta. intros _ s4 v4 w4 (-> & -> & Ho4). by eapply opened_inv.
Qed.

Lemma cm_close_keeps n F s v w :
  cm_inv F s v w -> wpc ok (iotx_cm_close fuel n) (keeps F) s v w.
Proof.
  intros HI. unfold iotx_cm_close. eapply valid_bind; [exact HI|..].
  2:{ intros r Hr. rewrite (proj2 (Z.ltb_lt r 0)) by done. by apply wpc_ret. }
  intros a c q -> Hl Hs Ht Ho Hf. cbn [Z.ltb Z.compare]. apply wpc_sets_bind. set (s1 := s <| inited_conn_num ::= _ |>).
  assert (opened F s1 v w a c q) as Ho1 by by destruct Ho. clear HI Ho.
  eapply (function_bind 0 _ F _ s1); [done|done|exact Ho1|].
  eapply wpc_bind; [by eapply mqtt_close_open|]. cbn beta. intros r s2 v2 w2 (-> & Hfr & Hg & Es).
  cbn [Z.eqb STATE_SUCCESS negb].
  assert (fd_lock s2 = Some false /\ _cm_fd s2 = [Some a; None; None] /\ _mqtt_conncection s2 = None) as (Hl2 & Ht2 & Hc2)
    by (by rewrite Es). clear Es Ho1.
  eapply (wpc_bind ok _ _ (fun r s' v' w' => r = 0 /\ s' = s2 <| _cm_fd := [None; None; None] |> /\ v' = v2 /\ w' = w2)).
  { unfold _recycle_fd, create_fd_lock. apply cm_assoc, wpc_gets_bind. rewrite Hl2.
    apply (wpc_bind ok _ _ (fun b s' v' w' => b = true /\ s' = s2 /\ v' = v2 /\ w' = w2)); [by apply wpc_ret|].
    intros b s3 v3 w3 (-> & -> & -> & ->). cbn [negb]. unfold CM_MAX_FD_NUM. cbn [Z.ltb Z.compare Z.sub orb Z.opp Z.add Z.pos_sub Pos.pred_double].
    apply lock_fd_bind; [done|]. apply wpc_sets_bind, unlock_fd_bind; [done|]. apply wpc_ret.
    split; [done|]. split; [|done]. destruct s2; cbn in *. by subst. }
  intros r s3 v3 w3 (-> & -> & -> & ->). cbn [Z.eqb negb]. apply wpc_gets_bind, wpc_gets_bind.
  change (fd_lock (s2 <| _cm_fd := [None; None; None] |>)) with (fd_lock s2). rewrite Hl2.
  eapply (wpc_bind ok _ _ (fun _ s' v' w' => cm_inv F s' v' w')); [|by intros _ s4 v4 w4 HI4; apply wpc_ret].
  assert (cm_inv F (s2 <| _cm_fd := [None; None; None] |>) v2 w2) as HI2.
  { split; cbn; rewrite ?Hc2, ?Hl2; done. }
  destruct (_ =? 0); [|by apply wpc_ret]. by split; cbn; rewrite ?Hc2.
Qed.

(** A new connection, not yet in the table. *)
Definition opening F s (r : option nat) s' v w : Prop :=
  match r with
  | None => cm_inv F s' v w
  | Some a => exists c q, opened F s' v w a c q /\ fd_lock s' = fd_lock s /\ _cm_fd s' = [None; None; None]
  end.

Lemma open_mqtt_opening params F s v w :
  cm_inv F s v w -> _mqtt_conncection s = None -> init_ok (cm_mqtt_param event_fp params) ->
  wpc ok (iotx_cm_open_mqtt event_fp params) (fun r s' v' w' => v' = v /\ opening F s r s' v w') s v w.
Proof.
  intros [Hl Ht Ho] Hn Hi. rewrite Hn in Ht, Ho. destruct Ho as [[Hd Hc] Hg]. rewrite Hg in Hc.
  assert (forall w', client_at F None w' -> cm_inv F s v w') as Hback.
  { intros w' Hc'. split; rewrite ?Hn; [done|done|]. split; [|done]. split; [done|]. by rewrite Hg. }
  unfold iotx_cm_open_mqtt. apply wpc_gets_bind. rewrite Hn.
  eapply wpc_prog_bind; [by apply (client_malloc ok _ None F)|]. cbn beta. intros [a|] w1 Hc1; last first.
  { eapply wpc_prog_bind; [by apply (state_event_any ok _ None F)|]. cbn beta. intros _ w2 Hc2.
    apply wpc_ret. split; [done|]. by apply Hback. }
  apply wpc_sets_bind. set (s1 := s <| _mqtt_conncection := Some a |>).
  eapply wpc_prog_bind; [by apply (client_malloc ok _ None (a :: F))|]. cbn beta. intros [q|] w2 Hc2; last first.
  { eapply wpc_prog_bind; [by apply (state_event_any ok _ None (a :: F))|]. cbn beta. intros _ w3 Hc3.
    eapply free_bind; [exact Hc3|]. intros w4 Hc4. apply wpc_sets_bind, wpc_ret. split; [done|].
    replace (s1 <| _mqtt_conncection := None |>) with s by (unfold s1; destruct s; cbn in *; by subst).
    by apply Hback. }
  apply wpc_sets_bind, wpc_ret. split; [done|]. eexists _, q. split; [|by split].
  split; [done|apply lookup_insert_eq|done|by rewrite Hg|exact Hi|]. split; [done|]. rewrite Hg.
  eapply client_perm; [apply Permutation_swap|exact Hc2].
Qed.

(** The first descriptor, or a code. *)
Lemma get_fd_spec F s v w a c q :
  opened F s v w a c q -> fd_lock s <> Some true -> _cm_fd s = [None; None; None] ->
  wpc ok (_get_fd a) (fun r s' v' w' => v' = v /\ opened F s' v w' a c q /\
    ((r < 0 /\ s' = s) \/ (r = 0 /\ fd_lock s' = Some false /\ _cm_fd s' = [Some a; None; None]))) s v w.
Proof.
  intros Ho Hl Ht. unfold _get_fd.
  eapply (wpc_bind ok _ _ (fun (b : bool) s' v' w' => v' = v /\ opened F s' v w' a c q /\ _cm_fd s' = [None; None; None]
    /\ if b then fd_lock s' = Some false else s' = s)).
  { unfold create_fd_lock. apply wpc_gets_bind. destruct (fd_lock s) as [[]|] eqn:El; [done|by apply wpc_ret|].
    eapply opened_prog; [exact Ho|intros; by apply client_plat|]. intros [] w1 Ho1; [|by apply wpc_ret].
    apply wpc_sets_bind, wpc_ret. split; [done|]. by split; [destruct Ho1|]. }
  intros b s1 v1 w1 (-> & Ho1 & Ht1 & Hb). destruct b; cbn [negb].
  2:{ apply wpc_ret. split; [done|]. split; [done|]. left. split; [vm_compute; reflexivity|done]. }
  apply lock_fd_bind; [done|]. apply wpc_gets_bind.
  change (_cm_fd (s1 <| fd_lock := Some true |>)) with (_cm_fd s1). rewrite Ht1. cbn [free_slot].
  apply wpc_sets_bind, unlock_fd_bind; [done|]. apply wpc_ret. split; [done|]. split; [by destruct Ho1|]. right.
  split; [done|]. split; [done|]. cbn. by rewrite Ht1.
Qed.

Lemma cm_open_keeps params F s v w :
  cm_inv F s v w -> _mqtt_conncection s = None -> init_ok (cm_mqtt_param event_fp params) ->
  wpc ok (iotx_cm_open fuel event_fp params) (keeps F) s v w.
Proof.
  intros HI Hn Hi. unfold iotx_cm_open.
  eapply (wpc_bind ok _ _ (fun r s' v' w' => v' = v /\ opening F s r s' v w')).
  { destruct (ci_protocol_type params); [by apply open_mqtt_opening|by apply wpc_ret..]. }
  intros [a|] s1 v1 w1 [-> Ho]; [|by apply wpc_ret]. destruct Ho as (c & q & Ho & El & Et).
  eapply wpc_bind; [eapply get_fd_spec; [exact Ho|rewrite El; apply HI|exact Et]|]. cbn beta.
  intros r s2 v2 w2 (-> & Ho2 & [[Hr ->]|(-> & Hl2 & Ht2)]).
  - rewrite (proj2 (Z.ltb_lt r 0)) by done. eapply opened_conn; [exact Ho2|].
    eapply wpc_bind; [by eapply mqtt_close_open|]. cbn beta. intros x s3 v3 w3 (_ & Hf & Hg & Es). apply wpc_ret.
    assert (fd_lock s3 = fd_lock s1 /\ _cm_fd s3 = [None; None; None] /\ _mqtt_conncection s3 = None) as (E1 & E2 & E3)
      by (by rewrite Es). clear Es.
    split; rewrite ?E3; [rewrite E1, El; apply HI|done|done].
  - cbn [Z.ltb Z.compare]. eapply opened_set; [exact Ho2|]. apply wpc_ret.
    apply (opened_inv F _ _ _ a (c <| fd := 0 |>) q); [exact Hl2|exact Ht2| |reflexivity].
    apply (opened_put F s2 v w2 a c (c <| fd := 0 |>) q Ho2); [exact (op_params _ _ _ _ _ _ _ Ho2)
      |exact (op_context _ _ _ _ _ _ _ Ho2)|exact (op_init _ _ _ _ _ _ _ Ho2)].
Qed.
End Manager.

(** ** Events of the client *)

Section Events.
Context {E : Type} `{!Hal E} `{!App E} `{!CmApp E} (ok : stop -> Prop).
Context (ok_read : ok FaultRead) `{!AppSafe ok} `{!CmSafe ok}.

(** The handler of the connection is one that the client may call: it keeps the client,
    with the mutexes that are held, and the variables of the manager. *)
Lemma cloud_event_safe pctx m a c G H s v (w : world E) :
  inv G H w -> below LOCK_LIST_PUB H -> _mqtt_conncection s = Some a -> connections s !! a = Some c -> a ∈ G ->
  (forall info, msg m = MsgTopic info -> ti_ptopic info <> None) ->
  wpc ok (iotx_cloud_conn_mqtt_event_handle pctx m)
    (fun _ s' v' w' => s' = s /\ v' = v /\ inv G H w' /\ kept (w_client w) (w_client w')) s v w.
Proof.
  intros HI Hb Hn Ha HG Ht. unfold iotx_cloud_conn_mqtt_event_handle. apply wpc_gets_bind. rewrite Hn.
  assert (forall (k : iotx_cm_connection_t -> cm E unit) Q, wpc ok (k c) Q s v w -> wpc ok (connection_at a ≫= k) Q s v w)
    as Hat.
  { intros k Q Hk. unfold connection_at, touch. apply cm_assoc. eapply wpc_done_bind.
    - rewrite bool_decide_true; [done|]. rewrite (heap_blocks _ _ (inv_heap _ _ _ _ HI)). apply elem_of_app. by right.
    - apply cm_assoc, wpc_gets_bind. rewrite Ha. apply wpc_lift_bind; [done|]. by intros ? [= <-]. }
  assert (forall e x, wpc ok (call_event_handler c e x)
    (fun _ s' v' w' => s' = s /\ v' = v /\ inv G H w' /\ kept (w_client w) (w_client w')) s v w) as Hev.
  { intros e x. unfold call_event_handler. destruct (_ =? 0); [by apply wpc_ret|]. apply wpc_prog.
    eapply wp_mono; [by apply on_cm_event_inside|]. by intros _ w' [? ?]. }
  assert (forall code, wpc ok (on_prog (iotx_state_event code))
    (fun _ s' v' w' => s' = s /\ v' = v /\ inv G H w' /\ kept (w_client w) (w_client w')) s v w) as Hst.
  { intros code. apply wpc_prog. eapply wp_mono; [by apply state_event_safe|]. by intros _ w' [? ?]. }
  destruct m as [t arg]. cbn [event_type msg] in *.
  destruct t; cbn [cm_event_of]; try (by apply wpc_ret); try (by apply Hat, Hev); try (by apply Hst).
  destruct arg as [| | |info]; try (apply wpc_prog; exact ok_read). apply Hat.
  unfold receive_publish. destruct (pctx =? 0); [by apply Hst|]. pose proof (Ht info eq_refl) as Hp.
  eapply wpc_prog_bind; [by apply malloc_spec|]. cbn beta. intros [b|] w1 [HI1 E1].
  2:{ apply wpc_prog. eapply wp_mono; [by apply state_event_safe|]. intros _ w2 [HI2 K2]. rewrite E1 in K2. by split_and!. }
  destruct (ti_ptopic info) as [text|]; [|done]. apply wpc_lift_bind; [done|]. intros ? [= <-].
  apply wpc_lift_bind; [done|]. intros copy _.
  eapply wpc_prog_bind; [by apply on_cm_data_inside|]. cbn beta. intros _ w2 [HI2 K2]. rewrite E1 in K2.
  apply wpc_prog. eapply wp_mono; [by apply free_spec|]. cbn beta. intros _ w3 [HI3 E3]. rewrite E3. by split_and!.
Qed.
End Events.

(** ** The interface *)

Inductive cm_call :=
  | CmOpen (params : iotx_cm_init_param_t)
  | CmConnect (fd timeout : Z)
  | CmYield (fd timeout : Z)
  | CmSub (fd : Z) (ext : option iotx_cm_ext_params_t) (topic : option (list Z)) (topic_handle_func : Z)
  | CmUnsub (fd : Z) (topic : option (list Z))
  | CmPub (fd : Z) (ext : option iotx_cm_ext_params_t) (topic payload : option (list Z)) (payload_len : Z)
  | CmClose (fd : Z)
  | CmMonitor (monitor : bool)
  | ClientOpen
  | ClientConnect (timeout_ms : Z)
  | ClientYield (timeout : Z)
  | ClientSubscribe (uri : option (list Z)) (callback : Z) (context : option Z)
  | ClientUnsubscribe (uri : option (list Z))
  | ClientPublish (uri payload : option (list Z)) (payload_len : Z)
  | ClientClose.

(** A connection is opened when none is open; filters and messages are as [front_call_ok]
    asks. *)
Definition cm_call_ok (event_fp : Z) (s : cm_vars) (c : cm_call) : Prop :=
  match c with
  | CmOpen params => _mqtt_conncection s = None /\ init_ok (cm_mqtt_param event_fp params)
  | ClientOpen => _mqtt_conncection s = None
  | CmSub _ _ topic _ | CmUnsub _ topic | ClientSubscribe topic _ _ | ClientUnsubscribe topic => filter_arg topic
  | CmPub _ ext topic payload len => publish_arg topic (Some (simple_msg (ext_qos ext) payload (i32 len)))
  | ClientPublish topic payload len => publish_arg topic (Some (simple_msg 0 payload (i32 (u32 len))))
  | _ => True
  end.

Section CmReach.
Context {E : Type} `{!Hal E} `{!App E} `{!FrontApp E} `{!CmApp E}.
Variable crt : option (list Z).
Variable http_handler : option (Z -> list Z -> E -> E).
Variable event_fp dm_handler : Z.
Implicit Types (F : list nat) (s : cm_vars) (v : front_vars) (w : world E).

Definition cm_exec (fuel : nat) (c : cm_call) : cm E Z :=
  match c with
  | CmOpen params => iotx_cm_open fuel event_fp params
  | CmConnect fd t => iotx_cm_connect fuel crt http_handler fd t
  | CmYield fd t => iotx_cm_yield fuel fd t
  | CmSub fd ext topic fp => iotx_cm_sub fuel event_fp fd ext topic fp
  | CmUnsub fd topic => iotx_cm_unsub fuel fd topic
  | CmPub fd ext topic payload len => iotx_cm_pub fuel fd ext topic payload len
  | CmClose fd => iotx_cm_close fuel fd
  | CmMonitor b => iotx_event_regist_cb b
  | ClientOpen => dm_client_open fuel event_fp dm_handler
  | ClientConnect t => dm_client_connect fuel crt http_handler t
  | ClientYield t => dm_client_yield fuel t
  | ClientSubscribe uri cb ctx => dm_client_subscribe fuel event_fp uri cb ctx
  | ClientUnsubscribe uri => dm_client_unsubscribe fuel uri
  | ClientPublish uri payload len => dm_client_publish fuel uri payload len
  | ClientClose => dm_client_close fuel
  end.

(** The states between calls, from a start without a connection: a call, and a setting. *)
Inductive cm_reach F : cm_vars -> front_vars -> world E -> Prop :=
  | cm_start v w : g_mqtt_client v = None -> domains_ok v -> no_client F w -> cm_reach F cm_zero v w
  | cm_step s v w c fuel rc s' v' w' :
      cm_reach F s v w -> cm_call_ok event_fp s c -> cm_exec fuel c s v w = Done (rc, s', v') w' ->
      cm_reach F s' v' w'
  | cm_set s v w opt data rc ctx d :
      cm_reach F s v w -> data_cstr opt data -> IOT_Ioctl opt data (w_ctx w) = Some (rc, ctx, d) ->
      cm_reach F s v (w <| w_ctx := ctx |>).

Context `{!HalRead E} `{!AppSafe safe_stop} `{!AppInit safe_stop} `{!FrontSafe safe_stop} `{!CmSafe safe_stop}.

Lemma cm_inv_client_fd F s v w n : cm_inv F s v w -> cm_inv F (s <| dm_client_fd := n |>) v w.
Proof.
  intros [Hl Ht Ho]. split; [done|done|]. cbn. destruct (_mqtt_conncection s); [|done].
  destruct Ho as (? & c & q & [] & ?). split; [done|]. by exists c, q.
Qed.

Lemma cm_inv_monitor F s v w b : cm_inv F s v w -> cm_inv F (s <| g_event_monitor := b |>) v w.
Proof.
  intros [Hl Ht Ho]. split; [done|done|]. cbn. destruct (_mqtt_conncection s); [|done].
  destruct Ho as (? & c & q & [] & ?). split; [done|]. by exists c, q.
Qed.

Lemma cm_inv_event F s v w code :
  cm_inv F s v w -> wp safe_stop (iotx_state_event code) (fun _ w' => cm_inv F s v w') w.
Proof.
  intros [Hl Ht Ho]. destruct (_mqtt_conncection s) as [a|] eqn:Hn.
  - destruct Ho as (El & c & q & Ho & Hf).
    eapply wp_mono; [apply (state_event_any safe_stop code _ _ w (opened_at _ _ _ _ _ _ _ Ho))|]. cbn beta.
    intros _ w' Hc. split; [done|by rewrite Hn|]. rewrite Hn. split; [done|]. exists c, q.
    split; [by eapply opened_world|done].
  - destruct Ho as [[Hd Hc] Hg]. eapply wp_mono; [apply (state_event_any safe_stop code _ _ w Hc)|]. cbn beta.
    intros _ w' Hc'. split; [done|by rewrite Hn|]. by rewrite Hn.
Qed.

Lemma cm_exec_spec fuel c F s v w :
  cm_inv F s v w -> cm_call_ok event_fp s c -> wpc safe_stop (cm_exec fuel c) (keeps F) s v w.
Proof.
  intros HI Hc. assert (safe_stop NoFuel) as Hf by (by right). assert (safe_stop FaultRead) as Hr by (by left).
  destruct c; cbn [cm_exec cm_call_ok] in *.
  - destruct Hc. by apply cm_open_keeps.
  - by apply cm_connect_keeps.
  - by apply cm_yield_keeps.
  - by apply cm_sub_keeps.
  - by apply cm_unsub_keeps.
  - by apply cm_pub_keeps.
  - by apply cm_close_keeps.
  - apply wpc_sets_bind, wpc_ret. by apply cm_inv_monitor.
  - unfold dm_client_open. apply wpc_sets_bind.
    eapply wpc_bind; [apply cm_open_keeps; first [exact Hf|exact Hc|by apply cm_inv_client_fd|exact _|idtac]|].
    { split; cbn; try (by intros ? [=]); unfold CONFIG_MQTT_TX_MAXLEN, CONFIG_MQTT_RX_MAXLEN; lia. }
    intros x s1 v1 w1 HI1. destruct (x <? SUCCESS_RETURN); [by apply wpc_ret|].
    apply wpc_sets_bind, wpc_ret. by apply cm_inv_client_fd.
  - by apply wpc_gets_bind, cm_connect_keeps.
  - by apply wpc_gets_bind, cm_yield_keeps.
  - by apply wpc_gets_bind, cm_sub_keeps.
  - by apply wpc_gets_bind, cm_unsub_keeps.
  - apply wpc_gets_bind. eapply wpc_prog_bind; [by apply (cm_inv_event F s v w)|]. cbn beta. intros _ w1 HI1.
    by apply cm_pub_keeps.
  - by apply wpc_gets_bind, cm_close_keeps.
Qed.

Lemma cm_reach_inv F s v w : cm_reach F s v w -> cm_inv F s v w.
Proof.
  induction 1 as [v w Hg Hd Hn|s v w c fuel rc s' v' w' _ IH Hc Ex|s v w opt data rc ctx d _ IH Hs He].
  - split; [done|done|]. split; [|done]. split; [done|]. rewrite Hg. exists []. by eapply cinv_weaken.
  - pose proof (cm_exec_spec fuel c F s v w IH Hc) as Hw. exact (wp_done _ _ _ _ _ _ Hw Ex).
  - destruct IH as [Hl Ht Ho]. split; [done|done|]. destruct (_mqtt_conncection s) as [a|].
    + destruct Ho as (El & c & q & Ho & Hf). split; [done|]. exists c, q. split; [|done].
      eapply opened_world; [exact Ho|]. eapply client_settings; [by eapply opened_at|done|done].
    + destruct Ho as [[Hd Hc] Hg]. split; [|done]. split; [done|]. by eapply client_settings.
Qed.

(** C3. The connectivity manager over every sequence of its calls and of those of the
    device model's client that does not open a connection while one is open, by rule
    induction on the states reached, whatever the platform, the network and the callbacks
    do: between calls no mutex is held; without a connection the table of descriptors is
    empty, the client of the device is destroyed and no block of the manager or the client
    is left; with one, exactly the first descriptor leads to it, its block and its
    parameters are allocated, and its context is the client of the device.  And no further
    call follows a pointer to a block that is not allocated, frees a block twice, stops on
    a mutex, or on a NULL pointer. *)
Theorem cm_safe F s v w :
  cm_reach F s v w ->
  fd_lock s <> Some true /\ w_held w = [] /\ NoDup (w_blocks w)
  /\ match _mqtt_conncection s with
     | None => _cm_fd s = [None; None; None] /\ g_mqtt_client v = None
               /\ exists L, w_blocks w ≡ₚ owned (w_client w) ++ L ++ F
     | Some a => _cm_fd s = [Some a; None; None]
               /\ exists c q, connections s !! a = Some c /\ open_params c = Some q /\ fd c = 0
                  /\ context c = g_mqtt_client v /\ a ∈ w_blocks w /\ q ∈ w_blocks w
     end
  /\ (forall fuel c f, cm_call_ok event_fp s c -> cm_exec fuel c s v w = Fault f -> f = FaultRead).
Proof.
  intros Hr. pose proof (cm_reach_inv F s v w Hr) as HI. pose proof HI as [Hl Ht Ho].
  assert (forall o G, client_at G o w -> w_held w = [] /\ NoDup (w_blocks w)
    /\ (o = None -> exists L, w_blocks w ≡ₚ owned (w_client w) ++ L ++ G)) as Hfacts.
  { intros o G Hc. assert (exists C L, cinv C L [] w) as (C & L & [[Hb Hn Hx] _ _ Hh _]).
    { by destruct o; destruct Hc as [L Hc]; do 2 eexists. }
    split; [done|]. split; [done|]. intros ->. destruct Hc as [L' [[Hb' _ _] _ _ _ _]]. by exists L'. }
  assert (w_held w = [] /\ NoDup (w_blocks w)) as [Hh Hn].
  { destruct (_mqtt_conncection s) as [a|].
    - destruct Ho as (_ & c & q & Ho & _). by destruct (Hfacts _ _ (opened_at _ _ _ _ _ _ _ Ho)) as (? & ? & _).
    - destruct Ho as [[_ Hc] _]. by destruct (Hfacts _ _ Hc) as (? & ? & _). }
  split; [done|]. split; [done|]. split; [done|]. split.
  - destruct (_mqtt_conncection s) as [a|].
    + split; [done|]. destruct Ho as (_ & c & q & Ho & Hf). exists c, q. pose proof (opened_at _ _ _ _ _ _ _ Ho) as Hc.
      destruct Ho. split_and!; try done; (eapply client_block; [exact Hc|]); [left|right; left].
    + destruct Ho as [[_ Hc] Hg]. split; [done|]. split; [done|]. rewrite Hg in Hc. by apply (Hfacts _ _ Hc).
  - intros fuel c f Hc Ef. pose proof (cm_exec_spec fuel c F s v w HI Hc) as Hw.
    unfold wpc, wpa, wp in Hw. rewrite Ef in Hw. by destruct Hw as [[= ->]|].
Qed.
End CmReach.

(** ** A device of the simulated platform *)

#[local] Instance sim_front_app : FrontApp sim := {|
  HAL_GetFirmwareVersion s := (lit "app-1.0.0-20180101.1000", s);
  on_device_secret s := sim_note (LogIdentity s);
  on_connect_succ := sim_note (LogState 0)
|}.

#[local] Instance sim_front_safe ok : FrontSafe (E := sim) ok.
Proof. split; intros; (eapply wp_mono; [by apply plat_spec|]); by intros _ w' [HI' _]. Qed.

#[local] Instance sim_cm_app : CmApp sim := {|
  on_cm_event h fd e c := sim_note (LogState h);
  on_cm_data h fd topic payload len := sim_note (LogState len);
  on_monitor e := sim_note (LogState e)
|}.

#[local] Instance sim_cm_safe ok : CmSafe (E := sim) ok.
Proof.
  split; intros; cbn [on_cm_event on_cm_data on_monitor sim_cm_app].
  1,4: by apply client_plat.
  all: (eapply wp_mono; [by apply plat_spec|]); cbn beta; intros _ w' [HI' E']; split; [done|by apply kept_eq].
Qed.

Definition manager_start : world sim := World client_zero 0 device_ctx [] 0 [] [] (Sim 0 6 sim_input [] []).

(** The variables and the world after calls; 9 and 10 are the handlers of the events. *)
Fixpoint cm_after (calls : list cm_call) (x : cm_vars * front_vars * world sim) : option (cm_vars * front_vars * world sim) :=
  match calls with
  | [] => Some x
  | c :: calls =>
      match cm_exec None None 9 10 1000 c x.1.1 x.1.2 x.2 with
      | Done (_, s, v) w => cm_after calls (s, v, w)
      | _ => None
      end
  end.

Definition calls_connected := [ClientOpen; ClientConnect 1000].

Definition connected : cm_vars * front_vars * world sim :=
  default (cm_zero, front_zero, manager_start) (cm_after calls_connected (cm_zero, front_zero, manager_start)).

Lemma manager_no_client : no_client [] manager_start.
Proof.
  split; [|done|constructor|done|exact device_settings]. split; cbn; [done|constructor|constructor].
Qed.

Lemma opened_reach : exists s v w rc,
  cm_reach None None 9 10 [] s v w /\ _mqtt_conncection s <> None
  /\ cm_exec None None 9 10 1000 (ClientConnect 1000) s v w = Done (rc, connected.1.1, connected.1.2) connected.2.
Proof.
  do 4 eexists. split; [|split].
  - eapply (cm_step _ _ _ _ _ cm_zero front_zero manager_start ClientOpen 1000).
    + apply cm_start; [done|done|exact manager_no_client].
    + done.
    + vm_compute. reflexivity.
  - done.
  - vm_compute. reflexivity.
Qed.

Lemma connected_reach : cm_reach None None 9 10 [] connected.1.1 connected.1.2 connected.2.
Proof.
  destruct opened_reach as (s & v & w & rc & Hr & _ & Ex).
  exact (cm_step _ _ _ _ _ s v w (ClientConnect 1000) 1000 rc _ _ _ Hr I Ex).
Qed.

Lemma cm_safe_witness :
  _mqtt_conncection connected.1.1 = Some 0%nat /\ _cm_fd connected.1.1 = [Some 0%nat; None; None]
  /\ client_state (w_client connected.2) = IOTX_MC_STATE_CONNECTED /\ inited_conn_num connected.1.1 = 1
  /\ w_held connected.2 = [].
Proof.
  destruct (cm_safe None None 9 10 [] _ _ _ connected_reach) as (_ & Hh & _).
  split; [vm_compute; reflexivity|]. split; [vm_compute; reflexivity|].
  split; [vm_compute; reflexivity|]. split; [vm_compute; reflexivity|]. exact Hh.
Defined.

(** A connection is opened, connected and closed: nothing is left. *)
Example manager_closed :
  match cm_after (calls_connected ++ [ClientYield 10; ClientClose]) (cm_zero, front_zero, manager_start) with
  | Some (s, v, w) => fd_lock s = None /\ _cm_fd s = [None; None; None] /\ w_blocks w = [] /\ g_mqtt_client v = None
  | None => False
  end.
Proof. vm_compute. by split_and!. Qed.

(** Opened and connected twice, the one connection has two descriptors; closed by the first,
    it is freed, and a call with the second uses it. *)
Example manager_opened_twice :
  match cm_after (calls_connected ++ [ClientOpen; ClientConnect 1000]) (cm_zero, front_zero, manager_start) with
  | Some (s, v, w) =>
      _cm_fd s = [Some 0%nat; Some 0%nat; None]
      /\ match cm_exec None None 9 10 1000 (CmClose 0) s v w with
         | Done (rc, s, v) w =>
             rc = 0 /\ _cm_fd s = [None; Some 0%nat; None]
             /\ cm_exec None None 9 10 1000 (CmYield 1 10) s v w = Fault FaultHeap
         | _ => False
         end
  | None => False
  end.
Proof. vm_compute. by split_and!. Qed.

(** Connected twice, the connection counts as two, and its end does not destroy the mutex. *)
Example manager_connected_twice :
  match cm_after (calls_connected ++ [ClientConnect 1000; ClientClose]) (cm_zero, front_zero, manager_start) with
  | Some (s, v, w) => inited_conn_num s = 1 /\ fd_lock s = Some false /\ w_blocks w = []
  | None => False
  end.
Proof. vm_compute. by split_and!. Qed.
